(* ===== verification/_CoqProject ===== *)
-Q . S2P
Prelude.v
Float64.v
Metric.v
Alert.v
AlertRules.v
AlertMachine.v
AlertRecovery.v
Dispatcher.v
RcaGraph.v
RcaOntology.v
RcaEngine.v
RcaTheorems.v
RcaTrigger.v
Statements.v
Storage.v
Ml.v
MlDetector.v
MlRestart.v
RcaAnomaly.v
GoText.v
Json.v
Forecast.v
ForecastTheorems.v
Auth.v
Http.v
AuthApi.v
AuthTheorems.v
Playbook.v
PlaybookSeed.v
PlaybookStore.v
PlaybookApi.v
PlaybookSafety.v
PlaybookTheorems.v
PlaybookRuns.v
Remediation.v
RemediationEngine.v
RemediationTable.v
RemediationTheorems.v
SqlConn.v
Collector.v
LockTree.v
ApiLocks.v
CollectorsHigh.v
CollectorsMedium.v
OsCollectors.v
CollectorsLow.v
DatabaseCollector.v
Config.v
Group.v
Instances.v
DbRunner.v
DbRunnerTheorems.v
Orchestrator.v
OrchestratorTheorems.v
Pipeline.v
SystemAlerts.v
StatementStore.v
StatementApi.v
StatementTheorems.v
Settings.v
SettingsTheorems.v
Plans.v
PlanApi.v
Routes.v
RoutesTheorems.v
Email.v
AlertApi.v
AlertApiTheorems.v
InstancesApi.v
InstancesTheorems.v
ForecastStore.v
ForecastStoreTheorems.v
RcaStore.v
MetricsApi.v
Cluster.v
MetricsApiTheorems.v
LiveApi.v
Startup.v
Conformance.v
Desktop.v
