(* ===== verification/Prelude.v ===== *)
(** * PGPulse: a verification of its monitoring core

    PGPulse watches PostgreSQL instances. Collectors turn query results into metric points; the
    points go to a metric store and to the alert evaluator; alert events go to a dispatcher that
    notifies people and may start a root cause analysis; the analysis reads the store, an
    anomaly detector, statement snapshots and settings, and walks a causal graph backwards from
    the trigger. Remediation rules turn metrics and alerts into recommendations, playbooks lead an
    operator through the steps of a repair, and the HTTP interface serves all of it to users with
    roles. This development is a shallow embedding of that core in executable
    definitions, with the theorems that make the parts correct and those that show where the
    code does something else than its comments say.

    ** Parts

    Foundations.
    - [Prelude] (this file): 64-bit integers, time, the result type, the contracts of
      sort.Slice and of map iteration, strings, tactics and list lemmas.
    - [Float64]: Go's float64 as the standard library's SpecFloat at precision 53, with its order
      lemmas. The compiler is taken not to fuse multiplications and additions (amd64).
    - [GoText]: the parts of Go's strings and strconv that the program uses. [Json]: encoding/json
      on the trees and types the program reads and writes.
    - [SqlConn]: what a connection answers and the two ways the code reads rows (class [Driver]).

    Metrics and their collection.
    - [Metric]: internal/collector/collector.go and base.go: points, queries, the metric store
      interface (class [MetricStore]). [Storage]: internal/storage/memory.go and pgstore.go.
    - [Collector], [CollectorsHigh], [CollectorsMedium], [CollectorsLow], [OsCollectors],
      [LockTree], [DatabaseCollector]: internal/collector with the version gate
      of internal/version and the kernel readings of internal/agent: every collector, its
      statements, its points and its errors; the metric names each can produce.
    - [Cluster]: internal/cluster and the HTTP interface of internal/agent with its client.
    - [Config], [Instances]: internal/config; the table of instances (class [InstanceStore]).
    - [Group], [DbRunner], [DbRunnerTheorems], [Orchestrator], [OrchestratorTheorems],
      [Pipeline], [SystemAlerts]: internal/orchestrator: a cycle of a group, the collection per
      database act by act with its pools and its semaphore, runners with hot reload and stop, and the
      whole composed with collectors, store, evaluator and alert rules.

    Alerts.
    - [Alert], [AlertMachine], [AlertRules], [AlertRecovery]: internal/alert without the
      dispatcher: the evaluator over an abstract history store (class [AlertHistoryStore]), its
      machine against runs of consecutive breaches, the builtin rules with their seeding and the
      rule table; the history table with statements that fail or lose their answers, and processes
      through restarts, call by call.
    - [Dispatcher]: internal/alert/dispatcher.go: queue, worker, cooldown, channels, retries.
      [Email]: internal/alert/template.go and notifier/email.go.
    - [AlertApi], [AlertApiTheorems]: internal/api/alerts.go over the tables.

    Analysis.
    - [RcaGraph], [RcaOntology], [RcaEngine], [RcaTheorems], [RcaTrigger]: internal/rca: graph,
      default knowledge base, [Analyze] from request to incident over an abstract anomaly source,
      incident store and remediation engine, its theorems, the automatic trigger.
    - [RcaAnomaly]: the sources that implement the engine's interface (class [AnomalySource]).
      [RcaStore]: the table of incidents and internal/api/rca.go.
    - [Statements], [StatementStore], [StatementApi], [StatementTheorems]: internal/statements and
      its handlers: diff, insight, report; the tables, the capture; the requests.
    - [Settings], [SettingsTheorems], [Plans], [PlanApi]: settings snapshots, captured plans, and
      the handlers of both, of EXPLAIN and of session actions.
    - [Ml], [MlDetector], [MlRestart]: internal/ml: seasonal baseline, regression, moving average;
      the detector; its persistence, bootstrap and restart.
    - [Forecast], [ForecastTheorems], [ForecastStore], [ForecastStoreTheorems]:
      internal/forecast: tracker, ETA, need forecasts; tables, thresholds, engine; the handlers.

    Action.
    - [Remediation], [RemediationEngine], [RemediationTable], [RemediationTheorems]:
      internal/remediation: every rule, the recommendation table, the engine with its background
      worker and metric source, the table's invariant, what rules and worker do.
    - [Playbook], [PlaybookSeed], [PlaybookStore], [PlaybookApi], [PlaybookSafety],
      [PlaybookTheorems], [PlaybookRuns]: internal/playbook and internal/api/playbooks.go: executor,
      the ten builtin playbooks, tables, handlers as programs of store calls, their interleavings,
      what they guarantee, runs of the builtin playbooks.

    The server.
    - [Auth], [Http], [AuthApi], [AuthTheorems]: internal/auth and internal/api/auth.go: users,
      tokens, permissions, the login limiter; requests, responses and middleware; the handlers.
    - [Routes], [RoutesTheorems]: the route table of internal/api/server.go with its guards.
    - [ApiLocks], [InstancesApi], [InstancesTheorems], [MetricsApi], [MetricsApiTheorems],
      [LiveApi]: the remaining handlers of internal/api: lock tree, instances, metrics, databases,
      operating system, health; and those that ask the instance itself.
    - [Startup]: internal/storage/migrate.go and cmd/pgpulse-server/main.go: migrations, flags and
      configuration, what is built, started and stopped, and in which order.

    Beside the server.
    - [Conformance]: scripts/conformance: the run of every collector against a set of servers, the
      verdicts, the reports and the exit status.
    - [Desktop]: internal/desktop and cmd/pgpulse-server/desktop.go: toasts for alerts, tray, settings, the
      connection dialog, which [Startup.resolveConfig] takes as an argument.

    ** How state and operations correspond

    A Go struct is a record with the same field names behind a short prefix; a method that
    changes its receiver is a function from the old record to the new one; an error is [Err]
    of [result] or an [option error] beside the new state; a panic is [None] of an option.
    What is done under one lock is one atomic step. Where no lock spans an operation and the rest of
    the program can come in between, the operation is a machine of its own: a run over the databases
    ([DbRunner]), an evaluation and its calls to the history ([AlertRecovery]), a rule request
    ([AlertApi]), the requests of a playbook ([PlaybookSafety]). A
    [range] over a map visits entries in an order given by [MapRange], of which only the
    contents are known, and sort.Slice is [SliceSort], of which only the contract is known:
    theorems hold for every choice, and witnesses use the canonical ones. SQL statements are
    read as operations on tables keyed by their primary keys. Clocks are arguments. An HTTP
    handler of the playbook interface is a tree of store calls with continuations, so that several
    requests interleave between calls and never inside one; the remediation worker's cycle takes,
    for each instance it visits, what each of its store calls met. What a store or a server
    refuses is a field of its state or an argument, so every error path can be taken. The
    orchestrator is a machine of events (a reload, a cycle of a group, an act of a run over the
    databases) and the theorems of [Pipeline] hold after any list of them; a cycle of a group is one
    event.

    ** What the theorems show

    - Alerts: the evaluator's machine fires exactly after the configured number of consecutive
      breaches and resolves at the first clear value; a restart recovers the firing alerts of
      unlabelled rules, up to the calls to the history that failed, which are counted; seeding keeps
      what users changed; a rule request by itself changes the table and the evaluator together or not
      at all, and overlapping ones keep the tables sound, though not always the evaluator up to date;
      in the whole system, what is sent for a rule and an instance is what the rule's machine makes of
      the points of that instance, less the events whose call failed.
    - Dispatcher: first in first out with a bounded buffer, notifications of one alert separated by
      the cooldown, bounded and spaced retries; a mail follows its script up to the first refusal, and no
      value of an event changes the structure of its page.
    - Collection: every point in the table has the name of a collector; an evaluated batch was
      stored; each pool that is opened is closed once, but for those that a run opens after its runner
      was closed; a reload reconciles runners with the table; the goroutines of a run never hold more
      than the slots of the semaphore, the run ends, and it leaves the same state in any order; the
      lock statistics are the ones of the graph.
    - Cluster and agent: what the agent writes is what the page shows; states that fail to decode.
    - Analysis: a chain is reported if and only if all its required evidence was found in the search
      windows of its edges and its score reaches the minimum; chains are ranked; triggers are limited; an incident is read back as it was answered.
    - Stores: the memory store answers like a list of points; snapshots, playbooks and incidents
      make round trips; histories are exact up to their limit; migrations are applied in order and
      none twice.
    - Statements, settings, plans: diffs split and add up; a settings diff is the patch between two
      snapshots; plans are kept once per window.
    - Detection: the residual ring is a queue of bounded length; a restart through the snapshot
      table preserves every later verdict on the keys that had a baseline.
    - Maintenance: the tracker records every operation it started exactly once; the computed needs
      are the ones served, in order.
    - Users: every route is guarded as its group says; the limiter is equivalent to counting the
      failures of the window; roles without user administration never gain it; no parameter of a
      live view becomes part of a statement; which parts of a DSN are masked when it is shown, and
      which are not.
    - Playbooks and remediation: whatever requests interleave, a step is sent by one of them only;
      every path through a builtin playbook ends; a background cycle leaves active exactly the
      recommendations of the rules that hold.
    - Programs: who is started and stopped before whom; what the quick start runs into. The conformance
      tool lists every failure once, and its strict mode exits with 0 only when every collector is ok.
    - Divergences: theorems about rules that never match, pages that stay empty, runs that never
      complete and the like state what the code does.

    ** Bounds and fuel

    Some recursions carry fuel or a bound. [searchLoop] has one unit per element and each step of
    the bisection shrinks its interval. [bfsLoop] and [treeLoop] have one unit per entry that can
    be queued; [LockTree] and [ApiLocks] prove that the queue is empty before the fuel is.
    [walkBackward] and [reachableWalk] use the code's own depth argument, [retryLoop] its number of
    attempts. The functions on texts ([trim_left_fuel], [fields_fuel], [expand_fuel], [chunks], the patterns of
    [DbRunner]) have the length of their input, of which each step takes at least one character;
    [hex_nat] has the sixteen digits of a word. [importLoop] reads a body that need not
    end: its theorems give the fuel that is enough, and the case where none is. [formatNumberCommas]
    calls itself at most once except at one number, where it never ends. [Conformance.connect] has an attempt for
    every second of the wait and two more, and [connect_returns] shows that this is enough. Reading JSON is
    structural.

    ** Not modelled

    The windows and menus of the desktop shell, the web interface, the icon script, and the page of the
    workload report, whose data is. Connections and the HTTP transport are what they answer;
    contexts and deadlines are answers too. net/url, chi's matching of paths, encoding/csv,
    koanf, pgx, gonum's statistics, math.Exp, math.Pow, time layouts, the text of a
    float, the signing of tokens, bcrypt and PostgreSQL's aggregates and collations are parameters.
    SQL text that is sent to a monitored instance is kept; what the instance makes of it is not.
    Documents stored as JSON are taken to be lossless on finite numbers where [Json] is not used.
    Logging is left out. *)
From Stdlib Require Export ZArith Lia.
From stdpp Require Export base gmap strings sorting numbers list_relations list.

Local Open Scope Z_scope.

(** ** Machine integers: Go [int] and [int64] are 64-bit two's complement *)

Definition min_i64 : Z := - 2 ^ 63.
Definition max_i64 : Z := 2 ^ 63 - 1.

(** The range of an INTEGER column. *)
Definition in_int4 (z : Z) : bool := (- 2 ^ 31 <=? z) && (z <=? 2 ^ 31 - 1).

(** Wrap-around of an integer result to 64 bits. *)
Definition i64 (z : Z) : Z := (z + 2 ^ 63) mod 2 ^ 64 - 2 ^ 63.

Definition in_i64 (z : Z) : Prop := min_i64 <= z <= max_i64.

(** ** Time: [time.Time] as nanoseconds since the Unix epoch, [time.Duration] as int64 ns *)

Abbreviation Time := Z (only parsing).
Abbreviation Duration := Z (only parsing).

(** The zero [time.Time], January 1 of year 1 UTC. *)
Definition zero_time : Time := -62135596800 * 10 ^ 9.

Definition time_IsZero (t : Time) : bool := t =? zero_time.
Definition time_Before (t u : Time) : bool := t <? u.
Definition time_After (t u : Time) : bool := u <? t.
Definition time_Equal (t u : Time) : bool := t =? u.
Definition time_Add (t : Time) (d : Duration) : Time := t + d.

(** [Time.Sub] saturates at the extreme durations. *)
Definition time_Sub (t u : Time) : Duration := Z.max min_i64 (Z.min max_i64 (t - u)).

Definition Nanosecond : Duration := 1.
Definition Millisecond : Duration := 10 ^ 6.
Definition Second : Duration := 10 ^ 9.
Definition Minute : Duration := 60 * Second.
Definition Hour : Duration := 60 * Minute.

(** Duration multiplication [time.Duration(n) * d], which wraps. *)
Definition dur_mul (n : Z) (d : Duration) : Duration := i64 (n * d).

(** ** Fallible code *)

Definition error := string.

Inductive result (A : Type) : Type :=
  | Ok (a : A)
  | Err (e : error).
Arguments Ok {A} _.
Arguments Err {A} _.

(** What becomes of a statement: it takes effect and says so, it is refused, or it takes effect and its
    answer is lost, so that the caller sees an error. *)
Inductive outcome := Ran | Refused | Lost.

Definition took_effect (o : outcome) : bool := match o with Refused => false | _ => true end.
Definition answered (o : outcome) : bool := match o with Ran => true | _ => false end.

#[global] Instance result_ret : MRet result := fun A a => Ok a.
#[global] Instance result_bind : MBind result :=
  fun A B f r => match r with Ok a => f a | Err e => Err e end.
#[global] Instance result_fmap : FMap result :=
  fun A B f r => match r with Ok a => Ok (f a) | Err e => Err e end.

(** ** The standard library's sort.Slice, by its contract *)

(** A comparison that is a strict weak order on the elements of [l]. *)
Record weak_on {A} (less : A -> A -> bool) (l : list A) : Prop := {
  wo_asym : forall x y, x ∈ l -> y ∈ l -> less x y = true -> less y x = false;
  wo_ntrans : forall x y z, x ∈ l -> y ∈ l -> z ∈ l ->
    less x y = false -> less y z = false -> less x z = false
}.

(** What [sort.Slice] promises a caller: the result is a permutation, in order when the
    comparison is a strict weak order. It promises no stability. *)
Class SliceSort := {
  sort_slice : forall {A : Type}, (A -> A -> bool) -> list A -> list A;
  sort_slice_perm : forall (A : Type) (less : A -> A -> bool) (l : list A),
    sort_slice less l ≡ₚ l;
  sort_slice_sorted : forall (A : Type) (less : A -> A -> bool) (l : list A),
    weak_on less l -> StronglySorted (fun x y => less y x = false) (sort_slice less l)
}.

(** The insertion sort that the standard library runs on slices of at most twelve elements:
    each element moves left while it is less than its left neighbour. The sorted part is
    kept reversed. *)
Fixpoint ins_rev {A} (less : A -> A -> bool) (x : A) (r : list A) : list A :=
  match r with
  | [] => [x]
  | y :: r' => if less x y then y :: ins_rev less x r' else x :: y :: r'
  end.

Definition insertion_sort {A} (less : A -> A -> bool) (l : list A) : list A :=
  reverse (foldl (fun r x => ins_rev less x r) [] l).

(** ** Map iteration: a [range] over a Go map visits the entries in an unspecified order *)

Class MapRange := {
  map_range : forall {K : Type} `{Countable K} {V : Type}, gmap K V -> list (K * V);
  map_range_perm : forall (K : Type) `{Countable K} (V : Type) (m : gmap K V),
    map_range m ≡ₚ map_to_list m
}.

(** ** Lists *)

(** The items of [l] whose key was not met before, in order: the "seen" set idiom. *)
Fixpoint dedup_from {A K} `{EqDecision K} (key : A -> K) (seen : list K) (l : list A) : list A :=
  match l with
  | [] => []
  | x :: l' =>
      if decide (key x ∈ seen) then dedup_from key seen l'
      else x :: dedup_from key (key x :: seen) l'
  end.

Definition dedup_key {A K} `{EqDecision K} (key : A -> K) (l : list A) : list A :=
  dedup_from key [] l.

(** Go's [s[n:]] and [s[:n]] on a slice, for [0 <= n <= len(s)]. *)
Definition slice_from {A} (n : Z) (l : list A) : list A := drop (Z.to_nat n) l.
Definition slice_to {A} (n : Z) (l : list A) : list A := take (Z.to_nat n) l.

Definition len {A} (l : list A) : Z := Z.of_nat (length l).

(** SQL's [LIMIT l OFFSET o]: a negative offset is an error of the server. *)
Definition sql_page {A} (limit offset : Z) (l : list A) : result (list A) :=
  if offset <? 0 then Err "OFFSET must not be negative"
  else Ok (take (Z.to_nat limit) (drop (Z.to_nat offset) l)).

(** ** Strings *)

Definition string_ltb (a b : string) : bool :=
  match String.compare a b with Lt => true | _ => false end.

(** The bytes ':', ';', ' ', '0' and NUL. *)
Definition colon : Ascii.ascii := Eval compute in Ascii.ascii_of_N 58.
Definition semicolon : Ascii.ascii := Eval compute in Ascii.ascii_of_N 59.
Definition space_char : Ascii.ascii := Eval compute in Ascii.ascii_of_N 32.
Definition zero_char : Ascii.ascii := Eval compute in Ascii.ascii_of_N 48.
Definition nul : Ascii.ascii := Eval compute in Ascii.ascii_of_N 0.

(** The text before and after the first byte [c]. *)
Fixpoint cut (c : Ascii.ascii) (s : string) : option (string * string) :=
  match s with
  | EmptyString => None
  | String d s' =>
      if Ascii.eqb d c then Some (EmptyString, s')
      else match cut c s' with
           | Some (a, b) => Some (String d a, b)
           | None => None
           end
  end.

(** [strings.SplitN(s, c, n)] for a one-byte separator. *)
Fixpoint SplitN (c : Ascii.ascii) (n : nat) (s : string) : list string :=
  match n with
  | O => []
  | S O => [s]
  | S n' => match cut c s with
            | Some (a, b) => a :: SplitN c n' b
            | None => [s]
            end
  end.

(** The byte [c] does not occur in [s]. *)
Fixpoint char_free (c : Ascii.ascii) (s : string) : bool :=
  match s with
  | EmptyString => true
  | String d s' => negb (Ascii.eqb d c) && char_free c s'
  end.

Definition has_prefix (s p : string) : bool := String.prefix p s.

(** ** Tactics and hint databases *)

Create HintDb pgpulse discriminated.
Create Rewrite HintDb pgsimp.

Ltac destr_ifs :=
  repeat match goal with
  | |- context [if ?b then _ else _] => destruct b eqn:?
  | H : context [if ?b then _ else _] |- _ => destruct b eqn:?
  end.

Ltac zb :=
  repeat match goal with
  | H : (_ <? _) = true |- _ => apply Z.ltb_lt in H
  | H : (_ <? _) = false |- _ => apply Z.ltb_ge in H
  | H : (_ <=? _) = true |- _ => apply Z.leb_le in H
  | H : (_ <=? _) = false |- _ => apply Z.leb_gt in H
  | H : (_ =? _) = true |- _ => apply Z.eqb_eq in H
  | H : (_ =? _) = false |- _ => apply Z.eqb_neq in H
  end.

(** ** Lemmas on machine integers *)

Lemma i64_id (z : Z) : in_i64 z -> i64 z = z.
Proof. unfold in_i64, min_i64, max_i64, i64. intros H. rewrite Z.mod_small; lia. Qed.

Lemma i64_in (z : Z) : in_i64 (i64 z).
Proof.
  unfold in_i64, min_i64, max_i64, i64.
  pose proof (Z.mod_pos_bound (z + 2 ^ 63) (2 ^ 64)). lia.
Qed.

Lemma time_Sub_exact (t u : Time) : in_i64 (t - u) -> time_Sub t u = t - u.
Proof. unfold in_i64, time_Sub. lia. Qed.

Lemma time_Sub_lt (t u : Time) (d : Duration) :
  min_i64 < d <= max_i64 -> time_Sub t u < d <-> t - u < d.
Proof. unfold time_Sub, min_i64, max_i64. lia. Qed.

#[export] Hint Resolve i64_in : pgpulse.

(** ** Lemmas on lists *)

Lemma filter_none {A} (f : A -> bool) (l : list A) :
  (forall x, x ∈ l -> f x = false) -> List.filter f l = [].
Proof.
  induction l as [|x l IH]; intros H; simpl; [done|].
  rewrite (H x) by (by left). apply IH. intros y Hy. apply H. by right.
Qed.

Lemma filter_all {A} (f : A -> bool) (l : list A) :
  (forall x, x ∈ l -> f x = true) -> List.filter f l = l.
Proof.
  induction l as [|x l IH]; intros H; [done|]. cbn. rewrite (H x) by by left.
  f_equal. apply IH. intros y Hy. apply H. by right.
Qed.

(** Membership as a boolean. *)
Definition mem (x : string) (l : list string) : bool := existsb (String.eqb x) l.

Lemma mem_spec x l : mem x l = true <-> x ∈ l.
Proof.
  unfold mem. rewrite existsb_exists. split.
  - intros (y & Hy & He). apply String.eqb_eq in He as ->. by apply list_elem_of_In.
  - intros H. exists x. split; [by apply list_elem_of_In|apply String.eqb_refl].
Qed.

Lemma foldl_inv {A B} (Q : A -> Prop) (f : A -> B -> A) (l : list B) : forall a,
  (forall a x, x ∈ l -> Q a -> Q (f a x)) -> Q a -> Q (foldl f a l).
Proof.
  induction l as [|x l IH]; intros a Hf Ha; [done|]. apply IH; [|apply Hf; [by left|done]].
  intros a' y Hy. apply Hf. by right.
Qed.

(** A loop over a map whose steps each touch only their own key. *)
Lemma foldl_own_key {A K V X} (view : A -> K -> X) (step : A -> K * V -> A) (f : K -> V -> X -> X)
    `{EqDecision K} (l : list (K * V)) :
  (forall a k v k', view (step a (k, v)) k' = if decide (k' = k) then f k v (view a k) else view a k') ->
  NoDup (map fst l) -> forall a,
  (forall k v, (k, v) ∈ l -> view (foldl step a l) k = f k v (view a k)) /\
  (forall k, k ∉ map fst l -> view (foldl step a l) k = view a k).
Proof.
  intros Hstep. induction l as [|[k0 v0] l IH]; intros Hnd a; cbn [foldl map fst].
  { split; [|done]. intros k v H. by apply not_elem_of_nil in H. }
  apply NoDup_cons in Hnd as [Hk0 Hnd]. destruct (IH Hnd (step a (k0, v0))) as [Hin Hout].
  split.
  - intros k v [[= -> ->]|H]%elem_of_cons.
    + rewrite Hout, Hstep by done. by rewrite decide_True.
    + rewrite (Hin k v H), Hstep, decide_False; [done|]. intros ->. apply Hk0.
      apply list_elem_of_fmap. by exists (k0, v).
  - intros k [Hne H]%not_elem_of_cons. by rewrite Hout, Hstep, decide_False.
Qed.

Lemma foldl_map_range {MR : MapRange} {A K V X} `{Countable K} (view : A -> K -> X)
    (step : A -> K * V -> A) (f : K -> V -> X -> X) (m : gmap K V) (a : A) (k : K) :
  (forall a k v k', view (step a (k, v)) k' = if decide (k' = k) then f k v (view a k) else view a k') ->
  view (foldl step a (map_range m)) k
    = match m !! k with Some v => f k v (view a k) | None => view a k end.
Proof.
  intros Hstep. destruct (foldl_own_key view step f (map_range m) Hstep) with (a := a)
    as [Hin Hout].
  { rewrite map_range_perm. apply NoDup_fst_map_to_list. }
  destruct (m !! k) as [v|] eqn:E.
  - apply Hin. by rewrite map_range_perm, elem_of_map_to_list.
  - apply Hout. rewrite map_range_perm. by apply not_elem_of_list_to_map_2; rewrite list_to_map_to_list.
Qed.

(** A loop over entries of a map, each step leaving the other entries alone: every step finds its
    entry still there. *)
Lemma foldl_entries {A V} (view : A -> gmap string V) (Q : A -> Prop) (step : A -> string * V -> A)
    (l : list (string * V)) :
  (forall a k v, view a !! k = Some v -> Q a -> Q (step a (k, v))) ->
  (forall a k v k', k' <> k -> view (step a (k, v)) !! k' = view a !! k') ->
  NoDup (map fst l) -> forall a, (forall k v, (k, v) ∈ l -> view a !! k = Some v) ->
  Q a -> Q (foldl step a l).
Proof.
  intros Hstep Hother. induction l as [|[k v] l IH]; intros Hnd a Hin Ha; [done|].
  apply NoDup_cons in Hnd as [Hk Hnd]. cbn [foldl]. apply IH; [done| |].
  - intros k' w Hw. rewrite Hother; [apply Hin; by right|]. intros ->. apply Hk.
    apply list_elem_of_fmap. by exists (k, w).
  - apply Hstep; [apply Hin; by left|done].
Qed.

Lemma foldl_own_entries {MR : MapRange} {A V} (view : A -> gmap string V) (Q : A -> Prop)
    (step : A -> string * V -> A) (a : A) :
  (forall a k v, view a !! k = Some v -> Q a -> Q (step a (k, v))) ->
  (forall a k v k', k' <> k -> view (step a (k, v)) !! k' = view a !! k') ->
  Q a -> Q (foldl step a (map_range (view a))).
Proof.
  intros H1 H2 Ha. apply (foldl_entries view); try done.
  - rewrite map_range_perm. apply NoDup_fst_map_to_list.
  - intros k v. by rewrite map_range_perm, elem_of_map_to_list.
Qed.

Lemma filter_perm {A} (f : A -> bool) (l l' : list A) : l ≡ₚ l' -> List.filter f l ≡ₚ List.filter f l'.
Proof.
  induction 1 as [|x l l' H IH|x y l|l l' l'' H1 IH1 H2 IH2]; simpl; [done|..].
  - destruct (f x); [by constructor|done].
  - destruct (f x), (f y); try done. apply perm_swap.
  - by etrans.
Qed.

Lemma elem_of_filter_bool {A} (f : A -> bool) (l : list A) (x : A) :
  x ∈ List.filter f l <-> f x = true /\ x ∈ l.
Proof. rewrite !list_elem_of_In, filter_In. tauto. Qed.

Section dedup.
Context {A K : Type} `{EqDecision K} (key : A -> K).

Lemma dedup_from_elem (l : list A) (seen : list K) (x : A) :
  x ∈ dedup_from key seen l -> x ∈ l /\ key x ∉ seen.
Proof.
  revert seen. induction l as [|y l IH]; intros seen; simpl; [set_solver|].
  case_decide as Hy.
  - intros Hx. apply IH in Hx as [Hx Hk]. split; [by right|done].
  - rewrite elem_of_cons. intros [->|Hx]; [split; [by left|done]|].
    apply IH in Hx as [Hx Hk]. split; [by right|]. intros Hs. apply Hk. by right.
Qed.

Lemma dedup_from_complete (l : list A) (seen : list K) (x : A) :
  x ∈ l -> key x ∈ seen \/ exists y, y ∈ dedup_from key seen l /\ key y = key x.
Proof.
  revert seen. induction l as [|y l IH]; intros seen; simpl; [set_solver|].
  rewrite elem_of_cons. case_decide as Hy; intros [->|Hx].
  - by left.
  - by apply IH.
  - right. exists y. split; [by left|done].
  - destruct (IH (key y :: seen) Hx) as [Hs|(z & Hz & Hk)].
    + apply elem_of_cons in Hs as [Hs|Hs]; [|by left]. right. exists y. split; [by left|done].
    + right. exists z. split; [by right|done].
Qed.

Lemma dedup_from_NoDup (l : list A) (seen : list K) : NoDup (map key (dedup_from key seen l)).
Proof.
  revert seen. induction l as [|y l IH]; intros seen; simpl; [constructor|].
  case_decide; [apply IH|]. simpl. constructor; [|apply IH].
  intros Hin. apply list_elem_of_fmap in Hin as (z & Hz & Hin).
  apply dedup_from_elem in Hin as [_ Hk]. apply Hk. rewrite Hz. by left.
Qed.

Lemma dedup_key_elem (l : list A) (x : A) : x ∈ dedup_key key l -> x ∈ l.
Proof. intros H. apply (dedup_from_elem l [] x H). Qed.

Lemma dedup_key_complete (l : list A) (x : A) :
  x ∈ l -> exists y, y ∈ dedup_key key l /\ key y = key x.
Proof.
  intros H. destruct (dedup_from_complete l [] x H) as [Hs|]; [|done].
  set_solver.
Qed.

Lemma dedup_key_NoDup (l : list A) : NoDup (map key (dedup_key key l)).
Proof. apply dedup_from_NoDup. Qed.

End dedup.

(** A sorted list has its head first. *)
Lemma StronglySorted_head {A} (R : A -> A -> Prop) (x y : A) (l : list A) :
  StronglySorted R (x :: l) -> y ∈ l -> R x y.
Proof. inversion 1 as [|? ? _ Hf]; subst. rewrite list.Forall_forall in Hf. auto. Qed.

(** ** Lemmas on strings *)

Lemma str_app_cons (c : Ascii.ascii) (a b : string) : String c a +:+ b = String c (a +:+ b).
Proof. done. Qed.

Lemma str_app_nil (a : string) : a +:+ "" = a.
Proof. induction a as [|c a IH]; [done|]. by rewrite str_app_cons, IH. Qed.

Lemma str_app_assoc (a b c : string) : (a +:+ b) +:+ c = a +:+ (b +:+ c).
Proof. induction a as [|d a IH]; [done|]. by rewrite !str_app_cons, IH. Qed.

Lemma string_length_app (a b : string) :
  String.length (a +:+ b) = (String.length a + String.length b)%nat.
Proof. induction a as [|c a IH]; simpl; [done|]. by rewrite IH. Qed.

(** A separator byte absent from the left parts splits a string in one way only. *)
Lemma sep_inj (c : Ascii.ascii) (a b i j : string) :
  char_free c a = true -> char_free c b = true ->
  a +:+ String c i = b +:+ String c j -> a = b /\ i = j.
Proof.
  revert b. induction a as [|x a IH]; intros [|y b]; simpl; intros Ha Hb Heq.
  - by injection Heq.
  - injection Heq as <- _. by rewrite Ascii.eqb_refl in Hb.
  - injection Heq as -> _. by rewrite Ascii.eqb_refl in Ha.
  - injection Heq as -> Heq. apply andb_true_iff in Ha as [_ Ha], Hb as [_ Hb].
    destruct (IH b Ha Hb Heq) as [-> ->]. done.
Qed.

(** ** Lemmas on sorting *)

Lemma StronglySorted_snoc {A} (R : A -> A -> Prop) (l : list A) (x : A) :
  StronglySorted R l -> (forall y, y ∈ l -> R y x) -> StronglySorted R (l ++ [x]).
Proof.
  induction 1 as [|y l Hs IH Hf]; intros Hx; simpl; [repeat constructor|]. constructor.
  - apply IH. intros z Hz. apply Hx. by right.
  - apply Forall_app. split; [done|]. constructor; [|done]. apply Hx. by left.
Qed.

Lemma StronglySorted_weaken {A} (R R' : A -> A -> Prop) (l : list A) :
  (forall x y, R x y -> R' x y) -> StronglySorted R l -> StronglySorted R' l.
Proof.
  intros HR. induction 1 as [|x l Hs IH Hf]; constructor; [done|].
  eapply Forall_impl; [exact Hf|]. auto.
Qed.

Lemma StronglySorted_reverse {A} (R : A -> A -> Prop) (l : list A) :
  StronglySorted R l -> StronglySorted (flip R) (reverse l).
Proof.
  induction 1 as [|x l Hs IH Hf]; [apply SSorted_nil|].
  rewrite reverse_cons. apply StronglySorted_snoc; [done|].
  intros y Hy. rewrite elem_of_reverse in Hy. unfold flip.
  rewrite list.Forall_forall in Hf. by apply Hf.
Qed.

Lemma ins_rev_perm {A} (less : A -> A -> bool) x r : ins_rev less x r ≡ₚ x :: r.
Proof.
  induction r as [|y r IH]; simpl; [done|]. destruct (less x y); [|done].
  rewrite IH. constructor.
Qed.

Lemma fold_ins_rev_perm {A} (less : A -> A -> bool) l r :
  foldl (fun r x => ins_rev less x r) r l ≡ₚ l ++ r.
Proof.
  revert r. induction l as [|x l IH]; intros r; simpl; [done|].
  rewrite IH, ins_rev_perm. symmetry. apply Permutation_middle.
Qed.

Lemma weak_on_incl {A} (less : A -> A -> bool) (l l' : list A) :
  (forall x, x ∈ l' -> x ∈ l) -> weak_on less l -> weak_on less l'.
Proof.
  intros Hi [W1 W2]. split.
  - intros x y Hx Hy. apply W1; auto.
  - intros x y z Hx Hy Hz. apply W2; auto.
Qed.

Lemma weak_on_flip {A} (less : A -> A -> bool) (l : list A) :
  weak_on less l -> weak_on (fun x y => less y x) l.
Proof. intros [Ha Hn]. split; eauto. Qed.

(** A lexicographic order, its first key an integer. *)
Lemma weak_on_lex {A} (f : A -> Z) (less : A -> A -> bool) (l : list A) :
  weak_on less l -> weak_on (fun x y => (f x <? f y) || ((f x =? f y) && less x y)) l.
Proof.
  intros [Ha Hn]. split.
  - intros x y Hx Hy [?%Z.ltb_lt|[?%Z.eqb_eq H]%andb_true_iff]%orb_true_iff.
    + rewrite (proj2 (Z.ltb_ge (f y) (f x))), (proj2 (Z.eqb_neq (f y) (f x))) by lia. done.
    + rewrite (proj2 (Z.ltb_ge (f y) (f x))) by lia. simpl. by rewrite (Ha x y), andb_false_r.
  - intros x y z Hx Hy Hz [?%Z.ltb_ge H1]%orb_false_iff [?%Z.ltb_ge H2]%orb_false_iff.
    rewrite (proj2 (Z.ltb_ge (f x) (f z))) by lia. simpl.
    destruct (Z.eqb_spec (f x) (f z)) as [E|]; [|done]. simpl.
    assert (f x = f y /\ f y = f z) as [E1 E2] by lia.
    rewrite E1, Z.eqb_refl in H1. rewrite E2, Z.eqb_refl in H2. eauto.
Qed.

Lemma ins_rev_sorted {A} (less : A -> A -> bool) (x : A) (r : list A) :
  weak_on less (x :: r) -> StronglySorted (fun a b => less a b = false) r ->
  StronglySorted (fun a b => less a b = false) (ins_rev less x r).
Proof.
  intros W. induction r as [|y r IH]; intros Hs; simpl; [repeat constructor|].
  inversion Hs as [|? ? Hs' Hf]; subst. rewrite list.Forall_forall in Hf.
  assert (weak_on less (x :: r)) as W'.
  { eapply weak_on_incl; [|exact W]. set_solver. }
  destruct (less x y) eqn:E.
  - constructor; [by apply IH|]. apply list.Forall_forall. intros z Hz.
    rewrite ins_rev_perm in Hz. apply elem_of_cons in Hz as [->|Hz]; [|by apply Hf].
    apply (wo_asym _ _ W); [set_solver..|done].
  - constructor; [done|]. constructor; [done|]. apply list.Forall_forall. intros z Hz.
    apply (wo_ntrans _ _ W x y z); [set_solver..|done|by apply Hf].
Qed.

Lemma insertion_sort_perm {A} (less : A -> A -> bool) (l : list A) :
  insertion_sort less l ≡ₚ l.
Proof.
  unfold insertion_sort. rewrite reverse_Permutation, fold_ins_rev_perm.
  by rewrite app_nil_r.
Qed.

Lemma fold_ins_rev_sorted {A} (less : A -> A -> bool) (l r : list A) :
  weak_on less (l ++ r) -> StronglySorted (fun a b => less a b = false) r ->
  StronglySorted (fun a b => less a b = false) (foldl (fun r x => ins_rev less x r) r l).
Proof.
  revert r. induction l as [|x l IH]; intros r W Hs; simpl; [done|].
  apply IH.
  - eapply weak_on_incl; [|exact W]. intros z. rewrite elem_of_app, ins_rev_perm. set_solver.
  - apply ins_rev_sorted; [|done]. eapply weak_on_incl; [|exact W]. set_solver.
Qed.

Lemma insertion_sort_sorted {A} (less : A -> A -> bool) (l : list A) :
  weak_on less l -> StronglySorted (fun x y => less y x = false) (insertion_sort less l).
Proof.
  intros W. unfold insertion_sort.
  apply (StronglySorted_reverse (fun a b => less a b = false)).
  apply fold_ins_rev_sorted; [by rewrite app_nil_r|constructor].
Qed.

(** The contract is satisfiable: insertion sort meets it. *)
Definition insertion_SliceSort : SliceSort := {|
  sort_slice := @insertion_sort;
  sort_slice_perm := @insertion_sort_perm;
  sort_slice_sorted := @insertion_sort_sorted
|}.

Definition canonical_MapRange : MapRange := {|
  map_range := fun K _ _ V m => map_to_list m;
  map_range_perm := fun K _ _ V m => reflexivity (map_to_list m)
|}.
