(* ===== verification/Float64.v ===== *)
(** * IEEE 754 binary64 arithmetic, as Go's [float64]

    Values are [spec_float]s of the standard library's executable specification of
    binary floating point, with precision 53 and maximal exponent 1024, rounding to nearest,
    ties to even. No fused multiply-add is modelled: on amd64 the compiler emits none.
    The comparison lemmas hold for every value, NaN, infinities and signed zeros included. *)
From Stdlib Require Export SpecFloat.
From stdpp Require Import pretty.
From S2P Require Import Prelude.

Local Open Scope Z_scope.

Abbreviation float64 := spec_float (only parsing).

#[global] Instance float64_eq_dec : EqDecision spec_float.
Proof. solve_decision. Defined.

(** ** Operations *)

Definition f_prec : Z := 53.
Definition f_emax : Z := 1024.

Definition fadd : float64 -> float64 -> float64 := SFadd f_prec f_emax.
Definition fsub : float64 -> float64 -> float64 := SFsub f_prec f_emax.
Definition fmul : float64 -> float64 -> float64 := SFmul f_prec f_emax.
Definition fdiv : float64 -> float64 -> float64 := SFdiv f_prec f_emax.
Definition fsqrt : float64 -> float64 := SFsqrt f_prec f_emax.
Definition fabs : float64 -> float64 := SFabs.
Definition fneg : float64 -> float64 := SFopp.

Definition flt (x y : float64) : bool := SFltb x y.
Definition fle (x y : float64) : bool := SFleb x y.
Definition feq (x y : float64) : bool := SFeqb x y.
Definition fgt (x y : float64) : bool := flt y x.
Definition fge (x y : float64) : bool := fle y x.
Definition fne (x y : float64) : bool := negb (feq x y).

(** The conversion [float64(n)] of an integer. *)
Definition f_of_Z (n : Z) : float64 := binary_normalize f_prec f_emax n 0 false.

(** A decimal constant [num/den] of the source, rounded once. *)
Definition fconst (num den : Z) : float64 := fdiv (f_of_Z num) (f_of_Z den).

Definition f0 : float64 := S754_zero false.
Definition f1 : float64 := f_of_Z 1.

Definition is_nan (x : float64) : bool :=
  match x with S754_nan => true | _ => false end.

Definition is_inf (neg : bool) (x : float64) : bool :=
  match x with S754_infinity s => Bool.eqb s neg | _ => false end.

(** [math.Min]: -Inf wins, then NaN, then the smaller; of two zeros the negative one. *)
Definition fmin (x y : float64) : float64 :=
  if is_inf true x || is_inf true y then S754_infinity true
  else if is_nan x || is_nan y then S754_nan
  else match x, y with
       | S754_zero s, S754_zero _ => if s then x else y
       | _, _ => if flt x y then x else y
       end.

(** Truncation of a float to int64; out of range and NaN give the least integer (amd64). *)
Definition f_trunc (x : float64) : Z :=
  match x with
  | S754_zero _ => 0
  | S754_finite s m e =>
      let a := if 0 <=? e then Z.pos m * 2 ^ e else Z.pos m / 2 ^ (- e) in
      let v := if s then - a else a in
      if (min_i64 <=? v) && (v <=? max_i64) then v else min_i64
  | _ => min_i64
  end.

(** [Duration.Seconds] and [Duration.Minutes]. *)
Definition dur_Seconds (d : Duration) : float64 :=
  fadd (f_of_Z (Z.quot d Second)) (fdiv (f_of_Z (Z.rem d Second)) (f_of_Z Second)).

Definition dur_Minutes (d : Duration) : float64 :=
  fadd (f_of_Z (Z.quot d Minute)) (fdiv (f_of_Z (Z.rem d Minute)) (f_of_Z Minute)).

(** [now.Add(time.Duration(s * float64(time.Second)))]. *)
Definition dur_of_seconds (s : float64) : Duration := f_trunc (fmul s (f_of_Z Second)).

(** ** Formatting: fmt's %.df verb, which rounds the exact value half to even *)

Definition div_half_even (n d : Z) : Z :=
  let q := n / d in
  let r := n mod d in
  if 2 * r <? d then q
  else if d <? 2 * r then q + 1
  else if Z.even q then q else q + 1.

Fixpoint pad_zeros (n : nat) (s : string) : string :=
  match n with
  | O => s
  | S n' => if (String.length s <? S n')%nat then String zero_char (pad_zeros n' s) else s
  end.

Definition fmt_fixed (d : nat) (x : float64) : string :=
  let scale := 10 ^ Z.of_nat d in
  let digits (n : Z) : string :=
    match d with
    | O => pretty n
    | _ => pretty (n / scale) +:+ "." +:+ pad_zeros d (pretty (n mod scale))
    end in
  match x with
  | S754_nan => "NaN"
  | S754_infinity s => if s then "-Inf" else "+Inf"
  | S754_zero s => (if s then "-" else "") +:+ digits 0
  | S754_finite s m e =>
      (if s then "-" else "") +:+
      digits (if 0 <=? e then Zpos m * 2 ^ e * scale
              else div_half_even (Zpos m * scale) (2 ^ (- e)))
  end.

(** ** The order: comparison is lexicographic on a key of class, exponent and mantissa *)

Definition fkey (x : float64) : Z * Z * Z :=
  match x with
  | S754_nan => (0, 0, 0)
  | S754_infinity s => (if s then -2 else 2, 0, 0)
  | S754_zero _ => (0, 0, 0)
  | S754_finite s m e => if s then (-1, - e, - Z.pos m) else (1, e, Z.pos m)
  end.

Definition lex_lt (a b : Z * Z * Z) : Prop :=
  let '(a1, a2, a3) := a in
  let '(b1, b2, b3) := b in
  a1 < b1 \/ (a1 = b1 /\ (a2 < b2 \/ (a2 = b2 /\ a3 < b3))).

Definition num (x : float64) : Prop := is_nan x = false.

Lemma SFcompare_key (x y : float64) :
  num x -> num y ->
  match SFcompare x y with
  | Some Lt => lex_lt (fkey x) (fkey y)
  | Some Gt => lex_lt (fkey y) (fkey x)
  | Some Eq => fkey x = fkey y
  | None => False
  end.
Proof.
  unfold num, SFcompare, fkey, lex_lt.
  destruct x as [sx|sx| |sx mx ex], y as [sy|sy| |sy my ey]; simpl; intros Hx Hy;
    try discriminate; try destruct sx; try destruct sy; try lia; try reflexivity.
  all: destruct (Z.compare_spec ex ey) as [->| |]; simpl; try lia.
  all: pose proof (Pos.compare_cont_spec mx my Eq) as Hc; simpl in Hc;
    change (Pos.compare_cont Eq mx my) with (Pos.compare mx my);
    destruct (Pos.compare_spec mx my) as [->| |]; simpl; try reflexivity; lia.
Qed.

Lemma SFcompare_nan_l (x y : float64) : is_nan x = true -> SFcompare x y = None.
Proof. destruct x; simpl; try discriminate. done. Qed.

Lemma SFcompare_nan_r (x y : float64) : is_nan y = true -> SFcompare x y = None.
Proof. destruct y; simpl; try discriminate. by destruct x as [[]|[]| |[]]. Qed.

Lemma flt_spec (x y : float64) :
  flt x y = true <-> num x /\ num y /\ lex_lt (fkey x) (fkey y).
Proof.
  unfold flt, SFltb, num. destruct (is_nan x) eqn:Hx.
  { rewrite SFcompare_nan_l by done. naive_solver. }
  destruct (is_nan y) eqn:Hy.
  { rewrite SFcompare_nan_r by done. naive_solver. }
  pose proof (SFcompare_key x y Hx Hy) as H.
  destruct (SFcompare x y) as [[]|]; [..|done].
  - rewrite H. destruct (fkey y) as [[a b] c]. simpl. split; [done|]. lia.
  - naive_solver.
  - destruct (fkey x) as [[a b] c], (fkey y) as [[a' b'] c']. simpl in *.
    split; [done|]. lia.
Qed.

Lemma fle_spec (x y : float64) :
  fle x y = true <-> num x /\ num y /\ ~ lex_lt (fkey y) (fkey x).
Proof.
  unfold fle, SFleb, num. destruct (is_nan x) eqn:Hx.
  { rewrite SFcompare_nan_l by done. naive_solver. }
  destruct (is_nan y) eqn:Hy.
  { rewrite SFcompare_nan_r by done. naive_solver. }
  pose proof (SFcompare_key x y Hx Hy) as H.
  destruct (SFcompare x y) as [[]|]; [..|done].
  - rewrite H. destruct (fkey y) as [[a b] c]. simpl. split; [lia|done].
  - destruct (fkey x) as [[a b] c], (fkey y) as [[a' b'] c']. simpl in *.
    split; [lia|done].
  - naive_solver.
Qed.

Lemma feq_spec (x y : float64) :
  feq x y = true <-> num x /\ num y /\ fkey x = fkey y.
Proof.
  unfold feq, SFeqb, num. destruct (is_nan x) eqn:Hx.
  { rewrite SFcompare_nan_l by done. naive_solver. }
  destruct (is_nan y) eqn:Hy.
  { rewrite SFcompare_nan_r by done. naive_solver. }
  pose proof (SFcompare_key x y Hx Hy) as H.
  destruct (SFcompare x y) as [[]|]; [naive_solver|..|done];
    destruct (fkey x) as [[a b] c], (fkey y) as [[a' b'] c']; simpl in *;
    split; try done; intros (_ & _ & [= -> -> ->]); lia.
Qed.

(** ** Order lemmas *)

Ltac fkeys :=
  repeat match goal with
  | |- context [fkey ?x] => destruct (fkey x) as [[? ?] ?]
  | H : context [fkey ?x] |- _ => destruct (fkey x) as [[? ?] ?]
  end; simpl in *.

Lemma flt_false (x y : float64) : num x -> num y -> flt x y = false <-> fle y x = true.
Proof.
  intros Hx Hy. rewrite <- not_true_iff_false, flt_spec, fle_spec. naive_solver.
Qed.

Lemma flt_asym (x y : float64) : flt x y = true -> flt y x = false.
Proof.
  intros H. apply not_true_iff_false. intros H'. apply flt_spec in H, H'.
  destruct H as (_ & _ & H), H' as (_ & _ & H'). fkeys. lia.
Qed.

Lemma flt_irrefl (x : float64) : flt x x = false.
Proof.
  apply not_true_iff_false. intros H. apply flt_spec in H as (_ & _ & H). fkeys. lia.
Qed.

Lemma flt_trans (x y z : float64) : flt x y = true -> flt y z = true -> flt x z = true.
Proof.
  rewrite !flt_spec. intros (? & ? & H) (? & ? & H'). repeat split; try done. fkeys. lia.
Qed.

Lemma fle_trans (x y z : float64) : fle x y = true -> fle y z = true -> fle x z = true.
Proof.
  rewrite !fle_spec. intros (? & ? & H) (? & ? & H'). repeat split; try done. fkeys. lia.
Qed.

Lemma flt_ntrans (x y z : float64) :
  num x -> num y -> num z -> flt x y = false -> flt y z = false -> flt x z = false.
Proof.
  intros Hx Hy Hz. rewrite !flt_false by done. intros H1 H2. by apply (fle_trans z y x).
Qed.

Lemma fle_refl (x : float64) : num x -> fle x x = true.
Proof. intros Hx. rewrite fle_spec. repeat split; try done. fkeys. lia. Qed.

Lemma flt_fle (x y : float64) : flt x y = true -> fle x y = true.
Proof. rewrite flt_spec, fle_spec. intros (? & ? & H). repeat split; try done. fkeys. lia. Qed.

Lemma fle_lt_or_eq (x y : float64) : fle x y = flt x y || feq x y.
Proof.
  apply eq_true_iff_eq. rewrite orb_true_iff, flt_spec, fle_spec, feq_spec.
  split.
  - intros (Hx & Hy & H). fkeys.
    destruct (decide (z = z2 /\ z0 = z3 /\ z1 = z4)) as [(-> & -> & ->)|]; [naive_solver|].
    left. repeat split; try done. lia.
  - intros [(? & ? & H)|(? & ? & H)]; repeat split; try done; fkeys; [lia|].
    injection H as -> -> ->. lia.
Qed.

Lemma weak_on_fkey {A} (f : A -> float64) (l : list A) :
  Forall (fun x => num (f x)) l -> weak_on (fun x y => flt (f x) (f y)) l.
Proof.
  rewrite list.Forall_forall. intros H. split.
  - intros x y _ _. apply flt_asym.
  - intros x y z Hx Hy Hz. apply flt_ntrans; auto.
Qed.

Lemma weak_on_fkey_desc {A} (f : A -> float64) (l : list A) :
  Forall (fun x => num (f x)) l -> weak_on (fun x y => fgt (f x) (f y)) l.
Proof.
  rewrite list.Forall_forall. intros H. unfold fgt. split.
  - intros x y _ _. apply flt_asym.
  - intros x y z Hx Hy Hz H1 H2. apply (flt_ntrans _ (f y)); auto.
Qed.

Lemma weak_on_Z {A} (f : A -> Z) (l : list A) : weak_on (fun x y => f x <? f y) l.
Proof.
  split; [intros x y _ _ H|intros x y z _ _ _ H1 H2]; zb; apply Z.ltb_ge; lia.
Qed.

#[export] Hint Resolve flt_irrefl fle_refl flt_fle weak_on_fkey weak_on_fkey_desc weak_on_Z
  : pgpulse.

(** ** Sanity of the arithmetic on constants *)

Example fconst_08 : fconst 8 10 = S754_finite false 7205759403792794 (-53).
Proof. vm_compute. reflexivity. Qed.

Example dur_Seconds_90s : dur_Seconds (90 * Second + 500 * Millisecond) = fconst 905 10.
Proof. vm_compute. reflexivity. Qed.

(** ** Results that are numbers

    Rounding a non-negative mantissa never gives a NaN, so an operation gives a NaN only in
    the cases IEEE 754 lists. *)

Lemma shr_1_nonneg (r : shr_record) : 0 <= shr_m r -> 0 <= shr_m (shr_1 r).
Proof. destruct r as [m r s]. simpl. destruct m as [|p|p]; [done| |lia]. by destruct p. Qed.

Lemma iter_pos_inv {A} (P : A -> Prop) (f : A -> A) (p : positive) (x : A) :
  (forall y, P y -> P (f y)) -> P x -> P (SpecFloat.iter_pos f p x).
Proof. intros Hf. revert x. induction p as [p IH|p IH|]; intros x Hx; simpl; auto. Qed.

Lemma shr_nonneg (r : shr_record) (e n : Z) : 0 <= shr_m r -> 0 <= shr_m (shr r e n).1.
Proof.
  intros Hr. destruct n; simpl; try done.
  apply (iter_pos_inv (fun r => 0 <= shr_m r)); [apply shr_1_nonneg|done].
Qed.

Lemma shr_record_of_loc_m (m : Z) (l : location) : shr_m (shr_record_of_loc m l) = m.
Proof. destruct l as [|[]]; done. Qed.

Lemma binary_round_aux_num (p emax : Z) (sx : bool) (mx ex : Z) (lx : location) :
  0 <= mx -> num (binary_round_aux p emax sx mx ex lx).
Proof.
  intros Hm. unfold binary_round_aux, shr_fexp, num.
  destruct (shr (shr_record_of_loc mx lx) ex _) as [r1 e1] eqn:E1.
  assert (0 <= shr_m r1) as H1.
  { change r1 with (r1, e1).1. rewrite <- E1. apply shr_nonneg. by rewrite shr_record_of_loc_m. }
  set (m1 := round_nearest_even (shr_m r1) (loc_of_shr_record r1)).
  assert (0 <= m1) as H2.
  { subst m1. unfold round_nearest_even. destruct (loc_of_shr_record r1) as [|[]];
      try destruct (Z.even _); lia. }
  destruct (shr (shr_record_of_loc m1 loc_Exact) e1 _) as [r2 e2] eqn:E2.
  assert (0 <= shr_m r2) as H3.
  { change r2 with (r2, e2).1. rewrite <- E2. by apply shr_nonneg. }
  destruct (shr_m r2); [done|by destruct (_ <=? _)|lia].
Qed.

Lemma f_of_Z_num (n : Z) : num (f_of_Z n).
Proof.
  unfold f_of_Z, binary_normalize, binary_round. destruct n as [|p|p]; [done|..];
    destruct (shl_align _ _ _); by apply binary_round_aux_num.
Qed.

(** ** Integers of 64 bits convert to finite numbers *)

Lemma digits2_pos_le (p : positive) : 2 ^ (Z.pos (digits2_pos p) - 1) <= Z.pos p.
Proof.
  induction p as [p IH|p IH|]; cbn [digits2_pos]; [| |done];
    rewrite Pos2Z.inj_succ, <- Z.add_1_r, Z.add_simpl_r;
    replace (Z.pos (digits2_pos p)) with (Z.succ (Z.pos (digits2_pos p) - 1)) by lia;
    rewrite Z.pow_succ_r by lia; lia.
Qed.

Lemma Zdigits2_le (m k : Z) : 0 <= m < 2 ^ k -> Zdigits2 m <= Z.max 0 k.
Proof.
  destruct m as [|p|p]; cbn [Zdigits2]; [lia| |lia]. intros [_ H].
  destruct (Z.le_gt_cases (Z.pos (digits2_pos p)) (Z.max 0 k)) as [?|Hgt]; [done|].
  pose proof (digits2_pos_le p) as Hp.
  assert (2 ^ k <= 2 ^ (Z.pos (digits2_pos p) - 1)); [apply Z.pow_le_mono_r; lia|lia].
Qed.

Lemma shr_1_le (r : shr_record) : 0 <= shr_m r -> shr_m (shr_1 r) <= shr_m r.
Proof. destruct r as [m r s]. simpl. destruct m as [|p|p]; [done| |lia]. destruct p; simpl; lia. Qed.

Lemma shr_le (r : shr_record) (e n : Z) :
  0 <= shr_m r -> 0 <= shr_m (shr r e n).1 <= shr_m r /\ (shr r e n).2 = e + Z.max 0 n.
Proof.
  intros Hr. destruct n as [|p|p]; simpl; [lia| |lia]. split; [|done].
  apply (iter_pos_inv (fun r' => 0 <= shr_m r' <= shr_m r)); [|lia].
  intros y Hy. pose proof (shr_1_nonneg y). pose proof (shr_1_le y). lia.
Qed.

Lemma round_nearest_even_le (m : Z) (l : location) :
  0 <= m -> 0 <= round_nearest_even m l <= m + 1.
Proof. intros Hm. unfold round_nearest_even. destruct l as [|[]]; try destruct (Z.even m); lia. Qed.

(** A shift to the target exponent moves it by no more than the mantissa has digits. *)
Lemma shr_fexp_le (m e k : Z) (l : location) : 0 <= k -> 0 <= m < 2 ^ k -> -1074 <= e ->
  0 <= shr_m (shr_fexp f_prec f_emax m e l).1 <= m /\
  e <= (shr_fexp f_prec f_emax m e l).2 <= e + k.
Proof.
  intros Hk Hm He. unfold shr_fexp.
  pose proof (shr_le (shr_record_of_loc m l) e (fexp f_prec f_emax (Zdigits2 m + e) - e)) as H.
  rewrite shr_record_of_loc_m in H. destruct (H ltac:(lia)) as [H1 H2]. split; [done|]. rewrite H2.
  pose proof (Zdigits2_le m k Hm) as Hd. unfold fexp, emin, f_prec, f_emax. lia.
Qed.

Lemma binary_round_aux_finite (sx : bool) (m e : Z) (l : location) :
  0 <= m < 2 ^ 200 -> -1074 <= e <= 0 ->
  is_inf true (binary_round_aux f_prec f_emax sx m e l) = false /\
  is_inf false (binary_round_aux f_prec f_emax sx m e l) = false.
Proof.
  intros Hm He. unfold binary_round_aux.
  pose proof (shr_fexp_le m e 200 l ltac:(lia) Hm ltac:(lia)) as H1.
  destruct (shr_fexp f_prec f_emax m e l) as [r1 e1]. cbn [fst snd] in H1.
  pose proof (round_nearest_even_le (shr_m r1) (loc_of_shr_record r1) ltac:(lia)) as H2.
  set (m1 := round_nearest_even _ _) in *.
  assert (m1 < 2 ^ 201) as H3.
  { assert (2 ^ 201 = 2 * 2 ^ 200) by (rewrite <- Z.pow_succ_r; [done|lia]).
    assert (1 <= 2 ^ 200) by (apply (Z.pow_le_mono_r 2 0 200); lia). lia. }
  pose proof (shr_fexp_le m1 e1 201 loc_Exact ltac:(lia) ltac:(lia) ltac:(lia)) as H4.
  destruct (shr_fexp f_prec f_emax m1 e1 loc_Exact) as [r2 e2]. cbn [fst snd] in H4.
  destruct (shr_m r2); [done| |done].
  assert (e2 <=? f_emax - f_prec = true) as ->; [|done].
  apply Z.leb_le. unfold f_emax, f_prec. lia.
Qed.

Lemma f_of_Z_finite (n : Z) : Z.abs n < 2 ^ 64 ->
  is_inf true (f_of_Z n) = false /\ is_inf false (f_of_Z n) = false.
Proof.
  assert (forall sx p, Z.pos p < 2 ^ 64 ->
    is_inf true (binary_round f_prec f_emax sx p 0) = false /\
    is_inf false (binary_round f_prec f_emax sx p 0) = false) as H.
  { intros sx p Hp. unfold binary_round, shl_align.
    pose proof (Zdigits2_le (Z.pos p) 64 ltac:(lia)) as Hd. cbn [Zdigits2] in Hd.
    assert (2 ^ 64 <= 2 ^ 200) by (apply Z.pow_le_mono_r; lia).
    unfold fexp, emin. rewrite Z.add_0_r, Z.sub_0_r.
    destruct (Z.max (Z.pos (digits2_pos p) - f_prec) _) as [|d|d] eqn:Em; [apply binary_round_aux_finite; lia..|].
    assert (Z.pos d <= 52) as Hd52 by (unfold f_prec in Em; lia).
    apply binary_round_aux_finite; [|unfold f_prec, f_emax in *; lia].
    split; [done|]. assert (forall q, Z.pos (Pos.iter xO p q) = Z.pos p * 2 ^ Z.pos q) as Hi.
    { induction q as [|q IH] using Pos.peano_ind; [simpl; lia|].
      rewrite Pos.iter_succ, Pos2Z.inj_xO, IH, Pos2Z.inj_succ, Z.pow_succ_r by lia. lia. }
    rewrite Hi. assert (2 ^ Z.pos d <= 2 ^ 52) by (apply Z.pow_le_mono_r; lia).
    assert (2 ^ 64 * 2 ^ 52 < 2 ^ 200) by done.
    eapply Z.le_lt_trans; [apply Z.mul_le_mono_nonneg; [lia|apply Z.lt_le_incl, Hp|lia|eassumption]|done]. }
  intros Hn. unfold f_of_Z, binary_normalize. destruct n as [|p|p]; [done|apply H; lia..].
Qed.

Lemma fdiv_finite_num (x : float64) (s : bool) (m : positive) (e : Z) :
  num x -> num (fdiv x (S754_finite s m e)).
Proof.
  destruct x as [sx|sx| |sx mx ex]; try done. intros _. unfold fdiv, SFdiv, SFdiv_core_binary.
  match goal with |- context [Z.div_eucl ?a ?b] =>
    pose proof (Z.div_pos a b) as Hq; unfold Z.div in Hq; destruct (Z.div_eucl a b) end.
  apply binary_round_aux_num, Hq; [|lia]. destruct (_ - _ - _); [lia| |lia].
  apply Z.shiftl_nonneg. lia.
Qed.

(** A product is a number unless it multiplies a zero with an infinity. *)
Definition is_zero (x : float64) : bool := match x with S754_zero _ => true | _ => false end.
Definition is_infinite (x : float64) : bool := match x with S754_infinity _ => true | _ => false end.

Lemma fmul_num (x y : float64) :
  num x -> num y -> is_zero x && is_infinite y = false -> is_infinite x && is_zero y = false ->
  num (fmul x y).
Proof.
  destruct x as [sx|sx| |sx mx ex], y as [sy|sy| |sy my ey]; try done.
  intros _ _ _ _. by apply binary_round_aux_num.
Qed.

(** The square scaled by a finite non-zero constant, as in [c * x * x]. *)
Lemma fmul_scaled_square_num (c : bool) (m : positive) (e : Z) (x : float64) :
  num x -> num (fmul (fmul (S754_finite c m e) x) x).
Proof.
  intros Hx.
  assert (num (fmul (S754_finite c m e) x)) as H1.
  { apply fmul_num; try done. }
  destruct x as [sx|sx| |sx mx ex]; try done.
  apply fmul_num; try done; by rewrite ?andb_false_r.
Qed.

(** ** Sums of non-negative numbers *)

Definition negative (x : float64) : bool :=
  match x with S754_infinity s | S754_finite s _ _ => s | _ => false end.

Lemma fle_f0 (x : float64) : fle f0 x = negb (is_nan x) && negb (negative x).
Proof. by destruct x as [[]|[]| |[]]. Qed.

Lemma binary_round_aux_sign (p emax : Z) (mx ex : Z) (lx : location) :
  0 <= mx -> fle f0 (binary_round_aux p emax false mx ex lx) = true.
Proof.
  intros Hm. rewrite fle_f0. pose proof (binary_round_aux_num p emax false mx ex lx Hm) as Hn.
  unfold num in Hn. rewrite Hn. unfold binary_round_aux in *.
  destruct (shr_fexp p emax mx ex lx) as [r1 e1].
  destruct (shr_fexp p emax _ e1 loc_Exact) as [r2 e2].
  destruct (shr_m r2); [done|by destruct (_ <=? _)|done].
Qed.

Lemma fadd_nonneg (x y : float64) :
  fle f0 x = true -> fle f0 y = true -> fle f0 (fadd x y) = true.
Proof.
  intros Hx Hy. pose proof Hx as Hx'. pose proof Hy as Hy'. rewrite fle_f0 in Hx', Hy'.
  destruct x as [sx|sx| |sx mx ex], y as [sy|sy| |sy my ey]; try discriminate; try done;
    try (destruct sx; discriminate); try (destruct sy; discriminate);
    destruct sx; try discriminate; destruct sy; try discriminate; try done.
  unfold fadd, SFadd, cond_Zopp, binary_normalize. simpl.
  unfold binary_round. destruct (shl_align _ _ _) as [mz ez].
  by apply binary_round_aux_sign.
Qed.

(** ** The order of double precision in PostgreSQL: NaN above every number *)

Definition sql_lt (x y : float64) : bool :=
  if is_nan x then false else if is_nan y then true else flt x y.

Lemma weak_on_sql_desc {A} (f : A -> float64) (l : list A) :
  weak_on (fun a b => sql_lt (f b) (f a)) l.
Proof.
  split; unfold sql_lt.
  - intros x y _ _. destruct (is_nan (f x)) eqn:Ex, (is_nan (f y)) eqn:Ey; try done.
    intros H. by apply flt_asym.
  - intros x y z _ _ _. destruct (is_nan (f x)) eqn:Ex, (is_nan (f y)) eqn:Ey, (is_nan (f z)) eqn:Ez;
      try done. rewrite <- !not_true_iff_false, !flt_spec.
    intros H1 H2 (_ & _ & H3). unfold num in *.
    apply H1. repeat split; try done. destruct (decide (lex_lt (fkey (f y)) (fkey (f x)))); [done|].
    exfalso. apply H2. repeat split; try done. fkeys. lia.
Qed.

#[export] Hint Resolve weak_on_sql_desc : pgpulse.

Lemma weak_on_sql {A} (f : A -> float64) (l : list A) : weak_on (fun a b => sql_lt (f a) (f b)) l.
Proof. exact (weak_on_flip _ _ (weak_on_sql_desc f l)). Qed.

#[export] Hint Resolve weak_on_sql : pgpulse.
