(* ===== verification/Metric.v ===== *)
(** * Metric points, metric queries and the metric store interface

    Models internal/collector/collector.go and internal/collector/base.go: the data that the
    collectors produce and that every other component consumes. *)
From S2P Require Import Prelude Float64.

Local Open Scope Z_scope.

(** A Go [map[string]string]; a missing key reads as the empty string. *)
Abbreviation Labels := (gmap string string).

Definition label_get (m : Labels) (k : string) : string := default "" (m !! k).

Record MetricPoint := mkPoint {
  pt_InstanceID : string;
  pt_Metric : string;
  pt_Value : float64;
  pt_Labels : Labels;
  pt_Timestamp : Time
}.

Record MetricQuery := mkQuery {
  q_InstanceID : string;
  q_Metric : string;
  q_Labels : Labels;
  q_Start : Time;
  q_End : Time;
  q_Limit : Z
}.

(** The MetricStore interface: [Write] and [Query] over a store state. *)
Class MetricStore (S : Type) := {
  ms_Write : S -> list MetricPoint -> S * option error;
  ms_Query : S -> MetricQuery -> result (list MetricPoint)
}.

Definition metricPrefix : string := "pg".

(** [Base.point]: every collector's points carry the "pg." prefix. *)
Definition Base_point (instanceID metric : string) (value : float64) (labels : Labels)
    (now : Time) : MetricPoint :=
  mkPoint instanceID (metricPrefix +:+ "." +:+ metric) value labels now.

(** All labels of [required] are present in [actual] with equal values. Go reads a missing
    label as the empty string, so a required empty value matches an absent label. *)
Definition labels_match {MR : MapRange} (required actual : Labels) : bool :=
  forallb (fun kv => bool_decide (label_get actual kv.1 = kv.2)) (map_range required).

(** ** Strings as totally ordered keys *)

Lemma string_compare_trans (c : comparison) (x y z : string) :
  String.compare x y = c -> String.compare y z = c -> String.compare x z = c.
Proof.
  revert y z. induction x as [|a x IH]; intros [|b y] [|d z]; simpl; try congruence.
  destruct (Ascii.compare a b) eqn:E1, (Ascii.compare b d) eqn:E2; intros H1 H2; subst;
    try congruence.
  all: unfold Ascii.compare in *.
  all: try (apply N.compare_eq in E1); try (apply N.compare_eq in E2).
  all: try (rewrite E1); try (rewrite <- E2); rewrite ?N.compare_refl.
  all: try (by eapply IH).
  all: try (by rewrite ?E1, ?E2).
  all: rewrite ?N.compare_lt_iff, ?N.compare_gt_iff in *.
  all: repeat match goal with
       | |- context [N.compare ?u ?v] => destruct (N.compare_spec u v)
       end; try done; lia.
Qed.

Lemma string_ltb_asym (x y : string) : string_ltb x y = true -> string_ltb y x = false.
Proof.
  unfold string_ltb. rewrite (String.compare_antisym y x).
  by destruct (String.compare x y).
Qed.

Lemma string_ltb_trans (x y z : string) :
  string_ltb x y = true -> string_ltb y z = true -> string_ltb x z = true.
Proof.
  unfold string_ltb. destruct (String.compare x y) eqn:E1; try done.
  destruct (String.compare y z) eqn:E2; try done.
  by rewrite (string_compare_trans Lt x y z).
Qed.

Lemma string_ltb_total (x y : string) :
  string_ltb x y = false -> string_ltb y x = false -> x = y.
Proof.
  unfold string_ltb. rewrite (String.compare_antisym y x).
  destruct (String.compare x y) eqn:E; try done. intros _ _. by apply String.compare_eq_iff.
Qed.

Lemma weak_on_string {A} (f : A -> string) (l : list A) :
  weak_on (fun x y => string_ltb (f x) (f y)) l.
Proof.
  split.
  - intros x y _ _. apply string_ltb_asym.
  - intros x y z _ _ _ H1 H2. apply not_true_iff_false. intros H.
    destruct (string_ltb (f y) (f x)) eqn:E.
    + rewrite (string_ltb_trans _ _ _ E H) in H2. done.
    + rewrite (string_ltb_total _ _ H1 E) in H. congruence.
Qed.

(** Two sorted permutations of strings are equal: any sort gives the same list. *)
Lemma sorted_strings_unique (l1 l2 : list string) :
  l1 ≡ₚ l2 ->
  StronglySorted (fun x y => string_ltb y x = false) l1 ->
  StronglySorted (fun x y => string_ltb y x = false) l2 -> l1 = l2.
Proof.
  intros Hp H1 H2. revert Hp.
  apply (StronglySorted_unique_strong (fun x y => string_ltb y x = false)); [|done..].
  intros x y _ _ Hxy Hyx. by apply string_ltb_total.
Qed.

#[export] Hint Resolve weak_on_string : pgpulse.

(** ** Facts about labels *)

Lemma labels_match_spec {MR : MapRange} (required actual : Labels) :
  labels_match required actual = true <->
  forall k v, required !! k = Some v -> label_get actual k = v.
Proof.
  unfold labels_match. rewrite forallb_forall. split.
  - intros H k v Hk. eapply bool_decide_eq_true_1.
    apply (H (k, v)). rewrite <- list_elem_of_In, map_range_perm.
    by apply elem_of_map_to_list.
  - intros H [k v]. rewrite <- list_elem_of_In, map_range_perm, elem_of_map_to_list.
    intros Hk. apply bool_decide_eq_true_2. by apply H.
Qed.

Lemma labels_match_empty {MR : MapRange} (actual : Labels) : labels_match ∅ actual = true.
Proof. apply labels_match_spec. intros k v. by rewrite lookup_empty. Qed.

(** A prefixed metric name never equals a name that does not start with the prefix. *)
Lemma pg_prefixed_ne (metric name : string) :
  String.prefix "pg." name = false -> metricPrefix +:+ "." +:+ metric <> name.
Proof. intros H <-. simpl in H. destruct metric; discriminate. Qed.
