(* ===== verification/Alert.v ===== *)
(** * Alert evaluation

    Models internal/alert/alert.go (rules, events, severities, operators),
    internal/alert/evaluator.go (the evaluator with its per-key state machine, forecast
    alerts and state restoration), internal/alert/store.go (the history store interface),
    internal/alert/nullstore.go and the history half of internal/alert/pgstore.go. *)
From S2P Require Import Prelude Float64 Metric.

Local Open Scope Z_scope.

(** ** alert.go *)

Abbreviation Severity := string (only parsing).
Abbreviation Operator := string (only parsing).

Definition SeverityInfo : Severity := "info".
Definition SeverityWarning : Severity := "warning".
Definition SeverityCritical : Severity := "critical".

Definition severityLevel (s : Severity) : Z :=
  if decide (s = SeverityInfo) then 1
  else if decide (s = SeverityWarning) then 2
  else if decide (s = SeverityCritical) then 3
  else 0.

Definition OpGreater : Operator := ">".
Definition OpGreaterEqual : Operator := ">=".
Definition OpLess : Operator := "<".
Definition OpLessEqual : Operator := "<=".
Definition OpEqual : Operator := "==".
Definition OpNotEqual : Operator := "!=".

(** [Operator.Compare]: an unknown operator never breaches. *)
Definition Compare (op : Operator) (value threshold : float64) : bool :=
  if decide (op = OpGreater) then fgt value threshold
  else if decide (op = OpGreaterEqual) then fge value threshold
  else if decide (op = OpLess) then flt value threshold
  else if decide (op = OpLessEqual) then fle value threshold
  else if decide (op = OpEqual) then feq value threshold
  else if decide (op = OpNotEqual) then fne value threshold
  else false.

Inductive AlertState := StateOK | StatePending | StateFiring.

#[global] Instance AlertState_eq_dec : EqDecision AlertState.
Proof. solve_decision. Defined.

Definition SourceBuiltin : string := "builtin".
Definition SourceCustom : string := "custom".
Definition RuleTypeForecastThreshold : string := "forecast_threshold".

Record Rule := mkRule {
  r_ID : string;
  r_Name : string;
  r_Description : string;
  r_Metric : string;
  r_Operator : Operator;
  r_Threshold : float64;
  r_Severity : Severity;
  r_Labels : Labels;
  r_ConsecutiveCount : Z;
  r_CooldownMinutes : Z;
  r_Channels : list string;
  r_Source : string;
  r_Enabled : bool;
  r_Type : string;
  r_UseLowerBound : bool;
  r_ConsecutivePointsRequired : Z
}.

Record RemediationResult := mkRemediationResult {
  rr_RuleID : string;
  rr_Title : string;
  rr_Description : string;
  rr_Priority : string;
  rr_Category : string;
  rr_DocURL : string
}.

Record AlertEvent := mkAlertEvent {
  e_ID : Z;
  e_RuleID : string;
  e_RuleName : string;
  e_InstanceID : string;
  e_Severity : Severity;
  e_Value : float64;
  e_Threshold : float64;
  e_Operator : Operator;
  e_Metric : string;
  e_Labels : Labels;
  e_Channels : list string;
  e_FiredAt : Time;
  e_ResolvedAt : option Time;
  e_IsResolution : bool;
  e_Recommendations : list RemediationResult
}.

Record stateEntry := mkEntry {
  se_State : AlertState;
  se_ConsecutiveCount : Z;
  se_FiredAt : Time;
  se_LastNotifiedAt : Time;
  se_Severity : Severity
}.

(** The entry an unseen key starts with: [&stateEntry{State: StateOK}]. *)
Definition newEntry : stateEntry := mkEntry StateOK 0 zero_time zero_time "".

(** ** forecast.go *)

Record AlertForecastPoint := mkAlertForecastPoint {
  afp_Offset : Z;
  afp_Value : float64;
  afp_Lower : float64;
  afp_Upper : float64
}.

(** [ForecastForAlert instance metric horizon]. *)
Abbreviation ForecastProvider := (string -> string -> Z -> result (list AlertForecastPoint)).

(** ** store.go: the history store interface. [Record] may fill in the event's ID. *)

Class AlertHistoryStore (S : Type) := {
  ahs_Record : S -> AlertEvent -> S * result AlertEvent;
  ahs_Resolve : S -> string -> string -> Time -> S * option error;
  ahs_ListUnresolved : S -> result (list AlertEvent);
  ahs_Cleanup : S -> Duration -> Time -> S * result Z
}.

(** nullstore.go *)
Definition NullAlertHistoryStore : AlertHistoryStore unit := {|
  ahs_Record := fun s ev => (s, Ok ev);
  ahs_Resolve := fun s _ _ _ => (s, None);
  ahs_ListUnresolved := fun _ => Ok [];
  ahs_Cleanup := fun s _ _ => (s, Ok 0)
|}.

(** ** evaluator.go *)

Record Evaluator := mkEvaluator {
  ev_rules : list Rule;
  ev_state : gmap string stateEntry;
  ev_forecastProvider : option ForecastProvider;
  ev_forecastMinConsecutive : Z;
  ev_forecastCooldown : gmap string Time
}.

Definition NewEvaluator : Evaluator := mkEvaluator [] ∅ None 0 ∅.

Definition set_rules (rs : list Rule) (e : Evaluator) : Evaluator :=
  mkEvaluator rs (ev_state e) (ev_forecastProvider e) (ev_forecastMinConsecutive e)
    (ev_forecastCooldown e).

Definition set_state (st : gmap string stateEntry) (e : Evaluator) : Evaluator :=
  mkEvaluator (ev_rules e) st (ev_forecastProvider e) (ev_forecastMinConsecutive e)
    (ev_forecastCooldown e).

Definition set_forecastCooldown (cd : gmap string Time) (e : Evaluator) : Evaluator :=
  mkEvaluator (ev_rules e) (ev_state e) (ev_forecastProvider e) (ev_forecastMinConsecutive e) cd.

Definition LoadRules (listed : result (list Rule)) (e : Evaluator) : Evaluator * option error :=
  match listed with
  | Err err => (e, Some ("load enabled rules: " +:+ err))
  | Ok rules => (set_rules rules e, None)
  end.

Definition SetForecastProvider (fp : option ForecastProvider) (minConsecutive : Z)
    (e : Evaluator) : Evaluator :=
  mkEvaluator (ev_rules e) (ev_state e) fp minConsecutive (ev_forecastCooldown e).

Definition stateKey (ruleID instanceID : string) : string := ruleID +:+ ":" +:+ instanceID.

Section keys.
Context {SS : SliceSort} {MR : MapRange}.

Definition stateKeyWithLabels (ruleID instanceID : string) (labels : Labels) : string :=
  let key := ruleID +:+ ":" +:+ instanceID in
  if decide (0 < size labels)%nat then
    let keys := sort_slice string_ltb (map fst (map_range labels)) in
    foldl (fun key k => key +:+ ":" +:+ k +:+ "=" +:+ label_get labels k) key keys
  else key.

End keys.

(** [indexPoints]: from metric name to the points with that name, in batch order. *)
Definition indexPoints (points : list MetricPoint) : gmap string (list MetricPoint) :=
  foldl (fun index p => <[pt_Metric p := default [] (index !! pt_Metric p) ++ [p]]> index)
    ∅ points.

Definition labelsMatch {MR : MapRange} (required actual : Labels) : bool :=
  labels_match required actual.

Definition findMatchingPoints {MR : MapRange} (index : gmap string (list MetricPoint))
    (rule : Rule) : list MetricPoint :=
  match index !! r_Metric rule with
  | None => []
  | Some candidates =>
      if decide (size (r_Labels rule) = 0%nat) then candidates
      else List.filter (fun pt => labelsMatch (r_Labels rule) (pt_Labels pt)) candidates
  end.

Definition uniqueInstances (points : list MetricPoint) : list string :=
  map pt_InstanceID (dedup_key pt_InstanceID points).

Definition fireAlert (rule : Rule) (pt : MetricPoint) (entry : stateEntry) (now : Time)
    : stateEntry * option AlertEvent :=
  (mkEntry StateFiring (se_ConsecutiveCount entry) now now (se_Severity entry),
   Some (mkAlertEvent 0 (r_ID rule) (r_Name rule) (pt_InstanceID pt) (r_Severity rule)
           (pt_Value pt) (r_Threshold rule) (r_Operator rule) (r_Metric rule) (pt_Labels pt)
           (r_Channels rule) now None false [])).

Definition resolveAlert (rule : Rule) (pt : MetricPoint) (entry : stateEntry) (now : Time)
    : stateEntry * option AlertEvent :=
  let firedAt := se_FiredAt entry in
  (mkEntry StateOK 0 (se_FiredAt entry) (se_LastNotifiedAt entry) (se_Severity entry),
   Some (mkAlertEvent 0 (r_ID rule) (r_Name rule) (pt_InstanceID pt) (r_Severity rule)
           (pt_Value pt) (r_Threshold rule) (r_Operator rule) (r_Metric rule) (pt_Labels pt)
           (r_Channels rule) firedAt (Some now) true [])).

(** The state machine OK -> Pending -> Firing -> OK of one (rule, key). *)
Definition processTransition (rule : Rule) (pt : MetricPoint) (entry : stateEntry)
    (breached : bool) (now : Time) : stateEntry * option AlertEvent :=
  match se_State entry with
  | StateOK =>
      if breached then
        let entry' := mkEntry StatePending 1 (se_FiredAt entry) (se_LastNotifiedAt entry)
                        (r_Severity rule) in
        if r_ConsecutiveCount rule <=? 1 then fireAlert rule pt entry' now
        else (entry', None)
      else (entry, None)
  | StatePending =>
      if breached then
        let entry' := mkEntry StatePending (i64 (se_ConsecutiveCount entry + 1))
                        (se_FiredAt entry) (se_LastNotifiedAt entry) (se_Severity entry) in
        if r_ConsecutiveCount rule <=? se_ConsecutiveCount entry'
        then fireAlert rule pt entry' now
        else (entry', None)
      else (mkEntry StateOK 0 (se_FiredAt entry) (se_LastNotifiedAt entry)
              (se_Severity entry), None)
  | StateFiring =>
      if breached then (entry, None) else resolveAlert rule pt entry now
  end.

(** [recordEvent]: a fire is recorded, a resolution resolves. *)
Definition recordEvent {S} {HS : AlertHistoryStore S} (s : S) (event : AlertEvent)
    : S * result AlertEvent :=
  if e_IsResolution event then
    let '(s', err) := ahs_Resolve s (e_RuleID event) (e_InstanceID event)
                        (default zero_time (e_ResolvedAt event)) in
    (s', match err with None => Ok event | Some m => Err m end)
  else ahs_Record s event.

Section evaluator.
Context {SS : SliceSort} {MR : MapRange} {S : Type} {HS : AlertHistoryStore S}.

(** One (rule, point) step of the evaluation loop. *)
Definition evalPoint (now : Time) (rule : Rule) (acc : Evaluator * S * list AlertEvent)
    (pt : MetricPoint) : Evaluator * S * list AlertEvent :=
  let '(e, s, events) := acc in
  let key := stateKeyWithLabels (r_ID rule) (pt_InstanceID pt) (r_Labels rule) in
  let breached := Compare (r_Operator rule) (pt_Value pt) (r_Threshold rule) in
  let entry := default newEntry (ev_state e !! key) in
  let '(entry', event) := processTransition rule pt entry breached now in
  let e' := set_state (<[key := entry']> (ev_state e)) e in
  match event with
  | None => (e', s, events)
  | Some ev =>
      let '(s', r) := recordEvent s ev in
      (e', s', match r with Ok ev' => events ++ [ev'] | Err _ => events end)
  end.

Definition evalRule (now : Time) (index : gmap string (list MetricPoint))
    (acc : Evaluator * S * list AlertEvent) (rule : Rule) : Evaluator * S * list AlertEvent :=
  foldl (evalPoint now rule) acc (findMatchingPoints index rule).

(** The scan over forecast points: the value at which [required] consecutive points have
    breached, if any. *)
Fixpoint scanForecast (rule : Rule) (required consecutive : Z) (points : list AlertForecastPoint)
    : option float64 :=
  match points with
  | [] => None
  | pt :: points' =>
      let val := if r_UseLowerBound rule then afp_Lower pt else afp_Value pt in
      if Compare (r_Operator rule) val (r_Threshold rule) then
        if required <=? consecutive + 1 then Some val
        else scanForecast rule required (consecutive + 1) points'
      else scanForecast rule required 0 points'
  end.

Definition forecastRule (fp : ForecastProvider) (instanceID : string) (now : Time)
    (acc : Evaluator * S) (rule : Rule) : Evaluator * S :=
  let '(e, s) := acc in
  let required := if r_ConsecutivePointsRequired rule <=? 0
                  then ev_forecastMinConsecutive e
                  else r_ConsecutivePointsRequired rule in
  match fp instanceID (r_Metric rule) (i64 (required + 4)) with
  | Err _ => (e, s)
  | Ok points =>
      let cooldownKey := "forecast:" +:+ instanceID +:+ ":" +:+ r_Metric rule +:+ ":"
                           +:+ r_ID rule in
      let cooling := match ev_forecastCooldown e !! cooldownKey with
                     | Some expiry => time_Before now expiry
                     | None => false
                     end in
      if cooling then (e, s)
      else match scanForecast rule required 0 points with
           | None => (e, s)
           | Some val =>
               let event := mkAlertEvent 0 (r_ID rule) (r_Name rule) instanceID
                              (r_Severity rule) val (r_Threshold rule) (r_Operator rule)
                              (r_Metric rule) ∅ (r_Channels rule) now None false [] in
               let '(s', _) := recordEvent s event in
               let dur := dur_mul (r_CooldownMinutes rule) Minute in
               let cooldownDur := if dur <=? 0 then 15 * Minute else dur in
               (set_forecastCooldown
                  (<[cooldownKey := time_Add now cooldownDur]> (ev_forecastCooldown e)) e, s')
           end
  end.

Definition runForecastAlerts (now : Time) (acc : Evaluator * S) (instanceID : string)
    : Evaluator * S :=
  match ev_forecastProvider acc.1 with
  | None => acc
  | Some fp =>
      let rules := List.filter (fun r => bool_decide (r_Type r = RuleTypeForecastThreshold))
                     (ev_rules acc.1) in
      foldl (forecastRule fp instanceID now) acc rules
  end.

(** [Evaluate]: [now] is the clock of the threshold pass, [fnow i] the clock read when the
    forecast rules of instance [i] are evaluated. *)
Definition Evaluate (now : Time) (fnow : string -> Time) (e : Evaluator) (s : S)
    (points : list MetricPoint) : Evaluator * S * list AlertEvent :=
  let rules := ev_rules e in
  if (len rules =? 0) || (len points =? 0) then (e, s, [])
  else
    let index := indexPoints points in
    let '(e1, s1, events) := foldl (evalRule now index) (e, s, []) rules in
    let '(e2, s2) := foldl (fun acc instID => runForecastAlerts (fnow instID) acc instID)
                       (e1, s1) (uniqueInstances points) in
    (e2, s2, events).

(** [RestoreState]: every unresolved history event becomes a firing entry. *)
Definition RestoreState (s : S) (e : Evaluator) : Evaluator * option error :=
  match ahs_ListUnresolved s with
  | Err m => (e, Some ("restore alert state: " +:+ m))
  | Ok events =>
      (set_state
         (foldl (fun st ev =>
            <[stateKey (e_RuleID ev) (e_InstanceID ev) :=
                mkEntry StateFiring 0 (e_FiredAt ev) (e_FiredAt ev) (e_Severity ev)]> st)
            (ev_state e) events) e, None)
  end.

(** The retention that [StartCleanup] uses, and one cleanup run. *)
Definition cleanupRetention (retentionDays : Z) : Duration :=
  let days := if retentionDays <=? 0 then 30 else retentionDays in
  i64 (i64 (days * 24) * Hour).

Definition runCleanup (s : S) (retention : Duration) (now : Time) : S :=
  fst (ahs_Cleanup s retention now).

End evaluator.

(** ** pgstore.go: the alert_history table

    A row holds the columns of [eventColumns]; [scanEvent] rebuilds an event from it, so the
    rule name, the channels and the recommendations are not kept. An insert is refused when
    the rule is not one of alert_rules (a foreign key) or the severity is not one of the three
    levels (a check constraint). [pg_online] says whether the database answers; when it does
    not, every call fails and changes nothing. *)
Record PGHistory := mkPGHistory {
  pg_rows : list AlertEvent;
  pg_next_id : Z;
  pg_ruleIDs : gset string;
  pg_online : bool
}.

Definition validSeverity (s : Severity) : bool :=
  bool_decide (s ∈ [SeverityInfo; SeverityWarning; SeverityCritical]).

Definition rowOf (id : Z) (ev : AlertEvent) : AlertEvent :=
  mkAlertEvent id (e_RuleID ev) "" (e_InstanceID ev) (e_Severity ev) (e_Value ev)
    (e_Threshold ev) (e_Operator ev) (e_Metric ev) (e_Labels ev) [] (e_FiredAt ev) None false [].

Definition setID (id : Z) (ev : AlertEvent) : AlertEvent :=
  mkAlertEvent id (e_RuleID ev) (e_RuleName ev) (e_InstanceID ev) (e_Severity ev) (e_Value ev)
    (e_Threshold ev) (e_Operator ev) (e_Metric ev) (e_Labels ev) (e_Channels ev) (e_FiredAt ev)
    (e_ResolvedAt ev) (e_IsResolution ev) (e_Recommendations ev).

Definition setResolved (at_ : Time) (row : AlertEvent) : AlertEvent :=
  mkAlertEvent (e_ID row) (e_RuleID row) (e_RuleName row) (e_InstanceID row) (e_Severity row)
    (e_Value row) (e_Threshold row) (e_Operator row) (e_Metric row) (e_Labels row)
    (e_Channels row) (e_FiredAt row) (Some at_) true (e_Recommendations row).

Definition unresolved (row : AlertEvent) : bool := bool_decide (e_ResolvedAt row = None).

Definition pg_Record (s : PGHistory) (ev : AlertEvent) : PGHistory * result AlertEvent :=
  if pg_online s && bool_decide (e_RuleID ev ∈ pg_ruleIDs s) && validSeverity (e_Severity ev) then
    (mkPGHistory (pg_rows s ++ [rowOf (pg_next_id s) ev]) (pg_next_id s + 1) (pg_ruleIDs s) true,
     Ok (setID (pg_next_id s) ev))
  else (s, Err "record alert event").

Definition pg_Resolve (s : PGHistory) (ruleID instanceID : string) (resolvedAt : Time)
    : PGHistory * option error :=
  if pg_online s then
    (mkPGHistory
       (map (fun row =>
          if bool_decide (e_RuleID row = ruleID /\ e_InstanceID row = instanceID)
             && unresolved row
          then setResolved resolvedAt row else row) (pg_rows s))
       (pg_next_id s) (pg_ruleIDs s) true, None)
  else (s, Some "resolve alert").

Definition pg_ListUnresolved {SS : SliceSort} (s : PGHistory) : result (list AlertEvent) :=
  if pg_online s then
    Ok (sort_slice (fun a b => e_FiredAt b <? e_FiredAt a)
          (List.filter unresolved (pg_rows s)))
  else Err "list unresolved alerts".

Definition pg_Cleanup (s : PGHistory) (olderThan : Duration) (now : Time)
    : PGHistory * result Z :=
  if pg_online s then
    let seconds := f_trunc (dur_Seconds olderThan) in
    let old row := match e_ResolvedAt row with
                   | Some t => t <? now - seconds * Second
                   | None => false
                   end in
    let kept := List.filter (fun row => negb (old row)) (pg_rows s) in
    (mkPGHistory kept (pg_next_id s) (pg_ruleIDs s) true, Ok (len (pg_rows s) - len kept))
  else (s, Err "cleanup alert history").

#[global] Instance PGAlertHistoryStore {SS : SliceSort} : AlertHistoryStore PGHistory := {|
  ahs_Record := pg_Record;
  ahs_Resolve := pg_Resolve;
  ahs_ListUnresolved := pg_ListUnresolved;
  ahs_Cleanup := pg_Cleanup
|}.

(** ** A history whose statements may fail

    The next statements that write end as [fh_plan] says, and those after it run; whatever the plan, the
    table itself refuses what it does not accept. [fh_log] remembers the calls that were made: for which
    rule and instance, whether the table changed, and whether the caller was told so. *)
Record historyCall := mkHistoryCall {
  fc_RuleID : string;
  fc_InstanceID : string;
  fc_effect : bool;
  fc_answered : bool
}.

Record FlakyHistory := mkFlaky {
  fh_table : PGHistory;
  fh_plan : list outcome;
  fh_log : list historyCall
}.

Definition next_outcome (plan : list outcome) : outcome := match plan with o :: _ => o | [] => Ran end.

Definition err_lost : error := "connection reset by peer".

Definition fl_Record (s : FlakyHistory) (ev : AlertEvent) : FlakyHistory * result AlertEvent :=
  let o := next_outcome (fh_plan s) in
  let '(t, r) := pg_Record (fh_table s) ev in
  let taken := match r with Ok _ => true | Err _ => false end in
  (mkFlaky (if took_effect o then t else fh_table s) (tail (fh_plan s))
     (fh_log s ++ [mkHistoryCall (e_RuleID ev) (e_InstanceID ev) (taken && took_effect o) (taken && answered o)]),
   if answered o then r else Err err_lost).

Definition fl_Resolve (s : FlakyHistory) (ruleID instanceID : string) (resolvedAt : Time)
    : FlakyHistory * option error :=
  let o := next_outcome (fh_plan s) in
  let '(t, err) := pg_Resolve (fh_table s) ruleID instanceID resolvedAt in
  let taken := match err with None => true | Some _ => false end in
  (mkFlaky (if took_effect o then t else fh_table s) (tail (fh_plan s))
     (fh_log s ++ [mkHistoryCall ruleID instanceID (taken && took_effect o) (taken && answered o)]),
   if answered o then err else Some err_lost).

Definition fl_Cleanup (s : FlakyHistory) (olderThan : Duration) (now : Time) : FlakyHistory * result Z :=
  let o := next_outcome (fh_plan s) in
  let '(t, r) := pg_Cleanup (fh_table s) olderThan now in
  (mkFlaky (if took_effect o then t else fh_table s) (tail (fh_plan s)) (fh_log s),
   if answered o then r else Err err_lost).

#[global] Instance FlakyHistoryStore {SS : SliceSort} : AlertHistoryStore FlakyHistory := {|
  ahs_Record := fl_Record;
  ahs_Resolve := fl_Resolve;
  ahs_ListUnresolved := fun s => pg_ListUnresolved (fh_table s);
  ahs_Cleanup := fl_Cleanup
|}.

(** The calls made for a rule and an instance. *)
Definition callsOf (ruleID instanceID : string) (log : list historyCall) : list historyCall :=
  List.filter (fun c => String.eqb (fc_RuleID c) ruleID && String.eqb (fc_InstanceID c) instanceID) log.

(** Recording an event makes one call, for its rule and instance; the caller gets the event back, up to
    its id, exactly when the call was answered. *)
Lemma record_call {SS : SliceSort} (s : FlakyHistory) (ev : AlertEvent) :
  exists c, fh_log (recordEvent s ev).1 = fh_log s ++ [c] /\
    fc_RuleID c = e_RuleID ev /\ fc_InstanceID c = e_InstanceID ev /\
    match (recordEvent s ev).2 with
    | Ok ev' => fc_answered c = true /\ setID 0 ev' = setID 0 ev
    | Err _ => fc_answered c = false
    end.
Proof.
  unfold recordEvent. destruct (e_IsResolution ev) eqn:Er.
  - cbn [ahs_Resolve FlakyHistoryStore]. unfold fl_Resolve.
    destruct (pg_Resolve _ _ _ _) as [t err]. cbn [fst snd]. eexists. split; [reflexivity|].
    split_and!; [done|done|]. destruct (next_outcome _), err; cbn; done.
  - cbn [ahs_Record FlakyHistoryStore]. unfold fl_Record, pg_Record.
    destruct (_ && _ && _); cbn [fst snd]; (eexists; split; [reflexivity|]); split_and!; try done;
      by destruct (next_outcome _).
Qed.
