(* ===== verification/AlertRules.v ===== *)
(** * Alert rules: the builtin set and the rule store

    Models internal/alert/rules.go (the builtin rules), internal/alert/seed.go (seeding them at
    startup) and the rule half of internal/alert/pgstore.go over the alert_rules table of
    migration 004_alerts.sql. *)
From S2P Require Import Prelude Float64 Metric Alert.

Local Open Scope Z_scope.

(** ** rules.go *)

(** The fields every builtin rule shares: no labels, no channels, a plain threshold rule. *)
Definition builtin (id name description metric : string) (op : Operator) (threshold : float64)
    (severity : Severity) (consecutive cooldown : Z) (enabled : bool) : Rule :=
  mkRule id name description metric op threshold severity ∅ consecutive cooldown []
    SourceBuiltin enabled "" false 0.

Definition rule_wraparound_warning : Rule :=
  builtin "wraparound_warning" "Transaction ID Wraparound Warning"
    "Measures how close the oldest unfrozen transaction ID is to the 2-billion wraparound limit. At >20% usage, autovacuum may not keep up. Run VACUUM FREEZE on the databases with the oldest XID age."
    "pg.server.wraparound_pct" OpGreater (f_of_Z 20) SeverityWarning 3 15 true.

Definition rule_wraparound_critical : Rule :=
  builtin "wraparound_critical" "Transaction ID Wraparound Critical"
    "Transaction ID wraparound is imminent. PostgreSQL will stop accepting writes at 100% to prevent data loss. Run VACUUM FREEZE immediately on all affected databases and check that autovacuum workers are not blocked."
    "pg.server.wraparound_pct" OpGreater (f_of_Z 50) SeverityCritical 1 5 true.

Definition rule_multixact_warning : Rule :=
  builtin "multixact_warning" "MultiXact ID Wraparound Warning"
    "Measures MultiXact ID consumption relative to the wraparound limit. MultiXacts are used for row-level shared locks (SELECT FOR SHARE). If usage exceeds 20%, investigate long-held shared locks and run VACUUM FREEZE."
    "pg.server.multixact_pct" OpGreater (f_of_Z 20) SeverityWarning 3 15 true.

Definition rule_multixact_critical : Rule :=
  builtin "multixact_critical" "MultiXact ID Wraparound Critical"
    "MultiXact ID consumption at critical level. PostgreSQL will refuse writes if wraparound occurs. Immediately run VACUUM FREEZE and check for long-running transactions holding shared locks."
    "pg.server.multixact_pct" OpGreater (f_of_Z 50) SeverityCritical 1 5 true.

Definition rule_connections_warning : Rule :=
  builtin "connections_warning" "Connection Utilization Warning"
    "Percentage of max_connections currently in use. At >80%, connection exhaustion risk increases. Consider deploying PgBouncer, tuning application pool sizes, or increasing max_connections."
    "pg.connections.utilization_pct" OpGreater (f_of_Z 80) SeverityWarning 3 15 true.

Definition rule_connections_critical : Rule :=
  builtin "connections_critical" "Connection Utilization Critical"
    "Connection usage at or above 99% of max_connections. New client connections will be refused. Immediately terminate idle sessions and investigate connection leaks in the application layer."
    "pg.connections.utilization_pct" OpGreaterEqual (f_of_Z 99) SeverityCritical 1 5 true.

Definition rule_cache_hit_warning : Rule :=
  builtin "cache_hit_warning" "Cache Hit Ratio Low"
    "Ratio of pages served from shared_buffers vs. disk reads. Below 90% indicates excessive disk I/O. Consider increasing shared_buffers, adding missing indexes, or investigating sequential-scan-heavy queries."
    "pg.cache.hit_ratio" OpLess (fconst 90 100) SeverityWarning 3 15 true.

Definition rule_commit_ratio_warning : Rule :=
  builtin "commit_ratio_warning" "Commit Ratio Low"
    "Ratio of committed transactions to total (committed + rolled back). Below 95% signals a high rollback rate, often caused by application errors, deadlocks, or serialization failures. Review application logs for error patterns."
    "pg.transactions.commit_ratio_pct" OpLess (fconst 95 100) SeverityWarning 3 15 true.

Definition rule_replication_slot_inactive : Rule :=
  builtin "replication_slot_inactive" "Inactive Replication Slot"
    "A replication slot exists but has no active consumer. Inactive slots prevent WAL segment cleanup, causing unbounded disk growth. Drop the slot if the subscriber is permanently removed, or restart the subscriber."
    "pg.replication.slot.active" OpEqual (f_of_Z 0) SeverityWarning 3 30 true.

Definition rule_long_transaction_warning : Rule :=
  builtin "long_transaction_warning" "Long Running Transaction"
    "Oldest open transaction has been running for over 30 minutes. Long transactions hold back VACUUM, cause table bloat, and may block DDL operations. Identify the session with pg_stat_activity and consider terminating it."
    "pg.long_transactions.oldest_seconds" OpGreater (f_of_Z 1800) SeverityWarning 3 30 true.

Definition rule_long_transaction_critical : Rule :=
  builtin "long_transaction_critical" "Very Long Running Transaction"
    "A transaction has been open for over 2 hours. This causes significant table bloat, lock contention, and replication lag on replicas. Terminate the session immediately and investigate the application for missing commits."
    "pg.long_transactions.oldest_seconds" OpGreater (f_of_Z 7200) SeverityCritical 1 15 true.

Definition rule_table_bloat_warning : Rule :=
  builtin "table_bloat_warning" "Table Bloat Warning"
    "Estimated ratio of dead tuples to live tuples in a table. Above 50%, queries scan significantly more pages than necessary. Run VACUUM FULL or use pg_repack for online compaction."
    "pg.db.bloat.table_ratio" OpGreater (f_of_Z 50) SeverityWarning 3 60 true.

Definition rule_table_bloat_critical : Rule :=
  builtin "table_bloat_critical" "Table Bloat Critical"
    "Table bloat exceeds 80%, severely degrading query performance and wasting storage. Immediate compaction required via VACUUM FULL or pg_repack. Investigate why autovacuum is not keeping up."
    "pg.db.bloat.table_ratio" OpGreater (f_of_Z 80) SeverityCritical 1 15 true.

Definition rule_pgss_dealloc_warning : Rule :=
  builtin "pgss_dealloc_warning" "pg_stat_statements Near Capacity"
    "Tracks how full the pg_stat_statements hash table is. Above 95%, least-used entries are evicted and query statistics are lost. Increase pg_stat_statements.max in postgresql.conf and reload."
    "pg.extensions.pgss_fill_pct" OpGreater (f_of_Z 95) SeverityWarning 3 60 true.

Definition rule_replication_lag_warning : Rule :=
  builtin "replication_lag_warning" "Replication Lag Warning"
    "Total WAL bytes not yet replayed on the replica. Above 1 MB, the replica is falling behind the primary. Check replica I/O throughput, network latency, and whether long queries on the replica are blocking recovery."
    "pg.replication.lag.total_bytes" OpGreater (f_of_Z 1048576) SeverityWarning 3 15 true.

Definition rule_replication_lag_critical : Rule :=
  builtin "replication_lag_critical" "Replication Lag Critical"
    "Replication lag exceeds 100 MB. The replica is significantly behind and may serve stale reads. Investigate replica resource constraints, network issues, or long-running recovery conflicts."
    "pg.replication.lag.total_bytes" OpGreater (f_of_Z 104857600) SeverityCritical 1 5 true.

Definition rule_logical_repl_pending_sync : Rule :=
  builtin "logical_repl_pending_sync" "Logical Replication Pending Sync"
    "Number of tables in a logical replication subscription that have not completed initial synchronization. Tables in pending state will not receive replicated changes until sync completes. Check pg_subscription_rel for details."
    "pg.db.logical_replication.pending_sync_tables" OpGreater (f_of_Z 0) SeverityWarning 3 10 false.

Definition rule_wal_spike_warning : Rule :=
  builtin "wal_spike_warning" "WAL Generation Spike"
    "WAL generation rate compared to the ML-computed baseline. A 3x spike indicates an unusual write burst (bulk load, REINDEX, or unexpected DML). Investigate active queries and check for unplanned batch jobs."
    "pg.wal.spike_ratio" OpGreater (f_of_Z 3) SeverityWarning 3 30 false.

Definition rule_query_regression_warning : Rule :=
  builtin "query_regression_warning" "Query Performance Regression"
    "A query's execution time exceeds 2x its ML-computed historical baseline. Often caused by plan changes, table bloat, or statistics drift. Run EXPLAIN ANALYZE and compare with cached plans."
    "pg.statements.regression_ratio" OpGreater (f_of_Z 2) SeverityWarning 3 30 false.

Definition rule_disk_forecast_critical : Rule :=
  builtin "disk_forecast_critical" "Disk Space Forecast Critical"
    "ML-projected days until disk exhaustion based on observed growth trend. Below 7 days, take immediate action: add storage, archive old data, or run VACUUM FULL on bloated tables."
    "pg.disk.days_remaining" OpLess (f_of_Z 7) SeverityCritical 3 60 false.

Definition rule_ml_anomaly_warning : Rule :=
  builtin "ml_anomaly_warning" "ML Anomaly Warning"
    "A metric's Z-score exceeds the warning threshold (3.0), indicating a statistically significant deviation from learned behavior. Review the anomalous metric in context of recent changes or workload shifts."
    "anomaly." OpGreater (f_of_Z 3) SeverityWarning 1 15 true.

Definition rule_ml_anomaly_critical : Rule :=
  builtin "ml_anomaly_critical" "ML Anomaly Critical"
    "A metric's Z-score exceeds the critical threshold (5.0), indicating an extreme deviation from baseline. This typically signals a serious issue requiring immediate investigation."
    "anomaly." OpGreater (f_of_Z 5) SeverityCritical 1 5 true.

Definition BuiltinRules : list Rule :=
  [ rule_wraparound_warning;
    rule_wraparound_critical;
    rule_multixact_warning;
    rule_multixact_critical;
    rule_connections_warning;
    rule_connections_critical;
    rule_cache_hit_warning;
    rule_commit_ratio_warning;
    rule_replication_slot_inactive;
    rule_long_transaction_warning;
    rule_long_transaction_critical;
    rule_table_bloat_warning;
    rule_table_bloat_critical;
    rule_pgss_dealloc_warning;
    rule_replication_lag_warning;
    rule_replication_lag_critical;
    rule_logical_repl_pending_sync;
    rule_wal_spike_warning;
    rule_query_regression_warning;
    rule_disk_forecast_critical;
    rule_ml_anomaly_warning;
    rule_ml_anomaly_critical ].

(** ** pgstore.go: alert_rules, keyed by id

    The table has a column for every field of a rule but [Type], [UseLowerBound] and
    [ConsecutivePointsRequired], which none of the statements reads or writes. *)
Definition persisted (r : Rule) : Rule :=
  mkRule (r_ID r) (r_Name r) (r_Description r) (r_Metric r) (r_Operator r) (r_Threshold r)
    (r_Severity r) (r_Labels r) (r_ConsecutiveCount r) (r_CooldownMinutes r) (r_Channels r)
    (r_Source r) (r_Enabled r) "" false 0.

(** The check constraints on severity, operator and source, and the range of the INTEGER
    columns. *)
Definition rowAllowed (r : Rule) : bool :=
  validSeverity (r_Severity r) && in_int4 (r_ConsecutiveCount r) &&
  in_int4 (r_CooldownMinutes r) &&
  bool_decide (r_Operator r ∈ [OpGreater; OpGreaterEqual; OpLess; OpLessEqual; OpEqual;
                               OpNotEqual]) &&
  bool_decide (r_Source r ∈ [SourceBuiltin; SourceCustom]).

Abbreviation RuleTable := (gmap string Rule).

Definition rs_List {SS : SliceSort} {MR : MapRange} (t : RuleTable) : list Rule :=
  sort_slice (fun a b => string_ltb (r_ID a) (r_ID b)) (map snd (map_range t)).

Definition rs_ListEnabled {SS : SliceSort} {MR : MapRange} (t : RuleTable) : list Rule :=
  sort_slice (fun a b => string_ltb (r_ID a) (r_ID b))
    (List.filter r_Enabled (map snd (map_range t))).

Definition rs_Get (t : RuleTable) (id : string) : result Rule :=
  match t !! id with Some r => Ok r | None => Err "alert rule not found" end.

Definition rs_Create (t : RuleTable) (r : Rule) : RuleTable * option error :=
  if bool_decide (t !! r_ID r = None) && rowAllowed r
  then (<[r_ID r := persisted r]> t, None)
  else (t, Some "create rule").

(** [Update] keeps the row's source. *)
Definition rs_Update (t : RuleTable) (r : Rule) : RuleTable * option error :=
  match t !! r_ID r with
  | None => (t, None)
  | Some old =>
      let new := mkRule (r_ID r) (r_Name r) (r_Description r) (r_Metric r) (r_Operator r)
                   (r_Threshold r) (r_Severity r) (r_Labels r) (r_ConsecutiveCount r)
                   (r_CooldownMinutes r) (r_Channels r) (r_Source old) (r_Enabled r) "" false 0 in
      if rowAllowed new then (<[r_ID r := new]> t, None) else (t, Some "update rule")
  end.

Definition rs_Delete (t : RuleTable) (id : string) : RuleTable := delete id t.

(** INSERT ... ON CONFLICT (id) DO UPDATE ... WHERE alert_rules.source = 'builtin'. *)
Definition rs_UpsertBuiltin (t : RuleTable) (r : Rule) : RuleTable * option error :=
  if rowAllowed r then
    match t !! r_ID r with
    | None => (<[r_ID r := persisted r]> t, None)
    | Some old =>
        if decide (r_Source old = SourceBuiltin) then
          (<[r_ID r :=
               mkRule (r_ID old) (r_Name r) (r_Description r) (r_Metric r) (r_Operator r)
                 (r_Threshold old) (r_Severity r) (r_Labels r) (r_ConsecutiveCount old)
                 (r_CooldownMinutes old) (r_Channels old) (r_Source old) (r_Enabled old)
                 "" false 0]> t, None)
        else (t, None)
    end
  else (t, Some "upsert builtin rule").

(** ** seed.go *)

Fixpoint seedRules (t : RuleTable) (rules : list Rule) : RuleTable * option error :=
  match rules with
  | [] => (t, None)
  | r :: rules' =>
      match rs_UpsertBuiltin t r with
      | (t', None) => seedRules t' rules'
      | (t', Some err) => (t', Some ("seed rule " +:+ r_ID r +:+ ": " +:+ err))
      end
  end.

Definition SeedBuiltinRules (t : RuleTable) : RuleTable * option error :=
  seedRules t BuiltinRules.

(** ** Lemmas *)

(** The row an upsert leaves for a builtin rule. *)
Definition upsertRow (o : option Rule) (r : Rule) : Rule :=
  match o with
  | None => persisted r
  | Some old =>
      if decide (r_Source old = SourceBuiltin) then
        mkRule (r_ID old) (r_Name r) (r_Description r) (r_Metric r) (r_Operator r)
          (r_Threshold old) (r_Severity r) (r_Labels r) (r_ConsecutiveCount old)
          (r_CooldownMinutes old) (r_Channels old) (r_Source old) (r_Enabled old) "" false 0
      else old
  end.

Lemma upsert_lookup (t : RuleTable) (r : Rule) (id : string) :
  rowAllowed r = true ->
  (rs_UpsertBuiltin t r).2 = None /\
  (rs_UpsertBuiltin t r).1 !! id
    = if decide (r_ID r = id) then Some (upsertRow (t !! id) r) else t !! id.
Proof.
  intros Ha. unfold rs_UpsertBuiltin. rewrite Ha.
  case_decide as Hid.
  - subst id. unfold upsertRow. destruct (t !! r_ID r) as [old|] eqn:E; simpl.
    + case_decide; simpl; [by rewrite lookup_insert_eq|done].
    + by rewrite lookup_insert_eq.
  - destruct (t !! r_ID r) as [old|] eqn:E; simpl; [case_decide; simpl|];
      rewrite ?lookup_insert_ne by done; done.
Qed.

Lemma seed_lookup (rules : list Rule) (t : RuleTable) (id : string) :
  forallb rowAllowed rules = true -> NoDup (map r_ID rules) ->
  (seedRules t rules).2 = None /\
  (seedRules t rules).1 !! id
    = match list_find (fun r => r_ID r = id) rules with
      | Some (_, r) => Some (upsertRow (t !! id) r)
      | None => t !! id
      end.
Proof.
  revert t. induction rules as [|r rules IH]; intros t Ha Hn; [done|].
  simpl in Ha, Hn. apply andb_true_iff in Ha as [Ha1 Ha2].
  apply NoDup_cons in Hn as [Hni Hn].
  simpl. destruct (upsert_lookup t r id Ha1) as [He Hl].
  destruct (rs_UpsertBuiltin t r) as [t' err]. simpl in He, Hl. subst err.
  destruct (IH t' Ha2 Hn) as [IH1 IH2]. split; [done|]. rewrite IH2, Hl.
  case_decide as Hid.
  - subst id. destruct (list_find _ rules) as [[i r']|] eqn:Ef; [|done].
    apply list_find_Some in Ef as (Hi & Heq & _). exfalso. apply Hni.
    rewrite <- Heq. apply (list_elem_of_fmap_2 r_ID). by eapply list_elem_of_lookup_2.
  - by destruct (list_find _ rules) as [[i r']|].
Qed.

Lemma upsertRow_idem (o : option Rule) (r : Rule) :
  r_Source r = SourceBuiltin -> upsertRow (Some (upsertRow o r)) r = upsertRow o r.
Proof.
  intros Hs. destruct o as [old|]; simpl.
  - repeat case_decide; simpl in *; congruence.
  - unfold persisted. rewrite decide_True by done. done.
Qed.

Lemma builtin_allowed : forallb rowAllowed BuiltinRules = true.
Proof. vm_compute. reflexivity. Qed.

Lemma builtin_nodup : NoDup (map r_ID BuiltinRules).
Proof. apply (bool_decide_unpack _). vm_compute. exact I. Qed.

Lemma builtin_source (r : Rule) : r ∈ BuiltinRules -> r_Source r = SourceBuiltin.
Proof.
  revert r. apply list.Forall_forall. apply (bool_decide_unpack _). vm_compute. exact I.
Qed.

Lemma builtin_seed (t : RuleTable) (id : string) :
  (SeedBuiltinRules t).1 !! id
    = match list_find (fun r => r_ID r = id) BuiltinRules with
      | Some (_, r) => Some (upsertRow (t !! id) r)
      | None => t !! id
      end.
Proof. apply seed_lookup; [apply builtin_allowed|apply builtin_nodup]. Qed.

(** No statement of the store writes a forecast rule. *)
Definition plain (t : RuleTable) : Prop := map_Forall (fun _ r => r_Type r = "") t.

(** The tables the store's statements can produce from an empty table. *)
Inductive table_reachable : RuleTable -> Prop :=
  | tr_empty : table_reachable ∅
  | tr_create t r : table_reachable t -> table_reachable (rs_Create t r).1
  | tr_update t r : table_reachable t -> table_reachable (rs_Update t r).1
  | tr_delete t id : table_reachable t -> table_reachable (rs_Delete t id)
  | tr_upsert t r : table_reachable t -> table_reachable (rs_UpsertBuiltin t r).1.

Lemma table_reachable_plain (t : RuleTable) : table_reachable t -> plain t.
Proof.
  unfold plain. induction 1 as [|t r H IH|t r H IH|t id H IH|t r H IH].
  - apply map_Forall_empty.
  - unfold rs_Create. destr_ifs; [|done]. by apply map_Forall_insert_2.
  - unfold rs_Update. destruct (t !! r_ID r); [|done]. destr_ifs; [|done].
    by apply map_Forall_insert_2.
  - by apply map_Forall_delete.
  - unfold rs_UpsertBuiltin. destruct (rowAllowed r); [|done].
    destruct (t !! r_ID r); [case_decide; [|done]|]; by apply map_Forall_insert_2.
Qed.

Lemma elem_of_ListEnabled {SS : SliceSort} {MR : MapRange} (t : RuleTable) (r : Rule) :
  r ∈ rs_ListEnabled t <-> r_Enabled r = true /\ exists id, t !! id = Some r.
Proof.
  unfold rs_ListEnabled. rewrite sort_slice_perm, list_elem_of_In, filter_In,
    <- list_elem_of_In. split.
  - intros [Hr He]. split; [done|]. apply list_elem_of_fmap in Hr as ([id r'] & -> & Hr).
    rewrite map_range_perm, elem_of_map_to_list in Hr. eauto.
  - intros [He (id & Hr)]. split; [|done]. apply list_elem_of_fmap. exists (id, r).
    split; [done|]. by rewrite map_range_perm, elem_of_map_to_list.
Qed.

(** ** Properties *)

(** Seeding the builtin rules at startup never fails, is idempotent, leaves every rule
    whose source is not builtin as it is, and on an existing builtin rule keeps what the user
    may have changed: threshold, consecutive count, cooldown, channels and the enabled flag. *)
Theorem seed_preserves_user_changes (t : RuleTable) :
  let t' := (SeedBuiltinRules t).1 in
  (SeedBuiltinRules t).2 = None /\ (SeedBuiltinRules t').1 = t' /\
  forall id old, t !! id = Some old ->
    exists new, t' !! id = Some new /\
      (r_Source old <> SourceBuiltin -> new = old) /\
      r_Threshold new = r_Threshold old /\ r_ConsecutiveCount new = r_ConsecutiveCount old /\
      r_CooldownMinutes new = r_CooldownMinutes old /\ r_Channels new = r_Channels old /\
      r_Enabled new = r_Enabled old /\ r_Source new = r_Source old.
Proof.
  cbv zeta. split; [|split].
  - apply (seed_lookup BuiltinRules t ""); [apply builtin_allowed|apply builtin_nodup].
  - apply map_eq. intros id. rewrite !builtin_seed.
    destruct (list_find _ _) as [[i r]|] eqn:E; [|done]. f_equal.
    apply upsertRow_idem, builtin_source.
    apply list_find_Some in E as (Hi & _). by eapply list_elem_of_lookup_2.
  - intros id old Ho. rewrite builtin_seed, Ho.
    destruct (list_find _ _) as [[i r]|]; simpl; [case_decide|]; naive_solver.
Qed.

(** A forecast rule cannot survive its store: whatever sequence of create, update,
    delete and upsert statements produced the table, every rule that [LoadRules] gets from
    [ListEnabled] has an empty type, so the forecast pass of the evaluator selects no rule
    and leaves the evaluator and the history unchanged. *)
Theorem forecast_rules_lost_in_store {SS : SliceSort} {MR : MapRange} {S : Type}
    {HS : AlertHistoryStore S} (t : RuleTable) (e : Evaluator) (s : S) (now : Time)
    (instanceID : string) :
  table_reachable t ->
  let e' := (LoadRules (Ok (rs_ListEnabled t)) e).1 in
  runForecastAlerts now (e', s) instanceID = (e', s).
Proof.
  intros Ht. apply table_reachable_plain in Ht. simpl. unfold runForecastAlerts. simpl.
  destruct (ev_forecastProvider e) as [fp|]; [|done].
  replace (List.filter _ (rs_ListEnabled t)) with (@nil Rule); [done|]. symmetry.
  apply filter_none. intros r Hr. apply elem_of_ListEnabled in Hr as [_ [id Hr]].
  apply bool_decide_eq_false. rewrite (Ht id r Hr). done.
Qed.

(** ** Witnesses *)

Definition demoForecastRule : Rule :=
  mkRule "disk" "Disk" "" "pg.disk" OpGreater (f_of_Z 90) SeverityCritical ∅ 1 15 []
    SourceCustom true RuleTypeForecastThreshold false 2.

Lemma forecast_rules_lost_in_store_witness :
  let t := (rs_Create ∅ demoForecastRule).1 in
  let SS := insertion_SliceSort in
  let MR := canonical_MapRange in
  let HS := NullAlertHistoryStore in
  let e := SetForecastProvider (Some (fun _ _ _ => Ok [])) 2 NewEvaluator in
  let e' := (LoadRules (Ok (rs_ListEnabled t)) e).1 in
  length (ev_rules e') = 1%nat /\ runForecastAlerts 0 (e', tt) "db1" = (e', tt).
Proof.
  split; [vm_compute; reflexivity|].
  apply (@forecast_rules_lost_in_store insertion_SliceSort canonical_MapRange unit
           NullAlertHistoryStore).
  apply tr_create, tr_empty.
Defined.
