(* ===== verification/AlertMachine.v ===== *)
(** * The alert state machine against its abstract specification

    The specification of one (rule, key) state machine is a function of the breach history
    alone: the length of the trailing run of breaches. The theorems show that
    [processTransition] implements it, and describe the events it emits. *)
From S2P Require Import Prelude Float64 Metric Alert AlertRules.

Local Open Scope Z_scope.

(** ** Specification *)

(** Length of the leading run of breaches. *)
Fixpoint lead_run (h : list bool) : Z :=
  match h with
  | true :: h' => 1 + lead_run h'
  | _ => 0
  end.

(** Length of the trailing run: breaches since the last non-breach, newest last. *)
Definition trailing_run (h : list bool) : Z := lead_run (reverse h).

(** Breaches a rule needs before it fires: a count of 0 or less acts as 1. *)
Definition needed (rule : Rule) : Z := Z.max 1 (r_ConsecutiveCount rule).

(** The state the specification prescribes for a trailing run of [r] breaches. *)
Definition spec_state (n r : Z) : AlertState :=
  if n <=? r then StateFiring else if 0 <? r then StatePending else StateOK.

Definition breach (rule : Rule) (pt : MetricPoint) : bool :=
  Compare (r_Operator rule) (pt_Value pt) (r_Threshold rule).

Definition breaches (rule : Rule) (l : list (MetricPoint * Time)) : list bool :=
  map (fun x => breach rule x.1) l.

(** The machine run on a sequence of timed points, collecting its events. *)
Definition feedStep (rule : Rule) (acc : stateEntry * list AlertEvent)
    (x : MetricPoint * Time) : stateEntry * list AlertEvent :=
  let '(entry, evs) := acc in
  let '(entry', ev) := processTransition rule x.1 entry (breach rule x.1) x.2 in
  (entry', evs ++ option_list ev).

Definition feed (rule : Rule) (l : list (MetricPoint * Time)) : stateEntry * list AlertEvent :=
  foldl (feedStep rule) (newEntry, []) l.

(** Fires and resolutions alternate: from a machine that is firing or not ([b]) to one that is
    firing or not ([b']). *)
Fixpoint alternates (b : bool) (l : list AlertEvent) (b' : bool) : Prop :=
  match l with
  | [] => b = b'
  | ev :: l' => e_IsResolution ev = b /\ alternates (negb b) l' b'
  end.

(** ** Lemmas *)

Lemma trailing_run_snoc (h : list bool) (b : bool) :
  trailing_run (h ++ [b]) = if b then trailing_run h + 1 else 0.
Proof. unfold trailing_run. rewrite reverse_snoc. destruct b; simpl; lia. Qed.

Lemma lead_run_nonneg (h : list bool) : 0 <= lead_run h.
Proof. induction h as [|[] h IH]; simpl; lia. Qed.

Lemma trailing_run_nonneg (h : list bool) : 0 <= trailing_run h.
Proof. apply lead_run_nonneg. Qed.

Lemma feed_snoc (rule : Rule) l x : feed rule (l ++ [x]) = feedStep rule (feed rule l) x.
Proof. unfold feed. by rewrite foldl_app. Qed.

(** The simulation relation between an entry and a trailing run. *)
Definition sim (rule : Rule) (r : Z) (entry : stateEntry) : Prop :=
  0 <= r /\ se_State entry = spec_state (needed rule) r /\
  (se_State entry = StatePending -> se_ConsecutiveCount entry = r).

Ltac spec_cases :=
  unfold spec_state, needed in *;
  repeat match goal with
  | H : context [Z.leb ?a ?b] |- _ => destruct (Z.leb_spec a b)
  | |- context [Z.leb ?a ?b] => destruct (Z.leb_spec a b)
  | H : context [Z.ltb ?a ?b] |- _ => destruct (Z.ltb_spec a b)
  | |- context [Z.ltb ?a ?b] => destruct (Z.ltb_spec a b)
  end.

(** The machine simulates the specification, one step. *)
Lemma sim_step (rule : Rule) (r : Z) (entry : stateEntry) (pt : MetricPoint) (b : bool)
    (now : Time) :
  r_ConsecutiveCount rule <= max_i64 -> sim rule r entry ->
  let '(entry', ev) := processTransition rule pt entry b now in
  sim rule (if b then r + 1 else 0) entry' /\
  match ev with
  | None => (b = true /\ r + 1 <> needed rule) \/ (b = false /\ r < needed rule)
  | Some e => e_IsResolution e = negb b /\
      if b then r + 1 = needed rule else needed rule <= r
  end.
Proof.
  intros Hmax (H0 & Hs & Hc). unfold processTransition, fireAlert, resolveAlert.
  destruct (se_State entry) eqn:Est; destruct b; simpl in *.
  - assert (r = 0) as -> by (spec_cases; congruence || lia).
    spec_cases; simpl; unfold sim; simpl; spec_cases; repeat split; auto; try lia; try done.
  - unfold sim. spec_cases; try congruence; rewrite ?Est; simpl; repeat split; auto; try lia;
      try done.
  - specialize (Hc eq_refl). assert (in_i64 (r + 1)) as Hi.
    { unfold in_i64, min_i64. spec_cases; try congruence; lia. }
    rewrite Hc, (i64_id _ Hi). spec_cases; try congruence; simpl; unfold sim; simpl;
      spec_cases; repeat split; auto; try lia; try done.
  - unfold sim. spec_cases; try congruence; simpl; repeat split; auto; try lia; try done.
  - unfold sim. spec_cases; try congruence; rewrite ?Est; simpl; repeat split; auto; try lia;
      try done.
  - unfold sim. spec_cases; try congruence; simpl; repeat split; auto; try lia; try done.
Qed.

Lemma sim_new (rule : Rule) : sim rule 0 newEntry.
Proof. unfold sim. simpl. spec_cases; repeat split; auto; lia || discriminate. Qed.

Lemma feed_sim (rule : Rule) (l : list (MetricPoint * Time)) :
  r_ConsecutiveCount rule <= max_i64 ->
  sim rule (trailing_run (breaches rule l)) (feed rule l).1.
Proof.
  intros Hmax. induction l as [|x l IH] using rev_ind; [apply sim_new|].
  rewrite feed_snoc. unfold breaches. rewrite map_app. simpl. rewrite trailing_run_snoc.
  unfold feedStep. destruct (feed rule l) as [entry evs] eqn:Ef.
  pose proof (sim_step rule _ _ x.1 (breach rule x.1) x.2 Hmax IH) as Hstep.
  simpl in Hstep. destruct (processTransition _ _ _ _ _) as [entry' ev]. apply Hstep.
Qed.

Lemma alternates_snoc (b c : bool) (l : list AlertEvent) (ev : AlertEvent) :
  alternates b l c -> e_IsResolution ev = c -> alternates b (l ++ [ev]) (negb c).
Proof.
  revert b. induction l as [|x l IH]; intros b; simpl.
  - by intros -> <-.
  - intros [? ?] ?. split; [done|]. by apply IH.
Qed.

Lemma feed_alternates (rule : Rule) (l : list (MetricPoint * Time)) :
  r_ConsecutiveCount rule <= max_i64 ->
  alternates false (feed rule l).2 (needed rule <=? trailing_run (breaches rule l)).
Proof.
  intros Hmax. induction l as [|x l IH] using rev_ind.
  { simpl. symmetry. apply Z.leb_gt. unfold needed, trailing_run. simpl. lia. }
  pose proof (feed_sim rule l Hmax) as Hsim.
  rewrite feed_snoc. unfold breaches. rewrite map_app. simpl. rewrite trailing_run_snoc.
  unfold feedStep. destruct (feed rule l) as [entry evs] eqn:Ef.
  pose proof (sim_step rule _ _ x.1 (breach rule x.1) x.2 Hmax Hsim) as Hstep.
  simpl in *. fold (breaches rule l).
  destruct (processTransition _ _ _ _ _) as [entry' ev].
  destruct Hstep as [_ Hev], Hsim as [H0 _].
  destruct ev as [e|]; simpl.
  - destruct Hev as [Hr Hn].
    replace (needed rule <=? _)
      with (negb (needed rule <=? trailing_run (breaches rule l))).
    + apply alternates_snoc; [done|]. rewrite Hr.
      destruct (breach rule x.1); simpl; symmetry; [apply Z.leb_gt|apply Z.leb_le]; lia.
    + destruct (breach rule x.1); spec_cases; try done; lia.
  - rewrite app_nil_r. destruct Hev as [[-> Hn]|[-> Hn]].
    + replace (needed rule <=? trailing_run (breaches rule l) + 1)
        with (needed rule <=? trailing_run (breaches rule l)); [done|].
      spec_cases; try done; lia.
    + replace (needed rule <=? 0) with (needed rule <=? trailing_run (breaches rule l));
        [done|]. spec_cases; try done; lia.
Qed.

(** ** Properties *)

(** C2: Refinement of the alert state machine. After any history of points, the entry of a
    rule is firing exactly when the trailing run of breaches has reached
    [max 1 ConsecutiveCount], pending with that run as its count when the run is shorter, and
    OK when the last point did not breach. *)
Theorem alert_machine_refines_run (rule : Rule) (l : list (MetricPoint * Time)) :
  r_ConsecutiveCount rule <= max_i64 ->
  let r := trailing_run (breaches rule l) in
  let entry := (feed rule l).1 in
  se_State entry = spec_state (needed rule) r /\
  (se_State entry = StatePending -> se_ConsecutiveCount entry = r /\ 0 < r < needed rule).
Proof.
  intros Hmax. destruct (feed_sim rule l Hmax) as (H0 & Hs & Hc). simpl.
  split; [done|]. intros Hp. split; [by apply Hc|]. rewrite Hp in Hs. revert Hs.
  unfold spec_state. destr_ifs; zb; congruence || lia.
Qed.

(** Events of the alert state machine. One more point emits a fire event exactly when it
    completes a run of [max 1 ConsecutiveCount] breaches, and a resolution exactly when it
    does not breach and the rule was firing; in every other case it emits nothing. *)
Theorem alert_machine_events (rule : Rule) (l : list (MetricPoint * Time)) (pt : MetricPoint)
    (now : Time) :
  r_ConsecutiveCount rule <= max_i64 ->
  let r := trailing_run (breaches rule l) in
  let b := breach rule pt in
  match (processTransition rule pt (feed rule l).1 b now).2 with
  | Some ev => (e_IsResolution ev = false /\ b = true /\ r + 1 = needed rule) \/
               (e_IsResolution ev = true /\ b = false /\ needed rule <= r)
  | None => (b = true /\ r + 1 <> needed rule) \/ (b = false /\ r < needed rule)
  end.
Proof.
  intros Hmax. cbv zeta.
  pose proof (sim_step rule _ _ pt (breach rule pt) now Hmax (feed_sim rule l Hmax)) as H.
  destruct (processTransition _ _ _ _ _) as [entry' [ev|]]; simpl in *; [|apply H].
  destruct H as [_ [Hr Hn]]. destruct (breach rule pt); simpl in Hr; tauto.
Qed.

(** Fire and resolution events of one rule and key strictly alternate, starting with a
    fire: there is never a second fire without a resolution between them, nor a resolution of
    an alert that is not firing. The last event is a fire exactly when the rule is firing. *)
Theorem alert_events_alternate (rule : Rule) (l : list (MetricPoint * Time)) :
  r_ConsecutiveCount rule <= max_i64 ->
  alternates false (feed rule l).2 (bool_decide (se_State (feed rule l).1 = StateFiring)).
Proof.
  intros Hmax. replace (bool_decide _) with (needed rule <=? trailing_run (breaches rule l)).
  { by apply feed_alternates. }
  destruct (feed_sim rule l Hmax) as (H0 & Hs & _). rewrite Hs. unfold spec_state.
  destr_ifs; done.
Qed.

(** ** Witnesses *)

Definition demoRule : Rule :=
  mkRule "lag" "Lag" "" "pg.lag" OpGreater (f_of_Z 80) SeverityWarning ∅ 3 15 []
    SourceCustom true "" false 0.

Definition demoPoint (v : Z) : MetricPoint := mkPoint "db1" "pg.lag" (f_of_Z v) ∅ 0.

Definition demoHistory : list (MetricPoint * Time) :=
  [(demoPoint 10, 0); (demoPoint 90, Second); (demoPoint 95, 2 * Second);
   (demoPoint 99, 3 * Second)].

Lemma alert_machine_refines_run_witness :
  trailing_run (breaches demoRule demoHistory) = 3 /\
  se_State (feed demoRule demoHistory).1 = StateFiring.
Proof.
  split; [vm_compute; reflexivity|].
  assert (r_ConsecutiveCount demoRule <= max_i64) as H by (vm_compute; discriminate).
  exact (proj1 (alert_machine_refines_run demoRule demoHistory H)).
Defined.

Lemma alert_machine_events_witness :
  match (processTransition demoRule (demoPoint 5) (feed demoRule demoHistory).1
           (breach demoRule (demoPoint 5)) (4 * Second)).2 with
  | Some ev => e_IsResolution ev = true
  | None => False
  end.
Proof.
  assert (r_ConsecutiveCount demoRule <= max_i64) as H by (vm_compute; discriminate).
  pose proof (alert_machine_events demoRule demoHistory (demoPoint 5) (4 * Second) H) as E.
  vm_compute in E |- *. destruct E as [(? & ? & ?)|(? & ? & ?)]; congruence.
Defined.

Lemma alert_events_alternate_witness :
  alternates false (feed demoRule demoHistory).2 true.
Proof.
  assert (r_ConsecutiveCount demoRule <= max_i64) as H by (vm_compute; discriminate).
  exact (alert_events_alternate demoRule demoHistory H).
Defined.

(** * Theorems on the alert evaluator

    Point matching through the index against a linear scan, and isolation of the per-key state
    machines inside one batch. *)

(** ** Matching *)

(** The specification of matching: a linear scan of the batch. *)
Definition matches {MR : MapRange} (rule : Rule) (pt : MetricPoint) : bool :=
  bool_decide (pt_Metric pt = r_Metric rule) && labels_match (r_Labels rule) (pt_Labels pt).

Lemma indexPoints_snoc (points : list MetricPoint) (p : MetricPoint) :
  indexPoints (points ++ [p])
    = <[pt_Metric p := default [] (indexPoints points !! pt_Metric p) ++ [p]]>
        (indexPoints points).
Proof. unfold indexPoints. by rewrite foldl_app. Qed.

Lemma indexPoints_lookup (points : list MetricPoint) (m : string) :
  default [] (indexPoints points !! m)
    = List.filter (fun p => bool_decide (pt_Metric p = m)) points.
Proof.
  induction points as [|p points IH] using rev_ind; [done|].
  rewrite indexPoints_snoc, List.filter_app, <- IH. simpl.
  destruct (decide (pt_Metric p = m)) as [<-|Hne].
  - rewrite lookup_insert_eq, bool_decide_true by done. done.
  - rewrite lookup_insert_ne, bool_decide_false, app_nil_r by done. done.
Qed.

Lemma filter_filter_bool {A} (f g : A -> bool) (l : list A) :
  List.filter f (List.filter g l) = List.filter (fun x => g x && f x) l.
Proof.
  induction l as [|x l IH]; simpl; [done|].
  destruct (g x) eqn:E; simpl; [destruct (f x)|]; rewrite IH; done.
Qed.

Lemma findMatching_scan {MR : MapRange} (points : list MetricPoint) (rule : Rule) :
  findMatchingPoints (indexPoints points) rule = List.filter (matches rule) points.
Proof.
  pose proof (indexPoints_lookup points (r_Metric rule)) as Hi.
  unfold findMatchingPoints.
  assert (forall l, l = List.filter (fun p => bool_decide (pt_Metric p = r_Metric rule)) points ->
    (if decide (size (r_Labels rule) = 0%nat) then l
     else List.filter (fun pt => labelsMatch (r_Labels rule) (pt_Labels pt)) l)
    = List.filter (matches rule) points) as Hl.
  { intros l ->. case_decide as Hs.
    - apply map_size_empty_inv in Hs. apply List.filter_ext. intros p. unfold matches.
      rewrite Hs, labels_match_empty, andb_true_r. done.
    - rewrite filter_filter_bool. done. }
  destruct (indexPoints points !! r_Metric rule) as [cs|]; simpl in Hi; [by apply Hl|].
  specialize (Hl [] Hi). case_decide; done.
Qed.

(** ** The batch as a sequence of (rule, point) steps *)

Section batch.
Context {SS : SliceSort} {MR : MapRange} {S : Type} {HS : AlertHistoryStore S}.

Definition stepKey (x : Rule * MetricPoint) : string :=
  stateKeyWithLabels (r_ID x.1) (pt_InstanceID x.2) (r_Labels x.1).

(** The steps of one evaluation: rule by rule, each over its matching points in order. *)
Definition steps (rules : list Rule) (points : list MetricPoint) : list (Rule * MetricPoint) :=
  concat (map (fun r => map (pair r) (List.filter (matches r) points)) rules).

Lemma steps_cons (r : Rule) (rules : list Rule) (points : list MetricPoint) :
  steps (r :: rules) points
    = map (pair r) (List.filter (matches r) points) ++ steps rules points.
Proof. done. Qed.

(** What one step does to the entry of its key. *)
Definition stepEntry (now : Time) (o : option stateEntry) (x : Rule * MetricPoint)
    : option stateEntry :=
  Some (processTransition x.1 x.2 (default newEntry o) (breach x.1 x.2) now).1.

Definition evalStep (now : Time) (acc : Evaluator * S * list AlertEvent)
    (x : Rule * MetricPoint) : Evaluator * S * list AlertEvent :=
  evalPoint now x.1 acc x.2.

Lemma evalRule_steps (now : Time) (points : list MetricPoint) rule acc :
  evalRule now (indexPoints points) acc rule
    = foldl (evalStep now) acc (map (pair rule) (List.filter (matches rule) points)).
Proof.
  unfold evalRule. rewrite findMatching_scan.
  generalize (List.filter (matches rule) points). intros l. revert acc.
  induction l as [|p l IH]; intros acc; simpl; [done|]. apply IH.
Qed.

Lemma evalRules_steps (now : Time) (points : list MetricPoint) rules acc :
  foldl (evalRule now (indexPoints points)) acc rules
    = foldl (evalStep now) acc (steps rules points).
Proof.
  revert acc. induction rules as [|r rules IH]; intros acc; simpl; [done|].
  by rewrite evalRule_steps, IH, steps_cons, foldl_app.
Qed.

Lemma evalStep_state (now : Time) acc x (k : string) :
  ev_state (evalStep now acc x).1.1 !! k
    = if decide (stepKey x = k) then stepEntry now (ev_state acc.1.1 !! k) x
      else ev_state acc.1.1 !! k.
Proof.
  destruct acc as [[e s] evs], x as [rule pt]. unfold evalStep, evalPoint, stepEntry, breach.
  simpl. fold (stepKey (rule, pt)).
  change (stateKeyWithLabels (r_ID rule) (pt_InstanceID pt) (r_Labels rule))
    with (stepKey (rule, pt)).
  case_decide as Hk.
  - rewrite Hk. destruct (processTransition _ _ _ _ _) as [entry' [ev|]]; simpl.
    + destruct (recordEvent s ev) as [s' r]. simpl. by rewrite lookup_insert_eq.
    + by rewrite lookup_insert_eq.
  - destruct (processTransition _ _ _ _ _) as [entry' [ev|]]; simpl.
    + destruct (recordEvent s ev) as [s' r]. simpl. by rewrite lookup_insert_ne.
    + by rewrite lookup_insert_ne.
Qed.

Lemma evalSteps_state (now : Time) (l : list (Rule * MetricPoint)) acc (k : string) :
  ev_state (foldl (evalStep now) acc l).1.1 !! k
    = foldl (stepEntry now) (ev_state acc.1.1 !! k)
        (List.filter (fun x => bool_decide (stepKey x = k)) l).
Proof.
  revert acc. induction l as [|x l IH]; intros acc; simpl; [done|].
  rewrite IH, evalStep_state.
  destruct (decide (stepKey x = k)) as [Hk|Hk];
    [rewrite bool_decide_true by done|rewrite bool_decide_false by done]; done.
Qed.

(** The forecast pass touches neither the rules nor the threshold state. *)
Lemma forecastRule_frame fp inst now (acc : Evaluator * S) rule :
  ev_state (forecastRule fp inst now acc rule).1 = ev_state acc.1 /\
  ev_rules (forecastRule fp inst now acc rule).1 = ev_rules acc.1.
Proof.
  destruct acc as [e s]. unfold forecastRule. simpl.
  destruct (fp _ _ _) as [points|m]; [|done]. case_match; [done|].
  destruct (scanForecast _ _ _ _); [|done]. by destruct (recordEvent s _).
Qed.

Lemma runForecast_frame now inst (acc : Evaluator * S) :
  ev_state (runForecastAlerts now acc inst).1 = ev_state acc.1 /\
  ev_rules (runForecastAlerts now acc inst).1 = ev_rules acc.1.
Proof.
  unfold runForecastAlerts. destruct (ev_forecastProvider acc.1) as [fp|]; [|done].
  generalize (List.filter (fun r => bool_decide (r_Type r = RuleTypeForecastThreshold))
    (ev_rules acc.1)).
  intros l. revert acc. induction l as [|r l IH]; intros acc; simpl; [done|].
  destruct (IH (forecastRule fp inst now acc r)) as [-> ->]. apply forecastRule_frame.
Qed.

Lemma runForecasts_frame fnow (ids : list string) (acc : Evaluator * S) :
  ev_state (foldl (fun a i => runForecastAlerts (fnow i) a i) acc ids).1 = ev_state acc.1 /\
  ev_rules (foldl (fun a i => runForecastAlerts (fnow i) a i) acc ids).1 = ev_rules acc.1.
Proof.
  revert acc. induction ids as [|i ids IH]; intros acc; simpl; [done|].
  destruct (IH (runForecastAlerts (fnow i) acc i)) as [-> ->]. apply runForecast_frame.
Qed.

Lemma runForecasts_none (fnow : string -> Time) (ids : list string) (acc : Evaluator * S) :
  ev_forecastProvider acc.1 = None ->
  foldl (fun a i => runForecastAlerts (fnow i) a i) acc ids = acc.
Proof.
  intros Hn. induction ids as [|i ids IH]; [done|]. cbn [foldl].
  unfold runForecastAlerts at 2. rewrite Hn. done.
Qed.

Lemma steps_nil_rules points : steps [] points = [].
Proof. done. Qed.

Lemma steps_nil_points rules : steps rules [] = [].
Proof. induction rules; simpl; done. Qed.

Lemma Evaluate_state now fnow (e : Evaluator) (s : S) points :
  ev_state (Evaluate now fnow e s points).1.1
    = ev_state (foldl (evalStep now) (e, s, []) (steps (ev_rules e) points)).1.1.
Proof.
  unfold Evaluate. destruct ((len (ev_rules e) =? 0) || (len points =? 0)) eqn:E.
  - apply orb_true_iff in E as [E|E]; zb; unfold len in E;
      [destruct (ev_rules e); [|simpl in E; lia]|destruct points; [|simpl in E; lia]].
    + done.
    + by rewrite steps_nil_points.
  - rewrite evalRules_steps.
    destruct (foldl (evalStep now) (e, s, []) _) as [[e1 s1] evs] eqn:Ef. simpl.
    pose proof (runForecasts_frame fnow (uniqueInstances points) (e1, s1)) as [Hf _].
    destruct (foldl _ (e1, s1) _) as [e2 s2]. done.
Qed.

End batch.

(** ** Properties *)

(** The metric-name index is equivalent to a linear scan: the points matched to a rule
    are exactly the points of the batch with the rule's metric name whose labels carry every
    label the rule requires, in batch order. *)
Theorem matching_equals_scan {MR : MapRange} (points : list MetricPoint) (rule : Rule) :
  findMatchingPoints (indexPoints points) rule
    = List.filter (fun pt => bool_decide (pt_Metric pt = r_Metric rule)
                             && labelsMatch (r_Labels rule) (pt_Labels pt)) points.
Proof. apply findMatching_scan. Qed.

(** Key isolation in a batch. For every state key, what [Evaluate] leaves there depends
    only on the entry it found there and on the batch's steps with that key, run through the
    state machine in order: other keys, store failures and the forecast pass have no effect. *)
Theorem evaluate_key_isolation {SS : SliceSort} {MR : MapRange} {S : Type}
    {HS : AlertHistoryStore S} (now : Time) (fnow : string -> Time) (e : Evaluator) (s : S)
    (points : list MetricPoint) (k : string) :
  ev_state (Evaluate now fnow e s points).1.1 !! k
    = foldl (stepEntry now) (ev_state e !! k)
        (List.filter (fun x => bool_decide (stepKey x = k)) (steps (ev_rules e) points)).
Proof. by rewrite Evaluate_state, evalSteps_state. Qed.
