(* ===== verification/AlertRecovery.v ===== *)
(** * Recovery of the alert state after a restart

    The evaluator keeps its state in memory and records fire and resolution events in the
    history table; [RestoreState] rebuilds the memory state from the unresolved rows. The
    invariant below relates the two, also when statements fail or their answers are lost: what is
    restored differs from what was in memory for a key exactly when an odd number of the last calls
    for it had no effect. *)
From S2P Require Import Prelude Float64 Metric Alert AlertMachine AlertRules.

Local Open Scope Z_scope.

(** ** Keys *)

Definition colon_free (s : string) : bool := char_free colon s.

Lemma stateKey_inj (a b i j : string) :
  colon_free a = true -> colon_free b = true -> stateKey a i = stateKey b j -> a = b /\ i = j.
Proof. apply sep_inj. Qed.

(** ** What fires in memory, and what is open in the table *)

Definition state_firing (en : stateEntry) : bool :=
  match se_State en with StateFiring => true | _ => false end.

Definition firing (st : gmap string stateEntry) (k : string) : bool :=
  state_firing (default newEntry (st !! k)).

Definition row_of (id inst : string) (row : AlertEvent) : bool :=
  String.eqb (e_RuleID row) id && String.eqb (e_InstanceID row) inst.

Definition open_row (s : PGHistory) (id inst : string) : bool :=
  existsb (fun row => unresolved row && row_of id inst row) (pg_rows s).

(** A transition with an event flips whether the key fires, and the event says which way. *)
Lemma transition_firing (rule : Rule) (pt : MetricPoint) (en : stateEntry) (b : bool)
    (now : Time) :
  let '(en', ev) := processTransition rule pt en b now in
  match ev with
  | None => state_firing en' = state_firing en
  | Some x => e_RuleID x = r_ID rule /\ e_InstanceID x = pt_InstanceID pt /\
      e_Severity x = r_Severity rule /\ e_IsResolution x = state_firing en /\
      state_firing en' = negb (e_IsResolution x)
  end.
Proof.
  unfold processTransition, fireAlert, resolveAlert, state_firing.
  destruct (se_State en) eqn:E, b; simpl; destr_ifs; simpl; rewrite ?E; done.
Qed.

Lemma firing_insert (st : gmap string stateEntry) (k k' : string) (en : stateEntry) :
  firing (<[k := en]> st) k' = if decide (k = k') then state_firing en else firing st k'.
Proof.
  unfold firing. case_decide as Hk.
  - subst. by rewrite lookup_insert_eq.
  - by rewrite lookup_insert_ne.
Qed.

Lemma row_of_spec id inst row : row_of id inst row = true <-> e_RuleID row = id /\ e_InstanceID row = inst.
Proof. unfold row_of. by rewrite andb_true_iff, !String.eqb_eq. Qed.

(** An insert opens a row of the event's key, and a resolution closes all of them. *)
Lemma open_row_record (s : PGHistory) (ev : AlertEvent) (id inst : string) :
  open_row (pg_Record s ev).1 id inst
  = open_row s id inst || (match (pg_Record s ev).2 with Ok _ => true | Err _ => false end && row_of id inst ev).
Proof.
  unfold pg_Record. destruct (_ && _ && _); [|cbn; by rewrite orb_false_r].
  unfold open_row. cbn. rewrite existsb_app. cbn. by rewrite orb_false_r.
Qed.

Lemma open_row_resolve (s : PGHistory) (rid rinst : string) (t : Time) (id inst : string) :
  open_row (pg_Resolve s rid rinst t).1 id inst
  = open_row s id inst && negb (match (pg_Resolve s rid rinst t).2 with None => true | Some _ => false end
                                && (String.eqb rid id && String.eqb rinst inst)).
Proof.
  unfold pg_Resolve. destruct (pg_online s); cbn [fst snd]; [|cbn; by rewrite andb_true_r].
  unfold open_row. cbn [pg_rows andb]. induction (pg_rows s) as [|row l IH]; [done|]. cbn [map existsb].
  rewrite IH, andb_orb_distrib_l. f_equal. unfold row_of.
  destruct (decide (rid = id)) as [<-|Hi], (decide (rinst = inst)) as [<-|Hj].
  - rewrite !String.eqb_refl. cbn [andb negb]. rewrite andb_false_r.
    destruct (unresolved row) eqn:Eu.
    + destruct (bool_decide _) eqn:Eb; cbn [andb]; [done|].
      apply bool_decide_eq_false in Eb. rewrite Eu. cbn [andb].
      destruct (String.eqb_spec (e_RuleID row) rid), (String.eqb_spec (e_InstanceID row) rinst); tauto.
    + rewrite andb_false_r. by rewrite Eu.
  - rewrite (proj2 (String.eqb_neq rinst inst)) by done. rewrite andb_false_r, andb_true_r.
    destruct (bool_decide _ && unresolved row) eqn:Eb; [|done].
    apply andb_true_iff in Eb as [[_ Hr]%bool_decide_eq_true _]. cbn. rewrite Hr.
    rewrite (proj2 (String.eqb_neq rinst inst)) by done. by rewrite !andb_false_r.
  - rewrite (proj2 (String.eqb_neq rid id)) by done. cbn [andb negb]. rewrite andb_true_r.
    destruct (bool_decide _ && unresolved row) eqn:Eb; [|done].
    apply andb_true_iff in Eb as [[Hr _]%bool_decide_eq_true _]. cbn. rewrite Hr.
    rewrite (proj2 (String.eqb_neq rid id)) by done. by rewrite !andb_false_r.
  - rewrite (proj2 (String.eqb_neq rid id)) by done. cbn [andb negb]. rewrite andb_true_r.
    destruct (bool_decide _ && unresolved row) eqn:Eb; [|done].
    apply andb_true_iff in Eb as [[Hr _]%bool_decide_eq_true _]. cbn. rewrite Hr.
    rewrite (proj2 (String.eqb_neq rid id)) by done. by rewrite !andb_false_r.
Qed.

(** ** State keys and label sets *)

Section labels.
Context {SS : SliceSort} {MR : MapRange}.

Lemma foldl_key_length (labels : Labels) (ks : list string) (key : string) :
  (String.length key + length ks
   <= String.length (foldl (fun key k => key +:+ ":" +:+ k +:+ "=" +:+ label_get labels k)
        key ks))%nat.
Proof.
  revert key. induction ks as [|k ks IH]; intros key; simpl; [lia|].
  etransitivity; [|apply IH]. rewrite string_length_app. simpl. lia.
Qed.

Lemma labelled_key_ne (id inst : string) (labels : Labels) :
  labels <> ∅ -> stateKeyWithLabels id inst labels <> stateKey id inst.
Proof.
  intros Hl Heq. unfold stateKeyWithLabels in Heq.
  assert (0 < size labels)%nat as Hs.
  { destruct (size labels) eqn:E; [|lia]. by apply map_size_empty_inv in E. }
  rewrite decide_True in Heq by done. apply (f_equal String.length) in Heq.
  match type of Heq with String.length (foldl _ ?key ?ks) = _ =>
    pose proof (foldl_key_length labels ks key) as Hlen;
    assert (length ks = size labels) as Hk
  end.
  { rewrite sort_slice_perm, length_map, map_range_perm. apply length_map_to_list. }
  unfold stateKey in Heq. lia.
Qed.

(** The key of a rule's state: what follows the instance depends on the rule only. *)
Lemma labelled_key (id : string) (labels : Labels) :
  exists suffix, forall inst, stateKeyWithLabels id inst labels = (id +:+ ":" +:+ inst) +:+ suffix.
Proof.
  unfold stateKeyWithLabels. destruct (decide _) as [_|_].
  - set (ks := sort_slice _ _). clearbody ks.
    assert (H : exists suffix, forall key,
      foldl (fun key k => key +:+ ":" +:+ k +:+ "=" +:+ label_get labels k) key ks = key +:+ suffix).
    { induction ks as [|k ks [suffix IH]]; [exists ""; intros key; by rewrite str_app_nil|].
      exists (":" +:+ k +:+ "=" +:+ label_get labels k +:+ suffix). intros key. cbn [foldl]. rewrite IH.
      by rewrite !str_app_assoc. }
    destruct H as [suffix H]. exists suffix. intros i. apply H.
  - exists "". intros i. by rewrite str_app_nil.
Qed.

End labels.

(** ** The run of an evaluator, call by call

    Between the section of [Evaluate] that holds the mutex and the call that records what came out of
    it, another goroutine may run. *)

Section recovery.
Context {SS : SliceSort} {MR : MapRange}.

(** The section under the mutex: the entry moves, and an event may be left to record. *)
Definition advance (now : Time) (rule : Rule) (pt : MetricPoint) (e : Evaluator)
    : Evaluator * option AlertEvent :=
  let key := stateKeyWithLabels (r_ID rule) (pt_InstanceID pt) (r_Labels rule) in
  let breached := Compare (r_Operator rule) (pt_Value pt) (r_Threshold rule) in
  let entry := default newEntry (ev_state e !! key) in
  let '(entry', event) := processTransition rule pt entry breached now in
  (set_state (<[key := entry']> (ev_state e)) e, event).

Lemma evalPoint_advance {S} {HS : AlertHistoryStore S} now rule e (s : S) evs pt :
  let acc := evalPoint now rule (e, s, evs) pt in
  acc.1.1 = (advance now rule pt e).1 /\
  acc.1.2 = match (advance now rule pt e).2 with Some ev => (recordEvent s ev).1 | None => s end.
Proof.
  unfold evalPoint, advance. destruct (processTransition _ _ _ _ _) as [en [ev|]]; [|done].
  cbn [fst snd]. by destruct (recordEvent s ev).
Qed.

(** The calls for a rule and an instance, from the last one that took effect on, that did not. *)
Definition misses (id inst : string) (log : list historyCall) : nat :=
  foldl (fun n c => if fc_effect c then 0 else S n)%nat 0%nat (callsOf id inst log).

Definition pending (id inst : string) (ps : list AlertEvent) : list AlertEvent :=
  List.filter (row_of id inst) ps.

(** Rules as they may be loaded: ids without a colon, and the rule [id], if there is one, is a
    threshold rule without labels. *)
Definition plain_for (id : string) (rules : list Rule) : Prop :=
  forall r, r ∈ rules -> colon_free (r_ID r) = true /\
    (r_ID r = id -> r_Labels r = ∅ /\ r_Type r <> RuleTypeForecastThreshold).

Definition with_table (f : PGHistory -> PGHistory) (s : FlakyHistory) : FlakyHistory :=
  mkFlaky (f (fh_table s)) (fh_plan s) (fh_log s).

Definition reboot (rules : list Rule) (fp : option ForecastProvider) (mc : Z) (s : FlakyHistory) : Evaluator :=
  SetForecastProvider fp mc (RestoreState s (set_rules rules NewEvaluator)).1.

(** The runs of the evaluator and its history, with the events that are still to be recorded. A key has
    one such event at most: the goroutine that evaluates an instance's metric records before it goes on.
    The database may come and go, and its rules too. *)
Inductive alert_run (id : string) : Evaluator -> FlakyHistory -> list AlertEvent -> Prop :=
  | run_boot rules fp mc t plan : plain_for id rules -> pg_online t = true ->
      (forall row, row ∈ pg_rows t -> colon_free (e_RuleID row) = true) ->
      alert_run id (reboot rules fp mc (mkFlaky t plan [])) (mkFlaky t plan []) []
  | run_restart e s ps rules fp mc plan : alert_run id e s ps -> plain_for id rules ->
      pg_online (fh_table s) = true ->
      alert_run id (reboot rules fp mc s) (mkFlaky (fh_table s) plan []) []
  | run_advance e s ps now rule pt : alert_run id e s ps -> plain_for id [rule] ->
      pending (r_ID rule) (pt_InstanceID pt) ps = [] ->
      alert_run id (advance now rule pt e).1 s (ps ++ option_list (advance now rule pt e).2)
  | run_record e s ps1 ev ps2 : alert_run id e s (ps1 ++ ev :: ps2) ->
      alert_run id e (recordEvent s ev).1 (ps1 ++ ps2)
  | run_forecast e s ps fp inst now rule : alert_run id e s ps -> plain_for id [rule] ->
      r_Type rule = RuleTypeForecastThreshold ->
      alert_run id (forecastRule fp inst now (e, s) rule).1 (forecastRule fp inst now (e, s) rule).2 ps
  | run_cleanup e s ps retention now : alert_run id e s ps ->
      alert_run id e (runCleanup s retention now) ps
  | run_load e s ps rules : alert_run id e s ps -> plain_for id rules ->
      alert_run id (LoadRules (Ok rules) e).1 s ps
  | run_database e s ps plan n ids b : alert_run id e s ps ->
      alert_run id e (mkFlaky (mkPGHistory (pg_rows (fh_table s)) n ids b) plan (fh_log s)) ps
  | run_deleted e s ps rid : alert_run id e s ps -> rid <> id ->
      alert_run id e (with_table (fun t => mkPGHistory
        (List.filter (fun row => negb (String.eqb (e_RuleID row) rid)) (pg_rows t))
        (pg_next_id t) (pg_ruleIDs t) (pg_online t)) s) ps.

(** *** The invariant *)

Record Synced (id : string) (e : Evaluator) (s : FlakyHistory) (ps : list AlertEvent) : Prop := {
  sy_rules : plain_for id (ev_rules e);
  sy_rows : forall row, row ∈ pg_rows (fh_table s) -> colon_free (e_RuleID row) = true;
  sy_pending : forall ev, ev ∈ ps -> colon_free (e_RuleID ev) = true;
  sy_one : forall inst, match pending id inst ps with
    | [] => True
    | [ev] => firing (ev_state e) (stateKey id inst) = negb (e_IsResolution ev)
    | _ => False
    end;
  sy_open : forall inst, open_row (fh_table s) id inst
    = xorb (firing (ev_state e) (stateKey id inst))
        (Nat.odd (misses id inst (fh_log s) + length (pending id inst ps)))
}.

Context (id : string) (Hid : colon_free id = true).

Lemma misses_snoc i inst log c :
  misses i inst (log ++ [c])
  = if String.eqb (fc_RuleID c) i && String.eqb (fc_InstanceID c) inst
    then if fc_effect c then 0%nat else S (misses i inst log) else misses i inst log.
Proof.
  unfold misses, callsOf. rewrite List.filter_app. cbn [List.filter].
  destruct (_ && _); [|by rewrite app_nil_r]. by rewrite foldl_app.
Qed.

(** What recording does to the open rows, whatever becomes of the statement. *)
Lemma recordEvent_open (s : FlakyHistory) (ev : AlertEvent) :
  exists c, fh_log (recordEvent s ev).1 = fh_log s ++ [c] /\
    fc_RuleID c = e_RuleID ev /\ fc_InstanceID c = e_InstanceID ev /\
    forall i inst, open_row (fh_table (recordEvent s ev).1) i inst
      = if row_of i inst ev && fc_effect c then negb (e_IsResolution ev) else open_row (fh_table s) i inst.
Proof.
  unfold recordEvent. destruct (e_IsResolution ev) eqn:Er.
  - cbn [ahs_Resolve FlakyHistoryStore]. unfold fl_Resolve.
    pose proof (fun i inst => open_row_resolve (fh_table s) (e_RuleID ev) (e_InstanceID ev)
      (default zero_time (e_ResolvedAt ev)) i inst) as H.
    destruct (pg_Resolve _ _ _ _) as [t err]. cbn [fst snd] in *. eexists. split_and!; [done..|].
    intros i inst. cbn. unfold row_of. destruct (next_outcome _), err; cbn;
      rewrite ?H; cbn; destruct (String.eqb (e_RuleID ev) i && String.eqb (e_InstanceID ev) inst); cbn;
      by rewrite ?andb_true_r, ?andb_false_r.
  - cbn [ahs_Record FlakyHistoryStore]. unfold fl_Record.
    pose proof (fun i inst => open_row_record (fh_table s) ev i inst) as H.
    destruct (pg_Record _ _) as [t r]. cbn [fst snd] in *. eexists. split_and!; [done..|].
    intros i inst. cbn. destruct (next_outcome _), r; cbn;
      rewrite ?H; cbn; destruct (row_of i inst ev); cbn; by rewrite ?orb_true_r, ?orb_false_r.
Qed.

Lemma recordEvent_rows (s : FlakyHistory) (ev : AlertEvent) (P : string -> Prop) :
  P (e_RuleID ev) -> (forall row, row ∈ pg_rows (fh_table s) -> P (e_RuleID row)) ->
  forall row, row ∈ pg_rows (fh_table (recordEvent s ev).1) -> P (e_RuleID row).
Proof.
  intros He Hs row. unfold recordEvent. destruct (e_IsResolution ev).
  - cbn [ahs_Resolve FlakyHistoryStore]. unfold fl_Resolve, pg_Resolve. destruct (pg_online _).
    + destruct (took_effect _); cbn; [|apply Hs]. intros (r0 & -> & Hr)%list_elem_of_fmap.
      case_match; by apply (Hs r0).
    + destruct (took_effect _); cbn; apply Hs.
  - cbn [ahs_Record FlakyHistoryStore]. unfold fl_Record, pg_Record. destruct (_ && _ && _).
    + destruct (took_effect _); cbn; [|apply Hs]. intros [Hr|Hr]%elem_of_app; [by apply Hs|].
      by apply list_elem_of_singleton in Hr as ->.
    + destruct (took_effect _); cbn; apply Hs.
Qed.

Lemma pending_app i inst ps qs : pending i inst (ps ++ qs) = pending i inst ps ++ pending i inst qs.
Proof. apply List.filter_app. Qed.

Lemma pending_cons i inst ev ps :
  pending i inst (ev :: ps) = if row_of i inst ev then ev :: pending i inst ps else pending i inst ps.
Proof. done. Qed.

Lemma xorb_odd_S b n : xorb b (Nat.odd (S n)) = xorb (negb b) (Nat.odd n).
Proof. rewrite Nat.odd_succ, <- Nat.negb_odd. by destruct b, (Nat.odd n). Qed.

Lemma Synced_record e s ps1 ev ps2 :
  Synced id e s (ps1 ++ ev :: ps2) -> Synced id e (recordEvent s ev).1 (ps1 ++ ps2).
Proof.
  intros [Hr Hrows Hp Hone Hopen].
  destruct (recordEvent_open s ev) as (c & Hlog & H1 & H2 & Ht). split; [done|..].
  - by apply (recordEvent_rows s ev (fun i => colon_free i = true)); [apply Hp, elem_of_app; right; left|].
  - intros x Hx. apply Hp. set_solver.
  - intros inst. specialize (Hone inst). rewrite pending_app in Hone |- *. rewrite pending_cons in Hone.
    destruct (row_of id inst ev); [|done].
    destruct (pending id inst ps1) as [|a [|b q]], (pending id inst ps2); cbn in *; done.
  - intros inst. rewrite Ht, Hlog, misses_snoc, H1, H2.
    change (String.eqb (e_RuleID ev) id && String.eqb (e_InstanceID ev) inst) with (row_of id inst ev).
    specialize (Hone inst). specialize (Hopen inst). rewrite pending_app in *.
    rewrite pending_cons in Hone, Hopen.
    destruct (row_of id inst ev); cbn [andb]; [|done].
    destruct (pending id inst ps1) as [|a [|b q]], (pending id inst ps2); cbn in Hone; try done.
    cbn [app length] in *. destruct (fc_effect c).
    + cbn. by rewrite Hone, xorb_false_r.
    + rewrite Hopen. do 2 f_equal. lia.
Qed.

Lemma plain_key rule inst : plain_for id [rule] -> r_ID rule = id ->
  stateKeyWithLabels (r_ID rule) inst (r_Labels rule) = stateKey id inst.
Proof.
  intros Hp E. destruct (Hp rule) as [_ Hpl]; [by left|]. destruct (Hpl E) as [-> _].
  unfold stateKeyWithLabels. rewrite map_size_empty, decide_False by lia. by rewrite E.
Qed.

Lemma Synced_advance e s ps now rule pt :
  Synced id e s ps -> plain_for id [rule] -> pending (r_ID rule) (pt_InstanceID pt) ps = [] ->
  Synced id (advance now rule pt e).1 s (ps ++ option_list (advance now rule pt e).2).
Proof.
  intros [Hr Hrows Hp Hone Hopen] Hpl Hnone. destruct (Hpl rule) as [Hfree _]; [by left|].
  unfold advance. set (key := stateKeyWithLabels _ _ _). set (en := default newEntry _).
  pose proof (transition_firing rule pt en
    (Compare (r_Operator rule) (pt_Value pt) (r_Threshold rule)) now) as Ht.
  destruct (processTransition _ _ _ _ _) as [en' o]. cbn [fst snd].
  assert (Hkey : forall inst, key = stateKey id inst -> r_ID rule = id /\ pt_InstanceID pt = inst).
  { intros inst Hk. subst key. destruct (labelled_key (r_ID rule) (r_Labels rule)) as [sfx Hsfx].
    assert (E : r_ID rule = id).
    { rewrite Hsfx in Hk. unfold stateKey in Hk. rewrite !str_app_assoc in Hk. by apply sep_inj in Hk as [? _]. }
    split; [done|]. rewrite (plain_key rule _ Hpl E) in Hk. by apply stateKey_inj in Hk as [_ ?]. }
  assert (Hown : forall inst, r_ID rule = id -> pt_InstanceID pt = inst -> key = stateKey id inst).
  { intros inst E <-. by apply plain_key. }
  assert (Hev : forall inst x, o = Some x -> row_of id inst x = true <-> key = stateKey id inst).
  { intros inst x ->. destruct Ht as (H1 & H2 & _). rewrite row_of_spec, H1, H2. split; [|by apply Hkey].
    intros [E1 E2]. by apply Hown. }
  assert (Hnew : forall inst, key = stateKey id inst -> firing (ev_state e) (stateKey id inst) = state_firing en).
  { intros inst <-. done. }
  assert (Hnp : forall inst, key = stateKey id inst -> pending id inst ps = []).
  { intros inst [<- <-]%Hkey. done. }
  split; [done|done|..].
  - intros x [Hx|Hx]%elem_of_app; [by apply Hp|]. destruct o as [y|]; [|by apply elem_of_nil in Hx].
    apply list_elem_of_singleton in Hx as ->. destruct Ht as (-> & _). done.
  - intros inst. rewrite pending_app. cbn [ev_state set_state]. rewrite firing_insert.
    destruct o as [x|];
      [change (option_list (Some x)) with [x]; rewrite (pending_cons id inst x [])
      |change (option_list (@None AlertEvent)) with (@nil AlertEvent)];
      change (pending id inst []) with (@nil AlertEvent).
    + pose proof (Hev inst x eq_refl) as Hx. destruct (row_of id inst x).
      * assert (Hk : key = stateKey id inst) by tauto. rewrite Hnp, decide_True by done. cbn.
        by destruct Ht as (_ & _ & _ & _ & ->).
      * rewrite app_nil_r, decide_False by (intros Hk; apply Hx in Hk; done). apply Hone.
    + rewrite app_nil_r. case_decide as Hk; [|apply Hone]. by rewrite Hnp.
  - intros inst. rewrite pending_app, length_app, Nat.add_assoc. cbn [ev_state set_state].
    rewrite firing_insert, Hopen. destruct o as [x|];
      [change (option_list (Some x)) with [x]; rewrite (pending_cons id inst x [])
      |change (option_list (@None AlertEvent)) with (@nil AlertEvent)];
      change (pending id inst []) with (@nil AlertEvent).
    + pose proof (Hev inst x eq_refl) as Hx. destruct (row_of id inst x).
      * assert (Hk : key = stateKey id inst) by tauto. rewrite decide_True by done. cbn [length].
        rewrite Nat.add_1_r, xorb_odd_S, (Hnew inst Hk). destruct Ht as (_ & _ & _ & Hi & ->).
        by rewrite Hi, negb_involutive.
      * rewrite decide_False by (intros Hk; apply Hx in Hk; done). by rewrite Nat.add_0_r.
    + rewrite Nat.add_0_r. case_decide as Hk; [|done]. by rewrite (Hnew inst Hk), Ht.
Qed.

Lemma forecastRule_effect fp inst now e (s : FlakyHistory) rule :
  let r := forecastRule fp inst now (e, s) rule in
  ev_state r.1 = ev_state e /\ ev_rules r.1 = ev_rules e /\
  (r.2 = s \/ exists ev, e_RuleID ev = r_ID rule /\ r.2 = (recordEvent s ev).1).
Proof.
  cbv zeta. unfold forecastRule. repeat case_match; simplify_eq/=; split_and!; try done; try by left.
  all: right; match goal with H : recordEvent _ ?ev = _ |- _ => exists ev; by rewrite H end.
Qed.

Lemma Synced_forecast e s ps fp inst now rule :
  Synced id e s ps -> plain_for id [rule] -> r_Type rule = RuleTypeForecastThreshold ->
  Synced id (forecastRule fp inst now (e, s) rule).1 (forecastRule fp inst now (e, s) rule).2 ps.
Proof.
  intros [Hr Hrows Hp Hone Hopen] Hpl Hty. destruct (Hpl rule) as [Hfree Hne]; [by left|].
  destruct (forecastRule_effect fp inst now e s rule) as (H1 & H2 & H3).
  destruct (forecastRule fp inst now (e, s) rule) as [e' s']. cbn [fst snd] in *.
  split; rewrite ?H1, ?H2; try done.
  - destruct H3 as [->|(ev & E & ->)]; [done|].
    apply (recordEvent_rows s ev (fun i => colon_free i = true)); [by rewrite E|done].
  - intros i. rewrite ?H1. destruct H3 as [->|(ev & E & ->)]; [apply Hopen|].
    destruct (recordEvent_open s ev) as (c & Hlog & E1 & E2 & Ht).
    assert (Hno : row_of id i ev = false).
    { apply not_true_is_false. rewrite row_of_spec, E. intros [Hi _]. by apply Hne in Hi as [_ []]. }
    rewrite Ht, Hlog, misses_snoc, E1, E2, Hno.
    change (String.eqb (e_RuleID ev) id && String.eqb (e_InstanceID ev) i) with (row_of id i ev).
    rewrite Hno. apply Hopen.
Qed.

(** *** Restart and cleanup *)

Lemma restore_firing (l : list AlertEvent) (st : gmap string stateEntry) (k : string) :
  firing (foldl (fun st ev => <[stateKey (e_RuleID ev) (e_InstanceID ev) :=
            mkEntry StateFiring 0 (e_FiredAt ev) (e_FiredAt ev) (e_Severity ev)]> st) st l) k
  = firing st k || existsb (fun ev => String.eqb (stateKey (e_RuleID ev) (e_InstanceID ev)) k) l.
Proof.
  revert st. induction l as [|ev l IH]; intros st; cbn [foldl existsb]; [by rewrite orb_false_r|].
  rewrite IH, firing_insert. case_decide as Hk.
  - rewrite Hk, String.eqb_refl. cbn. by rewrite orb_true_r.
  - by rewrite (proj2 (String.eqb_neq _ _) Hk).
Qed.

Lemma existsb_perm {A} (f : A -> bool) (l l' : list A) : l ≡ₚ l' -> existsb f l = existsb f l'.
Proof. induction 1; cbn; [done|congruence| |congruence]. by rewrite !orb_assoc, (orb_comm (f y)). Qed.

Lemma existsb_filter {A} (f g : A -> bool) (l : list A) :
  existsb f (List.filter g l) = existsb (fun x => g x && f x) l.
Proof. induction l as [|x l IH]; [done|]. cbn. destruct (g x); cbn; by rewrite IH. Qed.

Lemma existsb_ext_in {A} (f g : A -> bool) (l : list A) :
  (forall x, x ∈ l -> f x = g x) -> existsb f l = existsb g l.
Proof.
  induction l as [|x l IH]; intros H; [done|]. cbn. rewrite H by (by left). f_equal. apply IH.
  intros y Hy. apply H. by right.
Qed.

(** Exactly the open rows fire after a restart. *)
Lemma reboot_firing rules fp mc (s : FlakyHistory) inst :
  pg_online (fh_table s) = true ->
  (forall row, row ∈ pg_rows (fh_table s) -> colon_free (e_RuleID row) = true) ->
  firing (ev_state (reboot rules fp mc s)) (stateKey id inst) = open_row (fh_table s) id inst.
Proof.
  intros Ho Hrows. unfold reboot, RestoreState. cbn [ahs_ListUnresolved FlakyHistoryStore].
  unfold pg_ListUnresolved. rewrite Ho. cbn [fst ev_state set_state SetForecastProvider set_rules NewEvaluator].
  rewrite restore_firing. replace (firing ∅ (stateKey id inst)) with false
    by (unfold firing; by rewrite lookup_empty). cbn [orb].
  rewrite (existsb_perm _ _ _ (sort_slice_perm _ _ _)), existsb_filter. unfold open_row.
  apply existsb_ext_in. intros row Hrow. f_equal. unfold row_of.
  destruct (String.eqb_spec (stateKey (e_RuleID row) (e_InstanceID row)) (stateKey id inst)) as [E|E].
  - apply stateKey_inj in E as [-> ->]; [|by apply Hrows|done]. by rewrite !String.eqb_refl.
  - symmetry. apply not_true_is_false. rewrite andb_true_iff, !String.eqb_eq. intros [E1 E2]. apply E.
    by rewrite E1, E2.
Qed.

Lemma reboot_rules rules fp mc (s : FlakyHistory) : ev_rules (reboot rules fp mc s) = rules.
Proof. unfold reboot, RestoreState. by destruct (ahs_ListUnresolved s). Qed.

Lemma Synced_reboot rules fp mc (s : FlakyHistory) plan :
  plain_for id rules -> pg_online (fh_table s) = true ->
  (forall row, row ∈ pg_rows (fh_table s) -> colon_free (e_RuleID row) = true) ->
  Synced id (reboot rules fp mc s) (mkFlaky (fh_table s) plan []) [].
Proof.
  intros Hr Ho Hrows. split; rewrite ?reboot_rules; try done.
  - intros ev Hev. by apply elem_of_nil in Hev.
  - intros inst. rewrite reboot_firing by done. symmetry. apply xorb_false_r.
Qed.

Lemma open_row_filter (keep : AlertEvent -> bool) (s : PGHistory) n ids b inst :
  (forall row, unresolved row && row_of id inst row = true -> keep row = true) ->
  open_row (mkPGHistory (List.filter keep (pg_rows s)) n ids b) id inst = open_row s id inst.
Proof.
  intros Hk. unfold open_row. cbn [pg_rows]. rewrite existsb_filter. apply existsb_ext_in. intros row _.
  destruct (unresolved row && row_of id inst row) eqn:E; [by rewrite Hk|by rewrite andb_false_r].
Qed.

Lemma Synced_cleanup e s ps retention now : Synced id e s ps -> Synced id e (runCleanup s retention now) ps.
Proof.
  intros [Hr Hrows Hp Hone Hopen]. unfold runCleanup. cbn [ahs_Cleanup FlakyHistoryStore].
  unfold fl_Cleanup, pg_Cleanup. destruct (pg_online _); [|by destruct (took_effect _); split].
  cbn [fst snd]. destruct (took_effect _); split; cbn [fh_table fh_log pg_rows]; try done.
  - intros row [_ Hrow]%elem_of_filter_bool. by apply Hrows.
  - intros inst. rewrite <- Hopen. apply open_row_filter. intros row [Hu _]%andb_true_iff.
    unfold unresolved in Hu. apply bool_decide_eq_true in Hu. by rewrite Hu.
Qed.

Lemma alert_run_synced e s ps : alert_run id e s ps -> Synced id e s ps.
Proof.
  induction 1 as [rules fp mc t plan Hr Ho Hrows|e s ps rules fp mc plan H IH Hr Ho
    |e s ps now rule pt H IH Hr Hn|e s ps1 ev ps2 H IH|e s ps fp inst now rule H IH Hr Hty
    |e s ps retention now H IH|e s ps rules H IH Hr|e s ps plan n ids b H IH|e s ps rid H IH Hne].
  - by apply (Synced_reboot rules fp mc (mkFlaky t plan [])).
  - apply Synced_reboot; [done..|apply IH].
  - by apply Synced_advance.
  - by apply Synced_record.
  - by apply Synced_forecast.
  - by apply Synced_cleanup.
  - destruct IH. by split.
  - destruct IH. by split.
  - destruct IH as [Hr Hrows Hp Hone Hopen]. split; cbn [fh_table with_table fh_log pg_rows]; try done.
    + intros row [_ Hrow]%elem_of_filter_bool. by apply Hrows.
    + intros inst. rewrite <- Hopen. apply open_row_filter. intros row [_ Hrow]%andb_true_iff.
      apply row_of_spec in Hrow as [-> _]. by rewrite (proj2 (String.eqb_neq _ _)).
Qed.

(** *** An evaluation is such a run *)

Lemma steps_rules (rules : list Rule) (points : list MetricPoint) x :
  x ∈ steps rules points -> x.1 ∈ rules.
Proof.
  intros Hx. unfold steps in Hx.
  apply list_elem_of_In, in_concat in Hx as (l & Hl & Hx).
  apply in_map_iff in Hl as (r & <- & Hr). apply in_map_iff in Hx as (p & <- & _).
  by apply list_elem_of_In.
Qed.

Lemma plain_one rules r : plain_for id rules -> r ∈ rules -> plain_for id [r].
Proof. intros H Hr x Hx. apply list_elem_of_singleton in Hx as ->. by apply H. Qed.

Lemma run_evalStep now (acc : Evaluator * FlakyHistory * list AlertEvent) x :
  alert_run id acc.1.1 acc.1.2 [] -> plain_for id [x.1] ->
  alert_run id (evalStep now acc x).1.1 (evalStep now acc x).1.2 [].
Proof.
  destruct acc as [[e s] evs], x as [rule pt]. cbn [fst snd]. intros H Hp.
  unfold evalStep. cbn [fst snd]. destruct (evalPoint_advance now rule e s evs pt) as [-> ->].
  pose proof (run_advance id e s [] now rule pt H Hp eq_refl) as Hr. cbn [app] in Hr.
  destruct (advance now rule pt e).2 as [ev|]; [|done]. by apply (run_record id _ _ [] ev []).
Qed.

(** Whatever the forecasts say, an evaluation by itself is a run. *)
Lemma run_Evaluate now fnow e s points :
  alert_run id e s [] ->
  alert_run id (Evaluate now fnow e s points).1.1 (Evaluate now fnow e s points).1.2 [].
Proof.
  intros H. unfold Evaluate. destruct (_ || _); [done|]. rewrite evalRules_steps.
  pose proof (sy_rules _ _ _ _ (alert_run_synced _ _ _ H)) as Hpl.
  assert (H1 : alert_run id (foldl (evalStep now) (e, s, []) (steps (ev_rules e) points)).1.1
                 (foldl (evalStep now) (e, s, []) (steps (ev_rules e) points)).1.2 []).
  { apply (foldl_inv (fun acc : Evaluator * FlakyHistory * list AlertEvent =>
      alert_run id acc.1.1 acc.1.2 [])); [|done].
    intros acc x Hx%steps_rules Hacc. apply run_evalStep; [done|]. by eapply plain_one. }
  destruct (foldl (evalStep now) (e, s, []) _) as [[e1 s1] evs]. cbn [fst snd] in *.
  assert (H2 : forall ids, alert_run id
    (foldl (fun a i => runForecastAlerts (fnow i) a i) (e1, s1) ids).1
    (foldl (fun a i => runForecastAlerts (fnow i) a i) (e1, s1) ids).2 []).
  { intros ids. apply (foldl_inv (fun acc : Evaluator * FlakyHistory => alert_run id acc.1 acc.2 [])); [|done].
    intros [e2 s2] i _ Ha. unfold runForecastAlerts. cbn [fst snd] in *.
    destruct (ev_forecastProvider e2) as [fp|]; [|done].
    pose proof (sy_rules _ _ _ _ (alert_run_synced _ _ _ Ha)) as Hpl2.
    apply (foldl_inv (fun acc : Evaluator * FlakyHistory => alert_run id acc.1 acc.2 [])); [|done].
    intros [e3 s3] q [Hty Hq]%elem_of_filter_bool Hb. apply run_forecast; [done|by eapply plain_one|].
    by apply bool_decide_eq_true in Hty. }
  specialize (H2 (uniqueInstances points)). by destruct (foldl _ (e1, s1) _).
Qed.

End recovery.

(** ** Properties *)


(** Connections of db1 at 100 per cent: the alert fires, but its statement is refused. *)
Definition demoRun (plan : list outcome) : Evaluator * FlakyHistory * list AlertEvent :=
  @Evaluate insertion_SliceSort canonical_MapRange FlakyHistory
    (@FlakyHistoryStore insertion_SliceSort) Second (fun _ => Second)
    (@reboot insertion_SliceSort [rule_connections_critical] None 0
       (mkFlaky (mkPGHistory [] 1 {["connections_critical"]} true) plan []))
    (mkFlaky (mkPGHistory [] 1 {["connections_critical"]} true) plan [])
    [mkPoint "db1" "pg.connections.utilization_pct" (f_of_Z 100) ∅ 0].


(** Alert state of a rule with labels does not survive a restart. [RestoreState] rebuilds
    entries under the unlabelled key while [Evaluate] uses the labelled one: when the history
    holds open rows of that rule and instance, the restored evaluator has no entry at the
    rule's key, and a point that still breaches fires a second time. *)
Theorem labelled_alert_not_restored {SS : SliceSort} {MR : MapRange} (rule : Rule)
    (pt : MetricPoint) (s : PGHistory) (now : Time) :
  r_Labels rule <> ∅ -> r_ConsecutiveCount rule <= 1 -> pg_online s = true ->
  Forall (fun row => e_RuleID row = r_ID rule /\ e_InstanceID row = pt_InstanceID pt)
    (pg_rows s) ->
  let e' := (RestoreState s (set_rules [rule] NewEvaluator)).1 in
  let k := stateKeyWithLabels (r_ID rule) (pt_InstanceID pt) (r_Labels rule) in
  ev_state e' !! k = None /\
  exists ev, (processTransition rule pt (default newEntry (ev_state e' !! k)) true now).2
               = Some ev /\ e_IsResolution ev = false.
Proof.
  intros Hl Hc Ho Hrows. cbv zeta.
  set (k := stateKeyWithLabels _ _ _). set (e' := (RestoreState s _).1).
  assert (ev_state e' !! k = None) as Hn.
  { subst e'. unfold RestoreState. simpl. unfold pg_ListUnresolved. rewrite Ho. simpl.
    assert (forall (st : gmap string stateEntry) l, st !! k = None ->
      Forall (fun row => e_RuleID row = r_ID rule /\ e_InstanceID row = pt_InstanceID pt) l ->
      foldl (fun st ev => <[stateKey (e_RuleID ev) (e_InstanceID ev) :=
        mkEntry StateFiring 0 (e_FiredAt ev) (e_FiredAt ev) (e_Severity ev)]> st) st l !! k
        = None) as Hfold.
    { intros st l Hst Hf. revert st Hst. induction Hf as [|row l [Hi Hj] Hf IH];
        intros st Hst; simpl; [done|]. apply IH. rewrite Hi, Hj, lookup_insert_ne; [done|].
      intros Heq. by apply (labelled_key_ne (r_ID rule) (pt_InstanceID pt) (r_Labels rule)). }
    apply Hfold; [apply lookup_empty|]. rewrite sort_slice_perm.
    apply list.Forall_forall. intros row Hrow. apply elem_of_filter_bool in Hrow as [_ Hrow].
    by apply (proj1 (list.Forall_forall _ _) Hrows). }
  split; [done|]. rewrite Hn. unfold processTransition. simpl.
  rewrite (proj2 (Z.leb_le _ _) Hc). simpl. eauto.
Qed.

Definition demoLabelled : Rule :=
  mkRule "lag" "Lag" "" "pg.lag" OpGreater (f_of_Z 80) SeverityWarning {["role" := "replica"]}
    1 15 [] SourceCustom true "" false 0.

Lemma labelled_alert_not_restored_witness :
  let s := mkPGHistory [mkAlertEvent 1 "lag" "" "db1" SeverityWarning (f_of_Z 90) (f_of_Z 80)
             OpGreater "pg.lag" ∅ [] 0 None false []] 2 {["lag"]} true in
  exists ev, (processTransition demoLabelled (demoPoint 90)
    (default newEntry (ev_state (@RestoreState PGHistory
       (@PGAlertHistoryStore insertion_SliceSort) s (set_rules [demoLabelled] NewEvaluator)).1
       !! @stateKeyWithLabels insertion_SliceSort canonical_MapRange "lag" "db1"
            {["role" := "replica"]})) true Second).2 = Some ev /\ e_IsResolution ev = false.
Proof.
  intros s.
  apply (@labelled_alert_not_restored insertion_SliceSort canonical_MapRange demoLabelled
           (demoPoint 90) s Second).
  - apply insert_non_empty.
  - done.
  - done.
  - repeat constructor.
Defined.

(** The points a replication slot collector emits for an inactive and an active slot. *)
Definition slotPoint (inst slot : string) (active : bool) (now : Time) : MetricPoint :=
  Base_point inst "replication.slot.active" (if active then f_of_Z 1 else f0)
    {["slot_name" := slot]} now.

Definition slotBatch (inst a b : string) (now : Time) : list MetricPoint :=
  [slotPoint inst a false now; slotPoint inst b true now].

(** A series of evaluations of such batches, collecting the events. *)
Definition slotRun {SS : SliceSort} {MR : MapRange} {S : Type} {HS : AlertHistoryStore S}
    (inst a b : string) (acc : Evaluator * S * list AlertEvent) (nows : list Time)
    : Evaluator * S * list AlertEvent :=
  foldl (fun acc now =>
    let '(e, s, evs) := acc in
    let '(e', s', evs') := Evaluate now (fun _ => now) e s (slotBatch inst a b now) in
    (e', s', evs ++ evs')) acc nows.

Definition entryOK (o : option stateEntry) : Prop :=
  se_State (default newEntry o) = StateOK.

Lemma evalPoint_pending {SS : SliceSort} {MR : MapRange} {S : Type} {HS : AlertHistoryStore S}
    (now : Time) (rule : Rule) (e : Evaluator) (s : S) evs (pt : MetricPoint) :
  let k := stateKeyWithLabels (r_ID rule) (pt_InstanceID pt) (r_Labels rule) in
  entryOK (ev_state e !! k) -> breach rule pt = true -> 1 < r_ConsecutiveCount rule ->
  exists en, evalPoint now rule (e, s, evs) pt = (set_state (<[k := en]> (ev_state e)) e, s, evs)
    /\ se_State en = StatePending.
Proof.
  intros k Hok Hb Hc. unfold evalPoint. fold k. unfold breach in Hb. rewrite Hb.
  unfold processTransition. rewrite Hok, (proj2 (Z.leb_gt _ _) Hc). by eexists.
Qed.

Lemma evalPoint_cleared {SS : SliceSort} {MR : MapRange} {S : Type} {HS : AlertHistoryStore S}
    (now : Time) (rule : Rule) (e : Evaluator) (s : S) evs (pt : MetricPoint) :
  let k := stateKeyWithLabels (r_ID rule) (pt_InstanceID pt) (r_Labels rule) in
  se_State (default newEntry (ev_state e !! k)) = StatePending -> breach rule pt = false ->
  exists en, evalPoint now rule (e, s, evs) pt = (set_state (<[k := en]> (ev_state e)) e, s, evs)
    /\ se_State en = StateOK.
Proof.
  intros k Hok Hb. unfold evalPoint. fold k. unfold breach in Hb. rewrite Hb.
  unfold processTransition. rewrite Hok. by eexists.
Qed.

Lemma slot_step {SS : SliceSort} {MR : MapRange} {S : Type} {HS : AlertHistoryStore S}
    (inst a b : string) (e : Evaluator) (s : S) (now : Time) :
  let k := stateKeyWithLabels (r_ID rule_replication_slot_inactive) inst ∅ in
  ev_rules e = [rule_replication_slot_inactive] -> ev_forecastProvider e = None ->
  entryOK (ev_state e !! k) ->
  exists e', Evaluate now (fun _ => now) e s (slotBatch inst a b now) = (e', s, []) /\
    ev_rules e' = ev_rules e /\ ev_forecastProvider e' = None /\ entryOK (ev_state e' !! k).
Proof.
  intros k Hr Hf Hok. unfold Evaluate. rewrite Hr. cbn [foldl].
  change ((len [rule_replication_slot_inactive] =? 0) || (len (slotBatch inst a b now) =? 0))
    with false. cbv iota.
  unfold evalRule. rewrite findMatching_scan.
  assert (List.filter (matches rule_replication_slot_inactive) (slotBatch inst a b now)
          = slotBatch inst a b now) as ->.
  { unfold slotBatch. cbn [List.filter]. unfold matches. simpl.
    rewrite !labels_match_empty. done. }
  unfold slotBatch at 1. cbn [foldl].
  destruct (evalPoint_pending now rule_replication_slot_inactive e s [] (slotPoint inst a false now))
    as (en & -> & Hen); [done|done|done|].
  edestruct (evalPoint_cleared now rule_replication_slot_inactive) as (en' & -> & Hen');
    [|done|].
  { cbn [ev_state set_state pt_InstanceID slotPoint Base_point]. by rewrite lookup_insert_eq. }
  rewrite (runForecasts_none (fun _ => now)) by done.
  eexists. split; [done|]. repeat split; try done.
  unfold entryOK. cbn [ev_state set_state]. by rewrite lookup_insert_eq.
Qed.

(** Two replication slots on one instance mask each other. State keys carry the rule's
    labels and not the point's, so an inactive and an active slot share one state machine:
    the builtin inactive-slot rule, which needs three consecutive breaches, never fires and
    records nothing, however many cycles the slot stays inactive. *)
Theorem inactive_slot_masked_by_active_slot {SS : SliceSort} {MR : MapRange} {S : Type}
    {HS : AlertHistoryStore S} (inst a b : string) (s : S) (nows : list Time) :
  let e := set_rules [rule_replication_slot_inactive] NewEvaluator in
  (slotRun inst a b (e, s, []) nows).1.2 = s /\ (slotRun inst a b (e, s, []) nows).2 = [].
Proof.
  cbv zeta.
  assert (forall e, ev_rules e = [rule_replication_slot_inactive] ->
    ev_forecastProvider e = None ->
    entryOK (ev_state e !! stateKeyWithLabels (r_ID rule_replication_slot_inactive) inst ∅) ->
    (slotRun inst a b (e, s, []) nows).1.2 = s /\ (slotRun inst a b (e, s, []) nows).2 = [])
    as H.
  { induction nows as [|now nows IH]; intros e Hr Hf Hok; [done|].
    destruct (slot_step inst a b e s now Hr Hf Hok) as (e' & He & Hr' & Hf' & Hok').
    unfold slotRun. cbn [foldl]. rewrite He. apply IH; congruence. }
  by apply H.
Qed.

(** The builtin anomaly rules match no anomaly. The detector reports an anomaly of metric
    [m] under the name "anomaly." followed by [m], and rules match names exactly, so the two
    rules on "anomaly." never see a point, whatever the batch. *)
Theorem ml_anomaly_rules_never_match {MR : MapRange} (anomalies : list (string * MetricPoint))
    (rule : Rule) :
  rule ∈ [rule_ml_anomaly_warning; rule_ml_anomaly_critical] ->
  Forall (fun x => x.1 <> "" /\ pt_Metric x.2 = "anomaly." +:+ x.1) anomalies ->
  findMatchingPoints (indexPoints (map snd anomalies)) rule = [].
Proof.
  intros Hr Ha. rewrite findMatching_scan. apply filter_none. intros p Hp.
  apply list_elem_of_fmap in Hp as (x & -> & Hx).
  pose proof (proj1 (list.Forall_forall _ _) Ha x Hx) as [Hne Hm].
  unfold matches. rewrite Hm.
  assert (r_Metric rule = "anomaly.") as ->.
  { apply elem_of_cons in Hr as [->|Hr]; [done|].
    apply list_elem_of_singleton in Hr as ->. done. }
  rewrite bool_decide_false; [done|]. simpl. intros [= He]. by destruct x.1.
Qed.

Lemma ml_anomaly_rules_never_match_witness :
  @findMatchingPoints canonical_MapRange
    (indexPoints [mkPoint "db1" "anomaly.pg.cache.hit_ratio" (f_of_Z 9) ∅ 0])
    rule_ml_anomaly_critical = [].
Proof.
  apply (@ml_anomaly_rules_never_match canonical_MapRange
           [("pg.cache.hit_ratio", mkPoint "db1" "anomaly.pg.cache.hit_ratio" (f_of_Z 9) ∅ 0)]
           rule_ml_anomaly_critical).
  - apply elem_of_cons. right. by apply list_elem_of_singleton.
  - repeat constructor. discriminate.
Defined.
