(* ===== verification/Dispatcher.v ===== *)
(** * Alert dispatcher

    Models internal/alert/dispatcher.go and internal/alert/notifier.go: the bounded event
    queue between the orchestrator and the notification worker, the notification cooldown,
    the retry loop, and the hooks that run after a notification. The notifiers and the
    remediation provider are interfaces of the code; here they are functions on a world that
    carries the clock. *)
From S2P Require Import Prelude Float64 Metric Alert.

Local Open Scope Z_scope.

(** The outside world as the dispatcher sees it: a clock that never goes back ([time.Now]
    carries a monotonic reading) and [time.Sleep]. *)
Class World (W : Type) := {
  clock : W -> Time;
  sleep : W -> Duration -> W;
  sleep_at_least : forall w d, clock w + Z.max 0 d <= clock (sleep w d)
}.

(** ** notifier.go *)

Record Notifier (W : Type) `{World W} := mkNotifier {
  n_Name : string;
  n_Send : W -> AlertEvent -> W * option error;
  n_Send_clock : forall w ev, clock w <= clock (n_Send w ev).1
}.
Arguments n_Name {W _} _.
Arguments n_Send {W _} _ _ _.
Arguments n_Send_clock {W _} _ _ _.

Section dispatcher.
Context {W : Type} {HW : World W}.

Abbreviation NotifierRegistry := (gmap string (Notifier W)).

Definition NewNotifierRegistry : NotifierRegistry := ∅.
Definition Register (r : NotifierRegistry) (n : Notifier W) : NotifierRegistry :=
  <[n_Name n := n]> r.
Definition registry_Get (r : NotifierRegistry) (name : string) : option (Notifier W) :=
  r !! name.
Definition registry_Names {MR : MapRange} (r : NotifierRegistry) : list string :=
  map fst (map_range r).

(** ** dispatcher.go: state *)

(** [EvaluateForAlert] of the remediation provider. *)
Record RemediationProvider := mkRemediationProvider {
  rp_Evaluate : W -> string -> string -> float64 -> Labels -> Severity ->
                W * list RemediationResult;
  rp_clock : forall w i m v l s, clock w <= clock (rp_Evaluate w i m v l s).1
}.

Record Dispatcher := mkDispatcher {
  d_registry : NotifierRegistry;
  d_defaultChannels : list string;
  d_cooldownMinutes : Z;
  d_retryDelays : list Duration;
  d_events : list AlertEvent;
  d_closed : bool;
  d_cooldowns : gmap string Time;
  d_remediation : option RemediationProvider;
  d_onAlertHooks : list string
}.

Definition defaultBufferSize : Z := 100.

Definition NewDispatcher (registry : NotifierRegistry) (defaultChannels : list string)
    (defaultCooldownMinutes : Z) : Dispatcher :=
  mkDispatcher registry defaultChannels defaultCooldownMinutes
    [1 * Second; 2 * Second; 4 * Second] [] false ∅ None [].

Definition SetRemediationProvider (p : option RemediationProvider) (d : Dispatcher) : Dispatcher :=
  mkDispatcher (d_registry d) (d_defaultChannels d) (d_cooldownMinutes d) (d_retryDelays d)
    (d_events d) (d_closed d) (d_cooldowns d) p (d_onAlertHooks d).

(** Hooks are identified by a name; what they do runs in goroutines of their own. *)
Definition OnAlert (hook : string) (d : Dispatcher) : Dispatcher :=
  mkDispatcher (d_registry d) (d_defaultChannels d) (d_cooldownMinutes d) (d_retryDelays d)
    (d_events d) (d_closed d) (d_cooldowns d) (d_remediation d) (d_onAlertHooks d ++ [hook]).

Definition set_events (evs : list AlertEvent) (closed : bool) (d : Dispatcher) : Dispatcher :=
  mkDispatcher (d_registry d) (d_defaultChannels d) (d_cooldownMinutes d) (d_retryDelays d)
    evs closed (d_cooldowns d) (d_remediation d) (d_onAlertHooks d).

Definition set_cooldowns (cd : gmap string Time) (d : Dispatcher) : Dispatcher :=
  mkDispatcher (d_registry d) (d_defaultChannels d) (d_cooldownMinutes d) (d_retryDelays d)
    (d_events d) (d_closed d) cd (d_remediation d) (d_onAlertHooks d).

(** ** dispatcher.go: operations *)

(** [Dispatch]: a non-blocking send on the buffered channel. [None] is the panic of a send
    on a closed channel. *)
Definition Dispatch (d : Dispatcher) (event : AlertEvent) : option (Dispatcher * bool) :=
  if d_closed d then None
  else if len (d_events d) <? defaultBufferSize
       then Some (set_events (d_events d ++ [event]) false d, true)
       else Some (d, false).

(** [Stop] closes the channel; closing twice panics. *)
Definition Stop (d : Dispatcher) : option Dispatcher :=
  if d_closed d then None else Some (set_events (d_events d) true d).

Definition cooldownKey (ruleID instanceID severity : string) : string :=
  ruleID +:+ ":" +:+ instanceID +:+ ":" +:+ severity.

Definition eventKey (event : AlertEvent) : string :=
  cooldownKey (e_RuleID event) (e_InstanceID event) (e_Severity event).

Definition cooldownDuration (d : Dispatcher) : Duration :=
  dur_mul (d_cooldownMinutes d) Minute.

Definition isCoolingDown (d : Dispatcher) (now : Time) (event : AlertEvent) : bool :=
  match d_cooldowns d !! eventKey event with
  | Some lastNotified => time_Sub now lastNotified <? cooldownDuration d
  | None => false
  end.

Definition recordCooldown (d : Dispatcher) (now : Time) (event : AlertEvent) : Dispatcher :=
  set_cooldowns (<[eventKey event := now]> (d_cooldowns d)) d.

Definition resolveChannels (d : Dispatcher) (event : AlertEvent) : list string :=
  if 0 <? len (e_Channels event) then e_Channels event else d_defaultChannels d.

(** One call of a notifier's [Send]. *)
Record Attempt := mkAttempt {
  at_Channel : string;
  at_Event : AlertEvent;
  at_Time : Time;
  at_Err : option error
}.

(** The retry loop from attempt number [attempt], with [left] attempts to go. *)
Fixpoint retryLoop (n : Notifier W) (chName : string) (event : AlertEvent)
    (delays : list Duration) (maxAttempts attempt : Z) (left : nat) (w : W)
    : W * list Attempt :=
  match left with
  | O => (w, [])
  | S left' =>
      let '(w1, err) := n_Send n w event in
      let a := mkAttempt chName event (clock w) err in
      match err with
      | None => (w1, [a])
      | Some _ =>
          let w2 := if attempt <? maxAttempts - 1
                    then sleep w1 (nth (Z.to_nat attempt) delays 0) else w1 in
          let '(w3, log) := retryLoop n chName event delays maxAttempts (attempt + 1) left' w2 in
          (w3, a :: log)
      end
  end.

Definition maxAttempts (d : Dispatcher) : Z :=
  if len (d_retryDelays d) =? 0 then 1 else len (d_retryDelays d).

Definition sendWithRetry (d : Dispatcher) (n : Notifier W) (chName : string)
    (event : AlertEvent) (w : W) : W * list Attempt :=
  retryLoop n chName event (d_retryDelays d) (maxAttempts d) 0 (Z.to_nat (maxAttempts d)) w.

Definition runRemediation (d : Dispatcher) (w : W) (event : AlertEvent)
    : W * list RemediationResult :=
  match d_remediation d with
  | None => (w, [])
  | Some p => rp_Evaluate p w (e_InstanceID event) (e_Metric event) (e_Value event)
                (e_Labels event) (e_Severity event)
  end.

Definition set_Recommendations (rs : list RemediationResult) (ev : AlertEvent) : AlertEvent :=
  mkAlertEvent (e_ID ev) (e_RuleID ev) (e_RuleName ev) (e_InstanceID ev) (e_Severity ev)
    (e_Value ev) (e_Threshold ev) (e_Operator ev) (e_Metric ev) (e_Labels ev) (e_Channels ev)
    (e_FiredAt ev) (e_ResolvedAt ev) (e_IsResolution ev) rs.

(** The loop over the channels: unregistered ones are skipped. *)
Fixpoint notifyAll (d : Dispatcher) (event : AlertEvent) (channels : list string) (w : W)
    : W * list Attempt :=
  match channels with
  | [] => (w, [])
  | chName :: channels' =>
      match registry_Get (d_registry d) chName with
      | None => notifyAll d event channels' w
      | Some n =>
          let '(w1, log1) := sendWithRetry d n chName event w in
          let '(w2, log2) := notifyAll d event channels' w1 in
          (w2, log1 ++ log2)
      end
  end.

(** The state after an event, the world, the sends made and the hooks started. *)
Record Processed := mkProcessed {
  pr_dispatcher : Dispatcher;
  pr_world : W;
  pr_log : list Attempt;
  pr_hooks : list (string * AlertEvent)
}.

Definition processEvent (d : Dispatcher) (w : W) (event : AlertEvent) : Processed :=
  if negb (e_IsResolution event) && isCoolingDown d (clock w) event
  then mkProcessed d w [] []
  else
    let '(w1, event1) :=
      if e_IsResolution event then (w, event)
      else let '(w', rs) := runRemediation d w event in (w', set_Recommendations rs event) in
    let channels := resolveChannels d event1 in
    if len channels =? 0 then mkProcessed d w1 [] []
    else
      let '(w2, log) := notifyAll d event1 channels w1 in
      let d' := if e_IsResolution event1 then d else recordCooldown d (clock w2) event1 in
      mkProcessed d' w2 log (map (fun h => (h, event1)) (d_onAlertHooks d')).

(** The worker goroutine's loop over a sequence of events; the worker waits [wait] before it
    takes each event. The logs are kept per event. *)
Fixpoint processAll (d : Dispatcher) (w : W) (inputs : list (Duration * AlertEvent))
    : list (list Attempt) :=
  match inputs with
  | [] => []
  | (wait, event) :: inputs' =>
      let p := processEvent d (sleep w wait) event in
      pr_log p :: processAll (pr_dispatcher p) (pr_world p) inputs'
  end.

(** ** The retry loop *)

Lemma sleep_mono (w : W) (d : Duration) : clock w <= clock (sleep w d).
Proof. pose proof (sleep_at_least w d). lia. Qed.

(** Every attempt of a log lies between the clock before and the clock after. *)
Definition within (lo hi : Time) (log : list Attempt) : Prop :=
  Forall (fun a => lo <= at_Time a <= hi) log.

Lemma within_weaken lo hi lo' hi' log :
  within lo hi log -> lo' <= lo -> hi <= hi' -> within lo' hi' log.
Proof. unfold within. intros H Hl Hh. eapply Forall_impl; [exact H|]. simpl. lia. Qed.

Lemma retryLoop_within n ch ev ds mx at_ left w :
  clock w <= clock (retryLoop n ch ev ds mx at_ left w).1 /\
  within (clock w) (clock (retryLoop n ch ev ds mx at_ left w).1)
    (retryLoop n ch ev ds mx at_ left w).2.
Proof.
  revert at_ w. induction left as [|left IH]; intros at_ w; simpl; [split; [lia|constructor]|].
  pose proof (n_Send_clock n w ev) as Hs. destruct (n_Send n w ev) as [w1 [m|]]; simpl in *.
  - set (w2 := if at_ <? mx - 1 then _ else w1).
    assert (clock w1 <= clock w2) as Hw.
    { subst w2. destruct (_ <? _); [apply sleep_mono|lia]. }
    destruct (IH (at_ + 1) w2) as [Hm Hin].
    destruct (retryLoop _ _ _ _ _ _ _ w2) as [w3 log]. simpl in *.
    split; [lia|]. constructor; [simpl; lia|].
    eapply within_weaken; [exact Hin|lia|lia].
  - split; [lia|]. constructor; [simpl; lia|constructor].
Qed.

Lemma retryLoop_event n ch ev ds mx at_ left w :
  Forall (fun a => at_Channel a = ch /\ at_Event a = ev)
    (retryLoop n ch ev ds mx at_ left w).2.
Proof.
  revert at_ w. induction left as [|left IH]; intros at_ w; simpl; [constructor|].
  destruct (n_Send n w ev) as [w1 [m|]]; simpl; [|by repeat constructor].
  set (w2 := if at_ <? mx - 1 then _ else w1). specialize (IH (at_ + 1) w2).
  destruct (retryLoop _ _ _ _ _ _ _ w2) as [w3 log]. by constructor.
Qed.

(** ** One event *)

Lemma notifyAll_within d ev chs w :
  clock w <= clock (notifyAll d ev chs w).1 /\
  within (clock w) (clock (notifyAll d ev chs w).1) (notifyAll d ev chs w).2.
Proof.
  revert w. induction chs as [|ch chs IH]; intros w; simpl; [split; [lia|constructor]|].
  destruct (registry_Get (d_registry d) ch) as [n|]; [|apply IH].
  unfold sendWithRetry.
  pose proof (retryLoop_within n ch ev (d_retryDelays d) (maxAttempts d) 0
                (Z.to_nat (maxAttempts d)) w) as [H1 H2].
  destruct (retryLoop _ _ _ _ _ _ _ w) as [w1 log1]. simpl in *.
  destruct (IH w1) as [H3 H4]. destruct (notifyAll d ev chs w1) as [w2 log2]. simpl in *.
  split; [lia|]. apply Forall_app. split; eapply within_weaken; try done; lia.
Qed.

Lemma notifyAll_event d ev chs w : Forall (fun a => at_Event a = ev) (notifyAll d ev chs w).2.
Proof.
  revert w. induction chs as [|ch chs IH]; intros w; simpl; [constructor|].
  destruct (registry_Get (d_registry d) ch) as [n|]; [|apply IH]. unfold sendWithRetry.
  pose proof (retryLoop_event n ch ev (d_retryDelays d) (maxAttempts d) 0
                (Z.to_nat (maxAttempts d)) w) as H1.
  destruct (retryLoop _ _ _ _ _ _ _ w) as [w1 log1]. specialize (IH w1).
  destruct (notifyAll d ev chs w1) as [w2 log2]. simpl in *. apply Forall_app.
  split; [|done]. eapply Forall_impl; [exact H1|]. naive_solver.
Qed.

Lemma processEvent_frame d w ev :
  let d' := pr_dispatcher (processEvent d w ev) in
  d_cooldownMinutes d' = d_cooldownMinutes d /\ d_registry d' = d_registry d /\
  d_retryDelays d' = d_retryDelays d /\ d_defaultChannels d' = d_defaultChannels d.
Proof.
  unfold processEvent. destruct (negb _ && _); [done|].
  destruct (e_IsResolution ev), (runRemediation d w ev) as [w' rs]; simpl;
    destruct (len _ =? 0); simpl; try done; destruct (notifyAll _ _ _ _); simpl; try done;
    destruct (e_IsResolution ev); done.
Qed.

(** What processing an event leaves behind: nothing but time when it is suppressed or has no
    channel; otherwise sends between check and record, and a cooldown entry for a fire. *)
Lemma processEvent_cases d w ev :
  let p := processEvent d w ev in
  clock w <= clock (pr_world p) /\
  (pr_log p = [] /\ d_cooldowns (pr_dispatcher p) = d_cooldowns d \/
   (e_IsResolution ev = false -> isCoolingDown d (clock w) ev = false) /\
   within (clock w) (clock (pr_world p)) (pr_log p) /\
   Forall (fun a => eventKey (at_Event a) = eventKey ev /\
                    e_IsResolution (at_Event a) = e_IsResolution ev) (pr_log p) /\
   d_cooldowns (pr_dispatcher p) =
     if e_IsResolution ev then d_cooldowns d
     else <[eventKey ev := clock (pr_world p)]> (d_cooldowns d)).
Proof.
  unfold processEvent. destruct (negb (e_IsResolution ev) && isCoolingDown d (clock w) ev) eqn:E.
  { simpl. split; [lia|by left]. }
  assert (e_IsResolution ev = false -> isCoolingDown d (clock w) ev = false) as Hc.
  { intros Hf. by rewrite Hf in E. }
  set (we := if e_IsResolution ev then (w, ev) else _).
  assert (clock w <= clock we.1 /\ eventKey we.2 = eventKey ev /\
          e_IsResolution we.2 = e_IsResolution ev) as (Hw & Hk & Hres).
  { subst we. destruct (e_IsResolution ev) eqn:Er; [simpl; split; [lia|done]|].
    unfold runRemediation. destruct (d_remediation d) as [p|]; simpl.
    - pose proof (rp_clock p w (e_InstanceID ev) (e_Metric ev) (e_Value ev) (e_Labels ev)
                    (e_Severity ev)) as Hp.
      destruct (rp_Evaluate _ _ _ _ _ _ _) as [w' rs]. done.
    - split; [lia|done]. }
  destruct we as [w1 ev1]. simpl in *. destruct (len (resolveChannels d ev1) =? 0).
  { simpl. split; [lia|by left]. }
  pose proof (notifyAll_within d ev1 (resolveChannels d ev1) w1) as [Hm Hin].
  pose proof (notifyAll_event d ev1 (resolveChannels d ev1) w1) as Hev.
  destruct (notifyAll _ _ _ w1) as [w2 log]. simpl in *. rewrite Hres.
  split; [lia|]. right. split; [done|]. repeat split.
  - eapply within_weaken; [exact Hin|lia|lia].
  - eapply Forall_impl; [exact Hev|]. intros a ->. done.
  - destruct (e_IsResolution ev); [done|]. simpl. by rewrite Hk.
Qed.

(** ** Runs of the worker *)

(** Firing sends under the key [k] in a log. *)
Definition fires (k : string) (a : Attempt) : Prop :=
  e_IsResolution (at_Event a) = false /\ eventKey (at_Event a) = k.

(** The last notification time bounds every later firing send under the same key. *)
Lemma processAll_after inputs : forall d w k t,
  d_cooldowns d !! k = Some t -> t <= clock w ->
  Forall (Forall (fun a => fires k a -> t + cooldownDuration d <= at_Time a))
    (processAll d w inputs).
Proof.
  induction inputs as [|[wait ev] inputs IH]; intros d w k t Hk Ht; simpl; [constructor|].
  pose proof (sleep_mono w wait) as Hs. set (w0 := sleep w wait) in *.
  pose proof (processEvent_cases d w0 ev) as [Hw Hcase].
  pose proof (processEvent_frame d w0 ev) as [Hcm _].
  assert (cooldownDuration (pr_dispatcher (processEvent d w0 ev)) = cooldownDuration d) as Hcd.
  { unfold cooldownDuration. by rewrite Hcm. }
  set (p := processEvent d w0 ev) in *. rewrite <- Hcd.
  destruct Hcase as [[Hlog Hsame]|(Hnc & Hin & Hev & Hcds)].
  - constructor; [by rewrite Hlog|]. apply IH; [by rewrite Hsame|lia].
  - destruct (decide (eventKey ev = k /\ e_IsResolution ev = false)) as [[Hek Her]|Hne].
    + assert (t + cooldownDuration d <= clock w0) as Hgap.
      { specialize (Hnc Her). unfold isCoolingDown in Hnc. rewrite Hek, Hk in Hnc. zb.
        unfold cooldownDuration in *.
        pose proof (i64_in (d_cooldownMinutes d * Minute)) as Hi.
        unfold dur_mul, time_Sub, in_i64, min_i64, max_i64 in *. lia. }
      constructor.
      * eapply Forall_impl; [exact Hin|]. simpl. rewrite Hcd. lia.
      * rewrite Her, Hek in Hcds.
        eapply Forall_impl; [apply IH; [rewrite Hcds; apply lookup_insert_eq|lia]|].
        simpl. intros log Hl. eapply Forall_impl; [exact Hl|]. simpl. intros a Ha Hf.
        specialize (Ha Hf). lia.
    + constructor.
      * eapply Forall_impl; [exact Hev|]. simpl. intros a [Ha1 Ha2] [Hf1 Hf2].
        exfalso. apply Hne. split; congruence.
      * apply IH; [|lia]. rewrite Hcds. destruct (e_IsResolution ev); [done|].
        rewrite lookup_insert_ne; [done|]. intros Heq. by apply Hne.
Qed.

Lemma processAll_gap inputs : forall d w k i j li lj a b,
  processAll d w inputs !! i = Some li -> processAll d w inputs !! j = Some lj -> (i < j)%nat ->
  a ∈ li -> b ∈ lj -> fires k a -> fires k b -> at_Time a + cooldownDuration d <= at_Time b.
Proof.
  induction inputs as [|[wait ev] inputs IH]; intros d w k i j li lj a b Hi Hj Hij Ha Hb Hfa Hfb;
    [done|].
  cbn [processAll] in Hi, Hj. set (w0 := sleep w wait) in *.
  pose proof (processEvent_cases d w0 ev) as [Hw Hcase].
  pose proof (processEvent_frame d w0 ev) as [Hcm _].
  assert (cooldownDuration (pr_dispatcher (processEvent d w0 ev)) = cooldownDuration d) as Hcd.
  { unfold cooldownDuration. by rewrite Hcm. }
  set (p := processEvent d w0 ev) in *.
  destruct j as [|j]; [lia|]. simpl in Hj. destruct i as [|i]; simpl in Hi.
  2: { rewrite <- Hcd. apply (IH _ (pr_world p) k i j li lj); try done. lia. }
  injection Hi as <-. destruct Hcase as [[Hlog _]|(_ & Hin & Hev & Hcds)].
  { rewrite Hlog in Ha. by apply not_elem_of_nil in Ha. }
  pose proof (proj1 (list.Forall_forall _ _) Hin a Ha) as Hta. simpl in Hta.
  pose proof (proj1 (list.Forall_forall _ _) Hev a Ha) as [Hka Hra].
  destruct Hfa as [Hfa1 Hfa2]. rewrite Hfa1 in Hra. rewrite <- Hra, <- Hka, Hfa2 in Hcds.
  pose proof (processAll_after inputs (pr_dispatcher p) (pr_world p) k (clock (pr_world p)))
    as Hafter.
  rewrite Hcds in Hafter. specialize (Hafter (lookup_insert_eq _ _ _) (Z.le_refl _)).
  pose proof (Forall_lookup_1 _ _ _ _ Hafter Hj) as Hlj.
  pose proof (proj1 (list.Forall_forall _ _) Hlj b Hb Hfb) as Htb. simpl in Htb. lia.
Qed.

(** ** The shape of a retry log *)

(** Consecutive attempts are separated by the configured delays. *)
Fixpoint spaced (delays : list Duration) (log : list Attempt) : Prop :=
  match log with
  | a :: (b :: _) as log' => at_Time a + nth 0 delays 0 <= at_Time b /\ spaced (tail delays) log'
  | _ => True
  end.

(** A log of at most [n] sends that ends with the first success or after [n] failures. *)
Definition retry_shape (n : nat) (log : list Attempt) : Prop :=
  exists failed last, log = failed ++ [last] /\ Forall (fun a => at_Err a <> None) failed /\
    (length log <= n)%nat /\ (at_Err last = None \/ length log = n).

Lemma retryLoop_shape n ch ev ds mx left : forall at_ w,
  (0 < left)%nat -> retry_shape left (retryLoop n ch ev ds mx at_ left w).2.
Proof.
  induction left as [|left IH]; intros at_ w Hl; [lia|]. cbn [retryLoop].
  destruct (n_Send n w ev) as [w1 [m|]].
  2: { exists [], (mkAttempt ch ev (clock w) None). repeat split; simpl; [constructor|lia|auto]. }
  set (w2 := if at_ <? mx - 1 then _ else w1).
  destruct left as [|left].
  { simpl. exists [], (mkAttempt ch ev (clock w) (Some m)). repeat split; simpl; auto. }
  destruct (IH (at_ + 1) w2 ltac:(lia)) as (failed & last & Heq & Hf & Hlen & Hend).
  destruct (retryLoop _ _ _ _ _ _ _ w2) as [w3 log]. simpl in *. subst log.
  eexists (_ :: failed), last. split; [done|]. split; [by constructor|]. split; [simpl in *; lia|].
  destruct Hend as [Hend|Hend]; [by left|right; simpl in *; lia].
Qed.

Lemma retryLoop_first n ch ev ds mx at_ left w a log :
  (retryLoop n ch ev ds mx at_ left w).2 = a :: log -> at_Time a = clock w.
Proof.
  destruct left as [|left]; [done|]. cbn [retryLoop].
  destruct (n_Send n w ev) as [w1 [m|]]; [|by intros [= <- _]].
  destruct (retryLoop _ _ _ _ _ _ _ _) as [w3 log']. by intros [= <- _].
Qed.

Lemma retryLoop_spaced n ch ev ds mx left : forall at_ w,
  0 <= at_ -> mx = at_ + Z.of_nat left -> Forall (fun d => 0 <= d) ds ->
  spaced (drop (Z.to_nat at_) ds) (retryLoop n ch ev ds mx at_ left w).2.
Proof.
  induction left as [|left IH]; intros at_ w Ha Hm Hd; [done|]. cbn [retryLoop].
  pose proof (n_Send_clock n w ev) as Hs. destruct (n_Send n w ev) as [w1 [m|]]; [|done].
  simpl in Hs. set (w2 := if at_ <? mx - 1 then _ else w1).
  specialize (IH (at_ + 1) w2 ltac:(lia) ltac:(lia) Hd).
  pose proof (retryLoop_first n ch ev ds mx (at_ + 1) left w2) as Hfirst.
  destruct (retryLoop _ _ _ _ _ _ _ w2) as [w3 log] eqn:Er. simpl in *.
  destruct log as [|b log]; [done|]. specialize (Hfirst b log eq_refl). split.
  - destruct left as [|left]; [done|]. subst w2. rewrite Hfirst.
    rewrite (proj2 (Z.ltb_lt at_ (mx - 1))) by lia.
    pose proof (sleep_at_least w1 (nth (Z.to_nat at_) ds 0)). rewrite nth_skipn, Nat.add_0_r. lia.
  - rewrite Z2Nat.inj_add, Nat.add_comm in IH by lia.
    assert (tail (drop (Z.to_nat at_) ds) = drop (Pos.to_nat 1 + Z.to_nat at_) ds) as ->; [|done].
    clear. revert ds. induction (Z.to_nat at_) as [|k IHk]; intros ds; [by destruct ds|].
    destruct ds as [|d ds]; [done|]. rewrite <- plus_n_Sm. apply IHk.
Qed.

(** ** The queue *)

(** What the orchestrator and the worker can do: offer an event, take the oldest event off the
    queue and process it, or close the queue. *)
Inductive disp_step : Dispatcher * W -> option (AlertEvent * bool) -> option AlertEvent ->
    Dispatcher * W -> Prop :=
  | step_offer d w ev d' ok : Dispatch d ev = Some (d', ok) ->
      disp_step (d, w) (Some (ev, ok)) None (d', w)
  | step_take d w ev rest :
      d_events d = ev :: rest ->
      disp_step (d, w) None (Some ev)
        (pr_dispatcher (processEvent (set_events rest (d_closed d) d) w ev),
         pr_world (processEvent (set_events rest (d_closed d) d) w ev))
  | step_stop d w d' : Stop d = Some d' -> disp_step (d, w) None None (d', w).

(** Runs from a new dispatcher, with the offers made (and whether they were accepted) and the
    events processed, in order. *)
Inductive disp_run (d0 : Dispatcher) (w0 : W) : list (AlertEvent * bool) -> list AlertEvent ->
    Dispatcher * W -> Prop :=
  | drun_start : disp_run d0 w0 [] [] (d0, w0)
  | drun_step offers done_ st o t st' : disp_run d0 w0 offers done_ st -> disp_step st o t st' ->
      disp_run d0 w0 (offers ++ option_list o) (done_ ++ option_list t) st'.

Definition accepted (offers : list (AlertEvent * bool)) : list AlertEvent :=
  map fst (List.filter snd offers).

Lemma accepted_app l l' : accepted (l ++ l') = accepted l ++ accepted l'.
Proof. unfold accepted. by rewrite List.filter_app, map_app. Qed.

Lemma processEvent_queue d w ev : d_events (pr_dispatcher (processEvent d w ev)) = d_events d.
Proof.
  unfold processEvent. destruct (negb _ && _); [done|].
  destruct (e_IsResolution ev), (runRemediation d w ev) as [w' rs]; simpl;
    destruct (len _ =? 0); simpl; try done; destruct (notifyAll _ _ _ _); simpl; try done;
    destruct (e_IsResolution ev); done.
Qed.

End dispatcher.
Arguments Dispatcher W {HW}.
Arguments Attempt : clear implicits.

(** ** Properties *)

(** C4: Notification cooldown. Take any sequence of events handled by the worker. Two sends of
    fire events with the same rule, instance and severity that were made for different events
    are at least the configured cooldown apart, however long sends, retries and remediation
    take. *)
Theorem cooldown_separates_notifications {W : Type} {HW : World W} (d : Dispatcher W) (w : W)
    (inputs : list (Duration * AlertEvent)) (k : string) (i j : nat) (li lj : list Attempt)
    (a b : Attempt) :
  processAll d w inputs !! i = Some li -> processAll d w inputs !! j = Some lj -> (i < j)%nat ->
  a ∈ li -> b ∈ lj -> fires k a -> fires k b ->
  at_Time a + cooldownDuration d <= at_Time b.
Proof. apply processAll_gap. Qed.

(** Retries. A delivery to a notifier makes at least one and at most
    [max 1 (length retryDelays)] sends, all of the same event, stops at the first success,
    gives up only after all of them failed, and consecutive sends are separated by the
    configured delays. *)
Theorem retry_bounded_and_spaced {W : Type} {HW : World W} (d : Dispatcher W) (n : Notifier W)
    (ch : string) (ev : AlertEvent) (w : W) :
  Forall (fun x => 0 <= x) (d_retryDelays d) ->
  let log := (sendWithRetry d n ch ev w).2 in
  retry_shape (Nat.max 1 (length (d_retryDelays d))) log /\
  Forall (fun a => at_Channel a = ch /\ at_Event a = ev) log /\
  spaced (d_retryDelays d) log.
Proof.
  intros Hd. unfold sendWithRetry. cbv zeta.
  assert (Z.to_nat (maxAttempts d) = Nat.max 1 (length (d_retryDelays d)) /\ 0 <= maxAttempts d)
    as [Hm Hp].
  { unfold maxAttempts, len. destruct (_ =? 0) eqn:E; zb; lia. }
  rewrite <- Hm. split; [apply retryLoop_shape; lia|]. split; [apply retryLoop_event|].
  apply (retryLoop_spaced n ch ev (d_retryDelays d) (maxAttempts d)
           (Z.to_nat (maxAttempts d)) 0); [lia|lia|done].
Qed.

(** Resolutions are never suppressed and never start a cooldown. Whatever the cooldown
    state, a resolution event is sent, in channel order, to every resolved channel that has a
    notifier, the cooldown table is unchanged and every hook is started. *)
Theorem resolution_always_delivered {W : Type} {HW : World W} (d : Dispatcher W) (w : W)
    (ev : AlertEvent) :
  e_IsResolution ev = true -> resolveChannels d ev <> [] ->
  let p := processEvent d w ev in
  (exists logs, pr_log p = concat logs /\
    Forall2 (fun ch log => log <> [] /\ Forall (fun a => at_Channel a = ch /\ at_Event a = ev) log)
      (List.filter (fun ch => bool_decide (is_Some (registry_Get (d_registry d) ch)))
         (resolveChannels d ev)) logs) /\
  pr_dispatcher p = d /\ pr_hooks p = map (fun h => (h, ev)) (d_onAlertHooks d).
Proof.
  intros Hr Hc. unfold processEvent. rewrite Hr. simpl.
  assert (len (resolveChannels d ev) =? 0 = false) as ->.
  { apply Z.eqb_neq. unfold len. by destruct (resolveChannels d ev). }
  destruct (notifyAll d ev (resolveChannels d ev) w) as [w2 log] eqn:En. simpl.
  rewrite Hr. split; [|done]. replace log with (notifyAll d ev (resolveChannels d ev) w).2
    by by rewrite En. clear En log w2 Hc. revert w.
  induction (resolveChannels d ev) as [|ch chs IH]; intros w; simpl; [by exists []|].
  destruct (registry_Get (d_registry d) ch) as [n|]; [|apply IH]. rewrite bool_decide_true by done.
  unfold sendWithRetry.
  pose proof (retryLoop_event n ch ev (d_retryDelays d) (maxAttempts d) 0
                (Z.to_nat (maxAttempts d)) w) as Hev.
  destruct (retryLoop_shape n ch ev (d_retryDelays d) (maxAttempts d)
              (Z.to_nat (maxAttempts d)) 0 w) as (f & l & Heq & _).
  { unfold maxAttempts, len. destruct (_ =? 0) eqn:E; zb; lia. }
  destruct (retryLoop _ _ _ _ _ _ _ w) as [w1 log1]. simpl in *.
  destruct (IH w1) as (logs & Hlogs & H2). destruct (notifyAll d ev chs w1) as [w2 log2].
  simpl in *. exists (log1 :: logs). split; [by rewrite Hlogs|]. constructor; [|done].
  split; [|done]. rewrite Heq. by destruct f.
Qed.

(** The queue between evaluation and notification. In every interleaving of offers, worker
    steps and shutdown, the queue never exceeds its buffer, and the accepted events are exactly
    the events already processed followed by those still queued, in the order in which they
    were offered: nothing accepted is lost, duplicated or reordered. *)
Theorem dispatch_queue_fifo {W : Type} {HW : World W} (registry : gmap string (Notifier W))
    (defaults : list string) (cooldown : Z) (w0 : W) offers processed (d : Dispatcher W) (w : W) :
  disp_run (NewDispatcher registry defaults cooldown) w0 offers processed (d, w) ->
  len (d_events d) <= defaultBufferSize /\ accepted offers = processed ++ d_events d.
Proof.
  intros Hrun. remember (d, w) as st eqn:Est. revert d w Est.
  induction Hrun as [|offers done_ [d1 w1] o t st' Hrun IH Hstep]; intros d w Est.
  { injection Est as <- <-. done. }
  destruct (IH d1 w1 eq_refl) as [Hlen Hacc]. clear IH Hrun. subst st'.
  inversion Hstep as [? ? ev d' ok HD|? ? ev rest Hq|? ? d' HS]; subst; simpl in *.
  - unfold Dispatch in HD. destruct (d_closed d1); [done|].
    rewrite accepted_app, Hacc, app_nil_r.
    destruct (_ <? _) eqn:El; injection HD as <- <-; zb; simpl.
    + unfold len in *. rewrite length_app, app_assoc. simpl. split; [lia|done].
    + by rewrite app_nil_r.
  - rewrite processEvent_queue. simpl.
    rewrite app_nil_r, Hacc, Hq, <- app_assoc. split; [|done].
    unfold len in *. rewrite Hq in Hlen. simpl in Hlen. lia.
  - unfold Stop in HS. destruct (d_closed d1); [done|].
    injection HS as <-. by rewrite !app_nil_r.
Qed.

(** An alert that resolves to no channel reaches no hook. The hooks registered with
    [OnAlert] run after the notifications only, so without notification channels neither the
    desktop notifications nor automatic root cause analysis ever see an event. *)
Theorem no_channels_no_hooks {W : Type} {HW : World W} (d : Dispatcher W) (w : W)
    (ev : AlertEvent) :
  e_Channels ev = [] -> d_defaultChannels d = [] ->
  pr_hooks (processEvent d w ev) = [] /\ pr_log (processEvent d w ev) = [].
Proof.
  intros He Hd. unfold processEvent. destruct (negb _ && _); [done|].
  destruct (e_IsResolution ev), (runRemediation d w ev) as [w' rs]; simpl;
    unfold resolveChannels; simpl; rewrite He; simpl; rewrite Hd; done.
Qed.

(** ** Concrete runs *)

(** A world that is only a clock, and a notifier that fails before time 2s and takes 5s. *)
#[global] Program Instance clockWorld : World Z := {|
  clock := fun w => w;
  sleep := fun w d => w + Z.max 0 d
|}.
Next Obligation. simpl. lia. Qed.

Program Definition demoNotifier : Notifier Z := {|
  n_Name := "email";
  n_Send := fun w ev => (w + 5 * Second, if w <? 2 * Second then Some "smtp" else None)
|}.
Next Obligation. simpl. unfold Second. lia. Qed.

Definition demoDispatcher : Dispatcher Z :=
  OnAlert "rca" (NewDispatcher (Register NewNotifierRegistry demoNotifier) ["email"; "sms"] 15).

Definition demoEvent (resolution : bool) : AlertEvent :=
  mkAlertEvent 1 "r" "" "db1" SeverityWarning f0 f0 OpGreater "m" ∅ [] 0 None resolution [].

Lemma cooldown_separates_notifications_witness :
  exists a b, at_Time a + cooldownDuration demoDispatcher <= at_Time b /\ fires "r:db1:warning" a
    /\ fires "r:db1:warning" b.
Proof.
  set (inputs := [(0, demoEvent false); (Minute, demoEvent false); (20 * Minute, demoEvent false)]).
  eexists _, _. split; [|split].
  - apply (cooldown_separates_notifications demoDispatcher 0 inputs "r:db1:warning" 0 2
             (default [] (processAll demoDispatcher 0 inputs !! 0%nat))
             (default [] (processAll demoDispatcher 0 inputs !! 2%nat))
             (mkAttempt "email" (demoEvent false) (6 * Second) None)
             (mkAttempt "email" (demoEvent false) (1271 * Second) None)).
    + reflexivity.
    + reflexivity.
    + lia.
    + apply (list_elem_of_lookup_2 _ 1). reflexivity.
    + apply (list_elem_of_lookup_2 _ 0). reflexivity.
    + done.
    + done.
  - done.
  - done.
Defined.

Lemma retry_bounded_and_spaced_witness :
  retry_shape 3 (sendWithRetry demoDispatcher demoNotifier "email" (demoEvent false) 0).2.
Proof.
  assert (Forall (fun x => 0 <= x) (d_retryDelays demoDispatcher)) as Hd.
  { repeat constructor; discriminate. }
  exact (proj1 (retry_bounded_and_spaced demoDispatcher demoNotifier "email" (demoEvent false) 0
                  Hd)).
Defined.

Lemma resolution_always_delivered_witness :
  pr_hooks (processEvent demoDispatcher 0 (demoEvent true)) = [("rca", demoEvent true)].
Proof.
  assert (resolveChannels demoDispatcher (demoEvent true) <> []) as Hc by done.
  exact (proj2 (proj2 (resolution_always_delivered demoDispatcher 0 (demoEvent true)
                         eq_refl Hc))).
Defined.

Lemma dispatch_queue_fifo_witness :
  let d := NewDispatcher NewNotifierRegistry [] 15 in
  accepted [(demoEvent false, true); (demoEvent true, true)]
    = [demoEvent false] ++ [demoEvent true].
Proof.
  intros d. set (d1 := set_events [demoEvent false] false d).
  set (d2 := set_events [demoEvent false; demoEvent true] false d).
  set (p := processEvent (set_events [demoEvent true] false d2) 0 (demoEvent false)).
  pose proof (dispatch_queue_fifo NewNotifierRegistry [] 15 0
           [(demoEvent false, true); (demoEvent true, true)] [demoEvent false]
           (pr_dispatcher p) (pr_world p)) as H.
  refine (proj2 (H _)). clear H.
  change (disp_run d 0 (([] ++ [(demoEvent false, true)]) ++ [(demoEvent true, true)] ++ [])
            ([] ++ [demoEvent false]) (pr_dispatcher p, pr_world p)).
  rewrite app_assoc.
  apply (drun_step d 0 _ [] (d2, 0) None (Some (demoEvent false))).
  - apply (drun_step d 0 _ [] (d1, 0) (Some (demoEvent true, true)) None).
    + apply (drun_step d 0 [] [] (d, 0) (Some (demoEvent false, true)) None);
        [apply drun_start|by apply step_offer].
    + by apply step_offer.
  - by apply (step_take d2 0 (demoEvent false) [demoEvent true]).
Defined.

Lemma no_channels_no_hooks_witness :
  pr_hooks (processEvent (OnAlert "rca" (NewDispatcher NewNotifierRegistry [] 15)) 0
              (demoEvent false)) = [].
Proof. by apply no_channels_no_hooks. Defined.
