(* ===== verification/RcaGraph.v ===== *)
(** * Causal graph of the root cause analysis

    Models internal/rca/graph.go: nodes, edges, the selection of candidate chains for a
    trigger metric, upstream reachability, and the metric keys and terminal nodes of chains. *)
From S2P Require Import Prelude Float64 Metric.

Local Open Scope Z_scope.

(** ** Data *)

Inductive TemporalSemantics := BoundedLag | PersistentState | WhileEffective.
Inductive EvidenceRequirement := EvidenceRequired | EvidenceSupporting.

#[global] Instance TemporalSemantics_eq_dec : EqDecision TemporalSemantics.
Proof. solve_decision. Defined.
#[global] Instance EvidenceRequirement_eq_dec : EqDecision EvidenceRequirement.
Proof. solve_decision. Defined.

Record CausalNode := mkNode {
  nd_ID : string;
  nd_Name : string;
  nd_MetricKeys : list string;
  nd_Layer : string;
  nd_SymptomKey : string;
  nd_MechanismKey : string
}.

Record CausalEdge := mkEdge {
  ed_FromNode : string;
  ed_ToNode : string;
  ed_MinLag : Duration;
  ed_MaxLag : Duration;
  ed_MinLagSeconds : float64;
  ed_MaxLagSeconds : float64;
  ed_Temporal : TemporalSemantics;
  ed_Evidence : EvidenceRequirement;
  ed_Description : string;
  ed_BaseConfidence : float64;
  ed_ChainID : string;
  ed_RemediationHook : string
}.

Record CausalGraph := mkGraph {
  g_Nodes : gmap string CausalNode;
  g_Edges : list CausalEdge;
  g_ChainIDs : list string
}.

(** ** Operations *)

Definition IncomingEdges (g : CausalGraph) (nodeID : string) : list CausalEdge :=
  List.filter (fun e => bool_decide (ed_ToNode e = nodeID)) (g_Edges g).

Definition EdgesForChain (g : CausalGraph) (chainID : string) : list CausalEdge :=
  List.filter (fun e => bool_decide (ed_ChainID e = chainID)) (g_Edges g).

Section ranges.
Context {MR : MapRange}.

(** [matchingNodes]: the ids of the nodes that list the metric key. *)
Definition matchingNodes (g : CausalGraph) (metricKey : string) : gset string :=
  foldl (fun acc kv => if decide (metricKey ∈ nd_MetricKeys kv.2) then {[kv.1]} ∪ acc else acc)
    ∅ (map_range (g_Nodes g)).

(** One iteration of the first loop: over the edges. *)
Definition triggerEdge (nodes : gset string) (acc : gset string * list string) (e : CausalEdge)
    : gset string * list string :=
  let '(seen, chains) := acc in
  if bool_decide (ed_ToNode e ∈ nodes) && negb (bool_decide (ed_ChainID e ∈ seen))
  then ({[ed_ChainID e]} ∪ seen, chains ++ [ed_ChainID e])
  else acc.

(** One iteration of the second loop: over the registered chain ids. *)
Definition triggerChain (g : CausalGraph) (nodes : gset string)
    (acc : gset string * list string) (chainID : string) : gset string * list string :=
  let '(seen, chains) := acc in
  if decide (chainID ∈ seen) then acc
  else if existsb (fun e => bool_decide (ed_ChainID e = chainID)
                            && bool_decide (ed_ToNode e ∈ nodes)) (g_Edges g)
       then ({[chainID]} ∪ seen, chains ++ [chainID])
       else acc.

Definition ChainsForTrigger (g : CausalGraph) (metricKey : string) : list string :=
  let nodes := matchingNodes g metricKey in
  let acc := foldl (triggerEdge nodes) (∅, []) (g_Edges g) in
  (foldl (triggerChain g nodes) acc (g_ChainIDs g)).2.

Definition MetricKeysForChains (g : CausalGraph) (chainIDs : list string) : list string :=
  let chainSet : gset string := list_to_set chainIDs in
  let nodeIDs : gmap string bool :=
    foldl (fun acc e => if decide (ed_ChainID e ∈ chainSet)
                        then <[ed_ToNode e := true]> (<[ed_FromNode e := true]> acc) else acc)
      ∅ (g_Edges g) in
  dedup_key id
    (concat (map (fun kv => match g_Nodes g !! kv.1 with
                            | Some node => nd_MetricKeys node
                            | None => []
                            end) (map_range nodeIDs))).

Definition TerminalNodes (g : CausalGraph) (chainID : string) : list string :=
  let mine := EdgesForChain g chainID in
  let toNodes : gmap string bool := foldl (fun m e => <[ed_ToNode e := true]> m) ∅ mine in
  let fromNodes : gset string := list_to_set (map ed_FromNode mine) in
  List.filter (fun id => negb (bool_decide (id ∈ fromNodes))) (map fst (map_range toNodes)).

End ranges.

(** [reachableWalk]: the loop over the edges at one level, calling [rec] for the upstream
    node of every edge that leads to an unvisited node. *)
Fixpoint walkEdges (g : CausalGraph)
    (rec : string -> gset string * list CausalNode -> gset string * list CausalNode)
    (nodeID : string) (edges : list CausalEdge) (acc : gset string * list CausalNode)
    : gset string * list CausalNode :=
  match edges with
  | [] => acc
  | e :: edges' =>
      let acc' :=
        if bool_decide (ed_ToNode e = nodeID) && negb (bool_decide (ed_FromNode e ∈ acc.1)) then
          rec (ed_FromNode e)
            ({[ed_FromNode e]} ∪ acc.1,
             match g_Nodes g !! ed_FromNode e with
             | Some node => acc.2 ++ [node]
             | None => acc.2
             end)
        else acc in
      walkEdges g rec nodeID edges' acc'
  end.

Fixpoint reachableWalk (g : CausalGraph) (depth : nat) (nodeID : string)
    (acc : gset string * list CausalNode) : gset string * list CausalNode :=
  match depth with
  | O => acc
  | S depth' => walkEdges g (reachableWalk g depth') nodeID (g_Edges g) acc
  end.

Definition ReachableNodes (g : CausalGraph) (nodeID : string) (maxDepth : Z) : list CausalNode :=
  (reachableWalk g (Z.to_nat maxDepth) nodeID (∅, [])).2.

(** ** Specification *)

(** [m] causes [n] over a path of at most [d] edges. *)
Inductive upstream (g : CausalGraph) : nat -> string -> string -> Prop :=
  | up_edge d e : e ∈ g_Edges g -> upstream g (S d) (ed_FromNode e) (ed_ToNode e)
  | up_step d e m : e ∈ g_Edges g -> upstream g d m (ed_FromNode e) ->
      upstream g (S d) m (ed_ToNode e).

(** The chains with an edge into a node that lists the metric, in edge order. *)
Definition triggered (g : CausalGraph) (metricKey : string) (e : CausalEdge) : bool :=
  match g_Nodes g !! ed_ToNode e with
  | Some node => bool_decide (metricKey ∈ nd_MetricKeys node)
  | None => false
  end.

(** ** Candidate chains *)

Section lemmas.
Context {MR : MapRange}.

Lemma elem_of_map_range {V} (m : gmap string V) k v : (k, v) ∈ map_range m <-> m !! k = Some v.
Proof. by rewrite map_range_perm, elem_of_map_to_list. Qed.

Lemma matchingNodes_fold (k : string) (l : list (string * CausalNode)) (acc : gset string) id :
  id ∈ foldl (fun acc kv => if decide (k ∈ nd_MetricKeys kv.2) then {[kv.1]} ∪ acc else acc) acc l
  <-> id ∈ acc \/ exists node, (id, node) ∈ l /\ k ∈ nd_MetricKeys node.
Proof.
  revert acc. induction l as [|[i n] l IH]; intros acc; simpl.
  - setoid_rewrite elem_of_nil. naive_solver.
  - rewrite IH. setoid_rewrite elem_of_cons. case_decide; set_solver.
Qed.

Lemma matchingNodes_spec (g : CausalGraph) (k id : string) :
  id ∈ matchingNodes g k <-> exists node, g_Nodes g !! id = Some node /\ k ∈ nd_MetricKeys node.
Proof.
  unfold matchingNodes. rewrite matchingNodes_fold. setoid_rewrite elem_of_map_range. set_solver.
Qed.

Lemma triggered_matching (g : CausalGraph) (k : string) (e : CausalEdge) :
  triggered g k e = bool_decide (ed_ToNode e ∈ matchingNodes g k).
Proof.
  unfold triggered. destruct (g_Nodes g !! ed_ToNode e) as [node|] eqn:E.
  - apply bool_decide_ext. rewrite matchingNodes_spec. naive_solver.
  - symmetry. apply bool_decide_false. rewrite matchingNodes_spec. naive_solver.
Qed.

Lemma triggerEdges_fold (nodes : gset string) (es : list CausalEdge) :
  forall (seen : gset string) (sl cs : list string), (forall x, x ∈ sl <-> x ∈ seen) ->
  exists seen',
    foldl (triggerEdge nodes) (seen, cs) es
      = (seen', cs ++ map ed_ChainID (dedup_from ed_ChainID sl
                        (List.filter (fun e => bool_decide (ed_ToNode e ∈ nodes)) es))) /\
    forall e, e ∈ es -> ed_ToNode e ∈ nodes -> ed_ChainID e ∈ seen'.
Proof.
  assert (forall es acc, acc.1 ⊆ (foldl (triggerEdge nodes) acc es).1) as Hmono.
  { clear. induction es as [|e es IH]; intros [seen cs]; simpl; [done|].
    etransitivity; [|apply IH]. unfold triggerEdge. destruct (_ && _); set_solver. }
  induction es as [|e es IH]; intros seen sl cs Hsl; simpl.
  { exists seen. rewrite app_nil_r. split; [done|]. intros e He. by apply not_elem_of_nil in He. }
  case_bool_decide as Hn; simpl.
  2: { destruct (IH seen sl cs Hsl) as (seen' & -> & H). exists seen'. split; [done|].
       intros e' He' Hn'. apply elem_of_cons in He' as [->|He']; [done|]. by apply H. }
  destruct (decide (ed_ChainID e ∈ sl)) as [Hin|Hin].
  - rewrite bool_decide_true by by apply Hsl. simpl.
    destruct (IH seen sl cs Hsl) as (seen' & Heq & H). rewrite Heq. exists seen'.
    split; [done|]. intros e' He' Hn'. apply elem_of_cons in He' as [->|He']; [|by apply H].
    pose proof (Hmono es (seen, cs)) as Hm. rewrite Heq in Hm. apply Hm, Hsl, Hin.
  - rewrite bool_decide_false by by rewrite <- Hsl. simpl.
    destruct (IH ({[ed_ChainID e]} ∪ seen) (ed_ChainID e :: sl) (cs ++ [ed_ChainID e]))
      as (seen' & Heq & H).
    { intros x. rewrite elem_of_cons, Hsl. set_solver. }
    rewrite Heq. exists seen'. split; [by rewrite <- app_assoc|].
    intros e' He' Hn'. apply elem_of_cons in He' as [->|He']; [|by apply H].
    pose proof (Hmono es ({[ed_ChainID e]} ∪ seen, cs ++ [ed_ChainID e])) as Hm.
    rewrite Heq in Hm. apply Hm. simpl. set_solver.
Qed.

Lemma triggerChains_idle (g : CausalGraph) (nodes seen : gset string) cs ids :
  (forall e, e ∈ g_Edges g -> ed_ToNode e ∈ nodes -> ed_ChainID e ∈ seen) ->
  foldl (triggerChain g nodes) (seen, cs) ids = (seen, cs).
Proof.
  intros Hall. induction ids as [|i ids IH]; simpl; [done|].
  case_decide as Hi; [done|]. destruct (existsb _ _) eqn:E; [|done].
  apply existsb_exists in E as (e & He & Hb). apply andb_true_iff in Hb as [H1 H2].
  apply bool_decide_eq_true in H1, H2. apply list_elem_of_In in He. subst i.
  by specialize (Hall e He H2).
Qed.

Lemma ChainsForTrigger_eq (g : CausalGraph) (k : string) :
  ChainsForTrigger g k
    = map ed_ChainID (dedup_key ed_ChainID (List.filter (triggered g k) (g_Edges g))).
Proof.
  unfold ChainsForTrigger, dedup_key.
  destruct (triggerEdges_fold (matchingNodes g k) (g_Edges g) ∅ [] []) as (seen' & -> & H).
  { set_solver. }
  rewrite triggerChains_idle by done. simpl. do 2 f_equal.
  apply List.filter_ext. intros e. by rewrite triggered_matching.
Qed.

End lemmas.

(** ** Reachability *)

Lemma upstream_weaken g d m n : upstream g d m n -> upstream g (S d) m n.
Proof. induction 1; [by constructor|by eapply up_step]. Qed.

Section reach.
Context (g : CausalGraph).

(** The collected nodes are the visited ids that the graph declares. *)
Definition collected (acc : gset string * list CausalNode) : Prop :=
  forall node, node ∈ acc.2 <-> exists id, id ∈ acc.1 /\ g_Nodes g !! id = Some node.

Lemma walkEdges_sound (rec : string -> gset string * list CausalNode ->
      gset string * list CausalNode) (d : nat) (nodeID : string) (es : list CausalEdge) :
  (forall n acc, collected acc -> collected (rec n acc) /\
     forall id, id ∈ (rec n acc).1 -> id ∈ acc.1 \/ upstream g d id n) ->
  (forall e, e ∈ es -> e ∈ g_Edges g) ->
  forall acc, collected acc -> collected (walkEdges g rec nodeID es acc) /\
    forall id, id ∈ (walkEdges g rec nodeID es acc).1 -> id ∈ acc.1 \/ upstream g (S d) id nodeID.
Proof.
  intros Hrec. induction es as [|e es IH]; intros Hes acc Hacc; simpl; [by auto|].
  assert (e ∈ g_Edges g) as He by (apply Hes; by left).
  assert (forall e', e' ∈ es -> e' ∈ g_Edges g) as Hes' by (intros; apply Hes; by right).
  case_bool_decide as Ht; simpl; [|by apply IH].
  case_bool_decide as Hv; simpl; [by apply IH|].
  set (acc1 := ({[ed_FromNode e]} ∪ acc.1, _)).
  assert (collected acc1) as Hc1.
  { intros node. subst acc1. simpl. destruct (g_Nodes g !! ed_FromNode e) as [n|] eqn:En.
    - rewrite elem_of_app, list_elem_of_singleton, (Hacc node). set_solver.
    - rewrite (Hacc node). split; [set_solver|]. intros (id & Hid & Hn).
      apply elem_of_union in Hid as [Hid|Hid]; [|by eauto].
      apply elem_of_singleton in Hid. congruence. }
  destruct (Hrec (ed_FromNode e) acc1 Hc1) as [Hc2 H2].
  destruct (IH Hes' _ Hc2) as [Hc3 H3]. split; [done|].
  intros id Hid. destruct (H3 id Hid) as [Hid2|Hup]; [|by right].
  destruct (H2 id Hid2) as [Hid1|Hup]; [|right; rewrite <- Ht; by eapply up_step].
  subst acc1. simpl in Hid1. apply elem_of_union in Hid1 as [Hid1|Hid1]; [|by left].
  apply elem_of_singleton in Hid1 as ->. right. rewrite <- Ht. by apply up_edge.
Qed.

Lemma reachableWalk_sound (d : nat) : forall n acc, collected acc ->
  collected (reachableWalk g d n acc) /\
  forall id, id ∈ (reachableWalk g d n acc).1 -> id ∈ acc.1 \/ upstream g d id n.
Proof.
  induction d as [|d IH]; intros n acc Hacc; simpl; [by auto|].
  by apply walkEdges_sound.
Qed.

End reach.

(** ** Properties *)

(** Candidate chain selection. For every graph and trigger metric, the candidate chains
    are the chains that have an edge into a node listing that metric, each once, in the order
    of their first such edge: the pass over the registered chain ids adds nothing. *)
Theorem chains_for_trigger_spec {MR : MapRange} (g : CausalGraph) (metricKey : string) :
  ChainsForTrigger g metricKey
    = map ed_ChainID (dedup_key ed_ChainID (List.filter (triggered g metricKey) (g_Edges g))).
Proof. apply ChainsForTrigger_eq. Qed.

(** Upstream reachability is sound: every node it returns is a declared node that reaches
    the start over at most [maxDepth] edges, for every graph, cyclic ones included. *)
Theorem reachable_nodes_sound (g : CausalGraph) (nodeID : string) (maxDepth : Z)
    (node : CausalNode) :
  node ∈ ReachableNodes g nodeID maxDepth ->
  exists id, g_Nodes g !! id = Some node /\ upstream g (Z.to_nat maxDepth) id nodeID.
Proof.
  unfold ReachableNodes. intros Hn.
  destruct (reachableWalk_sound g (Z.to_nat maxDepth) nodeID (∅, [])) as [Hc H].
  { intros n. simpl. rewrite elem_of_nil. set_solver. }
  apply Hc in Hn as (id & Hid & Hnode). exists id. split; [done|].
  destruct (H id Hid) as [Hbad|]; [|done]. set_solver.
Qed.

(** Four nodes: d is upstream of a by the long way b, c and by the short way c. *)
Definition demoNode (id : string) : string * CausalNode := (id, mkNode id id [] "" "" "").
Definition demoEdge (from to : string) : CausalEdge :=
  mkEdge from to 0 0 f0 f0 PersistentState EvidenceRequired "" f1 "x" "".
Definition demoGraph : CausalGraph :=
  mkGraph (list_to_map [demoNode "a"; demoNode "b"; demoNode "c"; demoNode "d"])
    [demoEdge "b" "a"; demoEdge "c" "b"; demoEdge "c" "a"; demoEdge "d" "c"] ["x"].

Lemma reachable_nodes_sound_witness :
  exists id, g_Nodes demoGraph !! id = Some (demoNode "c").2 /\ upstream demoGraph 2 id "a".
Proof.
  apply (reachable_nodes_sound demoGraph "a" 2 (demoNode "c").2).
  apply (list_elem_of_lookup_2 _ 1). vm_compute. reflexivity.
Defined.

(** Upstream reachability is not complete below the depth bound. A node first visited at
    the bound through a long path is not expanded again when a shorter path reaches it, so
    nodes within [maxDepth] edges can be missing: the graph above has one. *)
Theorem reachable_nodes_incomplete :
  upstream demoGraph 2 "d" "a" /\ map nd_ID (ReachableNodes demoGraph "a" 2) = ["b"; "c"].
Proof.
  split; [|vm_compute; reflexivity].
  apply (up_step demoGraph 1 (demoEdge "c" "a") "d").
  - apply (list_elem_of_lookup_2 _ 2). reflexivity.
  - apply (up_edge demoGraph 0 (demoEdge "d" "c")). apply (list_elem_of_lookup_2 _ 3). reflexivity.
Qed.
