(* ===== verification/RcaOntology.v ===== *)
(** * The causal knowledge base

    Models internal/rca/ontology.go and internal/rca/chains.go: the symptom, mechanism, root
    cause, chain and hook keys, the nodes, and the edges of the twenty causal chains. *)
From S2P Require Import Prelude Float64 Metric RcaGraph.

Local Open Scope Z_scope.

(** ** ontology.go *)

Definition SymReplicationLagHigh : string := "symptom.replication_lag_high".
Definition SymDiskIOSaturated : string := "symptom.disk_io_saturated".
Definition SymConnectionExhaustion : string := "symptom.connection_exhaustion".
Definition SymQueryLatencyHigh : string := "symptom.query_latency_high".
Definition SymDiskSpaceLow : string := "symptom.disk_space_low".
Definition SymOOMRisk : string := "symptom.oom_risk".
Definition SymPGSSEviction : string := "symptom.pgss_eviction".
Definition SymScanDegradation : string := "symptom.scan_degradation".
Definition SymDeadTupleGrowth : string := "symptom.dead_tuple_growth".
Definition SymPGCrash : string := "symptom.pg_crash".
Definition SymCPUSpike : string := "symptom.cpu_spike".
Definition SymResourceShift : string := "symptom.resource_shift".
Definition SymBehavioralShift : string := "symptom.behavioral_shift".
Definition MechCheckpointStorm : string := "mechanism.checkpoint_storm".
Definition MechWALSpike : string := "mechanism.wal_spike".
Definition MechWALRetention : string := "mechanism.wal_retention".
Definition MechBufferBackendWrites : string := "mechanism.buffer_backend_writes".
Definition MechLockContention : string := "mechanism.lock_contention".
Definition MechBlockedQueries : string := "mechanism.blocked_queries".
Definition MechAutovacuumStorm : string := "mechanism.autovacuum_storm".
Definition MechTempFileSpike : string := "mechanism.temp_file_spike".
Definition MechMVCCBloat : string := "mechanism.mvcc_bloat".
Definition MechVacuumBlocked : string := "mechanism.vacuum_blocked".
Definition MechMemoryPressure : string := "mechanism.memory_pressure".
Definition MechSeqScans : string := "mechanism.seq_scans".
Definition MechAggressiveVacuum : string := "mechanism.aggressive_vacuum".
Definition MechWALRecvDisconnect : string := "mechanism.wal_receiver_disconnect".
Definition MechOOMKiller : string := "mechanism.oom_killer".
Definition MechTableBloat : string := "mechanism.table_bloat".
Definition RCBulkWorkload : string := "root_cause.bulk_workload".
Definition RCInactiveSlot : string := "root_cause.inactive_replication_slot".
Definition RCLongTransaction : string := "root_cause.long_transaction".
Definition RCMissingIndex : string := "root_cause.missing_index".
Definition RCWraparoundRisk : string := "root_cause.wraparound_approaching".
Definition RCMemoryPressure : string := "root_cause.memory_pressure".
Definition RCConfigChange : string := "root_cause.config_change".
Definition RCNetworkIssue : string := "root_cause.network_issue".
Definition RCQueryRegression : string := "root_cause.query_regression".
Definition RCNewQuery : string := "root_cause.new_query".
Definition RCBufferEviction : string := "root_cause.buffer_eviction".
Definition RCConnectionSpike : string := "root_cause.connection_spike".
Definition RCPGSSFill : string := "root_cause.pgss_fill".
Definition RCDeadTuples : string := "root_cause.dead_tuple_accumulation".
Definition RCLongTxBlocking : string := "root_cause.long_tx_blocking_vacuum".
Definition RCOSMemoryPressure : string := "root_cause.os_memory_pressure".
Definition ChainBulkWALCheckpointIOReplLag : string := "chain.bulk_wal_checkpoint_io_repllag".
Definition ChainInactiveSlotWALDisk : string := "chain.inactive_slot_wal_disk".
Definition ChainNetworkWALRecvReplLag : string := "chain.network_walrecv_repllag".
Definition ChainLongTxReplDelay : string := "chain.longtx_repl_delay".
Definition ChainWALSpikeCheckpointIO : string := "chain.walspike_checkpoint_io".
Definition ChainAutovacuumDiskLatency : string := "chain.autovacuum_disk_latency".
Definition ChainTempFileDiskQuery : string := "chain.tempfile_disk_query".
Definition ChainBufferEvictionBackendIO : string := "chain.buffer_eviction_backend_io".
Definition ChainLockBlockedConnPileup : string := "chain.lock_blocked_conn_pileup".
Definition ChainConnSpikeMemoryOOM : string := "chain.conn_spike_memory_oom".
Definition ChainLongTxBloatConn : string := "chain.longtx_bloat_conn".
Definition ChainQueryRegressionCPULatency : string := "chain.query_regression_cpu_latency".
Definition ChainNewQueryResourceShift : string := "chain.new_query_resource_shift".
Definition ChainMissingIndexSeqScanIO : string := "chain.missing_index_seqscan_io".
Definition ChainPGSSFillEviction : string := "chain.pgss_fill_eviction".
Definition ChainDeadTupleBloatScan : string := "chain.dead_tuple_bloat_scan".
Definition ChainWraparoundVacuumIO : string := "chain.wraparound_vacuum_io".
Definition ChainLongTxBlockVacuumGrowth : string := "chain.longtx_block_vacuum_growth".
Definition ChainSettingsChangeBehavior : string := "chain.settings_change_behavior".
Definition ChainOSMemoryOOMCrash : string := "chain.os_memory_oom_crash".
Definition HookCheckpointTuning : string := "remediation.checkpoint_completion_target".
Definition HookVacuumTuning : string := "remediation.vacuum_cost_settings".
Definition HookConnectionPooling : string := "remediation.connection_pooling".
Definition HookIndexCreation : string := "remediation.create_missing_index".
Definition HookSlotCleanup : string := "remediation.drop_inactive_slot".
Definition HookKillLongTx : string := "remediation.kill_long_transaction".
Definition HookSharedBuffers : string := "remediation.shared_buffers_tuning".
Definition HookTempFileWork : string := "remediation.work_mem_tuning".
Definition HookPGSSReset : string := "remediation.pgss_reset".
Definition HookVacuumAggressive : string := "remediation.vacuum_aggressive".
Definition HookWraparoundVacuum : string := "remediation.wraparound_vacuum".
Definition HookMemoryTuning : string := "remediation.memory_tuning".
Definition HookLockInvestigation : string := "remediation.lock_investigation".
Definition HookQueryOptimization : string := "remediation.query_optimization".
Definition HookNetworkDiagnostics : string := "remediation.network_diagnostics".
Definition HookWALArchive : string := "remediation.wal_archive".
Definition HookReplicationLag : string := "remediation.replication_lag".
Definition HookDiskCapacity : string := "remediation.disk_capacity".
Definition TierA : string := "stable".
Definition TierB : string := "experimental".
Definition KnowledgeVersion : string := "1.0.0".

Definition AllChainIDs : list string :=
  [ChainBulkWALCheckpointIOReplLag;
   ChainInactiveSlotWALDisk;
   ChainNetworkWALRecvReplLag;
   ChainLongTxReplDelay;
   ChainWALSpikeCheckpointIO;
   ChainAutovacuumDiskLatency;
   ChainTempFileDiskQuery;
   ChainBufferEvictionBackendIO;
   ChainLockBlockedConnPileup;
   ChainConnSpikeMemoryOOM;
   ChainLongTxBloatConn;
   ChainQueryRegressionCPULatency;
   ChainNewQueryResourceShift;
   ChainMissingIndexSeqScanIO;
   ChainPGSSFillEviction;
   ChainDeadTupleBloatScan;
   ChainWraparoundVacuumIO;
   ChainLongTxBlockVacuumGrowth;
   ChainSettingsChangeBehavior;
   ChainOSMemoryOOMCrash].

Definition TierForChain : gmap string string :=
  list_to_map
  [(ChainBulkWALCheckpointIOReplLag, TierA);
   (ChainInactiveSlotWALDisk, TierA);
   (ChainNetworkWALRecvReplLag, TierB);
   (ChainLongTxReplDelay, TierA);
   (ChainWALSpikeCheckpointIO, TierA);
   (ChainAutovacuumDiskLatency, TierA);
   (ChainTempFileDiskQuery, TierA);
   (ChainBufferEvictionBackendIO, TierA);
   (ChainLockBlockedConnPileup, TierA);
   (ChainConnSpikeMemoryOOM, TierA);
   (ChainLongTxBloatConn, TierA);
   (ChainQueryRegressionCPULatency, TierB);
   (ChainNewQueryResourceShift, TierB);
   (ChainMissingIndexSeqScanIO, TierA);
   (ChainPGSSFillEviction, TierA);
   (ChainDeadTupleBloatScan, TierA);
   (ChainWraparoundVacuumIO, TierA);
   (ChainLongTxBlockVacuumGrowth, TierA);
   (ChainSettingsChangeBehavior, TierB);
   (ChainOSMemoryOOMCrash, TierA)].

(** ** chains.go *)

Definition addNode (g : CausalGraph) (node : CausalNode) : CausalGraph :=
  mkGraph (<[nd_ID node := node]> (g_Nodes g)) (g_Edges g) (g_ChainIDs g).

Definition addEdge (g : CausalGraph) (edge : CausalEdge) : CausalGraph :=
  mkGraph (g_Nodes g) (g_Edges g ++ [edge]) (g_ChainIDs g).

Definition node_bulk_workload : CausalNode :=
  mkNode "bulk_workload" "Bulk Workload"
    ["pg.statements.top.total_time_ms"; "pg.statements.top.calls"]
    "workload" "" "".
Definition node_wal_generation : CausalNode :=
  mkNode "wal_generation" "WAL Generation Rate"
    ["pg.checkpoint.buffers_written_per_second"]
    "db" "" MechWALSpike.
Definition node_checkpoint_storm : CausalNode :=
  mkNode "checkpoint_storm" "Checkpoint Storm"
    ["pg.checkpoint.requested_per_second"; "pg.checkpoint.sync_time_ms"]
    "db" "" MechCheckpointStorm.
Definition node_disk_io : CausalNode :=
  mkNode "disk_io" "Disk I/O Saturation"
    ["os.disk.util_pct"; "os.disk.write_bytes_per_sec"; "os.cpu.iowait_pct"]
    "os" SymDiskIOSaturated "".
Definition node_replication_lag : CausalNode :=
  mkNode "replication_lag" "Replication Lag"
    ["pg.replication.lag.replay_bytes"; "pg.replication.lag.replay_seconds"]
    "db" SymReplicationLagHigh "".
Definition node_inactive_slot : CausalNode :=
  mkNode "inactive_slot" "Inactive Replication Slot"
    ["pg.replication.slot.active"; "pg.replication.slot.retained_bytes"]
    "db" "" "".
Definition node_wal_retention : CausalNode :=
  mkNode "wal_retention" "WAL Retention"
    ["pg.replication.slot.retained_bytes"]
    "db" "" MechWALRetention.
Definition node_disk_fill : CausalNode :=
  mkNode "disk_fill" "Disk Space Low"
    ["os.disk.used_bytes"; "os.disk.free_bytes"]
    "os" SymDiskSpaceLow "".
Definition node_long_tx_primary : CausalNode :=
  mkNode "long_tx_primary" "Long Transaction on Primary"
    ["pg.long_transactions.oldest_seconds"; "pg.long_transactions.count"]
    "db" "" "".
Definition node_replication_apply_delay : CausalNode :=
  mkNode "replication_apply_delay" "Replication Apply Delay"
    ["pg.replication.lag.replay_bytes"; "pg.replication.lag.replay_seconds"]
    "db" SymReplicationLagHigh "".
Definition node_autovacuum_storm : CausalNode :=
  mkNode "autovacuum_storm" "Autovacuum Storm"
    ["pg.progress.vacuum.completion_pct"; "pg.db.vacuum.dead_tuples"]
    "db" "" MechAutovacuumStorm.
Definition node_query_latency : CausalNode :=
  mkNode "query_latency" "Query Latency"
    ["pg.statements.top.avg_time_ms"; "pg.wait_events.count"]
    "db" SymQueryLatencyHigh "".
Definition node_temp_file_spike : CausalNode :=
  mkNode "temp_file_spike" "Temp File Spike"
    ["pg.io.writes"; "pg.io.write_time"]
    "db" "" MechTempFileSpike.
Definition node_query_slowdown : CausalNode :=
  mkNode "query_slowdown" "Query Slowdown"
    ["pg.statements.top.avg_time_ms"]
    "db" SymQueryLatencyHigh "".
Definition node_buffer_eviction : CausalNode :=
  mkNode "buffer_eviction" "Shared Buffers Eviction"
    ["pg.bgwriter.buffers_backend_per_second"; "pg.bgwriter.buffers_alloc_per_second"]
    "db" "" "".
Definition node_backend_writes : CausalNode :=
  mkNode "backend_writes" "Backend Direct Writes"
    ["pg.bgwriter.buffers_backend_per_second"]
    "db" "" MechBufferBackendWrites.
Definition node_lock_contention : CausalNode :=
  mkNode "lock_contention" "Lock Contention"
    ["pg.locks.blocker_count"; "pg.locks.blocked_count"; "pg.locks.max_chain_depth"]
    "db" "" MechLockContention.
Definition node_blocked_queries : CausalNode :=
  mkNode "blocked_queries" "Blocked Queries"
    ["pg.wait_events.count"]
    "db" "" MechBlockedQueries.
Definition node_connection_pileup : CausalNode :=
  mkNode "connection_pileup" "Connection Pileup"
    ["pg.connections.total"; "pg.connections.utilization_pct"]
    "db" SymConnectionExhaustion "".
Definition node_connection_spike : CausalNode :=
  mkNode "connection_spike" "Connection Spike"
    ["pg.connections.total"; "pg.connections.utilization_pct"]
    "db" "" "".
Definition node_memory_pressure : CausalNode :=
  mkNode "memory_pressure" "Memory Pressure"
    ["os.memory.available_kb"; "os.memory.used_kb"]
    "os" "" MechMemoryPressure.
Definition node_oom_risk : CausalNode :=
  mkNode "oom_risk" "OOM Risk"
    ["os.memory.available_kb"]
    "os" SymOOMRisk "".
Definition node_long_tx : CausalNode :=
  mkNode "long_tx" "Long Transaction"
    ["pg.long_transactions.oldest_seconds"; "pg.long_transactions.count"]
    "db" "" "".
Definition node_mvcc_bloat : CausalNode :=
  mkNode "mvcc_bloat" "MVCC Bloat"
    ["pg.db.vacuum.dead_tuples"; "pg.db.vacuum.dead_pct"]
    "db" "" MechMVCCBloat.
Definition node_conn_holding : CausalNode :=
  mkNode "conn_holding" "Connection Holding"
    ["pg.connections.total"; "pg.connections.utilization_pct"]
    "db" SymConnectionExhaustion "".
Definition node_missing_index : CausalNode :=
  mkNode "missing_index" "Missing Index"
    ["pg.db.index.unused_scans"; "pg.db.table.cache_hit_pct"]
    "db" "" "".
Definition node_seq_scans : CausalNode :=
  mkNode "seq_scans" "Sequential Scans"
    ["pg.io.reads"; "pg.io.read_time"]
    "db" "" MechSeqScans.
Definition node_pgss_fill : CausalNode :=
  mkNode "pgss_fill" "pg_stat_statements Fill"
    ["pg.statements.fill_pct"; "pg.extensions.pgss_fill_pct"]
    "db" "" "".
Definition node_pgss_eviction : CausalNode :=
  mkNode "pgss_eviction" "pg_stat_statements Eviction"
    ["pg.statements.fill_pct"]
    "db" SymPGSSEviction "".
Definition node_dead_tuples : CausalNode :=
  mkNode "dead_tuples" "Dead Tuple Accumulation"
    ["pg.db.vacuum.dead_tuples"; "pg.db.vacuum.dead_pct"]
    "db" "" "".
Definition node_table_bloat : CausalNode :=
  mkNode "table_bloat" "Table Bloat"
    ["pg.db.bloat.table_ratio"]
    "db" "" MechTableBloat.
Definition node_scan_degradation : CausalNode :=
  mkNode "scan_degradation" "Scan Degradation"
    ["pg.statements.top.avg_time_ms"; "pg.io.reads"]
    "db" SymScanDegradation "".
Definition node_wraparound_risk : CausalNode :=
  mkNode "wraparound_risk" "Wraparound Risk"
    ["pg.server.wraparound_pct"]
    "db" "" "".
Definition node_aggressive_vacuum : CausalNode :=
  mkNode "aggressive_vacuum" "Aggressive Anti-Wraparound Vacuum"
    ["pg.progress.vacuum.completion_pct"; "pg.db.vacuum.dead_tuples"]
    "db" "" MechAggressiveVacuum.
Definition node_long_tx_blocking : CausalNode :=
  mkNode "long_tx_blocking" "Long TX Blocking Vacuum"
    ["pg.long_transactions.oldest_seconds"]
    "db" "" "".
Definition node_vacuum_blocked : CausalNode :=
  mkNode "vacuum_blocked" "Vacuum Blocked"
    ["pg.db.vacuum.dead_tuples"; "pg.db.vacuum.dead_pct"]
    "db" "" MechVacuumBlocked.
Definition node_dead_tuple_growth : CausalNode :=
  mkNode "dead_tuple_growth" "Dead Tuple Growth"
    ["pg.db.vacuum.dead_tuples"; "pg.db.bloat.table_ratio"]
    "db" SymDeadTupleGrowth "".
Definition node_os_memory_pressure : CausalNode :=
  mkNode "os_memory_pressure" "OS Memory Pressure"
    ["os.memory.available_kb"; "os.memory.used_kb"; "os.memory.total_kb"]
    "os" "" "".
Definition node_oom_killer : CausalNode :=
  mkNode "oom_killer" "OOM Killer"
    ["os.memory.available_kb"]
    "os" "" MechOOMKiller.
Definition node_pg_crash : CausalNode :=
  mkNode "pg_crash" "PostgreSQL Crash"
    ["pg.server.uptime_seconds"]
    "db" SymPGCrash "".
Definition node_network_issue : CausalNode :=
  mkNode "network_issue" "Network Issue"
    []
    "os" "" "".
Definition node_wal_receiver_disconnect : CausalNode :=
  mkNode "wal_receiver_disconnect" "WAL Receiver Disconnect"
    ["pg.replication.wal_receiver.connected"]
    "db" "" MechWALRecvDisconnect.
Definition node_query_regression : CausalNode :=
  mkNode "query_regression" "Query Regression"
    ["pg.statements.regression"; "pg.statements.top.avg_time_ms"]
    "workload" "" "".
Definition node_cpu_spike : CausalNode :=
  mkNode "cpu_spike" "CPU Spike"
    ["os.cpu.user_pct"; "os.cpu.system_pct"]
    "os" SymCPUSpike "".
Definition node_latency_spike : CausalNode :=
  mkNode "latency_spike" "Latency Spike"
    ["pg.statements.top.avg_time_ms"]
    "db" SymQueryLatencyHigh "".
Definition node_new_query : CausalNode :=
  mkNode "new_query" "New Query (Deployment)"
    ["pg.statements.new_query"; "pg.statements.count"]
    "workload" "" "".
Definition node_resource_shift : CausalNode :=
  mkNode "resource_shift" "Resource Shift"
    ["os.cpu.user_pct"; "pg.statements.top.total_time_ms"]
    "workload" SymResourceShift "".
Definition node_settings_change : CausalNode :=
  mkNode "settings_change" "Settings Change"
    []
    "config" "" "".
Definition node_behavioral_shift : CausalNode :=
  mkNode "behavioral_shift" "Behavioral Shift"
    []
    "workload" SymBehavioralShift "".

Definition edge_1_1 : CausalEdge :=
  mkEdge "bulk_workload" "wal_generation" 0 (30 * Second) f0 f0 BoundedLag EvidenceRequired
    "Bulk workload drives increased WAL generation"
    (fconst 8 10) ChainBulkWALCheckpointIOReplLag HookQueryOptimization.
Definition edge_1_2 : CausalEdge :=
  mkEdge "wal_generation" "checkpoint_storm" (30 * Second) (3 * Minute) f0 f0 BoundedLag EvidenceRequired
    "High WAL rate triggers frequent checkpoints"
    (fconst 85 100) ChainBulkWALCheckpointIOReplLag HookCheckpointTuning.
Definition edge_1_3 : CausalEdge :=
  mkEdge "checkpoint_storm" "disk_io" 0 (30 * Second) f0 f0 BoundedLag EvidenceRequired
    "Checkpoint fsync saturates disk I/O"
    (fconst 9 10) ChainBulkWALCheckpointIOReplLag "".
Definition edge_1_4 : CausalEdge :=
  mkEdge "disk_io" "replication_lag" (10 * Second) (2 * Minute) f0 f0 BoundedLag EvidenceSupporting
    "Disk I/O saturation delays WAL replay on replica"
    (fconst 75 100) ChainBulkWALCheckpointIOReplLag "".
Definition edge_2_1 : CausalEdge :=
  mkEdge "inactive_slot" "wal_retention" 0 0 f0 f0 PersistentState EvidenceRequired
    "Inactive replication slot prevents WAL cleanup"
    (fconst 9 10) ChainInactiveSlotWALDisk HookSlotCleanup.
Definition edge_2_2 : CausalEdge :=
  mkEdge "wal_retention" "disk_fill" (5 * Minute) (2 * Hour) f0 f0 BoundedLag EvidenceRequired
    "Accumulated WAL files consume disk space"
    (fconst 85 100) ChainInactiveSlotWALDisk "".
Definition edge_3_1 : CausalEdge :=
  mkEdge "network_issue" "wal_receiver_disconnect" 0 (30 * Second) f0 f0 BoundedLag EvidenceRequired
    "Network failure disconnects WAL receiver"
    (fconst 7 10) ChainNetworkWALRecvReplLag HookNetworkDiagnostics.
Definition edge_3_2 : CausalEdge :=
  mkEdge "wal_receiver_disconnect" "replication_lag" 0 (2 * Minute) f0 f0 BoundedLag EvidenceRequired
    "Disconnected WAL receiver causes growing replication lag"
    (fconst 8 10) ChainNetworkWALRecvReplLag "".
Definition edge_4_1 : CausalEdge :=
  mkEdge "long_tx_primary" "replication_apply_delay" 0 0 f0 f0 PersistentState EvidenceRequired
    "Long transaction on primary delays replication apply"
    (fconst 75 100) ChainLongTxReplDelay HookKillLongTx.
Definition edge_5_1 : CausalEdge :=
  mkEdge "wal_generation" "checkpoint_storm" (30 * Second) (3 * Minute) f0 f0 BoundedLag EvidenceRequired
    "WAL spike forces frequent checkpoints"
    (fconst 85 100) ChainWALSpikeCheckpointIO HookCheckpointTuning.
Definition edge_5_2 : CausalEdge :=
  mkEdge "checkpoint_storm" "disk_io" 0 (30 * Second) f0 f0 BoundedLag EvidenceRequired
    "Checkpoint storm saturates disk I/O"
    (fconst 9 10) ChainWALSpikeCheckpointIO "".
Definition edge_6_1 : CausalEdge :=
  mkEdge "autovacuum_storm" "disk_io" 0 (2 * Minute) f0 f0 BoundedLag EvidenceRequired
    "Autovacuum storm generates heavy disk I/O"
    (fconst 8 10) ChainAutovacuumDiskLatency HookVacuumTuning.
Definition edge_6_2 : CausalEdge :=
  mkEdge "disk_io" "query_latency" 0 (30 * Second) f0 f0 BoundedLag EvidenceSupporting
    "Disk I/O contention increases query latency"
    (fconst 7 10) ChainAutovacuumDiskLatency "".
Definition edge_7_1 : CausalEdge :=
  mkEdge "temp_file_spike" "disk_io" 0 (30 * Second) f0 f0 BoundedLag EvidenceRequired
    "Temporary file writes saturate disk I/O"
    (fconst 8 10) ChainTempFileDiskQuery HookTempFileWork.
Definition edge_7_2 : CausalEdge :=
  mkEdge "disk_io" "query_slowdown" 0 (30 * Second) f0 f0 BoundedLag EvidenceSupporting
    "Disk I/O contention slows queries"
    (fconst 7 10) ChainTempFileDiskQuery "".
Definition edge_8_1 : CausalEdge :=
  mkEdge "buffer_eviction" "backend_writes" 0 (10 * Second) f0 f0 BoundedLag EvidenceRequired
    "Shared buffer eviction forces backend direct writes"
    (fconst 85 100) ChainBufferEvictionBackendIO HookSharedBuffers.
Definition edge_8_2 : CausalEdge :=
  mkEdge "backend_writes" "disk_io" 0 (30 * Second) f0 f0 BoundedLag EvidenceRequired
    "Backend direct writes saturate disk I/O"
    (fconst 8 10) ChainBufferEvictionBackendIO "".
Definition edge_9_1 : CausalEdge :=
  mkEdge "lock_contention" "blocked_queries" 0 (10 * Second) f0 f0 BoundedLag EvidenceRequired
    "Lock contention blocks waiting queries"
    (fconst 9 10) ChainLockBlockedConnPileup HookLockInvestigation.
Definition edge_9_2 : CausalEdge :=
  mkEdge "blocked_queries" "connection_pileup" (10 * Second) (2 * Minute) f0 f0 BoundedLag EvidenceRequired
    "Blocked queries accumulate open connections"
    (fconst 8 10) ChainLockBlockedConnPileup "".
Definition edge_10_1 : CausalEdge :=
  mkEdge "connection_spike" "memory_pressure" 0 (2 * Minute) f0 f0 BoundedLag EvidenceRequired
    "Excessive connections consume work_mem allocations"
    (fconst 75 100) ChainConnSpikeMemoryOOM HookConnectionPooling.
Definition edge_10_2 : CausalEdge :=
  mkEdge "memory_pressure" "oom_risk" 0 0 f0 f0 PersistentState EvidenceSupporting
    "Sustained memory pressure increases OOM risk"
    (fconst 7 10) ChainConnSpikeMemoryOOM "".
Definition edge_11_1 : CausalEdge :=
  mkEdge "long_tx" "mvcc_bloat" 0 0 f0 f0 PersistentState EvidenceRequired
    "Long transaction prevents dead tuple cleanup"
    (fconst 8 10) ChainLongTxBloatConn HookKillLongTx.
Definition edge_11_2 : CausalEdge :=
  mkEdge "mvcc_bloat" "conn_holding" (1 * Minute) (10 * Minute) f0 f0 BoundedLag EvidenceSupporting
    "Table bloat causes longer scans, holding connections"
    (fconst 6 10) ChainLongTxBloatConn "".
Definition edge_12_1 : CausalEdge :=
  mkEdge "query_regression" "cpu_spike" 0 (2 * Minute) f0 f0 BoundedLag EvidenceRequired
    "Query regression increases CPU consumption"
    (fconst 75 100) ChainQueryRegressionCPULatency HookQueryOptimization.
Definition edge_12_2 : CausalEdge :=
  mkEdge "cpu_spike" "latency_spike" 0 (30 * Second) f0 f0 BoundedLag EvidenceSupporting
    "CPU saturation increases query latency"
    (fconst 7 10) ChainQueryRegressionCPULatency "".
Definition edge_13_1 : CausalEdge :=
  mkEdge "new_query" "resource_shift" 0 (5 * Minute) f0 f0 BoundedLag EvidenceRequired
    "New query after deployment shifts resource usage"
    (fconst 65 100) ChainNewQueryResourceShift "".
Definition edge_14_1 : CausalEdge :=
  mkEdge "missing_index" "seq_scans" 0 0 f0 f0 PersistentState EvidenceRequired
    "Missing index forces sequential scans"
    (fconst 8 10) ChainMissingIndexSeqScanIO HookIndexCreation.
Definition edge_14_2 : CausalEdge :=
  mkEdge "seq_scans" "disk_io" 0 (30 * Second) f0 f0 BoundedLag EvidenceRequired
    "Sequential scans generate heavy read I/O"
    (fconst 85 100) ChainMissingIndexSeqScanIO "".
Definition edge_15_1 : CausalEdge :=
  mkEdge "pgss_fill" "pgss_eviction" 0 0 f0 f0 PersistentState EvidenceRequired
    "pg_stat_statements at capacity triggers eviction"
    (fconst 9 10) ChainPGSSFillEviction HookPGSSReset.
Definition edge_16_1 : CausalEdge :=
  mkEdge "dead_tuples" "table_bloat" 0 0 f0 f0 PersistentState EvidenceRequired
    "Dead tuple accumulation causes table bloat"
    (fconst 85 100) ChainDeadTupleBloatScan HookVacuumAggressive.
Definition edge_16_2 : CausalEdge :=
  mkEdge "table_bloat" "scan_degradation" 0 0 f0 f0 PersistentState EvidenceSupporting
    "Bloated tables degrade scan performance"
    (fconst 7 10) ChainDeadTupleBloatScan "".
Definition edge_17_1 : CausalEdge :=
  mkEdge "wraparound_risk" "aggressive_vacuum" 0 0 f0 f0 PersistentState EvidenceRequired
    "Approaching wraparound triggers aggressive vacuum"
    (fconst 9 10) ChainWraparoundVacuumIO HookWraparoundVacuum.
Definition edge_17_2 : CausalEdge :=
  mkEdge "aggressive_vacuum" "disk_io" 0 (5 * Minute) f0 f0 BoundedLag EvidenceRequired
    "Anti-wraparound vacuum generates heavy disk I/O"
    (fconst 8 10) ChainWraparoundVacuumIO "".
Definition edge_18_1 : CausalEdge :=
  mkEdge "long_tx_blocking" "vacuum_blocked" 0 0 f0 f0 PersistentState EvidenceRequired
    "Long transaction prevents vacuum from cleaning dead tuples"
    (fconst 85 100) ChainLongTxBlockVacuumGrowth HookKillLongTx.
Definition edge_18_2 : CausalEdge :=
  mkEdge "vacuum_blocked" "dead_tuple_growth" 0 0 f0 f0 PersistentState EvidenceRequired
    "Blocked vacuum causes dead tuple accumulation"
    (fconst 8 10) ChainLongTxBlockVacuumGrowth "".
Definition edge_19_1 : CausalEdge :=
  mkEdge "settings_change" "behavioral_shift" 0 0 f0 f0 WhileEffective EvidenceRequired
    "Configuration change causes behavioral shift"
    (fconst 6 10) ChainSettingsChangeBehavior "".
Definition edge_20_1 : CausalEdge :=
  mkEdge "os_memory_pressure" "oom_killer" 0 0 f0 f0 PersistentState EvidenceRequired
    "OS memory exhaustion activates OOM killer"
    (fconst 85 100) ChainOSMemoryOOMCrash HookMemoryTuning.
Definition edge_20_2 : CausalEdge :=
  mkEdge "oom_killer" "pg_crash" 0 (5 * Minute) f0 f0 BoundedLag EvidenceSupporting
    "OOM killer terminates PostgreSQL process"
    (fconst 7 10) ChainOSMemoryOOMCrash "".

Definition defaultNodes : list CausalNode :=
  [node_bulk_workload; node_wal_generation; node_checkpoint_storm; node_disk_io;
   node_replication_lag; node_inactive_slot; node_wal_retention; node_disk_fill;
   node_long_tx_primary; node_replication_apply_delay; node_autovacuum_storm;
   node_query_latency; node_temp_file_spike; node_query_slowdown; node_buffer_eviction;
   node_backend_writes; node_lock_contention; node_blocked_queries; node_connection_pileup;
   node_connection_spike; node_memory_pressure; node_oom_risk; node_long_tx; node_mvcc_bloat;
   node_conn_holding; node_missing_index; node_seq_scans; node_pgss_fill; node_pgss_eviction;
   node_dead_tuples; node_table_bloat; node_scan_degradation; node_wraparound_risk;
   node_aggressive_vacuum; node_long_tx_blocking; node_vacuum_blocked; node_dead_tuple_growth;
   node_os_memory_pressure; node_oom_killer; node_pg_crash; node_network_issue;
   node_wal_receiver_disconnect; node_query_regression; node_cpu_spike; node_latency_spike;
   node_new_query; node_resource_shift; node_settings_change; node_behavioral_shift].

Definition defaultEdges : list CausalEdge :=
  [edge_1_1; edge_1_2; edge_1_3; edge_1_4; edge_2_1; edge_2_2; edge_3_1; edge_3_2; edge_4_1;
   edge_5_1; edge_5_2; edge_6_1; edge_6_2; edge_7_1; edge_7_2; edge_8_1; edge_8_2; edge_9_1;
   edge_9_2; edge_10_1; edge_10_2; edge_11_1; edge_11_2; edge_12_1; edge_12_2; edge_13_1;
   edge_14_1; edge_14_2; edge_15_1; edge_16_1; edge_16_2; edge_17_1; edge_17_2; edge_18_1;
   edge_18_2; edge_19_1; edge_20_1; edge_20_2].

Definition NewDefaultGraph : CausalGraph :=
  foldl addEdge (foldl addNode (mkGraph ∅ [] AllChainIDs) defaultNodes) defaultEdges.
