(* ===== verification/RcaEngine.v ===== *)
(** * Root cause analysis engine

    Models internal/rca/engine.go (window, candidate chains, anomaly lookup, the backward
    traversal with its evidence rules, remediation hooks), internal/rca/incident.go (ranking,
    timeline and summary), internal/rca/config.go, internal/rca/settings.go and the anomaly
    source interface of internal/rca/anomaly.go. The incident store, the remediation engine and
    the anomaly source are interfaces of the code and stay abstract here. *)
From S2P Require Import Prelude Float64 Metric RcaGraph RcaOntology.

Local Open Scope Z_scope.

(** ** config.go *)

Record RCAConfig := mkRCAConfig {
  rc_Enabled : bool;
  rc_LookbackWindow : Duration;
  rc_AutoTriggerSeverity : string;
  rc_MaxIncidentsPerHour : Z;
  rc_RetentionDays : Z;
  rc_MaxTraversalDepth : Z;
  rc_MaxCandidateChains : Z;
  rc_MaxMetricsPerRun : Z;
  rc_MinEdgeScore : float64;
  rc_MinChainScore : float64;
  rc_DeferredForwardTail : Duration;
  rc_QualityBannerEnabled : bool;
  rc_RemediationHooksEnabled : bool;
  rc_ThresholdBaselineWindow : Duration;
  rc_ThresholdCalmPeriod : Duration;
  rc_ThresholdCalmSigma : float64
}.

Definition DefaultRCAConfig : RCAConfig :=
  mkRCAConfig false (30 * Minute) "critical" 10 90 5 5 50 (fconst 25 100) (fconst 40 100)
    (5 * Minute) true true (4 * Hour) (15 * Minute) (fconst 15 10).

(** ** Data of anomaly.go, settings.go and incident.go *)

Record AnomalyEvent := mkAnomaly {
  an_InstanceID : string;
  an_MetricKey : string;
  an_Timestamp : Time;
  an_Value : float64;
  an_BaselineVal : float64;
  an_ZScore : float64;
  an_RateChange : float64;
  an_Strength : float64;
  an_Source : string
}.

Abbreviation AnomalyMap := (gmap string (list AnomalyEvent)).

Record SettingChange := mkSettingChange {
  sc_Name : string;
  sc_OldValue : string;
  sc_NewValue : string;
  sc_ChangedAt : Time
}.

(** [GetChanges instance from to]. *)
Abbreviation SettingsProvider := (string -> Time -> Time -> result (list SettingChange)).

Record TimeWindow := mkWindow { w_From : Time; w_To : Time }.

Record TimelineEvent := mkTimelineEvent {
  te_Timestamp : Time;
  te_NodeID : string;
  te_NodeName : string;
  te_MetricKey : string;
  te_Value : float64;
  te_BaselineVal : float64;
  te_ZScore : float64;
  te_Strength : float64;
  te_Layer : string;
  te_Role : string;
  te_Evidence : string;
  te_Description : string;
  te_EdgeDesc : string
}.

Record CausalChainResult := mkChainResult {
  cr_ChainID : string;
  cr_ChainName : string;
  cr_Score : float64;
  cr_RootCauseKey : string;
  cr_Events : list TimelineEvent
}.

Record QualityStatus := mkQuality {
  qs_TelemetryCompleteness : float64;
  qs_AnomalySourceMode : string;
  qs_ScopeLimitations : list string;
  qs_UnavailableDeps : list string
}.

Record AnalyzeRequest := mkRequest {
  rq_InstanceID : string;
  rq_TriggerMetric : string;
  rq_TriggerValue : float64;
  rq_TriggerTime : Time;
  rq_WindowMinutes : Z;
  rq_TriggerKind : string
}.

(** The incident; the review fields, which no code of the engine sets, are left out. *)
Record Incident := mkIncident {
  in_ID : Z;
  in_InstanceID : string;
  in_TriggerMetric : string;
  in_TriggerValue : float64;
  in_TriggerTime : Time;
  in_TriggerKind : string;
  in_AnalysisWindow : TimeWindow;
  in_PrimaryChain : option CausalChainResult;
  in_AlternativeChain : option CausalChainResult;
  in_Timeline : list TimelineEvent;
  in_Summary : string;
  in_Confidence : float64;
  in_ConfidenceBucket : string;
  in_Quality : QualityStatus;
  in_RemediationHooks : list string;
  in_AutoTriggered : bool;
  in_ChainVersion : string;
  in_AnomalyMode : string;
  in_CreatedAt : Time
}.

(** ** engine.go: pure helpers *)

(** [findStrongestAnomaly]: the strongest anomaly of the keys in the window; the first wins
    a tie, in key order and then event order. *)
Definition strongerIn (from to : Time) (best : option AnomalyEvent) (ev : AnomalyEvent)
    : option AnomalyEvent :=
  if time_Before (an_Timestamp ev) from || time_After (an_Timestamp ev) to then best
  else match best with
       | None => Some ev
       | Some b => if fgt (an_Strength ev) (an_Strength b) then Some ev else best
       end.

Definition findStrongestAnomaly (anomalyMap : AnomalyMap) (metricKeys : list string)
    (from to : Time) : option AnomalyEvent :=
  foldl (fun best key =>
    match anomalyMap !! key with
    | None => best
    | Some events => foldl (strongerIn from to) best events
    end) None metricKeys.

Definition nodeRole (node : CausalNode) : string :=
  if negb (bool_decide (nd_SymptomKey node = "")) then "symptom"
  else if negb (bool_decide (nd_MechanismKey node = "")) then "intermediate"
  else "root_cause".

Definition rootCauseMapping : gmap string string :=
  list_to_map
    [("bulk_workload", RCBulkWorkload); ("inactive_slot", RCInactiveSlot);
     ("long_tx_primary", RCLongTransaction); ("long_tx", RCLongTransaction);
     ("long_tx_blocking", RCLongTxBlocking); ("missing_index", RCMissingIndex);
     ("wraparound_risk", RCWraparoundRisk); ("connection_spike", RCConnectionSpike);
     ("os_memory_pressure", RCOSMemoryPressure); ("buffer_eviction", RCBufferEviction);
     ("lock_contention", RCLongTransaction); ("autovacuum_storm", RCDeadTuples);
     ("temp_file_spike", RCBulkWorkload); ("dead_tuples", RCDeadTuples);
     ("pgss_fill", RCPGSSFill); ("wal_generation", RCBulkWorkload);
     ("network_issue", RCNetworkIssue); ("query_regression", RCQueryRegression);
     ("new_query", RCNewQuery); ("settings_change", RCConfigChange)].

Definition nodeRootCauseKey (nodeID : string) : string := default "" (rootCauseMapping !! nodeID).

Definition highPrefixes : list string :=
  ["pg.connections."; "pg.locks."; "pg.wait_events."; "pg.long_transactions."].
Definition lowPrefixes : list string := ["pg.server."; "pg.extensions."].

Fixpoint keysGroup (keys : list string) : string :=
  match keys with
  | [] => "medium"
  | mk :: keys' =>
      if existsb (has_prefix mk) highPrefixes then "high"
      else if existsb (has_prefix mk) lowPrefixes then "low"
      else keysGroup keys'
  end.

Definition nodeCollectionGroup (node : CausalNode) : string := keysGroup (nd_MetricKeys node).

Definition collectionJitter (node : CausalNode) : Duration :=
  let group := nodeCollectionGroup node in
  if decide (group = "high") then 15 * Second
  else if decide (group = "medium") then 90 * Second
  else if decide (group = "low") then 450 * Second
  else 90 * Second.

Definition buildTimelineEvent (node : CausalNode) (anomaly : AnomalyEvent)
    (edge : option CausalEdge) (role : string) : TimelineEvent :=
  mkTimelineEvent (an_Timestamp anomaly) (nd_ID node) (nd_Name node) (an_MetricKey anomaly)
    (an_Value anomaly) (an_BaselineVal anomaly) (an_ZScore anomaly) (an_Strength anomaly)
    (nd_Layer node) role
    (match edge with
     | Some e => if decide (ed_Evidence e = EvidenceSupporting) then "supporting" else "required"
     | None => "required"
     end)
    (nd_Name node +:+ " anomaly detected (value=" +:+ fmt_fixed 2 (an_Value anomaly)
       +:+ ", baseline=" +:+ fmt_fixed 2 (an_BaselineVal anomaly) +:+ ")")
    (match edge with Some e => ed_Description e | None => "" end).

(** ** incident.go *)

Definition bucketizeConfidence (confidence : float64) : string :=
  if fgt confidence (fconst 7 10) then "high"
  else if fge confidence (fconst 4 10) then "medium"
  else "low".

Record IncidentBuilder := mkBuilder {
  ib_req : AnalyzeRequest;
  ib_window : TimeWindow;
  ib_chains : list CausalChainResult;
  ib_anomalyMode : string;
  ib_metricsNeeded : Z;
  ib_metricsWithData : Z
}.

Definition NewIncidentBuilder (req : AnalyzeRequest) (window : TimeWindow) (mode : string)
    : IncidentBuilder := mkBuilder req window [] mode 0 0.

Definition SetTelemetry (needed withData : Z) (b : IncidentBuilder) : IncidentBuilder :=
  mkBuilder (ib_req b) (ib_window b) (ib_chains b) (ib_anomalyMode b) needed withData.

Definition AddChain (chain : CausalChainResult) (b : IncidentBuilder) : IncidentBuilder :=
  mkBuilder (ib_req b) (ib_window b) (ib_chains b ++ [chain]) (ib_anomalyMode b)
    (ib_metricsNeeded b) (ib_metricsWithData b).

Definition collectHooks (_ : option CausalChainResult) : list string := [].

Section rca.
Context {SS : SliceSort} {MR : MapRange}.
(** [math.Exp], and the renderings of a time: "15:04:05" in the location the value carries,
    and RFC 3339 with nanoseconds. *)
Context (math_Exp : float64 -> float64) (clockString rfc3339Nano : Time -> string).

Definition generateSummary (chain : option CausalChainResult) (confidence : float64) : string :=
  match chain with
  | None => "No probable causal chain identified. Manual investigation recommended."
  | Some c =>
      match cr_Events c, last (cr_Events c) with
      | rootEvent :: _, Some symptomEvent =>
          let qualifier :=
            if flt confidence (fconst 4 10) then "Possibly related to"
            else if fgt confidence (fconst 8 10) then "Strongly consistent with"
            else "Likely caused by" in
          let rootVerb :=
            if fgt (te_BaselineVal rootEvent) f0
               && flt (te_Value rootEvent) (te_BaselineVal rootEvent)
            then "dropped to" else "spiked to" in
          qualifier +:+ " " +:+ te_Description rootEvent +:+ ". " +:+ te_NodeName rootEvent
            +:+ " " +:+ rootVerb +:+ " " +:+ fmt_fixed 2 (te_Value rootEvent)
            +:+ " (baseline: " +:+ fmt_fixed 2 (te_BaselineVal rootEvent) +:+ ") at "
            +:+ clockString (te_Timestamp rootEvent) +:+ ", leading to "
            +:+ te_NodeName symptomEvent +:+ " (value: " +:+ fmt_fixed 2 (te_Value symptomEvent)
            +:+ ") at " +:+ clockString (te_Timestamp symptomEvent) +:+ "."
      | _, _ => "No probable causal chain identified. Manual investigation recommended."
      end
  end.

Definition timelineKey (e : TimelineEvent) : string :=
  te_NodeID e +:+ ":" +:+ te_MetricKey e +:+ ":" +:+ rfc3339Nano (te_Timestamp e).

Definition chainEvents (c : option CausalChainResult) : list TimelineEvent :=
  match c with Some c => cr_Events c | None => [] end.

Definition earlier (a b : TimelineEvent) : bool := time_Before (te_Timestamp a) (te_Timestamp b).

Definition buildTimeline (primary alt : option CausalChainResult) : list TimelineEvent :=
  sort_slice earlier (dedup_key timelineKey (chainEvents primary ++ chainEvents alt)).

Definition higherScore (a b : CausalChainResult) : bool := fgt (cr_Score a) (cr_Score b).

Definition Build (now : Time) (b : IncidentBuilder) : Incident :=
  let chains := sort_slice higherScore (ib_chains b) in
  let primary := head chains in
  let alt := match chains with
             | c0 :: c1 :: _ =>
                 if fge (cr_Score c1) (fmul (cr_Score c0) (fconst 8 10)) then Some c1 else None
             | _ => None
             end in
  let confidence := match primary with Some c => cr_Score c | None => f0 end in
  let completeness := if 0 <? ib_metricsNeeded b
                      then fdiv (f_of_Z (ib_metricsWithData b)) (f_of_Z (ib_metricsNeeded b))
                      else f0 in
  mkIncident 0 (rq_InstanceID (ib_req b)) (rq_TriggerMetric (ib_req b))
    (rq_TriggerValue (ib_req b)) (rq_TriggerTime (ib_req b)) (rq_TriggerKind (ib_req b))
    (ib_window b) primary alt (buildTimeline primary alt) (generateSummary primary confidence)
    confidence (bucketizeConfidence confidence)
    (mkQuality completeness (ib_anomalyMode b) ["single-instance only"] [])
    (collectHooks primary) (bool_decide (rq_TriggerKind (ib_req b) = "alert"))
    KnowledgeVersion (ib_anomalyMode b) now.

(** ** engine.go: the traversal *)

(** Go's conversion of a sum of durations, and the weight of an anomaly's lag. *)
Definition temporalProximity (anomalyTime triggerTime : Time) (minLag maxLag : Duration)
    : float64 :=
  let actualLag := time_Sub triggerTime anomalyTime in
  let expectedCenter := Z.quot (i64 (minLag + maxLag)) 2 in
  let deviation := fabs (f_of_Z (i64 (actualLag - expectedCenter))) in
  let half := fdiv (f_of_Z (i64 (maxLag - minLag))) (f_of_Z 2) in
  let halfWidth := if feq half f0 then f_of_Z (30 * Second) else half in
  let sigma := fmul halfWidth (fconst 15 10) in
  let x := fdiv deviation sigma in
  let p0 := math_Exp (fmul (fmul (fconst (-5) 10) x) x) in
  let p1 := if (minLag <=? actualLag) && (actualLag <=? maxLag)
            then fmul p0 (fconst 12 10) else p0 in
  let p2 := if flt p1 (fconst 2 10) then fconst 2 10 else p1 in
  if fgt p2 f1 then f1 else p2.

Record Engine := mkEngine {
  en_graph : CausalGraph;
  en_cfg : RCAConfig;
  en_settingsProvider : option SettingsProvider;
  en_stmtDiffSource : option (string -> Time -> Time -> result AnomalyMap)
}.

(** The latest of the changes; the first of several at the same time. *)
Definition latestChange (c : SettingChange) (cs : list SettingChange) : SettingChange :=
  foldl (fun latest ch => if time_After (sc_ChangedAt ch) (sc_ChangedAt latest) then ch else latest)
    c cs.

Definition settingsEvent (node : CausalNode) (ch : SettingChange) : TimelineEvent :=
  mkTimelineEvent (sc_ChangedAt ch) (nd_ID node) (nd_Name node) ("pg.settings." +:+ sc_Name ch)
    f0 f0 f0 (fconst 7 10) (nd_Layer node) "root_cause" "required"
    ("Setting " +:+ sc_Name ch +:+ " changed from " +:+ sc_OldValue ch +:+ " to " +:+ sc_NewValue ch)
    "".

(** The result of an edge without evidence. *)
Definition noEvidence (edge : CausalEdge) : float64 * option TimelineEvent * bool :=
  if decide (ed_Evidence edge = EvidenceRequired) then (f0, None, false)
  else (fmul (ed_BaseConfidence edge) (fconst 3 10), None, true).

Definition searchWindow (node : CausalNode) (edge : CausalEdge) (triggerTime : Time)
    (window : TimeWindow) : Time * Time :=
  let jitter := collectionJitter node in
  let searchFrom := time_Add triggerTime (i64 (- ed_MaxLag edge - jitter)) in
  let searchTo := time_Add triggerTime (i64 (- ed_MinLag edge + jitter)) in
  (if time_Before searchFrom (w_From window) then w_From window else searchFrom,
   if time_After searchTo (w_To window) then w_To window else searchTo).

Definition evaluateEdge (en : Engine) (edge : CausalEdge) (instanceID : string)
    (triggerTime : Time) (window : TimeWindow) (anomalyMap : AnomalyMap)
    : float64 * option TimelineEvent * bool :=
  match g_Nodes (en_graph en) !! ed_FromNode edge with
  | None => (f0, None, false)
  | Some node =>
      match ed_Temporal edge with
      | BoundedLag =>
          let '(searchFrom, searchTo) := searchWindow node edge triggerTime window in
          match findStrongestAnomaly anomalyMap (nd_MetricKeys node) searchFrom searchTo with
          | None => noEvidence edge
          | Some anomaly =>
              let proximity := temporalProximity (an_Timestamp anomaly) triggerTime
                                 (ed_MinLag edge) (ed_MaxLag edge) in
              (fmul (fmul (ed_BaseConfidence edge) (an_Strength anomaly)) proximity,
               Some (buildTimelineEvent node anomaly (Some edge) (nodeRole node)), true)
          end
      | PersistentState =>
          match findStrongestAnomaly anomalyMap (nd_MetricKeys node)
                  (w_From window) (w_To window) with
          | None => noEvidence edge
          | Some anomaly =>
              (fmul (ed_BaseConfidence edge) (an_Strength anomaly),
               Some (buildTimelineEvent node anomaly (Some edge) (nodeRole node)), true)
          end
      | WhileEffective =>
          match en_settingsProvider en with
          | None => (f0, None, false)
          | Some getChanges =>
              match getChanges instanceID (w_From window) (w_To window) with
              | Ok (c :: cs) =>
                  (fmul (ed_BaseConfidence edge) (fconst 7 10),
                   Some (settingsEvent node (latestChange c cs)), true)
              | _ => noEvidence edge
              end
          end
      end
  end.

(** What the walk accumulates through its pointer arguments. *)
Record WalkState := mkWalk {
  wk_events : list TimelineEvent;
  wk_totalScore : float64;
  wk_edgeCount : Z;
  wk_rootCauseKey : string
}.

Definition emptyWalk : WalkState := mkWalk [] f0 0 "".

(** Reaching a node without incoming edges of the chain. *)
Definition visitRoot (en : Engine) (nodeID : string) (window : TimeWindow)
    (anomalyMap : AnomalyMap) (st : WalkState) : WalkState :=
  match g_Nodes (en_graph en) !! nodeID with
  | None => st
  | Some node =>
      match findStrongestAnomaly anomalyMap (nd_MetricKeys node) (w_From window) (w_To window) with
      | None => st
      | Some anomaly =>
          mkWalk (wk_events st ++ [buildTimelineEvent node anomaly None "root_cause"])
            (wk_totalScore st) (wk_edgeCount st) (nodeRootCauseKey nodeID)
      end
  end.

Definition visitEdge (score : float64) (event : option TimelineEvent) (st : WalkState)
    : WalkState :=
  mkWalk (wk_events st ++ option_list event) (fadd (wk_totalScore st) score)
    (wk_edgeCount st + 1) (wk_rootCauseKey st).

(** The loop over the chain edges into a node; [up] walks on from an edge's cause. *)
Fixpoint walkEdgesBack (eval : CausalEdge -> float64 * option TimelineEvent * bool)
    (up : string -> WalkState -> bool * WalkState) (edges : list CausalEdge) (st : WalkState)
    : bool * WalkState :=
  match edges with
  | [] => (true, st)
  | edge :: edges' =>
      let '(score, event, found) := eval edge in
      if negb found && bool_decide (ed_Evidence edge = EvidenceRequired) then (false, st)
      else
        let '(ok, st') := up (ed_FromNode edge) (visitEdge score event st) in
        if ok then walkEdgesBack eval up edges' st' else (false, st')
  end.

Definition chainEdgesInto (g : CausalGraph) (chainID nodeID : string) : list CausalEdge :=
  List.filter (fun e => bool_decide (ed_ChainID e = chainID)) (IncomingEdges g nodeID).

(** [walkBackward], by the levels left: [MaxTraversalDepth - depth]. *)
Fixpoint walkBackward (en : Engine) (left : nat) (nodeID chainID instanceID : string)
    (triggerTime : Time) (window : TimeWindow) (anomalyMap : AnomalyMap) (st : WalkState)
    : bool * WalkState :=
  match left with
  | O => (true, st)
  | S left' =>
      match chainEdgesInto (en_graph en) chainID nodeID with
      | [] => (true, visitRoot en nodeID window anomalyMap st)
      | edges =>
          walkEdgesBack
            (fun edge => evaluateEdge en edge instanceID triggerTime window anomalyMap)
            (fun n st' => walkBackward en left' n chainID instanceID triggerTime window anomalyMap st')
            edges st
      end
  end.

(** The terminal to start from: the first that lists the trigger metric, else the first. *)
Definition startNode (g : CausalGraph) (terminals : list string) (triggerMetric : string)
    : option string :=
  match List.find (fun t => match g_Nodes g !! t with
                            | Some node => bool_decide (triggerMetric ∈ nd_MetricKeys node)
                                             && negb (bool_decide (t = ""))
                            | None => false
                            end) terminals with
  | Some t => Some t
  | None => head terminals
  end.

Definition chainName (chainID : string) (events : list TimelineEvent) : string :=
  match head events, last events with
  | Some a, Some b => te_NodeName a +:+ " -> " +:+ te_NodeName b
  | _, _ => chainID
  end.

Definition traverseChain (en : Engine) (chainID instanceID triggerMetric : string)
    (triggerTime : Time) (window : TimeWindow) (anomalyMap : AnomalyMap)
    : option CausalChainResult :=
  if len (EdgesForChain (en_graph en) chainID) =? 0 then None
  else
    match startNode (en_graph en) (TerminalNodes (en_graph en) chainID) triggerMetric with
    | None => None
    | Some start =>
        let '(success, st) := walkBackward en (Z.to_nat (rc_MaxTraversalDepth (en_cfg en))) start
                                chainID instanceID triggerTime window anomalyMap emptyWalk in
        if negb success || (wk_edgeCount st =? 0) then None
        else
          let events := sort_slice earlier (wk_events st) in
          Some (mkChainResult chainID (chainName chainID events)
                  (fdiv (wk_totalScore st) (f_of_Z (wk_edgeCount st)))
                  (wk_rootCauseKey st) events)
    end.

(** ** engine.go: the analysis *)

(** The interfaces the engine calls. A source may panic ([None]). *)
Class AnomalySource (A : Type) := {
  as_GetAnomalies : A -> string -> list string -> Time -> Time -> Duration ->
    option (A * result AnomalyMap);
  as_Mode : string
}.

Class IncidentStore (I : Type) := { is_Create : I -> Incident -> I * result Z }.

Record HookCall := mkHookCall {
  hc_Hook : string;
  hc_InstanceID : string;
  hc_MetricKey : string;
  hc_Value : float64;
  hc_IncidentID : Z;
  hc_UrgencyDelta : float64
}.

Class RemediationHookEvaluator (R : Type) := {
  rh_EvaluateHook : R -> HookCall -> R * option error
}.

(** [l[:n]] when [l] is longer than [n]; [None] is the panic of a negative bound. *)
Definition slice_cap {A} (n : Z) (l : list A) : option (list A) :=
  if n <? len l then (if n <? 0 then None else Some (slice_to n l)) else Some l.

Definition analysisWindow (cfg : RCAConfig) (req : AnalyzeRequest) : TimeWindow :=
  let lookback := if 0 <? rq_WindowMinutes req
                  then dur_mul (rq_WindowMinutes req) Minute else rc_LookbackWindow cfg in
  mkWindow (time_Add (rq_TriggerTime req) (i64 (- lookback)))
    (if decide (rq_TriggerKind req = "alert")
     then time_Add (rq_TriggerTime req) (rc_DeferredForwardTail cfg)
     else rq_TriggerTime req).

(** The synthetic anomalies are appended key by key. *)
Definition injectAnomalies (anomalyMap extra : AnomalyMap) : AnomalyMap :=
  foldl (fun m kv => <[kv.1 := default [] (m !! kv.1) ++ kv.2]> m) anomalyMap (map_range extra).

Definition keyHasData {M} {HM : MetricStore M} (m : M) (instanceID : string) (window : TimeWindow)
    (anomalyMap : AnomalyMap) (key : string) : bool :=
  match anomalyMap !! key with
  | Some _ => true
  | None =>
      match ms_Query m (mkQuery instanceID key ∅ (w_From window) (w_To window) 1) with
      | Ok pts => 0 <? len pts
      | Err _ => false
      end
  end.

(** The chains that survive traversal with at least the minimum score, in candidate order. *)
Definition acceptedChains (en : Engine) (req : AnalyzeRequest) (window : TimeWindow)
    (anomalyMap : AnomalyMap) (chainIDs : list string) : list CausalChainResult :=
  omap (fun chainID =>
    match traverseChain en chainID (rq_InstanceID req) (rq_TriggerMetric req)
            (rq_TriggerTime req) window anomalyMap with
    | Some r => if fge (cr_Score r) (rc_MinChainScore (en_cfg en)) then Some r else None
    | None => None
    end) chainIDs.

Definition representative (edge : CausalEdge) (events : list TimelineEvent) : string * float64 :=
  match List.find (fun ev => bool_decide (te_NodeID ev = ed_FromNode edge)) events with
  | Some ev => (te_MetricKey ev, te_Value ev)
  | None => ("", f0)
  end.

Definition hookCall (incident : Incident) (chain : CausalChainResult) (edge : CausalEdge)
    : HookCall :=
  let '(k, v) := representative edge (cr_Events chain) in
  mkHookCall (ed_RemediationHook edge) (in_InstanceID incident) k v (in_ID incident) f1.

(** A failing hook is logged; the loop goes on. *)
Definition fireRemediationHooks {R} {HR : RemediationHookEvaluator R} (en : Engine)
    (incident : Incident) (r : R) : R :=
  match in_PrimaryChain incident with
  | None => r
  | Some chain =>
      foldl (fun r edge =>
        if bool_decide (ed_RemediationHook edge = "") then r
        else fst (rh_EvaluateHook r (hookCall incident chain edge)))
        r (EdgesForChain (en_graph en) (cr_ChainID chain))
  end.

Definition setIncidentID (id : Z) (i : Incident) : Incident :=
  mkIncident id (in_InstanceID i) (in_TriggerMetric i) (in_TriggerValue i) (in_TriggerTime i)
    (in_TriggerKind i) (in_AnalysisWindow i) (in_PrimaryChain i) (in_AlternativeChain i)
    (in_Timeline i) (in_Summary i) (in_Confidence i) (in_ConfidenceBucket i) (in_Quality i)
    (in_RemediationHooks i) (in_AutoTriggered i) (in_ChainVersion i) (in_AnomalyMode i)
    (in_CreatedAt i).

Section analyze.
Context {A I R M : Type} {HA : AnomalySource A} {HI : IncidentStore I}
  {HR : RemediationHookEvaluator R} {HM : MetricStore M}.

(** Steps 8 and 9: storing the incident and firing the hooks of the primary chain. *)
Definition storeAndFire (en : Engine) (incident : Incident) (store : option I) (rem : option R)
    : Incident * option I * option R :=
  let '(incident1, store1) :=
    match store with
    | None => (incident, None)
    | Some st =>
        match is_Create st incident with
        | (st', Ok id) => (setIncidentID id incident, Some st')
        | (st', Err _) => (incident, Some st')
        end
    end in
  let rem1 :=
    match rem with
    | Some r =>
        if rc_RemediationHooksEnabled (en_cfg en)
           && bool_decide (is_Some (in_PrimaryChain incident1)) && (0 <? in_ID incident1)
        then Some (fireRemediationHooks en incident1 r) else Some r
    | None => None
    end in
  (incident1, store1, rem1).

(** [Analyze]; [None] is a panic. *)
Definition Analyze (en : Engine) (a : A) (m : M) (store : option I) (rem : option R) (now : Time)
    (req : AnalyzeRequest) : option (A * option I * option R * result Incident) :=
  let cfg := en_cfg en in
  let window := analysisWindow cfg req in
  let builder := NewIncidentBuilder req window as_Mode in
  match slice_cap (rc_MaxCandidateChains cfg)
          (ChainsForTrigger (en_graph en) (rq_TriggerMetric req)) with
  | None => None
  | Some chainIDs =>
      match slice_cap (rc_MaxMetricsPerRun cfg) (MetricKeysForChains (en_graph en) chainIDs) with
      | None => None
      | Some metricKeys =>
          match as_GetAnomalies a (rq_InstanceID req) metricKeys (w_From window) (w_To window)
                  (90 * Second) with
          | None => None
          | Some (a', Err e) => Some (a', store, rem, Err ("rca anomaly detection: " +:+ e))
          | Some (a', Ok found) =>
              let anomalyMap :=
                match en_stmtDiffSource en with
                | None => found
                | Some src =>
                    match src (rq_InstanceID req) (w_From window) (w_To window) with
                    | Ok extra => injectAnomalies found extra
                    | Err _ => found
                    end
                end in
              let withData :=
                len (List.filter (keyHasData m (rq_InstanceID req) window anomalyMap) metricKeys) in
              let builder1 := SetTelemetry (len metricKeys) withData builder in
              let builder2 := foldl (fun b c => AddChain c b) builder1
                                (acceptedChains en req window anomalyMap chainIDs) in
              let '(incident, store1, rem1) :=
                storeAndFire en (Build now builder2) store rem in
              Some (a', store1, rem1, Ok incident)
          end
      end
  end.

End analyze.
End rca.
