(* ===== verification/RcaTheorems.v ===== *)
(** * Theorems on the root cause analysis

    The pruning rule of the traversal, the times of the reported events, the range of the
    temporal weight, the ranking of chains in an incident, and the remediation hooks. *)
From S2P Require Import Prelude Float64 Metric RcaGraph RcaOntology RcaEngine.

Local Open Scope Z_scope.

(** ** The traversal as a search for missing evidence *)

Section walk.
Context (eval : CausalEdge -> float64 * option TimelineEvent * bool).

(** A required edge without evidence. *)
Definition killed (e : CausalEdge) : bool :=
  negb (eval e).2 && bool_decide (ed_Evidence e = EvidenceRequired).

Lemma walkEdgesBack_success (up : string -> WalkState -> bool * WalkState)
    (Q : string -> Prop) (edges : list CausalEdge) :
  (forall n st, (up n st).1 = true <-> Q n) ->
  forall st, (walkEdgesBack eval up edges st).1 = true <->
    Forall (fun e => killed e = false /\ Q (ed_FromNode e)) edges.
Proof.
  intros Hup. induction edges as [|e edges IH]; intros st; simpl; [by split|].
  rewrite Forall_cons. pose proof (eq_refl (killed e)) as Hk. unfold killed at 2 in Hk.
  destruct (eval e) as [[score event] found]. simpl in *. rewrite Hk.
  destruct (negb found && bool_decide (ed_Evidence e = EvidenceRequired)); simpl.
  { split; [done|]. naive_solver. }
  specialize (Hup (ed_FromNode e) (visitEdge score event st)).
  destruct (up (ed_FromNode e) (visitEdge score event st)) as [ok st']. simpl in Hup.
  destruct ok; simpl; [rewrite IH|]; naive_solver.
Qed.

End walk.

(** [e] is an edge of the chain met when walking back from [n] with [left] levels left. *)
Inductive met (g : CausalGraph) (chainID : string) : nat -> string -> CausalEdge -> Prop :=
  | met_here left n e : e ∈ chainEdgesInto g chainID n -> met g chainID (S left) n e
  | met_up left n e e' : e' ∈ chainEdgesInto g chainID n -> met g chainID left (ed_FromNode e') e ->
      met g chainID (S left) n e.

(** The edges of the chain in the order in which the walk visits them when nothing is missing. *)
Fixpoint walkedEdges (g : CausalGraph) (chainID : string) (left : nat) (n : string)
    : list CausalEdge :=
  match left with
  | O => []
  | S left' => concat (map (fun e => e :: walkedEdges g chainID left' (ed_FromNode e))
                         (chainEdgesInto g chainID n))
  end.

(** Some anomaly of one of the metrics was seen between the two times. *)
Definition seen_between (m : AnomalyMap) (keys : list string) (from to : Time) : Prop :=
  exists k evs a, k ∈ keys /\ m !! k = Some evs /\ a ∈ evs /\ from <= an_Timestamp a <= to.

(** What counts as evidence for an edge: for a bounded lag an anomaly of the cause that precedes
    the trigger by the lag, give or take the collection jitter, within the analysis window; for a
    persistent state an anomaly anywhere in the window; for a setting a change in the window. *)
Definition has_evidence (en : Engine) (e : CausalEdge) (instanceID : string) (trigger : Time)
    (w : TimeWindow) (m : AnomalyMap) : Prop :=
  exists node, g_Nodes (en_graph en) !! ed_FromNode e = Some node /\
    match ed_Temporal e with
    | BoundedLag =>
        let jitter := collectionJitter node in
        seen_between m (nd_MetricKeys node)
          (Z.max (w_From w) (trigger + i64 (- ed_MaxLag e - jitter)))
          (Z.min (w_To w) (trigger + i64 (- ed_MinLag e + jitter)))
    | PersistentState => seen_between m (nd_MetricKeys node) (w_From w) (w_To w)
    | WhileEffective =>
        exists getChanges c cs, en_settingsProvider en = Some getChanges /\
          getChanges instanceID (w_From w) (w_To w) = Ok (c :: cs)
    end.

Lemma walkEdgesBack_inv (eval : CausalEdge -> float64 * option TimelineEvent * bool)
    (up : string -> WalkState -> bool * WalkState) (P : WalkState -> Prop) (edges : list CausalEdge) :
  (forall e st, e ∈ edges -> P st -> P (visitEdge (eval e).1.1 (eval e).1.2 st)) ->
  (forall e st, e ∈ edges -> P st -> P (up (ed_FromNode e) st).2) ->
  forall st, P st -> P (walkEdgesBack eval up edges st).2.
Proof.
  intros He Hu. induction edges as [|e edges IH]; intros st Hst; simpl; [done|].
  pose proof (He e st (list_elem_of_here _ _) Hst) as H1.
  destruct (eval e) as [[score event] found]. simpl in H1.
  destruct (negb found && _); [done|].
  pose proof (Hu e _ (list_elem_of_here _ _) H1) as H2.
  destruct (up (ed_FromNode e) _) as [[] st']; simpl in *; [|done].
  apply IH; [| |done]; intros; [apply He|apply Hu]; try done; by right.
Qed.

Section engine.
Context {SS : SliceSort} {MR : MapRange} (math_Exp : float64 -> float64)
  (clockString rfc3339Nano : Time -> string).

Section one_walk.
Context (en : Engine) (chainID instanceID : string) (triggerTime : Time) (window : TimeWindow)
  (anomalyMap : AnomalyMap).

Abbreviation eval :=
  (fun edge => evaluateEdge math_Exp en edge instanceID triggerTime window anomalyMap).

Abbreviation walk :=
  (fun left n st => walkBackward math_Exp en left n chainID instanceID triggerTime window anomalyMap st).

Lemma walk_success (left : nat) : forall n st,
  (walk left n st).1 = true <->
  forall e, met (en_graph en) chainID left n e -> killed eval e = false.
Proof.
  induction left as [|left IH]; intros n st; cbn [walkBackward].
  { split; [|done]. intros _ e He. inversion He. }
  destruct (chainEdgesInto (en_graph en) chainID n) as [|e0 es] eqn:Ei.
  { split; [|done]. intros _ e He. inversion He as [? ? ? Hin|? ? ? ? Hin]; subst;
      rewrite Ei in Hin; by apply not_elem_of_nil in Hin. }
  rewrite (walkEdgesBack_success eval (fun n st => walk left n st)
    (fun m => forall e, met (en_graph en) chainID left m e -> killed eval e = false));
    [|intros; apply IH].
  rewrite list.Forall_forall, <- Ei. split.
  - intros H e He. inversion He as [? ? ? Hin|? ? ? e' Hin Hmet]; subst.
    + by apply H.
    + by apply (H e').
  - intros H e He. split; [apply H; by constructor|]. intros e' He'. apply H. by eapply met_up.
Qed.

(** An invariant of edges and roots is an invariant of the whole walk. *)
Lemma walk_inv (P : WalkState -> Prop) :
  (forall e st, P st -> P (visitEdge (eval e).1.1 (eval e).1.2 st)) ->
  (forall n st, P st -> P (visitRoot en n window anomalyMap st)) ->
  forall left n st, P st -> P (walk left n st).2.
Proof.
  intros He Hr. induction left as [|left IH]; intros n st Hst; cbn [walkBackward]; [done|].
  destruct (chainEdgesInto (en_graph en) chainID n) as [|e0 es]; [by apply Hr|].
  apply walkEdgesBack_inv; auto.
Qed.

(** The score and the count of a walk that misses nothing. *)
Lemma walk_score (left : nat) : forall n st,
  (walk left n st).1 = true ->
  let es := walkedEdges (en_graph en) chainID left n in
  wk_totalScore (walk left n st).2
    = foldl fadd (wk_totalScore st) (map (fun e => (eval e).1.1) es) /\
  wk_edgeCount (walk left n st).2 = wk_edgeCount st + len es.
Proof. clear clockString rfc3339Nano.
  induction left as [|left IH]; intros n st; cbn [walkBackward walkedEdges].
  { intros _. simpl. split; [done|unfold len; simpl; lia]. }
  destruct (chainEdgesInto (en_graph en) chainID n) as [|e0 es] eqn:Ei.
  { intros _. simpl. unfold visitRoot. destruct (_ !! n) as [node|]; [|split; [done|unfold len; simpl; lia]].
    destruct (findStrongestAnomaly _ _ _ _); simpl; split; try done; unfold len; simpl; lia. }
  clear Ei. generalize (e0 :: es). clear e0 es. intros es. revert st.
  induction es as [|e es IHes]; intros st; simpl.
  { intros _. split; [done|unfold len; simpl; lia]. }
  destruct (evaluateEdge _ _ _ _ _ _ _) as [[score event] found] eqn:Ee.
  destruct (negb found && _); [done|].
  specialize (IH (ed_FromNode e) (visitEdge score event st)).
  destruct (walk left (ed_FromNode e) (visitEdge score event st)) as [[] st']; [|done].
  simpl in IH. destruct (IH eq_refl) as [IH1 IH2]. intros H. destruct (IHes st' H) as [H1 H2].
  rewrite H1, H2, IH1, IH2, map_app, foldl_app. split; [done|].
  unfold len. simpl. rewrite length_app. lia.
Qed.

End one_walk.

(** ** Evidence lies in the window *)

Lemma strongerIn_window (from to : Time) (l : list AnomalyEvent) best :
  (forall b, best = Some b -> from <= an_Timestamp b <= to) ->
  forall b, foldl (strongerIn from to) best l = Some b -> from <= an_Timestamp b <= to.
Proof.
  revert best. induction l as [|ev l IH]; intros best Hb; simpl; [done|].
  apply IH. intros b. unfold strongerIn, time_Before, time_After.
  destruct ((an_Timestamp ev <? from) || (to <? an_Timestamp ev)) eqn:E; [by apply Hb|].
  apply orb_false_iff in E as [E1 E2]. zb.
  destruct best as [b0|]; [destruct (fgt _ _)|]; intros [= <-]; auto; lia.
Qed.

Lemma findStrongest_window (anomalyMap : AnomalyMap) keys from to b :
  findStrongestAnomaly anomalyMap keys from to = Some b -> from <= an_Timestamp b <= to.
Proof.
  unfold findStrongestAnomaly.
  assert (forall best, (forall b, best = Some b -> from <= an_Timestamp b <= to) ->
    forall b, foldl (fun best key => match anomalyMap !! key with
                                     | None => best
                                     | Some events => foldl (strongerIn from to) best events
                                     end) best keys = Some b -> from <= an_Timestamp b <= to) as H.
  { induction keys as [|k keys IH]; intros best Hb b'; simpl; [apply Hb|].
    apply IH. destruct (anomalyMap !! k); [by apply strongerIn_window|done]. }
  by apply H.
Qed.

Lemma strongerIn_some (from to : Time) (l : list AnomalyEvent) best :
  is_Some best \/ (exists a, a ∈ l /\ from <= an_Timestamp a <= to) ->
  is_Some (foldl (strongerIn from to) best l).
Proof. clear clockString rfc3339Nano.
  revert best. induction l as [|ev l IH]; intros best; simpl; [intros [H|(a & H & _)]; [done|set_solver]|].
  intros H. apply IH. unfold strongerIn, time_Before, time_After.
  destruct ((an_Timestamp ev <? from) || (to <? an_Timestamp ev)) eqn:E.
  - destruct H as [H|(a & Ha & Hw)]; [by left|]. right. exists a. split; [|done].
    apply elem_of_cons in Ha as [->|Ha]; [|done]. apply orb_true_iff in E as [E|E]; zb; lia.
  - left. destruct best as [b|]; [destruct (fgt _ _)|]; by eexists.
Qed.

Lemma findStrongest_iff (m : AnomalyMap) keys from to :
  is_Some (findStrongestAnomaly m keys from to) <-> seen_between m keys from to.
Proof. clear clockString rfc3339Nano.
  split.
  - unfold findStrongestAnomaly.
    assert (forall l best, (forall b, best = Some b -> seen_between m keys from to) -> l ⊆ keys ->
      is_Some (foldl (fun best key => match m !! key with
         | None => best | Some evs => foldl (strongerIn from to) best evs end) best l) ->
      seen_between m keys from to) as H; [|by apply (H keys None)].
    induction l as [|k l IH]; intros best Hb Hl; simpl; [intros [b ->]; by apply (Hb b)|].
    apply IH; [|set_solver]. intros b. destruct (m !! k) as [evs|] eqn:Ek; [|apply Hb].
    intros Hf. assert (forall l' best', (forall b, best' = Some b -> seen_between m keys from to) ->
      l' ⊆ evs -> forall b, foldl (strongerIn from to) best' l' = Some b -> seen_between m keys from to)
      as H; [|by apply (H evs best Hb (reflexivity _) b)].
    induction l' as [|a l' IHl]; intros best' Hb' Hl' b'; simpl; [apply Hb'|].
    apply IHl; [|set_solver]. intros b1. unfold strongerIn, time_Before, time_After.
    destruct (_ || _) eqn:E; [apply Hb'|]. intros _. apply orb_false_iff in E as [E1 E2]. zb.
    exists k, evs, a. repeat split; [set_solver|done|set_solver|lia..].
  - intros (k & evs & a & Hk & Hm & Ha & Hw). unfold findStrongestAnomaly.
    assert (forall best, is_Some best \/ k ∈ keys ->
      is_Some (foldl (fun best key => match m !! key with
         | None => best | Some evs => foldl (strongerIn from to) best evs end) best keys)) as H;
      [|apply H; by right].
    clear Hk. induction keys as [|k' keys IH]; intros best H; simpl; [destruct H; [done|set_solver]|].
    apply IH. destruct H as [H|H].
    + left. destruct (m !! k') as [evs'|]; [|done]. apply strongerIn_some. by left.
    + apply elem_of_cons in H as [->|H]; [|by right]. left. rewrite Hm. apply strongerIn_some. right. by exists a.
Qed.

(** An edge that requires evidence is found exactly when there is some. *)
Lemma evaluateEdge_found en e i t w m : ed_Evidence e = EvidenceRequired ->
  (evaluateEdge math_Exp en e i t w m).2 = true <-> has_evidence en e i t w m.
Proof. clear clockString rfc3339Nano.
  intros He. unfold evaluateEdge, has_evidence, noEvidence.
  destruct (g_Nodes (en_graph en) !! ed_FromNode e) as [node|];
    [|split; [done|intros (? & ? & _); done]].
  assert (forall P : CausalNode -> Prop, (exists n, Some node = Some n /\ P n) <-> P node) as Hn
    by (intros P; split; [by intros (n & [= <-] & H)|by exists node]).
  rewrite Hn. destruct (ed_Temporal e).
  - unfold searchWindow, time_Before, time_After, time_Add. cbv zeta.
    set (a := t + i64 (- ed_MaxLag e - _)). set (b := t + i64 (- ed_MinLag e + _)).
    replace (if a <? w_From w then w_From w else a) with (Z.max (w_From w) a) by (destr_ifs; zb; lia).
    replace (if w_To w <? b then w_To w else b) with (Z.min (w_To w) b) by (destr_ifs; zb; lia).
    rewrite <- findStrongest_iff. destruct (findStrongestAnomaly _ _ _ _); simpl; [by split; eauto|].
    rewrite decide_True by done. by split; [|intros [? ?]].
  - rewrite <- findStrongest_iff. destruct (findStrongestAnomaly _ _ _ _); simpl; [by split; eauto|].
    rewrite decide_True by done. by split; [|intros [? ?]].
  - destruct (en_settingsProvider en) as [g|]; [|split; [done|by intros (? & ? & ? & ? & _)]].
    destruct (g i _ _) as [[|c cs]|] eqn:Eg; rewrite ?decide_True by done.
    + split; [done|]. intros (? & ? & ? & [= <-] & ?). congruence.
    + split; [|done]. intros _. by exists g, c, cs.
    + split; [done|]. intros (? & ? & ? & [= <-] & ?). congruence.
Qed.

Definition inWindow (w : TimeWindow) (t : Time) : Prop := w_From w <= t <= w_To w.

(** The contract of a settings provider: it reports changes of the interval it is asked for. *)
Definition provider_in_window (en : Engine) : Prop :=
  forall p i from to cs, en_settingsProvider en = Some p -> p i from to = Ok cs ->
    Forall (fun ch => from <= sc_ChangedAt ch <= to) cs.

Lemma latestChange_in (c : SettingChange) (cs : list SettingChange) :
  latestChange c cs ∈ c :: cs.
Proof.
  unfold latestChange. revert c. induction cs as [|ch cs IH]; intros c; simpl; [by left|].
  destruct (time_After _ _); pose proof (IH c); pose proof (IH ch); set_solver.
Qed.

Lemma evaluateEdge_window en edge i t w m ev :
  provider_in_window en ->
  (evaluateEdge math_Exp en edge i t w m).1.2 = Some ev -> inWindow w (te_Timestamp ev).
Proof.
  intros Hp. unfold evaluateEdge, noEvidence.
  destruct (g_Nodes (en_graph en) !! ed_FromNode edge) as [node|]; [|done].
  destruct (ed_Temporal edge).
  - unfold searchWindow. 
    set (sf := if time_Before _ _ then _ else _). set (st := if time_After _ _ then _ else _).
    assert (w_From w <= sf /\ st <= w_To w) as [Hsf Hst].
    { subst sf st. unfold time_Before, time_After. destr_ifs; zb; lia. }
    destruct (findStrongestAnomaly _ _ _ _) as [a|] eqn:E; [|by case_decide].
    simpl. intros [= <-]. apply findStrongest_window in E. unfold inWindow. simpl. lia.
  - destruct (findStrongestAnomaly _ _ _ _) as [a|] eqn:E; [|by case_decide].
    simpl. intros [= <-]. by apply findStrongest_window in E.
  - destruct (en_settingsProvider en) as [p|] eqn:Ep; [|done].
    destruct (p i _ _) as [[|c cs]|] eqn:Ec; [by case_decide| |by case_decide].
    simpl. intros [= <-]. pose proof (Hp _ _ _ _ _ Ep Ec) as Hf.
    rewrite list.Forall_forall in Hf. apply (Hf _ (latestChange_in c cs)).
Qed.

(** ** Traversal of a chain *)

Lemma walk_count en chainID i t w m left n st :
  wk_edgeCount st <= wk_edgeCount (walkBackward math_Exp en left n chainID i t w m st).2.
Proof.
  apply (walk_inv en chainID i t w m (fun st' => wk_edgeCount st <= wk_edgeCount st')).
  - intros e st' H. simpl. lia.
  - intros n' st' H. unfold visitRoot. by repeat case_match.
  - lia.
Qed.

Lemma walk_count_step en chainID i t w m left n st :
  chainEdgesInto (en_graph en) chainID n <> [] ->
  (walkBackward math_Exp en (S left) n chainID i t w m st).1 = true ->
  wk_edgeCount st < wk_edgeCount (walkBackward math_Exp en (S left) n chainID i t w m st).2.
Proof.
  cbn [walkBackward]. destruct (chainEdgesInto (en_graph en) chainID n) as [|e es]; [done|].
  intros _. cbn [walkEdgesBack]. destruct (evaluateEdge _ _ _ _ _ _ _) as [[score event] found].
  destruct (negb found && _); [done|].
  pose proof (walk_count en chainID i t w m left (ed_FromNode e) (visitEdge score event st)) as H1.
  destruct (walkBackward _ _ _ _ _ _ _ _ _ _) as [[] st']; [|done]. simpl in H1. intros _.
  assert (forall st0, wk_edgeCount st' <= wk_edgeCount st0 -> wk_edgeCount st' <= wk_edgeCount
    (walkEdgesBack (fun edge => evaluateEdge math_Exp en edge i t w m)
      (fun n st => walkBackward math_Exp en left n chainID i t w m st) es st0).2) as H2.
  { apply (walkEdgesBack_inv _ _ (fun st0 => wk_edgeCount st' <= wk_edgeCount st0));
      [intros; simpl; lia|]. intros e' st0 _ H.
    etransitivity; [exact H|apply walk_count]. }
  specialize (H2 st' (Z.le_refl _)). lia.
Qed.

Lemma toNodes_fold (es : list CausalEdge) (acc : gmap string bool) id v :
  foldl (fun m e => <[ed_ToNode e := true]> m) acc es !! id = Some v ->
  acc !! id = Some v \/ exists e, e ∈ es /\ ed_ToNode e = id.
Proof.
  revert acc. induction es as [|e es IH]; intros acc; simpl; [by left|].
  intros H. apply IH in H as [H|(e' & He' & Hid)]; [|right; exists e'; split; [by right|done]].
  apply lookup_insert_Some in H as [[H _]|[_ H]]; [|by left].
  right. exists e. split; [by left|done].
Qed.

Lemma TerminalNodes_incoming (g : CausalGraph) (chainID id : string) :
  id ∈ TerminalNodes g chainID -> chainEdgesInto g chainID id <> [].
Proof.
  unfold TerminalNodes. rewrite elem_of_filter_bool. intros [_ Hid].
  apply list_elem_of_fmap in Hid as ([id' v] & -> & Hid). apply elem_of_map_range in Hid.
  apply toNodes_fold in Hid as [Hid|(e & He & Hto)]; [by rewrite lookup_empty in Hid|].
  apply elem_of_filter_bool in He as [Hc He]. simpl in *. intros Hnil.
  assert (e ∈ chainEdgesInto g chainID id') as Hin; [|rewrite Hnil in Hin; by apply not_elem_of_nil in Hin].
  unfold chainEdgesInto, IncomingEdges. rewrite !elem_of_filter_bool. repeat split; try done.
  by apply bool_decide_eq_true_2.
Qed.

Lemma startNode_in g terminals k start : startNode g terminals k = Some start -> start ∈ terminals.
Proof.
  unfold startNode. destruct (List.find _ terminals) as [t|] eqn:E.
  - intros [= <-]. apply find_some in E as [E _]. by apply list_elem_of_In.
  - destruct terminals; [done|]. simpl. intros [= ->]. by left.
Qed.

Lemma TerminalNodes_edges g chainID id :
  id ∈ TerminalNodes g chainID -> len (EdgesForChain g chainID) =? 0 = false.
Proof.
  unfold TerminalNodes, len. destruct (EdgesForChain g chainID); [|done]. simpl. intros H.
  apply elem_of_filter_bool in H as [_ H]. apply list_elem_of_fmap in H as ([? ?] & _ & H).
  apply elem_of_map_range in H. by rewrite lookup_empty in H.
Qed.

Lemma traverse_some en chainID i k t w m r :
  traverseChain math_Exp en chainID i k t w m = Some r ->
  exists start st, startNode (en_graph en) (TerminalNodes (en_graph en) chainID) k = Some start /\
    walkBackward math_Exp en (Z.to_nat (rc_MaxTraversalDepth (en_cfg en))) start chainID i t w m
      emptyWalk = (true, st) /\ wk_edgeCount st <> 0 /\
    r = mkChainResult chainID (chainName chainID (sort_slice earlier (wk_events st)))
          (fdiv (wk_totalScore st) (f_of_Z (wk_edgeCount st)))
          (wk_rootCauseKey st) (sort_slice earlier (wk_events st)).
Proof.
  unfold traverseChain. destruct (_ =? 0); [done|].
  destruct (startNode _ _ _) as [start|]; [|done].
  destruct (walkBackward _ _ _ _ _ _ _ _ _ _) as [[] st] eqn:Ew; simpl; [|done].
  destruct (wk_edgeCount st =? 0) eqn:Ec; [done|]. zb. intros [= <-]. by exists start, st.
Qed.

End engine.

(** ** Properties *)

(** What the walk back through a chain needs: a terminal node to start from, and evidence for
    every edge met within the depth bound that requires it. *)
Definition diagnosed {MR : MapRange} (en : Engine) (chainID instanceID trigger : string) (t : Time)
    (w : TimeWindow) (m : AnomalyMap) (start : string) : Prop :=
  startNode (en_graph en) (TerminalNodes (en_graph en) chainID) trigger = Some start /\
  forall e, met (en_graph en) chainID (Z.to_nat (rc_MaxTraversalDepth (en_cfg en))) start e ->
    ed_Evidence e = EvidenceRequired -> has_evidence en e instanceID t w m.

(** The mean weight of the edges walked from [start]. *)
Definition chain_score (math_Exp : float64 -> float64) (en : Engine) (chainID instanceID : string)
    (t : Time) (w : TimeWindow) (m : AnomalyMap) (start : string) : float64 :=
  let es := walkedEdges (en_graph en) chainID (Z.to_nat (rc_MaxTraversalDepth (en_cfg en))) start in
  fdiv (foldl fadd f0 (map (fun e => (evaluateEdge math_Exp en e instanceID t w m).1.1) es))
    (f_of_Z (len es)).

(** Pruning is exact: with a positive depth bound the traversal of a chain gives a result exactly
    when the chain is diagnosed, and the result's score is the mean weight. *)
Lemma traverse_iff {MR : MapRange} {SS : SliceSort}
    (math_Exp : float64 -> float64) (en : Engine) (chainID instanceID trigger : string)
    (t : Time) (w : TimeWindow) (m : AnomalyMap) :
  0 < rc_MaxTraversalDepth (en_cfg en) ->
  (forall r, traverseChain math_Exp en chainID instanceID trigger t w m = Some r ->
     cr_ChainID r = chainID /\
     exists start, diagnosed en chainID instanceID trigger t w m start /\
       cr_Score r = chain_score math_Exp en chainID instanceID t w m start) /\
  (forall start, diagnosed en chainID instanceID trigger t w m start ->
     exists r, traverseChain math_Exp en chainID instanceID trigger t w m = Some r /\
       cr_Score r = chain_score math_Exp en chainID instanceID t w m start).
Proof.
  intros Hd.
  assert (forall e, killed (fun e => evaluateEdge math_Exp en e instanceID t w m) e = false <->
    (ed_Evidence e = EvidenceRequired -> has_evidence en e instanceID t w m)) as Hk.
  { intros e. unfold killed. rewrite andb_false_iff, negb_false_iff, bool_decide_eq_false.
    pose proof (evaluateEdge_found math_Exp en e instanceID t w m) as Hf.
    destruct (decide (ed_Evidence e = EvidenceRequired)) as [He|]; [rewrite (Hf He)|]; naive_solver. }
  set (left := Z.to_nat (rc_MaxTraversalDepth (en_cfg en))).
  assert (forall start, (walkBackward math_Exp en left start chainID instanceID t w m emptyWalk).1 = true ->
    fdiv (wk_totalScore (walkBackward math_Exp en left start chainID instanceID t w m emptyWalk).2)
      (f_of_Z (wk_edgeCount (walkBackward math_Exp en left start chainID instanceID t w m emptyWalk).2))
    = chain_score math_Exp en chainID instanceID t w m start) as Hsc.
  { intros start Hw. apply (walk_score math_Exp en chainID instanceID t w m left start emptyWalk) in Hw
      as [H1 H2]. cbv beta in H1, H2. rewrite H1, H2. reflexivity. }
  pose proof (fun start => walk_success math_Exp en chainID instanceID t w m left start emptyWalk) as Hsucc.
  cbv beta in Hsucc. split.
  - intros r Hr. apply traverse_some in Hr as (start & st & Hs & Hw & _ & ->). fold left in Hw.
    specialize (Hsc start). specialize (Hsucc start). rewrite Hw in Hsc, Hsucc.
    split; [done|]. exists start. split; [|by apply Hsc].
    split; [done|]. intros e He. apply Hk. by apply Hsucc.
  - intros start [Hs He]. unfold traverseChain.
    pose proof (startNode_in _ _ _ _ Hs) as Hin.
    rewrite (TerminalNodes_edges _ _ _ Hin), Hs. fold left.
    specialize (proj2 (Hsucc start) (fun e Hm => proj2 (Hk e) (He e Hm))) as Hw.
    specialize (Hsc start Hw).
    assert (wk_edgeCount (walkBackward math_Exp en left start chainID instanceID t w m emptyWalk).2 <> 0) as Hc.
    { clear -Hd Hin Hw. subst left. destruct (Z.to_nat (rc_MaxTraversalDepth (en_cfg en))) as [|n] eqn:El; [lia|].
      pose proof (walk_count_step math_Exp en chainID instanceID t w m n start emptyWalk
        (TerminalNodes_incoming _ _ _ Hin) Hw) as Hc. simpl wk_edgeCount at 1 in Hc. lia. }
    destruct (walkBackward math_Exp en left start chainID instanceID t w m emptyWalk) as [ok st].
    simpl in *. subst ok. rewrite (proj2 (Z.eqb_neq _ _) Hc). by eexists.
Qed.

(** Evidence of a reported chain is in time order and inside the analysis window, also
    when the search window of an edge reaches beyond it, provided the settings provider
    reports only changes of the interval it was asked for. *)
Theorem chain_evidence_in_window {MR : MapRange} {SS : SliceSort}
    (math_Exp : float64 -> float64) (en : Engine) (chainID instanceID trigger : string)
    (t : Time) (w : TimeWindow) (m : gmap string (list AnomalyEvent)) (r : CausalChainResult) :
  provider_in_window en -> traverseChain math_Exp en chainID instanceID trigger t w m = Some r ->
  Forall (fun ev => w_From w <= te_Timestamp ev <= w_To w) (cr_Events r) /\
  StronglySorted (fun a b => te_Timestamp a <= te_Timestamp b) (cr_Events r).
Proof.
  intros Hp Hr. apply traverse_some in Hr as (start & st & _ & Hw & _ & ->). simpl. split.
  - rewrite sort_slice_perm.
    pose proof (walk_inv math_Exp en chainID instanceID t w m
      (fun st => Forall (fun ev => inWindow w (te_Timestamp ev)) (wk_events st))) as H.
    replace st with (walkBackward math_Exp en (Z.to_nat (rc_MaxTraversalDepth (en_cfg en))) start
      chainID instanceID t w m emptyWalk).2 by by rewrite Hw.
    apply H; [| |constructor].
    + intros e st' Hst. simpl. apply Forall_app. split; [done|].
      destruct (evaluateEdge _ _ _ _ _ _ _).1.2 as [ev|] eqn:E; [|constructor].
      constructor; [|constructor]. by apply (evaluateEdge_window _ _ _ _ _ _ _ _ Hp E).
    + intros n st' Hst. unfold visitRoot. destruct (_ !! n) as [node|]; [|done].
      destruct (findStrongestAnomaly _ _ _ _) as [a|] eqn:E; [|done]. simpl.
      apply Forall_app. split; [done|]. constructor; [|constructor].
      by apply (findStrongest_window _ _ _ _ _ E).
  - eapply StronglySorted_weaken; [|apply sort_slice_sorted, weak_on_Z].
    intros a b H. unfold earlier, time_Before in H. zb. lia.
Qed.

(** ** Ranking *)

Lemma fge_num (x y : float64) : fge x y = true -> num x.
Proof. unfold fge. rewrite fle_spec. tauto. Qed.

Section ranking.
Context {SS : SliceSort} (clockString rfc3339Nano : Time -> string).

Abbreviation build := (Build clockString rfc3339Nano).

(** What an incident says about the chains it was built from. *)
Record ranked (chains : list CausalChainResult) (inc : Incident) : Prop := {
  rk_none : in_PrimaryChain inc = None <-> chains = [];
  rk_primary : forall c, in_PrimaryChain inc = Some c ->
    c ∈ chains /\ in_Confidence inc = cr_Score c /\
    forall c', c' ∈ chains -> fle (cr_Score c') (cr_Score c) = true;
  rk_alternative : forall c2, in_AlternativeChain inc = Some c2 ->
    exists c, in_PrimaryChain inc = Some c /\ (exists rest, [c; c2] ++ rest ≡ₚ chains) /\
      fge (cr_Score c2) (fmul (cr_Score c) (fconst 8 10)) = true
}.

Lemma Build_ranks (now : Time) (b : IncidentBuilder) :
  Forall (fun c => num (cr_Score c)) (ib_chains b) -> ranked (ib_chains b) (build now b).
Proof.
  intros Hnum.
  pose proof (sort_slice_perm _ higherScore (ib_chains b)) as Hp.
  pose proof (sort_slice_sorted _ higherScore (ib_chains b) (weak_on_fkey_desc cr_Score _ Hnum))
    as Hs.
  unfold Build. split; simpl;
    destruct (sort_slice higherScore (ib_chains b)) as [|c l]; simpl.
  - apply Permutation_nil_l in Hp. rewrite <- Hp. done.
  - split; [done|]. intros Hn. rewrite Hn in Hp. by apply Permutation_nil_r in Hp.
  - done.
  - intros c0 [= <-]. split; [rewrite <- Hp; by left|]. split; [done|]. intros c' Hc'.
    rewrite list.Forall_forall in Hnum. pose proof (Hnum c' Hc') as Hn'.
    assert (num (cr_Score c)) as Hn by (apply Hnum; rewrite <- Hp; by left).
    rewrite <- Hp in Hc'. apply elem_of_cons in Hc' as [->|Hc']; [by apply fle_refl|].
    apply flt_false; [done|done|].
    apply (StronglySorted_head _ _ _ _ Hs Hc').
  - done.
  - destruct l as [|c2 l]; [done|]. destruct (fge _ _) eqn:E; [|done].
    intros c0 [= <-]. exists c. split; [done|]. split; [by exists l|done].
Qed.

Lemma buildTimeline_spec (p a : option CausalChainResult) :
  let tl := buildTimeline rfc3339Nano p a in
  StronglySorted (fun x y => te_Timestamp x <= te_Timestamp y) tl /\
  NoDup (map (timelineKey rfc3339Nano) tl) /\
  (forall ev, ev ∈ tl -> ev ∈ chainEvents p ++ chainEvents a) /\
  (forall ev, ev ∈ chainEvents p ++ chainEvents a ->
     exists ev', ev' ∈ tl /\ timelineKey rfc3339Nano ev' = timelineKey rfc3339Nano ev).
Proof.
  unfold buildTimeline. cbv zeta. split; [|split; [|split]].
  - eapply StronglySorted_weaken; [|apply sort_slice_sorted, weak_on_Z].
    intros x y H. unfold earlier, time_Before in H. zb. lia.
  - rewrite sort_slice_perm. apply dedup_key_NoDup.
  - intros ev. rewrite sort_slice_perm. apply dedup_key_elem.
  - intros ev Hev. setoid_rewrite sort_slice_perm. by apply dedup_key_complete.
Qed.

End ranking.

Section analysis.
Context {SS : SliceSort} {MR : MapRange} (math_Exp : float64 -> float64)
  (clockString rfc3339Nano : Time -> string).

Lemma AddChains (cs : list CausalChainResult) (b : IncidentBuilder) :
  ib_chains (foldl (fun b c => AddChain c b) b cs) = ib_chains b ++ cs.
Proof.
  revert b. induction cs as [|c cs IH]; intros b; simpl; [by rewrite app_nil_r|].
  rewrite IH. simpl. by rewrite <- app_assoc.
Qed.

Lemma accepted_score en req w m ids c :
  c ∈ acceptedChains math_Exp en req w m ids ->
  fge (cr_Score c) (rc_MinChainScore (en_cfg en)) = true /\ cr_ChainID c ∈ ids.
Proof.
  unfold acceptedChains. rewrite list_elem_of_omap. intros (id & Hid & H).
  destruct (traverseChain _ _ _ _ _ _ _ _) as [r|] eqn:Er; [|done].
  destruct (fge _ _) eqn:E; [|done]. injection H as <-. split; [done|].
  apply traverse_some in Er as (start & st & _ & _ & _ & ->). done.
Qed.

End analysis.

(** What storing an incident and firing its hooks leaves unchanged. *)
Lemma storeAndFire_frame {MR : MapRange} {I R} {HI : IncidentStore I}
    {HR : RemediationHookEvaluator R} en inc (s : option I) (r : option R) :
  let inc' := (storeAndFire en inc s r).1.1 in
  in_PrimaryChain inc' = in_PrimaryChain inc /\
  in_AlternativeChain inc' = in_AlternativeChain inc /\ in_Timeline inc' = in_Timeline inc /\
  in_Confidence inc' = in_Confidence inc.
Proof. unfold storeAndFire. destruct s as [s|]; [|done]. by destruct (is_Create s inc) as [? []]. Qed.

(** What an analysis reads: the anomalies of the (capped) metrics of the candidate chains, with those
    that the statement comparison adds. *)
Definition anomalies_seen {MR : MapRange} {A} {HA : AnomalySource A} (en : Engine) (a : A)
    (req : AnalyzeRequest) (ids : list string) (am : AnomalyMap) : Prop :=
  let w := analysisWindow (en_cfg en) req in
  exists keys a1 found,
    slice_cap (rc_MaxMetricsPerRun (en_cfg en)) (MetricKeysForChains (en_graph en) ids) = Some keys /\
    as_GetAnomalies a (rq_InstanceID req) keys (w_From w) (w_To w) (90 * Second) = Some (a1, Ok found) /\
    am = match en_stmtDiffSource en with
         | None => found
         | Some src => match src (rq_InstanceID req) (w_From w) (w_To w) with
                       | Ok extra => injectAnomalies found extra
                       | Err _ => found
                       end
         end.

(** An analysis that returns an incident ranked the chains it accepted, among the capped candidates,
    on what the anomaly source said of the capped metrics, with the statement anomalies added. *)
Lemma Analyze_chains {SS : SliceSort} {MR : MapRange} {A I R M : Type}
    {HA : AnomalySource A} {HI : IncidentStore I} {HR : RemediationHookEvaluator R}
    {HM : MetricStore M} (math_Exp : float64 -> float64) (clockString rfc3339Nano : Time -> string)
    (en : Engine) (a : A) (m : M) (store : option I) (rem : option R) (now : Time)
    (req : AnalyzeRequest) a' store' rem' (inc : Incident) :
  Analyze math_Exp clockString rfc3339Nano en a m store rem now req
    = Some (a', store', rem', Ok inc) ->
  exists ids am,
    slice_cap (rc_MaxCandidateChains (en_cfg en)) (ChainsForTrigger (en_graph en) (rq_TriggerMetric req))
      = Some ids /\ anomalies_seen en a req ids am /\
    ranked (acceptedChains math_Exp en req (analysisWindow (en_cfg en) req) am ids) inc.
Proof.
  unfold Analyze. destruct (slice_cap _ (ChainsForTrigger _ _)) as [ids|]; [|done].
  destruct (slice_cap _ (MetricKeysForChains _ _)) as [keys|] eqn:Ek; [|done].
  destruct (as_GetAnomalies _ _ _ _ _ _) as [[a1 [found|err]]|] eqn:Ea; [|done..].
  set (am := match en_stmtDiffSource en with None => found | _ => _ end).
  set (b := foldl _ _ _).
  assert (ib_chains b = acceptedChains math_Exp en req (analysisWindow (en_cfg en) req) am ids)
    as Hb by (subst b; by rewrite AddChains).
  pose proof (storeAndFire_frame en (Build clockString rfc3339Nano now b) store rem)
    as (Hp & Ha & _ & Hc).
  destruct (storeAndFire en _ store rem) as [[inc1 s1] r1]. intros [= _ _ _ <-].
  cbn [fst] in Hp, Ha, Hc. exists ids, am. split; [done|]. split.
  { exists keys, a1, found. split; [done|]. split; [done|]. subst am.
    destruct (en_stmtDiffSource en) as [src|]; [|done]. by destruct (src _ _ _). }
  rewrite <- Hb. destruct (Build_ranks clockString rfc3339Nano now b) as [H1 H2 H3].
  { apply list.Forall_forall. intros c Hin. rewrite Hb in Hin.
    apply accepted_score in Hin as [Hin _]. by apply fge_num in Hin. }
  split; rewrite ?Hp, ?Ha, ?Hc; done.
Qed.

Lemma slice_cap_sub {A} n (l l' : list A) x : slice_cap n l = Some l' -> x ∈ l' -> x ∈ l.
Proof.
  unfold slice_cap. destruct (_ <? _); [|by intros [= ->]]. destruct (_ <? 0); [done|].
  intros [= <-]. unfold slice_to. apply (subseteq_take (Z.to_nat n)).
Qed.

(** Ranking. Whenever an analysis returns an incident, its chains come from candidate
    chains that reached the minimum score: there is no primary chain exactly when no candidate
    did, the primary chain has the highest score and gives the confidence, and the alternative
    is another candidate within twenty per cent of it. *)
Theorem incident_ranks_accepted_chains {SS : SliceSort} {MR : MapRange} {A I R M : Type}
    {HA : AnomalySource A} {HI : IncidentStore I} {HR : RemediationHookEvaluator R}
    {HM : MetricStore M} (math_Exp : float64 -> float64) (clockString rfc3339Nano : Time -> string)
    (en : Engine) (a : A) (m : M) (store : option I) (rem : option R) (now : Time)
    (req : AnalyzeRequest) a' store' rem' (inc : Incident) :
  Analyze math_Exp clockString rfc3339Nano en a m store rem now req
    = Some (a', store', rem', Ok inc) ->
  exists chains, ranked chains inc /\
    Forall (fun c => fge (cr_Score c) (rc_MinChainScore (en_cfg en)) = true /\
      cr_ChainID c ∈ ChainsForTrigger (en_graph en) (rq_TriggerMetric req)) chains.
Proof.
  intros H. apply Analyze_chains in H as (ids & am & Hids & _ & Hr). eexists. split; [exact Hr|].
  apply list.Forall_forall. intros c Hin. apply accepted_score in Hin as [? Hin]. split; [done|].
  by apply (slice_cap_sub _ _ _ _ Hids).
Qed.

(** C38: A chain takes part in the ranking of an incident exactly when it is diagnosed and scores
    high enough. Whatever the anomaly source, the stores and the hooks do, whenever an analysis with
    a positive depth bound returns an incident, the chains it was ranked from are those of the
    (capped) candidates that have a terminal node to start from, evidence for every edge the backward
    walk meets within the depth bound and that requires it (an anomaly of the cause as long before
    the trigger as the edge's lag says, give or take the collection jitter, and within the analysis
    window; anywhere in that window for a persistent state; a change of a setting in it), and a mean
    edge weight of at least MinChainScore. The incident has a primary chain exactly when there is
    one, the best of them. *)
Theorem chain_reported_iff_evidence {SS : SliceSort} {MR : MapRange} {A I R M : Type}
    {HA : AnomalySource A} {HI : IncidentStore I} {HR : RemediationHookEvaluator R}
    {HM : MetricStore M} (math_Exp : float64 -> float64) (clockString rfc3339Nano : Time -> string)
    (en : Engine) (a : A) (m : M) (store : option I) (rem : option R) (now : Time)
    (req : AnalyzeRequest) a' store' rem' (inc : Incident) :
  0 < rc_MaxTraversalDepth (en_cfg en) ->
  Analyze math_Exp clockString rfc3339Nano en a m store rem now req
    = Some (a', store', rem', Ok inc) ->
  exists ids am chains,
    slice_cap (rc_MaxCandidateChains (en_cfg en)) (ChainsForTrigger (en_graph en) (rq_TriggerMetric req))
      = Some ids /\ anomalies_seen en a req ids am /\ ranked chains inc /\
    let w := analysisWindow (en_cfg en) req in
    forall id, id ∈ map cr_ChainID chains <-> id ∈ ids /\ exists start,
      diagnosed en id (rq_InstanceID req) (rq_TriggerMetric req) (rq_TriggerTime req) w am start /\
      fge (chain_score math_Exp en id (rq_InstanceID req) (rq_TriggerTime req) w am start)
        (rc_MinChainScore (en_cfg en)) = true.
Proof.
  intros Hd H. apply Analyze_chains in H as (ids & am & Hids & Ham & Hr).
  exists ids, am. eexists. split; [done|]. split; [done|]. split; [exact Hr|]. intros w id.
  rewrite list_elem_of_fmap. setoid_rewrite list_elem_of_omap.
  pose proof (fun i => traverse_iff math_Exp en i (rq_InstanceID req) (rq_TriggerMetric req)
    (rq_TriggerTime req) w am Hd) as Ht. split.
  - intros (c & -> & i & Hi & Hc). destruct (Ht i) as [Hsome _]. fold w in Hc.
    destruct (traverseChain _ _ _ _ _ _ _ _) as [r|]; [|done].
    destruct (fge _ _) eqn:E; [|done]. injection Hc as <-.
    destruct (Hsome r eq_refl) as (-> & start & Hdg & Hs). split; [done|]. exists start.
    by rewrite <- Hs.
  - intros [Hi (start & Hdg & Hs)]. destruct (Ht id) as [Hsome Hex].
    destruct (Hex start Hdg) as (r & Hr' & Hsr). exists r. destruct (Hsome r Hr') as [Hid _].
    split; [done|]. exists id. split; [done|]. fold w. rewrite Hr', Hsr, Hs. done.
Qed.

(** The incident timeline holds the evidence of the primary and the alternative chain and
    nothing else, in time order, each (node, metric, time) once. *)
Theorem timeline_merges_chains {SS : SliceSort} (rfc3339Nano : Time -> string)
    (p a : option CausalChainResult) :
  let tl := buildTimeline rfc3339Nano p a in
  StronglySorted (fun x y => te_Timestamp x <= te_Timestamp y) tl /\
  NoDup (map (timelineKey rfc3339Nano) tl) /\
  (forall ev, ev ∈ tl -> ev ∈ chainEvents p ++ chainEvents a) /\
  (forall ev, ev ∈ chainEvents p ++ chainEvents a ->
     exists ev', ev' ∈ tl /\ timelineKey rfc3339Nano ev' = timelineKey rfc3339Nano ev).
Proof. apply buildTimeline_spec. Qed.

(** ** A concrete analysis: a long transaction delays replication *)

#[local] Existing Instance insertion_SliceSort.
#[local] Existing Instance canonical_MapRange.

Definition demoAnomaly : AnomalyEvent :=
  mkAnomaly "db1" "pg.long_transactions.oldest_seconds" (1000 * Second) (f_of_Z 900) (f_of_Z 10)
    (f_of_Z 6) f0 f1 "threshold".

Definition demoAnomalies : gmap string (list AnomalyEvent) :=
  {["pg.long_transactions.oldest_seconds" := [demoAnomaly]]}.

Definition demoEngine : Engine := mkEngine NewDefaultGraph DefaultRCAConfig None None.

Definition demoRequest : AnalyzeRequest :=
  mkRequest "db1" "pg.replication.lag.replay_bytes" (f_of_Z 5) (1100 * Second) 0 "alert".

Definition demoWindow : TimeWindow := analysisWindow DefaultRCAConfig demoRequest.

Definition demoChain : option CausalChainResult :=
  traverseChain (fun _ => f1) demoEngine ChainLongTxReplDelay "db1"
    "pg.replication.lag.replay_bytes" (1100 * Second) demoWindow demoAnomalies.

Definition demoReported (r : option CausalChainResult) : bool :=
  match r with Some r => 0 <? len (cr_Events r) | None => false end.

Lemma demo_reported : demoReported demoChain = true.
Proof. vm_compute. reflexivity. Qed.

Lemma chain_evidence_in_window_witness : exists r, demoChain = Some r /\
  demoReported (Some r) = true /\
  StronglySorted (fun a b => te_Timestamp a <= te_Timestamp b) (cr_Events r).
Proof.
  pose proof demo_reported as Hd. destruct demoChain as [r|] eqn:E; [|discriminate].
  exists r. split; [reflexivity|]. split.
  - exact Hd.
  - assert (provider_in_window demoEngine) as Hp by (intros p i from to cs [=]).
    exact (proj2 (chain_evidence_in_window (fun _ => f1) demoEngine ChainLongTxReplDelay "db1"
             "pg.replication.lag.replay_bytes" (1100 * Second) demoWindow demoAnomalies r Hp E)).
Defined.

#[local] Instance demoSource : AnomalySource (gmap string (list AnomalyEvent)) := {|
  as_GetAnomalies := fun a _ _ _ _ _ => Some (a, Ok a);
  as_Mode := "threshold"
|}.
#[local] Instance demoStore : IncidentStore Z := {| is_Create := fun n _ => (n + 1, Ok n) |}.
#[local] Instance demoHooks : RemediationHookEvaluator (list HookCall) := {|
  rh_EvaluateHook := fun l c => (l ++ [c], None)
|}.
#[local] Instance demoMetrics : MetricStore unit := {|
  ms_Write := fun s _ => (s, None);
  ms_Query := fun _ _ => Ok []
|}.

Abbreviation demoAnalysis :=
  (Analyze (fun _ => f1) (fun _ => "12:00:00") (fun _ => "t") demoEngine demoAnomalies tt (Some 7)
    (Some (@nil HookCall)) 0 demoRequest).

(** A primary chain was found and its hook was fired once. *)
Definition demoDiagnosed (res : option (gmap string (list AnomalyEvent) * option Z
    * option (list HookCall) * result Incident)) : bool :=
  match res with
  | Some (_, _, Some calls, Ok inc) =>
      bool_decide (is_Some (in_PrimaryChain inc)) && bool_decide (map hc_Hook calls = [HookKillLongTx])
  | _ => false
  end.

Lemma demo_diagnosed : demoDiagnosed demoAnalysis = true.
Proof. vm_compute. reflexivity. Qed.

(** A long transaction delays replication, and the incident says so. *)
Lemma chain_reported_iff_evidence_witness : exists a' s' r' inc (ids : list string) am chains,
  demoAnalysis = Some (a', s', r', Ok inc) /\ demoDiagnosed (Some (a', s', r', Ok inc)) = true /\
  ranked chains inc /\ forall id, id ∈ map cr_ChainID chains ->
    id ∈ ids /\ exists start,
      diagnosed demoEngine id "db1" "pg.replication.lag.replay_bytes" (1100 * Second) demoWindow am start.
Proof.
  pose proof demo_diagnosed as Hd.
  destruct demoAnalysis as [[[[a' s'] r'] [inc|err]]|] eqn:E;
    [|destruct r'; discriminate|discriminate].
  destruct (chain_reported_iff_evidence (fun _ => f1) (fun _ => "12:00:00") (fun _ => "t")
              demoEngine demoAnomalies tt (Some 7) (Some (@nil HookCall)) 0 demoRequest a' s' r' inc
              eq_refl E) as (ids & am & chains & _ & _ & Hr & Hc).
  exists a', s', r', inc, ids, am, chains. split; [reflexivity|]. split; [exact Hd|]. split; [exact Hr|].
  intros id Hid. apply (proj1 (Hc id)) in Hid as [Hi (start & Hs & _)]. split; [exact Hi|].
  exists start. exact Hs.
Defined.

Lemma incident_ranks_accepted_chains_witness : exists a' s' r' inc chains,
  demoAnalysis = Some (a', s', r', Ok inc) /\ ranked chains inc /\
  demoDiagnosed (Some (a', s', r', Ok inc)) = true.
Proof.
  pose proof demo_diagnosed as Hd. 
  destruct demoAnalysis as [[[[a' s'] r'] [inc|err]]|] eqn:E;
    [|destruct r'; discriminate|discriminate].
  destruct (incident_ranks_accepted_chains (fun _ => f1) (fun _ => "12:00:00") (fun _ => "t")
              demoEngine demoAnomalies tt (Some 7) (Some (@nil HookCall)) 0 demoRequest a' s' r' inc E)
    as (chains & Hr & _).
  exists a', s', r', inc, chains. split; [reflexivity|]. split; [exact Hr|exact Hd].
Defined.

(** * Facts about the shipped causal knowledge base

    The default graph against the traversal: it is well formed, every chain has one terminal
    and is walked in full within the default depth whatever the map iteration order, two of
    its chains can never be diagnosed, and the temporal weight of its edges stays in range. *)

(** ** The edges a walk meets, computed *)

Fixpoint metEdges (g : CausalGraph) (chainID : string) (left : nat) (n : string)
    : list CausalEdge :=
  match left with
  | O => []
  | S left' =>
      let es := chainEdgesInto g chainID n in
      es ++ concat (map (fun e => metEdges g chainID left' (ed_FromNode e)) es)
  end.

Lemma metEdges_spec (g : CausalGraph) (chainID : string) (left : nat) : forall n e,
  e ∈ metEdges g chainID left n <-> met g chainID left n e.
Proof.
  induction left as [|left IH]; intros n e; cbn [metEdges].
  { split; [intros H; by apply not_elem_of_nil in H|inversion 1]. }
  rewrite elem_of_app, !list_elem_of_In, in_concat. split.
  - intros [H|(l & Hl & He)]; [by apply met_here, list_elem_of_In|].
    apply in_map_iff in Hl as (e' & <- & He'). apply list_elem_of_In in He, He'.
    eapply met_up; [exact He'|]. by apply IH.
  - inversion 1 as [? ? ? Hin|? ? ? e' Hin Hm]; subst; [left; by apply list_elem_of_In|].
    right. eexists. split; [apply in_map_iff; exists e'; split; [done|by apply list_elem_of_In]|].
    by apply list_elem_of_In, IH.
Qed.

Lemma TerminalNodes_perm (MR1 MR2 : MapRange) (g : CausalGraph) (chainID : string) :
  @TerminalNodes MR1 g chainID ≡ₚ @TerminalNodes MR2 g chainID.
Proof.
  unfold TerminalNodes.
  match goal with |- context [map fst (@map_range MR1 _ _ _ _ ?m)] =>
    assert (map fst (@map_range MR1 _ _ _ _ m) ≡ₚ map fst (@map_range MR2 _ _ _ _ m)) as Hp end.
  { apply Permutation_map. by rewrite !map_range_perm. }
  induction Hp as [|x l l' Hp IH|x y l|l1 l2 l3 _ IH1 _ IH2]; simpl; [done| | |by etransitivity].
  - destruct (negb _); [by constructor|done].
  - destruct (negb (bool_decide (x ∈ _))), (negb (bool_decide (y ∈ _))); try done. constructor.
Qed.

(** ** Decidable checks evaluated on the default graph *)

#[global] Instance CausalEdge_eq_dec : EqDecision CausalEdge.
Proof. solve_decision. Defined.

Definition edgeOK (g : CausalGraph) (e : CausalEdge) : bool :=
  bool_decide (is_Some (g_Nodes g !! ed_FromNode e))
  && bool_decide (is_Some (g_Nodes g !! ed_ToNode e))
  && bool_decide (ed_ChainID e ∈ g_ChainIDs g)
  && (0 <=? ed_MinLag e) && (ed_MinLag e <=? ed_MaxLag e)
  && flt f0 (ed_BaseConfidence e) && fle (ed_BaseConfidence e) f1.

Definition chainOK (g : CausalGraph) (depth : nat) (chainID : string) : bool :=
  match @TerminalNodes canonical_MapRange g chainID with
  | [t] =>
      bool_decide (Forall (fun e => e ∈ metEdges g chainID depth t) (EdgesForChain g chainID)
                   /\ Forall (fun e => e ∈ EdgesForChain g chainID) (metEdges g chainID depth t))
  | _ => false
  end.

Lemma default_edges_ok : forallb (edgeOK NewDefaultGraph) (g_Edges NewDefaultGraph) = true.
Proof. vm_compute. reflexivity. Qed.

Lemma default_chains_ok : forallb (chainOK NewDefaultGraph 5) AllChainIDs = true.
Proof. vm_compute. reflexivity. Qed.

(** ** The two chains that cannot be diagnosed *)

(** Edges of a chain whose effect node lists no metric. *)
Definition untriggerable (g : CausalGraph) (chainID : string) : bool :=
  forallb (fun e => negb (bool_decide (ed_ChainID e = chainID))
                    || match g_Nodes g !! ed_ToNode e with
                       | Some node => bool_decide (nd_MetricKeys node = [])
                       | None => true
                       end) (g_Edges g).

Lemma untriggerable_never {MR : MapRange} (g : CausalGraph) (chainID k : string) :
  untriggerable g chainID = true -> chainID ∉ ChainsForTrigger g k.
Proof.
  intros Hu Hin. rewrite ChainsForTrigger_eq in Hin.
  apply list_elem_of_fmap in Hin as (e & -> & He). apply dedup_key_elem in He.
  apply elem_of_filter_bool in He as [Ht He]. unfold untriggerable in Hu.
  rewrite forallb_forall in Hu. apply list_elem_of_In in He. specialize (Hu e He).
  rewrite bool_decide_true in Hu by done. simpl in Hu. unfold triggered in Ht.
  destruct (g_Nodes g !! ed_ToNode e) as [node|]; [|done].
  apply bool_decide_eq_true in Hu, Ht. rewrite Hu in Ht. by apply not_elem_of_nil in Ht.
Qed.

(** A required edge from a node without metrics has no evidence. *)
Lemma no_metrics_no_evidence (math_Exp : float64 -> float64) en e node i t w m :
  g_Nodes (en_graph en) !! ed_FromNode e = Some node -> nd_MetricKeys node = [] ->
  ed_Temporal e = BoundedLag -> ed_Evidence e = EvidenceRequired ->
  (evaluateEdge math_Exp en e i t w m).2 = false.
Proof.
  intros Hn Hk Ht He. unfold evaluateEdge. rewrite Hn, Ht, Hk. unfold noEvidence, searchWindow.
  simpl. by rewrite decide_True.
Qed.

(** ** The temporal weight *)

Definition sigmaOf (minLag maxLag : Duration) : float64 :=
  let half := fdiv (f_of_Z (i64 (maxLag - minLag))) (f_of_Z 2) in
  let halfWidth := if feq half f0 then f_of_Z (30 * Second) else half in
  fmul halfWidth (fconst 15 10).

Definition is_finite_nonzero (x : float64) : bool :=
  match x with S754_finite _ _ _ => true | _ => false end.

Lemma fabs_num x : num x -> num (fabs x).
Proof. by destruct x. Qed.

Lemma clamp_range (p : float64) :
  num p ->
  let p2 := if flt p (fconst 2 10) then fconst 2 10 else p in
  let p3 := if fgt p2 f1 then f1 else p2 in
  fle (fconst 2 10) p3 = true /\ fle p3 f1 = true.
Proof.
  intros Hp. cbv zeta. unfold fgt. destruct (flt p (fconst 2 10)) eqn:E1.
  { vm_compute. done. }
  apply flt_false in E1; [|done|done]. destruct (flt f1 p) eqn:E2; [vm_compute; done|].
  apply flt_false in E2; done.
Qed.

Lemma temporalProximity_range (math_Exp : float64 -> float64) (at_ tt : Time) (mn mx : Duration) :
  (forall x, num x -> num (math_Exp x)) -> is_finite_nonzero (sigmaOf mn mx) = true ->
  fle (fconst 2 10) (temporalProximity math_Exp at_ tt mn mx) = true /\
  fle (temporalProximity math_Exp at_ tt mn mx) f1 = true.
Proof.
  intros He Hs. unfold temporalProximity. fold (sigmaOf mn mx).
  destruct (sigmaOf mn mx) as [| | |s m e]; try done.
  set (x := fdiv _ (S754_finite s m e)).
  assert (num x) as Hx by apply fdiv_finite_num, fabs_num, f_of_Z_num.
  set (p0 := math_Exp _).
  assert (num p0) as H0.
  { apply He. assert (exists s m e, fconst (-5) 10 = S754_finite s m e) as (s' & m' & e' & ->)
      by (vm_compute; eauto).
    by apply fmul_scaled_square_num. }
  apply clamp_range. destruct ((mn <=? _) && _); [|done].
  apply fmul_num; [done|done| |]; by rewrite ?andb_false_r.
Qed.

Lemma default_sigmas : forallb (fun e => is_finite_nonzero (sigmaOf (ed_MinLag e) (ed_MaxLag e)))
  (g_Edges NewDefaultGraph) = true.
Proof. vm_compute. reflexivity. Qed.

(** ** Properties *)

(** The knowledge base is well formed: every edge joins declared nodes, belongs to a
    registered chain, has a proper lag interval and a base confidence in (0, 1]; and every
    registered chain has exactly one terminal node, the same for every map iteration order,
    from which a walk of the default depth meets exactly the edges of the chain. *)
Theorem default_graph_wellformed :
  (forall e, e ∈ g_Edges NewDefaultGraph -> edgeOK NewDefaultGraph e = true) /\
  forall chainID, chainID ∈ AllChainIDs ->
    exists t, (forall MR : MapRange, TerminalNodes NewDefaultGraph chainID = [t]) /\
      forall e, met NewDefaultGraph chainID (Z.to_nat (rc_MaxTraversalDepth DefaultRCAConfig)) t e
        <-> e ∈ EdgesForChain NewDefaultGraph chainID.
Proof.
  split.
  - intros e He. pose proof default_edges_ok as H. rewrite forallb_forall in H.
    by apply H, list_elem_of_In.
  - intros c Hc. pose proof default_chains_ok as H. rewrite forallb_forall in H.
    apply list_elem_of_In, H in Hc. clear H. unfold chainOK in Hc.
    destruct (@TerminalNodes canonical_MapRange NewDefaultGraph c) as [|t [|]] eqn:Et; try done.
    apply bool_decide_eq_true in Hc as [H1 H2]. rewrite !list.Forall_forall in H1, H2.
    exists t. split.
    + intros MR. apply Permutation_singleton_r. rewrite <- Et. apply TerminalNodes_perm.
    + intros e. rewrite <- metEdges_spec. split; [apply H2|apply H1].
Qed.

(** The settings-change chain is never a candidate. Its effect node lists no metric, so no
    trigger metric selects it, and the configuration evidence the engine implements for it is
    never looked at in an analysis of the default graph. *)
Theorem settings_chain_never_candidate {MR : MapRange} (triggerMetric : string) :
  ChainSettingsChangeBehavior ∉ ChainsForTrigger NewDefaultGraph triggerMetric.
Proof. apply untriggerable_never. vm_compute. reflexivity. Qed.

(** The network chain is never reported. Its root cause node lists no metric while its
    edge requires evidence, so with a depth bound of at least two the traversal always drops
    the chain, whatever anomalies were found. *)
Theorem network_chain_never_reported {SS : SliceSort} {MR : MapRange}
    (math_Exp : float64 -> float64) (en : Engine) (instanceID trigger : string) (t : Time)
    (w : TimeWindow) (m : gmap string (list AnomalyEvent)) :
  en_graph en = NewDefaultGraph -> 2 <= rc_MaxTraversalDepth (en_cfg en) ->
  traverseChain math_Exp en ChainNetworkWALRecvReplLag instanceID trigger t w m = None.
Proof.
  intros Hg Hd. destruct (traverseChain _ _ _ _ _ _ _ _) as [r|] eqn:Er; [|done]. exfalso.
  apply traverse_some in Er as (start & st & Hs & Hw & _ & _). rewrite Hg in Hs.
  apply startNode_in in Hs.
  assert (start = "replication_lag") as ->.
  { rewrite (TerminalNodes_perm MR canonical_MapRange) in Hs.
    assert (@TerminalNodes canonical_MapRange NewDefaultGraph ChainNetworkWALRecvReplLag
            = ["replication_lag"]) as HT by (vm_compute; reflexivity).
    rewrite HT in Hs.
    by apply list_elem_of_singleton in Hs. }
  pose proof (proj1 (walk_success math_Exp en ChainNetworkWALRecvReplLag instanceID t w m
    (Z.to_nat (rc_MaxTraversalDepth (en_cfg en))) "replication_lag" emptyWalk)) as H.
  cbv beta in H. rewrite Hw in H. specialize (H eq_refl edge_3_1). rewrite Hg in H.
  assert (killed (fun e => evaluateEdge math_Exp en e instanceID t w m) edge_3_1 = true) as Hk.
  { unfold killed. rewrite (no_metrics_no_evidence math_Exp en edge_3_1 node_network_issue);
      [done| |done|done|done]. rewrite Hg. vm_compute. reflexivity. }
  rewrite H in Hk; [done|].
  destruct (Z.to_nat (rc_MaxTraversalDepth (en_cfg en))) as [|[|left]] eqn:El; [lia|lia|].
  apply (met_up _ _ _ _ _ edge_3_2); change (ed_FromNode edge_3_2) with "wal_receiver_disconnect".
  - apply (list_elem_of_lookup_2 _ 0). vm_compute. reflexivity.
  - apply met_here, (list_elem_of_lookup_2 _ 0). vm_compute. reflexivity.
Qed.

(** The temporal weight of every edge of the knowledge base is a number between 0.2 and 1
    for all anomaly and trigger times, when [math.Exp] maps numbers to numbers. *)
Theorem temporal_weight_in_range (math_Exp : float64 -> float64) (e : CausalEdge)
    (anomalyTime triggerTime : Time) :
  (forall x, is_nan x = false -> is_nan (math_Exp x) = false) -> e ∈ g_Edges NewDefaultGraph ->
  let p := temporalProximity math_Exp anomalyTime triggerTime (ed_MinLag e) (ed_MaxLag e) in
  fle (fconst 2 10) p = true /\ fle p f1 = true.
Proof.
  intros Hexp He. apply temporalProximity_range; [done|].
  pose proof default_sigmas as H. rewrite forallb_forall in H. by apply (H e), list_elem_of_In.
Qed.

Lemma network_chain_never_reported_witness :
  @traverseChain insertion_SliceSort canonical_MapRange (fun _ => f1) demoEngine
    ChainNetworkWALRecvReplLag "db1" "pg.replication.lag.replay_bytes" 0 demoWindow demoAnomalies
    = None.
Proof.
  apply (@network_chain_never_reported insertion_SliceSort canonical_MapRange);
    [reflexivity|discriminate].
Defined.

Lemma temporal_weight_in_range_witness :
  fle (temporalProximity (fun _ => f1) (990 * Second) (1000 * Second) (ed_MinLag edge_1_1)
         (ed_MaxLag edge_1_1)) f1 = true.
Proof.
  assert (edge_1_1 ∈ g_Edges NewDefaultGraph) as Hin.
  { apply (list_elem_of_lookup_2 _ 0). vm_compute. reflexivity. }
  exact (proj2 (temporal_weight_in_range (fun _ => f1) edge_1_1 (990 * Second) (1000 * Second)
                  (fun _ _ => eq_refl) Hin)).
Defined.
