(* ===== verification/RcaTrigger.v ===== *)
(** * Automatic root cause analysis

    Models internal/rca/trigger.go: the alert hook that decides, under its mutex, whether an
    alert starts an analysis, with its severity threshold and its rate limit. *)
From S2P Require Import Prelude Float64 Metric Alert RcaGraph RcaOntology RcaEngine.

Local Open Scope Z_scope.

Record AutoTrigger := mkAutoTrigger {
  tr_cfg : RCAConfig;
  tr_lastFired : gmap string Time
}.

Definition NewAutoTrigger (cfg : RCAConfig) : AutoTrigger := mkAutoTrigger cfg ∅.

Definition severityRank (s : Severity) : Z :=
  if decide (s = SeverityInfo) then 1
  else if decide (s = SeverityWarning) then 2
  else if decide (s = SeverityCritical) then 3
  else 0.

Definition triggerKey (event : AlertEvent) : string := e_InstanceID event +:+ ":" +:+ e_Metric event.

(** What passes before the rate limit is looked at. *)
Definition qualifies (t : AutoTrigger) (event : AlertEvent) : bool :=
  negb (e_IsResolution event)
  && negb (severityRank (e_Severity event) <? severityRank (rc_AutoTriggerSeverity (tr_cfg t))).

(** [shouldTrigger]: [since] is the clock of [time.Since], [now] that of [time.Now]. *)
Definition shouldTrigger (t : AutoTrigger) (since now : Time) (event : AlertEvent)
    : AutoTrigger * bool :=
  if qualifies t event then
    let limited := match tr_lastFired t !! triggerKey event with
                   | Some last => time_Sub since last <? 15 * Minute
                   | None => false
                   end in
    if limited then (t, false)
    else (mkAutoTrigger (tr_cfg t) (<[triggerKey event := now]> (tr_lastFired t)), true)
  else (t, false).

(** The request that [fire] sends to the engine. *)
Definition fireRequest (event : AlertEvent) : AnalyzeRequest :=
  mkRequest (e_InstanceID event) (e_Metric event) (e_Value event) (e_FiredAt event) 0 "alert".

(** The hook over a sequence of dispatched alerts: the analyses it starts. The two clock
    readings of each call are given with the event. *)
Fixpoint runHook (t : AutoTrigger) (inputs : list (Time * Time * AlertEvent))
    : list (option AnalyzeRequest) :=
  match inputs with
  | [] => []
  | (since, now, event) :: inputs' =>
      let '(t', ok) := shouldTrigger t since now event in
      (if ok then Some (fireRequest event) else None) :: runHook t' inputs'
  end.

(** The mutex orders the calls: clock readings never go back. *)
Fixpoint ordered (from : Time) (inputs : list (Time * Time * AlertEvent)) : Prop :=
  match inputs with
  | [] => True
  | (since, now, _) :: inputs' => from <= since <= now /\ ordered now inputs'
  end.

Lemma time_Sub_ge (t u : Time) (d : Duration) :
  0 <= d <= max_i64 -> time_Sub t u <? d = false -> u + d <= t.
Proof. unfold time_Sub, min_i64, max_i64. intros Hd H. zb. lia. Qed.

Lemma severityRank_resolution t e : qualifies t e = true -> e_IsResolution e = false.
Proof. unfold qualifies. destruct (e_IsResolution e); done. Qed.

(** No analysis under the key of [last] before it is fifteen minutes old. *)
Lemma runHook_after inputs : forall t k last from j since now ev,
  tr_lastFired t !! k = Some last -> last <= from -> ordered from inputs ->
  inputs !! j = Some (since, now, ev) -> triggerKey ev = k ->
  runHook t inputs !! j = Some (Some (fireRequest ev)) -> last + 15 * Minute <= since.
Proof.
  induction inputs as [|[[s0 n0] e0] inputs IH]; intros t k last from j since now ev Hk Hl Ho Hj Hkey Hr;
    [done|].
  destruct Ho as [Hs Ho]. cbn [runHook] in Hr.
  unfold shouldTrigger in Hr. destruct (qualifies t e0) eqn:Eq.
  2: { destruct j as [|j]; [done|]. by apply (IH t k last n0 j since now ev); try lia. }
  destruct (tr_lastFired t !! triggerKey e0) as [l0|] eqn:El.
  - destruct (time_Sub s0 l0 <? 15 * Minute) eqn:E.
    { destruct j as [|j]; [done|]. by apply (IH t k last n0 j since now ev); try lia. }
    apply time_Sub_ge in E; [|done].
    destruct j as [|j]; simpl in Hj.
    { injection Hj as -> -> ->. rewrite Hkey, Hk in El. injection El as ->. done. }
    destruct (decide (triggerKey e0 = k)) as [Heq|Hne].
    + rewrite Heq, Hk in El. injection El as ->.
      assert (n0 + 15 * Minute <= since); [|unfold Minute, Second in *; lia].
      apply (IH (mkAutoTrigger (tr_cfg t) (<[triggerKey e0:=n0]> (tr_lastFired t))) k n0 n0 j since
               now ev); try done. simpl. rewrite Heq. apply lookup_insert_eq.
    + apply (IH (mkAutoTrigger (tr_cfg t) (<[triggerKey e0:=n0]> (tr_lastFired t))) k last n0 j since
               now ev); try done; [|lia]. simpl. by rewrite lookup_insert_ne.
  - destruct j as [|j]; simpl in Hj.
    { injection Hj as -> -> ->. congruence. }
    apply (IH (mkAutoTrigger (tr_cfg t) (<[triggerKey e0:=n0]> (tr_lastFired t))) k last n0 j since
             now ev); try done; [|lia]. simpl. rewrite lookup_insert_ne; [done|congruence].
Qed.

Lemma runHook_gap inputs : forall t from i j si ni ei sj nj ej,
  ordered from inputs -> (i < j)%nat ->
  inputs !! i = Some (si, ni, ei) -> inputs !! j = Some (sj, nj, ej) ->
  triggerKey ei = triggerKey ej ->
  runHook t inputs !! i = Some (Some (fireRequest ei)) ->
  runHook t inputs !! j = Some (Some (fireRequest ej)) -> ni + 15 * Minute <= sj.
Proof.
  induction inputs as [|[[s0 n0] e0] inputs IH]; intros t from i j si ni ei sj nj ej Ho Hij Hi Hj Hk Ri Rj;
    [done|].
  destruct Ho as [Hs Ho]. cbn [runHook] in Ri, Rj. destruct j as [|j]; [lia|]. simpl in Hj.
  destruct i as [|i]; simpl in Hi.
  - injection Hi as -> -> ->. destruct (shouldTrigger t si ni ei) as [t' ok] eqn:E.
    destruct ok; [|done]. unfold shouldTrigger in E.
    destruct (qualifies t ei); [|done].
    assert (tr_lastFired t' !! triggerKey ej = Some ni) as Hl.
    { rewrite <- Hk. destruct (tr_lastFired t !! triggerKey ei);
        [destruct (_ <? _); [done|]|]; injection E as <-; apply lookup_insert_eq. }
    simpl in Rj. by apply (runHook_after inputs t' (triggerKey ej) ni ni j sj nj ej).
  - destruct (shouldTrigger t s0 n0 e0) as [t' ok]. simpl in Ri, Rj.
    apply (IH t' n0 i j si ni ei sj nj ej); try done. lia.
Qed.

Lemma runHook_qualifies inputs : forall t i since now ev req,
  inputs !! i = Some (since, now, ev) -> runHook t inputs !! i = Some (Some req) ->
  req = fireRequest ev /\ qualifies t ev = true.
Proof.
  induction inputs as [|[[s0 n0] e0] inputs IH]; intros t i since now ev req Hi Hr; [done|].
  cbn [runHook] in Hr. destruct (shouldTrigger t s0 n0 e0) as [t' ok] eqn:E.
  assert (tr_cfg t' = tr_cfg t) as Hc.
  { unfold shouldTrigger in E. destruct (qualifies t e0); [|by injection E as <- <-].
    destruct (match _ with Some _ => _ | None => _ end); by injection E as <- <-. }
  destruct i as [|i]; simpl in Hi, Hr.
  - injection Hi as -> -> ->. destruct ok; [|done]. injection Hr as <-. split; [done|].
    unfold shouldTrigger in E. by destruct (qualifies t ev).
  - destruct (IH t' i since now ev req Hi Hr) as [-> Hq]. split; [done|].
    unfold qualifies in *. by rewrite Hc in Hq.
Qed.

(** ** Properties *)

(** Automatic analyses are rate limited. Over any sequence of alerts handled by the hook,
    an analysis is started only for a firing alert of at least the configured severity, with
    that alert's instance, metric and time, and two analyses for the same instance and metric
    are started at least fifteen minutes apart. *)
Theorem auto_trigger_rate_limited (t : AutoTrigger) (from : Time)
    (inputs : list (Time * Time * AlertEvent)) (i j : nat) si ni ei sj nj ej ri rj :
  ordered from inputs -> (i < j)%nat ->
  inputs !! i = Some (si, ni, ei) -> inputs !! j = Some (sj, nj, ej) ->
  runHook t inputs !! i = Some (Some ri) -> runHook t inputs !! j = Some (Some rj) ->
  triggerKey ei = triggerKey ej ->
  ni + 15 * Minute <= sj /\ ri = fireRequest ei /\ rj = fireRequest ej /\
  qualifies t ei = true /\ qualifies t ej = true.
Proof.
  intros Ho Hij Hi Hj Ri Rj Hk.
  destruct (runHook_qualifies _ _ _ _ _ _ _ Hi Ri) as [-> Qi].
  destruct (runHook_qualifies _ _ _ _ _ _ _ Hj Rj) as [-> Qj].
  split; [|done]. by apply (runHook_gap inputs t from i j si ni ei sj nj ej).
Qed.

Definition demoAlert (sev : Severity) (resolution : bool) : AlertEvent :=
  mkAlertEvent 1 "r" "" "db1" sev f1 f0 OpGreater "m" ∅ [] 0 None resolution [].

Definition demoInputs : list (Time * Time * AlertEvent) :=
  [(0, 1, demoAlert SeverityCritical false); (2, 3, demoAlert SeverityCritical false);
   (4, 5, demoAlert SeverityWarning false);
   (15 * Minute + 1, 15 * Minute + 2, demoAlert SeverityCritical false)].

Lemma auto_trigger_rate_limited_witness :
  runHook (NewAutoTrigger DefaultRCAConfig) demoInputs
    = [Some (fireRequest (demoAlert SeverityCritical false)); None; None;
       Some (fireRequest (demoAlert SeverityCritical false))]
  /\ 1 + 15 * Minute <= 15 * Minute + 1.
Proof.
  split; [reflexivity|].
  refine (proj1 (auto_trigger_rate_limited (NewAutoTrigger DefaultRCAConfig) 0 demoInputs 0 3
    0 1 (demoAlert SeverityCritical false) (15 * Minute + 1) (15 * Minute + 2)
    (demoAlert SeverityCritical false) (fireRequest (demoAlert SeverityCritical false))
    (fireRequest (demoAlert SeverityCritical false)) _ _ eq_refl eq_refl eq_refl eq_refl eq_refl)).
  - unfold demoInputs, ordered, Minute, Second. lia.
  - lia.
Defined.
