(* ===== verification/Statements.v ===== *)
(** * Statement snapshots: diff, query insight and workload report

    Models internal/statements/types.go, internal/statements/diff.go,
    internal/statements/insights.go and internal/statements/report.go. Counters are int64 with
    wrap-around, times are binary64, object ids stay below 2^32. *)
From stdpp Require Import pretty.
From S2P Require Import Prelude Float64 Metric.

Local Open Scope Z_scope.

(** ** types.go *)

Record Snapshot := mkSnapshot {
  sn_ID : Z;
  sn_InstanceID : string;
  sn_CapturedAt : Time;
  sn_PGVersion : Z;
  sn_StatsReset : option Time;
  sn_TotalStatements : Z;
  sn_TotalCalls : Z;
  sn_TotalExecTime : float64
}.

Record SnapshotEntry := mkSnapshotEntry {
  se_SnapshotID : Z;
  se_QueryID : Z;
  se_UserID : Z;
  se_DbID : Z;
  se_DatabaseName : string;
  se_UserName : string;
  se_Query : string;
  se_Calls : Z;
  se_TotalExecTime : float64;
  se_TotalPlanTime : option float64;
  se_Rows : Z;
  se_SharedBlksHit : Z;
  se_SharedBlksRead : Z;
  se_SharedBlksDirtied : Z;
  se_SharedBlksWritten : Z;
  se_LocalBlksHit : Z;
  se_LocalBlksRead : Z;
  se_TempBlksRead : Z;
  se_TempBlksWritten : Z;
  se_BlkReadTime : float64;
  se_BlkWriteTime : float64;
  se_WALRecords : option Z;
  se_WALFpi : option Z;
  se_WALBytes : option float64;
  se_MeanExecTime : option float64;
  se_MinExecTime : option float64;
  se_MaxExecTime : option float64;
  se_StddevExecTime : option float64
}.

Record DiffEntry := mkDiffEntry {
  de_QueryID : Z;
  de_UserID : Z;
  de_DbID : Z;
  de_Query : string;
  de_DatabaseName : string;
  de_UserName : string;
  de_CallsDelta : Z;
  de_ExecTimeDelta : float64;
  de_PlanTimeDelta : option float64;
  de_RowsDelta : Z;
  de_SharedBlksReadDelta : Z;
  de_SharedBlksHitDelta : Z;
  de_TempBlksReadDelta : Z;
  de_TempBlksWrittenDelta : Z;
  de_BlkReadTimeDelta : float64;
  de_BlkWriteTimeDelta : float64;
  de_WALBytesDelta : option float64;
  de_AvgExecTimePerCall : float64;
  de_IOTimePct : float64;
  de_CPUTimeDelta : float64;
  de_SharedHitRatio : float64
}.

Record DiffResult := mkDiffResult {
  dr_FromSnapshot : Snapshot;
  dr_ToSnapshot : Snapshot;
  dr_StatsResetWarning : bool;
  dr_Duration : Duration;
  dr_DurationStr : string;
  dr_TotalCallsDelta : Z;
  dr_TotalExecTimeDelta : float64;
  dr_Entries : list DiffEntry;
  dr_NewQueries : list DiffEntry;
  dr_EvictedQueries : list DiffEntry;
  dr_TotalEntries : Z
}.

Record QueryInsightPoint := mkInsightPoint {
  ip_CapturedAt : Time;
  ip_CallsDelta : Z;
  ip_ExecTimeDelta : float64;
  ip_RowsDelta : Z;
  ip_AvgExecTime : float64;
  ip_SharedHitRatio : float64
}.

Record QueryInsight := mkInsight {
  qi_QueryID : Z;
  qi_Query : string;
  qi_DatabaseName : string;
  qi_UserName : string;
  qi_FirstSeen : Time;
  qi_Points : list QueryInsightPoint
}.

Record ReportSummary := mkSummary {
  rs_TotalQueries : Z;
  rs_TotalCallsDelta : Z;
  rs_TotalExecTimeDelta : float64;
  rs_TotalRowsDelta : Z;
  rs_UniqueQueries : Z;
  rs_NewQueries : Z;
  rs_EvictedQueries : Z
}.

Record WorkloadReport := mkReport {
  wr_InstanceID : string;
  wr_FromTime : Time;
  wr_ToTime : Time;
  wr_Duration : string;
  wr_StatsResetWarning : bool;
  wr_Summary : ReportSummary;
  wr_TopByExecTime : list DiffEntry;
  wr_TopByCalls : list DiffEntry;
  wr_TopByRows : list DiffEntry;
  wr_TopByIOReads : list DiffEntry;
  wr_TopByAvgTime : list DiffEntry;
  wr_NewQueries : list DiffEntry;
  wr_EvictedQueries : list DiffEntry
}.

Record DiffOptions := mkDiffOptions {
  do_SortBy : string;
  do_Limit : Z;
  do_Offset : Z
}.

(** ** diff.go *)

(** [entryKey]: query, database and user. *)
Definition entryKey (e : SnapshotEntry) : Z * Z * Z := (se_QueryID e, se_DbID e, se_UserID e).

Definition safeDivFloat (num denom : float64) : float64 :=
  if feq denom f0 then f0 else fdiv num denom.

Definition statsResetDetected (from to : option Time) : bool :=
  match from, to with
  | None, None => false
  | Some a, Some b => negb (time_Equal a b)
  | _, _ => true
  end.

Definition formatDuration (d0 : Duration) : string :=
  let d := if d0 <? 0 then i64 (- d0) else d0 in
  let totalMinutes := f_trunc (dur_Minutes d) in
  if totalMinutes =? 0 then "< 1m"
  else
    let days := Z.quot totalMinutes (60 * 24) in
    let hours := Z.rem (Z.quot totalMinutes 60) 24 in
    let minutes := Z.rem totalMinutes 60 in
    let s := (if 0 <? days then pretty days +:+ "d " else "") +:+
             (if 0 <? hours then pretty hours +:+ "h " else "") +:+
             (if 0 <? minutes then pretty minutes +:+ "m" else "") in
    if decide (s = "") then "< 1m"
    else if decide (String.get (String.length s - 1) s = Some space_char)
         then String.substring 0 (String.length s - 1) s
         else s.

(** The derived fields that both kinds of delta share. *)
Definition cpuDelta (exec io : float64) : float64 :=
  let c := fsub exec io in if flt c f0 then f0 else c.

Definition hitRatio (hit read : Z) : float64 :=
  safeDivFloat (fmul (f_of_Z hit) (f_of_Z 100)) (f_of_Z (i64 (hit + read))).

Definition optDelta (from to : option float64) : option float64 :=
  match from, to with Some a, Some b => Some (fsub b a) | _, _ => None end.

Definition computeEntryDelta (from to : SnapshotEntry) : DiffEntry :=
  let callsDelta := i64 (se_Calls to - se_Calls from) in
  let execDelta := fsub (se_TotalExecTime to) (se_TotalExecTime from) in
  let rowsDelta := i64 (se_Rows to - se_Rows from) in
  let blkReadDelta := i64 (se_SharedBlksRead to - se_SharedBlksRead from) in
  let blkHitDelta := i64 (se_SharedBlksHit to - se_SharedBlksHit from) in
  let tempReadDelta := i64 (se_TempBlksRead to - se_TempBlksRead from) in
  let tempWrittenDelta := i64 (se_TempBlksWritten to - se_TempBlksWritten from) in
  let blkReadTimeDelta := fsub (se_BlkReadTime to) (se_BlkReadTime from) in
  let blkWriteTimeDelta := fsub (se_BlkWriteTime to) (se_BlkWriteTime from) in
  let ioTime := fadd blkReadTimeDelta blkWriteTimeDelta in
  mkDiffEntry (se_QueryID to) (se_UserID to) (se_DbID to) (se_Query to) (se_DatabaseName to)
    (se_UserName to) callsDelta execDelta (optDelta (se_TotalPlanTime from) (se_TotalPlanTime to))
    rowsDelta blkReadDelta blkHitDelta tempReadDelta tempWrittenDelta blkReadTimeDelta
    blkWriteTimeDelta (optDelta (se_WALBytes from) (se_WALBytes to))
    (safeDivFloat execDelta (f_of_Z callsDelta))
    (safeDivFloat (fmul ioTime (f_of_Z 100)) execDelta)
    (cpuDelta execDelta ioTime) (hitRatio blkHitDelta blkReadDelta).

Definition entryAsDelta (e : SnapshotEntry) : DiffEntry :=
  let ioTime := fadd (se_BlkReadTime e) (se_BlkWriteTime e) in
  mkDiffEntry (se_QueryID e) (se_UserID e) (se_DbID e) (se_Query e) (se_DatabaseName e)
    (se_UserName e) (se_Calls e) (se_TotalExecTime e) (se_TotalPlanTime e) (se_Rows e)
    (se_SharedBlksRead e) (se_SharedBlksHit e) (se_TempBlksRead e) (se_TempBlksWritten e)
    (se_BlkReadTime e) (se_BlkWriteTime e) (se_WALBytes e)
    (safeDivFloat (se_TotalExecTime e) (f_of_Z (se_Calls e)))
    (safeDivFloat (fmul ioTime (f_of_Z 100)) (se_TotalExecTime e))
    (cpuDelta (se_TotalExecTime e) ioTime) (hitRatio (se_SharedBlksHit e) (se_SharedBlksRead e)).

(** The comparison [sortEntries] sorts by: larger first. *)
Definition sortsBefore (sortBy : string) (a b : DiffEntry) : bool :=
  if decide (sortBy = "calls") then de_CallsDelta b <? de_CallsDelta a
  else if decide (sortBy = "rows") then de_RowsDelta b <? de_RowsDelta a
  else if decide (sortBy = "shared_blks_read")
       then de_SharedBlksReadDelta b <? de_SharedBlksReadDelta a
  else if decide (sortBy = "avg_exec_time")
       then fgt (de_AvgExecTimePerCall a) (de_AvgExecTimePerCall b)
  else fgt (de_ExecTimeDelta a) (de_ExecTimeDelta b).

Definition sortEntries {SS : SliceSort} (entries : list DiffEntry) (sortBy : string)
    : list DiffEntry :=
  sort_slice (sortsBefore sortBy) entries.

Definition indexEntries (entries : list SnapshotEntry) : gmap (Z * Z * Z) SnapshotEntry :=
  foldl (fun m e => <[entryKey e := e]> m) ∅ entries.

(** One iteration of the loop over the "to" entries. *)
Definition diffStep (acc : gmap (Z * Z * Z) SnapshotEntry * list DiffEntry * list DiffEntry)
    (te : SnapshotEntry) : gmap (Z * Z * Z) SnapshotEntry * list DiffEntry * list DiffEntry :=
  let '(fromMap, entries, news) := acc in
  match fromMap !! entryKey te with
  | Some fe => (delete (entryKey te) fromMap, entries ++ [computeEntryDelta fe te], news)
  | None => (fromMap, entries, news ++ [entryAsDelta te])
  end.

Definition sumCalls (init : Z) (entries : list DiffEntry) : Z :=
  foldl (fun t e => i64 (t + de_CallsDelta e)) init entries.

Definition sumExec (init : float64) (entries : list DiffEntry) : float64 :=
  foldl (fun t e => fadd t (de_ExecTimeDelta e)) init entries.

Definition paginate (offset limit : Z) (entries : list DiffEntry) : list DiffEntry :=
  let afterOffset :=
    if (0 <? offset) && (offset <? len entries) then slice_from offset entries
    else if len entries <=? offset then [] else entries in
  if (0 <? limit) && (limit <? len afterOffset) then slice_to limit afterOffset else afterOffset.

Definition ComputeDiff {SS : SliceSort} {MR : MapRange} (from to : Snapshot)
    (fromEntries toEntries : list SnapshotEntry) (opts : DiffOptions) : DiffResult :=
  let dur := time_Sub (sn_CapturedAt to) (sn_CapturedAt from) in
  let '(fromMap, entries, news) := foldl diffStep (indexEntries fromEntries, [], []) toEntries in
  let evicted := map (fun kv => entryAsDelta kv.2) (map_range fromMap) in
  let calls := sumCalls (sumCalls 0 entries) news in
  let exec := sumExec (sumExec f0 entries) news in
  let sorted := sortEntries entries (do_SortBy opts) in
  mkDiffResult from to (statsResetDetected (sn_StatsReset from) (sn_StatsReset to)) dur
    (formatDuration dur) calls exec (paginate (do_Offset opts) (do_Limit opts) sorted) news
    evicted (len sorted).

(** ** insights.go *)

Definition insightPoint (prev curr : SnapshotEntry) (capturedAt : Time) : QueryInsightPoint :=
  let callsDelta := i64 (se_Calls curr - se_Calls prev) in
  let execDelta := fsub (se_TotalExecTime curr) (se_TotalExecTime prev) in
  let reset := (callsDelta <? 0) || flt execDelta f0 in
  let pick (d v : Z) := if reset then v else d in
  let calls := pick callsDelta (se_Calls curr) in
  let exec := if reset then se_TotalExecTime curr else execDelta in
  let hit := pick (i64 (se_SharedBlksHit curr - se_SharedBlksHit prev)) (se_SharedBlksHit curr) in
  let read := pick (i64 (se_SharedBlksRead curr - se_SharedBlksRead prev))
                (se_SharedBlksRead curr) in
  mkInsightPoint capturedAt calls exec
    (pick (i64 (se_Rows curr - se_Rows prev)) (se_Rows curr))
    (safeDivFloat exec (f_of_Z calls)) (hitRatio hit read).

(** The loop from the second entry on; a missing snapshot leaves the zero time. *)
Fixpoint insightPoints (prev : SnapshotEntry) (entries : list SnapshotEntry)
    (snapshots : list Snapshot) : list QueryInsightPoint :=
  match entries with
  | [] => []
  | curr :: entries' =>
      let at_ := match snapshots with s :: _ => sn_CapturedAt s | [] => zero_time end in
      insightPoint prev curr at_ :: insightPoints curr entries' (tail snapshots)
  end.

Definition BuildQueryInsight (entries : list SnapshotEntry) (snapshots : list Snapshot)
    : option QueryInsight :=
  match entries, snapshots with
  | e0 :: entries', s0 :: snapshots' =>
      Some (mkInsight (se_QueryID e0) (se_Query e0) (se_DatabaseName e0) (se_UserName e0)
              (sn_CapturedAt s0) (insightPoints e0 entries' snapshots'))
  | _, _ => None
  end.

(** ** report.go

    [topNBySorter] sorts a copy of [allEntries] with a comparison that reads the entries at
    the two positions in [allEntries] itself, which the sort does not move. Its outcome depends
    on the swaps the sort makes, so this part follows the standard library's insertion sort,
    which sort.Slice runs on at most twelve entries; longer slices are a parameter. *)

(** Position [j] moves left while [less j (j - 1)]. *)
Fixpoint sift {A} (less : nat -> nat -> bool) (j : nat) (l : list A) : list A :=
  match j with
  | O => l
  | S j' =>
      if less j j' then
        match l !! j, l !! j' with
        | Some x, Some y => sift less j' (<[j' := x]> (<[j := y]> l))
        | _, _ => l
        end
      else l
  end.

Definition insertionSort_positions {A} (less : nat -> nat -> bool) (l : list A) : list A :=
  foldl (fun l i => sift less i l) l (seq 1 (length l - 1)).

Section report.
(** sort.Slice on more than twelve entries. *)
Context (sortLong : forall A : Type, (nat -> nat -> bool) -> list A -> list A).

Definition sortSlice_positions {A} (less : nat -> nat -> bool) (l : list A) : list A :=
  if len l <=? 12 then insertionSort_positions less l else sortLong A less l.

Definition topNBySorter (entries : list DiffEntry) (topN : Z) (less : nat -> nat -> bool)
    : list DiffEntry :=
  let sorted := sortSlice_positions less entries in
  if topN <? len sorted then slice_to topN sorted else sorted.

(** The closure [func(i, j int) bool] over [allEntries]. *)
Definition byPosition (before : DiffEntry -> DiffEntry -> bool) (allEntries : list DiffEntry)
    (i j : nat) : bool :=
  match allEntries !! i, allEntries !! j with
  | Some a, Some b => before a b
  | _, _ => false
  end.

Definition sumRows (entries : list DiffEntry) : Z :=
  foldl (fun t e => i64 (t + de_RowsDelta e)) 0 entries.

Definition emptyReport : WorkloadReport :=
  mkReport "" zero_time zero_time "" false (mkSummary 0 0 f0 0 0 0 0) [] [] [] [] [] [] [].

Definition GenerateReport (diff0 : option DiffResult) (topN0 : Z) : WorkloadReport :=
  match diff0 with
  | None => emptyReport
  | Some diff =>
      let topN := if topN0 <=? 0 then 20 else topN0 in
      let allEntries := dr_Entries diff ++ dr_NewQueries diff in
      let top before := topNBySorter allEntries topN (byPosition before allEntries) in
      mkReport "" (sn_CapturedAt (dr_FromSnapshot diff)) (sn_CapturedAt (dr_ToSnapshot diff))
        (dr_DurationStr diff) (dr_StatsResetWarning diff)
        (mkSummary (dr_TotalEntries diff + len (dr_NewQueries diff)) (dr_TotalCallsDelta diff)
           (dr_TotalExecTimeDelta diff) (sumRows allEntries) (dr_TotalEntries diff)
           (len (dr_NewQueries diff)) (len (dr_EvictedQueries diff)))
        (top (sortsBefore "")) (top (sortsBefore "calls")) (top (sortsBefore "rows"))
        (top (sortsBefore "shared_blks_read")) (top (sortsBefore "avg_exec_time"))
        (dr_NewQueries diff) (dr_EvictedQueries diff)
  end.

End report.

(** ** The index and the loop *)

Definition findKey (k : Z * Z * Z) (l : list SnapshotEntry) : option SnapshotEntry :=
  List.find (fun e => bool_decide (entryKey e = k)) l.

Lemma indexEntries_snoc l e : indexEntries (l ++ [e]) = <[entryKey e := e]> (indexEntries l).
Proof. unfold indexEntries. by rewrite foldl_app. Qed.

Lemma indexEntries_elem (l : list SnapshotEntry) k e :
  NoDup (map entryKey l) -> indexEntries l !! k = Some e <-> e ∈ l /\ entryKey e = k.
Proof.
  induction l as [|x l IH] using rev_ind; intros Hnd.
  { unfold indexEntries. simpl. rewrite lookup_empty. set_solver. }
  rewrite map_app in Hnd. apply NoDup_app in Hnd as (Hl & Hx & _).
  rewrite indexEntries_snoc, lookup_insert_Some, IH by done.
  rewrite elem_of_app, list_elem_of_singleton. split; [naive_solver|].
  intros [[He| ->] Hk]; [|by left]. right. split; [|done]. intros Heq.
  apply (Hx (entryKey e)); [by apply list_elem_of_fmap_2|].
  simpl. rewrite Hk, <- Heq. by left.
Qed.

Lemma findKey_elem (l : list SnapshotEntry) k e :
  NoDup (map entryKey l) -> findKey k l = Some e <-> e ∈ l /\ entryKey e = k.
Proof.
  unfold findKey. intros Hnd. split.
  - intros H. apply find_some in H as [H1 H2]. apply bool_decide_eq_true in H2.
    by apply list_elem_of_In in H1.
  - induction l as [|x l IH]; [set_solver|]. simpl in *. apply NoDup_cons in Hnd as [Hx Hnd].
    rewrite elem_of_cons. intros [[->|He] Hk].
    + by rewrite bool_decide_true.
    + rewrite bool_decide_false; [by apply IH|]. intros Heq. apply Hx. rewrite Heq, <- Hk.
      by apply list_elem_of_fmap_2.
Qed.

Lemma indexEntries_find (l : list SnapshotEntry) k :
  NoDup (map entryKey l) -> indexEntries l !! k = findKey k l.
Proof.
  intros Hnd. apply option_eq. intros e. by rewrite indexEntries_elem, findKey_elem.
Qed.

Definition continuing (look : Z * Z * Z -> option SnapshotEntry) (l : list SnapshotEntry)
    : list DiffEntry :=
  omap (fun te => option_map (fun fe => computeEntryDelta fe te) (look (entryKey te))) l.

Definition fresh (look : Z * Z * Z -> option SnapshotEntry) (l : list SnapshotEntry)
    : list DiffEntry :=
  map entryAsDelta (List.filter (fun te => bool_decide (look (entryKey te) = None)) l).

Lemma omap_ext_in {A B} (f g : A -> option B) (l : list A) :
  (forall x, x ∈ l -> f x = g x) -> omap f l = omap g l.
Proof.
  induction l as [|x l IH]; intros H; [done|]. csimpl. rewrite (H x) by by left.
  destruct (g x); [f_equal|]; apply IH; intros y Hy; apply H; by right.
Qed.

Lemma filter_ext_elem {A} (f g : A -> bool) (l : list A) :
  (forall x, x ∈ l -> f x = g x) -> List.filter f l = List.filter g l.
Proof. intros H. apply filter_ext_in. intros x Hx. by apply H, list_elem_of_In. Qed.

Lemma continuing_ext look look' (l : list SnapshotEntry) :
  (forall x, x ∈ l -> look (entryKey x) = look' (entryKey x)) ->
  continuing look l = continuing look' l.
Proof. intros H. apply omap_ext_in. intros x Hx. by rewrite H. Qed.

Lemma fresh_ext look look' (l : list SnapshotEntry) :
  (forall x, x ∈ l -> look (entryKey x) = look' (entryKey x)) -> fresh look l = fresh look' l.
Proof. intros H. unfold fresh. f_equal. apply filter_ext_elem. intros x Hx. by rewrite H. Qed.

Lemma diffSteps (l : list SnapshotEntry) : forall m es ns,
  NoDup (map entryKey l) ->
  exists m', foldl diffStep (m, es, ns) l
      = (m', es ++ continuing (fun k => m !! k) l, ns ++ fresh (fun k => m !! k) l) /\
    forall k e, m' !! k = Some e <-> m !! k = Some e /\ k ∉ map entryKey l.
Proof.
  induction l as [|te l IH]; intros m es ns Hnd; simpl.
  { exists m. rewrite !app_nil_r. set_solver. }
  apply NoDup_cons in Hnd as [Hte Hnd].
  assert (forall te', te' ∈ l -> entryKey te' <> entryKey te) as Hne.
  { intros te' Hin Heq. apply Hte. rewrite <- Heq. by apply list_elem_of_fmap_2. }
  destruct (m !! entryKey te) as [fe|] eqn:Em.
  - destruct (IH (delete (entryKey te) m) (es ++ [computeEntryDelta fe te]) ns Hnd)
      as (m' & -> & Hm'). exists m'.
    assert (forall x, x ∈ l -> delete (entryKey te) m !! entryKey x = m !! entryKey x) as Hd.
    { intros x Hx. apply lookup_delete_ne. intros Heq. by apply (Hne x Hx). }
    rewrite (continuing_ext _ (fun k => m !! k) l Hd), (fresh_ext _ (fun k => m !! k) l Hd).
    unfold continuing, fresh. csimpl. rewrite Em. rewrite bool_decide_false by done. simpl. split.
    + by rewrite <- app_assoc.
    + intros k e. rewrite Hm', lookup_delete_Some, not_elem_of_cons. naive_solver.
  - destruct (IH m es (ns ++ [entryAsDelta te]) Hnd) as (m' & -> & Hm'). exists m'.
    unfold continuing, fresh. csimpl. rewrite Em. rewrite bool_decide_true by done. simpl. split.
    + by rewrite <- (app_assoc ns).
    + intros k e. rewrite Hm', not_elem_of_cons. split; [|naive_solver].
      intros [Hk Hn]. split; [done|]. split; [congruence|done].
Qed.

Lemma NoDup_map_inv {A B} (f : A -> B) (l : list A) : NoDup (map f l) -> NoDup l.
Proof.
  induction l as [|x l IH]; simpl; [constructor|]. intros H. apply NoDup_cons in H as [Hx Hl].
  constructor; [|by apply IH]. intros Hin. apply Hx. by apply list_elem_of_fmap_2.
Qed.

Lemma NoDup_filter_bool {A} (f : A -> bool) (l : list A) : NoDup l -> NoDup (List.filter f l).
Proof. rewrite !NoDup_ListNoDup. apply List.NoDup_filter. Qed.

Lemma evicted_perm {MR : MapRange} (m : gmap (Z * Z * Z) SnapshotEntry) from to :
  NoDup (map entryKey from) ->
  (forall k e, m !! k = Some e <-> indexEntries from !! k = Some e /\ k ∉ map entryKey to) ->
  map (fun kv => entryAsDelta kv.2) (map_range m)
    ≡ₚ map entryAsDelta (List.filter (fun e => bool_decide (findKey (entryKey e) to = None)) from).
Proof.
  intros Hnd Hm. rewrite map_range_perm, <- (map_map snd entryAsDelta). apply Permutation_map.
  assert (forall e, findKey (entryKey e) to = None <-> entryKey e ∉ map entryKey to) as Hf.
  { intros e. unfold findKey. split.
    - intros H Hin. apply list_elem_of_fmap in Hin as (x & Hx & Hin).
      apply list_elem_of_In in Hin. pose proof (find_none _ _ H x Hin) as Hd.
      apply bool_decide_eq_false in Hd. congruence.
    - intros H. destruct (List.find _ to) as [x|] eqn:E; [|done]. exfalso. apply H.
      apply find_some in E as [E1 E2]. apply bool_decide_eq_true in E2. rewrite <- E2.
      by apply list_elem_of_fmap_2, list_elem_of_In. }
  apply NoDup_Permutation.
  - apply (NoDup_map_inv entryKey). rewrite map_map.
    assert (forall kv, kv ∈ map_to_list m -> entryKey kv.2 = kv.1) as Hk.
    { intros [k e] Hin. apply elem_of_map_to_list, Hm in Hin as [Hin _].
      simpl. by apply indexEntries_elem in Hin as [_ ->]. }
    assert (map (fun kv => entryKey kv.2) (map_to_list m) = (map_to_list m).*1) as ->.
    { apply map_ext_in. intros kv Hin. by apply Hk, list_elem_of_In. }
    apply NoDup_fst_map_to_list.
  - by apply NoDup_filter_bool, (NoDup_map_inv entryKey).
  - intros e. rewrite elem_of_filter_bool, bool_decide_eq_true, Hf. split.
    + intros Hin. apply list_elem_of_fmap in Hin as ([k x] & -> & Hin).
      apply elem_of_map_to_list, Hm in Hin as [Hin Hn].
      apply indexEntries_elem in Hin as [Hin <-]; done.
    + intros [Hn Hin]. apply list_elem_of_fmap. exists (entryKey e, e). split; [done|].
      apply elem_of_map_to_list, Hm. split; [|done]. by apply indexEntries_elem.
Qed.

(** ** Totals and pages *)

Definition zsum (l : list Z) : Z := foldr Z.add 0 l.

Lemma i64_add_l (a b : Z) : i64 (i64 a + b) = i64 (a + b).
Proof.
  unfold i64. f_equal. 
  replace ((a + 2 ^ 63) mod 2 ^ 64 - 2 ^ 63 + b + 2 ^ 63)
    with ((a + 2 ^ 63) mod 2 ^ 64 + b) by lia.
  rewrite Zplus_mod_idemp_l. f_equal. lia.
Qed.

Lemma i64_add_r (a b : Z) : i64 (a + i64 b) = i64 (a + b).
Proof. by rewrite Z.add_comm, i64_add_l, Z.add_comm. Qed.

Lemma sumCalls_eq (l : list DiffEntry) (a : Z) :
  i64 (sumCalls a l) = i64 (a + zsum (map de_CallsDelta l)).
Proof.
  revert a. induction l as [|e l IH]; intros a; simpl; [by rewrite Z.add_0_r|].
  rewrite IH, i64_add_l. f_equal. lia.
Qed.

Lemma sumCalls_in (l : list DiffEntry) (a : Z) : in_i64 a -> in_i64 (sumCalls a l).
Proof. revert a. induction l as [|e l IH]; intros a Ha; simpl; [done|]. apply IH, i64_in. Qed.

(** What the "to" side counts, minus what the matched "from" entries counted. *)
Lemma totals (look : Z * Z * Z -> option SnapshotEntry) (l : list SnapshotEntry) :
  i64 (zsum (map de_CallsDelta (continuing look l)) + zsum (map de_CallsDelta (fresh look l)))
    = i64 (zsum (map se_Calls l) - zsum (map se_Calls (omap (fun te => look (entryKey te)) l))).
Proof.
  induction l as [|te l IH]; [done|]. unfold continuing, fresh in *. csimpl.
  destruct (look (entryKey te)) as [fe|]; csimpl.
  - set (x := zsum (map de_CallsDelta (omap _ l))) in *. set (y := zsum (map de_CallsDelta (map _ _))) in *.
    set (b := zsum (map se_Calls (omap _ l))) in *. set (a := zsum (map se_Calls l)) in *.
    replace (i64 (se_Calls te - se_Calls fe) + x + y)
      with (i64 (se_Calls te - se_Calls fe) + (x + y)) by lia.
    rewrite i64_add_l, <- i64_add_r, IH, i64_add_r. f_equal. lia.
  - set (x := zsum (map de_CallsDelta (omap _ l))) in *. set (y := zsum (map de_CallsDelta (map _ _))) in *.
    set (b := zsum (map se_Calls (omap _ l))) in *. set (a := zsum (map se_Calls l)) in *.
    replace (x + (se_Calls te + y)) with (se_Calls te + (x + y)) by lia.
    rewrite <- i64_add_r, IH, i64_add_r. f_equal. lia.
Qed.

Lemma paginate_none (l : list DiffEntry) : paginate 0 0 l = l.
Proof. unfold paginate, len. destruct l; done. Qed.

Lemma paginate_slice (o n : Z) (l : list DiffEntry) :
  0 <= o -> 0 < n -> paginate o n l = take (Z.to_nat n) (drop (Z.to_nat o) l).
Proof.
  intros Ho Hn. unfold paginate, slice_from, slice_to.
  assert ((if (0 <? o) && (o <? len l) then drop (Z.to_nat o) l
           else if len l <=? o then [] else l) = drop (Z.to_nat o) l) as ->.
  { unfold len. destruct (0 <? o) eqn:E1, (o <? Z.of_nat (length l)) eqn:E2; simpl; zb; try done.
    - rewrite (proj2 (Z.leb_le _ _)) by lia. symmetry. apply drop_ge. lia.
    - replace o with 0 by lia. simpl. destruct (_ <=? 0) eqn:E; [|done]. zb.
      by destruct l.
    - rewrite (proj2 (Z.leb_le _ _)) by lia. symmetry. apply drop_ge. lia. }
  rewrite (proj2 (Z.ltb_lt 0 n)) by lia. simpl.
  destruct (n <? _) eqn:E; [done|]. unfold len in E. zb. symmetry. apply take_ge. lia.
Qed.

Lemma pages_concat {A} (k : nat) (l : list A) (n : nat) :
  concat (map (fun i => take k (drop (i * k) l)) (seq 0 n)) = take (n * k) l.
Proof.
  induction n as [|n IH]; [done|]. rewrite seq_S, map_app, concat_app, IH. simpl.
  rewrite app_nil_r. replace (k + n * k)%nat with (n * k + k)%nat by lia.
  by rewrite take_take_drop.
Qed.

(** ** Properties *)

(** The diff accounts for every query once. For snapshots whose (query, database, user)
    keys are unique, the compared entries are exactly the queries of both snapshots with their
    counter differences, the new ones those only in the later, the evicted ones those only in
    the earlier; and the total of calls is, in 64-bit arithmetic, what the later snapshot
    counts minus what the earlier counted for the queries in both. *)
Theorem compute_diff_partition {SS : SliceSort} {MR : MapRange} (from to : Snapshot)
    (fromEntries toEntries : list SnapshotEntry) (sortBy : string) :
  NoDup (map entryKey fromEntries) -> NoDup (map entryKey toEntries) ->
  let d := ComputeDiff from to fromEntries toEntries (mkDiffOptions sortBy 0 0) in
  dr_Entries d ≡ₚ continuing (fun k => findKey k fromEntries) toEntries /\
  dr_NewQueries d = fresh (fun k => findKey k fromEntries) toEntries /\
  dr_EvictedQueries d ≡ₚ fresh (fun k => findKey k toEntries) fromEntries /\
  dr_TotalEntries d = len (dr_Entries d) /\
  dr_TotalCallsDelta d
    = i64 (zsum (map se_Calls toEntries)
           - zsum (map se_Calls (omap (fun te => findKey (entryKey te) fromEntries) toEntries))).
Proof.
  intros Hf Ht. unfold ComputeDiff. cbv zeta.
  destruct (diffSteps toEntries (indexEntries fromEntries) [] [] Ht) as (m' & -> & Hm').
  simpl. rewrite paginate_none.
  assert (forall x, x ∈ toEntries -> indexEntries fromEntries !! entryKey x
            = findKey (entryKey x) fromEntries) as Hx by (intros; by apply indexEntries_find).
  rewrite (continuing_ext _ (fun k => findKey k fromEntries) _ Hx),
    (fresh_ext _ (fun k => findKey k fromEntries) _ Hx).
  split; [apply sort_slice_perm|]. split; [done|]. split; [|split; [done|]].
  - by apply evicted_perm.
  - etransitivity; [|exact (totals (fun k => findKey k fromEntries) toEntries)].
    rewrite <- (i64_id (sumCalls _ _)), sumCalls_eq by (apply sumCalls_in, sumCalls_in; done).
    rewrite <- i64_add_l, sumCalls_eq, i64_add_l. done.
Qed.

(** Pages tile the diff. Going through the pages of a positive size one after the other
    shows every compared entry exactly once, in the sorted order of the unpaged diff, and each
    page reports the same total. *)
Theorem diff_pages_tile {SS : SliceSort} {MR : MapRange} (from to : Snapshot)
    (fromEntries toEntries : list SnapshotEntry) (sortBy : string) (size pages : nat) :
  let all := ComputeDiff from to fromEntries toEntries (mkDiffOptions sortBy 0 0) in
  let page i := ComputeDiff from to fromEntries toEntries
                  (mkDiffOptions sortBy (Z.of_nat size) (Z.of_nat (i * size))) in
  (0 < size)%nat -> (length (dr_Entries all) <= pages * size)%nat ->
  concat (map (fun i => dr_Entries (page i)) (seq 0 pages)) = dr_Entries all /\
  forall i, dr_TotalEntries (page i) = len (dr_Entries all).
Proof.
  cbv zeta. unfold ComputeDiff. destruct (foldl diffStep _ _) as [[m es] ns]. simpl.
  rewrite !paginate_none. intros Hs Hp. split; [|done].
  transitivity (take (pages * size) (sortEntries es sortBy)); [|by apply take_ge].
  rewrite <- pages_concat. f_equal. apply map_ext. intros i.
  rewrite paginate_slice by lia. by rewrite !Nat2Z.id.
Qed.

(** The report's top lists are not the top entries. The comparison reads the entries at
    the two positions of the unsorted list while the sort moves a copy: for three queries with
    20, 10 and 30 calls, of which the report shows the busiest one, it shows the one with 20
    calls. *)
Theorem report_top_not_sorted
    (sortLong : forall A : Type, (nat -> nat -> bool) -> list A -> list A) :
  let q id calls := entryAsDelta (mkSnapshotEntry 1 id 10 5 "db" "u" "q" calls (f_of_Z calls) None
    calls 0 0 0 0 0 0 0 0 f0 f0 None None None None None None None) in
  let s := mkSnapshot 1 "db1" 0 160000 None 0 0 f0 in
  let d := mkDiffResult s s false 0 "" 60 (f_of_Z 60) [q 1 20; q 2 10] [q 3 30] [] 2 in
  map de_CallsDelta (wr_TopByCalls (GenerateReport sortLong (Some d) 1)) = [20] /\
  map de_CallsDelta (wr_TopByCalls (GenerateReport sortLong (Some d) 3)) = [20; 30; 10].
Proof. vm_compute. done. Qed.

Definition demoEntry (id calls : Z) : SnapshotEntry :=
  mkSnapshotEntry 1 id 10 5 "db" "u" "q" calls (f_of_Z calls) None
    calls 0 0 0 0 0 0 0 0 f0 f0 None None None None None None None.

Definition demoSnapshot (id : Z) (at_ : Time) : Snapshot := mkSnapshot id "db1" at_ 160000 None 0 0 f0.

Lemma compute_diff_partition_witness :
  dr_TotalCallsDelta (@ComputeDiff insertion_SliceSort canonical_MapRange (demoSnapshot 1 0)
    (demoSnapshot 2 Minute) [demoEntry 1 20; demoEntry 2 5] [demoEntry 1 50; demoEntry 3 7]
    (mkDiffOptions "calls" 0 0)) = 37.
Proof.
  assert (NoDup (map entryKey [demoEntry 1 20; demoEntry 2 5])) as H1.
  { eapply bool_decide_unpack. vm_compute. exact I. }
  assert (NoDup (map entryKey [demoEntry 1 50; demoEntry 3 7])) as H2.
  { eapply bool_decide_unpack. vm_compute. exact I. }
  exact (proj2 (proj2 (proj2 (proj2 (@compute_diff_partition insertion_SliceSort canonical_MapRange
    (demoSnapshot 1 0) (demoSnapshot 2 Minute) _ _ "calls" H1 H2))))).
Defined.

Lemma diff_pages_tile_witness :
  concat (map (fun i => dr_Entries (@ComputeDiff insertion_SliceSort canonical_MapRange
      (demoSnapshot 1 0) (demoSnapshot 2 Minute) [demoEntry 1 20; demoEntry 2 5]
      [demoEntry 1 50; demoEntry 2 7] (mkDiffOptions "calls" (Z.of_nat 1) (Z.of_nat (i * 1)))))
    (seq 0 2))
  = dr_Entries (@ComputeDiff insertion_SliceSort canonical_MapRange
      (demoSnapshot 1 0) (demoSnapshot 2 Minute) [demoEntry 1 20; demoEntry 2 5]
      [demoEntry 1 50; demoEntry 2 7] (mkDiffOptions "calls" 0 0)).
Proof.
  refine (proj1 (@diff_pages_tile insertion_SliceSort canonical_MapRange (demoSnapshot 1 0)
    (demoSnapshot 2 Minute) [demoEntry 1 20; demoEntry 2 5] [demoEntry 1 50; demoEntry 2 7]
    "calls" 1 2 _ _)); [lia|].
  vm_compute. lia.
Defined.
