(* ===== verification/Storage.v ===== *)
(** * Metric stores

    Models internal/storage/memory.go (the in-memory store with its string keys, its expiry by
    binary search and its statistics) and the query side of internal/storage/pgstore.go, whose
    SQL is read as a filter, a sort and a limit over the rows of the metrics table. *)
From S2P Require Import Prelude Float64 Metric.

Local Open Scope Z_scope.

(** ** The standard library pieces the store uses *)

(** [sort.Search]: the bisection loop on [i, j), with fuel for its iterations. *)
Fixpoint searchLoop (f : nat -> bool) (fuel i j : nat) : nat :=
  match fuel with
  | O => i
  | S fuel' =>
      if (i <? j)%nat then
        let h := Nat.div2 (i + j) in
        if f h then searchLoop f fuel' i h else searchLoop f fuel' (S h) j
      else i
  end.

Definition sort_Search (n : nat) (f : nat -> bool) : nat := searchLoop f n 0 n.

(** ** memory.go *)

Record MemoryStore := mkMemoryStore {
  ms_retention : Duration;
  ms_data : gmap string (list MetricPoint)
}.

Definition NewMemoryStore (retention : Duration) : MemoryStore := mkMemoryStore retention ∅.

Definition comma : string := ",".

(** The label part of a key: [k=v] pairs joined by commas. *)
Fixpoint joinLabels (first : bool) (keys : list string) (labels : Labels) : string :=
  match keys with
  | [] => ""
  | k :: keys' =>
      (if first then "" else comma) +:+ k +:+ "=" +:+ label_get labels k
        +:+ joinLabels false keys' labels
  end.

Definition storageKey {SS : SliceSort} {MR : MapRange} (instanceID metric : string)
    (labels : Labels) : string :=
  if decide (size labels = 0%nat) then instanceID +:+ String nul (metric +:+ String nul "")
  else
    let keys := sort_slice string_ltb (map fst (map_range labels)) in
    instanceID +:+ String nul (metric +:+ String nul (joinLabels true keys labels)).

Definition matchLabels {MR : MapRange} (pointLabels queryLabels : Labels) : bool :=
  labels_match queryLabels pointLabels.

Record MetricStats := mkStats {
  st_Mean : float64;
  st_StdDev : float64;
  st_Min : float64;
  st_Max : float64;
  st_Count : Z
}.

Section memory.
Context {SS : SliceSort} {MR : MapRange}.

Definition pointKey (p : MetricPoint) : string :=
  storageKey (pt_InstanceID p) (pt_Metric p) (pt_Labels p).

Definition mem_Write (m : MemoryStore) (points : list MetricPoint) : MemoryStore :=
  if len points =? 0 then m
  else mkMemoryStore (ms_retention m)
         (foldl (fun data p => <[pointKey p := default [] (data !! pointKey p) ++ [p]]> data)
            (ms_data m) points).

(** The two tests on a bucket's key. *)
Definition keySelected (query : MetricQuery) (key : string) : bool :=
  (bool_decide (q_InstanceID query = "")
   || has_prefix key (q_InstanceID query +:+ String nul ""))
  && (bool_decide (q_Metric query = "")
      || match SplitN nul 3 key with
         | _ :: m :: _ => bool_decide (m = q_Metric query)
         | _ => false
         end).

(** The three tests on a point. *)
Definition pointSelected (query : MetricQuery) (p : MetricPoint) : bool :=
  (time_IsZero (q_Start query) || negb (time_Before (pt_Timestamp p) (q_Start query)))
  && (time_IsZero (q_End query) || negb (time_After (pt_Timestamp p) (q_End query)))
  && (bool_decide (size (q_Labels query) = 0%nat) || matchLabels (pt_Labels p) (q_Labels query)).

Definition pointEarlier (a b : MetricPoint) : bool :=
  time_Before (pt_Timestamp a) (pt_Timestamp b).

(** [results[len(results)-limit:]] when there are more. *)
Definition keepLast (limit : Z) (l : list MetricPoint) : list MetricPoint :=
  if (0 <? limit) && (limit <? len l) then slice_from (len l - limit) l else l.

Definition mem_Query (m : MemoryStore) (query : MetricQuery) : list MetricPoint :=
  let results :=
    concat (map (fun kv => if keySelected query kv.1
                           then List.filter (pointSelected query) kv.2 else [])
      (map_range (ms_data m))) in
  keepLast (q_Limit query) (sort_slice pointEarlier results).

(** [expire]: each bucket is cut at the first point, found by bisection, not before the
    cutoff; a bucket without such a point is dropped. *)
Definition expireBucket (cutoff : Time) (points : list MetricPoint)
    : option (list MetricPoint) :=
  let idx := sort_Search (length points)
               (fun i => match points !! i with
                         | Some p => negb (time_Before (pt_Timestamp p) cutoff)
                         | None => true
                         end) in
  if (length points <=? idx)%nat then None
  else if (0 <? idx)%nat then Some (drop idx points) else Some points.

Definition expire (m : MemoryStore) (now : Time) : MemoryStore :=
  let cutoff := time_Add now (i64 (- ms_retention m)) in
  mkMemoryStore (ms_retention m) (omap (expireBucket cutoff) (ms_data m)).

(** Statistics of the values of one metric, with the sample variance. *)
Definition statsOf (values : list float64) : MetricStats :=
  let n := len values in
  let first := default f0 (head values) in
  let sum := foldl fadd f0 values in
  let mn := foldl (fun mn v => if flt v mn then v else mn) first values in
  let mx := foldl (fun mx v => if fgt v mx then v else mx) first values in
  let mean := fdiv sum (f_of_Z n) in
  let variance :=
    if 1 <? n
    then fdiv (foldl (fun acc v => let d := fsub v mean in fadd acc (fmul d d)) f0 values)
           (f_of_Z (n - 1))
    else f0 in
  mkStats mean (fsqrt variance) mn mx n.

Definition inRange (from to : Time) (p : MetricPoint) : bool :=
  (time_IsZero from || negb (time_Before (pt_Timestamp p) from))
  && (time_IsZero to || negb (time_After (pt_Timestamp p) to)).

Definition addValues (buckets : gmap string (list float64)) (metric : string)
    (values : list float64) : gmap string (list float64) :=
  if len values =? 0 then buckets
  else <[metric := default [] (buckets !! metric) ++ values]> buckets.

Definition mem_GetMetricStats (m : MemoryStore) (instanceID : string) (keys : list string)
    (from to : Time) : gmap string MetricStats :=
  let buckets :=
    foldl (fun buckets kv =>
      match SplitN nul 3 kv.1 with
      | inst :: metric :: _ =>
          if negb (bool_decide (instanceID = "")) && negb (bool_decide (inst = instanceID))
          then buckets
          else if negb (bool_decide (metric ∈ keys)) then buckets
          else addValues buckets metric (map pt_Value (List.filter (inRange from to) kv.2))
      | _ => buckets
      end) (∅ : gmap string (list float64)) (map_range (ms_data m)) in
  statsOf <$> buckets.

#[global] Instance MemoryMetricStore : MetricStore MemoryStore := {|
  ms_Write := fun m points => (mem_Write m points, None);
  ms_Query := fun m query => Ok (mem_Query m query)
|}.

End memory.

(** ** pgstore.go: Query *)

(** SQL's LIKE: '%' matches any text, '_' any byte, a backslash quotes the next byte. *)
Definition percent : Ascii.ascii := Eval compute in Ascii.ascii_of_N 37.
Definition underscore : Ascii.ascii := Eval compute in Ascii.ascii_of_N 95.
Definition backslash : Ascii.ascii := Eval compute in Ascii.ascii_of_N 92.

Fixpoint like (pattern : string) : string -> bool :=
  match pattern with
  | EmptyString => fun s => bool_decide (s = "")
  | String c pattern' =>
      if Ascii.eqb c percent then
        fix any (s : string) : bool :=
          like pattern' s || match s with EmptyString => false | String _ s' => any s' end
      else if Ascii.eqb c underscore then
        fun s => match s with EmptyString => false | String _ s' => like pattern' s' end
      else if Ascii.eqb c backslash then
        match pattern' with
        | EmptyString => fun _ => false
        | String d pattern'' =>
            fun s => match s with
                     | EmptyString => false
                     | String e s' => Ascii.eqb d e && like pattern'' s'
                     end
        end
      else
        fun s => match s with
                 | EmptyString => false
                 | String d s' => Ascii.eqb c d && like pattern' s'
                 end
  end.

(** [buildQuery]'s conditions on a row. JSON containment needs the label to be present. *)
Definition rowSelected (q : MetricQuery) (p : MetricPoint) : bool :=
  (bool_decide (q_InstanceID q = "") || bool_decide (pt_InstanceID p = q_InstanceID q))
  && (bool_decide (q_Metric q = "") || like (q_Metric q +:+ String percent "") (pt_Metric p))
  && (time_IsZero (q_Start q) || (q_Start q <=? pt_Timestamp p))
  && (time_IsZero (q_End q) || (pt_Timestamp p <=? q_End q))
  && bool_decide (q_Labels q ⊆ pt_Labels p).

(** The rows of the metrics table, newest first, at most [Limit] of them when positive. *)
Definition pgm_Query {SS : SliceSort} (rows : list MetricPoint) (q : MetricQuery)
    : list MetricPoint :=
  let sorted := sort_slice (fun a b => time_After (pt_Timestamp a) (pt_Timestamp b))
                  (List.filter (rowSelected q) rows) in
  if 0 <? q_Limit q then slice_to (q_Limit q) sorted else sorted.

(** The metrics table; [Write] copies the rows in. *)
Record PGMetricTable := mkPGMetricTable { pgm_rows : list MetricPoint }.

Definition pgm_Write (t : PGMetricTable) (points : list MetricPoint) : PGMetricTable :=
  mkPGMetricTable (pgm_rows t ++ points).

(** PGStore.GetMetricStats: a row per metric that has values; PostgreSQL's aggregates are given, and
    stddev_samp of one value is NULL. Unlike the store in memory it takes every bound as one. *)
Definition pgm_GetMetricStats (avg min max : list float64 -> float64) (stddev_samp : list float64 -> option float64)
    (t : PGMetricTable) (instanceID : string) (keys : list string) (from to : Time) : gmap string MetricStats :=
  foldl (fun result metric =>
    match map pt_Value (List.filter (fun p =>
            bool_decide (pt_InstanceID p = instanceID) && bool_decide (pt_Metric p = metric)
            && (from <=? pt_Timestamp p) && (pt_Timestamp p <=? to)) (pgm_rows t)) with
    | [] => result
    | v :: vs => let values := v :: vs in
                 <[metric := mkStats (avg values) (default f0 (stddev_samp values)) (min values) (max values)
                               (len values)]> result
    end) ∅ keys.

#[global] Instance PGMetricStore {SS : SliceSort} : MetricStore PGMetricTable := {|
  ms_Write := fun t points => (pgm_Write t points, None);
  ms_Query := fun t query => Ok (pgm_Query (pgm_rows t) query)
|}.

(** ** Bisection *)

Lemma searchLoop_spec (f : nat -> bool) (n : nat) :
  (forall a b, (a <= b)%nat -> (b < n)%nat -> f a = true -> f b = true) ->
  forall fuel i j, (j - i <= fuel)%nat -> (i <= j <= n)%nat ->
  (forall k, (k < i)%nat -> f k = false) -> (forall k, (j <= k < n)%nat -> f k = true) ->
  let r := searchLoop f fuel i j in
  (r <= n)%nat /\ (forall k, (k < r)%nat -> f k = false) /\
  (forall k, (r <= k < n)%nat -> f k = true).
Proof.
  intros Hmono. induction fuel as [|fuel IH]; intros i j Hf Hij Hlo Hhi; simpl.
  { replace j with i in Hhi by lia. repeat split; [lia|done|done]. }
  destruct (i <? j)%nat eqn:E.
  2: { apply Nat.ltb_ge in E. replace j with i in Hhi by lia. repeat split; [lia|done|done]. }
  apply Nat.ltb_lt in E. set (h := Nat.div2 (i + j)).
  assert (i <= h < j)%nat as Hh.
  { subst h. rewrite Nat.div2_div. split; [apply Nat.div_le_lower_bound; lia|].
    apply Nat.Div0.div_lt_upper_bound; lia. }
  destruct (f h) eqn:Eh.
  - apply IH; [lia|lia|done|]. intros k Hk. apply (Hmono h k); [lia|lia|done].
  - apply IH; [lia|lia| |done]. intros k Hk. destruct (f k) eqn:Ek; [|done].
    rewrite (Hmono k h) in Eh; [done|lia|lia|done].
Qed.

Lemma sort_Search_spec (f : nat -> bool) (n : nat) :
  (forall a b, (a <= b)%nat -> (b < n)%nat -> f a = true -> f b = true) ->
  (sort_Search n f <= n)%nat /\ (forall k, (k < sort_Search n f)%nat -> f k = false) /\
  (forall k, (sort_Search n f <= k < n)%nat -> f k = true).
Proof. intros H. apply (searchLoop_spec f n H); lia. Qed.

(** ** Expiry of one bucket *)

Definition fromCutoff (cutoff : Time) (p : MetricPoint) : bool :=
  negb (time_Before (pt_Timestamp p) cutoff).

Definition timeOrdered (l : list MetricPoint) : Prop :=
  StronglySorted (fun a b => pt_Timestamp a <= pt_Timestamp b) l.

Lemma timeOrdered_lookup (l : list MetricPoint) i j a b :
  timeOrdered l -> (i <= j)%nat -> l !! i = Some a -> l !! j = Some b ->
  pt_Timestamp a <= pt_Timestamp b.
Proof.
  intros Hs. revert i j. induction Hs as [|x l Hs IH Hf]; intros i j Hij Hi Hj; [done|].
  destruct i as [|i], j as [|j]; simpl in *; [simplify_eq; lia| |lia|].
  - injection Hi as <-. rewrite list.Forall_forall in Hf. by apply Hf, (list_elem_of_lookup_2 _ j).
  - apply (IH i j); [lia|done|done].
Qed.

Lemma expireBucket_filter (cutoff : Time) (l : list MetricPoint) :
  timeOrdered l ->
  expireBucket cutoff l =
    match List.filter (fromCutoff cutoff) l with [] => None | l' => Some l' end.
Proof.
  intros Hs. unfold expireBucket. set (f := fun i => _).
  assert (forall i p, l !! i = Some p -> f i = fromCutoff cutoff p) as Hfi.
  { intros i p Hp. subst f. simpl. by rewrite Hp. }
  destruct (sort_Search_spec f (length l)) as (Hr & Hlo & Hhi).
  { intros a b Hab Hb Ha. destruct (lookup_lt_is_Some_2 l b Hb) as [pb Hpb].
    destruct (lookup_lt_is_Some_2 l a ltac:(lia)) as [pa Hpa].
    rewrite (Hfi _ _ Hpa) in Ha. rewrite (Hfi _ _ Hpb).
    pose proof (timeOrdered_lookup l a b pa pb Hs Hab Hpa Hpb).
    unfold fromCutoff, time_Before in *. apply negb_true_iff in Ha. apply negb_true_iff. zb.
    apply Z.ltb_ge. lia. }
  set (r := sort_Search (length l) f) in *.
  assert (List.filter (fromCutoff cutoff) l = drop r l) as Hdrop.
  { rewrite <- (take_drop r l) at 1. rewrite List.filter_app, filter_none, filter_all; [done| |].
    - intros p Hp. apply list_elem_of_lookup in Hp as [k Hk]. rewrite lookup_drop in Hk.
      rewrite <- (Hfi _ _ Hk). apply Hhi. apply lookup_lt_Some in Hk. lia.
    - intros p Hp. apply list_elem_of_lookup in Hp as [k Hk]. apply lookup_take_Some in Hk as [Hk Hkr].
      rewrite <- (Hfi _ _ Hk). by apply Hlo. }
  rewrite Hdrop. destruct (length l <=? r)%nat eqn:E1.
  { apply Nat.leb_le in E1. by rewrite drop_ge. }
  apply Nat.leb_gt in E1. destruct (drop r l) as [|p l'] eqn:Ed.
  { apply (f_equal length) in Ed. rewrite length_drop in Ed. simpl in Ed. lia. }
  destruct (0 <? r)%nat eqn:E2; [done|]. apply Nat.ltb_ge in E2.
  replace r with 0%nat in Ed by lia. by rewrite <- Ed.
Qed.

(** ** Keys *)

Lemma cut_sep (c : Ascii.ascii) (a b : string) :
  char_free c a = true -> cut c (a +:+ String c b) = Some (a, b).
Proof.
  induction a as [|d a IH]; simpl; [by rewrite Ascii.eqb_refl|].
  intros H. apply andb_true_iff in H as [Hd Ha]. apply negb_true_iff in Hd.
  by rewrite Hd, (IH Ha).
Qed.

Lemma prefix_sep (c : Ascii.ascii) (a q b : string) :
  char_free c a = true -> char_free c q = true ->
  has_prefix (a +:+ String c b) (q +:+ String c "") = bool_decide (a = q).
Proof.
  unfold has_prefix. revert q. induction a as [|x a IH]; intros [|y q]; simpl; intros Ha Hq.
  - destruct (Ascii.ascii_dec c c); [|done]. by destruct b.
  - apply andb_true_iff in Hq as [Hq _]. destruct (Ascii.ascii_dec y c) as [->|]; [|done].
    by rewrite Ascii.eqb_refl in Hq.
  - apply andb_true_iff in Ha as [Ha _]. destruct (Ascii.ascii_dec c x) as [->|]; [|done].
    by rewrite Ascii.eqb_refl in Ha.
  - apply andb_true_iff in Ha as [_ Ha], Hq as [_ Hq].
    destruct (Ascii.ascii_dec y x) as [->|Hne].
    + rewrite IH by done. apply bool_decide_ext. split; [by intros ->|by intros [= ->]].
    + symmetry. apply bool_decide_false. intros [= -> ->]. done.
Qed.

Section store.
Context {SS : SliceSort} {MR : MapRange}.

Definition nulFree (p : MetricPoint) : Prop :=
  char_free nul (pt_InstanceID p) = true /\ char_free nul (pt_Metric p) = true.

Lemma pointKey_shape (p : MetricPoint) : exists rest,
  pointKey p = pt_InstanceID p +:+ String nul (pt_Metric p +:+ String nul rest).
Proof. unfold pointKey, storageKey. case_decide; by eexists. Qed.

Lemma keySelected_spec (q : MetricQuery) (p : MetricPoint) :
  nulFree p -> char_free nul (q_InstanceID q) = true ->
  keySelected q (pointKey p)
    = (bool_decide (q_InstanceID q = "") || bool_decide (pt_InstanceID p = q_InstanceID q))
      && (bool_decide (q_Metric q = "") || bool_decide (pt_Metric p = q_Metric q)).
Proof.
  intros [Hi Hm] Hq. unfold keySelected. destruct (pointKey_shape p) as [rest ->].
  rewrite prefix_sep by done. simpl. rewrite cut_sep by done. simpl. by rewrite cut_sep.
Qed.

(** ** The buckets of a sequence of points *)

Definition addPoint (data : gmap string (list MetricPoint)) (p : MetricPoint)
    : gmap string (list MetricPoint) :=
  <[pointKey p := default [] (data !! pointKey p) ++ [p]]> data.

Definition buckets (pts : list MetricPoint) : gmap string (list MetricPoint) :=
  foldl addPoint ∅ pts.

Lemma buckets_snoc pts p : buckets (pts ++ [p]) = addPoint (buckets pts) p.
Proof. unfold buckets. by rewrite foldl_app. Qed.

Lemma buckets_lookup (pts : list MetricPoint) (k : string) :
  buckets pts !! k =
    match List.filter (fun p => bool_decide (pointKey p = k)) pts with [] => None | l => Some l end.
Proof.
  induction pts as [|p pts IH] using rev_ind; [done|].
  rewrite buckets_snoc, List.filter_app. simpl. unfold addPoint.
  destruct (decide (pointKey p = k)) as [<-|Hne].
  - rewrite lookup_insert_eq, IH, bool_decide_true by done.
    by destruct (List.filter _ pts).
  - rewrite lookup_insert_ne, IH, bool_decide_false, app_nil_r by done. done.
Qed.

Lemma mem_Write_buckets r pts batch :
  mem_Write (mkMemoryStore r (buckets pts)) batch = mkMemoryStore r (buckets (pts ++ batch)).
Proof.
  unfold mem_Write. destruct (len batch =? 0) eqn:E.
  - destruct batch; [by rewrite app_nil_r|]. done.
  - simpl. f_equal. unfold buckets. by rewrite foldl_app.
Qed.

Definition selectFrom (f : string -> bool) (g : MetricPoint -> bool)
    (l : list (string * list MetricPoint)) : list MetricPoint :=
  concat (map (fun kv => if f kv.1 then List.filter g kv.2 else []) l).

Lemma selectFrom_perm f g l l' : l ≡ₚ l' -> selectFrom f g l ≡ₚ selectFrom f g l'.
Proof.
  unfold selectFrom. induction 1 as [|x l l' Hp IH|x y l|l1 l2 l3 _ IH1 _ IH2]; simpl; [done| | |by etransitivity].
  - by rewrite IH.
  - rewrite !app_assoc. apply Permutation_app_tail, Permutation_app_comm.
Qed.

Lemma buckets_select f g (pts : list MetricPoint) :
  selectFrom f g (map_to_list (buckets pts))
    ≡ₚ List.filter (fun p => f (pointKey p) && g p) pts.
Proof.
  induction pts as [|p pts IH] using rev_ind; [done|].
  rewrite buckets_snoc, List.filter_app, <- IH. unfold addPoint.
  set (m := buckets pts). set (k := pointKey p).
  assert (List.filter (fun p => f (pointKey p) && g p) [p] = if f k then List.filter g [p] else [])
    as ->.
  { simpl. fold k. destruct (f k), (g p); done. }
  destruct (m !! k) as [l|] eqn:Em; simpl.
  - rewrite <- (insert_delete_eq m). 
    rewrite (selectFrom_perm _ _ _ _ (map_to_list_insert (delete k m) k (l ++ [p])
      (lookup_delete_eq m k))).
    assert (map_to_list m ≡ₚ (k, l) :: map_to_list (delete k m)) as Hm.
    { rewrite <- map_to_list_insert by apply lookup_delete_eq. by rewrite insert_delete_id. }
    rewrite (selectFrom_perm _ _ _ _ Hm). unfold selectFrom. simpl.
    destruct (f k); [|by rewrite app_nil_r]. rewrite List.filter_app, <- !app_assoc.
    apply Permutation_app_head, Permutation_app_comm.
  - rewrite (selectFrom_perm _ _ _ _ (map_to_list_insert m k [p] Em)).
    unfold selectFrom. simpl. apply Permutation_app_comm.
Qed.

Lemma filter_comm {A} (f g : A -> bool) (l : list A) :
  List.filter f (List.filter g l) = List.filter g (List.filter f l).
Proof.
  induction l as [|x l IH]; simpl; [done|].
  destruct (f x) eqn:Ef, (g x) eqn:Eg; simpl; rewrite ?Ef, ?Eg, IH; done.
Qed.

(** Points come in time order within each key. *)
Definition keysOrdered (pts : list MetricPoint) : Prop :=
  forall k, timeOrdered (List.filter (fun p => bool_decide (pointKey p = k)) pts).

Lemma expire_buckets r pts now :
  keysOrdered pts ->
  expire (mkMemoryStore r (buckets pts)) now
    = mkMemoryStore r (buckets (List.filter (fromCutoff (time_Add now (i64 (- r)))) pts)).
Proof.
  intros Ho. unfold expire. simpl. f_equal. apply map_eq. intros k.
  rewrite lookup_omap, !buckets_lookup, filter_comm.
  specialize (Ho k). destruct (List.filter (fun p => bool_decide (pointKey p = k)) pts) as [|p l];
    [done|]. simpl. by rewrite expireBucket_filter.
Qed.

Lemma timeOrdered_filter f l : timeOrdered l -> timeOrdered (List.filter f l).
Proof.
  induction 1 as [|x l Hs IH Hf]; simpl; [constructor|]. destruct (f x); [|done].
  constructor; [done|]. rewrite list.Forall_forall in *. intros y Hy.
  apply elem_of_filter_bool in Hy as [_ Hy]. by apply Hf.
Qed.

(** ** Runs of the store *)

(** A store and the points it should hold, after writes and expiries. *)
Inductive mem_run (retention : Duration) : MemoryStore -> list MetricPoint -> Prop :=
  | mrun_new : mem_run retention (NewMemoryStore retention) []
  | mrun_write m pts batch : mem_run retention m pts -> keysOrdered (pts ++ batch) ->
      mem_run retention (mem_Write m batch) (pts ++ batch)
  | mrun_expire m pts now : mem_run retention m pts ->
      mem_run retention (expire m now)
        (List.filter (fromCutoff (time_Add now (i64 (- retention)))) pts).

Lemma mem_run_buckets r m pts :
  mem_run r m pts -> m = mkMemoryStore r (buckets pts) /\ keysOrdered pts.
Proof.
  induction 1 as [|m pts batch _ [-> Ho] Hb|m pts now _ [-> Ho]].
  - split; [done|]. intros k. constructor.
  - split; [apply mem_Write_buckets|done].
  - split; [by apply expire_buckets|]. intros k. rewrite filter_comm. by apply timeOrdered_filter.
Qed.

(** What a query asks for. *)
Definition wanted (q : MetricQuery) (p : MetricPoint) : bool :=
  (bool_decide (q_InstanceID q = "") || bool_decide (pt_InstanceID p = q_InstanceID q))
  && (bool_decide (q_Metric q = "") || bool_decide (pt_Metric p = q_Metric q))
  && pointSelected q p.

Lemma mem_Query_sorted r m pts q :
  mem_run r m pts -> Forall nulFree pts -> char_free nul (q_InstanceID q) = true ->
  exists l, l ≡ₚ List.filter (wanted q) pts /\ timeOrdered l /\ mem_Query m q = keepLast (q_Limit q) l.
Proof.
  intros Hrun Hn Hq. apply mem_run_buckets in Hrun as [-> _]. unfold mem_Query. simpl.
  fold (selectFrom (keySelected q) (pointSelected q) (map_range (buckets pts))).
  eexists. split; [|split; [|done]].
  - rewrite sort_slice_perm.
    rewrite (selectFrom_perm _ _ _ _ (map_range_perm _ _ _)), buckets_select.
    rewrite list.Forall_forall in Hn. clear -Hn Hq.
    induction pts as [|p pts IH]; [done|]. simpl.
    rewrite (keySelected_spec q p (Hn p (list_elem_of_here _ _)) Hq). unfold wanted at 1.
    assert (List.filter (fun p => keySelected q (pointKey p) && pointSelected q p) pts
      ≡ₚ List.filter (wanted q) pts) as Hp.
    { apply IH. intros x Hx. apply Hn. by right. }
    destruct (_ && pointSelected q p); [by constructor|done].
  - eapply StronglySorted_weaken; [|apply sort_slice_sorted, weak_on_Z].
    intros a b H. unfold pointEarlier, time_Before in H. zb. lia.
Qed.

End store.

(** ** Properties *)

(** The in-memory store answers queries as the list of retained points would. Over any run
    of writes (in time order per series) and expiries, a query returns, in time order, exactly
    the points written and not yet expired whose instance, metric, time range and labels match,
    or the latest [Limit] of them; the string keys and the bisection of the expiry do not show. *)
Theorem memory_store_refines_points {SS : SliceSort} {MR : MapRange} (retention : Duration)
    (m : MemoryStore) (pts : list MetricPoint) (q : MetricQuery) :
  mem_run retention m pts -> Forall nulFree pts -> char_free nul (q_InstanceID q) = true ->
  exists l, l ≡ₚ List.filter (wanted q) pts /\ timeOrdered l /\
    mem_Query m q = keepLast (q_Limit q) l.
Proof. apply mem_Query_sorted. Qed.

#[local] Existing Instance insertion_SliceSort.
#[local] Existing Instance canonical_MapRange.

Definition demoPt (metric : string) (t v : Z) : MetricPoint :=
  mkPoint "db1" metric (f_of_Z v) {["slot" := "a"]} (t * Second).

Definition demoBatch : list MetricPoint := [demoPt "pg.a" 1 5; demoPt "pg.b" 1 6; demoPt "pg.a" 2 7].

Definition demoQuery (metric : string) (limit : Z) : MetricQuery :=
  mkQuery "db1" metric ∅ zero_time zero_time limit.

Lemma memory_store_refines_points_witness :
  exists l, mem_Query (expire (mem_Write (NewMemoryStore (60 * Second)) demoBatch) (61 * Second + 1))
              (demoQuery "pg.a" 0) = l /\ map pt_Timestamp l = [2 * Second].
Proof.
  assert (keysOrdered demoBatch) as Ho.
  { intros k. apply timeOrdered_filter. unfold timeOrdered, demoBatch.
    repeat constructor; unfold demoPt, Second; simpl; lia. }
  assert (mem_run (60 * Second) (expire (mem_Write (NewMemoryStore (60 * Second)) demoBatch)
            (61 * Second + 1))
           (List.filter (fromCutoff (time_Add (61 * Second + 1) (i64 (- (60 * Second)))))
              ([] ++ demoBatch))) as Hrun.
  { apply mrun_expire, mrun_write; [apply mrun_new|exact Ho]. }
  destruct (memory_store_refines_points _ _ _ (demoQuery "pg.a" 0) Hrun) as (l & Hl & _ & Hq).
  - eapply bool_decide_unpack. vm_compute. exact I.
  - reflexivity.
  - eexists. split; [exact Hq|]. unfold keepLast. simpl.
    change (List.filter _ _) with [demoPt "pg.a" 2 7] in Hl.
    apply Permutation_singleton_r in Hl as ->. reflexivity.
Defined.

(** The two metric stores do not answer alike. A query by metric name means equality in
    memory and LIKE with a trailing '%' in the database, and the memory store returns the
    oldest point first, the database the newest: on three points of two of the collectors'
    metrics the answers differ in content and in order. *)
Theorem metric_stores_disagree :
  let p name t := mkPoint "db1" name f1 ∅ (t * Second) in
  let pts := [p "pg.bgwriter.buffers_backend" 1; p "pg.bgwriter.buffers_backend_per_second" 2;
              p "pg.bgwriter.buffers_backend" 3] in
  let q := mkQuery "db1" "pg.bgwriter.buffers_backend" ∅ zero_time zero_time 0 in
  map pt_Timestamp (mem_Query (mem_Write (NewMemoryStore Hour) pts) q) = [1 * Second; 3 * Second] /\
  map pt_Timestamp (pgm_Query pts q) = [3 * Second; 2 * Second; 1 * Second].
Proof. vm_compute. done. Qed.
