(* ===== verification/Ml.v ===== *)
(** * Anomaly detection baselines

    Models internal/ml/baseline.go (the online seasonal baseline with its ring buffers, scores,
    forecasts and snapshots), internal/ml/forecast.go, internal/ml/linear.go,
    internal/ml/wma.go and internal/ml/config.go. The statistics functions of the gonum
    library and [math.Pow] are parameters. *)
From S2P Require Import Prelude Float64 Metric.

Local Open Scope Z_scope.

(** ** config.go *)

Record MetricConfig := mkMetricConfig {
  mc_Key : string;
  mc_Period : Z;
  mc_Enabled : bool;
  mc_ForecastHorizon : Z
}.

Record DetectorConfig := mkDetectorConfig {
  dc_Enabled : bool;
  dc_ZScoreWarn : float64;
  dc_ZScoreCrit : float64;
  dc_ForecastZ : float64;
  dc_AnomalyLogic : string;
  dc_Metrics : list MetricConfig;
  dc_CollectionInterval : Duration
}.

Definition DefaultConfig : DetectorConfig :=
  mkDetectorConfig true (f_of_Z 3) (f_of_Z 5) f0 "or"
    [mkMetricConfig "connections.utilization_pct" 1440 true 0;
     mkMetricConfig "cache.hit_ratio" 1440 true 0;
     mkMetricConfig "transactions.commit_rate" 1440 true 0;
     mkMetricConfig "replication.lag_bytes" 1440 true 0;
     mkMetricConfig "locks.blocking_count" 1440 true 0] (60 * Second).

(** ** forecast.go *)

Record ForecastPoint := mkForecastPoint {
  fp_Offset : Z;
  fp_PredictedAt : Time;
  fp_Value : float64;
  fp_Lower : float64;
  fp_Upper : float64
}.

Record ForecastResult := mkForecastResult {
  fr_InstanceID : string;
  fr_MetricKey : string;
  fr_GeneratedAt : Time;
  fr_CollectionIntervalSeconds : Z;
  fr_Horizon : Z;
  fr_ConfidenceZ : float64;
  fr_Points : list ForecastPoint
}.

Definition fsum (l : list float64) : float64 := foldl fadd f0 l.

Definition residualStddev (vals : list float64) : float64 :=
  let n := len vals in
  if n <? 2 then f0
  else
    let mean := fdiv (fsum vals) (f_of_Z n) in
    let sumSq := foldl (fun acc v => let d := fsub v mean in fadd acc (fmul d d)) f0 vals in
    fsqrt (fdiv sumSq (f_of_Z (n - 1))).

(** ** baseline.go *)

Record STLBaseline := mkBaseline {
  bl_MetricKey : string;
  bl_Period : Z;
  bl_windowSize : Z;
  bl_ring : list float64;
  bl_rHead : Z;
  bl_rCount : Z;
  bl_residuals : list float64;
  bl_resHead : Z;
  bl_resCount : Z;
  bl_ewma : float64;
  bl_ewmaAlpha : float64;
  bl_seasonal : list float64;
  bl_seasonN : list Z;
  bl_totalSeen : Z;
  bl_sumAll : float64;
  bl_trendHistory : float64 * float64;
  bl_seasonIdx : Z
}.

Definition zeros (n : Z) : list float64 := replicate (Z.to_nat n) f0.

(** For a period of at least one. *)
Definition NewSTLBaseline (key : string) (period : Z) : STLBaseline :=
  let size := Z.max (3 * period) 1000 in
  mkBaseline key period size (zeros size) 0 0 (zeros size) 0 0 f0
    (fdiv (f_of_Z 2) (f_of_Z (size + 1))) (zeros period) (replicate (Z.to_nat period) 0)
    0 f0 (f0, f0) 0.

(** Array reads and writes at an index that the code keeps in range. *)
Definition at_f (l : list float64) (i : Z) : float64 := default f0 (l !! Z.to_nat i).
Definition set_at {A} (l : list A) (i : Z) (x : A) : list A := <[Z.to_nat i := x]> l.

(** The residual of a value against trend and season. *)
Definition residualOf (value ewma seasonalMean overallMean : float64) : float64 :=
  fsub (fsub value ewma) (fsub seasonalMean overallMean).

(** [Update], for a period other than zero. *)
Definition update (b : STLBaseline) (value : float64) : STLBaseline :=
  let ewma := if bl_totalSeen b =? 0 then value
              else fadd (fmul (bl_ewmaAlpha b) value)
                     (fmul (fsub f1 (bl_ewmaAlpha b)) (bl_ewma b)) in
  let bucket := Z.rem (bl_totalSeen b) (bl_Period b) in
  let count := default 0 (bl_seasonN b !! Z.to_nat bucket) in
  let n := f_of_Z (count + 1) in
  let mean := fdiv (fadd (fmul (at_f (bl_seasonal b) bucket) (fsub n f1)) value) n in
  let sumAll := fadd (bl_sumAll b) value in
  let totalSeen := bl_totalSeen b + 1 in
  let residual := residualOf value ewma mean (fdiv sumAll (f_of_Z totalSeen)) in
  let w := bl_windowSize b in
  mkBaseline (bl_MetricKey b) (bl_Period b) w
    (set_at (bl_ring b) (bl_rHead b) value) (Z.rem (bl_rHead b + 1) w)
    (if bl_rCount b <? w then bl_rCount b + 1 else bl_rCount b)
    (set_at (bl_residuals b) (bl_resHead b) residual) (Z.rem (bl_resHead b + 1) w)
    (if bl_resCount b <? w then bl_resCount b + 1 else bl_resCount b)
    ewma (bl_ewmaAlpha b) (set_at (bl_seasonal b) bucket mean)
    (set_at (bl_seasonN b) bucket (count + 1)) totalSeen sumAll
    (snd (bl_trendHistory b), ewma) bucket.

(** [Update]; [None] is the panic of a division by a zero period. *)
Definition Update (b : STLBaseline) (value : float64) : option STLBaseline :=
  if bl_Period b =? 0 then None else Some (update b value).

Definition residualSlice (b : STLBaseline) : list float64 :=
  if bl_resCount b <? bl_windowSize b then slice_to (bl_resCount b) (bl_residuals b)
  else slice_from (bl_resHead b) (bl_residuals b) ++ slice_to (bl_resHead b) (bl_residuals b).

Definition Ready (b : STLBaseline) : bool := bl_Period b * 2 <=? bl_resCount b.

Section score.
Context {SS : SliceSort}.
(** gonum's stat.Mean and stat.StdDev without weights, and stat.Quantile of the empirical kind. *)
Context (stat_Mean stat_StdDev : list float64 -> float64)
  (stat_Quantile : float64 -> list float64 -> float64).

(** [sort.Float64s]: ascending, NaNs first. *)
Definition sort_Float64s (l : list float64) : list float64 :=
  sort_slice (fun x y => flt x y || (is_nan x && negb (is_nan y))) l.

Definition Score (b : STLBaseline) (value : float64) : float64 * bool :=
  if bl_resCount b <? bl_Period b * 2 then (f0, false)
  else
    let bucket := Z.rem (bl_totalSeen b) (bl_Period b) in
    let residual := residualOf value (bl_ewma b) (at_f (bl_seasonal b) bucket)
                      (fdiv (bl_sumAll b) (f_of_Z (bl_totalSeen b))) in
    let res := residualSlice b in
    let stddev := stat_StdDev res in
    let zScore := if fgt stddev (fconst 1 (10 ^ 10))
                  then fdiv (fsub residual (stat_Mean res)) stddev else f0 in
    let sorted := sort_Float64s res in
    let q1 := stat_Quantile (fconst 25 100) sorted in
    let q3 := stat_Quantile (fconst 75 100) sorted in
    let iqr := fsub q3 q1 in
    (zScore, flt residual (fsub q1 (fmul (fconst 15 10) iqr))
             || fgt residual (fadd q3 (fmul (fconst 15 10) iqr))).

Definition ResidualStddev (b : STLBaseline) : float64 :=
  if bl_resCount b <? 2 then f0 else stat_StdDev (residualSlice b).

End score.

(** [Forecast]; [None] is the nil slice of a cold baseline. *)
Definition forecastPoint (b : STLBaseline) (slope margin : float64) (interval : Duration)
    (now : Time) (k : Z) : ForecastPoint :=
  let trendContrib := fadd (bl_ewma b) (fmul slope (f_of_Z k)) in
  let idx := Z.rem (bl_seasonIdx b + k) (bl_Period b) in
  let val := fadd trendContrib (at_f (bl_seasonal b) idx) in
  mkForecastPoint k (time_Add now (dur_mul k interval)) val (fsub val margin) (fadd val margin).

Definition Forecast (b : STLBaseline) (n : Z) (z : float64) (interval : Duration) (now : Time)
    : option (list ForecastPoint) :=
  if (bl_totalSeen b <? bl_Period b) || (bl_Period b =? 0) then None
  else
    let slope := if 2 <=? bl_totalSeen b
                 then fsub (snd (bl_trendHistory b)) (fst (bl_trendHistory b)) else f0 in
    let margin := fmul z (residualStddev (residualSlice b)) in
    Some (map (fun k => forecastPoint b slope margin interval now (Z.of_nat k))
            (seq 1 (Z.to_nat n))).

Record BaselineSnapshot := mkBaselineSnapshot {
  bs_InstanceID : string;
  bs_MetricKey : string;
  bs_Period : Z;
  bs_WindowSize : Z;
  bs_EWMA : float64;
  bs_EWMAAlpha : float64;
  bs_Seasonal : list float64;
  bs_SeasonN : list Z;
  bs_Residuals : list float64;
  bs_ResCount : Z;
  bs_TotalSeen : Z;
  bs_SumAll : float64;
  bs_UpdatedAt : Time
}.

Definition liveResiduals (b : STLBaseline) : list float64 :=
  map (fun i => at_f (bl_residuals b)
                  (Z.rem (bl_resHead b - bl_resCount b + Z.of_nat i + bl_windowSize b)
                     (bl_windowSize b)))
    (seq 0 (Z.to_nat (bl_resCount b))).

Definition TakeSnapshot (b : STLBaseline) (instanceID : string) (now : Time) : BaselineSnapshot :=
  mkBaselineSnapshot instanceID (bl_MetricKey b) (bl_Period b) (bl_windowSize b) (bl_ewma b)
    (bl_ewmaAlpha b) (bl_seasonal b) (bl_seasonN b) (liveResiduals b) (bl_resCount b)
    (bl_totalSeen b) (bl_sumAll b) now.

(** Go's [copy(dst, src)]. *)
Definition copy_into {A} (dst src : list A) : list A :=
  take (length dst) src ++ drop (length src) dst.

Definition LoadFromSnapshot (s : BaselineSnapshot) : STLBaseline :=
  mkBaseline (bs_MetricKey s) (bs_Period s) (bs_WindowSize s) (zeros (bs_WindowSize s)) 0 0
    (copy_into (zeros (bs_WindowSize s)) (bs_Residuals s))
    (Z.rem (bs_ResCount s) (bs_WindowSize s)) (bs_ResCount s) (bs_EWMA s) (bs_EWMAAlpha s)
    (bs_Seasonal s) (bs_SeasonN s) (bs_TotalSeen s) (bs_SumAll s) (bs_EWMA s, bs_EWMA s)
    (if 0 <? bs_Period s then Z.rem (bs_TotalSeen s) (bs_Period s) else 0).

(** ** linear.go *)

Record LinearRegressionResult := mkRegression {
  lr_Slope : float64;
  lr_Intercept : float64;
  lr_RSquared : float64;
  lr_N : Z
}.

Definition sum_by {A} (f : A -> float64) (l : list A) : float64 :=
  foldl (fun acc x => fadd acc (f x)) f0 l.

Definition LinearRegression (xs ys : list float64) : result LinearRegressionResult :=
  let n := len xs in
  if n <? 2 then Err "ml: linear regression requires at least 2 data points"
  else if negb (n =? len ys) then Err "ml: xs and ys must have equal length"
  else
    let pts := zip xs ys in
    let sumX := sum_by fst pts in
    let sumY := sum_by snd pts in
    let sumXY := sum_by (fun p => fmul p.1 p.2) pts in
    let sumX2 := sum_by (fun p => fmul p.1 p.1) pts in
    let nf := f_of_Z n in
    let denom := fsub (fmul nf sumX2) (fmul sumX sumX) in
    if flt (fabs denom) (fconst 1 (10 ^ 15)) then Ok (mkRegression f0 (fdiv sumY nf) f0 n)
    else
      let slope := fdiv (fsub (fmul nf sumXY) (fmul sumX sumY)) denom in
      let intercept := fdiv (fsub sumY (fmul slope sumX)) nf in
      let meanY := fdiv sumY nf in
      let sq x := fmul x x in
      let ssRes := sum_by (fun p => sq (fsub p.2 (fadd (fmul slope p.1) intercept))) pts in
      let ssTot := sum_by (fun p => sq (fsub p.2 meanY)) pts in
      let rSquared := if fgt ssTot (fconst 1 (10 ^ 15)) then fsub f1 (fdiv ssRes ssTot) else f0 in
      Ok (mkRegression slope intercept rSquared n).

(** ** wma.go *)

Record WMAConfig := mkWMAConfig { wma_WindowSize : Z; wma_DecayFactor : float64 }.

Record WMAResult := mkWMAResult {
  wr_WeightedRate : float64;
  wr_SampleCount : Z;
  wr_StdDev : float64
}.

(** The rates of the intervals that end at each sample of the list. *)
Fixpoint intervalRates (prev : Time * float64) (l : list (Time * float64)) : list float64 :=
  match l with
  | [] => []
  | cur :: l' =>
      let dt := dur_Seconds (time_Sub cur.1 prev.1) in
      if fle dt f0 then intervalRates cur l'
      else fdiv (fsub cur.2 prev.2) dt :: intervalRates cur l'
  end.

Section wma.
Context (math_Pow : float64 -> float64 -> float64).

Definition WeightedMovingAverage (cfg : WMAConfig) (timestamps : list Time)
    (values : list float64) : result WMAResult :=
  let n := len timestamps in
  if n <? 2 then Err "ml: WMA requires at least 2 data points"
  else if negb (n =? len values) then Err "ml: timestamps and values must have equal length"
  else
    let start := if (0 <? wma_WindowSize cfg) && (wma_WindowSize cfg <? n)
                 then n - wma_WindowSize cfg else 0 in
    let decay := if fle (wma_DecayFactor cfg) f0 || fge (wma_DecayFactor cfg) f1
                 then fconst 85 100 else wma_DecayFactor cfg in
    let rates := match slice_from (Z.max start 1 - 1) (zip timestamps values) with
                 | prev :: l => intervalRates prev l
                 | [] => []
                 end in
    let m := length rates in
    if (m =? 0)%nat then Ok (mkWMAResult f0 n f0)
    else
      let weighted := zip (map (fun i => math_Pow decay (f_of_Z (Z.of_nat (m - i - 1)))) (seq 0 m))
                        rates in
      let sumWeight := sum_by fst weighted in
      let weightedRate := fdiv (sum_by (fun p => fmul p.1 p.2) weighted) sumWeight in
      let sumVar := sum_by (fun p => let diff := fsub p.2 weightedRate in
                                     fmul (fmul p.1 diff) diff) weighted in
      Ok (mkWMAResult weightedRate n (fsqrt (fdiv sumVar sumWeight))).

End wma.

(** ** Well-formed baselines *)

Record wf (b : STLBaseline) : Prop := {
  wf_period : 0 < bl_Period b;
  wf_window : 0 < bl_windowSize b;
  wf_res : length (bl_residuals b) = Z.to_nat (bl_windowSize b);
  wf_seasonal : length (bl_seasonal b) = Z.to_nat (bl_Period b);
  wf_seasonN : length (bl_seasonN b) = Z.to_nat (bl_Period b);
  wf_head : 0 <= bl_resHead b < bl_windowSize b;
  wf_count : 0 <= bl_resCount b <= bl_windowSize b;
  wf_partial : bl_resCount b < bl_windowSize b -> bl_resHead b = bl_resCount b;
  wf_seen : 0 <= bl_totalSeen b
}.

Lemma NewSTLBaseline_wf key period : 0 < period -> wf (NewSTLBaseline key period).
Proof. intros H. split; simpl; unfold zeros; rewrite ?length_replicate; lia. Qed.

Lemma rem_next (h w : Z) : 0 <= h < w -> Z.rem (h + 1) w = if h + 1 <? w then h + 1 else 0.
Proof.
  intros H. rewrite Z.rem_mod_nonneg by lia. destruct (h + 1 <? w) eqn:E; zb.
  - apply Z.mod_small. lia.
  - replace (h + 1) with w by lia. apply Z.mod_same. lia.
Qed.

Lemma update_wf b v : wf b -> wf (update b v).
Proof.
  intros [Hp Hw Hr Hs Hn Hh Hc Hpart Hseen].
  split; simpl; unfold set_at; rewrite ?length_insert; try done; try lia.
  - rewrite rem_next by done. destruct (_ <? _) eqn:E; zb; lia.
  - destruct (bl_resCount b <? bl_windowSize b) eqn:E; zb; lia.
  - rewrite rem_next by done. destruct (bl_resCount b <? bl_windowSize b) eqn:E; zb; [|lia].
    intros H. rewrite (Hpart E), (proj2 (Z.ltb_lt _ _)) by lia. done.
Qed.

(** ** The residual ring is a queue of the last residuals *)

(** The residual that [update] stores. *)
Definition newResidual (b : STLBaseline) (v : float64) : float64 :=
  let u := update b v in
  residualOf v (bl_ewma u) (at_f (bl_seasonal u) (bl_seasonIdx u))
    (fdiv (bl_sumAll u) (f_of_Z (bl_totalSeen u))).

Definition lastN {A} (n : nat) (l : list A) : list A := drop (length l - n) l.

Lemma residualSlice_length b : wf b -> length (residualSlice b) = Z.to_nat (bl_resCount b).
Proof.
  intros [Hp Hw Hr Hs Hn Hh Hc Hpart Hseen]. unfold residualSlice, slice_to, slice_from.
  destruct (_ <? _) eqn:E; zb.
  - rewrite length_take. lia.
  - rewrite length_app, length_drop, length_take. lia.
Qed.

Lemma insert_take_drop {A} (l : list A) (i : nat) (x : A) :
  (i < length l)%nat -> <[i := x]> l = take i l ++ x :: drop (S i) l.
Proof. intros H. by apply insert_take_drop. Qed.

Lemma bucket_range b : wf b -> 0 <= Z.rem (bl_totalSeen b) (bl_Period b) < bl_Period b.
Proof.
  intros W. pose proof (wf_period _ W). pose proof (wf_seen _ W).
  rewrite Z.rem_mod_nonneg by lia. apply Z.mod_pos_bound. lia.
Qed.

Lemma newResidual_stored b v : wf b ->
  bl_residuals (update b v) = set_at (bl_residuals b) (bl_resHead b) (newResidual b v).
Proof.
  intros W. unfold newResidual. simpl. do 2 f_equal. unfold at_f, set_at.
  pose proof (bucket_range b W). pose proof (wf_seasonal _ W).
  rewrite list_lookup_insert_eq by lia. done.
Qed.

Lemma residualSlice_update b v : wf b ->
  residualSlice (update b v)
    = lastN (Z.to_nat (bl_windowSize b)) (residualSlice b ++ [newResidual b v]).
Proof.
  intros W. pose proof (residualSlice_length b W) as Hlen.
  unfold residualSlice at 1. rewrite newResidual_stored by done.
  set (r := newResidual b v). destruct W as [Hp Hw Hr Hs Hn Hh Hc Hpart Hseen].
  change (bl_resCount (update b v))
    with (if bl_resCount b <? bl_windowSize b then bl_resCount b + 1 else bl_resCount b).
  change (bl_windowSize (update b v)) with (bl_windowSize b).
  change (bl_resHead (update b v)) with (Z.rem (bl_resHead b + 1) (bl_windowSize b)).
  rewrite rem_next by done. unfold set_at, slice_to, slice_from, lastN.
  set (h := Z.to_nat (bl_resHead b)). set (l := bl_residuals b) in *.
  assert (h < length l)%nat as Hhl by lia.
  rewrite length_app, Hlen. simpl.
  destruct (bl_resCount b <? bl_windowSize b) eqn:E; zb.
  - assert (residualSlice b = take h l) as ->.
    { unfold residualSlice, slice_to. rewrite (proj2 (Z.ltb_lt _ _)) by done.
      by rewrite <- (Hpart E). }
    replace (Z.to_nat (bl_resCount b) + 1 - Z.to_nat (bl_windowSize b))%nat with 0%nat by lia.
    rewrite drop_0. specialize (Hpart E). rewrite insert_take_drop by done.
    assert (forall k, k = S h -> take k (take h l ++ r :: drop (S h) l) = take h l ++ [r]) as Htake.
    { intros k ->. rewrite take_app_ge by (rewrite length_take; lia).
      rewrite length_take_le by lia. replace (S h - h)%nat with 1%nat by lia. done. }
    destruct (bl_resCount b + 1 <? bl_windowSize b) eqn:E2; zb.
    + apply Htake. lia.
    + rewrite (proj2 (Z.ltb_ge _ _)) by lia. simpl. rewrite app_nil_r.
      by replace (drop (S h) l) with (@nil float64) by (symmetry; apply drop_ge; lia).
  - assert (residualSlice b = drop h l ++ take h l) as ->.
    { unfold residualSlice, slice_to, slice_from. by rewrite (proj2 (Z.ltb_ge _ _)) by lia. }
    replace (Z.to_nat (bl_resCount b) + 1 - Z.to_nat (bl_windowSize b))%nat with 1%nat by lia.
    rewrite insert_take_drop by done.
    assert (drop 1 ((drop h l ++ take h l) ++ [r]) = drop (S h) l ++ take h l ++ [r]) as ->.
    { rewrite <- app_assoc. rewrite drop_app_le by (rewrite length_drop; lia).
      rewrite drop_drop. by replace (h + 1)%nat with (S h) by lia. }
    destruct (bl_resHead b + 1 <? bl_windowSize b) eqn:E3; zb.
    + replace (Z.to_nat (bl_resHead b + 1)) with (S h) by lia.
      rewrite (proj2 (Z.ltb_ge (bl_resCount b) _)) by lia.
      rewrite take_app_ge, drop_app_ge by (rewrite length_take; lia).
      rewrite length_take_le by lia. replace (S h - h)%nat with 1%nat by lia. simpl.
      by rewrite drop_0.
    + replace (drop (S h) l) with (@nil float64) by (symmetry; apply drop_ge; lia).
      rewrite (proj2 (Z.ltb_ge (bl_resCount b) _)) by lia. simpl. by rewrite app_nil_r.
Qed.

(** ** Snapshots *)

Lemma liveResiduals_eq b : wf b -> liveResiduals b = residualSlice b.
Proof.
  intros W. apply list_eq_same_length with (Z.to_nat (bl_resCount b)).
  - by rewrite residualSlice_length.
  - unfold liveResiduals. by rewrite length_map, length_seq.
  - intros i x y Hi Hx Hy. unfold liveResiduals in Hx.
    rewrite list_lookup_fmap, lookup_seq_lt in Hx by lia. simpl in Hx. injection Hx as <-.
    destruct W as [Hp Hw Hr Hs Hn Hh Hc Hpart Hseen]. unfold at_f.
    unfold residualSlice, slice_to, slice_from in Hy.
    rewrite Z.rem_mod_nonneg by lia.
    destruct (bl_resCount b <? bl_windowSize b) eqn:E; zb.
    + rewrite lookup_take_lt in Hy by lia. rewrite (Hpart E).
      replace (bl_resCount b - bl_resCount b + Z.of_nat i + bl_windowSize b)
        with (Z.of_nat i + 1 * bl_windowSize b) by lia.
      rewrite Z.mod_add, Z.mod_small, Nat2Z.id by lia. by rewrite Hy.
    + replace (bl_resCount b) with (bl_windowSize b) by lia.
      replace (bl_resHead b - bl_windowSize b + Z.of_nat i + bl_windowSize b)
        with (bl_resHead b + Z.of_nat i) by lia.
      destruct (decide (i < length (drop (Z.to_nat (bl_resHead b)) (bl_residuals b)))%nat) as [Hl|Hl].
      * rewrite lookup_app_l in Hy by done. rewrite length_drop in Hl. rewrite lookup_drop in Hy.
        rewrite Z.mod_small by lia.
        replace (Z.to_nat (bl_resHead b + Z.of_nat i)) with (Z.to_nat (bl_resHead b) + i)%nat by lia.
        by rewrite Hy.
      * rewrite lookup_app_r in Hy by lia. rewrite length_drop in Hl, Hy.
        rewrite lookup_take_lt in Hy by lia.
        replace (bl_resHead b + Z.of_nat i)
          with (bl_resHead b + Z.of_nat i - bl_windowSize b + 1 * bl_windowSize b) by lia.
        rewrite Z.mod_add, Z.mod_small by lia.
        replace (Z.to_nat (bl_resHead b + Z.of_nat i - bl_windowSize b))
          with (i - (length (bl_residuals b) - Z.to_nat (bl_resHead b)))%nat by lia.
        by rewrite Hy.
Qed.

Definition reload (b : STLBaseline) (instanceID : string) (now : Time) : STLBaseline :=
  LoadFromSnapshot (TakeSnapshot b instanceID now).

Lemma copy_into_length {A} (dst src : list A) :
  (length src <= length dst)%nat -> length (copy_into dst src) = length dst.
Proof. intros H. unfold copy_into. rewrite length_app, length_take, length_drop. lia. Qed.

Lemma reload_residuals b i now : wf b ->
  bl_residuals (reload b i now)
    = residualSlice b ++ drop (Z.to_nat (bl_resCount b)) (zeros (bl_windowSize b)).
Proof.
  intros W. simpl. rewrite liveResiduals_eq by done. unfold copy_into.
  rewrite residualSlice_length by done. rewrite take_ge; [done|].
  rewrite residualSlice_length by done. unfold zeros. rewrite length_replicate.
  pose proof (wf_count _ W). lia.
Qed.

Lemma reload_wf b i now : wf b -> wf (reload b i now).
Proof.
  intros W. pose proof (reload_residuals b i now W) as Hres.
  pose proof (residualSlice_length b W) as Hlen.
  pose proof W as [Hp Hw Hr Hs Hn Hh Hc Hpart Hseen].
  split; try done.
  - rewrite Hres, length_app, Hlen, length_drop. unfold zeros. rewrite length_replicate. simpl. lia.
  - change (bl_resHead (reload b i now)) with (Z.rem (bl_resCount b) (bl_windowSize b)).
    change (bl_windowSize (reload b i now)) with (bl_windowSize b).
    rewrite Z.rem_mod_nonneg by lia. apply Z.mod_pos_bound. lia.
  - simpl. intros H. rewrite Z.rem_mod_nonneg by lia. apply Z.mod_small. lia.
Qed.

Lemma reload_slice b i now : wf b -> residualSlice (reload b i now) = residualSlice b.
Proof.
  intros W. pose proof (residualSlice_length b W) as Hlen.
  unfold residualSlice at 1. rewrite (reload_residuals b i now W).
  change (bl_resCount (reload b i now)) with (bl_resCount b).
  change (bl_windowSize (reload b i now)) with (bl_windowSize b).
  change (bl_resHead (reload b i now)) with (Z.rem (bl_resCount b) (bl_windowSize b)).
  destruct W as [Hp Hw Hr Hs Hn Hh Hc Hpart Hseen]. unfold slice_to, slice_from.
  destruct (_ <? _) eqn:E; zb.
  - apply take_app_length'. lia.
  - replace (bl_resCount b) with (bl_windowSize b) by lia. rewrite Z.rem_same by lia. simpl.
    rewrite drop_0, app_nil_r. rewrite drop_ge; [by rewrite app_nil_r|].
    unfold zeros. rewrite length_replicate. lia.
Qed.

(** ** Baselines that score alike *)

(** Everything a score depends on, now and after further updates. *)
Record alike (b c : STLBaseline) : Prop := {
  al_wf : wf b; al_wf' : wf c;
  al_period : bl_Period b = bl_Period c;
  al_window : bl_windowSize b = bl_windowSize c;
  al_slice : residualSlice b = residualSlice c;
  al_ewma : bl_ewma b = bl_ewma c;
  al_alpha : bl_ewmaAlpha b = bl_ewmaAlpha c;
  al_seasonal : bl_seasonal b = bl_seasonal c;
  al_seasonN : bl_seasonN b = bl_seasonN c;
  al_seen : bl_totalSeen b = bl_totalSeen c;
  al_sum : bl_sumAll b = bl_sumAll c
}.

Lemma alike_count b c : alike b c -> bl_resCount b = bl_resCount c.
Proof.
  intros H. pose proof (residualSlice_length b (al_wf _ _ H)) as H1.
  pose proof (residualSlice_length c (al_wf' _ _ H)) as H2.
  rewrite (al_slice _ _ H), H2 in H1.
  pose proof (wf_count _ (al_wf _ _ H)). pose proof (wf_count _ (al_wf' _ _ H)). lia.
Qed.

Lemma alike_newResidual b c v : alike b c -> newResidual b v = newResidual c v.
Proof.
  intros H. unfold newResidual, update. cbn [bl_ewma bl_seasonal bl_sumAll bl_totalSeen bl_seasonIdx].
  by rewrite (al_period _ _ H), (al_ewma _ _ H), (al_alpha _ _ H), (al_seasonal _ _ H),
    (al_seasonN _ _ H), (al_seen _ _ H), (al_sum _ _ H).
Qed.

Lemma alike_update b c v : alike b c -> alike (update b v) (update c v).
Proof.
  intros H. split.
  - apply update_wf, (al_wf _ _ H).
  - apply update_wf, (al_wf' _ _ H).
  - apply (al_period _ _ H).
  - apply (al_window _ _ H).
  - rewrite !residualSlice_update by apply H.
    by rewrite (al_window _ _ H), (al_slice _ _ H), (alike_newResidual _ _ v H).
  - simpl. by rewrite (al_seen _ _ H), (al_ewma _ _ H), (al_alpha _ _ H).
  - apply (al_alpha _ _ H).
  - simpl. by rewrite (al_period _ _ H), (al_seasonal _ _ H), (al_seasonN _ _ H), (al_seen _ _ H).
  - simpl. by rewrite (al_period _ _ H), (al_seasonN _ _ H), (al_seen _ _ H).
  - simpl. by rewrite (al_seen _ _ H).
  - simpl. by rewrite (al_sum _ _ H).
Qed.

Lemma reload_alike b i now : wf b -> alike b (reload b i now).
Proof.
  intros W. split; try done.
  - by apply reload_wf.
  - by rewrite reload_slice.
Qed.

Section scores.
Context {SS : SliceSort} (mean stddev : list float64 -> float64)
  (quantile : float64 -> list float64 -> float64).

Lemma alike_Score b c v :
  alike b c -> Score mean stddev quantile b v = Score mean stddev quantile c v.
Proof.
  intros H. unfold Score.
  by rewrite (alike_count _ _ H), (al_period _ _ H), (al_seen _ _ H), (al_ewma _ _ H),
    (al_seasonal _ _ H), (al_sum _ _ H), (al_slice _ _ H).
Qed.

(** The detector's use of a baseline: score each value, then update with it. *)
Fixpoint scoreRun (b : STLBaseline) (values : list float64) : list (float64 * bool) :=
  match values with
  | [] => []
  | v :: values' => Score mean stddev quantile b v :: scoreRun (update b v) values'
  end.

Lemma alike_scoreRun values : forall b c, alike b c -> scoreRun b values = scoreRun c values.
Proof.
  induction values as [|v values IH]; intros b c H; simpl; [done|].
  f_equal; [by apply alike_Score|by apply IH, alike_update].
Qed.

End scores.

(** The baseline after a history of values. *)
Definition fit (b : STLBaseline) (values : list float64) : STLBaseline := foldl update b values.

Lemma fit_wf values : forall b, wf b -> wf (fit b values).
Proof. induction values as [|v values IH]; intros b W; simpl; [done|]. by apply IH, update_wf. Qed.

(** The residuals of a history, one per value. *)
Fixpoint residualsOf (b : STLBaseline) (values : list float64) : list float64 :=
  match values with
  | [] => []
  | v :: values' => newResidual b v :: residualsOf (update b v) values'
  end.

Lemma lastN_app {A} (n : nat) (l m : list A) : lastN n (lastN n l ++ m) = lastN n (l ++ m).
Proof.
  unfold lastN. rewrite !length_app, length_drop.
  destruct (decide (length l <= n)%nat).
  { replace (length l - n)%nat with 0%nat by lia. by rewrite drop_0, Nat.sub_0_r. }
  replace (length l - (length l - n) + length m - n)%nat with (length m)%nat by lia.
  destruct (decide (length m <= n)%nat).
  - rewrite (drop_app_le l) by lia. rewrite drop_app_le by (rewrite length_drop; lia).
    rewrite drop_drop. do 2 f_equal. lia.
  - rewrite (drop_app_ge l) by lia. rewrite drop_app_ge by (rewrite length_drop; lia).
    rewrite length_drop. f_equal. lia.
Qed.

Lemma fit_window b values : bl_windowSize (fit b values) = bl_windowSize b.
Proof. revert b. induction values as [|v values IH]; intros b; simpl; [done|]. by rewrite IH. Qed.

Lemma lastN_short {A} (n : nat) (l : list A) : (length l <= n)%nat -> lastN n l = l.
Proof. intros H. unfold lastN. by replace (length l - n)%nat with 0%nat by lia. Qed.

Lemma residualSlice_fit values : forall b, wf b ->
  residualSlice (fit b values)
    = lastN (Z.to_nat (bl_windowSize b)) (residualSlice b ++ residualsOf b values).
Proof.
  induction values as [|v values IH]; intros b W; cbn [fit foldl residualsOf].
  { rewrite app_nil_r, lastN_short; [done|]. rewrite residualSlice_length by done.
    pose proof (wf_count _ W). lia. }
  fold (fit (update b v) values). rewrite IH by by apply update_wf.
  change (bl_windowSize (update b v)) with (bl_windowSize b).
  rewrite residualSlice_update by done. rewrite lastN_app, <- app_assoc. done.
Qed.

(** ** Properties *)

(** The residual ring is a bounded queue. After any history of values, a new baseline's
    residuals are, in time order, the residuals of the last [windowSize] values. *)
Theorem residual_ring_is_queue (key : string) (period : Z) (values : list float64) :
  0 < period ->
  residualSlice (fit (NewSTLBaseline key period) values)
    = lastN (Z.to_nat (Z.max (3 * period) 1000)) (residualsOf (NewSTLBaseline key period) values).
Proof.
  intros Hp. rewrite residualSlice_fit by by apply NewSTLBaseline_wf.
  unfold residualSlice at 1. simpl. destruct (0 <? _) eqn:E; zb; [done|lia].
Qed.

(** A restart does not change detection. For a baseline with any history, saving a snapshot
    and loading it gives a baseline that scores every later sequence of values exactly as the
    one that kept running, for any statistics functions and any sorting. *)
Theorem snapshot_preserves_scores {SS : SliceSort} (mean stddev : list float64 -> float64)
    (quantile : float64 -> list float64 -> float64) (key instanceID : string) (period : Z)
    (history later : list float64) (now : Time) :
  0 < period ->
  let b := fit (NewSTLBaseline key period) history in
  scoreRun mean stddev quantile (LoadFromSnapshot (TakeSnapshot b instanceID now)) later
    = scoreRun mean stddev quantile b later.
Proof.
  intros Hp b. symmetry. apply alike_scoreRun, reload_alike, fit_wf.
  by apply NewSTLBaseline_wf.
Qed.

(** A restart shifts forecasts by one season slot. A running baseline forecasts step [k]
    with the seasonal slot [k] after the slot of its last value; a reloaded one starts one slot
    later. *)
Theorem reload_shifts_forecast_season (key instanceID : string) (period : Z)
    (history : list float64) (v : float64) (now : Time) :
  0 < period ->
  let b := fit (NewSTLBaseline key period) (history ++ [v]) in
  bl_seasonIdx (LoadFromSnapshot (TakeSnapshot b instanceID now))
    = Z.rem (bl_seasonIdx b + 1) period.
Proof.
  intros Hp b. subst b. unfold fit. rewrite foldl_app. cbn [foldl].
  fold (fit (NewSTLBaseline key period) history). set (c := fit _ history).
  assert (bl_Period c = period) as Hper.
  { subst c. generalize (NewSTLBaseline key period) (eq_refl : bl_Period (NewSTLBaseline key period) = period).
    clear. induction history as [|x l IH]; intros b Hb; [done|]. by apply IH. }
  pose proof (fit_wf history _ (NewSTLBaseline_wf key period Hp)) as W. fold c in W.
  pose proof (wf_seen _ W). simpl. rewrite Hper, (proj2 (Z.ltb_lt 0 period)) by lia.
  rewrite (Z.rem_mod_nonneg (bl_totalSeen c) period) by lia.
  pose proof (Z.mod_pos_bound (bl_totalSeen c) period).
  rewrite !Z.rem_mod_nonneg by lia. by rewrite Zplus_mod_idemp_l.
Qed.

(** A forecast counts the mean twice. The seasonal slots hold the mean of the values
    themselves, and the forecast adds them to the trend: a metric that was constantly 8 over
    two full seasons is forecast to be 16. *)
Theorem forecast_doubles_constant :
  let b := fit (NewSTLBaseline "m" 2) (replicate 4 (f_of_Z 8)) in
  option_map (map fp_Value) (Forecast b 2 (f_of_Z 3) Minute 0) = Some [f_of_Z 16; f_of_Z 16].
Proof. vm_compute. reflexivity. Qed.

Lemma residual_ring_is_queue_witness :
  length (residualSlice (fit (NewSTLBaseline "m" 2) [f1; f1; f1])) = 3%nat.
Proof.
  rewrite (residual_ring_is_queue "m" 2 [f1; f1; f1] ltac:(lia)). vm_compute. reflexivity.
Defined.

Lemma snapshot_preserves_scores_witness :
  let b := fit (NewSTLBaseline "m" 2) [f1; f_of_Z 2; f1; f_of_Z 3] in
  @scoreRun insertion_SliceSort fsum residualStddev (fun _ => fsum)
    (LoadFromSnapshot (TakeSnapshot b "db1" 0)) [f_of_Z 9; f1]
  = @scoreRun insertion_SliceSort fsum residualStddev (fun _ => fsum) b [f_of_Z 9; f1].
Proof.
  exact (@snapshot_preserves_scores insertion_SliceSort fsum residualStddev (fun _ => fsum)
           "m" "db1" 2 [f1; f_of_Z 2; f1; f_of_Z 3] [f_of_Z 9; f1] 0 eq_refl).
Defined.

Lemma reload_shifts_forecast_season_witness :
  let b := fit (NewSTLBaseline "m" 3) ([f1; f1; f1] ++ [f1]) in
  bl_seasonIdx b = 0 /\
  bl_seasonIdx (LoadFromSnapshot (TakeSnapshot b "db1" 0)) = Z.rem (bl_seasonIdx b + 1) 3.
Proof.
  split; [vm_compute; reflexivity|].
  exact (reload_shifts_forecast_season "m" "db1" 3 [f1; f1; f1] f1 0 eq_refl).
Defined.
