(* ===== verification/MlDetector.v ===== *)
(** * Anomaly detector

    Models internal/ml/detector.go and internal/ml/detector_alert.go: the map of baselines,
    its bootstrap from snapshots and history, the evaluation of points, persistence and
    forecasts. The persistence store and the alert evaluator are interfaces of the code. *)
From S2P Require Import Prelude Float64 Metric Alert Ml.

Local Open Scope Z_scope.

Record AnomalyResult := mkAnomalyResult {
  ar_InstanceID : string;
  ar_Metric : string;
  ar_Value : float64;
  ar_ZScore : float64;
  ar_IsIQR : bool;
  ar_IsAnomaly : bool;
  ar_Timestamp : Time
}.

(** [Evaluate metric value labels] of collector.AlertEvaluator. *)
Class AlertEvaluator (E : Type) := {
  ae_Evaluate : E -> string -> float64 -> Labels -> E * option error
}.

(** persistence.go: the operations the detector calls. *)
Class PersistenceStore (P : Type) := {
  ps_Save : P -> BaselineSnapshot -> P * option error;
  ps_LoadAll : P -> result (list BaselineSnapshot)
}.

Record Detector := mkDetector {
  dt_config : DetectorConfig;
  dt_baselines : gmap string STLBaseline;
  dt_bootstrapped : bool
}.

Definition NewDetector (cfg : DetectorConfig) : Detector := mkDetector cfg ∅ false.

Definition metricConfig (d : Detector) (key : string) : option MetricConfig :=
  List.find (fun mc => bool_decide (mc_Key mc = key)) (dc_Metrics (dt_config d)).

Definition baselineKey (instanceID metric : string) : string := instanceID +:+ ":" +:+ metric.

Definition set_baselines (bs : gmap string STLBaseline) (d : Detector) : Detector :=
  mkDetector (dt_config d) bs (dt_bootstrapped d).

(** ** Bootstrap *)

Definition staleness (cfg : DetectorConfig) (mc : MetricConfig) : Duration :=
  i64 (i64 (2 * mc_Period mc) * dc_CollectionInterval cfg).

(** Phase 1: a snapshot of an enabled metric that is not older than two seasons. *)
Definition loadSnapshot (age : BaselineSnapshot -> Duration) (acc : Detector * gset string)
    (snap : BaselineSnapshot) : Detector * gset string :=
  let '(d, persisted) := acc in
  match metricConfig d (bs_MetricKey snap) with
  | None => acc
  | Some mc =>
      if negb (mc_Enabled mc) then acc
      else
        if staleness (dt_config d) mc <? age snap then acc
        else
          let key := baselineKey (bs_InstanceID snap) (bs_MetricKey snap) in
          (set_baselines (<[key := LoadFromSnapshot snap]> (dt_baselines d)) d,
           {[key]} ∪ persisted)
  end.

(** Replay: points are fed from the last returned to the first. [None] is a panic: a negative
    length in the constructor or a division by a zero period. *)
Definition replay (mc : MetricConfig) (points : list MetricPoint) : option STLBaseline :=
  if mc_Period mc <? 0 then None
  else foldl (fun ob p => b ← ob; Update b (pt_Value p))
         (Some (NewSTLBaseline (mc_Key mc) (mc_Period mc))) (reverse points).

Section detector.
Context {SS : SliceSort} {MR : MapRange}.
Context (stat_Mean stat_StdDev : list float64 -> float64)
  (stat_Quantile : float64 -> list float64 -> float64).
(** strconv's shortest rendering of a float. *)
Context (formatFloat : float64 -> string).
Context {M E P : Type} {HM : MetricStore M} {HE : AlertEvaluator E} {HP : PersistenceStore P}.

(** One (instance, metric) of phase 2. [clock] gives the two readings of the query's range. *)
Definition replayMetric (m : M) (clock : string -> Time * Time) (persisted : gset string)
    (instanceID : string) (od : option Detector) (mc : MetricConfig) : option Detector :=
  d ← od;
  let key := baselineKey instanceID (mc_Key mc) in
  if negb (mc_Enabled mc) || bool_decide (key ∈ persisted) then Some d
  else
    let windowSize := Z.max (3 * mc_Period mc) 1000 in
    let lookback := i64 (windowSize * dc_CollectionInterval (dt_config d)) in
    match ms_Query m (mkQuery instanceID (mc_Key mc) ∅ (time_Add (clock key).1 (i64 (- lookback)))
                        (clock key).2 windowSize) with
    | Err _ => Some d
    | Ok points =>
        if len points <? mc_Period mc * 2 then Some d
        else b ← replay mc points; Some (set_baselines (<[key := b]> (dt_baselines d)) d)
    end.

Definition Bootstrap (d : Detector) (m : M) (persist : option P)
    (instances : result (list string)) (age : BaselineSnapshot -> Duration)
    (clock : string -> Time * Time) : option (Detector * option error) :=
  let '(d1, persisted) :=
    match persist with
    | None => (d, ∅)
    | Some p => match ps_LoadAll p with
                | Err _ => (d, ∅)
                | Ok snaps => foldl (loadSnapshot age) (d, ∅) snaps
                end
    end in
  match instances with
  | Err e => Some (d1, Some ("listing instances for ML bootstrap: " +:+ e))
  | Ok ids =>
      d2 ← foldl (fun od inst =>
             foldl (replayMetric m clock persisted inst) od (dc_Metrics (dt_config d1)))
             (Some d1) ids;
      Some (mkDetector (dt_config d2) (dt_baselines d2) true, None)
  end.

(** ** Evaluate *)

Definition isAnomalous (cfg : DetectorConfig) (az : float64) (isIQR : bool) : bool :=
  if decide (dc_AnomalyLogic cfg = "and") then fge az (dc_ZScoreWarn cfg) && isIQR
  else fge az (dc_ZScoreWarn cfg) || isIQR.

Definition anomalyMethod (cfg : DetectorConfig) (az : float64) (isIQR : bool) : string :=
  if isIQR && flt az (dc_ZScoreWarn cfg) then "iqr" else if isIQR then "both" else "zscore".

Definition anomalyLabels (cfg : DetectorConfig) (p : MetricPoint) (az : float64) (isIQR : bool)
    : Labels :=
  list_to_map [("instance_id", pt_InstanceID p); ("original_metric", pt_Metric p);
               ("method", anomalyMethod cfg az isIQR);
               ("original_value", formatFloat (pt_Value p))].

(** One point of a batch; [None] is the panic of a baseline with period zero. *)
Definition evalPoint (acc : option (Detector * E * list AnomalyResult)) (p : MetricPoint)
    : option (Detector * E * list AnomalyResult) :=
  '(d, e, results) ← acc;
  let key := baselineKey (pt_InstanceID p) (pt_Metric p) in
  match dt_baselines d !! key with
  | None => Some (d, e, results)
  | Some b =>
      if negb (Ready b) then Some (d, e, results)
      else
        b' ← Update b (pt_Value p);
        let '(zScore, isIQR) := Score stat_Mean stat_StdDev stat_Quantile b (pt_Value p) in
        let d' := set_baselines (<[key := b']> (dt_baselines d)) d in
        let az := fabs zScore in
        if isAnomalous (dt_config d) az isIQR then
          let r := mkAnomalyResult (pt_InstanceID p) (pt_Metric p) (pt_Value p) zScore isIQR true
                     (pt_Timestamp p) in
          let '(e', _) := ae_Evaluate e ("anomaly." +:+ pt_Metric p) az
                            (anomalyLabels (dt_config d) p az isIQR) in
          Some (d', e', results ++ [r])
        else Some (d', e, results)
  end.

(** The final loop of [Evaluate]: one snapshot per baseline, under the part of its key before
    the first colon. *)
Definition persistAll (now : Time) (d : Detector) (p : P) : P :=
  foldl (fun p kv => match SplitN colon 2 kv.1 with
                     | [inst; _] => fst (ps_Save p (TakeSnapshot kv.2 inst now))
                     | _ => p
                     end) p (map_range (dt_baselines d)).

Definition Evaluate (d : Detector) (e : E) (persist : option P) (now : Time)
    (points : list MetricPoint) : option (Detector * E * option P * list AnomalyResult) :=
  '(d', e', results) ← foldl evalPoint (Some (d, e, [])) points;
  Some (d', e', option_map (persistAll now d') persist, results).

(** ** Forecasts, for a horizon of at least zero *)

Definition ErrNotBootstrapped : error := "ml detector not yet bootstrapped".
Definition ErrNoBaseline : error := "no fitted baseline for this metric".

Definition detectorForecast (d : Detector) (instanceID metricKey : string) (horizon : Z)
    (now : Time) : result ForecastResult :=
  if negb (dt_bootstrapped d) then Err ErrNotBootstrapped
  else match dt_baselines d !! baselineKey instanceID metricKey with
       | None => Err ErrNoBaseline
       | Some b =>
           let cfg := dt_config d in
           let z := if fgt (dc_ForecastZ cfg) f0 then dc_ForecastZ cfg else dc_ZScoreWarn cfg in
           match Forecast b horizon z (dc_CollectionInterval cfg) now with
           | None => Err ErrNoBaseline
           | Some points =>
               Ok (mkForecastResult instanceID metricKey now
                     (f_trunc (dur_Seconds (dc_CollectionInterval cfg))) horizon z points)
           end
       end.

Definition ForecastForAlert (d : Detector) (now : Time) (instanceID metricKey : string)
    (horizon : Z) : result (list AlertForecastPoint) :=
  r ← detectorForecast d instanceID metricKey horizon now;
  Ok (map (fun p => mkAlertForecastPoint (fp_Offset p) (fp_Value p) (fp_Lower p) (fp_Upper p))
        (fr_Points r)).


(** ** Evaluation, key by key *)

Definition pointKey (p : MetricPoint) : string := baselineKey (pt_InstanceID p) (pt_Metric p).
Definition resultKey (r : AnomalyResult) : string := baselineKey (ar_InstanceID r) (ar_Metric r).

(** The points of a batch that belong to a key, and the reported anomalies of a key. *)
Definition pointsOf (key : string) (points : list MetricPoint) : list MetricPoint :=
  filter (fun p => pointKey p = key) points.
Definition resultsOf (key : string) (results : list AnomalyResult) : list AnomalyResult :=
  filter (fun r => resultKey r = key) results.

(** What a score means: the anomaly reported for a point, if any. *)
Definition verdict (cfg : DetectorConfig) (ps : MetricPoint * (float64 * bool))
    : option AnomalyResult :=
  let '(p, (z, iqr)) := ps in
  if isAnomalous cfg (fabs z) iqr
  then Some (mkAnomalyResult (pt_InstanceID p) (pt_Metric p) (pt_Value p) z iqr true
               (pt_Timestamp p))
  else None.

(** The baselines of a batch, with every history value fed to ready baselines only. *)
Definition learned (key : string) (points : list MetricPoint) (b : STLBaseline) : STLBaseline :=
  if Ready b then fit b (map pt_Value (pointsOf key points)) else b.

Definition wf_detector (d : Detector) : Prop := map_Forall (fun _ b => wf b) (dt_baselines d).

Lemma update_ready b v : wf b -> Ready b = true -> Ready (update b v) = true.
Proof.
  unfold Ready. intros W H. zb. pose proof (wf_count _ W). simpl.
  destruct (bl_resCount b <? bl_windowSize b); lia.
Qed.

Lemma Update_wf b v : wf b -> Update b v = Some (update b v).
Proof.
  intros W. unfold Update. pose proof (wf_period _ W).
  by rewrite (proj2 (Z.eqb_neq _ _)) by lia.
Qed.


(** What a batch reports for a key whose baseline is [b]. *)
Definition reported (cfg : DetectorConfig) (key : string) (points : list MetricPoint)
    (b : STLBaseline) : list AnomalyResult :=
  if Ready b
  then omap (verdict cfg) (zip (pointsOf key points)
         (scoreRun stat_Mean stat_StdDev stat_Quantile b (map pt_Value (pointsOf key points))))
  else [].

Lemma pointsOf_app key points points' :
  pointsOf key (points ++ points') = pointsOf key points ++ pointsOf key points'.
Proof. apply filter_app. Qed.

Lemma pointsOf_cons key p points :
  pointsOf key (p :: points) = pointsOf key [p] ++ pointsOf key points.
Proof. apply (pointsOf_app key [p]). Qed.

Lemma pointsOf_self p : pointsOf (pointKey p) [p] = [p].
Proof. unfold pointsOf. by rewrite filter_cons_True. Qed.

Lemma pointsOf_other key p : key <> pointKey p -> pointsOf key [p] = [].
Proof. intros H. unfold pointsOf. rewrite filter_cons_False; [done|congruence]. Qed.

Lemma learned_ready key points b : wf b -> wf (learned key points b) /\
  Ready (learned key points b) = Ready b.
Proof.
  intros W. unfold learned. destruct (Ready b) eqn:R; [|done].
  generalize (map pt_Value (pointsOf key points)); intros vs. revert b W R.
  induction vs as [|v vs IH]; intros b W R; [done|].
  apply IH; [by apply update_wf|by apply update_ready].
Qed.

Lemma learned_cons key p points b : wf b ->
  learned key (p :: points) b = learned key points (learned key [p] b).
Proof.
  intros W. unfold learned at 2. rewrite (proj2 (learned_ready key [p] b W)).
  unfold learned. rewrite pointsOf_cons. destruct (Ready b); [|done].
  by rewrite map_app; unfold fit; rewrite foldl_app.
Qed.

Lemma reported_cons cfg key p points b : wf b ->
  reported cfg key (p :: points) b
    = reported cfg key [p] b ++ reported cfg key points (learned key [p] b).
Proof.
  intros W. unfold reported. rewrite (proj2 (learned_ready key [p] b W)).
  rewrite pointsOf_cons. unfold learned. destruct (Ready b) eqn:R; [|done].
  destruct (decide (key = pointKey p)) as [->|Hk].
  - rewrite pointsOf_self. cbn [app map zip zip_with scoreRun omap list_omap]. by case_match.
  - by rewrite (pointsOf_other _ _ Hk).
Qed.

Lemma fit_ready b vs : wf b -> Ready b = true -> Ready (fit b vs) = true.
Proof.
  revert b. induction vs as [|v vs IH]; intros b W R; [done|].
  apply IH; [by apply update_wf|by apply update_ready].
Qed.

(** The effect of one point. *)
Lemma evalPoint_step (d : Detector) (e : E) acc (p : MetricPoint) :
  wf_detector d ->
  exists d' e' rs, evalPoint (Some (d, e, acc)) p = Some (d', e', acc ++ rs) /\
    dt_config d' = dt_config d /\ dt_bootstrapped d' = dt_bootstrapped d /\
    (forall k, dt_baselines d' !! k = learned k [p] <$> dt_baselines d !! k) /\
    (forall k b, dt_baselines d !! k = Some b ->
       resultsOf k rs = reported (dt_config d) k [p] b).
Proof.
  intros W. unfold evalPoint. cbn [mbind option_bind].
  fold (pointKey p). destruct (dt_baselines d !! pointKey p) as [b|] eqn:Hb.
  2:{ exists d, e, []. rewrite app_nil_r. split_and!; try done; intros k.
      - destruct (dt_baselines d !! k) as [c|] eqn:Hc; simpl; [|done]. unfold learned.
        rewrite pointsOf_other by congruence. simpl. by destruct (Ready c).
      - intros c Hc. unfold reported. rewrite pointsOf_other by congruence. by destruct (Ready c). }
  pose proof (W _ _ Hb) as Wb. simpl in Wb.
  destruct (Ready b) eqn:R; simpl negb; cbv iota.
  2:{ exists d, e, []. rewrite app_nil_r. split_and!; try done; intros k.
      - destruct (dt_baselines d !! k) as [c|] eqn:Hc; simpl; [|done]. unfold learned.
        destruct (decide (k = pointKey p)) as [->|Hk].
        + assert (c = b) as -> by congruence. by rewrite R.
        + rewrite pointsOf_other by done. simpl. by destruct (Ready c).
      - intros c Hc. unfold reported. destruct (decide (k = pointKey p)) as [->|Hk].
        + assert (c = b) as -> by congruence. by rewrite R.
        + rewrite pointsOf_other by done. by destruct (Ready c). }
  rewrite (Update_wf _ _ Wb). cbn [mbind option_bind].
  destruct (Score _ _ _ b (pt_Value p)) as [z iqr] eqn:HS. cbv zeta.
  set (d' := set_baselines _ d).
  assert (forall k, dt_baselines d' !! k = learned k [p] <$> dt_baselines d !! k) as Hd'.
  { intros k. subst d'. simpl. destruct (decide (k = pointKey p)) as [->|Hk].
    - rewrite lookup_insert_eq, Hb. simpl. unfold learned. by rewrite R, pointsOf_self.
    - rewrite lookup_insert_ne by done. destruct (dt_baselines d !! k) as [c|]; simpl; [|done].
      unfold learned. rewrite pointsOf_other by done. simpl. by destruct (Ready c). }
  assert (forall k b0 rs, dt_baselines d !! k = Some b0 ->
    (k = pointKey p -> resultsOf k rs = omap (verdict (dt_config d)) [(p, (z, iqr))]) ->
    (k <> pointKey p -> resultsOf k rs = []) ->
    resultsOf k rs = reported (dt_config d) k [p] b0) as Hrep.
  { intros k b0 rs Hb0 H1 H2. destruct (decide (k = pointKey p)) as [->|Hk].
    - assert (b0 = b) as -> by congruence. rewrite (H1 eq_refl). unfold reported.
      rewrite R, pointsOf_self. simpl. by rewrite HS.
    - rewrite (H2 Hk). unfold reported. rewrite pointsOf_other by done. by destruct (Ready b0). }
  destruct (isAnomalous (dt_config d) (fabs z) iqr) eqn:HA.
  - destruct (ae_Evaluate _ _ _ _) as [e' err]. eexists d', e', [_].
    split; [reflexivity|]. split_and!; try done.
    intros k b0 Hb0. eapply Hrep; [done|..].
    + intros ->. unfold resultsOf. rewrite filter_cons_True by done. simpl. by rewrite HA.
    + intros Hk. unfold resultsOf. rewrite filter_cons_False; [done|]. unfold resultKey. simpl. 
      fold (pointKey p). congruence.
  - exists d', e, []. rewrite app_nil_r. split_and!; try done.
    intros k b0 Hb0. eapply Hrep; [done|..]; intros; simpl; by rewrite ?HA.
Qed.

Lemma wf_learned (d d' : Detector) (points : list MetricPoint) :
  wf_detector d -> (forall k, dt_baselines d' !! k = learned k points <$> dt_baselines d !! k) ->
  wf_detector d'.
Proof.
  intros W H k b Hb. rewrite H in Hb. apply fmap_Some in Hb as (c & Hc & ->).
  by apply learned_ready, (W _ _ Hc).
Qed.

Lemma evalPoint_fold points : forall (d : Detector) (e : E) acc,
  wf_detector d ->
  exists d' e' rs, foldl evalPoint (Some (d, e, acc)) points = Some (d', e', acc ++ rs) /\
    dt_config d' = dt_config d /\ dt_bootstrapped d' = dt_bootstrapped d /\
    (forall k, dt_baselines d' !! k = learned k points <$> dt_baselines d !! k) /\
    (forall k b, dt_baselines d !! k = Some b ->
       resultsOf k rs = reported (dt_config d) k points b).
Proof.
  induction points as [|p points IH]; intros d e acc W.
  - exists d, e, []. rewrite app_nil_r. split_and!; try done; intros k.
    + destruct (dt_baselines d !! k) as [c|]; simpl; [|done]. unfold learned. by destruct (Ready c).
    + intros c Hc. unfold reported. by destruct (Ready c).
  - destruct (evalPoint_step d e acc p W) as (d1 & e1 & r1 & H1 & Hc1 & Hb1 & Hl1 & Hr1).
    destruct (IH d1 e1 (acc ++ r1)) as (d2 & e2 & r2 & H2 & Hc2 & Hb2 & Hl2 & Hr2).
    { by eapply (wf_learned d d1 [p]). }
    exists d2, e2, (r1 ++ r2). cbn [foldl]. rewrite H1, H2, <- app_assoc.
    split_and!; try congruence; intros k.
    + rewrite Hl2, Hl1. destruct (dt_baselines d !! k) as [c|] eqn:Hc; simpl; [|done].
      f_equal. symmetry. apply learned_cons, (W _ _ Hc).
    + intros b Hb. unfold resultsOf. rewrite filter_app. fold (resultsOf k r1) (resultsOf k r2).
      rewrite (Hr1 _ _ Hb), (Hr2 k (learned k [p] b)), Hc1 by by rewrite Hl1, Hb.
      symmetry. apply reported_cons, (W _ _ Hb).
Qed.

(** What a client of the detector relies on. *)
Lemma evaluate_total (d : Detector) (e : E) (persist : option P) (now : Time)
    (points : list MetricPoint) :
  wf_detector d ->
  exists d' e' persist' results,
    Evaluate d e persist now points = Some (d', e', persist', results) /\ wf_detector d' /\
    forall k, dt_baselines d' !! k = learned k points <$> dt_baselines d !! k.
Proof.
  intros W. destruct (evalPoint_fold points d e [] W) as (d' & e' & rs & H & _ & _ & Hl & _).
  unfold Evaluate. rewrite H. simpl. do 4 eexists. split; [reflexivity|].
  split; [by eapply wf_learned|done].
Qed.

(** ** Properties *)

(** Evaluation never panics on well-formed baselines and treats every instance and metric on
    its own. Each baseline that was ready has learned exactly its own points, in order, and a
    cold one has learned nothing; the anomalies reported for a key are, in order, the verdicts
    on the scores that its baseline alone gives to its own points. *)
Theorem evaluate_per_key (d : Detector) (e : E) (persist : option P) (now : Time)
    (points : list MetricPoint) :
  wf_detector d ->
  exists d' e' persist' results,
    Evaluate d e persist now points = Some (d', e', persist', results) /\
    dt_config d' = dt_config d /\ dt_bootstrapped d' = dt_bootstrapped d /\ wf_detector d' /\
    (forall k, dt_baselines d' !! k = learned k points <$> dt_baselines d !! k) /\
    (forall k b, dt_baselines d !! k = Some b ->
       resultsOf k results = reported (dt_config d) k points b).
Proof.
  intros W. destruct (evalPoint_fold points d e [] W) as (d' & e' & rs & H & Hc & Hb & Hl & Hr).
  unfold Evaluate. rewrite H. simpl. do 4 eexists. split; [reflexivity|].
  split_and!; try done. by eapply wf_learned.
Qed.

End detector.

(** ** A concrete detector *)

Definition demoConfig : DetectorConfig :=
  mkDetectorConfig true (f_of_Z 3) (f_of_Z 5) f0 "or" [mkMetricConfig "m" 2 true 0] Minute.

Definition demoMean (l : list float64) : float64 := fdiv (fsum l) (f_of_Z (len l)).

(** The extremes in place of the quartiles. *)
Definition demoQuantile (q : float64) (l : list float64) : float64 :=
  default f0 (if flt q (fconst 1 2) then head l else last l).

Definition demoBaseline : STLBaseline :=
  fit (NewSTLBaseline "m" 2) [f1; f_of_Z 2; f1; f_of_Z 2; f1; f_of_Z 4].

Definition demoDetector : Detector :=
  mkDetector demoConfig {[baselineKey "db1" "m" := demoBaseline]} true.

Lemma demoDetector_wf : wf_detector demoDetector.
Proof. apply map_Forall_singleton. by apply fit_wf, NewSTLBaseline_wf. Qed.

#[local] Instance quietEvaluator : AlertEvaluator unit := {| ae_Evaluate := fun _ _ _ _ => ((), None) |}.
#[local] Instance quietStore : PersistenceStore unit :=
  {| ps_Save := fun _ _ => ((), None); ps_LoadAll := fun _ => Ok [] |}.

Abbreviation demoPoints :=
  [mkPoint "db1" "m" f1 ∅ 1; mkPoint "db2" "m" f1 ∅ 1; mkPoint "db1" "m" (f_of_Z 90) ∅ 2].

Lemma demo_verdicts :
  map ar_Timestamp (@reported insertion_SliceSort demoMean residualStddev demoQuantile demoConfig
                      (baselineKey "db1" "m") demoPoints demoBaseline) = [2].
Proof. vm_compute. reflexivity. Qed.

Lemma evaluate_per_key_witness :
  exists d' e' persist' results,
    @Evaluate insertion_SliceSort canonical_MapRange demoMean residualStddev demoQuantile
      (fun _ => "") unit unit quietEvaluator quietStore demoDetector tt None 3 demoPoints
      = Some (d', e', persist', results) /\
    map ar_Timestamp (resultsOf (baselineKey "db1" "m") results) = [2].
Proof.
  destruct (@evaluate_per_key insertion_SliceSort canonical_MapRange demoMean residualStddev demoQuantile (fun _ => "") unit unit quietEvaluator quietStore demoDetector tt
              None 3 demoPoints demoDetector_wf)
    as (d' & e' & p' & rs & H & _ & _ & _ & _ & Hr).
  exists d', e', p', rs. split; [exact H|].
  rewrite (Hr (baselineKey "db1" "m") demoBaseline (lookup_singleton_eq _ _)).
  exact demo_verdicts.
Defined.
