(* ===== verification/MlRestart.v ===== *)
(** * Persistence and bootstrap of the anomaly detector

    Models internal/ml/persistence.go (the snapshot table and its JSON states) and shows how
    the detector's persistence, its bootstrap and its evaluation fit together across a
    restart of the process. *)
From S2P Require Import Prelude Float64 Metric Ml MlDetector.

Local Open Scope Z_scope.

(** ** persistence.go *)

(** [json.Marshal] refuses NaN and infinities. *)
Definition json_float (x : float64) : bool := negb (is_nan x) && negb (is_infinite x).

Definition json_ok (s : BaselineSnapshot) : bool :=
  json_float (bs_EWMA s) && json_float (bs_EWMAAlpha s) && forallb json_float (bs_Seasonal s)
    && forallb json_float (bs_Residuals s) && json_float (bs_SumAll s).

(** The table, by its unique key (instance_id, metric_key). *)
Abbreviation SnapshotTable := (gmap (string * string) BaselineSnapshot).

Definition Save (t : SnapshotTable) (snap : BaselineSnapshot) : SnapshotTable * option error :=
  if json_ok snap then (<[(bs_InstanceID snap, bs_MetricKey snap) := snap]> t, None)
  else (t, Some "json: unsupported value").

Definition Load (t : SnapshotTable) (instanceID metricKey : string) : result BaselineSnapshot :=
  match t !! (instanceID, metricKey) with
  | Some snap => Ok snap
  | None => Err "no rows in result set"
  end.

(** In the order of the database's collation. *)
Definition LoadAll {MR : MapRange} (t : SnapshotTable) : result (list BaselineSnapshot) :=
  Ok (map snd (map_range t)).

#[export] Instance DBPersistenceStore {MR : MapRange} : PersistenceStore SnapshotTable := {|
  ps_Save := Save; ps_LoadAll := LoadAll
|}.

(** Every row's state names the row's own key, and its instance id has no colon. *)
Definition table_ok (t : SnapshotTable) : Prop :=
  map_Forall (fun k s => k = (bs_InstanceID s, bs_MetricKey s) /\
                         char_free colon (bs_InstanceID s) = true) t.

Lemma Save_ok t snap :
  table_ok t -> char_free colon (bs_InstanceID snap) = true -> table_ok (fst (Save t snap)).
Proof.
  intros H Hc. unfold Save. destruct (json_ok snap); [|done]. by apply map_Forall_insert_2.
Qed.

(** ** Keys *)

Lemma cut_key (inst metric : string) :
  char_free colon inst = true -> cut colon (baselineKey inst metric) = Some (inst, metric).
Proof.
  unfold baselineKey. induction inst as [|c inst IH]; simpl; [done|].
  intros [Hc H]%andb_true_iff. apply negb_true_iff in Hc. rewrite Hc.
  change (inst +:+ String colon metric) with (inst +:+ ":" +:+ metric). by rewrite (IH H).
Qed.

Lemma baselineKey_inj (i j m n : string) :
  char_free colon i = true -> char_free colon j = true ->
  baselineKey i m = baselineKey j n -> i = j /\ m = n.
Proof. intros Hi Hj H. by apply (sep_inj colon). Qed.

(** Keys of an id with a colon. *)
Lemma baselineKey_nested (host port metric : string) :
  baselineKey (host +:+ ":" +:+ port) metric = baselineKey host (port +:+ ":" +:+ metric).
Proof.
  unfold baselineKey. induction host as [|c host IH]; [done|].
  exact (f_equal (String c) IH).
Qed.

(** A metric name without a colon is what follows the last colon of the key. *)
Lemma baselineKey_metric (i j m n : string) :
  char_free colon m = true -> char_free colon n = true ->
  baselineKey i m = baselineKey j n -> m = n.
Proof.
  intros Hm Hn. change (i +:+ String colon m = j +:+ String colon n -> m = n).
  assert (forall a b, char_free colon (a +:+ String colon b) = false) as Hcol.
  { intros a b. induction a as [|c a IH]; simpl; [done|]. by rewrite IH, andb_false_r. }
  revert j. induction i as [|c i IH]; intros [|d j] H; simpl in H; simplify_eq; try done.
  - by rewrite Hcol in Hm.
  - by rewrite Hcol in Hn.
  - by eapply IH.
Qed.

(** ** What is saved *)

Section restart.
Context {SS : SliceSort} {MR : MapRange}.
Context (stat_Mean stat_StdDev : list float64 -> float64)
  (stat_Quantile : float64 -> list float64 -> float64).
Context {M : Type} {HM : MetricStore M}.
Context (m : M) (clock : string -> Time * Time) (age : BaselineSnapshot -> Duration).

(** The key names an instance without colons and the baseline's own metric, and the snapshot
    taken at [now] can be written. *)
Definition saveable (now : Time) (k : string) (b : STLBaseline) : Prop :=
  exists inst, char_free colon inst = true /\ k = baselineKey inst (bl_MetricKey b) /\
    json_ok (TakeSnapshot b inst now) = true.

Definition saveOne (now : Time) (t : SnapshotTable) (kv : string * STLBaseline) : SnapshotTable :=
  match SplitN colon 2 kv.1 with
  | [inst; _] => fst (Save t (TakeSnapshot kv.2 inst now))
  | _ => t
  end.

Lemma saveOne_saveable now t inst b :
  char_free colon inst = true -> json_ok (TakeSnapshot b inst now) = true ->
  saveOne now t (baselineKey inst (bl_MetricKey b), b)
    = <[(inst, bl_MetricKey b) := TakeSnapshot b inst now]> t.
Proof.
  intros Hc Hj. unfold saveOne. cbn [fst snd SplitN]. rewrite cut_key by done.
  cbn [SplitN]. unfold Save. by rewrite Hj.
Qed.

Lemma saveOne_spec now t k b :
  saveable now k b -> exists inst, char_free colon inst = true /\
    k = baselineKey inst (bl_MetricKey b) /\
    saveOne now t (k, b) = <[(inst, bl_MetricKey b) := TakeSnapshot b inst now]> t.
Proof.
  intros (inst & Hc & -> & Hj). exists inst. split_and!; [done..|]. by apply saveOne_saveable.
Qed.

Definition saved (now : Time) (t : SnapshotTable) (k : string) (b : STLBaseline) : Prop :=
  exists inst, char_free colon inst = true /\ k = baselineKey inst (bl_MetricKey b) /\
    t !! (inst, bl_MetricKey b) = Some (TakeSnapshot b inst now).

Lemma saveAll_spec now l : forall t,
  NoDup (map fst l) -> (forall k b, (k, b) ∈ l -> saveable now k b) -> table_ok t ->
  table_ok (foldl (saveOne now) t l) /\
  (forall k b, (k, b) ∈ l -> saved now (foldl (saveOne now) t l) k b) /\
  (forall k b, k ∉ map fst l -> saved now t k b -> saved now (foldl (saveOne now) t l) k b).
Proof.
  induction l as [|[k b] l IH]; intros t Hnd Hs Hok; cbn [foldl].
  { split_and!; [done| |done]. intros k b H. by apply not_elem_of_nil in H. }
  apply NoDup_cons in Hnd as [Hk Hnd]. simpl in Hk.
  destruct (saveOne_spec now t k b) as (inst & Hc & Hkey & ->); [apply Hs; by left|].
  destruct (IH (<[(inst, bl_MetricKey b) := TakeSnapshot b inst now]> t)) as (Hok' & Hin & Hout).
  { done. } { intros. apply Hs. by right. } { by apply map_Forall_insert_2. }
  split_and!; [done| |].
  - intros k' b' [[= -> ->]|H]%elem_of_cons; [|by apply Hin].
    apply Hout; [done|]. exists inst. by rewrite lookup_insert_eq.
  - intros k' b' [Hne Hnot]%not_elem_of_cons (i' & Hc' & -> & Hi'). apply Hout; [done|].
    exists i'. split_and!; [done..|]. rewrite lookup_insert_ne; [done|].
    intros [= -> Hm]. simpl in Hne. by rewrite Hkey, Hm in Hne.
Qed.

Lemma persistAll_saved now d t :
  map_Forall (saveable now) (dt_baselines d) -> table_ok t ->
  table_ok (persistAll now d t) /\ map_Forall (saved now (persistAll now d t)) (dt_baselines d).
Proof.
  intros Hs Hok. unfold persistAll.
  destruct (saveAll_spec now (map_range (dt_baselines d)) t) as (H1 & H2 & _).
  - rewrite map_range_perm. apply NoDup_fst_map_to_list.
  - intros k b H. rewrite map_range_perm, elem_of_map_to_list in H. by apply Hs.
  - done.
  - split; [done|]. intros k b H. apply H2. by rewrite map_range_perm, elem_of_map_to_list.
Qed.

(** The rows of other keys stay as they were. *)
Lemma persistAll_rest now d t k :
  map_Forall (saveable now) (dt_baselines d) -> char_free colon k.1 = true ->
  dt_baselines d !! baselineKey k.1 k.2 = None -> persistAll now d t !! k = t !! k.
Proof.
  intros Hs Hk Hn. unfold persistAll.
  apply (foldl_inv (fun t' => t' !! k = t !! k)); [|done].
  intros t' [k' b] Hin IH. rewrite map_range_perm, elem_of_map_to_list in Hin.
  destruct (saveOne_spec now t' k' b (Hs _ _ Hin)) as (inst & Hc & Hkey & He).
  change (saveOne now t' (k', b) !! k = t !! k). rewrite He, lookup_insert_ne; [done|].
  intros <-. rewrite Hkey in Hin. simpl in Hn. congruence.
Qed.

(** ** What is loaded *)

Definition snapKey (s : BaselineSnapshot) : string :=
  baselineKey (bs_InstanceID s) (bs_MetricKey s).

(** The snapshot is of an enabled metric and not stale. *)
Definition usable (cfg : DetectorConfig) (s : BaselineSnapshot) : Prop :=
  exists mc, metricConfig (NewDetector cfg) (bs_MetricKey s) = Some mc /\
    mc_Enabled mc = true /\ age s <= staleness cfg mc.

Definition loaded (d : Detector) (ps : gset string) (s : BaselineSnapshot) : Detector * gset string :=
  (set_baselines (<[snapKey s := LoadFromSnapshot s]> (dt_baselines d)) d, {[snapKey s]} ∪ ps).

Lemma loadSnapshot_cases d ps s :
  loadSnapshot age (d, ps) s = loaded d ps s \/
  loadSnapshot age (d, ps) s = (d, ps) /\ ~ usable (dt_config d) s.
Proof.
  unfold loadSnapshot, usable, metricConfig. cbn [dt_config NewDetector].
  destruct (List.find _ _) as [mc|]; [|right; split; [done|by intros (?&?&?)]].
  destruct (mc_Enabled mc) eqn:E; simpl.
  2:{ right. split; [done|]. intros (?&[= <-]&?&?). congruence. }
  destruct (_ <? _) eqn:F; zb; [|by left]. right. split; [done|]. intros (?&[= <-]&_&?). lia.
Qed.

Lemma loadAll_spec l : forall d ps d' ps',
  foldl (loadSnapshot age) (d, ps) l = (d', ps') -> NoDup (map snapKey l) ->
  dt_config d' = dt_config d /\
  (forall K, K ∉ map snapKey l -> dt_baselines d' !! K = dt_baselines d !! K) /\
  (forall K, K ∈ ps -> K ∈ ps') /\
  (forall s, s ∈ l -> usable (dt_config d) s ->
     dt_baselines d' !! snapKey s = Some (LoadFromSnapshot s) /\ snapKey s ∈ ps').
Proof.
  induction l as [|s l IH]; intros d ps d' ps' H Hnd; cbn [foldl] in H.
  { simplify_eq. split_and!; try done. intros s Hs. by apply not_elem_of_nil in Hs. }
  apply NoDup_cons in Hnd as [Hs Hnd].
  destruct (loadSnapshot_cases d ps s) as [E|[E Hu]]; rewrite E in H.
  - destruct (IH _ _ _ _ H Hnd) as (Hc & Hk & Hp & Hin). cbn [dt_config dt_baselines set_baselines] in *.
    split_and!; [done| | |].
    + intros K [H1 H2]%not_elem_of_cons. rewrite Hk by done. by rewrite lookup_insert_ne.
    + set_solver.
    + intros s' [->|H']%elem_of_cons Hus; [|by apply Hin].
      split; [|set_solver]. rewrite Hk by done. apply lookup_insert_eq.
  - destruct (IH _ _ _ _ H Hnd) as (Hc & Hk & Hp & Hin). split_and!; [done| |done|].
    + intros K [H1 H2]%not_elem_of_cons. by apply Hk.
    + intros s' [->|H']%elem_of_cons Hus; [done|by apply Hin].
Qed.

Lemma table_keys t : table_ok t -> NoDup (map snapKey (map snd (map_range t))).
Proof.
  intros Hok. rewrite map_map. apply (NoDup_fmap_2_strong (fun x => snapKey x.2)).
  - intros [k s] [k' s'] H H' Heq. simpl in Heq.
    rewrite map_range_perm, elem_of_map_to_list in H.
    rewrite map_range_perm, elem_of_map_to_list in H'.
    destruct (Hok _ _ H) as [Hk Hc], (Hok _ _ H') as [Hk' Hc'].
    apply baselineKey_inj in Heq as [Hi Hm]; [|done..]. rewrite <- Hi, <- Hm, <- Hk in Hk'.
    subst k'. congruence.
  - rewrite map_range_perm. apply NoDup_map_to_list.
Qed.

(** Nothing else is loaded. *)
Lemma loadAll_only l : forall d ps d' ps',
  foldl (loadSnapshot age) (d, ps) l = (d', ps') ->
  (forall K, K ∈ ps' -> K ∈ ps \/ exists s, s ∈ l /\ usable (dt_config d) s /\ snapKey s = K) /\
  (forall K b, dt_baselines d' !! K = Some b -> dt_baselines d !! K = Some b \/
     exists s, s ∈ l /\ usable (dt_config d) s /\ snapKey s = K /\ b = LoadFromSnapshot s).
Proof.
  induction l as [|s l IH]; intros d ps d' ps' H; cbn [foldl] in H.
  { simplify_eq. split; by left. }
  assert (loadSnapshot age (d, ps) s = (d, ps) \/
    loadSnapshot age (d, ps) s = loaded d ps s /\ usable (dt_config d) s) as [E|[E Hu]].
  { unfold loadSnapshot, usable, metricConfig. cbn [dt_config NewDetector].
    destruct (List.find _ _) as [mc|] eqn:Ef; [|by left]. destruct (mc_Enabled mc) eqn:En; simpl; [|by left].
    destruct (_ <? _) eqn:F; zb; [by left|]. right. split; [done|]. exists mc. repeat split; done. }
  - rewrite E in H. destruct (IH _ _ _ _ H) as [H1 H2]. split.
    + intros K HK. destruct (H1 K HK) as [?|(s' & ? & ? & ?)]; [by left|]. right. exists s'. set_solver.
    + intros K b HK. destruct (H2 K b HK) as [?|(s' & ? & ? & ?)]; [by left|]. right. exists s'. set_solver.
  - rewrite E in H. destruct (IH _ _ _ _ H) as [H1 H2]. cbn [dt_config dt_baselines set_baselines loaded] in *.
    split.
    + intros K HK. destruct (H1 K HK) as [HK'|(s' & ? & ? & ?)].
      * apply elem_of_union in HK' as [->%elem_of_singleton|?]; [|by left].
        right. exists s. split_and!; [by left|done..].
      * right. exists s'. split_and!; [by right|done..].
    + intros K b HK. destruct (H2 K b HK) as [HK'|(s' & ? & ? & ? & ?)].
      * apply lookup_insert_Some in HK' as [[<- <-]|[_ ?]]; [|by left].
        right. exists s. split_and!; [by left|done..].
      * right. exists s'. split_and!; [by right|done..].
Qed.

(** ** The replay adds baselines, and leaves loaded ones alone *)

Lemma replay_total mc points : 0 < mc_Period mc -> is_Some (replay mc points).
Proof.
  intros Hp. unfold replay. rewrite (proj2 (Z.ltb_ge _ _)) by lia.
  pose proof (NewSTLBaseline_wf (mc_Key mc) _ Hp) as W. revert W.
  generalize (NewSTLBaseline (mc_Key mc) (mc_Period mc)). 
  induction (reverse points) as [|p l IH]; intros b W; [done|]. cbn [foldl mbind option_bind].
  rewrite Update_wf by done. by apply IH, update_wf.
Qed.

(** The history that the replay reads for an instance and a metric. *)
Definition past_query (cfg : DetectorConfig) (inst : string) (mc : MetricConfig) : MetricQuery :=
  let windowSize := Z.max (3 * mc_Period mc) 1000 in
  let c := clock (baselineKey inst (mc_Key mc)) in
  mkQuery inst (mc_Key mc) ∅ (time_Add c.1 (i64 (- i64 (windowSize * dc_CollectionInterval cfg))))
    c.2 windowSize.

(** [b] is fitted from a history of at least two seasons of a listed instance and an enabled metric. *)
Definition replayed (cfg : DetectorConfig) (ids : list string) (k : string) (b : STLBaseline) : Prop :=
  exists inst mc points, inst ∈ ids /\ mc ∈ dc_Metrics cfg /\ mc_Enabled mc = true /\
    k = baselineKey inst (mc_Key mc) /\ ms_Query m (past_query cfg inst mc) = Ok points /\
    mc_Period mc * 2 <= len points /\ replay mc points = Some b.

(** One (instance, metric) pair of the replay. *)
Definition replays (cfg : DetectorConfig) (ps : gset string) (inst : string) (mc : MetricConfig)
    (d d' : Detector) : Prop :=
  let k := baselineKey inst (mc_Key mc) in
  dt_config d' = cfg /\
  (d' = d \/ exists points b, k ∉ ps /\ mc_Enabled mc = true /\
     ms_Query m (past_query cfg inst mc) = Ok points /\ mc_Period mc * 2 <= len points /\
     replay mc points = Some b /\ dt_baselines d' = <[k := b]> (dt_baselines d)) /\
  (mc_Enabled mc = true -> k ∉ ps -> forall points, ms_Query m (past_query cfg inst mc) = Ok points ->
     mc_Period mc * 2 <= len points -> is_Some (dt_baselines d' !! k)).

Lemma replayMetric_replays cfg ps inst mc d :
  0 < mc_Period mc -> dt_config d = cfg ->
  exists d', replayMetric m clock ps inst (Some d) mc = Some d' /\ replays cfg ps inst mc d d'.
Proof.
  intros Hp Hc. unfold replayMetric, replays. cbn [mbind option_bind].
  destruct (negb _ || _) eqn:E.
  { exists d. split; [done|]. split; [done|]. split; [by left|]. intros He Hk.
    rewrite He in E. simpl in E. by apply bool_decide_eq_true_1 in E. }
  apply orb_false_iff in E as [E1 E2]. apply negb_false_iff in E1. apply bool_decide_eq_false_1 in E2.
  rewrite Hc. change (ms_Query m (mkQuery inst _ _ _ _ _)) with (ms_Query m (past_query cfg inst mc)).
  destruct (ms_Query m _) as [points|] eqn:Eq.
  2:{ exists d. split; [done|]. split; [done|]. split; [by left|]. done. }
  destruct (len points <? mc_Period mc * 2) eqn:El; zb.
  { exists d. split; [done|]. split; [done|]. split; [by left|]. intros _ _ p [= <-]. lia. }
  destruct (replay_total mc points Hp) as [b Hb]. rewrite Hb. eexists. split; [reflexivity|].
  split; [done|]. split; [right; exists points, b; repeat split; done|]. intros _ _ p _ _. simpl.
  rewrite lookup_insert_eq. by eexists.
Qed.

(** What a replay adds: [os] are the pairs it went over. *)
Definition added (cfg : DetectorConfig) (ps : gset string) (os : list (string * MetricConfig))
    (d1 d : Detector) : Prop :=
  dt_config d = cfg /\
  (forall K, K ∈ ps -> dt_baselines d !! K = dt_baselines d1 !! K) /\
  (forall K b, dt_baselines d !! K = Some b -> dt_baselines d1 !! K = Some b \/
     exists inst mc points, (inst, mc) ∈ os /\ K ∉ ps /\ mc_Enabled mc = true /\
       K = baselineKey inst (mc_Key mc) /\
       ms_Query m (past_query cfg inst mc) = Ok points /\ mc_Period mc * 2 <= len points /\
       replay mc points = Some b) /\
  (forall K, is_Some (dt_baselines d1 !! K) -> is_Some (dt_baselines d !! K)) /\
  (forall inst mc points, (inst, mc) ∈ os -> mc_Enabled mc = true -> baselineKey inst (mc_Key mc) ∉ ps ->
     ms_Query m (past_query cfg inst mc) = Ok points -> mc_Period mc * 2 <= len points ->
     is_Some (dt_baselines d !! baselineKey inst (mc_Key mc))).

Lemma added_step cfg ps os inst mc d1 d d' :
  added cfg ps os d1 d -> replays cfg ps inst mc d d' -> added cfg ps (os ++ [(inst, mc)]) d1 d'.
Proof.
  intros (_ & Hk & Ho & Hm & Ha) (Hc & Hd & Hn).
  assert (forall K, is_Some (dt_baselines d !! K) -> is_Some (dt_baselines d' !! K)) as Hmono.
  { intros K HK. destruct Hd as [->|(points & b & _ & _ & _ & _ & _ & ->)]; [done|].
    rewrite lookup_insert_is_Some. destruct (decide (baselineKey inst (mc_Key mc) = K)); auto. }
  split; [done|]. split; [|split; [|split]].
  - intros K HK. destruct Hd as [->|(points & b & Hps & _ & _ & _ & _ & ->)]; [by apply Hk|].
    rewrite lookup_insert_ne; [by apply Hk|]. by intros <-.
  - intros K b HK.
    assert (dt_baselines d !! K = Some b \/ exists points, K ∉ ps /\ mc_Enabled mc = true /\
      K = baselineKey inst (mc_Key mc) /\ ms_Query m (past_query cfg inst mc) = Ok points /\
      mc_Period mc * 2 <= len points /\ replay mc points = Some b) as [H|(points & H)].
    { destruct Hd as [->|(points & b' & Hps & He & Hq & Hl & Hr & Hd)]; [by left|]. rewrite Hd in HK.
      apply lookup_insert_Some in HK as [[<- <-]|[_ HK]]; [|by left]. right. by exists points. }
    + destruct (Ho K b H) as [?|(i & c & points & Hin & ?)]; [by left|]. right. exists i, c, points.
      split; [|done]. apply elem_of_app. by left.
    + destruct H as (H1 & H2 & H3). right. exists inst, mc, points. split; [|repeat split; tauto].
      apply elem_of_app. right. by left.
  - auto.
  - intros i c points [Hin|Hin]%elem_of_app He Hps Hq Hl; [by eapply Hmono, Ha|].
    apply list_elem_of_singleton in Hin as [= -> ->]. by eapply Hn.
Qed.

Lemma replay_loop cfg ps d1 ids : (forall mc, mc ∈ dc_Metrics cfg -> 0 < mc_Period mc) ->
  dt_config d1 = cfg ->
  exists d, foldl (fun od inst => foldl (replayMetric m clock ps inst) od (dc_Metrics cfg)) (Some d1) ids
      = Some d /\ added cfg ps (concat (map (fun i => map (pair i) (dc_Metrics cfg)) ids)) d1 d.
Proof.
  intros Hper Hc.
  assert (forall inst ms os d, ms ⊆ dc_Metrics cfg -> added cfg ps os d1 d ->
    exists d', foldl (replayMetric m clock ps inst) (Some d) ms = Some d' /\
      added cfg ps (os ++ map (pair inst) ms) d1 d') as Hin.
  { intros inst ms. induction ms as [|mc ms IH]; intros os d Hs Ha; cbn [foldl map].
    - exists d. by rewrite app_nil_r.
    - destruct (replayMetric_replays cfg ps inst mc d) as (d' & -> & Hr);
        [apply Hper; set_solver|apply Ha|].
      destruct (IH (os ++ [(inst, mc)]) d') as (d2 & -> & H2); [set_solver|by eapply added_step|].
      exists d2. split; [done|]. by rewrite <- app_assoc in H2. }
  assert (forall os d, added cfg ps os d1 d ->
    exists d', foldl (fun od inst => foldl (replayMetric m clock ps inst) od (dc_Metrics cfg)) (Some d) ids
      = Some d' /\ added cfg ps (os ++ concat (map (fun i => map (pair i) (dc_Metrics cfg)) ids)) d1 d')
    as H.
  { induction ids as [|i ids IH]; intros os d Ha; cbn [foldl map concat].
    - exists d. by rewrite app_nil_r.
    - destruct (Hin i (dc_Metrics cfg) os d (reflexivity _) Ha) as (d' & -> & Hd').
      destruct (IH _ _ Hd') as (d2 & -> & H2). exists d2. by rewrite <- app_assoc in H2. }
  apply (H []). split_and!; try done; [by left|].
  intros inst mc points Hi. by apply not_elem_of_nil in Hi.
Qed.

(** What a new detector knows after its bootstrap: the usable snapshots, and the replayed histories
    of the other keys. *)
Definition bootstrapped (cfg : DetectorConfig) (t : SnapshotTable) (instances : result (list string))
    (d' : Detector) : Prop :=
  dt_config d' = cfg /\
  (forall k s, t !! k = Some s -> usable cfg s -> dt_baselines d' !! snapKey s = Some (LoadFromSnapshot s)) /\
  (forall K b, dt_baselines d' !! K = Some b ->
     (exists k s, t !! k = Some s /\ usable cfg s /\ snapKey s = K /\ b = LoadFromSnapshot s) \/
     exists ids, instances = Ok ids /\ replayed cfg ids K b) /\
  (forall ids K b, instances = Ok ids -> replayed cfg ids K b -> is_Some (dt_baselines d' !! K)).

Lemma Bootstrap_spec cfg t instances :
  (forall mc, mc ∈ dc_Metrics cfg -> 0 < mc_Period mc) -> table_ok t ->
  exists d' err, Bootstrap (NewDetector cfg) m (Some t) instances age clock = Some (d', err) /\
    bootstrapped cfg t instances d'.
Proof.
  intros Hper Hok. unfold Bootstrap. cbn [ps_LoadAll DBPersistenceStore]. unfold LoadAll.
  destruct (foldl (loadSnapshot age) _ _) as [d1 ps] eqn:HL.
  destruct (loadAll_spec _ _ _ _ _ HL (table_keys t Hok)) as (Hc & _ & _ & Hin).
  destruct (loadAll_only _ _ _ _ _ HL) as [Hps Honly]. cbn [dt_config NewDetector dt_baselines] in *.
  assert (forall k s, t !! k = Some s -> usable cfg s ->
    dt_baselines d1 !! snapKey s = Some (LoadFromSnapshot s) /\ snapKey s ∈ ps) as Hload.
  { intros k s Hs Hu. apply Hin; [|done]. apply list_elem_of_fmap. exists (k, s). split; [done|].
    by rewrite map_range_perm, elem_of_map_to_list. }
  assert (forall s, s ∈ map snd (map_range t) -> exists k, t !! k = Some s) as Hrow.
  { intros s ([k s'] & -> & Hs)%list_elem_of_fmap. exists k. by rewrite map_range_perm, elem_of_map_to_list in Hs. }
  assert (forall K b, dt_baselines d1 !! K = Some b ->
    exists k s, t !! k = Some s /\ usable cfg s /\ snapKey s = K /\ b = LoadFromSnapshot s) as Hfrom.
  { intros K b HK. destruct (Honly K b HK) as [H|(s & Hs & ? & ? & ?)];
      [by rewrite lookup_empty in H|]. destruct (Hrow s Hs) as [k ?]. by exists k, s. }
  destruct instances as [ids|e].
  2:{ do 2 eexists. split; [reflexivity|]. split; [done|]. split; [|split; [|done]].
      - intros k s Hs Hu. by apply (Hload k).
      - intros K b HK. left. by apply Hfrom. }
  destruct (replay_loop cfg ps d1 ids Hper Hc) as (d2 & HR & Hc2 & Hk & Ho & Hm & Ha).
  rewrite Hc, HR. do 2 eexists. split; [reflexivity|]. cbn [dt_config dt_baselines].
  assert (forall inst mc, (inst, mc) ∈ concat (map (fun i => map (pair i) (dc_Metrics cfg)) ids) <->
    inst ∈ ids /\ mc ∈ dc_Metrics cfg) as Hpairs.
  { intros inst mc. rewrite list_elem_of_In, in_concat. setoid_rewrite <- list_elem_of_In.
    setoid_rewrite list_elem_of_fmap. split.
    - intros (l & (i & -> & Hi) & Hl). apply list_elem_of_fmap in Hl as (c & [= -> ->] & ?). done.
    - intros [Hi Hmc]. exists (map (pair inst) (dc_Metrics cfg)). split; [by exists inst|].
      apply list_elem_of_fmap. by exists mc. }
  split; [done|]. split; [|split].
  - intros k s Hs Hu. destruct (Hload k s Hs Hu) as [H1 H2]. by rewrite Hk.
  - intros K b HK. destruct (Ho K b HK) as [H|(inst & mc & points & Hio & _ & He & HKk & Hq & Hl & Hr)].
    + left. by apply Hfrom.
    + right. exists ids. split; [done|]. apply Hpairs in Hio as [? ?]. by exists inst, mc, points.
  - intros ids' K b [= <-] (inst & mc & points & Hi & Hmc & He & -> & Hq & Hl & _).
    destruct (decide (baselineKey inst (mc_Key mc) ∈ ps)) as [Hp|Hp].
    + apply Hm. destruct (Hps _ Hp) as [Hp'|(s & Hs & Hu & <-)]; [set_solver|].
      destruct (Hrow s Hs) as [k Hks]. destruct (Hload k s Hks Hu) as [-> _]. by eexists.
    + eapply Ha; [by apply Hpairs|done..].
Qed.

(** ** Every baseline belongs to a configured metric *)

Definition keyed (cfg : DetectorConfig) (d : Detector) : Prop :=
  dt_config d = cfg /\
  map_Forall (fun k _ => exists inst mc, mc ∈ dc_Metrics cfg /\ k = baselineKey inst (mc_Key mc))
    (dt_baselines d).

Lemma metricConfig_in d key mc :
  metricConfig d key = Some mc -> mc ∈ dc_Metrics (dt_config d) /\ mc_Key mc = key.
Proof.
  intros [H1 H2]%List.find_some. apply bool_decide_eq_true_1 in H2.
  split; [by apply list_elem_of_In|done].
Qed.

Lemma loadSnapshot_keyed cfg acc s :
  keyed cfg acc.1 -> keyed cfg (loadSnapshot age acc s).1.
Proof.
  destruct acc as [d ps]. intros [Hc Hk]. simpl in Hc, Hk. unfold loadSnapshot.
  destruct (metricConfig d _) as [mc|] eqn:E; [|done].
  destruct (negb _); [done|]. destruct (_ <? _); [done|].
  split; [done|]. apply map_Forall_insert_2; [|done].
  apply metricConfig_in in E as [E <-]. rewrite Hc in E. by exists (bs_InstanceID s), mc.
Qed.

Lemma replayMetric_keyed cfg ps inst od mc :
  mc ∈ dc_Metrics cfg -> (forall d, od = Some d -> keyed cfg d) ->
  forall d, replayMetric m clock ps inst od mc = Some d -> keyed cfg d.
Proof.
  intros Hmc Hod d. unfold replayMetric. destruct od as [d0|]; [|done]. cbn [mbind option_bind].
  destruct (Hod d0 eq_refl) as [Hc Hk]. destr_ifs; intros; simplify_eq; try done.
  destruct (ms_Query _ _); [|by simplify_eq]. destr_ifs; [by simplify_eq|].
  destruct (replay mc a) as [b|]; [|done]. simplify_eq/=. split; [done|].
  apply map_Forall_insert_2; [|done]. by exists inst, mc.
Qed.

Lemma Bootstrap_keyed {P : Type} {HP : PersistenceStore P} cfg (persist : option P) instances d err :
  Bootstrap (NewDetector cfg) m persist instances age clock = Some (d, err) -> keyed cfg d.
Proof.
  assert (keyed cfg (NewDetector cfg)) as H0 by by split; [|apply map_Forall_empty].
  unfold Bootstrap.
  set (L := match persist with Some _ => _ | None => _ end).
  assert (keyed cfg L.1) as HL.
  { subst L. destruct persist as [p|]; [|done]. destruct (ps_LoadAll p); [|done].
    apply (foldl_inv (fun acc => keyed cfg acc.1)); [|done]. intros. by apply loadSnapshot_keyed. }
  destruct L as [d1 ps]. simpl in HL. destruct instances as [ids|e]; [|by intros [= <- _]].
  destruct (foldl _ (Some d1) ids) as [d2|] eqn:E; [|done]. intros [= <- _]. 
  assert (forall d, Some d2 = Some d -> keyed cfg d) as H2.
  { rewrite <- E. apply (foldl_inv (fun od => forall d, od = Some d -> keyed cfg d)).
    - intros od inst _ Hod. apply foldl_inv; [|done]. intros od' mc Hmc.
      apply replayMetric_keyed. by rewrite (proj1 HL) in Hmc.
    - by intros d [= <-]. }
  apply (H2 d2 eq_refl).
Qed.

(** Points of other keys are skipped. *)
Lemma evalPoint_unknown {E : Type} {HE : AlertEvaluator E} (formatFloat : float64 -> string)
    (d : Detector) (e : E) points :
  (forall p, p ∈ points -> dt_baselines d !! pointKey p = None) -> forall acc,
  foldl (evalPoint stat_Mean stat_StdDev stat_Quantile formatFloat) (Some (d, e, acc)) points
    = Some (d, e, acc).
Proof.
  intros H acc. apply (foldl_inv (fun r => r = Some (d, e, acc))); [|done].
  intros r p Hp ->. unfold evalPoint. cbn [mbind option_bind]. fold (pointKey p).
  by rewrite (H p Hp).
Qed.

Lemma default_key_not_collected (mc : MetricConfig) (name : string) :
  mc ∈ dc_Metrics DefaultConfig ->
  char_free colon (mc_Key mc) = true /\ mc_Key mc <> metricPrefix +:+ "." +:+ name.
Proof.
  intros H. simpl in H. repeat (apply elem_of_cons in H as [->|H]; [done|]).
  by apply not_elem_of_nil in H.
Qed.

(** A point as a collector makes it; metric names have no colon. *)
Definition collected (p : MetricPoint) : Prop :=
  exists inst name v labels t,
    p = Base_point inst name v labels t /\ char_free colon name = true.

Lemma default_detector_skips d p :
  keyed DefaultConfig d -> collected p -> dt_baselines d !! pointKey p = None.
Proof.
  intros [_ Hk] (inst & name & v & ls & t & -> & Hname).
  apply eq_None_not_Some. intros [b Hb]. destruct (Hk _ _ Hb) as (i & mc & Hmc & Heq).
  destruct (default_key_not_collected mc name Hmc) as [Hfree Hne].
  unfold pointKey in Heq. apply baselineKey_metric in Heq; [by apply Hne|done|done].
Qed.

Lemma default_evaluate {P E : Type} {HP : PersistenceStore P} {HE : AlertEvaluator E}
    (formatFloat : float64 -> string) (persist : option P) (d : Detector) (e : E) (now : Time)
    (points : list MetricPoint) :
  keyed DefaultConfig d -> (forall p, p ∈ points -> collected p) ->
  Evaluate stat_Mean stat_StdDev stat_Quantile formatFloat d e persist now points
    = Some (d, e, option_map (persistAll now d) persist, []).
Proof.
  intros Hk Hp. unfold Evaluate. rewrite evalPoint_unknown; [done|].
  intros p Hin. by apply default_detector_skips, Hp.
Qed.

(** ** Properties *)

(** C39: A restart loses no detection, and may add some. The baselines are saved at the end of an
    evaluation; a new detector with the same configuration, bootstrapped from the table, reports for
    every key that had a baseline exactly what the old one would have reported for every later batch
    of points. A key without a baseline, for which the old detector reported nothing, has one
    after the restart exactly when the table held another usable snapshot of it, or when the instance
    is listed, the metric is configured and enabled and at least two seasons of history can be read;
    then that snapshot or that history is the baseline. It needs instance ids without colons in the
    keys saved, snapshots that JSON can write (no NaN or infinity), and a restart within the staleness
    limit. *)
Theorem restart_preserves_detection (d : Detector) (t : SnapshotTable) (now : Time)
    (instances : result (list string)) :
  (forall mc, mc ∈ dc_Metrics (dt_config d) -> 0 < mc_Period mc) ->
  wf_detector d -> table_ok t -> map_Forall (saveable now) (dt_baselines d) ->
  map_Forall (fun _ b => forall inst, usable (dt_config d) (TakeSnapshot b inst now))
    (dt_baselines d) ->
  let other_row k s := exists r, t !! r = Some s /\ snapKey s = k /\ usable (dt_config d) s in
  let history k b := exists ids, instances = Ok ids /\ replayed (dt_config d) ids k b in
  exists d' err,
    Bootstrap (NewDetector (dt_config d)) m (Some (persistAll now d t)) instances age clock
      = Some (d', err) /\
    (forall k b, dt_baselines d !! k = Some b -> exists b', dt_baselines d' !! k = Some b' /\
      forall points, reported stat_Mean stat_StdDev stat_Quantile (dt_config d') k points b'
                   = reported stat_Mean stat_StdDev stat_Quantile (dt_config d) k points b) /\
    (forall k, dt_baselines d !! k = None ->
      (is_Some (dt_baselines d' !! k) <-> (exists s, other_row k s) \/ exists b, history k b) /\
      forall b', dt_baselines d' !! k = Some b' ->
        (exists s, other_row k s /\ b' = LoadFromSnapshot s) \/ history k b').
Proof.
  intros Hper W Hok Hs Hu other_row history. destruct (persistAll_saved now d t Hs Hok) as [Hok' Hsaved].
  destruct (Bootstrap_spec (dt_config d) (persistAll now d t) instances Hper Hok')
    as (d' & err & HB & Hc & Hload & Honly & Hrep).
  assert (forall k r s, dt_baselines d !! k = None -> snapKey s = k ->
    persistAll now d t !! r = Some s <-> t !! r = Some s) as Hrest.
  { intros k r s Hk Hsk. assert (forall t' : SnapshotTable, table_ok t' -> t' !! r = Some s ->
      persistAll now d t !! r = t !! r) as H.
    { intros t' Ht' Hr. destruct (Ht' _ _ Hr) as [-> Hfree]. apply persistAll_rest; [done|done|].
      unfold snapKey in Hsk. simpl. by rewrite Hsk. }
    split; intros Hr; [rewrite <- (H _ Hok' Hr)|rewrite (H _ Hok Hr)]; done. }
  exists d', err. split; [done|]. split.
  - intros k b Hb. destruct (Hsaved k b Hb) as (inst & _ & -> & Ht).
    exists (reload b inst now). split; [apply (Hload _ _ Ht), (Hu _ _ Hb)|].
    intros points. rewrite Hc. pose proof (reload_alike b inst now (W _ _ Hb)) as Ha.
    unfold reported. rewrite <- (alike_scoreRun _ _ _ _ _ _ Ha). unfold Ready.
    by rewrite <- (alike_count _ _ Ha), <- (al_period _ _ Ha).
  - intros k Hk.
    assert (forall b', dt_baselines d' !! k = Some b' ->
      (exists s, other_row k s /\ b' = LoadFromSnapshot s) \/ history k b') as H.
    { intros b' Hb'. destruct (Honly k b' Hb') as [(r & s & Hr & Hus & Hsk & ->)|H]; [left|by right].
      exists s. split; [|done]. exists r. split; [by apply (Hrest k)|done]. }
    split; [|exact H]. split.
    + intros [b' Hb']. destruct (H b' Hb') as [(s & ? & _)|?]; eauto.
    + intros [(s & r & Hr & Hsk & Hus)|(b & ids & Hi & Hh)]; [|by eapply Hrep].
      rewrite <- Hsk. rewrite (Hload r s); [by eexists|by apply (Hrest k)|done].
Qed.

(** With its default configuration the detector does nothing for the metrics that the
    collectors write. However it was bootstrapped, evaluating any batch of collected points
    changes no baseline, calls no alert evaluator and reports no anomaly: collected names carry
    the "pg." prefix and the default keys do not. *)
Theorem default_config_ignores_collected {P E : Type} {HP : PersistenceStore P}
    {HE : AlertEvaluator E} (formatFloat : float64 -> string) (persist : option P)
    (instances : result (list string)) (d : Detector) (err : option error) (e : E) (now : Time)
    (points : list MetricPoint) :
  Bootstrap (NewDetector DefaultConfig) m persist instances age clock = Some (d, err) ->
  (forall p, p ∈ points -> collected p) ->
  Evaluate stat_Mean stat_StdDev stat_Quantile formatFloat d e persist now points
    = Some (d, e, option_map (persistAll now d) persist, []).
Proof. intros HB Hp. by apply default_evaluate, Hp; eapply Bootstrap_keyed. Qed.

(** A baseline of an instance whose id has a colon, such as "host:5432", is saved under the
    part of the id before the colon. After a restart that shorter id owns it: its baseline is
    the reloaded one, which was learned from another instance. *)
Theorem colon_instance_misfiled (cfg : DetectorConfig) (host port : string) (b : STLBaseline)
    (now : Time) (instances : result (list string)) :
  (forall mc, mc ∈ dc_Metrics cfg -> 0 < mc_Period mc) -> char_free colon host = true ->
  json_ok (TakeSnapshot b host now) = true -> usable cfg (TakeSnapshot b host now) ->
  let id := host +:+ ":" +:+ port in
  let d := mkDetector cfg {[baselineKey id (bl_MetricKey b) := b]} true in
  exists d' err,
    Bootstrap (NewDetector cfg) m (Some (persistAll now d (∅ : SnapshotTable))) instances age clock
      = Some (d', err) /\
    dt_baselines d' !! baselineKey host (bl_MetricKey b) = Some (reload b host now).
Proof.
  intros Hper Hh Hj Hu id d.
  assert (persistAll now d (∅ : SnapshotTable)
    = {[(host, bl_MetricKey b) := TakeSnapshot b host now]}) as ->.
  { unfold persistAll. cbn [dt_baselines d].
    assert (forall k, @map_range MR _ _ _ _ {[k := b]} = [(k, b)]) as ->.
    { intros k. apply Permutation_singleton_r. by rewrite map_range_perm, map_to_list_singleton. }
    subst id. rewrite baselineKey_nested. cbn [foldl fst snd SplitN]. rewrite cut_key by done.
    cbn [SplitN]. change (ps_Save ∅ ?s) with (Save ∅ s). unfold Save. by rewrite Hj. }
  destruct (Bootstrap_spec cfg {[(host, bl_MetricKey b) := TakeSnapshot b host now]} instances)
    as (d' & err & HB & _ & Hload & _).
  { done. }
  { by apply map_Forall_singleton. }
  exists d', err. split; [done|]. by apply (Hload _ _ (lookup_singleton_eq _ _)).
Qed.

End restart.

(** ** A concrete restart *)

#[local] Instance emptyMetrics : MetricStore unit :=
  {| ms_Write := fun _ _ => ((), None); ms_Query := fun _ _ => Ok [] |}.

Lemma demo_saveable : json_ok (TakeSnapshot demoBaseline "db1" 7) = true.
Proof. vm_compute. reflexivity. Qed.

Lemma demo_metrics mc : mc ∈ dc_Metrics demoConfig -> 0 < mc_Period mc.
Proof. intros ->%list_elem_of_singleton. done. Qed.

Lemma demo_usable inst : usable (fun _ => Minute) demoConfig (TakeSnapshot demoBaseline inst 7).
Proof. exists (mkMetricConfig "m" 2 true 0). by vm_compute. Qed.

Lemma restart_preserves_detection_witness :
  exists d' err,
    @Bootstrap unit SnapshotTable emptyMetrics (@DBPersistenceStore canonical_MapRange)
      (NewDetector demoConfig) tt
      (Some (@persistAll canonical_MapRange SnapshotTable (@DBPersistenceStore canonical_MapRange)
               7 demoDetector ∅))
      (Ok ["db1"]) (fun _ => Minute) (fun _ => (0, 0)) = Some (d', err) /\
    exists b', dt_baselines d' !! baselineKey "db1" "m" = Some b' /\
      map ar_Timestamp (@reported insertion_SliceSort demoMean residualStddev demoQuantile
        (dt_config d') (baselineKey "db1" "m") demoPoints b') = [2].
Proof.
  destruct (@restart_preserves_detection insertion_SliceSort canonical_MapRange demoMean residualStddev demoQuantile unit emptyMetrics tt (fun _ => (0, 0)) (fun _ => Minute)
              demoDetector ∅ 7 (Ok ["db1"]))
    as (d' & err & HB & H & _).
  - exact demo_metrics.
  - exact demoDetector_wf.
  - apply map_Forall_empty.
  - apply map_Forall_singleton. exists "db1". split_and!; [done|done|exact demo_saveable].
  - apply map_Forall_singleton. exact demo_usable.
  - exists d', err. split; [exact HB|].
    destruct (H _ _ (lookup_singleton_eq _ _)) as (b' & Hb & Hr). exists b'. split; [exact Hb|].
    rewrite Hr. exact demo_verdicts.
Defined.

(** Enough history of one more instance, newest point first. *)
Definition db2History : MetricStore unit :=
  {| ms_Write := fun _ _ => ((), None);
     ms_Query := fun _ q =>
       Ok (if String.eqb (q_InstanceID q) "db2"
           then map (fun v => mkPoint "db2" "m" (f_of_Z v) ∅ 0) [4; 1; 2; 1; 2; 1] else []) |}.

(** Only the restart gives the detector a baseline for that instance: the same points raise an
    anomaly afterwards and none before, however long the old process runs. *)
Example restart_starts_detection :
  let k := baselineKey "db2" "m" in
  let ps := [mkPoint "db2" "m" (f_of_Z 90) ∅ 2] in
  dt_baselines demoDetector !! k = None /\
  exists d' b', @Bootstrap unit SnapshotTable db2History (@DBPersistenceStore canonical_MapRange)
      (NewDetector demoConfig) tt
      (Some (@persistAll canonical_MapRange SnapshotTable (@DBPersistenceStore canonical_MapRange)
               7 demoDetector ∅))
      (Ok ["db1"; "db2"]) (fun _ => Minute) (fun _ => (0, 0)) = Some (d', None) /\
    dt_baselines d' !! k = Some b' /\
    map ar_Timestamp (@reported insertion_SliceSort demoMean residualStddev demoQuantile
      (dt_config d') k ps b') = [2].
Proof.
  cbv zeta. split; [reflexivity|]. eexists _, _. split; [vm_compute; reflexivity|].
  split; [vm_compute; reflexivity|]. vm_compute. reflexivity.
Qed.

Lemma colon_instance_misfiled_witness :
  exists d' err,
    @Bootstrap unit SnapshotTable emptyMetrics (@DBPersistenceStore canonical_MapRange)
      (NewDetector demoConfig) tt
      (Some (@persistAll canonical_MapRange SnapshotTable (@DBPersistenceStore canonical_MapRange) 7
               (mkDetector demoConfig {[baselineKey "db1:5432" "m" := demoBaseline]} true) ∅))
      (Ok []) (fun _ => Minute) (fun _ => (0, 0)) = Some (d', err) /\
    dt_baselines d' !! baselineKey "db1" "m" = Some (reload demoBaseline "db1" 7).
Proof.
  exact (@colon_instance_misfiled canonical_MapRange unit emptyMetrics tt (fun _ => (0, 0))
           (fun _ => Minute) demoConfig "db1" "5432" demoBaseline 7 (Ok []) demo_metrics eq_refl
           demo_saveable (demo_usable "db1")).
Defined.

#[local] Instance quietAlerts : AlertEvaluator unit := {| ae_Evaluate := fun _ _ _ _ => ((), None) |}.

Lemma default_config_ignores_collected_witness :
  exists d err,
    @Bootstrap unit SnapshotTable emptyMetrics (@DBPersistenceStore canonical_MapRange)
      (NewDetector DefaultConfig) tt (Some ∅) (Ok ["db1"]) (fun _ => 0) (fun _ => (0, 0))
      = Some (d, err) /\
    @Evaluate insertion_SliceSort canonical_MapRange demoMean residualStddev demoQuantile
      (fun _ => "") unit SnapshotTable quietAlerts (@DBPersistenceStore canonical_MapRange) d tt
      (Some ∅) 3 [Base_point "db1" "cache.hit_ratio" f1 ∅ 1]
      = Some (d, tt, Some (@persistAll canonical_MapRange SnapshotTable
                             (@DBPersistenceStore canonical_MapRange) 3 d ∅), []).
Proof.
  eexists _, _. split; [reflexivity|].
  apply (@default_config_ignores_collected insertion_SliceSort canonical_MapRange demoMean residualStddev demoQuantile unit emptyMetrics tt (fun _ => (0, 0)) (fun _ => 0)
           SnapshotTable unit _ _ (fun _ => "") (Some ∅) (Ok ["db1"]) _ None tt 3 _).
  - reflexivity.
  - intros p ->%list_elem_of_singleton. by exists "db1", "cache.hit_ratio", f1, ∅, 1.
Defined.
