(* ===== verification/RcaAnomaly.v ===== *)
(** * Anomaly sources of the root cause analysis

    Models internal/rca/anomaly.go (the threshold source over baseline statistics, and the
    machine-learning source that feeds the analysed window to the detector and falls back to
    thresholds), internal/rca/statsource.go and internal/rca/statement_source.go. The metric
    store, the detector's alert evaluator and persistence, and the statement snapshot store are
    the interfaces the code calls. *)
From S2P Require Import Prelude Float64 Metric RcaEngine Ml MlDetector MlRestart.
From S2P Require Statements.

Local Open Scope Z_scope.

(** ** statsource.go *)

Record MetricStats := mkRcaStats {
  rms_Mean : float64;
  rms_StdDev : float64;
  rms_Min : float64;
  rms_Max : float64;
  rms_Count : Z
}.

(** [GetMetricStats instanceID keys from to]. *)
Definition MetricStatsProvider : Type :=
  (string -> list string -> Time -> Time -> result (gmap string MetricStats)).

(** ** The threshold source *)

Record ThresholdAnomalySource (M : Type) := mkThresholdSource {
  ts_metricStore : M;
  ts_stats : option MetricStatsProvider;
  ts_baselineWindow : Duration;
  ts_calmPeriod : Duration;
  ts_calmSigma : float64
}.
Arguments mkThresholdSource {M} _ _ _ _ _.
Arguments ts_metricStore {M} _.
Arguments ts_stats {M} _.
Arguments ts_baselineWindow {M} _.
Arguments ts_calmPeriod {M} _.
Arguments ts_calmSigma {M} _.

(** [sp] is the outcome of the type assertion on the store. *)
Definition NewThresholdAnomalySource {M} (m : M) (sp : option MetricStatsProvider)
    : ThresholdAnomalySource M :=
  mkThresholdSource m sp (1 * Hour) (15 * Minute) (fconst 15 10).

Definition NewThresholdAnomalySourceWithConfig {M} (m : M) (sp : option MetricStatsProvider)
    (cfg : RCAConfig) : ThresholdAnomalySource M :=
  let s := NewThresholdAnomalySource m sp in
  mkThresholdSource m sp
    (if 0 <? rc_ThresholdBaselineWindow cfg then rc_ThresholdBaselineWindow cfg
     else ts_baselineWindow s)
    (if 0 <? rc_ThresholdCalmPeriod cfg then rc_ThresholdCalmPeriod cfg else ts_calmPeriod s)
    (if fgt (rc_ThresholdCalmSigma cfg) f0 then rc_ThresholdCalmSigma cfg else ts_calmSigma s).

Definition isBaselineCalm {M} (s : ThresholdAnomalySource M) (stats : MetricStats) : bool :=
  if feq (rms_Mean stats) f0 || (rms_Count stats <? 2) then false
  else fle (fdiv (rms_StdDev stats) (fabs (rms_Mean stats))) (ts_calmSigma s).

(** The statistics of a non-empty list of values, from the sums of values and squares. *)
Definition statsOfValues (values : list float64) : MetricStats :=
  let sum := foldl fadd f0 values in
  let sumSq := foldl (fun acc v => fadd acc (fmul v v)) f0 values in
  let first := default f0 (head values) in
  let n := f_of_Z (len values) in
  let mean := fdiv sum n in
  let variance := fsub (fdiv sumSq n) (fmul mean mean) in
  let variance := if flt variance f0 then f0 else variance in
  mkRcaStats mean (fsqrt variance)
    (foldl (fun mn v => if flt v mn then v else mn) first values)
    (foldl (fun mx v => if fgt v mx then v else mx) first values) (len values).

Section threshold.
Context {M : Type} {HM : MetricStore M}.

Definition computeStatsFromQuery (s : ThresholdAnomalySource M) (instanceID key : string)
    (from to : Time) : result MetricStats :=
  match ms_Query (ts_metricStore s) (mkQuery instanceID key ∅ from to 0) with
  | Err e => Err e
  | Ok [] => Ok (mkRcaStats f0 f0 f0 f0 0)
  | Ok points => Ok (statsOfValues (map pt_Value points))
  end.

Definition computeAllStats (s : ThresholdAnomalySource M) (instanceID : string)
    (metricKeys : list string) (from to : Time) : gmap string MetricStats :=
  foldl (fun acc key => match computeStatsFromQuery s instanceID key from to with
                        | Err _ => acc
                        | Ok stats => <[key := stats]> acc
                        end) ∅ metricKeys.

(** The statistics of the provider (a non-nil map), or computed ones when there is none or it fails. *)
Definition baselineStats (s : ThresholdAnomalySource M) (instanceID : string)
    (metricKeys : list string) (from to : Time) : gmap string MetricStats :=
  match ts_stats s with
  | Some sp => match sp instanceID metricKeys from to with
               | Ok stats => stats
               | Err _ => computeAllStats s instanceID metricKeys from to
               end
  | None => computeAllStats s instanceID metricKeys from to
  end.

(** The event of one point, if it deviates by two standard deviations or more. *)
Definition thresholdEvent (s : ThresholdAnomalySource M) (stats : MetricStats)
    (instanceID key : string) (p : MetricPoint) : option AnomalyEvent :=
  if feq (rms_StdDev stats) f0 then None
  else
    let calm := isBaselineCalm s stats in
    let deviation := fabs (fsub (pt_Value p) (rms_Mean stats)) in
    let zScore := fdiv deviation (rms_StdDev stats) in
    if flt zScore (f_of_Z 2) then None
    else
      let rateChange := if fne (rms_Mean stats) f0 then fdiv (pt_Value p) (rms_Mean stats) else f0 in
      let strength := fmin f1 (fadd (fmul (fdiv (fsub zScore (f_of_Z 2)) (f_of_Z 3)) (fconst 7 10))
                                 (fconst 3 10)) in
      let strength := if calm then strength else fmul strength (fconst 5 10) in
      Some (mkAnomaly instanceID key (pt_Timestamp p) (pt_Value p) (rms_Mean stats) zScore
              rateChange strength (if calm then "threshold" else "threshold_unreliable")).

(** The events of one key. *)
Definition thresholdEvents (s : ThresholdAnomalySource M) (stats : gmap string MetricStats)
    (instanceID : string) (queryFrom queryTo : Time) (key : string) : list AnomalyEvent :=
  match stats !! key with
  | None => []
  | Some st =>
      if rms_Count st <? 2 then []
      else match ms_Query (ts_metricStore s) (mkQuery instanceID key ∅ queryFrom queryTo 0) with
           | Err _ => []
           | Ok points => omap (thresholdEvent s st instanceID key) points
           end
  end.

(** [result[key] = append(result[key], ...)]; a key without events gets no entry. *)
Definition appendEvents (acc : AnomalyMap) (key : string) (evs : list AnomalyEvent) : AnomalyMap :=
  match evs with
  | [] => acc
  | _ => <[key := default [] (acc !! key) ++ evs]> acc
  end.

Definition threshold_GetAnomalies (s : ThresholdAnomalySource M) (instanceID : string)
    (metricKeys : list string) (from to : Time) (jitter : Duration) : AnomalyMap :=
  let stats := baselineStats s instanceID metricKeys
                 (time_Add from (i64 (- ts_baselineWindow s))) from in
  let queryFrom := time_Add from (i64 (- jitter)) in
  let queryTo := time_Add to jitter in
  foldl (fun acc key => appendEvents acc key
                          (thresholdEvents s stats instanceID queryFrom queryTo key))
    ∅ metricKeys.

#[export] Instance ThresholdSource : AnomalySource (ThresholdAnomalySource M) := {|
  as_GetAnomalies := fun s instanceID keys from to jitter =>
    Some (s, Ok (threshold_GetAnomalies s instanceID keys from to jitter));
  as_Mode := "threshold"
|}.

End threshold.

(** ** statement_source.go *)

(** The two operations of statements.SnapshotStore that the source calls:
    [GetLatestSnapshots instance n], newest first, and [GetSnapshotEntries id limit offset]. *)
Class SnapshotStore (T : Type) := {
  ss_GetLatestSnapshots : T -> string -> Z -> result (list Statements.Snapshot);
  ss_GetSnapshotEntries : T -> Z -> Z -> Z -> result (list Statements.SnapshotEntry * Z)
}.

Record StatementDiffSource (T : Type) := mkStatementDiffSource {
  sd_store : T;
  sd_RegressionThreshold : float64;
  sd_NewQueryMinCalls : Z
}.
Arguments mkStatementDiffSource {T} _ _ _.
Arguments sd_store {T} _.
Arguments sd_RegressionThreshold {T} _.
Arguments sd_NewQueryMinCalls {T} _.

Definition NewStatementDiffSource {T} (store : T) : StatementDiffSource T :=
  mkStatementDiffSource store (f_of_Z 2) 10.

Definition regressionKey : string := "pg.statements.regression".
Definition newQueryKey : string := "pg.statements.new_query".

(** The mean time per call in the older snapshot, by query id; the last entry wins. *)
Definition oldAverages (entries : list Statements.SnapshotEntry) : gmap Z float64 :=
  foldl (fun acc e =>
           if 0 <? Statements.se_Calls e
           then <[Statements.se_QueryID e :=
                    fdiv (Statements.se_TotalExecTime e) (f_of_Z (Statements.se_Calls e))]> acc
           else acc) ∅ entries.

Definition regressionStrength (ratio : float64) : float64 :=
  if fge ratio (f_of_Z 5) then fconst 9 10
  else if fge ratio (f_of_Z 3) then fconst 7 10 else fconst 5 10.

Definition regressionEvent {T} (s : StatementDiffSource T) (oldAvgMap : gmap Z float64)
    (instanceID : string) (at_ : Time) (entry : Statements.DiffEntry) : option AnomalyEvent :=
  if Statements.de_CallsDelta entry <=? 0 then None
  else
    match oldAvgMap !! Statements.de_QueryID entry with
    | None => None
    | Some oldAvg =>
        if fle oldAvg f0 then None
        else
          let ratio := fdiv (Statements.de_AvgExecTimePerCall entry) oldAvg in
          if fge ratio (sd_RegressionThreshold s)
          then Some (mkAnomaly instanceID regressionKey at_ (Statements.de_AvgExecTimePerCall entry)
                       oldAvg ratio f0 (regressionStrength ratio) "statement_diff")
          else None
    end.

Definition newQueryEvent {T} (s : StatementDiffSource T) (instanceID : string) (at_ : Time)
    (entry : Statements.DiffEntry) : option AnomalyEvent :=
  if Statements.de_CallsDelta entry <? sd_NewQueryMinCalls s then None
  else
    let strength :=
      if fgt (Statements.de_ExecTimeDelta entry) (f_of_Z 10000) then fconst 8 10
      else if fgt (Statements.de_ExecTimeDelta entry) (f_of_Z 1000) then fconst 6 10
      else fconst 4 10 in
    Some (mkAnomaly instanceID newQueryKey at_ (Statements.de_AvgExecTimePerCall entry) f0 f0 f0
            strength "statement_diff").

(** [GetAnomalies]; every failure gives an empty map. *)
Definition statement_GetAnomalies {SS : SliceSort} {MR : MapRange} {T} {HT : SnapshotStore T}
    (s : StatementDiffSource T) (instanceID : string) (from to : Time) : AnomalyMap :=
  match ss_GetLatestSnapshots (sd_store s) instanceID 2 with
  | Ok (newer :: older :: _) =>
      if time_Before (Statements.sn_CapturedAt newer) (time_Add from (- Hour))
         || time_After (Statements.sn_CapturedAt older) (time_Add to Hour) then ∅
      else
        match ss_GetSnapshotEntries (sd_store s) (Statements.sn_ID older) 1000 0,
              ss_GetSnapshotEntries (sd_store s) (Statements.sn_ID newer) 1000 0 with
        | Ok (olderEntries, _), Ok (newerEntries, _) =>
            let diff := Statements.ComputeDiff older newer olderEntries newerEntries
                          (Statements.mkDiffOptions "total_exec_time" 100 0) in
            let at_ := Statements.sn_CapturedAt newer in
            let regressions := omap (regressionEvent s (oldAverages olderEntries) instanceID at_)
                                 (Statements.dr_Entries diff) in
            let news := omap (newQueryEvent s instanceID at_) (Statements.dr_NewQueries diff) in
            appendEvents (appendEvents ∅ regressionKey regressions) newQueryKey news
        | _, _ => ∅
        end
  | _ => ∅
  end.

(** ** The machine-learning source *)

Record MLAnomalySource (M E P : Type) := mkMLSource {
  ml_detector : Detector;
  ml_evaluator : E;
  ml_persist : option P;
  ml_fallback : ThresholdAnomalySource M;
  ml_store : M
}.
Arguments mkMLSource {M E P} _ _ _ _ _.
Arguments ml_detector {M E P} _.
Arguments ml_evaluator {M E P} _.
Arguments ml_persist {M E P} _.
Arguments ml_fallback {M E P} _.
Arguments ml_store {M E P} _.

Section ml_source.
Context {SS : SliceSort} {MR : MapRange}.
Context (stat_Mean stat_StdDev : list float64 -> float64)
  (stat_Quantile : float64 -> list float64 -> float64).
Context (formatFloat : float64 -> string).
Context {M E P : Type} {HM : MetricStore M} {HE : AlertEvaluator E} {HP : PersistenceStore P}.

Definition NewMLAnomalySourceWithConfig (d : Detector) (e : E) (persist : option P) (m : M)
    (sp : option MetricStatsProvider) (cfg : RCAConfig) : MLAnomalySource M E P :=
  mkMLSource d e persist (NewThresholdAnomalySourceWithConfig m sp cfg) m.

Definition mlEvent (instanceID : string) (a : AnomalyResult) : AnomalyEvent :=
  let zAbs := fabs (ar_ZScore a) in
  mkAnomaly instanceID (ar_Metric a) (ar_Timestamp a) (ar_Value a) f0 (ar_ZScore a) f0
    (fmin f1 (fdiv zAbs (f_of_Z 5))) "ml".

(** The detector, its evaluator and its persistence, as they change during a run. *)
Record MLState := mkMLState {
  mls_detector : Detector;
  mls_evaluator : E;
  mls_persist : option P;
  mls_result : AnomalyMap;
  mls_fallbackKeys : list string
}.

(** One key: the window's points go through the detector; keys without an anomaly fall back.
    [None] is a panic of the detector. *)
Definition mlKey (m : M) (instanceID : string) (queryFrom queryTo now : Time)
    (acc : option MLState) (key : string) : option MLState :=
  st ← acc;
  let fall st := mkMLState (mls_detector st) (mls_evaluator st) (mls_persist st) (mls_result st)
                   (mls_fallbackKeys st ++ [key]) in
  match ms_Query m (mkQuery instanceID key ∅ queryFrom queryTo 0) with
  | Err _ => Some (fall st)
  | Ok [] => Some (fall st)
  | Ok points =>
      '(d, e, persist, anomalies) ←
        Evaluate stat_Mean stat_StdDev stat_Quantile formatFloat (mls_detector st)
          (mls_evaluator st) (mls_persist st) now points;
      let st' := mkMLState d e persist (mls_result st) (mls_fallbackKeys st) in
      match anomalies with
      | [] => Some (fall st')
      | _ => Some (mkMLState d e persist
                     (appendEvents (mls_result st) key (map (mlEvent instanceID) anomalies))
                     (mls_fallbackKeys st))
      end
  end.

Definition ml_GetAnomalies (now : Time) (s : MLAnomalySource M E P) (instanceID : string)
    (metricKeys : list string) (from to : Time) (jitter : Duration)
    : option (MLAnomalySource M E P * AnomalyMap) :=
  let queryFrom := time_Add from (i64 (- jitter)) in
  let queryTo := time_Add to jitter in
  st ← foldl (mlKey (ml_store s) instanceID queryFrom queryTo now)
         (Some (mkMLState (ml_detector s) (ml_evaluator s) (ml_persist s) ∅ [])) metricKeys;
  let result :=
    if len (mls_fallbackKeys st) =? 0 then mls_result st
    else threshold_GetAnomalies (ml_fallback s) instanceID (mls_fallbackKeys st) from to jitter
           ∪ mls_result st in
  Some (mkMLSource (mls_detector st) (mls_evaluator st) (mls_persist st) (ml_fallback s)
          (ml_store s), result).

Definition MLSource (now : Time) : AnomalySource (MLAnomalySource M E P) := {|
  as_GetAnomalies := fun s instanceID keys from to jitter =>
    '(s', r) ← ml_GetAnomalies now s instanceID keys from to jitter; Some (s', Ok r);
  as_Mode := "ml"
|}.

(** ** The window's points and what the detector learns from them *)

(** The store answers a query with points of the instance and the metric asked for. *)
Definition honest (m : M) : Prop :=
  forall inst metric ls from to lim points,
    ms_Query m (mkQuery inst metric ls from to lim) = Ok points ->
    forall p, p ∈ points -> pt_InstanceID p = inst /\ pt_Metric p = metric.

Definition windowPoints (m : M) (instanceID key : string) (from to : Time) (jitter : Duration)
    : list MetricPoint :=
  match ms_Query m (mkQuery instanceID key ∅ (time_Add from (i64 (- jitter)))
                      (time_Add to jitter) 0) with
  | Ok points => points
  | Err _ => []
  end.

Lemma honest_pointsOf m instanceID key from to jitter k :
  honest m ->
  pointsOf k (windowPoints m instanceID key from to jitter)
    = if decide (k = baselineKey instanceID key)
      then windowPoints m instanceID key from to jitter else [].
Proof.
  intros H. unfold windowPoints. destruct (ms_Query _ _) as [points|] eqn:Hq.
  2:{ by destruct (decide _). }
  pose proof (H _ _ _ _ _ _ _ Hq) as Hp. clear Hq. unfold pointsOf.
  induction points as [|p points IH]; [by destruct (decide _)|].
  destruct (Hp p) as [H1 H2]; [by left|]. rewrite filter_cons, IH by (intros; apply Hp; by right).
  unfold pointKey. rewrite H1, H2. repeat case_decide; congruence.
Qed.

Lemma learned_nil k b : learned k [] b = b.
Proof. unfold learned. by destruct (Ready b). Qed.

(** One key. *)
Lemma mlKey_step m instanceID from to jitter now st key :
  wf_detector (mls_detector st) ->
  exists st',
    mlKey m instanceID (time_Add from (i64 (- jitter))) (time_Add to jitter) now (Some st) key
      = Some st' /\
    wf_detector (mls_detector st') /\
    forall k, dt_baselines (mls_detector st') !! k
      = learned k (windowPoints m instanceID key from to jitter)
          <$> dt_baselines (mls_detector st) !! k.
Proof.
  intros W. unfold mlKey, windowPoints. cbn [mbind option_bind].
  assert (forall k, dt_baselines (mls_detector st) !! k
    = learned k [] <$> dt_baselines (mls_detector st) !! k) as Hnil.
  { intros k. destruct (_ !! k); simpl; [by rewrite learned_nil|done]. }
  destruct (ms_Query _ _) as [[|p points]|err]; [by eexists|..]; [|by eexists].
  destruct (evaluate_total stat_Mean stat_StdDev stat_Quantile formatFloat (mls_detector st)
              (mls_evaluator st) (mls_persist st) now (p :: points) W)
    as (d & e & persist & rs & -> & W' & Hl).
  cbn [mbind option_bind]. by destruct rs; eexists.
Qed.

Lemma learned_app k points points' b : wf b ->
  learned k (points ++ points') b = learned k points' (learned k points b).
Proof.
  intros W. unfold learned at 2. rewrite (proj2 (learned_ready k points b W)). unfold learned.
  rewrite pointsOf_app. destruct (Ready b); [|done].
  by rewrite map_app; unfold fit; rewrite foldl_app.
Qed.

(** All keys of a run. *)
Lemma mlKeys_fold m instanceID from to jitter now keys : forall st,
  wf_detector (mls_detector st) ->
  exists st',
    foldl (mlKey m instanceID (time_Add from (i64 (- jitter))) (time_Add to jitter) now) (Some st)
      keys = Some st' /\
    wf_detector (mls_detector st') /\
    forall k, dt_baselines (mls_detector st') !! k
      = learned k (concat (map (fun key => windowPoints m instanceID key from to jitter) keys))
          <$> dt_baselines (mls_detector st) !! k.
Proof.
  induction keys as [|key keys IH]; intros st W; cbn [foldl map concat].
  { exists st. split_and!; [done..|]. intros k.
    destruct (_ !! k); simpl; [by rewrite learned_nil|done]. }
  destruct (mlKey_step m instanceID from to jitter now st key W) as (st1 & -> & W1 & H1).
  destruct (IH st1 W1) as (st2 & -> & W2 & H2). exists st2. split_and!; [done..|].
  intros k. rewrite H2, H1. destruct (_ !! k) as [b|] eqn:Hb; simpl; [|done].
  by rewrite learned_app by apply (W _ _ Hb).
Qed.

Lemma baselineKey_metric_inj inst m n : baselineKey inst m = baselineKey inst n -> m = n.
Proof.
  unfold baselineKey. induction inst as [|c inst IH]; intros H; [by injection H|].
  apply IH. by injection H.
Qed.

(** The points of one key among those of a run's distinct keys. *)
Lemma run_pointsOf m instanceID from to jitter keys key :
  honest m -> NoDup keys -> key ∈ keys ->
  pointsOf (baselineKey instanceID key)
    (concat (map (fun key => windowPoints m instanceID key from to jitter) keys))
  = windowPoints m instanceID key from to jitter.
Proof.
  intros H. assert (forall l, key ∉ l -> pointsOf (baselineKey instanceID key)
    (concat (map (fun key => windowPoints m instanceID key from to jitter) l)) = []) as Hnone.
  { induction l as [|k l IH]; [done|]. intros [Hk Hl]%not_elem_of_cons. simpl.
    rewrite pointsOf_app, honest_pointsOf by done. rewrite decide_False; [by rewrite IH|].
    intros Heq. by apply Hk, (baselineKey_metric_inj instanceID). }
  induction keys as [|k keys IH]; intros Hnd Hin; [by apply not_elem_of_nil in Hin|].
  apply NoDup_cons in Hnd as [Hk Hnd]. simpl. rewrite pointsOf_app, honest_pointsOf by done.
  apply elem_of_cons in Hin as [->|Hin].
  - rewrite decide_True by done. by rewrite Hnone, app_nil_r.
  - rewrite decide_False, IH by first [done|intros Heq; apply baselineKey_metric_inj in Heq; congruence].
    done.
Qed.

(** One run, as the detector sees it. *)
Lemma ml_run now (s : MLAnomalySource M E P) instanceID keys from to jitter key b :
  honest (ml_store s) -> wf_detector (ml_detector s) -> NoDup keys -> key ∈ keys ->
  dt_baselines (ml_detector s) !! baselineKey instanceID key = Some b -> Ready b = true ->
  exists s' r, ml_GetAnomalies now s instanceID keys from to jitter = Some (s', r) /\
    ml_store s' = ml_store s /\ wf_detector (ml_detector s') /\
    dt_baselines (ml_detector s') !! baselineKey instanceID key
      = Some (fit b (map pt_Value (windowPoints (ml_store s) instanceID key from to jitter))).
Proof.
  intros Hm W Hnd Hin Hb R. unfold ml_GetAnomalies.
  destruct (mlKeys_fold (ml_store s) instanceID from to jitter now keys
              (mkMLState (ml_detector s) (ml_evaluator s) (ml_persist s) ∅ []) W)
    as (st & -> & W' & H). cbn [mbind option_bind].
  do 2 eexists. split; [reflexivity|]. split_and!; [done..|]. simpl. rewrite H. simpl. rewrite Hb.
  simpl. unfold learned. by rewrite R, run_pointsOf.
Qed.

(** The detector's default configuration: every key falls back. *)
Lemma default_keys_fall m instanceID from to now d e persist keys :
  keyed DefaultConfig d ->
  (forall q points, ms_Query m q = Ok points -> forall p, p ∈ points -> collected p) ->
  forall st, mls_detector st = d -> mls_evaluator st = e -> mls_result st = persist ->
  exists st', foldl (mlKey m instanceID from to now) (Some st) keys = Some st' /\
    mls_detector st' = d /\ mls_evaluator st' = e /\ mls_result st' = persist /\
    mls_fallbackKeys st' = mls_fallbackKeys st ++ keys.
Proof.
  intros Hk Hm. induction keys as [|key keys IH]; intros st Hd He Hr; cbn [foldl].
  { exists st. by rewrite app_nil_r. }
  assert (exists st1, mlKey m instanceID from to now (Some st) key = Some st1 /\
    mls_detector st1 = d /\ mls_evaluator st1 = e /\ mls_result st1 = persist /\
    mls_fallbackKeys st1 = mls_fallbackKeys st ++ [key]) as (st1 & -> & Hd1 & He1 & Hr1 & Hf1).
  { unfold mlKey. cbn [mbind option_bind].
    destruct (ms_Query m _) as [[|p points]|err] eqn:Hq; [by eexists| |by eexists].
    rewrite Hd. erewrite default_evaluate by (try done; by eapply Hm).
    cbn [mbind option_bind]. by eexists. }
  destruct (IH st1 Hd1 He1 Hr1) as (st2 & -> & ? & ? & ? & Hf2). exists st2.
  split_and!; try done. by rewrite Hf2, Hf1, <- app_assoc.
Qed.

(** ** Properties *)

(** An analysis is not a read. Each analysis feeds the points of its window to the
    detector's baselines: after two analyses of the same window, the baseline of every ready
    metric that was looked at has learned each of those points twice. *)
Theorem analyses_relearn_window (now now' : Time) (s : MLAnomalySource M E P)
    (instanceID : string) (keys : list string) (from to : Time) (jitter : Duration)
    (key : string) (b : STLBaseline) :
  honest (ml_store s) -> wf_detector (ml_detector s) -> NoDup keys -> key ∈ keys ->
  dt_baselines (ml_detector s) !! baselineKey instanceID key = Some b -> Ready b = true ->
  let seen := map pt_Value (windowPoints (ml_store s) instanceID key from to jitter) in
  exists s1 r1 s2 r2,
    ml_GetAnomalies now s instanceID keys from to jitter = Some (s1, r1) /\
    ml_GetAnomalies now' s1 instanceID keys from to jitter = Some (s2, r2) /\
    dt_baselines (ml_detector s2) !! baselineKey instanceID key = Some (fit b (seen ++ seen)).
Proof.
  intros Hm W Hnd Hin Hb R seen.
  destruct (ml_run now s instanceID keys from to jitter key b) as (s1 & r1 & H1 & Hs1 & W1 & Hb1);
    [done..|].
  destruct (ml_run now' s1 instanceID keys from to jitter key (fit b seen))
    as (s2 & r2 & H2 & _ & _ & Hb2); try done.
  - by rewrite Hs1.
  - apply fit_ready; [exact (W _ _ Hb)|done].
  - exists s1, r1, s2, r2. split_and!; [done..|]. rewrite Hb2, Hs1. unfold fit, seen.
    by rewrite foldl_app.
Qed.

(** With the detector's default configuration, machine learning never contributes to an
    analysis: whatever the history and the window, the machine-learning source returns exactly
    the anomalies of its threshold fallback and leaves the detector as it was. *)
Theorem ml_source_is_threshold_by_default (clock : string -> Time * Time)
    (age : BaselineSnapshot -> Duration) (instances : result (list string)) (now : Time)
    (err : option error) (s : MLAnomalySource M E P) (persist0 : option P) (instanceID : string)
    (keys : list string) (from to : Time) (jitter : Duration) :
  Bootstrap (NewDetector DefaultConfig) (ml_store s) persist0 instances age clock
    = Some (ml_detector s, err) ->
  (forall q points, ms_Query (ml_store s) q = Ok points -> forall p, p ∈ points -> collected p) ->
  exists s', ml_GetAnomalies now s instanceID keys from to jitter
      = Some (s', threshold_GetAnomalies (ml_fallback s) instanceID keys from to jitter) /\
    ml_detector s' = ml_detector s /\ ml_evaluator s' = ml_evaluator s.
Proof.
  intros HB Hm. unfold ml_GetAnomalies.
  destruct (default_keys_fall (ml_store s) instanceID (time_Add from (i64 (- jitter)))
              (time_Add to jitter) now (ml_detector s) (ml_evaluator s) ∅ keys)
    with (st := mkMLState (ml_detector s) (ml_evaluator s) (ml_persist s) ∅ [])
    as (st & -> & Hd & He & Hr & Hf); try done.
  { by eapply Bootstrap_keyed. }
  cbn [mbind option_bind]. rewrite Hr, Hf. cbn [mls_fallbackKeys app].
  destruct keys as [|k keys]; [by eexists|].
  rewrite (proj2 (Z.eqb_neq _ _)) by (unfold len; cbn [length]; lia).
  rewrite map_union_empty. by eexists.
Qed.

End ml_source.

(** ** Concrete runs *)

(** Statements of one query text in two databases: the regression test compares the rate in one
    database with the rate in the other, so a steady workload is reported as a regression. *)
#[local] Instance twoSnapshots : SnapshotStore (list Statements.SnapshotEntry * list Statements.SnapshotEntry) := {|
  ss_GetLatestSnapshots := fun _ _ _ =>
    Ok [Statements.mkSnapshot 2 "db1" (60 * Second) 160000 None 0 0 f0;
        Statements.mkSnapshot 1 "db1" 0 160000 None 0 0 f0];
  ss_GetSnapshotEntries := fun st id _ _ => Ok (if id =? 1 then st.1 else st.2, 2)
|}.

Definition steadyEntry (db calls ms : Z) : Statements.SnapshotEntry :=
  Statements.mkSnapshotEntry 1 7 10 db "db" "u" "select" calls (f_of_Z ms) None
    0 0 0 0 0 0 0 0 0 f0 f0 None None None None None None None.

Lemma regression_mixes_databases :
  map an_BaselineVal (default [] (@statement_GetAnomalies insertion_SliceSort canonical_MapRange _ _
    (NewStatementDiffSource ([steadyEntry 1 10 1000; steadyEntry 2 10 10],
                             [steadyEntry 1 20 2000; steadyEntry 2 20 20]))
    "db1" 0 (60 * Second) !! regressionKey)) = [f1].
Proof. vm_compute. reflexivity. Qed.

#[local] Instance windowStore : MetricStore unit := {|
  ms_Write := fun _ _ => ((), None);
  ms_Query := fun _ q => Ok [mkPoint (q_InstanceID q) (q_Metric q) (f_of_Z 3) ∅ (q_Start q)]
|}.
#[local] Instance silentEvaluator : AlertEvaluator unit := {| ae_Evaluate := fun _ _ _ _ => ((), None) |}.

Lemma windowStore_honest : honest tt.
Proof. intros i k ls from to lim points [= <-] p ->%list_elem_of_singleton. done. Qed.

Lemma demo_ready : Ready demoBaseline = true.
Proof. vm_compute. reflexivity. Qed.

Abbreviation demoSource :=
  (@NewMLAnomalySourceWithConfig unit unit SnapshotTable demoDetector tt None tt None DefaultRCAConfig).

Lemma analyses_relearn_window_witness : exists s1 r1 s2 r2,
  @ml_GetAnomalies insertion_SliceSort canonical_MapRange demoMean residualStddev demoQuantile
    (fun _ => "") unit unit SnapshotTable _ _ (@DBPersistenceStore canonical_MapRange) 5 demoSource
    "db1" ["m"] 0 Minute 0 = Some (s1, r1) /\
  @ml_GetAnomalies insertion_SliceSort canonical_MapRange demoMean residualStddev demoQuantile
    (fun _ => "") unit unit SnapshotTable _ _ (@DBPersistenceStore canonical_MapRange) 6 s1
    "db1" ["m"] 0 Minute 0 = Some (s2, r2) /\
  dt_baselines (ml_detector s2) !! baselineKey "db1" "m"
    = Some (fit demoBaseline ([f_of_Z 3] ++ [f_of_Z 3])).
Proof.
  exact (@analyses_relearn_window insertion_SliceSort canonical_MapRange demoMean residualStddev
           demoQuantile (fun _ => "") unit unit SnapshotTable windowStore silentEvaluator
           (@DBPersistenceStore canonical_MapRange) 5 6 demoSource "db1" ["m"] 0 Minute 0 "m"
           demoBaseline windowStore_honest demoDetector_wf (NoDup_singleton _)
           (list_elem_of_here _ _) (lookup_singleton_eq _ _) demo_ready).
Defined.

#[local] Instance cacheStore : MetricStore bool := {|
  ms_Write := fun b _ => (b, None);
  ms_Query := fun _ q => Ok [Base_point (q_InstanceID q) "cache.hit_ratio" (f_of_Z 3) ∅ (q_Start q)]
|}.

Lemma ml_source_is_threshold_by_default_witness : exists d s',
  @ml_GetAnomalies insertion_SliceSort canonical_MapRange demoMean residualStddev demoQuantile
    (fun _ => "") bool unit SnapshotTable _ _ (@DBPersistenceStore canonical_MapRange) 5
    (@NewMLAnomalySourceWithConfig bool unit SnapshotTable d tt None true None DefaultRCAConfig)
    "db1" ["pg.cache.hit_ratio"] 0 Minute 0
  = Some (s', threshold_GetAnomalies (NewThresholdAnomalySourceWithConfig true None DefaultRCAConfig)
                "db1" ["pg.cache.hit_ratio"] 0 Minute 0) /\ ml_detector s' = d.
Proof.
  exists (mkDetector DefaultConfig ∅ true).
  destruct (@ml_source_is_threshold_by_default insertion_SliceSort canonical_MapRange demoMean
              residualStddev demoQuantile (fun _ => "") bool unit SnapshotTable _ _
              (@DBPersistenceStore canonical_MapRange) (fun _ => (0, 0)) (fun _ => 0) (Ok []) 5 None
              (@NewMLAnomalySourceWithConfig bool unit SnapshotTable (mkDetector DefaultConfig ∅ true)
                 tt None true None DefaultRCAConfig)
              None "db1" ["pg.cache.hit_ratio"] 0 Minute 0) as (s' & H & Hd & _).
  - reflexivity.
  - intros q points [= <-] p ->%list_elem_of_singleton.
    by exists (q_InstanceID q), "cache.hit_ratio", (f_of_Z 3), ∅, (q_Start q).
  - exists s'. split; [exact H|exact Hd].
Defined.
