(* ===== verification/GoText.v ===== *)
(** * Go's text functions: strings.TrimSpace, TrimRight, Contains; strconv.ParseInt, ParseFloat

    The parts of the standard library's strings and strconv packages that the playbook code
    calls, as executable functions on byte strings, with the lemmas its theorems use. *)
From stdpp Require Import pretty.
From S2P Require Import Prelude Float64.

Local Open Scope Z_scope.

(** ** Bytes *)

Definition byte_Z (c : Ascii.ascii) : Z := Z.of_N (Ascii.N_of_ascii c).

(** [lower(c)] of strconv: [c | 0x20]. *)
Definition lower (c : Ascii.ascii) : Z := Z.lor (byte_Z c) 32.

Definition is_digit (c : Ascii.ascii) : bool := (48 <=? byte_Z c) && (byte_Z c <=? 57).
Definition is_hex_letter (c : Ascii.ascii) : bool := (97 <=? lower c) && (lower c <=? 102).

(** The class [\w] of regexp: letters, digits and the underscore. *)
Definition is_word (c : Ascii.ascii) : bool :=
  is_digit c || ((65 <=? byte_Z c) && (byte_Z c <=? 90)) || ((97 <=? byte_Z c) && (byte_Z c <=? 122))
  || (byte_Z c =? 95).

Definition newline : string := String (Ascii.ascii_of_N 10) EmptyString.

(** ** strings *)

Fixpoint str_rev (acc s : string) : string :=
  match s with
  | EmptyString => acc
  | String c s' => str_rev (String c acc) s'
  end.

Definition bytes (l : list N) : string :=
  fold_right (fun n s => String (Ascii.ascii_of_N n) s) EmptyString l.

(** The UTF-8 encodings of the code points that [unicode.IsSpace] accepts. *)
Definition spaces : list string :=
  Eval vm_compute in
  map bytes ([[9]; [10]; [11]; [12]; [13]; [32]; [194; 133]; [194; 160]; [225; 154; 128];
             [226; 128; 168]; [226; 128; 169]; [226; 128; 175]; [226; 129; 159]; [227; 128; 128]]
    ++ map (fun n => [226; 128; 128 + n]) [0; 1; 2; 3; 4; 5; 6; 7; 8; 9; 10])%N.

Fixpoint strip_prefix (p s : string) : option string :=
  match p, s with
  | EmptyString, _ => Some s
  | String a p', String b s' => if Ascii.eqb a b then strip_prefix p' s' else None
  | String _ _, EmptyString => None
  end.

Definition strip_any (ps : list string) (s : string) : option string :=
  list_find (fun p => is_Some (strip_prefix p s)) ps ≫= fun ip => strip_prefix (snd ip) s.

(** Removing the leading patterns; every pattern is non-empty, so the length bounds the rounds. *)
Fixpoint trim_left_fuel (fuel : nat) (ps : list string) (s : string) : string :=
  match fuel with
  | O => s
  | S n => match strip_any ps s with
           | Some s' => trim_left_fuel n ps s'
           | None => s
           end
  end.

Definition trim_left (ps : list string) (s : string) : string :=
  trim_left_fuel (String.length s) ps s.

Definition trim_right (ps : list string) (s : string) : string :=
  str_rev "" (trim_left (map (str_rev "") ps) (str_rev "" s)).

Definition TrimSpace (s : string) : string := trim_right spaces (trim_left spaces s).

(** [strings.TrimRight(s, c)] and [strings.Contains(s, c)] for a one-byte argument. *)
Definition TrimRight (c : Ascii.ascii) (s : string) : string :=
  trim_right [String c EmptyString] s.

Definition Contains (s : string) (c : Ascii.ascii) : bool := negb (char_free c s).

(** ** strconv.ParseInt(s, 10, 64) and Atoi: the value and the error *)

Definition max_u64 : Z := 2 ^ 64 - 1.

Inductive uint_result := UOk (n : Z) | USyntax | URange.

Fixpoint parse_uint (s : string) (n : Z) : uint_result :=
  match s with
  | EmptyString => UOk n
  | String c s' =>
      if is_digit c then
        let n1 := n * 10 + (byte_Z c - 48) in
        if max_u64 <? n1 then URange else parse_uint s' n1
      else USyntax
  end.

Definition ParseUint (s : string) : uint_result :=
  match s with EmptyString => USyntax | _ => parse_uint s 0 end.

Definition err_syntax : error := "invalid syntax".
Definition err_range : error := "value out of range".

Definition split_sign (s : string) : bool * string :=
  match s with
  | String c s' => if byte_Z c =? 43 then (false, s')
                   else if byte_Z c =? 45 then (true, s') else (false, s)
  | EmptyString => (false, s)
  end.

Definition ParseInt (s : string) : Z * option error :=
  let (neg, r) := split_sign s in
  match ParseUint r with
  | USyntax => (0, Some err_syntax)
  | URange => if neg then (min_i64, Some err_range) else (max_i64, Some err_range)
  | UOk un =>
      if negb neg && (2 ^ 63 <=? un) then (max_i64, Some err_range)
      else if neg && (2 ^ 63 <? un) then (min_i64, Some err_range)
      else (if neg then - un else un, None)
  end.

Definition Atoi (s : string) : Z * option error := ParseInt s.

(** ** strconv.ParseFloat(s, 64), its value; 0 on a syntax error, an infinity out of range *)

(** The exact decimal or hexadecimal number [m * b^e] rounded once, to nearest even. *)
Definition round_scaled (neg : bool) (m b e : Z) : float64 :=
  if m =? 0 then S754_zero neg
  else if 0 <=? e then
    binary_normalize f_prec f_emax ((if neg then -1 else 1) * (m * b ^ e)) 0 neg
  else
    let '(q, e', l) := SFdiv_core_binary f_prec f_emax m 0 (b ^ (- e)) 0 in
    binary_round_aux f_prec f_emax neg q e' l.

(** The digits read so far: their value, how many came after the point, and what was seen. *)
Record mantissa := mkMantissa {
  mt_value : Z;
  mt_frac : Z;
  mt_digits : bool;
  mt_dot : bool;
  mt_under : bool
}.

Definition digit_value (hex : bool) (c : Ascii.ascii) : option Z :=
  if is_digit c then Some (byte_Z c - 48)
  else if hex && is_hex_letter c then Some (lower c - 87) else None.

Fixpoint read_mantissa (hex : bool) (s : string) (t : mantissa) : mantissa * string :=
  match s with
  | EmptyString => (t, s)
  | String c s' =>
      if byte_Z c =? 95 then
        read_mantissa hex s' (mkMantissa (mt_value t) (mt_frac t) (mt_digits t) (mt_dot t) true)
      else if byte_Z c =? 46 then
        if mt_dot t then (t, s)
        else read_mantissa hex s' (mkMantissa (mt_value t) (mt_frac t) (mt_digits t) true (mt_under t))
      else match digit_value hex c with
           | Some d =>
               read_mantissa hex s'
                 (mkMantissa (mt_value t * (if hex then 16 else 10) + d)
                    (if mt_dot t then mt_frac t + 1 else mt_frac t) true (mt_dot t) (mt_under t))
           | None => (t, s)
           end
  end.

(** The exponent's digits, capped as the code caps them, and whether an underscore was met. *)
Fixpoint read_exponent (s : string) (e : Z) (under : bool) : Z * bool * string :=
  match s with
  | EmptyString => (e, under, s)
  | String c s' =>
      if byte_Z c =? 95 then read_exponent s' e true
      else if is_digit c then
        read_exponent s' (if e <? 10000 then e * 10 + (byte_Z c - 48) else e) under
      else (e, under, s)
  end.

(** The states of [underscoreOK]: nothing yet, a digit, an underscore, something else. *)
Inductive saw := SawStart | SawDigit | SawUnder | SawOther.

Fixpoint underscores (hex : bool) (s : string) (st : saw) : bool :=
  match s with
  | EmptyString => match st with SawUnder => false | _ => true end
  | String c s' =>
      if is_digit c || (hex && is_hex_letter c) then underscores hex s' SawDigit
      else if byte_Z c =? 95 then
        match st with SawDigit => underscores hex s' SawUnder | _ => false end
      else match st with SawUnder => false | _ => underscores hex s' SawOther end
  end.

Definition underscoreOK (s : string) : bool :=
  let r := snd (split_sign s) in
  match r with
  | String z (String x r') =>
      if (byte_Z z =? 48) && ((lower x =? 98) || (lower x =? 111) || (lower x =? 120))
      then underscores (lower x =? 120) r' SawDigit
      else underscores false r SawStart
  | _ => underscores false r SawStart
  end.

(** [special]: infinities and NaN, in any case. *)
Fixpoint equal_fold_ascii (s t : string) : bool :=
  match s, t with
  | EmptyString, EmptyString => true
  | String a s', String b t' =>
      (((65 <=? byte_Z a) && (byte_Z a <=? 90) && (byte_Z a + 32 =? byte_Z b)) || Ascii.eqb a b)
      && equal_fold_ascii s' t'
  | _, _ => false
  end.

Definition special (s : string) : option float64 :=
  let (neg, r) := split_sign s in
  if equal_fold_ascii r "inf" || equal_fold_ascii r "infinity" then Some (S754_infinity neg)
  else if equal_fold_ascii s "nan" then Some S754_nan else None.

Definition mt0 : mantissa := mkMantissa 0 0 false false false.

(** [readFloat] on the whole text: sign, base, mantissa, exponent of the base's exponent letter. *)
Definition readFloat (s : string) : option float64 :=
  let (neg, r) := split_sign s in
  let '(hex, r) :=
    match r with
    | String z (String x (String c r')) =>
        if (byte_Z z =? 48) && (lower x =? 120) then (true, String c r') else (false, r)
    | _ => (false, r)
    end in
  let (t, r) := read_mantissa hex r mt0 in
  if negb (mt_digits t) then None else
  let scale (e : Z) :=
    if hex then round_scaled neg (mt_value t) 2 (e - 4 * mt_frac t)
    else round_scaled neg (mt_value t) 10 (e - mt_frac t) in
  match r with
  | EmptyString =>
      if hex then None
      else if mt_under t && negb (underscoreOK s) then None else Some (scale 0)
  | String c r' =>
      if negb (lower c =? (if hex then 112 else 101)) then None
      else let (eneg, r') := split_sign r' in
           match r' with
           | String d _ =>
               if negb (is_digit d) then None
               else let '(e, eunder, rest) := read_exponent r' 0 (mt_under t) in
                    match rest with
                    | EmptyString =>
                        if eunder && negb (underscoreOK s) then None
                        else Some (scale (if eneg then - e else e))
                    | _ => None
                    end
           | EmptyString => None
           end
  end.

Definition ParseFloat (s : string) : float64 :=
  match special s with
  | Some f => f
  | None => match readFloat s with Some f => f | None => f0 end
  end.

(** With its error: a syntax error, or a text whose value is out of range. *)
Definition ParseFloatErr (s : string) : result float64 :=
  match special s with
  | Some f => Ok f
  | None => match readFloat s with
            | None => Err err_syntax
            | Some f => match f with S754_infinity _ => Err err_range | _ => Ok f end
            end
  end.

(** ** strings.Fields and strings.Split at a byte *)

Definition flush_field (cur : string) (l : list string) : list string :=
  match cur with EmptyString => l | _ => cur :: l end.

(** Every step takes at least one byte, so the length bounds the rounds. *)
Fixpoint fields_fuel (fuel : nat) (cur s : string) : list string :=
  match fuel, s with
  | S n, String c s' =>
      match strip_any spaces s with
      | Some rest => flush_field cur (fields_fuel n "" rest)
      | None => fields_fuel n (cur +:+ String c EmptyString) s'
      end
  | _, _ => flush_field cur []
  end.

Definition Fields (s : string) : list string := fields_fuel (String.length s) "" s.

Fixpoint Split (c : Ascii.ascii) (s : string) : list string :=
  match s with
  | EmptyString => [EmptyString]
  | String d s' =>
      if Ascii.eqb d c then EmptyString :: Split c s'
      else match Split c s' with
           | x :: l => String d x :: l
           | [] => [String d EmptyString]
           end
  end.

Definition TrimSuffix (s suffix : string) : string :=
  match strip_prefix (str_rev "" suffix) (str_rev "" s) with
  | Some r => str_rev "" r
  | None => s
  end.

Example Fields_values : Fields ("  cpu  12 " +:+ newline +:+ "x") = ["cpu"; "12"; "x"] /\ Fields " " = [].
Proof. vm_compute. done. Qed.
Example Split_values : Split space_char "a  b" = ["a"; ""; "b"] /\ TrimSuffix "MemTotal:" ":" = "MemTotal".
Proof. vm_compute. done. Qed.
(** [strings.ToLower] and [strings.EqualFold], on ASCII letters. *)
Fixpoint ToLower (s : string) : string :=
  match s with
  | EmptyString => EmptyString
  | String c s' =>
      String (if (65 <=? byte_Z c) && (byte_Z c <=? 90) then Ascii.ascii_of_N (Ascii.N_of_ascii c + 32)
              else c) (ToLower s')
  end.

Definition EqualFold (s t : string) : bool := String.eqb (ToLower s) (ToLower t).

(** [strings.TrimPrefix], and [strings.ReplaceAll] of one byte by another. *)
Definition TrimPrefix (s prefix : string) : string := default s (strip_prefix prefix s).

Fixpoint ReplaceByte (a b : Ascii.ascii) (s : string) : string :=
  match s with
  | EmptyString => EmptyString
  | String c s' => String (if Ascii.eqb c a then b else c) (ReplaceByte a b s')
  end.

(** [strings.Contains(s, sub)]. *)
Fixpoint ContainsStr (s sub : string) : bool :=
  has_prefix s sub ||
  match s with EmptyString => false | String _ s' => ContainsStr s' sub end.

Lemma ReplaceByte_free a b s : a <> b -> char_free a (ReplaceByte a b s) = true.
Proof.
  intros Hab. induction s as [|c s IH]; [done|]. cbn. rewrite IH, andb_true_r.
  destruct (Ascii.eqb_spec c a) as [->|Hne].
  - destruct (Ascii.eqb_spec b a) as [->|]; done.
  - by destruct (Ascii.eqb_spec c a).
Qed.

(** [strings.ToUpper], on ASCII letters, and [strings.Join]. *)
Fixpoint ToUpper (s : string) : string :=
  match s with
  | EmptyString => EmptyString
  | String c s' =>
      String (if (97 <=? byte_Z c) && (byte_Z c <=? 122) then Ascii.ascii_of_N (Ascii.N_of_ascii c - 32)
              else c) (ToUpper s')
  end.

Fixpoint Join (l : list string) (sep : string) : string :=
  match l with
  | [] => ""
  | [x] => x
  | x :: l' => x +:+ sep +:+ Join l' sep
  end.

(** ** Hexadecimal *)

Definition hex_digit (z : Z) : Ascii.ascii :=
  Ascii.ascii_of_N (Z.to_N (if z <? 10 then 48 + z else 87 + z)).

(** [fmt.Sprintf("%x", z)] of an integer of 64 bits. *)
Fixpoint hex_nat (fuel : nat) (z : Z) (acc : string) : string :=
  match fuel with
  | O => acc
  | S fuel' => let acc := String (hex_digit (z mod 16)) acc in
               if z <? 16 then acc else hex_nat fuel' (z / 16) acc
  end.

Definition hex_int (z : Z) : string :=
  if z <? 0 then "-" +:+ hex_nat 17 (- z) "" else hex_nat 17 z "".

(** ** UTF-8 *)

Definition byte_in (lo hi : Z) (c : Ascii.ascii) : bool := (lo <=? byte_Z c) && (byte_Z c <=? hi).

(** The bounds of the second byte and the number of further bytes after a leading byte. *)
Definition utf8_lead (c : Ascii.ascii) : option (Z * Z * nat) :=
  let z := byte_Z c in
  if (194 <=? z) && (z <=? 223) then Some (128, 191, 0%nat)
  else if z =? 224 then Some (160, 191, 1%nat)
  else if z =? 237 then Some (128, 159, 1%nat)
  else if (225 <=? z) && (z <=? 239) then Some (128, 191, 1%nat)
  else if z =? 240 then Some (144, 191, 2%nat)
  else if (241 <=? z) && (z <=? 243) then Some (128, 191, 2%nat)
  else if z =? 244 then Some (128, 143, 2%nat)
  else None.

(** The text of a sequence of code points; [pending] further bytes are due, the next within the
    bounds. *)
Fixpoint utf8_from (pending : option (Z * Z * nat)) (s : string) : bool :=
  match s, pending with
  | EmptyString, None => true
  | EmptyString, Some _ => false
  | String c s', None =>
      if byte_Z c <? 128 then utf8_from None s'
      else match utf8_lead c with Some p => utf8_from (Some p) s' | None => false end
  | String c s', Some (lo, hi, n) =>
      byte_in lo hi c
      && utf8_from (match n with O => None | S n' => Some (128, 191, n') end) s'
  end.

Definition utf8_valid (s : string) : bool := utf8_from None s.

(** The texts a column of type text takes. *)
Definition pg_text (s : string) : bool := utf8_valid s && char_free nul s.

Example utf8_values :
  utf8_valid (bytes [227; 128; 128; 65]%N) = true /\ utf8_valid (bytes [227; 128]%N) = false
  /\ utf8_valid (bytes [192; 128]%N) = false /\ utf8_valid (bytes [237; 160; 128]%N) = false.
Proof. vm_compute. done. Qed.

Example ParseFloat_decimal : ParseFloat "12.5" = fconst 25 2.
Proof. vm_compute. reflexivity. Qed.
Example ParseFloat_tenth : ParseFloat "1e-1" = fconst 1 10.
Proof. vm_compute. reflexivity. Qed.
Example ParseFloat_hex : ParseFloat "-0x1.8p1" = f_of_Z (-3).
Proof. vm_compute. reflexivity. Qed.
Example ParseFloat_syntax : ParseFloat "12 kB" = f0 /\ ParseFloat "0x10" = f0 /\ ParseFloat "1__0" = f0.
Proof. vm_compute. done. Qed.
Example ParseFloat_special : ParseFloat "-Infinity" = S754_infinity true /\ ParseFloat "1e400" = S754_infinity false.
Proof. vm_compute. done. Qed.
Example ParseInt_values :
  ParseInt "-17" = (-17, None) /\ ParseInt "9223372036854775808" = (max_i64, Some err_range)
  /\ ParseInt "1x" = (0, Some err_syntax) /\ ParseInt "" = (0, Some err_syntax).
Proof. vm_compute. done. Qed.
Example TrimSpace_values : TrimSpace (newline +:+ " a b " +:+ bytes [194; 160]%N) = "a b".
Proof. vm_compute. done. Qed.

(** ** Lemmas on prefixes and fields *)

Lemma strip_prefix_app (p s r : string) : strip_prefix p s = Some r -> s = p +:+ r.
Proof.
  revert s. induction p as [|c p IH]; intros s; [destruct s; by intros [= <-]|].
  destruct s as [|d s]; [done|]. cbn [strip_prefix].
  destruct (Ascii.eqb_spec c d); [|done]. intros H. subst. by rewrite (IH s H).
Qed.

Lemma strip_prefix_self (p r : string) : strip_prefix p (p +:+ r) = Some r.
Proof. induction p as [|a p IH]; [done|]. simpl. by rewrite Ascii.eqb_refl. Qed.

Lemma has_prefix_strip (s p : string) : has_prefix s p = true <-> is_Some (strip_prefix p s).
Proof.
  unfold has_prefix. revert s. induction p as [|a p IH]; intros [|b s];
    cbn [String.prefix strip_prefix]; [by split; eauto|by split; eauto|by split; [|intros []]|].
  destruct (Ascii.ascii_dec a b) as [->|Hne].
  - by rewrite Ascii.eqb_refl.
  - destruct (Ascii.eqb_spec a b); [done|]. split; [done|by intros []].
Qed.

Lemma has_prefix_app (s p : string) : has_prefix s p = true <-> exists r, s = p +:+ r.
Proof.
  rewrite has_prefix_strip. split.
  - intros [r H%strip_prefix_app]. by exists r.
  - intros [r ->]. exists r. apply strip_prefix_self.
Qed.

Lemma ContainsStr_spec (s sub : string) :
  ContainsStr s sub = true <-> exists a b, s = a +:+ sub +:+ b.
Proof.
  induction s as [|c s IH]; cbn [ContainsStr]; rewrite orb_true_iff, has_prefix_app.
  - split.
    + intros [[r Hr]|?]; [by exists "", r|done].
    + intros (a & b & H). left. exists b. by destruct a.
  - rewrite IH. split.
    + intros [[r Hr]|(a & b & Hs)]; [by exists "", r|]. exists (String c a), b. by rewrite Hs.
    + intros (a & b & H). destruct a as [|x a]; [left; by exists b|right]. simpl in H.
      injection H as _ H. by exists a, b.
Qed.

(** A text in which no space begins. *)
Definition word (w : string) : Prop := forall u v, w = u +:+ v -> v <> "" -> strip_any spaces v = None.

Lemma strip_any_Some ps s r : strip_any ps s = Some r -> exists p, p ∈ ps /\ s = p +:+ r.
Proof.
  unfold strip_any. intros ([i p] & Hf & Hr)%bind_Some.
  apply list_find_Some in Hf as (Hl & _). exists p. split; [by eapply list_elem_of_lookup_2|].
  by apply strip_prefix_app.
Qed.

Lemma strip_any_None ps s : strip_any ps s = None <-> forall p, p ∈ ps -> strip_prefix p s = None.
Proof.
  unfold strip_any. rewrite bind_None. split.
  - intros [Hf|([i p] & Hf & Hr)].
    + apply list_find_None in Hf. intros p Hp. rewrite list.Forall_forall in Hf.
      specialize (Hf p Hp). by apply eq_None_not_Some.
    + apply list_find_Some in Hf as (_ & [x Hx] & _). cbn in Hr. congruence.
  - intros H. left. apply list_find_None, list.Forall_forall. intros p Hp. rewrite (H p Hp).
    by intros [? ?].
Qed.

Lemma strip_any_app_None ps v w : strip_any ps (v +:+ w) = None -> strip_any ps v = None.
Proof.
  rewrite !strip_any_None. intros H p Hp. destruct (strip_prefix p v) as [r|] eqn:E; [|done].
  apply strip_prefix_app in E as ->. specialize (H p Hp).
  by rewrite str_app_assoc, strip_prefix_self in H.
Qed.

Lemma snoc_suffix (cur u v : string) (c : Ascii.ascii) :
  cur +:+ String c "" = u +:+ v -> v <> "" -> exists v', v = v' +:+ String c "" /\ cur = u +:+ v'.
Proof.
  revert u. induction cur as [|d cur IH]; intros u H Hv.
  - destruct u as [|x u]; [exists ""; simpl in H; by subst|].
    simpl in H. injection H as _ H. destruct u; [by destruct v|done].
  - destruct u as [|x u]; [exists (String d cur); simpl in H; by subst|].
    simpl in H. injection H as -> H. destruct (IH u H Hv) as (v' & -> & ->). by exists v'.
Qed.

(** Every field is a word, and a piece of the text. *)
Lemma fields_fuel_spec n : forall cur s,
  (forall u v, cur = u +:+ v -> v <> "" -> strip_any spaces (v +:+ s) = None) ->
  Forall (fun f => f <> "" /\ word f /\ exists a b, cur +:+ s = a +:+ f +:+ b) (fields_fuel n cur s).
Proof.
  induction n as [|n IH]; intros cur s H.
  - cbn. destruct cur as [|c cur]; repeat constructor; [done| |by exists "", s].
    intros u v E Hv. by eapply strip_any_app_None, H.
  - destruct s as [|c s].
    + cbn. destruct cur as [|c cur]; repeat constructor; [done| |by exists "", ""].
      intros u v E Hv. by eapply strip_any_app_None, H.
    + cbn [fields_fuel]. destruct (strip_any spaces (String c s)) as [rest|] eqn:E.
      * destruct (strip_any_Some _ _ _ E) as (p & _ & Hp).
        assert (Forall (fun f => f <> "" /\ word f /\
                  exists a b, cur +:+ String c s = a +:+ f +:+ b) (fields_fuel n "" rest)) as Hrest.
        { eapply List.Forall_impl; [|apply IH].
          - intros f (Hf & Hw & a & b & Hab). split_and!; [done|done|].
            exists (cur +:+ p +:+ a), b. change ("" +:+ rest) with rest in Hab. by rewrite Hp, Hab, !str_app_assoc.
          - intros u v Hu Hv. by destruct u, v. }
        destruct cur as [|d cur]; [done|]. constructor; [|done]. split_and!; [done| |].
        -- intros u v Hu Hv. by eapply strip_any_app_None, H.
        -- by exists "", (String c s).
      * eapply List.Forall_impl; [|apply IH].
        -- intros f (Hf & Hw & a & b & Hab). split_and!; [done|done|]. exists a, b.
           by rewrite <- Hab, str_app_assoc.
        -- intros u v Hu Hv. destruct (snoc_suffix _ _ _ _ Hu Hv) as (v' & -> & Hcur).
           rewrite str_app_assoc. simpl. destruct v' as [|x v']; [done|]. by apply (H u).
Qed.

Lemma Fields_spec s f : f ∈ Fields s -> f <> "" /\ word f /\ exists a b, s = a +:+ f +:+ b.
Proof.
  intros Hf. pose proof (fields_fuel_spec (String.length s) "" s) as H.
  rewrite list.Forall_forall in H. apply H; [|done]. intros u v Hu Hv. by destruct u, v.
Qed.

Lemma app_split (p x v y : string) : p +:+ x = v +:+ y ->
  (exists z, v = p +:+ z) \/ (exists z, p = v +:+ z /\ y = z +:+ x).
Proof.
  revert v. induction p as [|a p IH]; intros v H; [by left; exists v|].
  destruct v as [|b v]; [right; by exists (String a p)|].
  simpl in H. injection H as -> H. destruct (IH v H) as [[z ->]|(z & -> & ->)]; [left|right]; by exists z.
Qed.

Lemma spaces_checked :
  forallb (fun p => String.eqb p " " || char_free space_char p) spaces = true.
Proof. reflexivity. Qed.

Lemma char_free_app c a b : char_free c (a +:+ b) = char_free c a && char_free c b.
Proof. induction a as [|d a IH]; [done|]. simpl. by rewrite IH, andb_assoc. Qed.

(** A word followed by a blank: no space begins in the word. *)
Lemma word_blank w u v r : word w -> w = u +:+ v -> v <> "" ->
  strip_any spaces (v +:+ String space_char r) = None.
Proof.
  intros Hw Hu Hv. apply strip_any_None. intros p Hp.
  destruct (strip_prefix p _) as [x|] eqn:E; [|done]. exfalso.
  apply strip_prefix_app in E. symmetry in E.
  pose proof (proj1 (strip_any_None _ _) (Hw u v Hu Hv) p Hp) as Hn.
  destruct (app_split _ _ _ _ E) as [[z ->]|(z & -> & Hz)]; [by rewrite strip_prefix_self in Hn|].
  destruct z as [|c z].
  { pose proof (strip_prefix_self v "") as Hs. rewrite str_app_nil in Hs, Hn. congruence. }
  simpl in Hz. injection Hz as <- _.
  pose proof (proj1 (forallb_forall _ _) spaces_checked _ (proj1 (list_elem_of_In _ _) Hp)) as Hc.
  apply orb_true_iff in Hc as [Hc|Hc].
  - apply String.eqb_eq in Hc. by destruct v as [|? [|? v]].
  - rewrite char_free_app in Hc. apply andb_true_iff in Hc as [_ Hc].
    cbn [char_free] in Hc. by rewrite Ascii.eqb_refl in Hc.
Qed.

(** The fields of a text are kept when blanks separate them: [strings.Fields(strings.Join(l, " "))]. *)
Lemma fields_fuel_word w : forall n cur rest,
  (rest = "" \/ exists r, rest = String space_char r) ->
  (forall u v, w = u +:+ v -> v <> "" -> strip_any spaces v = None) ->
  fields_fuel (String.length w + n) cur (w +:+ rest) = fields_fuel n (cur +:+ w) rest.
Proof.
  induction w as [|c w IH]; intros n cur rest Hr Hw.
  - by rewrite str_app_nil.
  - cbn [String.length Nat.add]. rewrite str_app_cons. cbn [fields_fuel].
    assert (strip_any spaces (String c (w +:+ rest)) = None) as ->.
    { destruct Hr as [->|[r ->]].
      - rewrite str_app_nil. by apply (Hw "").
      - rewrite <- str_app_cons. by apply (word_blank (String c w) ""). }
    rewrite IH; [|done|intros u v E Hv; apply (Hw (String c u)); [by rewrite E|done]].
    by rewrite str_app_assoc.
Qed.

Lemma Fields_Join l : Forall (fun f => f <> "" /\ word f) l -> Fields (Join l " ") = l.
Proof.
  unfold Fields. intros Hl.
  enough (forall n, fields_fuel (String.length (Join l " ") + n) "" (Join l " ") = l) as H
    by (specialize (H 0%nat); by rewrite Nat.add_0_r in H).
  induction Hl as [|w l [Hne Hw] Hl IH]; intros n; [by destruct n|].
  destruct l as [|w2 l].
  - cbn [Join]. rewrite <- (str_app_nil w) at 2. rewrite fields_fuel_word by (auto || by left).
    change ("" +:+ w) with w. destruct n; cbn; by destruct w.
  - change (Join (w :: w2 :: l) " ") with (w +:+ " " +:+ Join (w2 :: l) " ").
    set (j := Join (w2 :: l) " ") in *.
    rewrite string_length_app. change (String.length (" " +:+ j)) with (S (String.length j)).
    rewrite <- Nat.add_assoc. rewrite fields_fuel_word by (auto || by right; exists j).
    change (" " +:+ j) with (String space_char j). change ("" +:+ w) with w. cbn [Nat.add fields_fuel].
    assert (strip_any spaces (String space_char j) = Some j) as -> by reflexivity.
    rewrite IH. by destruct w.
Qed.

(** Text of printable ASCII characters is a word. *)
Fixpoint all_chars (f : Ascii.ascii -> bool) (s : string) : bool :=
  match s with EmptyString => true | String c s' => f c && all_chars f s' end.

Definition printable (c : Ascii.ascii) : bool := (33 <=? byte_Z c) && (byte_Z c <=? 126).

Lemma spaces_not_printable :
  forallb (fun p => match p with String d _ => negb (printable d) | _ => false end) spaces = true.
Proof. reflexivity. Qed.

Lemma printable_word w : all_chars printable w = true -> word w.
Proof.
  intros Hw u. revert w Hw. induction u as [|d u IH]; intros w Hw v -> Hv.
  - destruct v as [|c v]; [done|]. cbn [all_chars] in Hw. apply andb_true_iff in Hw as [Hc _].
    apply strip_any_None. intros p Hp%list_elem_of_In.
    pose proof (proj1 (forallb_forall _ _) spaces_not_printable p Hp) as Hn.
    destruct p as [|d p]; [done|]. cbn [strip_prefix]. destruct (Ascii.eqb_spec d c) as [->|]; [|done].
    by rewrite Hc in Hn.
  - cbn [all_chars] in Hw. apply andb_true_iff in Hw as [_ Hw]. by apply (IH _ Hw).
Qed.
