(* ===== verification/Json.v ===== *)
(** * JSON texts and how encoding/json reads and writes them

    The part of the standard library's encoding/json that the clients of Patroni and etcd and the
    agent use: the text of a tree (Marshal, Encoder), its reading by a scanner with a stack
    (Unmarshal, Decoder) and the assignment of a tree to a typed value. Reading is structural on
    the text, so nothing carries fuel. The theorem at the end says that what is written is read
    back. *)
From stdpp Require Import pretty.
From S2P Require Import Prelude Float64 GoText.

Local Open Scope Z_scope.

(** A number keeps its text. *)
Inductive json :=
  | JNull
  | JBool (b : bool)
  | JNum (text : string)
  | JStr (s : string)
  | JArr (l : list json)
  | JObj (l : list (string * json)).

Definition dquote : Ascii.ascii := Eval compute in Ascii.ascii_of_N 34.
Definition backslash : Ascii.ascii := Eval compute in Ascii.ascii_of_N 92.

(** The encoding of the replacement character U+FFFD. *)
Definition replacement : string := Eval vm_compute in bytes [239; 191; 189]%N.

(** ** Runes: the code points of a text *)

Inductive rune :=
  | RAscii (c : Ascii.ascii)
  | RMulti (s : string)
  | RBad.

(** A byte that starts no code point stands alone, as in utf8.DecodeRune. *)
Fixpoint runes (s : string) : list rune :=
  match s with
  | EmptyString => []
  | String a s1 =>
      if byte_Z a <? 128 then RAscii a :: runes s1
      else match utf8_lead a, s1 with
           | Some (lo, hi, n), String b s2 =>
               if negb (byte_in lo hi b) then RBad :: runes s1
               else match n, s2 with
                    | O, _ => RMulti (String a (String b EmptyString)) :: runes s2
                    | S m, String c s3 =>
                        if negb (byte_in 128 191 c) then RBad :: runes s1
                        else match m, s3 with
                             | O, _ => RMulti (String a (String b (String c EmptyString))) :: runes s3
                             | S _, String d s4 =>
                                 if negb (byte_in 128 191 d) then RBad :: runes s1
                                 else RMulti (String a (String b (String c (String d EmptyString))))
                                        :: runes s4
                             | S _, EmptyString => RBad :: runes s1
                             end
                    | S _, EmptyString => RBad :: runes s1
                    end
           | _, _ => RBad :: runes s1
           end
  end.

Definition rune_text (r : rune) : string :=
  match r with RAscii c => String c EmptyString | RMulti s => s | RBad => replacement end.

Definition text_of (l : list rune) : string := fold_right (fun r s => rune_text r +:+ s) EmptyString l.

(** The UTF-8 encoding of a code point. *)
Definition utf8_encode (z : Z) : string :=
  let b n := Z.to_N n in
  if z <? 128 then bytes [b z]
  else if z <? 2048 then bytes [b (192 + z / 64); b (128 + z mod 64)]
  else if z <? 65536 then bytes [b (224 + z / 4096); b (128 + z / 64 mod 64); b (128 + z mod 64)]
  else bytes [b (240 + z / 262144); b (128 + z / 4096 mod 64); b (128 + z / 64 mod 64); b (128 + z mod 64)].

(** ** Reading strings *)

Definition hex_value (c : Ascii.ascii) : option Z :=
  if is_digit c then Some (byte_Z c - 48)
  else if is_hex_letter c then Some (lower c - 87) else None.

Definition hex4 (a b c d : Ascii.ascii) : option Z :=
  a ← hex_value a; b ← hex_value b; c ← hex_value c; d ← hex_value d;
  Some (((a * 16 + b) * 16 + c) * 16 + d).

(** The character after a backslash; the rest are errors. *)
Definition simple_escape (c : Ascii.ascii) : option Ascii.ascii :=
  let z := byte_Z c in
  if (z =? 34) || (z =? 92) || (z =? 47) then Some c
  else if z =? 98 then Some (Ascii.ascii_of_N 8)
  else if z =? 102 then Some (Ascii.ascii_of_N 12)
  else if z =? 110 then Some (Ascii.ascii_of_N 10)
  else if z =? 114 then Some (Ascii.ascii_of_N 13)
  else if z =? 116 then Some (Ascii.ascii_of_N 9)
  else None.

(** A first half of a surrogate pair that no second half follows is replaced. *)
Definition flush_high (high : option Z) (s : string) : string :=
  match high with Some _ => replacement +:+ s | None => s end.

Definition is_high (z : Z) : bool := (55296 <=? z) && (z <? 56320).
Definition is_low (z : Z) : bool := (56320 <=? z) && (z <? 57344).

(** The value of the text between the quotes; [high] is the pending half of a pair. *)
Fixpoint unquote (high : option Z) (l : list rune) : option string :=
  match l with
  | [] => Some (flush_high high "")
  | RAscii c :: l1 =>
      if negb (Ascii.eqb c backslash) then
        s ← unquote None l1; Some (flush_high high (String c s))
      else match l1 with
           | RAscii e :: l2 =>
               if byte_Z e =? 117 then
                 match l2 with
                 | RAscii h1 :: RAscii h2 :: RAscii h3 :: RAscii h4 :: l3 =>
                     z ← hex4 h1 h2 h3 h4;
                     match high with
                     | Some h =>
                         if is_low z then
                           s ← unquote None l3;
                           Some (utf8_encode (65536 + (h - 55296) * 1024 + (z - 56320)) +:+ s)
                         else if is_high z then s ← unquote (Some z) l3; Some (replacement +:+ s)
                         else s ← unquote None l3; Some (replacement +:+ utf8_encode z +:+ s)
                     | None =>
                         if is_high z then unquote (Some z) l3
                         else if is_low z then s ← unquote None l3; Some (replacement +:+ s)
                         else s ← unquote None l3; Some (utf8_encode z +:+ s)
                     end
                 | _ => None
                 end
               else
                 x ← simple_escape e; s ← unquote None l2; Some (flush_high high (String x s))
           | _ => None
           end
  | r :: l1 => s ← unquote None l1; Some (flush_high high (rune_text r +:+ s))
  end.

(** ** The scanner *)

Inductive token :=
  | TBegArr | TEndArr | TBegObj | TEndObj | TComma | TColon
  | TString (raw : string)
  | TWord (w : string)
  | TBad.

Inductive lexeme := LSpace | LQuote | LPunct (t : token) | LOther.

Definition classify (c : Ascii.ascii) : lexeme :=
  let z := byte_Z c in
  if (z =? 32) || (z =? 9) || (z =? 10) || (z =? 13) then LSpace
  else if z =? 34 then LQuote
  else if z =? 91 then LPunct TBegArr
  else if z =? 93 then LPunct TEndArr
  else if z =? 123 then LPunct TBegObj
  else if z =? 125 then LPunct TEndObj
  else if z =? 44 then LPunct TComma
  else if z =? 58 then LPunct TColon
  else LOther.

(** Between tokens, within a string (with a backslash just read or not), within a word; what was
    read of the token is reversed. *)
Inductive lexState :=
  | LIdle
  | LString (escaped : bool) (acc : string)
  | LWord (acc : string).

Definition flush_word (st : lexState) (l : list token) : list token :=
  match st with LWord acc => TWord (str_rev "" acc) :: l | _ => l end.

Fixpoint lex (st : lexState) (s : string) : list token :=
  match s with
  | EmptyString => match st with LString _ _ => [TBad] | _ => flush_word st [] end
  | String c s' =>
      match st with
      | LString true acc => lex (LString false (String c acc)) s'
      | LString false acc =>
          if Ascii.eqb c dquote then TString (str_rev "" acc) :: lex LIdle s'
          else if Ascii.eqb c backslash then lex (LString true (String c acc)) s'
          else if byte_Z c <? 32 then [TBad] else lex (LString false (String c acc)) s'
      | _ =>
          match classify c with
          | LSpace => flush_word st (lex LIdle s')
          | LQuote => flush_word st (lex (LString false "") s')
          | LPunct t => flush_word st (t :: lex LIdle s')
          | LOther => lex (LWord (match st with LWord acc => String c acc | _ => String c EmptyString end)) s'
          end
      end
  end.

(** Numbers: a sign, digits without a leading zero, a fraction, an exponent. *)
Inductive numState := NStart | NMinus | NZero | NInt | NDot | NFrac | NExp | NExpSign | NExpDigits | NBad.

Definition num_step (st : numState) (c : Ascii.ascii) : numState :=
  let z := byte_Z c in
  let digit := is_digit c in
  match st with
  | NStart => if z =? 45 then NMinus else if z =? 48 then NZero else if digit then NInt else NBad
  | NMinus => if z =? 48 then NZero else if digit then NInt else NBad
  | NZero => if z =? 46 then NDot else if lower c =? 101 then NExp else NBad
  | NInt => if digit then NInt else if z =? 46 then NDot else if lower c =? 101 then NExp else NBad
  | NDot => if digit then NFrac else NBad
  | NFrac => if digit then NFrac else if lower c =? 101 then NExp else NBad
  | NExp => if digit then NExpDigits else if (z =? 43) || (z =? 45) then NExpSign else NBad
  | NExpSign | NExpDigits => if digit then NExpDigits else NBad
  | NBad => NBad
  end.

Fixpoint num_run (st : numState) (s : string) : numState :=
  match s with EmptyString => st | String c s' => num_run (num_step st c) s' end.

Definition json_number (w : string) : bool :=
  match num_run NStart w with NZero | NInt | NFrac | NExpDigits => true | _ => false end.

Definition word_value (w : string) : option json :=
  if String.eqb w "null" then Some JNull
  else if String.eqb w "true" then Some (JBool true)
  else if String.eqb w "false" then Some (JBool false)
  else if json_number w then Some (JNum w) else None.

(** ** The stack machine *)

(** An open array, or an open object with the key of its current member; both reversed. *)
Inductive frame :=
  | FArr (l : list json)
  | FObj (l : list (string * json)) (k : string).

Inductive expect := EValue | EValueOrEnd | EKey | EKeyOrEnd | EColon | EComma | EDone (v : json).

Definition parseState : Type := (expect * list frame).

(** A complete value: the document, or a member of the innermost open frame. *)
Definition value_read (v : json) (stack : list frame) : parseState :=
  match stack with
  | [] => (EDone v, [])
  | FArr l :: st => (EComma, FArr (v :: l) :: st)
  | FObj l k :: st => (EComma, FObj ((k, v) :: l) k :: st)
  end.

Definition maxNestingDepth : Z := 10000.

Definition open_frame (f : frame) (e : expect) (stack : list frame) : option parseState :=
  if len stack <? maxNestingDepth then Some (e, f :: stack) else None.

Definition read_value (t : token) (stack : list frame) : option parseState :=
  match t with
  | TBegArr => open_frame (FArr []) EValueOrEnd stack
  | TBegObj => open_frame (FObj [] "") EKeyOrEnd stack
  | TString raw => s ← unquote None (runes raw); Some (value_read (JStr s) stack)
  | TWord w => v ← word_value w; Some (value_read v stack)
  | _ => None
  end.

Definition read_key (t : token) (stack : list frame) : option parseState :=
  match t, stack with
  | TString raw, FObj l _ :: st => s ← unquote None (runes raw); Some (EColon, FObj l s :: st)
  | _, _ => None
  end.

Definition pstep (t : token) (p : parseState) : option parseState :=
  let (e, stack) := p in
  match e, t, stack with
  | EValueOrEnd, TEndArr, FArr l :: st => Some (value_read (JArr (rev l)) st)
  | (EValue | EValueOrEnd), _, _ => read_value t stack
  | EKeyOrEnd, TEndObj, FObj l _ :: st => Some (value_read (JObj (rev l)) st)
  | (EKey | EKeyOrEnd), _, _ => read_key t stack
  | EColon, TColon, _ => Some (EValue, stack)
  | EComma, TComma, FArr _ :: _ => Some (EValue, stack)
  | EComma, TComma, FObj _ _ :: _ => Some (EKey, stack)
  | EComma, TEndArr, FArr l :: st => Some (value_read (JArr (rev l)) st)
  | EComma, TEndObj, FObj l _ :: st => Some (value_read (JObj (rev l)) st)
  | _, _, _ => None
  end.

(** The value of a whole text (Unmarshal), and the first value of a text (Decoder.Decode). *)
Fixpoint run_all (p : parseState) (l : list token) : option json :=
  match l with
  | [] => match p.1 with EDone v => Some v | _ => None end
  | t :: l' => p' ← pstep t p; run_all p' l'
  end.

Fixpoint run_first (p : parseState) (l : list token) : option json :=
  match p.1 with
  | EDone v => Some v
  | _ => match l with
         | [] => None
         | t :: l' => p' ← pstep t p; run_first p' l'
         end
  end.

Definition parse_all (s : string) : option json := run_all (EValue, []) (lex LIdle s).
Definition parse_first (s : string) : option json := run_first (EValue, []) (lex LIdle s).

Definition quoted (s : string) : string := String dquote (s +:+ String dquote EmptyString).
Example parse_all_value :
  parse_all (" {" +:+ quoted "a" +:+ ": [1, -2.5e3 ,true,null], " +:+ quoted (bytes [92;110;92;117;48;48;101;57]%N)
             +:+ ":{}}" +:+ newline)
  = Some (JObj [("a", JArr [JNum "1"; JNum "-2.5e3"; JBool true; JNull]);
                (bytes [10; 195; 169]%N, JObj [])]).
Proof. vm_compute. done. Qed.
Example parse_all_errors :
  parse_all "[1,]" = None /\ parse_all "01" = None /\ parse_all "[1" = None /\ parse_all "1 2" = None
  /\ parse_first "1 2" = Some (JNum "1") /\ parse_all "{1:2}" = None /\ parse_all "" = None.
Proof. vm_compute. done. Qed.

(** ** Assigning a tree to a typed value

    A decoder takes the value found so far and gives the new one and whether the tree had the
    right type; null leaves most values as they are, and a mismatch is reported once the whole
    tree was read. *)

Definition decoder (A : Type) : Type := A -> json -> A * bool.

Definition decode_string : decoder string := fun old j =>
  match j with JNull => (old, true) | JStr s => (s, true) | _ => (old, false) end.

Definition decode_bool : decoder bool := fun old j =>
  match j with JNull => (old, true) | JBool b => (b, true) | _ => (old, false) end.

(** An int or int64: a number written without fraction and exponent. *)
Definition decode_int : decoder Z := fun old j =>
  match j with
  | JNull => (old, true)
  | JNum w => match ParseInt w with (n, None) => (n, true) | _ => (old, false) end
  | _ => (old, false)
  end.

Definition decode_uint : decoder Z := fun old j =>
  match j with
  | JNull => (old, true)
  | JNum w => match ParseUint w with UOk n => (n, true) | _ => (old, false) end
  | _ => (old, false)
  end.

Definition decode_float : decoder float64 := fun old j =>
  match j with
  | JNull => (old, true)
  | JNum w => match ParseFloatErr w with Ok f => (f, true) | Err _ => (old, false) end
  | _ => (old, false)
  end.

(** The elements of an array go into those of the old slice, then into zero values. *)
Fixpoint decode_elems {A} (dec : decoder A) (zero : A) (old : list A) (l : list json) : list A * bool :=
  match l with
  | [] => ([], true)
  | j :: l' =>
      let (x, ok) := dec (match old with o :: _ => o | [] => zero end) j in
      let (xs, oks) := decode_elems dec zero (match old with _ :: o => o | [] => [] end) l' in
      (x :: xs, ok && oks)
  end.

Definition decode_list {A} (dec : decoder A) (zero : A) : decoder (list A) := fun old j =>
  match j with JNull => ([], true) | JArr l => decode_elems dec zero old l | _ => (old, false) end.

(** A map of strings; the nil map is [None]. *)
Definition decode_string_map : decoder (option (gmap string string)) := fun old j =>
  match j with
  | JNull => (None, true)
  | JObj l => foldl (fun r kv => let (v, ok) := decode_string "" (snd kv) in
                                 (Some (<[fst kv := v]> (default ∅ (fst r))), snd r && ok))
                (Some (default ∅ old), true) l
  | _ => (old, false)
  end.

(** Names of fields are compared exactly first, then without case: besides the case of ASCII
    letters, the long s and the Kelvin sign fold to letters. *)
Fixpoint fold_key (s : string) : string :=
  match s with
  | EmptyString => EmptyString
  | String a s1 =>
      let plain := String (if (97 <=? byte_Z a) && (byte_Z a <=? 122)
                           then Ascii.ascii_of_N (Ascii.N_of_ascii a - 32) else a) (fold_key s1) in
      match s1 with
      | String b s2 =>
          if (byte_Z a =? 197) && (byte_Z b =? 191) then "S" +:+ fold_key s2
          else match s2 with
               | String c s3 =>
                   if (byte_Z a =? 226) && (byte_Z b =? 132) && (byte_Z c =? 170) then "K" +:+ fold_key s3
                   else plain
               | EmptyString => plain
               end
      | EmptyString => plain
      end
  end.

Definition field_of {A} (fs : list (string * decoder A)) (key : string) : option (decoder A) :=
  match List.find (fun f => String.eqb (fst f) key) fs with
  | Some f => Some (snd f)
  | None => option_map snd (List.find (fun f => String.eqb (fold_key (fst f)) (fold_key key)) fs)
  end.

Definition decode_member {A} (fs : list (string * decoder A)) (r : A * bool) (kv : string * json) : A * bool :=
  match field_of fs (fst kv) with
  | None => r
  | Some dec => let (v, ok) := dec (fst r) (snd kv) in (v, snd r && ok)
  end.

Definition decode_struct {A} (fs : list (string * decoder A)) : decoder A := fun old j =>
  match j with
  | JNull => (old, true)
  | JObj l => foldl (decode_member fs) (old, true) l
  | _ => (old, false)
  end.

(** A field of a struct. *)
Definition in_field {A B} (get : A -> B) (set : A -> B -> A) (dec : decoder B) : decoder A := fun old j =>
  let (x, ok) := dec (get old) j in (set old x, ok).

(** The value of an interface: numbers become floats, and an object a map, whose order is that of its
    keys and where the last of two equal keys wins. *)
Inductive any :=
  | AnyNil
  | AnyBool (b : bool)
  | AnyFloat (f : float64)
  | AnyStr (s : string)
  | AnyArr (l : list any)
  | AnyMap (l : list (string * any)).

Fixpoint map_put {A} (k : string) (v : A) (l : list (string * A)) : list (string * A) :=
  match l with
  | [] => [(k, v)]
  | (k', v') :: l' =>
      if String.eqb k k' then (k, v) :: l'
      else if string_ltb k k' then (k, v) :: l else (k', v') :: map_put k v l'
  end.

Definition map_of {A} (l : list (string * A)) : list (string * A) :=
  foldl (fun m kv => map_put (fst kv) (snd kv) m) [] l.

Fixpoint as_any (j : json) : any :=
  match j with
  | JNull => AnyNil
  | JBool b => AnyBool b
  | JNum w => AnyFloat (ParseFloat w)
  | JStr s => AnyStr s
  | JArr l => AnyArr (map as_any l)
  | JObj l => AnyMap (map_of (map (fun kv => (fst kv, as_any (snd kv))) l))
  end.

(** No number is beyond the range of a float. *)
Fixpoint floats_fit (j : json) : bool :=
  match j with
  | JNum w => match ParseFloatErr w with Ok _ => true | Err _ => false end
  | JArr l => forallb floats_fit l
  | JObj l => forallb (fun kv => floats_fit (snd kv)) l
  | _ => true
  end.

Definition decode_any : decoder any := fun old j =>
  if floats_fit j then (as_any j, true) else (old, false).

(** [json_error] is the text of the error for a body that does not decode. *)
Definition Unmarshal {A} (json_error : string -> error) (dec : decoder A) (zero : A) (body : string) : result A :=
  match parse_all body with
  | Some j => match dec zero j with (v, true) => Ok v | _ => Err (json_error body) end
  | None => Err (json_error body)
  end.

Definition Decode {A} (json_error : string -> error) (dec : decoder A) (zero : A) (body : string) : result A :=
  match parse_first body with
  | Some j => match dec zero j with (v, true) => Ok v | _ => Err (json_error body) end
  | None => Err (json_error body)
  end.

(** ** Writing *)

(** encoding/json also escapes the characters that matter to HTML and to JavaScript. *)
Definition escape_rune (r : rune) : string :=
  match r with
  | RAscii c =>
      let z := byte_Z c in
      let esc (x : Ascii.ascii) := String backslash (String x EmptyString) in
      if (z =? 34) || (z =? 92) then esc c
      else if z =? 8 then esc (Ascii.ascii_of_N 98)
      else if z =? 9 then esc (Ascii.ascii_of_N 116)
      else if z =? 10 then esc (Ascii.ascii_of_N 110)
      else if z =? 12 then esc (Ascii.ascii_of_N 102)
      else if z =? 13 then esc (Ascii.ascii_of_N 114)
      else if (z <? 32) || (z =? 38) || (z =? 60) || (z =? 62) then
        String backslash ("u00" +:+ String (hex_digit (z / 16)) (String (hex_digit (z mod 16)) EmptyString))
      else String c EmptyString
  | RMulti s =>
      if String.eqb s (bytes [226; 128; 168]%N) then String backslash "u2028"
      else if String.eqb s (bytes [226; 128; 169]%N) then String backslash "u2029" else s
  | RBad => String backslash "ufffd"
  end.

Definition escape_all (l : list rune) : string :=
  fold_right (fun r s => escape_rune r +:+ s) EmptyString l.

Definition print_string (s : string) : string := quoted (escape_all (runes s)).

Fixpoint print_json (j : json) : string :=
  match j with
  | JNull => "null"
  | JBool true => "true"
  | JBool false => "false"
  | JNum w => w
  | JStr s => print_string s
  | JArr l => "[" +:+ Join (map print_json l) "," +:+ "]"
  | JObj l => "{" +:+ Join (map (fun kv => print_string (fst kv) +:+ ":" +:+ print_json (snd kv)) l) "," +:+ "}"
  end.

(** MarshalIndent with an empty prefix and an indent of two spaces: every element on a line of its own, a
    space after a colon. *)
Definition line_at (margin : string) : string := newline +:+ margin.

Fixpoint print_indent (margin : string) (j : json) : string :=
  match j with
  | JArr [] => "[]"
  | JArr l =>
      let inner := "  " +:+ margin in
      "[" +:+ line_at inner +:+ Join (map (print_indent inner) l) ("," +:+ line_at inner) +:+ line_at margin +:+ "]"
  | JObj [] => "{}"
  | JObj l =>
      let inner := "  " +:+ margin in
      "{" +:+ line_at inner
      +:+ Join (map (fun kv => print_string (fst kv) +:+ ": " +:+ print_indent inner (snd kv)) l) ("," +:+ line_at inner)
      +:+ line_at margin +:+ "}"
  | _ => print_json j
  end.

(** Encoder.Encode ends a value by a newline. *)
Definition encode_json (j : json) : string := print_json j +:+ newline.

(** What is read back: bytes that are no code point are replaced. *)
Definition coerce (s : string) : string := text_of (runes s).

Fixpoint coerce_json (j : json) : json :=
  match j with
  | JStr s => JStr (coerce s)
  | JArr l => JArr (map coerce_json l)
  | JObj l => JObj (map (fun kv => (coerce (fst kv), coerce_json (snd kv))) l)
  | _ => j
  end.

Fixpoint json_depth (j : json) : nat :=
  match j with
  | JArr l => S (list_max (map json_depth l))
  | JObj l => S (list_max (map (fun kv => json_depth (snd kv)) l))
  | _ => O
  end.

(** Every number is one. *)
Fixpoint numbers_ok (j : json) : bool :=
  match j with
  | JNum w => json_number w
  | JArr l => forallb numbers_ok l
  | JObj l => forallb (fun kv => numbers_ok (snd kv)) l
  | _ => true
  end.

Section json_rect.
Context (P : json -> Prop)
  (Hnull : P JNull) (Hbool : forall b, P (JBool b)) (Hnum : forall w, P (JNum w))
  (Hstr : forall s, P (JStr s)) (Harr : forall l, Forall P l -> P (JArr l))
  (Hobj : forall l, Forall (fun kv => P (snd kv)) l -> P (JObj l)).

(** Induction that reaches into arrays and objects. *)
Fixpoint json_tree_ind (j : json) : P j :=
  match j with
  | JNull => Hnull | JBool b => Hbool b | JNum w => Hnum w | JStr s => Hstr s
  | JArr l => Harr l ((fix go l : Forall P l :=
      match l with
      | [] => List.Forall_nil P
      | x :: l => List.Forall_cons P x l (json_tree_ind x) (go l)
      end) l)
  | JObj l => Hobj l ((fix go l : Forall (fun kv => P (snd kv)) l :=
      match l with
      | [] => List.Forall_nil _
      | x :: l => List.Forall_cons _ x l (json_tree_ind (snd x)) (go l)
      end) l)
  end.
End json_rect.

(** ** Lemmas on runes *)

Fixpoint high_bytes (s : string) : bool :=
  match s with EmptyString => true | String c s' => (128 <=? byte_Z c) && high_bytes s' end.

(** A rune of a text is read as one rune wherever it stands. *)
Definition rune_ok (r : rune) : Prop :=
  match r with
  | RAscii c => byte_Z c <? 128 = true
  | RMulti s => high_bytes s = true /\ forall t, runes (s +:+ t) = RMulti s :: runes t
  | RBad => True
  end.

Lemma utf8_lead_high (c : Ascii.ascii) p : utf8_lead c = Some p -> 128 <=? byte_Z c = true.
Proof.
  unfold utf8_lead. intros H. apply Z.leb_le.
  repeat match type of H with
  | context [if ?b then _ else _] => destruct b eqn:?; [lia|]
  end. done.
Qed.

Lemma utf8_lead_bound (c : Ascii.ascii) lo hi n : utf8_lead c = Some (lo, hi, n) -> 128 <= lo.
Proof.
  unfold utf8_lead. intros H.
  repeat match type of H with
  | context [if ?b then _ else _] => destruct b; [by inversion H; lia|]
  end. done.
Qed.

Lemma byte_in_high lo hi c : 128 <= lo -> byte_in lo hi c = true -> 128 <=? byte_Z c = true.
Proof. unfold byte_in. intros Hlo [H _]%andb_true_iff. apply Z.leb_le in H. apply Z.leb_le. lia. Qed.

(** The multi-byte case, once: the bytes are high and the scan takes them together. *)
Ltac rune_step Ea El :=
  split; [cbn [high_bytes]; rewrite !andb_true_iff; repeat split;
          first [exact (utf8_lead_high _ _ El) | eapply byte_in_high; [|eassumption]; lia | reflexivity]
         | intros ?; rewrite !str_app_cons;
           match goal with |- context ["" +:+ ?x] => change ("" +:+ x) with x end;
           cbn; rewrite Ea, El; repeat match goal with H : byte_in _ _ _ = true |- _ => rewrite H; clear H end;
           reflexivity].

Lemma runes_ok_le n : forall s, (String.length s <= n)%nat -> Forall rune_ok (runes s).
Proof.
  induction n as [|n IH]; intros [|a s1] Hn; cbn in Hn; try solve [constructor | lia].
  assert (H1 : Forall rune_ok (runes s1)) by (apply IH; lia).
  assert (Hbad : Forall rune_ok (RBad :: runes s1)) by (by constructor).
  cbn. destruct (byte_Z a <? 128) eqn:Ea; [by constructor|].
  destruct (utf8_lead a) as [[[lo hi] m]|] eqn:El; [|done].
  pose proof (utf8_lead_bound _ _ _ _ El) as Hlo.
  destruct s1 as [|b s2]; [done|]. destruct (byte_in lo hi b) eqn:Eb; cbn [negb]; [|done].
  destruct m as [|m].
  - constructor; [rune_step Ea El | apply IH; cbn in Hn; lia].
  - destruct s2 as [|c s3]; [done|]. destruct (byte_in 128 191 c) eqn:Ec; cbn [negb]; [|done].
    destruct m as [|m].
    + constructor; [rune_step Ea El | apply IH; cbn in Hn; lia].
    + destruct s3 as [|d s4]; [done|]. destruct (byte_in 128 191 d) eqn:Ed; cbn [negb]; [|done].
      constructor; [rune_step Ea El | apply IH; cbn in Hn; lia].
Qed.

Lemma runes_ok s : Forall rune_ok (runes s).
Proof. by apply (runes_ok_le (String.length s)). Qed.

(** ** Strings are read back *)

Ltac by_char c := destruct c as [[] [] [] [] [] [] [] []].

(** The characters of a text, each as a rune of its own. *)
Fixpoint ascii_runes (s : string) : list rune :=
  match s with EmptyString => [] | String c s' => RAscii c :: ascii_runes s' end.

Fixpoint low_bytes (s : string) : bool :=
  match s with EmptyString => true | String c s' => (byte_Z c <? 128) && low_bytes s' end.

Lemma runes_low w t : low_bytes w = true -> runes (w +:+ t) = ascii_runes w ++ runes t.
Proof.
  induction w as [|c w IH]; [done|]. cbn [low_bytes]. intros [Hc Hw]%andb_true_iff.
  rewrite str_app_cons. cbn [runes]. rewrite Hc, (IH Hw). done.
Qed.

Lemma unquote_ascii c l : byte_Z c <? 128 = true ->
  low_bytes (escape_rune (RAscii c)) = true /\
  unquote None (ascii_runes (escape_rune (RAscii c)) ++ l)
  = (s ← unquote None l; Some (String c s)).
Proof. by_char c; intros H; try discriminate H; split; reflexivity. Qed.

(** Reading one escaped rune gives its text. *)
Lemma unquote_rune r t : rune_ok r ->
  unquote None (runes (escape_rune r +:+ t))
  = (s ← unquote None (runes t); Some (rune_text r +:+ s)).
Proof.
  destruct r as [c|s|]; intros Hr.
  - destruct (unquote_ascii c (runes t) Hr) as [Hl Hu]. by rewrite runes_low, Hu.
  - destruct Hr as [_ Hr]. cbn [escape_rune].
    destruct (String.eqb_spec s (bytes [226; 128; 168]%N)) as [->|_];
      [rewrite runes_low by reflexivity; reflexivity|].
    destruct (String.eqb_spec s (bytes [226; 128; 169]%N)) as [->|_];
      [rewrite runes_low by reflexivity; reflexivity|].
    by rewrite Hr.
  - rewrite runes_low by reflexivity. reflexivity.
Qed.

Lemma unquote_escaped l : Forall rune_ok l -> unquote None (runes (escape_all l)) = Some (text_of l).
Proof.
  induction 1 as [|r l Hr _ IH]; [done|].
  change (escape_all (r :: l)) with (escape_rune r +:+ escape_all l).
  by rewrite (unquote_rune _ _ Hr), IH.
Qed.

(** The scanner passes over an escaped rune inside a string. *)
Lemma lex_high acc w t : high_bytes w = true ->
  lex (LString false acc) (w +:+ t) = lex (LString false (str_rev acc w)) t.
Proof.
  revert acc. induction w as [|c w IH]; intros acc; [done|]. cbn [high_bytes].
  intros [Hc Hw]%andb_true_iff. rewrite str_app_cons. cbn [str_rev]. rewrite <- (IH _ Hw).
  revert Hc. by_char c; intros Hc; try discriminate Hc; reflexivity.
Qed.

Lemma lex_ascii c acc t : byte_Z c <? 128 = true ->
  lex (LString false acc) (escape_rune (RAscii c) +:+ t)
  = lex (LString false (str_rev acc (escape_rune (RAscii c)))) t.
Proof. by_char c; intros H; try discriminate H; reflexivity. Qed.

Lemma lex_rune r acc t : rune_ok r ->
  lex (LString false acc) (escape_rune r +:+ t) = lex (LString false (str_rev acc (escape_rune r))) t.
Proof.
  destruct r as [c|s|]; intros Hr; [by apply lex_ascii| |reflexivity].
  destruct Hr as [Hr _]. cbn [escape_rune].
  destruct (String.eqb s (bytes [226; 128; 168]%N)); [reflexivity|].
  destruct (String.eqb s (bytes [226; 128; 169]%N)); [reflexivity|]. by apply lex_high.
Qed.

Lemma str_rev_back a : forall acc b, str_rev b (str_rev acc a) = str_rev (a +:+ b) acc.
Proof.
  induction a as [|c a IH]; intros acc b; [done|].
  cbn [str_rev]. rewrite IH. cbn [str_rev]. by rewrite str_app_cons.
Qed.

Lemma lex_string l acc t : Forall rune_ok l ->
  lex (LString false acc) (escape_all l +:+ String dquote t)
  = TString (str_rev (escape_all l) acc) :: lex LIdle t.
Proof.
  intros Hl. revert acc. induction Hl as [|r l Hr _ IH]; intros acc; [done|].
  change (escape_all (r :: l)) with (escape_rune r +:+ escape_all l).
  rewrite str_app_assoc, (lex_rune _ _ _ Hr), IH. by rewrite str_rev_back.
Qed.

Lemma lex_print_string s t :
  lex LIdle (print_string s +:+ t) = TString (escape_all (runes s)) :: lex LIdle t.
Proof.
  unfold print_string, quoted. rewrite str_app_cons, str_app_assoc.
  change (lex LIdle (String dquote ?x)) with (lex (LString false "") x).
  change (String dquote "" +:+ t) with (String dquote t).
  by rewrite (lex_string _ _ _ (runes_ok s)).
Qed.

(** ** The tokens of a tree *)

Fixpoint commas (l : list (list token)) : list token :=
  match l with
  | [] => []
  | [x] => x
  | x :: l' => x ++ TComma :: commas l'
  end.

Fixpoint tokens (j : json) : list token :=
  match j with
  | JNull => [TWord "null"]
  | JBool true => [TWord "true"]
  | JBool false => [TWord "false"]
  | JNum w => [TWord w]
  | JStr s => [TString (escape_all (runes s))]
  | JArr l => TBegArr :: commas (map tokens l) ++ [TEndArr]
  | JObj l => TBegObj :: commas (map (fun kv =>
                 TString (escape_all (runes (fst kv))) :: TColon :: tokens (snd kv)) l) ++ [TEndObj]
  end.

(** A text that ends a word. *)
Definition ends_word (s : string) : bool :=
  match s with
  | EmptyString => true
  | String c _ => match classify c with LOther => false | _ => true end
  end.

Fixpoint word_chars (s : string) : bool :=
  match s with
  | EmptyString => true
  | String c s' => match classify c with LOther => word_chars s' | _ => false end
  end.

Lemma lex_in_word w : forall acc t, word_chars w = true -> ends_word t = true ->
  lex (LWord acc) (w +:+ t) = TWord (str_rev w acc) :: lex LIdle t.
Proof.
  induction w as [|c w IH]; intros acc t Hw Ht.
  - change ("" +:+ t) with t. destruct t as [|c t]; [done|]. cbn [ends_word lex] in *.
    by destruct (classify c).
  - rewrite str_app_cons. cbn [lex word_chars str_rev] in *.
    destruct (classify c); try discriminate Hw. by rewrite (IH _ _ Hw Ht).
Qed.

Lemma lex_word w t : w <> "" -> word_chars w = true -> ends_word t = true ->
  lex LIdle (w +:+ t) = TWord w :: lex LIdle t.
Proof.
  destruct w as [|c w]; [done|]. intros _ Hw Ht. rewrite str_app_cons. cbn [lex word_chars] in *.
  destruct (classify c); try discriminate Hw. by rewrite (lex_in_word w _ _ Hw Ht).
Qed.

Lemma num_step_other st c : num_step st c <> NBad -> classify c = LOther.
Proof. destruct st; by_char c; intros H; first [reflexivity | exfalso; apply H; reflexivity]. Qed.

Lemma num_run_bad s : num_run NBad s = NBad.
Proof. by induction s. Qed.

Lemma num_run_chars s : forall st, num_run st s <> NBad -> word_chars s = true.
Proof.
  induction s as [|c s IH]; intros st H; [done|]. cbn [num_run word_chars] in *.
  rewrite (num_step_other st c); [by apply (IH (num_step st c))|].
  intros E. by rewrite E, num_run_bad in H.
Qed.

Lemma json_number_word w : json_number w = true -> w <> "" /\ word_chars w = true.
Proof.
  unfold json_number. intros H. split; [by intros -> |].
  apply (num_run_chars w NStart). by destruct (num_run NStart w).
Qed.

(** A printer of parts whose texts are scanned into their tokens is one of lists of them. *)
Lemma lex_joined {A} sep (pr : A -> string) (tk : A -> list token) (l : list A) t :
  (forall u, ends_word (sep +:+ u) = true /\ lex LIdle (sep +:+ u) = TComma :: lex LIdle u) ->
  Forall (fun x => forall u, ends_word u = true -> lex LIdle (pr x +:+ u) = tk x ++ lex LIdle u) l ->
  ends_word t = true ->
  lex LIdle (Join (map pr l) sep +:+ t) = commas (map tk l) ++ lex LIdle t.
Proof.
  intros Hs Hl Ht. induction Hl as [|x l Hx Hl IH]; [done|].
  destruct l as [|y l]; [by apply Hx|].
  change (Join (map pr (x :: y :: l)) sep) with (pr x +:+ (sep +:+ Join (map pr (y :: l)) sep)).
  change (commas (map tk (x :: y :: l))) with (tk x ++ TComma :: commas (map tk (y :: l))).
  rewrite !str_app_assoc, Hx by apply Hs. rewrite (proj2 (Hs _)). by rewrite <- app_assoc, IH.
Qed.

(** What ends a word and is read as one comma. *)
Lemma comma_sep u : ends_word ("," +:+ u) = true /\ lex LIdle ("," +:+ u) = TComma :: lex LIdle u.
Proof. by split. Qed.

(** A check of every member, and what it gives for each. *)
Lemma forallb_impl {A} (f : A -> bool) (P : A -> Prop) l :
  Forall (fun x => f x = true -> P x) l -> forallb f l = true -> Forall P l.
Proof.
  induction 1 as [|x l Hx _ IH]; cbn [forallb]; [constructor|].
  intros [Hf Hl]%andb_true_iff. constructor; auto.
Qed.

Lemma lex_print j : numbers_ok j = true -> forall t, ends_word t = true ->
  lex LIdle (print_json j +:+ t) = tokens j ++ lex LIdle t.
Proof.
  induction j as [| [|] |w|s|l IH|l IH] using json_tree_ind; cbn [numbers_ok print_json tokens];
    intros Hj t Ht; try (by apply lex_word).
  - destruct (json_number_word w Hj). by apply lex_word.
  - apply lex_print_string.
  - rewrite !str_app_assoc. change (lex LIdle ("[" +:+ ?u)) with (TBegArr :: lex LIdle u).
    rewrite (lex_joined "," print_json tokens)
      by (first [exact comma_sep | done | exact (forallb_impl _ _ _ IH Hj)]).
    by rewrite <- app_comm_cons, <- app_assoc.
  - rewrite !str_app_assoc. change (lex LIdle ("{" +:+ ?u)) with (TBegObj :: lex LIdle u).
    rewrite (lex_joined "," _ (fun kv => TString (escape_all (runes (fst kv))) :: TColon :: tokens (snd kv)) _ _ comma_sep).
    + by rewrite <- app_comm_cons, <- app_assoc.
    + refine (forallb_impl _ _ _ _ Hj). eapply list.Forall_impl; [exact IH|]. cbn beta.
      intros [k v] Hv Hn u Hu. cbn [fst snd] in *. rewrite !str_app_assoc, lex_print_string.
      change (lex LIdle (":" +:+ ?u)) with (TColon :: lex LIdle u). by rewrite (Hv Hn u Hu).
    + done.
Qed.

(** Spaces and ends of lines between tokens change nothing. *)
Fixpoint blank (s : string) : bool :=
  match s with EmptyString => true | String c s' => match classify c with LSpace => blank s' | _ => false end end.

Lemma lex_blank s u : blank s = true -> lex LIdle (s +:+ u) = lex LIdle u.
Proof.
  induction s as [|c s IH]; [done|]. rewrite str_app_cons. cbn [blank lex].
  by destruct (classify c).
Qed.

Lemma lex_line m u : blank m = true ->
  ends_word (line_at m +:+ u) = true /\ lex LIdle (line_at m +:+ u) = lex LIdle u.
Proof. intros Hm. split; [done|]. by apply (lex_blank (line_at m)). Qed.

Lemma comma_line_sep m : blank m = true -> forall u,
  ends_word (("," +:+ line_at m) +:+ u) = true /\ lex LIdle (("," +:+ line_at m) +:+ u) = TComma :: lex LIdle u.
Proof.
  intros Hm u. split; [done|]. rewrite str_app_assoc.
  change (lex LIdle ("," +:+ ?v)) with (TComma :: lex LIdle v). by rewrite (proj2 (lex_line m u Hm)).
Qed.

Lemma lex_print_indent j : numbers_ok j = true -> forall m, blank m = true -> forall t, ends_word t = true ->
  lex LIdle (print_indent m j +:+ t) = tokens j ++ lex LIdle t.
Proof.
  induction j as [| b |w|s|l IH|l IH] using json_tree_ind; intros Hj m Hm t Ht;
    try (by apply lex_print).
  - destruct l as [|x l]; [done|]. set (q := x :: l) in *.
    change (print_indent m (JArr q)) with ("[" +:+ line_at ("  " +:+ m) +:+
      Join (map (print_indent ("  " +:+ m)) q) ("," +:+ line_at ("  " +:+ m)) +:+ line_at m +:+ "]").
    rewrite !str_app_assoc. change (lex LIdle ("[" +:+ ?u)) with (TBegArr :: lex LIdle u).
    rewrite (proj2 (lex_line ("  " +:+ m) _ Hm)).
    rewrite (lex_joined _ _ tokens _ _ (comma_line_sep ("  " +:+ m) Hm)); [|  |by apply lex_line].
    + rewrite (proj2 (lex_line m _ Hm)). cbn [tokens]. by rewrite <- app_comm_cons, <- app_assoc.
    + eapply list.Forall_impl; [exact (forallb_impl _ _ _ IH Hj)|]. cbn beta. intros y Hy u. by apply Hy.
  - destruct l as [|x l]; [done|]. set (q := x :: l) in *.
    change (print_indent m (JObj q)) with ("{" +:+ line_at ("  " +:+ m) +:+
      Join (map (fun kv => print_string (fst kv) +:+ ": " +:+ print_indent ("  " +:+ m) (snd kv)) q)
        ("," +:+ line_at ("  " +:+ m)) +:+ line_at m +:+ "}").
    rewrite !str_app_assoc. change (lex LIdle ("{" +:+ ?u)) with (TBegObj :: lex LIdle u).
    rewrite (proj2 (lex_line ("  " +:+ m) _ Hm)).
    rewrite (lex_joined _ _ (fun kv => TString (escape_all (runes (fst kv))) :: TColon :: tokens (snd kv)) _ _
               (comma_line_sep ("  " +:+ m) Hm)); [|  |by apply lex_line].
    + rewrite (proj2 (lex_line m _ Hm)). cbn [tokens]. by rewrite <- app_comm_cons, <- app_assoc.
    + refine (forallb_impl _ _ _ _ Hj). eapply list.Forall_impl; [exact IH|]. cbn beta.
      intros [k v] Hv Hn u Hu. cbn [fst snd] in *. rewrite !str_app_assoc, lex_print_string.
      change (lex LIdle (": " +:+ ?u)) with (TColon :: lex LIdle u). by rewrite (Hv Hn ("  " +:+ m) Hm u Hu).
Qed.

(** ** The stack machine reads the tokens of a tree *)

Fixpoint psteps (p : parseState) (l : list token) : option parseState :=
  match l with
  | [] => Some p
  | t :: l' => p' ← pstep t p; psteps p' l'
  end.

Lemma psteps_app p a b : psteps p (a ++ b) = (p' ← psteps p a; psteps p' b).
Proof.
  revert p. induction a as [|t a IH]; intros p; [done|]. cbn.
  destruct (pstep t p) as [p'|]; cbn; [apply IH|done].
Qed.

(** The machine reads the value of [j] wherever one is due. *)
Definition reads (j : json) : Prop :=
  forall stack e, (e = EValue \/ e = EValueOrEnd) ->
    len stack + Z.of_nat (json_depth j) <= maxNestingDepth ->
    psteps (e, stack) (tokens j) = Some (value_read (coerce_json j) stack).

Lemma read_open f e' stack n : len stack + Z.of_nat (S n) <= maxNestingDepth ->
  open_frame f e' stack = Some (e', f :: stack).
Proof. intros H. unfold open_frame. by rewrite (proj2 (Z.ltb_lt _ _)) by lia. Qed.


Lemma value_fits l (stack : list frame) n :
  len stack + Z.of_nat (S (list_max (map json_depth l))) <= n ->
  Forall (fun j => len stack + 1 + Z.of_nat (json_depth j) <= n) l.
Proof.
  intros H. apply list.Forall_forall. intros j Hj.
  pose proof (proj1 (list_max_le (map json_depth l) _) (Nat.le_refl _)) as Hm.
  rewrite List.Forall_map in Hm. pose proof (proj1 (list.Forall_forall _ _) Hm j Hj). cbn beta in *. lia.
Qed.

Lemma read_elements stack l : Forall reads l ->
  Forall (fun j => len stack + 1 + Z.of_nat (json_depth j) <= maxNestingDepth) l ->
  forall acc e, (e = EValue \/ e = EValueOrEnd) -> l <> [] ->
  psteps (e, FArr acc :: stack) (commas (map tokens l))
  = Some (EComma, FArr (rev (map coerce_json l) ++ acc) :: stack).
Proof.
  induction 1 as [|j l Hj Hl IH]; intros Hd acc e He Hne; [done|].
  apply list.Forall_cons in Hd as [Hdj Hd].
  assert (H1 : psteps (e, FArr acc :: stack) (tokens j)
               = Some (EComma, FArr (coerce_json j :: acc) :: stack)).
  { apply Hj; [done|]. unfold len in *. cbn [length]. lia. }
  destruct l as [|j2 l]; [exact H1|].
  change (commas (map tokens (j :: j2 :: l))) with (tokens j ++ TComma :: commas (map tokens (j2 :: l))).
  rewrite psteps_app, H1. cbn [mbind option_bind psteps pstep].
  rewrite (IH Hd _ EValue) by auto. cbn [map rev]. by rewrite <- !app_assoc.
Qed.

Definition member_tokens (kv : string * json) : list token :=
  TString (escape_all (runes (fst kv))) :: TColon :: tokens (snd kv).

Definition coerce_member (kv : string * json) : string * json := (coerce (fst kv), coerce_json (snd kv)).

Lemma read_member stack acc k0 e kv : reads (snd kv) -> (e = EKey \/ e = EKeyOrEnd) ->
  len stack + 1 + Z.of_nat (json_depth (snd kv)) <= maxNestingDepth ->
  psteps (e, FObj acc k0 :: stack) (member_tokens kv)
  = Some (EComma, FObj (coerce_member kv :: acc) (coerce (fst kv)) :: stack).
Proof.
  destruct kv as [k v]. cbn [fst snd]. intros Hv He Hd. unfold member_tokens. cbn [fst snd].
  assert (Hk : pstep (TString (escape_all (runes k))) (e, FObj acc k0 :: stack)
               = Some (EColon, FObj acc (coerce k) :: stack)).
  { destruct He as [-> | ->]; cbn [pstep read_key]; by rewrite (unquote_escaped _ (runes_ok k)). }
  cbn [psteps]. rewrite Hk. cbn [mbind option_bind pstep].
  rewrite (Hv _ EValue) by (try (by left); unfold len in *; cbn [length]; lia). done.
Qed.

Lemma read_members stack l : Forall (fun kv => reads (snd kv)) l ->
  Forall (fun kv => len stack + 1 + Z.of_nat (json_depth (snd kv)) <= maxNestingDepth) l ->
  forall acc k0 e, (e = EKey \/ e = EKeyOrEnd) -> l <> [] -> exists k,
  psteps (e, FObj acc k0 :: stack) (commas (map member_tokens l))
  = Some (EComma, FObj (rev (map coerce_member l) ++ acc) k :: stack).
Proof.
  induction 1 as [|kv l Hj Hl IH]; intros Hd acc k0 e He Hne; [done|].
  apply list.Forall_cons in Hd as [Hdj Hd].
  pose proof (read_member stack acc k0 e kv Hj He Hdj) as H1.
  destruct l as [|kv2 l]; [by eexists|].
  destruct (IH Hd (coerce_member kv :: acc) (coerce (fst kv)) EKey) as [k Hk]; [by left|done|].
  exists k.
  change (commas (map member_tokens (kv :: kv2 :: l)))
    with (member_tokens kv ++ TComma :: commas (map member_tokens (kv2 :: l))).
  rewrite psteps_app, H1. cbn [mbind option_bind psteps pstep].
  rewrite Hk. cbn [map rev]. by rewrite <- !app_assoc.
Qed.

Lemma reads_tokens j : numbers_ok j = true -> reads j.
Proof.
  induction j as [| [|] |w|s|l IH|l IH] using json_tree_ind; intros Hn stack e He Hd;
    try (destruct He as [-> | ->]; reflexivity).
  - assert (Hw : word_value w = Some (JNum w)).
    { cbn in Hn. unfold word_value.
      destruct (String.eqb_spec w "null") as [->|_]; [discriminate Hn|].
      destruct (String.eqb_spec w "true") as [->|_]; [discriminate Hn|].
      destruct (String.eqb_spec w "false") as [->|_]; [discriminate Hn|]. by rewrite Hn. }
    destruct He as [-> | ->]; cbn [tokens psteps pstep read_value]; by rewrite Hw.
  - destruct He as [-> | ->]; cbn [tokens psteps pstep read_value];
      by rewrite (unquote_escaped _ (runes_ok s)).
  - pose proof (forallb_impl _ _ _ IH Hn) as Hl.
    assert (H0 : pstep TBegArr (e, stack) = Some (EValueOrEnd, FArr [] :: stack)).
    { cbn in Hd. destruct He as [-> | ->]; exact (read_open _ _ _ _ Hd). }
    cbn [tokens psteps]. rewrite H0. cbn [mbind option_bind]. rewrite psteps_app.
    destruct l as [|j l]; [done|].
    rewrite (read_elements stack _ Hl (value_fits _ _ _ Hd)) by (try done; by right).
    cbn [mbind option_bind psteps pstep coerce_json]. by rewrite app_nil_r, rev_involutive.
  - pose proof (forallb_impl _ _ _ IH Hn) as Hl.
    assert (H0 : pstep TBegObj (e, stack) = Some (EKeyOrEnd, FObj [] "" :: stack)).
    { cbn in Hd. destruct He as [-> | ->]; exact (read_open _ _ _ _ Hd). }
    cbn [tokens psteps]. rewrite H0. cbn [mbind option_bind].
    change (map _ l) with (map member_tokens l). rewrite psteps_app.
    destruct l as [|kv l]; [done|].
    assert (Hf : Forall (fun kv => len stack + 1 + Z.of_nat (json_depth (snd kv)) <= maxNestingDepth)
                   (kv :: l)).
    { rewrite <- (List.Forall_map snd (fun j => len stack + 1 + Z.of_nat (json_depth j) <= _)).
      apply value_fits. by rewrite map_map. }
    destruct (read_members stack _ Hl Hf [] "" EKeyOrEnd) as [k Hk]; [by right|done|].
    rewrite Hk. cbn [mbind option_bind psteps pstep coerce_json]. by rewrite app_nil_r, rev_involutive.
Qed.

(** ** What is written is read back *)

Lemma run_all_psteps p l : run_all p l = (p' ← psteps p l; match p'.1 with EDone v => Some v | _ => None end).
Proof.
  revert p. induction l as [|t l IH]; intros p; [done|]. cbn.
  destruct (pstep t p) as [p'|]; cbn; [apply IH|done].
Qed.

Lemma run_first_all l : forall p v, run_all p l = Some v -> run_first p l = Some v.
Proof.
  induction l as [|t l IH]; intros [e st] v; cbn [run_all run_first fst].
  - by destruct e.
  - destruct (pstep t (e, st)) as [p'|] eqn:E; cbn; [|done]. intros H.
    destruct e; try (by apply IH). by destruct t.
Qed.

(** The text that Marshal writes for a tree, read by Unmarshal or by a Decoder, is the tree with
    the bytes that are no code points replaced. *)
Lemma parse_written j : numbers_ok j = true -> Z.of_nat (json_depth j) <= maxNestingDepth ->
  parse_all (print_json j) = Some (coerce_json j) /\
  parse_first (encode_json j) = Some (coerce_json j).
Proof.
  intros Hn Hd.
  assert (H : run_all (EValue, []) (tokens j) = Some (coerce_json j)).
  { rewrite run_all_psteps, (reads_tokens j Hn [] EValue) by (try (by left); done). done. }
  split.
  - unfold parse_all. rewrite <- (str_app_nil (print_json j)), (lex_print j Hn) by done.
    cbn [lex flush_word]. by rewrite app_nil_r.
  - unfold parse_first, encode_json. rewrite (lex_print j Hn) by done.
    change (lex LIdle newline) with (@nil token). rewrite app_nil_r. by apply run_first_all.
Qed.

(** So is the text that MarshalIndent writes, with what is blank after it. *)
Lemma parse_indented j t : numbers_ok j = true -> Z.of_nat (json_depth j) <= maxNestingDepth -> blank t = true ->
  parse_all (print_indent "" j +:+ t) = Some (coerce_json j).
Proof.
  intros Hn Hd Ht. unfold parse_all.
  assert (He : ends_word t = true) by (destruct t as [|c t]; cbn in *; [done|]; by destruct (classify c)).
  rewrite (lex_print_indent j Hn "" eq_refl t He), <- (str_app_nil t), (lex_blank t "" Ht), app_nil_r.
  by rewrite run_all_psteps, (reads_tokens j Hn [] EValue) by (try (by left); done).
Qed.

(** A text of code points is read back unchanged. *)
Lemma coerce_valid_le n : forall s, (String.length s <= n)%nat -> utf8_valid s = true -> coerce s = s.
Proof.
  unfold utf8_valid.
  induction n as [|n IH]; intros [|a s1] Hn; cbn in Hn; try solve [done | lia].
  assert (Hd : forall t m, utf8_from (Some (128, 191, m)) t = true ->
    exists b u, t = String b u /\ byte_in 128 191 b = true /\
      utf8_from (match m with O => None | S m' => Some (128, 191, m') end) u = true).
  { intros [|b u] m H; [done|]. cbn in H. apply andb_true_iff in H as [H1 H2]. eauto. }
  unfold coerce. cbn [utf8_from runes]. destruct (byte_Z a <? 128) eqn:Ea.
  - intros H. cbn [text_of fold_right rune_text]. rewrite str_app_cons. f_equal.
    apply IH; [lia|done].
  - destruct (utf8_lead a) as [[[lo hi] m]|] eqn:El; [|done].
    destruct s1 as [|b s2]; [done|]. cbn [utf8_from]. intros [Hb H]%andb_true_iff. rewrite Hb. cbn [negb].
    assert (Hm : (m <= 2)%nat).
    { revert El. unfold utf8_lead. repeat case_match; intros E; inversion E; lia. }
    destruct m as [|m]; [|apply Hd in H as (c & s3 & -> & Hc & H); rewrite Hc; cbn [negb];
      destruct m as [|m]; [|apply Hd in H as (d & s4 & -> & Hd' & H); rewrite Hd'; cbn [negb];
        destruct m as [|m]; [|lia]]];
      cbn [text_of fold_right rune_text]; rewrite !str_app_cons; repeat f_equal;
      apply IH; cbn in Hn |- *; (lia || done).
Qed.

Lemma coerce_valid s : utf8_valid s = true -> coerce s = s.
Proof. by apply (coerce_valid_le (String.length s)). Qed.

(** ** A mismatch below is a mismatch above *)

Definition fails {A} (dec : decoder A) (j : json) : Prop := forall old, (dec old j).2 = false.

Lemma decode_members_false {A} (fs : list (string * decoder A)) l r :
  r.2 = false -> (foldl (decode_member fs) r l).2 = false.
Proof.
  revert r. induction l as [|kv l IH]; intros r Hr; [done|]. apply IH.
  unfold decode_member. destruct (field_of fs kv.1) as [dec|]; [|done].
  destruct (dec r.1 kv.2) as [v ok]. cbn. by rewrite Hr.
Qed.

Lemma decode_struct_fails {A} (fs : list (string * decoder A)) k j l dec :
  field_of fs k = Some dec -> fails dec j -> (k, j) ∈ l -> fails (decode_struct fs) (JObj l).
Proof.
  intros Hf Hj Hl old. cbn [decode_struct]. generalize (old, true). revert Hl.
  induction l as [|kv l IH]; intros Hl r; [by apply elem_of_nil in Hl|].
  apply elem_of_cons in Hl as [<-|Hl]; [|by apply IH].
  cbn [foldl]. apply decode_members_false. unfold decode_member. cbn [fst snd]. rewrite Hf.
  specialize (Hj r.1). destruct (dec r.1 j) as [v ok]. cbn in *. by rewrite Hj, andb_false_r.
Qed.

Lemma decode_list_fails {A} (dec : decoder A) zero j l :
  fails dec j -> j ∈ l -> fails (decode_list dec zero) (JArr l).
Proof.
  intros Hj Hl old. cbn [decode_list]. revert old. induction l as [|j' l IH]; intros old; [by apply elem_of_nil in Hl|].
  cbn [decode_elems]. apply elem_of_cons in Hl as [<-|Hl].
  - match goal with |- context [dec ?o j] => specialize (Hj o); destruct (dec o j) as [x ok] end.
    destruct (decode_elems _ _ _ l) as [xs oks]. cbn in *. by rewrite Hj.
  - match goal with |- context [dec ?o j'] => destruct (dec o j') as [x ok] end.
    match goal with |- context [decode_elems _ _ ?o l] =>
      specialize (IH Hl o); destruct (decode_elems dec zero o l) as [xs oks] end.
    cbn in *. by rewrite IH, andb_false_r.
Qed.

Lemma in_field_fails {A B} (get : A -> B) set (dec : decoder B) j :
  fails dec j -> fails (in_field get set dec) j.
Proof. intros H old. unfold in_field. specialize (H (get old)). by destruct (dec (get old) j). Qed.

Lemma string_map_fails k v l : fails decode_string v -> (k, v) ∈ l -> fails decode_string_map (JObj l).
Proof.
  intros Hv Hl old. cbn [decode_string_map].
  set (step := fun (r : option (gmap string string) * bool) (kv : string * json) => _).
  assert (Hf : forall l r, r.2 = false -> (foldl step r l).2 = false).
  { intros l' r. revert r. induction l' as [|kv l' IH]; intros r Hr; [done|]. apply IH. unfold step.
    destruct (decode_string "" kv.2) as [x ok]. cbn. by rewrite Hr. }
  generalize (Some (default ∅ old), true). revert Hl.
  induction l as [|kv l IH]; intros Hl r; [by apply elem_of_nil in Hl|].
  apply elem_of_cons in Hl as [<-|Hl]; [|by apply IH].
  cbn [foldl]. apply Hf. unfold step at 1. cbn [fst snd]. specialize (Hv "").
  destruct (decode_string "" v) as [x ok]. cbn in *. by rewrite Hv, andb_false_r.
Qed.

(** ** Trees of bounded depth whose numbers are numbers *)

Definition small (n : nat) (j : json) : Prop := numbers_ok j = true /\ (json_depth j <= n)%nat.

Lemma small_le m n j : (m <= n)%nat -> small m j -> small n j.
Proof. unfold small. intros ? [? ?]. split; [done|lia]. Qed.

Lemma small_arr n l : Forall (small n) l -> small (S n) (JArr l).
Proof.
  intros H. split; cbn [numbers_ok json_depth].
  - apply forallb_forall. intros j Hj%list_elem_of_In. by apply (proj1 (list.Forall_forall _ _) H).
  - apply le_n_S, list_max_le, List.Forall_map. eapply list.Forall_impl; [exact H|]. by intros j [_ ?].
Qed.

Lemma small_obj n l : Forall (fun kv => small n (snd kv)) l -> small (S n) (JObj l).
Proof.
  intros H. split; cbn [numbers_ok json_depth].
  - apply forallb_forall. intros j Hj%list_elem_of_In. by apply (proj1 (list.Forall_forall _ _) H).
  - apply le_n_S, list_max_le, List.Forall_map. eapply list.Forall_impl; [exact H|]. by intros j [_ ?].
Qed.

(** The decimal text of an integer is a number. *)
Definition JInt (z : Z) : json := JNum (pretty z).

Lemma digit_run c st s : is_digit c = true -> st = NInt -> num_run st (String c s) = num_run NInt s.
Proof. intros Hc ->. cbn [num_run num_step]. by rewrite Hc. Qed.

Lemma pretty_char_digit x : (x < 10)%N ->
  is_digit (pretty_N_char x) = true /\
  (x <> 0%N -> forall st, st = NStart \/ st = NMinus -> num_step st (pretty_N_char x) = NInt).
Proof.
  intros H. assert (Hx : x ∈ [0;1;2;3;4;5;6;7;8;9]%N).
  { rewrite !elem_of_cons. lia. }
  repeat (apply elem_of_cons in Hx as [->|Hx]; [split; [done|intros Hne st [-> | ->]; done]|]).
  by apply elem_of_nil in Hx.
Qed.

Lemma pretty_N_run x : forall s st, x <> 0%N -> st = NStart \/ st = NMinus ->
  num_run st (pretty_N_go x s) = num_run NInt s.
Proof.
  induction (N.lt_wf_0 x) as [x _ IH]; intros s st Hx Hst.
  rewrite pretty_N_go_step by lia.
  assert (Hm : (x mod 10 < 10)%N) by (by apply N.mod_lt).
  destruct (decide (x < 10)%N) as [Hs|Hs].
  - rewrite (N.div_small x 10 Hs), pretty_N_go_0, (N.mod_small x 10 Hs). cbn [num_run].
    by rewrite (proj2 (pretty_char_digit x Hs) Hx st Hst).
  - rewrite IH; [|by apply N.div_lt; lia| |done].
    + by apply digit_run; [apply pretty_char_digit|].
    + assert (1 <= x / 10)%N by (apply N.div_le_lower_bound; lia). lia.
Qed.

Lemma pretty_N_digits x : forall s, all_chars is_digit s = true -> all_chars is_digit (pretty_N_go x s) = true.
Proof.
  induction (N.lt_wf_0 x) as [x _ IH]; intros s Hs.
  destruct (decide (x = 0)%N) as [->|Hx]; [by rewrite pretty_N_go_0|].
  rewrite pretty_N_go_step by lia. apply IH; [by apply N.div_lt; lia|]. cbn [all_chars].
  rewrite Hs, andb_true_r. apply pretty_char_digit. by apply N.mod_lt.
Qed.

Lemma pretty_digits z : 0 <= z -> all_chars is_digit (pretty z) = true.
Proof.
  destruct z as [|p|p]; intros Hz; [done| |lia].
  change (pretty (Z.pos p)) with (pretty_N_go (N.pos p) ""). by apply pretty_N_digits.
Qed.

Lemma small_int z n : small n (JInt z).
Proof.
  split; [|cbn; lia]. cbn. unfold json_number.
  destruct z as [|p|p]; [done| |].
  - change (pretty (Z.pos p)) with (pretty_N_go (N.pos p) ""). by rewrite pretty_N_run by auto.
  - change (pretty (Z.neg p)) with (String (Ascii.ascii_of_N 45) (pretty_N_go (N.pos p) "")). cbn [num_run].
    rewrite pretty_N_run by auto. done.
Qed.

(** ** An integer read as a float *)

Lemma digit_char_value c : is_digit c = true -> digit_value false c = Some (byte_Z c - 48).
Proof. unfold digit_value. by intros ->. Qed.

Lemma is_digit_range c : is_digit c = true -> 48 <= byte_Z c <= 57.
Proof. unfold is_digit. intros H. zb. lia. Qed.

Lemma pretty_char_value x : (x < 10)%N ->
  is_digit (pretty_N_char x) = true /\ byte_Z (pretty_N_char x) - 48 = Z.of_N x.
Proof.
  intros H. assert (Hx : x ∈ [0;1;2;3;4;5;6;7;8;9]%N) by (rewrite !elem_of_cons; lia).
  repeat (apply elem_of_cons in Hx as [->|Hx]; [done|]). by apply elem_of_nil in Hx.
Qed.

Lemma read_digit c s t : is_digit c = true -> mt_dot t = false ->
  read_mantissa false (String c s) t
  = read_mantissa false s (mkMantissa (mt_value t * 10 + (byte_Z c - 48)) (mt_frac t) true false (mt_under t)).
Proof.
  intros Hc Ht. pose proof (is_digit_range c Hc) as Hr. cbn [read_mantissa].
  rewrite (proj2 (Z.eqb_neq (byte_Z c) 95)) by lia. rewrite (proj2 (Z.eqb_neq (byte_Z c) 46)) by lia.
  by rewrite (digit_char_value c Hc), Ht.
Qed.

Lemma read_pretty_N x : forall s, x <> 0%N ->
  read_mantissa false (pretty_N_go x s) mt0
  = read_mantissa false s (mkMantissa (Z.of_N x) 0 true false false).
Proof.
  induction (N.lt_wf_0 x) as [x _ IH]; intros s Hx. rewrite pretty_N_go_step by lia.
  destruct (pretty_char_value (x mod 10)) as [Hd Hv]; [by apply N.mod_lt|].
  assert (Z.of_N x = Z.of_N (x / 10) * 10 + Z.of_N (x mod 10)) as Hxv.
  { rewrite (N.div_mod x 10) at 1 by done. lia. }
  destruct (decide (x / 10 = 0)%N) as [H0|H0].
  - rewrite H0, pretty_N_go_0, read_digit by done. rewrite Hv. cbn [mt0 mt_value mt_frac mt_under].
    f_equal. f_equal. rewrite Hxv, H0. lia.
  - rewrite (IH (x / 10)%N (N.div_lt x 10 ltac:(lia) ltac:(done)) _ H0), read_digit by done.
    rewrite Hv. cbn [mt_value mt_frac mt_under]. f_equal. f_equal. lia.
Qed.

(** The text of a positive integer: a digit, and digits. *)
Lemma pretty_pos_shape p : exists c s,
  pretty_N_go (N.pos p) "" = String c s /\ is_digit c = true /\ all_chars is_digit s = true.
Proof.
  pose proof (pretty_N_digits (N.pos p) "" eq_refl) as H.
  destruct (pretty_N_go (N.pos p) "") as [|c s] eqn:E.
  { pose proof (read_pretty_N (N.pos p) "" ltac:(done)) as Hr. rewrite E in Hr. by injection Hr. }
  cbn [all_chars] in H. apply andb_true_iff in H as [H1 H2]. by exists c, s.
Qed.

Lemma digit_no_fold c s b t : is_digit c = true -> 65 <= byte_Z b ->
  equal_fold_ascii (String c s) (String b t) = false.
Proof.
  intros Hc Ht. pose proof (is_digit_range c Hc) as Hr. cbn.
  assert (65 <=? byte_Z c = false) as -> by (apply Z.leb_gt; lia). cbn [andb orb].
  assert (Ascii.eqb c b = false) as ->; [|done]. apply Ascii.eqb_neq. intros <-. lia.
Qed.

Lemma readFloat_digits neg w c s x : split_sign w = (neg, String c s) ->
  is_digit c = true -> all_chars is_digit s = true ->
  read_mantissa false (String c s) mt0 = (mkMantissa x 0 true false false, "") ->
  readFloat w = Some (round_scaled neg x 10 0).
Proof.
  intros Hw Hc Hs Hr. unfold readFloat. rewrite Hw.
  destruct s as [|y [|d r']].
  - rewrite Hr. done.
  - rewrite Hr. done.
  - cbn [all_chars] in Hs. apply andb_true_iff in Hs as [Hy _].
    assert (lower y =? 120 = false) as ->.
    { clear -Hy. destruct y as [[] [] [] [] [] [] [] []]; try discriminate Hy; reflexivity. }
    rewrite andb_false_r, Hr. done.
Qed.

Lemma round_scaled_int neg x : 0 < x ->
  round_scaled neg x 10 0 = f_of_Z (if neg then - x else x).
Proof.
  intros Hx. unfold round_scaled. rewrite (proj2 (Z.eqb_neq x 0)) by lia. cbn [Z.leb Z.compare].
  rewrite Z.pow_0_r, Z.mul_1_r. unfold f_of_Z, binary_normalize. destruct neg, x as [|p|p]; try lia; done.
Qed.

Lemma digit_no_sign c s : is_digit c = true -> split_sign (String c s) = (false, String c s).
Proof.
  intros Hc. pose proof (is_digit_range c Hc) as Hr. unfold split_sign.
  rewrite (proj2 (Z.eqb_neq (byte_Z c) 43)) by lia. by rewrite (proj2 (Z.eqb_neq (byte_Z c) 45)) by lia.
Qed.

Lemma special_number w neg c s : split_sign w = (neg, String c s) -> is_digit c = true ->
  w = String c s \/ w = String (Ascii.ascii_of_N 45) (String c s) -> special w = None.
Proof.
  intros Hw Hc Hshape. unfold special. rewrite Hw.
  rewrite !(digit_no_fold c s) by done. cbn [orb].
  destruct Hshape as [->| ->]; [by rewrite digit_no_fold|done].
Qed.

(** The text of an integer of 64 bits, read as a float, is the nearest float. *)
Lemma ParseFloatErr_pretty z : Z.abs z < 2 ^ 64 -> ParseFloatErr (pretty z) = Ok (f_of_Z z).
Proof.
  intros Hz. pose proof (f_of_Z_finite z Hz) as [Hi1 Hi2].
  assert (special (pretty z) = None /\ readFloat (pretty z) = Some (f_of_Z z)) as [Hs Hr].
  { destruct z as [|p|p]; [done| |]; destruct (pretty_pos_shape p) as (c & s & E & Hc & Hd);
      pose proof (read_pretty_N (N.pos p) "" ltac:(done)) as Hm; rewrite E in Hm; cbn [read_mantissa] in Hm.
    - change (pretty (Z.pos p)) with (pretty_N_go (N.pos p) ""). rewrite E.
      pose proof (digit_no_sign c s Hc) as Hw. split; [by eapply special_number; [| |left]|].
      rewrite (readFloat_digits _ _ _ _ _ Hw Hc Hd Hm). f_equal. by apply (round_scaled_int false).
    - change (pretty (Z.neg p)) with (String (Ascii.ascii_of_N 45) (pretty_N_go (N.pos p) "")). rewrite E.
      assert (split_sign (String (Ascii.ascii_of_N 45) (String c s)) = (true, String c s)) as Hw by done.
      split; [by eapply special_number; [| |right]|].
      rewrite (readFloat_digits _ _ _ _ _ Hw Hc Hd Hm). f_equal. by apply (round_scaled_int true). }
  unfold ParseFloatErr. rewrite Hs, Hr.
  destruct (f_of_Z z) as [| [] | |]; done.
Qed.

Lemma ParseFloat_pretty z : Z.abs z < 2 ^ 64 -> ParseFloat (pretty z) = f_of_Z z.
Proof.
  intros Hz. pose proof (ParseFloatErr_pretty z Hz) as H. unfold ParseFloatErr, ParseFloat in *.
  destruct (special _); [by injection H|]. destruct (readFloat _) as [[]|]; congruence.
Qed.

Lemma small_str s n : small n (JStr s).
Proof. split; [done|cbn; lia]. Qed.

Lemma small_null n : small n JNull.
Proof. split; [done|cbn; lia]. Qed.

Lemma small_bool b n : small n (JBool b).
Proof. split; [done|cbn; lia]. Qed.

Create HintDb json.
#[export] Hint Resolve small_int small_str small_null small_bool : json.

(** The fields of an object, each by the hints; what they leave is left to the proof. *)
Ltac small_fields := repeat (apply List.Forall_cons; [cbn [snd]; auto with json|]); try apply List.Forall_nil.
