(* ===== verification/Forecast.v ===== *)
(** * Maintenance forecasting

    Models internal/forecast/types.go, internal/forecast/tracker.go (the tracker of running
    maintenance operations), internal/forecast/eta.go, internal/forecast/evaluator.go (the need
    forecasts) and its part of internal/config/config.go. The metric store, the forecast store
    and the queries on monitored instances are interfaces of the code. *)
From S2P Require Import Prelude Float64 GoText Metric Ml MlRestart.

Local Open Scope Z_scope.

(** ** types.go *)

Record ProgressSample := mkSample {
  sm_Timestamp : Time;
  sm_WorkDone : float64;
  sm_WorkTotal : float64;
  sm_PctDone : float64
}.

Record TrackedOperation := mkTracked {
  to_InstanceID : string;
  to_PID : Z;
  to_Operation : string;
  to_Database : string;
  to_Table : string;
  to_TableSizeBytes : Z;
  to_StartedAt : Time;
  to_LastSeenAt : Time;
  to_MissedPolls : Z;
  to_Samples : list ProgressSample
}.

(** A finished operation as the tracker hands it to the store; the id and the creation time are
    the store's, and the metadata is always empty. *)
Record MaintenanceOperation := mkOperation {
  mo_InstanceID : string;
  mo_Operation : string;
  mo_Outcome : string;
  mo_Database : string;
  mo_Table : string;
  mo_TableSizeBytes : Z;
  mo_StartedAt : Time;
  mo_CompletedAt : Time;
  mo_DurationSec : float64;
  mo_FinalPct : float64;
  mo_AvgRatePerSec : float64
}.

Record OperationETA := mkETA {
  eta_InstanceID : string;
  eta_PID : Z;
  eta_Operation : string;
  eta_Database : string;
  eta_Table : string;
  eta_Phase : string;
  eta_PercentDone : float64;
  eta_StartedAt : Time;
  eta_ElapsedSec : float64;
  eta_ETASec : float64;
  eta_ETAAt : Time;
  eta_RateCurrent : float64;
  eta_Confidence : string;
  eta_SampleCount : Z
}.

(** A need forecast; the id and the confidence bounds are never set here. *)
Record MaintenanceForecast := mkForecast {
  mf_InstanceID : string;
  mf_Database : string;
  mf_Table : string;
  mf_Operation : string;
  mf_Status : string;
  mf_PredictedAt : option Time;
  mf_TimeUntilSec : float64;
  mf_CurrentValue : float64;
  mf_ThresholdValue : float64;
  mf_AccumulationRate : float64;
  mf_Method : string;
  mf_EvaluatedAt : Time
}.

Record TableThresholds := mkThresholds {
  tt_Database : string;
  tt_Schema : string;
  tt_Table : string;
  tt_RelTuples : Z;
  tt_AutovacuumEnabled : bool;
  tt_VacuumThreshold : Z;
  tt_VacuumScaleFactor : float64;
  tt_AnalyzeThreshold : Z;
  tt_AnalyzeScaleFactor : float64;
  tt_EffectiveVacuumLimit : float64;
  tt_EffectiveAnalyzeLimit : float64
}.

(** The two operations of the forecast store that are called here. *)
Class ForecastStore (F : Type) := {
  fs_WriteOperation : F -> MaintenanceOperation -> F * option error;
  fs_UpsertForecasts : F -> list MaintenanceForecast -> F * option error
}.

(** ** tracker.go *)

(** Completion metric and work-done metric of each operation. *)
Definition operationMetrics : gmap string (string * string) :=
  list_to_map
    [("vacuum", ("progress.vacuum.completion_pct", "progress.vacuum.heap_blks_vacuumed"));
     ("analyze", ("progress.analyze.completion_pct", "progress.analyze.sample_blks_scanned"));
     ("create_index", ("progress.create_index.completion_pct", "progress.create_index.blocks_done"));
     ("basebackup", ("progress.basebackup.completion_pct", "progress.basebackup.backup_streamed"))].

Record OperationTracker := mkTracker {
  ot_pollInterval : Duration;
  ot_windowSize : Z;
  ot_activeOps : gmap string TrackedOperation
}.

Definition NewOperationTracker (pollInterval : Duration) (windowSize : Z) : OperationTracker :=
  mkTracker (if pollInterval =? 0 then 15 * Second else pollInterval)
    (if windowSize =? 0 then 10 else windowSize) ∅.

Definition set_activeOps (ops : gmap string TrackedOperation) (t : OperationTracker)
    : OperationTracker := mkTracker (ot_pollInterval t) (ot_windowSize t) ops.

Record currentOp := mkCurrent {
  co_instanceID : string;
  co_pid : Z;
  co_opType : string;
  co_database : string;
  co_table : string;
  co_pctDone : float64;
  co_workDone : float64;
  co_phase : string;
  co_timestamp : Time
}.

(** The digits of a string, others skipped, as a 64-bit integer. *)
Definition digit (c : Ascii.ascii) : option Z :=
  let n := Z.of_N (Ascii.N_of_ascii c) in
  if (48 <=? n) && (n <=? 57) then Some (n - 48) else None.

Fixpoint atoi_from (n : Z) (s : string) : Z :=
  match s with
  | EmptyString => n
  | String c s' => atoi_from (match digit c with Some d => i64 (n * 10 + d) | None => n end) s'
  end.

Definition atoi (s : string) : Z := atoi_from 0 s.

(** For a window of at least one sample. *)
Definition appendSample (op : TrackedOperation) (sample : ProgressSample) (maxSize : Z)
    : TrackedOperation :=
  let samples := if maxSize <=? len (to_Samples op) then slice_from 1 (to_Samples op)
                 else to_Samples op in
  mkTracked (to_InstanceID op) (to_PID op) (to_Operation op) (to_Database op) (to_Table op)
    (to_TableSizeBytes op) (to_StartedAt op) (to_LastSeenAt op) (to_MissedPolls op)
    (samples ++ [sample]).

Definition classifyOutcome (op : TrackedOperation) : string :=
  match last (to_Samples op) with
  | None => "unknown"
  | Some s =>
      if fge (sm_PctDone s) (f_of_Z 99) then "completed"
      else if fgt (dur_Seconds (time_Sub (to_LastSeenAt op) (to_StartedAt op))) (f_of_Z 2)
           then "disappeared" else "unknown"
  end.

Definition operationRecord (now : Time) (op : TrackedOperation) (outcome : string)
    : MaintenanceOperation :=
  let duration := dur_Seconds (time_Sub (to_LastSeenAt op) (to_StartedAt op)) in
  let '(finalPct, avgRate) :=
    match head (to_Samples op), last (to_Samples op) with
    | Some first, Some final =>
        (sm_PctDone final,
         if fgt duration f0 then fdiv (fsub (sm_WorkDone final) (sm_WorkDone first)) duration
         else f0)
    | _, _ => (f0, f0)
    end in
  mkOperation (to_InstanceID op) (to_Operation op) outcome (to_Database op) (to_Table op)
    (to_TableSizeBytes op) (to_StartedAt op) now duration finalPct avgRate.

Section tracker.
Context {MR : MapRange} {M F : Type} {HM : MetricStore M} {HF : ForecastStore F}.
(** The query text of a backend in pg_stat_activity; an error when there is no connection. *)
Context (backendQuery : string -> Z -> result string).

Definition identifyReindex (instanceID : string) (pid : Z) : bool :=
  match backendQuery instanceID pid with
  | Ok queryText => ContainsStr (ToUpper queryText) "REINDEX"
  | Err _ => false
  end.

Definition opKey (instanceID pid opType : string) : string :=
  instanceID +:+ ":" +:+ pid +:+ ":" +:+ opType.

(** The loop body of the first phase of [tick], for one operation type. *)
Definition gatherOp (t : OperationTracker) (m : M) (now : Time) (acc : gmap string currentOp)
    (entry : string * (string * string)) : gmap string currentOp :=
  let '(opType, (completionMetric, workDoneField)) := entry in
  let start := time_Add now (i64 (-2 * ot_pollInterval t)) in
  match ms_Query m (mkQuery "" completionMetric ∅ start now 0) with
  | Err _ => acc
  | Ok points =>
      let workPoints := match ms_Query m (mkQuery "" workDoneField ∅ start now 0) with
                        | Ok ps => ps
                        | Err _ => []
                        end in
      let workByKey : gmap string float64 :=
        foldl (fun w wp => <[pt_InstanceID wp +:+ ":" +:+ label_get (pt_Labels wp) "pid"
                              := pt_Value wp]> w) ∅ workPoints in
      foldl (fun acc p =>
               let pid := label_get (pt_Labels p) "pid" in
               if decide (pid = "") then acc
               else <[opKey (pt_InstanceID p) pid opType :=
                        mkCurrent (pt_InstanceID p) (atoi pid) opType
                          (label_get (pt_Labels p) "datname") (label_get (pt_Labels p) "relname")
                          (pt_Value p)
                          (default f0 (workByKey !! (pt_InstanceID p +:+ ":" +:+ pid)))
                          (label_get (pt_Labels p) "phase") (pt_Timestamp p)]> acc) acc points
  end.

Definition gatherOps (t : OperationTracker) (m : M) (now : Time) : gmap string currentOp :=
  foldl (gatherOp t m now) ∅ (map_range operationMetrics).

Definition sampleOf (cop : currentOp) : ProgressSample :=
  mkSample (co_timestamp cop) (co_workDone cop) f0 (co_pctDone cop).

(** A new operation, unless it is an index build that is no REINDEX. *)
Definition startOp (windowSize : Z) (cop : currentOp) : option TrackedOperation :=
  let start op :=
    Some (appendSample
            (mkTracked (co_instanceID cop) (co_pid cop) op (co_database cop) (co_table cop) 0
               (co_timestamp cop) (co_timestamp cop) 0 []) (sampleOf cop) windowSize) in
  if decide (co_opType cop = "create_index") then
    if identifyReindex (co_instanceID cop) (co_pid cop) then start "reindex_concurrent" else None
  else start (co_opType cop).

Definition seeOp (windowSize : Z) (cop : currentOp) (op : TrackedOperation) : TrackedOperation :=
  appendSample
    (mkTracked (to_InstanceID op) (to_PID op) (to_Operation op) (to_Database op) (to_Table op)
       (to_TableSizeBytes op) (to_StartedAt op) (co_timestamp cop) 0 (to_Samples op))
    (sampleOf cop) windowSize.

(** The body of the third phase, for one observed operation. *)
Definition observeOp (windowSize : Z) (ops : gmap string TrackedOperation)
    (entry : string * currentOp) : gmap string TrackedOperation :=
  let '(key, cop) := entry in
  match ops !! key with
  | Some existing => <[key := seeOp windowSize cop existing]> ops
  | None => match startOp windowSize cop with
            | Some op => <[key := op]> ops
            | None => ops
            end
  end.

Definition missOp (op : TrackedOperation) : TrackedOperation :=
  mkTracked (to_InstanceID op) (to_PID op) (to_Operation op) (to_Database op) (to_Table op)
    (to_TableSizeBytes op) (to_StartedAt op) (to_LastSeenAt op) (i64 (to_MissedPolls op + 1))
    (to_Samples op).

Definition finalizeOp (now : Time) (f : F) (op : TrackedOperation) (outcome : string) : F :=
  fst (fs_WriteOperation f (operationRecord now op outcome)).

(** The body of the fourth phase, for one tracked operation. *)
Definition sweepOp (now : Time) (currentOps : gmap string currentOp)
    (acc : gmap string TrackedOperation * F) (entry : string * TrackedOperation)
    : gmap string TrackedOperation * F :=
  let '(ops, f) := acc in
  let '(key, op) := entry in
  match currentOps !! key with
  | Some _ => acc
  | None =>
      let op' := missOp op in
      if to_MissedPolls op' <? 2 then (<[key := op']> ops, f)
      else (delete key ops, finalizeOp now f op' (classifyOutcome op'))
  end.

Definition tick (m : M) (now : Time) (t : OperationTracker) (f : F) : OperationTracker * F :=
  let currentOps := gatherOps t m now in
  let ops := foldl (observeOp (ot_windowSize t)) (ot_activeOps t) (map_range currentOps) in
  let '(ops', f') := foldl (sweepOp now currentOps) (ops, f) (map_range ops) in
  (set_activeOps ops' t, f').

Definition flushAll (now : Time) (outcome : string) (t : OperationTracker) (f : F)
    : OperationTracker * F :=
  (set_activeOps ∅ t,
   foldl (fun f entry => finalizeOp now f entry.2 outcome) f (map_range (ot_activeOps t))).

Definition GetActiveOps (t : OperationTracker) (instanceID : string) : list TrackedOperation :=
  List.filter (fun op => bool_decide (to_InstanceID op = instanceID))
    (map snd (map_range (ot_activeOps t))).

End tracker.

Section run.
Context {MR : MapRange} {M F : Type} {HM : MetricStore M} {HF : ForecastStore F}.

(** What one tick sees: the backends, the metric store and the clock. *)
Record TickInput := mkTick {
  ti_backends : string -> Z -> result string;
  ti_store : M;
  ti_now : Time
}.

Definition tickOn (tf : OperationTracker * F) (i : TickInput) : OperationTracker * F :=
  tick (ti_backends i) (ti_store i) (ti_now i) tf.1 tf.2.

(** [Run]: the ticks, then the flush when the context ends. *)
Definition Run (ticks : list TickInput) (stop : Time) (t : OperationTracker) (f : F)
    : OperationTracker * F :=
  let '(t', f') := foldl tickOn (t, f) ticks in flushAll stop "unknown" t' f'.

End run.

(** ** eta.go *)

Record ETAConfig := mkETAConfig {
  ec_WindowSize : Z;
  ec_DecayFactor : float64;
  ec_MinSamples : Z
}.

Record ETACalculator := mkETACalculator {
  ca_wmaCfg : WMAConfig;
  ca_minSamples : Z
}.

Definition NewETACalculator (cfg : ETAConfig) : ETACalculator :=
  mkETACalculator (mkWMAConfig (ec_WindowSize cfg) (ec_DecayFactor cfg))
    (if ec_MinSamples cfg =? 0 then 4 else ec_MinSamples cfg).

Definition classifyConfidence (sampleCount : Z) : string :=
  if 8 <=? sampleCount then "high" else "medium".

Section eta.
Context {MR : MapRange}.
Context (math_Pow : float64 -> float64 -> float64).

(** The work left, estimated from the percentage when the total is unknown. *)
Definition remainingWork (lastSample : ProgressSample) : float64 :=
  let pctDone := sm_PctDone lastSample in
  let remaining := fsub (sm_WorkTotal lastSample) (sm_WorkDone lastSample) in
  if fle remaining f0 && flt pctDone (f_of_Z 100) && fgt pctDone f0
  then fdiv (fmul (sm_WorkDone lastSample) (fsub (f_of_Z 100) pctDone)) pctDone
  else remaining.

Definition computeOne (c : ETACalculator) (op : TrackedOperation) (now : Time) : OperationETA :=
  let elapsed := dur_Seconds (time_Sub now (to_StartedAt op)) in
  let pctDone := match last (to_Samples op) with Some s => sm_PctDone s | None => f0 end in
  let base etaSec etaAt rate confidence :=
    mkETA (to_InstanceID op) (to_PID op) (to_Operation op) (to_Database op) (to_Table op) ""
      pctDone (to_StartedAt op) elapsed etaSec etaAt rate confidence (len (to_Samples op)) in
  let minusOne := fneg f1 in
  if len (to_Samples op) <? ca_minSamples c then base minusOne zero_time f0 "estimating"
  else
    match WeightedMovingAverage math_Pow (ca_wmaCfg c) (map sm_Timestamp (to_Samples op))
            (map sm_WorkDone (to_Samples op)) with
    | Err _ => base minusOne zero_time f0 "estimating"
    | Ok r =>
        if fle (wr_WeightedRate r) f0
        then base minusOne zero_time (wr_WeightedRate r) "stalled"
        else
          match last (to_Samples op) with
          | None => base minusOne zero_time f0 "estimating"
          | Some lastSample =>
              let etaSec := fdiv (remainingWork lastSample) (wr_WeightedRate r) in
              base etaSec (time_Add now (dur_of_seconds etaSec)) (wr_WeightedRate r)
                (classifyConfidence (wr_SampleCount r))
          end
    end.

Definition ComputeAll (c : ETACalculator) (t : OperationTracker) (instanceID : string)
    (now : Time) : list OperationETA :=
  map (fun op => computeOne c op now) (GetActiveOps t instanceID).

Definition ComputeByPID (c : ETACalculator) (t : OperationTracker) (instanceID : string) (pid : Z)
    (now : Time) : option OperationETA :=
  op ← List.find (fun op => to_PID op =? pid) (GetActiveOps t instanceID);
  Some (computeOne c op now).

End eta.

(** ** config.go: the configuration of maintenance forecasts *)

Record MaintenanceForecastConfig := mkForecastConfig {
  fc_Enabled : bool;
  fc_ETAWindowSize : Z;
  fc_ETADecayFactor : float64;
  fc_ETAMinSamples : Z;
  fc_EvaluationInterval : Duration;
  fc_MinDataPoints : Z;
  fc_LookbackWindow : Duration;
  fc_VacuumThresholdFallback : Z;
  fc_VacuumScaleFactorFallback : float64;
  fc_AnalyzeThresholdFallback : Z;
  fc_AnalyzeScaleFactorFallback : float64;
  fc_ReindexBloatThresholdTable : float64;
  fc_ReindexBloatThresholdIndex : float64;
  fc_BasebackupInterval : Duration;
  fc_RetentionDays : Z
}.

Definition orZ (n d : Z) : Z := if n =? 0 then d else n.
Definition orF (x d : float64) : float64 := if feq x f0 then d else x.

Definition ApplyDefaults (c : MaintenanceForecastConfig) : MaintenanceForecastConfig :=
  mkForecastConfig (fc_Enabled c) (orZ (fc_ETAWindowSize c) 10)
    (orF (fc_ETADecayFactor c) (fconst 85 100)) (orZ (fc_ETAMinSamples c) 4)
    (orZ (fc_EvaluationInterval c) (5 * Minute)) (orZ (fc_MinDataPoints c) 3)
    (orZ (fc_LookbackWindow c) (24 * Hour)) (orZ (fc_VacuumThresholdFallback c) 50)
    (orF (fc_VacuumScaleFactorFallback c) (fconst 2 10)) (orZ (fc_AnalyzeThresholdFallback c) 50)
    (orF (fc_AnalyzeScaleFactorFallback c) (fconst 1 10))
    (orF (fc_ReindexBloatThresholdTable c) (fconst 40 100))
    (orF (fc_ReindexBloatThresholdIndex c) (fconst 30 100)) (fc_BasebackupInterval c)
    (orZ (fc_RetentionDays c) 90).

(** ** evaluator.go *)

Definition computeRate (points : list MetricPoint) : float64 :=
  match points with
  | p0 :: _ :: _ =>
      let base := pt_Timestamp p0 / Second in
      match LinearRegression (map (fun p => f_of_Z (pt_Timestamp p / Second - base)) points)
              (map pt_Value points) with
      | Ok r => lr_Slope r
      | Err _ => f0
      end
  | _ => f0
  end.

(** For a minimum of at least one point. The common body of [evaluateVacuum] and [evaluateAnalyze], which differ in the operation,
    the metric and the limit. *)
Definition projectNeed (cfg : MaintenanceForecastConfig) (instanceID operation : string)
    (t : TableThresholds) (limit : float64) (points : list MetricPoint) (now : Time)
    : MaintenanceForecast :=
  let base status predictedAt timeUntil current rate :=
    mkForecast instanceID (tt_Database t) (tt_Table t) operation status predictedAt timeUntil
      current limit rate "threshold_projection" now in
  if len points <? fc_MinDataPoints cfg then base "insufficient_data" None f0 f0 f0
  else
    let currentValue := match last points with Some p => pt_Value p | None => f0 end in
    if fge currentValue limit then base "overdue" None f0 currentValue f0
    else
      let rate := computeRate points in
      if fle rate f0 then base "not_needed" None f0 currentValue rate
      else
        let timeToThreshold := fdiv (fsub limit currentValue) rate in
        base (if fle timeToThreshold (f_of_Z 3600) then "imminent" else "predicted")
          (Some (time_Add now (dur_of_seconds timeToThreshold))) timeToThreshold currentValue rate.

Section evaluator.
Context {MR : MapRange} {M F : Type} {HM : MetricStore M} {HF : ForecastStore F}.

Definition queryMetricHistory (cfg : MaintenanceForecastConfig) (m : M)
    (instanceID metricKey database table : string) (now : Time) : list MetricPoint :=
  match ms_Query m (mkQuery instanceID metricKey
                      (list_to_map [("datname", database); ("relname", table)])
                      (time_Add now (i64 (- fc_LookbackWindow cfg))) now 0) with
  | Ok points => points
  | Err _ => []
  end.

Definition evaluateVacuum (cfg : MaintenanceForecastConfig) (m : M) (instanceID : string)
    (t : TableThresholds) (now : Time) : MaintenanceForecast :=
  projectNeed cfg instanceID "vacuum" t (tt_EffectiveVacuumLimit t)
    (queryMetricHistory cfg m instanceID "pg.db.vacuum.dead_tuples" (tt_Database t) (tt_Table t) now)
    now.

Definition evaluateAnalyze (cfg : MaintenanceForecastConfig) (m : M) (instanceID : string)
    (t : TableThresholds) (now : Time) : MaintenanceForecast :=
  projectNeed cfg instanceID "analyze" t (tt_EffectiveAnalyzeLimit t)
    (queryMetricHistory cfg m instanceID "pg.db.vacuum.mod_since_analyze" (tt_Database t)
       (tt_Table t) now) now.

Definition evaluateReindexBatch (cfg : MaintenanceForecastConfig) (m : M) (instanceID : string)
    (now : Time) : list MaintenanceForecast :=
  match ms_Query m (mkQuery instanceID "pg.db.bloat.table_ratio" ∅
                      (time_Add now (i64 (- fc_LookbackWindow cfg))) now 0) with
  | Err _ => []
  | Ok points =>
      let latest : gmap (string * string) float64 :=
        foldl (fun l p => <[(label_get (pt_Labels p) "datname", label_get (pt_Labels p) "relname")
                             := pt_Value p]> l) ∅ points in
      let limit := fc_ReindexBloatThresholdTable cfg in
      map (fun kv : string * string * float64 =>
             let '((db, table), ratio) := kv in
             mkForecast instanceID db table "reindex"
               (if fge ratio limit then "overdue"
                else if fge ratio (fmul limit (fconst 8 10)) then "imminent" else "not_needed")
               None f0 ratio limit f0 "threshold_projection" now) (map_range latest)
  end.

Definition evaluateBasebackup (instanceID : string) (now : Time) : MaintenanceForecast :=
  mkForecast instanceID "" "" "basebackup" "insufficient_data" None f0 f0 f0 f0
    "threshold_projection" now.

(** Steps 2 to 5: vacuum and analyze for each table, reindex, base backup. *)
Definition computedForecasts (cfg : MaintenanceForecastConfig) (m : M) (instanceID : string)
    (ts : list TableThresholds) (now : Time) : list MaintenanceForecast :=
  concat (map (fun t => [evaluateVacuum cfg m instanceID t now;
                         evaluateAnalyze cfg m instanceID t now]) ts)
  ++ evaluateReindexBatch cfg m instanceID now
  ++ (if 0 <? fc_BasebackupInterval cfg then [evaluateBasebackup instanceID now] else []).

(** [thresholds] is the answer of the threshold querier; the clock is read once. *)
Definition evaluateInstance (cfg : MaintenanceForecastConfig) (m : M) (f : F) (instanceID : string)
    (thresholds : result (list TableThresholds)) (now : Time) : F :=
  match thresholds with
  | Err _ => f
  | Ok ts =>
      let forecasts := computedForecasts cfg m instanceID ts now in
      if 0 <? len forecasts then fst (fs_UpsertForecasts f forecasts) else f
  end.

End evaluator.
