(* ===== verification/ForecastTheorems.v ===== *)
(** * Theorems on maintenance forecasting

    The tracker hands every operation it started to the store exactly once; what one tick does
    to one key; the bounds of the tracked state; why the tracker sees nothing of what the
    collectors write; and how a need forecast depends on the order of the store's answer. *)
From S2P Require Import Prelude Float64 Metric Ml Forecast.

Local Open Scope Z_scope.

(** ** One tick, key by key *)

Section tick.
Context {MR : MapRange} {M F : Type} {HM : MetricStore M} {HF : ForecastStore F}.
Context (backendQuery : string -> Z -> result string).

(** The observation phase on one key. *)
Definition observed (windowSize : Z) (cop : currentOp) (op : option TrackedOperation)
    : option TrackedOperation :=
  match op with
  | Some o => Some (seeOp windowSize cop o)
  | None => startOp backendQuery windowSize cop
  end.

(** The sweep on one key that was not observed. *)
Definition missed (op : TrackedOperation) : option TrackedOperation :=
  if to_MissedPolls (missOp op) <? 2 then Some (missOp op) else None.

Lemma observeOp_lookup w ops key cop k :
  observeOp backendQuery w ops (key, cop) !! k
    = if decide (k = key) then observed w cop (ops !! key) else ops !! k.
Proof.
  unfold observeOp, observed. case_decide as Hk.
  - subst k. destruct (ops !! key) as [op|] eqn:E; [apply lookup_insert_eq|].
    destruct (startOp _ _ _); [apply lookup_insert_eq|done].
  - destruct (ops !! key); [by rewrite lookup_insert_ne|].
    destruct (startOp _ _ _); [by rewrite lookup_insert_ne|done].
Qed.

Lemma observe_all w (cur : gmap string currentOp) ops k :
  foldl (observeOp backendQuery w) ops (map_range cur) !! k
    = match cur !! k with Some cop => observed w cop (ops !! k) | None => ops !! k end.
Proof.
  apply (foldl_map_range (fun ops k => ops !! k) _ (fun _ cop op => observed w cop op)).
  intros. apply observeOp_lookup.
Qed.

Lemma sweepOp_lookup now (cur : gmap string currentOp) acc key op k :
  (sweepOp now cur acc (key, op) : gmap string TrackedOperation * F).1 !! k
    = if decide (k = key)
      then match cur !! key with Some _ => acc.1 !! key | None => missed op end
      else acc.1 !! k.
Proof.
  destruct acc as [ops f]. unfold sweepOp, missed.
  destruct (cur !! key); [by case_decide; subst|].
  destruct (_ <? 2); simpl; case_decide; subst;
    by rewrite ?lookup_insert_eq, ?lookup_delete_eq, ?lookup_insert_ne, ?lookup_delete_ne.
Qed.

Lemma sweep_all now (cur : gmap string currentOp) ops (f : F) k :
  (foldl (sweepOp now cur) (ops, f) (map_range ops)).1 !! k
    = match ops !! k, cur !! k with
      | Some op, None => missed op
      | o, _ => o
      end.
Proof.
  rewrite (foldl_map_range (fun acc k => acc.1 !! k) _
    (fun key op o => match cur !! key with Some _ => o | None => missed op end)).
  - simpl. by destruct (ops !! k), (cur !! k).
  - intros. apply sweepOp_lookup.
Qed.

Lemma tick_lookup m now t (f : F) k :
  ot_activeOps (tick backendQuery m now t f).1 !! k
    = match gatherOps t m now !! k, ot_activeOps t !! k with
      | Some cop, o => observed (ot_windowSize t) cop o
      | None, Some op => missed op
      | None, None => None
      end.
Proof.
  unfold tick. set (cur := gatherOps t m now).
  set (ops := foldl _ (ot_activeOps t) (map_range cur)).
  pose proof (sweep_all now cur ops f k) as H. destruct (foldl _ (ops, f) _) as [ops' f'].
  simpl in *. rewrite H. subst ops. rewrite observe_all.
  destruct (cur !! k); simpl; [by destruct (observed _ _ _)|]. by destruct (_ !! k).
Qed.

End tick.

(** ** Conservation of operations *)

(** What identifies an operation, in the tracker and in a record. *)
Definition opId (op : TrackedOperation) : string * string * string * string * Time :=
  (to_InstanceID op, to_Operation op, to_Database op, to_Table op, to_StartedAt op).

Definition recordId (r : MaintenanceOperation) : string * string * string * string * Time :=
  (mo_InstanceID r, mo_Operation r, mo_Database r, mo_Table r, mo_StartedAt r).

Definition opIds (ops : gmap string TrackedOperation)
    : list (string * string * string * string * Time) := map (fun e => opId e.2) (map_to_list ops).

Lemma opIds_insert ops k op :
  ops !! k = None -> opIds (<[k := op]> ops) ≡ₚ opId op :: opIds ops.
Proof. intros H. unfold opIds. by rewrite map_to_list_insert. Qed.

Lemma opIds_delete ops k op :
  ops !! k = Some op -> opIds ops ≡ₚ opId op :: opIds (delete k ops).
Proof.
  intros H. rewrite <- opIds_insert by apply lookup_delete_eq. by rewrite insert_delete_id.
Qed.

Lemma opIds_update ops k op op' :
  ops !! k = Some op -> opId op' = opId op -> opIds (<[k := op']> ops) ≡ₚ opIds ops.
Proof.
  intros H He. rewrite (opIds_delete ops k op H), <- He.
  rewrite <- insert_delete_eq. apply opIds_insert, lookup_delete_eq.
Qed.

Lemma recordId_of now op outcome : recordId (operationRecord now op outcome) = opId op.
Proof. unfold operationRecord. by destruct (head (to_Samples op)), (last (to_Samples op)). Qed.

(** A store that keeps the records in the order they were handed over. *)
#[export] Instance OperationLog : ForecastStore (list MaintenanceOperation) := {|
  fs_WriteOperation := fun log r => (log ++ [r], None);
  fs_UpsertForecasts := fun log _ => (log, None)
|}.

Section conservation.
Context {MR : MapRange} {M : Type} {HM : MetricStore M}.

(** The operations that one tick starts. *)
Definition startsOn (t : OperationTracker) (i : TickInput) : list TrackedOperation :=
  omap (fun e => match ot_activeOps t !! e.1 with
                 | Some _ => None
                 | None => startOp (ti_backends i) (ot_windowSize t) e.2
                 end) (map_range (gatherOps t (ti_store i) (ti_now i))).

(** The operations started along a run. *)
Fixpoint started (ticks : list TickInput) (tf : OperationTracker * list MaintenanceOperation)
    : list TrackedOperation :=
  match ticks with
  | [] => []
  | i :: ticks' => startsOn tf.1 i ++ started ticks' (tickOn tf i)
  end.

Lemma observe_ids bq w l : forall ops, NoDup (map fst l) ->
  opIds (foldl (observeOp bq w) ops l)
    ≡ₚ map opId (omap (fun e => match ops !! e.1 with
                                | Some _ => None
                                | None => startOp bq w e.2
                                end) l) ++ opIds ops.
Proof.
  induction l as [|[k cop] l IH]; intros ops Hnd; [done|].
  apply NoDup_cons in Hnd as [Hk Hnd]. cbn [foldl]. rewrite IH by done.
  assert (omap (fun e => match observeOp bq w ops (k, cop) !! e.1 with
                         | Some _ => None | None => startOp bq w e.2 end) l
    = omap (fun e => match ops !! e.1 with
                     | Some _ => None | None => startOp bq w e.2 end) l) as ->.
  { apply list_omap_ext, Forall2_same_length_lookup_2; [done|]. intros i x y Hx Hy.
    assert (x = y) as -> by congruence. rewrite observeOp_lookup.
    rewrite decide_False; [done|]. intros Heq. apply Hk. apply list_elem_of_fmap. exists y.
    by split; [|apply list_elem_of_lookup_2 in Hy]. }
  cbn [omap list_omap fst snd]. unfold observeOp. destruct (ops !! k) as [op|] eqn:E.
  - by rewrite (opIds_update ops k op).
  - destruct (startOp bq w cop) as [op|]; [|done].
    rewrite opIds_insert by done. simpl. by rewrite Permutation_middle.
Qed.

Lemma sweep_ids now (cur : gmap string currentOp) l : forall ops log, NoDup (map fst l) ->
  (forall k op, (k, op) ∈ l -> ops !! k = Some op) ->
  let '(ops', log') := foldl (sweepOp now cur) (ops, log) l in
  map recordId log' ++ opIds ops' ≡ₚ map recordId log ++ opIds ops.
Proof.
  induction l as [|[k op] l IH]; intros ops log Hnd Hl; cbn [foldl]; [done|].
  apply NoDup_cons in Hnd as [Hk Hnd]. pose proof (Hl k op ltac:(by left)) as Hop.
  assert (forall k' op', (k', op') ∈ l -> k' <> k) as Hne.
  { intros k' op' H ->. apply Hk. apply list_elem_of_fmap. by exists (k, op'). }
  destruct (sweepOp now cur (ops, log) (k, op)) as [ops1 log1] eqn:E. unfold sweepOp in E.
  destruct (cur !! k).
  { injection E as <- <-. apply IH; [done|]. intros. apply Hl. by right. }
  destruct (_ <? 2); injection E as <- <-.
  - specialize (IH (<[k := missOp op]> ops) log Hnd). destruct (foldl _ _ l) as [ops' log'].
    rewrite IH; [by rewrite (opIds_update ops k op)|]. intros k' op' H.
    rewrite lookup_insert_ne by (intros ->; by eapply Hne). apply Hl. by right.
  - unfold finalizeOp. cbn [fs_WriteOperation OperationLog fst]. set (r := operationRecord _ _ _).
    specialize (IH (delete k ops) (log ++ [r]) Hnd). destruct (foldl _ _ l) as [ops' log']. rewrite IH.
    + rewrite map_app, <- app_assoc. simpl. subst r. rewrite recordId_of.
      by rewrite (opIds_delete ops k op).
    + intros k' op' H. rewrite lookup_delete_ne by (intros ->; by eapply Hne). apply Hl. by right.
Qed.

Lemma tick_ids t log (i : TickInput) :
  map recordId (tickOn (t, log) i).2 ++ opIds (ot_activeOps (tickOn (t, log) i).1)
    ≡ₚ map opId (startsOn t i) ++ map recordId log ++ opIds (ot_activeOps t).
Proof.
  unfold tickOn, tick. cbn [fst snd]. set (cur := gatherOps _ _ _).
  set (ops := foldl _ (ot_activeOps t) (map_range cur)).
  assert (forall {V} (m : gmap string V), NoDup (map fst (map_range m))) as Hnd.
  { intros V m. rewrite map_range_perm. apply NoDup_fst_map_to_list. }
  pose proof (sweep_ids (ti_now i) cur (map_range ops) ops log (Hnd _ ops)) as H.
  destruct (foldl _ (ops, log) _) as [ops' log']. simpl. rewrite H.
  - subst ops. rewrite observe_ids by apply Hnd. unfold startsOn. fold cur.
    by rewrite !app_assoc, (Permutation_app_comm (map recordId log)).
  - intros k op. by rewrite map_range_perm, elem_of_map_to_list.
Qed.

Lemma run_ids ticks : forall tf,
  map recordId (foldl tickOn tf ticks).2 ++ opIds (ot_activeOps (foldl tickOn tf ticks).1)
    ≡ₚ map opId (started ticks tf) ++ map recordId tf.2 ++ opIds (ot_activeOps tf.1).
Proof.
  induction ticks as [|i ticks IH]; intros [t log]; cbn [foldl started]; [done|].
  rewrite IH, tick_ids, map_app, <- app_assoc.
  by rewrite !app_assoc, (Permutation_app_comm (map opId (started _ _))).
Qed.

Lemma flush_ids now outcome l : forall log,
  map recordId (foldl (fun f (e : string * TrackedOperation) => finalizeOp now f e.2 outcome) log l)
    = map recordId log ++ map (fun e => opId e.2) l.
Proof.
  induction l as [|e l IH]; intros log; cbn [foldl map]; [by rewrite app_nil_r|].
  rewrite IH. unfold finalizeOp. cbn [fs_WriteOperation OperationLog fst].
  by rewrite map_app, <- app_assoc; simpl; rewrite recordId_of.
Qed.

End conservation.

(** ** Bounds of the tracked state *)

Record bounded_op (w : Z) (op : TrackedOperation) : Prop := {
  bo_missed : 0 <= to_MissedPolls op <= 1;
  bo_samples : 1 <= len (to_Samples op) <= w;
  bo_last : option_map sm_Timestamp (last (to_Samples op)) = Some (to_LastSeenAt op)
}.

Lemma appendSample_bounded w op sample :
  1 <= w -> len (to_Samples op) <= w -> 1 <= len (to_Samples (appendSample op sample w)) <= w.
Proof.
  intros Hw H. unfold appendSample, len, slice_from in *. cbn [to_Samples].
  rewrite length_app. simpl. destruct (_ <=? _) eqn:E; zb; rewrite ?length_drop; lia.
Qed.

Lemma seeOp_bounded w cop op : 1 <= w -> bounded_op w op -> bounded_op w (seeOp w cop op).
Proof.
  intros Hw [H1 H2 H3]. split; [simpl; lia| |].
  - apply appendSample_bounded; simpl; lia.
  - simpl. by rewrite last_snoc.
Qed.

Lemma startOp_bounded bq w cop op : 1 <= w -> startOp bq w cop = Some op -> bounded_op w op.
Proof.
  intros Hw H. unfold startOp in H.
  assert (exists o, op = appendSample (mkTracked (co_instanceID cop) (co_pid cop) o (co_database cop)
    (co_table cop) 0 (co_timestamp cop) (co_timestamp cop) 0 []) (sampleOf cop) w) as [o ->].
  { repeat case_decide; destr_ifs; simplify_eq; by eexists. }
  split; [simpl; lia| |].
  - apply appendSample_bounded; [done|]. unfold len. simpl. lia.
  - simpl. by rewrite last_snoc.
Qed.

Lemma missed_bounded w op op' : bounded_op w op -> missed op = Some op' -> bounded_op w op'.
Proof.
  intros [H1 H2 H3]. unfold missed. simpl. destruct (_ <? 2) eqn:E; [|done]. intros [= <-].
  assert (i64 (to_MissedPolls op + 1) = to_MissedPolls op + 1) as Hi.
  { apply i64_id. unfold in_i64, min_i64, max_i64. lia. }
  rewrite Hi in E. zb. split; simpl; rewrite ?Hi; [lia|done|done].
Qed.

Section properties.
Context {MR : MapRange} {M : Type} {HM : MetricStore M}.

Lemma tick_window {F} {HF : ForecastStore F} (tf : OperationTracker * F) (i : TickInput) :
  ot_windowSize (tickOn tf i).1 = ot_windowSize tf.1.
Proof. unfold tickOn, tick. by destruct (foldl _ (_, tf.2) _). Qed.

Lemma tick_bounded {F} {HF : ForecastStore F} (tf : OperationTracker * F) (i : TickInput) :
  1 <= ot_windowSize tf.1 ->
  map_Forall (fun _ => bounded_op (ot_windowSize tf.1)) (ot_activeOps tf.1) ->
  map_Forall (fun _ => bounded_op (ot_windowSize tf.1)) (ot_activeOps (tickOn tf i).1).
Proof.
  intros Hw H k op. unfold tickOn. rewrite tick_lookup.
  destruct (gatherOps _ _ _ !! k) as [cop|], (ot_activeOps tf.1 !! k) as [o|] eqn:E; simpl; try done.
  - intros [= <-]. apply seeOp_bounded, (H _ _ E); done.
  - by apply startOp_bounded.
  - apply missed_bounded, (H _ _ E).
Qed.

Lemma tick_unseen {F} {HF : ForecastStore F} (t : OperationTracker) (f : F) (i : TickInput) :
  gatherOps t (ti_store i) (ti_now i) = ∅ -> ot_activeOps t = ∅ -> tickOn (t, f) i = (t, f).
Proof.
  intros Hg Ht. unfold tickOn, tick. cbn [fst snd]. rewrite Hg, Ht.
  assert (forall V, map_range (∅ : gmap string V) = []) as Hnil.
  { intros V. apply Permutation_nil_r. by rewrite map_range_perm, map_to_list_empty. }
  rewrite !Hnil. cbn [foldl]. rewrite ?Hnil. cbn [foldl]. by destruct t; simpl in *; subst.
Qed.

(** A store that answers a query for a metric with points whose name starts with it, and holds
    points of collectors only. Both metric stores do. *)
Definition collected_store (m : M) : Prop :=
  forall q points, ms_Query m q = Ok points -> forall p, p ∈ points ->
    has_prefix (pt_Metric p) (q_Metric q) = true /\
    exists name, pt_Metric p = metricPrefix +:+ "." +:+ name.

Lemma gatherOps_unseen t m now : collected_store m -> gatherOps t m now = ∅.
Proof.
  intros Hm. unfold gatherOps. apply (foldl_inv (fun acc => acc = ∅)); [|done].
  intros acc [opType [completion work]] Hin ->. unfold gatherOp.
  destruct (ms_Query m (mkQuery "" completion _ _ _ _)) as [points|] eqn:E; [|done].
  assert (exists s, completion = "progress." +:+ s) as [s ->].
  { rewrite map_range_perm, elem_of_map_to_list in Hin.
    apply elem_of_list_to_map_2 in Hin.
    repeat (apply elem_of_cons in Hin as [[= -> -> ->]|Hin]; [by eexists|]).
    by apply not_elem_of_nil in Hin. }
  destruct points as [|p points]; [done|]. exfalso.
  destruct (Hm _ _ E p) as [Hp [name Hn]]; [by left|]. rewrite Hn in Hp. simpl in Hp.
  unfold has_prefix in Hp. simpl in Hp. discriminate Hp.
Qed.

(** ** Properties *)

(** Conservation. Whatever the metric store and the backends answer at each tick, at the end
    of a run of the tracker nothing is tracked any more, and the records handed to the forecast
    store are exactly the operations that were started, each of them once. *)
Theorem tracker_records_each_operation_once (pollInterval : Duration) (windowSize : Z)
    (ticks : list TickInput) (stop : Time) :
  let t0 := NewOperationTracker pollInterval windowSize in
  let '(t, log) := Run ticks stop t0 [] in
  ot_activeOps t = ∅ /\ map recordId log ≡ₚ map opId (started ticks (t0, [])).
Proof.
  intros t0. unfold Run. pose proof (run_ids ticks (t0, [])) as H.
  destruct (foldl tickOn _ ticks) as [t log]. unfold flushAll. split; [done|].
  rewrite flush_ids. cbn [fst snd] in H. rewrite app_nil_r in H. rewrite <- H.
  apply Permutation_app_head. unfold opIds. by rewrite map_range_perm.
Qed.

(** One tick, key by key. A tracked operation that is seen gains a sample and loses its
    missed polls; one that is missed for the first time is kept; one that is missed again is
    dropped; an unknown one that is seen starts, if it is an index build then only as a
    REINDEX. No key influences another. *)
Theorem tick_per_key {F : Type} {HF : ForecastStore F} (backendQuery : string -> Z -> result string)
    (m : M) (now : Time) (t : OperationTracker) (f : F) (k : string) :
  1 <= ot_windowSize t ->
  map_Forall (fun _ => bounded_op (ot_windowSize t)) (ot_activeOps t) ->
  ot_activeOps (tick backendQuery m now t f).1 !! k
    = match gatherOps t m now !! k, ot_activeOps t !! k with
      | Some cop, Some op => Some (seeOp (ot_windowSize t) cop op)
      | Some cop, None => startOp backendQuery (ot_windowSize t) cop
      | None, Some op => if to_MissedPolls op =? 0 then Some (missOp op) else None
      | None, None => None
      end.
Proof.
  intros Hw H. rewrite tick_lookup.
  destruct (gatherOps t m now !! k) as [cop|], (ot_activeOps t !! k) as [op|] eqn:E; try done.
  destruct (H _ _ E) as [Hm _ _]. unfold missed. cbn [missOp to_MissedPolls].
  rewrite i64_id by (unfold in_i64, min_i64, max_i64; lia).
  destruct (_ =? 0) eqn:E0, (_ <? 2) eqn:E2; zb; done || lia.
Qed.

(** Bounds. At every moment of a run each tracked operation has missed at most one poll, has
    between one sample and a window of them, and was last seen at the time of its last
    sample. *)
Theorem tracked_state_bounded {F : Type} {HF : ForecastStore F} (pollInterval : Duration)
    (windowSize : Z) (ticks : list TickInput) (f : F) :
  1 <= windowSize ->
  map_Forall (fun _ => bounded_op windowSize)
    (ot_activeOps (foldl tickOn (NewOperationTracker pollInterval windowSize, f) ticks).1).
Proof.
  intros Hw. set (t0 := NewOperationTracker _ _).
  assert (ot_windowSize t0 = windowSize) as Ht0.
  { simpl. by rewrite (proj2 (Z.eqb_neq windowSize 0)) by lia. }
  apply (foldl_inv (fun tf => ot_windowSize tf.1 = windowSize /\
    map_Forall (fun _ => bounded_op windowSize) (ot_activeOps tf.1))).
  - intros tf i _ [Hs H]. split; [by rewrite tick_window|].
    rewrite <- Hs in H |- *. apply tick_bounded; [lia|done].
  - split; [done|]. apply map_Forall_empty.
Qed.

(** The tracker sees nothing that the collectors write. Its metric names lack the "pg."
    prefix, so over any run on stores of collected points no operation is ever tracked and no
    record is written. *)
Theorem tracker_never_sees_collected {F : Type} {HF : ForecastStore F} (pollInterval : Duration)
    (windowSize : Z) (ticks : list TickInput) (stop : Time) (f : F) :
  (forall i, i ∈ ticks -> collected_store (ti_store i)) ->
  let t0 := NewOperationTracker pollInterval windowSize in
  Run ticks stop t0 f = (t0, f).
Proof.
  intros H t0. unfold Run.
  assert (foldl tickOn (t0, f) ticks = (t0, f)) as ->.
  { apply (foldl_inv (fun tf => tf = (t0, f))); [|done]. intros tf i Hi ->.
    apply tick_unseen; [|done]. by apply gatherOps_unseen, H. }
  unfold flushAll. assert (map_range (ot_activeOps t0) = []) as ->.
  { apply Permutation_nil_r. by rewrite map_range_perm; simpl; rewrite map_to_list_empty. }
  done.
Qed.

End properties.

(** A need forecast takes the last point of the store's answer for the current value. When a
    table grew past its limit, the answer in ascending order makes it overdue; the same points
    in descending order, as the SQL store returns them, never do. *)
Theorem overdue_depends_on_order (cfg : MaintenanceForecastConfig) (instanceID operation : string)
    (t : TableThresholds) (limit : float64) (oldest newest : MetricPoint)
    (between : list MetricPoint) (now : Time) :
  let points := oldest :: between ++ [newest] in
  fc_MinDataPoints cfg <= len points ->
  fge (pt_Value newest) limit = true -> fge (pt_Value oldest) limit = false ->
  mf_Status (projectNeed cfg instanceID operation t limit points now) = "overdue" /\
  mf_Status (projectNeed cfg instanceID operation t limit (reverse points) now) <> "overdue".
Proof.
  intros points Hlen Hnew Hold. unfold projectNeed.
  assert (len (reverse points) = len points) as Hr by (unfold len; by rewrite length_reverse).
  rewrite Hr, (proj2 (Z.ltb_ge _ _)) by lia. split.
  - subst points. rewrite app_comm_cons, last_snoc. by rewrite Hnew.
  - subst points. rewrite reverse_cons, last_snoc, Hold. by destr_ifs.
Qed.

(** ** A concrete run: a vacuum is seen twice and then disappears at 100 per cent *)

#[local] Instance listStore : MetricStore (list MetricPoint) := {|
  ms_Write := fun l ps => (l ++ ps, None);
  ms_Query := fun l q => Ok (List.filter (fun p => bool_decide (pt_Metric p = q_Metric q)) l)
|}.

Definition progressPoint (metric : string) (v t : Z) : MetricPoint :=
  mkPoint "db1" metric (f_of_Z v)
    (list_to_map [("pid", "42"); ("datname", "app"); ("relname", "orders")]) (t * Second).

Definition noBackend : string -> Z -> result string := fun _ _ => Err "no connection".

Definition vacuumTicks : list TickInput :=
  [mkTick noBackend [progressPoint "progress.vacuum.completion_pct" 40 1;
                     progressPoint "progress.vacuum.heap_blks_vacuumed" 400 1] (1 * Second);
   mkTick noBackend [progressPoint "progress.vacuum.completion_pct" 100 16;
                     progressPoint "progress.vacuum.heap_blks_vacuumed" 1000 16] (16 * Second);
   mkTick noBackend [] (31 * Second); mkTick noBackend [] (46 * Second)].

Definition recordSummary (r : MaintenanceOperation) : string * string * string * Time :=
  (mo_Operation r, mo_Table r, mo_Outcome r, mo_StartedAt r).

Lemma vacuum_run :
  map recordSummary (@Run canonical_MapRange (list MetricPoint) (list MaintenanceOperation) _ _
    vacuumTicks (60 * Second) (NewOperationTracker 0 0) []).2
  = [("vacuum", "orders", "completed", 1 * Second)].
Proof. vm_compute. reflexivity. Qed.

(** The tracker after the first tick, with the vacuum active. *)
Definition activeTracker : OperationTracker :=
  (@tickOn canonical_MapRange (list MetricPoint) (list MaintenanceOperation) _ _
     (NewOperationTracker 0 10, [])
     (mkTick noBackend [progressPoint "progress.vacuum.completion_pct" 40 1] (1 * Second))).1.

Lemma activeTracker_bounded :
  map_Forall (fun _ => bounded_op (ot_windowSize activeTracker)) (ot_activeOps activeTracker).
Proof.
  unfold activeTracker. rewrite tick_window. apply tick_bounded; [discriminate|].
  apply map_Forall_empty.
Qed.

Lemma activeTracker_window : 1 <= ot_windowSize activeTracker.
Proof. vm_compute. discriminate. Qed.

Lemma activeTracker_missed :
  match gatherOps (MR := canonical_MapRange) activeTracker [] (16 * Second) !! "db1:42:vacuum",
        ot_activeOps activeTracker !! "db1:42:vacuum" with
  | Some cop, Some op => Some (seeOp (ot_windowSize activeTracker) cop op)
  | Some cop, None => startOp noBackend (ot_windowSize activeTracker) cop
  | None, Some op => if to_MissedPolls op =? 0 then Some (missOp op) else None
  | None, None => None
  end = missOp <$> ot_activeOps activeTracker !! "db1:42:vacuum".
Proof. vm_compute. reflexivity. Qed.

Lemma tick_per_key_witness :
  ot_activeOps (@tick canonical_MapRange (list MetricPoint) (list MaintenanceOperation) _ _
    noBackend [] (16 * Second) activeTracker []).1 !! "db1:42:vacuum"
  = missOp <$> ot_activeOps activeTracker !! "db1:42:vacuum".
Proof.
  generalize activeTracker_missed, activeTracker_bounded, activeTracker_window.
  generalize activeTracker. intros t Hmissed Hbounded Hw.
  rewrite (@tick_per_key canonical_MapRange (list MetricPoint) _ (list MaintenanceOperation) _
             noBackend [] (16 * Second) t [] "db1:42:vacuum" Hw Hbounded).
  exact Hmissed.
Defined.

Lemma tracked_state_bounded_witness :
  map_Forall (fun _ => bounded_op 10)
    (ot_activeOps (foldl (@tickOn canonical_MapRange (list MetricPoint) (list MaintenanceOperation) _ _)
       (NewOperationTracker 0 10, []) (take 3 vacuumTicks)).1).
Proof.
  apply (@tracked_state_bounded canonical_MapRange (list MetricPoint) _ (list MaintenanceOperation) _
           0 10 (take 3 vacuumTicks) []).
  discriminate.
Defined.

Lemma prefixed_collected :
  collected_store [Base_point "db1" "progress.vacuum.completion_pct" (f_of_Z 40) ∅ Second].
Proof.
  intros q points [= <-] p Hp. simpl in Hp. case_bool_decide as Hq; [|by apply not_elem_of_nil in Hp].
  apply list_elem_of_singleton in Hp as ->. split; [rewrite <- Hq; by vm_compute|].
  by exists "progress.vacuum.completion_pct".
Qed.

Lemma tracker_never_sees_collected_witness :
  @Run canonical_MapRange (list MetricPoint) (list MaintenanceOperation) _ _
    [mkTick noBackend [Base_point "db1" "progress.vacuum.completion_pct" (f_of_Z 40) ∅ Second] Second]
    (60 * Second) (NewOperationTracker 0 0) [] = (NewOperationTracker 0 0, []).
Proof.
  apply (@tracker_never_sees_collected canonical_MapRange (list MetricPoint) _
           (list MaintenanceOperation) _ 0 0).
  intros i Hi. apply list_elem_of_singleton in Hi as ->. exact prefixed_collected.
Defined.

Definition demoForecastConfig : MaintenanceForecastConfig :=
  ApplyDefaults (mkForecastConfig true 0 f0 0 0 0 0 0 f0 0 f0 f0 f0 0 0).

Definition deadTuples (v t : Z) : MetricPoint :=
  mkPoint "db1" "pg.db.vacuum.dead_tuples" (f_of_Z v) ∅ (t * Second).

Definition demoTable : TableThresholds :=
  mkThresholds "app" "public" "orders" 100 true 50 (fconst 2 10) 50 (fconst 1 10) (f_of_Z 70) (f_of_Z 60).

Lemma overdue_depends_on_order_witness :
  mf_Status (projectNeed demoForecastConfig "db1" "vacuum" demoTable (f_of_Z 70)
    (deadTuples 10 0 :: [deadTuples 50 60] ++ [deadTuples 90 120]) (120 * Second)) = "overdue" /\
  mf_Status (projectNeed demoForecastConfig "db1" "vacuum" demoTable (f_of_Z 70)
    (reverse (deadTuples 10 0 :: [deadTuples 50 60] ++ [deadTuples 90 120])) (120 * Second)) <> "overdue".
Proof.
  apply (overdue_depends_on_order demoForecastConfig "db1" "vacuum" demoTable (f_of_Z 70)
           (deadTuples 10 0) (deadTuples 90 120) [deadTuples 50 60] (120 * Second)).
  - vm_compute. discriminate.
  - vm_compute. reflexivity.
  - vm_compute. reflexivity.
Defined.
