(* ===== verification/Auth.v ===== *)
(** * Authentication and authorisation

    Models internal/auth: the role and permission tables of rbac.go, the sliding-window limiter
    of ratelimit.go, the token service of jwt.go, the middleware chain of middleware.go and the
    users table of store.go. The JWT library and bcrypt are parameters. A clock reading is an
    argument; a mutex makes each limiter operation one step. *)
From S2P Require Import Prelude Float64 GoText.

Local Open Scope Z_scope.

(** ** rbac.go *)

Definition Permission := string.
Definition PermUserManagement : Permission := "user_management".
Definition PermInstanceManagement : Permission := "instance_management".
Definition PermAlertManagement : Permission := "alert_management".
Definition PermViewAll : Permission := "view_all".
Definition PermSelfManagement : Permission := "self_management".

Definition Role := string.
Definition RoleSuperAdmin : Role := "super_admin".
Definition RoleRolesAdmin : Role := "roles_admin".
Definition RoleDBA : Role := "dba".
Definition RoleAppAdmin : Role := "app_admin".

Definition ValidRoles : list Role := [RoleSuperAdmin; RoleRolesAdmin; RoleDBA; RoleAppAdmin].

Definition RolePermissions : gmap Role (list Permission) :=
  list_to_map [
    (RoleSuperAdmin, [PermUserManagement; PermInstanceManagement; PermAlertManagement;
                      PermViewAll; PermSelfManagement]);
    (RoleRolesAdmin, [PermUserManagement; PermViewAll; PermSelfManagement]);
    (RoleDBA, [PermInstanceManagement; PermAlertManagement; PermViewAll; PermSelfManagement]);
    (RoleAppAdmin, [PermAlertManagement; PermViewAll; PermSelfManagement])].

Definition HasPermission (role : Role) (perm : Permission) : bool :=
  match RolePermissions !! role with
  | None => false
  | Some perms => existsb (fun p => bool_decide (p = perm)) perms
  end.

(** A nil slice and an empty one are both []. *)
Definition PermissionsForRole (role : Role) : list string :=
  match RolePermissions !! role with
  | None => []
  | Some perms => perms
  end.

Definition ValidRole (role : string) : bool :=
  existsb (fun r => bool_decide (r = role)) ValidRoles.

(** ** ratelimit.go *)

Record RateLimiter := mkRateLimiter {
  rl_attempts : gmap string (list Time);
  rl_maxAttempts : Z;
  rl_window : Duration
}.

Definition NewRateLimiter (maxAttempts : Z) (window : Duration) : RateLimiter :=
  mkRateLimiter ∅ maxAttempts window.

Definition attempts_of (rl : RateLimiter) (ip : string) : list Time :=
  default [] (rl_attempts rl !! ip).

(** The loop that counts the leading expired entries. *)
Fixpoint expired_prefix (cutoff : Time) (entries : list Time) : nat :=
  match entries with
  | e :: entries' => if time_Before e cutoff then S (expired_prefix cutoff entries') else O
  | [] => O
  end.

Definition pruneExpired (now : Time) (rl : RateLimiter) (ip : string) : RateLimiter :=
  let cutoff := time_Add now (- rl_window rl) in
  let entries := attempts_of rl ip in
  let i := expired_prefix cutoff entries in
  let m := if (0 <? i)%nat then <[ip := drop i entries]> (rl_attempts rl) else rl_attempts rl in
  let m := if len (default [] (m !! ip)) =? 0 then delete ip m else m in
  mkRateLimiter m (rl_maxAttempts rl) (rl_window rl).

Definition Allow (now : Time) (rl : RateLimiter) (ip : string) : RateLimiter * bool :=
  let rl := pruneExpired now rl ip in
  (rl, len (attempts_of rl ip) <? rl_maxAttempts rl).

Definition RecordFailure (now : Time) (rl : RateLimiter) (ip : string) : RateLimiter :=
  mkRateLimiter (<[ip := attempts_of rl ip ++ [now]]> (rl_attempts rl))
    (rl_maxAttempts rl) (rl_window rl).

(** The clock is read once to prune and again for the remaining time. An empty list with a
    non-positive limit indexes out of range: [None] is the panic. *)
Definition RetryAfter (now now' : Time) (rl : RateLimiter) (ip : string)
    : RateLimiter * option Z :=
  let rl := pruneExpired now rl ip in
  let entries := attempts_of rl ip in
  if len entries <? rl_maxAttempts rl then (rl, Some 0) else
  match entries with
  | [] => (rl, None)
  | e :: _ =>
      let remaining := i64 (rl_window rl - time_Sub now' e) in
      if remaining <=? 0 then (rl, Some 0)
      else (rl, Some (f_trunc (dur_Seconds remaining) + 1))
  end.

(** What [ClientIP] reads of a request; [SplitHostPort] of package net is given by its result. *)
Record Request := mkRequest {
  rq_XForwardedFor : string;
  rq_XRealIP : string;
  rq_RemoteAddr : string;
  rq_remoteHost : result string;
  rq_Authorization : string
}.

Definition comma : Ascii.ascii := Eval compute in Ascii.ascii_of_N 44.

Definition ClientIP (r : Request) : string :=
  if negb (bool_decide (rq_XForwardedFor r = "")) then
    let xff := match cut comma (rq_XForwardedFor r) with
               | Some (a, _) => if bool_decide (a = "") then rq_XForwardedFor r else a
               | None => rq_XForwardedFor r
               end in
    TrimSpace xff
  else if negb (bool_decide (rq_XRealIP r = "")) then TrimSpace (rq_XRealIP r)
  else match rq_remoteHost r with
       | Err _ => rq_RemoteAddr r
       | Ok host => host
       end.

(** ** store.go: the users table with its constraints *)

Record User := mkUser {
  u_ID : Z;
  u_Username : string;
  u_PasswordHash : string;
  u_Role : string;
  u_Active : bool;
  u_LastLogin : option Time;
  u_CreatedAt : Time;
  u_UpdatedAt : Time
}.

Record UpdateFields := mkUpdateFields {
  uf_Role : option string;
  uf_Active : option bool
}.

(** The table and the identity sequence, which advances on failed inserts too. *)
Record PGUserStore := mkUserStore {
  us_users : gmap Z User;
  us_next : Z
}.

Definition ErrUserNotFound : error := "user not found".

Definition user_rows (s : PGUserStore) : list User := map snd (map_to_list (us_users s)).

Definition GetByID (s : PGUserStore) (id : Z) : result User :=
  match us_users s !! id with Some u => Ok u | None => Err ErrUserNotFound end.

Definition GetByUsername (s : PGUserStore) (username : string) : result User :=
  match List.filter (fun u => bool_decide (u_Username u = username)) (user_rows s) with
  | u :: _ => Ok u
  | [] => Err ErrUserNotFound
  end.

(** UNIQUE (username) and CHECK (role IN ...). *)
Definition us_Create (now : Time) (s : PGUserStore) (username passwordHash role : string)
    : PGUserStore * result User :=
  let s1 := mkUserStore (us_users s) (us_next s + 1) in
  if negb (ValidRole role) then (s1, Err "users_role_check")
  else if existsb (fun u => bool_decide (u_Username u = username)) (user_rows s)
       then (s1, Err "users_username_key")
  else
    let u := mkUser (us_next s) username passwordHash role true None now now in
    (mkUserStore (<[us_next s := u]> (us_users s)) (us_next s + 1), Ok u).

Definition Count (s : PGUserStore) : Z := len (user_rows s).

Definition upd_user (s : PGUserStore) (id : Z) (f : User -> User) : PGUserStore :=
  mkUserStore (alter f id (us_users s)) (us_next s).

Definition set_role (now : Time) (role : string) (u : User) : User :=
  mkUser (u_ID u) (u_Username u) (u_PasswordHash u) role (u_Active u) (u_LastLogin u)
    (u_CreatedAt u) now.
Definition set_active (now : Time) (active : bool) (u : User) : User :=
  mkUser (u_ID u) (u_Username u) (u_PasswordHash u) (u_Role u) active (u_LastLogin u)
    (u_CreatedAt u) now.
Definition set_hash (now : Time) (h : string) (u : User) : User :=
  mkUser (u_ID u) (u_Username u) h (u_Role u) (u_Active u) (u_LastLogin u) (u_CreatedAt u) now.
Definition set_login (now : Time) (u : User) : User :=
  mkUser (u_ID u) (u_Username u) (u_PasswordHash u) (u_Role u) (u_Active u) (Some now)
    (u_CreatedAt u) (u_UpdatedAt u).

(** Two statements: the role, then the active flag; a role outside the CHECK fails the first
    when a row matches. *)
Definition us_Update (now : Time) (s : PGUserStore) (id : Z) (fields : UpdateFields)
    : PGUserStore * option error :=
  match uf_Role fields with
  | Some role =>
      if bool_decide (is_Some (us_users s !! id)) && negb (ValidRole role)
      then (s, Some "users_role_check")
      else let s := upd_user s id (set_role now role) in
           (match uf_Active fields with
            | Some a => upd_user s id (set_active now a)
            | None => s
            end, None)
  | None =>
      (match uf_Active fields with
       | Some a => upd_user s id (set_active now a)
       | None => s
       end, None)
  end.

Definition UpdatePassword (now : Time) (s : PGUserStore) (id : Z) (passwordHash : string)
    : PGUserStore := upd_user s id (set_hash now passwordHash).

Definition UpdateLastLogin (now : Time) (s : PGUserStore) (id : Z) : PGUserStore :=
  upd_user s id (set_login now).

Definition CountActiveByRole (s : PGUserStore) (role : string) : Z :=
  len (List.filter (fun u => bool_decide (u_Role u = role) && u_Active u) (user_rows s)).

Definition us_Delete (s : PGUserStore) (id : Z) : PGUserStore * option error :=
  match us_users s !! id with
  | Some _ => (mkUserStore (delete id (us_users s)) (us_next s), None)
  | None => (s, Some ErrUserNotFound)
  end.

(** [ORDER BY id]. *)
Definition us_List (s : PGUserStore) : list User :=
  insertion_sort (fun a b => u_ID a <? u_ID b) (user_rows s).

(** ** jwt.go *)

Definition TokenAccess : string := "access".
Definition TokenRefresh : string := "refresh".

Record Claims := mkClaims {
  c_Issuer : string;
  c_IssuedAt : Time;
  c_ExpiresAt : Time;
  c_UserID : Z;
  c_Username : string;
  c_Role : string;
  c_Type : string;
  c_Permissions : list string
}.

Record TokenPair := mkTokenPair {
  tp_AccessToken : string;
  tp_RefreshToken : string;
  tp_ExpiresIn : Z
}.

Record JWTService := mkJWTService {
  js_secret : string;
  js_refreshSecret : string;
  js_accessTokenTTL : Duration;
  js_refreshTokenTTL : Duration
}.

Definition NewJWTService := mkJWTService.

(** [jwt.NewNumericDate] truncates to whole seconds. *)
Definition numericDate (t : Time) : Time := t - (t - zero_time) mod Second.

(** The JWT library: signing with a secret, and parsing with a secret at a time, which checks the
    signature, the HMAC method and the expiry. bcrypt: hashing with a salt and a cost, checking. *)
Class Crypto := {
  jwt_sign : string -> Claims -> result string;
  jwt_parse : Time -> string -> string -> result Claims;
  bcrypt_hash : Z -> string -> Z -> result string;
  bcrypt_check : string -> string -> bool
}.

Section jwt.
Context {CR : Crypto}.

Definition HashPassword (salt : Z) (password : string) (cost : Z) : result string :=
  bcrypt_hash salt password cost.
Definition CheckPassword (password hash : string) : option error :=
  if bcrypt_check password hash then None else Some "hashedPassword is not the hash of the given password".

Definition generateToken (s : JWTService) (user : User) (tokenType : string) (now : Time)
    (ttl : Duration) : result string :=
  let claims := mkClaims "pgpulse" (numericDate now) (numericDate (time_Add now ttl))
                  (u_ID user) (u_Username user) (u_Role user) tokenType
                  (PermissionsForRole (u_Role user)) in
  let secret := if bool_decide (tokenType = TokenRefresh) then js_refreshSecret s else js_secret s in
  jwt_sign secret claims.

Definition GenerateTokenPair (s : JWTService) (user : User) (now : Time) : result TokenPair :=
  match generateToken s user TokenAccess now (js_accessTokenTTL s) with
  | Err e => Err ("generate access token: " +:+ e)
  | Ok a =>
      match generateToken s user TokenRefresh now (js_refreshTokenTTL s) with
      | Err e => Err ("generate refresh token: " +:+ e)
      | Ok r => Ok (mkTokenPair a r (f_trunc (dur_Seconds (js_accessTokenTTL s))))
      end
  end.

Definition GenerateAccessToken (s : JWTService) (user : User) (now : Time) : result string :=
  generateToken s user TokenAccess now (js_accessTokenTTL s).

Definition ValidateToken (s : JWTService) (now : Time) (token : string) : result Claims :=
  match jwt_parse now (js_secret s) token with
  | Err e => Err ("parse token: " +:+ e)
  | Ok c => Ok c
  end.

Definition ValidateRefreshToken (s : JWTService) (now : Time) (token : string) : result Claims :=
  match jwt_parse now (js_refreshSecret s) token with
  | Err e => Err ("parse refresh token: " +:+ e)
  | Ok c => Ok c
  end.

(** ** middleware.go: the outcome is the claims for the next handler or an error response *)

(** Status, code and message of [errorWriter]. *)
Definition httpError : Type := Z * string * string.

(** [strings.EqualFold(s, "bearer")]: ASCII case folding (no other letter folds to these). *)
Definition RequireAuth (s : JWTService) (now : Time) (r : Request) : Claims + httpError :=
  let header := rq_Authorization r in
  if bool_decide (header = "") then
    inr (401, "UNAUTHORIZED", "missing Authorization header")
  else match SplitN space_char 2 header with
  | [scheme; token] =>
      if negb (equal_fold_ascii scheme "bearer") then
        inr (401, "UNAUTHORIZED", "invalid Authorization header format")
      else match ValidateToken s now token with
      | Err _ => inr (401, "UNAUTHORIZED", "invalid or expired token")
      | Ok claims =>
          if negb (bool_decide (c_Type claims = TokenAccess)) then
            inr (401, "UNAUTHORIZED", "expected access token")
          else inl claims
      end
  | _ => inr (401, "UNAUTHORIZED", "invalid Authorization header format")
  end.

Inductive AuthMode := AuthEnabled | AuthDisabled.

Definition adminClaims : Claims :=
  mkClaims "" zero_time zero_time 0 "admin" RoleSuperAdmin TokenAccess
    (PermissionsForRole RoleSuperAdmin).

Definition NewAuthMiddleware (s : JWTService) (mode : AuthMode) (now : Time) (r : Request)
    : Claims + httpError :=
  match mode with
  | AuthDisabled => inl adminClaims
  | AuthEnabled => RequireAuth s now r
  end.

End jwt.

Definition RequirePermission (perm : Permission) (claims : option Claims) : option httpError :=
  match claims with
  | None => Some (401, "UNAUTHORIZED", "authentication required")
  | Some c =>
      if negb (HasPermission (c_Role c) perm) then Some (403, "FORBIDDEN", "insufficient permissions")
      else None
  end.

(** [RequireRole] does not look at the required role. *)
Definition RequireRole (requiredRole : string) (claims : option Claims) : option httpError :=
  match claims with
  | None => Some (401, "UNAUTHORIZED", "authentication required")
  | Some c =>
      if negb (HasPermission (c_Role c) PermViewAll) then Some (403, "FORBIDDEN", "insufficient permissions")
      else None
  end.
