(* ===== verification/Http.v ===== *)
(** * HTTP responses of the API

    Models internal/api/response.go and the query helper of internal/api/playbooks.go: a response
    is a status with either the error envelope or a JSON body, kept as the value that is handed to
    the encoder. The status line is written before the encoder runs and its error is dropped, so a
    value that JSON cannot hold (a NaN or an infinity) leaves with its status and an empty body:
    [sent] says what goes over the wire, and a theorem on a response with numbers in it speaks of
    the body that the client reads when they are finite. *)
From S2P Require Import Prelude GoText.

Local Open Scope Z_scope.

Record ErrorBody := mkErrorBody {
  eb_Code : string;
  eb_Message : string
}.

Inductive response (B : Type) : Type :=
  | RError (status : Z) (body : ErrorBody)
  | RJSON (status : Z) (body : B).
Arguments RError {B} _ _.
Arguments RJSON {B} _ _.

Definition writeJSON {B} (status : Z) (v : B) : response B := RJSON status v.

(** What the client receives, where [Encode] is the JSON text of a body, if it has one; the text of an
    error envelope always exists. *)
Definition sent {B} (Encode : B -> option string) (encodeError : ErrorBody -> string) (r : response B)
    : Z * string :=
  match r with
  | RError status e => (status, encodeError e)
  | RJSON status v => (status, default "" (Encode v))
  end.

Lemma unencodable_body_sent_empty {B} (Encode : B -> option string) encodeError status (v : B) :
  Encode v = None -> sent Encode encodeError (writeJSON status v) = (status, "").
Proof. intros H. cbn. by rewrite H. Qed.

Definition writeError {B} (status : Z) (code message : string) : response B :=
  RError status (mkErrorBody code message).

Definition writeErrorRaw {B} (e : Z * string * string) : response B :=
  let '(code, errCode, message) := e in writeError code errCode message.

Definition StatusOK : Z := 200.
Definition StatusCreated : Z := 201.
Definition StatusNoContent : Z := 204.
Definition StatusBadRequest : Z := 400.
Definition StatusUnauthorized : Z := 401.
Definition StatusForbidden : Z := 403.
Definition StatusNotFound : Z := 404.
Definition StatusConflict : Z := 409.
Definition StatusTooManyRequests : Z := 429.
Definition StatusInternalServerError : Z := 500.
Definition StatusBadGateway : Z := 502.
Definition StatusServiceUnavailable : Z := 503.

Definition status_of {B} (r : response B) : Z :=
  match r with RError s _ => s | RJSON s _ => s end.

(** [queryInt]: an absent or unparsable parameter gives the default. *)
Definition queryInt (v : string) (def : Z) : Z :=
  if bool_decide (v = "") then def
  else match Atoi v with
       | (n, None) => n
       | (_, Some _) => def
       end.

(** A query parameter that must be a number with [ok]; anything else leaves the default. *)
Definition queryNumber (ok : Z -> bool) (def : Z) (v : string) : Z :=
  if String.eqb v "" then def
  else match Atoi v with
       | (n, None) => if ok n then n else def
       | (_, Some _) => def
       end.
