(* ===== verification/AuthApi.v ===== *)
(** * The authentication endpoints

    Models internal/api/auth.go and the login limiter middleware of internal/api/server.go over
    the users table and the token service of [Auth], together with the permission that server.go
    puts in front of the user management routes and the start-up of the first administrator. A
    request body is the result of decoding it. *)
From S2P Require Import Prelude Float64 GoText Auth Http.

Local Open Scope Z_scope.

(** ** Data *)

Record loginRequest := mkLoginRequest { lr_Username : string; lr_Password : string }.
Record registerRequest := mkRegisterRequest {
  rr_Username : string; rr_Password : string; rr_Role : string }.
Record updateUserRequest := mkUpdateUserRequest { ur_Role : option string; ur_Active : option bool }.
Record changePasswordRequest := mkChangePasswordRequest {
  cp_CurrentPassword : string; cp_NewPassword : string }.

Record userResponse := mkUserResponse {
  usr_ID : Z;
  usr_Username : string;
  usr_Role : string;
  usr_Active : bool;
  usr_Permissions : list string
}.

Inductive authBody :=
  | BLogin (accessToken refreshToken : string) (expiresIn : Z) (user : userResponse)
  | BAccess (accessToken : string) (expiresIn : Z)
  | BUser (u : userResponse)
  | BUsers (l : list userResponse)
  | BAuthStatus (status : string).

Definition user_response (u : User) : userResponse :=
  mkUserResponse (u_ID u) (u_Username u) (u_Role u) (u_Active u) (PermissionsForRole (u_Role u)).

(** The server state these handlers read and write. *)
Record AuthServer := mkAuthServer {
  as_users : PGUserStore;
  as_limiter : option RateLimiter;
  as_jwt : JWTService;
  as_mode : AuthMode;
  as_bcryptCost : Z
}.

Definition with_users (s : AuthServer) (us : PGUserStore) : AuthServer :=
  mkAuthServer us (as_limiter s) (as_jwt s) (as_mode s) (as_bcryptCost s).
Definition with_limiter (s : AuthServer) (rl : option RateLimiter) : AuthServer :=
  mkAuthServer (as_users s) rl (as_jwt s) (as_mode s) (as_bcryptCost s).

Definition record_failure (now : Time) (s : AuthServer) (r : Request) : AuthServer :=
  with_limiter s (match as_limiter s with
                  | Some rl => Some (RecordFailure now rl (ClientIP r))
                  | None => None
                  end).

Definition is_privileged (role : string) : bool :=
  bool_decide (role = RoleSuperAdmin) || bool_decide (role = RoleRolesAdmin).

Section handlers.
Context {CR : Crypto}.

(** ** Sessions *)

(** [now] is the clock, [decoded] the body. *)
Definition handleLogin (now : Time) (s : AuthServer) (r : Request) (decoded : result loginRequest)
    : AuthServer * response authBody :=
  match as_mode s with
  | AuthDisabled =>
      (s, writeJSON StatusOK (BLogin "disabled" "disabled" 0
            (mkUserResponse 0 "admin" RoleSuperAdmin true (PermissionsForRole RoleSuperAdmin))))
  | AuthEnabled =>
  match decoded with
  | Err _ => (s, writeError StatusBadRequest "BAD_REQUEST" "invalid request body")
  | Ok req =>
  if bool_decide (lr_Username req = "") || bool_decide (lr_Password req = "") then
    (s, writeError StatusBadRequest "BAD_REQUEST" "username and password are required")
  else match GetByUsername (as_users s) (lr_Username req) with
  | Err e =>
      if bool_decide (e = ErrUserNotFound) then
        (record_failure now s r, writeError StatusUnauthorized "UNAUTHORIZED" "invalid credentials")
      else (s, writeError StatusInternalServerError "INTERNAL_ERROR" "authentication failed")
  | Ok user =>
      match CheckPassword (lr_Password req) (u_PasswordHash user) with
      | Some _ =>
          (record_failure now s r, writeError StatusUnauthorized "UNAUTHORIZED" "invalid credentials")
      | None =>
          if negb (u_Active user) then
            (s, writeError StatusUnauthorized "UNAUTHORIZED" "account deactivated")
          else
            let s := with_users s (UpdateLastLogin now (as_users s) (u_ID user)) in
            match GenerateTokenPair (as_jwt s) user now with
            | Err _ => (s, writeError StatusInternalServerError "INTERNAL_ERROR" "failed to generate tokens")
            | Ok tp =>
                (s, writeJSON StatusOK (BLogin (tp_AccessToken tp) (tp_RefreshToken tp)
                      (tp_ExpiresIn tp) (user_response user)))
            end
      end
  end
  end
  end.

Definition handleRefresh (now : Time) (s : AuthServer) (decoded : result string)
    : response authBody :=
  match decoded with
  | Err _ => writeError StatusBadRequest "BAD_REQUEST" "invalid request body"
  | Ok refreshToken =>
  match ValidateRefreshToken (as_jwt s) now refreshToken with
  | Err _ => writeError StatusUnauthorized "UNAUTHORIZED" "invalid refresh token"
  | Ok claims =>
  match GetByID (as_users s) (c_UserID claims) with
  | Err _ => writeError StatusUnauthorized "UNAUTHORIZED" "user not found"
  | Ok user =>
  if negb (u_Active user) then writeError StatusUnauthorized "UNAUTHORIZED" "account deactivated"
  else match GenerateAccessToken (as_jwt s) user now with
  | Err _ => writeError StatusInternalServerError "INTERNAL_ERROR" "failed to generate token"
  | Ok accessToken =>
      writeJSON StatusOK (BAccess accessToken (f_trunc (dur_Seconds (js_accessTokenTTL (as_jwt s)))))
  end
  end
  end
  end.

Definition handleMe (claims : option Claims) : response authBody :=
  match claims with
  | None => writeError StatusUnauthorized "UNAUTHORIZED" "authentication required"
  | Some c =>
      writeJSON StatusOK (BUser (mkUserResponse (c_UserID c) (c_Username c) (c_Role c) true
                                   (PermissionsForRole (c_Role c))))
  end.

(** ** User management *)

Definition handleListUsers (s : AuthServer) : response authBody :=
  writeJSON StatusOK (BUsers (map user_response (us_List (as_users s)))).

Definition handleRegister (now salt : Z) (s : AuthServer) (claims : option Claims)
    (decoded : result registerRequest) : AuthServer * response authBody :=
  match decoded with
  | Err _ => (s, writeError StatusBadRequest "BAD_REQUEST" "invalid request body")
  | Ok req =>
  if bool_decide (rr_Username req = "") || bool_decide (rr_Password req = "")
     || bool_decide (rr_Role req = "") then
    (s, writeError StatusBadRequest "BAD_REQUEST" "username, password, and role are required")
  else if negb (ValidRole (rr_Role req)) then
    (s, writeError StatusBadRequest "BAD_REQUEST" "invalid role")
  else if match claims with
          | Some c => negb (bool_decide (c_Role c = RoleSuperAdmin)) && is_privileged (rr_Role req)
          | None => false
          end then
    (s, writeError StatusForbidden "FORBIDDEN" "only super_admin can create privileged users")
  else match HashPassword salt (rr_Password req) (as_bcryptCost s) with
  | Err _ => (s, writeError StatusInternalServerError "INTERNAL_ERROR" "failed to hash password")
  | Ok hash =>
  match us_Create now (as_users s) (rr_Username req) hash (rr_Role req) with
  | (us, Err _) => (with_users s us, writeError StatusConflict "CONFLICT" "username already exists")
  | (us, Ok user) => (with_users s us, writeJSON StatusCreated (BUser (user_response user)))
  end
  end
  end.

Definition handleUpdateUser (now : Time) (s : AuthServer) (claims : option Claims) (idStr : string)
    (decoded : result updateUserRequest) : AuthServer * response authBody :=
  match ParseInt idStr with
  | (_, Some _) => (s, writeError StatusBadRequest "BAD_REQUEST" "invalid user ID")
  | (id, None) =>
  match decoded with
  | Err _ => (s, writeError StatusBadRequest "BAD_REQUEST" "invalid request body")
  | Ok req =>
  if match claims with
     | Some c => bool_decide (c_UserID c = id) && bool_decide (ur_Active req = Some false)
     | None => false
     end then
    (s, writeError StatusBadRequest "BAD_REQUEST" "cannot deactivate your own account")
  else
    let refused :=
      match ur_Role req with
      | None => None
      | Some role =>
          if negb (ValidRole role) then Some (writeError StatusBadRequest "BAD_REQUEST" "invalid role")
          else match claims with
               | Some c =>
                   if negb (bool_decide (c_Role c = RoleSuperAdmin)) && is_privileged role
                   then Some (writeError StatusForbidden "FORBIDDEN"
                                "only super_admin can assign privileged roles")
                   else None
               | None => None
               end
      end in
    match refused with
    | Some resp => (s, resp)
    | None =>
        match us_Update now (as_users s) id (mkUpdateFields (ur_Role req) (ur_Active req)) with
        | (us, Some _) =>
            (with_users s us, writeError StatusInternalServerError "INTERNAL_ERROR" "failed to update user")
        | (us, None) => (with_users s us, writeJSON StatusOK (BAuthStatus "updated"))
        end
    end
  end
  end.

Definition handleDeleteUser (s : AuthServer) (claims : option Claims) (idStr : string)
    : AuthServer * response authBody :=
  match ParseInt idStr with
  | (_, Some _) => (s, writeError StatusBadRequest "BAD_REQUEST" "invalid user ID")
  | (id, None) =>
  if match claims with Some c => bool_decide (c_UserID c = id) | None => false end then
    (s, writeError StatusBadRequest "BAD_REQUEST" "cannot delete your own account")
  else match GetByID (as_users s) id with
  | Err e =>
      if bool_decide (e = ErrUserNotFound) then (s, writeError StatusNotFound "NOT_FOUND" "user not found")
      else (s, writeError StatusInternalServerError "INTERNAL_ERROR" "failed to fetch user")
  | Ok user =>
      if bool_decide (u_Role user = RoleSuperAdmin)
         && (CountActiveByRole (as_users s) RoleSuperAdmin <=? 1) then
        (s, writeError StatusBadRequest "BAD_REQUEST" "cannot delete the last active super admin")
      else match us_Delete (as_users s) id with
      | (us, Some _) =>
          (with_users s us, writeError StatusInternalServerError "INTERNAL_ERROR" "failed to delete user")
      | (us, None) => (with_users s us, writeJSON StatusOK (BAuthStatus "deleted"))
      end
  end
  end.

Definition handleAdminResetPassword (now salt : Z) (s : AuthServer) (idStr : string)
    (decoded : result string) : AuthServer * response authBody :=
  match ParseInt idStr with
  | (_, Some _) => (s, writeError StatusBadRequest "BAD_REQUEST" "invalid user ID")
  | (id, None) =>
  match decoded with
  | Err _ => (s, writeError StatusBadRequest "BAD_REQUEST" "invalid request body")
  | Ok newPassword =>
  if (String.length newPassword <? 8)%nat then
    (s, writeError StatusBadRequest "BAD_REQUEST" "password must be at least 8 characters")
  else match GetByID (as_users s) id with
  | Err e =>
      if bool_decide (e = ErrUserNotFound) then (s, writeError StatusNotFound "NOT_FOUND" "user not found")
      else (s, writeError StatusInternalServerError "INTERNAL_ERROR" "failed to fetch user")
  | Ok _ =>
      match HashPassword salt newPassword (as_bcryptCost s) with
      | Err _ => (s, writeError StatusInternalServerError "INTERNAL_ERROR" "failed to hash password")
      | Ok hash =>
          (with_users s (UpdatePassword now (as_users s) id hash),
           writeJSON StatusOK (BAuthStatus "password reset"))
      end
  end
  end
  end.

Definition handleChangePassword (now salt : Z) (s : AuthServer) (claims : option Claims)
    (decoded : result changePasswordRequest) : AuthServer * response authBody :=
  match decoded with
  | Err _ => (s, writeError StatusBadRequest "BAD_REQUEST" "invalid request body")
  | Ok req =>
  if bool_decide (cp_CurrentPassword req = "") || bool_decide (cp_NewPassword req = "") then
    (s, writeError StatusBadRequest "BAD_REQUEST" "current_password and new_password are required")
  else match claims with
  | None => (s, writeError StatusUnauthorized "UNAUTHORIZED" "authentication required")
  | Some c =>
  match GetByID (as_users s) (c_UserID c) with
  | Err _ => (s, writeError StatusInternalServerError "INTERNAL_ERROR" "failed to fetch user")
  | Ok user =>
  match CheckPassword (cp_CurrentPassword req) (u_PasswordHash user) with
  | Some _ => (s, writeError StatusUnauthorized "UNAUTHORIZED" "current password is incorrect")
  | None =>
  match HashPassword salt (cp_NewPassword req) (as_bcryptCost s) with
  | Err _ => (s, writeError StatusInternalServerError "INTERNAL_ERROR" "failed to hash password")
  | Ok hash =>
      (with_users s (UpdatePassword now (as_users s) (c_UserID c) hash),
       writeJSON StatusOK (BAuthStatus "password changed"))
  end
  end
  end
  end
  end.

(** ** Routing: the middleware in front of the handlers when authentication is on *)

Inductive authRequest :=
  | QLogin (body : result loginRequest)
  | QRefresh (body : result string)
  | QMe
  | QRegister (body : result registerRequest)
  | QListUsers
  | QUpdateUser (id : string) (body : result updateUserRequest)
  | QDeleteUser (id : string)
  | QResetPassword (id : string) (body : result string)
  | QChangePassword (body : result changePasswordRequest).

(** [rateLimitMiddleware] before [next]; a panic of [RetryAfter] is answered by the recoverer. *)
Definition rateLimitMiddleware (now : Time) (s : AuthServer) (r : Request)
    (next : AuthServer -> AuthServer * response authBody) : AuthServer * response authBody :=
  match as_limiter s with
  | None => next s
  | Some rl =>
      let ip := ClientIP r in
      let (rl, ok) := Allow now rl ip in
      let s := with_limiter s (Some rl) in
      if ok then next s
      else let (rl, retryAfter) := RetryAfter now now rl ip in
           let s := with_limiter s (Some rl) in
           match retryAfter with
           | Some _ => (s, writeError StatusTooManyRequests "RATE_LIMITED" "too many login attempts")
           | None => (s, writeError StatusInternalServerError "internal_error" "internal server error")
           end
  end.

Definition guarded (perm : Permission) (claims : Claims) (s : AuthServer)
    (next : AuthServer * response authBody) : AuthServer * response authBody :=
  match RequirePermission perm (Some claims) with
  | Some e => (s, writeErrorRaw e)
  | None => next
  end.

Definition serve (now salt : Z) (s : AuthServer) (r : Request) (q : authRequest)
    : AuthServer * response authBody :=
  match q with
  | QLogin b => rateLimitMiddleware now s r (fun s => handleLogin now s r b)
  | QRefresh b => (s, handleRefresh now s b)
  | _ =>
      match RequireAuth (as_jwt s) now r with
      | inr e => (s, writeErrorRaw e)
      | inl c =>
          let um := guarded PermUserManagement c s in
          match q with
          | QMe => (s, handleMe (Some c))
          | QRegister b => um (handleRegister now salt s (Some c) b)
          | QListUsers => um (s, handleListUsers s)
          | QUpdateUser id b => um (handleUpdateUser now s (Some c) id b)
          | QDeleteUser id => um (handleDeleteUser s (Some c) id)
          | QResetPassword id b => um (handleAdminResetPassword now salt s id b)
          | QChangePassword b => handleChangePassword now salt s (Some c) b
          | _ => (s, handleMe (Some c))
          end
      end
  end.

(** Start-up: the first administrator, when the table is empty. [None] exits the process. *)
Definition initialAdmin (now salt cost : Z) (s : PGUserStore) (admin : option (string * string))
    : option PGUserStore :=
  if Count s =? 0 then
    match admin with
    | None => None
    | Some (username, password) =>
        match HashPassword salt password cost with
        | Err _ => None
        | Ok hash => match us_Create now s username hash RoleSuperAdmin with
                     | (_, Err _) => None
                     | (s, Ok _) => Some s
                     end
        end
    end
  else Some s.

(** The refresh secret defaults to the access secret. *)
Definition serverJWT (jwtSecret refreshSecret : string) (accessTTL refreshTTL : Duration) : JWTService :=
  let refreshSecret := if bool_decide (refreshSecret = "") then jwtSecret else refreshSecret in
  NewJWTService jwtSecret refreshSecret accessTTL refreshTTL.

End handlers.
