(* ===== verification/AuthTheorems.v ===== *)
(** * What the authentication guarantees, and what it does not

    The limiter counts exactly the failures inside its window; no request of a caller who is not
    a super administrator creates or promotes a privileged user; deletion keeps an active super
    administrator. Updates and password resets have no such protection, and with the default
    secrets an access token works as a refresh token. *)
From S2P Require Import Prelude Float64 GoText Auth Http AuthApi.

Local Open Scope Z_scope.

(** ** The limiter against the log of all failures *)

Inductive rl_op :=
  | OpAllow (now : Time) (ip : string)
  | OpFailure (now : Time) (ip : string)
  | OpRetryAfter (now now' : Time) (ip : string).

Definition op_time (o : rl_op) : Time :=
  match o with OpAllow t _ | OpFailure t _ | OpRetryAfter t _ _ => t end.

Definition rl_step (rl : RateLimiter) (o : rl_op) : RateLimiter :=
  match o with
  | OpAllow t ip => fst (Allow t rl ip)
  | OpFailure t ip => RecordFailure t rl ip
  | OpRetryAfter t t' ip => fst (RetryAfter t t' rl ip)
  end.

(** The times at which failures of [ip] were recorded. *)
Definition failures (ip : string) (ops : list rl_op) : list Time :=
  flat_map (fun o => match o with
                     | OpFailure t i => if bool_decide (i = ip) then [t] else []
                     | _ => []
                     end) ops.

Fixpoint clock_from (t : Time) (ops : list rl_op) : Prop :=
  match ops with
  | [] => True
  | o :: ops' => t <= op_time o /\ clock_from (op_time o) ops'
  end.

Definition in_window (cutoff : Time) (l : list Time) : list Time :=
  List.filter (fun t => cutoff <=? t) l.

Lemma in_window_app (c : Time) (a b : list Time) :
  in_window c (a ++ b) = in_window c a ++ in_window c b.
Proof. apply List.filter_app. Qed.

Lemma in_window_old (c : Time) (l : list Time) : Forall (fun t => t < c) l -> in_window c l = [].
Proof.
  intros H. apply filter_none. intros t Ht. rewrite list.Forall_forall in H.
  apply H in Ht. apply Z.leb_gt. lia.
Qed.

(** On a sorted list the expired prefix is everything outside the window. *)
Lemma drop_expired_prefix (c : Time) (l : list Time) :
  StronglySorted Z.le l -> drop (expired_prefix c l) l = in_window c l /\
  Forall (fun t => t < c) (take (expired_prefix c l) l).
Proof.
  induction 1 as [|x l Hs IH Hf]; [done|]. cbn [expired_prefix in_window List.filter].
  unfold time_Before. destruct (Z.ltb_spec x c) as [Hx|Hx].
  - rewrite (proj2 (Z.leb_gt c x)) by lia. cbn. destruct IH as [-> IH]. split; [done|].
    constructor; [lia|done].
  - rewrite (proj2 (Z.leb_le c x)) by lia. cbn. split; [|constructor]. f_equal.
    symmetry. rewrite (List.forallb_filter_id _ l); [done|]. apply forallb_forall.
    intros y Hy. rewrite List.Forall_forall in Hf. specialize (Hf y Hy). apply Z.leb_le. lia.
Qed.

Lemma attempts_pruned (now : Time) (rl : RateLimiter) (ip ip' : string) :
  attempts_of (pruneExpired now rl ip) ip'
  = if decide (ip' = ip)
    then drop (expired_prefix (now - rl_window rl) (attempts_of rl ip)) (attempts_of rl ip)
    else attempts_of rl ip'.
Proof.
  unfold attempts_of, pruneExpired, time_Add, len. cbn [rl_attempts].
  replace (now + - rl_window rl) with (now - rl_window rl) by lia.
  set (e := default [] (rl_attempts rl !! ip)).
  set (i := expired_prefix _ _).
  set (m := if (0 <? i)%nat then _ else _).
  assert (default [] (m !! ip) = drop i e) as Hm.
  { subst m. destruct (Nat.ltb_spec 0 i).
    - by rewrite lookup_insert_eq.
    - replace i with O by lia. done. }
  assert (ip' <> ip -> m !! ip' = rl_attempts rl !! ip') as Hne.
  { intros H. subst m. destruct (_ <? _)%nat; [by rewrite lookup_insert_ne by congruence|done]. }
  rewrite Hm. destruct (decide (ip' = ip)) as [->|H].
  - destruct (Z.eqb_spec (Z.of_nat (length (drop i e))) 0) as [H0|H0].
    + rewrite lookup_delete_eq. cbn. symmetry. apply nil_length_inv. lia.
    + done.
  - destruct (_ =? 0); [rewrite lookup_delete_ne by congruence|]; by rewrite Hne.
Qed.

Lemma attempts_recorded (t : Time) (rl : RateLimiter) (ip i : string) :
  attempts_of (RecordFailure t rl ip) i
  = if decide (i = ip) then attempts_of rl ip ++ [t] else attempts_of rl i.
Proof.
  unfold attempts_of at 1, RecordFailure. cbn [rl_attempts]. case_decide as H.
  - subst. by rewrite lookup_insert_eq.
  - by rewrite lookup_insert_ne by congruence.
Qed.

Lemma pruned_limits (now : Time) (rl : RateLimiter) (ip : string) :
  rl_window (pruneExpired now rl ip) = rl_window rl /\
  rl_maxAttempts (pruneExpired now rl ip) = rl_maxAttempts rl.
Proof. done. Qed.

(** What the limiter keeps of a log: everything but entries that left the window. *)
Definition rl_inv (rl : RateLimiter) (last : Time) (log : string -> list Time) : Prop :=
  forall ip, exists old,
    log ip = old ++ attempts_of rl ip /\ Forall (fun t => t < last - rl_window rl) old /\
    StronglySorted Z.le (log ip) /\ Forall (fun t => t <= last) (log ip).

Lemma rl_inv_later (rl : RateLimiter) (last last' : Time) (log : string -> list Time) :
  last <= last' -> rl_inv rl last log -> rl_inv rl last' log.
Proof.
  intros Hle H ip. destruct (H ip) as (old & -> & H1 & H2 & H3). exists old.
  repeat split; [|done|].
  - eapply Forall_impl; [exact H1|]. cbn. lia.
  - eapply Forall_impl; [exact H3|]. cbn. lia.
Qed.

Lemma sorted_app_r (a b : list Time) : StronglySorted Z.le (a ++ b) -> StronglySorted Z.le b.
Proof. induction a as [|x a IH]; [done|]. cbn. inversion 1; subst. auto. Qed.

Lemma rl_inv_prune (rl : RateLimiter) (now : Time) (log : string -> list Time) (ip : string) :
  rl_inv rl now log -> rl_inv (pruneExpired now rl ip) now log.
Proof.
  intros H ip'. destruct (H ip') as (old & Hlog & H1 & H2 & H3).
  rewrite (proj1 (pruned_limits now rl ip)), attempts_pruned.
  destruct (decide (ip' = ip)) as [->|_]; [|by exists old].
  set (e := attempts_of rl ip) in *.
  destruct (drop_expired_prefix (now - rl_window rl) e) as [_ Hold].
  { eapply sorted_app_r. rewrite <- Hlog. done. }
  exists (old ++ take (expired_prefix (now - rl_window rl) e) e).
  rewrite <- app_assoc, take_drop. repeat split; try done. by apply Forall_app.
Qed.

Lemma rl_inv_step (rl : RateLimiter) (last : Time) (ops : list rl_op) (o : rl_op) :
  last <= op_time o -> rl_inv rl last (fun ip => failures ip ops) ->
  rl_inv (rl_step rl o) (op_time o) (fun ip => failures ip (ops ++ [o])).
Proof.
  intros Hle H%(rl_inv_later _ _ _ _ Hle). destruct o as [t ip|t ip|t t' ip]; cbn [op_time] in *.
  - intros i. unfold failures. rewrite flat_map_app. cbn. rewrite app_nil_r.
    apply (rl_inv_prune rl t (fun i => failures i ops) ip H).
  - intros i. destruct (H i) as (old & Hlog & H1 & H2 & H3). exists old.
    assert (failures i (ops ++ [OpFailure t ip])
            = failures i ops ++ (if decide (i = ip) then [t] else [])) as ->.
    { unfold failures. rewrite flat_map_app. cbn. rewrite app_nil_r.
      repeat case_decide; rewrite ?bool_decide_true, ?bool_decide_false by congruence; done. }
    cbn [rl_step]. rewrite attempts_recorded. change (rl_window (RecordFailure t rl ip)) with (rl_window rl).
    destruct (decide (i = ip)) as [->|Hne]; [|by rewrite app_nil_r].
    rewrite app_assoc, <- Hlog. repeat split; [done| |].
    + apply StronglySorted_snoc; [done|]. intros y Hy. rewrite list.Forall_forall in H3. by apply H3.
    + apply Forall_app. split; [done|]. constructor; [lia|done].
  - assert (rl_step rl (OpRetryAfter t t' ip) = pruneExpired t rl ip) as ->.
    { cbn. unfold RetryAfter. destr_ifs; try done.
      destruct (attempts_of _ _); destr_ifs; done. }
    intros i. unfold failures. rewrite flat_map_app. cbn. rewrite app_nil_r.
    apply (rl_inv_prune rl t (fun i => failures i ops) ip H).
Qed.

Lemma rl_inv_run (ops : list rl_op) : forall (done : list rl_op) (rl : RateLimiter) (last : Time),
  clock_from last ops -> rl_inv rl last (fun ip => failures ip done) ->
  exists last', rl_inv (foldl rl_step rl ops) last' (fun ip => failures ip (done ++ ops)) /\
    last <= last' /\ (forall o, o ∈ ops -> op_time o <= last') /\
    (ops = [] -> last' = last) /\ (ops <> [] -> exists o, o ∈ ops /\ op_time o = last').
Proof.
  induction ops as [|o ops IH]; intros done rl last Hc H; cbn [foldl].
  { exists last. rewrite app_nil_r. repeat split; try set_solver; lia. }
  destruct Hc as [Hle Hc].
  destruct (IH (done ++ [o]) (rl_step rl o) (op_time o)) as (last' & H1 & H2 & H3 & H4 & H5);
    [done|by eapply rl_inv_step|].
  exists last'. rewrite <- app_assoc in H1. repeat split; [done|lia| |done|].
  - intros o' [->|Ho']%elem_of_cons; [lia|auto].
  - intros _. destruct ops as [|o' ops'].
    + exists o. split; [by left|]. by rewrite H4.
    + destruct H5 as (q & Hq & Hqt); [done|]. exists q. split; [by right|done].
Qed.

Lemma run_limits (ops : list rl_op) : forall (rl : RateLimiter),
  rl_window (foldl rl_step rl ops) = rl_window rl /\
  rl_maxAttempts (foldl rl_step rl ops) = rl_maxAttempts rl.
Proof.
  induction ops as [|o ops IH]; intros rl; [done|]. cbn [foldl]. destruct (IH (rl_step rl o)) as [-> ->].
  destruct o; try done. cbn. unfold RetryAfter. destr_ifs; try done.
  destruct (attempts_of _ _); destr_ifs; done.
Qed.

(** C6: The login limiter implements a sliding window: after any sequence of its operations with
    a clock that does not go back, an address is let through exactly when fewer than the maximum
    number of its failures were recorded within the window before now, however the entries were
    pruned in between. *)
Theorem limiter_counts_window (max : Z) (window : Duration) (ops : list rl_op) (t0 now : Time)
    (ip : string) :
  clock_from t0 ops -> (forall o, o ∈ ops -> op_time o <= now) ->
  snd (Allow now (foldl rl_step (NewRateLimiter max window) ops) ip)
  = (len (in_window (now - window) (failures ip ops)) <? max).
Proof.
  intros Hc Hnow.
  destruct (rl_inv_run ops [] (NewRateLimiter max window) t0) as (last & Hinv & _ & _ & Hnil & Hlast);
    [done| |].
  { intros i. exists []. repeat split; constructor. }
  destruct (run_limits ops (NewRateLimiter max window)) as [Hw Hm].
  set (rl := foldl rl_step _ ops) in *. cbn [app] in Hinv.
  unfold Allow. cbn [snd]. rewrite attempts_pruned, decide_True by done.
  rewrite (proj2 (pruned_limits now rl ip)), Hm, Hw. cbn [NewRateLimiter rl_window rl_maxAttempts].
  destruct (Hinv ip) as (old & Hlog & Hold & Hs & _). rewrite Hlog in *.
  rewrite (proj1 (drop_expired_prefix _ _ (sorted_app_r _ _ Hs))), in_window_app.
  rewrite (in_window_old _ old); [done|].
  destruct ops as [|o ops'].
  - destruct old; [constructor|]. by apply (f_equal length) in Hlog.
  - destruct Hlast as (q & Hq & <-); [done|]. apply Hnow in Hq.
    eapply Forall_impl; [exact Hold|]. rewrite Hw. cbn. lia.
Qed.

Definition demo_ops : list rl_op :=
  [OpFailure 0 "10.0.0.1"; OpAllow 5 "10.0.0.1"; OpFailure 20 "10.0.0.1"; OpFailure 30 "10.0.0.2"].

Lemma limiter_counts_window_witness :
  clock_from 0 demo_ops /\
  snd (Allow 25 (foldl rl_step (NewRateLimiter 2 10) (take 3 demo_ops)) "10.0.0.1")
  = (len (in_window (25 - 10) (failures "10.0.0.1" (take 3 demo_ops))) <? 2).
Proof.
  split; [cbn; lia|].
  apply (limiter_counts_window 2 10 (take 3 demo_ops) 0 25 "10.0.0.1"); [cbn; lia|].
  intros o Ho. repeat (apply elem_of_cons in Ho as [->|Ho]; [cbn; lia|]). by apply not_elem_of_nil in Ho.
Defined.

(** ** Privileged roles *)

(** Whoever is privileged after was so before, in the same role. *)
Definition no_new_privilege (us us' : PGUserStore) : Prop :=
  forall id u', us_users us' !! id = Some u' -> is_privileged (u_Role u') = true ->
  exists u, us_users us !! id = Some u /\ u_Role u = u_Role u'.

Lemma nnp_refl (us : PGUserStore) : no_new_privilege us us.
Proof. intros id u' H _. by exists u'. Qed.

Lemma nnp_same (us us' : PGUserStore) : us_users us' = us_users us -> no_new_privilege us us'.
Proof. intros E id u' H _. exists u'. by rewrite <- E. Qed.

Lemma nnp_trans (a b c : PGUserStore) :
  no_new_privilege a b -> no_new_privilege b c -> no_new_privilege a c.
Proof.
  intros H1 H2 id u' Hu Hp. destruct (H2 id u' Hu Hp) as (u & Hb & Heq).
  rewrite <- Heq in *. by apply (H1 id u Hb).
Qed.

Lemma nnp_upd (us : PGUserStore) (id : Z) (f : User -> User) :
  (forall u, u_Role (f u) = u_Role u \/ is_privileged (u_Role (f u)) = false) ->
  no_new_privilege us (upd_user us id f).
Proof.
  intros Hf i u'. unfold upd_user. cbn [us_users]. rewrite lookup_alter.
  case_decide as Hi; [|intros H _; by exists u'].
  subst. destruct (us_users us !! i) as [u|]; [|done]. intros [= <-] Hp.
  exists u. split; [done|]. destruct (Hf u) as [Hr|Hr]; congruence.
Qed.

Lemma nnp_create (now : Time) (us : PGUserStore) (n h role : string) :
  is_privileged role = false -> no_new_privilege us (us_Create now us n h role).1.
Proof.
  intros Hr. unfold us_Create. destr_ifs; [by apply nnp_same..|].
  intros i u'. cbn [fst us_users]. rewrite lookup_insert.
  case_decide; [intros [= <-]; cbn; congruence|]. intros H' _. by exists u'.
Qed.

Lemma nnp_delete (us : PGUserStore) (id : Z) : no_new_privilege us (us_Delete us id).1.
Proof.
  unfold us_Delete. destruct (us_users us !! id); [|apply nnp_refl].
  intros i u' H _. cbn in H. apply lookup_delete_Some in H as [_ H]. by exists u'.
Qed.

Lemma nnp_update (now : Time) (us : PGUserStore) (id : Z) (f : UpdateFields) :
  (forall role, uf_Role f = Some role -> is_privileged role = false) ->
  no_new_privilege us (us_Update now us id f).1.
Proof.
  intros Hr. unfold us_Update. destruct f as [[role|] [a|]]; cbn [uf_Role uf_Active] in *;
    destr_ifs; try apply nnp_refl; cbn [fst].
  - eapply nnp_trans; apply nnp_upd; intros u; cbn; [right; by apply Hr|by left].
  - apply nnp_upd. intros u. right. cbn. by apply Hr.
  - apply nnp_upd. intros u. by left.
Qed.

#[export] Hint Resolve nnp_refl nnp_upd nnp_create nnp_delete nnp_update : pgpulse.

(** Case analysis on the guards of a handler. *)
Ltac handler_cases :=
  repeat match goal with
  | |- context [match ?x with _ => _ end] => destruct x eqn:?
  end; cbn [fst snd as_users with_users] in *.

Section privileges.
Context {CR : Crypto}.

Lemma nnp_login (now : Time) (s : AuthServer) (r : Request) (b : result loginRequest) :
  no_new_privilege (as_users s) (as_users (handleLogin now s r b).1).
Proof.
  unfold handleLogin. handler_cases; auto with pgpulse; apply nnp_upd; by left.
Qed.

Lemma nnp_register (now salt : Z) (s : AuthServer) (c : Claims) (b : result registerRequest) :
  c_Role c <> RoleSuperAdmin ->
  no_new_privilege (as_users s) (as_users (handleRegister now salt s (Some c) b).1).
Proof.
  intros Hc. unfold handleRegister. rewrite (bool_decide_false _ Hc). cbn [negb andb].
  handler_cases; auto with pgpulse;
    match goal with H : us_Create ?n ?us ?a ?h ?r = _ |- _ =>
      pose proof (nnp_create n us a h r) as Hn; rewrite H in Hn; by apply Hn end.
Qed.

Lemma nnp_update_user (now : Time) (s : AuthServer) (c : Claims) (id : string)
    (b : result updateUserRequest) :
  c_Role c <> RoleSuperAdmin ->
  no_new_privilege (as_users s) (as_users (handleUpdateUser now s (Some c) id b).1).
Proof.
  intros Hc. unfold handleUpdateUser. rewrite (bool_decide_false _ Hc). cbn [negb andb].
  destruct (ParseInt id) as [i [e|]]; [apply nnp_refl|]. destruct b as [q|]; [|apply nnp_refl].
  destruct (_ && _); [apply nnp_refl|].
  destruct q as [[role|] act]; cbn [ur_Role ur_Active].
  - destruct (negb (ValidRole role)); [apply nnp_refl|].
    destruct (is_privileged role) eqn:Hp; [apply nnp_refl|].
    pose proof (nnp_update now (as_users s) i (mkUpdateFields (Some role) act)) as Hn.
    destruct (us_Update _ _ _ _) as [us [e|]]; apply Hn; intros ? [= <-]; done.
  - pose proof (nnp_update now (as_users s) i (mkUpdateFields None act)) as Hn.
    destruct (us_Update _ _ _ _) as [us [e|]]; apply Hn; done.
Qed.

Lemma nnp_delete_user (s : AuthServer) (c : option Claims) (id : string) :
  no_new_privilege (as_users s) (as_users (handleDeleteUser s c id).1).
Proof.
  unfold handleDeleteUser. handler_cases; auto with pgpulse;
    match goal with H : us_Delete ?us ?i = _ |- _ =>
      pose proof (nnp_delete us i) as Hn; rewrite H in Hn; by apply Hn end.
Qed.

Lemma nnp_passwords (now salt : Z) (s : AuthServer) (c : option Claims) (id : string)
    (b : result string) (b' : result changePasswordRequest) :
  no_new_privilege (as_users s) (as_users (handleAdminResetPassword now salt s id b).1) /\
  no_new_privilege (as_users s) (as_users (handleChangePassword now salt s c b').1).
Proof.
  unfold handleAdminResetPassword, handleChangePassword.
  split; handler_cases; auto with pgpulse; apply nnp_upd; by left.
Qed.

Lemma nnp_guarded (perm : Permission) (c : Claims) (s : AuthServer)
    (next : AuthServer * response authBody) :
  no_new_privilege (as_users s) (as_users next.1) ->
  no_new_privilege (as_users s) (as_users (guarded perm c s next).1).
Proof. intros H. unfold guarded. destruct (RequirePermission _ _); [apply nnp_refl|done]. Qed.

(** No request to the authentication endpoints gives anyone a privileged role unless a super
    administrator makes it: if the token of the request is not a super administrator's, then
    every user who is super_admin or roles_admin afterwards had that role before. *)
Theorem privileged_roles_not_granted (now salt : Z) (s : AuthServer) (r : Request) (q : authRequest) :
  (forall c, RequireAuth (as_jwt s) now r = inl c -> c_Role c <> RoleSuperAdmin) ->
  no_new_privilege (as_users s) (as_users (serve now salt s r q).1).
Proof.
  intros Hc. unfold serve.
  destruct q as [b|b| |b| |id b|id|id b|b]; [| apply nnp_refl | ..].
  { unfold rateLimitMiddleware. destruct (as_limiter s) as [rl|]; [|apply nnp_login].
    destruct (Allow _ _ _) as [rl' []]; [apply (nnp_login now (with_limiter s (Some rl')))|].
    destruct (RetryAfter _ _ _ _) as [rl'' []]; apply nnp_refl. }
  all: destruct (RequireAuth _ _ _) as [c|e]; [|apply nnp_refl]; specialize (Hc c eq_refl).
  all: try apply nnp_guarded; try apply nnp_refl.
  - by apply nnp_register.
  - by apply nnp_update_user.
  - apply nnp_delete_user.
  - apply (nnp_passwords now salt s None id b (Err "")).
  - apply (nnp_passwords now salt s (Some c) "" (Err "") b).
Qed.

End privileges.

(** ** Deleting keeps an active super administrator *)

Definition is_active_super (u : User) : bool := bool_decide (u_Role u = RoleSuperAdmin) && u_Active u.

Lemma count_active_super (us : PGUserStore) :
  CountActiveByRole us RoleSuperAdmin = len (List.filter is_active_super (user_rows us)).
Proof. done. Qed.

Lemma user_rows_perm_delete (us : PGUserStore) (id : Z) (u : User) (n : Z) :
  us_users us !! id = Some u ->
  user_rows us ≡ₚ u :: user_rows (mkUserStore (delete id (us_users us)) n).
Proof.
  intros H. unfold user_rows. cbn [us_users].
  rewrite <- (map_to_list_delete (us_users us) id u H). done.
Qed.

(** A deletion, whoever asks, leaves at least one active super administrator if there was one. *)
Lemma delete_keeps_super_admin (s : AuthServer) (c : option Claims) (id : string) :
  1 <= CountActiveByRole (as_users s) RoleSuperAdmin ->
  1 <= CountActiveByRole (as_users (handleDeleteUser s c id).1) RoleSuperAdmin.
Proof.
  intros H. unfold handleDeleteUser. destruct (ParseInt id) as [i [e|]]; [done|].
  destruct (match c with Some _ => _ | None => false end); [done|].
  unfold GetByID, us_Delete. destruct (us_users (as_users s) !! i) as [u|] eqn:Hu; [|done].
  destruct (_ && _) eqn:Hg; [done|]. cbn [fst as_users with_users].
  set (us' := mkUserStore _ _).
  pose proof (filter_perm is_active_super _ _
                (user_rows_perm_delete _ _ _ (us_next (as_users s)) Hu)) as Hp.
  apply Permutation_length in Hp. fold us' in Hp. rewrite count_active_super in *. unfold len in *.
  cbn [List.filter] in Hp. unfold is_active_super at 2 in Hp.
  destruct (bool_decide (u_Role u = RoleSuperAdmin)); cbn [andb] in *; [|lia].
  zb. destruct (u_Active u); cbn in Hp; lia.
Qed.

(** ** What is not protected *)

Definition unique_username (us : PGUserStore) (id : Z) (name : string) : Prop :=
  forall id' u', us_users us !! id' = Some u' -> u_Username u' = name -> id' = id.

Lemma GetByUsername_unique (us : PGUserStore) (id : Z) (u : User) :
  us_users us !! id = Some u -> unique_username us id (u_Username u) ->
  GetByUsername us (u_Username u) = Ok u.
Proof.
  intros Hu Hn. unfold GetByUsername.
  assert (forall x, x ∈ List.filter (fun x => bool_decide (u_Username x = u_Username u)) (user_rows us)
            <-> x = u) as Hx.
  { intros x. rewrite elem_of_filter_bool, bool_decide_eq_true. unfold user_rows.
    rewrite list_elem_of_fmap. split.
    - intros (Hx & [i y] & -> & Hy). apply elem_of_map_to_list in Hy. cbn in *.
      assert (i = id) as -> by (by eapply Hn). congruence.
    - intros ->. split; [done|]. exists (id, u). by rewrite elem_of_map_to_list. }
  destruct (List.filter _ _) as [|x l].
  - exfalso. eapply not_elem_of_nil. by apply Hx.
  - by rewrite (proj1 (Hx x)) by left.
Qed.

Section takeover.
Context {CR : Crypto}.

(** A roles administrator can become the super administrator: with a token of role roles_admin
    it resets the password of an active super administrator's account, which the permission check
    allows, and the login with the new password returns that account's tokens and role. *)
Theorem roles_admin_takes_over (now salt : Z) (s : AuthServer) (r : Request) (c : Claims) (u : User)
    (id password h : string) :
  as_mode s = AuthEnabled -> RequireAuth (as_jwt s) now r = inl c -> c_Role c = RoleRolesAdmin ->
  ParseInt id = (u_ID u, None) -> us_users (as_users s) !! u_ID u = Some u ->
  u_Role u = RoleSuperAdmin -> u_Active u = true -> u_Username u <> "" ->
  unique_username (as_users s) (u_ID u) (u_Username u) ->
  (8 <= String.length password)%nat ->
  bcrypt_hash salt password (as_bcryptCost s) = Ok h -> bcrypt_check password h = true ->
  (forall sec cl, is_Some (match jwt_sign sec cl with Ok t => Some t | Err _ => None end)) ->
  exists access refresh ttl,
    (handleLogin now (serve now salt s r (QResetPassword id (Ok password))).1 r
       (Ok (mkLoginRequest (u_Username u) password))).2
    = writeJSON StatusOK (BLogin access refresh ttl
        (mkUserResponse (u_ID u) (u_Username u) RoleSuperAdmin true
           (PermissionsForRole RoleSuperAdmin))).
Proof.
  intros Hmode Hauth Hrole Hid Hu Hsup Hact Hname Huniq Hlen Hhash Hcheck Hsign.
  unfold serve, guarded, RequirePermission. rewrite Hauth, Hrole. cbn [negb HasPermission].
  replace (HasPermission RoleRolesAdmin PermUserManagement) with true by (by vm_compute).
  cbn [negb]. unfold handleAdminResetPassword. rewrite Hid, (proj2 (Nat.ltb_ge _ _) Hlen).
  unfold GetByID. rewrite Hu. unfold HashPassword. rewrite Hhash. cbn [fst].
  set (u1 := set_hash now h u).
  assert (us_users (UpdatePassword now (as_users s) (u_ID u) h) !! u_ID u = Some u1) as Hu1.
  { unfold UpdatePassword, upd_user. cbn [us_users]. by rewrite lookup_alter_eq, Hu. }
  assert (password <> "") as Hpw by (intros ->; cbn in Hlen; lia).
  unfold handleLogin, with_users. cbn [as_mode as_users as_jwt lr_Username lr_Password].
  rewrite Hmode, !bool_decide_false by done. cbn [orb].
  change (u_Username u) with (u_Username u1) at 1. rewrite (GetByUsername_unique _ (u_ID u) u1 Hu1).
  2: { intros i x Hx Hn. unfold UpdatePassword, upd_user in Hx. cbn [us_users] in Hx.
       rewrite lookup_alter in Hx. case_decide as Hi; [by subst|]. by apply (Huniq i x). }
  unfold CheckPassword. cbn [u_PasswordHash u1 set_hash]. rewrite Hcheck. cbn [u_Active set_hash u1].
  rewrite Hact. cbn [negb]. unfold GenerateTokenPair, generateToken.
  repeat match goal with |- context [jwt_sign ?a ?b] =>
    destruct (Hsign a b) as [? ?]; destruct (jwt_sign a b) end; try done.
  cbn. unfold user_response, u1, set_hash. cbn. rewrite Hsup, Hact. by eexists _, _, _.
Qed.

(** With the default configuration, in which the refresh secret is the access secret, an access
    token works as a refresh token: whatever token the middleware accepts, the refresh endpoint
    answers with a fresh access token for the same active user, because no check of the token's
    type is made there. *)
Theorem access_token_renews_itself (now : Time) (s : AuthServer) (r : Request) (c : Claims) (u : User)
    (secret token : string) (accessTTL refreshTTL : Duration) :
  as_jwt s = serverJWT secret "" accessTTL refreshTTL ->
  rq_Authorization r = "Bearer " +:+ token ->
  RequireAuth (as_jwt s) now r = inl c ->
  us_users (as_users s) !! c_UserID c = Some u -> u_Active u = true ->
  (forall sec cl, is_Some (match jwt_sign sec cl with Ok t => Some t | Err _ => None end)) ->
  exists fresh ttl, handleRefresh now s (Ok token) = writeJSON StatusOK (BAccess fresh ttl) /\
    generateToken (as_jwt s) u TokenAccess now accessTTL = Ok fresh.
Proof.
  intros Hjwt Hheader Hauth Hu Hact Hsign. unfold RequireAuth in Hauth. rewrite Hheader in Hauth.
  change (SplitN space_char 2 ("Bearer " +:+ token)) with ["Bearer"; token] in Hauth.
  rewrite bool_decide_false in Hauth by done.
  change (equal_fold_ascii "Bearer" "bearer") with true in Hauth.
  unfold ValidateToken in Hauth. rewrite Hjwt in Hauth. cbn in Hauth.
  unfold handleRefresh, ValidateRefreshToken, GetByID. rewrite Hjwt. cbn.
  change (if bool_decide ("" = "") then secret else "") with secret.
  destruct (jwt_parse now secret token) as [c'|e]; [|done].
  destruct (bool_decide (c_Type c' = TokenAccess)); [|done]. injection Hauth as ->.
  rewrite Hu, Hact. cbn. unfold GenerateAccessToken, generateToken. cbn.
  match goal with |- context [jwt_sign ?a ?b] =>
    destruct (Hsign a b) as [? ?]; destruct (jwt_sign a b) end; [|done].
  by eexists _, _.
Qed.

End takeover.

(** A signature that lists secret, type and role; parsing takes them apart. *)
Definition dot : Ascii.ascii := Eval compute in Ascii.ascii_of_N 46.

Definition demo_parse (now : Time) (secret token : string) : result Claims :=
  match SplitN dot 3 token with
  | [k; ty; role] =>
      if bool_decide (k = secret) then
        Ok (mkClaims "pgpulse" 0 Hour (if bool_decide (role = RoleSuperAdmin) then 1 else 2) "" role ty
              (PermissionsForRole role))
      else Err "signature is invalid"
  | _ => Err "token is malformed"
  end.

#[local] Instance demoCrypto : Crypto := {|
  jwt_sign := fun secret c => Ok (secret +:+ "." +:+ c_Type c +:+ "." +:+ c_Role c);
  jwt_parse := demo_parse;
  bcrypt_hash := fun _ p _ => Ok ("$" +:+ p);
  bcrypt_check := fun p h => bool_decide (h = "$" +:+ p)
|}.

Definition root_user : User := mkUser 1 "root" "$old" RoleSuperAdmin true None 0 0.
Definition ops_user : User := mkUser 2 "ops" "$ops" RoleRolesAdmin true None 0 0.
Definition demo_server : AuthServer :=
  mkAuthServer (mkUserStore {[1 := root_user; 2 := ops_user]} 3) None
    (serverJWT "k" "" (15 * Minute) (24 * Hour)) AuthEnabled 10.
Definition demo_request : Request := mkRequest "" "" "10.0.0.9:4000" (Ok "10.0.0.9") "Bearer k.access.roles_admin".
Definition ops_claims : Claims :=
  mkClaims "pgpulse" 0 Hour 2 "" RoleRolesAdmin TokenAccess (PermissionsForRole RoleRolesAdmin).

Lemma demo_unique : unique_username (as_users demo_server) 1 "root".
Proof.
  intros id' u' H Hn. cbn in H. apply lookup_insert_Some in H as [[<- <-]|[Hne H]]; [done|].
  apply lookup_singleton_Some in H as [<- <-]. done.
Qed.

Lemma demo_auth : RequireAuth (as_jwt demo_server) 0 demo_request = inl ops_claims.
Proof. vm_compute. reflexivity. Qed.

Lemma privileged_roles_not_granted_witness :
  no_new_privilege (as_users demo_server)
    (as_users (serve 0 0 demo_server demo_request
                 (QUpdateUser "2" (Ok (mkUpdateUserRequest (Some RoleSuperAdmin) None)))).1).
Proof.
  apply privileged_roles_not_granted. intros c. rewrite demo_auth. intros [= <-]. done.
Defined.

Lemma roles_admin_takes_over_witness : exists access refresh ttl,
  (handleLogin 0 (serve 0 0 demo_server demo_request (QResetPassword "1" (Ok "hunter2hunter2"))).1
     demo_request (Ok (mkLoginRequest "root" "hunter2hunter2"))).2
  = writeJSON StatusOK (BLogin access refresh ttl
      (mkUserResponse 1 "root" RoleSuperAdmin true (PermissionsForRole RoleSuperAdmin))).
Proof.
  apply (roles_admin_takes_over 0 0 demo_server demo_request ops_claims root_user "1" "hunter2hunter2"
           "$hunter2hunter2"); try reflexivity; try done.
  - apply demo_unique.
  - cbn. lia.
Defined.

Lemma access_token_renews_itself_witness : exists fresh ttl,
  handleRefresh 0 demo_server (Ok "k.access.roles_admin") = writeJSON StatusOK (BAccess fresh ttl) /\
  generateToken (as_jwt demo_server) ops_user TokenAccess 0 (15 * Minute) = Ok fresh.
Proof.
  apply (access_token_renews_itself 0 demo_server demo_request ops_claims ops_user "k"
           "k.access.roles_admin" (15 * Minute) (24 * Hour)); try reflexivity; done.
Defined.

(** The last active super administrator can be demoted by a roles administrator. *)
Example last_super_admin_demoted :
  CountActiveByRole (as_users demo_server) RoleSuperAdmin = 1 /\
  CountActiveByRole (as_users (serve 0 0 demo_server demo_request
    (QUpdateUser "1" (Ok (mkUpdateUserRequest (Some RoleAppAdmin) None)))).1) RoleSuperAdmin = 0.
Proof. vm_compute. done. Qed.
