(* ===== verification/Playbook.v ===== *)
(** * Playbooks: data, interpretation of results, branching, execution of one step

    Models internal/playbook/types.go, interpreter.go and executor.go. A column value is a
    dynamically typed value [any]; a value of a driver type without a Float64 method is [VOther]
    with the text that fmt prints for it. The shortest decimal form of a float is a parameter of
    the message templates. The database connection of the executor is a parameter that is sent
    commands; the commands sent are recorded. *)
From stdpp Require Import pretty.
From S2P Require Import Prelude Float64 GoText.

Local Open Scope Z_scope.

(** ** types.go *)

Inductive any :=
  | VNil
  | VFloat64 (f : float64)
  | VFloat32 (f : float64)
  | VInt (n : Z)
  | VInt16 (n : Z)
  | VInt32 (n : Z)
  | VInt64 (n : Z)
  | VString (s : string)
  | VBool (b : bool)
  | VNumber (f : float64) (text : string)
  | VOther (text : string).

Record TriggerBindings := mkBindings {
  tb_Hooks : list string;
  tb_RootCauses : list string;
  tb_Metrics : list string;
  tb_AdviserRules : list string
}.

Record InterpretationRule := mkInterpretationRule {
  ir_Column : string;
  ir_Operator : string;
  ir_Value : any;
  ir_Verdict : string;
  ir_Message : string;
  ir_Scope : string
}.

Record RowCountRule := mkRowCountRule {
  rc_Operator : string;
  rc_Value : any;
  rc_Verdict : string;
  rc_Message : string
}.

Record InterpretationSpec := mkInterpretationSpec {
  is_Rules : list InterpretationRule;
  is_RowCountRules : list RowCountRule;
  is_DefaultVerdict : string;
  is_DefaultMessage : string
}.

Record BranchCondition := mkBranchCondition {
  bc_Column : string;
  bc_Operator : string;
  bc_Value : any;
  bc_Verdict : string
}.

Record BranchRule := mkBranchRule {
  br_Condition : BranchCondition;
  br_GotoStep : Z;
  br_Reason : string
}.

Definition TierDiagnostic : string := "diagnostic".
Definition TierRemediate : string := "remediate".
Definition TierDangerous : string := "dangerous".
Definition TierExternal : string := "external".

Record Step := mkStep {
  st_ID : Z;
  st_PlaybookID : Z;
  st_StepOrder : Z;
  st_Name : string;
  st_Description : string;
  st_SQLTemplate : string;
  st_SafetyTier : string;
  st_TimeoutSeconds : Z;
  st_ResultInterpretation : InterpretationSpec;
  st_BranchRules : list BranchRule;
  st_NextStepDefault : option Z;
  st_ManualInstructions : string;
  st_EscalationContact : string;
  st_CreatedAt : Time
}.

Record Playbook := mkPlaybook {
  pb_ID : Z;
  pb_Slug : string;
  pb_Name : string;
  pb_Description : string;
  pb_Version : Z;
  pb_Status : string;
  pb_Category : string;
  pb_TriggerBindings : TriggerBindings;
  pb_EstimatedDurationMin : option Z;
  pb_RequiresPermission : string;
  pb_Author : string;
  pb_IsBuiltin : bool;
  pb_Steps : list Step;
  pb_CreatedAt : Time;
  pb_UpdatedAt : Time
}.

(** [json.RawMessage] of a result is kept as the result that was encoded. *)
Record ExecutionResult := mkExecutionResult {
  er_Columns : list string;
  er_Rows : list (list any);
  er_RowCount : Z;
  er_TotalRows : Z;
  er_Truncated : bool;
  er_Duration : Z
}.

Record RunStep := mkRunStep {
  rs_ID : Z;
  rs_RunID : Z;
  rs_StepOrder : Z;
  rs_Status : string;
  rs_SQLExecuted : string;
  rs_ResultJSON : option ExecutionResult;
  rs_ResultVerdict : string;
  rs_ResultMessage : string;
  rs_Error : string;
  rs_ExecutedAt : option Time;
  rs_DurationMs : Z;
  rs_ConfirmedBy : string
}.

Record Run := mkRun {
  run_ID : Z;
  run_PlaybookID : Z;
  run_PlaybookVersion : Z;
  run_PlaybookName : string;
  run_InstanceID : string;
  run_StartedBy : string;
  run_Status : string;
  run_CurrentStepOrder : Z;
  run_TriggerSource : string;
  run_TriggerID : string;
  run_Steps : list RunStep;
  run_StartedAt : Time;
  run_UpdatedAt : Time;
  run_CompletedAt : option Time;
  run_FeedbackUseful : option bool;
  run_FeedbackResolved : option bool;
  run_FeedbackNotes : string
}.

Record PlaybookListOpts := mkPlaybookListOpts {
  pl_Status : string; pl_Category : string; pl_Search : string; pl_Limit : Z; pl_Offset : Z }.
Record RunListOpts := mkRunListOpts { ro_Status : string; ro_Limit : Z; ro_Offset : Z }.

Record PlaybookConfig := mkPlaybookConfig {
  pc_Enabled : bool;
  pc_DefaultStatementTimeout : Z;
  pc_DefaultLockTimeout : Z;
  pc_ResultRowLimit : Z;
  pc_RunRetentionDays : Z;
  pc_ImplicitFeedbackWindow : Duration
}.

(** ** interpreter.go *)

(** fmt's shortest form of a float64 and a float32. *)
Class FloatText := { float64_text : float64 -> string; float32_text : float64 -> string }.

Section interpreter.
Context {FT : FloatText}.

(** [fmt.Sprintf("%v", v)]. *)
Definition Sprint (v : any) : string :=
  match v with
  | VNil => "<nil>"
  | VFloat64 f => float64_text f
  | VFloat32 f => float32_text f
  | VInt n | VInt16 n | VInt32 n | VInt64 n => pretty n
  | VString s => s
  | VBool b => if b then "true" else "false"
  | VNumber _ t | VOther t => t
  end.

Definition toFloat64 (v : any) : float64 :=
  match v with
  | VFloat64 f => f
  | VFloat32 f => f
  | VInt n => f_of_Z n
  | VInt32 n => f_of_Z n
  | VInt64 n => f_of_Z n
  | VInt16 n => f_of_Z n
  | VString s => ParseFloat s
  | VNumber f _ => f
  | _ => ParseFloat (Sprint v)
  end.

Definition evaluateNumeric (actual : float64) (operator : string) (expected : any) : bool :=
  let exp := toFloat64 expected in
  if bool_decide (operator = ">") then fgt actual exp
  else if bool_decide (operator = "<") then flt actual exp
  else if bool_decide (operator = ">=") then fge actual exp
  else if bool_decide (operator = "<=") then fle actual exp
  else if bool_decide (operator = "==") then feq actual exp
  else if bool_decide (operator = "!=") then fne actual exp
  else false.

Definition is_nil (v : any) : bool := match v with VNil => true | _ => false end.

Definition evaluateCondition (actual : any) (operator : string) (expected : any) : bool :=
  if bool_decide (operator = "is_null") then is_nil actual
  else if bool_decide (operator = "is_not_null") then negb (is_nil actual)
  else if is_nil actual then false
  else evaluateNumeric (toFloat64 actual) operator expected.

(** Later columns of the same name overwrite earlier ones; a short row leaves columns out. *)
Definition zipColumnsAndRow (columns : list string) (row : list any) : gmap string any :=
  foldl (fun m cv => <[fst cv := snd cv]> m) ∅ (zip columns row).

Definition open_brace : Ascii.ascii := Eval compute in Ascii.ascii_of_N 123.
Definition close_brace : Ascii.ascii := Eval compute in Ascii.ascii_of_N 125.

Fixpoint span_word (s : string) : string * string :=
  match s with
  | EmptyString => (EmptyString, EmptyString)
  | String c s' => if is_word c then let (w, r) := span_word s' in (String c w, r)
                   else (EmptyString, s)
  end.

(** The match of [\{\{(\w+)\}\}] at the start of [s], and what follows it. *)
Definition match_key (s : string) : option (string * string) :=
  match strip_prefix "{{" s with
  | None => None
  | Some r =>
      let (w, r) := span_word r in
      if bool_decide (w = "") then None
      else match strip_prefix "}}" r with
           | Some r => Some (w, r)
           | None => None
           end
  end.

(** Leftmost non-overlapping matches; each round consumes at least a byte, so the length of the
    template is enough fuel. *)
Fixpoint expand_fuel (fuel : nat) (tpl : string) (values : gmap string any) : string :=
  match fuel with
  | O => tpl
  | S n =>
      match match_key tpl with
      | Some (key, rest) =>
          match values !! key with
          | Some val => Sprint val
          | None => "{{" +:+ key +:+ "}}"
          end +:+ expand_fuel n rest values
      | None => match tpl with
                | EmptyString => EmptyString
                | String c tpl' => String c (expand_fuel n tpl' values)
                end
      end
  end.

Definition expandTemplate (tpl : string) (values : gmap string any) : string :=
  expand_fuel (String.length tpl) tpl values.

(** The first rule whose condition holds. *)
Fixpoint first_row_count (rules : list RowCountRule) (rowCount : Z) : option RowCountRule :=
  match rules with
  | [] => None
  | r :: rules' =>
      if evaluateNumeric (f_of_Z rowCount) (rc_Operator r) (rc_Value r) then Some r
      else first_row_count rules' rowCount
  end.

Fixpoint first_rule (rules : list InterpretationRule) (rowMap : gmap string any)
    : option InterpretationRule :=
  match rules with
  | [] => None
  | r :: rules' =>
      match rowMap !! ir_Column r with
      | None => first_rule rules' rowMap
      | Some val => if evaluateCondition val (ir_Operator r) (ir_Value r) then Some r
                    else first_rule rules' rowMap
      end
  end.

Definition Interpret (spec : InterpretationSpec) (columns : list string) (rows : list (list any))
    (rowCount : Z) : string * string :=
  match first_row_count (is_RowCountRules spec) rowCount with
  | Some r => (rc_Verdict r, expandTemplate (rc_Message r) {["row_count" := VInt rowCount]})
  | None =>
      let matched :=
        match rows with
        | row :: _ =>
            let rowMap := zipColumnsAndRow columns row in
            match first_rule (is_Rules spec) rowMap with
            | Some r => Some (ir_Verdict r, expandTemplate (ir_Message r) rowMap)
            | None => None
            end
        | [] => None
        end in
      match matched with
      | Some vm => vm
      | None => (is_DefaultVerdict spec, is_DefaultMessage spec)
      end
  end.

(** [rowMap] is nil when there is no row. *)
Definition matchBranchCondition (cond : BranchCondition) (verdict : string)
    (rowMap : option (gmap string any)) : bool :=
  if negb (bool_decide (bc_Verdict cond = "")) then bool_decide (bc_Verdict cond = verdict)
  else if bool_decide (bc_Column cond = "") then false
  else match rowMap with
       | None => false
       | Some m =>
           match m !! bc_Column cond with
           | None => false
           | Some val => evaluateCondition val (bc_Operator cond) (bc_Value cond)
           end
       end.

Fixpoint first_branch (rules : list BranchRule) (verdict : string)
    (rowMap : option (gmap string any)) : option Z :=
  match rules with
  | [] => None
  | br :: rules' =>
      if matchBranchCondition (br_Condition br) verdict rowMap then Some (br_GotoStep br)
      else first_branch rules' verdict rowMap
  end.

(** 0 means that the playbook is complete. *)
Definition EvaluateBranch (step : Step) (verdict : string) (columns : list string)
    (rows : list (list any)) : Z :=
  let rowMap := match rows with row :: _ => Some (zipColumnsAndRow columns row) | [] => None end in
  match first_branch (st_BranchRules step) verdict rowMap with
  | Some goto => goto
  | None => match st_NextStepDefault step with Some n => n | None => 0 end
  end.

End interpreter.

(** ** executor.go *)

(** A monitored instance as seen through a connection: what [ConnFor], [Begin] and [Exec] answer,
    and for a query its columns, its rows in order, each with the outcome of [Values], and the
    error that ends the iteration; [milliseconds] is the measured time. *)
Class Instances := {
  ConnFor : string -> option error;
  conn_Begin : string -> option error;
  tx_Exec : string -> string -> option error;
  tx_Query : string -> string -> result (list string * list (result (list any)) * option error);
  milliseconds : string -> string -> Z
}.

(** What the executor sends to an instance. *)
Inductive command :=
  | CBegin
  | CExec (sql : string)
  | CQuery (sql : string)
  | CRollback
  | CClose.

Record Executor := mkExecutor { ex_rowLimit : Z }.

Definition NewExecutor (cfg : PlaybookConfig) : Executor :=
  mkExecutor (if pc_ResultRowLimit cfg =? 0 then 100 else pc_ResultRowLimit cfg).

(** The statement checked by the multi-statement guard. *)
Definition trimmedSQL (sql : string) : string := TrimRight semicolon (TrimSpace sql).

Definition sql_timeout (timeout : Z) : string :=
  "SET LOCAL statement_timeout = '" +:+ pretty timeout +:+ "s'".
Definition sql_lock_timeout : string := "SET LOCAL lock_timeout = '5s'".
Definition sql_read_only : string := "SET LOCAL default_transaction_read_only = ON".

(** The rows kept: of the first [limit], those that scan. *)
Fixpoint collect_rows (limit seen : Z) (rows : list (result (list any))) : list (list any) :=
  match rows with
  | [] => []
  | r :: rows' =>
      let seen := seen + 1 in
      let rest := collect_rows limit seen rows' in
      if seen <=? limit then match r with Ok vals => vals :: rest | Err _ => rest end
      else rest
  end.

Section executor.
Context {I : Instances}.

(** The settings sent before the query, in order. *)
Definition settings_of (step : Step) : list (string * string) :=
  let timeout := if st_TimeoutSeconds step =? 0 then 5 else st_TimeoutSeconds step in
  [("set statement_timeout: ", sql_timeout timeout); ("set lock_timeout: ", sql_lock_timeout)]
  ++ (if bool_decide (st_SafetyTier step = TierDiagnostic)
      then [("set read_only: ", sql_read_only)] else []).

(** Settings are sent until one fails. *)
Fixpoint send_settings (inst : string) (l : list (string * string)) : list command * option error :=
  match l with
  | [] => ([], None)
  | (what, sql) :: l' =>
      match tx_Exec inst sql with
      | Some e => ([CExec sql], Some (what +:+ e))
      | None => let (cs, e) := send_settings inst l' in (CExec sql :: cs, e)
      end
  end.

(** [ExecuteStep] with the commands it sends; the deferred calls roll back and close. *)
Definition ExecuteStep (e : Executor) (instanceID : string) (step : Step)
    : list command * result ExecutionResult :=
  if bool_decide (st_SafetyTier step = TierExternal) then
    ([], Err "external steps cannot be executed — manual action required")
  else if Contains (trimmedSQL (st_SQLTemplate step)) semicolon then
    ([], Err "multi-statement SQL is forbidden in playbook steps")
  else match ConnFor instanceID with
  | Some err => ([], Err ("cannot connect to instance " +:+ instanceID +:+ ": " +:+ err))
  | None =>
  match conn_Begin instanceID with
  | Some err => ([CBegin; CClose], Err ("begin transaction: " +:+ err))
  | None =>
  let (sent, failed) := send_settings instanceID (settings_of step) in
  match failed with
  | Some err => (CBegin :: sent ++ [CRollback; CClose], Err err)
  | None =>
  let sent := CBegin :: sent ++ [CQuery (st_SQLTemplate step); CRollback; CClose] in
  match tx_Query instanceID (st_SQLTemplate step) with
  | Err err => (sent, Err ("step execution failed: " +:+ err))
  | Ok (columns, rows, failed) =>
  match failed with
  | Some err => (sent, Err ("rows iteration: " +:+ err))
  | None =>
      let resultRows := collect_rows (ex_rowLimit e) 0 rows in
      let totalRows := len rows in
      (sent, Ok (mkExecutionResult columns resultRows (len resultRows) totalRows
                   (ex_rowLimit e <? totalRows) (milliseconds instanceID (st_SQLTemplate step))))
  end
  end
  end
  end
  end.

End executor.
