(* ===== verification/PlaybookSeed.v ===== *)
(** * The built-in playbooks

    Models internal/playbook/seed_*.go, one definition per seed function with every field, and
    [BuiltinPlaybooks] of seed.go. Fields that the Go literals leave out have their zero values. *)
From S2P Require Import Prelude Float64 GoText Playbook.

Local Open Scope Z_scope.

Definition walArchiveFailurePlaybook : Playbook := {|
  pb_ID := 0;
  pb_Slug := "wal-archive-failure";
  pb_Name := "WAL Archive Failure";
  pb_Description := "Diagnoses and helps resolve WAL archiving failures that can lead to disk exhaustion and database shutdown.";
  pb_Version := 1; pb_Status := "stable"; pb_Category := "storage";
  pb_TriggerBindings := mkBindings ["remediation.wal_archive"]
    ["root_cause.wal_accumulation"]
    ["pg.server.archive_fail_count"] [];
  pb_EstimatedDurationMin := Some 10;
  pb_RequiresPermission := "view_all"; pb_Author := "pgpulse"; pb_IsBuiltin := true;
  pb_Steps := [{|
      st_ID := 0; st_PlaybookID := 0; st_StepOrder := 1;
      st_Name := "Check archive status";
      st_Description := "Query pg_stat_archiver to check for archiving failures.";
      st_SQLTemplate := "SELECT archived_count, failed_count, last_archived_wal, last_failed_wal, last_archived_time, last_failed_time FROM pg_stat_archiver";
      st_SafetyTier := TierDiagnostic; st_TimeoutSeconds := 5;
      st_ResultInterpretation := mkInterpretationSpec [
          mkInterpretationRule "failed_count" ">" (VInt 0) "red"
            "{{failed_count}} archive failures detected. Last failure: {{last_failed_time}}" "";
          mkInterpretationRule "failed_count" "==" (VInt 0) "green"
            "No archive failures — archiving is healthy" ""] [] "yellow"
          "Unable to determine archive status";
      st_BranchRules := [
        mkBranchRule (mkBranchCondition "failed_count" ">" (VInt 0) "") 2
            "Failures detected — check WAL accumulation";
        mkBranchRule (mkBranchCondition "" "" VNil "green") 5
            "Archiving healthy — verify no residual issues"];
      st_NextStepDefault := Some 2;
      st_ManualInstructions := "";
      st_EscalationContact := ""; st_CreatedAt := zero_time |};
    {|
      st_ID := 0; st_PlaybookID := 0; st_StepOrder := 2;
      st_Name := "Check WAL file accumulation";
      st_Description := "Count WAL files in pg_wal directory. Normal is 10-50 files. Above 100 indicates a backlog.";
      st_SQLTemplate := ("SELECT count(" +:+ "*) AS wal_file_count, pg_size_pretty(sum(size)) AS total_wal_size FROM pg_ls_waldir()");
      st_SafetyTier := TierDiagnostic; st_TimeoutSeconds := 10;
      st_ResultInterpretation := mkInterpretationSpec [
          mkInterpretationRule "wal_file_count" ">" (VInt 500) "red"
            "CRITICAL: {{wal_file_count}} WAL files accumulated ({{total_wal_size}}). Disk exhaustion imminent!" "";
          mkInterpretationRule "wal_file_count" ">" (VInt 100) "yellow"
            "WARNING: {{wal_file_count}} WAL files ({{total_wal_size}}). Archiving is falling behind." "";
          mkInterpretationRule "wal_file_count" "<=" (VInt 100) "green"
            "WAL file count normal: {{wal_file_count}} files ({{total_wal_size}})" ""] [] "yellow"
          "";
      st_BranchRules := [
        mkBranchRule (mkBranchCondition "wal_file_count" ">" (VInt 500) "") 4
            "Emergency — escalate immediately"];
      st_NextStepDefault := Some 3;
      st_ManualInstructions := "";
      st_EscalationContact := ""; st_CreatedAt := zero_time |};
    {|
      st_ID := 0; st_PlaybookID := 0; st_StepOrder := 3;
      st_Name := "Check archive_command configuration";
      st_Description := "Verify the archive_command setting to identify the archive destination.";
      st_SQLTemplate := ("SELECT count(" +:+ "*) AS setting_count, max(CASE WHEN name='archive_mode' THEN setting END) AS archive_mode, max(CASE WHEN name='archive_command' THEN setting END) AS archive_command FROM pg_settings WHERE name IN ('archive_mode', 'archive_command', 'archive_library', 'archive_timeout')");
      st_SafetyTier := TierDiagnostic; st_TimeoutSeconds := 5;
      st_ResultInterpretation := mkInterpretationSpec [] [] "yellow"
          "Review the archive_command output. The destination path/host may be unreachable or full.";
      st_BranchRules := [];
      st_NextStepDefault := Some 4;
      st_ManualInstructions := "";
      st_EscalationContact := ""; st_CreatedAt := zero_time |};
    {|
      st_ID := 0; st_PlaybookID := 0; st_StepOrder := 4;
      st_Name := "Emergency: Contact infrastructure team";
      st_Description := "WAL accumulation indicates the archive target is unavailable. This is typically a storage/network issue outside PostgreSQL.";
      st_SQLTemplate := "";
      st_SafetyTier := TierExternal; st_TimeoutSeconds := 0;
      st_ResultInterpretation := mkInterpretationSpec [] [] ""
          "";
      st_BranchRules := [];
      st_NextStepDefault := Some 5;
      st_ManualInstructions := ("1. Check the archive target server/storage for disk space." +:+ newline +:+ "2. Verify network connectivity to the archive destination." +:+ newline +:+ "3. If using pg_basebackup or barman, check its logs." +:+ newline +:+ "4. If disk is full on the archive target, free space immediately." +:+ newline +:+ "5. After fixing, verify: SELECT * FROM pg_stat_archiver; -- failed_count should stop increasing.");
      st_EscalationContact := "Infrastructure team / Storage admin"; st_CreatedAt := zero_time |};
    {|
      st_ID := 0; st_PlaybookID := 0; st_StepOrder := 5;
      st_Name := "Verify recovery";
      st_Description := "After the archive target is restored, verify archiving has resumed.";
      st_SQLTemplate := "SELECT archived_count, failed_count, last_archived_wal, last_archived_time, NOW() - last_archived_time AS time_since_last_archive FROM pg_stat_archiver";
      st_SafetyTier := TierDiagnostic; st_TimeoutSeconds := 5;
      st_ResultInterpretation := mkInterpretationSpec [
          mkInterpretationRule "failed_count" "==" (VInt 0) "green"
            "Archiving recovered — no more failures" ""] [] "yellow"
          "Archiving may still be catching up. Re-run this step in a few minutes.";
      st_BranchRules := [];
      st_NextStepDefault := None;
      st_ManualInstructions := "";
      st_EscalationContact := ""; st_CreatedAt := zero_time |}];
  pb_CreatedAt := zero_time; pb_UpdatedAt := zero_time |}.

Definition replicationLagPlaybook : Playbook := {|
  pb_ID := 0;
  pb_Slug := "replication-lag";
  pb_Name := "Replication Lag Investigation";
  pb_Description := "Investigates replication lag causes including WAL sender issues, slot retention, and network problems.";
  pb_Version := 1; pb_Status := "stable"; pb_Category := "replication";
  pb_TriggerBindings := mkBindings ["remediation.replication_lag"]
    ["root_cause.network_issue"; "root_cause.inactive_replication_slot"]
    ["pg.replication.lag_bytes"] [];
  pb_EstimatedDurationMin := Some 8;
  pb_RequiresPermission := "view_all"; pb_Author := "pgpulse"; pb_IsBuiltin := true;
  pb_Steps := [{|
      st_ID := 0; st_PlaybookID := 0; st_StepOrder := 1;
      st_Name := "Check replication status";
      st_Description := "Query pg_stat_replication to see lag for each replica.";
      st_SQLTemplate := ("SELECT count(" +:+ "*) AS replica_count, max(pg_wal_lsn_diff(pg_current_wal_insert_lsn(), flush_lsn)) AS max_lag_bytes, max(extract(epoch FROM replay_lag)) AS max_replay_lag_sec FROM pg_stat_replication");
      st_SafetyTier := TierDiagnostic; st_TimeoutSeconds := 5;
      st_ResultInterpretation := mkInterpretationSpec [
          mkInterpretationRule "max_lag_bytes" ">" (VInt 1073741824) "red"
            "CRITICAL: Max replication lag is {{max_lag_bytes}} bytes (>1GB)" "";
          mkInterpretationRule "max_lag_bytes" ">" (VInt 104857600) "yellow"
            "WARNING: Max replication lag is {{max_lag_bytes}} bytes (>100MB)" "";
          mkInterpretationRule "replica_count" "==" (VInt 0) "yellow"
            "No replicas connected to this primary" ""] [] "green"
          "Replication lag is within normal bounds";
      st_BranchRules := [
        mkBranchRule (mkBranchCondition "" "" VNil "red") 2
            "High lag — investigate replication slots"];
      st_NextStepDefault := Some 2;
      st_ManualInstructions := "";
      st_EscalationContact := ""; st_CreatedAt := zero_time |};
    {|
      st_ID := 0; st_PlaybookID := 0; st_StepOrder := 2;
      st_Name := "Check replication slots";
      st_Description := "Identify inactive or lagging replication slots that may be retaining WAL.";
      st_SQLTemplate := ("SELECT count(" +:+ "*) AS total_slots, count(" +:+ "*) FILTER (WHERE NOT active) AS inactive_slots, max(CASE WHEN NOT active THEN pg_wal_lsn_diff(pg_current_wal_insert_lsn(), restart_lsn) END) AS max_inactive_lag FROM pg_replication_slots");
      st_SafetyTier := TierDiagnostic; st_TimeoutSeconds := 5;
      st_ResultInterpretation := mkInterpretationSpec [
          mkInterpretationRule "inactive_slots" ">" (VInt 0) "red"
            "{{inactive_slots}} inactive replication slot(s) found — these retain WAL and cause disk growth" ""] [] "green"
          "All replication slots are active";
      st_BranchRules := [];
      st_NextStepDefault := Some 3;
      st_ManualInstructions := "";
      st_EscalationContact := ""; st_CreatedAt := zero_time |};
    {|
      st_ID := 0; st_PlaybookID := 0; st_StepOrder := 3;
      st_Name := "Check WAL accumulation from lag";
      st_Description := "Measure WAL directory size to assess disk pressure from replication lag.";
      st_SQLTemplate := ("SELECT count(" +:+ "*) AS wal_file_count, pg_size_pretty(sum(size)) AS total_wal_size FROM pg_ls_waldir()");
      st_SafetyTier := TierDiagnostic; st_TimeoutSeconds := 10;
      st_ResultInterpretation := mkInterpretationSpec [
          mkInterpretationRule "wal_file_count" ">" (VInt 200) "red"
            "{{wal_file_count}} WAL files retained ({{total_wal_size}}) — disk exhaustion risk" "";
          mkInterpretationRule "wal_file_count" ">" (VInt 50) "yellow"
            "{{wal_file_count}} WAL files — above normal but manageable" ""] [] "green"
          "WAL file count is normal";
      st_BranchRules := [];
      st_NextStepDefault := Some 4;
      st_ManualInstructions := "";
      st_EscalationContact := ""; st_CreatedAt := zero_time |};
    {|
      st_ID := 0; st_PlaybookID := 0; st_StepOrder := 4;
      st_Name := "Escalation: Network / replica investigation";
      st_Description := "Replication lag may be caused by network issues, replica load, or storage problems on the replica.";
      st_SQLTemplate := "";
      st_SafetyTier := TierExternal; st_TimeoutSeconds := 0;
      st_ResultInterpretation := mkInterpretationSpec [] [] ""
          "";
      st_BranchRules := [];
      st_NextStepDefault := None;
      st_ManualInstructions := ("1. Check network latency between primary and replica hosts." +:+ newline +:+ "2. Verify replica is running and accepting connections." +:+ newline +:+ "3. Check replica's I/O subsystem for saturation." +:+ newline +:+ "4. If inactive slots exist, consider dropping them: SELECT pg_drop_replication_slot('slot_name');" +:+ newline +:+ "5. Monitor pg_stat_replication for improvement.");
      st_EscalationContact := "DBA / Infrastructure team"; st_CreatedAt := zero_time |}];
  pb_CreatedAt := zero_time; pb_UpdatedAt := zero_time |}.

Definition connectionSaturationPlaybook : Playbook := {|
  pb_ID := 0;
  pb_Slug := "connection-saturation";
  pb_Name := "Connection Saturation";
  pb_Description := "Diagnoses connection pool exhaustion, identifies idle-in-transaction sessions, and guides connection management.";
  pb_Version := 1; pb_Status := "stable"; pb_Category := "connections";
  pb_TriggerBindings := mkBindings ["remediation.connection_pooling"]
    ["root_cause.connection_spike"]
    ["pg.connections.used_pct"] ["rem_conn_high"];
  pb_EstimatedDurationMin := Some 10;
  pb_RequiresPermission := "view_all"; pb_Author := "pgpulse"; pb_IsBuiltin := true;
  pb_Steps := [{|
      st_ID := 0; st_PlaybookID := 0; st_StepOrder := 1;
      st_Name := "Check connection utilization";
      st_Description := "Compare current connections against max_connections setting.";
      st_SQLTemplate := ("SELECT count(" +:+ "*) AS total_connections, (SELECT setting::int FROM pg_settings WHERE name='max_connections') AS max_connections, round(100.0 * count(" +:+ "*) / (SELECT setting::int FROM pg_settings WHERE name='max_connections'), 1) AS used_pct FROM pg_stat_activity WHERE pid != pg_backend_pid()");
      st_SafetyTier := TierDiagnostic; st_TimeoutSeconds := 5;
      st_ResultInterpretation := mkInterpretationSpec [
          mkInterpretationRule "used_pct" ">" (VInt 90) "red"
            "CRITICAL: {{used_pct}}% connections used ({{total_connections}}/{{max_connections}})" "";
          mkInterpretationRule "used_pct" ">" (VInt 70) "yellow"
            "WARNING: {{used_pct}}% connections used ({{total_connections}}/{{max_connections}})" ""] [] "green"
          "Connection utilization is within normal bounds";
      st_BranchRules := [];
      st_NextStepDefault := Some 2;
      st_ManualInstructions := "";
      st_EscalationContact := ""; st_CreatedAt := zero_time |};
    {|
      st_ID := 0; st_PlaybookID := 0; st_StepOrder := 2;
      st_Name := "Check connections by state";
      st_Description := "Break down connections by state to identify idle-in-transaction bloat.";
      st_SQLTemplate := ("SELECT count(" +:+ "*) AS total, count(" +:+ "*) FILTER (WHERE state='active') AS active, count(" +:+ "*) FILTER (WHERE state='idle') AS idle, count(" +:+ "*) FILTER (WHERE state='idle in transaction') AS idle_in_transaction, max(extract(epoch FROM now()-state_change)) FILTER (WHERE state='idle in transaction') AS max_idle_tx_sec FROM pg_stat_activity WHERE pid != pg_backend_pid()");
      st_SafetyTier := TierDiagnostic; st_TimeoutSeconds := 5;
      st_ResultInterpretation := mkInterpretationSpec [
          mkInterpretationRule "idle_in_transaction" ">" (VInt 10) "red"
            "{{idle_in_transaction}} idle-in-transaction sessions found (max age: {{max_idle_tx_sec}}s) — these hold locks and block vacuum" "";
          mkInterpretationRule "idle_in_transaction" ">" (VInt 3) "yellow"
            "{{idle_in_transaction}} idle-in-transaction sessions — consider idle_in_transaction_session_timeout" ""] [] "green"
          "Connection state distribution looks healthy";
      st_BranchRules := [
        mkBranchRule (mkBranchCondition "idle_in_transaction" ">" (VInt 10) "") 3
            "Excessive idle-in-transaction — check application patterns"];
      st_NextStepDefault := Some 3;
      st_ManualInstructions := "";
      st_EscalationContact := ""; st_CreatedAt := zero_time |};
    {|
      st_ID := 0; st_PlaybookID := 0; st_StepOrder := 3;
      st_Name := "Check connections by application";
      st_Description := "Identify which applications consume the most connections.";
      st_SQLTemplate := ("SELECT COALESCE(application_name, 'unknown') AS app_name, count(" +:+ "*) AS conn_count, count(" +:+ "*) FILTER (WHERE state='idle in transaction') AS idle_in_tx FROM pg_stat_activity WHERE pid != pg_backend_pid() GROUP BY application_name ORDER BY conn_count DESC LIMIT 1");
      st_SafetyTier := TierDiagnostic; st_TimeoutSeconds := 5;
      st_ResultInterpretation := mkInterpretationSpec [] [] "yellow"
          "Review the top connection consumers and their idle-in-transaction counts";
      st_BranchRules := [];
      st_NextStepDefault := Some 4;
      st_ManualInstructions := "";
      st_EscalationContact := ""; st_CreatedAt := zero_time |};
    {|
      st_ID := 0; st_PlaybookID := 0; st_StepOrder := 4;
      st_Name := "Check connection pool settings";
      st_Description := "Verify connection-related PostgreSQL settings.";
      st_SQLTemplate := "SELECT max(CASE WHEN name='max_connections' THEN setting END) AS max_connections, max(CASE WHEN name='superuser_reserved_connections' THEN setting END) AS reserved, max(CASE WHEN name='idle_in_transaction_session_timeout' THEN setting END) AS idle_tx_timeout FROM pg_settings WHERE name IN ('max_connections', 'superuser_reserved_connections', 'idle_in_transaction_session_timeout')";
      st_SafetyTier := TierDiagnostic; st_TimeoutSeconds := 5;
      st_ResultInterpretation := mkInterpretationSpec [] [] "yellow"
          "Review settings. Consider setting idle_in_transaction_session_timeout if it is 0.";
      st_BranchRules := [];
      st_NextStepDefault := Some 5;
      st_ManualInstructions := "";
      st_EscalationContact := ""; st_CreatedAt := zero_time |};
    {|
      st_ID := 0; st_PlaybookID := 0; st_StepOrder := 5;
      st_Name := "Remediation: Connection management";
      st_Description := "Connection saturation typically requires application-level changes or a connection pooler.";
      st_SQLTemplate := "";
      st_SafetyTier := TierExternal; st_TimeoutSeconds := 0;
      st_ResultInterpretation := mkInterpretationSpec [] [] ""
          "";
      st_BranchRules := [];
      st_NextStepDefault := None;
      st_ManualInstructions := ("1. If idle_in_transaction_session_timeout is 0, set it to 300000 (5 min) to auto-kill stale transactions." +:+ newline +:+ "2. Deploy or tune a connection pooler (PgBouncer recommended)." +:+ newline +:+ "3. Review application connection pool settings — ensure connections are returned promptly." +:+ newline +:+ "4. Consider increasing max_connections only as a last resort (higher memory per connection)." +:+ newline +:+ "5. Terminate idle-in-transaction sessions if urgent: SELECT pg_terminate_backend(pid) FROM pg_stat_activity WHERE state = 'idle in transaction' AND state_change < now() - interval '10 minutes';");
      st_EscalationContact := "DBA / Application team"; st_CreatedAt := zero_time |}];
  pb_CreatedAt := zero_time; pb_UpdatedAt := zero_time |}.

Definition lockContentionPlaybook : Playbook := {|
  pb_ID := 0;
  pb_Slug := "lock-contention";
  pb_Name := "Lock Contention Analysis";
  pb_Description := "Identifies blocking locks, long-held locks, and potential deadlock candidates to resolve lock contention.";
  pb_Version := 1; pb_Status := "stable"; pb_Category := "locks";
  pb_TriggerBindings := mkBindings ["remediation.lock_investigation"]
    ["root_cause.long_tx_blocking_vacuum"]
    ["pg.locks.blocked_count"] ["rem_locks_blocking"];
  pb_EstimatedDurationMin := Some 10;
  pb_RequiresPermission := "view_all"; pb_Author := "pgpulse"; pb_IsBuiltin := true;
  pb_Steps := [{|
      st_ID := 0; st_PlaybookID := 0; st_StepOrder := 1;
      st_Name := "Check blocking lock tree";
      st_Description := "Identify sessions that are blocking other sessions.";
      st_SQLTemplate := ("SELECT count(" +:+ "*) AS blocked_count, count(DISTINCT blocking.pid) AS blocker_count, max(extract(epoch FROM now() - blocked_activity.xact_start)) AS max_blocked_age_sec FROM pg_locks blocked JOIN pg_locks blocking ON blocking.locktype = blocked.locktype AND blocking.database IS NOT DISTINCT FROM blocked.database AND blocking.relation IS NOT DISTINCT FROM blocked.relation AND blocking.page IS NOT DISTINCT FROM blocked.page AND blocking.tuple IS NOT DISTINCT FROM blocked.tuple AND blocking.transactionid IS NOT DISTINCT FROM blocked.transactionid AND blocking.classid IS NOT DISTINCT FROM blocked.classid AND blocking.objid IS NOT DISTINCT FROM blocked.objid AND blocking.objsubid IS NOT DISTINCT FROM blocked.objsubid AND blocking.pid != blocked.pid JOIN pg_stat_activity blocked_activity ON blocked_activity.pid = blocked.pid JOIN pg_stat_activity blocking_activity ON blocking_activity.pid = blocking.pid WHERE NOT blocked.granted AND blocking.granted");
      st_SafetyTier := TierDiagnostic; st_TimeoutSeconds := 5;
      st_ResultInterpretation := mkInterpretationSpec [
          mkInterpretationRule "blocked_count" ">" (VInt 10) "red"
            "CRITICAL: {{blocked_count}} blocked sessions by {{blocker_count}} blockers (max age: {{max_blocked_age_sec}}s)" "";
          mkInterpretationRule "blocked_count" ">" (VInt 0) "yellow"
            "{{blocked_count}} blocked sessions found — investigating" "";
          mkInterpretationRule "blocked_count" "==" (VInt 0) "green"
            "No blocking locks detected" ""] [] "green"
          "No lock contention found";
      st_BranchRules := [
        mkBranchRule (mkBranchCondition "" "" VNil "green") 5
            "No contention — skip to verification"];
      st_NextStepDefault := Some 2;
      st_ManualInstructions := "";
      st_EscalationContact := ""; st_CreatedAt := zero_time |};
    {|
      st_ID := 0; st_PlaybookID := 0; st_StepOrder := 2;
      st_Name := "Check long-held locks";
      st_Description := "Find sessions holding locks for an extended time.";
      st_SQLTemplate := ("SELECT count(" +:+ "*) AS long_lock_count, max(extract(epoch FROM now() - xact_start)) AS max_tx_age_sec FROM pg_stat_activity WHERE state != 'idle' AND xact_start < now() - interval '5 minutes' AND pid != pg_backend_pid()");
      st_SafetyTier := TierDiagnostic; st_TimeoutSeconds := 5;
      st_ResultInterpretation := mkInterpretationSpec [
          mkInterpretationRule "long_lock_count" ">" (VInt 0) "yellow"
            "{{long_lock_count}} long-running transactions (max age: {{max_tx_age_sec}}s) — these may be holding locks" ""] [] "green"
          "No long-running transactions holding locks";
      st_BranchRules := [];
      st_NextStepDefault := Some 3;
      st_ManualInstructions := "";
      st_EscalationContact := ""; st_CreatedAt := zero_time |};
    {|
      st_ID := 0; st_PlaybookID := 0; st_StepOrder := 3;
      st_Name := "Check lock types distribution";
      st_Description := "Analyze the types of locks currently held.";
      st_SQLTemplate := ("SELECT count(" +:+ "*) AS total_locks, count(" +:+ "*) FILTER (WHERE NOT granted) AS waiting_locks, count(" +:+ "*) FILTER (WHERE locktype = 'relation') AS relation_locks, count(" +:+ "*) FILTER (WHERE locktype = 'transactionid') AS txid_locks FROM pg_locks WHERE pid != pg_backend_pid()");
      st_SafetyTier := TierDiagnostic; st_TimeoutSeconds := 5;
      st_ResultInterpretation := mkInterpretationSpec [
          mkInterpretationRule "waiting_locks" ">" (VInt 20) "red"
            "{{waiting_locks}} locks in waiting state — severe contention" ""] [] "yellow"
          "Review lock distribution: {{total_locks}} total, {{waiting_locks}} waiting";
      st_BranchRules := [];
      st_NextStepDefault := Some 4;
      st_ManualInstructions := "";
      st_EscalationContact := ""; st_CreatedAt := zero_time |};
    {|
      st_ID := 0; st_PlaybookID := 0; st_StepOrder := 4;
      st_Name := "Terminate blocking sessions";
      st_Description := "If blocking sessions are identified and causing cascading issues, terminate the blocker.";
      st_SQLTemplate := ("SELECT count(" +:+ "*) AS candidate_count FROM pg_stat_activity WHERE state = 'idle in transaction' AND xact_start < now() - interval '10 minutes' AND pid != pg_backend_pid()");
      st_SafetyTier := TierDangerous; st_TimeoutSeconds := 5;
      st_ResultInterpretation := mkInterpretationSpec [] [] "yellow"
          "Review candidate sessions before termination. Use pg_terminate_backend(pid) on the specific blocker PID.";
      st_BranchRules := [];
      st_NextStepDefault := Some 5;
      st_ManualInstructions := "";
      st_EscalationContact := ""; st_CreatedAt := zero_time |};
    {|
      st_ID := 0; st_PlaybookID := 0; st_StepOrder := 5;
      st_Name := "Escalation: Application lock review";
      st_Description := "Persistent lock contention requires application-level investigation.";
      st_SQLTemplate := "";
      st_SafetyTier := TierExternal; st_TimeoutSeconds := 0;
      st_ResultInterpretation := mkInterpretationSpec [] [] ""
          "";
      st_BranchRules := [];
      st_NextStepDefault := None;
      st_ManualInstructions := ("1. Review application code for long-held transactions." +:+ newline +:+ "2. Check for missing COMMIT/ROLLBACK in application error paths." +:+ newline +:+ "3. Consider advisory locks instead of table locks where appropriate." +:+ newline +:+ "4. Set lock_timeout at the application level to prevent indefinite waits." +:+ newline +:+ "5. Add indexes to reduce lock duration on UPDATE/DELETE operations.");
      st_EscalationContact := "DBA / Application development team"; st_CreatedAt := zero_time |}];
  pb_CreatedAt := zero_time; pb_UpdatedAt := zero_time |}.

Definition longTransactionsPlaybook : Playbook := {|
  pb_ID := 0;
  pb_Slug := "long-transactions";
  pb_Name := "Long Transaction Investigation";
  pb_Description := "Investigates long-running transactions that cause bloat accumulation and vacuum delays.";
  pb_Version := 1; pb_Status := "stable"; pb_Category := "locks";
  pb_TriggerBindings := mkBindings ["remediation.kill_long_transaction"]
    ["root_cause.long_transaction"]
    ["pg.activity.longest_tx_sec"] ["rem_long_txn_warn"];
  pb_EstimatedDurationMin := Some 8;
  pb_RequiresPermission := "view_all"; pb_Author := "pgpulse"; pb_IsBuiltin := true;
  pb_Steps := [{|
      st_ID := 0; st_PlaybookID := 0; st_StepOrder := 1;
      st_Name := "Check longest running transactions";
      st_Description := "Find the longest active transactions and their impact.";
      st_SQLTemplate := ("SELECT count(" +:+ "*) AS long_tx_count, max(extract(epoch FROM now() - xact_start)) AS max_age_sec, count(" +:+ "*) FILTER (WHERE state = 'idle in transaction') AS idle_in_tx_count FROM pg_stat_activity WHERE xact_start IS NOT NULL AND xact_start < now() - interval '5 minutes' AND pid != pg_backend_pid()");
      st_SafetyTier := TierDiagnostic; st_TimeoutSeconds := 5;
      st_ResultInterpretation := mkInterpretationSpec [
          mkInterpretationRule "max_age_sec" ">" (VInt 3600) "red"
            "CRITICAL: Longest transaction running for {{max_age_sec}}s ({{long_tx_count}} long transactions, {{idle_in_tx_count}} idle-in-tx)" "";
          mkInterpretationRule "max_age_sec" ">" (VInt 300) "yellow"
            "{{long_tx_count}} transactions running >5 min (max: {{max_age_sec}}s)" ""] [] "green"
          "No long-running transactions found";
      st_BranchRules := [
        mkBranchRule (mkBranchCondition "" "" VNil "green") 4
            "No long transactions — skip to verification"];
      st_NextStepDefault := Some 2;
      st_ManualInstructions := "";
      st_EscalationContact := ""; st_CreatedAt := zero_time |};
    {|
      st_ID := 0; st_PlaybookID := 0; st_StepOrder := 2;
      st_Name := "Check vacuum impact";
      st_Description := "Long transactions prevent vacuum from reclaiming dead tuples.";
      st_SQLTemplate := ("SELECT sum(n_dead_tup) AS total_dead_tuples, count(" +:+ "*) FILTER (WHERE n_dead_tup > 10000) AS tables_with_dead_tuples, max(n_dead_tup) AS max_dead_tuples FROM pg_stat_user_tables");
      st_SafetyTier := TierDiagnostic; st_TimeoutSeconds := 10;
      st_ResultInterpretation := mkInterpretationSpec [
          mkInterpretationRule "total_dead_tuples" ">" (VInt 10000000) "red"
            "{{total_dead_tuples}} dead tuples across all tables — severe bloat from long transactions" "";
          mkInterpretationRule "total_dead_tuples" ">" (VInt 1000000) "yellow"
            "{{total_dead_tuples}} dead tuples accumulating — vacuum is being blocked" ""] [] "green"
          "Dead tuple count is manageable";
      st_BranchRules := [];
      st_NextStepDefault := Some 3;
      st_ManualInstructions := "";
      st_EscalationContact := ""; st_CreatedAt := zero_time |};
    {|
      st_ID := 0; st_PlaybookID := 0; st_StepOrder := 3;
      st_Name := "Check bloat accumulation";
      st_Description := "Estimate table bloat from dead tuples that vacuum cannot reclaim.";
      st_SQLTemplate := ("SELECT count(" +:+ "*) AS bloated_table_count, max(round(100.0 * n_dead_tup / NULLIF(n_live_tup + n_dead_tup, 0), 1)) AS max_dead_pct FROM pg_stat_user_tables WHERE n_dead_tup > 1000");
      st_SafetyTier := TierDiagnostic; st_TimeoutSeconds := 10;
      st_ResultInterpretation := mkInterpretationSpec [
          mkInterpretationRule "max_dead_pct" ">" (VInt 50) "red"
            "{{bloated_table_count}} tables with significant bloat (max {{max_dead_pct}}% dead)" ""] [] "yellow"
          "Review bloat levels and consider VACUUM after resolving long transactions";
      st_BranchRules := [];
      st_NextStepDefault := Some 4;
      st_ManualInstructions := "";
      st_EscalationContact := ""; st_CreatedAt := zero_time |};
    {|
      st_ID := 0; st_PlaybookID := 0; st_StepOrder := 4;
      st_Name := "Remediation: Transaction management";
      st_Description := "Long transactions must be addressed at the application level.";
      st_SQLTemplate := "";
      st_SafetyTier := TierExternal; st_TimeoutSeconds := 0;
      st_ResultInterpretation := mkInterpretationSpec [] [] ""
          "";
      st_BranchRules := [];
      st_NextStepDefault := None;
      st_ManualInstructions := ("1. Identify the application causing long transactions from pg_stat_activity." +:+ newline +:+ "2. Set idle_in_transaction_session_timeout to auto-kill idle transactions." +:+ newline +:+ "3. Review application code for missing COMMIT/ROLLBACK." +:+ newline +:+ "4. Consider breaking large batch operations into smaller transactions." +:+ newline +:+ "5. After resolving, run VACUUM on affected tables to reclaim space." +:+ newline +:+ "6. For urgent cases: pg_terminate_backend(pid) on the specific long-running PID.");
      st_EscalationContact := "DBA / Application development team"; st_CreatedAt := zero_time |}];
  pb_CreatedAt := zero_time; pb_UpdatedAt := zero_time |}.

Definition checkpointStormPlaybook : Playbook := {|
  pb_ID := 0;
  pb_Slug := "checkpoint-storm";
  pb_Name := "Checkpoint Storm Diagnosis";
  pb_Description := "Diagnoses checkpoint storms causing I/O saturation and elevated WAL generation rates.";
  pb_Version := 1; pb_Status := "stable"; pb_Category := "performance";
  pb_TriggerBindings := mkBindings ["remediation.checkpoint_completion_target"]
    ["root_cause.bulk_workload"]
    ["pg.checkpoint.requested_count"] ["rem_wraparound_warn"];
  pb_EstimatedDurationMin := Some 8;
  pb_RequiresPermission := "view_all"; pb_Author := "pgpulse"; pb_IsBuiltin := true;
  pb_Steps := [{|
      st_ID := 0; st_PlaybookID := 0; st_StepOrder := 1;
      st_Name := "Check checkpoint activity";
      st_Description := "Review checkpoint frequency and timing from pg_stat_bgwriter/checkpointer.";
      st_SQLTemplate := "SELECT checkpoints_timed, checkpoints_req, buffers_checkpoint, buffers_backend, maxwritten_clean FROM pg_stat_bgwriter";
      st_SafetyTier := TierDiagnostic; st_TimeoutSeconds := 5;
      st_ResultInterpretation := mkInterpretationSpec [
          mkInterpretationRule "checkpoints_req" ">" (VInt 100) "red"
            "{{checkpoints_req}} requested checkpoints — high checkpoint pressure" "";
          mkInterpretationRule "buffers_backend" ">" (VInt 10000) "yellow"
            "{{buffers_backend}} backend-written buffers — bgwriter/checkpointer falling behind" ""] [] "green"
          "Checkpoint activity appears normal";
      st_BranchRules := [];
      st_NextStepDefault := Some 2;
      st_ManualInstructions := "";
      st_EscalationContact := ""; st_CreatedAt := zero_time |};
    {|
      st_ID := 0; st_PlaybookID := 0; st_StepOrder := 2;
      st_Name := "Check WAL generation rate";
      st_Description := "Measure current WAL generation to identify burst workloads.";
      st_SQLTemplate := ("SELECT count(" +:+ "*) AS wal_file_count, pg_size_pretty(sum(size)) AS total_wal_size FROM pg_ls_waldir()");
      st_SafetyTier := TierDiagnostic; st_TimeoutSeconds := 10;
      st_ResultInterpretation := mkInterpretationSpec [
          mkInterpretationRule "wal_file_count" ">" (VInt 100) "yellow"
            "{{wal_file_count}} WAL files present ({{total_wal_size}}) — elevated WAL generation" ""] [] "green"
          "WAL file count is normal";
      st_BranchRules := [];
      st_NextStepDefault := Some 3;
      st_ManualInstructions := "";
      st_EscalationContact := ""; st_CreatedAt := zero_time |};
    {|
      st_ID := 0; st_PlaybookID := 0; st_StepOrder := 3;
      st_Name := "Check checkpoint configuration";
      st_Description := "Verify checkpoint-related settings.";
      st_SQLTemplate := "SELECT max(CASE WHEN name='checkpoint_timeout' THEN setting END) AS checkpoint_timeout, max(CASE WHEN name='checkpoint_completion_target' THEN setting END) AS checkpoint_completion_target, max(CASE WHEN name='max_wal_size' THEN setting END) AS max_wal_size, max(CASE WHEN name='min_wal_size' THEN setting END) AS min_wal_size FROM pg_settings WHERE name IN ('checkpoint_timeout', 'checkpoint_completion_target', 'max_wal_size', 'min_wal_size')";
      st_SafetyTier := TierDiagnostic; st_TimeoutSeconds := 5;
      st_ResultInterpretation := mkInterpretationSpec [] [] "yellow"
          "Review checkpoint_timeout and max_wal_size. Increasing max_wal_size reduces checkpoint frequency.";
      st_BranchRules := [];
      st_NextStepDefault := Some 4;
      st_ManualInstructions := "";
      st_EscalationContact := ""; st_CreatedAt := zero_time |};
    {|
      st_ID := 0; st_PlaybookID := 0; st_StepOrder := 4;
      st_Name := "Remediation: Checkpoint tuning";
      st_Description := "Checkpoint storms require configuration adjustments and workload review.";
      st_SQLTemplate := "";
      st_SafetyTier := TierExternal; st_TimeoutSeconds := 0;
      st_ResultInterpretation := mkInterpretationSpec [] [] ""
          "";
      st_BranchRules := [];
      st_NextStepDefault := None;
      st_ManualInstructions := ("1. Increase max_wal_size (e.g., 2GB-4GB) to reduce checkpoint frequency." +:+ newline +:+ "2. Ensure checkpoint_completion_target is 0.9 (spread I/O over the interval)." +:+ newline +:+ "3. Increase shared_buffers if backend writes are high." +:+ newline +:+ "4. Review bulk operations (COPY, large UPDATEs) that generate excessive WAL." +:+ newline +:+ "5. Consider wal_compression = on to reduce WAL volume." +:+ newline +:+ "6. After changes, run pg_reload_conf() and monitor checkpoint frequency.");
      st_EscalationContact := "DBA"; st_CreatedAt := zero_time |}];
  pb_CreatedAt := zero_time; pb_UpdatedAt := zero_time |}.

Definition diskFullPlaybook : Playbook := {|
  pb_ID := 0;
  pb_Slug := "disk-full";
  pb_Name := "Disk Space Emergency";
  pb_Description := "Emergency playbook for disk space exhaustion — identifies WAL, bloat, temp files, and tablespace usage.";
  pb_Version := 1; pb_Status := "stable"; pb_Category := "storage";
  pb_TriggerBindings := mkBindings ["remediation.disk_capacity"]
    ["root_cause.wal_accumulation"]
    ["pg.server.db_size_bytes"] [];
  pb_EstimatedDurationMin := Some 15;
  pb_RequiresPermission := "view_all"; pb_Author := "pgpulse"; pb_IsBuiltin := true;
  pb_Steps := [{|
      st_ID := 0; st_PlaybookID := 0; st_StepOrder := 1;
      st_Name := "Check database sizes";
      st_Description := "Identify which databases are consuming the most disk space.";
      st_SQLTemplate := ("SELECT count(" +:+ "*) AS db_count, pg_size_pretty(sum(pg_database_size(datname))) AS total_size, max(pg_database_size(datname)) AS max_db_bytes FROM pg_database WHERE NOT datistemplate");
      st_SafetyTier := TierDiagnostic; st_TimeoutSeconds := 15;
      st_ResultInterpretation := mkInterpretationSpec [] [] "yellow"
          "Total database size: {{total_size}} across {{db_count}} databases";
      st_BranchRules := [];
      st_NextStepDefault := Some 2;
      st_ManualInstructions := "";
      st_EscalationContact := ""; st_CreatedAt := zero_time |};
    {|
      st_ID := 0; st_PlaybookID := 0; st_StepOrder := 2;
      st_Name := "Check table bloat";
      st_Description := "Identify tables with significant dead tuple bloat.";
      st_SQLTemplate := ("SELECT count(" +:+ "*) AS bloated_tables, sum(n_dead_tup) AS total_dead_tuples, max(round(100.0 * n_dead_tup / NULLIF(n_live_tup + n_dead_tup, 0), 1)) AS max_dead_pct FROM pg_stat_user_tables WHERE n_dead_tup > 10000");
      st_SafetyTier := TierDiagnostic; st_TimeoutSeconds := 10;
      st_ResultInterpretation := mkInterpretationSpec [
          mkInterpretationRule "total_dead_tuples" ">" (VInt 10000000) "red"
            "{{bloated_tables}} bloated tables with {{total_dead_tuples}} dead tuples (max {{max_dead_pct}}% dead)" ""] [] "yellow"
          "Bloat levels: {{bloated_tables}} tables with >10K dead tuples";
      st_BranchRules := [];
      st_NextStepDefault := Some 3;
      st_ManualInstructions := "";
      st_EscalationContact := ""; st_CreatedAt := zero_time |};
    {|
      st_ID := 0; st_PlaybookID := 0; st_StepOrder := 3;
      st_Name := "Check WAL accumulation";
      st_Description := "WAL files can consume significant disk space during archiving delays or replication issues.";
      st_SQLTemplate := ("SELECT count(" +:+ "*) AS wal_file_count, pg_size_pretty(sum(size)) AS total_wal_size FROM pg_ls_waldir()");
      st_SafetyTier := TierDiagnostic; st_TimeoutSeconds := 10;
      st_ResultInterpretation := mkInterpretationSpec [
          mkInterpretationRule "wal_file_count" ">" (VInt 200) "red"
            "{{wal_file_count}} WAL files ({{total_wal_size}}) — major disk consumer" "";
          mkInterpretationRule "wal_file_count" ">" (VInt 50) "yellow"
            "{{wal_file_count}} WAL files ({{total_wal_size}}) — above normal" ""] [] "green"
          "WAL file count is normal";
      st_BranchRules := [];
      st_NextStepDefault := Some 4;
      st_ManualInstructions := "";
      st_EscalationContact := ""; st_CreatedAt := zero_time |};
    {|
      st_ID := 0; st_PlaybookID := 0; st_StepOrder := 4;
      st_Name := "Check temp file usage";
      st_Description := "Large temp files from sorts/hashes can consume significant disk space.";
      st_SQLTemplate := "SELECT sum(temp_files) AS total_temp_files, pg_size_pretty(sum(temp_bytes)) AS total_temp_size FROM pg_stat_database";
      st_SafetyTier := TierDiagnostic; st_TimeoutSeconds := 5;
      st_ResultInterpretation := mkInterpretationSpec [] [] "yellow"
          "Temp file usage: {{total_temp_files}} files ({{total_temp_size}} total since stats reset)";
      st_BranchRules := [];
      st_NextStepDefault := Some 5;
      st_ManualInstructions := "";
      st_EscalationContact := ""; st_CreatedAt := zero_time |};
    {|
      st_ID := 0; st_PlaybookID := 0; st_StepOrder := 5;
      st_Name := "Emergency: Free disk space";
      st_Description := "Disk space exhaustion requires immediate action to prevent PostgreSQL shutdown.";
      st_SQLTemplate := "";
      st_SafetyTier := TierExternal; st_TimeoutSeconds := 0;
      st_ResultInterpretation := mkInterpretationSpec [] [] ""
          "";
      st_BranchRules := [];
      st_NextStepDefault := None;
      st_ManualInstructions := ("IMMEDIATE ACTIONS:" +:+ newline +:+ "1. Remove old WAL files if archive lag: pg_archivecleanup /path/to/wal last_safe_wal" +:+ newline +:+ "2. Drop inactive replication slots: SELECT pg_drop_replication_slot('slot_name');" +:+ newline +:+ "3. VACUUM FULL on most bloated tables (requires exclusive lock!)." +:+ newline +:+ "4. Truncate/archive old log files." +:+ newline +:+ "5. Clear temp files in $PGDATA/base/pgsql_tmp/." +:+ newline +:+ newline +:+ "LONGER TERM:" +:+ newline +:+ "6. Increase disk capacity." +:+ newline +:+ "7. Configure temp_file_limit to prevent temp file explosion." +:+ newline +:+ "8. Schedule regular VACUUM." +:+ newline +:+ "9. Enable wal_compression.");
      st_EscalationContact := "DBA / Infrastructure team / Storage admin"; st_CreatedAt := zero_time |}];
  pb_CreatedAt := zero_time; pb_UpdatedAt := zero_time |}.

Definition autovacuumFailingPlaybook : Playbook := {|
  pb_ID := 0;
  pb_Slug := "autovacuum-failing";
  pb_Name := "Autovacuum Health Check";
  pb_Description := "Diagnoses autovacuum effectiveness including worker status, dead tuple accumulation, and configuration issues.";
  pb_Version := 1; pb_Status := "stable"; pb_Category := "vacuum";
  pb_TriggerBindings := mkBindings ["remediation.vacuum_cost_settings"]
    ["root_cause.dead_tuple_accumulation"]
    ["pg.vacuum.dead_tuple_ratio"] ["rem_bloat_high"];
  pb_EstimatedDurationMin := Some 10;
  pb_RequiresPermission := "view_all"; pb_Author := "pgpulse"; pb_IsBuiltin := true;
  pb_Steps := [{|
      st_ID := 0; st_PlaybookID := 0; st_StepOrder := 1;
      st_Name := "Check autovacuum worker status";
      st_Description := "See how many autovacuum workers are currently running.";
      st_SQLTemplate := ("SELECT count(" +:+ "*) AS active_workers, (SELECT setting::int FROM pg_settings WHERE name='autovacuum_max_workers') AS max_workers, count(" +:+ "*) FILTER (WHERE query LIKE 'autovacuum:%wraparound%') AS wraparound_workers FROM pg_stat_activity WHERE backend_type = 'autovacuum worker'");
      st_SafetyTier := TierDiagnostic; st_TimeoutSeconds := 5;
      st_ResultInterpretation := mkInterpretationSpec [
          mkInterpretationRule "wraparound_workers" ">" (VInt 0) "red"
            "{{wraparound_workers}} wraparound vacuum workers active — urgent wraparound prevention" "";
          mkInterpretationRule "active_workers" "==" (VInt 0) "yellow"
            "No autovacuum workers currently active — check if autovacuum is enabled" ""] [] "green"
          "{{active_workers}} of {{max_workers}} autovacuum workers active";
      st_BranchRules := [];
      st_NextStepDefault := Some 2;
      st_ManualInstructions := "";
      st_EscalationContact := ""; st_CreatedAt := zero_time |};
    {|
      st_ID := 0; st_PlaybookID := 0; st_StepOrder := 2;
      st_Name := "Check dead tuple accumulation";
      st_Description := "Identify tables with excessive dead tuples that vacuum is not cleaning.";
      st_SQLTemplate := ("SELECT count(" +:+ "*) AS problem_tables, sum(n_dead_tup) AS total_dead, max(n_dead_tup) AS max_dead, max(round(100.0 * n_dead_tup / NULLIF(n_live_tup + n_dead_tup, 0), 1)) AS max_dead_pct FROM pg_stat_user_tables WHERE n_dead_tup > 10000");
      st_SafetyTier := TierDiagnostic; st_TimeoutSeconds := 10;
      st_ResultInterpretation := mkInterpretationSpec [
          mkInterpretationRule "max_dead_pct" ">" (VInt 30) "red"
            "{{problem_tables}} tables with high dead tuple ratio (max {{max_dead_pct}}%). Total dead: {{total_dead}}" "";
          mkInterpretationRule "total_dead" ">" (VInt 1000000) "yellow"
            "{{total_dead}} total dead tuples across {{problem_tables}} tables" ""] [] "green"
          "Dead tuple levels are manageable";
      st_BranchRules := [];
      st_NextStepDefault := Some 3;
      st_ManualInstructions := "";
      st_EscalationContact := ""; st_CreatedAt := zero_time |};
    {|
      st_ID := 0; st_PlaybookID := 0; st_StepOrder := 3;
      st_Name := "Check last vacuum times";
      st_Description := "Find tables that haven't been vacuumed recently.";
      st_SQLTemplate := ("SELECT count(" +:+ "*) AS never_vacuumed, count(" +:+ "*) FILTER (WHERE last_autovacuum < now() - interval '1 day' OR last_autovacuum IS NULL) AS stale_vacuum FROM pg_stat_user_tables WHERE n_dead_tup > 1000");
      st_SafetyTier := TierDiagnostic; st_TimeoutSeconds := 10;
      st_ResultInterpretation := mkInterpretationSpec [
          mkInterpretationRule "stale_vacuum" ">" (VInt 5) "yellow"
            "{{stale_vacuum}} tables with dead tuples haven't been vacuumed in >1 day" ""] [] "green"
          "Vacuum timing looks healthy";
      st_BranchRules := [];
      st_NextStepDefault := Some 4;
      st_ManualInstructions := "";
      st_EscalationContact := ""; st_CreatedAt := zero_time |};
    {|
      st_ID := 0; st_PlaybookID := 0; st_StepOrder := 4;
      st_Name := "Check autovacuum configuration";
      st_Description := "Verify autovacuum settings to ensure they are appropriately tuned.";
      st_SQLTemplate := "SELECT max(CASE WHEN name='autovacuum' THEN setting END) AS autovacuum, max(CASE WHEN name='autovacuum_max_workers' THEN setting END) AS max_workers, max(CASE WHEN name='autovacuum_vacuum_cost_delay' THEN setting END) AS cost_delay, max(CASE WHEN name='autovacuum_vacuum_cost_limit' THEN setting END) AS cost_limit, max(CASE WHEN name='autovacuum_vacuum_threshold' THEN setting END) AS threshold, max(CASE WHEN name='autovacuum_vacuum_scale_factor' THEN setting END) AS scale_factor FROM pg_settings WHERE name LIKE 'autovacuum%'";
      st_SafetyTier := TierDiagnostic; st_TimeoutSeconds := 5;
      st_ResultInterpretation := mkInterpretationSpec [] [] "yellow"
          "Review autovacuum settings. Consider lowering vacuum_cost_delay and increasing cost_limit for faster cleanup.";
      st_BranchRules := [];
      st_NextStepDefault := Some 5;
      st_ManualInstructions := "";
      st_EscalationContact := ""; st_CreatedAt := zero_time |};
    {|
      st_ID := 0; st_PlaybookID := 0; st_StepOrder := 5;
      st_Name := "Remediation: Vacuum tuning";
      st_Description := "Autovacuum issues require configuration tuning and potentially manual VACUUM.";
      st_SQLTemplate := "";
      st_SafetyTier := TierExternal; st_TimeoutSeconds := 0;
      st_ResultInterpretation := mkInterpretationSpec [] [] ""
          "";
      st_BranchRules := [];
      st_NextStepDefault := None;
      st_ManualInstructions := ("1. If autovacuum is OFF, enable it immediately: ALTER SYSTEM SET autovacuum = on;" +:+ newline +:+ "2. Reduce autovacuum_vacuum_cost_delay (e.g., 2ms) for faster cleanup." +:+ newline +:+ "3. Increase autovacuum_vacuum_cost_limit (e.g., 2000) to allow more work per cycle." +:+ newline +:+ "4. For large tables, set per-table autovacuum_vacuum_scale_factor lower (e.g., 0.01)." +:+ newline +:+ "5. Run manual VACUUM on the most bloated tables." +:+ newline +:+ "6. For emergency bloat: VACUUM FULL (requires exclusive lock — schedule during maintenance window)." +:+ newline +:+ "7. Apply changes: SELECT pg_reload_conf();");
      st_EscalationContact := "DBA"; st_CreatedAt := zero_time |}];
  pb_CreatedAt := zero_time; pb_UpdatedAt := zero_time |}.

Definition wraparoundRiskPlaybook : Playbook := {|
  pb_ID := 0;
  pb_Slug := "wraparound-risk";
  pb_Name := "Transaction Wraparound Risk";
  pb_Description := "Diagnoses transaction ID wraparound risk by checking datfrozenxid age and per-table freeze status.";
  pb_Version := 1; pb_Status := "stable"; pb_Category := "vacuum";
  pb_TriggerBindings := mkBindings ["remediation.wraparound_vacuum"]
    ["root_cause.wraparound_approaching"]
    ["pg.server.oldest_xid_age"] ["rem_wraparound_crit"];
  pb_EstimatedDurationMin := Some 10;
  pb_RequiresPermission := "view_all"; pb_Author := "pgpulse"; pb_IsBuiltin := true;
  pb_Steps := [{|
      st_ID := 0; st_PlaybookID := 0; st_StepOrder := 1;
      st_Name := "Check database transaction age";
      st_Description := "Check the age of the oldest unfrozen transaction ID across all databases.";
      st_SQLTemplate := ("SELECT max(age(datfrozenxid)) AS max_xid_age, max(age(datfrozenxid))::float / 2147483647 * 100 AS pct_to_wraparound, count(" +:+ "*) FILTER (WHERE age(datfrozenxid) > 1000000000) AS critical_dbs FROM pg_database WHERE NOT datistemplate");
      st_SafetyTier := TierDiagnostic; st_TimeoutSeconds := 5;
      st_ResultInterpretation := mkInterpretationSpec [
          mkInterpretationRule "pct_to_wraparound" ">" (VInt 75) "red"
            "CRITICAL: {{pct_to_wraparound}}% to wraparound (xid age: {{max_xid_age}}). Immediate action required!" "";
          mkInterpretationRule "pct_to_wraparound" ">" (VInt 50) "yellow"
            "WARNING: {{pct_to_wraparound}}% to wraparound (xid age: {{max_xid_age}})" ""] [] "green"
          "Transaction age is healthy ({{pct_to_wraparound}}% to wraparound)";
      st_BranchRules := [
        mkBranchRule (mkBranchCondition "" "" VNil "green") 4
            "No wraparound risk — skip to verification"];
      st_NextStepDefault := Some 2;
      st_ManualInstructions := "";
      st_EscalationContact := ""; st_CreatedAt := zero_time |};
    {|
      st_ID := 0; st_PlaybookID := 0; st_StepOrder := 2;
      st_Name := "Check aggressive vacuum status";
      st_Description := "See if PostgreSQL has triggered aggressive (anti-wraparound) vacuum.";
      st_SQLTemplate := ("SELECT count(" +:+ "*) AS aggressive_vacuum_count FROM pg_stat_activity WHERE backend_type = 'autovacuum worker' AND query LIKE '%wraparound%'");
      st_SafetyTier := TierDiagnostic; st_TimeoutSeconds := 5;
      st_ResultInterpretation := mkInterpretationSpec [
          mkInterpretationRule "aggressive_vacuum_count" ">" (VInt 0) "yellow"
            "{{aggressive_vacuum_count}} aggressive (anti-wraparound) vacuum workers running — system is self-healing but under pressure" ""] [] "yellow"
          "No aggressive vacuum workers running — manual intervention may be needed";
      st_BranchRules := [];
      st_NextStepDefault := Some 3;
      st_ManualInstructions := "";
      st_EscalationContact := ""; st_CreatedAt := zero_time |};
    {|
      st_ID := 0; st_PlaybookID := 0; st_StepOrder := 3;
      st_Name := "Check per-table wraparound status";
      st_Description := "Identify the oldest unfrozen tables that are driving the wraparound risk.";
      st_SQLTemplate := ("SELECT count(" +:+ "*) AS old_table_count, max(age(relfrozenxid)) AS max_table_xid_age FROM pg_class WHERE relkind = 'r' AND age(relfrozenxid) > 500000000");
      st_SafetyTier := TierDiagnostic; st_TimeoutSeconds := 10;
      st_ResultInterpretation := mkInterpretationSpec [
          mkInterpretationRule "old_table_count" ">" (VInt 0) "red"
            "{{old_table_count}} tables with xid age >500M (max: {{max_table_xid_age}}) — these drive the wraparound risk" ""] [] "green"
          "No tables with critically old transaction IDs";
      st_BranchRules := [];
      st_NextStepDefault := Some 4;
      st_ManualInstructions := "";
      st_EscalationContact := ""; st_CreatedAt := zero_time |};
    {|
      st_ID := 0; st_PlaybookID := 0; st_StepOrder := 4;
      st_Name := "Remediation: Wraparound prevention";
      st_Description := "Transaction wraparound requires urgent vacuum and possible configuration changes.";
      st_SQLTemplate := "";
      st_SafetyTier := TierExternal; st_TimeoutSeconds := 0;
      st_ResultInterpretation := mkInterpretationSpec [] [] ""
          "";
      st_BranchRules := [];
      st_NextStepDefault := None;
      st_ManualInstructions := ("1. Run VACUUM FREEZE on the most critical tables (those with highest relfrozenxid age)." +:+ newline +:+ "2. If vacuum is being blocked by long transactions, terminate them first." +:+ newline +:+ "3. Increase autovacuum_freeze_max_age if it is set too low (default 200M is usually fine)." +:+ newline +:+ "4. Ensure autovacuum is running and not being blocked." +:+ newline +:+ "5. Monitor progress: SELECT relname, age(relfrozenxid) FROM pg_class WHERE relkind='r' ORDER BY age(relfrozenxid) DESC LIMIT 10;" +:+ newline +:+ "6. For emergency: run vacuumdb --freeze --all from the command line.");
      st_EscalationContact := "DBA"; st_CreatedAt := zero_time |}];
  pb_CreatedAt := zero_time; pb_UpdatedAt := zero_time |}.

Definition heavyQueryPlaybook : Playbook := {|
  pb_ID := 0;
  pb_Slug := "heavy-query";
  pb_Name := "Heavy Query Diagnostics";
  pb_Description := "Identifies resource-intensive queries using pg_stat_statements and provides optimization guidance.";
  pb_Version := 1; pb_Status := "stable"; pb_Category := "performance";
  pb_TriggerBindings := mkBindings ["remediation.query_optimization"]
    ["root_cause.query_regression"; "root_cause.missing_index"]
    ["pg.statements.total_exec_time_ms"] [];
  pb_EstimatedDurationMin := Some 10;
  pb_RequiresPermission := "view_all"; pb_Author := "pgpulse"; pb_IsBuiltin := true;
  pb_Steps := [{|
      st_ID := 0; st_PlaybookID := 0; st_StepOrder := 1;
      st_Name := "Check top queries by total time";
      st_Description := "Identify the heaviest queries from pg_stat_statements.";
      st_SQLTemplate := ("SELECT count(" +:+ "*) AS tracked_queries, max(total_exec_time) AS max_total_exec_time_ms, sum(calls) AS total_calls FROM pg_stat_statements WHERE dbid = (SELECT oid FROM pg_database WHERE datname = current_database())");
      st_SafetyTier := TierDiagnostic; st_TimeoutSeconds := 10;
      st_ResultInterpretation := mkInterpretationSpec [
          mkInterpretationRule "max_total_exec_time_ms" ">" (VInt 3600000) "red"
            "Heaviest query consumed {{max_total_exec_time_ms}}ms total exec time across {{total_calls}} total calls" ""] [] "yellow"
          "{{tracked_queries}} queries tracked. Review the top consumers.";
      st_BranchRules := [];
      st_NextStepDefault := Some 2;
      st_ManualInstructions := "";
      st_EscalationContact := ""; st_CreatedAt := zero_time |};
    {|
      st_ID := 0; st_PlaybookID := 0; st_StepOrder := 2;
      st_Name := "Check queries with high mean time";
      st_Description := "Find queries with the highest average execution time.";
      st_SQLTemplate := ("SELECT count(" +:+ "*) AS slow_query_count, max(mean_exec_time) AS max_mean_ms FROM pg_stat_statements WHERE mean_exec_time > 1000 AND dbid = (SELECT oid FROM pg_database WHERE datname = current_database())");
      st_SafetyTier := TierDiagnostic; st_TimeoutSeconds := 10;
      st_ResultInterpretation := mkInterpretationSpec [
          mkInterpretationRule "slow_query_count" ">" (VInt 10) "red"
            "{{slow_query_count}} queries averaging >1s execution (max: {{max_mean_ms}}ms)" "";
          mkInterpretationRule "slow_query_count" ">" (VInt 0) "yellow"
            "{{slow_query_count}} queries averaging >1s — candidates for optimization" ""] [] "green"
          "No queries with high average execution time";
      st_BranchRules := [];
      st_NextStepDefault := Some 3;
      st_ManualInstructions := "";
      st_EscalationContact := ""; st_CreatedAt := zero_time |};
    {|
      st_ID := 0; st_PlaybookID := 0; st_StepOrder := 3;
      st_Name := "Check sequential scan activity";
      st_Description := "Identify tables with excessive sequential scans that may benefit from indexing.";
      st_SQLTemplate := ("SELECT count(" +:+ "*) AS seq_scan_tables, max(seq_scan) AS max_seq_scans, max(seq_scan - COALESCE(idx_scan, 0)) AS max_seq_excess FROM pg_stat_user_tables WHERE seq_scan > 1000 AND COALESCE(idx_scan, 0) < seq_scan");
      st_SafetyTier := TierDiagnostic; st_TimeoutSeconds := 10;
      st_ResultInterpretation := mkInterpretationSpec [
          mkInterpretationRule "seq_scan_tables" ">" (VInt 5) "yellow"
            "{{seq_scan_tables}} tables with more sequential scans than index scans — potential missing indexes" ""] [] "green"
          "Index usage looks healthy";
      st_BranchRules := [];
      st_NextStepDefault := Some 4;
      st_ManualInstructions := "";
      st_EscalationContact := ""; st_CreatedAt := zero_time |};
    {|
      st_ID := 0; st_PlaybookID := 0; st_StepOrder := 4;
      st_Name := "Remediation: Query optimization";
      st_Description := "Heavy queries require EXPLAIN analysis and possible index creation.";
      st_SQLTemplate := "";
      st_SafetyTier := TierExternal; st_TimeoutSeconds := 0;
      st_ResultInterpretation := mkInterpretationSpec [] [] ""
          "";
      st_BranchRules := [];
      st_NextStepDefault := None;
      st_ManualInstructions := ("1. Run EXPLAIN (ANALYZE, BUFFERS) on the top slow queries to identify bottlenecks." +:+ newline +:+ "2. Look for sequential scans on large tables — add appropriate indexes." +:+ newline +:+ "3. Check for missing WHERE clauses or non-selective predicates." +:+ newline +:+ "4. Consider increasing work_mem for sort/hash-heavy queries." +:+ newline +:+ "5. Review query plans for nested loop joins on large tables — may need index or join order hints." +:+ newline +:+ "6. For write-heavy queries: check if triggers or cascading FKs are adding overhead." +:+ newline +:+ "7. Reset pg_stat_statements after optimization to measure improvement: SELECT pg_stat_statements_reset();");
      st_EscalationContact := "DBA / Application development team"; st_CreatedAt := zero_time |}];
  pb_CreatedAt := zero_time; pb_UpdatedAt := zero_time |}.

Definition BuiltinPlaybooks : list Playbook := [
  walArchiveFailurePlaybook;
  replicationLagPlaybook;
  connectionSaturationPlaybook;
  lockContentionPlaybook;
  longTransactionsPlaybook;
  checkpointStormPlaybook;
  diskFullPlaybook;
  autovacuumFailingPlaybook;
  wraparoundRiskPlaybook;
  heavyQueryPlaybook].
