(* ===== verification/PlaybookStore.v ===== *)
(** * The playbook store

    Models internal/playbook/store.go (the interface, as class [PlaybookStore]), pgstore.go over
    the tables of migration 018_playbooks.sql, nullstore.go and the seeding of seed.go. A table is
    a finite map by its key; a nullable text column is an option; a JSONB column holds what
    decoding the encoded value gives. A transaction that fails leaves the tables unchanged but
    not the sequences. [NOW()] is an argument. ILIKE and text order belong to the server. *)
From stdpp Require Import pretty.
From S2P Require Import Prelude Float64 GoText Playbook PlaybookSeed.

Local Open Scope Z_scope.

(** ** The interface *)

Class PlaybookStore (S : Type) := {
  ps_Create : Time -> S -> Playbook -> S * result Z;
  ps_Get : S -> Z -> result (option Playbook);
  ps_GetBySlug : S -> string -> result (option Playbook);
  ps_Update : Time -> S -> Playbook -> S * option error;
  ps_Delete : S -> Z -> S * option error;
  ps_List : S -> PlaybookListOpts -> result (list Playbook * Z);
  ps_Promote : Time -> S -> Z -> S * option error;
  ps_Deprecate : Time -> S -> Z -> S * option error;
  ps_FindByTriggerBinding : S -> string -> string -> result (option Playbook);
  ps_CreateRun : Time -> S -> Run -> S * result Z;
  ps_GetRun : S -> Z -> result (option Run);
  ps_UpdateRun : Time -> S -> Run -> S * option error;
  ps_ListRuns : S -> RunListOpts -> result (list Run * Z);
  ps_ListRunsByInstance : S -> string -> RunListOpts -> result (list Run * Z);
  ps_CreateRunStep : S -> RunStep -> S * result Z;
  ps_UpdateRunStep : S -> RunStep -> S * option error;
  ps_GetRunSteps : S -> Z -> result (list RunStep);
  ps_LockStepForExecution : S -> Z -> Z -> S * result bool;
  ps_ResetStepForRetry : S -> Z -> Z -> S * option error;
  ps_RequestStepApproval : S -> Z -> Z -> S * option error;
  ps_SeedBuiltins : Time -> S -> list Playbook -> S * option error;
  ps_UpdateFeedback : Time -> S -> Z -> option bool -> option bool -> string -> S * option error;
  ps_ListCompletedRunsWithoutFeedback : S -> Time -> result (list Run);
  ps_CleanOldRuns : Time -> S -> Duration -> S * result Z
}.

(** ** Rows *)

Definition nilIfEmpty (s : string) : option string :=
  if bool_decide (s = "") then None else Some s.

(** What scanning a nullable text column leaves in the Go string. *)
Definition text_of (o : option string) : string := default "" o.

Record StepRow := mkStepRow {
  sr_ID : Z;
  sr_Name : string;
  sr_Description : string;
  sr_SQLTemplate : option string;
  sr_SafetyTier : string;
  sr_TimeoutSeconds : Z;
  sr_ResultInterpretation : InterpretationSpec;
  sr_BranchRules : list BranchRule;
  sr_NextStepDefault : option Z;
  sr_ManualInstructions : option string;
  sr_EscalationContact : option string;
  sr_CreatedAt : Time
}.

Record RunRow := mkRunRow {
  rr_PlaybookID : Z;
  rr_PlaybookVersion : Z;
  rr_InstanceID : string;
  rr_StartedBy : string;
  rr_Status : string;
  rr_CurrentStepOrder : Z;
  rr_TriggerSource : option string;
  rr_TriggerID : option string;
  rr_StartedAt : Time;
  rr_UpdatedAt : Time;
  rr_CompletedAt : option Time;
  rr_FeedbackUseful : option bool;
  rr_FeedbackResolved : option bool;
  rr_FeedbackNotes : option string
}.

Record RunStepRow := mkRunStepRow {
  sp_ID : Z;
  sp_Status : string;
  sp_SQLExecuted : option string;
  sp_ResultJSON : option ExecutionResult;
  sp_ResultVerdict : option string;
  sp_ResultMessage : option string;
  sp_Error : option string;
  sp_ExecutedAt : option Time;
  sp_DurationMs : Z;
  sp_ConfirmedBy : option string
}.

(** Rows of [playbooks] keep no steps; steps and run steps are keyed by their UNIQUE columns. *)
Record PGStore := mkPGStore {
  pg_playbooks : gmap Z Playbook;
  pg_steps : gmap (Z * Z) StepRow;
  pg_runs : gmap Z RunRow;
  pg_run_steps : gmap (Z * Z) RunStepRow;
  pg_seq_playbooks : Z;
  pg_seq_steps : Z;
  pg_seq_runs : Z;
  pg_seq_run_steps : Z
}.

Definition empty_store : PGStore := mkPGStore ∅ ∅ ∅ ∅ 1 1 1 1.

Definition set_playbooks (s : PGStore) (m : gmap Z Playbook) : PGStore :=
  mkPGStore m (pg_steps s) (pg_runs s) (pg_run_steps s)
    (pg_seq_playbooks s) (pg_seq_steps s) (pg_seq_runs s) (pg_seq_run_steps s).
Definition set_runs (s : PGStore) (m : gmap Z RunRow) : PGStore :=
  mkPGStore (pg_playbooks s) (pg_steps s) m (pg_run_steps s)
    (pg_seq_playbooks s) (pg_seq_steps s) (pg_seq_runs s) (pg_seq_run_steps s).
Definition set_run_steps (s : PGStore) (m : gmap (Z * Z) RunStepRow) : PGStore :=
  mkPGStore (pg_playbooks s) (pg_steps s) (pg_runs s) m
    (pg_seq_playbooks s) (pg_seq_steps s) (pg_seq_runs s) (pg_seq_run_steps s).

(** A rolled back transaction: the tables of before with the sequences of after. *)
Definition rollback (s s' : PGStore) : PGStore :=
  mkPGStore (pg_playbooks s) (pg_steps s) (pg_runs s) (pg_run_steps s)
    (pg_seq_playbooks s') (pg_seq_steps s') (pg_seq_runs s') (pg_seq_run_steps s').

(** A value that fits an INT column. *)
Definition int4_ok (n : Z) : bool := (- 2 ^ 31 <=? n) && (n <? 2 ^ 31).

Section store.
Context {FT : FloatText} {SS : SliceSort} {MR : MapRange}.

(** ** JSON: encoding and decoding again *)

Definition finite (f : float64) : bool := negb (is_nan f) && negb (is_infinite f).

Definition json_any (v : any) : result any :=
  match v with
  | VFloat64 f => if finite f then Ok v else Err "json: unsupported value"
  | VFloat32 f =>
      if finite f then Ok (VFloat64 (ParseFloat (float32_text f))) else Err "json: unsupported value"
  | VInt n | VInt16 n | VInt32 n | VInt64 n => Ok (VFloat64 (f_of_Z n))
  | VNumber _ t => Ok (VFloat64 (ParseFloat t))
  | VNil | VString _ | VBool _ | VOther _ => Ok v
  end.

Fixpoint json_list {A} (f : A -> result A) (l : list A) : result (list A) :=
  match l with
  | [] => Ok []
  | x :: l' =>
      match f x with
      | Err e => Err e
      | Ok y => match json_list f l' with
                | Err e => Err e
                | Ok ys => Ok (y :: ys)
                end
      end
  end.

Definition json_rule (r : InterpretationRule) : result InterpretationRule :=
  match json_any (ir_Value r) with
  | Err e => Err e
  | Ok v => Ok (mkInterpretationRule (ir_Column r) (ir_Operator r) v (ir_Verdict r) (ir_Message r)
                  (ir_Scope r))
  end.

Definition json_row_rule (r : RowCountRule) : result RowCountRule :=
  match json_any (rc_Value r) with
  | Err e => Err e
  | Ok v => Ok (mkRowCountRule (rc_Operator r) v (rc_Verdict r) (rc_Message r))
  end.

Definition json_spec (s : InterpretationSpec) : result InterpretationSpec :=
  match json_list json_rule (is_Rules s) with
  | Err e => Err e
  | Ok rules =>
      match json_list json_row_rule (is_RowCountRules s) with
      | Err e => Err e
      | Ok rcs => Ok (mkInterpretationSpec rules rcs (is_DefaultVerdict s) (is_DefaultMessage s))
      end
  end.

Definition json_branch (b : BranchRule) : result BranchRule :=
  let c := br_Condition b in
  match json_any (bc_Value c) with
  | Err e => Err e
  | Ok v => Ok (mkBranchRule (mkBranchCondition (bc_Column c) (bc_Operator c) v (bc_Verdict c))
                  (br_GotoStep b) (br_Reason b))
  end.

(** ** Playbooks *)

Definition row_of_playbook (now : Time) (id : Z) (pb : Playbook) (builtin : bool) : Playbook :=
  mkPlaybook id (pb_Slug pb) (pb_Name pb) (pb_Description pb) (pb_Version pb) (pb_Status pb)
    (pb_Category pb) (pb_TriggerBindings pb) (pb_EstimatedDurationMin pb)
    (pb_RequiresPermission pb) (pb_Author pb) builtin [] now now.

Definition slug_taken (s : PGStore) (slug : string) : bool :=
  existsb (fun kv => bool_decide (pb_Slug (snd kv) = slug)) (map_to_list (pg_playbooks s)).

(** INSERT INTO playbooks: the sequence advances, then UNIQUE (slug) is checked. *)
Definition insert_playbook (now : Time) (s : PGStore) (pb : Playbook) (builtin : bool)
    : PGStore * result Z :=
  let id := pg_seq_playbooks s in
  let s := mkPGStore (pg_playbooks s) (pg_steps s) (pg_runs s) (pg_run_steps s) (id + 1)
             (pg_seq_steps s) (pg_seq_runs s) (pg_seq_run_steps s) in
  if negb (int4_ok (pb_Version pb)) then (s, Err "integer out of range")
  else if slug_taken s (pb_Slug pb) then (s, Err "playbooks_slug_key")
  else (set_playbooks s (<[id := row_of_playbook now id pb builtin]> (pg_playbooks s)), Ok id).

Definition insertStep (now : Time) (s : PGStore) (playbookID : Z) (step : Step)
    : PGStore * option error :=
  match json_spec (st_ResultInterpretation step) with
  | Err e => (s, Some ("marshal result_interpretation: " +:+ e))
  | Ok interp =>
  match json_list json_branch (st_BranchRules step) with
  | Err e => (s, Some ("marshal branch_rules: " +:+ e))
  | Ok branches =>
      let key := (playbookID, st_StepOrder step) in
      let s' := mkPGStore (pg_playbooks s) (pg_steps s) (pg_runs s) (pg_run_steps s)
                  (pg_seq_playbooks s) (pg_seq_steps s + 1) (pg_seq_runs s) (pg_seq_run_steps s) in
      if negb (int4_ok (st_StepOrder step) && int4_ok (st_TimeoutSeconds step)
               && int4_ok (default 0 (st_NextStepDefault step)))
      then (s, Some "integer out of range")
      else if bool_decide (is_Some (pg_steps s !! key)) then (s', Some "playbook_steps_playbook_id_step_order_key")
      else if bool_decide (pg_playbooks s !! playbookID = None)
           then (s', Some "playbook_steps_playbook_id_fkey")
      else
        let row := mkStepRow (pg_seq_steps s) (st_Name step) (st_Description step)
                     (nilIfEmpty (st_SQLTemplate step)) (st_SafetyTier step) (st_TimeoutSeconds step)
                     interp branches (st_NextStepDefault step)
                     (nilIfEmpty (st_ManualInstructions step)) (nilIfEmpty (st_EscalationContact step))
                     now in
        (mkPGStore (pg_playbooks s) (<[key := row]> (pg_steps s)) (pg_runs s) (pg_run_steps s)
           (pg_seq_playbooks s) (pg_seq_steps s + 1) (pg_seq_runs s) (pg_seq_run_steps s), None)
  end
  end.

(** The loop of insertions, with the step order of the one that failed. *)
Fixpoint insert_steps (now : Time) (s : PGStore) (playbookID : Z) (steps : list Step)
    : PGStore * option (Z * error) :=
  match steps with
  | [] => (s, None)
  | step :: steps' =>
      match insertStep now s playbookID step with
      | (s, Some e) => (s, Some (st_StepOrder step, e))
      | (s, None) => insert_steps now s playbookID steps'
      end
  end.

Definition pg_Create (now : Time) (s : PGStore) (pb : Playbook) : PGStore * result Z :=
  match insert_playbook now s pb (pb_IsBuiltin pb) with
  | (s', Err e) => (rollback s s', Err ("insert playbook: " +:+ e))
  | (s', Ok id) =>
      match insert_steps now s' id (pb_Steps pb) with
      | (s'', Some (n, e)) => (rollback s s'', Err ("insert step " +:+ pretty n +:+ ": " +:+ e))
      | (s'', None) => (s'', Ok id)
      end
  end.

Definition step_of_row (key : Z * Z) (r : StepRow) : Step :=
  mkStep (sr_ID r) (fst key) (snd key) (sr_Name r) (sr_Description r) (text_of (sr_SQLTemplate r))
    (sr_SafetyTier r) (sr_TimeoutSeconds r) (sr_ResultInterpretation r) (sr_BranchRules r)
    (sr_NextStepDefault r) (text_of (sr_ManualInstructions r)) (text_of (sr_EscalationContact r))
    (sr_CreatedAt r).

(** [WHERE playbook_id = $1 ORDER BY step_order]. *)
Definition getSteps (s : PGStore) (playbookID : Z) : list Step :=
  sort_slice (fun a b => st_StepOrder a <? st_StepOrder b)
    (omap (fun kv => if fst (fst kv) =? playbookID then Some (step_of_row (fst kv) (snd kv)) else None)
       (map_range (pg_steps s))).

Definition with_steps (pb : Playbook) (steps : list Step) : Playbook :=
  mkPlaybook (pb_ID pb) (pb_Slug pb) (pb_Name pb) (pb_Description pb) (pb_Version pb) (pb_Status pb)
    (pb_Category pb) (pb_TriggerBindings pb) (pb_EstimatedDurationMin pb) (pb_RequiresPermission pb)
    (pb_Author pb) (pb_IsBuiltin pb) steps (pb_CreatedAt pb) (pb_UpdatedAt pb).

Definition pg_Get (s : PGStore) (id : Z) : result (option Playbook) :=
  match pg_playbooks s !! id with
  | None => Ok None
  | Some pb => Ok (Some (with_steps pb (getSteps s (pb_ID pb))))
  end.

Definition playbook_rows (s : PGStore) : list Playbook := map snd (map_range (pg_playbooks s)).

Definition pg_GetBySlug (s : PGStore) (slug : string) : result (option Playbook) :=
  match List.filter (fun pb => bool_decide (pb_Slug pb = slug)) (playbook_rows s) with
  | [] => Ok None
  | pb :: _ => Ok (Some (with_steps pb (getSteps s (pb_ID pb))))
  end.

Definition updated_playbook (now : Time) (pb old : Playbook) : Playbook :=
  mkPlaybook (pb_ID old) (pb_Slug old) (pb_Name pb) (pb_Description pb) (pb_Version old + 1) "draft"
    (pb_Category pb) (pb_TriggerBindings pb) (pb_EstimatedDurationMin pb) (pb_RequiresPermission pb)
    (pb_Author pb) (pb_IsBuiltin old) [] (pb_CreatedAt old) now.

Definition delete_steps (s : PGStore) (playbookID : Z) : PGStore :=
  mkPGStore (pg_playbooks s) (filter (fun kv => fst (fst kv) <> playbookID) (pg_steps s)) (pg_runs s)
    (pg_run_steps s) (pg_seq_playbooks s) (pg_seq_steps s) (pg_seq_runs s) (pg_seq_run_steps s).

Definition pg_Update (now : Time) (s : PGStore) (pb : Playbook) : PGStore * option error :=
  let s1 := set_playbooks s (alter (updated_playbook now pb) (pb_ID pb) (pg_playbooks s)) in
  let s2 := delete_steps s1 (pb_ID pb) in
  match insert_steps now s2 (pb_ID pb) (pb_Steps pb) with
  | (s3, Some (n, e)) => (rollback s s3, Some ("insert step " +:+ pretty n +:+ ": " +:+ e))
  | (s3, None) => (s3, None)
  end.

(** The foreign key of playbook_runs refuses the deletion of a playbook with runs; the one of
    playbook_steps cascades. *)
Definition pg_Delete (s : PGStore) (id : Z) : PGStore * option error :=
  if bool_decide (is_Some (pg_playbooks s !! id))
     && existsb (fun kv => rr_PlaybookID (snd kv) =? id) (map_to_list (pg_runs s))
  then (s, Some "playbook_runs_playbook_id_fkey")
  else match pg_playbooks s !! id with
       | None => (s, None)
       | Some _ => (delete_steps (set_playbooks s (delete id (pg_playbooks s))) id, None)
       end.

Definition set_status (now : Time) (status : string) (pb : Playbook) : Playbook :=
  mkPlaybook (pb_ID pb) (pb_Slug pb) (pb_Name pb) (pb_Description pb) (pb_Version pb) status
    (pb_Category pb) (pb_TriggerBindings pb) (pb_EstimatedDurationMin pb) (pb_RequiresPermission pb)
    (pb_Author pb) (pb_IsBuiltin pb) (pb_Steps pb) (pb_CreatedAt pb) now.

Definition pg_Promote (now : Time) (s : PGStore) (id : Z) : PGStore * option error :=
  (set_playbooks s (alter (set_status now "stable") id (pg_playbooks s)), None).
Definition pg_Deprecate (now : Time) (s : PGStore) (id : Z) : PGStore * option error :=
  (set_playbooks s (alter (set_status now "deprecated") id (pg_playbooks s)), None).

(** [trigger_bindings @> {type: [value]}]. *)
Definition bindings_of (tb : TriggerBindings) (bindingType : string) : list string :=
  if bool_decide (bindingType = "hooks") then tb_Hooks tb
  else if bool_decide (bindingType = "root_causes") then tb_RootCauses tb
  else if bool_decide (bindingType = "metrics") then tb_Metrics tb
  else if bool_decide (bindingType = "adviser_rules") then tb_AdviserRules tb
  else [].

Definition bound (bindingType value : string) (pb : Playbook) : bool :=
  bool_decide (pb_Status pb = "stable")
  && bool_decide (value ∈ bindings_of (pb_TriggerBindings pb) bindingType).

(** [ORDER BY version DESC LIMIT 1]: ties are the server's choice. *)
Definition pg_FindByTriggerBinding (s : PGStore) (bindingType value : string)
    : result (option Playbook) :=
  match sort_slice (fun a b => pb_Version b <? pb_Version a)
          (List.filter (bound bindingType value) (playbook_rows s)) with
  | [] => Ok None
  | pb :: _ => Ok (Some (with_steps pb (getSteps s (pb_ID pb))))
  end.

End store.

(** What the server decides about text. *)
Class SqlText := { ilike : string -> string -> bool; text_ltb : string -> string -> bool }.

Section listing.
Context {SS : SliceSort} {MR : MapRange} {ST : SqlText}.

Definition pg_List (s : PGStore) (opts : PlaybookListOpts) : result (list Playbook * Z) :=
  let keep pb :=
    (bool_decide (pl_Status opts = "") || bool_decide (pb_Status pb = pl_Status opts))
    && (bool_decide (pl_Category opts = "") || bool_decide (pb_Category pb = pl_Category opts))
    && (bool_decide (pl_Search opts = "")
        || ilike (pb_Name pb) ("%" +:+ pl_Search opts +:+ "%")
        || ilike (pb_Slug pb) ("%" +:+ pl_Search opts +:+ "%")) in
  let rows := List.filter keep (playbook_rows s) in
  let limit := if pl_Limit opts <=? 0 then 50 else pl_Limit opts in
  match sql_page limit (pl_Offset opts)
          (sort_slice (fun a b => text_ltb (pb_Name a) (pb_Name b)) rows) with
  | Err e => Err ("list playbooks: " +:+ e)
  | Ok page => Ok (page, len rows)
  end.

End listing.

(** ** Runs *)

Section runs.
Context {SS : SliceSort} {MR : MapRange}.

(** The foreign key requires the playbook. *)
Definition pg_CreateRun (now : Time) (s : PGStore) (run : Run) : PGStore * result Z :=
  let id := pg_seq_runs s in
  let s' := mkPGStore (pg_playbooks s) (pg_steps s) (pg_runs s) (pg_run_steps s)
              (pg_seq_playbooks s) (pg_seq_steps s) (id + 1) (pg_seq_run_steps s) in
  if bool_decide (pg_playbooks s !! run_PlaybookID run = None)
  then (s', Err "create run: playbook_runs_playbook_id_fkey")
  else
    let row := mkRunRow (run_PlaybookID run) (run_PlaybookVersion run) (run_InstanceID run)
                 (run_StartedBy run) (run_Status run) (run_CurrentStepOrder run)
                 (nilIfEmpty (run_TriggerSource run)) (nilIfEmpty (run_TriggerID run))
                 now now None None None None in
    (set_runs s' (<[id := row]> (pg_runs s)), Ok id).

Definition run_step_of_row (key : Z * Z) (r : RunStepRow) : RunStep :=
  mkRunStep (sp_ID r) (fst key) (snd key) (sp_Status r) (text_of (sp_SQLExecuted r))
    (sp_ResultJSON r) (text_of (sp_ResultVerdict r)) (text_of (sp_ResultMessage r))
    (text_of (sp_Error r)) (sp_ExecutedAt r) (sp_DurationMs r) (text_of (sp_ConfirmedBy r)).

Definition pg_GetRunSteps (s : PGStore) (runID : Z) : result (list RunStep) :=
  Ok (sort_slice (fun a b => rs_StepOrder a <? rs_StepOrder b)
        (omap (fun kv => if fst (fst kv) =? runID then Some (run_step_of_row (fst kv) (snd kv)) else None)
           (map_range (pg_run_steps s)))).

Definition run_of_row (id : Z) (name : string) (steps : list RunStep) (r : RunRow) : Run :=
  mkRun id (rr_PlaybookID r) (rr_PlaybookVersion r) name (rr_InstanceID r) (rr_StartedBy r)
    (rr_Status r) (rr_CurrentStepOrder r) (text_of (rr_TriggerSource r)) (text_of (rr_TriggerID r))
    steps (rr_StartedAt r) (rr_UpdatedAt r) (rr_CompletedAt r) (rr_FeedbackUseful r)
    (rr_FeedbackResolved r) (text_of (rr_FeedbackNotes r)).

(** The inner join drops a run whose playbook is missing. *)
Definition pg_GetRun (s : PGStore) (id : Z) : result (option Run) :=
  match pg_runs s !! id with
  | None => Ok None
  | Some r =>
      match pg_playbooks s !! rr_PlaybookID r with
      | None => Ok None
      | Some pb =>
          match pg_GetRunSteps s id with
          | Err e => Err e
          | Ok steps => Ok (Some (run_of_row id (pb_Name pb) steps r))
          end
      end
  end.

Definition update_run_row (now : Time) (run : Run) (r : RunRow) : RunRow :=
  mkRunRow (rr_PlaybookID r) (rr_PlaybookVersion r) (rr_InstanceID r) (rr_StartedBy r)
    (run_Status run) (run_CurrentStepOrder run) (rr_TriggerSource r) (rr_TriggerID r)
    (rr_StartedAt r) now (run_CompletedAt run) (rr_FeedbackUseful r) (rr_FeedbackResolved r)
    (rr_FeedbackNotes r).

Definition pg_UpdateRun (now : Time) (s : PGStore) (run : Run) : PGStore * option error :=
  if negb (int4_ok (run_CurrentStepOrder run)) then (s, Some "integer out of range")
  else (set_runs s (alter (update_run_row now run) (run_ID run) (pg_runs s)), None).

(** [ORDER BY r.started_at DESC] with the joined playbook's name. *)
Definition listRunsWhere (s : PGStore) (instanceID : option string) (opts : RunListOpts)
    : result (list Run * Z) :=
  let keep (kv : Z * RunRow) :=
    match instanceID with Some i => bool_decide (rr_InstanceID (snd kv) = i) | None => true end
    && (bool_decide (ro_Status opts = "") || bool_decide (rr_Status (snd kv) = ro_Status opts)) in
  let rows := List.filter keep (map_range (pg_runs s)) in
  let joined := omap (fun kv => match pg_playbooks s !! rr_PlaybookID (snd kv) with
                                | Some pb => Some (run_of_row (fst kv) (pb_Name pb) [] (snd kv))
                                | None => None
                                end) rows in
  let limit := if ro_Limit opts <=? 0 then 50 else ro_Limit opts in
  match sql_page limit (ro_Offset opts)
          (sort_slice (fun a b => run_StartedAt b <? run_StartedAt a) joined) with
  | Err e => Err ("list runs: " +:+ e)
  | Ok page => Ok (page, len rows)
  end.

Definition pg_ListRuns (s : PGStore) (opts : RunListOpts) : result (list Run * Z) :=
  listRunsWhere s None opts.
Definition pg_ListRunsByInstance (s : PGStore) (instanceID : string) (opts : RunListOpts)
    : result (list Run * Z) := listRunsWhere s (Some instanceID) opts.

(** ** Run steps *)

Definition row_of_run_step (id : Z) (step : RunStep) : RunStepRow :=
  mkRunStepRow id (rs_Status step) (nilIfEmpty (rs_SQLExecuted step)) (rs_ResultJSON step)
    (nilIfEmpty (rs_ResultVerdict step)) (nilIfEmpty (rs_ResultMessage step))
    (nilIfEmpty (rs_Error step)) (rs_ExecutedAt step) (rs_DurationMs step)
    (nilIfEmpty (rs_ConfirmedBy step)).

(** ON CONFLICT (run_id, step_order) DO UPDATE keeps the id of the existing row; the sequence
    advances in both cases. *)
Definition pg_CreateRunStep (s : PGStore) (step : RunStep) : PGStore * result Z :=
  let key := (rs_RunID step, rs_StepOrder step) in
  let next := pg_seq_run_steps s in
  let s' := mkPGStore (pg_playbooks s) (pg_steps s) (pg_runs s) (pg_run_steps s)
              (pg_seq_playbooks s) (pg_seq_steps s) (pg_seq_runs s) (next + 1) in
  if negb (int4_ok (rs_StepOrder step)) then (s, Err "create run step: integer out of range")
  else if bool_decide (pg_runs s !! rs_RunID step = None)
       then (s', Err "create run step: playbook_run_steps_run_id_fkey")
  else
    let id := match pg_run_steps s !! key with Some r => sp_ID r | None => next end in
    (set_run_steps s' (<[key := row_of_run_step id step]> (pg_run_steps s)), Ok id).

Definition pg_UpdateRunStep (s : PGStore) (step : RunStep) : PGStore * option error :=
  (set_run_steps s (alter (fun r => row_of_run_step (sp_ID r) step)
                      (rs_RunID step, rs_StepOrder step) (pg_run_steps s)), None).

Definition with_step_status (status : string) (r : RunStepRow) : RunStepRow :=
  mkRunStepRow (sp_ID r) status (sp_SQLExecuted r) (sp_ResultJSON r) (sp_ResultVerdict r)
    (sp_ResultMessage r) (sp_Error r) (sp_ExecutedAt r) (sp_DurationMs r) (sp_ConfirmedBy r).

Definition clear_error (r : RunStepRow) : RunStepRow :=
  mkRunStepRow (sp_ID r) (sp_Status r) (sp_SQLExecuted r) (sp_ResultJSON r) (sp_ResultVerdict r)
    (sp_ResultMessage r) None (sp_ExecutedAt r) (sp_DurationMs r) (sp_ConfirmedBy r).

Definition lockable (status : string) : bool :=
  bool_decide (status ∈ ["pending"; "awaiting_confirmation"; "pending_approval"]).

(** One UPDATE ... RETURNING: the test and the change are one step. *)
Definition pg_LockStepForExecution (s : PGStore) (runID stepOrder : Z) : PGStore * result bool :=
  match pg_run_steps s !! (runID, stepOrder) with
  | Some r =>
      if lockable (sp_Status r)
      then (set_run_steps s (<[(runID, stepOrder) := with_step_status "running" r]> (pg_run_steps s)),
            Ok true)
      else (s, Ok false)
  | None => (s, Ok false)
  end.

Definition pg_ResetStepForRetry (s : PGStore) (runID stepOrder : Z) : PGStore * option error :=
  match pg_run_steps s !! (runID, stepOrder) with
  | Some r =>
      if bool_decide (sp_Status r = "failed")
      then (set_run_steps s (<[(runID, stepOrder) := clear_error (with_step_status "pending" r)]>
                               (pg_run_steps s)), None)
      else (s, None)
  | None => (s, None)
  end.

Definition pg_RequestStepApproval (s : PGStore) (runID stepOrder : Z) : PGStore * option error :=
  match pg_run_steps s !! (runID, stepOrder) with
  | Some r =>
      if bool_decide (sp_Status r ∈ ["pending"; "awaiting_confirmation"])
      then (set_run_steps s (<[(runID, stepOrder) := with_step_status "pending_approval" r]>
                               (pg_run_steps s)), None)
      else (s, None)
  | None => (s, None)
  end.

(** ** Feedback and retention *)

Definition feedback_row (now : Time) (useful resolved : option bool) (notes : string) (r : RunRow)
    : RunRow :=
  mkRunRow (rr_PlaybookID r) (rr_PlaybookVersion r) (rr_InstanceID r) (rr_StartedBy r) (rr_Status r)
    (rr_CurrentStepOrder r) (rr_TriggerSource r) (rr_TriggerID r) (rr_StartedAt r) now
    (rr_CompletedAt r) useful resolved (nilIfEmpty notes).

Definition pg_UpdateFeedback (now : Time) (s : PGStore) (runID : Z) (useful resolved : option bool)
    (notes : string) : PGStore * option error :=
  (set_runs s (alter (feedback_row now useful resolved notes) runID (pg_runs s)), None).

Definition awaits_feedback (since : Time) (r : RunRow) : bool :=
  bool_decide (rr_Status r = "completed")
  && bool_decide (rr_FeedbackResolved r = None)
  && match rr_CompletedAt r with Some t => since <=? t | None => false end.

Definition pg_ListCompletedRunsWithoutFeedback (s : PGStore) (since : Time) : result (list Run) :=
  Ok (sort_slice (fun a b => default 0 (run_CompletedAt a) <? default 0 (run_CompletedAt b))
        (omap (fun kv => if awaits_feedback since (snd kv)
                         then Some (run_of_row (fst kv) "" [] (snd kv)) else None)
           (map_range (pg_runs s)))).

(** Completed or abandoned runs past the cutoff; the foreign key removes their steps. *)
Definition pg_CleanOldRuns (now : Time) (s : PGStore) (olderThan : Duration) : PGStore * result Z :=
  let cutoff := time_Add now (- olderThan) in
  let old (r : RunRow) := match rr_CompletedAt r with Some t => t <? cutoff | None => false end in
  let gone := filter (fun kv => old (snd kv) = true) (pg_runs s) in
  let s' := set_runs s (filter (fun kv => old (snd kv) = false) (pg_runs s)) in
  (set_run_steps s' (filter (fun kv => gone !! (fst (fst kv)) = None) (pg_run_steps s)),
   Ok (Z.of_nat (size gone))).

End runs.

(** ** Seeding *)

Section seeding.
Context {FT : FloatText}.

(** A playbook whose slug exists, or whose row is refused, is skipped; a failing step stops the
    loop. *)
Fixpoint pg_SeedBuiltins (now : Time) (s : PGStore) (playbooks : list Playbook)
    : PGStore * option error :=
  match playbooks with
  | [] => (s, None)
  | pb :: rest =>
      match insert_playbook now s pb true with
      | (s', Err _) => pg_SeedBuiltins now (rollback s s') rest
      | (s', Ok id) =>
          match insert_steps now s' id (pb_Steps pb) with
          | (s'', Some (n, e)) =>
              (rollback s s'', Some ("seed step " +:+ pretty n +:+ " for " +:+ pb_Slug pb +:+ ": " +:+ e))
          | (s'', None) => pg_SeedBuiltins now s'' rest
          end
      end
  end.

End seeding.

#[export] Instance PGPlaybookStore `{FT : FloatText} `{SS : SliceSort} `{MR : MapRange} `{ST : SqlText}
    : PlaybookStore PGStore := {|
  ps_Create := pg_Create;
  ps_Get := pg_Get;
  ps_GetBySlug := pg_GetBySlug;
  ps_Update := pg_Update;
  ps_Delete := pg_Delete;
  ps_List := pg_List;
  ps_Promote := pg_Promote;
  ps_Deprecate := pg_Deprecate;
  ps_FindByTriggerBinding := pg_FindByTriggerBinding;
  ps_CreateRun := pg_CreateRun;
  ps_GetRun := pg_GetRun;
  ps_UpdateRun := pg_UpdateRun;
  ps_ListRuns := pg_ListRuns;
  ps_ListRunsByInstance := pg_ListRunsByInstance;
  ps_CreateRunStep := pg_CreateRunStep;
  ps_UpdateRunStep := pg_UpdateRunStep;
  ps_GetRunSteps := pg_GetRunSteps;
  ps_LockStepForExecution := pg_LockStepForExecution;
  ps_ResetStepForRetry := pg_ResetStepForRetry;
  ps_RequestStepApproval := pg_RequestStepApproval;
  ps_SeedBuiltins := pg_SeedBuiltins;
  ps_UpdateFeedback := pg_UpdateFeedback;
  ps_ListCompletedRunsWithoutFeedback := pg_ListCompletedRunsWithoutFeedback;
  ps_CleanOldRuns := pg_CleanOldRuns
|}.

(** ** nullstore.go: every operation succeeds and keeps nothing *)

Inductive NullPlaybookStore := NewNullPlaybookStore.

Definition nullPlaybooks : PlaybookStore NullPlaybookStore := {|
  ps_Create := fun _ n _ => (n, Ok 0);
  ps_Get := fun _ _ => Ok None;
  ps_GetBySlug := fun _ _ => Ok None;
  ps_Update := fun _ n _ => (n, None);
  ps_Delete := fun n _ => (n, None);
  ps_List := fun _ _ => Ok ([], 0);
  ps_Promote := fun _ n _ => (n, None);
  ps_Deprecate := fun _ n _ => (n, None);
  ps_FindByTriggerBinding := fun _ _ _ => Ok None;
  ps_CreateRun := fun _ n _ => (n, Ok 0);
  ps_GetRun := fun _ _ => Ok None;
  ps_UpdateRun := fun _ n _ => (n, None);
  ps_ListRuns := fun _ _ => Ok ([], 0);
  ps_ListRunsByInstance := fun _ _ _ => Ok ([], 0);
  ps_CreateRunStep := fun n _ => (n, Ok 0);
  ps_UpdateRunStep := fun n _ => (n, None);
  ps_GetRunSteps := fun _ _ => Ok [];
  ps_LockStepForExecution := fun n _ _ => (n, Ok true);
  ps_ResetStepForRetry := fun n _ _ => (n, None);
  ps_RequestStepApproval := fun n _ _ => (n, None);
  ps_SeedBuiltins := fun _ n _ => (n, None);
  ps_UpdateFeedback := fun _ n _ _ _ _ => (n, None);
  ps_ListCompletedRunsWithoutFeedback := fun _ _ => Ok [];
  ps_CleanOldRuns := fun _ n _ => (n, Ok 0)
|}.
