(* ===== verification/PlaybookApi.v ===== *)
(** * Playbooks: resolver, feedback worker and the run handlers

    Models internal/playbook/resolver.go and feedback_worker.go over the store interface, and
    internal/api/playbooks.go. A handler is a program: a tree of the calls it makes to the store,
    to the executor and to the clock, ending in the response. A program runs alone ([run_alone])
    or interleaved with others call by call ([pool_step]), each call being one step. *)
From S2P Require Import Prelude Float64 GoText Alert Auth Http Playbook PlaybookSeed PlaybookStore.

Local Open Scope Z_scope.

(** ** resolver.go *)

Record ResolverContext := mkResolverContext {
  rx_HookID : string;
  rx_RootCauseKey : string;
  rx_MetricKey : string;
  rx_AdviserRule : string;
  rx_InstanceID : string
}.

Section resolver.
Context {S : Type} {PS : PlaybookStore S}.

(** One priority level: an empty key is not looked up, and a failed lookup is no match. *)
Definition lookup_binding (s : S) (bindingType key : string) : option Playbook :=
  if bool_decide (key = "") then None
  else match ps_FindByTriggerBinding s bindingType key with
       | Ok pb => pb
       | Err _ => None
       end.

Definition Resolve (s : S) (rc : ResolverContext) : option Playbook * string :=
  match lookup_binding s "hooks" (rx_HookID rc) with
  | Some pb => (Some pb, "rca_hook")
  | None =>
  match lookup_binding s "root_causes" (rx_RootCauseKey rc) with
  | Some pb => (Some pb, "root_cause")
  | None =>
  match lookup_binding s "metrics" (rx_MetricKey rc) with
  | Some pb => (Some pb, "metric")
  | None =>
  match lookup_binding s "adviser_rules" (rx_AdviserRule rc) with
  | Some pb => (Some pb, "adviser_rule")
  | None => (None, "")
  end
  end
  end
  end.

(** ** feedback_worker.go *)

Record FeedbackWorker := mkFeedbackWorker { fw_feedbackWindow : Duration }.

Definition NewFeedbackWorker (feedbackWindow : Duration) : FeedbackWorker :=
  mkFeedbackWorker (if feedbackWindow =? 0 then 5 * Minute else feedbackWindow).

(** One run; [unresolved] is the answer of the alert store, absent when there is none. *)
Definition feedback_run (now : Time) (w : FeedbackWorker)
    (unresolved : option (result (list AlertEvent))) (s : S) (run : Run) : S :=
  match run_CompletedAt run with
  | None => s
  | Some completedAt =>
      if fw_feedbackWindow w <? time_Sub now completedAt then s
      else if bool_decide (run_TriggerSource run = "alert")
              && negb (bool_decide (run_TriggerID run = "")) then
        match unresolved with
        | None => s
        | Some (Err _) => s
        | Some (Ok events) =>
            if existsb (fun ae => bool_decide (e_RuleID ae = run_TriggerID run)) events then s
            else fst (ps_UpdateFeedback now s (run_ID run) None (Some true)
                        "auto-resolved after playbook completion")
        end
      else s
  end.

Definition evaluate (now : Time) (w : FeedbackWorker)
    (unresolved : option (result (list AlertEvent))) (s : S) : S :=
  let since := time_Add now (i64 (i64 (- fw_feedbackWindow w) * 2)) in
  match ps_ListCompletedRunsWithoutFeedback s since with
  | Err _ => s
  | Ok runs => foldl (feedback_run now w unresolved) s runs
  end.

End resolver.

(** ** Programs *)

Inductive call :=
  | KNow
  | KInstanceExists (id : string)
  | KExecuteStep (instanceID : string) (runID stepOrder : Z) (step : Step)
  | KResolve (rc : ResolverContext)
  | KCreate (pb : Playbook)
  | KGet (id : Z)
  | KUpdate (pb : Playbook)
  | KDelete (id : Z)
  | KList (opts : PlaybookListOpts)
  | KPromote (id : Z)
  | KDeprecate (id : Z)
  | KCreateRun (run : Run)
  | KGetRun (id : Z)
  | KUpdateRun (run : Run)
  | KListRuns (opts : RunListOpts)
  | KListRunsByInstance (instanceID : string) (opts : RunListOpts)
  | KCreateRunStep (rs : RunStep)
  | KUpdateRunStep (rs : RunStep)
  | KLockStepForExecution (runID stepOrder : Z)
  | KResetStepForRetry (runID stepOrder : Z)
  | KRequestStepApproval (runID stepOrder : Z)
  | KUpdateFeedback (runID : Z) (useful resolved : option bool) (notes : string).

Definition reply (c : call) : Type :=
  match c with
  | KNow => Time
  | KInstanceExists _ => bool
  | KExecuteStep _ _ _ _ => result ExecutionResult
  | KResolve _ => option Playbook * string
  | KCreate _ | KCreateRun _ | KCreateRunStep _ => result Z
  | KGet _ => result (option Playbook)
  | KGetRun _ => result (option Run)
  | KList _ => result (list Playbook * Z)
  | KListRuns _ | KListRunsByInstance _ _ => result (list Run * Z)
  | KLockStepForExecution _ _ => result bool
  | KUpdate _ | KDelete _ | KPromote _ | KDeprecate _ | KUpdateRun _ | KUpdateRunStep _
  | KResetStepForRetry _ _ | KRequestStepApproval _ _ | KUpdateFeedback _ _ _ _ => option error
  end.

Inductive playBody :=
  | BPlaybooks (l : list Playbook) (total : Z)
  | BPlaybook (pb : Playbook)
  | BResolved (pb : option Playbook) (match_reason : option string)
  | BStatus (status : string)
  | BStatusMessage (status message : string)
  | BRun (run : Run)
  | BRunWith (run : Run) (pb : option Playbook)
  | BRuns (l : list Run) (total : Z)
  | BAwaitingConfirmation (sql safety_tier : string)
  | BManualAction (instructions escalation : string)
  | BConflict (error : string)
  | BStepFailed (rs : RunStep) (next_step : Z) (run_status : string) (can_retry : bool)
  | BStepResult (rs : RunStep) (next_step : Z) (run_status : string).

Inductive prog :=
  | Done (r : response playBody)
  | Call (c : call) (k : reply c -> prog).

Declare Scope prog_scope.
Delimit Scope prog_scope with prog.
Notation "'let!' x ':=' c 'in' p" := (Call c (fun x => p))
  (at level 200, x name, c at level 100, p at level 200, right associativity) : prog_scope.
Notation "'do!' c 'in' p" := (Call c (fun _ => p))
  (at level 200, c at level 100, p at level 200, right associativity) : prog_scope.
Local Open Scope prog_scope.

(** Which of the optional collaborators the server was given. *)
Record PlaybookServer := mkPlaybookServer {
  sv_store : bool;
  sv_executor : bool;
  sv_resolver : bool
}.

Definition disabled : prog :=
  Done (writeError StatusServiceUnavailable "PLAYBOOKS_DISABLED" "playbooks not available").
Definition invalid_id (message : string) : prog :=
  Done (writeError StatusBadRequest "INVALID_ID" message).
Definition server_error (code : string) (e : error) : prog :=
  Done (writeError StatusInternalServerError code e).
Definition ok (b : playBody) : prog := Done (writeJSON StatusOK b).

Section handlers.
Context {FT : FloatText}.

(** ** Playbooks *)

Definition handleListPlaybooks (sv : PlaybookServer) (status category search limit offset : string)
    : prog :=
  if negb (sv_store sv) then disabled else
  let opts := mkPlaybookListOpts status category search (queryInt limit 50) (queryInt offset 0) in
  let! r := KList opts in
  match r with
  | Err e => server_error "LIST_ERROR" e
  | Ok (playbooks, total) => ok (BPlaybooks playbooks total)
  end.

Definition handleGetPlaybook (sv : PlaybookServer) (idStr : string) : prog :=
  if negb (sv_store sv) then disabled else
  match ParseInt idStr with
  | (_, Some _) => invalid_id "invalid playbook ID"
  | (id, None) =>
      let! r := KGet id in
      match r with
      | Err e => server_error "GET_ERROR" e
      | Ok None => Done (writeError StatusNotFound "NOT_FOUND" "playbook not found")
      | Ok (Some pb) => ok (BPlaybook pb)
      end
  end.

Definition with_author (claims : option Claims) (id version : Z) (status : string) (pb : Playbook)
    : Playbook :=
  mkPlaybook id (pb_Slug pb) (pb_Name pb) (pb_Description pb) version status (pb_Category pb)
    (pb_TriggerBindings pb) (pb_EstimatedDurationMin pb) (pb_RequiresPermission pb)
    (match claims with Some c => c_Username c | None => pb_Author pb end) (pb_IsBuiltin pb)
    (pb_Steps pb) (pb_CreatedAt pb) (pb_UpdatedAt pb).

Definition with_id (id : Z) (pb : Playbook) : Playbook :=
  mkPlaybook id (pb_Slug pb) (pb_Name pb) (pb_Description pb) (pb_Version pb) (pb_Status pb)
    (pb_Category pb) (pb_TriggerBindings pb) (pb_EstimatedDurationMin pb) (pb_RequiresPermission pb)
    (pb_Author pb) (pb_IsBuiltin pb) (pb_Steps pb) (pb_CreatedAt pb) (pb_UpdatedAt pb).

Definition handleCreatePlaybook (sv : PlaybookServer) (claims : option Claims)
    (decoded : result Playbook) : prog :=
  if negb (sv_store sv) then disabled else
  match decoded with
  | Err e => Done (writeError StatusBadRequest "INVALID_BODY" e)
  | Ok pb =>
      let pb := with_author claims (pb_ID pb) 1 "draft" pb in
      let! r := KCreate pb in
      match r with
      | Err e => server_error "CREATE_ERROR" e
      | Ok id => Done (writeJSON StatusCreated (BPlaybook (with_id id pb)))
      end
  end.

Definition handleUpdatePlaybook (sv : PlaybookServer) (claims : option Claims) (idStr : string)
    (decoded : result Playbook) : prog :=
  if negb (sv_store sv) then disabled else
  match ParseInt idStr with
  | (_, Some _) => invalid_id "invalid playbook ID"
  | (id, None) =>
      match decoded with
      | Err e => Done (writeError StatusBadRequest "INVALID_BODY" e)
      | Ok pb =>
          let! r := KUpdate (with_author claims id (pb_Version pb) (pb_Status pb) pb) in
          match r with
          | Some e => server_error "UPDATE_ERROR" e
          | None => ok (BStatus "updated")
          end
      end
  end.

Definition handleDeletePlaybook (sv : PlaybookServer) (idStr : string) : prog :=
  if negb (sv_store sv) then disabled else
  match ParseInt idStr with
  | (_, Some _) => invalid_id "invalid playbook ID"
  | (id, None) =>
      let! r := KGet id in
      match r with
      | Err e => server_error "GET_ERROR" e
      | Ok None => Done (writeError StatusNotFound "NOT_FOUND" "playbook not found")
      | Ok (Some pb) =>
          if pb_IsBuiltin pb then
            Done (writeError StatusForbidden "BUILTIN" "cannot delete built-in playbooks")
          else
            let! r := KDelete id in
            match r with
            | Some e => server_error "DELETE_ERROR" e
            | None => ok (BStatus "deleted")
            end
      end
  end.

Definition handlePromotePlaybook (sv : PlaybookServer) (idStr : string) : prog :=
  if negb (sv_store sv) then disabled else
  match ParseInt idStr with
  | (_, Some _) => invalid_id "invalid playbook ID"
  | (id, None) =>
      let! r := KPromote id in
      match r with
      | Some e => server_error "PROMOTE_ERROR" e
      | None => ok (BStatus "promoted")
      end
  end.

Definition handleDeprecatePlaybook (sv : PlaybookServer) (idStr : string) : prog :=
  if negb (sv_store sv) then disabled else
  match ParseInt idStr with
  | (_, Some _) => invalid_id "invalid playbook ID"
  | (id, None) =>
      let! r := KDeprecate id in
      match r with
      | Some e => server_error "DEPRECATE_ERROR" e
      | None => ok (BStatus "deprecated")
      end
  end.

Definition handleResolvePlaybook (sv : PlaybookServer) (rc : ResolverContext) : prog :=
  if negb (sv_resolver sv) then disabled else
  let! r := KResolve rc in
  let (pb, reason) := r in
  ok (BResolved pb (match pb with Some _ => Some reason | None => None end)).

(** ** Runs *)

Definition username (claims : option Claims) : string :=
  match claims with Some c => c_Username c | None => "anonymous" end.

Definition pending_step (runID stepOrder : Z) : RunStep :=
  mkRunStep 0 runID stepOrder "pending" "" None "" "" "" None 0 "".

(** The loop that creates the pending records; a failure is logged. *)
Fixpoint create_run_steps (runID : Z) (steps : list Step) (next : prog) : prog :=
  match steps with
  | [] => next
  | step :: steps' =>
      do! KCreateRunStep (pending_step runID (st_StepOrder step)) in
      create_run_steps runID steps' next
  end.

Definition run_with_id (id : Z) (run : Run) : Run :=
  mkRun id (run_PlaybookID run) (run_PlaybookVersion run) (run_PlaybookName run) (run_InstanceID run)
    (run_StartedBy run) (run_Status run) (run_CurrentStepOrder run) (run_TriggerSource run)
    (run_TriggerID run) (run_Steps run) (run_StartedAt run) (run_UpdatedAt run) (run_CompletedAt run)
    (run_FeedbackUseful run) (run_FeedbackResolved run) (run_FeedbackNotes run).

(** [trigger] is what the body decodes to, empty strings otherwise. *)
Definition handleStartRun (sv : PlaybookServer) (claims : option Claims)
    (instanceID playbookIdStr : string) (trigger : string * string) : prog :=
  if negb (sv_store sv) || negb (sv_executor sv) then disabled else
  let! exists_ := KInstanceExists instanceID in
  if negb exists_ then Done (writeError StatusNotFound "INSTANCE_NOT_FOUND" "instance not found") else
  match ParseInt playbookIdStr with
  | (_, Some _) => invalid_id "invalid playbook ID"
  | (playbookID, None) =>
      let! r := KGet playbookID in
      match r with
      | Err _ | Ok None => Done (writeError StatusNotFound "PLAYBOOK_NOT_FOUND" "playbook not found")
      | Ok (Some pb) =>
          let run := mkRun 0 (pb_ID pb) (pb_Version pb) "" instanceID (username claims) "in_progress" 1
                       (fst trigger) (snd trigger) [] zero_time zero_time None None None "" in
          let! r := KCreateRun run in
          match r with
          | Err e => server_error "CREATE_RUN_ERROR" e
          | Ok runID =>
              create_run_steps runID (pb_Steps pb)
                (Done (writeJSON StatusCreated (BRun (run_with_id runID run))))
          end
      end
  end.

Definition handleGetRun (sv : PlaybookServer) (runIdStr : string) : prog :=
  if negb (sv_store sv) then disabled else
  match ParseInt runIdStr with
  | (_, Some _) => invalid_id "invalid run ID"
  | (runID, None) =>
      let! r := KGetRun runID in
      match r with
      | Err e => server_error "GET_RUN_ERROR" e
      | Ok None => Done (writeError StatusNotFound "NOT_FOUND" "run not found")
      | Ok (Some run) =>
          let! r := KGet (run_PlaybookID run) in
          match r with
          | Ok (Some pb) => ok (BRunWith run (Some pb))
          | _ => ok (BRunWith run None)
          end
      end
  end.

(** ** Executing a step *)

Definition find_step (pb : Playbook) (stepOrder : Z) : option Step :=
  List.find (fun st => st_StepOrder st =? stepOrder) (pb_Steps pb).

Definition failed_step (runID stepOrder : Z) (step : Step) (e : error) (now : Time) : RunStep :=
  mkRunStep 0 runID stepOrder "failed" (st_SQLTemplate step) None "" "" e (Some now) 0 "".

Definition completed_step (runID stepOrder : Z) (step : Step) (res : ExecutionResult)
    (verdict message : string) (now : Time) (claims : option Claims) : RunStep :=
  mkRunStep 0 runID stepOrder "completed" (st_SQLTemplate step) (Some res) verdict message ""
    (Some now) (er_Duration res) (username claims).

Definition acknowledged_step (runID stepOrder : Z) (now : Time) : RunStep :=
  mkRunStep 0 runID stepOrder "completed" "" None "" "" "" (Some now) 0 "".

Definition advanced_run (run : Run) (nextStep : Z) (status : string) (completedAt : option Time) : Run :=
  mkRun (run_ID run) (run_PlaybookID run) (run_PlaybookVersion run) (run_PlaybookName run)
    (run_InstanceID run) (run_StartedBy run) status nextStep (run_TriggerSource run)
    (run_TriggerID run) (run_Steps run) (run_StartedAt run) (run_UpdatedAt run) completedAt
    (run_FeedbackUseful run) (run_FeedbackResolved run) (run_FeedbackNotes run).

Definition save_run (run : Run) (rs : RunStep) (nextStep : Z) : prog :=
  do! KUpdateRun run in ok (BStepResult rs nextStep (run_Status run)).

(** After the lock: run the statement, then save a failure or the result and the run. *)
Definition execute_locked (claims : option Claims) (run : Run) (runID stepOrder : Z) (step : Step)
    : prog :=
  let! r := KExecuteStep (run_InstanceID run) runID stepOrder step in
  match r with
  | Err e =>
      let! now := KNow in
      let rs := failed_step runID stepOrder step e now in
      do! KUpdateRunStep rs in
      ok (BStepFailed rs stepOrder "in_progress" true)
  | Ok res =>
      let (verdict, message) :=
        Interpret (st_ResultInterpretation step) (er_Columns res) (er_Rows res) (er_RowCount res) in
      let nextStep := EvaluateBranch step verdict (er_Columns res) (er_Rows res) in
      let! now := KNow in
      let rs := completed_step runID stepOrder step res verdict message now claims in
      do! KUpdateRunStep rs in
      if nextStep =? 0 then
        let! completedAt := KNow in
        save_run (advanced_run run nextStep "completed" (Some completedAt)) rs nextStep
      else save_run (advanced_run run nextStep (run_Status run) (run_CompletedAt run)) rs nextStep
  end.

Definition lock_and_execute (claims : option Claims) (run : Run) (runID stepOrder : Z) (step : Step)
    : prog :=
  let! locked := KLockStepForExecution runID stepOrder in
  match locked with
  | Ok true => execute_locked claims run runID stepOrder step
  | _ => Done (writeJSON StatusConflict (BConflict "Step is already being executed or has completed"))
  end.

(** The switch on the tier; an unknown tier falls through to the lock. *)
Definition execute_by_tier (claims : option Claims) (confirmed : bool) (run : Run)
    (runID stepOrder : Z) (step : Step) : prog :=
  let proceed := lock_and_execute claims run runID stepOrder step in
  if bool_decide (st_SafetyTier step = TierDiagnostic) then proceed
  else if bool_decide (st_SafetyTier step = TierRemediate) then
    if negb confirmed then ok (BAwaitingConfirmation (st_SQLTemplate step) (st_SafetyTier step))
    else proceed
  else if bool_decide (st_SafetyTier step = TierDangerous) then
    if match claims with
       | Some c => negb (HasPermission (c_Role c) PermInstanceManagement)
       | None => true
       end
    then ok (BStatusMessage "awaiting_approval" "This action requires DBA approval")
    else proceed
  else if bool_decide (st_SafetyTier step = TierExternal) then
    let! now := KNow in
    do! KUpdateRunStep (acknowledged_step runID stepOrder now) in
    ok (BManualAction (st_ManualInstructions step) (st_EscalationContact step))
  else proceed.

Definition handleExecuteStep (sv : PlaybookServer) (claims : option Claims) (confirmed : bool)
    (runIdStr stepOrderStr : string) : prog :=
  if negb (sv_store sv) || negb (sv_executor sv) then disabled else
  match ParseInt runIdStr with
  | (_, Some _) => invalid_id "invalid run ID"
  | (runID, None) =>
  match Atoi stepOrderStr with
  | (_, Some _) => Done (writeError StatusBadRequest "INVALID_STEP" "invalid step order")
  | (stepOrder, None) =>
  let! r := KGetRun runID in
  match r with
  | Err _ | Ok None => Done (writeError StatusNotFound "RUN_NOT_FOUND" "run not found")
  | Ok (Some run) =>
  let! r := KGet (run_PlaybookID run) in
  match r with
  | Err _ | Ok None => Done (writeError StatusNotFound "PLAYBOOK_NOT_FOUND" "playbook not found")
  | Ok (Some pb) =>
  match find_step pb stepOrder with
  | None => Done (writeError StatusNotFound "STEP_NOT_FOUND" "step not found")
  | Some step => execute_by_tier claims confirmed run runID stepOrder step
  end
  end
  end
  end
  end.

(** ** Other step and run operations: parse errors leave the parser's value *)

Definition handleConfirmStep : prog := ok (BStatus "confirmed").

Definition handleApproveStep (sv : PlaybookServer) (runIdStr stepOrderStr : string) : prog :=
  if negb (sv_store sv) then disabled else
  do! KResetStepForRetry (fst (ParseInt runIdStr)) (fst (Atoi stepOrderStr)) in
  ok (BStatus "approved").

Definition handleRequestApproval (sv : PlaybookServer) (runIdStr stepOrderStr : string) : prog :=
  if negb (sv_store sv) then disabled else
  let! r := KRequestStepApproval (fst (ParseInt runIdStr)) (fst (Atoi stepOrderStr)) in
  match r with
  | Some e => server_error "APPROVAL_ERROR" e
  | None => ok (BStatusMessage "pending_approval"
                  "Approval requested. A DBA can approve this step from the run URL.")
  end.

Definition handleRetryStep (sv : PlaybookServer) (runIdStr stepOrderStr : string) : prog :=
  if negb (sv_store sv) then disabled else
  let! r := KResetStepForRetry (fst (ParseInt runIdStr)) (fst (Atoi stepOrderStr)) in
  match r with
  | Some e => server_error "RETRY_ERROR" e
  | None => ok (BStatus "pending")
  end.

Definition skipped_step (runID stepOrder : Z) (now : Time) : RunStep :=
  mkRunStep 0 runID stepOrder "skipped" "" None "" "" "" (Some now) 0 "".

Definition handleSkipStep (sv : PlaybookServer) (runIdStr stepOrderStr : string) : prog :=
  if negb (sv_store sv) then disabled else
  let! now := KNow in
  do! KUpdateRunStep (skipped_step (fst (ParseInt runIdStr)) (fst (Atoi stepOrderStr)) now) in
  ok (BStatus "skipped").

Definition handleAbandonRun (sv : PlaybookServer) (runIdStr : string) : prog :=
  if negb (sv_store sv) then disabled else
  let runID := fst (ParseInt runIdStr) in
  let! r := KGetRun runID in
  match r with
  | Err _ | Ok None => Done (writeError StatusNotFound "NOT_FOUND" "run not found")
  | Ok (Some run) =>
      let! completedAt := KNow in
      do! KUpdateRun (advanced_run run (run_CurrentStepOrder run) "abandoned" (Some completedAt)) in
      do! KUpdateFeedback runID None (Some false) "run abandoned" in
      ok (BStatus "abandoned")
  end.

Definition handleSubmitFeedback (sv : PlaybookServer) (runIdStr : string)
    (decoded : result (option bool * option bool * string)) : prog :=
  if negb (sv_store sv) then disabled else
  match decoded with
  | Err e => Done (writeError StatusBadRequest "INVALID_BODY" e)
  | Ok (useful, resolved, notes) =>
      let! r := KUpdateFeedback (fst (ParseInt runIdStr)) useful resolved notes in
      match r with
      | Some e => server_error "FEEDBACK_ERROR" e
      | None => ok (BStatus "feedback_recorded")
      end
  end.

Definition handleListInstanceRuns (sv : PlaybookServer) (instanceID status limit offset : string)
    : prog :=
  if negb (sv_store sv) then disabled else
  let! r := KListRunsByInstance instanceID (mkRunListOpts status (queryInt limit 50) (queryInt offset 0)) in
  match r with
  | Err e => server_error "LIST_ERROR" e
  | Ok (runs, total) => ok (BRuns runs total)
  end.

Definition handleListAllRuns (sv : PlaybookServer) (status limit offset : string) : prog :=
  if negb (sv_store sv) then disabled else
  let! r := KListRuns (mkRunListOpts status (queryInt limit 50) (queryInt offset 0)) in
  match r with
  | Err e => server_error "LIST_ERROR" e
  | Ok (runs, total) => ok (BRuns runs total)
  end.

End handlers.

(** ** Running programs *)

(** What a call meets outside the store: the clock, the instances known and the executor. *)
Record env := mkEnv {
  ev_now : Time;
  ev_instances : list string;
  ev_execute : string -> Step -> result ExecutionResult
}.

Section semantics.
Context {S : Type} {PS : PlaybookStore S}.

Definition exec_call (E : env) (s : S) (c : call) : S * reply c :=
  match c return S * reply c with
  | KNow => (s, ev_now E)
  | KInstanceExists id => (s, bool_decide (id ∈ ev_instances E))
  | KExecuteStep inst _ _ step => (s, ev_execute E inst step)
  | KResolve rc => (s, Resolve s rc)
  | KCreate pb => ps_Create (ev_now E) s pb
  | KGet id => (s, ps_Get s id)
  | KUpdate pb => ps_Update (ev_now E) s pb
  | KDelete id => ps_Delete s id
  | KList opts => (s, ps_List s opts)
  | KPromote id => ps_Promote (ev_now E) s id
  | KDeprecate id => ps_Deprecate (ev_now E) s id
  | KCreateRun run => ps_CreateRun (ev_now E) s run
  | KGetRun id => (s, ps_GetRun s id)
  | KUpdateRun run => ps_UpdateRun (ev_now E) s run
  | KListRuns opts => (s, ps_ListRuns s opts)
  | KListRunsByInstance i opts => (s, ps_ListRunsByInstance s i opts)
  | KCreateRunStep rs => ps_CreateRunStep s rs
  | KUpdateRunStep rs => ps_UpdateRunStep s rs
  | KLockStepForExecution r n => ps_LockStepForExecution s r n
  | KResetStepForRetry r n => ps_ResetStepForRetry s r n
  | KRequestStepApproval r n => ps_RequestStepApproval s r n
  | KUpdateFeedback r u v n => ps_UpdateFeedback (ev_now E) s r u v n
  end.

(** A handler that nobody interrupts. *)
Fixpoint run_alone (E : env) (s : S) (p : prog) : S * response playBody :=
  match p with
  | Done r => (s, r)
  | Call c k => let (s, x) := exec_call E s c in run_alone E s (k x)
  end.

(** Handlers in progress over one store. *)
Record pool := mkPool { pl_store : S; pl_threads : list prog }.

(** The error reply of a call whose connection fails. *)
Definition io_error (c : call) : option (reply c) :=
  match c return option (reply c) with
  | KNow | KInstanceExists _ | KResolve _ => None
  | KExecuteStep _ _ _ _ => Some (Err "io")
  | KCreate _ | KCreateRun _ | KCreateRunStep _ => Some (Err "io")
  | KGet _ => Some (Err "io")
  | KGetRun _ => Some (Err "io")
  | KList _ => Some (Err "io")
  | KListRuns _ | KListRunsByInstance _ _ => Some (Err "io")
  | KLockStepForExecution _ _ => Some (Err "io")
  | KUpdate _ | KDelete _ | KPromote _ | KDeprecate _ | KUpdateRun _ | KUpdateRunStep _
  | KResetStepForRetry _ _ | KRequestStepApproval _ _ | KUpdateFeedback _ _ _ _ => Some (Some "io")
  end.

(** Some handler makes its next call, which the store answers, or which fails and leaves the
    store as it is. *)
Inductive pool_step : pool -> pool -> Prop :=
  | step_call (E : env) (s s' : S) (a b : list prog) (c : call) (k : reply c -> prog) (x : reply c) :
      exec_call E s c = (s', x) ->
      pool_step (mkPool s (a ++ Call c k :: b)) (mkPool s' (a ++ k x :: b))
  | step_error (s : S) (a b : list prog) (c : call) (k : reply c -> prog) (x : reply c) :
      io_error c = Some x ->
      pool_step (mkPool s (a ++ Call c k :: b)) (mkPool s (a ++ k x :: b)).

End semantics.
Arguments pool S : clear implicits.
