(* ===== verification/PlaybookSafety.v ===== *)
(** * Playbook steps under concurrent requests

    Any number of handlers of internal/api/playbooks.go run over one store, their calls
    interleaved in any way and any call failing at any moment. A typestate discipline on programs
    ([follows]) says what a handler may call: only the handler that locked a step executes it and
    saves its failure, and only the handler that created a run creates its pending steps. The
    discipline and an invariant of the tables give mutual exclusion. *)
From S2P Require Import Prelude Float64 GoText Alert Auth Http Playbook PlaybookSeed PlaybookStore.
From S2P Require Import PlaybookApi.

Local Open Scope Z_scope.

(** ** The discipline *)

(** What a handler in progress is entitled to: nothing, the execution of one step, or the creation
    of the steps of one run, of which some exist. *)
Inductive mode :=
  | Quiet
  | Holding (runID stepOrder : Z)
  | Creating (runID : Z) (created : list Z).

(** A status that neither the lock nor a retry accepts. *)
Definition in_flight (status : string) : bool :=
  negb (lockable status) && negb (bool_decide (status = "failed")).

Definition distinct_steps (r : result (option Playbook)) : Prop :=
  match r with
  | Ok (Some pb) => NoDup (map st_StepOrder (pb_Steps pb))
  | _ => True
  end.

Fixpoint follows (m : mode) (p : prog) : Prop :=
  match p with
  | Done _ => match m with Holding _ _ => False | _ => True end
  | Call c k =>
      match m with
      | Quiet =>
          match c return (reply c -> prog) -> Prop with
          | KExecuteStep _ _ _ _ | KCreateRunStep _ => fun _ => False
          | KLockStepForExecution r n => fun k => forall x,
              match x with
              | Ok true => follows (Holding r n) (k x)
              | _ => follows Quiet (k x)
              end
          | KUpdateRunStep rs => fun k =>
              in_flight (rs_Status rs) = true /\ forall x, follows Quiet (k x)
          | KGet _ => fun k => forall x, distinct_steps x -> follows Quiet (k x)
          | KCreateRun _ => fun k => forall x,
              match x with
              | Ok id => follows (Creating id []) (k x)
              | Err _ => follows Quiet (k x)
              end
          | _ => fun k => forall x, follows Quiet (k x)
          end k
      | Holding r n =>
          match c return (reply c -> prog) -> Prop with
          | KNow => fun k => forall x, follows (Holding r n) (k x)
          | KExecuteStep _ r' n' _ => fun k =>
              (r' = r /\ n' = n) /\ forall x, follows (Holding r n) (k x)
          | KUpdateRunStep rs => fun k =>
              (rs_RunID rs = r /\ rs_StepOrder rs = n) /\ forall x, follows Quiet (k x)
          | _ => fun _ => False
          end k
      | Creating r created =>
          match c return (reply c -> prog) -> Prop with
          | KCreateRunStep rs => fun k =>
              (rs_RunID rs = r /\ rs_StepOrder rs ∉ created) /\
              forall x, follows (Creating r (rs_StepOrder rs :: created)) (k x)
          | _ => fun _ => False
          end k
      end
  end.

(** ** Every handler follows it *)

Section handlers.
Context {FT : FloatText}.

Inductive handler : prog -> Prop :=
  | h_list sv a b c d e : handler (handleListPlaybooks sv a b c d e)
  | h_get sv i : handler (handleGetPlaybook sv i)
  | h_create sv cl b : handler (handleCreatePlaybook sv cl b)
  | h_update sv cl i b : handler (handleUpdatePlaybook sv cl i b)
  | h_delete sv i : handler (handleDeletePlaybook sv i)
  | h_promote sv i : handler (handlePromotePlaybook sv i)
  | h_deprecate sv i : handler (handleDeprecatePlaybook sv i)
  | h_resolve sv rc : handler (handleResolvePlaybook sv rc)
  | h_start sv cl i p t : handler (handleStartRun sv cl i p t)
  | h_getrun sv r : handler (handleGetRun sv r)
  | h_execute sv cl b r n : handler (handleExecuteStep sv cl b r n)
  | h_confirm : handler handleConfirmStep
  | h_approve sv r n : handler (handleApproveStep sv r n)
  | h_request sv r n : handler (handleRequestApproval sv r n)
  | h_retry sv r n : handler (handleRetryStep sv r n)
  | h_skip sv r n : handler (handleSkipStep sv r n)
  | h_abandon sv r : handler (handleAbandonRun sv r)
  | h_feedback sv r b : handler (handleSubmitFeedback sv r b)
  | h_instance_runs sv i a b c : handler (handleListInstanceRuns sv i a b c)
  | h_all_runs sv a b c : handler (handleListAllRuns sv a b c).

Lemma create_run_steps_follows (id : Z) (r : response playBody) (steps : list Step) :
  forall created, NoDup (map st_StepOrder steps) ->
  (forall n, n ∈ map st_StepOrder steps -> n ∉ created) ->
  follows (Creating id created) (create_run_steps id steps (Done r)).
Proof.
  induction steps as [|st steps IH]; intros created Hnd Hf; [done|].
  cbn in *. apply NoDup_cons in Hnd as [Hn Hnd]. split; [split; [done|]|].
  - apply Hf. by left.
  - intros _. apply IH; [done|]. intros n Hin [->|Hc]%elem_of_cons; [done|].
    apply (Hf n); [by right|done].
Qed.

Lemma execute_locked_follows (claims : option Claims) (run : Run) (r n : Z) (step : Step) :
  follows (Holding r n) (execute_locked claims run r n step).
Proof.
  unfold execute_locked. cbn. split; [done|]. intros [res|e].
  - destruct (Interpret _ _ _ _) as [v m]. cbn. intros now. split; [done|]. intros _.
    destruct (_ =? 0); cbn; auto.
  - cbn. intros now. split; done.
Qed.

Lemma lock_and_execute_follows (claims : option Claims) (run : Run) (r n : Z) (step : Step) :
  follows Quiet (lock_and_execute claims run r n step).
Proof.
  unfold lock_and_execute. cbn. intros [[]|]; [apply execute_locked_follows|done..].
Qed.

Lemma execute_by_tier_follows (claims : option Claims) (b : bool) (run : Run) (r n : Z) (step : Step) :
  follows Quiet (execute_by_tier claims b run r n step).
Proof.
  unfold execute_by_tier. pose proof (lock_and_execute_follows claims run r n step).
  destr_ifs; cbn; auto.
Qed.

Ltac handler_steps :=
  repeat (cbn; match goal with
  | |- True => exact I
  | |- forall _, _ => intros ?
  | |- _ /\ _ => split
  | |- in_flight _ = true => reflexivity
  | |- follows _ (match ?x with _ => _ end) => destruct x
  | |- context [match ?x with Ok _ => _ | Err _ => _ end] => destruct x
  end).

Lemma handler_follows (p : prog) : handler p -> follows Quiet p.
Proof.
  destruct 1; unfold handleListPlaybooks, handleGetPlaybook, handleCreatePlaybook,
    handleUpdatePlaybook, handleDeletePlaybook, handlePromotePlaybook, handleDeprecatePlaybook,
    handleResolvePlaybook, handleGetRun, handleConfirmStep, handleApproveStep,
    handleRequestApproval, handleRetryStep, handleSkipStep, handleAbandonRun,
    handleSubmitFeedback, handleListInstanceRuns, handleListAllRuns;
    try solve [handler_steps].
  - unfold handleStartRun. destruct (_ || _); [done|]. cbn. intros x. destruct (negb x); [done|].
    destruct (ParseInt p) as [id [e|]]; [done|]. cbn. intros [[pb|]|] Hd; [|done..].
    cbn. intros [rid|]; [|done]. apply create_run_steps_follows; [done|].
    intros ? _. apply not_elem_of_nil.
  - unfold handleExecuteStep. destruct (_ || _); [done|].
    destruct (ParseInt r) as [id [e|]]; [done|]. destruct (Atoi n) as [so [e|]]; [done|].
    cbn. intros [[run|]|]; [|done..]. cbn. intros [[pb|]|] _; [|done..].
    destruct (find_step pb so); [|done]. apply execute_by_tier_follows.
Qed.

End handlers.

(** ** The tables while handlers run *)

Record tables_inv (s : PGStore) (hs : list (Z * Z)) (cs : list (Z * list Z)) : Prop := {
  ti_once : NoDup hs;
  ti_held : forall key, key ∈ hs ->
    exists row, pg_run_steps s !! key = Some row /\ in_flight (sp_Status row) = true;
  ti_creators : NoDup (map fst cs);
  ti_created : forall r created n, (r, created) ∈ cs -> is_Some (pg_run_steps s !! (r, n)) -> n ∈ created;
  ti_issued : forall r created, (r, created) ∈ cs -> r < pg_seq_runs s;
  ti_rows : forall r n, is_Some (pg_run_steps s !! (r, n)) -> r < pg_seq_runs s
}.

Lemma tables_same (s s' : PGStore) (hs : list (Z * Z)) (cs : list (Z * list Z)) :
  pg_run_steps s' = pg_run_steps s -> pg_seq_runs s' = pg_seq_runs s ->
  tables_inv s hs cs -> tables_inv s' hs cs.
Proof. intros E1 E2 [H1 H2 H3 H4 H5 H6]. split; rewrite ?E1, ?E2; auto. Qed.

Lemma tables_perm (s : PGStore) (hs hs' : list (Z * Z)) (cs cs' : list (Z * list Z)) :
  hs ≡ₚ hs' -> cs ≡ₚ cs' -> tables_inv s hs cs -> tables_inv s hs' cs'.
Proof.
  intros E1 E2 [H1 H2 H3 H4 H5 H6]. split; [by rewrite <- E1| | | | |done].
  - intros key. rewrite <- E1. auto.
  - by rewrite <- E2.
  - intros r c n. rewrite <- E2. eauto.
  - intros r c. rewrite <- E2. eauto.
Qed.

(** One row changes its status to one that is in flight, or nobody holds it. *)
Lemma tables_change_row (s : PGStore) (hs : list (Z * Z)) (cs : list (Z * list Z)) (key : Z * Z)
    (f : RunStepRow -> RunStepRow) :
  (key ∈ hs -> forall row, in_flight (sp_Status (f row)) = true) ->
  tables_inv s hs cs -> tables_inv (set_run_steps s (alter f key (pg_run_steps s))) hs cs.
Proof.
  intros Hf [H1 H2 H3 H4 H5 H6]. split; cbn; auto.
  - intros k Hk. destruct (H2 k Hk) as (row & Hrow & Hs). rewrite lookup_alter.
    case_decide as E; [|by exists row]. subst. rewrite Hrow. exists (f row). split; [done|]. by apply Hf.
  - intros r c n Hc Hn. apply (H4 r c n Hc). rewrite lookup_alter in Hn.
    case_decide as E; [|done]. subst. by rewrite fmap_is_Some in Hn.
  - intros r n Hn. apply (H6 r n). rewrite lookup_alter in Hn.
    case_decide as E; [|done]. subst. by rewrite fmap_is_Some in Hn.
Qed.

Lemma insert_as_alter {A} (m : gmap (Z * Z) A) (k : Z * Z) (x : A) (f : A -> A) :
  m !! k = Some x -> <[k := f x]> m = alter f k m.
Proof.
  intros H. apply map_eq. intros i. destruct (decide (i = k)) as [->|Hne].
  - by rewrite lookup_insert_eq, lookup_alter_eq, H.
  - by rewrite lookup_insert_ne, lookup_alter_ne by done.
Qed.

Lemma not_held (s : PGStore) (hs : list (Z * Z)) (cs : list (Z * list Z)) (key : Z * Z) (row : RunStepRow) :
  tables_inv s hs cs -> pg_run_steps s !! key = Some row -> in_flight (sp_Status row) = false -> key ∉ hs.
Proof.
  intros H Hrow Hs Hin. destruct (ti_held _ _ _ H key Hin) as (row' & Hrow' & Hs').
  rewrite Hrow in Hrow'. injection Hrow' as <-. congruence.
Qed.

Lemma tables_lock (s s' : PGStore) (r n : Z) (hs : list (Z * Z)) (cs : list (Z * list Z)) :
  pg_LockStepForExecution s r n = (s', Ok true) -> tables_inv s hs cs -> tables_inv s' ((r, n) :: hs) cs.
Proof.
  unfold pg_LockStepForExecution. destruct (pg_run_steps s !! (r, n)) as [row|] eqn:Hrow; [|done].
  destruct (lockable (sp_Status row)) eqn:Hl; [|done]. intros [= <-] H.
  assert ((r, n) ∉ hs) as Hn.
  { eapply not_held; [done..|]. unfold in_flight. by rewrite Hl. }
  rewrite (insert_as_alter _ _ _ (with_step_status "running") Hrow).
  pose proof (tables_change_row s hs cs (r, n) (with_step_status "running")) as [H1 H2 H3 H4 H5 H6];
    [done|done|]. split; auto.
  - by constructor.
  - intros key [->|Hk]%elem_of_cons; [|auto]. cbn. rewrite lookup_alter_eq, Hrow.
    eexists. split; [reflexivity|]. reflexivity.
Qed.

Lemma lock_refused (s s' : PGStore) (r n : Z) (x : result bool) :
  pg_LockStepForExecution s r n = (s', x) -> x <> Ok true -> s' = s.
Proof.
  unfold pg_LockStepForExecution. destruct (_ !! _) as [row|]; [|congruence].
  destruct (lockable _); congruence.
Qed.

Lemma tables_release (s : PGStore) (key : Z * Z) (hs : list (Z * Z)) (cs : list (Z * list Z)) :
  tables_inv s (key :: hs) cs -> tables_inv s hs cs /\ key ∉ hs.
Proof.
  intros [H1 H2 H3 H4 H5 H6]. apply NoDup_cons in H1 as [Hn H1]. split; [|done].
  split; auto. intros k Hk. apply H2. by right.
Qed.

Lemma tables_reset (s : PGStore) (r n : Z) (hs : list (Z * Z)) (cs : list (Z * list Z)) :
  tables_inv s hs cs -> tables_inv (pg_ResetStepForRetry s r n).1 hs cs /\
  tables_inv (pg_RequestStepApproval s r n).1 hs cs.
Proof.
  intros H. unfold pg_ResetStepForRetry, pg_RequestStepApproval.
  destruct (pg_run_steps s !! (r, n)) as [row|] eqn:Hrow; [|done]. split.
  - case_bool_decide as Hs; [|done]. cbn.
    rewrite (insert_as_alter _ _ _ (fun x => clear_error (with_step_status "pending" x)) Hrow).
    apply tables_change_row; [|done]. intros Hin. exfalso. revert Hin.
    eapply not_held; [done..|]. unfold in_flight. by rewrite Hs.
  - case_bool_decide as Hs; [|done]. cbn.
    rewrite (insert_as_alter _ _ _ (with_step_status "pending_approval") Hrow).
    apply tables_change_row; [|done]. intros Hin. exfalso. revert Hin.
    eapply not_held; [done..|]. unfold in_flight, lockable. rewrite bool_decide_true; [done|set_solver].
Qed.

Lemma tables_create_run (now : Time) (s s' : PGStore) (run : Run) (x : result Z) (hs : list (Z * Z))
    (cs : list (Z * list Z)) :
  pg_CreateRun now s run = (s', x) -> tables_inv s hs cs ->
  match x with
  | Ok id => tables_inv s' hs ((id, []) :: cs)
  | Err _ => tables_inv s' hs cs
  end.
Proof.
  unfold pg_CreateRun. case_bool_decide; intros [= <- <-] [H1 H2 H3 H4 H5 H6].
  - split; cbn; auto.
    + intros r c Hc. specialize (H5 r c Hc). lia.
    + intros r n Hn. specialize (H6 r n Hn). lia.
  - split; cbn; auto.
    + constructor; [|done]. intros ([r c] & Hr & Hc)%list_elem_of_fmap. cbn in Hr.
      specialize (H5 r c Hc). lia.
    + intros r c n [[= -> ->]|Hc]%elem_of_cons Hn; [|eauto]. specialize (H6 _ _ Hn). lia.
    + intros r c [[= -> ->]|Hc]%elem_of_cons; [lia|]. specialize (H5 r c Hc). lia.
    + intros r n Hn. specialize (H6 r n Hn). lia.
Qed.

(** A creator may only widen what it claims to have created. *)
Lemma tables_claim (s : PGStore) (id : Z) (created : list Z) (n0 : Z) (hs : list (Z * Z))
    (cs : list (Z * list Z)) :
  tables_inv s hs ((id, created) :: cs) -> tables_inv s hs ((id, n0 :: created) :: cs).
Proof.
  intros [H1 H2 H3 H4 H5 H6]. split; auto.
  - intros r c n [[= -> ->]|Hin]%elem_of_cons Hrow.
    + right. apply (H4 id created n); [by left|done].
    + apply (H4 r c n); [by right|done].
  - intros r c [[= -> ->]|Hin]%elem_of_cons.
    + apply (H5 _ created). by left.
    + apply (H5 r c). by right.
Qed.

Lemma tables_create_step (s s' : PGStore) (rs : RunStep) (x : result Z) (created : list Z)
    (hs : list (Z * Z)) (cs : list (Z * list Z)) :
  pg_CreateRunStep s rs = (s', x) -> rs_StepOrder rs ∉ created ->
  tables_inv s hs ((rs_RunID rs, created) :: cs) ->
  tables_inv s' hs ((rs_RunID rs, rs_StepOrder rs :: created) :: cs).
Proof.
  intros Hc Hn H.
  pose proof (tables_claim _ _ _ (rs_StepOrder rs) _ _ H) as H'.
  unfold pg_CreateRunStep in Hc. destruct (negb _); [by injection Hc as <- <-|].
  case_bool_decide; injection Hc as <- <-; [by apply (tables_same s)|].
  assert (pg_run_steps s !! (rs_RunID rs, rs_StepOrder rs) = None) as Hnone.
  { destruct (pg_run_steps s !! (rs_RunID rs, rs_StepOrder rs)) eqn:E; [|done]. exfalso. apply Hn.
    apply (ti_created _ _ _ H (rs_RunID rs)); [by left|]. by rewrite E. }
  destruct H' as [H1 H2 H3 H4 H5 H6]. split; cbn; auto.
  - intros key Hk. destruct (H2 key Hk) as (row & Hrow & Hs). exists row. split; [|done].
    rewrite lookup_insert_ne; [done|]. intros <-. congruence.
  - intros r c n Hin Hrow. rewrite lookup_insert in Hrow. case_decide as E; [|by apply (H4 r c n)].
    injection E as <- <-. apply elem_of_cons in Hin as [[= ->]|Hin]; [by left|].
    exfalso. inversion H3 as [|? ? Hnd _]; subst. apply Hnd. apply list_elem_of_fmap.
    by exists (rs_RunID rs, c).
  - intros r n Hrow. rewrite lookup_insert in Hrow. case_decide as E; [|by apply (H6 r n)].
    injection E as <- <-. apply (H5 (rs_RunID rs) (rs_StepOrder rs :: created)). by left.
Qed.

(** ** One call of one handler *)

Definition hold_of (m : mode) : list (Z * Z) := match m with Holding r n => [(r, n)] | _ => [] end.
Definition create_of (m : mode) : list (Z * list Z) := match m with Creating r c => [(r, c)] | _ => [] end.

Section steps.
Context {FT : FloatText} {SS : SliceSort} {MR : MapRange} {ST : SqlText}.

Lemma omap_order_NoDup (id : Z) (l : list (Z * Z * StepRow)) :
  NoDup (map fst l) ->
  NoDup (map st_StepOrder (omap (fun kv => if fst (fst kv) =? id then Some (step_of_row (fst kv) (snd kv))
                                           else None) l)).
Proof.
  induction l as [|[[p n] row] l IH]; [constructor|]. cbn. intros [Hn Hnd]%NoDup_cons.
  destruct (Z.eqb_spec p id) as [->|]; [|auto]. cbn. constructor; [|auto].
  intros (st & Hst & Hin)%list_elem_of_fmap. apply list_elem_of_omap in Hin as ([[p' n'] row'] & Hin & Heq).
  cbn in Heq. destruct (Z.eqb_spec p' id) as [->|]; [|done]. injection Heq as <-. cbn in Hst. subst.
  apply Hn. apply list_elem_of_fmap. by exists (id, n', row').
Qed.

Lemma getSteps_distinct (s : PGStore) (id : Z) : NoDup (map st_StepOrder (getSteps s id)).
Proof.
  unfold getSteps. rewrite sort_slice_perm. apply omap_order_NoDup.
  rewrite map_range_perm. apply NoDup_fst_map_to_list.
Qed.

Lemma pg_Get_distinct (s : PGStore) (id : Z) : distinct_steps (pg_Get s id).
Proof. unfold pg_Get. destruct (_ !! _); [apply getSteps_distinct|done]. Qed.

(** Saving playbooks and runs leaves the run steps and the run sequence alone. *)
Lemma insertStep_same (now : Time) (s : PGStore) (id : Z) (st : Step) :
  pg_run_steps (insertStep now s id st).1 = pg_run_steps s /\
  pg_seq_runs (insertStep now s id st).1 = pg_seq_runs s.
Proof.
  unfold insertStep. destruct (json_spec _); [|done]. destruct (json_list _ _); [|done].
  destr_ifs; done.
Qed.

Lemma insert_steps_same (now : Time) (id : Z) (sts : list Step) : forall (s : PGStore),
  pg_run_steps (insert_steps now s id sts).1 = pg_run_steps s /\
  pg_seq_runs (insert_steps now s id sts).1 = pg_seq_runs s.
Proof.
  induction sts as [|st sts IH]; intros s; [done|]. cbn.
  destruct (insertStep_same now s id st) as [E1 E2].
  destruct (insertStep now s id st) as [s1 [e|]]; cbn in *; [done|].
  destruct (IH s1) as [-> ->]. done.
Qed.

Lemma store_calls_same (E : env) (s : PGStore) (c : call) :
  match c with
  | KCreateRun _ | KCreateRunStep _ | KUpdateRunStep _ | KLockStepForExecution _ _
  | KResetStepForRetry _ _ | KRequestStepApproval _ _ => True
  | _ => pg_run_steps (exec_call E s c).1 = pg_run_steps s /\
         pg_seq_runs (exec_call E s c).1 = pg_seq_runs s
  end.
Proof.
  destruct c; cbn; try done.
  - unfold pg_Create. destruct (insert_playbook _ _ _ _) as [s1 r] eqn:Hi.
    assert (pg_run_steps s1 = pg_run_steps s /\ pg_seq_runs s1 = pg_seq_runs s) as [E1 E2].
    { unfold insert_playbook in Hi. destr_ifs; injection Hi as <- <-; done. }
    destruct r as [id|e]; [|done].
    destruct (insert_steps_same (ev_now E) id (pb_Steps pb) s1) as [E3 E4].
    destruct (insert_steps _ _ _ _) as [s2 [[n e]|]]; cbn in *; split; congruence.
  - unfold pg_Update. match goal with |- context [insert_steps ?a ?b ?c ?d] =>
      destruct (insert_steps_same a c d b) as [E3 E4];
      destruct (insert_steps a b c d) as [s2 [[n e]|]] end; cbn in *; split; congruence.
  - unfold pg_Delete. destr_ifs; try done; destruct (_ !! _); done.
  - unfold pg_UpdateRun. destr_ifs; done.
Qed.

Definition thread_inv (s : PGStore) (m : mode) (hs : list (Z * Z)) (cs : list (Z * list Z)) : Prop :=
  tables_inv s (hold_of m ++ hs) (create_of m ++ cs).

Ltac same_store :=
  match goal with
  | He : @exec_call _ _ ?E ?s ?c = (?s', _) |- _ =>
      let H := fresh "Hsame" in
      pose proof (store_calls_same E s c) as H; cbn [fst] in H;
      rewrite He in H; destruct H as [? ?]
  end.

Lemma call_step (E : env) (s s' : PGStore) (c : call) (k : reply c -> prog) (x : reply c) (m : mode)
    (hs : list (Z * Z)) (cs : list (Z * list Z)) :
  exec_call E s c = (s', x) -> follows m (Call c k) -> thread_inv s m hs cs ->
  exists m', follows m' (k x) /\ thread_inv s' m' hs cs.
Proof.
  intros He Hf Hinv. unfold thread_inv in *.
  destruct m as [|r n|r created], c; cbn [follows] in Hf; try (exfalso; exact Hf);
    try (same_store; exists Quiet; split; [by apply Hf|by apply (tables_same s)]).
  - (* Get *) same_store. exists Quiet. split; [|by apply (tables_same s)]. apply Hf.
    cbn in He. injection He as <- <-. apply pg_Get_distinct.
  - (* CreateRun *) cbn in He. specialize (Hf x).
    pose proof (tables_create_run _ _ _ _ _ _ _ He Hinv) as H. destruct x as [id|e].
    + by exists (Creating id []).
    + by exists Quiet.
  - (* UpdateRunStep of a handler without the lock *)
    cbn in He. injection He as <- <-. destruct Hf as [Hs Hf]. exists Quiet. split; [apply Hf|].
    apply tables_change_row; [|done]. intros _ row. done.
  - (* Lock *) cbn in He. specialize (Hf x). destruct x as [[]|e].
    + exists (Holding runID stepOrder). split; [done|]. by eapply tables_lock.
    + exists Quiet. by rewrite (lock_refused _ _ _ _ _ He).
    + exists Quiet. by rewrite (lock_refused _ _ _ _ _ He).
  - (* Reset *) exists Quiet. split; [apply Hf|]. cbn in He.
    pose proof (proj1 (tables_reset s runID stepOrder _ _ Hinv)) as H. by rewrite He in H.
  - (* RequestApproval *) exists Quiet. split; [apply Hf|]. cbn in He.
    pose proof (proj2 (tables_reset s runID stepOrder _ _ Hinv)) as H. by rewrite He in H.
  - (* Now, holding *) exists (Holding r n). split; [apply Hf|]. by injection He as <- <-.
  - (* Execute, holding *) exists (Holding r n). split; [apply Hf|]. by injection He as <- <-.
  - (* UpdateRunStep, holding: the release *)
    cbn in He. injection He as <- <-. destruct Hf as [[<- <-] Hf]. exists Quiet. split; [apply Hf|].
    apply tables_release in Hinv as [H Hn]. by apply tables_change_row.
  - (* CreateRunStep, creating *)
    destruct Hf as [[<- Hn] Hf]. exists (Creating (rs_RunID rs) (rs_StepOrder rs :: created)).
    split; [apply Hf|]. exact (tables_create_step s s' rs x created hs cs He Hn Hinv).
Qed.

Lemma error_step (s : PGStore) (c : call) (k : reply c -> prog) (x : reply c) (m : mode)
    (hs : list (Z * Z)) (cs : list (Z * list Z)) :
  io_error c = Some x -> follows m (Call c k) -> thread_inv s m hs cs ->
  exists m', follows m' (k x) /\ thread_inv s m' hs cs.
Proof.
  intros He Hf Hinv.
  destruct m as [|r n|r created], c; cbn in He; try discriminate; cbn [follows] in Hf;
    try (exfalso; exact Hf); injection He as <-.
  all: try (exists Quiet; split; [by apply Hf|done]).
  - exists Quiet. split; [|done]. apply (Hf (Err "io")).
  - exists Quiet. split; [|done]. apply (Hf (Err "io")).
  - exists (Holding r n). split; [by apply Hf|done].
  - destruct Hf as [_ Hf]. exists Quiet. split; [apply Hf|]. by apply tables_release in Hinv as [H _].
  - destruct Hf as [[<- Hn] Hf]. exists (Creating (rs_RunID rs) (rs_StepOrder rs :: created)).
    split; [apply Hf|]. by apply tables_claim.
Qed.

End steps.

(** ** All handlers together *)

Definition pool_inv (P : pool PGStore) : Prop :=
  exists ms, Forall2 follows ms (pl_threads P) /\
    tables_inv (pl_store P) (flat_map hold_of ms) (flat_map create_of ms).

Lemma flat_map_middle {A B} (f : A -> list B) (a b : list A) (x : A) :
  flat_map f (a ++ x :: b) ≡ₚ f x ++ flat_map f (a ++ b).
Proof.
  rewrite !flat_map_app. cbn. rewrite !app_assoc. apply Permutation_app_tail. apply Permutation_app_comm.
Qed.

Section pool.
Context {FT : FloatText} {SS : SliceSort} {MR : MapRange} {ST : SqlText}.

Lemma pool_inv_thread (s s' : PGStore) (a b : list prog) (p p' : prog) :
  (forall m hs cs, follows m p -> thread_inv s m hs cs -> exists m', follows m' p' /\ thread_inv s' m' hs cs) ->
  pool_inv (mkPool s (a ++ p :: b)) -> pool_inv (mkPool s' (a ++ p' :: b)).
Proof.
  intros Hstep (ms & Hms & Hinv). cbn in *.
  apply Forall2_app_inv_r in Hms as (ma & mb' & Ha & Hb & ->).
  apply Forall2_cons_inv_r in Hb as (m & mb & Hm & Hb & ->).
  apply (tables_perm _ _ _ _ _ (flat_map_middle hold_of ma mb m) (flat_map_middle create_of ma mb m)) in Hinv.
  destruct (Hstep m _ _ Hm Hinv) as (m' & Hm' & Hinv').
  exists (ma ++ m' :: mb). split; [by apply Forall2_app; [|constructor]|]. cbn.
  eapply tables_perm; [| |exact Hinv']; symmetry; apply flat_map_middle.
Qed.

Lemma pool_inv_step (P Q : pool PGStore) : pool_step P Q -> pool_inv P -> pool_inv Q.
Proof.
  destruct 1; apply pool_inv_thread; intros m hs cs; [by apply (call_step E)|by apply error_step].
Qed.

(** The store at the start: every run step belongs to a run that was issued. *)
Definition steps_issued (s : PGStore) : Prop :=
  forall r n, is_Some (pg_run_steps s !! (r, n)) -> r < pg_seq_runs s.

Lemma pool_inv_start (s : PGStore) (ps : list prog) :
  steps_issued s -> Forall handler ps -> pool_inv (mkPool s ps).
Proof.
  intros Hs Hp. exists (map (fun _ => Quiet) ps). split.
  - cbn. induction Hp; constructor; [by apply handler_follows|done].
  - assert (flat_map hold_of (map (fun _ : prog => Quiet) ps) = []) as ->
      by (clear; induction ps; [done|]; cbn; done).
    assert (flat_map create_of (map (fun _ : prog => Quiet) ps) = []) as ->
      by (clear; induction ps; [done|]; cbn; done).
    split; [constructor| |constructor| | |exact Hs].
    + intros key H. by apply not_elem_of_nil in H.
    + intros r created n H. by apply not_elem_of_nil in H.
    + intros r created H. by apply not_elem_of_nil in H.
Qed.

(** A handler that is about to execute a step holds it. *)
Lemma executing_holds (m : mode) (i : string) (r n : Z) (st : Step) k :
  follows m (Call (KExecuteStep i r n st) k) -> m = Holding r n.
Proof. destruct m; cbn; [done| |done]. intros [[-> ->] _]. done. Qed.

(** C5: A playbook step never runs twice at once: from any store, with any requests in progress to
    the playbook endpoints and their calls interleaved and failing in any way, no two requests are
    executing the same step of the same run, and while one is, the step's record refuses the
    lock to every other. *)
Theorem step_executes_exclusively (s : PGStore) (requests : list prog) (P : pool PGStore)
    (i j : nat) (inst inst' : string) (r n : Z) (st st' : Step) k k' :
  steps_issued s -> Forall handler requests -> rtc pool_step (mkPool s requests) P ->
  pl_threads P !! i = Some (Call (KExecuteStep inst r n st) k) ->
  (pl_threads P !! j = Some (Call (KExecuteStep inst' r n st') k') -> i = j) /\
  pg_LockStepForExecution (pl_store P) r n = (pl_store P, Ok false).
Proof.
  intros Hs Hr Hrun Hi.
  assert (pool_inv P) as (ms & Hms & Hinv).
  { assert (pool_inv (mkPool s requests)) as H0 by (by apply pool_inv_start).
    revert H0. clear Hs Hr Hi. induction Hrun as [|P Q R HPQ _ IH]; [done|].
    intros H. apply IH. by eapply pool_inv_step. }
  destruct (Forall2_lookup_r _ _ _ _ _ Hms Hi) as (mi & Hmi & Hfi). apply executing_holds in Hfi as ->.
  split.
  - intros Hj. destruct (Forall2_lookup_r _ _ _ _ _ Hms Hj) as (mj & Hmj & Hfj).
    apply executing_holds in Hfj as ->. pose proof (ti_once _ _ _ Hinv) as Hnd.
    clear -Hmi Hmj Hnd. revert i j Hmi Hmj. induction ms as [|m ms IH]; intros [|i] [|j] Hi Hj; try done.
    + injection Hi as ->. apply NoDup_cons in Hnd as [Hn _]. exfalso. apply Hn.
      apply list_elem_of_In, in_flat_map. exists (Holding r n). split; [|by left].
      by apply list_elem_of_In, list_elem_of_lookup_2 with j.
    + injection Hj as ->. apply NoDup_cons in Hnd as [Hn _]. exfalso. apply Hn.
      apply list_elem_of_In, in_flat_map. exists (Holding r n). split; [|by left].
      by apply list_elem_of_In, list_elem_of_lookup_2 with i.
    + f_equal. apply IH; [|done..]. cbn in Hnd. by apply NoDup_app in Hnd as (_ & _ & Hnd).
  - assert ((r, n) ∈ flat_map hold_of ms) as Hin.
    { apply list_elem_of_In, in_flat_map. exists (Holding r n). split; [|by left].
      by apply list_elem_of_In, list_elem_of_lookup_2 with i. }
    destruct (ti_held _ _ _ Hinv _ Hin) as (row & Hrow & Hf).
    unfold pg_LockStepForExecution. rewrite Hrow. unfold in_flight in Hf.
    by destruct (lockable (sp_Status row)).
Qed.

End pool.

(** ** Two requests for one step *)

#[local] Instance demoText : FloatText := {| float64_text := fun _ => ""; float32_text := fun _ => "" |}.
#[local] Instance demoSql : SqlText := {| ilike := fun _ _ => true; text_ltb := string_ltb |}.
#[local] Instance demoSort : SliceSort := insertion_SliceSort.
#[local] Instance demoRange : MapRange := canonical_MapRange.

Definition demo_step (tier : string) : Step :=
  mkStep 0 0 1 "check" "" "SELECT 1" tier 5 (mkInterpretationSpec [] [] "green" "fine") [] None "" "" 0.
Definition demo_playbook (tier : string) : Playbook :=
  mkPlaybook 0 "demo" "Demo" "" 1 "stable" "general" (mkBindings [] [] [] []) None "view_all" "" false
    [demo_step tier] 0 0.
Definition demo_server : PlaybookServer := mkPlaybookServer true true true.
Definition demo_env : env :=
  mkEnv 100 ["db1"] (fun _ _ => Ok (mkExecutionResult ["n"] [[VInt 1]] 1 1 false 3)).

(** A store with one playbook and one run of it, made by the handlers. *)
Definition demo_store : PGStore := Eval vm_compute in
  (run_alone demo_env
     (run_alone demo_env empty_store (handleCreatePlaybook demo_server None (Ok (demo_playbook TierDiagnostic)))).1
     (handleStartRun demo_server None "db1" "1" ("alert", "rule-7"))).1.

Definition demo_request : prog := handleExecuteStep demo_server None false "1" "1".

Lemma demo_store_issued : steps_issued demo_store.
Proof.
  intros r n. change (pg_seq_runs demo_store) with 2. intros [row Hrow].
  apply elem_of_map_to_list in Hrow.
  change (map_to_list (pg_run_steps demo_store))
    with [((1, 1), mkRunStepRow 1 "pending" None None None None None None 0 None)] in Hrow.
  apply list_elem_of_singleton in Hrow. injection Hrow as -> -> ->. lia.
Qed.

Definition demo_found : Step :=
  step_of_row (1, 1) (mkStepRow 1 "check" "" (Some "SELECT 1") TierDiagnostic 5
    (mkInterpretationSpec [] [] "green" "fine") [] None None None 100).

(** The first request has taken the lock. *)
Lemma demo_reaches : exists P k,
  rtc pool_step (mkPool demo_store [demo_request; demo_request]) P /\
  pl_threads P !! O = Some (Call (KExecuteStep "db1" 1 1 demo_found) k).
Proof.
  eexists (mkPool _ [_; _]), _. split.
  - eapply rtc_l; [eapply (step_call demo_env demo_store _ [] [demo_request] (KGetRun 1)); reflexivity|].
    eapply rtc_l; [eapply (step_call demo_env demo_store _ [] [demo_request] (KGet 1)); reflexivity|].
    eapply rtc_l; [eapply (step_call demo_env demo_store _ [] [demo_request] (KLockStepForExecution 1 1)); reflexivity|].
    apply rtc_refl.
  - reflexivity.
Qed.

Lemma step_executes_exclusively_witness : exists P k,
  pl_threads P !! O = Some (Call (KExecuteStep "db1" 1 1 demo_found) k) /\
  pg_LockStepForExecution (pl_store P) 1 1 = (pl_store P, Ok false).
Proof.
  destruct demo_reaches as (P & k & H1 & H2). exists P, k. split; [exact H2|].
  exact (proj2 (step_executes_exclusively demo_store [demo_request; demo_request] P
    O O "db1" "db1" 1 1 demo_found demo_found k k demo_store_issued
    (Forall_cons_2 _ _ _ (h_execute _ _ _ _ _) (Forall_cons_2 _ _ _ (h_execute _ _ _ _ _) (Forall_nil_2 _)))
    H1 H2)).
Defined.
