(* ===== verification/PlaybookTheorems.v ===== *)
(** * What playbooks guarantee

    The executor sends one statement and rolls it back; the resolver respects its priorities;
    storing a playbook and reading it back keeps its behaviour; the built-in playbooks always move
    forward to a step that exists; but all except one can never complete a run, and some of their
    bindings are missing or wrong. *)
From stdpp Require Import relations pretty.
From S2P Require Import Prelude Float64 GoText Alert Auth Http Playbook PlaybookSeed PlaybookStore.
From S2P Require Import PlaybookApi.

Local Open Scope Z_scope.

(** ** Trimming *)

Lemma str_rev_acc (a s : string) : str_rev a s = str_rev "" s +:+ a.
Proof.
  revert a. induction s as [|c s IH]; intros a; [done|]. cbn [str_rev].
  rewrite (IH (String c a)), (IH (String c "")), str_app_assoc. done.
Qed.

Lemma str_rev_dist (a b : string) : str_rev "" (a +:+ b) = str_rev "" b +:+ str_rev "" a.
Proof.
  induction a as [|c a IH]; [by rewrite str_app_nil|]. rewrite str_app_cons. cbn [str_rev].
  rewrite (str_rev_acc (String c "") (a +:+ b)), IH, (str_rev_acc (String c "") a). apply str_app_assoc.
Qed.

Lemma str_rev_involutive (s : string) : str_rev "" (str_rev "" s) = s.
Proof.
  induction s as [|c s IH]; [done|]. cbn [str_rev].
  rewrite (str_rev_acc (String c "") s), str_rev_dist, IH. done.
Qed.

(** A concatenation of patterns. *)
Definition made_of (ps : list string) (s : string) : Prop :=
  exists l, Forall (fun p => p ∈ ps) l /\ s = foldr String.append "" l.

Lemma strip_any_app (ps : list string) (s r : string) :
  strip_any ps s = Some r -> exists p, p ∈ ps /\ s = p +:+ r.
Proof.
  unfold strip_any. destruct (list_find _ ps) as [[i p]|] eqn:E; [|done]. cbn. intros H.
  apply list_find_Some in E as (Hp & _ & _). exists p. split; [by apply list_elem_of_lookup_2 with i|].
  by apply strip_prefix_app.
Qed.

Lemma trim_left_split (ps : list string) (s : string) :
  exists pre, made_of ps pre /\ s = pre +:+ trim_left ps s.
Proof.
  unfold trim_left. generalize (String.length s). intros n. revert s.
  induction n as [|n IH]; intros s; cbn; [by exists ""; split; [exists []|]|].
  destruct (strip_any ps s) as [r|] eqn:E; [|by exists ""; split; [exists []|]].
  apply strip_any_app in E as (p & Hp & ->). destruct (IH r) as (pre & (l & Hl & ->) & Hr).
  exists (p +:+ foldr String.append "" l). split; [exists (p :: l); split; [by constructor|done]|].
  rewrite str_app_assoc. congruence.
Qed.

Lemma foldr_append_snoc (l : list string) (p : string) :
  foldr String.append "" (l ++ [p]) = foldr String.append "" l +:+ p.
Proof.
  induction l as [|x l IH]; [apply str_app_nil|].
  change (x +:+ foldr String.append "" (l ++ [p]) = (x +:+ foldr String.append "" l) +:+ p).
  by rewrite IH, str_app_assoc.
Qed.

Lemma made_of_rev (ps : list string) (s : string) :
  made_of (map (str_rev "") ps) s -> made_of ps (str_rev "" s).
Proof.
  intros (l & Hl & ->). exists (reverse (map (str_rev "") l)). split.
  - apply Forall_reverse, Forall_map. eapply Forall_impl; [exact Hl|]. cbn.
    intros p (q & -> & Hq)%list_elem_of_fmap. by rewrite str_rev_involutive.
  - clear. induction l as [|p l IH]; [done|]. cbn [map]. rewrite reverse_cons, foldr_append_snoc, <- IH.
    apply str_rev_dist.
Qed.

Lemma trim_right_split (ps : list string) (s : string) :
  exists suf, made_of ps suf /\ s = trim_right ps s +:+ suf.
Proof.
  unfold trim_right. destruct (trim_left_split (map (str_rev "") ps) (str_rev "" s)) as (pre & Hm & Heq).
  exists (str_rev "" pre). split; [by apply made_of_rev|].
  rewrite <- str_rev_dist, <- Heq. symmetry. apply str_rev_involutive.
Qed.

Lemma made_of_free (c : Ascii.ascii) (ps : list string) (s : string) :
  forallb (char_free c) ps = true -> made_of ps s -> char_free c s = true.
Proof.
  intros Hps (l & Hl & ->). induction Hl as [|p l Hp Hl IH]; [done|].
  change (char_free c (p +:+ foldr String.append "" l) = true).
  rewrite char_free_app, IH, andb_true_r. rewrite forallb_forall in Hps. apply Hps. by apply list_elem_of_In.
Qed.

Lemma spaces_free : forallb (char_free semicolon) spaces = true.
Proof. vm_compute. reflexivity. Qed.

(** ** The executor *)

Lemma collect_rows_bound (limit : Z) (rows : list (result (list any))) : forall seen,
  0 <= seen -> len (collect_rows limit seen rows) <= Z.max 0 (limit - seen).
Proof.
  unfold len. induction rows as [|r rows IH]; intros seen Hs; cbn; [lia|].
  specialize (IH (seen + 1) ltac:(lia)). destruct (Z.leb_spec (seen + 1) limit); [|lia].
  destruct r; cbn [length]; lia.
Qed.

(** What the guard accepts: blanks and semicolons only at the end. *)
Lemma guard_single_statement (sql : string) :
  Contains (trimmedSQL sql) semicolon = false ->
  exists body semis blanks, sql = body +:+ semis +:+ blanks /\ char_free semicolon body = true /\
    made_of [";"] semis /\ made_of spaces blanks.
Proof.
  unfold Contains, trimmedSQL, TrimRight, TrimSpace. intros H%negb_false_iff.
  destruct (trim_left_split spaces sql) as (pre & Hpre & E1).
  destruct (trim_right_split spaces (trim_left spaces sql)) as (blanks & Hb & E2).
  destruct (trim_right_split [";"] (trim_right spaces (trim_left spaces sql))) as (semis & Hs & E3).
  exists (pre +:+ trim_right [";"] (trim_right spaces (trim_left spaces sql))), semis, blanks.
  split; [|split; [|done]].
  - rewrite str_app_assoc, <- (str_app_assoc _ semis), <- E3, <- E2. exact E1.
  - rewrite char_free_app. rewrite (made_of_free _ _ _ spaces_free Hpre). exact H.
Qed.

(** Executing a step sends the monitored instance at most one statement of the playbook,
    inside a transaction that is always rolled back: an external step and a text with a semicolon
    anywhere but at its end send nothing; otherwise the text sent is the step's, after the
    settings and between BEGIN and ROLLBACK, and a result keeps at most the configured number of
    rows and says so when there were more. *)
Theorem executor_sends_one_statement {I : Instances} (e : Executor) (inst : string) (step : Step)
    (cs : list command) (r : result ExecutionResult) (sql : string) :
  ExecuteStep e inst step = (cs, r) -> CQuery sql ∈ cs ->
  st_SafetyTier step <> TierExternal /\ sql = st_SQLTemplate step /\
  (exists body semis blanks, sql = body +:+ semis +:+ blanks /\ char_free semicolon body = true /\
     made_of [";"] semis /\ made_of spaces blanks) /\
  cs = CBegin :: map (fun s => CExec (snd s)) (settings_of step) ++ [CQuery sql; CRollback; CClose] /\
  match r with
  | Ok res => er_RowCount res = len (er_Rows res) /\ er_RowCount res <= Z.max 0 (ex_rowLimit e) /\
              (er_Truncated res = true <-> ex_rowLimit e < er_TotalRows res)
  | Err _ => True
  end.
Proof.
  assert (forall l (cs : list command) err, send_settings inst l = (cs, err) ->
            CQuery sql ∉ cs /\ (err = None -> cs = map (fun s => CExec (snd s)) l)) as Hset.
  { induction l as [|[what q] l IH]; cbn; intros cs' err; [intros [= <- <-]; by split; [apply not_elem_of_nil|]|].
    destruct (tx_Exec inst q); [intros [= <- <-]; split; [|done]; by intros [?|?%elem_of_nil]%elem_of_cons|].
    destruct (send_settings inst l) as [cs0 e0]. destruct (IH _ _ eq_refl) as [H1 H2].
    intros [= <- <-]. split; [by intros [?|?]%elem_of_cons|]. intros ->. by rewrite H2. }
  unfold ExecuteStep. case_bool_decide as Ht; [intros [= <- _] ?%elem_of_nil; done|].
  destruct (Contains _ _) eqn:Hg; [intros [= <- _] ?%elem_of_nil; done|].
  destruct (ConnFor inst); [intros [= <- _] ?%elem_of_nil; done|].
  destruct (conn_Begin inst); [intros [= <- _] Hq; set_solver|].
  generalize (settings_of step). intros settings.
  destruct (send_settings inst settings) as [sent err] eqn:Hs.
  destruct (Hset _ _ _ Hs) as [Hno Hall].
  destruct err as [err|].
  { intros [= <- _] [?|[?|Hq]%elem_of_app]%elem_of_cons; [done..|set_solver]. }
  rewrite (Hall eq_refl) in *. intros Hr Hq.
  assert (forall x, (CBegin :: map (fun s => CExec (snd s)) settings
                       ++ [CQuery (st_SQLTemplate step); CRollback; CClose], x) = (cs, r) ->
            cs = CBegin :: map (fun s => CExec (snd s)) settings ++ [CQuery sql; CRollback; CClose]
            /\ sql = st_SQLTemplate step /\ x = r) as Hx.
  { intros x [= <- <-]. apply elem_of_cons in Hq as [?|[?|Hq]%elem_of_app]; [done..|].
    apply elem_of_cons in Hq as [[= ->]|Hq]; [done|]. set_solver. }
  destruct (tx_Query _ _) as [[[columns rows] [err|]]|err];
    apply Hx in Hr as (Hcs & -> & <-); (split; [done|]); (split; [done|]);
    (split; [by apply guard_single_statement|]); (split; [done|]); [done| |done].
  cbn [er_RowCount er_Rows er_Truncated er_TotalRows]. split; [done|]. split.
  - pose proof (collect_rows_bound (ex_rowLimit e) rows 0). rewrite Z.sub_0_r in *. lia.
  - apply Z.ltb_lt.
Qed.

#[local] Instance demoInstances : Instances := {|
  ConnFor := fun _ => None; conn_Begin := fun _ => None; tx_Exec := fun _ _ => None;
  tx_Query := fun _ _ => Ok (["n"], [Ok [VInt 1]; Ok [VInt 2]], None); milliseconds := fun _ _ => 3
|}.

Definition lock_step4 : Step :=
  mkStep 0 0 4 "Terminate" "" "SELECT 1;" TierDangerous 5 (mkInterpretationSpec [] [] "yellow" "") []
    (Some 5) "" "" 0.

Lemma demo_executes : exists cs res, ExecuteStep (mkExecutor 1) "db1" lock_step4 = (cs, Ok res) /\
  CQuery "SELECT 1;" ∈ cs /\ er_Truncated res = true.
Proof. eexists _, _. split; [reflexivity|]. split; [|done]. set_solver. Qed.

Lemma executor_sends_one_statement_witness : exists cs res,
  ExecuteStep (mkExecutor 1) "db1" lock_step4 = (cs, Ok res) /\
  cs = CBegin :: map (fun s => CExec (snd s)) (settings_of lock_step4)
         ++ [CQuery "SELECT 1;"; CRollback; CClose].
Proof.
  destruct demo_executes as (cs & res & H & Hq & _). exists cs, res. split; [exact H|].
  exact (proj1 (proj2 (proj2 (proj2 (executor_sends_one_statement (mkExecutor 1) "db1" lock_step4
           cs (Ok res) "SELECT 1;" H Hq))))).
Defined.

(** ** Storing and reading back *)

(** The values that decoding JSON or writing a Go literal gives. *)
Definition storable (v : any) : Prop :=
  match v with VFloat32 _ | VNumber _ _ => False | _ => True end.

Definition storable_step (st : Step) : Prop :=
  Forall (fun r => storable (ir_Value r)) (is_Rules (st_ResultInterpretation st)) /\
  Forall (fun r => storable (rc_Value r)) (is_RowCountRules (st_ResultInterpretation st)) /\
  Forall (fun b => storable (bc_Value (br_Condition b))) (st_BranchRules st).

Lemma text_nilIfEmpty (s : string) : text_of (nilIfEmpty s) = s.
Proof. unfold nilIfEmpty. case_bool_decide; [by subst|done]. Qed.

Section roundtrip.
Context {FT : FloatText} {SS : SliceSort} {MR : MapRange}.

(** The same step for everyone who runs it. *)
Record acts_like (a b : Step) : Prop := {
  al_order : st_StepOrder a = st_StepOrder b;
  al_text : st_Name a = st_Name b /\ st_Description a = st_Description b /\
            st_SQLTemplate a = st_SQLTemplate b /\
            st_ManualInstructions a = st_ManualInstructions b /\
            st_EscalationContact a = st_EscalationContact b;
  al_tier : st_SafetyTier a = st_SafetyTier b /\ st_TimeoutSeconds a = st_TimeoutSeconds b;
  al_interpret : forall cols rows n,
    Interpret (st_ResultInterpretation a) cols rows n = Interpret (st_ResultInterpretation b) cols rows n;
  al_branch : forall v cols rows, EvaluateBranch a v cols rows = EvaluateBranch b v cols rows
}.

Lemma json_any_number (v w : any) : storable v -> json_any v = Ok w -> toFloat64 w = toFloat64 v.
Proof. destruct v; cbn; try done; destr_ifs; by intros _ [= <-]. Qed.

Lemma numeric_stored (a : float64) (op : string) (v w : any) :
  storable v -> json_any v = Ok w -> evaluateNumeric a op w = evaluateNumeric a op v.
Proof. intros Hs Hj. unfold evaluateNumeric. by rewrite (json_any_number v w Hs Hj). Qed.

Lemma condition_stored (x : any) (op : string) (v w : any) :
  storable v -> json_any v = Ok w -> evaluateCondition x op w = evaluateCondition x op v.
Proof. intros Hs Hj. unfold evaluateCondition. by rewrite (numeric_stored _ _ v w Hs Hj). Qed.

Lemma json_list_Forall2 {A} (f : A -> result A) (l : list A) : forall l',
  json_list f l = Ok l' -> Forall2 (fun x y => f x = Ok y) l l'.
Proof.
  induction l as [|x l IH]; cbn; intros l'; [by intros [= <-]; constructor|].
  destruct (f x) as [y|] eqn:E; [|done]. destruct (json_list f l) as [ys|]; [|done].
  intros [= <-]. constructor; auto.
Qed.

Lemma row_count_stored (l l' : list RowCountRule) (n : Z) :
  Forall (fun r => storable (rc_Value r)) l -> Forall2 (fun x y => json_row_rule x = Ok y) l l' ->
  match first_row_count l' n, first_row_count l n with
  | Some a, Some b => rc_Verdict a = rc_Verdict b /\ rc_Message a = rc_Message b
  | None, None => True
  | _, _ => False
  end.
Proof.
  intros Hs H. induction H as [|r r' l l' Hr _ IH]; [done|]. inversion Hs as [|? ? Hv Hs']; subst.
  cbn. unfold json_row_rule in Hr. destruct (json_any (rc_Value r)) as [w|] eqn:E; [|done].
  injection Hr as <-. cbn. rewrite (numeric_stored _ _ _ _ Hv E).
  destruct (evaluateNumeric _ _ _); [done|by apply IH].
Qed.

Lemma rules_stored (l l' : list InterpretationRule) (m : gmap string any) :
  Forall (fun r => storable (ir_Value r)) l -> Forall2 (fun x y => json_rule x = Ok y) l l' ->
  match first_rule l' m, first_rule l m with
  | Some a, Some b => ir_Verdict a = ir_Verdict b /\ ir_Message a = ir_Message b
  | None, None => True
  | _, _ => False
  end.
Proof.
  intros Hs H. induction H as [|r r' l l' Hr _ IH]; [done|]. inversion Hs as [|? ? Hv Hs']; subst.
  cbn. unfold json_rule in Hr. destruct (json_any (ir_Value r)) as [w|] eqn:E; [|done].
  injection Hr as <-. cbn. destruct (m !! ir_Column r) as [x|]; [|by apply IH].
  rewrite (condition_stored _ _ _ _ Hv E). destruct (evaluateCondition _ _ _); [done|by apply IH].
Qed.

Lemma branches_stored (l l' : list BranchRule) (v : string) (m : option (gmap string any)) :
  Forall (fun b => storable (bc_Value (br_Condition b))) l ->
  Forall2 (fun x y => json_branch x = Ok y) l l' -> first_branch l' v m = first_branch l v m.
Proof.
  intros Hs H. induction H as [|r r' l l' Hr _ IH]; [done|]. inversion Hs as [|? ? Hv Hs']; subst.
  cbn. unfold json_branch in Hr. destruct (json_any _) as [w|] eqn:E; [|done].
  injection Hr as <-. cbn. rewrite (IH Hs').
  enough (matchBranchCondition (mkBranchCondition (bc_Column (br_Condition r))
            (bc_Operator (br_Condition r)) w (bc_Verdict (br_Condition r))) v m
          = matchBranchCondition (br_Condition r) v m) as -> by done.
  unfold matchBranchCondition. cbn. destruct m as [m|]; [|done].
  destruct (m !! _) as [x|]; [|done]. by rewrite (condition_stored _ _ _ _ Hv E).
Qed.

Lemma spec_stored (s s' : InterpretationSpec) (cols : list string) (rows : list (list any)) (n : Z) :
  Forall (fun r => storable (ir_Value r)) (is_Rules s) ->
  Forall (fun r => storable (rc_Value r)) (is_RowCountRules s) ->
  json_spec s = Ok s' -> Interpret s' cols rows n = Interpret s cols rows n.
Proof.
  intros H1 H2. unfold json_spec. destruct (json_list json_rule _) as [rules|] eqn:E1; [|done].
  destruct (json_list json_row_rule _) as [rcs|] eqn:E2; [|done]. intros [= <-].
  apply json_list_Forall2 in E1, E2. unfold Interpret. cbn.
  pose proof (row_count_stored _ _ n H2 E2) as Hr.
  destruct (first_row_count rcs n) as [a|], (first_row_count _ n) as [b|]; try done.
  { by destruct Hr as [-> ->]. }
  destruct rows as [|row rows]; [done|].
  pose proof (rules_stored _ _ (zipColumnsAndRow cols row) H1 E1) as Hq.
  destruct (first_rule rules _) as [a|], (first_rule _ _) as [b|]; try done. by destruct Hq as [-> ->].
Qed.

(** What the table holds for one playbook, in no particular order. *)
Definition step_rows (s : PGStore) (id : Z) : list Step :=
  omap (fun kv => if fst (fst kv) =? id then Some (step_of_row (fst kv) (snd kv)) else None)
    (map_to_list (pg_steps s)).

Lemma insertStep_row (now : Time) (s s' : PGStore) (id : Z) (st : Step) :
  storable_step st -> insertStep now s id st = (s', None) ->
  pg_playbooks s' = pg_playbooks s /\
  exists st', acts_like st' st /\ step_rows s' id ≡ₚ st' :: step_rows s id.
Proof.
  intros (Hs1 & Hs2 & Hs3). unfold insertStep.
  destruct (json_spec _) as [spec|] eqn:E1; [|done]. destruct (json_list _ _) as [brs|] eqn:E2; [|done].
  destruct (negb _); [done|]. case_bool_decide as Hkey; [done|]. case_bool_decide; [done|].
  intros [= <-]. split; [done|]. unfold step_rows. cbn [pg_steps].
  match goal with |- context [<[?k := ?r]> ?m] => set (key := k); set (row := r) end.
  exists (step_of_row key row). split.
  - split; cbn; rewrite ?text_nilIfEmpty; try done.
    + intros. by apply spec_stored.
    + intros. unfold EvaluateBranch. cbn. apply json_list_Forall2 in E2.
      by rewrite (branches_stored _ _ _ _ Hs3 E2).
  - rewrite map_to_list_insert; [|by apply eq_None_not_Some]. cbn. by rewrite Z.eqb_refl.
Qed.

Lemma insert_steps_rows (now : Time) (id : Z) (sts : list Step) : forall (s s' : PGStore),
  Forall storable_step sts -> insert_steps now s id sts = (s', None) ->
  pg_playbooks s' = pg_playbooks s /\
  exists new, Forall2 acts_like new sts /\ step_rows s' id ≡ₚ new ++ step_rows s id.
Proof.
  induction sts as [|st sts IH]; intros s s' Hs; cbn; [intros [= <-]; by split; [|exists []]|].
  inversion Hs as [|? ? Hst Hsts]; subst.
  destruct (insertStep now s id st) as [s1 [e|]] eqn:E; [done|]. intros Hi.
  destruct (insertStep_row _ _ _ _ _ Hst E) as (Hp & st' & Hl & Hperm).
  destruct (IH s1 s' Hsts Hi) as (Hp' & new & Hn & Hperm'). split; [congruence|].
  exists (st' :: new). split; [by constructor|]. rewrite Hperm', Hperm. cbn.
  symmetry. apply Permutation_middle.
Qed.

(** The next identity is not in use. *)
Definition sequence_fresh (s : PGStore) : Prop :=
  forall n, pg_steps s !! (pg_seq_playbooks s, n) = None.

Lemma step_rows_fresh (s : PGStore) :
  sequence_fresh s -> step_rows s (pg_seq_playbooks s) = [].
Proof.
  intros H. unfold step_rows. destruct (omap _ _) as [|st l] eqn:E; [done|]. exfalso.
  assert (st ∈ st :: l) as Hin by left. rewrite <- E in Hin.
  apply list_elem_of_omap in Hin as ([[p n] row] & Hin & Hst). cbn in Hst.
  destruct (Z.eqb_spec p (pg_seq_playbooks s)) as [->|]; [|done].
  apply elem_of_map_to_list in Hin. by rewrite H in Hin.
Qed.

(** C7: A created playbook reads back as it was written: after a successful Create, Get by the new
    identity returns a playbook with the same slug, name, version, status and bindings, whose steps are those
    given, ordered by their number, each with the same statement, tier and texts, the same verdict
    and message for every result, and the same next step. *)
Theorem create_get_roundtrip (now : Time) (s s' : PGStore) (pb : Playbook) (id : Z) :
  sequence_fresh s -> Forall storable_step (pb_Steps pb) -> pg_Create now s pb = (s', Ok id) ->
  exists pb' sts, pg_Get s' id = Ok (Some pb') /\
    pb_ID pb' = id /\ pb_Slug pb' = pb_Slug pb /\ pb_Name pb' = pb_Name pb /\
    pb_Version pb' = pb_Version pb /\ pb_Status pb' = pb_Status pb /\
    pb_TriggerBindings pb' = pb_TriggerBindings pb /\
    pb_Steps pb' ≡ₚ sts /\ Forall2 acts_like sts (pb_Steps pb) /\
    StronglySorted (fun a b => st_StepOrder a <= st_StepOrder b) (pb_Steps pb').
Proof.
  intros Hf Hs. unfold pg_Create, insert_playbook. destruct (negb _); [done|].
  destruct (slug_taken _ _); [done|]. cbn [set_playbooks].
  match goal with |- context [insert_steps now ?a ?b ?c] => set (s1 := a); set (i := b) end.
  destruct (insert_steps now s1 i (pb_Steps pb)) as [s2 [[n e]|]] eqn:E; [done|]. intros [= <- <-].
  destruct (insert_steps_rows _ _ _ _ _ Hs E) as (Hp & new & Hnew & Hperm).
  change (step_rows s1 i) with (step_rows s (pg_seq_playbooks s)) in Hperm.
  rewrite (step_rows_fresh s Hf), app_nil_r in Hperm.
  unfold pg_Get. rewrite Hp. cbn [s1 pg_playbooks set_playbooks]. unfold i. rewrite lookup_insert_eq.
  eexists _, new. split; [reflexivity|]. cbn. do 6 (split; [done|]). split; [|split; [done|]].
  - unfold getSteps. rewrite sort_slice_perm, <- Hperm. unfold step_rows, i.
    apply omap_Permutation. apply map_range_perm.
  - unfold getSteps. eapply StronglySorted_weaken; [|apply sort_slice_sorted, weak_on_Z].
    cbn. intros x y H. zb. lia.
Qed.

End roundtrip.

#[local] Instance demoText : FloatText := {| float64_text := fun _ => ""; float32_text := fun _ => "" |}.

Lemma walArchive_storable : Forall storable_step (pb_Steps walArchiveFailurePlaybook).
Proof. repeat constructor. Qed.

Lemma empty_fresh : sequence_fresh empty_store.
Proof. intros n. apply lookup_empty. Qed.

Lemma walArchive_created :
  (@pg_Create demoText 0 empty_store walArchiveFailurePlaybook).2 = Ok 1.
Proof. vm_compute. reflexivity. Qed.

Lemma create_get_roundtrip_witness : exists pb' sts,
  @pg_Get insertion_SliceSort canonical_MapRange (pg_Create 0 empty_store walArchiveFailurePlaybook).1 1
    = Ok (Some pb') /\ pb_Steps pb' ≡ₚ sts /\ Forall2 acts_like sts (pb_Steps walArchiveFailurePlaybook).
Proof.
  pose proof (surjective_pairing (@pg_Create demoText 0 empty_store walArchiveFailurePlaybook)) as E.
  rewrite walArchive_created in E.
  destruct (@create_get_roundtrip demoText insertion_SliceSort canonical_MapRange 0 empty_store _
              walArchiveFailurePlaybook 1 empty_fresh walArchive_storable E)
    as (pb' & sts & H1 & _ & _ & _ & _ & _ & _ & H2 & H3 & _).
  exists pb', sts. split; [exact H1|]. split; [exact H2|exact H3].
Defined.

(** ** Resolution *)

Section resolution.
Context {FT : FloatText} {SS : SliceSort} {MR : MapRange} {ST : SqlText}.

(** A stable playbook of the table that a key is bound to. *)
Definition candidate (s : PGStore) (bindingType key : string) (pb : Playbook) : Prop :=
  key <> "" /\ exists id row, pg_playbooks s !! id = Some row /\ bound bindingType key row = true /\
    pb = with_steps row (getSteps s (pb_ID row)).

Lemma playbook_rows_elem (s : PGStore) (row : Playbook) :
  row ∈ playbook_rows s <-> exists id, pg_playbooks s !! id = Some row.
Proof.
  unfold playbook_rows. rewrite list_elem_of_fmap. split.
  - intros ([id r] & -> & H). rewrite map_range_perm in H. apply elem_of_map_to_list in H. by exists id.
  - intros [id H]. exists (id, row). split; [done|]. by rewrite map_range_perm, elem_of_map_to_list.
Qed.

Lemma lookup_binding_spec (s : PGStore) (bindingType key : string) :
  match lookup_binding s bindingType key with
  | Some pb => candidate s bindingType key pb /\
      forall pb', candidate s bindingType key pb' -> pb_Version pb' <= pb_Version pb
  | None => forall pb, ~ candidate s bindingType key pb
  end.
Proof.
  unfold lookup_binding. case_bool_decide as Hk; [by intros pb [? _]|].
  cbn [ps_FindByTriggerBinding PGPlaybookStore]. unfold pg_FindByTriggerBinding.
  set (less := fun a b : Playbook => pb_Version b <? pb_Version a).
  set (rows := List.filter _ _).
  assert (forall row, row ∈ rows <-> (exists id, pg_playbooks s !! id = Some row) /\
            bound bindingType key row = true) as Hrows.
  { intros row. unfold rows. rewrite elem_of_filter_bool, playbook_rows_elem. tauto. }
  pose proof (sort_slice_perm _ less rows) as Hp.
  pose proof (sort_slice_sorted _ less rows) as Hsort.
  destruct (sort_slice less rows) as [|row l].
  - intros pb (_ & id & row & Hid & Hb & _).
    assert (row ∈ rows) as Hin by (apply Hrows; eauto). rewrite <- Hp in Hin. by apply not_elem_of_nil in Hin.
  - assert (row ∈ rows) as Hin by (rewrite <- Hp; left). apply Hrows in Hin as [[id Hid] Hb].
    split; [split; [done|]; by exists id, row|].
    intros pb' (_ & id' & row' & Hid' & Hb' & ->). cbn [with_steps pb_Version].
    assert (row' ∈ rows) as Hin' by (apply Hrows; eauto). rewrite <- Hp in Hin'.
    apply elem_of_cons in Hin' as [->|Hin']; [lia|].
    assert (weak_on less rows) as W.
    { split; unfold less; [intros x y _ _ H|intros x y z _ _ _ H1 H2]; zb; apply Z.ltb_ge; lia. }
    pose proof (StronglySorted_head _ _ _ _ (Hsort W) Hin') as Hle. unfold less in Hle. cbn in Hle.
    zb. lia.
Qed.

(** The four levels in the order of their priority. *)
Definition levels (rc : ResolverContext) : list (string * string * string) :=
  [("rca_hook", "hooks", rx_HookID rc); ("root_cause", "root_causes", rx_RootCauseKey rc);
   ("metric", "metrics", rx_MetricKey rc); ("adviser_rule", "adviser_rules", rx_AdviserRule rc)].

Ltac at_level rc n H := destruct H as [? ?]; eexists (take n (levels rc)), _, _, _;
  split; [reflexivity|]; split; [done|]; split; [done|]; cbn; by repeat constructor.

(** The resolver returns the best playbook by its documented priorities: it answers with a
    level and a playbook exactly when that playbook is stable, bound to the request's key of that
    level and of the highest version among those bound to it, and no level of higher priority has
    any stable playbook bound; it answers nothing exactly when no level has one. *)
Theorem resolve_respects_priority (s : PGStore) (rc : ResolverContext) :
  match Resolve s rc with
  | (Some pb, reason) => exists before bindingType key after,
      levels rc = before ++ (reason, bindingType, key) :: after /\
      candidate s bindingType key pb /\
      (forall pb', candidate s bindingType key pb' -> pb_Version pb' <= pb_Version pb) /\
      Forall (fun l => forall pb', ~ candidate s (snd (fst l)) (snd l) pb') before
  | (None, _) => Forall (fun l => forall pb', ~ candidate s (snd (fst l)) (snd l) pb') (levels rc)
  end.
Proof.
  unfold Resolve.
  pose proof (lookup_binding_spec s "hooks" (rx_HookID rc)) as H1.
  pose proof (lookup_binding_spec s "root_causes" (rx_RootCauseKey rc)) as H2.
  pose proof (lookup_binding_spec s "metrics" (rx_MetricKey rc)) as H3.
  pose proof (lookup_binding_spec s "adviser_rules" (rx_AdviserRule rc)) as H4.
  destruct (lookup_binding s "hooks" _); [at_level rc 0%nat H1|].
  destruct (lookup_binding s "root_causes" _); [at_level rc 1%nat H2|].
  destruct (lookup_binding s "metrics" _); [at_level rc 2%nat H3|].
  destruct (lookup_binding s "adviser_rules" _); [at_level rc 3%nat H4|].
  by repeat constructor.
Qed.

End resolution.
