(* ===== verification/PlaybookRuns.v ===== *)
(** * The life of a playbook run

    What the run handlers of internal/api/playbooks.go make of the built-in playbooks of
    internal/playbook/seed_*.go: branching always moves forward, so a walk ends; but a run whose
    playbook ends in an external step is never completed, an approval changes nothing, and
    abandoned runs can be completed. The bindings of the built-in playbooks are compared with the
    hooks of the causal graph. *)
From stdpp Require Import relations pretty.
From S2P Require Import RcaGraph RcaOntology RcaEngine.
From S2P Require Import Prelude Float64 GoText Alert Auth Http Playbook PlaybookSeed PlaybookStore.
From S2P Require Import PlaybookApi.

Local Open Scope Z_scope.

(** ** Walks through a playbook *)

Definition targets (st : Step) : list Z :=
  default 0 (st_NextStepDefault st) :: map br_GotoStep (st_BranchRules st).

Definition known (pb : Playbook) (n : Z) : bool :=
  match find_step pb n with Some _ => true | None => false end.

(** Steps are numbered from 1, and every target is 0 or a later step of the playbook. *)
Definition forward (pb : Playbook) : bool :=
  forallb (fun st =>
    (1 <=? st_StepOrder st) && (st_StepOrder st <=? len (pb_Steps pb))
    && forallb (fun m => (m =? 0) || ((st_StepOrder st <? m) && known pb m)) (targets st))
    (pb_Steps pb).

(** Some result of step [n] leads to [m]. *)
Definition advance {FT : FloatText} (pb : Playbook) (n m : Z) : Prop :=
  exists st verdict columns rows, find_step pb n = Some st /\
    EvaluateBranch st verdict columns rows = m.

Section walks.
Context {FT : FloatText}.

Lemma EvaluateBranch_target (st : Step) (v : string) (cols : list string) (rows : list (list any)) :
  EvaluateBranch st v cols rows ∈ targets st.
Proof.
  unfold EvaluateBranch, targets. generalize (match rows with row :: _ => Some (zipColumnsAndRow cols row)
                                              | [] => None end). intros m.
  assert (match first_branch (st_BranchRules st) v m with
          | Some g => g ∈ map br_GotoStep (st_BranchRules st) | None => True end) as H.
  { induction (st_BranchRules st) as [|b l IH]; [done|]. cbn. destruct (matchBranchCondition _ _ _); [by left|].
    destruct (first_branch l v m); [by right|done]. }
  destruct (first_branch _ _ _); [by right|]. destruct (st_NextStepDefault st); by left.
Qed.

Lemma find_step_order (pb : Playbook) (n : Z) (st : Step) :
  find_step pb n = Some st -> st ∈ pb_Steps pb /\ st_StepOrder st = n.
Proof.
  unfold find_step. intros H. apply find_some in H as [H1 H2]. zb. by split; [apply list_elem_of_In|].
Qed.

Lemma advance_forward (pb : Playbook) (n m : Z) :
  forward pb = true -> advance pb n m ->
  1 <= n <= len (pb_Steps pb) /\ (m = 0 \/ (n < m /\ known pb m = true)).
Proof.
  unfold forward. rewrite forallb_forall. intros Hf (st & v & cols & rows & Hst & <-).
  apply find_step_order in Hst as [Hin <-]. apply list_elem_of_In in Hin. specialize (Hf st Hin).
  apply andb_true_iff in Hf as [Hb Ht]. apply andb_true_iff in Hb as [H1 H2]. zb. split; [lia|].
  rewrite forallb_forall in Ht.
  specialize (Ht _ (proj1 (list_elem_of_In _ _) (EvaluateBranch_target st v cols rows))).
  apply orb_true_iff in Ht as [Ht|Ht]; zb; [by left|right].
  apply andb_true_iff in Ht as [H3 H4]. zb. done.
Qed.

Lemma walk_bound (pb : Playbook) (k : nat) : forall m,
  forward pb = true -> known pb 1 = true -> nsteps (advance pb) k 1 m ->
  (m = 0 /\ (k <= length (pb_Steps pb))%nat) \/
  (1 + Z.of_nat k <= m /\ known pb m = true).
Proof.
  induction k as [|k IH]; intros m Hf H1 Hn.
  { inversion Hn; subst. right. split; [lia|done]. }
  apply nsteps_inv_r in Hn as (m' & Hk & Ha). apply (advance_forward _ _ _ Hf) in Ha as [Hr Hm].
  unfold len in Hr. destruct (IH m' Hf H1 Hk) as [[-> _]|[Hm' _]]; [lia|].
  destruct Hm as [->|[Hlt Hkn]]; [left; split; [done|lia]|right; split; [lia|done]].
Qed.

Lemma builtin_forward : forallb (fun pb => forward pb && known pb 1) BuiltinPlaybooks = true.
Proof. vm_compute. reflexivity. Qed.

(** The built-in playbooks terminate: starting at step 1 and following the branch rules, with
    whatever verdicts and rows the steps produce, one reaches completion (0) or another existing
    step after every step, never a missing one, and no walk is longer than the playbook. *)
Theorem builtin_playbooks_terminate (pb : Playbook) (k : nat) (m : Z) :
  pb ∈ BuiltinPlaybooks -> nsteps (advance pb) k 1 m ->
  (k <= length (pb_Steps pb))%nat /\ (m = 0 \/ is_Some (find_step pb m)).
Proof.
  intros Hpb Hn. pose proof builtin_forward as Hall. rewrite forallb_forall in Hall.
  apply list_elem_of_In in Hpb. apply Hall, andb_true_iff in Hpb as [Hf H1].
  destruct (walk_bound pb k m Hf H1 Hn) as [[-> Hk]|[Hm Hk]]; [by split; [|left]|].
  unfold known in Hk. destruct (find_step pb m) as [st|] eqn:E; [|done]. split; [|by right].
  apply find_step_order in E as [Hin <-]. apply list_elem_of_In in Hin.
  unfold forward in Hf. rewrite forallb_forall in Hf. specialize (Hf st Hin).
  apply andb_true_iff in Hf as [Hb _]. apply andb_true_iff in Hb as [_ H2]. unfold len in H2. zb. lia.
Qed.

End walks.

(** ** Runs that cannot complete *)

(** Every step is external, where a run does not advance, or leads to another step. *)
Definition endless_step (st : Step) : bool :=
  bool_decide (st_SafetyTier st = TierExternal) || forallb (fun m => negb (m =? 0)) (targets st).

Definition endless (pb : Playbook) : bool := forallb endless_step (pb_Steps pb).

Example endless_builtins :
  map pb_Slug (List.filter (fun pb => negb (endless pb)) BuiltinPlaybooks) = ["wal-archive-failure"].
Proof. vm_compute. reflexivity. Qed.

Section completion.
Context {FT : FloatText} {SS : SliceSort} {MR : MapRange} {ST : SqlText}.

(** The playbook [id] is endless, and none of its runs is completed. *)
Record uncompleted (id : Z) (s : PGStore) : Prop := {
  un_row : exists row, pg_playbooks s !! id = Some row /\ pb_ID row = id;
  un_steps : forall st, st ∈ getSteps s id -> endless_step st = true;
  un_runs : forall r row, pg_runs s !! r = Some row -> rr_PlaybookID row = id -> rr_Status row <> "completed"
}.

Lemma uncompleted_same (id : Z) (s s' : PGStore) :
  pg_playbooks s' = pg_playbooks s -> pg_steps s' = pg_steps s -> pg_runs s' = pg_runs s ->
  uncompleted id s -> uncompleted id s'.
Proof.
  intros E1 E2 E3 [H1 H2 H3]. split; [by rewrite E1| |by rewrite E3].
  unfold getSteps in *. by rewrite E2.
Qed.

(** Calls that touch neither playbooks nor runs. *)
Definition step_call (c : call) : bool :=
  match c with
  | KNow | KInstanceExists _ | KExecuteStep _ _ _ _ | KResolve _ | KGet _ | KList _ | KGetRun _
  | KListRuns _ | KListRunsByInstance _ _ | KCreateRunStep _ | KUpdateRunStep _
  | KLockStepForExecution _ _ | KResetStepForRetry _ _ | KRequestStepApproval _ _ => true
  | _ => false
  end.

Lemma step_call_same (E : env) (s : PGStore) (c : call) :
  step_call c = true ->
  pg_playbooks (exec_call E s c).1 = pg_playbooks s /\ pg_steps (exec_call E s c).1 = pg_steps s /\
  pg_runs (exec_call E s c).1 = pg_runs s.
Proof.
  destruct c; try discriminate; intros _; cbn; try done.
  - unfold pg_CreateRunStep. destr_ifs; try done.
  - unfold pg_LockStepForExecution. destruct (_ !! _); [|done]. destr_ifs; done.
  - unfold pg_ResetStepForRetry. destruct (_ !! _); [|done]. destr_ifs; done.
  - unfold pg_RequestStepApproval. destruct (_ !! _); [|done]. destr_ifs; done.
Qed.

(** A program that keeps the invariant, whatever the store. *)
Definition keeps (id : Z) (p : prog) : Prop :=
  forall E s, uncompleted id s -> uncompleted id (run_alone E s p).1.

Lemma keeps_done (id : Z) (r : response playBody) : keeps id (Done r).
Proof. by intros E s. Qed.

Lemma keeps_call (id : Z) (c : call) (k : reply c -> prog) :
  step_call c = true -> (forall x, keeps id (k x)) -> keeps id (Call c k).
Proof.
  intros Hc Hk E s H. cbn. destruct (step_call_same E s c Hc) as (E1 & E2 & E3).
  destruct (exec_call E s c) as [s' x]. apply Hk. by eapply uncompleted_same.
Qed.

Lemma keeps_create_steps (id r : Z) (sts : list Step) (b : response playBody) :
  keeps id (create_run_steps r sts (Done b)).
Proof. induction sts as [|st sts IH]; [apply keeps_done|]. by apply keeps_call. Qed.

(** A run as read from the table is the row of its identity. *)
Lemma GetRun_row (s : PGStore) (r : Z) (run : Run) :
  pg_GetRun s r = Ok (Some run) -> run_ID run = r /\
  exists row, pg_runs s !! r = Some row /\ rr_PlaybookID row = run_PlaybookID run /\
    rr_Status row = run_Status run.
Proof.
  unfold pg_GetRun. destruct (pg_runs s !! r) as [row|]; [|done].
  destruct (pg_playbooks s !! _); [|done]. intros [= <-]. split; [done|]. by exists row.
Qed.

Lemma uncompleted_update (id : Z) (now : Time) (s : PGStore) (run : Run) (row : RunRow) :
  uncompleted id s -> pg_runs s !! run_ID run = Some row ->
  (rr_PlaybookID row = id -> run_Status run <> "completed") ->
  uncompleted id (pg_UpdateRun now s run).1.
Proof.
  intros [H1 H2 H3] Hrow Hst. unfold pg_UpdateRun. destruct (negb _); [done|]. split; [done|done|].
  cbn. intros r row' Hr. rewrite lookup_alter in Hr. case_decide as Hd; [|by apply (H3 r)].
  subst. rewrite Hrow in Hr. injection Hr as <-. cbn. exact Hst.
Qed.

Lemma uncompleted_feedback (id : Z) (now : Time) (s : PGStore) (r : Z) (a b : option bool) (n : string) :
  uncompleted id s -> uncompleted id (pg_UpdateFeedback now s r a b n).1.
Proof.
  intros [H1 H2 H3]. split; [done|done|]. cbn. intros r' row Hr. rewrite lookup_alter in Hr.
  case_decide as Hd; [|by apply (H3 r')]. destruct (pg_runs s !! r) as [row0|] eqn:E; [|done].
  injection Hr as <-. cbn. by apply (H3 r).
Qed.

(** The part of a request between reading the run and updating it. *)
Definition keeps_run (id rid : Z) (row : RunRow) (p : prog) : Prop :=
  forall E s, uncompleted id s -> pg_runs s !! rid = Some row -> uncompleted id (run_alone E s p).1.

Lemma keeps_run_call (id rid : Z) (row : RunRow) (c : call) (k : reply c -> prog) :
  step_call c = true -> (forall x, keeps_run id rid row (k x)) -> keeps_run id rid row (Call c k).
Proof.
  intros Hc Hk E s H Hr. cbn. destruct (step_call_same E s c Hc) as (E1 & E2 & E3).
  destruct (exec_call E s c) as [s' x]. cbn in *.
  apply Hk; [by eapply uncompleted_same|by rewrite E3].
Qed.

Lemma keeps_run_done (id rid : Z) (row : RunRow) (b : response playBody) : keeps_run id rid row (Done b).
Proof. by intros E s. Qed.

Lemma keeps_run_update (id rid : Z) (row : RunRow) (run : Run) (p : prog) :
  run_ID run = rid -> (rr_PlaybookID row = id -> run_Status run <> "completed") -> keeps id p ->
  keeps_run id rid row (Call (KUpdateRun run) (fun _ => p)).
Proof.
  intros <- Hst Hp E s H Hr. cbn.
  pose proof (uncompleted_update id (ev_now E) s run row H Hr Hst) as H'.
  destruct (pg_UpdateRun _ _ _) as [s' x]. by apply Hp.
Qed.

Lemma execute_by_tier_keeps (id rid n : Z) (claims : option Claims) (b : bool) (run : Run) (row : RunRow)
    (st : Step) :
  run_ID run = rid -> rr_Status row = run_Status run ->
  (rr_PlaybookID row = id -> run_Status run <> "completed" /\ endless_step st = true) ->
  keeps_run id rid row (execute_by_tier claims b run rid n st).
Proof.
  intros Hid Hst Hno.
  assert (st_SafetyTier st <> TierExternal -> keeps_run id rid row (lock_and_execute claims run rid n st)) as Hlock.
  { intros Hext. unfold lock_and_execute. apply keeps_run_call; [done|]. intros [[]|]; try apply keeps_run_done.
    unfold execute_locked. apply keeps_run_call; [done|]. intros [res|e].
    - destruct (Interpret _ _ _ _) as [v m]. apply keeps_run_call; [done|]. intros now.
      apply keeps_run_call; [done|]. intros _. destruct (Z.eqb_spec (EvaluateBranch st v (er_Columns res) (er_Rows res)) 0) as [E0|E0].
      + apply keeps_run_call; [done|]. intros t. unfold save_run.
        apply keeps_run_update; [done| |apply keeps_done]. intros Hp. destruct (Hno Hp) as [_ He].
        unfold endless_step in He. rewrite bool_decide_false, orb_false_l in He by done.
        rewrite forallb_forall in He.
        specialize (He _ (proj1 (list_elem_of_In _ _) (EvaluateBranch_target st v (er_Columns res) (er_Rows res)))).
        by rewrite E0 in He.
      + unfold save_run. apply keeps_run_update; [done| |apply keeps_done]. intros Hp. by apply Hno.
    - apply keeps_run_call; [done|]. intros now. apply keeps_run_call; [done|]. intros _. apply keeps_run_done. }
  unfold execute_by_tier.
  case_bool_decide as T1; [apply Hlock; by rewrite T1|].
  case_bool_decide as T2; [destruct (negb b); [apply keeps_run_done|apply Hlock; by rewrite T2]|].
  case_bool_decide as T3; [destruct (match claims with Some _ => _ | None => true end);
                           [apply keeps_run_done|apply Hlock; by rewrite T3]|].
  case_bool_decide as T4; [|by apply Hlock].
  apply keeps_run_call; [done|]. intros now. apply keeps_run_call; [done|]. intros _. apply keeps_run_done.
Qed.

Lemma execute_keeps (id : Z) (sv : PlaybookServer) (claims : option Claims) (b : bool) (rs ns : string) :
  keeps id (handleExecuteStep sv claims b rs ns).
Proof.
  unfold handleExecuteStep. destruct (_ || _); [apply keeps_done|].
  destruct (ParseInt rs) as [rid [e|]]; [apply keeps_done|].
  destruct (Atoi ns) as [n [e|]]; [apply keeps_done|].
  intros E s H. cbn [run_alone exec_call ps_GetRun PGPlaybookStore].
  destruct (pg_GetRun s rid) as [[run|]|e] eqn:Hrun; [|done..].
  destruct (GetRun_row _ _ _ Hrun) as (Hid & row & Hrow & Hpid & Hst).
  cbn [run_alone exec_call ps_Get PGPlaybookStore].
  destruct (pg_Get s (run_PlaybookID run)) as [[pb|]|e] eqn:Hpb; [|done..].
  destruct (find_step pb n) as [st|] eqn:Hstep; [|done].
  apply (execute_by_tier_keeps id rid n claims b run row st); [done|done| |done|done].
  intros Hp. split; [rewrite <- Hst; by apply (un_runs _ _ H rid)|].
  destruct (un_row _ _ H) as (prow & Hprow & Hpid'). unfold pg_Get in Hpb.
  rewrite <- Hpid, Hp, Hprow in Hpb. injection Hpb as <-. rewrite Hpid' in Hstep.
  apply find_step_order in Hstep as [Hin _]. by apply (un_steps _ _ H).
Qed.

Lemma start_keeps (id : Z) (sv : PlaybookServer) (claims : option Claims) (i p : string)
    (t : string * string) : keeps id (handleStartRun sv claims i p t).
Proof.
  unfold handleStartRun. destruct (_ || _); [apply keeps_done|].
  apply keeps_call; [done|]. intros ex. destruct (negb ex); [apply keeps_done|].
  destruct (ParseInt p) as [pid [e|]]; [apply keeps_done|].
  apply keeps_call; [done|]. intros [[pb|]|e]; try apply keeps_done.
  intros E s H. cbn [run_alone exec_call ps_CreateRun PGPlaybookStore].
  match goal with |- context [pg_CreateRun ?a ?b ?c] => set (run := c) end.
  assert (uncompleted id (pg_CreateRun (ev_now E) s run).1) as H'.
  { unfold pg_CreateRun. case_bool_decide; [by apply (uncompleted_same id s)|]. destruct H as [H1 H2 H3].
    split; [done|done|]. cbn. intros r row Hr. rewrite lookup_insert in Hr.
    case_decide; [by injection Hr as <-|by apply (H3 r)]. }
  destruct (pg_CreateRun _ _ _) as [s' [rid|e]]; [by apply keeps_create_steps|done].
Qed.

Lemma abandon_keeps (id : Z) (sv : PlaybookServer) (r : string) : keeps id (handleAbandonRun sv r).
Proof.
  unfold handleAbandonRun. destruct (negb _); [apply keeps_done|].
  intros E s H. cbn [run_alone exec_call ps_GetRun PGPlaybookStore].
  destruct (pg_GetRun s _) as [[run|]|e] eqn:Hrun; [|done..].
  destruct (GetRun_row _ _ _ Hrun) as (Hid & row & Hrow & _ & _).
  apply (keeps_run_call id (fst (ParseInt r)) row); [done| |done|done]. intros t.
  apply keeps_run_update; [done|by intros _|].
  intros E' s' H'. cbn. apply uncompleted_feedback. exact H'.
Qed.

Lemma feedback_keeps (id : Z) (sv : PlaybookServer) (r : string)
    (b : result (option bool * option bool * string)) : keeps id (handleSubmitFeedback sv r b).
Proof.
  unfold handleSubmitFeedback. destruct (negb _); [apply keeps_done|].
  destruct b as [[[u v] n]|e]; [|apply keeps_done]. intros E s H. cbn.
  by apply uncompleted_feedback.
Qed.

(** The requests that do not edit playbooks. *)
Inductive run_request : prog -> Prop :=
  | rq_list sv a b c d e : run_request (handleListPlaybooks sv a b c d e)
  | rq_get sv i : run_request (handleGetPlaybook sv i)
  | rq_resolve sv rc : run_request (handleResolvePlaybook sv rc)
  | rq_start sv cl i p t : run_request (handleStartRun sv cl i p t)
  | rq_getrun sv r : run_request (handleGetRun sv r)
  | rq_execute sv cl b r n : run_request (handleExecuteStep sv cl b r n)
  | rq_confirm : run_request handleConfirmStep
  | rq_approve sv r n : run_request (handleApproveStep sv r n)
  | rq_request sv r n : run_request (handleRequestApproval sv r n)
  | rq_retry sv r n : run_request (handleRetryStep sv r n)
  | rq_skip sv r n : run_request (handleSkipStep sv r n)
  | rq_abandon sv r : run_request (handleAbandonRun sv r)
  | rq_feedback sv r b : run_request (handleSubmitFeedback sv r b)
  | rq_instance_runs sv i a b c : run_request (handleListInstanceRuns sv i a b c)
  | rq_all_runs sv a b c : run_request (handleListAllRuns sv a b c).

Ltac keeps_calls :=
  repeat (cbn; match goal with
  | |- keeps _ (Done _) => apply keeps_done
  | |- keeps _ (Call _ _) => apply keeps_call; [reflexivity|]; intros ?
  | |- keeps _ (match ?x with _ => _ end) => destruct x
  | |- keeps _ (let (_, _) := ?x in _) => destruct x
  | |- keeps _ (ok _) => apply keeps_done
  | |- keeps _ (server_error _ _) => apply keeps_done
  end).

Lemma run_request_keeps (id : Z) (p : prog) : run_request p -> keeps id p.
Proof.
  destruct 1; [..|apply start_keeps| |apply execute_keeps| | | | | |apply abandon_keeps|apply feedback_keeps| |];
    unfold handleListPlaybooks, handleGetPlaybook, handleResolvePlaybook, handleGetRun, handleConfirmStep,
    handleApproveStep, handleRequestApproval, handleRetryStep, handleSkipStep,
    handleListInstanceRuns, handleListAllRuns, disabled, invalid_id; keeps_calls.
Qed.

(** Requests served one after the other, each with its own surroundings. *)
Definition serve_all (s : PGStore) (reqs : list (env * prog)) : PGStore :=
  foldl (fun s Ep => (run_alone (fst Ep) s (snd Ep)).1) s reqs.

Lemma serve_all_keeps (id : Z) (s : PGStore) (reqs : list (env * prog)) :
  Forall (fun Ep => run_request (snd Ep)) reqs -> uncompleted id s -> uncompleted id (serve_all s reqs).
Proof.
  intros Hr H. unfold serve_all. apply foldl_inv; [|done].
  intros s' [E p] Hin Hs. apply run_request_keeps; [|done]. rewrite list.Forall_forall in Hr.
  apply (Hr _ Hin).
Qed.

(** ** The seeded tables *)

Definition seeded (now : Time) : PGStore := (pg_SeedBuiltins now empty_store BuiltinPlaybooks).1.

Lemma seeded_checks (now : Time) :
  forallb (fun kv => (fst (fst kv) =? 1) || endless_step (step_of_row (fst kv) (snd kv)))
    (map_to_list (pg_steps (seeded now)))
  && forallb (fun kv => (pb_ID (snd kv) =? fst kv)
                        && Bool.eqb (fst kv =? 1) (bool_decide (pb_Slug (snd kv) = "wal-archive-failure")))
       (map_to_list (pg_playbooks (seeded now))) = true.
Proof. vm_compute. reflexivity. Qed.

Lemma seeded_runs (now : Time) : pg_runs (seeded now) = ∅.
Proof. vm_compute. reflexivity. Qed.

Lemma seeded_uncompleted (now : Time) (id : Z) (row : Playbook) :
  pg_playbooks (seeded now) !! id = Some row -> pb_Slug row <> "wal-archive-failure" ->
  uncompleted id (seeded now).
Proof.
  intros Hrow Hslug. pose proof (seeded_checks now) as [Hst Hpb]%andb_true_iff.
  rewrite forallb_forall in Hst, Hpb.
  pose proof (Hpb (id, row)) as Hp. rewrite <- list_elem_of_In, elem_of_map_to_list in Hp.
  pose proof (Hp Hrow) as Hq. apply andb_true_iff in Hq as [Hid Hone]. cbn in Hid, Hone. zb.
  rewrite (bool_decide_false _ Hslug) in Hone.
  split; [exists row; exact (conj Hrow Hid)| |].
  - intros st Hin. unfold getSteps in Hin. rewrite sort_slice_perm in Hin.
    apply list_elem_of_omap in Hin as ([[p n] r] & Hin & Heq). cbn in Heq.
    rewrite map_range_perm in Hin. apply list_elem_of_In, Hst in Hin. cbn in Hin.
    destruct (Z.eqb_spec p id) as [->|]; [|discriminate Heq]. injection Heq as <-.
    destruct (id =? 1); [discriminate Hone|exact Hin].
  - intros r rw Hr. rewrite seeded_runs, lookup_empty in Hr. discriminate Hr.
Qed.

(** Nine of the ten built-in playbooks can never complete a run: on the freshly seeded tables,
    whatever sequence of requests starts runs, executes, acknowledges, skips, retries or abandons
    steps and gives feedback, and whatever the monitored databases answer, no run of a built-in
    playbook other than WAL Archive Failure ever has status completed, because they end in an
    external step and acknowledging one does not advance the run. *)
Theorem builtin_runs_never_complete (now : Time) (reqs : list (env * prog)) (id r : Z)
    (row : Playbook) (run : RunRow) :
  Forall (fun Ep => run_request (snd Ep)) reqs ->
  pg_playbooks (seeded now) !! id = Some row -> pb_Slug row <> "wal-archive-failure" ->
  pg_runs (serve_all (seeded now) reqs) !! r = Some run -> rr_PlaybookID run = id ->
  rr_Status run <> "completed".
Proof.
  intros Hr Hrow Hslug Hrun.
  apply (un_runs id (serve_all (seeded now) reqs)) with (r := r); [|exact Hrun].
  apply serve_all_keeps; [exact Hr|]. exact (seeded_uncompleted now id row Hrow Hslug).
Qed.

End completion.

(** ** Witnesses on the seeded tables *)

#[local] Instance demoText : FloatText := {| float64_text := fun _ => ""; float32_text := fun _ => "" |}.
#[local] Instance demoSql : SqlText := {| ilike := fun _ _ => true; text_ltb := string_ltb |}.
#[local] Instance demoSort : SliceSort := insertion_SliceSort.
#[local] Instance demoRange : MapRange := canonical_MapRange.

Lemma lock_walk : nsteps (advance lockContentionPlaybook) 2 1 3.
Proof.
  apply nsteps_l with 2.
  - eexists _, "red", [], []. split; [reflexivity|]. reflexivity.
  - apply nsteps_once. eexists _, "yellow", [], []. split; reflexivity.
Qed.

Lemma builtin_playbooks_terminate_witness :
  (2 <= length (pb_Steps lockContentionPlaybook))%nat /\
  (3 = 0 \/ is_Some (find_step lockContentionPlaybook 3)).
Proof.
  apply (builtin_playbooks_terminate lockContentionPlaybook 2 3); [|exact lock_walk].
  do 3 right. left.
Defined.

Definition demo_sv : PlaybookServer := mkPlaybookServer true true true.
Definition demo_env : env :=
  mkEnv 100 ["db1"] (fun _ _ => Ok (mkExecutionResult ["used_pct"] [[VInt 95]] 1 1 false 3)).

(** A run of the connection playbook with every step executed in order, the last one external. *)
Definition demo_reqs : list (env * prog) :=
  (demo_env, handleStartRun demo_sv None "db1" "3" ("alert", "conn-high"))
  :: map (fun n => (demo_env, handleExecuteStep demo_sv None false "1" n)) ["1"; "2"; "3"; "4"; "5"].

Lemma demo_reqs_ok : Forall (fun Ep => run_request (snd Ep)) demo_reqs.
Proof. repeat constructor. Qed.

Abbreviation demo_final := (serve_all (seeded 0) demo_reqs).

Lemma demo_served :
  match pg_playbooks (seeded 0) !! 3, pg_runs demo_final !! 1 with
  | Some row, Some run =>
      bool_decide (pb_Slug row = "connection-saturation") && (rr_PlaybookID run =? 3)
      && bool_decide (rr_Status run = "in_progress")
      && forallb (fun kv => bool_decide (sp_Status (snd kv) = "completed")) (map_to_list (pg_run_steps demo_final))
  | _, _ => false
  end = true.
Proof. vm_compute. reflexivity. Qed.

Lemma builtin_runs_never_complete_witness : exists row run,
  pg_playbooks (seeded 0) !! 3 = Some row /\ pg_runs demo_final !! 1 = Some run /\
  rr_Status run <> "completed".
Proof.
  pose proof demo_served as H. revert H.
  destruct (pg_playbooks (seeded 0) !! 3) as [row|] eqn:E1; [|intros H; discriminate H].
  destruct (pg_runs demo_final !! 1) as [run|] eqn:E2; [|intros H; discriminate H].
  rewrite !andb_true_iff, !bool_decide_eq_true, Z.eqb_eq. intros [[[Hslug Hp] _] _].
  exists row, run. split; [reflexivity|]. split; [reflexivity|].
  exact (builtin_runs_never_complete 0 demo_reqs 3 1 row run demo_reqs_ok E1
           ltac:(rewrite Hslug; discriminate) E2 Hp).
Defined.

(** ** Approval *)

Section approval.
Context {FT : FloatText} {SS : SliceSort} {MR : MapRange} {ST : SqlText}.

(** Approving a step does not approve it: when a caller without instance management asks for
    approval of a dangerous pending step and a DBA approves it, the step still has status
    pending_approval, and the caller's next execution is answered with awaiting_approval again and
    changes nothing. *)
Theorem approval_does_not_approve (E1 E2 E3 : env) (s : PGStore) (sv : PlaybookServer)
    (claims : option Claims) (confirmed : bool) (rs ns : string) (r n : Z) (row : RunStepRow)
    (run : Run) (pb : Playbook) (st : Step) :
  sv_store sv = true -> sv_executor sv = true ->
  ParseInt rs = (r, None) -> Atoi ns = (n, None) ->
  pg_run_steps s !! (r, n) = Some row -> sp_Status row = "pending" ->
  pg_GetRun s r = Ok (Some run) -> pg_Get s (run_PlaybookID run) = Ok (Some pb) ->
  find_step pb n = Some st -> st_SafetyTier st = TierDangerous ->
  match claims with Some c => HasPermission (c_Role c) PermInstanceManagement = false | None => True end ->
  let s1 := (run_alone E1 s (handleRequestApproval sv rs ns)).1 in
  let s2 := (run_alone E2 s1 (handleApproveStep sv rs ns)).1 in
  run_alone E2 s1 (handleApproveStep sv rs ns) = (s1, writeJSON StatusOK (BStatus "approved")) /\
  pg_run_steps s2 !! (r, n) = Some (with_step_status "pending_approval" row) /\
  run_alone E3 s2 (handleExecuteStep sv claims confirmed rs ns)
  = (s2, writeJSON StatusOK (BStatusMessage "awaiting_approval" "This action requires DBA approval")).
Proof.
  intros Hsv Hex Hr Hn Hrow Hst Hrun Hpb Hfind Htier Hperm s1 s2.
  set (sp := set_run_steps s (<[(r, n) := with_step_status "pending_approval" row]> (pg_run_steps s))).
  assert (s1 = sp) as E.
  { subst s1 sp. unfold handleRequestApproval. rewrite Hsv, Hr, Hn. cbn.
    unfold pg_RequestStepApproval. rewrite Hrow, Hst. reflexivity. }
  assert (forall E', run_alone E' sp (handleApproveStep sv rs ns) = (sp, writeJSON StatusOK (BStatus "approved"))) as Happ.
  { intros E'. unfold handleApproveStep. rewrite Hsv, Hr, Hn. cbn. unfold pg_ResetStepForRetry.
    subst sp. cbn. rewrite lookup_insert_eq. reflexivity. }
  subst s2. rewrite E, Happ. cbn [fst]. split; [done|]. split; [by subst sp; cbn; rewrite lookup_insert_eq|].
  unfold handleExecuteStep. rewrite Hsv, Hex, Hr, Hn. cbn [negb orb run_alone exec_call ps_GetRun PGPlaybookStore].
  assert (exists steps, pg_GetRun sp r = Ok (Some (mkRun (run_ID run) (run_PlaybookID run)
            (run_PlaybookVersion run) (run_PlaybookName run) (run_InstanceID run) (run_StartedBy run)
            (run_Status run) (run_CurrentStepOrder run) (run_TriggerSource run) (run_TriggerID run) steps
            (run_StartedAt run) (run_UpdatedAt run) (run_CompletedAt run) (run_FeedbackUseful run)
            (run_FeedbackResolved run) (run_FeedbackNotes run)))) as [steps Hg].
  { unfold pg_GetRun in Hrun |- *. change (pg_runs sp) with (pg_runs s). change (pg_playbooks sp) with (pg_playbooks s).
    destruct (pg_runs s !! r) as [rr|]; [|done]. destruct (pg_playbooks s !! _); [|done].
    injection Hrun as <-. by eexists. }
  rewrite Hg. cbn [run_alone exec_call ps_Get PGPlaybookStore run_PlaybookID].
  change (pg_Get sp (run_PlaybookID run)) with (pg_Get s (run_PlaybookID run)). rewrite Hpb, Hfind.
  unfold execute_by_tier. rewrite Htier. cbn.
  destruct claims as [c|]; [rewrite Hperm|]; reflexivity.
Qed.

End approval.

Definition alice : Claims := mkClaims "" 0 0 5 "alice" RoleAppAdmin TokenAccess [].
Definition locks_started : PGStore :=
  Eval vm_compute in serve_all (seeded 0) [(demo_env, handleStartRun demo_sv (Some alice) "db1" "4" ("", ""))].

Definition demo_status (s : PGStore) : option string := sp_Status <$> pg_run_steps s !! (1, 4).

Lemma locks_started_ok :
  match pg_run_steps locks_started !! (1, 4), pg_GetRun locks_started 1, pg_Get locks_started 4 with
  | Some row, Ok (Some run), Ok (Some pb) =>
      bool_decide (sp_Status row = "pending") && (run_PlaybookID run =? 4)
      && match find_step pb 4 with Some st => bool_decide (st_SafetyTier st = TierDangerous) | None => false end
  | _, _, _ => false
  end = true.
Proof. vm_compute. reflexivity. Qed.

Lemma approval_does_not_approve_witness : exists s1,
  run_alone demo_env locks_started (handleRequestApproval demo_sv "1" "4")
  = (s1, writeJSON StatusOK (BStatusMessage "pending_approval"
           "Approval requested. A DBA can approve this step from the run URL.")) /\
  run_alone demo_env s1 (handleApproveStep demo_sv "1" "4") = (s1, writeJSON StatusOK (BStatus "approved")).
Proof.
  pose proof locks_started_ok as H. revert H.
  destruct (pg_run_steps locks_started !! (1, 4)) as [row|] eqn:E1; [|intros H; discriminate H].
  destruct (pg_GetRun locks_started 1) as [[run|]|] eqn:E2; [|intros H; discriminate H..].
  destruct (pg_Get locks_started 4) as [[pb|]|] eqn:E3; [|intros H; discriminate H..].
  destruct (find_step pb 4) as [st|] eqn:E4; [|rewrite andb_false_r; intros H; discriminate H].
  rewrite !andb_true_iff, !bool_decide_eq_true, Z.eqb_eq. intros [[Hst Hp] Htier].
  exists (run_alone demo_env locks_started (handleRequestApproval demo_sv "1" "4")).1.
  split; [reflexivity|].
  exact (proj1 (approval_does_not_approve demo_env demo_env demo_env locks_started demo_sv (Some alice)
    false "1" "4" 1 4 row run pb st eq_refl eq_refl eq_refl eq_refl E1 Hst E2
    ltac:(rewrite Hp; exact E3) E4 Htier eq_refl)).
Defined.

(** An abandoned run is executed further, and completed. *)
Example abandoned_run_completes :
  (rr_Status <$> pg_runs (serve_all (seeded 0)
     [(demo_env, handleStartRun demo_sv None "db1" "1" ("", ""));
      (demo_env, handleAbandonRun demo_sv "1")]) !! 1) = Some "abandoned" /\
  (rr_Status <$> pg_runs (serve_all (seeded 0)
     [(demo_env, handleStartRun demo_sv None "db1" "1" ("", ""));
      (demo_env, handleAbandonRun demo_sv "1");
      (demo_env, handleExecuteStep demo_sv None false "1" "5")]) !! 1) = Some "completed".
Proof. vm_compute. done. Qed.

(** A default message is shown with its placeholders. *)
Example default_message_verbatim :
  Interpret (st_ResultInterpretation (nth 0 (pb_Steps diskFullPlaybook) (mkStep 0 0 0 "" "" "" "" 0
    (mkInterpretationSpec [] [] "" "") [] None "" "" 0))) ["db_count"; "total_size"]
    [[VInt64 4; VString "90 GB"]] 1
  = ("yellow", "Total database size: {{total_size}} across {{db_count}} databases").
Proof. vm_compute. reflexivity. Qed.

(** A numeric column reaches the interpreter as a driver value whose text is no number: it counts
    as 0, so a 99 percent connection usage is green. *)
Example numeric_column_is_zero :
  (Interpret (st_ResultInterpretation (nth 0 (pb_Steps connectionSaturationPlaybook) (mkStep 0 0 0 "" "" "" "" 0
    (mkInterpretationSpec [] [] "" "") [] None "" "" 0))) ["used_pct"]
    [[VOther "{990 -1 false finite true}"]] 1).1 = "green".
Proof. vm_compute. reflexivity. Qed.

(** ** What an analysis can open *)

Definition storage_slugs : list string := ["wal-archive-failure"; "disk-full"].

(** No hook of an edge and no root cause key of a node is bound to a storage playbook. *)
Definition storage_unbound : bool :=
  forallb (fun pb => negb (bool_decide (pb_Slug pb ∈ storage_slugs))
     || forallb (fun e => negb (bool_decide (RcaGraph.ed_RemediationHook e ∈ tb_Hooks (pb_TriggerBindings pb))))
          (RcaGraph.g_Edges RcaOntology.NewDefaultGraph)
        && forallb (fun kv => negb (bool_decide (snd kv ∈ tb_RootCauses (pb_TriggerBindings pb))))
             (map_to_list RcaEngine.rootCauseMapping)) BuiltinPlaybooks.

Lemma storage_unbound_ok : storage_unbound = true.
Proof. vm_compute. reflexivity. Qed.

Section analysis.
Context {FT : FloatText} {SS : SliceSort} {MR : MapRange} {ST : SqlText}.

Definition same_playbook (row pb : Playbook) : bool :=
  bool_decide (pb_Slug row = pb_Slug pb)
  && bool_decide (tb_Hooks (pb_TriggerBindings row) = tb_Hooks (pb_TriggerBindings pb))
  && bool_decide (tb_RootCauses (pb_TriggerBindings row) = tb_RootCauses (pb_TriggerBindings pb)).

Lemma seeded_rows_builtin (now : Time) :
  forallb (fun kv => existsb (same_playbook (snd kv)) BuiltinPlaybooks)
    (map_to_list (pg_playbooks (seeded now))) = true.
Proof. vm_compute. reflexivity. Qed.

Lemma lookup_binding_row (s : PGStore) (bt key : string) (pb : Playbook) :
  lookup_binding s bt key = Some pb -> key <> "" /\ exists id row,
    pg_playbooks s !! id = Some row /\ key ∈ bindings_of (pb_TriggerBindings row) bt /\ pb_Slug pb = pb_Slug row.
Proof.
  unfold lookup_binding. case_bool_decide as Hk; [done|]. cbn. unfold pg_FindByTriggerBinding.
  destruct (sort_slice _ _) as [|row l] eqn:E; [done|]. intros [= <-]. split; [done|].
  assert (row ∈ row :: l) as Hin by left. rewrite <- E, sort_slice_perm in Hin.
  apply elem_of_filter_bool in Hin as [Hb Hin]. unfold bound in Hb.
  apply andb_true_iff in Hb as [_ Hb]. apply bool_decide_eq_true in Hb.
  unfold playbook_rows in Hin. apply list_elem_of_fmap in Hin as ([id r] & -> & Hin).
  rewrite map_range_perm in Hin. apply elem_of_map_to_list in Hin. by exists id, r.
Qed.

(** A root cause analysis never leads to the storage playbooks: on the seeded tables, resolving
    with the remediation hook of any edge of the default causal graph and the root cause key of any
    node never returns WAL Archive Failure or Disk Space Emergency, whose hooks and root cause
    (wal_accumulation) the ontology declares for no edge and no node. *)
Theorem analysis_never_opens_storage_playbooks (now : Time) (e : RcaGraph.CausalEdge)
    (nodeID instanceID reason : string) (pb : Playbook) :
  e ∈ RcaGraph.g_Edges RcaOntology.NewDefaultGraph ->
  Resolve (seeded now) (mkResolverContext (RcaGraph.ed_RemediationHook e)
                          (RcaEngine.nodeRootCauseKey nodeID) "" "" instanceID) = (Some pb, reason) ->
  pb_Slug pb ∉ storage_slugs.
Proof.
  intros He. unfold Resolve.
  cbn [rx_HookID rx_RootCauseKey rx_MetricKey rx_AdviserRule].
  change (lookup_binding (seeded now) "metrics" "") with (@None Playbook).
  change (lookup_binding (seeded now) "adviser_rules" "") with (@None Playbook).
  assert (forall bt key row id, pg_playbooks (seeded now) !! id = Some row -> pb_Slug row ∈ storage_slugs ->
            key ∈ bindings_of (pb_TriggerBindings row) bt ->
            exists b, b ∈ BuiltinPlaybooks /\ pb_Slug b ∈ storage_slugs /\
              (bt = "hooks" -> key ∈ tb_Hooks (pb_TriggerBindings b)) /\
              (bt = "root_causes" -> key ∈ tb_RootCauses (pb_TriggerBindings b))) as Hb.
  { intros bt key row id Hrow Hs Hkey. pose proof (seeded_rows_builtin now) as Hall.
    rewrite forallb_forall in Hall. apply elem_of_map_to_list, list_elem_of_In, Hall in Hrow.
    change (existsb (same_playbook row) BuiltinPlaybooks = true) in Hrow.
    apply existsb_exists in Hrow as (b & Hin & Hsame). unfold same_playbook in Hsame.
    rewrite !andb_true_iff, !bool_decide_eq_true in Hsame. destruct Hsame as [[E1 E2] E3].
    exists b. split; [by apply list_elem_of_In|]. rewrite <- E1, <- E2, <- E3. split; [exact Hs|].
    by split; intros ->. }
  pose proof storage_unbound_ok as Hu. unfold storage_unbound in Hu. rewrite forallb_forall in Hu.
  destruct (lookup_binding (seeded now) "hooks" _) as [p|] eqn:E1.
  - intros [= <- _] Hs. apply lookup_binding_row in E1 as (_ & id & row & Hrow & Hkey & Hslug).
    rewrite Hslug in Hs. destruct (Hb "hooks" _ _ _ Hrow Hs Hkey) as (b & Hin & Hbs & Hh & _).
    apply list_elem_of_In, Hu in Hin. rewrite bool_decide_true in Hin by exact Hbs. cbn [negb orb] in Hin.
    apply andb_true_iff in Hin as [Hin _]. rewrite forallb_forall in Hin.
    apply list_elem_of_In, Hin in He. rewrite (bool_decide_true _ (Hh eq_refl)) in He. discriminate He.
  - destruct (lookup_binding (seeded now) "root_causes" _) as [p|] eqn:E2; [|done].
    intros [= <- _] Hs. apply lookup_binding_row in E2 as (Hne & id & row & Hrow & Hkey & Hslug).
    rewrite Hslug in Hs. destruct (Hb "root_causes" _ _ _ Hrow Hs Hkey) as (b & Hin & Hbs & _ & Hr).
    apply list_elem_of_In, Hu in Hin. rewrite bool_decide_true in Hin by exact Hbs. cbn [negb orb] in Hin.
    apply andb_true_iff in Hin as [_ Hin]. rewrite forallb_forall in Hin.
    unfold RcaEngine.nodeRootCauseKey in *. destruct (RcaEngine.rootCauseMapping !! nodeID) as [k|] eqn:Ek; [|exfalso; exact (Hne eq_refl)].
    apply elem_of_map_to_list, list_elem_of_In, Hin in Ek. cbn [snd] in Ek.
    rewrite (bool_decide_true _ (Hr eq_refl)) in Ek. discriminate Ek.
Qed.

(** ** Implicit feedback *)

Definition feedback_due (now : Time) (w : FeedbackWorker) (events : list AlertEvent) (row : RunRow) : bool :=
  awaits_feedback (time_Add now (i64 (i64 (- fw_feedbackWindow w) * 2))) row
  && match rr_CompletedAt row with
     | Some t => time_Sub now t <=? fw_feedbackWindow w
     | None => false
     end
  && bool_decide (text_of (rr_TriggerSource row) = "alert")
  && negb (bool_decide (text_of (rr_TriggerID row) = ""))
  && negb (existsb (fun ae => bool_decide (e_RuleID ae = text_of (rr_TriggerID row))) events).

Definition run_due (now : Time) (w : FeedbackWorker) (events : list AlertEvent) (run : Run) : bool :=
  match run_CompletedAt run with Some t => time_Sub now t <=? fw_feedbackWindow w | None => false end
  && bool_decide (run_TriggerSource run = "alert")
  && negb (bool_decide (run_TriggerID run = ""))
  && negb (existsb (fun ae => bool_decide (e_RuleID ae = run_TriggerID run)) events).

Definition resolved_note : string := "auto-resolved after playbook completion".

Lemma feedback_run_view (now : Time) (w : FeedbackWorker) (events : list AlertEvent) (s : PGStore)
    (run : Run) (r : Z) :
  pg_runs (feedback_run now w (Some (Ok events)) s run) !! r
  = if decide (r = run_ID run)
    then if run_due now w events run
         then feedback_row now None (Some true) resolved_note <$> pg_runs s !! run_ID run
         else pg_runs s !! run_ID run
    else pg_runs s !! r.
Proof.
  unfold feedback_run, run_due. destruct (run_CompletedAt run) as [t|]; [|by destruct (decide _); subst].
  rewrite Z.ltb_antisym. destruct (_ <=? _); cbn [negb andb]; [|by destruct (decide _); subst].
  destruct (bool_decide _); cbn [andb]; [|by destruct (decide _); subst].
  destruct (negb _); cbn [andb]; [|by destruct (decide _); subst].
  destruct (existsb _ _); cbn [negb]; [by destruct (decide _); subst|].
  cbn. rewrite lookup_alter. destruct (decide (r = run_ID run)) as [->|Hne].
  - by rewrite decide_True by done.
  - by rewrite decide_False by congruence.
Qed.

(** The feedback worker marks exactly the runs it should: one tick sets feedback_resolved on a
    run if and only if the run is completed without feedback, within the feedback window, was
    triggered by an alert, and no unresolved alert event of that rule remains; every other run is
    left as it was, and no field but the feedback and the update time changes. *)
Theorem implicit_feedback_exact (now : Time) (w : FeedbackWorker) (events : list AlertEvent)
    (s : PGStore) (r : Z) :
  pg_runs (evaluate now w (Some (Ok events)) s) !! r
  = (fun row => if feedback_due now w events row
                then feedback_row now None (Some true) resolved_note row else row) <$> pg_runs s !! r.
Proof.
  unfold evaluate. cbn [ps_ListCompletedRunsWithoutFeedback PGPlaybookStore].
  unfold pg_ListCompletedRunsWithoutFeedback. set (since := time_Add _ _).
  set (runs := sort_slice _ _).
  assert (runs ≡ₚ omap (fun kv => if awaits_feedback since (snd kv)
            then Some (run_of_row (fst kv) "" [] (snd kv)) else None) (map_to_list (pg_runs s))) as Hp.
  { unfold runs. rewrite sort_slice_perm. apply omap_Permutation, map_range_perm. }
  assert (forall x, x ∈ runs <-> exists k row, pg_runs s !! k = Some row /\ awaits_feedback since row = true /\
            x = run_of_row k "" [] row) as Hin.
  { intros x. rewrite Hp, list_elem_of_omap. split.
    - intros ([k row] & Hkr & Hx). cbn in Hx. apply elem_of_map_to_list in Hkr.
      destruct (awaits_feedback since row) eqn:Ha; [|done]. injection Hx as <-. by exists k, row.
    - intros (k & row & Hk & Ha & ->). exists (k, row). rewrite elem_of_map_to_list. cbn. by rewrite Ha. }
  assert (NoDup (map run_ID runs)) as Hnd.
  { assert (map run_ID runs ≡ₚ map run_ID (omap (fun kv => if awaits_feedback since (snd kv)
            then Some (run_of_row (fst kv) "" [] (snd kv)) else None) (map_to_list (pg_runs s)))) as ->.
    { by rewrite Hp. }
    pose proof (NoDup_fst_map_to_list (pg_runs s)) as H. revert H. clear.
    induction (map_to_list (pg_runs s)) as [|[k row] l IH]; [constructor|]. cbn. intros [Hn H]%NoDup_cons.
    destruct (awaits_feedback since row); [|auto]. cbn. constructor; [|auto].
    intros (x & Hx & Hl)%list_elem_of_fmap. apply list_elem_of_omap in Hl as ([k' row'] & Hl & Heq).
    cbn in Heq. destruct (awaits_feedback since row'); [|done]. injection Heq as <-. cbn in Hx. subst.
    apply Hn, list_elem_of_fmap. by exists (k', row'). }
  set (step := fun a (kv : Z * Run) => feedback_run now w (Some (Ok events)) a (run_with_id (fst kv) (snd kv))).
  assert (forall l a, foldl (feedback_run now w (Some (Ok events))) a l
            = foldl step a (map (fun x => (run_ID x, x)) l)) as ->.
  { intros l. induction l as [|x l IH]; intros a; [done|]. cbn [foldl map]. rewrite IH. by destruct x. }
  destruct (foldl_own_key (fun a k => pg_runs a !! k) step
              (fun k x o => if run_due now w events x
                            then feedback_row now None (Some true) resolved_note <$> o else o)
              (map (fun x => (run_ID x, x)) runs)) with (a := s) as [Hyes Hno].
  { intros a k x k'. unfold step. rewrite feedback_run_view. cbn [fst snd run_with_id run_ID].
    destruct (decide (k' = k)) as [->|]; [|done]. by destruct x. }
  { rewrite map_map. cbn. exact Hnd. }
  destruct (pg_runs s !! r) as [row|] eqn:Hr; cbn [fmap option_fmap option_map].
  - unfold feedback_due. fold since. destruct (awaits_feedback since row) eqn:Ha; cbn [andb].
    + rewrite (Hyes r (run_of_row r "" [] row)), Hr.
      * unfold run_due. cbn. by destr_ifs.
      * apply list_elem_of_fmap. exists (run_of_row r "" [] row). split; [done|].
        apply Hin. by exists r, row.
    + rewrite (Hno r), Hr; [done|]. rewrite map_map. cbn.
      intros (x & Hx & Hi)%list_elem_of_fmap. apply Hin in Hi as (k & row' & Hk & Ha' & ->).
      cbn in Hx. subst. congruence.
  - rewrite (Hno r), Hr; [done|]. rewrite map_map. cbn.
    intros (x & Hx & Hi)%list_elem_of_fmap. apply Hin in Hi as (k & row' & Hk & _ & ->).
    cbn in Hx. subst. congruence.
Qed.

End analysis.

Lemma demo_edge :
  existsb (fun e => bool_decide (RcaGraph.ed_RemediationHook e = "remediation.query_optimization"))
    (RcaGraph.g_Edges RcaOntology.NewDefaultGraph) = true.
Proof. vm_compute. reflexivity. Qed.

Lemma demo_resolved :
  match Resolve (seeded 0) (mkResolverContext "remediation.query_optimization"
          (RcaEngine.nodeRootCauseKey "missing_index") "" "" "db1") with
  | (Some pb, reason) => bool_decide (pb_Slug pb = "heavy-query") && bool_decide (reason = "rca_hook")
  | (None, _) => false
  end = true.
Proof. vm_compute. reflexivity. Qed.

Lemma analysis_never_opens_storage_playbooks_witness : exists e pb reason,
  e ∈ RcaGraph.g_Edges RcaOntology.NewDefaultGraph /\
  Resolve (seeded 0) (mkResolverContext (RcaGraph.ed_RemediationHook e)
    (RcaEngine.nodeRootCauseKey "missing_index") "" "" "db1") = (Some pb, reason) /\
  pb_Slug pb ∉ storage_slugs.
Proof.
  pose proof demo_edge as He. apply existsb_exists in He as (e & Hin & Hh).
  apply bool_decide_eq_true in Hh. apply list_elem_of_In in Hin.
  pose proof demo_resolved as Hr. rewrite <- Hh in Hr. revert Hr.
  destruct (Resolve (seeded 0) _) as [[pb|] reason] eqn:E; [|intros H; discriminate H]. intros _.
  exists e, pb, reason. split; [exact Hin|]. split; [exact E|].
  exact (analysis_never_opens_storage_playbooks 0 e "missing_index" "db1" reason pb Hin E).
Defined.
