(* ===== verification/Remediation.v ===== *)
(** * Remediation: rules, recommendations and metric snapshots

    Models internal/remediation/rule.go, urgency.go, store.go and metricsource.go: the data that
    the rules and the engine exchange, the interface of the recommendation store, and the
    snapshot of current metric values that is read from a metric store. *)
From S2P Require Import Prelude Float64 Metric.

Local Open Scope Z_scope.

(** ** rule.go *)

Definition Priority := string.
Definition PriorityInfo : Priority := "info".
Definition PrioritySuggestion : Priority := "suggestion".
Definition PriorityActionRequired : Priority := "action_required".

Definition Category := string.
Definition CategoryPerformance : Category := "performance".
Definition CategoryCapacity : Category := "capacity".
Definition CategoryConfiguration : Category := "configuration".
Definition CategoryReplication : Category := "replication".
Definition CategoryMaintenance : Category := "maintenance".

Abbreviation MetricSnapshot := (gmap string float64).

Definition snap_Get (s : MetricSnapshot) (key : string) : option float64 := s !! key.

Record EvalContext := mkEvalContext {
  ec_InstanceID : string;
  ec_MetricKey : string;
  ec_Value : float64;
  ec_Labels : Labels;
  ec_Severity : string;
  ec_Snapshot : MetricSnapshot
}.

Record RuleResult := mkRuleResult {
  res_Title : string;
  res_Description : string;
  res_DocURL : string;
  res_MetricKey : string;
  res_MetricValue : float64
}.

Record Rule := mkRule {
  ru_ID : string;
  ru_Priority : Priority;
  ru_Category : Category;
  ru_Evaluate : EvalContext -> option RuleResult
}.

Record Recommendation := mkRecommendation {
  rec_ID : Z;
  rec_RuleID : string;
  rec_InstanceID : string;
  rec_AlertEventID : option Z;
  rec_MetricKey : string;
  rec_MetricValue : float64;
  rec_Priority : Priority;
  rec_Category : Category;
  rec_Title : string;
  rec_Description : string;
  rec_DocURL : string;
  rec_Status : string;
  rec_Source : string;
  rec_UrgencyScore : float64;
  rec_IncidentIDs : list Z;
  rec_LastIncidentAt : option Time;
  rec_CreatedAt : Time;
  rec_EvaluatedAt : Time;
  rec_ResolvedAt : option Time;
  rec_AcknowledgedAt : option Time;
  rec_AcknowledgedBy : string
}.

(** ** urgency.go *)

Definition UrgencyInfo : float64 := f_of_Z 1.
Definition UrgencySuggestion : float64 := f_of_Z 3.
Definition UrgencyActionRequired : float64 := f_of_Z 5.
Definition UrgencySoftCap : float64 := f_of_Z 10.

Definition UrgencyFromPriority (p : Priority) : float64 :=
  if bool_decide (p = PriorityActionRequired) then UrgencyActionRequired
  else if bool_decide (p = PrioritySuggestion) then UrgencySuggestion
  else if bool_decide (p = PriorityInfo) then UrgencyInfo
  else UrgencySuggestion.

(** ** store.go *)

Record ListOpts := mkListOpts {
  lo_InstanceID : string;
  lo_Priority : string;
  lo_Category : string;
  lo_Status : string;
  lo_Source : string;
  lo_Acknowledged : option bool;
  lo_AlertEventID : option Z;
  lo_IncidentID : option Z;
  lo_OrderBy : string;
  lo_Limit : Z;
  lo_Offset : Z
}.

(** The operations that write take the time of the statement. *)
Class RecommendationStore (S : Type) := {
  rs_Write : Time -> S -> list Recommendation -> S * (list Recommendation * option error);
  rs_Upsert : Time -> S -> Recommendation -> S * option error;
  rs_ListByInstance : S -> string -> ListOpts -> result (list Recommendation * Z);
  rs_ListAll : S -> ListOpts -> result (list Recommendation * Z);
  rs_ListByAlertEvent : S -> Z -> result (list Recommendation);
  rs_ListByIncident : S -> Z -> result (list Recommendation);
  rs_Acknowledge : Time -> S -> Z -> string -> S * option error;
  rs_CleanOld : Time -> S -> Duration -> S * option error;
  rs_ResolveStale : Time -> S -> string -> list string -> S * option error
}.

(** ** metricsource.go *)

(** The MetricSource interface; a failed lookup may come with a snapshot. *)
Class MetricSource (M : Type) := {
  src_CurrentSnapshot : Time -> M -> string -> MetricSnapshot * option error
}.

(** Each point overwrites the entry of its metric, whatever its labels. *)
Definition snapshot_of (points : list MetricPoint) : MetricSnapshot :=
  foldl (fun snap p => <[pt_Metric p := pt_Value p]> snap) ∅ points.

Definition snapshot_query (now : Time) (instanceID : string) : MetricQuery :=
  mkQuery instanceID "" ∅ (time_Add now (- (2 * Minute))) now 0.

Definition CurrentSnapshot {M} {HM : MetricStore M} (now : Time) (store : M) (instanceID : string)
    : MetricSnapshot * option error :=
  match ms_Query store (snapshot_query now instanceID) with
  | Err e => (∅, Some e)
  | Ok points => (snapshot_of points, None)
  end.

#[export] Instance StoreMetricSource {M} {HM : MetricStore M} : MetricSource M := {|
  src_CurrentSnapshot := CurrentSnapshot
|}.

(** * The compiled-in remediation rules

    Models internal/remediation/rules_pg.go and rules_os.go, rule by rule with the texts of the
    source; [fmt_fixed d] is the verb %.df of fmt. *)

(** The metric of the rule, from the alert when it is about this metric, otherwise from the
    snapshot: the first lines of nearly every rule. *)
Definition metric_value (ctx : EvalContext) (key : string) : option float64 :=
  if bool_decide (ec_MetricKey ctx = key) then Some (ec_Value ctx)
  else snap_Get (ec_Snapshot ctx) key.

(** ** rules_os.go: lookups under both prefixes *)

Definition getOS (snap : MetricSnapshot) (suffix : string) : option float64 :=
  match snap_Get snap ("os." +:+ suffix) with
  | Some v => Some v
  | None => snap_Get snap ("pg.os." +:+ suffix)
  end.

Definition isOSMetric (key suffix : string) : bool :=
  bool_decide (key = "os." +:+ suffix) || bool_decide (key = "pg.os." +:+ suffix).

Definition os_metric_value (ctx : EvalContext) (suffix : string) : option float64 :=
  if isOSMetric (ec_MetricKey ctx) suffix then Some (ec_Value ctx)
  else getOS (ec_Snapshot ctx) suffix.

(** The bytes per megabyte that the replication rules divide by. *)
Definition megabyte : float64 := f_of_Z (1024 * 1024).

(** ** rules_pg.go *)

Definition rem_conn_high : Rule := mkRule "rem_conn_high" PrioritySuggestion CategoryCapacity
  (fun ctx =>
    match metric_value ctx "pg.connections.utilization_pct" with
    | None => None
    | Some pct =>
      if fgt pct (f_of_Z 80) && flt pct (f_of_Z 99) then
        Some (mkRuleResult "Consider connection pooling"
          ("Connection utilization at " +:+ fmt_fixed 0 pct +:+
           "%. Consider adding PgBouncer or increasing max_connections. Review " +:+
           "application connection pool settings for idle connections.")
          "https://www.pgbouncer.org/"
          "pg.connections.utilization_pct" pct)
      else None
    end).

Definition rem_conn_exhausted : Rule := mkRule "rem_conn_exhausted" PriorityActionRequired CategoryCapacity
  (fun ctx =>
    match metric_value ctx "pg.connections.utilization_pct" with
    | None => None
    | Some pct =>
      if fge pct (f_of_Z 99) then
        Some (mkRuleResult "Connections near limit"
          ("Connection utilization at " +:+ fmt_fixed 0 pct +:+
           "%. New connections will be refused. Immediately terminate idle sessions and " +:+
           "deploy a connection pooler like PgBouncer.")
          "https://www.postgresql.org/docs/current/runtime-config-connection.html"
          "pg.connections.utilization_pct" pct)
      else None
    end).

Definition rem_cache_low : Rule := mkRule "rem_cache_low" PrioritySuggestion CategoryPerformance
  (fun ctx =>
    match metric_value ctx "pg.cache.hit_ratio" with
    | None => None
    | Some val =>
      if flt val (f_of_Z 90) then
        Some (mkRuleResult "Review shared_buffers sizing"
          ("Buffer cache hit ratio is " +:+ fmt_fixed 1 val +:+
           "%, below the recommended 90% threshold. Consider increasing shared_buffers " +:+
           "or investigating queries that perform excessive sequential scans. Run " +:+
           "EXPLAIN ANALYZE on slow queries to identify missing indexes.")
          "https://www.postgresql.org/docs/current/runtime-config-resource.html#GUC-SHARED-BUFFERS"
          "pg.cache.hit_ratio" val)
      else None
    end).

Definition rem_commit_ratio_low : Rule := mkRule "rem_commit_ratio_low" PrioritySuggestion CategoryPerformance
  (fun ctx =>
    match metric_value ctx "pg.transactions.commit_ratio_pct" with
    | None => None
    | Some val =>
      if flt val (f_of_Z 90) then
        Some (mkRuleResult "High rollback rate detected"
          ("Transaction commit ratio is " +:+ fmt_fixed 1 val +:+
           "%, indicating a high rollback rate. Investigate application error handling " +:+
           "and retry logic. Check pg_stat_database for rollback trends per database.")
          "https://www.postgresql.org/docs/current/monitoring-stats.html#MONITORING-PG-STAT-DATABASE-VIEW"
          "pg.transactions.commit_ratio_pct" val)
      else None
    end).

Definition rem_repl_lag_bytes : Rule := mkRule "rem_repl_lag_bytes" PrioritySuggestion CategoryReplication
  (fun ctx =>
    match metric_value ctx "pg.replication.lag.replay_bytes" with
    | None => None
    | Some val =>
      let mb := fdiv val megabyte in
      if fgt mb (f_of_Z 10) && fle mb (f_of_Z 100) then
        Some (mkRuleResult "Check replica load and network"
          ("Replication replay lag is " +:+ fmt_fixed 1 mb +:+
           " MB. Verify replica is not under heavy read load and network latency is " +:+
           "acceptable. Check wal_receiver_status_interval and recovery settings on the " +:+
           "replica.")
          "https://www.postgresql.org/docs/current/warm-standby.html#STREAMING-REPLICATION-MONITORING"
          "pg.replication.lag.replay_bytes" val)
      else None
    end).

Definition rem_repl_lag_critical : Rule := mkRule "rem_repl_lag_critical" PriorityActionRequired CategoryReplication
  (fun ctx =>
    match metric_value ctx "pg.replication.lag.replay_bytes" with
    | None => None
    | Some val =>
      let mb := fdiv val megabyte in
      if fgt mb (f_of_Z 100) then
        Some (mkRuleResult "Replica severely lagging"
          ("Replication replay lag is " +:+ fmt_fixed 1 mb +:+
           " MB, severely behind primary. Risk of slot-induced WAL retention bloat. " +:+
           "Consider pausing non-essential replica workloads and verifying network " +:+
           "connectivity. If unrecoverable, rebuild the replica.")
          "https://www.postgresql.org/docs/current/warm-standby.html#STREAMING-REPLICATION-MONITORING"
          "pg.replication.lag.replay_bytes" val)
      else None
    end).

Definition rem_repl_slot_inactive : Rule := mkRule "rem_repl_slot_inactive" PriorityActionRequired CategoryReplication
  (fun ctx =>
    if bool_decide (ec_MetricKey ctx = "pg.replication.slot.active") then
      if feq (ec_Value ctx) (f_of_Z 0) then
        Some (mkRuleResult "Inactive replication slots detected"
          ("An inactive replication slot was detected. Inactive slots prevent WAL " +:+
           "cleanup and can fill the disk. Drop unused slots with " +:+
           "pg_drop_replication_slot() or reconnect the subscriber.")
          "https://www.postgresql.org/docs/current/view-pg-replication-slots.html"
          "pg.replication.slot.active" (ec_Value ctx))
      else None
    else None).

Definition rem_long_txn_warn : Rule := mkRule "rem_long_txn_warn" PrioritySuggestion CategoryPerformance
  (fun ctx =>
    match metric_value ctx "pg.long_transactions.oldest_seconds" with
    | None => None
    | Some val =>
      if fgt val (f_of_Z 60) && fle val (f_of_Z 300) then
        Some (mkRuleResult "Long-running transactions detected"
          ("Oldest active transaction has been running for " +:+ fmt_fixed 0 val +:+
           " seconds. Long transactions hold locks, prevent autovacuum, and bloat " +:+
           "tables. Identify the session in pg_stat_activity and consider terminating " +:+ "it.")
          "https://www.postgresql.org/docs/current/monitoring-stats.html#MONITORING-PG-STAT-ACTIVITY-VIEW"
          "pg.long_transactions.oldest_seconds" val)
      else None
    end).

Definition rem_long_txn_crit : Rule := mkRule "rem_long_txn_crit" PriorityActionRequired CategoryPerformance
  (fun ctx =>
    match metric_value ctx "pg.long_transactions.oldest_seconds" with
    | None => None
    | Some val =>
      if fgt val (f_of_Z 300) then
        Some (mkRuleResult "Stale transactions require intervention"
          ("Oldest active transaction has been running for " +:+ fmt_fixed 0 val +:+
           " seconds (>5 minutes). This blocks autovacuum and causes table bloat. Use " +:+
           "pg_terminate_backend() to kill the offending session immediately.")
          "https://www.postgresql.org/docs/current/functions-admin.html#FUNCTIONS-ADMIN-SIGNAL"
          "pg.long_transactions.oldest_seconds" val)
      else None
    end).

Definition rem_locks_blocking : Rule := mkRule "rem_locks_blocking" PrioritySuggestion CategoryPerformance
  (fun ctx =>
    match metric_value ctx "pg.locks.blocked_count" with
    | None => None
    | Some val =>
      if fgt val (f_of_Z 0) then
        Some (mkRuleResult "Blocking lock chains detected"
          (fmt_fixed 0 val +:+
           " session(s) are currently blocked by lock contention. Review the lock tree " +:+
           "to identify the blocker and consider canceling the blocking query. Frequent " +:+
           "blocking may indicate schema-level contention or missing indexes.")
          "https://wiki.postgresql.org/wiki/Lock_Monitoring"
          "pg.locks.blocked_count" val)
      else None
    end).

Definition rem_pgss_fill : Rule := mkRule "rem_pgss_fill" PrioritySuggestion CategoryMaintenance
  (fun ctx =>
    match metric_value ctx "pg.extensions.pgss_fill_pct" with
    | None => None
    | Some val =>
      if fge val (f_of_Z 95) then
        Some (mkRuleResult "pg_stat_statements nearing capacity"
          ("pg_stat_statements is " +:+ fmt_fixed 0 val +:+
           "% full. New query fingerprints will evict older entries, causing loss of " +:+
           "historical data. Increase pg_stat_statements.max or call " +:+
           "pg_stat_statements_reset() to reclaim slots.")
          "https://www.postgresql.org/docs/current/pgstatstatements.html"
          "pg.extensions.pgss_fill_pct" val)
      else None
    end).

Definition rem_wraparound_warn : Rule := mkRule "rem_wraparound_warn" PrioritySuggestion CategoryMaintenance
  (fun ctx =>
    match metric_value ctx "pg.server.wraparound_pct" with
    | None => None
    | Some val =>
      if fgt val (f_of_Z 20) && fle val (f_of_Z 50) then
        Some (mkRuleResult "Transaction wraparound approaching"
          ("Transaction ID wraparound is at " +:+ fmt_fixed 1 val +:+
           "%. Ensure autovacuum is running and not blocked by long transactions. " +:+
           "Monitor pg_stat_user_tables.n_dead_tup for tables with high dead tuple " +:+
           "counts.")
          "https://www.postgresql.org/docs/current/routine-vacuuming.html#VACUUM-FOR-WRAPAROUND"
          "pg.server.wraparound_pct" val)
      else None
    end).

Definition rem_wraparound_crit : Rule := mkRule "rem_wraparound_crit" PriorityActionRequired CategoryMaintenance
  (fun ctx =>
    match metric_value ctx "pg.server.wraparound_pct" with
    | None => None
    | Some val =>
      if fgt val (f_of_Z 50) then
        Some (mkRuleResult "Wraparound imminent — vacuum urgently"
          ("Transaction ID wraparound is at " +:+ fmt_fixed 1 val +:+
           "%, critically high. PostgreSQL will shut down to prevent data corruption if " +:+
           "this reaches 100%. Run VACUUM FREEZE on the most affected databases " +:+
           "immediately.")
          "https://www.postgresql.org/docs/current/routine-vacuuming.html#VACUUM-FOR-WRAPAROUND"
          "pg.server.wraparound_pct" val)
      else None
    end).

Definition rem_track_io : Rule := mkRule "rem_track_io" PriorityInfo CategoryConfiguration
  (fun ctx =>
    match metric_value ctx "pg.settings.track_io_timing" with
    | None => None
    | Some val =>
      if feq val (f_of_Z 0) then
        Some (mkRuleResult "Enable track_io_timing for I/O analysis"
          ("track_io_timing is disabled. Without it, EXPLAIN ANALYZE cannot show I/O " +:+
           "timing and pg_stat_statements lacks I/O cost data. Enable it with ALTER " +:+
           "SYSTEM SET track_io_timing = on; SELECT pg_reload_conf(); — overhead is " +:+
           "minimal on modern systems.")
          "https://www.postgresql.org/docs/current/runtime-config-statistics.html#GUC-TRACK-IO-TIMING"
          "pg.settings.track_io_timing" val)
      else None
    end).

Definition rem_deadlocks : Rule := mkRule "rem_deadlocks" PrioritySuggestion CategoryPerformance
  (fun ctx =>
    match metric_value ctx "pg.transactions.deadlocks" with
    | None => None
    | Some val =>
      if fgt val (f_of_Z 0) then
        Some (mkRuleResult "Deadlocks occurring"
          (fmt_fixed 0 val +:+
           " deadlock(s) detected. Deadlocks indicate competing lock acquisition orders " +:+
           "in concurrent transactions. Review application logic to ensure consistent " +:+
           "lock ordering. Check pg_stat_database.deadlocks for per-database breakdown.")
          "https://www.postgresql.org/docs/current/explicit-locking.html#LOCKING-DEADLOCKS"
          "pg.transactions.deadlocks" val)
      else None
    end).

Definition rem_bloat_high : Rule := mkRule "rem_bloat_high" PrioritySuggestion CategoryMaintenance
  (fun ctx =>
    match metric_value ctx "pg.db.bloat.table_ratio" with
    | None => None
    | Some val =>
      if fgt val (f_of_Z 2) && fle val (f_of_Z 50) then
        Some (mkRuleResult "Table bloat exceeding threshold"
          ("Table bloat ratio is " +:+ fmt_fixed 1 val +:+
           "x. Dead tuples are accumulating faster than autovacuum can clean them. " +:+
           "Check autovacuum settings (autovacuum_vacuum_scale_factor, " +:+
           "autovacuum_naptime). Consider running VACUUM FULL or pg_repack on heavily " +:+
           "bloated tables.")
          "https://www.postgresql.org/docs/current/routine-vacuuming.html"
          "pg.db.bloat.table_ratio" val)
      else None
    end).

Definition rem_bloat_extreme : Rule := mkRule "rem_bloat_extreme" PriorityActionRequired CategoryMaintenance
  (fun ctx =>
    match metric_value ctx "pg.db.bloat.table_ratio" with
    | None => None
    | Some val =>
      if fgt val (f_of_Z 50) then
        Some (mkRuleResult "Severe bloat — schedule pg_repack"
          ("Table bloat ratio is " +:+ fmt_fixed 1 val +:+
           "x, severely impacting storage and query performance. VACUUM FULL requires " +:+
           "an exclusive lock; prefer pg_repack for online compaction. Schedule " +:+
           "maintenance during a low-traffic window.")
          "https://reorg.github.io/pg_repack/"
          "pg.db.bloat.table_ratio" val)
      else None
    end).

(** ** rules_os.go *)

Definition rem_cpu_high : Rule := mkRule "rem_cpu_high" PrioritySuggestion CategoryPerformance
  (fun ctx =>
    match getOS (ec_Snapshot ctx) "cpu.user_pct", getOS (ec_Snapshot ctx) "cpu.system_pct" with
    | Some user, Some sys =>
      let total := fadd user sys in
      if fgt total (f_of_Z 80) then
        Some (mkRuleResult "High CPU utilization"
          ("CPU usage at " +:+ fmt_fixed 0 total +:+ "% (user: " +:+ fmt_fixed 0 user +:+
           "%, system: " +:+ fmt_fixed 0 sys +:+
           "%). Investigate CPU-intensive queries with pg_stat_statements. Check for " +:+
           "missing indexes causing sequential scans.")
          ""
          "os.cpu.user_pct" total)
      else None
    | _, _ => None
    end).

Definition rem_cpu_iowait : Rule := mkRule "rem_cpu_iowait" PriorityActionRequired CategoryPerformance
  (fun ctx =>
    match os_metric_value ctx "cpu.iowait_pct" with
    | None => None
    | Some val =>
      if fgt val (f_of_Z 20) then
        Some (mkRuleResult "I/O wait bottleneck detected"
          ("I/O wait at " +:+ fmt_fixed 0 val +:+
           "%, indicating storage is the bottleneck. Check for queries doing large " +:+
           "sequential scans or sorts spilling to disk. Consider faster storage (NVMe), " +:+
           "increasing work_mem, or adding indexes.")
          ""
          "os.cpu.iowait_pct" val)
      else None
    end).

Definition rem_mem_pressure : Rule := mkRule "rem_mem_pressure" PriorityActionRequired CategoryCapacity
  (fun ctx =>
    match getOS (ec_Snapshot ctx) "memory.available_kb", getOS (ec_Snapshot ctx) "memory.total_kb" with
    | Some avail, Some total =>
      if feq total (f_of_Z 0) then None else
      let pct := fmul (fdiv avail total) (f_of_Z 100) in
      if flt pct (f_of_Z 10) then
        Some (mkRuleResult "Memory pressure detected"
          ("Available memory is only " +:+ fmt_fixed 1 pct +:+ "% of total (" +:+
           fmt_fixed 0 avail +:+ " KB available / " +:+ fmt_fixed 0 total +:+
           " KB total). The system may start swapping, severely impacting PostgreSQL " +:+
           "performance. Reduce shared_buffers, work_mem, or add more RAM.")
          ""
          "os.memory.available_kb" avail)
      else None
    | _, _ => None
    end).

Definition rem_mem_overcommit : Rule := mkRule "rem_mem_overcommit" PrioritySuggestion CategoryCapacity
  (fun ctx =>
    match getOS (ec_Snapshot ctx) "memory.committed_as_kb", getOS (ec_Snapshot ctx) "memory.commit_limit_kb" with
    | Some committed, Some limit =>
      if feq limit (f_of_Z 0) then None else
      if fgt committed limit then
        Some (mkRuleResult "Memory overcommit detected"
          ("Committed memory (" +:+ fmt_fixed 0 committed +:+ " KB) exceeds commit limit (" +:+
           fmt_fixed 0 limit +:+
           " KB). The OOM killer may terminate PostgreSQL processes under pressure. " +:+
           "Review vm.overcommit_memory sysctl and reduce total memory reservations.")
          ""
          "os.memory.committed_as_kb" committed)
      else None
    | _, _ => None
    end).

Definition rem_load_high : Rule := mkRule "rem_load_high" PrioritySuggestion CategoryPerformance
  (fun ctx =>
    match os_metric_value ctx "load.1m" with
    | None => None
    | Some val =>
      if fgt val (f_of_Z 4) then
        Some (mkRuleResult "System load elevated"
          ("1-minute load average is " +:+ fmt_fixed 2 val +:+
           ". This indicates more processes are competing for CPU than available cores. " +:+
           "Investigate with top/htop and check pg_stat_activity for runaway queries.")
          ""
          "os.load.1m" val)
      else None
    end).

Definition rem_disk_util : Rule := mkRule "rem_disk_util" PriorityActionRequired CategoryCapacity
  (fun ctx =>
    match os_metric_value ctx "disk.util_pct" with
    | None => None
    | Some val =>
      if fgt val (f_of_Z 80) then
        Some (mkRuleResult "Disk saturation approaching"
          ("Disk utilization at " +:+ fmt_fixed 0 val +:+
           "%. The device is spending most of its time servicing I/O. This leads to " +:+
           "increased query latencies and checkpoint stalls. Consider moving to faster " +:+
           "storage or distributing I/O across multiple disks.")
          ""
          "os.disk.util_pct" val)
      else None
    end).

Definition rem_disk_read_latency : Rule := mkRule "rem_disk_read_latency" PrioritySuggestion CategoryPerformance
  (fun ctx =>
    match os_metric_value ctx "disk.read_await_ms" with
    | None => None
    | Some val =>
      if fgt val (f_of_Z 20) then
        Some (mkRuleResult "Storage read latency elevated"
          ("Average read latency is " +:+ fmt_fixed 1 val +:+
           " ms (threshold: 20 ms). High read latency impacts sequential scans and " +:+
           "index lookups. Check for I/O contention from other processes or consider " +:+
           "storage upgrades.")
          ""
          "os.disk.read_await_ms" val)
      else None
    end).

Definition rem_disk_write_latency : Rule := mkRule "rem_disk_write_latency" PrioritySuggestion CategoryPerformance
  (fun ctx =>
    match os_metric_value ctx "disk.write_await_ms" with
    | None => None
    | Some val =>
      if fgt val (f_of_Z 20) then
        Some (mkRuleResult "Storage write latency elevated"
          ("Average write latency is " +:+ fmt_fixed 1 val +:+
           " ms (threshold: 20 ms). High write latency impacts WAL writes and " +:+
           "checkpoints. Consider enabling WAL compression, tuning " +:+
           "checkpoint_completion_target, or upgrading storage.")
          ""
          "os.disk.write_await_ms" val)
      else None
    end).

Definition pgRules : list Rule :=
  [rem_conn_high; rem_conn_exhausted; rem_cache_low; rem_commit_ratio_low; rem_repl_lag_bytes;
   rem_repl_lag_critical; rem_repl_slot_inactive; rem_long_txn_warn; rem_long_txn_crit;
   rem_locks_blocking; rem_pgss_fill; rem_wraparound_warn; rem_wraparound_crit; rem_track_io;
   rem_deadlocks; rem_bloat_high; rem_bloat_extreme].

Definition osRules : list Rule :=
  [rem_cpu_high; rem_cpu_iowait; rem_mem_pressure; rem_mem_overcommit; rem_load_high;
   rem_disk_util; rem_disk_read_latency; rem_disk_write_latency].
