(* ===== verification/RemediationEngine.v ===== *)
(** * The remediation engine

    Models internal/remediation/engine.go, hooks.go, adapter.go and background.go and the
    handlers of internal/api/remediation.go. The engine implements the hook interface of the
    root cause analysis and, through its adapter, the provider interface of the alert
    dispatcher. *)
From stdpp Require Import pretty.
From S2P Require Import Prelude Float64 Metric Alert Dispatcher RcaOntology RcaEngine GoText Auth.
From S2P Require Import Http Remediation.

Local Open Scope Z_scope.

(** * The recommendation table

    Models internal/remediation/pgstore.go and nullstore.go over the table of migrations 013, 014
    and 017: the CHECK constraints on priority and category and the partial unique index on
    (rule_id, instance_id) of the active rows. A statement reads one clock. *)

(** Rows by id, and the id sequence, which every insertion advances. *)
Record PGStore := mkPGStore {
  tbl_rows : gmap Z Recommendation;
  tbl_seq : Z
}.

Definition NewPGStore : PGStore := mkPGStore ∅ 1.

Definition row_active (rule inst : string) (r : Recommendation) : bool :=
  bool_decide (rec_Status r = "active") && bool_decide (rec_RuleID r = rule)
  && bool_decide (rec_InstanceID r = inst).

(** The row that the partial unique index finds. *)
Definition active_row (s : PGStore) (rule inst : string) : option (Z * Recommendation) :=
  List.find (fun kv => row_active rule inst (snd kv)) (map_to_list (tbl_rows s)).

Definition checks_ok (r : Recommendation) : bool :=
  bool_decide (rec_Priority r ∈ ["info"; "suggestion"; "action_required"])
  && bool_decide (rec_Category r ∈ ["performance"; "capacity"; "configuration"; "replication";
                                    "maintenance"]).

(** The sequence moves whatever happens to the row. *)
Definition next_id (s : PGStore) : PGStore := mkPGStore (tbl_rows s) (tbl_seq s + 1).

Definition put_row (id : Z) (r : Recommendation) (s : PGStore) : PGStore :=
  mkPGStore (<[id := r]> (tbl_rows s)) (tbl_seq s).

(** The row an INSERT makes of a recommendation: active, created and evaluated now. *)
Definition new_row (now : Time) (id : Z) (alertEventID : option Z) (source : string)
    (urgency : float64) (incidents : list Z) (lastIncident : option Time) (r : Recommendation)
    : Recommendation :=
  mkRecommendation id (rec_RuleID r) (rec_InstanceID r) alertEventID (rec_MetricKey r)
    (rec_MetricValue r) (rec_Priority r) (rec_Category r) (rec_Title r) (rec_Description r)
    (rec_DocURL r) "active" source urgency incidents lastIncident now now None None "".

(** What DO UPDATE sets in both upserts, with the urgency and incident columns as given. *)
Definition refreshed (now : Time) (urgency : float64) (incidents : list Z)
    (lastIncident : option Time) (excluded old : Recommendation) : Recommendation :=
  mkRecommendation (rec_ID old) (rec_RuleID old) (rec_InstanceID old) (rec_AlertEventID old)
    (rec_MetricKey old) (rec_MetricValue excluded) (rec_Priority old) (rec_Category old)
    (rec_Title excluded) (rec_Description excluded) (rec_DocURL old) (rec_Status old)
    (rec_Source old) urgency incidents lastIncident (rec_CreatedAt old) now
    (rec_ResolvedAt old) (rec_AcknowledgedAt old) (rec_AcknowledgedBy old).

(** ** SQL arithmetic on double precision *)

(** Addition fails when a result overflows. *)
Definition sql_add (x y : float64) : result float64 :=
  let z := fadd x y in
  if is_infinite z && negb (is_infinite x) && negb (is_infinite y)
  then Err "value out of range: overflow" else Ok z.

Definition LEAST (x y : float64) : float64 := if sql_lt y x then y else x.

(** ** Writing *)

Definition urgency_of (r : Recommendation) : float64 :=
  if feq (rec_UrgencyScore r) f0 then UrgencyFromPriority (rec_Priority r) else rec_UrgencyScore r.

Definition source_of (def : string) (r : Recommendation) : string :=
  if bool_decide (rec_Source r = "") then def else rec_Source r.

(** One plain INSERT ... RETURNING. *)
Definition insert_row (now : Time) (s : PGStore) (r : Recommendation)
    : PGStore * result Recommendation :=
  let row := new_row now (tbl_seq s) (rec_AlertEventID r) (source_of "alert" r) (urgency_of r)
               [] None r in
  if negb (checks_ok row) then (next_id s, Err "violates check constraint")
  else match active_row s (rec_RuleID r) (rec_InstanceID r) with
       | Some _ => (next_id s, Err "idx_remediation_active_unique")
       | None => (put_row (tbl_seq s) row (next_id s), Ok row)
       end.

(** The loop of [Write] with the rows saved so far. *)
Fixpoint write_rows (now : Time) (s : PGStore) (recs saved : list Recommendation)
    : PGStore * (list Recommendation * option error) :=
  match recs with
  | [] => (s, (saved, None))
  | r :: recs' =>
      match insert_row now s r with
      | (s', Err e) => (s', (saved, Some ("write recommendation: " +:+ e)))
      | (s', Ok row) => write_rows now s' recs' (saved ++ [row])
      end
  end.

Definition pg_Write (now : Time) (s : PGStore) (recs : list Recommendation)
    : PGStore * (list Recommendation * option error) := write_rows now s recs [].

Definition pg_Upsert (now : Time) (s : PGStore) (r : Recommendation) : PGStore * option error :=
  let urgency := urgency_of r in
  let incidentID := head (rec_IncidentIDs r) in
  let lastIncident := match incidentID with Some _ => Some now | None => None end in
  let row := new_row now (tbl_seq s) None (source_of "rca" r) urgency
               (match incidentID with Some i => [i] | None => [] end) lastIncident r in
  let failed e := Some ("upsert recommendation " +:+ rec_RuleID r +:+ ": " +:+ e) in
  if negb (checks_ok row) then (next_id s, failed "violates check constraint")
  else match active_row s (rec_RuleID r) (rec_InstanceID r) with
       | None => (put_row (tbl_seq s) row (next_id s), None)
       | Some (id, old) =>
           match sql_add (rec_UrgencyScore old) urgency with
           | Err e => (next_id s, failed e)
           | Ok sum =>
               (put_row id (refreshed now (LEAST UrgencySoftCap sum)
                              (match incidentID with
                               | Some i => rec_IncidentIDs old ++ [i]
                               | None => rec_IncidentIDs old
                               end)
                              (match incidentID with
                               | Some _ => Some now
                               | None => rec_LastIncidentAt old
                               end) row old) (next_id s), None)
           end
       end.

(** One statement of [WriteOrUpdate]; source and urgency take the defaults of the columns. *)
Definition write_or_update (now : Time) (s : PGStore) (r : Recommendation)
    : PGStore * option error :=
  let row := new_row now (tbl_seq s) None "alert" f0 [] None r in
  if negb (checks_ok row) then (next_id s, Some "violates check constraint")
  else match active_row s (rec_RuleID r) (rec_InstanceID r) with
       | None => (put_row (tbl_seq s) row (next_id s), None)
       | Some (id, old) =>
           (put_row id (refreshed now (rec_UrgencyScore old) (rec_IncidentIDs old)
                          (rec_LastIncidentAt old) row old) (next_id s), None)
       end.

(** [lost n] says that the connection fails at the n-th statement; [written] counts rows. *)
Fixpoint WriteOrUpdate (now : Time) (lost : nat -> bool) (s : PGStore) (recs : list Recommendation)
    (written : nat) : PGStore * (Z * option error) :=
  match recs with
  | [] => (s, (Z.of_nat written, None))
  | r :: recs' =>
      let failed e := Some ("write/update recommendation " +:+ rec_RuleID r +:+ ": " +:+ e) in
      if lost written then (s, (Z.of_nat written, failed "connection"))
      else match write_or_update now s r with
           | (s', Some e) => (s', (Z.of_nat written, failed e))
           | (s', None) => WriteOrUpdate now lost s' recs' (S written)
           end
  end.

(** ** Reading *)

Definition rec_rows (s : PGStore) : list Recommendation := map snd (map_to_list (tbl_rows s)).

Definition opt_eq (wanted actual : string) : bool :=
  bool_decide (wanted = "") || bool_decide (actual = wanted).

Definition row_listed (opts : ListOpts) (r : Recommendation) : bool :=
  opt_eq (lo_InstanceID opts) (rec_InstanceID r) && opt_eq (lo_Priority opts) (rec_Priority r)
  && opt_eq (lo_Category opts) (rec_Category r) && opt_eq (lo_Status opts) (rec_Status r)
  && opt_eq (lo_Source opts) (rec_Source r)
  && match lo_Acknowledged opts with
     | Some acked => Bool.eqb acked (bool_decide (is_Some (rec_AcknowledgedAt r)))
     | None => true
     end
  && match lo_IncidentID opts with
     | Some i => bool_decide (i ∈ rec_IncidentIDs r)
     | None => true
     end.

Definition newest_first (a b : Recommendation) : bool := time_After (rec_CreatedAt a) (rec_CreatedAt b).

Definition most_urgent_first (a b : Recommendation) : bool :=
  sql_lt (rec_UrgencyScore b) (rec_UrgencyScore a)
  || (negb (sql_lt (rec_UrgencyScore a) (rec_UrgencyScore b)) && newest_first a b).

Section listing.
Context {SS : SliceSort}.

Definition listWithOpts (s : PGStore) (opts : ListOpts) : result (list Recommendation * Z) :=
  let rows := List.filter (row_listed opts) (rec_rows s) in
  let limit := if lo_Limit opts <=? 0 then 100 else lo_Limit opts in
  let limit := if 500 <? limit then 500 else limit in
  let before := if bool_decide (lo_OrderBy opts = "urgency_score") then most_urgent_first
                else newest_first in
  match sql_page limit (lo_Offset opts) (sort_slice before rows) with
  | Err e => Err ("list recommendations: " +:+ e)
  | Ok page => Ok (page, len rows)
  end.

Definition with_instance (instanceID : string) (o : ListOpts) : ListOpts :=
  mkListOpts instanceID (lo_Priority o) (lo_Category o) (lo_Status o) (lo_Source o)
    (lo_Acknowledged o) (lo_AlertEventID o) (lo_IncidentID o) (lo_OrderBy o) (lo_Limit o)
    (lo_Offset o).

Definition pg_ListByInstance (s : PGStore) (instanceID : string) (opts : ListOpts)
    : result (list Recommendation * Z) := listWithOpts s (with_instance instanceID opts).

Definition pg_ListAll (s : PGStore) (opts : ListOpts) : result (list Recommendation * Z) :=
  listWithOpts s opts.

Definition pg_ListByAlertEvent (s : PGStore) (alertEventID : Z) : result (list Recommendation) :=
  Ok (sort_slice newest_first
        (List.filter (fun r => bool_decide (rec_AlertEventID r = Some alertEventID)) (rec_rows s))).

Definition pg_ListByIncident (s : PGStore) (incidentID : Z) : result (list Recommendation) :=
  Ok (sort_slice (fun a b => sql_lt (rec_UrgencyScore b) (rec_UrgencyScore a))
        (List.filter (fun r => bool_decide (incidentID ∈ rec_IncidentIDs r)) (rec_rows s))).

End listing.

(** ** Status *)

Definition acknowledged (now : Time) (username : string) (r : Recommendation) : Recommendation :=
  mkRecommendation (rec_ID r) (rec_RuleID r) (rec_InstanceID r) (rec_AlertEventID r)
    (rec_MetricKey r) (rec_MetricValue r) (rec_Priority r) (rec_Category r) (rec_Title r)
    (rec_Description r) (rec_DocURL r) (rec_Status r) (rec_Source r) (rec_UrgencyScore r)
    (rec_IncidentIDs r) (rec_LastIncidentAt r) (rec_CreatedAt r) (rec_EvaluatedAt r)
    (rec_ResolvedAt r) (Some now) username.

Definition pg_Acknowledge (now : Time) (s : PGStore) (id : Z) (username : string)
    : PGStore * option error :=
  match tbl_rows s !! id with
  | None => (s, Some ("recommendation " +:+ pretty id +:+ " not found"))
  | Some r => (put_row id (acknowledged now username r) s, None)
  end.

Definition outdated (cutoff : Time) (r : Recommendation) : bool :=
  (rec_CreatedAt r <? cutoff)
  && (bool_decide (is_Some (rec_AcknowledgedAt r)) || bool_decide (rec_Status r = "resolved")).

Definition pg_CleanOld (now : Time) (s : PGStore) (olderThan : Duration) : PGStore * option error :=
  (mkPGStore (filter (fun kv => outdated (now - olderThan) (snd kv) = false) (tbl_rows s))
     (tbl_seq s), None).

Definition resolved (now : Time) (r : Recommendation) : Recommendation :=
  mkRecommendation (rec_ID r) (rec_RuleID r) (rec_InstanceID r) (rec_AlertEventID r)
    (rec_MetricKey r) (rec_MetricValue r) (rec_Priority r) (rec_Category r) (rec_Title r)
    (rec_Description r) (rec_DocURL r) "resolved" (rec_Source r) (rec_UrgencyScore r)
    (rec_IncidentIDs r) (rec_LastIncidentAt r) (rec_CreatedAt r) (rec_EvaluatedAt r)
    (Some now) (rec_AcknowledgedAt r) (rec_AcknowledgedBy r).

Definition stale (instanceID : string) (currentRuleIDs : list string) (r : Recommendation) : bool :=
  bool_decide (rec_InstanceID r = instanceID) && bool_decide (rec_Status r = "active")
  && negb (bool_decide (rec_RuleID r ∈ currentRuleIDs)).

Definition pg_ResolveStale (now : Time) (s : PGStore) (instanceID : string)
    (currentRuleIDs : list string) : PGStore * option error :=
  (mkPGStore ((fun r => if stale instanceID currentRuleIDs r then resolved now r else r)
                <$> tbl_rows s) (tbl_seq s), None).

#[export] Instance PGRecommendationStore {SS : SliceSort} : RecommendationStore PGStore := {|
  rs_Write := pg_Write;
  rs_Upsert := pg_Upsert;
  rs_ListByInstance := pg_ListByInstance;
  rs_ListAll := pg_ListAll;
  rs_ListByAlertEvent := pg_ListByAlertEvent;
  rs_ListByIncident := pg_ListByIncident;
  rs_Acknowledge := pg_Acknowledge;
  rs_CleanOld := pg_CleanOld;
  rs_ResolveStale := pg_ResolveStale
|}.

(** ** nullstore.go *)

Inductive NullStore := NewNullStore.

#[export] Instance NullRecommendationStore : RecommendationStore NullStore := {|
  rs_Write _ n _ := (n, ([], None));
  rs_Upsert _ n _ := (n, None);
  rs_ListByInstance _ _ _ := Ok ([], 0);
  rs_ListAll _ _ := Ok ([], 0);
  rs_ListByAlertEvent _ _ := Ok [];
  rs_ListByIncident _ _ := Ok [];
  rs_Acknowledge _ n _ _ := (n, None);
  rs_CleanOld _ n _ := (n, None);
  rs_ResolveStale _ n _ _ := (n, None)
|}.

(** ** hooks.go *)

Definition HookToRuleID : gmap string string :=
  list_to_map
   [(HookCheckpointTuning, "rem_wraparound_warn");
    (HookVacuumTuning, "rem_bloat_high");
    (HookConnectionPooling, "rem_conn_high");
    (HookIndexCreation, "");
    (HookSlotCleanup, "rem_repl_slot_inactive");
    (HookKillLongTx, "rem_long_txn_warn");
    (HookSharedBuffers, "rem_cache_low");
    (HookTempFileWork, "");
    (HookPGSSReset, "rem_pgss_fill");
    (HookVacuumAggressive, "rem_bloat_extreme");
    (HookWraparoundVacuum, "rem_wraparound_crit");
    (HookMemoryTuning, "rem_mem_pressure");
    (HookLockInvestigation, "rem_locks_blocking");
    (HookQueryOptimization, "");
    (HookNetworkDiagnostics, "");
    (HookWALArchive, "");
    (HookReplicationLag, "");
    (HookDiskCapacity, "")].

(** ** engine.go *)

Record Engine (S M : Type) := mkEngine {
  en_rules : list Rule;
  en_store : option S;
  en_metricSource : option M
}.
Arguments mkEngine {S M} _ _ _.
Arguments en_rules {S M} _.
Arguments en_store {S M} _.
Arguments en_metricSource {S M} _.

Section engine.
Context {S M : Type} {RS : RecommendationStore S} {MS : MetricSource M}.

Definition NewEngine : Engine S M := mkEngine (pgRules ++ osRules) None None.

Definition SetStore (store : S) (e : Engine S M) : Engine S M :=
  mkEngine (en_rules e) (Some store) (en_metricSource e).

Definition SetMetricSource (source : M) (e : Engine S M) : Engine S M :=
  mkEngine (en_rules e) (en_store e) (Some source).

(** The recommendation made of a result; the other fields are zero. *)
Definition recommend (rule : Rule) (instanceID metricKey : string) (value : float64)
    (source : string) (urgency : float64) (incidents : list Z) (result : RuleResult)
    : Recommendation :=
  mkRecommendation 0 (ru_ID rule) instanceID None metricKey value (ru_Priority rule)
    (ru_Category rule) (res_Title result) (res_Description result) (res_DocURL result) "" source
    urgency incidents None zero_time zero_time None None "".

Definition EvaluateMetric (e : Engine S M) (instanceID metricKey : string) (value : float64)
    (labels : Labels) (severity : string) (snapshot : MetricSnapshot) : list Recommendation :=
  let evalCtx := mkEvalContext instanceID metricKey value labels severity snapshot in
  omap (fun rule =>
    match ru_Evaluate rule evalCtx with
    | None => None
    | Some result => Some (recommend rule instanceID metricKey value "" f0 [] result)
    end) (en_rules e).

(** The context of a diagnosis: no triggering metric. *)
Definition diagnose_ctx (instanceID : string) (snapshot : MetricSnapshot) : EvalContext :=
  mkEvalContext instanceID "" f0 ∅ "" snapshot.

Definition Diagnose (e : Engine S M) (instanceID : string) (snapshot : MetricSnapshot)
    : list Recommendation :=
  omap (fun rule =>
    match ru_Evaluate rule (diagnose_ctx instanceID snapshot) with
    | None => None
    | Some result =>
        Some (recommend rule instanceID (res_MetricKey result) (res_MetricValue result) "" f0 []
                result)
    end) (en_rules e).

Definition find_rule (rules : list Rule) (ruleID : string) : option Rule :=
  List.find (fun rule => bool_decide (ru_ID rule = ruleID)) rules.

(** A failing metric source still gives its snapshot; a missing one gives the empty map. *)
Definition hook_snapshot (now : Time) (e : Engine S M) (instanceID : string) : MetricSnapshot :=
  match en_metricSource e with
  | Some m => fst (src_CurrentSnapshot now m instanceID)
  | None => ∅
  end.

Definition EvaluateHook (now : Time) (e : Engine S M) (hook instanceID metricKey : string)
    (value : float64) (incidentID : Z) (urgencyDelta : float64) : Engine S M * option error :=
  match en_store e with
  | None => (e, None)
  | Some store =>
      let ruleID := default "" (HookToRuleID !! hook) in
      if bool_decide (ruleID = "") then (e, None) else
      match find_rule (en_rules e) ruleID with
      | None => (e, None)
      | Some matchedRule =>
          let evalCtx := mkEvalContext instanceID metricKey value ∅ ""
                           (hook_snapshot now e instanceID) in
          match ru_Evaluate matchedRule evalCtx with
          | None => (e, None)
          | Some result =>
              let rec := recommend matchedRule instanceID metricKey value "rca" urgencyDelta
                           [incidentID] result in
              match rs_Upsert now store rec with
              | (store', Some err) =>
                  (SetStore store' e, Some ("evaluate hook " +:+ hook +:+ ": " +:+ err))
              | (store', None) => (SetStore store' e, None)
              end
          end
      end
  end.

(** ** adapter.go *)

Definition alert_result (r : Recommendation) : RemediationResult :=
  mkRemediationResult (rec_RuleID r) (rec_Title r) (rec_Description r) (rec_Priority r)
    (rec_Category r) (rec_DocURL r).

Definition EvaluateForAlert (now : Time) (e : Engine S M) (source : M)
    (instanceID metricKey : string) (value : float64) (labels : Labels) (severity : string)
    : list RemediationResult :=
  let snapshot := fst (src_CurrentSnapshot now source instanceID) in
  map alert_result (EvaluateMetric e instanceID metricKey value labels severity snapshot).

End engine.
Arguments NewEngine {S M}.

(** The engine as the hook evaluator of the analysis, at a point of time. *)
Record ClockedEngine (S M : Type) := mkClockedEngine { ck_now : Time; ck_engine : Engine S M }.
Arguments mkClockedEngine {S M} _ _.
Arguments ck_now {S M} _.
Arguments ck_engine {S M} _.

#[export] Instance EngineHooks {S M} {RS : RecommendationStore S} {MS : MetricSource M}
    : RemediationHookEvaluator (ClockedEngine S M) := {|
  rh_EvaluateHook c h :=
    let (e, err) := EvaluateHook (ck_now c) (ck_engine c) (hc_Hook h) (hc_InstanceID h)
                      (hc_MetricKey h) (hc_Value h) (hc_IncidentID h) (hc_UrgencyDelta h) in
    (mkClockedEngine (ck_now c) e, err)
|}.

(** The adapter as the provider of the dispatcher, over a world with a clock and the metrics. *)
Lemma adapter_clock {W : Type} {HW : World W} (w : W) (l : list RemediationResult) :
  clock w <= clock (w, l).1.
Proof. simpl. lia. Qed.

Definition AlertAdapter {W S M : Type} {HW : World W} {MS : MetricSource M} (e : Engine S M)
    (source : W -> M) : RemediationProvider :=
  {| rp_Evaluate w i m v l s := (w, EvaluateForAlert (clock w) e (source w) i m v l s);
     rp_clock w i m v l s := adapter_clock w _ |}.

(** ** background.go *)

(** The evaluator's store is the table that the engine writes too; the functions below thread
    it as their state. Its metric source is read at each visit. *)
Record BackgroundEvaluator (S M : Type) := mkBackground {
  be_engine : Engine S M;
  be_interval : Duration;
  be_retention : Duration
}.
Arguments mkBackground {S M} _ _ _.
Arguments be_engine {S M} _.
Arguments be_interval {S M} _.
Arguments be_retention {S M} _.

(** What one instance meets in a cycle: whether the context is cancelled before it, its time,
    the metric source as it is then, and which of its statements lose the connection. *)
Record Visit (M : Type) := mkVisit {
  vi_instanceID : string;
  vi_cancelled : bool;
  vi_now : Time;
  vi_metrics : M;
  vi_resolveLost : bool;
  vi_writeLost : nat -> bool
}.
Arguments mkVisit {M} _ _ _ _ _ _.
Arguments vi_instanceID {M} _.
Arguments vi_cancelled {M} _.
Arguments vi_now {M} _.
Arguments vi_metrics {M} _.
Arguments vi_resolveLost {M} _.
Arguments vi_writeLost {M} _ _.

Section background.
Context {S M : Type} {MS : MetricSource M}.

Definition NewBackgroundEvaluator (e : Engine S M) (interval : Duration)
    (retentionDays : Z) : BackgroundEvaluator S M :=
  mkBackground e interval (dur_mul (i64 (retentionDays * 24)) Hour).

Definition evaluateInstance (b : BackgroundEvaluator S M) (s : PGStore) (v : Visit M)
    : PGStore * result Z :=
  let instanceID := vi_instanceID v in
  match src_CurrentSnapshot (vi_now v) (vi_metrics v) instanceID with
  | (_, Some err) => (s, Err ("get snapshot for " +:+ instanceID +:+ ": " +:+ err))
  | (snapshot, None) =>
      let recs := Diagnose (be_engine b) instanceID snapshot in
      let currentRuleIDs := map rec_RuleID recs in
      let s1 := if vi_resolveLost v then s
                else fst (pg_ResolveStale (vi_now v) s instanceID currentRuleIDs) in
      if 0 <? len recs then
        match WriteOrUpdate (vi_now v) (vi_writeLost v) s1 recs 0 with
        | (s2, (_, Some err)) =>
            (s2, Err ("write recommendations for " +:+ instanceID +:+ ": " +:+ err))
        | (s2, (written, None)) => (s2, Ok written)
        end
      else (s1, Ok 0)
  end.

(** The loop over the instances, and whether it reached the end. *)
Fixpoint visit_all (b : BackgroundEvaluator S M) (s : PGStore) (visits : list (Visit M))
    : PGStore * bool :=
  match visits with
  | [] => (s, true)
  | v :: visits' =>
      if vi_cancelled v then (s, false)
      else visit_all b (fst (evaluateInstance b s v)) visits'
  end.

(** One cycle over the instances listed; [None] when listing them failed. *)
Definition runCycle (now : Time) (b : BackgroundEvaluator S M) (s : PGStore)
    (listed : option (list (Visit M))) : PGStore :=
  match listed with
  | None => s
  | Some visits =>
      match visit_all b s visits with
      | (s', false) => s'
      | (s', true) => fst (pg_CleanOld now s' (be_retention b))
      end
  end.

(** [run]: one cycle at the start and one at each tick. *)
Definition run_background (b : BackgroundEvaluator S M) (s : PGStore)
    (cycles : list (Time * option (list (Visit M)))) : PGStore :=
  foldl (fun s c => runCycle (fst c) b s (snd c)) s cycles.

End background.

(** ** internal/api/remediation.go *)

Inductive remediationBody :=
  | BRecommendations (recs : list Recommendation) (count total : Z)
  | BDiagnosis (recs : list Recommendation) (metricsEvaluated rulesEvaluated : Z)
  | BAcknowledged (id : Z)
  | BRules (infos : list (string * string * string)) (count : Z).

Section handlers.
Context {S M : Type} {RS : RecommendationStore S} {MS : MetricSource M}.

Definition parseListOpts (priority category status source orderBy acknowledged incidentID limit
    offset : string) : ListOpts :=
  let ack := if bool_decide (acknowledged = "") then None
             else Some (bool_decide (acknowledged = "true")) in
  let inc := if bool_decide (incidentID = "") then None
             else match ParseInt incidentID with (n, None) => Some n | _ => None end in
  let lim := if bool_decide (limit = "") then 100
             else match Atoi limit with
                  | (n, None) => if 0 <? n then n else 100
                  | _ => 100
                  end in
  let lim := if 500 <? lim then 500 else lim in
  let off := if bool_decide (offset = "") then 0
             else match Atoi offset with
                  | (n, None) => if 0 <=? n then n else 0
                  | _ => 0
                  end in
  mkListOpts "" priority category status source ack None inc orderBy lim off.

Definition handleListRecommendations (instanceExists : bool) (store : S) (instanceID : string)
    (opts : ListOpts) : response remediationBody :=
  if negb instanceExists then writeError StatusNotFound "NOT_FOUND" "instance not found" else
  match rs_ListByInstance store instanceID opts with
  | Err _ => writeError StatusInternalServerError "INTERNAL" "failed to list recommendations"
  | Ok (recs, total) => writeJSON StatusOK (BRecommendations recs (len recs) total)
  end.

Definition handleDiagnose (now : Time) (instanceExists : bool) (e : Engine S M) (source : option M)
    (instanceID : string) : response remediationBody :=
  if negb instanceExists then writeError StatusNotFound "NOT_FOUND" "instance not found" else
  match source with
  | None => writeError StatusServiceUnavailable "NO_METRIC_SOURCE" "metric source not configured"
  | Some m =>
      match src_CurrentSnapshot now m instanceID with
      | (_, Some _) =>
          writeError StatusInternalServerError "INTERNAL" "failed to get metric snapshot"
      | (snapshot, None) =>
          writeJSON StatusOK (BDiagnosis (Diagnose e instanceID snapshot)
                                (Z.of_nat (size snapshot)) (len (en_rules e)))
      end
  end.

Definition handleListAllRecommendations (store : S) (opts : ListOpts) : response remediationBody :=
  match rs_ListAll store opts with
  | Err _ => writeError StatusInternalServerError "INTERNAL" "failed to list recommendations"
  | Ok (recs, total) => writeJSON StatusOK (BRecommendations recs (len recs) total)
  end.

Definition handleAcknowledgeRecommendation (now : Time) (store : S) (claims : option Claims)
    (idStr : string) : S * response remediationBody :=
  match ParseInt idStr with
  | (_, Some _) => (store, writeError StatusBadRequest "INVALID_ID" "id must be an integer")
  | (id, None) =>
      let username := match claims with Some c => c_Username c | None => "unknown" end in
      match rs_Acknowledge now store id username with
      | (s', Some _) => (s', writeError StatusNotFound "NOT_FOUND" "recommendation not found")
      | (s', None) => (s', writeJSON StatusOK (BAcknowledged id))
      end
  end.

Definition handleListRemediationRules (e : Engine S M) : response remediationBody :=
  let infos := map (fun r => (ru_ID r, ru_Priority r, ru_Category r)) (en_rules e) in
  writeJSON StatusOK (BRules infos (len infos)).

End handlers.
