(* ===== verification/RemediationTable.v ===== *)
(** * The recommendation table under the engine

    The invariant of the table (one active recommendation per rule and instance, urgencies
    between 0 and the cap), that every operation keeps it, and what a cycle of the background
    evaluator leaves in it. *)
From S2P Require Import Prelude Float64 Metric RcaOntology RcaEngine.
From S2P Require Import Remediation RemediationEngine.

Local Open Scope Z_scope.

(** ** The active rows *)

(** The active recommendation of a rule and an instance. *)
Definition active (s : PGStore) (rule inst : string) : option Recommendation :=
  snd <$> active_row s rule inst.

Lemma row_active_spec (rule inst : string) (r : Recommendation) :
  row_active rule inst r = true <->
  rec_Status r = "active" /\ rec_RuleID r = rule /\ rec_InstanceID r = inst.
Proof. unfold row_active. rewrite !andb_true_iff, !bool_decide_eq_true. tauto. Qed.

Definition in_bounds (u : float64) : Prop := fle f0 u = true /\ fle u UrgencySoftCap = true.

Record table_inv (s : PGStore) : Prop := {
  ti_ids : forall id r, tbl_rows s !! id = Some r -> id < tbl_seq s;
  ti_unique : forall rule inst id r id' r',
    tbl_rows s !! id = Some r -> row_active rule inst r = true ->
    tbl_rows s !! id' = Some r' -> row_active rule inst r' = true -> id = id';
  ti_urgency : forall id r, tbl_rows s !! id = Some r -> in_bounds (rec_UrgencyScore r)
}.

Lemma active_row_some (s : PGStore) (rule inst : string) (id : Z) (r : Recommendation) :
  active_row s rule inst = Some (id, r) ->
  tbl_rows s !! id = Some r /\ row_active rule inst r = true.
Proof.
  unfold active_row. intros H. apply List.find_some in H as [Hin Ha].
  by apply list_elem_of_In, elem_of_map_to_list in Hin.
Qed.

Lemma active_row_none (s : PGStore) (rule inst : string) (id : Z) (r : Recommendation) :
  active_row s rule inst = None -> tbl_rows s !! id = Some r -> row_active rule inst r = false.
Proof.
  unfold active_row. intros H Hr.
  apply (List.find_none _ _ H (id, r)). by apply list_elem_of_In, elem_of_map_to_list.
Qed.

Lemma active_spec (s : PGStore) (rule inst : string) (r : Recommendation) :
  table_inv s ->
  active s rule inst = Some r <->
  exists id, tbl_rows s !! id = Some r /\ row_active rule inst r = true.
Proof.
  intros Hs. unfold active. destruct (active_row s rule inst) as [[id r0]|] eqn:E; simpl.
  - apply active_row_some in E as [H1 H2]. split.
    + intros [= <-]. by exists id.
    + intros (id' & H3 & H4). by rewrite <- (ti_unique s Hs rule inst _ _ _ _ H1 H2 H3 H4), H1 in H3.
  - split; [done|]. intros (id & H1 & H2).
    rewrite (active_row_none _ _ _ _ _ E H1) in H2. discriminate H2.
Qed.

Lemma active_key (s : PGStore) (rule inst : string) (r : Recommendation) :
  table_inv s -> active s rule inst = Some r ->
  rec_Status r = "active" /\ rec_RuleID r = rule /\ rec_InstanceID r = inst.
Proof.
  intros Hs H. apply active_spec in H as (id & _ & H); [|done]. by apply row_active_spec.
Qed.

(** Two tables show the same active rows when every row of one answers a row of the other. *)
Lemma active_ext (s s' : PGStore) (rule inst : string) (o : option Recommendation) :
  table_inv s' ->
  (forall r, (exists id, tbl_rows s' !! id = Some r /\ row_active rule inst r = true) <-> o = Some r) ->
  active s' rule inst = o.
Proof.
  intros Hs' H. apply option_eq. intros r. by rewrite active_spec.
Qed.

(** ** Operations on rows *)

Definition same_key (r r' : Recommendation) : Prop :=
  rec_Status r' = rec_Status r /\ rec_RuleID r' = rec_RuleID r
  /\ rec_InstanceID r' = rec_InstanceID r.

Lemma same_key_active (r r' : Recommendation) (rule inst : string) :
  same_key r r' -> row_active rule inst r' = row_active rule inst r.
Proof. intros (H1 & H2 & H3). unfold row_active. by rewrite H1, H2, H3. Qed.

Lemma put_row_update (s : PGStore) (id : Z) (r r' : Recommendation) :
  table_inv s -> tbl_rows s !! id = Some r -> same_key r r' -> in_bounds (rec_UrgencyScore r') ->
  table_inv (put_row id r' s).
Proof.
  intros Hs Hr Hk Hu. split; simpl.
  - intros i x [[<- <-]|[_ H]]%lookup_insert_Some; [exact (ti_ids s Hs _ _ Hr)|exact (ti_ids s Hs _ _ H)].
  - intros rule inst i x i' x' H1 A1 H2 A2. apply lookup_insert_Some in H1, H2.
    assert (forall j y, (id = j /\ r' = y) \/ (id <> j /\ tbl_rows s !! j = Some y) ->
      row_active rule inst y = true ->
      exists z, tbl_rows s !! j = Some z /\ row_active rule inst z = true) as Hold.
    { intros j y [[<- <-]|[_ Hj]] Hy; [|by exists y].
      exists r. split; [done|]. by rewrite <- (same_key_active r r'). }
    destruct (Hold i x H1 A1) as (z & Hz & Az), (Hold i' x' H2 A2) as (z' & Hz' & Az').
    by apply (ti_unique s Hs rule inst i z i' z').
  - intros i x [[<- <-]|[_ H]]%lookup_insert_Some; [done|exact (ti_urgency s Hs _ _ H)].
Qed.

Lemma next_id_inv (s : PGStore) : table_inv s -> table_inv (next_id s).
Proof.
  intros Hs. split; simpl; [|apply (ti_unique s Hs)|apply (ti_urgency s Hs)].
  intros id r H. pose proof (ti_ids s Hs id r H). lia.
Qed.

Lemma put_row_new (s : PGStore) (r : Recommendation) :
  table_inv s -> active s (rec_RuleID r) (rec_InstanceID r) = None ->
  in_bounds (rec_UrgencyScore r) -> table_inv (put_row (tbl_seq s) r (next_id s)).
Proof.
  intros Hs Hnone Hu.
  assert (forall id x, tbl_rows s !! id = Some x -> tbl_seq s <> id) as Hfresh.
  { intros id x H. pose proof (ti_ids s Hs id x H). lia. }
  assert (forall rule inst id x, tbl_rows s !! id = Some x -> row_active rule inst x = true ->
    row_active rule inst r = true -> False) as Hclash.
  { intros rule inst id x Hx Ax Ar. apply row_active_spec in Ar as (_ & <- & <-).
    assert (active s (rec_RuleID r) (rec_InstanceID r) = Some x) as E
      by (apply active_spec; [done|by exists id]). congruence. }
  split; simpl.
  - intros i x [[<- <-]|[_ H]]%lookup_insert_Some; [lia|]. pose proof (ti_ids s Hs i x H). lia.
  - intros rule inst i x i' x' H1 A1 H2 A2. apply lookup_insert_Some in H1, H2.
    destruct H1 as [[<- <-]|[_ H1]], H2 as [[<- <-]|[_ H2]]; [done|exfalso..|].
    + by apply (Hclash rule inst i' x').
    + by apply (Hclash rule inst i x).
    + by apply (ti_unique s Hs rule inst i x i' x').
  - intros i x [[<- <-]|[_ H]]%lookup_insert_Some; [done|exact (ti_urgency s Hs _ _ H)].
Qed.

Lemma active_next (s : PGStore) (rule inst : string) :
  active (next_id s) rule inst = active s rule inst.
Proof. done. Qed.

Lemma active_put_update (s : PGStore) (id : Z) (r r' : Recommendation) (rule inst : string) :
  table_inv s -> tbl_rows s !! id = Some r -> same_key r r' -> in_bounds (rec_UrgencyScore r') ->
  active (put_row id r' s) rule inst =
  if row_active rule inst r then Some r' else active s rule inst.
Proof.
  intros Hs Hr Hk Hu. pose proof (put_row_update s id r r' Hs Hr Hk Hu) as Hs'.
  pose proof (same_key_active r r' rule inst Hk) as Hka.
  apply (active_ext s); [done|]. intros x. simpl.
  destruct (row_active rule inst r) eqn:Ar.
  - split.
    + intros (i & Hi & Ax). f_equal.
      assert (i = id) as ->.
      { apply (ti_unique _ Hs' rule inst i x id r'); simpl; [done..|apply lookup_insert_eq|congruence]. }
      rewrite lookup_insert_eq in Hi. congruence.
    + intros [= <-]. exists id. by rewrite lookup_insert_eq.
  - rewrite active_spec by done. split; intros (i & Hi & Ax); exists i.
    + apply lookup_insert_Some in Hi as [[<- <-]|[_ Hi]]; [congruence|done].
    + rewrite lookup_insert_ne; [done|]. intros <-. congruence.
Qed.

Lemma active_put_new (s : PGStore) (r : Recommendation) (rule inst : string) :
  table_inv s -> active s (rec_RuleID r) (rec_InstanceID r) = None ->
  in_bounds (rec_UrgencyScore r) ->
  active (put_row (tbl_seq s) r (next_id s)) rule inst =
  if row_active rule inst r then Some r else active s rule inst.
Proof.
  intros Hs Hn Hu. pose proof (put_row_new s r Hs Hn Hu) as Hs'.
  apply (active_ext s); [done|]. intros x. simpl. destruct (row_active rule inst r) eqn:Ar.
  - split.
    + intros (i & Hi & Ax). f_equal.
      assert (i = tbl_seq s) as ->.
      { apply (ti_unique _ Hs' rule inst i x (tbl_seq s) r); simpl;
          [done..|apply lookup_insert_eq|done]. }
      rewrite lookup_insert_eq in Hi. congruence.
    + intros [= <-]. exists (tbl_seq s). by rewrite lookup_insert_eq.
  - rewrite active_spec by done. split; intros (i & Hi & Ax); exists i.
    + apply lookup_insert_Some in Hi as [[<- <-]|[_ Hi]]; [congruence|done].
    + rewrite lookup_insert_ne; [done|]. intros <-.
      pose proof (ti_ids s Hs _ _ Hi). lia.
Qed.

(** ** Urgencies *)

Lemma priority_in_bounds (p : Priority) : in_bounds (UrgencyFromPriority p).
Proof. unfold UrgencyFromPriority, in_bounds. destr_ifs; vm_compute; done. Qed.

Lemma zero_in_bounds : in_bounds f0.
Proof. vm_compute. done. Qed.

Lemma LEAST_cap (x : float64) : fle f0 x = true -> in_bounds (LEAST UrgencySoftCap x).
Proof.
  intros Hx. unfold LEAST, sql_lt, in_bounds. destruct (is_nan x) eqn:Hn.
  { vm_compute. done. }
  change (is_nan UrgencySoftCap) with false. cbv iota.
  destruct (flt x UrgencySoftCap) eqn:E; [|vm_compute; done]. split; [done|by apply flt_fle].
Qed.

Lemma sum_nonneg (x y z : float64) :
  in_bounds x -> in_bounds y -> sql_add x y = Ok z -> fle f0 z = true.
Proof.
  unfold sql_add. intros [Hx _] [Hy _] H. destr_ifs; [done|]. injection H as <-.
  by apply fadd_nonneg.
Qed.

Lemma urgency_of_bounds (r : Recommendation) :
  in_bounds (rec_UrgencyScore r) -> in_bounds (urgency_of r).
Proof. intros H. unfold urgency_of. destruct (feq _ _); [apply priority_in_bounds|done]. Qed.

(** ** Every operation keeps the invariant *)

Lemma empty_inv : table_inv NewPGStore.
Proof.
  split; simpl.
  - intros id r H. by rewrite lookup_empty in H.
  - intros rule inst id r id' r' H. by rewrite lookup_empty in H.
  - intros id r H. by rewrite lookup_empty in H.
Qed.

Lemma refreshed_key (now : Time) (u : float64) (incs : list Z) (li : option Time)
    (ex old : Recommendation) : same_key old (refreshed now u incs li ex old).
Proof. done. Qed.

Lemma insert_row_inv (now : Time) (s : PGStore) (r : Recommendation) :
  table_inv s -> in_bounds (rec_UrgencyScore r) -> table_inv (fst (insert_row now s r)).
Proof.
  intros Hs Hr. unfold insert_row. destruct (negb _); [by apply next_id_inv|].
  destruct (active_row s _ _) as [[id old]|] eqn:E; simpl; [by apply next_id_inv|].
  apply put_row_new; [done|unfold active; simpl; by rewrite E|by apply urgency_of_bounds].
Qed.

Lemma write_rows_inv (now : Time) (recs : list Recommendation) : forall s saved,
  table_inv s -> Forall (fun r => in_bounds (rec_UrgencyScore r)) recs ->
  table_inv (fst (write_rows now s recs saved)).
Proof.
  induction recs as [|r recs IH]; intros s saved Hs Hr; [done|]. simpl.
  apply Forall_cons in Hr as [Hr Hrs]. pose proof (insert_row_inv now s r Hs Hr) as Hi.
  destruct (insert_row now s r) as [s' [row|e]]; [by apply IH|done].
Qed.

Lemma upsert_inv (now : Time) (s : PGStore) (r : Recommendation) :
  table_inv s -> in_bounds (rec_UrgencyScore r) -> table_inv (fst (pg_Upsert now s r)).
Proof.
  intros Hs Hr. unfold pg_Upsert. destruct (negb _); [by apply next_id_inv|].
  pose proof (urgency_of_bounds r Hr) as Hu.
  destruct (active_row s _ _) as [[id old]|] eqn:E; simpl.
  - destruct (active_row_some _ _ _ _ _ E) as [Hold _].
    destruct (sql_add _ _) as [sum|e] eqn:Es; [|by apply next_id_inv].
    apply (put_row_update (next_id s) id old); [by apply next_id_inv|done|done|].
    apply LEAST_cap, (sum_nonneg _ _ _ (ti_urgency s Hs _ _ Hold) Hu Es).
  - apply put_row_new; [done|unfold active; simpl; by rewrite E|done].
Qed.

Lemma write_or_update_inv (now : Time) (s : PGStore) (r : Recommendation) :
  table_inv s -> table_inv (fst (write_or_update now s r)).
Proof.
  intros Hs. unfold write_or_update. destruct (negb _); [by apply next_id_inv|].
  destruct (active_row s _ _) as [[id old]|] eqn:E; simpl.
  - destruct (active_row_some _ _ _ _ _ E) as [Hold _].
    apply (put_row_update (next_id s) id old); [by apply next_id_inv|done|done|].
    exact (ti_urgency s Hs _ _ Hold).
  - apply put_row_new; [done|unfold active; simpl; by rewrite E|apply zero_in_bounds].
Qed.

Lemma WriteOrUpdate_inv (now : Time) (lost : nat -> bool) (recs : list Recommendation) : forall s n,
  table_inv s -> table_inv (fst (WriteOrUpdate now lost s recs n)).
Proof.
  induction recs as [|r recs IH]; intros s n Hs; simpl; [done|]. destruct (lost n); [done|].
  pose proof (write_or_update_inv now s r Hs) as Hw.
  destruct (write_or_update now s r) as [s' [e|]]; [done|by apply IH].
Qed.

(** Rows that disappear or leave the active status do no harm. *)
Lemma shrink_inv (s s' : PGStore) :
  table_inv s -> tbl_seq s' = tbl_seq s ->
  (forall id r', tbl_rows s' !! id = Some r' -> exists r, tbl_rows s !! id = Some r
     /\ rec_UrgencyScore r' = rec_UrgencyScore r
     /\ forall rule inst, row_active rule inst r' = true -> row_active rule inst r = true) ->
  table_inv s'.
Proof.
  intros Hs Hq Hback. split.
  - intros id r' H. destruct (Hback id r' H) as (r & Hr & _). rewrite Hq. by apply (ti_ids s Hs id r).
  - intros rule inst id r id' r' H1 A1 H2 A2.
    destruct (Hback _ _ H1) as (x & Hx & _ & Ax), (Hback _ _ H2) as (x' & Hx' & _ & Ax').
    apply (ti_unique s Hs rule inst id x id' x'); auto.
  - intros id r' H. destruct (Hback id r' H) as (r & Hr & -> & _). by apply (ti_urgency s Hs id r).
Qed.

Lemma clean_inv (now : Time) (s : PGStore) (d : Duration) :
  table_inv s -> table_inv (fst (pg_CleanOld now s d)).
Proof.
  intros Hs. apply (shrink_inv s); [done|done|]. simpl. intros id r H.
  apply map_lookup_filter_Some in H as [H _]. by exists r.
Qed.

Lemma resolve_inv (now : Time) (s : PGStore) (inst : string) (ids : list string) :
  table_inv s -> table_inv (fst (pg_ResolveStale now s inst ids)).
Proof.
  intros Hs. apply (shrink_inv s); [done|done|]. simpl. intros id r' H.
  rewrite lookup_fmap in H. apply fmap_Some in H as (r & Hr & ->). exists r. split; [done|].
  destruct (stale inst ids r); [|done]. split; [done|]. intros rule i A.
  apply row_active_spec in A as (A & _). discriminate A.
Qed.

Lemma acknowledge_inv (now : Time) (s : PGStore) (id : Z) (username : string) :
  table_inv s -> table_inv (fst (pg_Acknowledge now s id username)).
Proof.
  intros Hs. unfold pg_Acknowledge. destruct (tbl_rows s !! id) as [r|] eqn:E; [|done].
  apply (put_row_update s id r); [done..|]. exact (ti_urgency s Hs _ _ E).
Qed.

#[export] Hint Resolve clean_inv resolve_inv acknowledge_inv WriteOrUpdate_inv upsert_inv
  write_rows_inv next_id_inv : pgpulse.

(** ** What the statements of a cycle do to the active rows *)

Lemma active_resolve (now : Time) (s : PGStore) (inst : string) (ids : list string)
    (rule i : string) :
  table_inv s ->
  active (fst (pg_ResolveStale now s inst ids)) rule i =
  if bool_decide (i = inst) && negb (bool_decide (rule ∈ ids)) then None else active s rule i.
Proof.
  intros Hs. apply (active_ext s); [by apply resolve_inv|]. intros r. simpl. split.
  - intros (id & H & A). rewrite lookup_fmap in H. apply fmap_Some in H as (x & Hx & ->).
    destruct (stale inst ids x) eqn:Hst.
    + apply row_active_spec in A as (A & _). discriminate A.
    + pose proof A as Ax. apply row_active_spec in Ax as (A1 & A2 & A3).
      unfold stale in Hst.
      rewrite A1, A2, A3, (bool_decide_eq_true_2 ("active" = "active")), andb_true_r in Hst by done.
      rewrite Hst. apply active_spec; [done|]. by exists id.
  - destruct (bool_decide (i = inst) && _) eqn:E; [done|]. rewrite active_spec by done.
    intros (id & Hx & A). exists id. rewrite lookup_fmap, Hx. simpl.
    pose proof A as Ax. apply row_active_spec in Ax as (A1 & A2 & A3).
    assert (stale inst ids r = false) as ->; [|done].
    unfold stale. rewrite A1, A2, A3, (bool_decide_eq_true_2 ("active" = "active")) by done.
    by rewrite andb_true_r.
Qed.

Definition unless_outdated (cutoff : Time) (r : Recommendation) : option Recommendation :=
  if outdated cutoff r then None else Some r.

Lemma active_clean (now : Time) (s : PGStore) (d : Duration) (rule i : string) :
  table_inv s ->
  active (fst (pg_CleanOld now s d)) rule i = active s rule i ≫= unless_outdated (now - d).
Proof.
  intros Hs. apply (active_ext s); [by apply clean_inv|]. intros r. simpl.
  rewrite bind_Some. setoid_rewrite active_spec; [|done]. unfold unless_outdated. split.
  - intros (id & H & A). apply map_lookup_filter_Some in H as [H Ho]. simpl in Ho.
    exists r. rewrite Ho. split; [by exists id|done].
  - intros (x & (id & H & A) & Ho). destruct (outdated _ x) eqn:E; [done|]. injection Ho as <-.
    exists id. split; [|done]. by apply map_lookup_filter_Some.
Qed.

(** The active row an evaluation leaves: the old one refreshed, or a new one. *)
Definition evaluated (now : Time) (rec : Recommendation) (old : option Recommendation)
    (row : Recommendation) : Prop :=
  match old with
  | Some o => row = refreshed now (rec_UrgencyScore o) (rec_IncidentIDs o) (rec_LastIncidentAt o)
                      rec o
  | None => exists id, row = new_row now id None "alert" f0 [] None rec
  end.

Lemma active_written (now : Time) (s : PGStore) (r : Recommendation) :
  table_inv s -> checks_ok r = true ->
  exists s', write_or_update now s r = (s', None) /\ table_inv s' /\
    (exists row, active s' (rec_RuleID r) (rec_InstanceID r) = Some row /\
       evaluated now r (active s (rec_RuleID r) (rec_InstanceID r)) row) /\
    (forall rule i, ~ (rule = rec_RuleID r /\ i = rec_InstanceID r) ->
       active s' rule i = active s rule i).
Proof.
  intros Hs Hc. pose proof (write_or_update_inv now s r Hs) as Hi.
  unfold write_or_update in *. change (checks_ok _) with (checks_ok r) in *.
  rewrite Hc in *. cbn [negb] in *. cbv iota in *.
  assert (forall x rule i, row_active rule i x = true ->
    rule = rec_RuleID x /\ i = rec_InstanceID x) as Hkey.
  { intros x rule i A. by apply row_active_spec in A as (_ & <- & <-). }
  destruct (active_row s (rec_RuleID r) (rec_InstanceID r)) as [[id old]|] eqn:E.
  - destruct (active_row_some _ _ _ _ _ E) as [Hold Aold]. eexists. split; [done|].
    split; [done|].
    assert (in_bounds (rec_UrgencyScore old)) as Hb by exact (ti_urgency s Hs _ _ Hold).
    pose proof (fun rule i => active_put_update (next_id s) id old
      (refreshed now (rec_UrgencyScore old) (rec_IncidentIDs old) (rec_LastIncidentAt old) r old)
      rule i (next_id_inv s Hs) Hold (refreshed_key _ _ _ _ _ _) Hb) as Hput.
    apply row_active_spec in Aold as Kold. destruct Kold as (_ & K1 & K2). split.
    + eexists. split.
      * etransitivity; [apply Hput|]. rewrite Aold. reflexivity.
      * unfold active. rewrite E. reflexivity.
    + intros rule i Hne. etransitivity; [apply Hput|].
      destruct (row_active rule i old) eqn:A; [|done]. exfalso. apply Hne.
      rewrite <- K1, <- K2. by apply Hkey.
  - assert (active s (rec_RuleID r) (rec_InstanceID r) = None) as Hn
      by (unfold active; by rewrite E).
    eexists. split; [done|]. split; [done|].
    pose proof (fun rule i => active_put_new s (new_row now (tbl_seq s) None "alert" f0 [] None r)
      rule i Hs Hn zero_in_bounds) as Hput. split.
    + eexists. split.
      * etransitivity; [apply Hput|]. unfold row_active. simpl.
        rewrite !bool_decide_eq_true_2 by done. reflexivity.
      * rewrite Hn. by eexists.
    + intros rule i Hne. etransitivity; [apply Hput|].
      destruct (row_active rule i _) eqn:A; [|done]. exfalso. apply Hne.
      by apply Hkey in A.
Qed.

Definition unlost : nat -> bool := fun _ => false.

Lemma WriteOrUpdate_active (now : Time) (lost : nat -> bool) (inst : string)
    (recs : list Recommendation) : forall s n,
  table_inv s -> (forall k, lost k = false) -> NoDup (map rec_RuleID recs) ->
  Forall (fun r => checks_ok r = true /\ rec_InstanceID r = inst) recs ->
  exists s', WriteOrUpdate now lost s recs n = (s', (Z.of_nat (n + length recs), None)) /\
    table_inv s' /\
    (forall r, r ∈ recs -> exists row, active s' (rec_RuleID r) inst = Some row /\
       evaluated now r (active s (rec_RuleID r) inst) row) /\
    (forall rule i, ~ (i = inst /\ rule ∈ map rec_RuleID recs) ->
       active s' rule i = active s rule i).
Proof.
  induction recs as [|r recs IH]; intros s n Hs Hl Hnd Hok; simpl.
  { exists s. rewrite Nat.add_0_r. split; [done|]. split; [done|]. split; [|done].
    intros r Hr. by apply not_elem_of_nil in Hr. }
  rewrite Hl. apply Forall_cons in Hok as [[Hc Hi] Hok]. apply NoDup_cons in Hnd as [Hr Hnd].
  destruct (active_written now s r Hs Hc) as (s1 & -> & Hs1 & (row & Hrow & Hev) & Hother).
  rewrite Hi in *.
  destruct (IH s1 (S n) Hs1 Hl Hnd Hok) as (s' & -> & Hs' & Hin & Hout).
  exists s'. split; [do 3 f_equal; lia|]. split; [done|]. split.
  - intros x [->|Hx]%elem_of_cons.
    + exists row. split; [|done]. rewrite Hout; [done|]. by intros [_ H].
    + destruct (Hin x Hx) as (rw & H1 & H2). exists rw. split; [done|].
      rewrite Hother in H2; [done|]. intros [H _]. apply Hr. rewrite <- H.
      by apply list_elem_of_fmap_2.
  - intros rule i Hne. rewrite Hout, Hother; [done|..].
    + intros [-> ->]. apply Hne. split; [done|by left].
    + intros [-> H]. apply Hne. split; [done|by right].
Qed.

(** ** The recommendations of a diagnosis *)

Definition rule_checks (rule : Rule) : bool :=
  bool_decide (ru_Priority rule ∈ ["info"; "suggestion"; "action_required"])
  && bool_decide (ru_Category rule ∈ ["performance"; "capacity"; "configuration"; "replication";
                                      "maintenance"]).

Definition rules_sound (rules : list Rule) : Prop :=
  NoDup (map ru_ID rules) /\ Forall (fun rule => rule_checks rule = true) rules.

Lemma compiled_rules_sound : rules_sound (pgRules ++ osRules).
Proof.
  split.
  - apply (bool_decide_unpack _). vm_compute. exact I.
  - unfold pgRules, osRules. repeat (apply Forall_cons; split; [vm_compute; reflexivity|]). done.
Qed.

Section background.
Context {S M : Type} {MS : MetricSource M}.

Lemma elem_of_Diagnose (e : Engine S M) (inst : string) (snap : MetricSnapshot)
    (r : Recommendation) :
  r ∈ Diagnose e inst snap <->
  exists rule res, rule ∈ en_rules e /\ ru_Evaluate rule (diagnose_ctx inst snap) = Some res /\
    r = recommend rule inst (res_MetricKey res) (res_MetricValue res) "" f0 [] res.
Proof.
  unfold Diagnose. rewrite list_elem_of_omap. split.
  - intros (rule & Hin & H). destruct (ru_Evaluate rule _) as [res|] eqn:E; [|done].
    injection H as <-. by exists rule, res.
  - intros (rule & res & Hin & E & ->). exists rule. by rewrite E.
Qed.

Lemma NoDup_Diagnose (e : Engine S M) (inst : string) (snap : MetricSnapshot) :
  NoDup (map ru_ID (en_rules e)) -> NoDup (map rec_RuleID (Diagnose e inst snap)).
Proof.
  unfold Diagnose. induction (en_rules e) as [|rule rules IH]; simpl; [done|].
  intros [Hr Hnd]%NoDup_cons. destruct (ru_Evaluate rule _) as [res|]; simpl; [|by apply IH].
  apply NoDup_cons. split; [|by apply IH]. intros H. apply Hr.
  apply list_elem_of_fmap in H as (r & Hid & Hin). simpl in Hid. rewrite Hid.
  apply list_elem_of_omap in Hin as (rule' & Hin & H). apply list_elem_of_fmap. exists rule'.
  destruct (ru_Evaluate rule' _); [|done]. by injection H as <-.
Qed.

Lemma Diagnose_ok (e : Engine S M) (inst : string) (snap : MetricSnapshot) :
  rules_sound (en_rules e) ->
  Forall (fun r => checks_ok r = true /\ rec_InstanceID r = inst) (Diagnose e inst snap).
Proof.
  intros [_ Hok]. apply list.Forall_forall. intros r (rule & res & Hin & _ & ->)%elem_of_Diagnose.
  rewrite list.Forall_forall in Hok. split; [|done]. exact (Hok rule Hin).
Qed.

(** What the diagnosis says about a rule. *)
Definition diagnosed (e : Engine S M) (inst : string) (snap : MetricSnapshot) (rule : string)
    : option Recommendation :=
  List.find (fun r => bool_decide (rec_RuleID r = rule)) (Diagnose e inst snap).

Lemma diagnosed_some e inst snap rule r :
  diagnosed e inst snap rule = Some r -> r ∈ Diagnose e inst snap /\ rec_RuleID r = rule.
Proof.
  unfold diagnosed. intros H. apply List.find_some in H as [Hin Hid].
  split; [by apply list_elem_of_In|]. by apply bool_decide_eq_true in Hid.
Qed.

Lemma diagnosed_none e inst snap rule :
  diagnosed e inst snap rule = None -> rule ∉ map rec_RuleID (Diagnose e inst snap).
Proof.
  unfold diagnosed. intros H Hin. apply list_elem_of_fmap in Hin as (r & -> & Hr).
  apply list_elem_of_In in Hr. pose proof (List.find_none _ _ H r Hr) as Hx. simpl in Hx.
  by apply bool_decide_eq_false in Hx.
Qed.

(** The outcome for one rule of a visited instance. *)
Definition outcome (now : Time) (found old new : option Recommendation) : Prop :=
  match found with
  | None => new = None
  | Some rec => exists row, new = Some row /\ evaluated now rec old row
  end.

(** A visit that is not cancelled and loses no connection. *)
Definition calm (v : Visit M) : Prop :=
  vi_cancelled v = false /\ vi_resolveLost v = false /\ forall k, vi_writeLost v k = false.

Lemma evaluateInstance_inv (b : BackgroundEvaluator S M) (s : PGStore) (v : Visit M) :
  table_inv s -> table_inv (fst (evaluateInstance b s v)).
Proof.
  intros Hs. unfold evaluateInstance. destruct (src_CurrentSnapshot _ _ _) as [snap [err|]]; [done|].
  set (s1 := if vi_resolveLost v then s else _).
  assert (table_inv s1) as Hs1 by (subst s1; destruct (vi_resolveLost v); auto with pgpulse).
  destruct (0 <? len _); [|done].
  pose proof (WriteOrUpdate_inv (vi_now v) (vi_writeLost v)
    (Diagnose (be_engine b) (vi_instanceID v) snap) s1 0 Hs1) as Hw.
  by destruct (WriteOrUpdate _ _ _ _ _) as [s2 [n [err|]]].
Qed.

Lemma evaluateInstance_exact (b : BackgroundEvaluator S M) (s : PGStore) (v : Visit M)
    (snap : MetricSnapshot) :
  table_inv s -> rules_sound (en_rules (be_engine b)) -> calm v ->
  src_CurrentSnapshot (vi_now v) (vi_metrics v) (vi_instanceID v) = (snap, None) ->
  let s' := fst (evaluateInstance b s v) in
  (forall rule, outcome (vi_now v) (diagnosed (be_engine b) (vi_instanceID v) snap rule)
     (active s rule (vi_instanceID v)) (active s' rule (vi_instanceID v))) /\
  (forall rule i, i <> vi_instanceID v -> active s' rule i = active s rule i).
Proof.
  intros Hs Hrules (_ & Hres & Hlost) Hsnap. cbv zeta. unfold evaluateInstance.
  rewrite Hsnap, Hres. set (recs := Diagnose (be_engine b) (vi_instanceID v) snap).
  set (s1 := fst (pg_ResolveStale _ _ _ _)).
  assert (table_inv s1) as Hs1 by (by apply resolve_inv).
  pose proof (fun rule i => active_resolve (vi_now v) s (vi_instanceID v) (map rec_RuleID recs)
    rule i Hs) as Hstale. fold s1 in Hstale.
  destruct (WriteOrUpdate_active (vi_now v) (vi_writeLost v) (vi_instanceID v) recs s1 0 Hs1 Hlost)
    as (s' & Hw & Hs' & Hin & Hout).
  { apply NoDup_Diagnose, Hrules. } { by apply Diagnose_ok. }
  assert (fst (if 0 <? len recs then
      match WriteOrUpdate (vi_now v) (vi_writeLost v) s1 recs 0 with
      | (s2, (_, Some err)) =>
          (s2, Err ("write recommendations for " +:+ vi_instanceID v +:+ ": " +:+ err))
      | (s2, (written, None)) => (s2, Ok written)
      end else (s1, Ok 0)) = s') as ->.
  { rewrite Hw. destruct recs as [|r recs']; [|done]. simpl in Hw. by injection Hw as ->. }
  split.
  - intros rule. unfold outcome.
    destruct (diagnosed _ _ _ rule) as [rec|] eqn:E.
    + apply diagnosed_some in E as [Hrec <-]. fold recs in Hrec.
      destruct (Hin rec Hrec) as (row & H1 & H2). exists row. split; [done|].
      rewrite Hstale, (bool_decide_eq_true_2 (rec_RuleID rec ∈ _)), andb_false_r in H2; [done|].
      by apply list_elem_of_fmap_2.
    + apply diagnosed_none in E. fold recs in E. rewrite Hout by (by intros [_ H]).
      rewrite Hstale. by rewrite (bool_decide_eq_false_2 (rule ∈ _)), bool_decide_eq_true_2.
  - intros rule i Hne. rewrite Hout by (by intros [H _]).
    rewrite Hstale. by rewrite (bool_decide_eq_false_2 (i = _)).
Qed.

Lemma visit_all_inv (b : BackgroundEvaluator S M) (visits : list (Visit M)) : forall s,
  table_inv s -> table_inv (fst (visit_all b s visits)).
Proof.
  induction visits as [|v visits IH]; intros s Hs; simpl; [done|].
  destruct (vi_cancelled v); [done|]. by apply IH, evaluateInstance_inv.
Qed.

Lemma runCycle_inv (now : Time) (b : BackgroundEvaluator S M) (s : PGStore)
    (listed : option (list (Visit M))) : table_inv s -> table_inv (runCycle now b s listed).
Proof.
  intros Hs. destruct listed as [visits|]; [|done]. simpl.
  pose proof (visit_all_inv b visits s Hs) as Hv.
  destruct (visit_all b s visits) as [s' []]; [by apply clean_inv|done].
Qed.

Lemma visit_all_calm (b : BackgroundEvaluator S M) (visits : list (Visit M)) : forall s,
  Forall calm visits -> snd (visit_all b s visits) = true.
Proof.
  induction visits as [|v visits IH]; intros s Hc; simpl; [done|].
  apply Forall_cons in Hc as [[-> _] Hc]. by apply IH.
Qed.

Lemma evaluateInstance_other (b : BackgroundEvaluator S M) (s : PGStore) (v : Visit M)
    (rule i : string) :
  table_inv s -> rules_sound (en_rules (be_engine b)) -> calm v -> i <> vi_instanceID v ->
  active (fst (evaluateInstance b s v)) rule i = active s rule i.
Proof.
  intros Hs Hr Hv Hi.
  destruct (src_CurrentSnapshot (vi_now v) (vi_metrics v) (vi_instanceID v)) as [snap [err|]] eqn:E.
  - unfold evaluateInstance. by rewrite E.
  - by apply (evaluateInstance_exact b s v snap).
Qed.

Lemma visit_all_exact (b : BackgroundEvaluator S M) (visits : list (Visit M)) : forall s,
  table_inv s -> rules_sound (en_rules (be_engine b)) -> Forall calm visits ->
  NoDup (map vi_instanceID visits) ->
  (forall v snap, v ∈ visits ->
     src_CurrentSnapshot (vi_now v) (vi_metrics v) (vi_instanceID v) = (snap, None) ->
     forall rule, outcome (vi_now v) (diagnosed (be_engine b) (vi_instanceID v) snap rule)
       (active s rule (vi_instanceID v))
       (active (fst (visit_all b s visits)) rule (vi_instanceID v))) /\
  (forall rule i, i ∉ map vi_instanceID visits ->
     active (fst (visit_all b s visits)) rule i = active s rule i).
Proof.
  induction visits as [|v visits IH]; intros s Hs Hr Hc Hnd.
  { split; [|done]. intros v snap Hv. by apply not_elem_of_nil in Hv. }
  apply Forall_cons in Hc as [Hv Hc]. apply NoDup_cons in Hnd as [Hnew Hnd]. simpl.
  rewrite (proj1 Hv). pose proof (evaluateInstance_inv b s v Hs) as Hs1.
  destruct (IH _ Hs1 Hr Hc Hnd) as [Hin Hout]. split.
  - intros x snap [->|Hx]%elem_of_cons Hsnap rule.
    + rewrite Hout by done. by apply evaluateInstance_exact.
    + pose proof (Hin x snap Hx Hsnap rule) as H. rewrite evaluateInstance_other in H; try done.
      intros E. apply Hnew. rewrite <- E. by apply list_elem_of_fmap_2.
  - intros rule i Hi. simpl in Hi. apply not_elem_of_cons in Hi as [H1 H2].
    rewrite Hout by done. by apply evaluateInstance_other.
Qed.

(** A cycle of the background evaluator leaves exactly the recommendations whose rules fire.
    On a table that satisfies the invariant, after a cycle that is not cancelled and loses no
    connection, for every instance visited whose metrics could be read and every rule: if the rule
    does not fire on the snapshot, the instance has no active recommendation of the rule; if it
    fires, the instance has one, which is the previous one with the new value, texts and time, or
    a new one, unless it was acknowledged and is older than the retention. The recommendations of
    the other instances are untouched, outdated ones apart. *)
Theorem background_cycle_exact (now : Time) (b : BackgroundEvaluator S M) (s : PGStore)
    (visits : list (Visit M)) :
  table_inv s -> rules_sound (en_rules (be_engine b)) -> Forall calm visits ->
  NoDup (map vi_instanceID visits) ->
  let s' := runCycle now b s (Some visits) in
  let keep := unless_outdated (now - be_retention b) in
  (forall v snap rule, v ∈ visits ->
     src_CurrentSnapshot (vi_now v) (vi_metrics v) (vi_instanceID v) = (snap, None) ->
     match diagnosed (be_engine b) (vi_instanceID v) snap rule with
     | None => active s' rule (vi_instanceID v) = None
     | Some rec => exists row, evaluated (vi_now v) rec (active s rule (vi_instanceID v)) row /\
         active s' rule (vi_instanceID v) = keep row
     end) /\
  (forall rule i, i ∉ map vi_instanceID visits -> active s' rule i = active s rule i ≫= keep).
Proof.
  intros Hs Hr Hc Hnd. cbv zeta. destruct (visit_all_exact b visits s Hs Hr Hc Hnd) as [Hin Hout].
  pose proof (visit_all_inv b visits s Hs) as Hi. pose proof (visit_all_calm b visits s Hc) as Hall.
  unfold runCycle. destruct (visit_all b s visits) as [s1 done_]. simpl in Hall. subst done_.
  split.
  - intros v snap rule Hv Hsnap. pose proof (Hin v snap Hv Hsnap rule) as H. unfold outcome in H.
    rewrite active_clean by done. destruct (diagnosed _ _ _ rule) as [rec|].
    + destruct H as (row & H & Hev). exists row. split; [done|]. simpl in H. by rewrite H.
    + simpl in H. by rewrite H.
  - intros rule i Hi'. rewrite active_clean by done. by rewrite <- (Hout rule i Hi').
Qed.

End background.

(** ** The table over its life *)

Section life.
Context {M : Type} {MS : MetricSource M} {SS : SliceSort}.

(** The table of the engine after a hook. *)
Definition hooked_table (now : Time) (rules : list Rule) (s : PGStore) (source : option M)
    (h : HookCall) : PGStore :=
  default s (en_store (ck_engine
    (fst (rh_EvaluateHook (mkClockedEngine now (mkEngine rules (Some s) source)) h)))).

(** What happens to the table: hooks of the analysis (which always passes the delta 1.0), cycles
    of the background evaluator with whatever failures, recommendations of an alert written, and
    acknowledgements. *)
Inductive table_reach : PGStore -> Prop :=
  | tr_new : table_reach NewPGStore
  | tr_hook (now : Time) (rules : list Rule) (s : PGStore) (source : option M) (h : HookCall) :
      table_reach s -> hc_UrgencyDelta h = f1 -> table_reach (hooked_table now rules s source h)
  | tr_cycle (now : Time) (b : BackgroundEvaluator PGStore M) (s : PGStore)
      (listed : option (list (Visit M))) :
      table_reach s -> table_reach (runCycle now b s listed)
  | tr_write (now : Time) (s : PGStore) (e : Engine PGStore M) (inst key : string) (v : float64)
      (labels : Labels) (severity : string) (snap : MetricSnapshot) :
      table_reach s ->
      table_reach (fst (rs_Write now s (EvaluateMetric e inst key v labels severity snap)))
  | tr_ack (now : Time) (s : PGStore) (id : Z) (username : string) :
      table_reach s -> table_reach (fst (rs_Acknowledge now s id username)).

Lemma EvaluateMetric_urgency (e : Engine PGStore M) inst key v labels severity snap :
  Forall (fun r => in_bounds (rec_UrgencyScore r))
    (EvaluateMetric e inst key v labels severity snap).
Proof.
  apply list.Forall_forall. intros r H. apply list_elem_of_omap in H as (rule & _ & H).
  destruct (ru_Evaluate rule _); [|done]. injection H as <-. exact zero_in_bounds.
Qed.

Lemma f1_in_bounds : in_bounds f1.
Proof. vm_compute. done. Qed.

Lemma EvaluateHook_inv (now : Time) (e e' : Engine PGStore M) (s s' : PGStore) hook inst key v i
    (delta : float64) (err : option error) :
  en_store e = Some s -> table_inv s -> in_bounds delta ->
  EvaluateHook now e hook inst key v i delta = (e', err) -> en_store e' = Some s' -> table_inv s'.
Proof.
  intros He Hs Hd. unfold EvaluateHook. rewrite He. intros H Hs'.
  assert (e' = e -> table_inv s') as Hsame by (intros ->; congruence).
  destruct (bool_decide _); [injection H as <- _; by apply Hsame|].
  destruct (find_rule _ _) as [rule|]; [|injection H as <- _; by apply Hsame].
  destruct (ru_Evaluate rule _) as [res|]; [|injection H as <- _; by apply Hsame].
  set (rec := recommend _ _ _ _ _ _ _ _) in H.
  pose proof (upsert_inv now s rec Hs Hd) as Hup. simpl in H.
  destruct (pg_Upsert now s rec) as [s2 [e2|]]; injection H as <- _; simpl in Hs'; by injection Hs' as <-.
Qed.

Lemma EngineHooks_eq (now : Time) (e : Engine PGStore M) (h : HookCall) :
  rh_EvaluateHook (mkClockedEngine now e) h =
  let (e', err) := EvaluateHook now e (hc_Hook h) (hc_InstanceID h) (hc_MetricKey h) (hc_Value h)
                     (hc_IncidentID h) (hc_UrgencyDelta h) in
  (mkClockedEngine now e', err).
Proof. reflexivity. Qed.

Lemma table_reach_inv (s : PGStore) : table_reach s -> table_inv s.
Proof.
  induction 1 as [|now rules s source h _ IH Hd|now b s listed _ IH
                  |now s e inst key v labels severity snap _ IH|now s id username _ IH].
  - apply empty_inv.
  - unfold hooked_table. rewrite EngineHooks_eq.
    destruct (EvaluateHook _ _ _ _ _ _ _ _) as [e2 err2] eqn:E. cbn [fst ck_engine].
    destruct (en_store e2) as [s2|] eqn:E2; [|done]. cbn [default from_option].
    eapply EvaluateHook_inv; [|exact IH| |exact E|exact E2]; [reflexivity|].
    rewrite Hd. exact f1_in_bounds.
  - by apply runCycle_inv.
  - apply write_rows_inv; [done|apply EvaluateMetric_urgency].
  - by apply acknowledge_inv.
Qed.

(** C40: Whatever the analysis, the background evaluator (with lost connections and
    cancellations), the alerts and the users do, in any order, the recommendation table has at
    most one active recommendation per rule and instance, and every urgency score is a number
    between 0 and the cap of 10. *)
Theorem recommendation_table_sound (s : PGStore) :
  table_reach s ->
  (forall id id' r r', tbl_rows s !! id = Some r -> tbl_rows s !! id' = Some r' ->
     rec_Status r = "active" -> rec_Status r' = "active" -> rec_RuleID r = rec_RuleID r' ->
     rec_InstanceID r = rec_InstanceID r' -> id = id') /\
  (forall id r, tbl_rows s !! id = Some r ->
     fle f0 (rec_UrgencyScore r) = true /\ fle (rec_UrgencyScore r) UrgencySoftCap = true).
Proof.
  intros H. apply table_reach_inv in H as Hs. split; [|exact (ti_urgency s Hs)].
  intros id id' r r' H1 H2 A1 A2 Hr Hi.
  apply (ti_unique s Hs (rec_RuleID r) (rec_InstanceID r) id r id' r' H1); [|exact H2|];
    by apply row_active_spec.
Qed.

End life.

(** ** Witnesses *)

(** A metric source that is its own snapshot. *)
#[local] Instance demo_source : MetricSource MetricSnapshot := {|
  src_CurrentSnapshot _ m _ := (m, None)
|}.
#[local] Existing Instance insertion_SliceSort.

Definition demo_metrics : MetricSnapshot := {["pg.connections.utilization_pct" := f_of_Z 85]}.

Definition demo_background : BackgroundEvaluator PGStore MetricSnapshot :=
  NewBackgroundEvaluator NewEngine Hour 30.

Definition demo_visit : Visit MetricSnapshot :=
  mkVisit "db1" false (100 * Second) demo_metrics false unlost.

Lemma background_cycle_exact_witness :
  exists row, active (runCycle (101 * Second) demo_background NewPGStore (Some [demo_visit]))
                "rem_conn_high" "db1" = Some row /\ rec_Title row = "Consider connection pooling".
Proof.
  destruct (background_cycle_exact (101 * Second) demo_background NewPGStore [demo_visit])
    as [H _].
  - apply empty_inv.
  - exact compiled_rules_sound.
  - repeat constructor.
  - apply (bool_decide_unpack _). vm_compute. exact I.
  - specialize (H demo_visit demo_metrics "rem_conn_high" (list_elem_of_here _ _) eq_refl).
    destruct (diagnosed _ _ _ _) as [rec|] eqn:E; [|vm_compute in E; discriminate E].
    destruct H as (row & [id ->] & H). eexists. split; [exact H|].
    vm_compute in E. injection E as <-. reflexivity.
Defined.

Definition demo_hook : HookCall :=
  mkHookCall HookConnectionPooling "db1" "pg.connections.utilization_pct" (f_of_Z 85) 7 f1.

Definition demo_hooked (s : PGStore) : PGStore :=
  hooked_table (100 * Second) (pgRules ++ osRules) s None demo_hook.

Lemma recommendation_table_sound_witness :
  map (fun kv => (rec_RuleID (snd kv), feq (rec_UrgencyScore (snd kv)) (f_of_Z 2)))
    (map_to_list (tbl_rows (demo_hooked (demo_hooked NewPGStore)))) = [("rem_conn_high", true)] /\
  (forall id r, tbl_rows (demo_hooked (demo_hooked NewPGStore)) !! id = Some r ->
     fle (rec_UrgencyScore r) UrgencySoftCap = true).
Proof.
  split; [vm_compute; reflexivity|]. intros id r H.
  eapply recommendation_table_sound; [|exact H].
  unfold demo_hooked. exact (tr_hook _ _ _ _ demo_hook (tr_hook _ _ _ _ demo_hook tr_new eq_refl) eq_refl).
Defined.
