(* ===== verification/RemediationTheorems.v ===== *)
(** * Theorems on remediation

    The tiers of the rules, the recommendation table under the engine, the background evaluator
    and the users, and the snapshot that the rules see. *)
From S2P Require Import Prelude Float64 GoText Metric Storage Alert Dispatcher RcaOntology RcaEngine.
From S2P Require Import Auth Http Remediation RemediationEngine.
From S2P Require Import RemediationTable.

Local Open Scope Z_scope.

(** ** Rules in tiers *)

Definition fires (rule : Rule) (ctx : EvalContext) : Prop := is_Some (ru_Evaluate rule ctx).

(** Two rules on one metric: [t_low] above a first threshold up to a second, [t_high] from there
    on; [t_closed] tells which of the two the second threshold belongs to. *)
Record Tiers := mkTiers {
  t_low : Rule;
  t_high : Rule;
  t_key : string;
  t_scale : float64 -> float64;
  t_from : float64;
  t_to : float64;
  t_closed : bool
}.

Definition tiered : list Tiers :=
  [mkTiers rem_conn_high rem_conn_exhausted "pg.connections.utilization_pct" id
     (f_of_Z 80) (f_of_Z 99) false;
   mkTiers rem_repl_lag_bytes rem_repl_lag_critical "pg.replication.lag.replay_bytes"
     (fun v => fdiv v megabyte) (f_of_Z 10) (f_of_Z 100) true;
   mkTiers rem_long_txn_warn rem_long_txn_crit "pg.long_transactions.oldest_seconds" id
     (f_of_Z 60) (f_of_Z 300) true;
   mkTiers rem_wraparound_warn rem_wraparound_crit "pg.server.wraparound_pct" id
     (f_of_Z 20) (f_of_Z 50) true;
   mkTiers rem_bloat_high rem_bloat_extreme "pg.db.bloat.table_ratio" id
     (f_of_Z 2) (f_of_Z 50) true].

Definition reading (t : Tiers) (ctx : EvalContext) : option float64 :=
  t_scale t <$> metric_value ctx (t_key t).

Definition low_band (t : Tiers) (v : float64) : bool :=
  fgt v (t_from t) && (if t_closed t then fle v (t_to t) else flt v (t_to t)).
Definition high_band (t : Tiers) (v : float64) : bool :=
  if t_closed t then fgt v (t_to t) else fge v (t_to t).

Lemma bands_split (t : Tiers) (v : float64) :
  flt (t_from t) (t_to t) = true ->
  low_band t v && high_band t v = false /\ low_band t v || high_band t v = fgt v (t_from t).
Proof.
  unfold low_band, high_band, fgt, fge. destruct t as [l h k f a b closed]; simpl. intros Hab.
  destruct (is_nan v) eqn:Hv.
  { assert (forall x, flt x v = false /\ flt v x = false /\ fle x v = false /\ fle v x = false)
      as Hn.
    { intros x. repeat split; apply not_true_iff_false;
        rewrite ?flt_spec, ?fle_spec; unfold num; rewrite Hv; intros (? & ? & ?); done. }
    destruct (Hn a) as (-> & _), (Hn b) as (-> & -> & -> & ->). by destruct closed. }
  assert (num b) as Hb by (by apply flt_spec in Hab as (_ & ? & _)).
  destruct closed.
  - destruct (flt b v) eqn:Hbv.
    + rewrite (flt_trans a b v Hab Hbv).
      assert (fle v b = false) as ->; [|done]. apply not_true_iff_false. intros H.
      apply (flt_false b v) in H; [congruence|done..].
    + rewrite (proj1 (flt_false b v Hb Hv) Hbv), andb_true_r, andb_false_r, orb_false_r. done.
  - destruct (fle b v) eqn:Hbv.
    + assert (flt v b = false) as -> by (by apply flt_false).
      rewrite andb_false_r. split; [done|]. symmetry.
      apply flt_spec in Hab as (? & ? & H1). apply fle_spec in Hbv as (_ & _ & H2).
      apply flt_spec. repeat split; [done..|]. fkeys. lia.
    + assert (flt v b = true) as ->.
      { apply not_false_iff_true. intros H. apply flt_false in H; [congruence|done..]. }
      rewrite andb_true_r, andb_false_r, orb_false_r. done.
Qed.

(** A rule fires when its band contains the reading. *)
Definition fires_on (rule : Rule) (t : Tiers) (band : float64 -> bool) : Prop :=
  forall ctx, fires rule ctx <-> exists v, reading t ctx = Some v /\ band v = true.

Ltac rule_band :=
  intros ctx; unfold fires, reading, low_band, high_band, id; cbn [ru_Evaluate t_key t_scale
    t_from t_to t_closed];
  match goal with |- context [metric_value ctx ?k] => destruct (metric_value ctx k) as [v|] end;
  cbn [fmap option_fmap option_map];
  [destr_ifs;
   (split; [intros [? [=]]; by eexists|intros (? & [= <-] & ?); first [by eexists|congruence]])
  |split; [intros [? [=]]|intros (? & [=] & _)]].

Lemma tiered_bands :
  Forall (fun t => flt (t_from t) (t_to t) = true /\ fires_on (t_low t) t (low_band t)
                   /\ fires_on (t_high t) t (high_band t)) tiered.
Proof.
  unfold tiered. repeat (apply Forall_cons; split; [split; [vm_compute; reflexivity|split]|]);
    [..|apply Forall_nil; done].
  all: unfold fires_on; cbn [t_low t_high]; 
    unfold rem_conn_high, rem_conn_exhausted, rem_repl_lag_bytes, rem_repl_lag_critical,
      rem_long_txn_warn, rem_long_txn_crit, rem_wraparound_warn, rem_wraparound_crit,
      rem_bloat_high, rem_bloat_extreme.
  all: rule_band.
Qed.

(** The rules that come in two severities partition the values of their metric: for
    connections, replication lag, long transactions, wraparound and bloat, in every context at
    most one of the two rules fires, and one of them fires exactly when the metric is known (from
    the alert or the snapshot) and above the lower threshold; NaN fires neither. *)
Theorem severities_partition (t : Tiers) (ctx : EvalContext) :
  t ∈ tiered ->
  ~ (fires (t_low t) ctx /\ fires (t_high t) ctx) /\
  (fires (t_low t) ctx \/ fires (t_high t) ctx <->
   exists v, reading t ctx = Some v /\ fgt v (t_from t) = true).
Proof.
  intros Ht. pose proof tiered_bands as H. rewrite list.Forall_forall in H.
  destruct (H t Ht) as (Hab & Hlow & Hhigh). unfold fires_on in Hlow, Hhigh. rewrite Hlow, Hhigh.
  split.
  - intros [(v & Hv & Hl) (v' & Hv' & Hh)]. rewrite Hv in Hv'. injection Hv' as <-.
    destruct (bands_split t v Hab) as [Hx _]. rewrite Hl, Hh in Hx. discriminate Hx.
  - split.
    + intros [(v & Hv & Hb)|(v & Hv & Hb)]; exists v; (split; [done|]);
        destruct (bands_split t v Hab) as [_ <-]; rewrite Hb; [done|by rewrite orb_true_r].
    + intros (v & Hv & Hf). destruct (bands_split t v Hab) as [_ Hx]. rewrite Hf in Hx.
      apply orb_true_iff in Hx as [Hx|Hx]; [left|right]; by exists v.
Qed.

(** ** Hooks *)

Definition compiled_rules : list Rule := pgRules ++ osRules.

(** The hooks that stand for the lower of two severities. *)
Definition lower_tier_hooks : list (string * Tiers) :=
  zip [HookConnectionPooling; HookKillLongTx; HookCheckpointTuning; HookVacuumTuning]
      (match tiered with [c; _; l; w; b] => [c; l; w; b] | _ => [] end).

Lemma lower_tier_hooks_rules :
  Forall (fun ht => default "" (HookToRuleID !! fst ht) = ru_ID (t_low (snd ht))
                    /\ ru_ID (t_low (snd ht)) <> "" /\ snd ht ∈ tiered
                    /\ find_rule compiled_rules (ru_ID (t_low (snd ht))) = Some (t_low (snd ht)))
    lower_tier_hooks.
Proof.
  unfold lower_tier_hooks, tiered. cbn [zip].
  repeat (apply Forall_cons; split; [split; [vm_compute; reflexivity|split; [discriminate|split]]|]);
    try reflexivity; [..|apply Forall_nil; done].
  all: repeat first [apply list_elem_of_here | apply list_elem_of_further].
Qed.

(** The hooks for pooling, long transactions, checkpoints and vacuum settings recommend
    nothing at critical values: each of them stands for the lower of two severities only, so when
    the metric of its rule lies in the upper band, evaluating the hook leaves the engine and its
    table as they are. *)
Theorem hooks_silent_at_critical_values {S M : Type} {RS : RecommendationStore S}
    {MS : MetricSource M} (now : Time) (e : Engine S M) (hook : string) (t : Tiers)
    (inst key : string) (value : float64) (incident : Z) (delta v : float64) :
  (hook, t) ∈ lower_tier_hooks -> en_rules e = compiled_rules ->
  reading t (mkEvalContext inst key value ∅ "" (hook_snapshot now e inst)) = Some v ->
  high_band t v = true ->
  EvaluateHook now e hook inst key value incident delta = (e, None).
Proof.
  intros Hin Hrules Hread Hband. pose proof lower_tier_hooks_rules as H.
  rewrite list.Forall_forall in H. destruct (H _ Hin) as (Hid & Hne & Ht & Hfind).
  cbn [fst snd] in *.
  unfold EvaluateHook. destruct (en_store e) as [s|]; [|done]. cbv zeta.
  rewrite Hid, bool_decide_eq_false_2, Hrules, Hfind by done.
  destruct (ru_Evaluate (t_low t) _) as [res|] eqn:E; [exfalso|done].
  pose proof tiered_bands as Hb. rewrite list.Forall_forall in Hb.
  destruct (Hb t Ht) as (Hab & Hlow & _).
  destruct (proj1 (Hlow _) (mk_is_Some _ _ E)) as (v' & Hv' & Hl). rewrite Hread in Hv'.
  injection Hv' as <-. destruct (bands_split t v Hab) as [Hx _]. rewrite Hl, Hband in Hx.
  discriminate Hx.
Qed.

(** ** Inactive slots *)

Lemma slot_rule_found :
  default "" (HookToRuleID !! HookSlotCleanup) = "rem_repl_slot_inactive" /\
  find_rule compiled_rules "rem_repl_slot_inactive" = Some rem_repl_slot_inactive.
Proof. split; [vm_compute; reflexivity|reflexivity]. Qed.

Lemma slot_rule_not_diagnosed {S M} (e : Engine S M) (inst : string) (snap : MetricSnapshot) :
  en_rules e = compiled_rules -> diagnosed e inst snap "rem_repl_slot_inactive" = None.
Proof.
  intros Hr. destruct (diagnosed e inst snap _) as [r|] eqn:E; [exfalso|done].
  apply diagnosed_some in E as [Hin Hid]. apply elem_of_Diagnose in Hin as (rule & res & Hin & Hev & ->).
  simpl in Hid. rewrite Hr in Hin.
  assert (rule = rem_repl_slot_inactive) as ->; [|discriminate Hev].
  assert (Forall (fun rule => ru_ID rule = "rem_repl_slot_inactive" -> rule = rem_repl_slot_inactive)
            compiled_rules) as H.
  { unfold compiled_rules, pgRules, osRules. repeat (apply Forall_cons; split; [first [reflexivity|discriminate]|]).
    done. }
  rewrite list.Forall_forall in H. by apply H.
Qed.

(** The recommendation about an inactive replication slot does not outlive the next
    background evaluation, however long the slot stays inactive. When the analysis evaluates the
    hook on an inactive slot, a table without that recommendation gets it; the next evaluation of
    the instance resolves it whatever the metrics say, since the rule never fires in a diagnosis. *)
Theorem slot_recommendation_short_lived {M : Type} {SS : SliceSort} {MS : MetricSource M}
    (now : Time) (s : PGStore) (source : option M) (inst : string) (incident : Z)
    (e' : Engine PGStore M) (err : option error) (s1 : PGStore)
    (b : BackgroundEvaluator PGStore M) (v : Visit M) (snap : MetricSnapshot) :
  table_inv s -> active s "rem_repl_slot_inactive" inst = None ->
  EvaluateHook now (mkEngine compiled_rules (Some s) source) HookSlotCleanup inst
    "pg.replication.slot.active" f0 incident f1 = (e', err) ->
  en_store e' = Some s1 ->
  en_rules (be_engine b) = compiled_rules -> calm v -> vi_instanceID v = inst ->
  src_CurrentSnapshot (vi_now v) (vi_metrics v) inst = (snap, None) ->
  is_Some (active s1 "rem_repl_slot_inactive" inst) /\
  active (fst (evaluateInstance b s1 v)) "rem_repl_slot_inactive" inst = None.
Proof.
  intros Hs Hnone Hhook Hs1 Hrules Hv Hinst Hsnap. destruct slot_rule_found as [Hid Hfind].
  assert (table_inv s1) as Hi1.
  { eapply EvaluateHook_inv; [|exact Hs| |exact Hhook|exact Hs1]; [done|exact f1_in_bounds]. }
  split.
  - revert Hhook. unfold EvaluateHook. cbn [en_store en_rules]. cbv zeta.
    rewrite Hid, bool_decide_eq_false_2, Hfind by done. cbn [ru_Evaluate rem_repl_slot_inactive].
    rewrite bool_decide_eq_true_2 by done. change (feq (ec_Value _) (f_of_Z 0)) with true. cbv iota.
    set (rec := recommend _ _ _ _ _ _ _ _). unfold rs_Upsert, PGRecommendationStore, pg_Upsert.
    change (checks_ok _) with true. cbn [negb]. cbv iota.
    change (rec_RuleID rec) with "rem_repl_slot_inactive". change (rec_InstanceID rec) with inst.
    unfold active in Hnone. destruct (active_row s _ inst) as [x|] eqn:E; [done|].
    intros [= <- _]. injection Hs1 as <-.
    match goal with |- context [put_row _ ?r _] => rewrite (active_put_new s r) end.
    + unfold row_active. simpl. rewrite !bool_decide_eq_true_2 by done. by eexists.
    + done.
    + unfold active. simpl. by rewrite E.
    + exact f1_in_bounds.
  - subst inst.
    destruct (evaluateInstance_exact b s1 v snap Hi1) as [H _]; [|done..|].
    + rewrite Hrules. exact compiled_rules_sound.
    + specialize (H "rem_repl_slot_inactive"). by rewrite slot_rule_not_diagnosed in H.
Qed.

(** ** Snapshots *)

Lemma snapshot_of_snoc (l : list MetricPoint) (p : MetricPoint) :
  snapshot_of (l ++ [p]) = <[pt_Metric p := pt_Value p]> (snapshot_of l).
Proof. unfold snapshot_of. by rewrite foldl_app. Qed.

(** The points a snapshot is taken from. *)
Definition in_snapshot (now : Time) (inst : string) (p : MetricPoint) : bool :=
  (bool_decide (inst = "") || bool_decide (pt_InstanceID p = inst))
  && (now - 2 * Minute <=? pt_Timestamp p) && (pt_Timestamp p <=? now).

(** [o] is the value of a point of metric [k] that relates to all the others, if there is one. *)
Definition picks (R : MetricPoint -> MetricPoint -> Prop) (l : list MetricPoint) (k : string)
    (o : option float64) : Prop :=
  match o with
  | None => forall p, p ∈ l -> pt_Metric p <> k
  | Some v => exists p, p ∈ l /\ pt_Metric p = k /\ pt_Value p = v /\
                forall p', p' ∈ l -> pt_Metric p' = k -> R p' p
  end.

Lemma StronglySorted_snoc_inv {A} (R : A -> A -> Prop) (l : list A) (x : A) :
  StronglySorted R (l ++ [x]) -> StronglySorted R l /\ Forall (fun y => R y x) l.
Proof.
  induction l as [|y l IH]; simpl; intros H; [by repeat constructor|].
  apply StronglySorted_inv in H as [H Hy]. destruct (IH H) as [Hl Hx].
  apply Forall_app in Hy as [Hy1 Hy2]. apply Forall_cons in Hy2 as [Hy2 _].
  split; [by constructor|by apply Forall_cons].
Qed.

(** The last point of a metric in a sorted list wins. *)
Lemma snapshot_of_picks (R : MetricPoint -> MetricPoint -> Prop) (l : list MetricPoint) (k : string) :
  (forall p, R p p) -> StronglySorted R l -> picks R l k (snapshot_of l !! k).
Proof.
  intros Hrefl. induction l as [|p l IH] using rev_ind; intros Hs.
  { change (picks R [] k None). intros p Hp. by apply not_elem_of_nil in Hp. }
  apply StronglySorted_snoc_inv in Hs as [Hs Hp]. specialize (IH Hs). rewrite list.Forall_forall in Hp.
  rewrite snapshot_of_snoc. destruct (decide (pt_Metric p = k)) as [Hk|Hk].
  - rewrite Hk, lookup_insert_eq. simpl. exists p. repeat split; try done.
    + apply elem_of_app. right. by left.
    + intros p' [H|H]%elem_of_app _; [by apply Hp|]. by apply list_elem_of_singleton in H as ->.
  - rewrite lookup_insert_ne by done. unfold picks in *. destruct (snapshot_of l !! k) as [v|].
    + destruct IH as (q & Hq & H1 & H2 & H3). exists q. repeat split; try done.
      * apply elem_of_app. by left.
      * intros p' [H|H]%elem_of_app Hm; [by apply H3|].
        apply list_elem_of_singleton in H as ->. done.
    + intros p' [H|H]%elem_of_app; [by apply IH|]. by apply list_elem_of_singleton in H as ->.
Qed.

Lemma picks_filter (R : MetricPoint -> MetricPoint -> Prop) (l l' : list MetricPoint) (k : string) o :
  l ≡ₚ l' -> picks R l k o -> picks R l' k o.
Proof.
  intros Hp. unfold picks. destruct o as [v|].
  - intros (p & H1 & H2 & H3 & H4). exists p. rewrite <- Hp. split; [done|]. split; [done|].
    split; [done|]. intros p' H. rewrite <- Hp in H. by apply H4.
  - intros H p. rewrite <- Hp. apply H.
Qed.

Lemma filter_ext_bool {A} (f g : A -> bool) (l : list A) :
  (forall x, f x = g x) -> List.filter f l = List.filter g l.
Proof. intros H. induction l as [|x l IH]; simpl; [done|]. by rewrite H, IH. Qed.

Section snapshots.
Context {SS : SliceSort} {MR : MapRange}.

Lemma snapshot_start (now : Time) : zero_time < now - 2 * Minute ->
  time_IsZero (time_Add now (- (2 * Minute))) = false /\ time_IsZero now = false.
Proof.
  unfold time_IsZero, time_Add. intros H. assert (0 < Minute) by done.
  split; apply Z.eqb_neq; lia.
Qed.

Lemma wanted_snapshot (now : Time) (inst : string) (p : MetricPoint) :
  zero_time < now - 2 * Minute -> wanted (snapshot_query now inst) p = in_snapshot now inst p.
Proof.
  intros H. destruct (snapshot_start now H) as [H1 H2].
  unfold wanted, pointSelected, in_snapshot. cbn [snapshot_query q_InstanceID q_Metric q_Start q_End q_Labels].
  rewrite H1, H2. unfold time_Before, time_After, time_Add.
  rewrite <- !Z.leb_antisym, (bool_decide_eq_true_2 ("" = "")) by done.
  change (bool_decide (size (∅ : Labels) = 0%nat)) with true.
  rewrite Z.add_opp_r. destruct (_ || _), (_ <=? _), (_ <=? _); done.
Qed.

Lemma rowSelected_snapshot (now : Time) (inst : string) (p : MetricPoint) :
  zero_time < now - 2 * Minute -> rowSelected (snapshot_query now inst) p = in_snapshot now inst p.
Proof.
  intros H. destruct (snapshot_start now H) as [H1 H2].
  unfold rowSelected, in_snapshot. cbn [snapshot_query q_InstanceID q_Metric q_Start q_End q_Labels].
  rewrite H1, H2. unfold time_Add.
  rewrite (bool_decide_eq_true_2 ("" = "")), (bool_decide_eq_true_2 (∅ ⊆ _))
    by (done || apply map_empty_subseteq).
  rewrite Z.add_opp_r. destruct (_ || _), (_ <=? _), (_ <=? _); done.
Qed.

(** The snapshot of current metrics depends on the store. Over the in-memory store it maps
    each metric of the instance to a newest value of the last two minutes, as intended; over the
    SQL table, whose answers come newest first, it maps each metric to an oldest value of the
    last two minutes. In both cases exactly the metrics with a point in the window appear. *)
Theorem current_snapshot_extremes (now : Time) (inst : string) :
  zero_time < now - 2 * Minute ->
  (forall (retention : Duration) (m : MemoryStore) (pts : list MetricPoint),
     mem_run retention m pts -> Forall nulFree pts -> char_free nul inst = true ->
     exists snap, CurrentSnapshot now m inst = (snap, None) /\
       forall k, picks (fun p' p => pt_Timestamp p' <= pt_Timestamp p)
                   (List.filter (in_snapshot now inst) pts) k (snap !! k)) /\
  (forall rows : list MetricPoint,
     exists snap, CurrentSnapshot now (mkPGMetricTable rows) inst = (snap, None) /\
       forall k, picks (fun p' p => pt_Timestamp p <= pt_Timestamp p')
                   (List.filter (in_snapshot now inst) rows) k (snap !! k)).
Proof.
  intros Hnow. split.
  - intros retention m pts Hrun Hn Hi.
    destruct (mem_Query_sorted retention m pts (snapshot_query now inst) Hrun Hn Hi) as (l & Hl & Ho & Hq).
    exists (snapshot_of l). unfold CurrentSnapshot, ms_Query, MemoryMetricStore.
    rewrite Hq. split; [done|]. intros k.
    apply (picks_filter _ l).
    + rewrite Hl. by rewrite (filter_ext_bool _ _ _ (fun p => wanted_snapshot now inst p Hnow)).
    + apply snapshot_of_picks; [lia|exact Ho].
  - intros rows. unfold CurrentSnapshot, ms_Query, PGMetricStore, pgm_Query. cbn [pgm_rows q_Limit snapshot_query].
    change (0 <? 0) with false. cbv iota. eexists. split; [done|]. intros k.
    rewrite <- (filter_ext_bool _ _ _ (fun p => rowSelected_snapshot now inst p Hnow)).
    eapply picks_filter; [apply sort_slice_perm|].
    apply snapshot_of_picks; [lia|].
    eapply StronglySorted_weaken; [|apply sort_slice_sorted].
    + intros a b H. unfold time_After in H. zb. lia.
    + split; unfold time_After; intros *; zb; lia.
Qed.

End snapshots.

(** ** Witnesses and examples *)

#[local] Existing Instance insertion_SliceSort.
#[local] Existing Instance canonical_MapRange.
#[local] Instance fixed_source : MetricSource MetricSnapshot := {|
  src_CurrentSnapshot _ m _ := (m, None)
|}.

Definition alert_ctx (key : string) (v : Z) : EvalContext :=
  mkEvalContext "db1" key (f_of_Z v) ∅ "" ∅.

Definition txn_tiers : Tiers :=
  mkTiers rem_long_txn_warn rem_long_txn_crit "pg.long_transactions.oldest_seconds" id
    (f_of_Z 60) (f_of_Z 300) true.

Lemma txn_tiered : txn_tiers ∈ tiered.
Proof. repeat first [apply list_elem_of_here | apply list_elem_of_further]. Qed.

Lemma severities_partition_witness :
  fires rem_long_txn_warn (alert_ctx "pg.long_transactions.oldest_seconds" 300) /\
  ~ fires rem_long_txn_crit (alert_ctx "pg.long_transactions.oldest_seconds" 300).
Proof.
  destruct (severities_partition txn_tiers (alert_ctx "pg.long_transactions.oldest_seconds" 300)
              txn_tiered) as [Hone _].
  assert (fires rem_long_txn_warn (alert_ctx "pg.long_transactions.oldest_seconds" 300)) as H
    by (eexists; vm_compute; reflexivity).
  split; [exact H|]. intros H'. exact (Hone (conj H H')).
Defined.

Lemma hooks_silent_at_critical_values_witness :
  let e := mkEngine compiled_rules (Some NewPGStore) (None : option MetricSnapshot) in
  EvaluateHook (100 * Second) e HookKillLongTx "db1" "pg.long_transactions.oldest_seconds"
    (f_of_Z 400) 7 f1 = (e, None).
Proof.
  apply (hooks_silent_at_critical_values (100 * Second) _ HookKillLongTx txn_tiers "db1"
           "pg.long_transactions.oldest_seconds" (f_of_Z 400) 7 f1 (f_of_Z 400)).
  - apply list_elem_of_further, list_elem_of_here.
  - reflexivity.
  - reflexivity.
  - vm_compute. reflexivity.
Defined.

Definition slot_hooked : Engine PGStore MetricSnapshot :=
  fst (EvaluateHook (100 * Second) (mkEngine compiled_rules (Some NewPGStore) None) HookSlotCleanup
         "db1" "pg.replication.slot.active" f0 7 f1).

Definition quiet_visit : Visit MetricSnapshot := mkVisit "db1" false (200 * Second) ∅ false unlost.

Lemma slot_recommendation_short_lived_witness :
  exists s1, en_store slot_hooked = Some s1 /\
    is_Some (active s1 "rem_repl_slot_inactive" "db1") /\
    active (fst (evaluateInstance (NewBackgroundEvaluator (S := PGStore) NewEngine Hour 30) s1 quiet_visit))
      "rem_repl_slot_inactive" "db1" = None.
Proof.
  destruct (en_store slot_hooked) as [s1|] eqn:E; [|vm_compute in E; discriminate E].
  exists s1. split; [reflexivity|].
  apply (slot_recommendation_short_lived (M := MetricSnapshot) (100 * Second) NewPGStore None "db1" 7
           slot_hooked None s1 (NewBackgroundEvaluator (S := PGStore) NewEngine Hour 30) quiet_visit ∅).
  - apply empty_inv.
  - reflexivity.
  - unfold slot_hooked. destruct (EvaluateHook _ _ _ _ _ _ _ _) as [e' [err|]] eqn:E'; [|reflexivity].
    exfalso. apply (f_equal snd) in E'. vm_compute in E'. discriminate E'.
  - exact E.
  - reflexivity.
  - repeat constructor.
  - reflexivity.
  - reflexivity.
Defined.

Definition reading_at (t v : Z) : MetricPoint :=
  mkPoint "db1" "pg.locks.blocked_count" (f_of_Z v) ∅ (t * Second).

Lemma current_snapshot_extremes_witness :
  exists snap, CurrentSnapshot (600 * Second) (mkPGMetricTable [reading_at 500 3; reading_at 590 0])
                 "db1" = (snap, None) /\ snap !! "pg.locks.blocked_count" = Some (f_of_Z 3).
Proof.
  destruct (current_snapshot_extremes (600 * Second) "db1") as [_ H]; [reflexivity|].
  destruct (H [reading_at 500 3; reading_at 590 0]) as (snap & Hs & Hk).
  exists snap. split; [exact Hs|]. specialize (Hk "pg.locks.blocked_count").
  unfold picks in Hk. destruct (snap !! _) as [v|].
  - destruct Hk as (p & Hp & _ & <- & Hle).
    assert (reading_at 500 3 ∈ List.filter (in_snapshot (600 * Second) "db1")
              [reading_at 500 3; reading_at 590 0]) as H3 by apply list_elem_of_here.
    pose proof (Hle _ H3 eq_refl) as Ht.
    change (p ∈ [reading_at 500 3; reading_at 590 0]) in Hp.
    apply elem_of_cons in Hp as [->|Hp]; [reflexivity|].
    apply list_elem_of_singleton in Hp as ->. exfalso. apply Ht. reflexivity.
  - exfalso. exact (Hk _ (list_elem_of_here _ _) eq_refl).
Defined.

(** An alert is given the recommendations of every rule that fires on the snapshot, under the
    metric and the value of the alert. *)
Example alert_gets_unrelated_recommendation :
  map (fun r => (rec_RuleID r, rec_MetricKey r))
    (EvaluateMetric (S := NullStore) (M := MetricSnapshot) NewEngine "db1" "pg.locks.blocked_count"
       (f_of_Z 2) ∅ "warning" {["pg.cache.hit_ratio" := f_of_Z 80]})
  = [("rem_cache_low", "pg.locks.blocked_count"); ("rem_locks_blocking", "pg.locks.blocked_count")].
Proof. vm_compute. reflexivity. Qed.

(** A recommendation of the background evaluator has urgency 0 whatever its priority. *)
Example background_urgency_zero :
  map (fun kv => (rec_Priority (snd kv), rec_UrgencyScore (snd kv)))
    (map_to_list (tbl_rows (fst (evaluateInstance
       (NewBackgroundEvaluator (S := NullStore) NewEngine Hour 30) NewPGStore
       (mkVisit "db1" false (100 * Second)
          ({["pg.connections.utilization_pct" := f_of_Z 99]} : MetricSnapshot) false unlost)))))
  = [("action_required", f0)].
Proof. vm_compute. reflexivity. Qed.

(** An acknowledgement is lost with age although its rule keeps firing: the cleanup of one cycle
    deletes the active row, the next cycle inserts it again without the acknowledgement. *)
Example acknowledgement_lost :
  let b := NewBackgroundEvaluator (S := NullStore) NewEngine Hour 30 in
  let day := 24 * Hour in
  let m := {["pg.connections.utilization_pct" := f_of_Z 99]} : MetricSnapshot in
  let cycle t s := runCycle t b s (Some [mkVisit "db1" false t m false unlost]) in
  let s1 := fst (pg_Acknowledge (day + 1) (cycle day NewPGStore) 1 "alice") in
  let shown s := map (fun kv => rec_AcknowledgedBy (snd kv)) (map_to_list (tbl_rows s)) in
  shown (cycle (30 * day) s1) = ["alice"] /\ shown (cycle (32 * day) s1) = [] /\
  shown (cycle (33 * day) (cycle (32 * day) s1)) = [""].
Proof. vm_compute. done. Qed.
