(* ===== verification/SqlConn.v ===== *)
(** * Connections to a monitored instance

    The driver (pgx) is not part of the repository: class [Driver] gives its cells and what
    Scan makes of one cell for each destination type; a connection is what it answers to a
    query, the rows that arrive and the error after them. [query_row] and [query_loop] are the
    two ways the code reads an answer. Contexts with their deadlines are left out: a query that
    takes too long is one that answers an error. *)
From S2P Require Import Prelude Float64.

Local Open Scope Z_scope.

Class Driver := {
  Cell : Type;
  cell_null : Cell -> bool;
  scan_string : Cell -> result string;
  scan_int : Cell -> result Z;
  scan_float : Cell -> result float64;
  scan_bool : Cell -> result bool;
  scan_time : Cell -> result Time;
  scan_ints : Cell -> result (list Z);
  scan_strings : Cell -> result (list string);
  scan_count_error : error;
  err_no_rows : error
}.

(** Query arguments. *)
Inductive arg :=
  | AText (s : string)
  | AInt (z : Z)
  | AFloat (x : float64).

(** The answer to a query: the rows that arrived and what [rows.Err] says after them. *)
Abbreviation answer := (list (list Cell) * option error)%type (only parsing).

Definition Conn `{Driver} : Type := string -> list arg -> result answer.

(** A column of type timestamptz keeps microseconds. *)
Definition pg_time (t : Time) : Time := t / 1000 * 1000.

(** [($n = '' OR column = $n)]. *)
Definition opt_filter (wanted actual : string) : bool :=
  String.eqb wanted "" || String.eqb actual wanted.

(** [fmt.Errorf("p: %w", e)]. *)
Definition wrap (p : string) (e : error) : error := p +:+ ": " +:+ e.

Section Scan.
Context `{DR : Driver}.

(** A list of destinations reads the cells of a row from left to right. *)
Definition Scanner (A : Type) : Type := list Cell -> result (A * list Cell).

#[global] Instance scanner_ret : MRet Scanner := fun A a cells => Ok (a, cells).
#[global] Instance scanner_bind : MBind Scanner := fun A B f s cells =>
  match s cells with
  | Ok (a, rest) => f a rest
  | Err e => Err e
  end.

(** One destination of a type read by [f]; a pointer or sql.Null destination takes a NULL. *)
Definition dest {A} (f : Cell -> result A) : Scanner A := fun cells =>
  match cells with
  | c :: rest => match f c with Ok a => Ok (a, rest) | Err e => Err e end
  | [] => Err scan_count_error
  end.

Definition nullable {A} (f : Cell -> result A) (c : Cell) : result (option A) :=
  if cell_null c then Ok None else match f c with Ok a => Ok (Some a) | Err e => Err e end.

Definition str : Scanner string := dest scan_string.
Definition int64 : Scanner Z := dest scan_int.
Definition float : Scanner float64 := dest scan_float.
Definition boolean : Scanner bool := dest scan_bool.
Definition ostr : Scanner (option string) := dest (nullable scan_string).
Definition oint : Scanner (option Z) := dest (nullable scan_int).
Definition ofloat : Scanner (option float64) := dest (nullable scan_float).
Definition otime : Scanner (option Time) := dest (nullable scan_time).
Definition ints : Scanner (list Z) := dest scan_ints.

(** A text array into a slice: NULL reads as the nil slice. *)
Definition strs : Scanner (list string) :=
  l ← dest (nullable scan_strings); mret (default [] l).

(** Several destinations of one type, in order. *)
Fixpoint many {A} (s : Scanner A) (n : nat) : Scanner (list A) :=
  match n with
  | O => mret []
  | S n' => x ← s; xs ← many s n'; mret (x :: xs)
  end.

(** [rows.Scan]: the destinations must be as many as the columns. *)
Definition Scan {A} (s : Scanner A) (row : list Cell) : result A :=
  match s row with
  | Ok (a, []) => Ok a
  | Ok (_, _ :: _) => Err scan_count_error
  | Err e => Err e
  end.

(** [conn.QueryRow(ctx, sql, args).Scan(dests)]: the first row; without one, the error of the
    rows or [pgx.ErrNoRows]. *)
Definition query_row {A} (conn : Conn) (sql : string) (args : list arg) (s : Scanner A) : result A :=
  match conn sql args with
  | Err e => Err e
  | Ok (rows, re) =>
      match rows with
      | [] => Err (default err_no_rows re)
      | row :: _ =>
          match Scan s row with
          | Err e => Err e
          | Ok a => match re with Some e => Err e | None => Ok a end
          end
      end
  end.

(** The loop [for rows.Next() { rows.Scan(...); body }]: a failing Scan ends it with the error
    that [serr] makes of it, the body may end it with an error of its own. *)
Fixpoint rows_loop {R A} (s : Scanner R) (serr : error -> error) (body : A -> R -> result A)
    (acc : A) (rows : list (list Cell)) : result A :=
  match rows with
  | [] => Ok acc
  | row :: rows' =>
      match Scan s row with
      | Err e => Err (serr e)
      | Ok r => match body acc r with
                | Err e => Err e
                | Ok acc' => rows_loop s serr body acc' rows'
                end
      end
  end.

(** A query, the loop over its rows, and [rows.Err] after it; [qerr], [serr] and [rerr] wrap the
    three errors. *)
Definition query_loop {R A} (conn : Conn) (sql : string) (args : list arg) (s : Scanner R)
    (qerr serr rerr : error -> error) (body : A -> R -> result A) (acc : A) : result A :=
  match conn sql args with
  | Err e => Err (qerr e)
  | Ok (rows, re) =>
      match rows_loop s serr body acc rows with
      | Err e => Err e
      | Ok a => match re with Some e => Err (rerr e) | None => Ok a end
      end
  end.

(** A loop whose body only collects rows. *)
Definition query_rows {R} (conn : Conn) (sql : string) (args : list arg) (s : Scanner R)
    (qerr serr rerr : error -> error) : result (list R) :=
  query_loop conn sql args s qerr serr rerr (fun acc r => Ok (acc ++ [r])) [].

(** A loop that goes on after a failing Scan. The driver closes the rows when a Scan fails: no
    row follows, and [rows.Err] is that error. *)
Fixpoint scan_prefix {R} (s : Scanner R) (rows : list (list Cell)) : list R * option error :=
  match rows with
  | [] => ([], None)
  | row :: rows' =>
      match Scan s row with
      | Err e => ([], Some e)
      | Ok r => let (l, e) := scan_prefix s rows' in (r :: l, e)
      end
  end.

(** The rows such a loop collects, and what [rows.Err] says after it. *)
Definition query_skip {R} (conn : Conn) (sql : string) (args : list arg) (s : Scanner R)
    : result (list R * option error) :=
  match conn sql args with
  | Err e => Err e
  | Ok (rows, re) =>
      let (l, se) := scan_prefix s rows in Ok (l, match se with Some e => Some e | None => re end)
  end.

(** ** Lemmas *)

Lemma rows_loop_inv {R A} (P : A -> Prop) (s : Scanner R) serr (body : A -> R -> result A) rows :
  forall acc a, (forall acc r acc', P acc -> body acc r = Ok acc' -> P acc') ->
  P acc -> rows_loop s serr body acc rows = Ok a -> P a.
Proof.
  induction rows as [|row rows IH]; intros acc a Hb Hacc; cbn [rows_loop]; [by intros [= <-]|].
  destruct (Scan s row) as [r|e]; [|done].
  destruct (body acc r) as [acc'|e] eqn:E; [|done]. intros H. apply (IH acc' a Hb); [by apply (Hb acc r)|done].
Qed.

Lemma query_loop_inv {R A} (P : A -> Prop) conn sql args (s : Scanner R) qerr serr rerr
    (body : A -> R -> result A) acc a :
  (forall acc r acc', P acc -> body acc r = Ok acc' -> P acc') -> P acc ->
  query_loop conn sql args s qerr serr rerr body acc = Ok a -> P a.
Proof.
  intros Hb Hacc. unfold query_loop. destruct (conn sql args) as [[rows re]|]; [|done].
  destruct (rows_loop s serr body acc rows) as [x|] eqn:E; [|done].
  destruct re; [done|]. intros [= <-]. by apply (rows_loop_inv P s serr body rows acc).
Qed.

Lemma rows_loop_collect {R} (s : Scanner R) serr rows : forall acc,
  rows_loop s serr (fun acc r => Ok (acc ++ [r])) acc rows
    = match rows_loop s serr (fun acc r => Ok (acc ++ [r])) [] rows with
      | Ok l => Ok (acc ++ l)
      | Err e => Err e
      end.
Proof.
  induction rows as [|row rows IH]; intros acc; cbn [rows_loop app]; [by rewrite app_nil_r|].
  destruct (Scan s row) as [r|e]; [|done]. rewrite IH, (IH [r]).
  destruct (rows_loop _ _ _ [] rows); [|done]. by rewrite <- app_assoc.
Qed.

End Scan.

(** ** A concrete driver, for examples: every cell says what it is *)

Inductive pgcell :=
  | CNull
  | CText (s : string)
  | CInt (z : Z)
  | CFloat (f : float64)
  | CBool (b : bool)
  | CTime (t : Time)
  | CInts (l : list Z)
  | CTexts (l : list string).

Definition cell_driver : Driver := {|
  Cell := pgcell;
  cell_null := fun c => match c with CNull => true | _ => false end;
  scan_string := fun c => match c with CText s => Ok s | _ => Err "cannot scan into string" end;
  scan_int := fun c => match c with CInt z => Ok z | _ => Err "cannot scan into int64" end;
  scan_float := fun c => match c with
    | CFloat f => Ok f | CInt z => Ok (f_of_Z z) | _ => Err "cannot scan into float64" end;
  scan_bool := fun c => match c with CBool b => Ok b | _ => Err "cannot scan into bool" end;
  scan_time := fun c => match c with CTime t => Ok t | _ => Err "cannot scan into time" end;
  scan_ints := fun c => match c with CInts l => Ok l | _ => Err "cannot scan into array" end;
  scan_strings := fun c => match c with CTexts l => Ok l | _ => Err "cannot scan into array" end;
  scan_count_error := "number of field descriptions must equal number of destinations";
  err_no_rows := "no rows in result set"
|}.
