(* ===== verification/Collector.v ===== *)
(** * What all collectors share

    Models internal/collector/base.go and registry.go: the fields of a collector, the points it
    makes, the check for pg_stat_statements, the registry that runs collectors in a row; and the
    bookkeeping of the collectors' theorems: which metric names a collection can produce.
    The clock does not advance within one collection. *)
From S2P Require Import Prelude Float64 Metric GoText SqlConn.

Local Open Scope Z_scope.

(** * PostgreSQL versions and the gate of SQL variants

    Models internal/version: the detected version, ranges of versions, and the selection of the
    SQL text that fits a version. *)

Record PGVersion := mkVersion {
  v_Major : Z;
  v_Minor : Z;
  v_Num : Z;
  v_Full : string
}.

Definition AtLeast (v : PGVersion) (major minor : Z) : bool :=
  if negb (v_Major v =? major) then major <? v_Major v else minor <=? v_Minor v.

Record VersionRange := mkRange {
  rg_MinMajor : Z;
  rg_MinMinor : Z;
  rg_MaxMajor : Z;
  rg_MaxMinor : Z
}.

Definition range_Contains (r : VersionRange) (v : PGVersion) : bool :=
  if negb (AtLeast v (rg_MinMajor r) (rg_MinMinor r)) then false
  else if rg_MaxMajor r =? 0 then true
  else if rg_MaxMajor r <? v_Major v then false
  else if (v_Major v =? rg_MaxMajor r) && (rg_MaxMinor r <? v_Minor v) then false
  else true.

Record SQLVariant := mkVariant { sv_Range : VersionRange; sv_SQL : string }.

Record Gate := mkGate { g_Name : string; g_Variants : list SQLVariant }.

(** The first variant whose range holds the version. *)
Fixpoint select_variant (variants : list SQLVariant) (v : PGVersion) : option string :=
  match variants with
  | [] => None
  | x :: rest => if range_Contains (sv_Range x) v then Some (sv_SQL x) else select_variant rest v
  end.

Definition Select (g : Gate) (v : PGVersion) : option string := select_variant (g_Variants g) v.

(** [num / 10000] and [num % 10000 / 100] truncate towards zero. *)
Definition version_of_num (num : Z) (full : string) : PGVersion :=
  mkVersion (Z.quot num 10000) (Z.quot (Z.rem num 10000) 100) num full.

Definition Detect `{DR : Driver} (conn : Conn) : result PGVersion :=
  match query_row conn "SHOW server_version_num" [] str with
  | Err e => Err (wrap "detect PG version num" e)
  | Ok numStr =>
      match query_row conn "SHOW server_version" [] str with
      | Err e => Err (wrap "detect PG version full" e)
      | Ok full =>
          match Atoi numStr with
          | (_, Some e) => Err (wrap "parse server_version_num" e)
          | (num, None) => Ok (version_of_num num full)
          end
      end
  end.

(** ** Lemmas *)

(** The lexicographic order that [AtLeast] tests. *)
Definition version_le (a b c d : Z) : Prop := a < c \/ (a = c /\ b <= d).

Lemma AtLeast_spec v major minor :
  AtLeast v major minor = true <-> version_le major minor (v_Major v) (v_Minor v).
Proof.
  unfold AtLeast, version_le. destruct (Z.eqb_spec (v_Major v) major); cbn [negb].
  - rewrite Z.leb_le. lia.
  - rewrite Z.ltb_lt. lia.
Qed.

Lemma range_Contains_spec r v :
  range_Contains r v = true <->
  version_le (rg_MinMajor r) (rg_MinMinor r) (v_Major v) (v_Minor v) /\
  (rg_MaxMajor r = 0 \/ version_le (v_Major v) (v_Minor v) (rg_MaxMajor r) (rg_MaxMinor r)).
Proof.
  unfold range_Contains. rewrite <- AtLeast_spec. unfold version_le.
  destruct (AtLeast _ _ _); cbn [negb]; [|by split; [|intros []]].
  destruct (Z.eqb_spec (rg_MaxMajor r) 0); [by split; auto|].
  destruct (Z.ltb_spec (rg_MaxMajor r) (v_Major v)).
  { split; [done|]. intros [_ [|]]; lia. }
  destruct (Z.eqb_spec (v_Major v) (rg_MaxMajor r)); cbn [andb].
  - destruct (Z.ltb_spec (rg_MaxMinor r) (v_Minor v)).
    + split; [done|]. intros [_ [|]]; lia.
    + split; [|done]. intros _. split; [done|]. right. lia.
  - split; [|done]. intros _. split; [done|]. right. lia.
Qed.

Lemma Select_spec g v s :
  Select g v = Some s <->
  exists pre x post, g_Variants g = pre ++ x :: post /\ sv_SQL x = s /\
    range_Contains (sv_Range x) v = true /\
    Forall (fun y => range_Contains (sv_Range y) v = false) pre.
Proof.
  unfold Select. induction (g_Variants g) as [|y l IH]; cbn [select_variant].
  - split; [done|]. intros (pre & x & post & H & _). by destruct pre.
  - destruct (range_Contains (sv_Range y) v) eqn:E.
    + split.
      * intros [= <-]. by exists [], y, l.
      * intros ([|z pre] & x & post & [= -> ->] & <- & Hx & Hpre); [done|].
        apply Forall_cons in Hpre as [Hz _]. congruence.
    + rewrite IH. split.
      * intros (pre & x & post & -> & ? & ? & ?). exists (y :: pre), x, post.
        repeat split; try done. by constructor.
      * intros ([|z pre] & x & post & [= -> ->] & Hs & Hx & Hpre); [congruence|].
        apply Forall_cons in Hpre as [_ Hpre]. by exists pre, x, post.
Qed.

Record Base := mkBase {
  b_instanceID : string;
  b_pgVersion : PGVersion;
  b_interval : Duration
}.

Definition newBase (instanceID : string) (v : PGVersion) (interval : Duration) : Base :=
  mkBase instanceID v interval.

(** What the orchestrator learns about the instance once per cycle. *)
Record InstanceContext := mkIC { ic_IsRecovery : bool }.

(** [c.point(metric, value, labels)]. *)
Definition point (now : Time) (c : Base) (metric : string) (value : float64) (labels : Labels)
    : MetricPoint := Base_point (b_instanceID c) metric value labels now.

(** A map literal of labels; the keys of the code's literals are distinct. *)
Definition labels_of (l : list (string * string)) : Labels := list_to_map l.

Definition bool_value (b : bool) : float64 := if b then f1 else f0.

Definition sqlPgssAvailable : string :=
  "SELECT EXISTS(SELECT 1 FROM pg_extension WHERE extname = 'pg_stat_statements')".

Definition pgssAvailable `{DR : Driver} (conn : Conn) : result bool :=
  match query_row conn sqlPgssAvailable [] boolean with
  | Err e => Err (wrap "check pgss availability" e)
  | Ok b => Ok b
  end.

(** [Registry.CollectAll]: a failed collector contributes nothing and stops nothing. *)
Definition CollectAll {C : Type} (collect : C -> C * result (list MetricPoint)) (cs : list C)
    : list C * list MetricPoint :=
  foldl (fun acc c =>
    let (c', r) := collect c in
    match r with
    | Ok points => (acc.1 ++ [c'], acc.2 ++ points)
    | Err _ => (acc.1 ++ [c'], acc.2)
    end) ([], []) cs.

(** ** Which metrics a collection produces *)

(** All points are of instance [id] and their metrics are among [names]. *)
Definition of_metrics (id : string) (names : list string) (points : list MetricPoint) : Prop :=
  Forall (fun p => mem (pt_Metric p) names = true /\ pt_InstanceID p = id) points.

Definition emits (id : string) (names : list string) (r : result (list MetricPoint)) : Prop :=
  forall points, r = Ok points -> of_metrics id names points.

Lemma of_metrics_nil id names : of_metrics id names [].
Proof. constructor. Qed.

Lemma of_metrics_app id names p q :
  of_metrics id names p -> of_metrics id names q -> of_metrics id names (p ++ q).
Proof. apply Forall_app_2. Qed.

Lemma of_metrics_cons id names p q :
  mem (pt_Metric p) names = true -> pt_InstanceID p = id -> of_metrics id names q ->
  of_metrics id names (p :: q).
Proof. intros H1 H2 H3. by constructor. Qed.

Lemma of_metrics_weaken id names names' p :
  forallb (fun n => mem n names') names = true -> of_metrics id names p -> of_metrics id names' p.
Proof.
  intros Hs Hp. eapply list.Forall_impl; [exact Hp|]. intros q [Hm Hi]. split; [|done].
  rewrite forallb_forall in Hs. apply Hs, list_elem_of_In. by apply mem_spec.
Qed.

Lemma emits_ok id names p : of_metrics id names p -> emits id names (Ok p).
Proof. by intros H q [= <-]. Qed.

Lemma emits_err id names e : emits id names (Err e).
Proof. done. Qed.

Lemma emits_query_loop `{DR : Driver} id names conn sql args {R} (s : Scanner R) qerr serr rerr
    (body : list MetricPoint -> R -> result (list MetricPoint)) acc :
  (forall acc r, of_metrics id names acc -> emits id names (body acc r)) ->
  of_metrics id names acc ->
  emits id names (query_loop conn sql args s qerr serr rerr body acc).
Proof.
  intros Hb Hacc points H.
  refine (query_loop_inv (of_metrics id names) _ _ _ _ _ _ _ body acc points _ Hacc H).
  intros a r a' Ha Hr. by apply (Hb a r Ha).
Qed.

Lemma of_metrics_foldl {A} id names (f : list MetricPoint -> A -> list MetricPoint) (l : list A) acc :
  (forall acc x, of_metrics id names acc -> of_metrics id names (f acc x)) ->
  of_metrics id names acc -> of_metrics id names (foldl f acc l).
Proof. intros Hf. apply foldl_inv. intros a x _. apply Hf. Qed.

Lemma of_metrics_map {A} id names (f : A -> MetricPoint) (l : list A) :
  (forall x, mem (pt_Metric (f x)) names = true /\ pt_InstanceID (f x) = id) ->
  of_metrics id names (map f l).
Proof. intros Hf. induction l; constructor; auto. Qed.

(** Walks through a collection: every branch ends in an error, or in a list of points whose
    names are computed to be among those expected. *)
Ltac emits_step :=
  match goal with
  | |- emits _ _ (Err _) => apply emits_err
  | |- emits _ _ (Ok _) => apply emits_ok
  | |- emits _ _ (match ?x with _ => _ end) => destruct x
  | |- emits _ _ (if ?x then _ else _) => destruct x
  | |- emits _ _ (query_loop _ _ _ _ _ _ _ _ _) => apply emits_query_loop
  | |- forall _, _ => intros
  | H : of_metrics _ _ ?p |- of_metrics _ _ ?p => exact H
  | |- of_metrics _ _ [] => apply of_metrics_nil
  | |- of_metrics _ _ (_ ++ _) => apply of_metrics_app
  | |- of_metrics _ _ (match ?x with _ => _ end :: _) => destruct x
  | |- of_metrics _ _ (_ :: _) =>
      apply of_metrics_cons; [vm_compute; reflexivity|reflexivity|]
  | |- of_metrics _ _ (match ?x with _ => _ end) => destruct x
  | |- of_metrics _ _ (if ?x then _ else _) => destruct x
  | |- of_metrics _ _ (foldl _ _ _) => apply of_metrics_foldl
  | |- of_metrics _ _ (map _ _) =>
      apply of_metrics_map; intros; split; [vm_compute; reflexivity|reflexivity]
  | |- of_metrics _ _ (let _ := _ in _) => cbv zeta
  | |- emits _ _ (let _ := _ in _) => cbv zeta
  end.

Ltac emits_tac := repeat emits_step.
