(* ===== verification/LockTree.v ===== *)
(** * The lock tree collector

    Models internal/collector/lock_tree.go: from the pairs (blocked, blocker) that the server
    reports, how many sessions block without being blocked, how many are blocked, and how deep
    the tree below a root blocker is. The depth is computed by a breadth-first search over
    nested maps, whose iteration order is unknown. *)
From S2P Require Import Prelude Float64 Metric SqlConn Collector.

Local Open Scope Z_scope.

(** * Breadth-first search

    The theory shared by the two searches of the code over blocked sessions
    (internal/collector/lock_tree.go and internal/api/handler_locks.go). Both keep a queue of
    vertices with depths; one marks a vertex when it is queued, the other when it is taken.
    [bfs_inv] is an invariant that covers both: [D] lists the vertices taken so far with the
    depth they got, [q] is the queue. When the queue is empty, the vertices of [D] are those that
    can be reached and their depths are their distances from the roots. *)

(** Vertices with depths. *)
Abbreviation items := (list (Z * Z)).

Section Bfs.
Context (root : Z -> Prop) (step : Z -> Z -> Prop).

(** A walk of [n] steps from a root to [v]. *)
Inductive walk : Z -> Z -> Prop :=
  | walk_root r : root r -> walk 0 r
  | walk_step n u v : walk n u -> step u v -> walk (n + 1) v.

Definition reachable (v : Z) : Prop := exists n, walk n v.

(** [v] is at distance [d]: a walk of [d] steps reaches it and none is shorter. *)
Definition distance (d v : Z) : Prop := walk d v /\ forall m, walk m v -> d <= m.

Lemma walk_nonneg n v : walk n v -> 0 <= n.
Proof. induction 1; lia. Qed.

Lemma distance_unique d e v : distance d v -> distance e v -> d = e.
Proof. intros [Hd Hmd] [He Hme]. specialize (Hmd _ He). specialize (Hme _ Hd). lia. Qed.

Record bfs_inv (D q : items) : Prop := {
  bi_done : forall v d, (v, d) ∈ D -> distance d v;
  bi_queue : forall v d, (v, d) ∈ q -> walk d v;
  bi_sorted : StronglySorted (fun x y => x.2 <= y.2) q;
  bi_span : forall x y, x ∈ q -> y ∈ q -> y.2 <= x.2 + 1;
  bi_low : forall m v, walk m v -> (forall x, x ∈ q -> m < x.2) -> v ∈ D.*1;
  bi_closed : forall u d c, (u, d) ∈ D -> step u c ->
    c ∈ D.*1 \/ exists e, (c, e) ∈ q /\ e <= d + 1;
  bi_roots : forall r, root r -> r ∈ D.*1 \/ (r, 0) ∈ q
}.

Lemma elem_fst {A} (D : list (Z * A)) v : v ∈ D.*1 <-> exists d, (v, d) ∈ D.
Proof.
  rewrite list_elem_of_fmap. split.
  - intros ([w d] & -> & H). by exists d.
  - intros [d H]. by exists (v, d).
Qed.

Lemma bfs_inv_init (rs : list Z) :
  (forall r, root r <-> r ∈ rs) -> bfs_inv [] (map (fun r => (r, 0)) rs).
Proof.
  intros Hrs.
  assert (Hq : forall x, x ∈ map (fun r => (r, 0)) rs -> root x.1 /\ x.2 = 0).
  { intros x (r & -> & Hr)%list_elem_of_fmap. by rewrite Hrs. }
  split; try (by intros ? ? H; apply not_elem_of_nil in H).
  - intros v d [Hr Hd]%Hq. cbn in *. subst d. by constructor.
  - clear Hq Hrs. induction rs as [|r rs IH]; constructor; [done|].
    apply list.Forall_forall. intros x (r' & -> & _)%list_elem_of_fmap. cbn. lia.
  - intros x y [_ Hx]%Hq [_ Hy]%Hq. lia.
  - intros m v Hw Hlow. exfalso.
    assert (exists r, root r) as [r Hr] by (clear Hlow; induction Hw; eauto).
    assert ((r, 0) ∈ map (fun r => (r, 0)) rs) as Hin by (apply list_elem_of_fmap; exists r; split; [done|by apply Hrs]).
    specialize (Hlow _ Hin). cbn in Hlow. pose proof (walk_nonneg _ _ Hw). lia.
  - intros u d c H. by apply not_elem_of_nil in H.
  - intros r Hr. right. apply list_elem_of_fmap. exists r. split; [done|by apply Hrs].
Qed.

(** Everything a walk of at most the first item's depth reaches has been taken or is queued at
    no more than that depth. *)
Lemma bfs_frontier D v d q m w :
  bfs_inv D ((v, d) :: q) -> walk m w -> m <= d ->
  w ∈ D.*1 \/ exists e, (w, e) ∈ (v, d) :: q /\ e <= m.
Proof.
  intros I Hw Hm. destruct Hw as [r Hr|n u w Hu Hs].
  - destruct (bi_roots _ _ I r Hr) as [|H]; [by left|]. right. by exists 0.
  - assert (u ∈ D.*1) as [k Hk]%elem_fst.
    { apply (bi_low _ _ I n u Hu). intros x Hx.
      pose proof (bi_sorted _ _ I) as Hso. apply StronglySorted_inv in Hso as [_ Hso].
      rewrite list.Forall_forall in Hso. apply elem_of_cons in Hx as [->|Hx]; cbn; [lia|].
      specialize (Hso x Hx). cbn in Hso. lia. }
    destruct (bi_closed _ _ I u k w Hk Hs) as [|(e & He & Hle)]; [by left|]. right. exists e.
    split; [done|]. pose proof (bi_done _ _ I u k Hk) as [_ Hmin]. specialize (Hmin _ Hu). lia.
Qed.

(** When the front vertex [v] is taken off the queue (and is or becomes part of [D']), whatever
    walks shorter than the rest of the queue reach is in [D']. *)
Lemma bfs_low_pop (D D' : items) v d (q q' : items) :
  bfs_inv D ((v, d) :: q) -> (forall w, w ∈ D.*1 -> w ∈ D'.*1) -> v ∈ D'.*1 ->
  (forall x, x ∈ q -> x ∈ q') ->
  (forall u e c, (u, e) ∈ D' -> step u c -> c ∈ D'.*1 \/ exists k, (c, k) ∈ q' /\ k <= e + 1) ->
  (forall x, x ∈ q' -> x.2 <= d + 1) -> (forall u e, (u, e) ∈ D' -> distance e u) ->
  forall m w, walk m w -> (forall x, x ∈ q' -> m < x.2) -> w ∈ D'.*1.
Proof.
  intros I HD Hv Hq Hcl Hspan Hex m w Hw. induction Hw as [r Hr|n u w Hu IH Hs]; intros Hlow.
  - destruct (bi_roots _ _ I r Hr) as [|[[= -> _]|H]%elem_of_cons]; [by apply HD|done|].
    specialize (Hlow _ (Hq _ H)). cbn in Hlow. lia.
  - assert (u ∈ D'.*1) as [k Hk]%elem_fst.
    { apply IH. intros x Hx. specialize (Hlow x Hx). lia. }
    destruct (Hcl u k w Hk Hs) as [|(e & He & Hle)]; [done|].
    pose proof (Hex _ _ Hk) as [_ Hmin]. specialize (Hmin _ Hu).
    specialize (Hlow _ He). cbn in Hlow. lia.
Qed.

Lemma bfs_inv_tail_sorted D v d q : bfs_inv D ((v, d) :: q) ->
  StronglySorted (fun x y => x.2 <= y.2) q /\ forall x, x ∈ q -> d <= x.2 <= d + 1.
Proof.
  intros I. pose proof (bi_sorted _ _ I) as [Hso Hle]%StronglySorted_inv.
  split; [done|]. intros x Hx. rewrite list.Forall_forall in Hle. split; [by apply (Hle x)|].
  apply (bi_span _ _ I (v, d) x); [by left|by right].
Qed.

(** The front vertex was taken before: it is dropped. *)
Lemma bfs_skip D v d q : bfs_inv D ((v, d) :: q) -> v ∈ D.*1 -> bfs_inv D q.
Proof.
  intros I Hv. pose proof (bfs_inv_tail_sorted _ _ _ _ I) as [Hso Hspan].
  assert (Hcl : forall u e c, (u, e) ∈ D -> step u c ->
            c ∈ D.*1 \/ exists k, (c, k) ∈ q /\ k <= e + 1).
  { intros u e c Hu Hs. destruct (bi_closed _ _ I u e c Hu Hs) as [|(k & Hk & Hle)]; [by left|].
    apply elem_of_cons in Hk as [[= -> ->]|Hk]; [by left|right; eauto]. }
  split.
  - apply (bi_done _ _ I).
  - intros w e Hw. apply (bi_queue _ _ I). by right.
  - done.
  - intros x y Hx Hy. apply (bi_span _ _ I); by right.
  - apply (bfs_low_pop D D v d q q I); try done; [|apply (bi_done _ _ I)].
    intros x Hx. specialize (Hspan x Hx). lia.
  - done.
  - intros r Hr. destruct (bi_roots _ _ I r Hr) as [|[[= -> _]|H]%elem_of_cons]; auto.
Qed.

(** The front vertex is taken; [cs] are the neighbours that are queued for it: all those neither
    taken nor queued already. *)
Lemma bfs_visit D v d q cs :
  bfs_inv D ((v, d) :: q) -> v ∉ D.*1 ->
  (forall c, c ∈ cs -> step v c) ->
  (forall c, step v c -> c ∈ cs \/ c = v \/ c ∈ D.*1 \/ c ∈ q.*1) ->
  bfs_inv (D ++ [(v, d)]) (q ++ map (fun c => (c, d + 1)) cs).
Proof.
  intros I Hv Hcs Hall. pose proof (bfs_inv_tail_sorted _ _ _ _ I) as [Hso Hspan].
  assert (Hw : walk d v) by (apply (bi_queue _ _ I); by left).
  assert (Hdist : distance d v).
  { split; [done|]. intros m Hm. destruct (Z_le_gt_dec d m) as [|Hgt]; [done|].
    exfalso. apply Hv, (bi_low _ _ I m v Hm). intros x [->|Hx]%elem_of_cons; [cbn; lia|].
    specialize (Hspan x Hx). lia. }
  assert (Hex : forall u e, (u, e) ∈ D ++ [(v, d)] -> distance e u).
  { intros u e [H|[= -> ->]%list_elem_of_singleton]%elem_of_app; [by apply (bi_done _ _ I)|done]. }
  assert (Hnew : forall x, x ∈ map (fun c => (c, d + 1)) cs -> x.2 = d + 1 /\ step v x.1).
  { intros x (c & -> & Hc)%list_elem_of_fmap. split; [done|by apply Hcs]. }
  assert (Hq' : forall x, x ∈ q ++ map (fun c => (c, d + 1)) cs -> d <= x.2 <= d + 1).
  { intros x [Hx|[Hx _]%Hnew]%elem_of_app; [by apply Hspan|lia]. }
  assert (HD : forall w, w ∈ D.*1 -> w ∈ (D ++ [(v, d)]).*1).
  { intros w H. rewrite fmap_app. apply elem_of_app. by left. }
  assert (Hvin : v ∈ (D ++ [(v, d)]).*1).
  { rewrite fmap_app. apply elem_of_app. right. by left. }
  assert (Hcl : forall u e c, (u, e) ∈ D ++ [(v, d)] -> step u c ->
    c ∈ (D ++ [(v, d)]).*1 \/
    exists k, (c, k) ∈ q ++ map (fun c => (c, d + 1)) cs /\ k <= e + 1).
  { intros u e c [Hu|[= -> ->]%list_elem_of_singleton]%elem_of_app Hs.
    - destruct (bi_closed _ _ I u e c Hu Hs) as [|(k & Hk & Hle)]; [left; by apply HD|].
      apply elem_of_cons in Hk as [[= -> ->]|Hk]; [by left|].
      right. exists k. split; [|done]. apply elem_of_app. by left.
    - destruct (Hall c Hs) as [Hc|[->|[Hc|[k Hk]%elem_fst]]]; [|by left|left; by apply HD|].
      + right. exists (d + 1). split; [|done]. apply elem_of_app. right.
        apply list_elem_of_fmap. by exists c.
      + right. exists k. split; [apply elem_of_app; by left|]. apply (Hspan _ Hk). }
  split.
  - done.
  - intros w e [H|H]%elem_of_app; [apply (bi_queue _ _ I); by right|].
    apply Hnew in H as [Hd Hs]. cbn in *. subst e. by econstructor.
  - apply StronglySorted_app_2.
    + intros x y Hx Hy. apply Hnew in Hy as [-> _]. apply (Hspan x Hx).
    + done.
    + clear -Hcs. induction cs as [|c cs IH]; constructor; [apply IH; intros; apply Hcs; by right|].
      apply list.Forall_forall. intros x (c' & -> & _)%list_elem_of_fmap. cbn. lia.
  - intros x y Hx Hy. apply Hq' in Hx, Hy. lia.
  - apply (bfs_low_pop D _ v d q _ I HD Hvin); try done.
    + intros x Hx. apply elem_of_app. by left.
    + intros x Hx. apply Hq' in Hx. lia.
  - done.
  - intros r Hr. destruct (bi_roots _ _ I r Hr) as [|[[= -> _]|H]%elem_of_cons].
    + left. by apply HD.
    + by left.
    + right. apply elem_of_app. by left.
Qed.

(** When nothing is queued the search is complete. *)
Lemma bfs_complete D : bfs_inv D [] ->
  (forall v, reachable v <-> v ∈ D.*1) /\ (forall v d, (v, d) ∈ D -> distance d v).
Proof.
  intros I. split; [|apply (bi_done _ _ I)]. intros v. split.
  - intros [n Hn]. apply (bi_low _ _ I n v Hn). intros x Hx. by apply not_elem_of_nil in Hx.
  - intros [d Hd]%elem_fst. exists d. by apply (bi_done _ _ I).
Qed.

End Bfs.

(** ** Data *)

Record lockEdge := mkEdge { le_BlockedPID : Z; le_BlockerPID : Z }.

Record lockStats := mkLockStats {
  ls_BlockerCount : Z;
  ls_BlockedCount : Z;
  ls_MaxChainDepth : Z
}.

(** A Go [map[int]bool] reads false at a missing key. *)
Abbreviation pidset := (gmap Z bool).
Definition has (m : pidset) (pid : Z) : bool := default false (m !! pid).

Abbreviation blockmap := (gmap Z pidset).
Definition victims (blocks : blockmap) (pid : Z) : pidset := default ∅ (blocks !! pid).

Definition sqlLockTree : string := "
SELECT
    a.pid                              AS blocked_pid,
    unnest(pg_blocking_pids(a.pid))    AS blocker_pid
FROM pg_stat_activity a
WHERE cardinality(pg_blocking_pids(a.pid)) > 0
  AND a.pid != pg_backend_pid()".

(** ** The search *)

Section Search.
Context {MR : MapRange}.

(** One iteration of the loop over the children of the current vertex. *)
Definition visitChild (depth : Z) (acc : items * pidset) (child : Z * bool) : items * pidset :=
  let '(queue, visited) := acc in
  if has visited child.1 then acc
  else (queue ++ [(child.1, depth + 1)], <[child.1 := true]> visited).

(** The loop of [bfsMaxDepth]; one unit of fuel per item taken off the queue. *)
Fixpoint bfsLoop (blocks : blockmap) (fuel : nat) (queue : items) (visited : pidset)
    (maxDepth : Z) : option Z :=
  match queue with
  | [] => Some maxDepth
  | (pid, depth) :: queue =>
      match fuel with
      | O => None
      | S fuel =>
          let maxDepth := if maxDepth <? depth then depth else maxDepth in
          let '(queue, visited) :=
            foldl (visitChild depth) (queue, visited) (map_range (victims blocks pid)) in
          bfsLoop blocks fuel queue visited maxDepth
      end
  end.

(** Every vertex but the start is a victim of some blocker. *)
Definition allVictims (blocks : blockmap) : list Z :=
  concat (map (fun kv => (map_to_list kv.2).*1) (map_to_list blocks)).

Definition bfsMaxDepth (startPID : Z) (blocks : blockmap) : option Z :=
  bfsLoop blocks (S (length (allVictims blocks))) [(startPID, 0)] {[startPID := true]} 0.

(** ** The statistics *)

Definition addEdge (acc : pidset * pidset * blockmap) (e : lockEdge) : pidset * pidset * blockmap :=
  let '(blockedSet, blockerSet, blocks) := acc in
  (<[le_BlockedPID e := true]> blockedSet, <[le_BlockerPID e := true]> blockerSet,
   <[le_BlockerPID e := <[le_BlockedPID e := true]> (victims blocks (le_BlockerPID e))]> blocks).

Definition deeper (blockedSet : pidset) (blocks : blockmap) (acc : option Z) (kv : Z * bool)
    : option Z :=
  if has blockedSet kv.1 then acc
  else maxDepth ← acc; d ← bfsMaxDepth kv.1 blocks;
       Some (if maxDepth <? d then d else maxDepth).

Definition computeLockStats (edges : list lockEdge) : option lockStats :=
  match edges with
  | [] => Some (mkLockStats 0 0 0)
  | _ :: _ =>
      let '(blockedSet, blockerSet, blocks) := foldl addEdge (∅, ∅, ∅) edges in
      let roots := foldl (fun n kv => if has blockedSet kv.1 then n else n + 1) 0
                     (map_range blockerSet) in
      maxDepth ← foldl (deeper blockedSet blocks) (Some 0) (map_range blockerSet);
      Some (mkLockStats roots (Z.of_nat (size blockedSet)) maxDepth)
  end.

(** [LockTreeCollector.Collect] and [statsToPoints]. *)
Definition statsToPoints (now : Time) (c : Base) (stats : lockStats) : list MetricPoint :=
  [ point now c "locks.blocker_count" (f_of_Z (ls_BlockerCount stats)) ∅;
    point now c "locks.blocked_count" (f_of_Z (ls_BlockedCount stats)) ∅;
    point now c "locks.max_chain_depth" (f_of_Z (ls_MaxChainDepth stats)) ∅ ].

Definition LockTree_scan `{DR : Driver} : Scanner lockEdge :=
  blocked ← int64; blocker ← int64; mret (mkEdge blocked blocker).

(** [None] would be a search that ran out of fuel; [lock_stats_exact] shows it does not. *)
Definition LockTree_Collect `{DR : Driver} (now : Time) (c : Base) (conn : Conn)
    : result (list MetricPoint) :=
  match query_rows conn sqlLockTree [] LockTree_scan (wrap "lock_tree") (wrap "lock_tree scan")
          (wrap "lock_tree rows") with
  | Err e => Err e
  | Ok edges => match computeLockStats edges with
                | Some stats => Ok (statsToPoints now c stats)
                | None => Ok []
                end
  end.

End Search.

Definition lock_tree_metrics : list string :=
  ["pg.locks.blocker_count"; "pg.locks.blocked_count"; "pg.locks.max_chain_depth"].

Lemma LockTree_emits {MR : MapRange} `{DR : Driver} now c conn :
  emits (b_instanceID c) lock_tree_metrics (LockTree_Collect now c conn).
Proof. unfold LockTree_Collect, statsToPoints. emits_tac. Qed.

(** * What the lock tree statistics mean

    The search of [LockTree] ends and computes distances; the statistics count root blockers and
    blocked sessions and give the greatest distance from a root. *)

(** ** The maps built from the edges *)

(** Session [u] holds up session [v]. *)
Definition edge_step (edges : list lockEdge) (u v : Z) : Prop := mkEdge v u ∈ edges.

Definition map_step (blocks : blockmap) (u v : Z) : Prop := is_Some (victims blocks u !! v).

Lemma has_insert (m : pidset) k x : has (<[k := true]> m) x = bool_decide (x = k) || has m x.
Proof.
  unfold has. destruct (decide (x = k)) as [->|Hne].
  - by rewrite lookup_insert_eq, bool_decide_true.
  - by rewrite lookup_insert_ne, bool_decide_false.
Qed.

Lemma victims_insert blocks k (m : pidset) x :
  victims (<[k := m]> blocks) x = if decide (x = k) then m else victims blocks x.
Proof.
  unfold victims. case_decide as H; [subst; by rewrite lookup_insert_eq|by rewrite lookup_insert_ne].
Qed.

Definition all_true (m : pidset) : Prop := forall k b, m !! k = Some b -> b = true.

Record edges_maps (edges : list lockEdge) (blockedSet blockerSet : pidset) (blocks : blockmap)
    : Prop := {
  em_blocked : forall v, v ∈ dom blockedSet <-> exists u, edge_step edges u v;
  em_blocker : forall u, u ∈ dom blockerSet <-> exists v, edge_step edges u v;
  em_blocks : forall u v, map_step blocks u v <-> edge_step edges u v;
  em_true : all_true blockedSet
}.

Lemma addEdge_maps edges bd bk bl e : edges_maps edges bd bk bl ->
  let '(bd', bk', bl') := addEdge (bd, bk, bl) e in edges_maps (edges ++ [e]) bd' bk' bl'.
Proof.
  intros [H1 H2 H3 H4]. cbn [addEdge].
  assert (Hst : forall u v, edge_step (edges ++ [e]) u v <->
    edge_step edges u v \/ (u = le_BlockerPID e /\ v = le_BlockedPID e)).
  { intros u v. unfold edge_step. rewrite elem_of_app, list_elem_of_singleton.
    destruct e as [b k]. cbn. split; (intros [H|H]; [by left|right]).
    - by injection H as -> ->.
    - by destruct H as [-> ->]. }
  split.
  - intros v. rewrite dom_insert, elem_of_union, elem_of_singleton, H1. setoid_rewrite Hst.
    split; [intros [->|[u Hu]]; eauto|intros [u [Hu|[_ ->]]]; eauto].
  - intros u. rewrite dom_insert, elem_of_union, elem_of_singleton, H2. setoid_rewrite Hst.
    split; [intros [->|[v Hv]]; eauto|intros [v [Hv|[-> _]]]; eauto].
  - intros u v. rewrite Hst, <- H3. unfold map_step. rewrite victims_insert. case_decide as Hu.
    + subst u. rewrite lookup_insert_is_Some'. naive_solver.
    + naive_solver.
  - intros k b. rewrite lookup_insert_Some. intros [[_ <-]|[_ H]]; [done|eauto].
Qed.

Lemma edges_maps_foldl edges :
  let '(bd, bk, bl) := foldl addEdge (∅, ∅, ∅) edges in edges_maps edges bd bk bl.
Proof.
  induction edges as [|e edges IH] using rev_ind.
  - assert (Hno : forall u v, ~ edge_step [] u v) by (intros u v; apply not_elem_of_nil).
    split; [intros v; rewrite dom_empty|intros u; rewrite dom_empty| |done].
    + split; [set_solver|]. intros [u Hu]. by destruct (Hno u v).
    + split; [set_solver|]. intros [v Hv]. by destruct (Hno u v).
    + intros u v. unfold map_step, victims. rewrite lookup_empty. cbn. rewrite lookup_empty.
      split; [by intros []|]. intros H. by destruct (Hno u v).
  - rewrite foldl_app. cbn [foldl]. destruct (foldl addEdge (∅, ∅, ∅) edges) as [[bd bk] bl].
    by apply addEdge_maps.
Qed.

Lemma has_dom (m : pidset) k : all_true m -> has m k = true <-> k ∈ dom m.
Proof.
  intros Ht. unfold has. rewrite elem_of_dom. destruct (m !! k) as [b|] eqn:E; cbn.
  - rewrite (Ht k b E). split; [by exists true|done].
  - split; [done|by intros []].
Qed.

(** ** The search *)

Lemma has_of_list (l : list Z) v : has (fold_right (fun v m => <[v := true]> m) ∅ l) v = true <-> v ∈ l.
Proof.
  induction l as [|w l IH]; cbn [fold_right].
  - unfold has. rewrite lookup_empty. cbn. split; [done|]. intros H. by apply not_elem_of_nil in H.
  - rewrite has_insert, orb_true_iff, bool_decide_eq_true, IH, elem_of_cons. tauto.
Qed.

Section Search.
Context {MR : MapRange}.

Lemma visitChildren_spec (d : Z) (cs : list (Z * bool)) : forall q vis, NoDup cs.*1 ->
  exists new vis',
    foldl (visitChild d) (q, vis) cs = (q ++ map (fun c => (c, d + 1)) new, vis') /\
    NoDup new /\ (forall c, c ∈ new <-> c ∈ cs.*1 /\ has vis c = false) /\
    (forall x, has vis' x = bool_decide (x ∈ new) || has vis x).
Proof.
  induction cs as [|[c b] cs IH]; intros q vis Hnd.
  - exists [], vis. cbn. rewrite app_nil_r. split; [done|].
    split; [constructor|]. split; [|done]. intros c.
    split; [intros H|intros [H _]]; by apply not_elem_of_nil in H.
  - cbn [fmap list_fmap fst] in Hnd. apply NoDup_cons in Hnd as [Hc Hnd]. cbn [foldl visitChild fst].
    destruct (has vis c) eqn:Hv.
    + destruct (IH q vis Hnd) as (new & vis' & He & Hn & Hin & Hvis).
      exists new, vis'. split; [done|]. split; [done|]. split; [|done]. intros x.
      rewrite Hin. cbn [fmap list_fmap fst]. rewrite elem_of_cons. naive_solver congruence.
    + destruct (IH (q ++ [(c, d + 1)]) (<[c := true]> vis) Hnd) as (new & vis' & He & Hn & Hin & Hvis).
      assert (Hcn : c ∉ new) by (intros H; apply Hin in H as [H _]; done).
      exists (c :: new), vis'. rewrite He, <- app_assoc. split; [done|].
      split; [by constructor|]. split.
      * intros x. cbn [fmap list_fmap fst]. rewrite !elem_of_cons, Hin, has_insert.
        destruct (decide (x = c)) as [->|Hne]; [naive_solver|].
        rewrite bool_decide_false by done. cbn [orb]. naive_solver.
      * intros x. rewrite Hvis, has_insert. destruct (decide (x = c)) as [->|Hne].
        -- rewrite (bool_decide_true (c ∈ c :: new)) by (by left).
           rewrite (bool_decide_true (c = c)) by done. by destruct (bool_decide (c ∈ new)).
        -- rewrite (bool_decide_false (x = c)) by done. cbn [orb]. f_equal.
           apply bool_decide_ext. rewrite elem_of_cons. naive_solver.
Qed.

Lemma map_range_fst_NoDup (m : pidset) : NoDup (map_range m).*1.
Proof. rewrite map_range_perm. apply NoDup_fst_map_to_list. Qed.

Lemma map_range_fst (m : pidset) c : c ∈ (map_range m).*1 <-> is_Some (m !! c).
Proof.
  rewrite map_range_perm. rewrite elem_fst. unfold is_Some. by setoid_rewrite elem_of_map_to_list.
Qed.

Lemma allVictims_elem blocks u v : map_step blocks u v -> v ∈ allVictims blocks.
Proof.
  unfold map_step, victims, allVictims. intros [b Hb].
  destruct (blocks !! u) as [m|] eqn:E; cbn in Hb; [|by rewrite lookup_empty in Hb].
  apply list_elem_of_In, in_concat. exists (map_to_list m).*1. split.
  - apply in_map_iff. exists (u, m). split; [done|]. by apply list_elem_of_In, elem_of_map_to_list.
  - apply list_elem_of_In, elem_fst. exists b. by apply elem_of_map_to_list.
Qed.

Record search_inv (blocks : blockmap) (start : Z) (D q : items) (visited : pidset) (maxDepth : Z)
    : Prop := {
  si_bfs : bfs_inv (eq start) (map_step blocks) D q;
  si_visited : forall v, has visited v = true <-> v ∈ D.*1 \/ v ∈ q.*1;
  si_NoDup : NoDup (D.*1 ++ q.*1);
  si_max : forall x, x ∈ D -> x.2 <= maxDepth;
  si_attained : (D = [] /\ maxDepth = 0) \/ exists v, (v, maxDepth) ∈ D;
  si_universe : forall v, v ∈ D.*1 ++ q.*1 -> v ∈ start :: allVictims blocks
}.

Lemma search_step blocks start D pid depth q visited maxDepth :
  search_inv blocks start D ((pid, depth) :: q) visited maxDepth ->
  exists q' visited',
    foldl (visitChild depth) (q, visited) (map_range (victims blocks pid)) = (q', visited') /\
    search_inv blocks start (D ++ [(pid, depth)]) q' visited'
      (if maxDepth <? depth then depth else maxDepth).
Proof.
  intros [Hb Hv Hnd Hm Ha Hu].
  destruct (visitChildren_spec depth (map_range (victims blocks pid)) q visited)
    as (new & vis' & He & Hnn & Hin & Hvis); [apply map_range_fst_NoDup|].
  exists (q ++ map (fun c => (c, depth + 1)) new), vis'. split; [done|].
  assert (Hfst : (map (fun c => (c, depth + 1)) new).*1 = new).
  { rewrite <- list_fmap_compose. apply list_fmap_id. }
  assert (Hperm : (D ++ [(pid, depth)]).*1 ++ (q ++ map (fun c => (c, depth + 1)) new).*1
                  = (D.*1 ++ pid :: q.*1) ++ new).
  { rewrite !fmap_app, Hfst. cbn [fmap list_fmap fst]. by rewrite <- !app_assoc. }
  cbn [fmap list_fmap fst] in Hnd, Hv, Hu.
  assert (Hnew : forall c, c ∈ new <-> map_step blocks pid c /\ c ∉ D.*1 ++ pid :: q.*1).
  { intros c. rewrite Hin, map_range_fst, elem_of_app. unfold map_step.
    specialize (Hv c). destruct (has visited c); naive_solver. }
  split.
  - apply bfs_visit; [done|..].
    + apply NoDup_app in Hnd as (_ & Hnd & _). intros H. by apply (Hnd pid H); left.
    + intros c Hc. by apply Hnew.
    + intros c Hc. destruct (decide (c ∈ D.*1 ++ pid :: q.*1)) as [H|H].
      * right. apply elem_of_app in H as [H|H]; [by right; left|].
        apply elem_of_cons in H as [->|H]; [by left|by right; right].
      * left. by apply Hnew.
  - intros v. rewrite Hvis, orb_true_iff, Hv, bool_decide_eq_true, !fmap_app, Hfst, !elem_of_app.
    cbn [fmap list_fmap fst]. rewrite elem_of_cons, list_elem_of_singleton. tauto.
  - rewrite Hperm. apply NoDup_app. split; [done|]. split; [|done].
    intros v Hvin Hvn. by apply Hnew in Hvn as [_ Hvn].
  - intros x Hx. apply elem_of_app in Hx as [Hx|Hx];
      [|apply list_elem_of_singleton in Hx as ->]; destruct (Z.ltb_spec maxDepth depth); cbn;
      try (specialize (Hm x Hx)); lia.
  - right. destruct (Z.ltb_spec maxDepth depth) as [|Hle].
    + exists pid. apply elem_of_app. right. by left.
    + destruct Ha as [[-> ->]|[v Hvd]].
      * exists pid. apply list_elem_of_singleton. f_equal.
        pose proof (walk_nonneg _ _ _ _ (bi_queue _ _ _ _ Hb pid depth ltac:(by left))). lia.
      * exists v. apply elem_of_app. by left.
  - rewrite Hperm. intros v [H|H]%elem_of_app; [by apply Hu|].
    apply Hnew in H as [H _]. right. by apply (allVictims_elem blocks pid).
Qed.

Lemma search_inv_end blocks start D visited maxDepth :
  search_inv blocks start D [] visited maxDepth ->
  search_inv blocks start D [] (fold_right (fun v m => <[v := true]> m) ∅ D.*1) maxDepth.
Proof.
  intros [H1 H2 H3 H4 H5 H6]. split; try done. intros v. rewrite has_of_list.
  split; [by left|]. intros [H|H]; [done|by apply not_elem_of_nil in H].
Qed.

(** The search ends and returns the greatest distance. *)
Lemma bfsLoop_spec blocks start : forall fuel D q visited maxDepth,
  search_inv blocks start D q visited maxDepth ->
  (S (length (allVictims blocks)) <= fuel + length D)%nat ->
  exists D' m, bfsLoop blocks fuel q visited maxDepth = Some m /\
    search_inv blocks start D' [] (fold_right (fun v m => <[v := true]> m) ∅ D'.*1) m.
Proof.
  induction fuel as [|fuel IH]; intros D q visited maxDepth I Hfuel.
  - destruct q as [|[pid depth] q].
    + exists D, maxDepth. split; [done|by eapply search_inv_end].
    + exfalso. destruct I as [_ _ Hnd _ _ Hu].
      pose proof (submseteq_length _ _ (NoDup_submseteq _ _ Hnd Hu)) as Hl.
      rewrite length_app, !length_fmap in Hl. cbn in Hl. lia.
  - destruct q as [|[pid depth] q].
    + exists D, maxDepth. split; [done|by eapply search_inv_end].
    + destruct (search_step _ _ _ _ _ _ _ _ I) as (q' & vis' & He & I').
      cbn [bfsLoop]. rewrite He. apply (IH (D ++ [(pid, depth)]) q' vis' _ I').
      rewrite length_app. cbn. lia.
Qed.

(** The depth that [bfsMaxDepth] finds below [start]. *)
Lemma bfsMaxDepth_spec blocks start : exists m, bfsMaxDepth start blocks = Some m /\
  (forall v d, distance (eq start) (map_step blocks) d v -> d <= m) /\
  exists v, distance (eq start) (map_step blocks) m v.
Proof.
  destruct (bfsLoop_spec blocks start (S (length (allVictims blocks))) [] [(start, 0)]
              {[start := true]} 0) as (D & m & He & [Hb _ _ Hm Ha _]).
  - split.
    + apply (bfs_inv_init (eq start) (map_step blocks) [start]).
      intros r. rewrite list_elem_of_singleton. naive_solver.
    + intros v. cbn [fmap list_fmap fst]. unfold has.
      rewrite list_elem_of_singleton. destruct (decide (v = start)) as [->|Hne].
      * rewrite lookup_singleton_eq. cbn. tauto.
      * rewrite lookup_singleton_ne by done. cbn. split; [done|].
        intros [H|H]; [by apply not_elem_of_nil in H|done].
    + repeat constructor. by apply not_elem_of_nil.
    + intros x H. by apply not_elem_of_nil in H.
    + by left.
    + cbn. intros v ->%list_elem_of_singleton. by left.
  - cbn. lia.
  - pose proof (bfs_complete _ _ _ Hb) as [Hr Hd].
    exists m. split; [done|]. split.
    + intros v d Hdist. assert (v ∈ D.*1) as [e Hin]%elem_fst.
      { apply Hr. exists d. apply Hdist. }
      rewrite (distance_unique _ _ _ _ _ Hdist (Hd v e Hin)). apply (Hm _ Hin).
    + destruct Ha as [[-> _]|[v Hin]].
      * assert (start ∈ ([] : items).*1) as H.
        { apply Hr. exists 0. by constructor. }
        by apply not_elem_of_nil in H.
      * exists v. by apply Hd.
Qed.

Lemma walk_proper (root root' : Z -> Prop) (step step' : Z -> Z -> Prop) n v :
  (forall r, root r -> root' r) -> (forall u w, step u w -> step' u w) ->
  walk root step n v -> walk root' step' n v.
Proof.
  intros Hr Hs. induction 1 as [r H|m u w _ IH H]; [constructor; by apply Hr|].
  econstructor; [done|by apply Hs].
Qed.

Lemma distance_proper (root : Z -> Prop) (step step' : Z -> Z -> Prop) d v :
  (forall u w, step u w <-> step' u w) -> distance root step d v -> distance root step' d v.
Proof.
  intros Hs [Hw Hm]. split.
  - eapply walk_proper; [|by apply Hs|done]. done.
  - intros m H. apply Hm. eapply walk_proper; [|by apply Hs|done]. done.
Qed.

(** ** The statistics *)

Definition blocked_pids (edges : list lockEdge) : gset Z := list_to_set (map le_BlockedPID edges).
Definition blocker_pids (edges : list lockEdge) : gset Z := list_to_set (map le_BlockerPID edges).
Definition root_blockers (edges : list lockEdge) : gset Z :=
  blocker_pids edges ∖ blocked_pids edges.

(** How far session [v] is below the root blocker [r]. *)
Definition below (edges : list lockEdge) (r d v : Z) : Prop :=
  r ∈ root_blockers edges /\ distance (eq r) (edge_step edges) d v.

Lemma blocked_pids_elem edges v : v ∈ blocked_pids edges <-> exists u, edge_step edges u v.
Proof.
  unfold blocked_pids, edge_step. rewrite elem_of_list_to_set, list_elem_of_fmap. split.
  - intros ([b k] & -> & H). by exists k.
  - intros [u H]. by exists (mkEdge v u).
Qed.

Lemma blocker_pids_elem edges u : u ∈ blocker_pids edges <-> exists v, edge_step edges u v.
Proof.
  unfold blocker_pids, edge_step. rewrite elem_of_list_to_set, list_elem_of_fmap. split.
  - intros ([b k] & -> & H). by exists b.
  - intros [v H]. by exists (mkEdge v u).
Qed.

Lemma count_foldl {A} (skip : A -> bool) (l : list A) : forall n : Z,
  foldl (fun n x => if skip x then n else n + 1) n l
    = n + len (List.filter (fun x => negb (skip x)) l).
Proof.
  unfold len. induction l as [|x l IH]; intros n; cbn [foldl List.filter]; [cbn; lia|].
  rewrite IH. destruct (skip x); cbn [negb]; [done|]. cbn [length]. lia.
Qed.

Lemma NoDup_filter_fst {A} (f : Z * A -> bool) (l : list (Z * A)) :
  NoDup l.*1 -> NoDup (List.filter f l).*1.
Proof.
  induction l as [|x l IH]; cbn; [done|]. intros [Hx Hl]%NoDup_cons.
  destruct (f x); [|by apply IH]. cbn. apply NoDup_cons. split; [|by apply IH].
  intros (y & Hy & Hin)%list_elem_of_fmap. apply elem_of_filter_bool in Hin as [_ Hin].
  apply Hx, list_elem_of_fmap. by exists y.
Qed.

Lemma size_of_list (X : gset Z) (l : list Z) :
  NoDup l -> (forall x, x ∈ l <-> x ∈ X) -> length l = size X.
Proof.
  intros Hn Hx. rewrite <- (size_list_to_set (C := gset Z) l Hn). f_equal.
  apply set_eq. intros x. by rewrite elem_of_list_to_set.
Qed.

Lemma deeper_spec edges bd bk bl : edges_maps edges bd bk bl -> forall l m,
  exists m', foldl (deeper bd bl) (Some m) l = Some m' /\ m <= m' /\
  (forall r v d, r ∈ l.*1 -> r ∉ dom bd -> distance (eq r) (edge_step edges) d v -> d <= m') /\
  (m' = m \/ exists r v, r ∈ l.*1 /\ r ∉ dom bd /\ distance (eq r) (edge_step edges) m' v).
Proof.
  intros [H1 H2 H3 H4]. induction l as [|[r b] l IH]; intros m.
  - exists m. repeat split; [lia| |by left]. intros r v d H. by apply not_elem_of_nil in H.
  - cbn [foldl fmap list_fmap fst]. unfold deeper at 2. cbn [fst].
    destruct (has bd r) eqn:E.
    + destruct (IH m) as (m' & He & Hle & Hall & Hat). exists m'. repeat split; try done.
      * intros r' v d [->|H]%elem_of_cons Hr Hd; [|by apply (Hall r' v)].
        destruct Hr. by apply has_dom.
      * destruct Hat as [->|(r' & v & H & Hr & Hd)]; [by left|]. right. exists r', v.
        split; [by right|done].
    + destruct (bfsMaxDepth_spec bl r) as (x & Hx & Hmax & v0 & Hv0). cbn [mbind option_bind].
      rewrite Hx. cbn [mbind option_bind].
      destruct (IH (if m <? x then x else m)) as (m' & He & Hle & Hall & Hat).
      assert (m <= m' /\ x <= m') as [Hm Hxm] by (destruct (Z.ltb_spec m x); lia).
      assert (Hr : r ∉ dom bd).
      { intros H. apply has_dom in H; [congruence|done]. }
      exists m'. repeat split; try done.
      * intros r' v d [->|H]%elem_of_cons Hr' Hd; [|by apply (Hall r' v)].
        assert (d <= x); [|lia]. apply (Hmax v). eapply distance_proper; [|exact Hd].
        intros. by rewrite H3.
      * destruct Hat as [->|(r' & v & H & Hr' & Hd)].
        -- destruct (Z.ltb_spec m x); [|by left]. right. exists r, v0. split; [by left|].
           split; [done|]. eapply distance_proper; [|exact Hv0]. intros. by rewrite H3.
        -- right. exists r', v. split; [by right|done].
Qed.

End Search.

(** C12: The lock statistics. Whatever rows the server returns and in whatever order the maps are
    walked, the computation ends; the blocker count is the number of sessions that hold others
    up without being held up, the blocked count the number of sessions held up, and the depth is
    the greatest distance of a session from a root blocker: none is farther, and one is as far. *)
Theorem lock_stats_exact {MR : MapRange} (edges : list lockEdge) :
  exists stats, computeLockStats edges = Some stats /\
    ls_BlockerCount stats = Z.of_nat (size (root_blockers edges)) /\
    ls_BlockedCount stats = Z.of_nat (size (blocked_pids edges)) /\
    (forall r d v, below edges r d v -> d <= ls_MaxChainDepth stats) /\
    (ls_MaxChainDepth stats = 0 \/ exists r v, below edges r (ls_MaxChainDepth stats) v).
Proof.
  unfold computeLockStats. destruct edges as [|e edges].
  { exists (mkLockStats 0 0 0). cbn. repeat split; [|by left]. intros r d v [Hr _].
    unfold root_blockers, blocker_pids in Hr. set_solver. }
  remember (e :: edges) as es eqn:Hes. clear Hes.
  pose proof (edges_maps_foldl es) as Hem. destruct (foldl addEdge (∅, ∅, ∅) es) as [[bd bk] bl].
  destruct (deeper_spec _ _ _ _ Hem (map_range bk) 0) as (m & -> & _ & Hall & Hat).
  destruct Hem as [H1 H2 H3 H4]. cbn [mbind option_bind]. eexists. split; [done|]. cbn.
  assert (Hroot : forall r, r ∈ root_blockers es <-> r ∈ (map_range bk).*1 /\ r ∉ dom bd).
  { intros r. unfold root_blockers. rewrite elem_of_difference, blocked_pids_elem, blocker_pids_elem.
    rewrite map_range_fst, <- elem_of_dom, H2, H1. done. }
  repeat split.
  - rewrite count_foldl, Z.add_0_l. unfold len. f_equal.
    rewrite <- (length_fmap fst). apply size_of_list.
    + apply NoDup_filter_fst, map_range_fst_NoDup.
    + intros x. rewrite Hroot, !elem_fst. setoid_rewrite elem_of_filter_bool. cbn.
      split.
      * intros (b & Hn & Hin). split; [by exists b|]. intros H. apply has_dom in H; [|done].
        by rewrite H in Hn.
      * intros [[b Hin] Hn]. exists b. split; [|done]. destruct (has bd x) eqn:E; [|done].
        by apply has_dom in E.
  - rewrite <- size_dom. do 2 f_equal. apply set_eq. intros v. by rewrite H1, blocked_pids_elem.
  - intros r d v [Hr Hd]. apply Hroot in Hr as [Hin Hn]. by apply (Hall r v).
  - destruct Hat as [->|(r & v & Hin & Hn & Hd)]; [by left|]. right. exists r, v.
    split; [|done]. by apply Hroot.
Qed.

(** The depth is not the length of the longest chain: session 3 waits for 1 and for 2, session 2
    waits for 1; the chain 1, 2, 3 has two steps, the reported depth is one. *)
Lemma chain_depth_not_longest {MR : MapRange} :
  let edges := [mkEdge 2 1; mkEdge 3 1; mkEdge 3 2] in
  walk (eq 1) (edge_step edges) 2 3 /\
  exists stats, computeLockStats edges = Some stats /\ ls_MaxChainDepth stats = 1.
Proof.
  cbv zeta. set (edges := [mkEdge 2 1; mkEdge 3 1; mkEdge 3 2]).
  assert (E12 : edge_step edges 1 2) by (repeat (try (by left); right)).
  assert (E13 : edge_step edges 1 3) by (repeat (try (by left); right)).
  assert (E23 : edge_step edges 2 3) by (repeat (try (by left); right)).
  assert (W : forall v, edge_step edges 1 v -> walk (eq 1) (edge_step edges) 1 v).
  { intros v H. apply (walk_step _ _ 0 1); [by constructor|done]. }
  split; [apply (walk_step _ _ 1 2); [by apply W|done]|].
  destruct (lock_stats_exact edges) as (stats & He & _ & _ & Hall & Hat).
  exists stats. split; [done|].
  assert (Hr : root_blockers edges = {[1]}) by (vm_compute; done).
  assert (1 <= ls_MaxChainDepth stats).
  { apply (Hall 1 1 2). split; [rewrite Hr; set_solver|]. split; [by apply W|].
    intros m Hm. inversion Hm as [r0 Hr0|n u w Hu Hs]; subst; [done|].
    pose proof (walk_nonneg _ _ _ _ Hu). lia. }
  destruct Hat as [|(r & v & Hb & [Hw Hmin])]; [lia|]. rewrite Hr in Hb.
  apply elem_of_singleton in Hb as ->.
  assert (ls_MaxChainDepth stats <= 1); [|lia].
  destruct (decide (v = 1)) as [->|Hv1].
  { specialize (Hmin 0 ltac:(by constructor)). lia. }
  apply Hmin, W. inversion Hw as [|n u w Hu Hs]; subst; [done|].
  unfold edge_step, edges in Hs.
  repeat (apply elem_of_cons in Hs as [Hs|Hs]; [injection Hs as -> ->; try done|]).
  by apply not_elem_of_nil in Hs.
Qed.
