(* ===== verification/ApiLocks.v ===== *)
(** * The blocking tree of the API

    Models internal/api/handler_locks.go: from the sessions with the sessions that block each of
    them, the tree below the root blockers: depth, parent and counts of every session in it. *)
From S2P Require Import Prelude Float64 Http SqlConn LockTree.

Local Open Scope Z_scope.

Record LockTreeSummary := mkSummary {
  lt_RootBlockers : Z;
  lt_TotalBlocked : Z;
  lt_MaxDepth : Z
}.

Record LockEntry := mkLockEntry {
  l_PID : Z;
  l_Depth : Z;
  l_Usename : string;
  l_Datname : string;
  l_State : string;
  l_WaitEventType : option string;
  l_WaitEvent : option string;
  l_DurationSeconds : float64;
  l_Query : string;
  l_BlockedByCount : Z;
  l_BlockingCount : Z;
  l_IsRoot : bool;
  l_ParentPID : option Z
}.

Record LockTreeResponse := mkLockTree {
  lr_Summary : LockTreeSummary;
  lr_Locks : list LockEntry
}.

Record RawLockEntry := mkRaw {
  raw_PID : Z;
  raw_Usename : string;
  raw_Datname : string;
  raw_State : string;
  raw_WaitEventType : option string;
  raw_WaitEvent : option string;
  raw_DurationSeconds : float64;
  raw_Query : string;
  raw_BlockingPIDs : list Z
}.

(** A Go [map[int][]int]: appending to the list of a key, reading nil at a missing key. *)
Abbreviation pidlists := (gmap Z (list Z)).
Definition pids_of (m : pidlists) (pid : Z) : list Z := default [] (m !! pid).
Definition append_pid (m : pidlists) (k pid : Z) : pidlists := <[k := pids_of m k ++ [pid]]> m.

(** ** BuildLockTree *)

Definition indexRows (raw : list RawLockEntry) : gmap Z RawLockEntry :=
  foldl (fun m e => <[raw_PID e := e]> m) ∅ raw.

(** [blockedBy] and [blocks], one blocking pid at a time. *)
Definition addBlocking (pid : Z) (acc : pidlists * pidlists) (bp : Z) : pidlists * pidlists :=
  (append_pid acc.1 pid bp, append_pid acc.2 bp pid).

Definition addRow (acc : pidlists * pidlists) (e : RawLockEntry) : pidlists * pidlists :=
  foldl (addBlocking (raw_PID e)) acc (raw_BlockingPIDs e).

Definition blockingMaps (raw : list RawLockEntry) : pidlists * pidlists :=
  foldl addRow (∅, ∅) raw.

Definition mark (m : pidset) (pid : Z) : pidset := <[pid := true]> m.

Section BuildLockTree.
Context {SS : SliceSort} {MR : MapRange}.

Definition involvedPIDs (blockedBy blocks : pidlists) : pidset :=
  let involved := foldl (fun m kv => foldl mark (mark m kv.1) (pids_of blockedBy kv.1)) ∅
                    (map_range blockedBy) in
  foldl (fun m kv => mark m kv.1) involved (map_range blocks).

Definition rootPIDs (blockedBy blocks : pidlists) : list Z :=
  sort_slice Z.ltb
    (map fst (List.filter (fun kv => len (pids_of blockedBy kv.1) =? 0)
                (map_range (involvedPIDs blockedBy blocks)))).

Record bfsItem := mkItem { bi_pid : Z; bi_depth : Z; bi_parent : option Z }.

Definition entryOf (blockedBy blocks : pidlists) (item : bfsItem) (row : RawLockEntry) : LockEntry :=
  mkLockEntry (raw_PID row) (bi_depth item) (raw_Usename row) (raw_Datname row) (raw_State row)
    (raw_WaitEventType row) (raw_WaitEvent row) (raw_DurationSeconds row) (raw_Query row)
    (len (pids_of blockedBy (raw_PID row))) (len (pids_of blocks (raw_PID row)))
    (bi_depth item =? 0) (bi_parent item).

(** What the loop adds to the queue for the children of an item. *)
Definition childItems (blocks : pidlists) (visited : pidset) (item : bfsItem) : list bfsItem :=
  map (fun child => mkItem child (bi_depth item + 1) (Some (bi_pid item)))
    (List.filter (fun child => negb (has visited child))
       (sort_slice Z.ltb (pids_of blocks (bi_pid item)))).

(** The loop; one unit of fuel per item taken off the queue. *)
Fixpoint treeLoop (byPID : gmap Z RawLockEntry) (blockedBy blocks : pidlists) (fuel : nat)
    (queue : list bfsItem) (visited : pidset) (entries : list LockEntry) (maxDepth : Z)
    : option (list LockEntry * Z) :=
  match queue with
  | [] => Some (entries, maxDepth)
  | item :: queue =>
      match fuel with
      | O => None
      | S fuel =>
          if has visited (bi_pid item) then
            treeLoop byPID blockedBy blocks fuel queue visited entries maxDepth
          else
            let visited := mark visited (bi_pid item) in
            let maxDepth := if maxDepth <? bi_depth item then bi_depth item else maxDepth in
            match byPID !! bi_pid item with
            | None => treeLoop byPID blockedBy blocks fuel queue visited entries maxDepth
            | Some row =>
                treeLoop byPID blockedBy blocks fuel
                  (queue ++ childItems blocks visited item) visited
                  (entries ++ [entryOf blockedBy blocks item row]) maxDepth
            end
      end
  end.

(** Every pair of blocker and victim is queued at most once, every root once. *)
Definition treeFuel (roots : list Z) (blocks : pidlists) : nat :=
  (length roots + sum_list (map (fun kv => length kv.2) (map_to_list blocks)))%nat.

Definition byDepthThenPID (a b : LockEntry) : bool :=
  if negb (l_Depth a =? l_Depth b) then l_Depth a <? l_Depth b else l_PID a <? l_PID b.

Definition BuildLockTree (raw : list RawLockEntry) : option LockTreeResponse :=
  let byPID := indexRows raw in
  let '(blockedBy, blocks) := blockingMaps raw in
  let roots := rootPIDs blockedBy blocks in
  '(entries, maxDepth) ← treeLoop byPID blockedBy blocks (treeFuel roots blocks)
                           (map (fun rp => mkItem rp 0 None) roots) ∅ [] 0;
  let entries := sort_slice byDepthThenPID entries in
  let totalBlocked := foldl (fun n e => if negb (l_IsRoot e) then n + 1 else n) 0 entries in
  Some (mkLockTree (mkSummary (len roots) totalBlocked maxDepth) entries).

(** ** The handler *)

Definition sqlLockTreeRows : string := "SELECT
    sa.pid,
    sa.usename,
    COALESCE(sa.datname, '') AS datname,
    sa.state,
    sa.wait_event_type,
    sa.wait_event,
    EXTRACT(EPOCH FROM (now() - sa.xact_start))::float8 AS duration_seconds,
    LEFT(sa.query, 200) AS query,
    pg_blocking_pids(sa.pid) AS blocking_pids
FROM pg_stat_activity sa
WHERE sa.pid != pg_backend_pid()
  AND sa.state IS NOT NULL".

Definition rawScan `{DR : Driver} : Scanner RawLockEntry :=
  pid ← int64; usename ← str; datname ← str; state ← str; wtype ← ostr; wevent ← ostr;
  duration ← ofloat; query ← str; blocking ← ints;
  mret (mkRaw pid usename datname state wtype wevent (default f0 duration) query blocking).

(** A row that cannot be read ends the rows; the error is only logged. *)
Definition handleLockTree `{DR : Driver} (instanceExists : string -> bool)
    (connProvider : option (string -> result Conn)) (instanceID : string)
    : response LockTreeResponse :=
  if negb (instanceExists instanceID) then
    writeError StatusNotFound "not_found" ("instance '" +:+ instanceID +:+ "' not found")
  else match connProvider with
  | None => writeError StatusServiceUnavailable "not_available"
              "instance connection provider not configured"
  | Some connFor =>
      match connFor instanceID with
      | Err _ => writeError StatusBadGateway "connection_error" "failed to connect to instance"
      | Ok conn =>
          match conn "SET LOCAL statement_timeout = '5s'" [] with
          | Err _ => writeError StatusInternalServerError "internal_error"
                       "failed to configure connection"
          | Ok _ =>
              match query_skip conn sqlLockTreeRows [] rawScan with
              | Err _ => writeError StatusInternalServerError "internal_error"
                           "failed to query lock tree"
              | Ok (raw, _) =>
                  match BuildLockTree raw with
                  | Some result => writeJSON StatusOK result
                  | None => writeError StatusInternalServerError "internal_error" ""
                  end
              end
          end
      end
  end.

End BuildLockTree.

(** ** The graph the tree is built from *)

(** [u] has a row and holds up [v]. *)
Definition row_step (raw : list RawLockEntry) (u v : Z) : Prop :=
  (exists e, e ∈ raw /\ raw_PID e = u) /\
  exists e, e ∈ raw /\ raw_PID e = v /\ u ∈ raw_BlockingPIDs e.

(** [r] holds someone up and is not held up. *)
Definition row_root (raw : list RawLockEntry) (r : Z) : Prop :=
  (exists e, e ∈ raw /\ r ∈ raw_BlockingPIDs e) /\
  forall e, e ∈ raw -> raw_PID e = r -> raw_BlockingPIDs e = [].

(** * The blocking tree shows what can be reached from the root blockers

    [BuildLockTree] ends; its entries are the sessions that chains of waiting sessions connect to
    a session that waits for nobody, each once, at its distance, below a session it waits for. *)

(** ** The maps *)

(** The pairs (victim, blocker) in the order of the rows. *)
Definition pairs (raw : list RawLockEntry) : list (Z * Z) :=
  concat (map (fun e => map (fun bp => (raw_PID e, bp)) (raw_BlockingPIDs e)) raw).

Lemma pairs_elem raw v u :
  (v, u) ∈ pairs raw <-> exists e, e ∈ raw /\ raw_PID e = v /\ u ∈ raw_BlockingPIDs e.
Proof.
  unfold pairs. rewrite list_elem_of_In, in_concat. setoid_rewrite in_map_iff.
  setoid_rewrite <- list_elem_of_In. split.
  - intros (l & (e & <- & He) & Hl). apply list_elem_of_fmap in Hl as (bp & [= -> ->] & Hb).
    by exists e.
  - intros (e & He & <- & Hu). eexists. split; [by exists e|].
    apply list_elem_of_fmap. by exists u.
Qed.

Lemma blockingMaps_pairs raw : forall acc,
  foldl addRow acc raw = foldl (fun a p => addBlocking p.1 a p.2) acc (pairs raw).
Proof.
  induction raw as [|e raw IH]; intros acc; [done|].
  change (pairs (e :: raw))
    with (map (fun bp => (raw_PID e, bp)) (raw_BlockingPIDs e) ++ pairs raw).
  cbn [foldl]. rewrite foldl_app, IH. f_equal. unfold addRow.
  generalize acc. induction (raw_BlockingPIDs e) as [|bp l IHl]; intros a; [done|].
  cbn [foldl map]. apply IHl.
Qed.

Lemma pids_append m k pid x : pids_of (append_pid m k pid) x
  = if decide (x = k) then pids_of m k ++ [pid] else pids_of m x.
Proof.
  unfold append_pid. unfold pids_of at 1. case_decide as H.
  - subst x. by rewrite lookup_insert_eq.
  - by rewrite lookup_insert_ne.
Qed.

Record pair_maps (ps : list (Z * Z)) (blockedBy blocks : pidlists) : Prop := {
  pm_blockedBy : forall v u, u ∈ pids_of blockedBy v <-> (v, u) ∈ ps;
  pm_blocks : forall v u, v ∈ pids_of blocks u <-> (v, u) ∈ ps;
  pm_dom_by : forall v, v ∈ dom blockedBy <-> exists u, (v, u) ∈ ps;
  pm_dom : forall u, u ∈ dom blocks <-> exists v, (v, u) ∈ ps
}.

Lemma pair_maps_foldl ps :
  let m := foldl (fun a p => addBlocking p.1 a p.2) (∅, ∅) ps in pair_maps ps m.1 m.2.
Proof.
  induction ps as [|[v u] ps IH] using rev_ind.
  - assert (Hno : forall v u, (v, u) ∈ ([] : list (Z * Z)) <-> False).
    { intros v u. split; [apply not_elem_of_nil|done]. }
    split; cbn; intros; unfold pids_of; rewrite ?lookup_empty, ?dom_empty; cbn;
      rewrite ?elem_of_empty, ?Hno; try (split; [apply not_elem_of_nil|done]);
      (split; [done|]; intros [x Hx]; by apply Hno in Hx).
  - rewrite foldl_app. cbn [foldl]. cbv zeta in IH. destruct (foldl _ _ ps) as [by_ bl]. cbn [addBlocking fst snd] in *.
    destruct IH as [H1 H2 H3 H4].
    assert (Hin : forall a b, (a, b) ∈ ps ++ [(v, u)] <-> (a, b) ∈ ps \/ (a = v /\ b = u)).
    { intros a b. rewrite elem_of_app, list_elem_of_singleton. naive_solver. }
    split.
    + intros a b. rewrite Hin, pids_append. case_decide as Ha.
      * subst a. rewrite elem_of_app, list_elem_of_singleton, H1. naive_solver.
      * rewrite H1. naive_solver.
    + intros a b. rewrite Hin, pids_append. case_decide as Hb.
      * subst b. rewrite elem_of_app, list_elem_of_singleton, H2. naive_solver.
      * rewrite H2. naive_solver.
    + intros a. unfold append_pid. rewrite dom_insert, elem_of_union, elem_of_singleton, H3.
      setoid_rewrite Hin. naive_solver.
    + intros b. unfold append_pid. rewrite dom_insert, elem_of_union, elem_of_singleton, H4.
      setoid_rewrite Hin. naive_solver.
Qed.

Lemma indexRows_spec raw v :
  match indexRows raw !! v with
  | Some e => e ∈ raw /\ raw_PID e = v
  | None => forall e, e ∈ raw -> raw_PID e <> v
  end.
Proof.
  unfold indexRows. induction raw as [|e raw IH] using rev_ind.
  - cbn. rewrite lookup_empty. intros e H. by apply not_elem_of_nil in H.
  - rewrite foldl_app. cbn [foldl]. destruct (decide (raw_PID e = v)) as [Hv|Hv].
    + rewrite <- Hv, lookup_insert_eq. split; [|done]. apply elem_of_app. right. by left.
    + rewrite lookup_insert_ne by done. destruct (foldl _ ∅ raw !! v) as [e'|].
      * destruct IH as [H1 H2]. split; [|done]. apply elem_of_app. by left.
      * intros e' [H|H]%elem_of_app; [by apply IH|]. by apply list_elem_of_singleton in H as ->.
Qed.

Lemma mark_dom l : forall m, dom (foldl mark m l) = dom m ∪ list_to_set l.
Proof.
  induction l as [|x l IH]; intros m; cbn [foldl list_to_set foldr]; [set_solver|].
  rewrite IH. unfold mark. rewrite dom_insert_L. set_solver.
Qed.

Lemma mark_all_true l : forall m, all_true m -> all_true (foldl mark m l).
Proof.
  induction l as [|x l IH]; intros m Hm; [done|]. cbn [foldl]. apply IH.
  intros k b. unfold mark. rewrite lookup_insert_Some. intros [[_ <-]|[_ H]]; [done|eauto].
Qed.

Section Theorems.
Context {SS : SliceSort} {MR : MapRange}.

Lemma sort_elem (l : list Z) x : x ∈ sort_slice Z.ltb l <-> x ∈ l.
Proof. by rewrite sort_slice_perm. Qed.

Lemma involved_dom (blockedBy blocks : pidlists) x :
  x ∈ dom (involvedPIDs blockedBy blocks) <->
  x ∈ dom blockedBy \/ (exists k, k ∈ dom blockedBy /\ x ∈ pids_of blockedBy k) \/ x ∈ dom blocks.
Proof.
  unfold involvedPIDs.
  assert (H2 : forall l m, x ∈ dom (foldl (fun m (kv : Z * list Z) => mark m kv.1) m l)
                 <-> x ∈ dom m \/ x ∈ l.*1).
  { induction l as [|y l IH]; intros m; cbn [foldl fmap list_fmap].
    - split; [by left|]. intros [|H]; [done|by apply not_elem_of_nil in H].
    - rewrite IH. unfold mark. rewrite dom_insert, elem_of_cons. set_solver. }
  assert (H1 : forall l m,
    x ∈ dom (foldl (fun m (kv : Z * list Z) => foldl mark (mark m kv.1) (pids_of blockedBy kv.1)) m l)
      <-> x ∈ dom m \/ x ∈ l.*1 \/ exists k, k ∈ l.*1 /\ x ∈ pids_of blockedBy k).
  { induction l as [|y l IH]; intros m; cbn [foldl fmap list_fmap].
    - split; [by left|]. intros [|[H|(k & H & _)]]; [done|by apply not_elem_of_nil in H..].
    - rewrite IH, mark_dom. unfold mark. rewrite dom_insert, !elem_of_union, elem_of_list_to_set.
      setoid_rewrite elem_of_cons. set_solver. }
  assert (Hk : forall (m : pidlists) k, k ∈ (map_range m).*1 <-> k ∈ dom m).
  { intros m k. rewrite map_range_perm, elem_of_dom, elem_fst. unfold is_Some.
    by setoid_rewrite elem_of_map_to_list. }
  rewrite H2, H1, !Hk, dom_empty. setoid_rewrite Hk. set_solver.
Qed.

Lemma rootPIDs_spec raw blockedBy blocks : pair_maps (pairs raw) blockedBy blocks ->
  NoDup (rootPIDs blockedBy blocks) /\
  forall r, r ∈ rootPIDs blockedBy blocks <-> row_root raw r.
Proof.
  intros [H1 H2 H3 H4]. unfold rootPIDs. split.
  - rewrite sort_slice_perm. apply NoDup_filter_fst. rewrite map_range_perm.
    apply NoDup_fst_map_to_list.
  - intros r. rewrite sort_elem, elem_fst. setoid_rewrite elem_of_filter_bool. cbn [fst].
    assert (Hd : (exists b, (r, b) ∈ map_range (involvedPIDs blockedBy blocks)) <->
                 r ∈ dom (involvedPIDs blockedBy blocks)).
    { rewrite elem_of_dom. setoid_rewrite map_range_perm. setoid_rewrite elem_of_map_to_list. done. }
    assert (Hlen : (len (pids_of blockedBy r) =? 0) = true <-> forall u, (r, u) ∉ pairs raw).
    { rewrite Z.eqb_eq. setoid_rewrite <- H1. unfold len.
      destruct (pids_of blockedBy r) as [|u l]; cbn.
      - split; [|done]. intros _ u H. by apply not_elem_of_nil in H.
      - split; [lia|]. intros H. destruct (H u). by left. }
    assert (Hroot : row_root raw r <-> (exists v, (v, r) ∈ pairs raw) /\ forall u, (r, u) ∉ pairs raw).
    { unfold row_root. setoid_rewrite pairs_elem. split.
      - intros [(e & He & Hr) Hn]. split; [by exists (raw_PID e), e|].
        intros u (e' & He' & Hv & Hu). rewrite (Hn e' He' Hv) in Hu. by apply not_elem_of_nil in Hu.
      - intros [(v & e & He & _ & Hr) Hn]. split; [by exists e|]. intros e' He' Hv.
        destruct (raw_BlockingPIDs e') as [|u l] eqn:E; [done|].
        destruct (Hn u). exists e'. rewrite E. repeat split; [done..|by left]. }
    rewrite Hroot. split.
    + intros (b & Hl & Hin). assert (Hn := proj1 Hlen Hl). split; [|done].
      assert (r ∈ dom (involvedPIDs blockedBy blocks)) as Hi by (apply Hd; by exists b).
      apply involved_dom in Hi as [Hi|[(k & _ & Hi)|Hi]].
      * apply H3 in Hi as [u Hu]. by destruct (Hn u).
      * apply H1 in Hi. by exists k.
      * by apply H4.
    + intros [[v Hv] Hn]. assert (r ∈ dom (involvedPIDs blockedBy blocks)) as Hi.
      { apply involved_dom. right. right. apply H4. by exists v. }
      apply Hd in Hi as [b Hb]. exists b. split; [by apply Hlen|done].
Qed.

(** ** The loop *)

(** Pairs of blocker and victim whose blocker was not visited yet. *)
Definition remaining (l : list (Z * list Z)) (visited : pidset) : nat :=
  sum_list (map (fun kv => if has visited kv.1 then O else length kv.2) l).

Lemma remaining_mark l v visited : NoDup l.*1 -> has visited v = false ->
  (forall x, (v, x) ∈ l -> (remaining l (mark visited v) + length x = remaining l visited)%nat) /\
  (v ∉ l.*1 -> remaining l (mark visited v) = remaining l visited).
Proof.
  intros Hnd Hv. induction l as [|[k y] l IH]; cbn [fmap list_fmap fst] in *.
  { split; [|done]. intros x H. by apply not_elem_of_nil in H. }
  apply NoDup_cons in Hnd as [Hk Hnd]. destruct (IH Hnd) as [IH1 IH2].
  assert (Hcons : forall vis, remaining ((k, y) :: l) vis
    = ((if has vis k then O else length y) + remaining l vis)%nat) by done.
  rewrite !Hcons. unfold mark at 1 3. rewrite !has_insert. split.
  - intros x [[= <- <-]|Hx]%elem_of_cons.
    + rewrite bool_decide_true, Hv by done. cbn [orb]. specialize (IH2 Hk). lia.
    + assert (k <> v).
      { intros ->. apply Hk. apply elem_fst. by exists x. }
      rewrite bool_decide_false by done. cbn [orb]. specialize (IH1 x Hx). lia.
  - intros Hn. apply not_elem_of_cons in Hn as [Hne Hn].
    rewrite bool_decide_false by done. cbn [orb]. by rewrite (IH2 Hn).
Qed.

Lemma remaining_visit (blocks : pidlists) v visited : has visited v = false ->
  (remaining (map_to_list blocks) (mark visited v) + length (pids_of blocks v)
   = remaining (map_to_list blocks) visited)%nat.
Proof.
  intros Hv. destruct (remaining_mark (map_to_list blocks) v visited) as [H1 H2];
    [apply NoDup_fst_map_to_list|done|].
  unfold pids_of. destruct (blocks !! v) as [x|] eqn:E; cbn [default from_option].
  - apply H1. by apply elem_of_map_to_list.
  - cbn. rewrite H2; [lia|]. intros [x Hx]%elem_fst. apply elem_of_map_to_list in Hx. congruence.
Qed.

Definition places (l : list bfsItem) : items := map (fun i => (bi_pid i, bi_depth i)) l.

(** An item is a root, or one step below an item that was visited. *)
Definition item_ok (raw : list RawLockEntry) (visitedItems : list bfsItem) (i : bfsItem) : Prop :=
  match bi_parent i with
  | None => bi_depth i = 0 /\ row_root raw (bi_pid i)
  | Some p => exists j, j ∈ visitedItems /\ bi_pid j = p /\ bi_depth i = bi_depth j + 1 /\
                row_step raw p (bi_pid i)
  end.

Definition entriesOf (byPID : gmap Z RawLockEntry) (blockedBy blocks : pidlists)
    (l : list bfsItem) : list LockEntry :=
  omap (fun i => entryOf blockedBy blocks i <$> byPID !! bi_pid i) l.

Record tree_inv (raw : list RawLockEntry) (D q : list bfsItem) (visited : pidset)
    (maxDepth : Z) : Prop := {
  ti_bfs : bfs_inv (row_root raw) (row_step raw) (places D) (places q);
  ti_visited : forall v, has visited v = true <-> v ∈ map bi_pid D;
  ti_NoDup : NoDup (map bi_pid D);
  ti_items : forall i, i ∈ D ++ q -> item_ok raw D i;
  ti_max : forall i, i ∈ D -> bi_depth i <= maxDepth;
  ti_attained : (D = [] /\ maxDepth = 0) \/ exists i, i ∈ D /\ bi_depth i = maxDepth
}.

Lemma places_fst l : (places l).*1 = map bi_pid l.
Proof. unfold places. rewrite <- list_fmap_compose. done. Qed.

Lemma item_ok_mono raw D D' i : (forall j, j ∈ D -> j ∈ D') -> item_ok raw D i -> item_ok raw D' i.
Proof.
  intros H. unfold item_ok. destruct (bi_parent i); [|done]. intros (j & Hj & H'). exists j. auto.
Qed.

Lemma tree_skip raw D i q visited maxDepth :
  tree_inv raw D (i :: q) visited maxDepth -> has visited (bi_pid i) = true ->
  tree_inv raw D q visited maxDepth.
Proof.
  intros [H1 H2 H3 H4 H5 H6] Hv. split; try done.
  - apply (bfs_skip _ _ _ (bi_pid i) (bi_depth i)); [done|]. rewrite places_fst. by apply H2.
  - intros j [Hj|Hj]%elem_of_app; apply H4, elem_of_app; [by left|]. right. by right.
Qed.

Lemma tree_visit raw D i q cs visited maxDepth :
  tree_inv raw D (i :: q) visited maxDepth -> has visited (bi_pid i) = false ->
  (forall c, c ∈ cs -> row_step raw (bi_pid i) c) ->
  (forall c, row_step raw (bi_pid i) c -> c ∈ cs \/ has (mark visited (bi_pid i)) c = true) ->
  tree_inv raw (D ++ [i]) (q ++ map (fun c => mkItem c (bi_depth i + 1) (Some (bi_pid i))) cs)
    (mark visited (bi_pid i)) (if maxDepth <? bi_depth i then bi_depth i else maxDepth).
Proof.
  intros [H1 H2 H3 H4 H5 H6] Hv Hcs Hall.
  assert (HvD : bi_pid i ∉ map bi_pid D) by (rewrite <- H2, Hv; done).
  assert (Hplaces : places (q ++ map (fun c => mkItem c (bi_depth i + 1) (Some (bi_pid i))) cs)
    = places q ++ map (fun c => (c, bi_depth i + 1)) cs).
  { unfold places. rewrite map_app, map_map. done. }
  split.
  - rewrite Hplaces. unfold places at 1. rewrite map_app. cbn [map].
    apply bfs_visit; [done|by rewrite places_fst|done|].
    intros c Hc. destruct (Hall c Hc) as [|Hm]; [by left|]. right.
    unfold mark in Hm. rewrite has_insert, orb_true_iff, bool_decide_eq_true in Hm.
    destruct Hm as [->|Hm]; [by left|]. right. left. rewrite places_fst. by apply H2.
  - intros v. unfold mark. rewrite has_insert, orb_true_iff, bool_decide_eq_true, H2, map_app,
      elem_of_app. cbn [map]. rewrite list_elem_of_singleton. tauto.
  - rewrite map_app. apply NoDup_app. split; [done|]. split.
    + intros v Hin Hs. apply list_elem_of_singleton in Hs as ->. done.
    + apply NoDup_singleton.
  - intros j Hj. rewrite !elem_of_app in Hj. destruct Hj as [[Hj|Hj]|[Hj|Hj]].
    + apply (item_ok_mono raw D); [set_solver|]. apply H4, elem_of_app. by left.
    + apply list_elem_of_singleton in Hj as ->. apply (item_ok_mono raw D); [set_solver|].
      apply H4, elem_of_app. right. by left.
    + apply (item_ok_mono raw D); [set_solver|]. apply H4, elem_of_app. right. by right.
    + apply list_elem_of_fmap in Hj as (c & -> & Hc).
      unfold item_ok. cbn [bi_parent bi_pid bi_depth]. exists i.
      split; [apply elem_of_app; right; by left|]. split; [done|]. split; [done|by apply Hcs].
  - intros j [Hj|Hj]%elem_of_app; [specialize (H5 j Hj)|apply list_elem_of_singleton in Hj as ->];
      destruct (Z.ltb_spec maxDepth (bi_depth i)); lia.
  - right. destruct (Z.ltb_spec maxDepth (bi_depth i)).
    + exists i. split; [apply elem_of_app; right; by left|done].
    + destruct H6 as [[-> ->]|(j & Hj & <-)].
      * exists i. split; [by left|].
        pose proof (walk_nonneg _ _ _ _ (bi_queue _ _ _ _ H1 (bi_pid i) (bi_depth i) ltac:(by left))).
        lia.
      * exists j. split; [apply elem_of_app; by left|done].
Qed.

Lemma treeLoop_spec raw blockedBy blocks : pair_maps (pairs raw) blockedBy blocks ->
  forall fuel D q visited maxDepth, tree_inv raw D q visited maxDepth ->
  (length q + remaining (map_to_list blocks) visited <= fuel)%nat ->
  exists D' visited' m, treeLoop (indexRows raw) blockedBy blocks fuel q visited
    (entriesOf (indexRows raw) blockedBy blocks D) maxDepth
      = Some (entriesOf (indexRows raw) blockedBy blocks D', m) /\
    tree_inv raw D' [] visited' m.
Proof.
  intros Hpm. induction fuel as [|fuel IH]; intros D q visited maxDepth I Hf.
  { destruct q; [|cbn in Hf; lia]. by exists D, visited, maxDepth. }
  destruct q as [|i q]; [by exists D, visited, maxDepth|]. cbn [treeLoop length] in *.
  destruct (has visited (bi_pid i)) eqn:Hv.
  { apply IH; [by eapply tree_skip|lia]. }
  pose proof (remaining_visit blocks _ _ Hv) as Hrem.
  assert (Happ : forall x, entriesOf (indexRows raw) blockedBy blocks (D ++ [x])
    = entriesOf (indexRows raw) blockedBy blocks D ++
      match indexRows raw !! bi_pid x with Some row => [entryOf blockedBy blocks x row] | None => [] end).
  { intros x. unfold entriesOf. rewrite omap_app. cbn. by destruct (indexRows raw !! bi_pid x). }
  specialize (Happ i). pose proof (indexRows_spec raw (bi_pid i)) as Hrow.
  destruct (indexRows raw !! bi_pid i) as [row|] eqn:Erow.
  - rewrite <- Happ. apply IH.
    + unfold childItems. apply tree_visit; try done.
      * intros c Hc. apply elem_of_filter_bool in Hc as [_ Hc]. rewrite sort_elem in Hc.
        apply (pm_blocks _ _ _ Hpm), pairs_elem in Hc. split; [by exists row|done].
      * intros c [_ Hc]. destruct (has (mark visited (bi_pid i)) c) eqn:E; [by right|left].
        apply elem_of_filter_bool. rewrite E. split; [done|]. rewrite sort_elem.
        by apply (pm_blocks _ _ _ Hpm), pairs_elem.
    + rewrite length_app. unfold childItems. rewrite length_map.
      assert (length (List.filter (fun c => negb (has (mark visited (bi_pid i)) c))
                (sort_slice Z.ltb (pids_of blocks (bi_pid i)))) <= length (pids_of blocks (bi_pid i)))%nat.
      { etrans; [apply filter_length_le|]. by rewrite sort_slice_perm. }
      lia.
  - rewrite app_nil_r in Happ. rewrite <- Happ. rewrite <- (app_nil_r q). apply IH.
    + apply (tree_visit _ _ _ _ []); try done.
      * intros c H. by apply not_elem_of_nil in H.
      * intros c [(e & He & Hp) _]. by destruct (Hrow e He).
    + rewrite app_nil_r. lia.
Qed.

(** ** The answer *)

Lemma entriesOf_elem raw blockedBy blocks D e :
  e ∈ entriesOf (indexRows raw) blockedBy blocks D <->
  exists i row, i ∈ D /\ indexRows raw !! bi_pid i = Some row /\
    e = entryOf blockedBy blocks i row.
Proof.
  unfold entriesOf. rewrite list_elem_of_omap. split.
  - intros (i & Hi & He). destruct (indexRows raw !! bi_pid i) as [row|] eqn:E; [|done].
    injection He as <-. by exists i, row.
  - intros (i & row & Hi & Hr & ->). exists i. split; [done|]. by rewrite Hr.
Qed.

Lemma indexRows_pid raw v row : indexRows raw !! v = Some row -> raw_PID row = v.
Proof. intros H. pose proof (indexRows_spec raw v) as Hs. rewrite H in Hs. apply Hs. Qed.

Lemma entriesOf_NoDup raw blockedBy blocks D : NoDup (map bi_pid D) ->
  NoDup (map l_PID (entriesOf (indexRows raw) blockedBy blocks D)).
Proof.
  induction D as [|i D IH]; [constructor|]. cbn [map]. intros [Hi Hn]%NoDup_cons.
  unfold entriesOf. cbn [omap list_omap].
  destruct (indexRows raw !! bi_pid i) as [row|] eqn:E; cbn [fmap option_fmap option_map]; [|by apply IH].
  cbn [map]. apply NoDup_cons. split; [|by apply IH].
  intros (e & He & Hin)%list_elem_of_fmap. apply entriesOf_elem in Hin as (j & r & Hj & Hr & ->).
  cbn in He. rewrite (indexRows_pid _ _ _ E), (indexRows_pid _ _ _ Hr) in He.
  apply Hi, list_elem_of_fmap. by exists j.
Qed.

Lemma weak_byDepthThenPID (l : list LockEntry) : weak_on byDepthThenPID l.
Proof.
  unfold byDepthThenPID. split.
  - intros x y _ _. destruct (Z.eqb_spec (l_Depth x) (l_Depth y)), (Z.eqb_spec (l_Depth y) (l_Depth x));
      cbn [negb]; rewrite ?Z.ltb_lt, ?Z.ltb_ge; lia.
  - intros x y z _ _ _.
    destruct (Z.eqb_spec (l_Depth x) (l_Depth y)), (Z.eqb_spec (l_Depth y) (l_Depth z)),
      (Z.eqb_spec (l_Depth x) (l_Depth z)); cbn [negb]; rewrite ?Z.ltb_ge; lia.
Qed.

Lemma countIf_foldl {A} (f : A -> bool) (l : list A) : forall n : Z,
  foldl (fun n x => if f x then n + 1 else n) n l = n + len (List.filter f l).
Proof.
  unfold len. induction l as [|x l IH]; intros n; cbn [foldl List.filter]; [cbn; lia|].
  rewrite IH. destruct (f x); [|done]. cbn [length]. lia.
Qed.

(** The answer has an entry for session [v] at depth [d]. *)
Definition shows (resp : LockTreeResponse) (d v : Z) : Prop :=
  exists e, e ∈ lr_Locks resp /\ l_PID e = v /\ l_Depth e = d.

(** An entry below the roots names a session it waits for, which the answer shows one level up. *)
Definition parent_ok (raw : list RawLockEntry) (resp : LockTreeResponse) (e : LockEntry) : Prop :=
  match l_ParentPID e with
  | None => l_Depth e = 0
  | Some p => row_step raw p (l_PID e) /\ shows resp (l_Depth e - 1) p
  end.

Definition row_distance (raw : list RawLockEntry) : Z -> Z -> Prop :=
  distance (row_root raw) (row_step raw).

(** The whole run of the loop: the items visited are the vertices within reach, at their distances. *)
Lemma tree_run raw blockedBy blocks roots :
  pair_maps (pairs raw) blockedBy blocks -> (forall r, r ∈ roots <-> row_root raw r) ->
  exists D m, treeLoop (indexRows raw) blockedBy blocks (treeFuel roots blocks)
    (map (fun rp => mkItem rp 0 None) roots) ∅ [] 0
      = Some (entriesOf (indexRows raw) blockedBy blocks D, m) /\
    NoDup (map bi_pid D) /\ (forall i, i ∈ D -> item_ok raw D i) /\
    (forall i, i ∈ D -> bi_depth i <= m) /\
    (forall i, i ∈ D -> row_distance raw (bi_depth i) (bi_pid i)) /\
    (forall v d, row_distance raw d v -> exists i, i ∈ D /\ bi_pid i = v /\ bi_depth i = d).
Proof.
  intros Hpm Hroots. destruct (treeLoop_spec raw _ _ Hpm (treeFuel roots blocks) []
              (map (fun rp => mkItem rp 0 None) roots) ∅ 0) as (D & vis & m & Hrun & I).
  { split.
    - unfold places. rewrite map_map. apply bfs_inv_init. intros r. by rewrite Hroots.
    - intros v. unfold has. rewrite lookup_empty. split; [done|]. intros H.
      by apply not_elem_of_nil in H.
    - constructor.
    - intros i (r & -> & Hr)%list_elem_of_fmap. split; [done|by apply Hroots].
    - intros i H. by apply not_elem_of_nil in H.
    - by left. }
  { rewrite length_map. unfold treeFuel, remaining.
    apply Nat.add_le_mono_l, Nat.eq_le_incl. reflexivity. }
  destruct I as [Hb _ HnD Hitems Hmax _]. apply bfs_complete in Hb as [Hreach Hdist].
  exists D, m. split; [exact Hrun|]. split; [done|]. split.
  { intros i Hi. apply Hitems, elem_of_app. by left. }
  split; [done|].
  assert (HDpl : forall i, i ∈ D -> row_distance raw (bi_depth i) (bi_pid i)).
  { intros i Hi. apply Hdist, list_elem_of_fmap. by exists i. }
  split; [done|]. intros v d Hd.
  assert (v ∈ (places D).*1) as Hv by (apply Hreach; exists d; apply Hd).
  rewrite places_fst in Hv. apply list_elem_of_fmap in Hv as (i & -> & Hi). exists i.
  split; [done|]. split; [done|]. by apply (distance_unique _ _ _ _ _ (HDpl i Hi)).
Qed.

(** C13: The blocking tree of the API. Whatever sessions the server reports, building the tree ends. It shows
    exactly the sessions with a row that chains of waiting sessions connect to a session that
    waits for nobody, each once, at its distance from the nearest such session; every entry below
    the roots names a session it waits for, one level up; entries are ordered by depth and pid,
    and the summary counts them. *)
Theorem lock_tree_exact (raw : list RawLockEntry) :
  exists resp roots, BuildLockTree raw = Some resp /\
    NoDup (map l_PID (lr_Locks resp)) /\
    (forall v d, shows resp d v <-> row_distance raw d v /\ exists e, e ∈ raw /\ raw_PID e = v) /\
    (forall e, e ∈ lr_Locks resp -> parent_ok raw resp e) /\
    StronglySorted (fun a b => byDepthThenPID b a = false) (lr_Locks resp) /\
    NoDup roots /\ (forall r, r ∈ roots <-> row_root raw r) /\
    lt_RootBlockers (lr_Summary resp) = len roots /\
    lt_TotalBlocked (lr_Summary resp)
      = len (List.filter (fun e => negb (l_Depth e =? 0)) (lr_Locks resp)) /\
    (forall v d, row_distance raw d v -> d <= lt_MaxDepth (lr_Summary resp)).
Proof.
  unfold BuildLockTree, blockingMaps. rewrite blockingMaps_pairs.
  pose proof (pair_maps_foldl (pairs raw)) as Hpm. cbv zeta in Hpm.
  destruct (foldl _ _ (pairs raw)) as [blockedBy blocks]. cbn [fst snd] in Hpm.
  destruct (rootPIDs_spec raw _ _ Hpm) as [Hnd Hroots].
  set (roots := rootPIDs blockedBy blocks) in *.
  destruct (tree_run raw _ _ roots Hpm Hroots) as (D & m & Hrun & HnD & Hitems & Hmax & HDpl & Hin).
  rewrite Hrun. cbn [mbind option_bind].
  set (E := entriesOf (indexRows raw) blockedBy blocks D) in *.
  assert (HE : forall e, e ∈ E <-> exists i row, i ∈ D /\ indexRows raw !! bi_pid i = Some row /\
    e = entryOf blockedBy blocks i row) by (intros e; apply entriesOf_elem).
  assert (Hsh : forall resp, lr_Locks resp = sort_slice byDepthThenPID E -> forall v d,
    shows resp d v <-> row_distance raw d v /\ exists e, e ∈ raw /\ raw_PID e = v).
  { intros resp Hr v d. unfold shows. rewrite Hr. setoid_rewrite sort_slice_perm. setoid_rewrite HE.
    split.
    - intros (e & (i & row & Hi & Hrow & ->) & <- & <-). cbn [l_PID l_Depth entryOf].
      pose proof (indexRows_spec raw (bi_pid i)) as Hs. rewrite Hrow in Hs. destruct Hs as [Hs1 Hs2].
      rewrite Hs2. split; [by apply HDpl|by exists row].
    - intros [Hd (e0 & He0 & Hp)]. destruct (Hin v d Hd) as (i & Hi & Hiv & Hid).
      pose proof (indexRows_spec raw v) as Hs. destruct (indexRows raw !! v) as [row|] eqn:Er.
      + exists (entryOf blockedBy blocks i row). cbn [l_PID l_Depth entryOf].
        split; [|by split; [apply Hs|]]. exists i, row. by rewrite Hiv.
      + by destruct (Hs e0 He0). }
  eexists _, roots. split; [reflexivity|]. cbn [lr_Locks lr_Summary lt_RootBlockers lt_TotalBlocked lt_MaxDepth].
  split; [|split; [|split; [|split; [|split; [done|split; [done|split; [done|split]]]]]]].
  - rewrite sort_slice_perm. by apply entriesOf_NoDup.
  - intros v d. by apply Hsh.
  - intros e He. rewrite sort_slice_perm in He. apply HE in He as (i & row & Hi & Hrow & ->).
    pose proof (Hitems i Hi) as Hok.
    unfold item_ok in Hok. unfold parent_ok. cbn [l_ParentPID l_Depth l_PID entryOf].
    destruct (bi_parent i) as [p|]; [|apply Hok]. destruct Hok as (j & Hj & <- & Hdep & Hst).
    rewrite (indexRows_pid _ _ _ Hrow). split; [done|].
    apply Hsh; [done|]. rewrite Hdep. replace (bi_depth j + 1 - 1) with (bi_depth j) by lia.
    split; [by apply HDpl|]. by destruct Hst as [Hst _].
  - apply sort_slice_sorted, weak_byDepthThenPID.
  - rewrite countIf_foldl, Z.add_0_l. f_equal. apply List.filter_ext_in. intros e He.
    apply list_elem_of_In in He. rewrite sort_slice_perm in He.
    apply HE in He as (i & row & Hi & Hrow & ->). done.
  - intros v d Hd. destruct (Hin v d Hd) as (i & Hi & _ & <-). by apply Hmax.
Qed.

(** Sessions that wait for each other in circles, with no session outside in their way, are not
    shown, and nobody counts as blocked. *)
Lemma rootless_tree_empty (raw : list RawLockEntry) :
  (forall r, ~ row_root raw r) -> exists resp, BuildLockTree raw = Some resp /\
    lr_Locks resp = [] /\ lt_TotalBlocked (lr_Summary resp) = 0.
Proof.
  intros Hno. unfold BuildLockTree, blockingMaps. rewrite blockingMaps_pairs.
  pose proof (pair_maps_foldl (pairs raw)) as Hpm. cbv zeta in Hpm.
  destruct (foldl _ _ (pairs raw)) as [blockedBy blocks]. cbn [fst snd] in Hpm.
  destruct (rootPIDs_spec raw _ _ Hpm) as [_ Hroots].
  destruct (rootPIDs blockedBy blocks) as [|r roots]; [|by destruct (Hno r); apply Hroots; left].
  assert (Hloop : forall fuel, treeLoop (indexRows raw) blockedBy blocks fuel [] ∅ [] 0 = Some ([], 0))
    by (by intros []).
  cbn [map]. rewrite Hloop. cbn [mbind option_bind].
  assert (Hs : sort_slice byDepthThenPID [] = []).
  { apply Permutation_nil_r, sort_slice_perm. }
  rewrite Hs. eexists. split; [reflexivity|done].
Qed.

End Theorems.
