(* ===== verification/CollectorsHigh.v ===== *)
(** * The collectors of the high-frequency group

    Models internal/collector/connections.go, cache.go, wait_events.go and long_transactions.go
    (the lock tree is in [LockTree], the operating system in [OsCollectors]). *)
From S2P Require Import Prelude Float64 Metric SqlConn Collector.

Local Open Scope Z_scope.

(** ** Connections *)

Definition sqlConnectionsByState : string := "
SELECT COALESCE(state, 'unknown') AS state, count(*) AS cnt
FROM pg_stat_activity
WHERE pid != pg_backend_pid()
  AND backend_type = 'client backend'
GROUP BY 1".

Definition sqlConnectionsMaxReserved : string := "
SELECT
    current_setting('max_connections')::bigint AS max_conn,
    current_setting('superuser_reserved_connections')::bigint AS reserved".

Definition Connections_scan `{DR : Driver} : Scanner (string * Z) :=
  state ← str; cnt ← int64; mret (state, cnt).

(** [connections.utilization_pct]: connections over the slots that are not reserved. *)
Definition utilization (total : float64) (maxConn reserved : Z) : float64 :=
  let available := i64 (maxConn - reserved) in
  if 0 <? available then fmul (fdiv total (f_of_Z available)) (f_of_Z 100) else f_of_Z 100.

Definition Connections_Collect `{DR : Driver} (now : Time) (c : Base) (conn : Conn)
    : result (list MetricPoint) :=
  match query_rows conn sqlConnectionsByState [] Connections_scan
          (wrap "connections collect states") (wrap "connections scan state row")
          (wrap "connections iterate state rows") with
  | Err e => Err e
  | Ok rows =>
      let byState := map (fun r => point now c "connections.by_state" (f_of_Z r.2)
                                     (labels_of [("state", r.1)])) rows in
      let total := foldl (fun t r => fadd t (f_of_Z r.2)) f0 rows in
      match query_row conn sqlConnectionsMaxReserved [] (maxConn ← int64; reserved ← int64;
                                                         mret (maxConn, reserved)) with
      | Err e => Err (wrap "connections collect max/reserved" e)
      | Ok (maxConn, reserved) =>
          Ok (byState ++
            [ point now c "connections.total" total ∅;
              point now c "connections.max" (f_of_Z maxConn) ∅;
              point now c "connections.superuser_reserved" (f_of_Z reserved) ∅;
              point now c "connections.utilization_pct" (utilization total maxConn reserved) ∅ ])
      end
  end.

(** ** Cache *)

Definition sqlCacheHitRatio : string := "
SELECT COALESCE(
    sum(blks_hit) * 100.0 / NULLIF(sum(blks_hit) + sum(blks_read), 0),
    0
) AS hit_ratio
FROM pg_stat_database".

Definition Cache_Collect `{DR : Driver} (now : Time) (c : Base) (conn : Conn)
    : result (list MetricPoint) :=
  match query_row conn sqlCacheHitRatio [] float with
  | Err e => Err (wrap "cache collect hit_ratio" e)
  | Ok hitRatio => Ok [point now c "cache.hit_ratio" hitRatio ∅]
  end.

(** ** Wait events *)

Definition sqlWaitEvents : string := "
SELECT
    COALESCE(wait_event_type, 'CPU') AS wait_event_type,
    COALESCE(wait_event, 'Running')  AS wait_event,
    count(*)                         AS cnt
FROM pg_stat_activity
WHERE pid != pg_backend_pid()
  AND backend_type = 'client backend'
GROUP BY 1, 2
ORDER BY 3 DESC".

Record waitEventRow := mkWaitEvent {
  we_eventType : string;
  we_event : string;
  we_count : float64
}.

Definition WaitEvents_scan `{DR : Driver} : Scanner waitEventRow :=
  eventType ← str; event ← str; count ← float; mret (mkWaitEvent eventType event count).

Definition WaitEvents_buildMetrics (now : Time) (c : Base) (rows : list waitEventRow)
    : list MetricPoint :=
  map (fun row => point now c "wait_events.count" (we_count row)
         (labels_of [("wait_event_type", we_eventType row); ("wait_event", we_event row)])) rows
  ++ [point now c "wait_events.total_backends" (foldl (fun t row => fadd t (we_count row)) f0 rows) ∅].

Definition WaitEvents_Collect `{DR : Driver} (now : Time) (c : Base) (conn : Conn)
    : result (list MetricPoint) :=
  match query_rows conn sqlWaitEvents [] WaitEvents_scan (wrap "wait_events")
          (wrap "wait_events scan") (wrap "wait_events rows") with
  | Err e => Err e
  | Ok rows => Ok (WaitEvents_buildMetrics now c rows)
  end.

(** ** Long transactions *)

Definition longTxnThreshold : string := "5 seconds".

Definition sqlLongTransactions : string := "
SELECT
    CASE WHEN wait_event IS NULL THEN 'active' ELSE 'waiting' END AS txn_type,
    count(*)                                                       AS cnt,
    COALESCE(extract(epoch FROM max(now() - xact_start)), 0)      AS oldest_seconds
FROM pg_stat_activity
WHERE xact_start < now() - $1::interval
  AND state = 'active'
  AND pid != pg_backend_pid()
  AND backend_type = 'client backend'
GROUP BY 1".

Record longTxnRow := mkLongTxn {
  lx_txnType : string;
  lx_count : float64;
  lx_oldestSeconds : float64
}.

Definition LongTxn_scan `{DR : Driver} : Scanner longTxnRow :=
  txnType ← str; count ← float; oldest ← float; mret (mkLongTxn txnType count oldest).

(** The two points of a transaction type. *)
Definition longTxnPoints (now : Time) (c : Base) (txnType : string) (count oldest : float64)
    : list MetricPoint :=
  let labels := labels_of [("type", txnType)] in
  [ point now c "long_transactions.count" count labels;
    point now c "long_transactions.oldest_seconds" oldest labels ].

Definition LongTxn_buildMetrics (now : Time) (c : Base) (rows : list longTxnRow)
    : list MetricPoint :=
  let points := foldl (fun acc row => acc ++ longTxnPoints now c (lx_txnType row) (lx_count row)
                                               (lx_oldestSeconds row)) [] rows in
  foldl (fun acc t => if existsb (fun row => String.eqb (lx_txnType row) t) rows then acc
                      else acc ++ longTxnPoints now c t f0 f0) points ["active"; "waiting"].

Definition LongTxn_Collect `{DR : Driver} (now : Time) (c : Base) (conn : Conn)
    : result (list MetricPoint) :=
  match query_rows conn sqlLongTransactions [AText longTxnThreshold] LongTxn_scan
          (wrap "long_transactions") (wrap "long_transactions scan")
          (wrap "long_transactions rows") with
  | Err e => Err e
  | Ok rows => Ok (LongTxn_buildMetrics now c rows)
  end.

(** ** What they emit *)

Definition connections_metrics : list string :=
  ["pg.connections.by_state"; "pg.connections.total"; "pg.connections.max";
   "pg.connections.superuser_reserved"; "pg.connections.utilization_pct"].
Definition cache_metrics : list string := ["pg.cache.hit_ratio"].
Definition wait_events_metrics : list string :=
  ["pg.wait_events.count"; "pg.wait_events.total_backends"].
Definition long_transactions_metrics : list string :=
  ["pg.long_transactions.count"; "pg.long_transactions.oldest_seconds"].

Section Emits.
Context `{DR : Driver} (now : Time) (c : Base) (conn : Conn).

Lemma Connections_emits : emits (b_instanceID c) connections_metrics (Connections_Collect now c conn).
Proof. unfold Connections_Collect. emits_tac. Qed.

Lemma Cache_emits : emits (b_instanceID c) cache_metrics (Cache_Collect now c conn).
Proof. unfold Cache_Collect. emits_tac. Qed.

Lemma WaitEvents_emits : emits (b_instanceID c) wait_events_metrics (WaitEvents_Collect now c conn).
Proof. unfold WaitEvents_Collect, WaitEvents_buildMetrics. emits_tac. Qed.

Lemma LongTxn_emits :
  emits (b_instanceID c) long_transactions_metrics (LongTxn_Collect now c conn).
Proof. unfold LongTxn_Collect, LongTxn_buildMetrics, longTxnPoints. emits_tac. Qed.

End Emits.

(** * The collectors of running operations

    Models internal/collector/progress_vacuum.go, progress_maintenance.go and
    progress_operations.go: one row per running VACUUM, CLUSTER, ANALYZE, CREATE INDEX, base backup
    and COPY, with a completion percentage. *)

(** A percentage; 0 when the total is not positive. *)
Definition completionPct (done total : float64) : float64 :=
  if fle total f0 then f0 else fmul (fdiv done total) (f_of_Z 100).

(** ** progress_vacuum *)

Definition progressVacuumSQL : string := "
SELECT
    a.pid::text,
    COALESCE(a.datname, '') AS datname,
    COALESCE(p.relid::regclass::text, 'oid:' || p.relid::text) AS table_name,
    p.phase,
    p.heap_blks_total,
    p.heap_blks_scanned,
    p.heap_blks_vacuumed,
    p.index_vacuum_count,
    p.max_dead_tuples,
    p.num_dead_tuples
FROM pg_stat_progress_vacuum p
JOIN pg_stat_activity a ON a.pid = p.pid".

Record VacuumProgressRow := mkVacuumProgressRow {
  vp_pid : string;
  vp_datname : string;
  vp_tableName : string;
  vp_phase : string;
  vp_blksTotal : float64;
  vp_blksScanned : float64;
  vp_blksVacuumed : float64;
  vp_indexVacuumCount : float64;
  vp_maxDeadTuples : float64;
  vp_numDeadTuples : float64
}.

Definition VacuumProgress_scan `{DR : Driver} : Scanner VacuumProgressRow :=
  pid ← str; datname ← str; tableName ← str; phase ← str; blksTotal ← float; blksScanned ← float;
  blksVacuumed ← float; indexVacuumCount ← float; maxDeadTuples ← float; numDeadTuples ← float;
  mret (mkVacuumProgressRow pid datname tableName phase blksTotal blksScanned blksVacuumed
  indexVacuumCount maxDeadTuples numDeadTuples).

Definition VacuumProgress_points (now : Time) (c : Base) (row : VacuumProgressRow) : list MetricPoint :=
  let labels := labels_of
    [("pid", vp_pid row); ("datname", vp_datname row); ("table_name", vp_tableName row);
     ("phase", vp_phase row)] in
  let pct := completionPct (vp_blksScanned row) (vp_blksTotal row) in
  [ point now c "progress.vacuum.heap_blks_total" (vp_blksTotal row) labels;
    point now c "progress.vacuum.heap_blks_scanned" (vp_blksScanned row) labels;
    point now c "progress.vacuum.heap_blks_vacuumed" (vp_blksVacuumed row) labels;
    point now c "progress.vacuum.index_vacuum_count" (vp_indexVacuumCount row) labels;
    point now c "progress.vacuum.max_dead_tuples" (vp_maxDeadTuples row) labels;
    point now c "progress.vacuum.num_dead_tuples" (vp_numDeadTuples row) labels;
    point now c "progress.vacuum.completion_pct" pct labels ].

Definition VacuumProgress_Collect `{DR : Driver} (now : Time) (c : Base) (conn : Conn)
    : result (list MetricPoint) :=
  query_loop conn progressVacuumSQL [] VacuumProgress_scan (wrap "progress_vacuum") (wrap "progress_vacuum scan")
    (wrap "progress_vacuum rows") (fun acc row => Ok (acc ++ VacuumProgress_points now c row)) [].

Definition progress_vacuum_metrics : list string :=
  ["pg.progress.vacuum.heap_blks_total"; "pg.progress.vacuum.heap_blks_scanned";
   "pg.progress.vacuum.heap_blks_vacuumed"; "pg.progress.vacuum.index_vacuum_count";
   "pg.progress.vacuum.max_dead_tuples"; "pg.progress.vacuum.num_dead_tuples";
   "pg.progress.vacuum.completion_pct"].

(** ** progress_cluster *)

Definition progressClusterSQL : string := "
SELECT
    a.pid::text,
    COALESCE(a.datname, '') AS datname,
    COALESCE(p.relid::regclass::text, 'oid:' || p.relid::text) AS table_name,
    p.command, p.phase,
    p.heap_tuples_scanned, p.heap_tuples_written,
    p.heap_blks_total, p.heap_blks_scanned,
    p.index_rebuild_count
FROM pg_stat_progress_cluster p
JOIN pg_stat_activity a ON a.pid = p.pid".

Record ClusterProgressRow := mkClusterProgressRow {
  cp_pid : string;
  cp_datname : string;
  cp_tableName : string;
  cp_command : string;
  cp_phase : string;
  cp_tuplesScanned : float64;
  cp_tuplesWritten : float64;
  cp_blksTotal : float64;
  cp_blksScanned : float64;
  cp_indexRebuildCount : float64
}.

Definition ClusterProgress_scan `{DR : Driver} : Scanner ClusterProgressRow :=
  pid ← str; datname ← str; tableName ← str; command ← str; phase ← str; tuplesScanned ← float;
  tuplesWritten ← float; blksTotal ← float; blksScanned ← float; indexRebuildCount ← float;
  mret (mkClusterProgressRow pid datname tableName command phase tuplesScanned tuplesWritten
  blksTotal blksScanned indexRebuildCount).

Definition ClusterProgress_points (now : Time) (c : Base) (row : ClusterProgressRow) : list MetricPoint :=
  let labels := labels_of
    [("pid", cp_pid row); ("datname", cp_datname row); ("table_name", cp_tableName row);
     ("command", cp_command row); ("phase", cp_phase row)] in
  let pct := completionPct (cp_blksScanned row) (cp_blksTotal row) in
  [ point now c "progress.cluster.heap_tuples_scanned" (cp_tuplesScanned row) labels;
    point now c "progress.cluster.heap_tuples_written" (cp_tuplesWritten row) labels;
    point now c "progress.cluster.heap_blks_total" (cp_blksTotal row) labels;
    point now c "progress.cluster.heap_blks_scanned" (cp_blksScanned row) labels;
    point now c "progress.cluster.index_rebuild_count" (cp_indexRebuildCount row) labels;
    point now c "progress.cluster.completion_pct" pct labels ].

Definition ClusterProgress_Collect `{DR : Driver} (now : Time) (c : Base) (conn : Conn)
    : result (list MetricPoint) :=
  query_loop conn progressClusterSQL [] ClusterProgress_scan (wrap "progress_cluster") (wrap "progress_cluster scan")
    (wrap "progress_cluster rows") (fun acc row => Ok (acc ++ ClusterProgress_points now c row)) [].

Definition progress_cluster_metrics : list string :=
  ["pg.progress.cluster.heap_tuples_scanned"; "pg.progress.cluster.heap_tuples_written";
   "pg.progress.cluster.heap_blks_total"; "pg.progress.cluster.heap_blks_scanned";
   "pg.progress.cluster.index_rebuild_count"; "pg.progress.cluster.completion_pct"].

(** ** progress_analyze *)

Definition progressAnalyzeSQL : string := "
SELECT
    a.pid::text,
    COALESCE(a.datname, '') AS datname,
    COALESCE(p.relid::regclass::text, 'oid:' || p.relid::text) AS table_name,
    p.phase,
    p.sample_blks_total, p.sample_blks_scanned,
    p.ext_stats_total, p.ext_stats_computed,
    p.child_tables_total, p.child_tables_done,
    COALESCE(p.current_child_table_relid::regclass::text, '') AS current_child
FROM pg_stat_progress_analyze p
JOIN pg_stat_activity a ON a.pid = p.pid".

Record AnalyzeProgressRow := mkAnalyzeProgressRow {
  ap_pid : string;
  ap_datname : string;
  ap_tableName : string;
  ap_phase : string;
  ap_sampleBlksTotal : float64;
  ap_sampleBlksScanned : float64;
  ap_extStatsTotal : float64;
  ap_extStatsComputed : float64;
  ap_childTablesTotal : float64;
  ap_childTablesDone : float64;
  ap_currentChild : string
}.

Definition AnalyzeProgress_scan `{DR : Driver} : Scanner AnalyzeProgressRow :=
  pid ← str; datname ← str; tableName ← str; phase ← str; sampleBlksTotal ← float;
  sampleBlksScanned ← float; extStatsTotal ← float; extStatsComputed ← float;
  childTablesTotal ← float; childTablesDone ← float; currentChild ← str;
  mret (mkAnalyzeProgressRow pid datname tableName phase sampleBlksTotal sampleBlksScanned
  extStatsTotal extStatsComputed childTablesTotal childTablesDone currentChild).

Definition AnalyzeProgress_points (now : Time) (c : Base) (row : AnalyzeProgressRow) : list MetricPoint :=
  let labels := labels_of
    [("pid", ap_pid row); ("datname", ap_datname row); ("table_name", ap_tableName row);
     ("phase", ap_phase row); ("current_child", ap_currentChild row)] in
  let pct := completionPct (ap_sampleBlksScanned row) (ap_sampleBlksTotal row) in
  [ point now c "progress.analyze.sample_blks_total" (ap_sampleBlksTotal row) labels;
    point now c "progress.analyze.sample_blks_scanned" (ap_sampleBlksScanned row) labels;
    point now c "progress.analyze.ext_stats_total" (ap_extStatsTotal row) labels;
    point now c "progress.analyze.ext_stats_computed" (ap_extStatsComputed row) labels;
    point now c "progress.analyze.child_tables_total" (ap_childTablesTotal row) labels;
    point now c "progress.analyze.child_tables_done" (ap_childTablesDone row) labels;
    point now c "progress.analyze.completion_pct" pct labels ].

Definition AnalyzeProgress_Collect `{DR : Driver} (now : Time) (c : Base) (conn : Conn)
    : result (list MetricPoint) :=
  query_loop conn progressAnalyzeSQL [] AnalyzeProgress_scan (wrap "progress_analyze") (wrap "progress_analyze scan")
    (wrap "progress_analyze rows") (fun acc row => Ok (acc ++ AnalyzeProgress_points now c row)) [].

Definition progress_analyze_metrics : list string :=
  ["pg.progress.analyze.sample_blks_total"; "pg.progress.analyze.sample_blks_scanned";
   "pg.progress.analyze.ext_stats_total"; "pg.progress.analyze.ext_stats_computed";
   "pg.progress.analyze.child_tables_total"; "pg.progress.analyze.child_tables_done";
   "pg.progress.analyze.completion_pct"].

(** ** progress_create_index *)

Definition progressCreateIndexSQL : string := "
SELECT
    a.pid::text,
    COALESCE(a.datname, '') AS datname,
    COALESCE(p.relid::regclass::text, 'oid:' || p.relid::text) AS table_name,
    COALESCE(p.index_relid::regclass::text, '') AS index_name,
    p.command, p.phase,
    p.lockers_total, p.lockers_done,
    p.blocks_total, p.blocks_done,
    p.tuples_total, p.tuples_done,
    p.partitions_total, p.partitions_done
FROM pg_stat_progress_create_index p
JOIN pg_stat_activity a ON a.pid = p.pid".

Record CreateIndexProgressRow := mkCreateIndexProgressRow {
  ip_pid : string;
  ip_datname : string;
  ip_tableName : string;
  ip_indexName : string;
  ip_command : string;
  ip_phase : string;
  ip_lockersTotal : float64;
  ip_lockersDone : float64;
  ip_blocksTotal : float64;
  ip_blocksDone : float64;
  ip_tuplesTotal : float64;
  ip_tuplesDone : float64;
  ip_partitionsTotal : float64;
  ip_partitionsDone : float64
}.

Definition CreateIndexProgress_scan `{DR : Driver} : Scanner CreateIndexProgressRow :=
  pid ← str; datname ← str; tableName ← str; indexName ← str; command ← str; phase ← str;
  lockersTotal ← float; lockersDone ← float; blocksTotal ← float; blocksDone ← float;
  tuplesTotal ← float; tuplesDone ← float; partitionsTotal ← float; partitionsDone ← float;
  mret (mkCreateIndexProgressRow pid datname tableName indexName command phase lockersTotal
  lockersDone blocksTotal blocksDone tuplesTotal tuplesDone partitionsTotal partitionsDone).

Definition CreateIndexProgress_points (now : Time) (c : Base) (row : CreateIndexProgressRow) : list MetricPoint :=
  let labels := labels_of
    [("pid", ip_pid row); ("datname", ip_datname row); ("table_name", ip_tableName row);
     ("index_name", ip_indexName row); ("command", ip_command row); ("phase", ip_phase row)] in
  let pct := completionPct (ip_blocksDone row) (ip_blocksTotal row) in
  [ point now c "progress.create_index.blocks_total" (ip_blocksTotal row) labels;
    point now c "progress.create_index.blocks_done" (ip_blocksDone row) labels;
    point now c "progress.create_index.tuples_total" (ip_tuplesTotal row) labels;
    point now c "progress.create_index.tuples_done" (ip_tuplesDone row) labels;
    point now c "progress.create_index.lockers_total" (ip_lockersTotal row) labels;
    point now c "progress.create_index.lockers_done" (ip_lockersDone row) labels;
    point now c "progress.create_index.partitions_total" (ip_partitionsTotal row) labels;
    point now c "progress.create_index.partitions_done" (ip_partitionsDone row) labels;
    point now c "progress.create_index.completion_pct" pct labels ].

Definition CreateIndexProgress_Collect `{DR : Driver} (now : Time) (c : Base) (conn : Conn)
    : result (list MetricPoint) :=
  query_loop conn progressCreateIndexSQL [] CreateIndexProgress_scan (wrap "progress_create_index") (wrap "progress_create_index scan")
    (wrap "progress_create_index rows") (fun acc row => Ok (acc ++ CreateIndexProgress_points now c row)) [].

Definition progress_create_index_metrics : list string :=
  ["pg.progress.create_index.blocks_total"; "pg.progress.create_index.blocks_done";
   "pg.progress.create_index.tuples_total"; "pg.progress.create_index.tuples_done";
   "pg.progress.create_index.lockers_total"; "pg.progress.create_index.lockers_done";
   "pg.progress.create_index.partitions_total"; "pg.progress.create_index.partitions_done";
   "pg.progress.create_index.completion_pct"].

(** ** progress_basebackup *)

Definition progressBasebackupSQL : string := "
SELECT
    a.pid::text,
    COALESCE(a.usename, '') AS usename,
    COALESCE(a.application_name, '') AS app_name,
    COALESCE(a.client_addr::text, '') AS client_addr,
    p.phase,
    p.backup_total, p.backup_streamed,
    p.tablespaces_total, p.tablespaces_streamed
FROM pg_stat_progress_basebackup p
JOIN pg_stat_activity a ON a.pid = p.pid".

Record BasebackupProgressRow := mkBasebackupProgressRow {
  bp_pid : string;
  bp_usename : string;
  bp_appName : string;
  bp_clientAddr : string;
  bp_phase : string;
  bp_backupTotal : float64;
  bp_backupStreamed : float64;
  bp_tablespacesTotal : float64;
  bp_tablespacesStreamed : float64
}.

Definition BasebackupProgress_scan `{DR : Driver} : Scanner BasebackupProgressRow :=
  pid ← str; usename ← str; appName ← str; clientAddr ← str; phase ← str; backupTotal ← float;
  backupStreamed ← float; tablespacesTotal ← float; tablespacesStreamed ← float;
  mret (mkBasebackupProgressRow pid usename appName clientAddr phase backupTotal backupStreamed
  tablespacesTotal tablespacesStreamed).

Definition BasebackupProgress_points (now : Time) (c : Base) (row : BasebackupProgressRow) : list MetricPoint :=
  let labels := labels_of
    [("pid", bp_pid row); ("usename", bp_usename row); ("app_name", bp_appName row);
     ("client_addr", bp_clientAddr row); ("phase", bp_phase row)] in
  let pct := completionPct (bp_backupStreamed row) (bp_backupTotal row) in
  [ point now c "progress.basebackup.backup_total" (bp_backupTotal row) labels;
    point now c "progress.basebackup.backup_streamed" (bp_backupStreamed row) labels;
    point now c "progress.basebackup.tablespaces_total" (bp_tablespacesTotal row) labels;
    point now c "progress.basebackup.tablespaces_streamed" (bp_tablespacesStreamed row) labels;
    point now c "progress.basebackup.completion_pct" pct labels ].

Definition BasebackupProgress_Collect `{DR : Driver} (now : Time) (c : Base) (conn : Conn)
    : result (list MetricPoint) :=
  query_loop conn progressBasebackupSQL [] BasebackupProgress_scan (wrap "progress_basebackup") (wrap "progress_basebackup scan")
    (wrap "progress_basebackup rows") (fun acc row => Ok (acc ++ BasebackupProgress_points now c row)) [].

Definition progress_basebackup_metrics : list string :=
  ["pg.progress.basebackup.backup_total"; "pg.progress.basebackup.backup_streamed";
   "pg.progress.basebackup.tablespaces_total"; "pg.progress.basebackup.tablespaces_streamed";
   "pg.progress.basebackup.completion_pct"].

(** ** progress_copy *)

Definition progressCopySQL : string := "
SELECT
    a.pid::text,
    COALESCE(a.datname, '') AS datname,
    COALESCE(p.relid::regclass::text, 'oid:' || p.relid::text) AS table_name,
    p.command, p.type,
    p.bytes_processed, p.bytes_total,
    p.tuples_processed, p.tuples_excluded
FROM pg_stat_progress_copy p
JOIN pg_stat_activity a ON a.pid = p.pid".

Record CopyProgressRow := mkCopyProgressRow {
  yp_pid : string;
  yp_datname : string;
  yp_tableName : string;
  yp_command : string;
  yp_copyType : string;
  yp_bytesProcessed : float64;
  yp_bytesTotal : float64;
  yp_tuplesProcessed : float64;
  yp_tuplesExcluded : float64
}.

Definition CopyProgress_scan `{DR : Driver} : Scanner CopyProgressRow :=
  pid ← str; datname ← str; tableName ← str; command ← str; copyType ← str;
  bytesProcessed ← float; bytesTotal ← float; tuplesProcessed ← float; tuplesExcluded ← float;
  mret (mkCopyProgressRow pid datname tableName command copyType bytesProcessed bytesTotal
  tuplesProcessed tuplesExcluded).

Definition CopyProgress_points (now : Time) (c : Base) (row : CopyProgressRow) : list MetricPoint :=
  let labels := labels_of
    [("pid", yp_pid row); ("datname", yp_datname row); ("table_name", yp_tableName row);
     ("command", yp_command row); ("type", yp_copyType row)] in
  let pct := completionPct (yp_bytesProcessed row) (yp_bytesTotal row) in
  [ point now c "progress.copy.bytes_processed" (yp_bytesProcessed row) labels;
    point now c "progress.copy.bytes_total" (yp_bytesTotal row) labels;
    point now c "progress.copy.tuples_processed" (yp_tuplesProcessed row) labels;
    point now c "progress.copy.tuples_excluded" (yp_tuplesExcluded row) labels;
    point now c "progress.copy.completion_pct" pct labels ].

Definition CopyProgress_Collect `{DR : Driver} (now : Time) (c : Base) (conn : Conn)
    : result (list MetricPoint) :=
  query_loop conn progressCopySQL [] CopyProgress_scan (wrap "progress_copy") (wrap "progress_copy scan")
    (wrap "progress_copy rows") (fun acc row => Ok (acc ++ CopyProgress_points now c row)) [].

Definition progress_copy_metrics : list string :=
  ["pg.progress.copy.bytes_processed"; "pg.progress.copy.bytes_total";
   "pg.progress.copy.tuples_processed"; "pg.progress.copy.tuples_excluded";
   "pg.progress.copy.completion_pct"].

(** ** What they emit *)

Section Emits.
Context `{DR : Driver} (now : Time) (c : Base) (conn : Conn).

Lemma VacuumProgress_emits : emits (b_instanceID c) progress_vacuum_metrics (VacuumProgress_Collect now c conn).
Proof. unfold VacuumProgress_Collect, VacuumProgress_points. emits_tac. Qed.

Lemma ClusterProgress_emits : emits (b_instanceID c) progress_cluster_metrics (ClusterProgress_Collect now c conn).
Proof. unfold ClusterProgress_Collect, ClusterProgress_points. emits_tac. Qed.

Lemma AnalyzeProgress_emits : emits (b_instanceID c) progress_analyze_metrics (AnalyzeProgress_Collect now c conn).
Proof. unfold AnalyzeProgress_Collect, AnalyzeProgress_points. emits_tac. Qed.

Lemma CreateIndexProgress_emits : emits (b_instanceID c) progress_create_index_metrics (CreateIndexProgress_Collect now c conn).
Proof. unfold CreateIndexProgress_Collect, CreateIndexProgress_points. emits_tac. Qed.

Lemma BasebackupProgress_emits : emits (b_instanceID c) progress_basebackup_metrics (BasebackupProgress_Collect now c conn).
Proof. unfold BasebackupProgress_Collect, BasebackupProgress_points. emits_tac. Qed.

Lemma CopyProgress_emits : emits (b_instanceID c) progress_copy_metrics (CopyProgress_Collect now c conn).
Proof. unfold CopyProgress_Collect, CopyProgress_points. emits_tac. Qed.

End Emits.
