(* ===== verification/CollectorsMedium.v ===== *)
(** * The collectors of the medium-frequency group

    Models internal/collector/replication_status.go, replication_lag.go, replication_slots.go,
    statements_config.go, statements_top.go and checkpoint.go. The checkpoint collector keeps the
    previous counters and derives rates from the difference. *)
From S2P Require Import Prelude Float64 GoText Metric SqlConn Collector.

Local Open Scope Z_scope.

(** ** Replication status *)

Definition replicationStatusPrimarySQL : string := "
SELECT
    coalesce(r.application_name, '') AS app_name,
    coalesce(r.client_addr::text, '') AS client_addr,
    coalesce(r.state, '') AS state,
    coalesce(r.sync_state, '') AS sync_state
FROM pg_stat_replication r
JOIN pg_replication_slots s ON r.pid = s.active_pid
WHERE s.slot_type = 'physical' AND s.active = true".

Definition replicationStatusReplicaSQL : string := "
SELECT
    coalesce(status, '') AS status,
    coalesce(sender_host, '') AS sender_host,
    coalesce(sender_port::text, '0') AS sender_port,
    coalesce(pg_wal_lsn_diff(latest_end_lsn, flushed_lsn), 0) AS lag_bytes
FROM pg_stat_wal_receiver".

Definition ReplicaRow_scan `{DR : Driver} : Scanner (string * string * string * string) :=
  appName ← str; clientAddr ← str; state ← str; syncState ← str;
  mret (appName, clientAddr, state, syncState).

Definition replicaPoint (now : Time) (c : Base) (row : string * string * string * string)
    : MetricPoint :=
  let '(appName, clientAddr, state, syncState) := row in
  point now c "replication.replica.connected" f1
    (labels_of [("app_name", appName); ("client_addr", clientAddr); ("state", state);
                ("sync_state", syncState)]).

Definition ReplicationStatus_collectPrimary `{DR : Driver} (now : Time) (c : Base) (conn : Conn)
    : result (list MetricPoint) :=
  match query_rows conn replicationStatusPrimarySQL [] ReplicaRow_scan
          (wrap "replication_status primary") (wrap "replication_status primary scan")
          (wrap "replication_status primary rows") with
  | Err e => Err e
  | Ok rows =>
      let count := foldl (fun n (_ : string * string * string * string) => fadd n f1) f0 rows in
      Ok (foldl (fun acc row => acc ++ [replicaPoint now c row]) [] rows
          ++ [point now c "replication.active_replicas" count ∅])
  end.

Definition ReceiverRow_scan `{DR : Driver} : Scanner (string * string * string * float64) :=
  status ← str; senderHost ← str; senderPort ← str; lagBytes ← float;
  mret (status, senderHost, senderPort, lagBytes).

Definition receiverPoints (now : Time) (c : Base) (row : string * string * string * float64)
    : list MetricPoint :=
  let '(status, senderHost, senderPort, lagBytes) := row in
  let labels := labels_of [("sender_host", senderHost); ("sender_port", senderPort)] in
  [ point now c "replication.wal_receiver.connected" (bool_value (String.eqb status "streaming")) labels;
    point now c "replication.wal_receiver.lag_bytes" lagBytes labels ].

Definition ReplicationStatus_collectReplica `{DR : Driver} (now : Time) (c : Base) (conn : Conn)
    : result (list MetricPoint) :=
  match query_rows conn replicationStatusReplicaSQL [] ReceiverRow_scan
          (wrap "replication_status replica") (wrap "replication_status replica scan")
          (wrap "replication_status replica rows") with
  | Err e => Err e
  | Ok rows =>
      let points := foldl (fun acc row => acc ++ receiverPoints now c row) [] rows in
      Ok (match rows with
          | [] => points ++ [point now c "replication.wal_receiver.connected" f0 ∅]
          | _ :: _ => points
          end)
  end.

Definition ReplicationStatus_Collect `{DR : Driver} (now : Time) (c : Base) (ic : InstanceContext)
    (conn : Conn) : result (list MetricPoint) :=
  if ic_IsRecovery ic then ReplicationStatus_collectReplica now c conn
  else ReplicationStatus_collectPrimary now c conn.

(** ** Replication lag *)

Definition replicationLagSQL : string := "
SELECT
    coalesce(application_name, '') AS app_name,
    coalesce(client_addr::text, '') AS client_addr,
    coalesce(state, '') AS state,
    coalesce(pg_wal_lsn_diff(pg_current_wal_lsn(), sent_lsn), 0) AS pending_bytes,
    coalesce(pg_wal_lsn_diff(sent_lsn, write_lsn), 0) AS write_bytes,
    coalesce(pg_wal_lsn_diff(write_lsn, flush_lsn), 0) AS flush_bytes,
    coalesce(pg_wal_lsn_diff(flush_lsn, replay_lsn), 0) AS replay_bytes,
    coalesce(pg_wal_lsn_diff(pg_current_wal_lsn(), replay_lsn), 0) AS total_bytes,
    coalesce(EXTRACT(EPOCH FROM write_lag), 0) AS write_seconds,
    coalesce(EXTRACT(EPOCH FROM flush_lag), 0) AS flush_seconds,
    coalesce(EXTRACT(EPOCH FROM replay_lag), 0) AS replay_seconds
FROM pg_stat_replication".

Record lagRow := mkLagRow {
  lg_appName : string;
  lg_clientAddr : string;
  lg_state : string;
  lg_pending : float64;
  lg_write : float64;
  lg_flush : float64;
  lg_replay : float64;
  lg_total : float64;
  lg_writeSeconds : float64;
  lg_flushSeconds : float64;
  lg_replaySeconds : float64
}.

Definition Lag_scan `{DR : Driver} : Scanner lagRow :=
  appName ← str; clientAddr ← str; state ← str; pending ← float; write ← float; flush ← float;
  replay ← float; total ← float; writeSeconds ← float; flushSeconds ← float;
  replaySeconds ← float;
  mret (mkLagRow appName clientAddr state pending write flush replay total writeSeconds
          flushSeconds replaySeconds).

Definition lagPoints (now : Time) (c : Base) (r : lagRow) : list MetricPoint :=
  let labels := labels_of [("app_name", lg_appName r); ("client_addr", lg_clientAddr r);
                           ("state", lg_state r)] in
  let timeLbls := labels_of [("app_name", lg_appName r); ("client_addr", lg_clientAddr r)] in
  [ point now c "replication.lag.pending_bytes" (lg_pending r) labels;
    point now c "replication.lag.write_bytes" (lg_write r) labels;
    point now c "replication.lag.flush_bytes" (lg_flush r) labels;
    point now c "replication.lag.replay_bytes" (lg_replay r) labels;
    point now c "replication.lag.total_bytes" (lg_total r) labels;
    point now c "replication.lag.write_seconds" (lg_writeSeconds r) timeLbls;
    point now c "replication.lag.flush_seconds" (lg_flushSeconds r) timeLbls;
    point now c "replication.lag.replay_seconds" (lg_replaySeconds r) timeLbls ].

Definition ReplicationLag_Collect `{DR : Driver} (now : Time) (c : Base) (ic : InstanceContext)
    (conn : Conn) : result (list MetricPoint) :=
  if ic_IsRecovery ic then Ok []
  else query_loop conn replicationLagSQL [] Lag_scan (wrap "replication_lag")
         (wrap "replication_lag scan") (wrap "replication_lag rows")
         (fun acc row => Ok (acc ++ lagPoints now c row)) [].

(** ** Replication slots *)

Definition replicationSlotsGate : Gate := mkGate "replication_slots" [
  mkVariant (mkRange 14 0 14 99) "SELECT
				slot_name,
				slot_type,
				active,
				coalesce(pg_wal_lsn_diff(pg_current_wal_lsn(), restart_lsn), 0) AS retained_bytes,
				'' AS two_phase,
				'' AS conflicting
			FROM pg_replication_slots";
  mkVariant (mkRange 15 0 15 99) "SELECT
				slot_name,
				slot_type,
				active,
				coalesce(pg_wal_lsn_diff(pg_current_wal_lsn(), restart_lsn), 0) AS retained_bytes,
				two_phase::text AS two_phase,
				'' AS conflicting
			FROM pg_replication_slots";
  mkVariant (mkRange 16 0 99 99) "SELECT
				slot_name,
				slot_type,
				active,
				coalesce(pg_wal_lsn_diff(pg_current_wal_lsn(), restart_lsn), 0) AS retained_bytes,
				two_phase::text AS two_phase,
				coalesce(conflicting::text, '') AS conflicting
			FROM pg_replication_slots" ].

Record slotRow := mkSlotRow {
  sl_slotName : string;
  sl_slotType : string;
  sl_active : bool;
  sl_retainedBytes : float64;
  sl_twoPhase : string;
  sl_conflicting : string
}.

Definition Slot_scan `{DR : Driver} : Scanner slotRow :=
  slotName ← str; slotType ← str; active ← boolean; retainedBytes ← float; twoPhase ← str;
  conflicting ← str; mret (mkSlotRow slotName slotType active retainedBytes twoPhase conflicting).

(** The labels of the columns a version lacks are left out when their text is empty. *)
Definition slotLabels (r : slotRow) : Labels :=
  let labels := labels_of [("slot_name", sl_slotName r); ("slot_type", sl_slotType r);
                           ("active", if sl_active r then "true" else "false")] in
  let labels := if negb (String.eqb (sl_twoPhase r) "")
                then <["two_phase" := sl_twoPhase r]> labels else labels in
  if negb (String.eqb (sl_conflicting r) "")
  then <["conflicting" := sl_conflicting r]> labels else labels.

Definition slotPoints (now : Time) (c : Base) (r : slotRow) : list MetricPoint :=
  [ point now c "replication.slot.retained_bytes" (sl_retainedBytes r) (slotLabels r);
    point now c "replication.slot.active" (bool_value (sl_active r)) (slotLabels r) ].

Definition ReplicationSlots_Collect `{DR : Driver} (now : Time) (c : Base) (conn : Conn)
    : result (list MetricPoint) :=
  match Select replicationSlotsGate (b_pgVersion c) with
  | None => Err ("replication_slots: no SQL variant for PG " +:+ v_Full (b_pgVersion c))
  | Some sql =>
      query_loop conn sql [] Slot_scan (wrap "replication_slots") (wrap "replication_slots scan")
        (wrap "replication_slots rows") (fun acc row => Ok (acc ++ slotPoints now c row)) []
  end.

(** ** The configuration of pg_stat_statements *)

Definition sqlStatementsSettings : string := "
SELECT name, setting
FROM pg_settings
WHERE name IN ('pg_stat_statements.max', 'pg_stat_statements.track', 'track_io_timing')".
Definition sqlStatementsCount : string := "SELECT count(*)::float8 FROM pg_stat_statements".
Definition sqlStatementsResetAge : string := "
SELECT EXTRACT(EPOCH FROM now() - stats_reset)
FROM pg_stat_statements_info".

Definition Setting_scan `{DR : Driver} : Scanner (string * string) :=
  name ← str; setting ← str; mret (name, setting).

Definition StatementsConfig_buildMetrics (now : Time) (c : Base) (settings : gmap string string)
    (count : float64) (resetAge : option float64) : list MetricPoint :=
  (match settings !! "pg_stat_statements.max" with
   | Some maxStr =>
       match ParseFloatErr maxStr with
       | Ok maxVal =>
           [point now c "statements.max" maxVal ∅] ++
           (if fgt maxVal f0
            then [point now c "statements.fill_pct" (fmul (fdiv count maxVal) (f_of_Z 100)) ∅]
            else [])
       | Err _ => []
       end
   | None => []
   end) ++
  (match settings !! "pg_stat_statements.track" with
   | Some track => [point now c "statements.track" f1 (labels_of [("value", track)])]
   | None => []
   end) ++
  (match settings !! "track_io_timing" with
   | Some timing => [point now c "statements.track_io_timing" (bool_value (String.eqb timing "on")) ∅]
   | None => []
   end) ++
  [point now c "statements.count" count ∅] ++
  (match resetAge with
   | Some age => [point now c "statements.stats_reset_age_seconds" age ∅]
   | None => []
   end).

Definition StatementsConfig_Collect `{DR : Driver} (now : Time) (c : Base) (conn : Conn)
    : result (list MetricPoint) :=
  match pgssAvailable conn with
  | Err e => Err e
  | Ok false => Ok []
  | Ok true =>
      match query_loop conn sqlStatementsSettings [] Setting_scan (wrap "statements_config: settings")
              (wrap "statements_config: settings scan") (wrap "statements_config: settings rows")
              (fun (m : gmap string string) row => Ok (<[row.1 := row.2]> m)) ∅ with
      | Err e => Err e
      | Ok settings =>
          match query_row conn sqlStatementsCount [] float with
          | Err e => Err (wrap "statements_config: count" e)
          | Ok count =>
              match query_row conn sqlStatementsResetAge [] ofloat with
              | Err e => Err (wrap "statements_config: reset_age" e)
              | Ok resetAge => Ok (StatementsConfig_buildMetrics now c settings count resetAge)
              end
          end
      end
  end.

(** ** The top statements *)

Definition sqlStatementsTop : string := "
WITH ranked AS (
    SELECT
        queryid::text                                        AS queryid,
        dbid::text                                           AS dbid,
        userid::text                                         AS userid,
        calls,
        rows,
        total_exec_time                                      AS total_time_ms,
        blk_read_time + blk_write_time                       AS io_time_ms,
        total_exec_time - blk_read_time - blk_write_time     AS cpu_time_ms,
        total_exec_time / calls                              AS avg_time_ms,
        ROW_NUMBER() OVER (ORDER BY total_exec_time DESC)    AS rn
    FROM pg_stat_statements
    WHERE calls > 0
),
totals AS (
    SELECT
        sum(calls)::float8          AS total_calls,
        sum(rows)::float8           AS total_rows,
        sum(total_time_ms)::float8  AS total_time,
        sum(io_time_ms)::float8     AS total_io,
        sum(cpu_time_ms)::float8    AS total_cpu
    FROM ranked
)
SELECT
    r.queryid,
    r.dbid,
    r.userid,
    r.calls::float8,
    r.rows::float8,
    r.total_time_ms,
    r.io_time_ms,
    r.cpu_time_ms,
    r.avg_time_ms,
    t.total_calls,
    t.total_rows,
    t.total_time,
    t.total_io,
    t.total_cpu
FROM ranked r
CROSS JOIN totals t
WHERE r.rn <= $1
ORDER BY r.rn".

Record topQueryRow := mkTopQuery {
  tq_queryID : string;
  tq_dbID : string;
  tq_userID : string;
  tq_calls : float64;
  tq_rowCount : float64;
  tq_totalTime : float64;
  tq_ioTime : float64;
  tq_cpuTime : float64;
  tq_avgTime : float64;
  tq_ttlCalls : float64;
  tq_ttlRows : float64;
  tq_ttlTime : float64;
  tq_ttlIO : float64;
  tq_ttlCPU : float64
}.

Definition TopQuery_scan `{DR : Driver} : Scanner topQueryRow :=
  queryID ← str; dbID ← str; userID ← str; calls ← float; rowCount ← float; totalTime ← float;
  ioTime ← float; cpuTime ← float; avgTime ← float; ttlCalls ← float; ttlRows ← float;
  ttlTime ← float; ttlIO ← float; ttlCPU ← float;
  mret (mkTopQuery queryID dbID userID calls rowCount totalTime ioTime cpuTime avgTime
          ttlCalls ttlRows ttlTime ttlIO ttlCPU).

(** The default limit of [NewStatementsTopCollector]. *)
Definition top_limit (limit : Z) : Z := if limit <=? 0 then 20 else limit.

(** The six points of a statement or of the remainder; a negative processor time counts as 0. *)
Definition topPoints (now : Time) (c : Base) (labels : Labels)
    (totalTime ioTime cpuTime calls rows avgTime : float64) : list MetricPoint :=
  let cpuTime := if flt cpuTime f0 then f0 else cpuTime in
  [ point now c "statements.top.total_time_ms" totalTime labels;
    point now c "statements.top.io_time_ms" ioTime labels;
    point now c "statements.top.cpu_time_ms" cpuTime labels;
    point now c "statements.top.calls" calls labels;
    point now c "statements.top.rows" rows labels;
    point now c "statements.top.avg_time_ms" avgTime labels ].

Definition topRowPoints (now : Time) (c : Base) (r : topQueryRow) : list MetricPoint :=
  topPoints now c (labels_of [("queryid", tq_queryID r); ("dbid", tq_dbID r); ("userid", tq_userID r)])
    (tq_totalTime r) (tq_ioTime r) (tq_cpuTime r) (tq_calls r) (tq_rowCount r) (tq_avgTime r).

(** A running sum of a column, from 0 in the order of the rows. *)
Definition col_sum (f : topQueryRow -> float64) (rows : list topQueryRow) : float64 :=
  foldl (fun t r => fadd t (f r)) f0 rows.

Definition buildTopMetrics (now : Time) (c : Base) (rows : list topQueryRow) : list MetricPoint :=
  match rows with
  | [] => []
  | r0 :: _ =>
      let points := foldl (fun acc r => acc ++ topRowPoints now c r) [] rows in
      let otherCalls := fsub (tq_ttlCalls r0) (col_sum tq_calls rows) in
      if fgt otherCalls f0 then
        let otherRows := fsub (tq_ttlRows r0) (col_sum tq_rowCount rows) in
        let otherTime := fsub (tq_ttlTime r0) (col_sum tq_totalTime rows) in
        let otherIO := fsub (tq_ttlIO r0) (col_sum tq_ioTime rows) in
        let otherCPU := fsub (tq_ttlCPU r0) (col_sum tq_cpuTime rows) in
        points ++ topPoints now c (labels_of [("queryid", "other"); ("dbid", "all"); ("userid", "all")])
                    otherTime otherIO otherCPU otherCalls otherRows (fdiv otherTime otherCalls)
      else points
  end.

Definition StatementsTop_Collect `{DR : Driver} (now : Time) (c : Base) (limit : Z) (conn : Conn)
    : result (list MetricPoint) :=
  match pgssAvailable conn with
  | Err e => Err e
  | Ok false => Ok []
  | Ok true =>
      match query_rows conn sqlStatementsTop [AInt (top_limit limit)] TopQuery_scan
              (wrap "statements_top: query") (wrap "statements_top: scan")
              (wrap "statements_top: rows") with
      | Err e => Err e
      | Ok rows => Ok (buildTopMetrics now c rows)
      end
  end.

(** ** Checkpoints and the background writer *)

Definition checkpointGate : Gate := mkGate "checkpoint" [
  mkVariant (mkRange 14 0 16 99) "SELECT
    checkpoints_timed, checkpoints_req, checkpoint_write_time,
    checkpoint_sync_time, buffers_checkpoint, buffers_clean, maxwritten_clean,
    buffers_alloc, buffers_backend, buffers_backend_fsync,
    -1 AS restartpoints_timed, -1 AS restartpoints_done, -1 AS restartpoints_req
FROM pg_stat_bgwriter";
  mkVariant (mkRange 17 0 99 99) "SELECT
    c.num_timed AS checkpoints_timed, c.num_requested AS checkpoints_req,
    c.write_time AS checkpoint_write_time, c.sync_time AS checkpoint_sync_time,
    c.buffers_written AS buffers_checkpoint,
    b.buffers_clean, b.maxwritten_clean, b.buffers_alloc,
    -1 AS buffers_backend, -1 AS buffers_backend_fsync,
    c.restartpoints_timed, c.restartpoints_done, c.restartpoints_req
FROM pg_stat_checkpointer c CROSS JOIN pg_stat_bgwriter b" ].

Record checkpointSnapshot := mkCheckpoint {
  cs_checkpointsTimed : float64;
  cs_checkpointsReq : float64;
  cs_writeTimeMs : float64;
  cs_syncTimeMs : float64;
  cs_buffersWritten : float64;
  cs_buffersClean : float64;
  cs_maxwrittenClean : float64;
  cs_buffersAlloc : float64;
  cs_buffersBackend : float64;
  cs_buffersBackendFsync : float64;
  cs_restartpointsTimed : float64;
  cs_restartpointsDone : float64;
  cs_restartpointsRequested : float64
}.

Definition Checkpoint_scan `{DR : Driver} : Scanner checkpointSnapshot :=
  a1 ← float; a2 ← float; a3 ← float; a4 ← float; a5 ← float; a6 ← float; a7 ← float; a8 ← float;
  a9 ← float; a10 ← float; a11 ← float; a12 ← float; a13 ← float;
  mret (mkCheckpoint a1 a2 a3 a4 a5 a6 a7 a8 a9 a10 a11 a12 a13).

(** The collector with the counters of its last collection. *)
Record CheckpointCollector := mkCheckpointCollector {
  ck_Base : Base;
  ck_prev : option checkpointSnapshot;
  ck_prevTime : Time
}.

(** A point of a column that is -1 where the version has none. *)
Definition gauge (now : Time) (c : Base) (metric : string) (v : float64) : list MetricPoint :=
  if fge v f0 then [point now c metric v ∅] else [].

Definition absolutePoints (now : Time) (c : Base) (snap : checkpointSnapshot) : list MetricPoint :=
  [ point now c "checkpoint.timed" (cs_checkpointsTimed snap) ∅;
    point now c "checkpoint.requested" (cs_checkpointsReq snap) ∅;
    point now c "checkpoint.write_time_ms" (cs_writeTimeMs snap) ∅;
    point now c "checkpoint.sync_time_ms" (cs_syncTimeMs snap) ∅;
    point now c "checkpoint.buffers_written" (cs_buffersWritten snap) ∅;
    point now c "bgwriter.buffers_clean" (cs_buffersClean snap) ∅;
    point now c "bgwriter.maxwritten_clean" (cs_maxwrittenClean snap) ∅;
    point now c "bgwriter.buffers_alloc" (cs_buffersAlloc snap) ∅ ]
  ++ gauge now c "bgwriter.buffers_backend" (cs_buffersBackend snap)
  ++ gauge now c "bgwriter.buffers_backend_fsync" (cs_buffersBackendFsync snap)
  ++ gauge now c "checkpoint.restartpoints_timed" (cs_restartpointsTimed snap)
  ++ gauge now c "checkpoint.restartpoints_done" (cs_restartpointsDone snap)
  ++ gauge now c "checkpoint.restartpoints_req" (cs_restartpointsRequested snap).

(** The increase of a counter per second. *)
Definition rate (f : checkpointSnapshot -> float64) (curr prev : checkpointSnapshot)
    (elapsedSec : float64) : float64 := fdiv (fsub (f curr) (f prev)) elapsedSec.

Definition ratePoints (now : Time) (c : Base) (curr prev : checkpointSnapshot) (elapsedSec : float64)
    : list MetricPoint :=
  [ point now c "checkpoint.timed_per_second" (rate cs_checkpointsTimed curr prev elapsedSec) ∅;
    point now c "checkpoint.requested_per_second" (rate cs_checkpointsReq curr prev elapsedSec) ∅;
    point now c "checkpoint.buffers_written_per_second" (rate cs_buffersWritten curr prev elapsedSec) ∅;
    point now c "bgwriter.buffers_clean_per_second" (rate cs_buffersClean curr prev elapsedSec) ∅;
    point now c "bgwriter.buffers_alloc_per_second" (rate cs_buffersAlloc curr prev elapsedSec) ∅ ]
  ++ (if fge (cs_buffersBackend prev) f0
      then [point now c "bgwriter.buffers_backend_per_second"
              (rate cs_buffersBackend curr prev elapsedSec) ∅]
      else []).

Definition isStatsReset (curr prev : checkpointSnapshot) : bool :=
  flt (cs_checkpointsTimed curr) (cs_checkpointsTimed prev)
  || flt (cs_checkpointsReq curr) (cs_checkpointsReq prev)
  || flt (cs_buffersWritten curr) (cs_buffersWritten prev)
  || flt (cs_buffersClean curr) (cs_buffersClean prev)
  || flt (cs_buffersAlloc curr) (cs_buffersAlloc prev)
  || (fge (cs_buffersBackend prev) f0 && fge (cs_buffersBackend curr) f0
      && flt (cs_buffersBackend curr) (cs_buffersBackend prev))
  || (fge (cs_restartpointsTimed prev) f0 && fge (cs_restartpointsTimed curr) f0
      && flt (cs_restartpointsTimed curr) (cs_restartpointsTimed prev)).

Definition computeMetrics (now : Time) (c : Base) (curr : checkpointSnapshot)
    (prev : option checkpointSnapshot) (prevTime : Time) : list MetricPoint :=
  absolutePoints now c curr ++
  match prev with
  | None => []
  | Some p =>
      let elapsed := dur_Seconds (time_Sub now prevTime) in
      if fgt elapsed f0 && negb (isStatsReset curr p) then ratePoints now c curr p elapsed else []
  end.

Definition Checkpoint_Collect `{DR : Driver} (now : Time) (c : CheckpointCollector) (conn : Conn)
    : CheckpointCollector * result (list MetricPoint) :=
  match Select checkpointGate (b_pgVersion (ck_Base c)) with
  | None => (c, Err ("checkpoint: no SQL variant for PG " +:+ v_Full (b_pgVersion (ck_Base c))))
  | Some sql =>
      match query_row conn sql [] Checkpoint_scan with
      | Err e => (c, Err (wrap "checkpoint" e))
      | Ok curr =>
          (mkCheckpointCollector (ck_Base c) (Some curr) now,
           Ok (computeMetrics now (ck_Base c) curr (ck_prev c) (ck_prevTime c)))
      end
  end.

Definition NewCheckpointCollector (instanceID : string) (v : PGVersion) : CheckpointCollector :=
  mkCheckpointCollector (newBase instanceID v (60 * Second)) None zero_time.

(** ** What they emit *)

Definition replication_status_metrics : list string :=
  ["pg.replication.replica.connected"; "pg.replication.active_replicas";
   "pg.replication.wal_receiver.connected"; "pg.replication.wal_receiver.lag_bytes"].
Definition replication_lag_metrics : list string :=
  ["pg.replication.lag.pending_bytes"; "pg.replication.lag.write_bytes";
   "pg.replication.lag.flush_bytes"; "pg.replication.lag.replay_bytes";
   "pg.replication.lag.total_bytes"; "pg.replication.lag.write_seconds";
   "pg.replication.lag.flush_seconds"; "pg.replication.lag.replay_seconds"].
Definition replication_slots_metrics : list string :=
  ["pg.replication.slot.retained_bytes"; "pg.replication.slot.active"].
Definition statements_config_metrics : list string :=
  ["pg.statements.max"; "pg.statements.fill_pct"; "pg.statements.track";
   "pg.statements.track_io_timing"; "pg.statements.count";
   "pg.statements.stats_reset_age_seconds"].
Definition statements_top_metrics : list string :=
  ["pg.statements.top.total_time_ms"; "pg.statements.top.io_time_ms";
   "pg.statements.top.cpu_time_ms"; "pg.statements.top.calls"; "pg.statements.top.rows";
   "pg.statements.top.avg_time_ms"].
Definition checkpoint_metrics : list string :=
  ["pg.checkpoint.timed"; "pg.checkpoint.requested"; "pg.checkpoint.write_time_ms";
   "pg.checkpoint.sync_time_ms"; "pg.checkpoint.buffers_written"; "pg.bgwriter.buffers_clean";
   "pg.bgwriter.maxwritten_clean"; "pg.bgwriter.buffers_alloc"; "pg.bgwriter.buffers_backend";
   "pg.bgwriter.buffers_backend_fsync"; "pg.checkpoint.restartpoints_timed";
   "pg.checkpoint.restartpoints_done"; "pg.checkpoint.restartpoints_req";
   "pg.checkpoint.timed_per_second"; "pg.checkpoint.requested_per_second";
   "pg.checkpoint.buffers_written_per_second"; "pg.bgwriter.buffers_clean_per_second";
   "pg.bgwriter.buffers_alloc_per_second"; "pg.bgwriter.buffers_backend_per_second"].

Section Emits.
Context `{DR : Driver} (now : Time) (c : Base) (conn : Conn).

Lemma ReplicationStatus_emits ic :
  emits (b_instanceID c) replication_status_metrics (ReplicationStatus_Collect now c ic conn).
Proof.
  unfold ReplicationStatus_Collect, ReplicationStatus_collectReplica,
    ReplicationStatus_collectPrimary, receiverPoints, replicaPoint.
  emits_tac.
Qed.

Lemma ReplicationLag_emits ic :
  emits (b_instanceID c) replication_lag_metrics (ReplicationLag_Collect now c ic conn).
Proof. unfold ReplicationLag_Collect, lagPoints. emits_tac. Qed.

Lemma ReplicationSlots_emits :
  emits (b_instanceID c) replication_slots_metrics (ReplicationSlots_Collect now c conn).
Proof. unfold ReplicationSlots_Collect, slotPoints. emits_tac. Qed.

Lemma StatementsConfig_emits :
  emits (b_instanceID c) statements_config_metrics (StatementsConfig_Collect now c conn).
Proof. unfold StatementsConfig_Collect, StatementsConfig_buildMetrics. emits_tac. Qed.

Lemma StatementsTop_emits limit :
  emits (b_instanceID c) statements_top_metrics (StatementsTop_Collect now c limit conn).
Proof.
  unfold StatementsTop_Collect, buildTopMetrics, topRowPoints, topPoints. emits_tac.
Qed.

Lemma Checkpoint_emits (ck : CheckpointCollector) :
  emits (b_instanceID (ck_Base ck)) checkpoint_metrics (Checkpoint_Collect now ck conn).2.
Proof.
  unfold Checkpoint_Collect. destruct (Select _ _); [|apply emits_err].
  destruct (query_row _ _ _ _); [|apply emits_err]. cbn [snd].
  unfold computeMetrics, absolutePoints, ratePoints, gauge. emits_tac.
Qed.

End Emits.
