(* ===== verification/OsCollectors.v ===== *)
(** * Operating system metrics, and collectors that do not ask the database for statistics

    Models internal/agent/osmetrics.go and internal/collector/os.go, os_sql.go and cluster.go: operating system metrics from the
    agent, from the local kernel or from files the server reads, and the state of the cluster
    manager. Answers of the agent, of Patroni and of etcd are given. *)
From S2P Require Import Prelude Float64 Metric GoText SqlConn Collector.

Local Open Scope Z_scope.

(** * Operating system metrics

    Models internal/agent/osmetrics.go and osmetrics_linux.go: the parsers of the files under
    /proc, the differences of two samples, and the snapshot that the agent and the local
    collector take. The kernel's files and calls are given by a record of answers. *)

(** ** Data *)

Record OSRelease := mkOSRelease { os_Name : string; os_Version : string; os_ID : string }.

Record LoadAvg := mkLoadAvg { la_One : float64; la_Five : float64; la_Fifteen : float64 }.

Record MemoryInfo := mkMemory {
  mi_TotalKB : Z;
  mi_AvailableKB : Z;
  mi_UsedKB : Z;
  mi_CommitLimitKB : Z;
  mi_CommittedAsKB : Z
}.

Record CPUInfo := mkCPU {
  cp_UserPct : float64;
  cp_SystemPct : float64;
  cp_IOWaitPct : float64;
  cp_IdlePct : float64;
  cp_NumCPUs : Z
}.

Record DiskInfo := mkDisk {
  di_Mount : string;
  di_Device : string;
  di_FSType : string;
  di_TotalBytes : Z;
  di_UsedBytes : Z;
  di_FreeBytes : Z;
  di_InodesTotal : Z;
  di_InodesUsed : Z
}.

Record DiskStatInfo := mkDiskStat {
  ds_Device : string;
  ds_ReadsCompleted : Z;
  ds_WritesCompleted : Z;
  ds_ReadKB : Z;
  ds_WriteKB : Z;
  ds_IOInProgress : Z;
  ds_ReadAwaitMs : float64;
  ds_WriteAwaitMs : float64;
  ds_UtilPct : float64
}.

Record OSSnapshot := mkOSSnapshot {
  sn_CollectedAt : Time;
  sn_Hostname : string;
  sn_OSRelease : OSRelease;
  sn_UptimeSecs : float64;
  sn_LoadAvg : LoadAvg;
  sn_Memory : MemoryInfo;
  sn_CPU : CPUInfo;
  sn_Disks : list DiskInfo;
  sn_DiskStats : list DiskStatInfo
}.

Record CPURaw := mkCPURaw {
  cr_User : Z;
  cr_Nice : Z;
  cr_System : Z;
  cr_Idle : Z;
  cr_IOWait : Z;
  cr_IRQ : Z;
  cr_SoftIRQ : Z;
  cr_Steal : Z
}.

Definition CPURaw_Total (c : CPURaw) : Z :=
  i64 (cr_User c + cr_Nice c + cr_System c + cr_Idle c + cr_IOWait c + cr_IRQ c + cr_SoftIRQ c
       + cr_Steal c).

Record DiskStatRaw := mkDiskRaw {
  dr_Device : string;
  dr_ReadsCompleted : Z;
  dr_ReadsMerged : Z;
  dr_SectorsRead : Z;
  dr_ReadTimeMs : Z;
  dr_WritesCompleted : Z;
  dr_WritesMerged : Z;
  dr_SectorsWritten : Z;
  dr_WriteTimeMs : Z;
  dr_IOInProgress : Z;
  dr_IOTimeMs : Z;
  dr_WeightedIOTime : Z
}.

(** ** Parsers *)

Definition newline_char : Ascii.ascii := Eval compute in Ascii.ascii_of_N 10.
Definition equals_char : Ascii.ascii := Eval compute in Ascii.ascii_of_N 61.

Definition lines (content : string) : list string := Split newline_char content.

(** The value of [strconv.ParseInt] with its error dropped. *)
Definition parseInt (s : string) : Z := (ParseInt s).1.

Definition meminfo_line (m : gmap string Z) (line : string) : gmap string Z :=
  match Fields line with
  | key :: value :: _ =>
      match ParseInt value with
      | (v, None) => <[TrimSuffix key ":" := v]> m
      | (_, Some _) => m
      end
  | _ => m
  end.

(** Kernels without MemAvailable are given free, buffers and cached memory together. *)
Definition ParseMeminfo (content : string) : MemoryInfo :=
  let m := foldl meminfo_line ∅ (lines content) in
  let get k := default 0 (m !! k) in
  let total := get "MemTotal" in
  let available := if get "MemAvailable" =? 0
                   then i64 (get "MemFree" + get "Buffers" + get "Cached")
                   else get "MemAvailable" in
  mkMemory total available (i64 (total - available)) (get "CommitLimit") (get "Committed_AS").

(** The bytes of [strings.Trim(val, cutset)] for the quote characters. *)
Definition quotes : list string := Eval vm_compute in [bytes [34]%N; bytes [39]%N].

Definition osrelease_line (fields : gmap string string) (line : string) : gmap string string :=
  let line := TrimSpace line in
  if String.eqb line "" || has_prefix line "#" then fields
  else match cut equals_char line with
       | Some (key, val) => <[key := trim_right quotes (trim_left quotes val)]> fields
       | None => fields
       end.

Definition ParseOSRelease (content : string) : OSRelease :=
  let fields := foldl osrelease_line ∅ (lines content) in
  let get k := default "" (fields !! k) in
  mkOSRelease (get "NAME") (get "VERSION_ID") (get "ID").

Definition nth_field (l : list string) (n : nat) : string := default "" (l !! n).

(** The first line that begins with "cpu ". *)
Definition ParseCPURaw (content : string) : result CPURaw :=
  match List.find (fun line => has_prefix line "cpu ") (lines content) with
  | None => Err "no aggregate cpu line found in /proc/stat"
  | Some line =>
      let fields := Fields line in
      if len fields <? 8 then Err "cpu line has too few fields, expected at least 8"
      else let f n := parseInt (nth_field fields n) in
           Ok (mkCPURaw (f 1%nat) (f 2%nat) (f 3%nat) (f 4%nat) (f 5%nat) (f 6%nat) (f 7%nat)
                 (if 8 <? len fields then f 8%nat else 0))
  end.

Definition diskstats_line (m : gmap string DiskStatRaw) (line : string) : gmap string DiskStatRaw :=
  let fields := Fields line in
  if len fields <? 14 then m
  else let f n := parseInt (nth_field fields n) in
       let name := nth_field fields 2 in
       let raw := mkDiskRaw name (f 3%nat) (f 4%nat) (f 5%nat) (f 6%nat) (f 7%nat) (f 8%nat)
                    (f 9%nat) (f 10%nat) (f 11%nat) (f 12%nat) (f 13%nat) in
       if i64 (dr_ReadsCompleted raw + dr_WritesCompleted raw) =? 0 then m
       else <[name := raw]> m.

Definition ParseDiskStats (content : string) : gmap string DiskStatRaw :=
  foldl diskstats_line ∅ (lines content).

(** ** Differences of two samples *)

Definition CPUDelta (prev curr : CPURaw) (numCPUs : Z) : CPUInfo :=
  let totalDelta := i64 (CPURaw_Total curr - CPURaw_Total prev) in
  if totalDelta <=? 0 then mkCPU f0 f0 f0 f0 numCPUs
  else
    let pct delta := fmul (fdiv (f_of_Z (i64 delta)) (f_of_Z totalDelta)) (f_of_Z 100) in
    let system c := cr_System c + cr_IRQ c + cr_SoftIRQ c + cr_Steal c in
    mkCPU (pct ((cr_User curr + cr_Nice curr) - (cr_User prev + cr_Nice prev)))
      (pct (system curr - system prev)) (pct (cr_IOWait curr - cr_IOWait prev))
      (pct (cr_Idle curr - cr_Idle prev)) numCPUs.

(** Average time per operation, 0 without operations. *)
Definition await (timeDelta opsDelta : Z) : float64 :=
  if 0 <? opsDelta then fdiv (f_of_Z timeDelta) (f_of_Z opsDelta) else f0.

(** [sectors * 512 / 1024], truncating. *)
Definition sectors_kb (sectors : Z) : Z := Z.quot (i64 (sectors * 512)) 1024.

Definition DiskStatsDelta (prev curr : DiskStatRaw) (intervalMs : float64) : DiskStatInfo :=
  let readsDelta := i64 (dr_ReadsCompleted curr - dr_ReadsCompleted prev) in
  let writesDelta := i64 (dr_WritesCompleted curr - dr_WritesCompleted prev) in
  let sectorsReadDelta := i64 (dr_SectorsRead curr - dr_SectorsRead prev) in
  let sectorsWrittenDelta := i64 (dr_SectorsWritten curr - dr_SectorsWritten prev) in
  let readTimeDelta := i64 (dr_ReadTimeMs curr - dr_ReadTimeMs prev) in
  let writeTimeDelta := i64 (dr_WriteTimeMs curr - dr_WriteTimeMs prev) in
  let ioTimeDelta := i64 (dr_IOTimeMs curr - dr_IOTimeMs prev) in
  let utilPct :=
    if fgt intervalMs f0 then
      let u := fmul (fdiv (f_of_Z ioTimeDelta) intervalMs) (f_of_Z 100) in
      if fgt u (f_of_Z 100) then f_of_Z 100 else u
    else f0 in
  mkDiskStat (dr_Device curr) readsDelta writesDelta (sectors_kb sectorsReadDelta)
    (sectors_kb sectorsWrittenDelta) (dr_IOInProgress curr) (await readTimeDelta readsDelta)
    (await writeTimeDelta writesDelta) utilPct.

(** [float64(d.Milliseconds())], at least 1: the interval between two samples. *)
Definition interval_ms (d : Duration) : float64 :=
  let ms := f_of_Z (Z.quot d Millisecond) in if fle ms f0 then f1 else ms.

(** ** The snapshot on Linux *)

Record statfs := mkStatfs {
  sf_Blocks : Z;
  sf_Bsize : Z;
  sf_Bavail : Z;
  sf_Bfree : Z;
  sf_Files : Z;
  sf_Ffree : Z
}.

(** What the kernel answers during one snapshot; [k_StatLater] is /proc/stat one second later. *)
Record Kernel := mkKernel {
  k_ReadFile : string -> result string;
  k_StatLater : result string;
  k_Hostname : result string;
  k_Statfs : string -> result statfs;
  k_NumCPU : Z
}.

Definition excludedFSTypes : list string :=
  ["tmpfs"; "devtmpfs"; "sysfs"; "proc"; "cgroup"; "cgroup2"; "devpts"; "hugetlbfs"; "mqueue";
   "pstore"; "debugfs"; "securityfs"; "configfs"; "fusectl"; "binfmt_misc"; "autofs"; "tracefs";
   "overlay"].

Definition collectOSRelease (k : Kernel) : OSRelease :=
  match k_ReadFile k "/etc/os-release" with
  | Ok data => ParseOSRelease data
  | Err _ => match k_ReadFile k "/etc/lsb-release" with
             | Ok data => ParseOSRelease data
             | Err _ => mkOSRelease "" "" ""
             end
  end.

Definition collectUptime (k : Kernel) : result float64 :=
  match k_ReadFile k "/proc/uptime" with
  | Err e => Err ("read /proc/uptime: " +:+ e)
  | Ok data => match Fields data with
               | [] => Err "unexpected /proc/uptime format"
               | f :: _ => ParseFloatErr f
               end
  end.

Definition collectLoadAvg (k : Kernel) : result LoadAvg :=
  match k_ReadFile k "/proc/loadavg" with
  | Err e => Err ("read /proc/loadavg: " +:+ e)
  | Ok data => match Fields data with
               | a :: b :: c :: _ => Ok (mkLoadAvg (ParseFloat a) (ParseFloat b) (ParseFloat c))
               | _ => Err "unexpected /proc/loadavg format"
               end
  end.

Definition collectMemory (k : Kernel) : result MemoryInfo :=
  match k_ReadFile k "/proc/meminfo" with
  | Err e => Err ("read /proc/meminfo: " +:+ e)
  | Ok data => Ok (ParseMeminfo data)
  end.

Definition collectCPU (k : Kernel) : result CPUInfo :=
  match k_ReadFile k "/proc/stat" with
  | Err e => Err ("read /proc/stat: " +:+ e)
  | Ok data1 =>
      match ParseCPURaw data1 with
      | Err e => Err ("parse /proc/stat: " +:+ e)
      | Ok prev =>
          match k_StatLater k with
          | Err e => Err ("read /proc/stat (second sample): " +:+ e)
          | Ok data2 =>
              match ParseCPURaw data2 with
              | Err e => Err ("parse /proc/stat (second sample): " +:+ e)
              | Ok curr => Ok (CPUDelta prev curr (k_NumCPU k))
              end
          end
      end
  end.

Definition disk_of (k : Kernel) (mountPoints : list string) (line : string) : option DiskInfo :=
  match Fields line with
  | device :: mount :: fstype :: _ =>
      if existsb (String.eqb fstype) excludedFSTypes then None
      else if (0 <? len mountPoints) && negb (existsb (String.eqb mount) mountPoints) then None
      else match k_Statfs k mount with
           | Err _ => None
           | Ok st =>
               let totalBytes := i64 (sf_Blocks st * sf_Bsize st) in
               Some (mkDisk mount device fstype totalBytes
                       (i64 (totalBytes - sf_Bfree st * sf_Bsize st))
                       (i64 (sf_Bavail st * sf_Bsize st)) (sf_Files st)
                       (i64 (sf_Files st - sf_Ffree st)))
           end
  | _ => None
  end.

Definition collectDisks (k : Kernel) (mountPoints : list string) : result (list DiskInfo) :=
  match k_ReadFile k "/proc/mounts" with
  | Err e => Err ("read /proc/mounts: " +:+ e)
  | Ok data => Ok (omap (disk_of k mountPoints) (lines data))
  end.

(** The package variables [previousDiskStats] and [previousDiskStatsTime]. *)
Abbreviation diskState := (option (gmap string DiskStatRaw) * Time)%type.

Section Snapshot.
Context {MR : MapRange}.

(** The devices present in both samples, with their differences. *)
Definition diskDeltas (prev current : gmap string DiskStatRaw) (intervalMs : float64)
    : list DiskStatInfo :=
  omap (fun nc => match prev !! nc.1 with
                  | Some p => Some (DiskStatsDelta p nc.2 intervalMs)
                  | None => None
                  end) (map_range current).

Definition rawStat (raw : DiskStatRaw) : DiskStatInfo :=
  mkDiskStat (dr_Device raw) (dr_ReadsCompleted raw) (dr_WritesCompleted raw)
    (sectors_kb (dr_SectorsRead raw)) (sectors_kb (dr_SectorsWritten raw)) (dr_IOInProgress raw)
    f0 f0 f0.

Definition collectDiskStats (k : Kernel) (now : Time) (st : diskState)
    : diskState * result (list DiskStatInfo) :=
  match k_ReadFile k "/proc/diskstats" with
  | Err e => (st, Err ("read /proc/diskstats: " +:+ e))
  | Ok data =>
      let current := ParseDiskStats data in
      match st with
      | (None, _) => ((Some current, now), Ok (map (fun nc => rawStat nc.2) (map_range current)))
      | (Some prev, prevTime) =>
          ((Some current, now),
           Ok (diskDeltas prev current (interval_ms (time_Sub now prevTime))))
      end
  end.

Definition ok_or {A} (d : A) (r : result A) : A := match r with Ok a => a | Err _ => d end.

(** [CollectOS]: what cannot be read keeps its zero value; there is never an error. *)
Definition CollectOS (k : Kernel) (now : Time) (mountPoints : list string) (st : diskState)
    : diskState * OSSnapshot :=
  let (st', diskStats) := collectDiskStats k now st in
  (st', mkOSSnapshot now (ok_or "" (k_Hostname k)) (collectOSRelease k) (ok_or f0 (collectUptime k))
          (ok_or (mkLoadAvg f0 f0 f0) (collectLoadAvg k)) (ok_or (mkMemory 0 0 0 0 0) (collectMemory k))
          (ok_or (mkCPU f0 f0 f0 f0 0) (collectCPU k)) (ok_or [] (collectDisks k mountPoints))
          (ok_or [] diskStats)).

End Snapshot.

(** ** Examples *)

Example ParseMeminfo_value :
  ParseMeminfo ("MemTotal:       16384 kB" +:+ newline +:+ "MemFree:  1000 kB" +:+ newline +:+
                "MemAvailable:   4096 kB" +:+ newline +:+ "junk")
  = mkMemory 16384 4096 12288 0 0.
Proof. vm_compute. done. Qed.

Example ParseCPURaw_value :
  ParseCPURaw ("cpu  10 20 30 40 5 6 7" +:+ newline +:+ "cpu0 1 2 3 4 5 6 7")
  = Ok (mkCPURaw 10 20 30 40 5 6 7 0).
Proof. vm_compute. done. Qed.

Example ParseOSRelease_value :
  ParseOSRelease ("NAME='Debian GNU/Linux'" +:+ newline +:+ "# x" +:+ newline +:+ "VERSION_ID=12")
  = mkOSRelease "Debian GNU/Linux" "12" "".
Proof. vm_compute. done. Qed.

(** ** The interval does not enter the amounts read and written *)

Lemma DiskStatsDelta_kb (prev curr : DiskStatRaw) (i j : float64) :
  ds_ReadKB (DiskStatsDelta prev curr i) = ds_ReadKB (DiskStatsDelta prev curr j) /\
  ds_WriteKB (DiskStatsDelta prev curr i) = ds_WriteKB (DiskStatsDelta prev curr j).
Proof. done. Qed.

(** A point without the "pg." prefix. *)
Definition raw_point (now : Time) (instanceID metric : string) (value : float64) (labels : Labels)
    : MetricPoint := mkPoint instanceID metric value labels now.

(** ** The operating system collector *)

Inductive OSCollectorSource :=
  | OSSourceNone
  | OSSourceLocal
  | OSSourceAgent.

Record OSCollector := mkOSCollector { oc_instanceID : string; oc_source : OSCollectorSource }.

(** [urlHostname] is what net/url finds as the host of a URL, nothing when it does not parse. *)
Definition extractDSNHost (urlHostname : string -> option string) (dsn : string) : string :=
  if has_prefix dsn "postgres://" || has_prefix dsn "postgresql://" then
    default "" (urlHostname dsn)
  else match List.find (fun part => has_prefix part "host=") (Fields dsn) with
       | Some part => default "" (strip_prefix "host=" part)
       | None => ""
       end.

Definition isLocalHost (urlHostname : string -> option string) (hostname : result string)
    (dsn : string) : bool :=
  let host := extractDSNHost urlHostname dsn in
  if String.eqb host "" then false
  else let lower := ToLower host in
       if String.eqb lower "localhost" || String.eqb lower "127.0.0.1" || String.eqb lower "::1"
       then true
       else match hostname with
            | Err _ => false
            | Ok h => EqualFold host h
            end.

Definition NewOSCollector (urlHostname : string -> option string) (hostname : result string)
    (instanceID dsn agentURL : string) : OSCollector :=
  mkOSCollector instanceID
    (if negb (String.eqb agentURL "") then OSSourceAgent
     else if isLocalHost urlHostname hostname dsn then OSSourceLocal else OSSourceNone).

(** The points of one disk and of one device. *)
Definition diskPoints (now : Time) (id : string) (d : DiskInfo) : list MetricPoint :=
  let labels := labels_of [("mount", di_Mount d)] in
  [ raw_point now id "os.disk.total_bytes" (f_of_Z (di_TotalBytes d)) labels;
    raw_point now id "os.disk.used_bytes" (f_of_Z (di_UsedBytes d)) labels;
    raw_point now id "os.disk.free_bytes" (f_of_Z (di_FreeBytes d)) labels;
    raw_point now id "os.disk.inodes_total" (f_of_Z (di_InodesTotal d)) labels;
    raw_point now id "os.disk.inodes_used" (f_of_Z (di_InodesUsed d)) labels ].

Definition deviceStatPoints (now : Time) (id device : string) (ds : DiskStatInfo)
    : list MetricPoint :=
  let labels := labels_of [("device", device)] in
  [ raw_point now id "os.disk.reads_completed" (f_of_Z (ds_ReadsCompleted ds)) labels;
    raw_point now id "os.disk.writes_completed" (f_of_Z (ds_WritesCompleted ds)) labels;
    raw_point now id "os.disk.read_bytes_per_sec" (fmul (f_of_Z (ds_ReadKB ds)) (f_of_Z 1024)) labels;
    raw_point now id "os.disk.write_bytes_per_sec" (fmul (f_of_Z (ds_WriteKB ds)) (f_of_Z 1024)) labels;
    raw_point now id "os.disk.read_await_ms" (ds_ReadAwaitMs ds) labels;
    raw_point now id "os.disk.write_await_ms" (ds_WriteAwaitMs ds) labels;
    raw_point now id "os.disk.util_pct" (ds_UtilPct ds) labels ].

Definition cpuPoints (now : Time) (id : string) (cpu : CPUInfo) : list MetricPoint :=
  [ raw_point now id "os.cpu.user_pct" (cp_UserPct cpu) ∅;
    raw_point now id "os.cpu.system_pct" (cp_SystemPct cpu) ∅;
    raw_point now id "os.cpu.iowait_pct" (cp_IOWaitPct cpu) ∅;
    raw_point now id "os.cpu.idle_pct" (cp_IdlePct cpu) ∅ ].

Definition memoryPoints (now : Time) (id : string) (mem : MemoryInfo) : list MetricPoint :=
  [ raw_point now id "os.memory.total_kb" (f_of_Z (mi_TotalKB mem)) ∅;
    raw_point now id "os.memory.available_kb" (f_of_Z (mi_AvailableKB mem)) ∅;
    raw_point now id "os.memory.used_kb" (f_of_Z (mi_UsedKB mem)) ∅;
    raw_point now id "os.memory.commit_limit_kb" (f_of_Z (mi_CommitLimitKB mem)) ∅;
    raw_point now id "os.memory.committed_as_kb" (f_of_Z (mi_CommittedAsKB mem)) ∅ ].

Definition loadPoints (now : Time) (id : string) (one five fifteen : float64) : list MetricPoint :=
  [ raw_point now id "os.load.1m" one ∅;
    raw_point now id "os.load.5m" five ∅;
    raw_point now id "os.load.15m" fifteen ∅ ].

(** A snapshot without its time is given the current one. *)
Definition snapshotToMetricPoints (clock : Time) (snap : OSSnapshot) (id : string)
    : list MetricPoint :=
  let now := if time_IsZero (sn_CollectedAt snap) then clock else sn_CollectedAt snap in
  cpuPoints now id (sn_CPU snap) ++ memoryPoints now id (sn_Memory snap)
  ++ loadPoints now id (la_One (sn_LoadAvg snap)) (la_Five (sn_LoadAvg snap))
       (la_Fifteen (sn_LoadAvg snap))
  ++ [raw_point now id "os.uptime_seconds" (sn_UptimeSecs snap) ∅]
  ++ foldl (fun acc d => acc ++ diskPoints now id d) [] (sn_Disks snap)
  ++ foldl (fun acc ds => acc ++ deviceStatPoints now id (ds_Device ds) ds) [] (sn_DiskStats snap).

(** [scrape] is the agent's answer, [local] the snapshot of the machine itself. *)
Definition OS_Collect (clock : Time) (c : OSCollector) (scrape local : result OSSnapshot)
    : result (list MetricPoint) :=
  match oc_source c with
  | OSSourceNone => Ok []
  | OSSourceAgent =>
      match scrape with
      | Err e => Err (wrap "os scraper" e)
      | Ok snap => Ok (snapshotToMetricPoints clock snap (oc_instanceID c))
      end
  | OSSourceLocal =>
      match local with
      | Err e => Err (wrap "local os" e)
      | Ok snap => Ok (snapshotToMetricPoints clock snap (oc_instanceID c))
      end
  end.

(** ** The operating system through the server: pg_read_file *)

Record OSSQLCollector := mkOSSQL {
  sq_instanceID : string;
  sq_pgVersion : PGVersion;
  sq_prevCPU : option CPURaw;
  sq_prevDisk : option (gmap string DiskStatRaw);
  sq_prevTimestamp : Time
}.

Definition NewOSSQLCollector (instanceID : string) (v : PGVersion) : OSSQLCollector :=
  mkOSSQL instanceID v None None zero_time.

Fixpoint all_bytes (p : Ascii.ascii -> bool) (s : string) : bool :=
  match s with EmptyString => true | String c s' => p c && all_bytes p s' end.

Definition nonempty_all (p : Ascii.ascii -> bool) (s : string) : bool :=
  negb (String.eqb s "") && all_bytes p s.

Definition is_lower (c : Ascii.ascii) : bool := (97 <=? byte_Z c) && (byte_Z c <=? 122).
Definition letter_n : Ascii.ascii := Eval compute in Ascii.ascii_of_N 110.

(** The pattern [^(sd[a-z]+|nvme\d+n\d+|vd[a-z]+|xvd[a-z]+)$]. *)
Definition devicePattern (name : string) : bool :=
  let word p := match strip_prefix p name with Some r => nonempty_all is_lower r | None => false end in
  word "sd" || word "vd" || word "xvd" ||
  match strip_prefix "nvme" name with
  | Some r => match cut letter_n r with
              | Some (a, b) => nonempty_all is_digit a && nonempty_all is_digit b
              | None => false
              end
  | None => false
  end.

Section OSSQL.
Context {MR : MapRange} `{DR : Driver}.

Definition readProcFile (conn : Conn) (path : string) : result string :=
  query_row conn "SELECT pg_read_file($1)" [AText path] str.

Definition readMeminfo (now : Time) (id : string) (conn : Conn) : list MetricPoint :=
  match readProcFile conn "/proc/meminfo" with
  | Err _ => []
  | Ok content => memoryPoints now id (ParseMeminfo content)
  end.

Definition readUptime (now : Time) (id : string) (conn : Conn) : list MetricPoint :=
  match readProcFile conn "/proc/uptime" with
  | Err _ => []
  | Ok content => match Fields content with
                  | [] => []
                  | f :: _ => match ParseFloatErr f with
                              | Err _ => []
                              | Ok uptime => [raw_point now id "os.uptime_seconds" uptime ∅]
                              end
                  end
  end.

Definition readLoadAvg (now : Time) (id : string) (conn : Conn) : list MetricPoint :=
  match readProcFile conn "/proc/loadavg" with
  | Err _ => []
  | Ok content => match Fields content with
                  | a :: b :: c :: _ => loadPoints now id (ParseFloat a) (ParseFloat b) (ParseFloat c)
                  | _ => []
                  end
  end.

(** The first sample only sets the state; later ones are compared with it. *)
Definition readCPUStat (now : Time) (c : OSSQLCollector) (conn : Conn)
    : OSSQLCollector * list MetricPoint :=
  match readProcFile conn "/proc/stat" with
  | Err _ => (c, [])
  | Ok content =>
      match ParseCPURaw content with
      | Err _ => (c, [])
      | Ok curr =>
          let c' := mkOSSQL (sq_instanceID c) (sq_pgVersion c) (Some curr) (sq_prevDisk c)
                      (sq_prevTimestamp c) in
          match sq_prevCPU c with
          | None => (c', [])
          | Some prev => (c', cpuPoints now (sq_instanceID c) (CPUDelta prev curr 0))
          end
      end
  end.

Definition wholeDisks (devices : gmap string DiskStatRaw) : gmap string DiskStatRaw :=
  filter (fun kv => devicePattern kv.1 = true) devices.

Definition readDiskStats (now : Time) (c : OSSQLCollector) (conn : Conn)
    : OSSQLCollector * list MetricPoint :=
  match readProcFile conn "/proc/diskstats" with
  | Err _ => (c, [])
  | Ok content =>
      let current := wholeDisks (ParseDiskStats content) in
      let c' := mkOSSQL (sq_instanceID c) (sq_pgVersion c) (sq_prevCPU c) (Some current) now in
      match sq_prevDisk c with
      | None => (c', [])
      | Some prevDisk =>
          let intervalMs := interval_ms (time_Sub now (sq_prevTimestamp c)) in
          (c', foldl (fun acc nc =>
                 match prevDisk !! nc.1 with
                 | None => acc
                 | Some prev => acc ++ deviceStatPoints now (sq_instanceID c) nc.1
                                         (DiskStatsDelta prev nc.2 intervalMs)
                 end) [] (map_range current))
      end
  end.

Definition OSSQL_Collect (now : Time) (c : OSSQLCollector) (conn : Conn)
    : OSSQLCollector * result (list MetricPoint) :=
  let id := sq_instanceID c in
  let (c1, cpu) := readCPUStat now c conn in
  let (c2, disks) := readDiskStats now c1 conn in
  (c2, Ok (readMeminfo now id conn ++ readUptime now id conn ++ readLoadAvg now id conn
           ++ cpu ++ disks)).

End OSSQL.

(** ** Patroni and etcd *)

Record ClusterMember := mkMember {
  cm_Name : string;
  cm_Host : string;
  cm_Port : Z;
  cm_Role : string;
  cm_State : string;
  cm_Timeline : Z;
  cm_Lag : Z;
  cm_Tags : option (gmap string string)
}.

Record ETCDMember := mkETCDMember {
  em_ID : string;
  em_Name : string;
  em_PeerURL : string;
  em_ClientURL : string;
  em_IsLeader : bool;
  em_Status : string;
  em_DBSize : Z
}.

(** What the providers of a cycle answer; a missing Patroni state is the nil pointer. *)
Record ClusterAnswers := mkAnswers {
  ca_State : result (option (list ClusterMember));
  ca_Members : result (list ETCDMember);
  ca_Health : result (gmap string bool)
}.

Definition is_leader (m : ClusterMember) : bool :=
  String.eqb (cm_Role m) "leader" || String.eqb (cm_Role m) "Leader".

Definition count_float {A} (f : A -> bool) (l : list A) : float64 :=
  foldl (fun n x => if f x then fadd n f1 else n) f0 l.

Definition memberPoints (now : Time) (id : string) (m : ClusterMember) : list MetricPoint :=
  let labels := labels_of [("member", cm_Name m); ("role", cm_Role m)] in
  [ raw_point now id "cluster.patroni.member_state" (bool_value (String.eqb (cm_State m) "running")) labels;
    raw_point now id "cluster.patroni.member_lag_bytes" (f_of_Z (cm_Lag m)) labels ].

Section Cluster.
Context {MR : MapRange}.

Definition patroniPoints (now : Time) (id : string) (st : result (option (list ClusterMember)))
    : list MetricPoint :=
  match st with
  | Ok (Some members) =>
      foldl (fun acc m => acc ++ memberPoints now id m) [] members ++
      [ raw_point now id "cluster.patroni.member_count" (f_of_Z (len members)) ∅;
        raw_point now id "cluster.patroni.leader_count" (count_float is_leader members) ∅;
        raw_point now id "cluster.patroni.replica_count"
          (count_float (fun m => negb (is_leader m)) members) ∅ ]
  | _ => []
  end.

Definition etcdPoints (now : Time) (id : string) (members : result (list ETCDMember))
    (health : result (gmap string bool)) : list MetricPoint :=
  (match members with
   | Ok ms => [ raw_point now id "cluster.etcd.member_count" (f_of_Z (len ms)) ∅;
                raw_point now id "cluster.etcd.leader_count" (count_float em_IsLeader ms) ∅ ]
   | Err _ => []
   end) ++
  (match health with
   | Ok h => map (fun eh => raw_point now id "cluster.etcd.member_healthy" (bool_value eh.2)
                              (labels_of [("member", eh.1)])) (map_range h)
   | Err _ => []
   end).

Definition Cluster_Collect (now : Time) (id : string) (a : ClusterAnswers)
    : result (list MetricPoint) :=
  Ok (patroniPoints now id (ca_State a) ++ etcdPoints now id (ca_Members a) (ca_Health a)).

End Cluster.

(** ** What they emit *)

Definition os_metrics : list string :=
  ["os.cpu.user_pct"; "os.cpu.system_pct"; "os.cpu.iowait_pct"; "os.cpu.idle_pct";
   "os.memory.total_kb"; "os.memory.available_kb"; "os.memory.used_kb";
   "os.memory.commit_limit_kb"; "os.memory.committed_as_kb"; "os.load.1m"; "os.load.5m";
   "os.load.15m"; "os.uptime_seconds"; "os.disk.total_bytes"; "os.disk.used_bytes";
   "os.disk.free_bytes"; "os.disk.inodes_total"; "os.disk.inodes_used";
   "os.disk.reads_completed"; "os.disk.writes_completed"; "os.disk.read_bytes_per_sec";
   "os.disk.write_bytes_per_sec"; "os.disk.read_await_ms"; "os.disk.write_await_ms";
   "os.disk.util_pct"].
Definition cluster_metrics : list string :=
  ["cluster.patroni.member_state"; "cluster.patroni.member_lag_bytes";
   "cluster.patroni.member_count"; "cluster.patroni.leader_count";
   "cluster.patroni.replica_count"; "cluster.etcd.member_count"; "cluster.etcd.leader_count";
   "cluster.etcd.member_healthy"].

Lemma snapshot_of_metrics clock snap id :
  of_metrics id os_metrics (snapshotToMetricPoints clock snap id).
Proof.
  unfold snapshotToMetricPoints, cpuPoints, memoryPoints, loadPoints, diskPoints, deviceStatPoints.
  emits_tac.
Qed.

Lemma OS_emits clock c scrape local :
  emits (oc_instanceID c) os_metrics (OS_Collect clock c scrape local).
Proof.
  unfold OS_Collect. destruct (oc_source c), scrape, local;
    first [apply emits_err | apply emits_ok; first [apply snapshot_of_metrics | constructor]].
Qed.

Lemma OSSQL_emits {MR : MapRange} `{DR : Driver} now c conn :
  emits (sq_instanceID c) os_metrics (OSSQL_Collect now c conn).2.
Proof.
  unfold OSSQL_Collect, readCPUStat, readDiskStats, readMeminfo, readUptime, readLoadAvg.
  destruct (readProcFile conn "/proc/stat") as [s|]; [destruct (ParseCPURaw s); [destruct (sq_prevCPU c)|]|];
    destruct (readProcFile conn "/proc/diskstats") as [d|]; cbn [sq_prevDisk sq_instanceID];
    try destruct (sq_prevDisk c); cbn [snd];
    unfold memoryPoints, loadPoints, cpuPoints, deviceStatPoints; emits_tac.
Qed.

Lemma Cluster_emits {MR : MapRange} now id a :
  emits id cluster_metrics (Cluster_Collect now id a).
Proof. unfold Cluster_Collect, patroniPoints, etcdPoints, memberPoints. emits_tac. Qed.
