(* ===== verification/CollectorsLow.v ===== *)
(** * The collectors of the low-frequency group

    Models internal/collector/server_info.go, database_sizes.go, settings.go, extensions.go,
    transactions.go and io_stats.go. *)
From S2P Require Import Prelude Float64 GoText Metric SqlConn Collector OsCollectors.

Local Open Scope Z_scope.

(** ** Server information *)

Definition backupStateGate : Gate := mkGate "backup_state" [
  mkVariant (mkRange 14 0 14 99) "SELECT pg_is_in_backup()::int AS is_backup" ].

Definition readServerFile `{DR : Driver} (conn : Conn) (path : string) : result string :=
  match query_row conn "SELECT pg_read_file($1)" [AText path] str with
  | Err e => Err (wrap ("pg_read_file " +:+ path) e)
  | Ok content => Ok content
  end.

(** A point whose query may fail: the failure is logged and the point left out. *)
Definition optional_point (now : Time) (c : Base) (metric : string) (r : result float64)
    : list MetricPoint :=
  match r with Ok v => [point now c metric v ∅] | Err _ => [] end.

Definition wraparoundSQL : string :=
  "SELECT COALESCE(max(age(datfrozenxid))::float / 2147483647 * 100, 0) FROM pg_database WHERE datallowconn".
Definition multixactSQL : string :=
  "SELECT COALESCE(max(mxid_age(datminmxid))::float8 / (2147483648)::float8 * 100, 0) FROM pg_database WHERE datallowconn".

(** The pretty name of /etc/os-release: the name and, when there is one, the version. *)
Definition prettyName (rel : OSRelease) : string :=
  if negb (String.eqb (os_Version rel) "") then os_Name rel +:+ " " +:+ os_Version rel
  else os_Name rel.

(** The points that follow the backup state. *)
Definition serverTail `{DR : Driver} (now : Time) (c : Base) (conn : Conn) : list MetricPoint :=
  optional_point now c "server.wraparound_pct" (query_row conn wraparoundSQL [] float)
  ++ optional_point now c "server.multixact_pct" (query_row conn multixactSQL [] float)
  ++ (match readServerFile conn "/etc/hostname" with
      | Ok hostname => [point now c "server.hostname" f0 (labels_of [("hostname", TrimSpace hostname)])]
      | Err _ => []
      end)
  ++ (match readServerFile conn "/etc/os-release" with
      | Ok osRelease => [point now c "server.os" f0
                           (labels_of [("os", prettyName (ParseOSRelease osRelease))])]
      | Err _ => []
      end).

Definition ServerInfo_Collect `{DR : Driver} (now : Time) (c : Base) (ic : InstanceContext)
    (conn : Conn) : result (list MetricPoint) :=
  match query_row conn "SELECT extract(epoch FROM pg_postmaster_start_time())::bigint" [] int64 with
  | Err e => Err (wrap "server_info collect start_time" e)
  | Ok startEpoch =>
      let head := [ point now c "server.start_time_unix" (f_of_Z startEpoch) ∅;
                    point now c "server.uptime_seconds" (f_of_Z (i64 (now / Second - startEpoch))) ∅;
                    point now c "server.is_in_recovery" (bool_value (ic_IsRecovery ic)) ∅ ] in
      match Select backupStateGate (b_pgVersion c) with
      | Some sql =>
          match query_row conn sql [] int64 with
          | Err e => Err (wrap "server_info collect is_backup" e)
          | Ok isBackup =>
              Ok (head ++ [point now c "server.is_in_backup" (f_of_Z isBackup) ∅]
                  ++ serverTail now c conn)
          end
      | None => Ok (head ++ [point now c "server.is_in_backup" f0 ∅] ++ serverTail now c conn)
      end
  end.

(** ** Database sizes *)

Definition sqlDatabaseSizes : string := "
SELECT
    datname,
    pg_database_size(datname) AS size_bytes
FROM pg_database
WHERE datistemplate = false
ORDER BY size_bytes DESC".

Definition DatabaseSize_scan `{DR : Driver} : Scanner (string * Z) :=
  dbName ← str; sizeBytes ← int64; mret (dbName, sizeBytes).

Definition DatabaseSizes_Collect `{DR : Driver} (now : Time) (c : Base) (conn : Conn)
    : result (list MetricPoint) :=
  query_loop conn sqlDatabaseSizes [] DatabaseSize_scan (wrap "database_sizes collect")
    (wrap "database_sizes scan row") (wrap "database_sizes iterate rows")
    (fun acc row => Ok (acc ++ [point now c "database.size_bytes" (f_of_Z row.2)
                                  (labels_of [("database", row.1)])])) [].

(** ** Settings *)

Definition sqlSettings : string := "
SELECT name, setting
FROM pg_settings
WHERE name IN (
    'track_io_timing',
    'shared_buffers',
    'max_locks_per_transaction',
    'max_prepared_transactions'
)".

Record settingDef := mkSettingDef { sd_metric : string; sd_boolType : bool }.

Definition settingsMap (name : string) : option settingDef :=
  if String.eqb name "track_io_timing" then Some (mkSettingDef "settings.track_io_timing" true)
  else if String.eqb name "shared_buffers" then
    Some (mkSettingDef "settings.shared_buffers_8kb" false)
  else if String.eqb name "max_locks_per_transaction" then
    Some (mkSettingDef "settings.max_locks_per_tx" false)
  else if String.eqb name "max_prepared_transactions" then
    Some (mkSettingDef "settings.max_prepared_tx" false)
  else None.

(** The body of the loop: a setting whose value is not a number ends the collection. *)
Definition settingStep (now : Time) (c : Base) (acc : list MetricPoint) (row : string * string)
    : result (list MetricPoint) :=
  let '(name, setting) := row in
  match settingsMap name with
  | None => Ok acc
  | Some def =>
      if sd_boolType def then
        Ok (acc ++ [point now c (sd_metric def) (bool_value (String.eqb setting "on")) ∅])
      else match ParseFloatErr setting with
           | Err e => Err (wrap ("settings parse " +:+ name +:+ " value " +:+ setting) e)
           | Ok value => Ok (acc ++ [point now c (sd_metric def) value ∅])
           end
  end.

Definition NameSetting_scan `{DR : Driver} : Scanner (string * string) :=
  name ← str; setting ← str; mret (name, setting).

Definition Settings_Collect `{DR : Driver} (now : Time) (c : Base) (conn : Conn)
    : result (list MetricPoint) :=
  query_loop conn sqlSettings [] NameSetting_scan (wrap "settings collect")
    (wrap "settings scan row") (wrap "settings iterate rows") (settingStep now c) [].

(** ** Extensions *)

Definition sqlPGSSInstalled : string := "
SELECT count(*) FROM pg_extension WHERE extname = 'pg_stat_statements'".
Definition sqlPGSSFillPct : string := "
SELECT count(*) * 100.0 / current_setting('pg_stat_statements.max')::float AS fill_pct
FROM pg_stat_statements".
Definition sqlPGSSStatsReset : string := "
SELECT COALESCE(extract(epoch FROM stats_reset)::bigint, 0) AS reset_epoch
FROM pg_stat_statements_info".

Definition Extensions_Collect `{DR : Driver} (now : Time) (c : Base) (conn : Conn)
    : result (list MetricPoint) :=
  match query_row conn sqlPGSSInstalled [] int64 with
  | Err e => Err (wrap "extensions collect pgss_installed" e)
  | Ok pgssCount =>
      let installed := 0 <? pgssCount in
      let points := [point now c "extensions.pgss_installed" (bool_value installed) ∅] in
      if negb installed then Ok points
      else
        Ok (points
            ++ optional_point now c "extensions.pgss_fill_pct" (query_row conn sqlPGSSFillPct [] float)
            ++ (if AtLeast (b_pgVersion c) 14 0 then
                  match query_row conn sqlPGSSStatsReset [] int64 with
                  | Ok resetEpoch => [point now c "extensions.pgss_stats_reset_unix" (f_of_Z resetEpoch) ∅]
                  | Err _ => []
                  end
                else []))
  end.

(** ** Transactions *)

Definition sqlTransactions : string := "
SELECT
    d.datname,
    COALESCE(
        s.xact_commit * 100.0 / NULLIF(s.xact_commit + s.xact_rollback, 0),
        0
    ) AS commit_ratio,
    s.deadlocks
FROM pg_stat_database s
JOIN pg_database d ON d.oid = s.datid
WHERE d.datistemplate = false
  AND s.xact_commit + s.xact_rollback > 0".

Definition Transaction_scan `{DR : Driver} : Scanner (string * float64 * Z) :=
  dbName ← str; commitRatio ← float; deadlocks ← int64; mret (dbName, commitRatio, deadlocks).

Definition Transactions_Collect `{DR : Driver} (now : Time) (c : Base) (conn : Conn)
    : result (list MetricPoint) :=
  query_loop conn sqlTransactions [] Transaction_scan (wrap "transactions collect")
    (wrap "transactions scan row") (wrap "transactions iterate rows")
    (fun acc row =>
       let '(dbName, commitRatio, deadlocks) := row in
       let labels := labels_of [("database", dbName)] in
       Ok (acc ++ [ point now c "transactions.commit_ratio_pct" commitRatio labels;
                    point now c "transactions.deadlocks" (f_of_Z deadlocks) labels ])) [].

(** ** I/O statistics, from version 16 *)

Definition sqlIOStats : string := "
SELECT
    backend_type,
    object,
    context,
    COALESCE(reads, -1)       AS reads,
    COALESCE(read_time, -1)   AS read_time,
    COALESCE(writes, -1)      AS writes,
    COALESCE(write_time, -1)  AS write_time,
    COALESCE(extends, -1)     AS extends,
    COALESCE(extend_time, -1) AS extend_time,
    COALESCE(hits, -1)        AS hits,
    COALESCE(evictions, -1)   AS evictions,
    COALESCE(reuses, -1)      AS reuses,
    COALESCE(fsyncs, -1)      AS fsyncs,
    COALESCE(fsync_time, -1)  AS fsync_time
FROM pg_stat_io".

Record ioStatsRow := mkIOStats {
  io_backendType : string;
  io_object : string;
  io_ioContext : string;
  io_reads : float64;
  io_readTime : float64;
  io_writes : float64;
  io_writeTime : float64;
  io_extends : float64;
  io_extendTime : float64;
  io_hits : float64;
  io_evictions : float64;
  io_reuses : float64;
  io_fsyncs : float64;
  io_fsyncTime : float64
}.

Definition IOStats_scan `{DR : Driver} : Scanner ioStatsRow :=
  backendType ← str; object ← str; ioContext ← str; reads ← float; readTime ← float;
  writes ← float; writeTime ← float; extends ← float; extendTime ← float; hits ← float;
  evictions ← float; reuses ← float; fsyncs ← float; fsyncTime ← float;
  mret (mkIOStats backendType object ioContext reads readTime writes writeTime extends extendTime
          hits evictions reuses fsyncs fsyncTime).

(** Columns that are NULL arrive as -1 and make no point. *)
Definition rowPoints (now : Time) (c : Base) (row : ioStatsRow) : list MetricPoint :=
  let labels := labels_of [("backend_type", io_backendType row); ("object", io_object row);
                           ("context", io_ioContext row)] in
  let emit name (val : float64) := if fge val f0 then [point now c name val labels] else [] in
  emit "io.reads" (io_reads row) ++ emit "io.read_time" (io_readTime row)
  ++ emit "io.writes" (io_writes row) ++ emit "io.write_time" (io_writeTime row)
  ++ emit "io.extends" (io_extends row) ++ emit "io.extend_time" (io_extendTime row)
  ++ emit "io.hits" (io_hits row) ++ emit "io.evictions" (io_evictions row)
  ++ emit "io.reuses" (io_reuses row) ++ emit "io.fsyncs" (io_fsyncs row)
  ++ emit "io.fsync_time" (io_fsyncTime row).

Definition IOStats_Collect `{DR : Driver} (now : Time) (c : Base) (conn : Conn)
    : result (list MetricPoint) :=
  if v_Major (b_pgVersion c) <? 16 then Ok []
  else query_loop conn sqlIOStats [] IOStats_scan (wrap "io_stats") (wrap "io_stats scan")
         (wrap "io_stats rows") (fun acc row => Ok (acc ++ rowPoints now c row)) [].

(** ** What they emit *)

Definition server_info_metrics : list string :=
  ["pg.server.start_time_unix"; "pg.server.uptime_seconds"; "pg.server.is_in_recovery";
   "pg.server.is_in_backup"; "pg.server.wraparound_pct"; "pg.server.multixact_pct";
   "pg.server.hostname"; "pg.server.os"].
Definition database_sizes_metrics : list string := ["pg.database.size_bytes"].
Definition settings_metrics : list string :=
  ["pg.settings.track_io_timing"; "pg.settings.shared_buffers_8kb"; "pg.settings.max_locks_per_tx";
   "pg.settings.max_prepared_tx"].
Definition extensions_metrics : list string :=
  ["pg.extensions.pgss_installed"; "pg.extensions.pgss_fill_pct";
   "pg.extensions.pgss_stats_reset_unix"].
Definition transactions_metrics : list string :=
  ["pg.transactions.commit_ratio_pct"; "pg.transactions.deadlocks"].
Definition io_stats_metrics : list string :=
  ["pg.io.reads"; "pg.io.read_time"; "pg.io.writes"; "pg.io.write_time"; "pg.io.extends";
   "pg.io.extend_time"; "pg.io.hits"; "pg.io.evictions"; "pg.io.reuses"; "pg.io.fsyncs";
   "pg.io.fsync_time"].

Section Emits.
Context `{DR : Driver} (now : Time) (c : Base) (conn : Conn).

Lemma ServerInfo_emits ic :
  emits (b_instanceID c) server_info_metrics (ServerInfo_Collect now c ic conn).
Proof. unfold ServerInfo_Collect, serverTail, optional_point. emits_tac. Qed.

Lemma DatabaseSizes_emits :
  emits (b_instanceID c) database_sizes_metrics (DatabaseSizes_Collect now c conn).
Proof. unfold DatabaseSizes_Collect. emits_tac. Qed.

Lemma Settings_emits : emits (b_instanceID c) settings_metrics (Settings_Collect now c conn).
Proof.
  unfold Settings_Collect. apply emits_query_loop; [|constructor]. intros acc [n v] Hacc.
  unfold settingStep, settingsMap.
  repeat (destruct (String.eqb n _); [cbn [sd_boolType sd_metric]; by emits_tac|]). by emits_tac.
Qed.

Lemma Extensions_emits : emits (b_instanceID c) extensions_metrics (Extensions_Collect now c conn).
Proof. unfold Extensions_Collect, optional_point. emits_tac. Qed.

Lemma Transactions_emits :
  emits (b_instanceID c) transactions_metrics (Transactions_Collect now c conn).
Proof. unfold Transactions_Collect. emits_tac. Qed.

Lemma IOStats_emits : emits (b_instanceID c) io_stats_metrics (IOStats_Collect now c conn).
Proof. unfold IOStats_Collect, rowPoints. emits_tac. Qed.

End Emits.
