(* ===== verification/DatabaseCollector.v ===== *)
(** * The per-database collector

    Models internal/collector/database.go: seventeen queries run in every database, each with the
    points of its rows; a failing query is counted and the others still run. The points carry no
    instance yet. *)
From stdpp Require Import pretty.
From S2P Require Import Prelude Float64 GoText Metric SqlConn Collector.

Local Open Scope Z_scope.

Definition dbStatementTimeout : string := "60s".

(** [dbPoint]: the database is a label; a label of [extra] with the same key would replace it. *)
Definition dbPoint (now : Time) (metric : string) (value : float64) (dbName : string)
    (extra : Labels) : MetricPoint :=
  mkPoint "" (metricPrefix +:+ "." +:+ metric) value (extra ∪ {["database" := dbName]}) now.

Section Queries.
Context `{DR : Driver} (now : Time) (q : Conn) (dbName : string).

Definition dbp (metric : string) (value : float64) (extra : Labels) : MetricPoint :=
  dbPoint now metric value dbName extra.

(** The shape of most queries: the points of each row, in order; the error after the rows is
    returned as it is. *)
Definition collect_rows {R} (sql : string) (name : string) (s : Scanner R)
    (points : R -> list MetricPoint) : result (list MetricPoint) :=
  query_loop q sql [] s (wrap (name +:+ " query")) (wrap (name +:+ " scan")) (fun e => e)
    (fun acc row => Ok (acc ++ points row)) [].

Definition largeObjectsSQL : string := "SELECT COUNT(*) FROM pg_largeobject_metadata".

Definition collectLargeObjects : result (list MetricPoint) :=
  match query_row q largeObjectsSQL [] int64 with
  | Err e => Err (wrap "large_objects count" e)
  | Ok count => Ok [dbp "db.large_objects.count" (f_of_Z count) ∅]
  end.

Definition fnSQL : string := "
		SELECT schemaname, funcname, calls, total_time, self_time
		FROM pg_stat_user_functions
		ORDER BY total_time DESC
		LIMIT 50".

Definition collectFunctionStats : result (list MetricPoint) :=
  match query_row q "SHOW track_functions" [] str with
  | Err e => Err (wrap "show track_functions" e)
  | Ok trackFn =>
      if String.eqb trackFn "none" then Ok []
      else collect_rows fnSQL "function_stats"
             (schema ← str; funcName ← str; calls ← int64; totalTime ← float; selfTime ← float;
              mret (schema, funcName, calls, totalTime, selfTime))
             (fun '(schema, funcName, calls, totalTime, selfTime) =>
                let labels := labels_of [("schema", schema); ("function", funcName)] in
                [ dbp "db.functions.calls" (f_of_Z calls) labels;
                  dbp "db.functions.total_time_ms" totalTime labels;
                  dbp "db.functions.self_time_ms" selfTime labels ])
  end.

Definition seqSQL : string := "
		SELECT schemaname, sequencename, last_value, max_value, increment_by,
		       COALESCE(CASE WHEN max_value > 0 AND last_value IS NOT NULL
		            THEN ROUND((last_value::numeric / max_value * 100), 2)
		            ELSE 0
		       END, 0) AS pct_used
		FROM pg_sequences
		ORDER BY pct_used DESC
		LIMIT 50".

Definition collectSequences : result (list MetricPoint) :=
  collect_rows seqSQL "sequences"
    (schema ← str; seqName ← str; lastVal ← oint; maxVal ← oint; incBy ← oint; pctUsed ← float;
     mret (schema, seqName, lastVal, pctUsed))
    (fun '(schema, seqName, lastVal, pctUsed) =>
       let labels := labels_of [("schema", schema); ("sequence", seqName)] in
       [dbp "db.sequences.pct_used" pctUsed labels] ++
       match lastVal with
       | Some v => [dbp "db.sequences.last_value" (f_of_Z v) labels]
       | None => []
       end).

Definition schemaSQL : string := "
		SELECT n.nspname AS schema_name,
		       COALESCE(SUM(pg_total_relation_size(c.oid)), 0) AS total_bytes
		FROM pg_class c
		JOIN pg_namespace n ON n.oid = c.relnamespace
		WHERE n.nspname NOT IN ('pg_catalog', 'information_schema', 'pg_toast')
		  AND c.relkind IN ('r', 'i', 'm', 'S', 't')
		GROUP BY n.nspname
		ORDER BY total_bytes DESC".

Definition collectSchemaSizes : result (list MetricPoint) :=
  collect_rows schemaSQL "schema_sizes" (schema ← str; totalBytes ← int64; mret (schema, totalBytes))
    (fun '(schema, totalBytes) =>
       [dbp "db.schema.size_bytes" (f_of_Z totalBytes) (labels_of [("schema", schema)])]).

Definition unloggedSQL : string := "
		SELECT n.nspname AS schema_name, c.relname AS table_name,
		       pg_total_relation_size(c.oid) AS total_bytes
		FROM pg_class c
		JOIN pg_namespace n ON n.oid = c.relnamespace
		WHERE c.relpersistence = 'u'
		  AND c.relkind = 'r'
		ORDER BY total_bytes DESC".

(** A row of schema, table and one size. *)
Definition table_size : Scanner (string * string * Z) :=
  schema ← str; table ← str; n ← int64; mret (schema, table, n).

Definition collectUnloggedObjects : result (list MetricPoint) :=
  collect_rows unloggedSQL "unlogged_objects" table_size
    (fun '(schema, table, totalBytes) =>
       [dbp "db.unlogged.size_bytes" (f_of_Z totalBytes)
          (labels_of [("schema", schema); ("table", table)])]).

Definition tableSizeSQL : string := "
		SELECT schemaname, relname,
		       pg_table_size(relid) AS table_bytes,
		       pg_indexes_size(relid) AS index_bytes,
		       COALESCE(pg_total_relation_size(relid) - pg_table_size(relid) - pg_indexes_size(relid), 0) AS toast_bytes,
		       pg_total_relation_size(relid) AS total_bytes,
		       n_live_tup
		FROM pg_stat_user_tables
		ORDER BY pg_total_relation_size(relid) DESC
		LIMIT 100".

Definition collectTableSizes : result (list MetricPoint) :=
  collect_rows tableSizeSQL "table_sizes"
    (schema ← str; table ← str; tableBytes ← int64; indexBytes ← int64; toastBytes ← int64;
     totalBytes ← int64; liveTup ← int64;
     mret (schema, table, tableBytes, indexBytes, toastBytes, totalBytes, liveTup))
    (fun '(schema, table, tableBytes, indexBytes, toastBytes, totalBytes, liveTup) =>
       let labels := labels_of [("schema", schema); ("table", table)] in
       [ dbp "db.table.data_bytes" (f_of_Z tableBytes) labels;
         dbp "db.table.index_bytes" (f_of_Z indexBytes) labels;
         dbp "db.table.toast_bytes" (f_of_Z toastBytes) labels;
         dbp "db.table.total_bytes" (f_of_Z totalBytes) labels;
         dbp "db.table.live_tuples" (f_of_Z liveTup) labels ]).

Definition bloatSQL : string := "
	WITH constants AS (
		SELECT current_setting('block_size')::numeric AS bs, 23 AS hdr, 4 AS ma
	),
	bloat_info AS (
		SELECT
			schemaname, tablename, reltuples, relpages, otta,
			ROUND((CASE WHEN otta=0 THEN 0.0 ELSE sml.relpages::float/otta END)::numeric,1) AS tbloat,
			GREATEST(relpages::bigint - otta, 0) AS wastedpages,
			GREATEST(bs*(relpages::bigint-otta),0) AS wastedbytes,
			iname, ituples, ipages, iotta,
			ROUND((CASE WHEN iotta=0 OR ipages=0 THEN 0.0 ELSE ipages::float/iotta END)::numeric,1) AS ibloat,
			GREATEST(ipages::bigint-iotta,0) AS wastedipages,
			GREATEST(bs*(ipages::bigint-iotta),0) AS wastedibytes
		FROM (
			SELECT
				schemaname, tablename, cc.reltuples, cc.relpages, rs.bs,
				CEIL((cc.reltuples*((datahdr+ma-
					(CASE WHEN datahdr%ma=0 THEN ma ELSE datahdr%ma END))+nullhdr2+4))/(bs-20::float)) AS otta,
				c2.relname AS iname, c2.reltuples AS ituples, c2.relpages AS ipages,
				CEIL((c2.reltuples*(datahdr-12))/(bs-20::float)) AS iotta
			FROM (
				SELECT
					ma, bs, schemaname, tablename,
					(datawidth+(hdr+ma-(CASE WHEN hdr%ma=0 THEN ma ELSE hdr%ma END)))::numeric AS datahdr,
					(maxfracsum*(nullhdr+ma-(CASE WHEN nullhdr%ma=0 THEN ma ELSE nullhdr%ma END))) AS nullhdr2
				FROM (
					SELECT
						schemaname, tablename, hdr, ma, bs,
						SUM((1-null_frac)*avg_width) AS datawidth,
						MAX(null_frac) AS maxfracsum,
						hdr+(1+(COUNT(CASE WHEN null_frac>0 THEN 1 END)*8)/bitlength) AS nullhdr
					FROM pg_stats CROSS JOIN constants
					LEFT JOIN (SELECT 8 AS bitlength) bl ON true
					GROUP BY 1,2,3,4,5,bitlength
				) AS foo
			) AS rs
			JOIN pg_class cc ON cc.relname=rs.tablename
			JOIN pg_namespace nn ON cc.relnamespace=nn.oid AND nn.nspname=rs.schemaname AND nn.nspname<>'information_schema'
			LEFT JOIN pg_index i ON indrelid=cc.oid
			LEFT JOIN pg_class c2 ON c2.oid=i.indexrelid
		) AS sml
	)
	SELECT schemaname, tablename,
		   wastedbytes, tbloat,
		   iname, wastedibytes, ibloat
	FROM bloat_info
	WHERE tbloat > 1.5 OR ibloat > 1.5
	ORDER BY wastedbytes DESC NULLS LAST
	LIMIT 100".

Definition collectBloat : result (list MetricPoint) :=
  collect_rows bloatSQL "bloat"
    (schema ← str; table ← str; wastedBytes ← int64; tbloat ← float; iname ← ostr;
     wastedIBytes ← ofloat; ibloat ← ofloat;
     mret (schema, table, wastedBytes, tbloat, iname, wastedIBytes, ibloat))
    (fun '(schema, table, wastedBytes, tbloat, iname, wastedIBytes, ibloat) =>
       let labels := labels_of [("schema", schema); ("table", table)] in
       [ dbp "db.bloat.table_wasted_bytes" (f_of_Z wastedBytes) labels;
         dbp "db.bloat.table_ratio" tbloat labels ] ++
       match iname with
       | Some index =>
           let idxLabels := labels_of [("schema", schema); ("table", table); ("index", index)] in
           [ dbp "db.bloat.index_wasted_bytes" (default f0 wastedIBytes) idxLabels;
             dbp "db.bloat.index_ratio" (default f0 ibloat) idxLabels ]
       | None => []
       end).

Definition catSQL : string := "
		SELECT relname,
		       pg_total_relation_size(oid) AS total_bytes
		FROM pg_class
		WHERE relnamespace = 'pg_catalog'::regnamespace
		  AND relkind = 'r'
		ORDER BY total_bytes DESC
		LIMIT 20".

Definition collectCatalogSizes : result (list MetricPoint) :=
  collect_rows catSQL "catalog_sizes" (relname ← str; totalBytes ← int64; mret (relname, totalBytes))
    (fun '(relname, totalBytes) =>
       [dbp "db.catalog.size_bytes" (f_of_Z totalBytes) (labels_of [("table", relname)])]).

Definition cacheSQL : string := "
		SELECT schemaname, relname,
		       heap_blks_read, heap_blks_hit,
		       CASE WHEN heap_blks_read + heap_blks_hit = 0 THEN 0
		            ELSE ROUND(heap_blks_hit::numeric / (heap_blks_read + heap_blks_hit) * 100, 2)
		       END AS hit_pct,
		       idx_blks_read, idx_blks_hit
		FROM pg_statio_user_tables
		WHERE heap_blks_read + heap_blks_hit > 0
		ORDER BY heap_blks_read DESC
		LIMIT 50".

Definition collectTableCacheHit : result (list MetricPoint) :=
  collect_rows cacheSQL "table_cache_hit"
    (schema ← str; table ← str; heapRead ← int64; heapHit ← int64; hitPct ← float;
     idxRead ← int64; idxHit ← int64;
     mret (schema, table, heapRead, heapHit, hitPct, idxRead, idxHit))
    (fun '(schema, table, heapRead, heapHit, hitPct, idxRead, idxHit) =>
       let labels := labels_of [("schema", schema); ("table", table)] in
       [ dbp "db.table.cache_hit_pct" hitPct labels;
         dbp "db.table.heap_blks_read" (f_of_Z heapRead) labels;
         dbp "db.table.heap_blks_hit" (f_of_Z heapHit) labels;
         dbp "db.table.idx_blks_read" (f_of_Z idxRead) labels;
         dbp "db.table.idx_blks_hit" (f_of_Z idxHit) labels ]).

Definition avSQL : string := "
		SELECT n.nspname AS schema_name, c.relname AS table_name,
		       COALESCE((SELECT option_value FROM pg_options_to_table(c.reloptions)
		                 WHERE option_name = 'autovacuum_vacuum_threshold'), '-1') AS vac_threshold,
		       COALESCE((SELECT option_value FROM pg_options_to_table(c.reloptions)
		                 WHERE option_name = 'autovacuum_vacuum_scale_factor'), '-1') AS vac_scale,
		       COALESCE((SELECT option_value FROM pg_options_to_table(c.reloptions)
		                 WHERE option_name = 'autovacuum_analyze_threshold'), '-1') AS analyze_threshold,
		       COALESCE((SELECT option_value FROM pg_options_to_table(c.reloptions)
		                 WHERE option_name = 'autovacuum_analyze_scale_factor'), '-1') AS analyze_scale,
		       COALESCE((SELECT option_value FROM pg_options_to_table(c.reloptions)
		                 WHERE option_name = 'autovacuum_enabled'), 'true') AS av_enabled
		FROM pg_class c
		JOIN pg_namespace n ON n.oid = c.relnamespace
		WHERE c.relkind = 'r'
		  AND c.reloptions IS NOT NULL
		  AND n.nspname NOT IN ('pg_catalog', 'information_schema')
		ORDER BY n.nspname, c.relname".

Definition collectAutovacuumOptions : result (list MetricPoint) :=
  collect_rows avSQL "autovacuum_options"
    (schema ← str; table ← str; vacThreshold ← str; vacScale ← str; analyzeThreshold ← str;
     analyzeScale ← str; avEnabled ← str;
     mret (schema, table, vacThreshold, vacScale, analyzeThreshold, analyzeScale, avEnabled))
    (fun '(schema, table, vacThreshold, vacScale, analyzeThreshold, analyzeScale, avEnabled) =>
       [dbp "db.autovacuum.enabled" (bool_value (String.eqb avEnabled "true"))
          (labels_of [("schema", schema); ("table", table); ("vac_threshold", vacThreshold);
                      ("vac_scale_factor", vacScale); ("analyze_threshold", analyzeThreshold);
                      ("analyze_scale", analyzeScale); ("autovacuum_enabled", avEnabled)])]).

Definition vacuumSQL : string := "
		SELECT schemaname, relname,
		       n_dead_tup, n_live_tup,
		       ROUND(n_dead_tup::numeric / GREATEST(n_live_tup + n_dead_tup, 1) * 100, 2) AS dead_pct,
		       last_autovacuum, last_vacuum, last_autoanalyze, last_analyze,
		       n_mod_since_analyze,
		       EXTRACT(EPOCH FROM (now() - last_autovacuum))::bigint AS autovacuum_age_sec,
		       EXTRACT(EPOCH FROM (now() - last_autoanalyze))::bigint AS autoanalyze_age_sec
		FROM pg_stat_user_tables
		ORDER BY n_dead_tup DESC
		LIMIT 50".

Definition collectVacuumNeed : result (list MetricPoint) :=
  collect_rows vacuumSQL "vacuum_need"
    (schema ← str; table ← str; deadTup ← int64; liveTup ← int64; deadPct ← float;
     lastAutoVac ← otime; lastVac ← otime; lastAutoAnalyze ← otime; lastAnalyze ← otime;
     modSinceAnalyze ← int64; autoVacAgeSec ← oint; autoAnalyzeAgeSec ← oint;
     mret (schema, table, deadTup, liveTup, deadPct, modSinceAnalyze, autoVacAgeSec, autoAnalyzeAgeSec))
    (fun '(schema, table, deadTup, liveTup, deadPct, modSinceAnalyze, autoVacAgeSec, autoAnalyzeAgeSec) =>
       let labels := labels_of [("schema", schema); ("table", table)] in
       [ dbp "db.vacuum.dead_tuples" (f_of_Z deadTup) labels;
         dbp "db.vacuum.live_tuples" (f_of_Z liveTup) labels;
         dbp "db.vacuum.dead_pct" deadPct labels;
         dbp "db.vacuum.mod_since_analyze" (f_of_Z modSinceAnalyze) labels ] ++
       (match autoVacAgeSec with
        | Some n => [dbp "db.vacuum.autovacuum_age_sec" (f_of_Z n) labels]
        | None => []
        end) ++
       (match autoAnalyzeAgeSec with
        | Some n => [dbp "db.vacuum.autoanalyze_age_sec" (f_of_Z n) labels]
        | None => []
        end)).

Definition idxSQL : string := "
		SELECT schemaname, relname, indexrelname,
		       idx_scan, idx_tup_read, idx_tup_fetch,
		       pg_relation_size(indexrelid) AS index_bytes
		FROM pg_stat_user_indexes
		ORDER BY idx_scan DESC
		LIMIT 100".

Definition collectIndexUsage : result (list MetricPoint) :=
  collect_rows idxSQL "index_usage"
    (schema ← str; table ← str; index ← str; idxScan ← int64; idxTupRead ← int64;
     idxTupFetch ← int64; indexBytes ← int64;
     mret (schema, table, index, idxScan, idxTupRead, idxTupFetch, indexBytes))
    (fun '(schema, table, index, idxScan, idxTupRead, idxTupFetch, indexBytes) =>
       let labels := labels_of [("schema", schema); ("table", table); ("index", index)] in
       [ dbp "db.index.scans" (f_of_Z idxScan) labels;
         dbp "db.index.tuples_read" (f_of_Z idxTupRead) labels;
         dbp "db.index.tuples_fetched" (f_of_Z idxTupFetch) labels;
         dbp "db.index.size_bytes" (f_of_Z indexBytes) labels ]).

Definition unusedSQL : string := "
		SELECT s.schemaname, s.relname, s.indexrelname,
		       pg_relation_size(s.indexrelid) AS index_bytes,
		       s.idx_scan
		FROM pg_stat_user_indexes s
		JOIN pg_index i ON s.indexrelid = i.indexrelid
		WHERE s.idx_scan = 0
		  AND NOT i.indisunique
		  AND NOT i.indisprimary
		ORDER BY pg_relation_size(s.indexrelid) DESC
		LIMIT 50".

Definition collectUnusedIndexes : result (list MetricPoint) :=
  collect_rows unusedSQL "unused_indexes"
    (schema ← str; table ← str; index ← str; indexBytes ← int64; idxScan ← int64;
     mret (schema, table, index, indexBytes, idxScan))
    (fun '(schema, table, index, indexBytes, idxScan) =>
       let labels := labels_of [("schema", schema); ("table", table); ("index", index)] in
       [ dbp "db.index.unused_size_bytes" (f_of_Z indexBytes) labels;
         dbp "db.index.unused_scans" (f_of_Z idxScan) labels ]).

Definition toastSQL : string := "
		SELECT n.nspname AS schema_name, c.relname AS table_name,
		       pg_total_relation_size(t.oid) AS toast_bytes
		FROM pg_class c
		JOIN pg_namespace n ON n.oid = c.relnamespace
		JOIN pg_class t ON t.oid = c.reltoastrelid
		WHERE c.relkind = 'r'
		  AND c.reltoastrelid != 0
		  AND n.nspname NOT IN ('pg_catalog', 'information_schema')
		ORDER BY toast_bytes DESC
		LIMIT 50".

Definition collectToastSizes : result (list MetricPoint) :=
  collect_rows toastSQL "toast_sizes" table_size
    (fun '(schema, table, toastBytes) =>
       [dbp "db.toast.size_bytes" (f_of_Z toastBytes)
          (labels_of [("schema", schema); ("table", table)])]).

Definition partSQL : string := "
		SELECT nmsp_parent.nspname AS parent_schema,
		       parent.relname AS parent_table,
		       nmsp_child.nspname AS child_schema,
		       child.relname AS child_table,
		       pg_total_relation_size(child.oid) AS child_bytes
		FROM pg_inherits
		JOIN pg_class parent ON pg_inherits.inhparent = parent.oid
		JOIN pg_class child ON pg_inherits.inhrelid = child.oid
		JOIN pg_namespace nmsp_parent ON nmsp_parent.oid = parent.relnamespace
		JOIN pg_namespace nmsp_child ON nmsp_child.oid = child.relnamespace
		ORDER BY parent.relname, child.relname".

Definition collectPartitions : result (list MetricPoint) :=
  collect_rows partSQL "partitions"
    (parentSchema ← str; parentTable ← str; childSchema ← str; childTable ← str;
     childBytes ← int64; mret (parentSchema, parentTable, childSchema, childTable, childBytes))
    (fun '(parentSchema, parentTable, childSchema, childTable, childBytes) =>
       [dbp "db.partition.child_bytes" (f_of_Z childBytes)
          (labels_of [("parent_schema", parentSchema); ("parent_table", parentTable);
                      ("child_schema", childSchema); ("child_table", childTable)])]).

Definition loSQL : string := "
		SELECT COALESCE(SUM(pg_largeobject_metadata.oid::text::bigint), 0) AS lo_count,
		       COALESCE((SELECT SUM(length(data)) FROM pg_largeobject), 0) AS lo_total_bytes
		FROM pg_largeobject_metadata".

Definition collectLargeObjectSizes : result (list MetricPoint) :=
  match query_row q loSQL [] (loCount ← int64; loTotalBytes ← int64; mret (loCount, loTotalBytes)) with
  | Err e => Err (wrap "large_object_sizes scan" e)
  | Ok (loCount, loTotalBytes) =>
      Ok [ dbp "db.large_objects.total_count" (f_of_Z loCount) ∅;
           dbp "db.large_objects.total_bytes" (f_of_Z loTotalBytes) ∅ ]
  end.

Definition lrSQL : string := "
		SELECT s.subname,
		       r.srrelid::regclass::text AS table_name,
		       r.srsubstate::text,
		       COALESCE(r.srsublsn::text, '') AS sync_lsn
		FROM pg_subscription_rel r
		JOIN pg_subscription s ON s.oid = r.srsubid
		WHERE r.srsubstate <> 'r'".

(** Any failure reports no pending tables: there may be no subscriptions. *)
Definition collectLogicalReplication : result (list MetricPoint) :=
  let pending n := [dbp "db.logical_replication.pending_sync_tables" (f_of_Z n) ∅] in
  match query_loop q lrSQL [] (subname ← str; tableName ← str; syncState ← str; syncLSN ← str;
                               mret (subname, tableName, syncState, syncLSN))
          (fun e => e) (fun e => e) (fun e => e)
          (fun count (_ : string * string * string * string) => Ok (count + 1)) 0 with
  | Ok count => Ok (pending count)
  | Err _ => Ok (pending 0)
  end.

(** The queries in the order in which they are run. *)
Definition db_queries : list (unit -> result (list MetricPoint)) :=
  [ (fun _ => collectLargeObjects); (fun _ => collectFunctionStats); (fun _ => collectSequences);
    (fun _ => collectSchemaSizes); (fun _ => collectUnloggedObjects); (fun _ => collectTableSizes);
    (fun _ => collectBloat); (fun _ => collectCatalogSizes); (fun _ => collectTableCacheHit);
    (fun _ => collectAutovacuumOptions); (fun _ => collectVacuumNeed); (fun _ => collectIndexUsage);
    (fun _ => collectUnusedIndexes); (fun _ => collectToastSizes); (fun _ => collectPartitions);
    (fun _ => collectLargeObjectSizes); (fun _ => collectLogicalReplication) ].

(** [appendPoints]: points of a query that succeeded, or one more error. *)
Definition appendPoints (acc : list MetricPoint * list error)
    (fn : unit -> result (list MetricPoint)) : list MetricPoint * list error :=
  match fn tt with
  | Ok pts => (acc.1 ++ pts, acc.2)
  | Err e => (acc.1, acc.2 ++ [e])
  end.

(** The points of the queries that succeeded, and an error when some did not. *)
Definition CollectDB : list MetricPoint * option error :=
  match q ("SET statement_timeout = '" +:+ dbStatementTimeout +:+ "'") [] with
  | Err e => ([], Some (wrap "set timeout" e))
  | Ok _ =>
      let '(points, errs) := foldl appendPoints ([], []) db_queries in
      match errs with
      | [] => (points, None)
      | e :: _ => (points, Some (pretty (len errs) +:+ " sub-collectors failed (first: " +:+ e +:+ ")"))
      end
  end.

End Queries.

(** ** What it emits *)

Definition database_metrics : list string :=
  ["pg.db.large_objects.count"; "pg.db.functions.calls"; "pg.db.functions.total_time_ms";
   "pg.db.functions.self_time_ms"; "pg.db.sequences.pct_used"; "pg.db.sequences.last_value";
   "pg.db.schema.size_bytes"; "pg.db.unlogged.size_bytes"; "pg.db.table.data_bytes";
   "pg.db.table.index_bytes"; "pg.db.table.toast_bytes"; "pg.db.table.total_bytes";
   "pg.db.table.live_tuples"; "pg.db.bloat.table_wasted_bytes"; "pg.db.bloat.table_ratio";
   "pg.db.bloat.index_wasted_bytes"; "pg.db.bloat.index_ratio"; "pg.db.catalog.size_bytes";
   "pg.db.table.cache_hit_pct"; "pg.db.table.heap_blks_read"; "pg.db.table.heap_blks_hit";
   "pg.db.table.idx_blks_read"; "pg.db.table.idx_blks_hit"; "pg.db.autovacuum.enabled";
   "pg.db.vacuum.dead_tuples"; "pg.db.vacuum.live_tuples"; "pg.db.vacuum.dead_pct";
   "pg.db.vacuum.mod_since_analyze"; "pg.db.vacuum.autovacuum_age_sec";
   "pg.db.vacuum.autoanalyze_age_sec"; "pg.db.index.scans"; "pg.db.index.tuples_read";
   "pg.db.index.tuples_fetched"; "pg.db.index.size_bytes"; "pg.db.index.unused_size_bytes";
   "pg.db.index.unused_scans"; "pg.db.toast.size_bytes"; "pg.db.partition.child_bytes";
   "pg.db.large_objects.total_count"; "pg.db.large_objects.total_bytes";
   "pg.db.logical_replication.pending_sync_tables"].

Lemma db_queries_emit `{DR : Driver} now q dbName fn :
  fn ∈ db_queries now q dbName -> emits "" database_metrics (fn tt).
Proof.
  intros H. unfold db_queries in H.
  repeat (apply elem_of_cons in H as [->|H]; [
    unfold collectLargeObjects, collectFunctionStats, collectSequences, collectSchemaSizes,
      collectUnloggedObjects, collectTableSizes, collectBloat, collectCatalogSizes,
      collectTableCacheHit, collectAutovacuumOptions, collectVacuumNeed, collectIndexUsage,
      collectUnusedIndexes, collectToastSizes, collectPartitions, collectLargeObjectSizes,
      collectLogicalReplication, collect_rows; by emits_tac|]).
  by apply not_elem_of_nil in H.
Qed.

Lemma CollectDB_of_metrics `{DR : Driver} now q dbName :
  of_metrics "" database_metrics (CollectDB now q dbName).1.
Proof.
  unfold CollectDB. destruct (q _ _); [|constructor].
  assert (H : of_metrics "" database_metrics (foldl appendPoints ([], []) (db_queries now q dbName)).1).
  { apply (foldl_inv (fun a : list MetricPoint * list error => of_metrics "" database_metrics a.1));
      [|constructor]. intros acc fn Hfn Ha. unfold appendPoints.
    pose proof (db_queries_emit now q dbName fn Hfn) as He. destruct (fn tt); [|done].
    apply of_metrics_app; [done|by apply He]. }
  destruct (foldl _ _ _) as [points errs]. by destruct errs.
Qed.
