(* ===== verification/Config.v ===== *)
(** * Configuration

    Models internal/config: the configuration tree (its maintenance section is that of Forecast), the defaults and checks that loading applies
    to it, and the effective method of operating system metrics. Reading the file and the
    environment is left to koanf, whose result is the argument of [validate]. *)
From stdpp Require Import pretty.
From S2P Require Import Forecast.
From S2P Require Import Prelude Float64 GoText.

Local Open Scope Z_scope.

(** ** Data *)

Record ServerConfig := mkServerConfig {
  svc_Listen : string;
  svc_Port : Z;
  svc_LogLevel : string;
  svc_CORSEnabled : bool;
  svc_CORSOrigin : string;
  svc_ReadTimeout : Duration;
  svc_WriteTimeout : Duration;
  svc_ShutdownTimeout : Duration
}.

Record StorageConfig := mkStorageConfig {
  stc_DSN : string;
  stc_UseTimescaleDB : bool;
  stc_RetentionDays : Z
}.

Record InitialAdminConfig := mkInitialAdminConfig {
  iac_Username : string;
  iac_Password : string
}.

Record AuthConfig := mkAuthConfig {
  auc_Enabled : bool;
  auc_JWTSecret : string;
  auc_RefreshSecret : string;
  auc_AccessTokenTTL : Duration;
  auc_RefreshTokenTTL : Duration;
  auc_BcryptCost : Z;
  auc_InitialAdmin : option InitialAdminConfig
}.

Record EmailConfig := mkEmailConfig {
  emc_Host : string;
  emc_Port : Z;
  emc_Username : string;
  emc_Password : string;
  emc_From : string;
  emc_Recipients : list string;
  emc_TLSSkipVerify : bool;
  emc_SendTimeoutSeconds : Z
}.

Record AlertingConfig := mkAlertingConfig {
  alc_Enabled : bool;
  alc_DefaultConsecutiveCount : Z;
  alc_DefaultCooldownMinutes : Z;
  alc_DefaultChannels : list string;
  alc_EvaluationTimeoutSec : Z;
  alc_HistoryRetentionDays : Z;
  alc_DashboardURL : string;
  alc_Email : option EmailConfig
}.

Record PlanCaptureConfig := mkPlanCaptureConfig {
  pcc_Enabled : bool;
  pcc_DurationThresholdMs : Z;
  pcc_DedupWindowSeconds : Z;
  pcc_ScheduledTopNCount : Z;
  pcc_ScheduledTopNInterval : Duration;
  pcc_MaxPlanBytes : Z;
  pcc_RetentionDays : Z
}.

Record SettingsSnapshotConfig := mkSettingsSnapshotConfig {
  sgc_Enabled : bool;
  sgc_ScheduledInterval : Duration;
  sgc_CaptureOnStartup : bool;
  sgc_RetentionDays : Z
}.

Record StatementSnapshotsConfig := mkStatementSnapshotsConfig {
  ssc_Enabled : bool;
  ssc_Interval : Duration;
  ssc_RetentionDays : Z;
  ssc_CaptureOnStartup : bool;
  ssc_TopN : Z
}.

Record MLMetricConfig := mkMLMetricConfig {
  mmc_Key : string;
  mmc_Period : Z;
  mmc_Enabled : bool;
  mmc_ForecastHorizon : Z
}.

Record ForecastConfig := mkMLForecastConfig {
  fcc_Horizon : Z;
  fcc_ConfidenceZ : float64;
  fcc_AlertMinConsecutive : Z
}.

Record MLPersistenceConfig := mkMLPersistenceConfig {
  mpc_Enabled : bool
}.

Record MLConfig := mkMLConfig {
  mlc_Enabled : bool;
  mlc_ZScoreWarn : float64;
  mlc_ZScoreCrit : float64;
  mlc_AnomalyLogic : string;
  mlc_CollectionInterval : Duration;
  mlc_Metrics : list MLMetricConfig;
  mlc_Persistence : MLPersistenceConfig;
  mlc_Forecast : ForecastConfig
}.

Record RemediationConfig := mkRemediationConfig {
  rmc_Enabled : bool;
  rmc_BackgroundInterval : Duration;
  rmc_RetentionDays : Z;
  rmc_RCAUrgencyDelta : float64;
  rmc_ForecastUrgencyDelta : float64
}.

Record RCAConfig := mkRCAConfig {
  rca_Enabled : bool;
  rca_LookbackWindow : Duration;
  rca_AutoTriggerSeverity : string;
  rca_MaxIncidentsPerHour : Z;
  rca_RetentionDays : Z;
  rca_MaxTraversalDepth : Z;
  rca_MaxCandidateChains : Z;
  rca_MaxMetricsPerRun : Z;
  rca_MinEdgeScore : float64;
  rca_MinChainScore : float64;
  rca_DeferredForwardTail : Duration;
  rca_QualityBannerEnabled : bool;
  rca_RemediationHooksEnabled : bool;
  rca_ThresholdBaselineWindow : Duration;
  rca_ThresholdCalmPeriod : Duration;
  rca_ThresholdCalmSigma : float64
}.

Record PlaybooksConfig := mkPlaybooksConfig {
  pbc_Enabled : bool;
  pbc_DefaultStatementTimeout : Z;
  pbc_DefaultLockTimeout : Z;
  pbc_ResultRowLimit : Z;
  pbc_RunRetentionDays : Z;
  pbc_ImplicitFeedbackWindow : Duration
}.

Record OSMetricsConfig := mkOSMetricsConfig {
  osc_Method : string
}.

Record IntervalConfig := mkIntervalConfig {
  ivc_High : Duration;
  ivc_Medium : Duration;
  ivc_Low : Duration
}.

Record InstanceConfig := mkInstanceConfig {
  inc_ID : string;
  inc_Name : string;
  inc_DSN : string;
  inc_Description : string;
  inc_Enabled : option bool;
  inc_MaxConns : Z;
  inc_Intervals : IntervalConfig;
  inc_AgentURL : string;
  inc_PatroniURL : string;
  inc_PatroniConfig : string;
  inc_PatroniCtlPath : string;
  inc_ETCDEndpoints : list string;
  inc_ETCDCtlPath : string;
  inc_IncludeDatabases : list string;
  inc_ExcludeDatabases : list string;
  inc_MaxConcurrentDBs : Z;
  inc_OSMetricsMethod : string
}.

Record AgentConfig := mkAgentConfig {
  agc_ListenAddr : string;
  agc_PatroniURL : string;
  agc_PatroniConfig : string;
  agc_PatroniCtlPath : string;
  agc_ETCDEndpoints : list string;
  agc_ETCDCtlPath : string;
  agc_MountPoints : list string
}.

Record Config := mkConfig {
  cfg_Server : ServerConfig;
  cfg_Storage : StorageConfig;
  cfg_Auth : AuthConfig;
  cfg_Alerting : AlertingConfig;
  cfg_PlanCapture : PlanCaptureConfig;
  cfg_SettingsSnapshot : SettingsSnapshotConfig;
  cfg_StatementSnapshots : StatementSnapshotsConfig;
  cfg_ML : MLConfig;
  cfg_Remediation : RemediationConfig;
  cfg_RCA : RCAConfig;
  cfg_Playbooks : PlaybooksConfig;
  cfg_MaintenanceForecast : MaintenanceForecastConfig;
  cfg_OSMetrics : OSMetricsConfig;
  cfg_Instances : list InstanceConfig
}.

(** ** Defaults *)

(** A zero value is replaced by its default. *)
Definition dz (d x : Z) : Z := if x =? 0 then d else x.
Definition ds (d x : string) : string := if String.eqb x "" then d else x.
Definition df (d x : float64) : float64 := if feq x f0 then d else x.

Definition validLogLevels : list string := ["debug"; "info"; "warn"; "error"].

Definition listenDefault (listen : string) (port : Z) : string :=
  if String.eqb listen "" then (if 0 <? port then ":" +:+ pretty port else ":8080") else listen.

Definition serverDefaults (c : ServerConfig) : ServerConfig :=
  mkServerConfig (listenDefault (svc_Listen c) (svc_Port c)) (svc_Port c) (ds "info" (svc_LogLevel c))
    (svc_CORSEnabled c) (ds "http://localhost:5173" (svc_CORSOrigin c))
    (dz (30 * Second) (svc_ReadTimeout c)) (dz (60 * Second) (svc_WriteTimeout c))
    (dz (10 * Second) (svc_ShutdownTimeout c)).

Definition storageDefaults (c : StorageConfig) : StorageConfig :=
  mkStorageConfig (stc_DSN c) (stc_UseTimescaleDB c) (dz 30 (stc_RetentionDays c)).

Definition validateAuth (dsn : string) (c : AuthConfig) : result AuthConfig :=
  if negb (auc_Enabled c) then Ok c
  else if String.eqb dsn "" then Err "auth.enabled=true requires storage.dsn to be configured"
  else if Z.of_nat (String.length (auc_JWTSecret c)) <? 32 then
    Err "auth.jwt_secret must be at least 32 characters"
  else Ok (mkAuthConfig (auc_Enabled c) (auc_JWTSecret c) (auc_RefreshSecret c)
             (dz (24 * Hour) (auc_AccessTokenTTL c)) (dz (7 * 24 * Hour) (auc_RefreshTokenTTL c))
             (dz 12 (auc_BcryptCost c)) (auc_InitialAdmin c)).

Definition emailDefaults (e : EmailConfig) : EmailConfig :=
  mkEmailConfig (emc_Host e) (dz 587 (emc_Port e)) (emc_Username e) (emc_Password e) (emc_From e)
    (emc_Recipients e) (emc_TLSSkipVerify e) (dz 10 (emc_SendTimeoutSeconds e)).

Definition alertingDefaults (c : AlertingConfig) : AlertingConfig :=
  mkAlertingConfig (alc_Enabled c) (dz 3 (alc_DefaultConsecutiveCount c))
    (dz 15 (alc_DefaultCooldownMinutes c)) (alc_DefaultChannels c) (dz 5 (alc_EvaluationTimeoutSec c))
    (dz 30 (alc_HistoryRetentionDays c)) (alc_DashboardURL c)
    (match alc_Email c with Some e => Some (emailDefaults e) | None => None end).

(** What is missing of the e-mail settings when "email" is a default channel. *)
Definition emailError (email : option EmailConfig) : option error :=
  match email with
  | None => Some "alerting.email config required when 'email' is in default_channels"
  | Some e =>
      if String.eqb (emc_Host e) "" then Some "alerting.email.host is required"
      else if String.eqb (emc_From e) "" then Some "alerting.email.from is required"
      else match emc_Recipients e with
           | [] => Some "alerting.email.recipients must not be empty"
           | _ :: _ => None
           end
  end.

Fixpoint channelError (email : option EmailConfig) (channels : list string) : option error :=
  match channels with
  | [] => None
  | ch :: rest =>
      if String.eqb ch "email" then
        match emailError email with Some e => Some e | None => channelError email rest end
      else channelError email rest
  end.

Definition validateAlerting (dsn : string) (c : AlertingConfig) : result AlertingConfig :=
  let c := alertingDefaults c in
  if alc_Enabled c && String.eqb dsn "" then
    Err "alerting.enabled=true requires storage.dsn to be configured"
  else match channelError (alc_Email c) (alc_DefaultChannels c) with
       | Some e => Err e
       | None => Ok c
       end.

Definition mlDefaults (c : MLConfig) : MLConfig :=
  let f := mlc_Forecast c in
  mkMLConfig (mlc_Enabled c) (mlc_ZScoreWarn c) (mlc_ZScoreCrit c) (mlc_AnomalyLogic c)
    (mlc_CollectionInterval c) (mlc_Metrics c) (mlc_Persistence c)
    (mkMLForecastConfig (fcc_Horizon f) (fcc_ConfidenceZ f) (dz 3 (fcc_AlertMinConsecutive f))).

Definition remediationDefaults (c : RemediationConfig) : RemediationConfig :=
  mkRemediationConfig (rmc_Enabled c) (dz (5 * Minute) (rmc_BackgroundInterval c))
    (dz 30 (rmc_RetentionDays c)) (df f1 (rmc_RCAUrgencyDelta c))
    (df (fconst 5 10) (rmc_ForecastUrgencyDelta c)).

Definition statementSnapshotsDefaults (c : StatementSnapshotsConfig) : StatementSnapshotsConfig :=
  mkStatementSnapshotsConfig (ssc_Enabled c) (dz (30 * Minute) (ssc_Interval c))
    (dz 30 (ssc_RetentionDays c)) (ssc_CaptureOnStartup c) (dz 50 (ssc_TopN c)).

Definition rcaDefaults (c : RCAConfig) : RCAConfig :=
  mkRCAConfig (rca_Enabled c) (dz (30 * Minute) (rca_LookbackWindow c))
    (ds "critical" (rca_AutoTriggerSeverity c)) (dz 10 (rca_MaxIncidentsPerHour c))
    (dz 90 (rca_RetentionDays c)) (dz 5 (rca_MaxTraversalDepth c)) (dz 5 (rca_MaxCandidateChains c))
    (dz 50 (rca_MaxMetricsPerRun c)) (df (fconst 25 100) (rca_MinEdgeScore c))
    (df (fconst 40 100) (rca_MinChainScore c)) (dz (5 * Minute) (rca_DeferredForwardTail c))
    (rca_QualityBannerEnabled c) (rca_RemediationHooksEnabled c)
    (dz (4 * Hour) (rca_ThresholdBaselineWindow c)) (dz (15 * Minute) (rca_ThresholdCalmPeriod c))
    (df (fconst 15 10) (rca_ThresholdCalmSigma c)).

Definition playbooksDefaults (c : PlaybooksConfig) : PlaybooksConfig :=
  mkPlaybooksConfig (pbc_Enabled c) (dz 5 (pbc_DefaultStatementTimeout c))
    (dz 5 (pbc_DefaultLockTimeout c)) (dz 100 (pbc_ResultRowLimit c)) (dz 90 (pbc_RunRetentionDays c))
    (dz (5 * Minute) (pbc_ImplicitFeedbackWindow c)).

Definition intervalDefaults (c : IntervalConfig) : IntervalConfig :=
  mkIntervalConfig (dz (10 * Second) (ivc_High c)) (dz (60 * Second) (ivc_Medium c))
    (dz (300 * Second) (ivc_Low c)).

Definition instanceDefaults (c : InstanceConfig) : InstanceConfig :=
  mkInstanceConfig (inc_ID c) (inc_Name c) (inc_DSN c) (inc_Description c)
    (match inc_Enabled c with Some b => Some b | None => Some true end) (dz 5 (inc_MaxConns c))
    (intervalDefaults (inc_Intervals c)) (inc_AgentURL c) (inc_PatroniURL c) (inc_PatroniConfig c)
    (inc_PatroniCtlPath c) (inc_ETCDEndpoints c) (inc_ETCDCtlPath c) (inc_IncludeDatabases c)
    (inc_ExcludeDatabases c) (inc_MaxConcurrentDBs c) (inc_OSMetricsMethod c).

(** The loop over the instances, from index [i]. *)
Fixpoint validateInstances (i : Z) (l : list InstanceConfig) : result (list InstanceConfig) :=
  match l with
  | [] => Ok []
  | inst :: rest =>
      if String.eqb (inc_ID inst) "" then Err ("instance[" +:+ pretty i +:+ "]: id is required")
      else if String.eqb (inc_DSN inst) "" then
        Err ("instance[" +:+ pretty i +:+ "]: dsn is required")
      else match validateInstances (i + 1) rest with
           | Err e => Err e
           | Ok rest' => Ok (instanceDefaults inst :: rest')
           end
  end.

Definition validate (cfg : Config) : result Config :=
  let server := serverDefaults (cfg_Server cfg) in
  if negb (existsb (String.eqb (svc_LogLevel server)) validLogLevels) then
    Err ("server.log_level " +:+ svc_LogLevel server +:+ " must be one of: debug, info, warn, error")
  else
    let dsn := stc_DSN (cfg_Storage cfg) in
    match validateAuth dsn (cfg_Auth cfg) with
    | Err e => Err e
    | Ok auth =>
        match validateAlerting dsn (cfg_Alerting cfg) with
        | Err e => Err e
        | Ok alerting =>
            match cfg_Instances cfg with
            | [] => Err "at least one instance must be configured"
            | _ :: _ =>
                match validateInstances 0 (cfg_Instances cfg) with
                | Err e => Err e
                | Ok instances =>
                    Ok (mkConfig server (storageDefaults (cfg_Storage cfg)) auth alerting
                          (cfg_PlanCapture cfg) (cfg_SettingsSnapshot cfg)
                          (statementSnapshotsDefaults (cfg_StatementSnapshots cfg))
                          (mlDefaults (cfg_ML cfg)) (remediationDefaults (cfg_Remediation cfg))
                          (rcaDefaults (cfg_RCA cfg)) (playbooksDefaults (cfg_Playbooks cfg))
                          (ApplyDefaults (cfg_MaintenanceForecast cfg)) (cfg_OSMetrics cfg) instances)
                end
            end
        end
    end.

(** ** The method of operating system metrics *)

Definition OSMetricsMethodSQL : string := "sql".

Definition EffectiveOSMetricsMethod (c : Config) (inst : InstanceConfig) : string :=
  if negb (String.eqb (inc_OSMetricsMethod inst) "") then inc_OSMetricsMethod inst
  else if negb (String.eqb (osc_Method (cfg_OSMetrics c)) "") then osc_Method (cfg_OSMetrics c)
  else OSMetricsMethodSQL.

(** [inst.Enabled != nil && !*inst.Enabled]. *)
Definition disabled (inst : InstanceConfig) : bool :=
  match inc_Enabled inst with Some false => true | _ => false end.

Definition SQLOSMetricsInstances (c : Config) : list string :=
  foldl (fun ids inst =>
    if disabled inst then ids
    else if String.eqb (EffectiveOSMetricsMethod c inst) OSMetricsMethodSQL
    then ids ++ [inc_ID inst] else ids) [] (cfg_Instances c).

(** ** Environment variables *)

Definition underscore_char : Ascii.ascii := Eval compute in Ascii.ascii_of_N 95.
Definition dot_char : Ascii.ascii := Eval compute in Ascii.ascii_of_N 46.

(** The path in the tree that a variable overrides. *)
Definition transformEnvKey (s : string) : string :=
  ReplaceByte underscore_char dot_char (ToLower (TrimPrefix s "PGPULSE_")).

Example transformEnvKey_listen : transformEnvKey "PGPULSE_SERVER_LISTEN" = "server.listen".
Proof. reflexivity. Qed.

(** No variable reaches a setting whose name has an underscore, such as server.log_level or
    auth.jwt_secret. *)
Lemma env_never_reaches_underscore (s : string) :
  char_free underscore_char (transformEnvKey s) = true /\ transformEnvKey s <> "server.log_level".
Proof.
  assert (H : char_free underscore_char (transformEnvKey s) = true) by (by apply ReplaceByte_free).
  split; [done|]. intros E. by rewrite E in H.
Qed.

(** ** Loading twice is loading once *)

Lemma dz_idem d x : d <> 0 -> dz d (dz d x) = dz d x.
Proof.
  intros Hd. unfold dz. destruct (Z.eqb_spec x 0); [|by rewrite (proj2 (Z.eqb_neq x 0))].
  by rewrite (proj2 (Z.eqb_neq d 0)).
Qed.

Lemma ds_idem d x : d <> "" -> ds d (ds d x) = ds d x.
Proof.
  intros Hd. unfold ds. destruct (String.eqb_spec x ""); [|by rewrite (proj2 (String.eqb_neq x ""))].
  by rewrite (proj2 (String.eqb_neq d "")).
Qed.

Lemma df_idem d x : feq d f0 = false -> df d (df d x) = df d x.
Proof. intros Hd. unfold df. destruct (feq x f0) eqn:E; [by rewrite Hd|by rewrite E]. Qed.

Lemma listenDefault_idem l p : listenDefault (listenDefault l p) p = listenDefault l p.
Proof.
  unfold listenDefault. destruct (String.eqb_spec l "") as [->|H].
  - by destruct (0 <? p).
  - by rewrite (proj2 (String.eqb_neq l "")).
Qed.

Lemma orZ_idem n d : d <> 0 -> orZ (orZ n d) d = orZ n d.
Proof. apply dz_idem. Qed.

Lemma orF_idem x d : feq d f0 = false -> orF (orF x d) d = orF x d.
Proof. apply df_idem. Qed.

Create HintDb config discriminated.
#[export] Hint Resolve dz_idem ds_idem df_idem orZ_idem orF_idem listenDefault_idem : config.
#[export] Hint Extern 2 (_ <> _) => discriminate : config.
#[export] Hint Extern 2 (feq _ _ = false) => vm_compute; reflexivity : config.

(** Applying the defaults of a section twice: field by field. *)
Ltac defaults_idem := intros c; destruct c; cbn; f_equal; auto with config.

Lemma ApplyDefaults_idem c : ApplyDefaults (ApplyDefaults c) = ApplyDefaults c.
Proof. revert c. unfold ApplyDefaults. defaults_idem. Qed.
Lemma serverDefaults_idem c : serverDefaults (serverDefaults c) = serverDefaults c.
Proof. revert c. unfold serverDefaults. defaults_idem. Qed.
Lemma storageDefaults_idem c : storageDefaults (storageDefaults c) = storageDefaults c.
Proof. revert c. unfold storageDefaults. defaults_idem. Qed.
Lemma emailDefaults_idem c : emailDefaults (emailDefaults c) = emailDefaults c.
Proof. revert c. unfold emailDefaults. defaults_idem. Qed.
Lemma alertingDefaults_idem c : alertingDefaults (alertingDefaults c) = alertingDefaults c.
Proof.
  revert c. unfold alertingDefaults. defaults_idem. destruct alc_Email0; [|done].
  f_equal. apply emailDefaults_idem.
Qed.
Lemma mlDefaults_idem c : mlDefaults (mlDefaults c) = mlDefaults c.
Proof. revert c. unfold mlDefaults. defaults_idem. f_equal; auto with config. Qed.
Lemma remediationDefaults_idem c : remediationDefaults (remediationDefaults c) = remediationDefaults c.
Proof. revert c. unfold remediationDefaults. defaults_idem. Qed.
Lemma statementSnapshotsDefaults_idem c :
  statementSnapshotsDefaults (statementSnapshotsDefaults c) = statementSnapshotsDefaults c.
Proof. revert c. unfold statementSnapshotsDefaults. defaults_idem. Qed.
Lemma rcaDefaults_idem c : rcaDefaults (rcaDefaults c) = rcaDefaults c.
Proof. revert c. unfold rcaDefaults. defaults_idem. Qed.
Lemma playbooksDefaults_idem c : playbooksDefaults (playbooksDefaults c) = playbooksDefaults c.
Proof. revert c. unfold playbooksDefaults. defaults_idem. Qed.
Lemma intervalDefaults_idem c : intervalDefaults (intervalDefaults c) = intervalDefaults c.
Proof. revert c. unfold intervalDefaults. defaults_idem. Qed.
Lemma instanceDefaults_idem c : instanceDefaults (instanceDefaults c) = instanceDefaults c.
Proof.
  revert c. unfold instanceDefaults. defaults_idem; [by destruct inc_Enabled0|].
  apply intervalDefaults_idem.
Qed.

Lemma validateAuth_idem dsn c a : validateAuth dsn c = Ok a -> validateAuth dsn a = Ok a.
Proof.
  unfold validateAuth. destruct (auc_Enabled c) eqn:E; cbn [negb]; [|intros [= <-]; by rewrite E].
  destruct (String.eqb dsn "") eqn:Ed; [done|]. destruct (_ <? 32) eqn:El; [done|].
  intros [= <-]. cbn. rewrite El. do 2 f_equal; auto with config.
Qed.

Lemma validateAlerting_idem dsn c a : validateAlerting dsn c = Ok a -> validateAlerting dsn a = Ok a.
Proof.
  unfold validateAlerting. intros H.
  assert (a = alertingDefaults c) as ->.
  { destruct (_ && _); [done|]. destruct (channelError _ _); [done|]. by injection H. }
  by rewrite alertingDefaults_idem.
Qed.

Lemma validateInstances_idem l : forall i l',
  validateInstances i l = Ok l' -> validateInstances i l' = Ok l'.
Proof.
  induction l as [|inst l IH]; intros i l'; cbn [validateInstances]; [by intros [= <-]|].
  destruct (String.eqb (inc_ID inst) "") eqn:Ei; [done|].
  destruct (String.eqb (inc_DSN inst) "") eqn:Ed; [done|].
  destruct (validateInstances (i + 1) l) as [rest|] eqn:El; [|done]. intros [= <-].
  cbn [validateInstances]. change (inc_ID (instanceDefaults inst)) with (inc_ID inst).
  change (inc_DSN (instanceDefaults inst)) with (inc_DSN inst).
  by rewrite Ei, Ed, (IH _ _ El), instanceDefaults_idem.
Qed.

(** What the rest of the program relies on: enabled features have what they need, and every
    instance is complete. *)
Record config_ok (c : Config) : Prop := {
  ok_level : svc_LogLevel (cfg_Server c) ∈ validLogLevels;
  ok_listen : svc_Listen (cfg_Server c) <> "";
  ok_auth : auc_Enabled (cfg_Auth c) = true -> stc_DSN (cfg_Storage c) <> "" /\
    (32 <= String.length (auc_JWTSecret (cfg_Auth c)))%nat;
  ok_alerting : alc_Enabled (cfg_Alerting c) = true -> stc_DSN (cfg_Storage c) <> "";
  ok_email : "email" ∈ alc_DefaultChannels (cfg_Alerting c) -> exists e,
    alc_Email (cfg_Alerting c) = Some e /\ emc_Host e <> "" /\ emc_Recipients e <> [];
  ok_some : cfg_Instances c <> [];
  ok_instances : Forall (fun i => inc_ID i <> "" /\ inc_DSN i <> "" /\ inc_Enabled i <> None /\
    inc_MaxConns i <> 0 /\ ivc_High (inc_Intervals i) <> 0 /\ ivc_Medium (inc_Intervals i) <> 0 /\
    ivc_Low (inc_Intervals i) <> 0) (cfg_Instances c)
}.

Lemma dz_nonzero d x : d <> 0 -> dz d x <> 0.
Proof. unfold dz. intros. by destruct (Z.eqb_spec x 0). Qed.

Lemma channelError_none email l : channelError email l = None -> "email" ∈ l -> emailError email = None.
Proof.
  induction l as [|ch l IH]; cbn; [intros _ H; by apply not_elem_of_nil in H|].
  destruct (String.eqb_spec ch "email") as [->|Hne].
  - destruct (emailError email); [done|]. done.
  - intros H [Heq|Hin]%elem_of_cons; [by rewrite <- Heq in Hne|by apply IH].
Qed.

Lemma validateInstances_ok l : forall i l', validateInstances i l = Ok l' ->
  Forall (fun i => inc_ID i <> "" /\ inc_DSN i <> "" /\ inc_Enabled i <> None /\
    inc_MaxConns i <> 0 /\ ivc_High (inc_Intervals i) <> 0 /\ ivc_Medium (inc_Intervals i) <> 0 /\
    ivc_Low (inc_Intervals i) <> 0) l' /\ length l' = length l.
Proof.
  induction l as [|inst l IH]; intros i l'; cbn [validateInstances]; [by intros [= <-]|].
  destruct (String.eqb_spec (inc_ID inst) ""); [done|].
  destruct (String.eqb_spec (inc_DSN inst) ""); [done|].
  destruct (validateInstances (i + 1) l) as [rest|] eqn:El; [|done]. intros [= <-].
  destruct (IH _ _ El) as [Hf Hl]. split; [|cbn; by rewrite Hl]. constructor; [|done]. cbn.
  repeat split; try done; try (by apply dz_nonzero). by destruct (inc_Enabled inst).
Qed.

(** The configuration that validation makes of valid parts. *)
Definition validated (cfg : Config) (auth : AuthConfig) (al : AlertingConfig)
    (insts : list InstanceConfig) : Config :=
  mkConfig (serverDefaults (cfg_Server cfg)) (storageDefaults (cfg_Storage cfg)) auth al
    (cfg_PlanCapture cfg) (cfg_SettingsSnapshot cfg)
    (statementSnapshotsDefaults (cfg_StatementSnapshots cfg)) (mlDefaults (cfg_ML cfg))
    (remediationDefaults (cfg_Remediation cfg)) (rcaDefaults (cfg_RCA cfg))
    (playbooksDefaults (cfg_Playbooks cfg)) (ApplyDefaults (cfg_MaintenanceForecast cfg))
    (cfg_OSMetrics cfg) insts.

Lemma validate_inv cfg c : validate cfg = Ok c -> exists auth al insts,
  c = validated cfg auth al insts /\
  svc_LogLevel (serverDefaults (cfg_Server cfg)) ∈ validLogLevels /\
  validateAuth (stc_DSN (cfg_Storage cfg)) (cfg_Auth cfg) = Ok auth /\
  validateAlerting (stc_DSN (cfg_Storage cfg)) (cfg_Alerting cfg) = Ok al /\
  validateInstances 0 (cfg_Instances cfg) = Ok insts /\ insts <> [].
Proof.
  unfold validate. destruct (negb (existsb _ _)) eqn:Elv; [done|]. cbv zeta.
  destruct (validateAuth _ _) as [auth|] eqn:Ea; [|done].
  destruct (validateAlerting _ _) as [al|] eqn:Eal; [|done].
  destruct (cfg_Instances cfg) as [|i0 il] eqn:Ei; [done|]. rewrite <- Ei.
  destruct (validateInstances 0 (cfg_Instances cfg)) as [insts|] eqn:Ein; [|done].
  intros [= <-]. exists auth, al, insts. split; [done|].
  apply negb_false_iff, existsb_exists in Elv as (lv & Hlv & Elv). apply String.eqb_eq in Elv.
  rewrite Elv. split; [by apply list_elem_of_In|]. split; [done|]. split; [done|].
  split; [by rewrite <- Ein, Ei|]. destruct (validateInstances_ok _ _ _ Ein) as [_ Hl].
  intros ->. by rewrite Ei in Hl.
Qed.

Lemma auth_complete dsn c a : validateAuth dsn c = Ok a -> auc_Enabled a = true ->
  dsn <> "" /\ (32 <= String.length (auc_JWTSecret a))%nat.
Proof.
  unfold validateAuth. destruct (auc_Enabled c) eqn:E; cbn [negb]; [|intros [= <-]; congruence].
  destruct (String.eqb_spec dsn ""); [done|].
  destruct (Z.ltb_spec (Z.of_nat (String.length (auc_JWTSecret c))) 32); [done|].
  intros [= <-] _. split; [done|]. cbn. lia.
Qed.

Lemma alerting_complete dsn c a : validateAlerting dsn c = Ok a ->
  (alc_Enabled a = true -> dsn <> "") /\
  ("email" ∈ alc_DefaultChannels a -> exists e,
     alc_Email a = Some e /\ emc_Host e <> "" /\ emc_Recipients e <> []).
Proof.
  unfold validateAlerting. cbv zeta. destruct (_ && _) eqn:E; [done|].
  destruct (channelError _ _) eqn:Ec; [done|]. intros [= <-]. split.
  - intros H. rewrite H in E. cbn in E. by apply String.eqb_neq.
  - intros H. pose proof (channelError_none _ _ Ec H) as He. unfold emailError in He.
    destruct (alc_Email _) as [e|]; [|done]. exists e. split; [done|].
    destruct (String.eqb_spec (emc_Host e) ""); [done|].
    destruct (String.eqb (emc_From e) ""); [done|]. by destruct (emc_Recipients e).
Qed.

Lemma validated_stable cfg auth al insts :
  svc_LogLevel (serverDefaults (cfg_Server cfg)) ∈ validLogLevels ->
  validateAuth (stc_DSN (cfg_Storage cfg)) auth = Ok auth ->
  validateAlerting (stc_DSN (cfg_Storage cfg)) al = Ok al ->
  validateInstances 0 insts = Ok insts -> insts <> [] ->
  validate (validated cfg auth al insts) = Ok (validated cfg auth al insts).
Proof.
  intros Hlv Ha Hal Hi Hne. unfold validate, validated.
  cbn [cfg_Server cfg_Auth cfg_Storage cfg_Alerting cfg_Instances cfg_ML cfg_PlanCapture
    cfg_SettingsSnapshot cfg_StatementSnapshots cfg_Remediation cfg_RCA cfg_Playbooks
    cfg_MaintenanceForecast cfg_OSMetrics]. cbv zeta. rewrite serverDefaults_idem.
  rewrite (proj2 (existsb_exists _ _)) by
    (eexists; split; [apply list_elem_of_In, Hlv|apply String.eqb_refl]).
  cbn [negb]. change (stc_DSN (storageDefaults (cfg_Storage cfg))) with (stc_DSN (cfg_Storage cfg)).
  rewrite Ha, Hal. destruct insts as [|i insts]; [done|]. rewrite Hi.
  by rewrite storageDefaults_idem, statementSnapshotsDefaults_idem, mlDefaults_idem,
    remediationDefaults_idem, rcaDefaults_idem, playbooksDefaults_idem, ApplyDefaults_idem.
Qed.

(** Loading a configuration. A configuration that passes validation is complete: its log
    level is one of the four, authentication and alerting have the storage and secrets they
    need, e-mail alerts have a server and recipients, and every instance has an identifier, a
    connection string, a decided state, a pool size and three intervals; and validating it again
    changes nothing. *)
Theorem validated_config_complete (cfg c : Config) :
  validate cfg = Ok c -> config_ok c /\ validate c = Ok c.
Proof.
  intros (auth & al & insts & -> & Hlv & Ha & Hal & Hi & Hne)%validate_inv. split.
  - split; cbn [cfg_Server cfg_Auth cfg_Storage cfg_Alerting cfg_Instances validated].
    + done.
    + cbn. unfold listenDefault. destruct (String.eqb_spec (svc_Listen (cfg_Server cfg)) ""); [|done].
      by destruct (0 <? _).
    + by apply (auth_complete _ _ _ Ha).
    + apply (alerting_complete _ _ _ Hal).
    + apply (alerting_complete _ _ _ Hal).
    + done.
    + apply (validateInstances_ok _ _ _ Hi).
  - apply validated_stable; try done;
      [by apply validateAuth_idem in Ha|by apply validateAlerting_idem in Hal|
       by apply validateInstances_idem in Hi].
Qed.

Definition minimal_config : Config :=
  mkConfig (mkServerConfig "" 0 "" false "" 0 0 0) (mkStorageConfig "" false 0)
    (mkAuthConfig false "" "" 0 0 0 None) (mkAlertingConfig false 0 0 [] 0 0 "" None)
    (mkPlanCaptureConfig false 0 0 0 0 0 0) (mkSettingsSnapshotConfig false 0 false 0)
    (mkStatementSnapshotsConfig false 0 0 false 0)
    (mkMLConfig false f0 f0 "" 0 [] (mkMLPersistenceConfig false) (mkMLForecastConfig 0 f0 0))
    (mkRemediationConfig false 0 0 f0 f0)
    (mkRCAConfig false 0 "" 0 0 0 0 0 f0 f0 0 false false 0 0 f0)
    (mkPlaybooksConfig false 0 0 0 0 0)
    (mkForecastConfig false 0 f0 0 0 0 0 0 f0 0 f0 f0 f0 0 0) (mkOSMetricsConfig "")
    [mkInstanceConfig "db1" "" "host=db1" "" None 0 (mkIntervalConfig 0 0 0) "" "" "" "" [] "" [] [] 0 ""].

(** Port 8080, the information level, and an enabled instance with five connections. *)
Lemma validated_config_complete_witness :
  exists c, validate minimal_config = Ok c /\ config_ok c /\ validate c = Ok c.
Proof.
  assert (exists c, validate minimal_config = Ok c) as [c Hc] by (vm_compute; eauto).
  exists c. split; [exact Hc|]. exact (validated_config_complete minimal_config c Hc).
Defined.
