(* ===== verification/Group.v ===== *)
(** * Interval groups: collect, store, evaluate, dispatch

    Models internal/orchestrator/group.go, noop.go and logstore.go: one cycle of a group runs its
    collectors on one connection, writes their points to the metric store in one batch, hands
    the batch to the alert evaluator and the events to the dispatcher. The collectors are a sum
    type: the dynamic types behind the interface Collector that the runner builds. *)
From S2P Require Import Prelude Float64 Metric SqlConn Collector LockTree CollectorsHigh.
From S2P Require Import CollectorsMedium OsCollectors CollectorsLow.
From S2P Require Import Alert Dispatcher.

Local Open Scope Z_scope.

(** ** Collectors *)

Inductive collector :=
  | CConnections (b : Base)
  | CCache (b : Base)
  | CWaitEvents (b : Base)
  | CLockTree (b : Base)
  | CLongTransactions (b : Base)
  | COS (c : OSCollector)
  | CReplicationStatus (b : Base)
  | CReplicationLag (b : Base)
  | CReplicationSlots (b : Base)
  | CStatementsConfig (b : Base)
  | CStatementsTop (b : Base) (limit : Z)
  | CCheckpoint (c : CheckpointCollector)
  | CVacuumProgress (b : Base)
  | CClusterProgress (b : Base)
  | CAnalyzeProgress (b : Base)
  | CCreateIndexProgress (b : Base)
  | CBasebackupProgress (b : Base)
  | CCopyProgress (b : Base)
  | COSSQL (c : OSSQLCollector)
  | CCluster (instanceID : string)
  | CServerInfo (b : Base)
  | CDatabaseSizes (b : Base)
  | CSettings (b : Base)
  | CExtensions (b : Base)
  | CTransactions (b : Base)
  | CIOStats (b : Base).

(** What the world answers during one cycle of a group. *)
Record Cycle `{Driver} := mkCycle {
  cy_now : Time;
  cy_acquire : result Conn;
  cy_scrape : result OSSnapshot;
  cy_local : result OSSnapshot;
  cy_cluster : ClusterAnswers
}.

Section Collect.
Context {MR : MapRange} `{DR : Driver}.

(** [Collector.Collect]; two collectors change their state. *)
Definition Collect (cy : Cycle) (conn : Conn) (ic : InstanceContext) (c : collector)
    : collector * result (list MetricPoint) :=
  let now := cy_now cy in
  match c with
  | CConnections b => (c, Connections_Collect now b conn)
  | CCache b => (c, Cache_Collect now b conn)
  | CWaitEvents b => (c, WaitEvents_Collect now b conn)
  | CLockTree b => (c, LockTree_Collect now b conn)
  | CLongTransactions b => (c, LongTxn_Collect now b conn)
  | COS o => (c, OS_Collect now o (cy_scrape cy) (cy_local cy))
  | CReplicationStatus b => (c, ReplicationStatus_Collect now b ic conn)
  | CReplicationLag b => (c, ReplicationLag_Collect now b ic conn)
  | CReplicationSlots b => (c, ReplicationSlots_Collect now b conn)
  | CStatementsConfig b => (c, StatementsConfig_Collect now b conn)
  | CStatementsTop b limit => (c, StatementsTop_Collect now b limit conn)
  | CCheckpoint k => let (k', r) := Checkpoint_Collect now k conn in (CCheckpoint k', r)
  | CVacuumProgress b => (c, VacuumProgress_Collect now b conn)
  | CClusterProgress b => (c, ClusterProgress_Collect now b conn)
  | CAnalyzeProgress b => (c, AnalyzeProgress_Collect now b conn)
  | CCreateIndexProgress b => (c, CreateIndexProgress_Collect now b conn)
  | CBasebackupProgress b => (c, BasebackupProgress_Collect now b conn)
  | CCopyProgress b => (c, CopyProgress_Collect now b conn)
  | COSSQL o => let (o', r) := OSSQL_Collect now o conn in (COSSQL o', r)
  | CCluster id => (c, Cluster_Collect now id (cy_cluster cy))
  | CServerInfo b => (c, ServerInfo_Collect now b ic conn)
  | CDatabaseSizes b => (c, DatabaseSizes_Collect now b conn)
  | CSettings b => (c, Settings_Collect now b conn)
  | CExtensions b => (c, Extensions_Collect now b conn)
  | CTransactions b => (c, Transactions_Collect now b conn)
  | CIOStats b => (c, IOStats_Collect now b conn)
  end.

End Collect.

(** ** The interfaces of the orchestrator *)

Class AlertEvaluator (E : Type) := {
  ae_Evaluate : Time -> E -> list MetricPoint -> E * result (list AlertEvent)
}.

(** [None] is a panic of the dispatcher. *)
Class AlertDispatcher (D : Type) := {
  ad_Dispatch : D -> AlertEvent -> option (D * bool)
}.

(** noop.go *)
#[export] Instance NoOpAlertEvaluator : AlertEvaluator unit := {|
  ae_Evaluate := fun _ e _ => (e, Ok [])
|}.
#[export] Instance NoOpAlertDispatcher : AlertDispatcher unit := {|
  ad_Dispatch := fun d _ => Some (d, true)
|}.

(** The evaluator of package alert with its history store; its clock stands for a whole call. *)
#[export] Instance EvaluatorOf {SS : SliceSort} {MR : MapRange} {S} {HS : AlertHistoryStore S}
    : AlertEvaluator (Evaluator * S) := {|
  ae_Evaluate := fun now es points =>
    let '(e, s, events) := Evaluate now (fun _ => now) es.1 es.2 points in ((e, s), Ok events)
|}.

(** The dispatcher of package alert. *)
#[export] Instance DispatcherOf {W} {HW : World W} : AlertDispatcher (@Dispatcher W HW) := {|
  ad_Dispatch := fun d ev => Dispatch d ev
|}.

(** logstore.go: a store that only logs. *)
#[export] Instance LogStore : MetricStore () := {|
  ms_Write := fun s _ => (s, None);
  ms_Query := fun _ _ => Ok []
|}.

(** ** The group *)

Record intervalGroup := mkGroup {
  g_name : string;
  g_interval : Duration;
  g_collectors : list collector
}.

Definition queryInstanceContext `{DR : Driver} (conn : Conn) : result InstanceContext :=
  match query_row conn "SELECT pg_is_in_recovery()" [] boolean with
  | Err e => Err (wrap "query instance context" e)
  | Ok b => Ok (mkIC b)
  end.

Section Group.
Context {MR : MapRange} `{DR : Driver}.
Context {S E D : Type} {HM : MetricStore S} {HE : AlertEvaluator E} {HD : AlertDispatcher D}.

(** The shared state a group works on. *)
Record Shared := mkShared { sh_store : S; sh_evaluator : E; sh_dispatcher : D }.

(** The loop over the collectors: those that fail contribute nothing. *)
Definition runCollectors (cy : Cycle) (conn : Conn) (ic : InstanceContext) (cs : list collector)
    : list collector * list MetricPoint := CollectAll (Collect cy conn ic) cs.

(** The loop over the events; an event that does not fit the dispatcher's buffer is dropped. *)
Fixpoint dispatchAll (d : D) (events : list AlertEvent) : option D :=
  match events with
  | [] => Some d
  | ev :: rest =>
      match ad_Dispatch d ev with
      | None => None
      | Some (d', _) => dispatchAll d' rest
      end
  end.

Definition evaluateAlerts (now : Time) (sh : Shared) (points : list MetricPoint) : option Shared :=
  match ae_Evaluate now (sh_evaluator sh) points with
  | (e', Err _) => Some (mkShared (sh_store sh) e' (sh_dispatcher sh))
  | (e', Ok events) =>
      match dispatchAll (sh_dispatcher sh) events with
      | None => None
      | Some d' => Some (mkShared (sh_store sh) e' d')
      end
  end.

(** [collect]: one cycle. *)
Definition collect (cy : Cycle) (g : intervalGroup) (sh : Shared) : option (intervalGroup * Shared) :=
  match cy_acquire cy with
  | Err _ => Some (g, sh)
  | Ok conn =>
      match queryInstanceContext conn with
      | Err _ => Some (g, sh)
      | Ok ic =>
          let (cs, batch) := runCollectors cy conn ic (g_collectors g) in
          let g' := mkGroup (g_name g) (g_interval g) cs in
          match batch with
          | [] => Some (g', sh)
          | _ :: _ =>
              match ms_Write (sh_store sh) batch with
              | (s', Some _) => Some (g', mkShared s' (sh_evaluator sh) (sh_dispatcher sh))
              | (s', None) =>
                  match evaluateAlerts (cy_now cy)
                          (mkShared s' (sh_evaluator sh) (sh_dispatcher sh)) batch with
                  | None => None
                  | Some sh' => Some (g', sh')
                  end
              end
          end
      end
  end.

(** A cycle at once and one at every tick. *)
Fixpoint run_cycles (cycles : list Cycle) (g : intervalGroup) (sh : Shared)
    : option (intervalGroup * Shared) :=
  match cycles with
  | [] => Some (g, sh)
  | cy :: rest => match collect cy g sh with
                  | None => None
                  | Some (g', sh') => run_cycles rest g' sh'
                  end
  end.

(** [run]: time.NewTicker panics on an interval that is not positive. *)
Definition run (cycles : list Cycle) (g : intervalGroup) (sh : Shared) : option (intervalGroup * Shared) :=
  if 0 <? g_interval g then run_cycles cycles g sh else None.

End Group.
Arguments Shared : clear implicits.
Arguments mkShared {S E D} _ _ _.

(** ** Which metrics a collector emits *)

Definition collector_id (c : collector) : string :=
  match c with
  | CConnections b | CCache b | CWaitEvents b | CLockTree b | CLongTransactions b
  | CReplicationStatus b | CReplicationLag b | CReplicationSlots b | CStatementsConfig b
  | CStatementsTop b _ | CVacuumProgress b | CClusterProgress b | CAnalyzeProgress b
  | CCreateIndexProgress b | CBasebackupProgress b | CCopyProgress b | CServerInfo b
  | CDatabaseSizes b | CSettings b | CExtensions b | CTransactions b | CIOStats b => b_instanceID b
  | COS o => oc_instanceID o
  | CCheckpoint k => b_instanceID (ck_Base k)
  | COSSQL o => sq_instanceID o
  | CCluster id => id
  end.

Definition collector_metrics (c : collector) : list string :=
  match c with
  | CConnections _ => connections_metrics
  | CCache _ => cache_metrics
  | CWaitEvents _ => wait_events_metrics
  | CLockTree _ => lock_tree_metrics
  | CLongTransactions _ => long_transactions_metrics
  | COS _ | COSSQL _ => os_metrics
  | CReplicationStatus _ => replication_status_metrics
  | CReplicationLag _ => replication_lag_metrics
  | CReplicationSlots _ => replication_slots_metrics
  | CStatementsConfig _ => statements_config_metrics
  | CStatementsTop _ _ => statements_top_metrics
  | CCheckpoint _ => checkpoint_metrics
  | CVacuumProgress _ => progress_vacuum_metrics
  | CClusterProgress _ => progress_cluster_metrics
  | CAnalyzeProgress _ => progress_analyze_metrics
  | CCreateIndexProgress _ => progress_create_index_metrics
  | CBasebackupProgress _ => progress_basebackup_metrics
  | CCopyProgress _ => progress_copy_metrics
  | CCluster _ => cluster_metrics
  | CServerInfo _ => server_info_metrics
  | CDatabaseSizes _ => database_sizes_metrics
  | CSettings _ => settings_metrics
  | CExtensions _ => extensions_metrics
  | CTransactions _ => transactions_metrics
  | CIOStats _ => io_stats_metrics
  end.

Lemma Collect_emits {MR : MapRange} `{DR : Driver} cy conn ic c :
  emits (collector_id c) (collector_metrics c) (Collect cy conn ic c).2 /\
  collector_id (Collect cy conn ic c).1 = collector_id c /\
  collector_metrics (Collect cy conn ic c).1 = collector_metrics c.
Proof.
  destruct c; cbn [Collect fst snd collector_id collector_metrics];
    try (split; [|split; reflexivity]);
    eauto using Connections_emits, Cache_emits, WaitEvents_emits, LockTree_emits, LongTxn_emits,
      OS_emits, ReplicationStatus_emits, ReplicationLag_emits, ReplicationSlots_emits,
      StatementsConfig_emits, StatementsTop_emits, VacuumProgress_emits, ClusterProgress_emits,
      AnalyzeProgress_emits, CreateIndexProgress_emits, BasebackupProgress_emits,
      CopyProgress_emits, Cluster_emits, ServerInfo_emits, DatabaseSizes_emits, Settings_emits,
      Extensions_emits, Transactions_emits, IOStats_emits.
  - pose proof (Checkpoint_emits (cy_now cy) conn c) as He.
    assert (Hb : ck_Base (Checkpoint_Collect (cy_now cy) c conn).1 = ck_Base c).
    { unfold Checkpoint_Collect. destruct (Select _ _); [|done]. by destruct (query_row _ _ _ _). }
    destruct (Checkpoint_Collect _ _ _) as [k r]. cbn in *. by rewrite Hb.
  - pose proof (OSSQL_emits (cy_now cy) c conn) as He.
    assert (Hb : sq_instanceID (OSSQL_Collect (cy_now cy) c conn).1 = sq_instanceID c).
    { unfold OSSQL_Collect, readCPUStat, readDiskStats.
      destruct (readProcFile conn "/proc/stat") as [s|]; [destruct (ParseCPURaw s); [destruct (sq_prevCPU c)|]|];
        destruct (readProcFile conn "/proc/diskstats") as [d|]; cbn [sq_prevDisk sq_instanceID];
        try destruct (sq_prevDisk c); done. }
    destruct (OSSQL_Collect _ _ _) as [k r]. cbn in *. by rewrite Hb.
Qed.
