(* ===== verification/Instances.v ===== *)
(** * The table of monitored instances

    Models internal/storage/instances.go: the records, and the store over the table instances,
    whose key is the id. [is_online] says whether the database answers. *)
From S2P Require Import Prelude Metric GoText.

Local Open Scope Z_scope.

Record InstanceRecord := mkInstance {
  ir_ID : string;
  ir_Name : string;
  ir_DSN : string;
  ir_Host : string;
  ir_Port : Z;
  ir_Enabled : bool;
  ir_Source : string;
  ir_MaxConns : Z;
  ir_CreatedAt : Time;
  ir_UpdatedAt : Time
}.

Record PGInstanceStore := mkInstanceStore {
  is_rows : gmap string InstanceRecord;
  is_online : bool
}.

(** The interface InstanceStore, as far as the orchestrator uses it. *)
Class InstanceStore (I : Type) := {
  ist_List : I -> result (list InstanceRecord);
  ist_Get : I -> string -> result (option InstanceRecord)
}.

Definition err_offline : error := "connection refused".

(** A port or pool size beyond the INTEGER columns is refused when the arguments are encoded. *)
Definition columns_fit (r : InstanceRecord) : bool := in_int4 (ir_Port r) && in_int4 (ir_MaxConns r).
Definition err_encode : error := "failed to encode args".

(** Text that is not valid UTF-8 or holds a NUL is refused by the server. *)
Definition texts_fit (r : InstanceRecord) : bool :=
  forallb pg_text [ir_ID r; ir_Name r; ir_DSN r; ir_Host r].
Definition err_bytes : error := "invalid byte sequence for encoding UTF8".

Section InstanceStore.
Context {SS : SliceSort} {MR : MapRange}.

(** Ordered by id. *)
Definition ins_List (s : PGInstanceStore) : result (list InstanceRecord) :=
  if negb (is_online s) then Err ("list instances: " +:+ err_offline)
  else Ok (sort_slice (fun a b => string_ltb (ir_ID a) (ir_ID b)) (map snd (map_range (is_rows s)))).

(** A missing row is no error. *)
Definition ins_Get (s : PGInstanceStore) (id : string) : result (option InstanceRecord) :=
  if negb (is_online s) then Err ("get instance " +:+ id +:+ ": " +:+ err_offline)
  else if negb (pg_text id) then Err ("get instance " +:+ id +:+ ": " +:+ err_bytes)
  else Ok (is_rows s !! id).

Definition set_row (r : InstanceRecord) (s : PGInstanceStore) : PGInstanceStore :=
  mkInstanceStore (<[ir_ID r := r]> (is_rows s)) (is_online s).

Definition default_conns (n : Z) : Z := if n =? 0 then 5 else n.

Definition ins_Create (now : Time) (s : PGInstanceStore) (rec : InstanceRecord)
    : PGInstanceStore * result InstanceRecord :=
  if negb (is_online s) then (s, Err ("create instance: " +:+ err_offline))
  else if negb (columns_fit rec) then (s, Err ("create instance: " +:+ err_encode))
  else if negb (texts_fit rec && pg_text (ir_Source rec)) then (s, Err ("create instance: " +:+ err_bytes))
  else match is_rows s !! ir_ID rec with
       | Some _ => (s, Err "create instance: duplicate key value violates unique constraint")
       | None =>
           let r := mkInstance (ir_ID rec) (ir_Name rec) (ir_DSN rec) (ir_Host rec) (ir_Port rec)
                      (ir_Enabled rec)
                      (if String.eqb (ir_Source rec) "" then "manual" else ir_Source rec)
                      (default_conns (ir_MaxConns rec)) now now in
           (set_row r s, Ok r)
       end.

(** The source and the time of creation are kept. *)
Definition ins_Update (now : Time) (s : PGInstanceStore) (rec : InstanceRecord)
    : PGInstanceStore * result InstanceRecord :=
  if negb (is_online s) then (s, Err ("update instance " +:+ ir_ID rec +:+ ": " +:+ err_offline))
  else if negb (columns_fit rec) then
    (s, Err ("update instance " +:+ ir_ID rec +:+ ": " +:+ err_encode))
  else if negb (texts_fit rec) then
    (s, Err ("update instance " +:+ ir_ID rec +:+ ": " +:+ err_bytes))
  else match is_rows s !! ir_ID rec with
       | None => (s, Err ("instance " +:+ ir_ID rec +:+ " not found"))
       | Some old =>
           let r := mkInstance (ir_ID rec) (ir_Name rec) (ir_DSN rec) (ir_Host rec) (ir_Port rec)
                      (ir_Enabled rec) (ir_Source old) (ir_MaxConns rec) (ir_CreatedAt old) now in
           (set_row r s, Ok r)
       end.

Definition ins_Delete (s : PGInstanceStore) (id : string) : PGInstanceStore * option error :=
  if negb (is_online s) then (s, Some ("delete instance " +:+ id +:+ ": " +:+ err_offline))
  else if negb (pg_text id) then (s, Some ("delete instance " +:+ id +:+ ": " +:+ err_bytes))
  else match is_rows s !! id with
       | None => (s, Some ("instance " +:+ id +:+ " not found"))
       | Some _ => (mkInstanceStore (delete id (is_rows s)) (is_online s), None)
       end.

(** A record of the configuration file is inserted once; an existing row is left as it is. *)
Definition ins_Seed (now : Time) (s : PGInstanceStore) (rec : InstanceRecord)
    : PGInstanceStore * option error :=
  if negb (is_online s) then (s, Some ("seed instance " +:+ ir_ID rec +:+ ": " +:+ err_offline))
  else if negb (columns_fit rec) then
    (s, Some ("seed instance " +:+ ir_ID rec +:+ ": " +:+ err_encode))
  else if negb (texts_fit rec) then
    (s, Some ("seed instance " +:+ ir_ID rec +:+ ": " +:+ err_bytes))
  else match is_rows s !! ir_ID rec with
       | Some _ => (s, None)
       | None =>
           (set_row (mkInstance (ir_ID rec) (ir_Name rec) (ir_DSN rec) (ir_Host rec) (ir_Port rec)
                       (ir_Enabled rec) "yaml" (default_conns (ir_MaxConns rec)) now now) s, None)
       end.

#[export] Instance PGInstances : InstanceStore PGInstanceStore := {|
  ist_List := ins_List;
  ist_Get := ins_Get
|}.

(** ** What the orchestrator relies on *)

(** Rows are stored under their ids. *)
Definition rows_ok (s : PGInstanceStore) : Prop :=
  forall id r, is_rows s !! id = Some r -> ir_ID r = id.

Lemma set_row_ok r s : rows_ok s -> rows_ok (set_row r s).
Proof. intros H id x. cbn. rewrite lookup_insert_Some. intros [[<- <-]|[_ Hx]]; [done|eauto]. Qed.

Lemma ins_ops_ok now s rec id : rows_ok s ->
  rows_ok (ins_Create now s rec).1 /\ rows_ok (ins_Update now s rec).1 /\
  rows_ok (ins_Delete s id).1 /\ rows_ok (ins_Seed now s rec).1.
Proof.
  intros H. unfold ins_Create, ins_Update, ins_Delete, ins_Seed.
  destruct (is_online s); cbn [negb fst]; [|done].
  destruct (columns_fit rec), (texts_fit rec), (pg_text (ir_Source rec)), (pg_text id); cbn [negb fst]; split_and!; try done;
    destruct (is_rows s !! _) eqn:E; cbn [fst]; try done; try (by apply set_row_ok);
    intros k r; cbn; rewrite lookup_delete_Some; intros [_ Hr]; eauto.
Qed.

Lemma ins_List_elem s l : ins_List s = Ok l -> rows_ok s ->
  NoDup (map ir_ID l) /\ forall r, r ∈ l <-> is_rows s !! ir_ID r = Some r.
Proof.
  unfold ins_List. destruct (negb _); [done|]. intros [= <-] Hok.
  assert (Hin : forall r, r ∈ map snd (map_range (is_rows s)) <-> is_rows s !! ir_ID r = Some r).
  { intros r. rewrite list_elem_of_fmap. setoid_rewrite map_range_perm. split.
    - intros ([k x] & -> & Hx). apply elem_of_map_to_list in Hx. cbn. by rewrite (Hok k x Hx).
    - intros Hr. exists (ir_ID r, r). split; [done|]. by apply elem_of_map_to_list. }
  split; [|intros r; by rewrite sort_slice_perm].
  rewrite sort_slice_perm. rewrite map_map.
  assert (Hkeys : map (fun kv => ir_ID kv.2) (map_range (is_rows s)) = (map_range (is_rows s)).*1).
  { apply list_fmap_ext. intros i [k x] Hkx. apply (Hok k x). apply list_elem_of_lookup_2 in Hkx.
    by rewrite map_range_perm, elem_of_map_to_list in Hkx. }
  rewrite Hkeys, map_range_perm. apply NoDup_fst_map_to_list.
Qed.

End InstanceStore.
