(* ===== verification/DbRunner.v ===== *)
(** * Per-database collection

    Models internal/orchestrator/db_runner.go: the discovery of databases and their filters, the
    pool of each database with its eviction, the tasks that collect at most so many at a time,
    and the counters they report. No lock spans [Run]: it is a machine, [run_act], whose acts are its
    sections under a lock, its sends and receives on the semaphore and the bodies of its goroutines,
    and between any two of them the runner may be closed. [DBRunner_Run] is the run that nothing
    interrupts, as one function. *)
From S2P Require Import Prelude Float64 Metric GoText SqlConn Collector DatabaseCollector Config.

Local Open Scope Z_scope.

(** * Shell patterns: path/filepath.Match

    The patterns that select databases. A pattern is read into terms first; a malformed one
    matches nothing, since the code ignores the error. On ASCII text, with the separator of the
    systems the server runs on. *)

(** A term: any run, any one character, a class of ranges (negated or not), one character. *)
Inductive term :=
  | TStar
  | TAny
  | TClass (negated : bool) (ranges : list (Ascii.ascii * Ascii.ascii))
  | TLit (c : Ascii.ascii).

Definition ch (n : N) : Ascii.ascii := Ascii.ascii_of_N n.
Definition star_char : Ascii.ascii := Eval compute in ch 42.
Definition quest_char : Ascii.ascii := Eval compute in ch 63.
Definition open_char : Ascii.ascii := Eval compute in ch 91.
Definition close_char : Ascii.ascii := Eval compute in ch 93.
Definition caret_char : Ascii.ascii := Eval compute in ch 94.
Definition backslash_char : Ascii.ascii := Eval compute in ch 92.
Definition hyphen_char : Ascii.ascii := Eval compute in ch 45.
Definition slash_char : Ascii.ascii := Eval compute in ch 47.

(** One possibly escaped end of a range; something must follow it. *)
Definition get_esc (s : string) : option (Ascii.ascii * string) :=
  match s with
  | EmptyString => None
  | String c s' =>
      if Ascii.eqb c hyphen_char || Ascii.eqb c close_char then None
      else if Ascii.eqb c backslash_char then
        match s' with
        | String d (String _ _ as r) => Some (d, r)
        | _ => None
        end
      else match s' with
           | EmptyString => None
           | String _ _ => Some (c, s')
           end
  end.

(** The ranges of a class, up to its closing bracket; at least one. *)
Fixpoint read_ranges (fuel : nat) (acc : list (Ascii.ascii * Ascii.ascii)) (s : string)
    : option (list (Ascii.ascii * Ascii.ascii) * string) :=
  match fuel with
  | O => None
  | S fuel' =>
      match s, acc with
      | String c s', _ :: _ =>
          if Ascii.eqb c close_char then Some (rev acc, s') else read_range fuel' acc s
      | _, _ => read_range fuel' acc s
      end
  end
with read_range (fuel : nat) (acc : list (Ascii.ascii * Ascii.ascii)) (s : string)
    : option (list (Ascii.ascii * Ascii.ascii) * string) :=
  match fuel with
  | O => None
  | S fuel' =>
      match get_esc s with
      | None => None
      | Some (lo, rest) =>
          match rest with
          | String c r =>
              if Ascii.eqb c hyphen_char then
                match get_esc r with
                | None => None
                | Some (hi, rest') => read_ranges fuel' ((lo, hi) :: acc) rest'
                end
              else read_ranges fuel' ((lo, lo) :: acc) rest
          | EmptyString => None
          end
      end
  end.

(** The terms of a pattern; every step consumes a character. *)
Fixpoint parse_pattern (fuel : nat) (s : string) : option (list term) :=
  match fuel, s with
  | _, EmptyString => Some []
  | O, _ => None
  | S fuel', String c s' =>
      if Ascii.eqb c star_char then cons TStar <$> parse_pattern fuel' s'
      else if Ascii.eqb c quest_char then cons TAny <$> parse_pattern fuel' s'
      else if Ascii.eqb c backslash_char then
        match s' with
        | EmptyString => None
        | String d s'' => cons (TLit d) <$> parse_pattern fuel' s''
        end
      else if Ascii.eqb c open_char then
        let '(neg, body) := match s' with
          | String d r => if Ascii.eqb d caret_char then (true, r) else (false, s')
          | EmptyString => (false, s')
          end in
        match read_ranges (2 * String.length s) [] body with
        | None => None
        | Some (ranges, rest) => cons (TClass neg ranges) <$> parse_pattern fuel' rest
        end
      else cons (TLit c) <$> parse_pattern fuel' s'
  end.

Definition in_range (c : Ascii.ascii) (r : Ascii.ascii * Ascii.ascii) : bool :=
  (byte_Z r.1 <=? byte_Z c) && (byte_Z c <=? byte_Z r.2).

Fixpoint match_terms (p : list term) (s : string) : bool :=
  match p with
  | [] => String.eqb s ""
  | TStar :: p' =>
      (fix any (s : string) : bool :=
         match_terms p' s ||
         match s with
         | EmptyString => false
         | String c s' => negb (Ascii.eqb c slash_char) && any s'
         end) s
  | TAny :: p' => match s with
                  | String c s' => negb (Ascii.eqb c slash_char) && match_terms p' s'
                  | EmptyString => false
                  end
  | TClass neg ranges :: p' =>
      match s with
      | String c s' => xorb neg (existsb (in_range c) ranges) && match_terms p' s'
      | EmptyString => false
      end
  | TLit c :: p' => match s with
                    | String d s' => Ascii.eqb c d && match_terms p' s'
                    | EmptyString => false
                    end
  end.

(** [ok] of [ok, _ := filepath.Match(pattern, name)]. *)
Definition Match (pattern name : string) : bool :=
  match parse_pattern (String.length pattern) pattern with
  | None => false
  | Some p => match_terms p name
  end.

Example Match_values :
  Match "app_*" "app_main" = true /\ Match "app_?" "app_12" = false /\
  Match "db[0-9]" "db7" = true /\ Match "db[^0-9]" "db7" = false /\
  Match "db[" "db[" = false /\ Match "\*" "*" = true /\ Match "*" "a/b" = false /\
  Match "*ab*" "aab" = true.
Proof. vm_compute. repeat split. Qed.

(** A name without special characters is a pattern that matches only itself. *)
Definition plain_char (c : Ascii.ascii) : bool :=
  negb (Ascii.eqb c star_char || Ascii.eqb c quest_char || Ascii.eqb c backslash_char ||
        Ascii.eqb c open_char).

Fixpoint plain (s : string) : bool :=
  match s with EmptyString => true | String c s' => plain_char c && plain s' end.

Lemma parse_plain s : forall fuel, (String.length s <= fuel)%nat -> plain s = true ->
  parse_pattern fuel s = Some (map TLit (String.list_ascii_of_string s)).
Proof.
  induction s as [|c s IH]; intros fuel Hf Hp; cbn [plain String.length] in *; [by destruct fuel|].
  destruct fuel as [|fuel]; [lia|]. apply andb_true_iff in Hp as [Hc Hp]. cbn [parse_pattern].
  unfold plain_char in Hc. apply negb_true_iff in Hc.
  apply orb_false_iff in Hc as [Hc H4]. apply orb_false_iff in Hc as [Hc H3].
  apply orb_false_iff in Hc as [H1 H2]. rewrite H1, H2, H3, H4, IH; [done|lia|done].
Qed.

Lemma match_literals s : forall t, match_terms (map TLit (String.list_ascii_of_string s)) t = String.eqb t s.
Proof.
  induction s as [|c s IH]; intros [|d t]; cbn; [done..|].
  rewrite IH. rewrite (Ascii.eqb_sym c d). by destruct (Ascii.eqb d c).
Qed.

Lemma Match_plain pattern name : plain pattern = true -> Match pattern name = String.eqb name pattern.
Proof. intros H. unfold Match. by rewrite parse_plain, match_literals. Qed.

Definition dbPoolMaxConns : Z := 2.
Definition dbPoolTTLCycles : Z := 3.
Definition defaultMaxConcurrent : Z := 5.

(** A pool of connections: which one it is, where it leads, how many connections it may hold. *)
Record Pool := mkPool {
  pl_serial : Z;
  pl_dsn : string;
  pl_MaxConns : Z
}.

#[export] Instance Pool_eq_dec : EqDecision Pool.
Proof. solve_decision. Defined.

(** The implementations of DBCollector. *)
Inductive DBCollector := DatabaseCollector.

(** [dr_closed] lists the pools closed so far, [dr_opened] counts those opened. *)
Record DBRunner := mkDBRunner {
  dr_instanceID : string;
  dr_baseDSN : string;
  dr_cfg : InstanceConfig;
  dr_collectors : list DBCollector;
  dr_pools : gmap string Pool;
  dr_poolLastSeen : gmap string Z;
  dr_semaphore : Z;
  dr_opened : Z;
  dr_closed : list Pool
}.

Definition NewDBRunner (instanceID baseDSN : string) (cfg : InstanceConfig)
    (collectors : list DBCollector) : DBRunner :=
  mkDBRunner instanceID baseDSN cfg collectors ∅ ∅
    (if inc_MaxConcurrentDBs cfg <=? 0 then defaultMaxConcurrent else inc_MaxConcurrentDBs cfg) 0 [].

(** The changes to the maps of pools. *)
Definition with_pools (r : DBRunner) (pools : gmap string Pool) (seen : gmap string Z)
    (opened : Z) (closed : list Pool) : DBRunner :=
  mkDBRunner (dr_instanceID r) (dr_baseDSN r) (dr_cfg r) (dr_collectors r) pools seen
    (dr_semaphore r) opened closed.

(** ** Discovery *)

Definition matchesAny (name : string) (patterns : list string) : bool :=
  existsb (fun p => Match p name) patterns.

Definition applyFilters (r : DBRunner) (databases : list string) : list string :=
  let incl := inc_IncludeDatabases (dr_cfg r) in
  let excl := inc_ExcludeDatabases (dr_cfg r) in
  foldl (fun result db =>
    if (0 <? len incl) && negb (matchesAny db incl) then result
    else if (0 <? len excl) && matchesAny db excl then result
    else result ++ [db]) [] databases.

Definition discoverSQL : string := "SELECT datname FROM pg_database
		 WHERE NOT datistemplate AND datallowconn
		 ORDER BY datname".

Definition discoverDatabases `{DR : Driver} (r : DBRunner) (primary : Conn) : result (list string) :=
  match query_rows primary discoverSQL [] str
          (wrap "query pg_database") (wrap "scan datname") (wrap "rows iteration") with
  | Err e => Err e
  | Ok all => Ok (applyFilters r all)
  end.

(** ** Pools *)

(** [strings.Join(parts, " ")]. *)
Fixpoint join_space (parts : list string) : string :=
  match parts with
  | [] => ""
  | [p] => p
  | p :: rest => p +:+ " " +:+ join_space rest
  end.

(** The first field [dbname=] is replaced. *)
Fixpoint replace_dbname (newDB : string) (parts : list string) : option (list string) :=
  match parts with
  | [] => None
  | p :: rest =>
      if has_prefix p "dbname=" then Some (("dbname=" +:+ newDB) :: rest)
      else match replace_dbname newDB rest with
           | Some rest' => Some (p :: rest')
           | None => None
           end
  end.

(** [urlSetPath] is net/url: the URL with another path, nothing when it does not parse. *)
Definition substituteDBName (urlSetPath : string -> string -> option string) (dsn newDB : string)
    : string :=
  let keyvalue :=
    let parts := Fields dsn in
    join_space (match replace_dbname newDB parts with
                | Some parts' => parts'
                | None => parts ++ ["dbname=" +:+ newDB]
                end) in
  if has_prefix dsn "postgres://" || has_prefix dsn "postgresql://" then
    match urlSetPath dsn ("/" +:+ newDB) with
    | Some u => u
    | None => keyvalue
    end
  else keyvalue.

Section Pools.
Context {MR : MapRange}.

(** The loop body of [evictStalePools]. *)
Definition evict_one (seen : list string) (r : DBRunner) (kv : string * Pool) : DBRunner :=
  let (db, p) := kv in
  if mem db seen then
    with_pools r (dr_pools r) (<[db := 0]> (dr_poolLastSeen r)) (dr_opened r) (dr_closed r)
  else
    let n := default 0 (dr_poolLastSeen r !! db) + 1 in
    if dbPoolTTLCycles <=? n then
      with_pools r (delete db (dr_pools r)) (delete db (dr_poolLastSeen r)) (dr_opened r)
        (dr_closed r ++ [p])
    else with_pools r (dr_pools r) (<[db := n]> (dr_poolLastSeen r)) (dr_opened r) (dr_closed r).

Definition evictStalePools (seen : list string) (r : DBRunner) : DBRunner :=
  foldl (evict_one seen) r (map_range (dr_pools r)).

(** What the world answers during one cycle. *)
Record DBCycle `{DR : Driver} := mkDBCycle {
  dy_now : Time;
  dy_primary : Conn;
  dy_parse : string -> option error;
  dy_open : string -> option error;
  dy_query : Pool -> Conn
}.

Context `{DR : Driver} (urlSetPath : string -> string -> option string).

Definition getOrCreatePool (cy : DBCycle) (r : DBRunner) (dbName : string)
    : DBRunner * result Pool :=
  match dr_pools r !! dbName with
  | Some p => (r, Ok p)
  | None =>
      let dsn := substituteDBName urlSetPath (dr_baseDSN r) dbName in
      match dy_parse cy dsn with
      | Some e => (r, Err (wrap ("parse dsn for db " +:+ dbName) e))
      | None =>
          match dy_open cy dsn with
          | Some e => (r, Err (wrap ("create pool for db " +:+ dbName) e))
          | None =>
              let p := mkPool (dr_opened r) dsn dbPoolMaxConns in
              (with_pools r (<[dbName := p]> (dr_pools r)) (<[dbName := 0]> (dr_poolLastSeen r))
                 (dr_opened r + 1) (dr_closed r), Ok p)
          end
      end
  end.

(** [Close] forgets the pools but not when they were seen. *)
Definition Close (r : DBRunner) : DBRunner :=
  foldl (fun r kv => with_pools r (delete kv.1 (dr_pools r)) (dr_poolLastSeen r) (dr_opened r)
                       (dr_closed r ++ [kv.2])) r (map_range (dr_pools r)).

(** ** Tasks *)

Record Task := mkTask { tk_db : string; tk_col : DBCollector; tk_pool : Pool }.

Inductive DBErrorClass := ClassTimeout | ClassPermission | ClassOther.

(** [classifyDBError] of an error. *)
Definition classifyDBError (msg : error) : DBErrorClass :=
  if ContainsStr msg "timeout" || ContainsStr msg "canceling statement" then ClassTimeout
  else if ContainsStr msg "permission denied" then ClassPermission
  else ClassOther.

Record Counters := mkCounters {
  cn_collected : Z;
  cn_timeout : Z;
  cn_perm : Z;
  cn_other : Z
}.

Definition bump (o : option error) (n : Counters) : Counters :=
  match o with
  | None => mkCounters (cn_collected n + 1) (cn_timeout n) (cn_perm n) (cn_other n)
  | Some e =>
      match classifyDBError e with
      | ClassTimeout => mkCounters (cn_collected n) (cn_timeout n + 1) (cn_perm n) (cn_other n)
      | ClassPermission => mkCounters (cn_collected n) (cn_timeout n) (cn_perm n + 1) (cn_other n)
      | ClassOther => mkCounters (cn_collected n) (cn_timeout n) (cn_perm n) (cn_other n + 1)
      end
  end.

Definition set_instance (id : string) (p : MetricPoint) : MetricPoint :=
  mkPoint id (pt_Metric p) (pt_Value p) (pt_Labels p) (pt_Timestamp p).

(** The collector of a task: the points it found, for this instance, and its error. *)
Definition task_result (id : string) (cy : DBCycle) (t : Task) : list MetricPoint * option error :=
  match tk_col t with
  | DatabaseCollector =>
      let (points, cerr) := CollectDB (dy_now cy) (dy_query cy (tk_pool t)) (tk_db t) in
      (map (set_instance id) points, cerr)
  end.

(** The loop that makes a pool for each database and starts its tasks; a database without a pool
    counts as one error of the other kind. *)
Definition launch (cy : DBCycle) (r : DBRunner) (databases : list string)
    : DBRunner * list Task * Z :=
  foldl (fun acc db =>
    let '(r, tasks, errOther) := acc in
    match getOrCreatePool cy r db with
    | (r', Err _) => (r', tasks, errOther + 1)
    | (r', Ok pool) => (r', tasks ++ map (fun c => mkTask db c pool) (dr_collectors r), errOther)
    end) (r, [], 0) databases.

(** The points of the cycle about itself. *)
Definition telemetry (now : Time) (id : string) (discovered : Z) (n : Counters) : list MetricPoint :=
  let reason s := labels_of [("reason", s)] in
  [ mkPoint id "pg.agent.db.discovered" (f_of_Z discovered) ∅ now;
    mkPoint id "pg.agent.db.collected" (f_of_Z (cn_collected n)) ∅ now;
    mkPoint id "pg.agent.db.errors" (f_of_Z (cn_timeout n)) (reason "timeout") now;
    mkPoint id "pg.agent.db.errors" (f_of_Z (cn_perm n)) (reason "permission_denied") now;
    mkPoint id "pg.agent.db.errors" (f_of_Z (cn_other n)) (reason "other") now ].

Section Store.
Context {S : Type} {HM : MetricStore S}.

(** The body of a task's goroutine: a failed write is only logged. *)
Definition task_body (id : string) (cy : DBCycle) (acc : S * Counters) (t : Task) : S * Counters :=
  let (points, cerr) := task_result id cy t in
  (match points with
   | [] => acc.1
   | _ :: _ => (ms_Write acc.1 points).1
   end, bump cerr acc.2).

(** A whole [Run] that nothing interrupts; [order] rearranges the tasks into the order in which their
    bodies run. It is a reference for the machine below. *)
Definition DBRunner_Run (order : list Task -> list Task) (cy : DBCycle) (r : DBRunner) (s : S)
    : DBRunner * S :=
  match discoverDatabases r (dy_primary cy) with
  | Err _ => (r, s)
  | Ok databases =>
      let '(r', tasks, errOther) := launch cy (evictStalePools databases r) databases in
      let '(s', n) := foldl (task_body (dr_instanceID r) cy) (s, mkCounters 0 0 0 errOther)
                        (order tasks) in
      (r', (ms_Write s' (telemetry (dy_now cy) (dr_instanceID r) (len databases) n)).1)
  end.

(** The cycles of a runner, each with its order. *)
Definition DBRunner_cycles (cycles : list ((list Task -> list Task) * DBCycle)) (r : DBRunner) (s : S)
    : DBRunner * S :=
  foldl (fun acc oc => DBRunner_Run oc.1 oc.2 acc.1 acc.2) (r, s) cycles.

(** ** A run, act by act *)

(** A run in flight: the databases it discovered and those the loop has yet to come to, whether stale
    pools were evicted, the tasks of the current database that have no goroutine yet, the elements in the
    channel of the semaphore, the goroutines that collect, those that have collected and hold their
    slot, all tasks that have collected, in order, the counters, and whether it has reported. *)
Record DBRun := mkDBRun {
  du_cycle : DBCycle;
  du_discovered : list string;
  du_evicted : bool;
  du_dbs : list string;
  du_queue : list Task;
  du_slots : Z;
  du_running : list Task;
  du_leaving : list Task;
  du_worked : list Task;
  du_counters : Counters;
  du_finished : bool
}.

(** Discovery. When it fails, the run is over; the channel is empty, since a runner has one run at a
    time. *)
Definition begin_run (cy : DBCycle) (r : DBRunner) : option DBRun :=
  match discoverDatabases r (dy_primary cy) with
  | Err _ => None
  | Ok dbs => Some (mkDBRun cy dbs false dbs [] 0 [] [] [] (mkCounters 0 0 0 0) false)
  end.

(** The loop evicts, comes to the next database, sends on the semaphore and starts a goroutine; a
    goroutine does its work, and then receives from the semaphore; at last the loop reports. *)
Inductive act :=
  | AEvict
  | ANext
  | AStart
  | AWork (k : nat)
  | ALeave (k : nat)
  | AReport.

Definition act_evict (r : DBRunner) (u : DBRun) : option (DBRunner * DBRun) :=
  if du_evicted u then None
  else Some (evictStalePools (du_discovered u) r,
             mkDBRun (du_cycle u) (du_discovered u) true (du_dbs u) (du_queue u) (du_slots u)
               (du_running u) (du_leaving u) (du_worked u) (du_counters u) (du_finished u)).

(** A database without a pool counts as one error of the other kind. *)
Definition pool_failed (n : Counters) : Counters :=
  mkCounters (cn_collected n) (cn_timeout n) (cn_perm n) (cn_other n + 1).

Definition act_next (r : DBRunner) (u : DBRun) : option (DBRunner * DBRun) :=
  match du_evicted u, du_queue u, du_dbs u with
  | true, [], db :: dbs =>
      let at_ queue n := mkDBRun (du_cycle u) (du_discovered u) true dbs queue (du_slots u)
        (du_running u) (du_leaving u) (du_worked u) n (du_finished u) in
      match getOrCreatePool (du_cycle u) r db with
      | (r', Err _) => Some (r', at_ [] (pool_failed (du_counters u)))
      | (r', Ok pool) => Some (r', at_ (map (fun c => mkTask db c pool) (dr_collectors r)) (du_counters u))
      end
  | _, _, _ => None
  end.

(** A send blocks while the channel is full. *)
Definition act_start (r : DBRunner) (u : DBRun) : option DBRun :=
  match du_queue u with
  | [] => None
  | t :: queue =>
      if du_slots u <? dr_semaphore r then
        Some (mkDBRun (du_cycle u) (du_discovered u) (du_evicted u) (du_dbs u) queue (du_slots u + 1)
                (du_running u ++ [t]) (du_leaving u) (du_worked u) (du_counters u) (du_finished u))
      else None
  end.

Definition act_work (r : DBRunner) (u : DBRun) (s : S) (k : nat) : option (DBRun * S) :=
  match du_running u !! k with
  | None => None
  | Some t =>
      let (s', n) := task_body (dr_instanceID r) (du_cycle u) (s, du_counters u) t in
      Some (mkDBRun (du_cycle u) (du_discovered u) (du_evicted u) (du_dbs u) (du_queue u) (du_slots u)
              (delete k (du_running u)) (du_leaving u ++ [t]) (du_worked u ++ [t]) n (du_finished u), s')
  end.

Definition act_leave (u : DBRun) (k : nat) : option DBRun :=
  match du_leaving u !! k with
  | None => None
  | Some _ =>
      Some (mkDBRun (du_cycle u) (du_discovered u) (du_evicted u) (du_dbs u) (du_queue u) (du_slots u - 1)
              (du_running u) (delete k (du_leaving u)) (du_worked u) (du_counters u) (du_finished u))
  end.

(** [wg.Wait] returns when the loop is over and no goroutine is left. *)
Definition act_report (r : DBRunner) (u : DBRun) (s : S) : option (DBRun * S) :=
  match du_evicted u, du_dbs u, du_queue u, du_running u, du_leaving u with
  | true, [], [], [], [] =>
      Some (mkDBRun (du_cycle u) (du_discovered u) true [] [] (du_slots u) [] [] (du_worked u)
              (du_counters u) true,
            (ms_Write s (telemetry (dy_now (du_cycle u)) (dr_instanceID r) (len (du_discovered u))
                           (du_counters u))).1)
  | _, _, _, _, _ => None
  end.

(** One act; [None] when it is not its turn. *)
Definition run_act (a : act) (st : DBRunner * DBRun * S) : option (DBRunner * DBRun * S) :=
  let '(r, u, s) := st in
  if du_finished u then None
  else match a with
       | AEvict => (fun ru => (ru, s)) <$> act_evict r u
       | ANext => (fun ru => (ru, s)) <$> act_next r u
       | AStart => (fun u' => (r, u', s)) <$> act_start r u
       | AWork k => (fun us => (r, us.1, us.2)) <$> act_work r u s k
       | ALeave k => (fun u' => (r, u', s)) <$> act_leave u k
       | AReport => (fun us => (r, us.1, us.2)) <$> act_report r u s
       end.

(** What happens to a runner during a run: an act of the run, or a [Close] from outside. *)
Inductive move :=
  | MAct (a : act)
  | MClose.

Definition run_move (m : move) (st : DBRunner * DBRun * S) : option (DBRunner * DBRun * S) :=
  match m with
  | MAct a => run_act a st
  | MClose => Some (Close st.1.1, st.1.2, st.2)
  end.

Fixpoint run_moves (ms : list move) (st : DBRunner * DBRun * S) : option (DBRunner * DBRun * S) :=
  match ms with
  | [] => Some st
  | m :: ms' => match run_move m st with
                | None => None
                | Some st' => run_moves ms' st'
                end
  end.

End Store.
End Pools.
