(* ===== verification/DbRunnerTheorems.v ===== *)
(** * Per-database collection: pools, schedules, counters

    What db_runner.go promises: over cycles that nothing interrupts every pool it opens is closed
    exactly once, and a database that disappears loses its pool after three discoveries and not
    before; in a run, act by act and whatever closes the runner meanwhile, the goroutines never hold
    more than the slots, each task is done once and the run ends; and the result of a cycle does not
    depend on the order in which its tasks run. *)
From stdpp Require Import relations.
From S2P Require Import Prelude Float64 GoText DbRunner Metric SqlConn Collector DatabaseCollector Config.

Local Open Scope Z_scope.

(** ** A ledger of pools: those open, those closed, how many were opened *)

Definition owned (m : gmap string Pool) (closed : list Pool) : list Pool :=
  map snd (map_to_list m) ++ closed.

Definition ledger (m : gmap string Pool) (closed : list Pool) (opened : Z) : Prop :=
  0 <= opened /\ map pl_serial (owned m closed) ≡ₚ seqZ 0 opened.

Lemma seqZ_snoc n : 0 <= n -> seqZ 0 (n + 1) = seqZ 0 n ++ [n].
Proof. intros H. by rewrite seqZ_app by lia. Qed.

Lemma ledger_empty : ledger ∅ [] 0.
Proof. split; [lia|]. unfold owned. by rewrite map_to_list_empty. Qed.

Lemma ledger_close m closed opened db p : m !! db = Some p -> ledger m closed opened ->
  ledger (delete db m) (closed ++ [p]) opened.
Proof.
  intros H [Hn Hs]. split; [done|]. rewrite <- Hs. apply Permutation_map. unfold owned.
  rewrite <- (map_to_list_delete m db p H). cbn [map snd app].
  rewrite (app_assoc _ closed [p]). apply (Permutation_app_comm _ [p]).
Qed.

Lemma ledger_open m closed opened db p : m !! db = None -> pl_serial p = opened ->
  ledger m closed opened -> ledger (<[db := p]> m) closed (opened + 1).
Proof.
  intros H Hp [Hn Hs]. split; [lia|]. unfold owned in *. rewrite map_to_list_insert by done.
  cbn [map snd app]. rewrite seqZ_snoc, Hs, Hp by done. apply Permutation_cons_append.
Qed.

(** Opened and closed again. *)
Lemma ledger_lost m closed opened p : pl_serial p = opened ->
  ledger m closed opened -> ledger m (closed ++ [p]) (opened + 1).
Proof.
  intros Hp [Hn Hs]. split; [lia|]. unfold owned in *.
  by rewrite app_assoc, map_app, Hs, seqZ_snoc, <- Hp by done.
Qed.

Lemma ledger_all_closed closed opened : ledger ∅ closed opened ->
  map pl_serial closed ≡ₚ seqZ 0 opened.
Proof. intros [_ H]. unfold owned in H. by rewrite map_to_list_empty in H. Qed.

Lemma ledger_open_not_closed m closed opened db p : ledger m closed opened ->
  m !! db = Some p -> p ∉ closed.
Proof.
  intros [_ Hs] Hp Hin. pose proof (NoDup_seqZ 0 opened) as Hnd.
  rewrite <- Hs in Hnd. unfold owned in Hnd. rewrite map_app in Hnd.
  apply NoDup_app in Hnd as (_ & Hd & _). apply (Hd (pl_serial p)); apply list_elem_of_fmap.
  - exists p. split; [done|]. apply list_elem_of_fmap. exists (db, p).
    split; [done|by apply elem_of_map_to_list].
  - by exists p.
Qed.

(** ** Which pools there are *)

Section Accounting.
Context {MR : MapRange} `{DR : Driver} (us : string -> string -> option string).

Definition pools_conform (r : DBRunner) : Prop :=
  forall db p, dr_pools r !! db = Some p ->
    pl_dsn p = substituteDBName us (dr_baseDSN r) db /\ pl_MaxConns p = dbPoolMaxConns.

Definition accounted (r : DBRunner) : Prop :=
  ledger (dr_pools r) (dr_closed r) (dr_opened r) /\ pools_conform r.

Lemma close_accounted r db p seen : dr_pools r !! db = Some p -> accounted r ->
  accounted (with_pools r (delete db (dr_pools r)) seen (dr_opened r) (dr_closed r ++ [p])).
Proof.
  intros H [Hl Hc]. split; [by apply ledger_close|].
  intros k q. cbn. rewrite lookup_delete_Some. intros [_ Hq]. by apply Hc.
Qed.

Lemma touch_accounted r seen : accounted r ->
  accounted (with_pools r (dr_pools r) seen (dr_opened r) (dr_closed r)).
Proof. done. Qed.

Lemma getOrCreate_accounted cy r db : accounted r -> accounted (getOrCreatePool us cy r db).1.
Proof.
  intros [Hl Hc]. unfold getOrCreatePool. destruct (dr_pools r !! db) eqn:E; [done|].
  destruct (dy_parse _ _); [done|]. destruct (dy_open _ _); [done|]. cbn [fst].
  split; [by apply ledger_open|].
  intros k q. cbn. rewrite lookup_insert_Some. intros [[<- <-]|[_ Hq]]; [done|by apply Hc].
Qed.

Lemma launch_accounted cy r dbs : accounted r -> accounted (launch us cy r dbs).1.1.
Proof.
  intros H. unfold launch.
  apply (foldl_inv (fun a : DBRunner * list Task * Z => accounted a.1.1)); [|done].
  intros [[a ts] e] db _ Ha. cbn [fst] in Ha. pose proof (getOrCreate_accounted cy a db Ha).
  by destruct (getOrCreatePool us cy a db) as [a' [p|]].
Qed.

Lemma evict_accounted seen r : accounted r -> accounted (evictStalePools seen r).
Proof.
  apply (foldl_own_entries dr_pools); intros a db p; unfold evict_one.
  - intros Hp Ha. destruct (mem db seen); [by apply touch_accounted|].
    destruct (_ <=? _); [by apply close_accounted|by apply touch_accounted].
  - intros k Hk. destruct (mem db seen); [done|]. destruct (_ <=? _); [|done].
    cbn. by rewrite lookup_delete_ne.
Qed.

Lemma Close_accounted r : accounted r -> accounted (Close r).
Proof.
  apply (foldl_own_entries dr_pools); intros a db p.
  - intros Hp Ha. by apply close_accounted.
  - intros k Hk. cbn. by rewrite lookup_delete_ne.
Qed.

Lemma Close_empty r : dr_pools (Close r) = ∅.
Proof.
  apply map_eq. intros k. rewrite lookup_empty. unfold Close.
  rewrite (foldl_map_range (fun a k => dr_pools a !! k) _ (fun _ _ _ => None)).
  - by destruct (dr_pools r !! k).
  - intros a k0 v k'. cbn. destruct (decide (k' = k0)) as [->|]; [by rewrite lookup_delete_eq|].
    by rewrite lookup_delete_ne.
Qed.

(** Fields that no operation on the pools changes. *)
Definition same_runner (r r' : DBRunner) : Prop :=
  dr_instanceID r' = dr_instanceID r /\ dr_baseDSN r' = dr_baseDSN r /\ dr_cfg r' = dr_cfg r /\
  dr_collectors r' = dr_collectors r /\ dr_semaphore r' = dr_semaphore r.

Lemma same_runner_foldl {B} (f : DBRunner -> B -> DBRunner) l r :
  (forall a b, same_runner a (f a b)) -> same_runner r (foldl f r l).
Proof.
  intros Hf. apply foldl_inv; [|done]. unfold same_runner in *.
  intros a b _ (?&?&?&?&?). destruct (Hf a b) as (?&?&?&?&?). repeat split; congruence.
Qed.

Lemma evict_same seen r : same_runner r (evictStalePools seen r).
Proof. apply same_runner_foldl. intros a [db p]. unfold evict_one. by destr_ifs. Qed.

Lemma Close_opened r : dr_opened (Close r) = dr_opened r.
Proof. unfold Close. apply (foldl_inv (fun a => dr_opened a = dr_opened r)); [|done]. by intros a b _ <-. Qed.

Context {S : Type} {HM : MetricStore S}.

Lemma Run_accounted order cy r (s : S) : accounted r -> accounted (DBRunner_Run us order cy r s).1.
Proof.
  intros H. unfold DBRunner_Run. destruct (discoverDatabases r _) as [dbs|]; [|done].
  pose proof (launch_accounted cy _ dbs (evict_accounted dbs r H)) as Hl.
  destruct (launch us cy _ dbs) as [[r' ts] e]. cbn [fst] in Hl. by destruct (foldl _ _ _).
Qed.

Lemma cycles_accounted cycles r (s : S) : accounted r -> accounted (DBRunner_cycles us cycles r s).1.
Proof.
  intros H. unfold DBRunner_cycles. apply (foldl_inv (fun a : DBRunner * S => accounted a.1)); [|done].
  intros [a s'] [o cy] _ Ha. by apply Run_accounted.
Qed.

Lemma New_accounted id dsn cfg cols : accounted (NewDBRunner id dsn cfg cols).
Proof. split; [apply ledger_empty|]. intros db p. cbn. by rewrite lookup_empty. Qed.

(** Pools of per-database connections, over cycles that no Close interrupts. Whatever databases appear
    and disappear, whichever pools cannot be opened and in whatever order the tasks finish, each open pool leads to the
    database it is kept for, holds two connections and was never closed; and after Close no pool
    is open and each pool ever opened was closed exactly once. *)
Theorem pools_closed_once cycles id dsn cfg cols (s : S) :
  let r := (DBRunner_cycles us cycles (NewDBRunner id dsn cfg cols) s).1 in
  (forall db p, dr_pools r !! db = Some p ->
    pl_dsn p = substituteDBName us (dr_baseDSN r) db /\ pl_MaxConns p = 2 /\ p ∉ dr_closed r) /\
  dr_pools (Close r) = ∅ /\ map pl_serial (dr_closed (Close r)) ≡ₚ seqZ 0 (dr_opened r).
Proof.
  intros r. assert (Hr : accounted r) by apply cycles_accounted, New_accounted.
  split; [|split; [apply Close_empty|]].
  - intros db p Hp. destruct Hr as [Hl Hc]. destruct (Hc db p Hp) as [H1 H2].
    split; [done|split; [done|]]. by apply (ledger_open_not_closed _ _ _ db p Hl).
  - destruct (Close_accounted r Hr) as [Hl _]. rewrite Close_empty, Close_opened in Hl.
    by apply ledger_all_closed.
Qed.

End Accounting.

(** ** The life of one pool *)

Section Lifecycle.
Context {MR : MapRange} `{DR : Driver} (us : string -> string -> option string).

(** What the runner knows of a database. *)
Definition known (r : DBRunner) (db : string) : option Pool * option Z :=
  (dr_pools r !! db, dr_poolLastSeen r !! db).

(** What a discovery does to it. *)
Definition after_discovery (seen : list string) (db : string) (v : option Pool * option Z)
    : option Pool * option Z :=
  if mem db seen then (v.1, Some 0)
  else let n := default 0 v.2 + 1 in
       if dbPoolTTLCycles <=? n then (None, None) else (v.1, Some n).

Lemma evict_known seen r db :
  known (evictStalePools seen r) db
    = match dr_pools r !! db with
      | Some _ => after_discovery seen db (known r db)
      | None => known r db
      end.
Proof.
  unfold evictStalePools.
  apply (foldl_map_range known (evict_one seen) (fun k _ v => after_discovery seen k v)).
  intros a k v k'. unfold known, evict_one, after_discovery. cbn [fst snd].
  destruct (decide (k' = k)) as [->|Hne]; destruct (mem k seen); try destruct (_ <=? _); cbn;
    by rewrite ?lookup_insert_eq, ?lookup_delete_eq, ?lookup_insert_ne, ?lookup_delete_ne.
Qed.

Lemma evict_closed seen r db p : dr_pools r !! db = Some p ->
  dr_pools (evictStalePools seen r) !! db = None -> p ∈ dr_closed (evictStalePools seen r).
Proof.
  intros Hp. unfold evictStalePools.
  assert (Hinv : forall (l : list (string * Pool)) (a : DBRunner),
    (forall q, (db, q) ∈ l -> q = p) -> (dr_pools a !! db = Some p \/ p ∈ dr_closed a) ->
    let r' := foldl (evict_one seen) a l in dr_pools r' !! db = Some p \/ p ∈ dr_closed r').
  { intros l a Hl Ha. apply (foldl_inv (fun a => dr_pools a !! db = Some p \/ p ∈ dr_closed a)); [|done].
    intros a' [k q] Hin [H|H]; unfold evict_one; destruct (mem k seen); try destruct (_ <=? _);
      cbn; auto; [|rewrite elem_of_app; auto].
    destruct (decide (k = db)) as [->|Hk]; [|left; by rewrite lookup_delete_ne].
    right. rewrite (Hl q Hin), elem_of_app. right. by left. }
  destruct (Hinv (map_range (dr_pools r)) r) as [H|H]; [|by left|congruence|done].
  intros q. rewrite map_range_perm, elem_of_map_to_list. congruence.
Qed.

Lemma getOrCreate_known cy r k db :
  known (getOrCreatePool us cy r k).1 db = known r db \/ (k = db /\ dr_pools r !! db = None).
Proof.
  unfold getOrCreatePool. destruct (dr_pools r !! k) eqn:E; [by left|].
  destruct (dy_parse _ _); [by left|]. destruct (dy_open _ _); [by left|].
  destruct (decide (k = db)) as [->|Hk]; [by right|]. left. unfold known. cbn.
  by rewrite !lookup_insert_ne.
Qed.

(** A launch leaves alone the databases it does not start, and the pools there are. *)
Lemma launch_known cy r dbs db :
  (db ∉ dbs \/ dr_pools r !! db <> None) -> known (launch us cy r dbs).1.1 db = known r db.
Proof.
  intros H. unfold launch.
  apply (foldl_inv (fun a : DBRunner * list Task * Z => known a.1.1 db = known r db)); [|done].
  intros [[a ts] e] k Hk. cbn [fst]. intros Ha.
  assert (Hg : known (getOrCreatePool us cy a k).1 db = known a db).
  { destruct (getOrCreate_known cy a k db) as [Hg|[-> Hn]]; [done|].
    destruct H as [H|H]; [done|]. unfold known in Ha. congruence. }
  destruct (getOrCreatePool us cy a k) as [a' [p|]]; cbn [fst] in *; congruence.
Qed.

Lemma getOrCreate_closed cy r k : dr_closed (getOrCreatePool us cy r k).1 = dr_closed r.
Proof. 
  unfold getOrCreatePool. destruct (dr_pools r !! k); [done|]. destruct (dy_parse _ _); [done|].
  by destruct (dy_open _ _).
Qed.

Lemma launch_closed cy r dbs : dr_closed (launch us cy r dbs).1.1 = dr_closed r.
Proof.
  unfold launch. apply (foldl_inv (fun a : DBRunner * list Task * Z => dr_closed a.1.1 = dr_closed r)); [|done].
  intros [[a ts] e] k _. cbn [fst]. intros Ha. pose proof (getOrCreate_closed cy a k) as Hg.
  destruct (getOrCreatePool us cy a k) as [a' [p|]]; cbn [fst] in *; congruence.
Qed.

Lemma getOrCreate_same cy r k : same_runner r (getOrCreatePool us cy r k).1.
Proof. 
  unfold getOrCreatePool. destruct (dr_pools r !! k); [done|]. destruct (dy_parse _ _); [done|].
  by destruct (dy_open _ _).
Qed.

Lemma launch_same cy r dbs : same_runner r (launch us cy r dbs).1.1.
Proof.
  unfold launch. apply (foldl_inv (fun a : DBRunner * list Task * Z => same_runner r a.1.1)); [|done].
  intros [[a ts] e] k _. cbn [fst]. pose proof (getOrCreate_same cy a k) as Hg.
  unfold same_runner in *. destruct (getOrCreatePool us cy a k) as [a' [p|]]; cbn [fst] in *;
    intros (?&?&?&?&?); destruct Hg as (?&?&?&?&?); repeat split; congruence.
Qed.

Context {S : Type} {HM : MetricStore S}.

Lemma Run_same order cy r (s : S) : same_runner r (DBRunner_Run us order cy r s).1.
Proof.
  unfold DBRunner_Run. destruct (discoverDatabases r _) as [dbs|]; [|done].
  pose proof (launch_same cy (evictStalePools dbs r) dbs) as Hl. pose proof (evict_same dbs r) as He.
  destruct (launch us cy _ dbs) as [[r' ts] e]. cbn [fst] in Hl. destruct (foldl _ _ _). cbn [fst].
  unfold same_runner in *. destruct Hl as (?&?&?&?&?), He as (?&?&?&?&?). repeat split; congruence.
Qed.

(** One cycle, for a database that has a pool. *)
Lemma Run_known order cy r (s : S) db p : dr_pools r !! db = Some p ->
  known (DBRunner_Run us order cy r s).1 db
    = match discoverDatabases r (dy_primary cy) with
      | Err _ => known r db
      | Ok dbs => after_discovery dbs db (known r db)
      end.
Proof.
  intros Hp. unfold DBRunner_Run. destruct (discoverDatabases r _) as [dbs|]; [|done].
  pose proof (evict_known dbs r db) as He. rewrite Hp in He.
  pose proof (launch_known cy (evictStalePools dbs r) dbs db) as Hl. rewrite He in Hl.
  destruct (launch us cy _ dbs) as [[r' ts] e]. destruct (foldl _ _ _). apply Hl.
  destruct (decide (db ∈ dbs)) as [Hin|]; [right|by left].
  assert (H1 : (known (evictStalePools dbs r) db).1 = Some p).
  { rewrite He. unfold after_discovery. rewrite (proj2 (mem_spec db dbs) Hin). exact Hp. }
  cbn in H1. congruence.
Qed.

(** A pool that a cycle takes out of the map was closed. *)
Lemma Run_closed order cy r (s : S) db p : dr_pools r !! db = Some p ->
  dr_pools (DBRunner_Run us order cy r s).1 !! db = None ->
  p ∈ dr_closed (DBRunner_Run us order cy r s).1.
Proof.
  intros Hp. unfold DBRunner_Run. destruct (discoverDatabases r _) as [dbs|]; [|by cbn; congruence].
  pose proof (launch_closed cy (evictStalePools dbs r) dbs) as Hc.
  pose proof (launch_known cy (evictStalePools dbs r) dbs db) as Hl.
  destruct (launch us cy _ dbs) as [[r' ts] e]. destruct (foldl _ _ _). cbn [fst] in *.
  intros Hn. rewrite Hc. apply (evict_closed dbs r db p Hp).
  destruct (dr_pools (evictStalePools dbs r) !! db) eqn:E; [|done].
  assert (H : known r' db = known (evictStalePools dbs r) db) by (apply Hl; right; congruence).
  unfold known in H. congruence.
Qed.

Lemma Run_keeps_closed order cy r (s : S) p :
  p ∈ dr_closed r -> p ∈ dr_closed (DBRunner_Run us order cy r s).1.
Proof.
  intros Hp. unfold DBRunner_Run. destruct (discoverDatabases r _) as [dbs|]; [|done].
  pose proof (launch_closed cy (evictStalePools dbs r) dbs) as Hc.
  destruct (launch us cy _ dbs) as [[r' ts] e]. destruct (foldl _ _ _). cbn [fst] in *.
  rewrite Hc. unfold evictStalePools.
  apply (foldl_inv (fun a => p ∈ dr_closed a)); [|done].
  intros a [k q] _ H. unfold evict_one. destruct (mem k dbs); [done|].
  destruct (_ <=? _); [|done]. cbn. rewrite elem_of_app. by left.
Qed.

(** The cycle's discovery worked. *)
Definition discovers (r : DBRunner) (cy : DBCycle) : bool :=
  match discoverDatabases r (dy_primary cy) with Ok _ => true | Err _ => false end.

Definition misses (r : DBRunner) (cycles : list ((list Task -> list Task) * DBCycle)) : Z :=
  len (List.filter (fun oc => discovers r oc.2) cycles).

Definition absent (r : DBRunner) (db : string) (oc : (list Task -> list Task) * DBCycle) : Prop :=
  forall dbs, discoverDatabases r (dy_primary oc.2) = Ok dbs -> db ∉ dbs.

Lemma discover_same r r' primary : same_runner r r' ->
  discoverDatabases r' primary = discoverDatabases r primary.
Proof. intros (_ & _ & H & _). unfold discoverDatabases, applyFilters. by rewrite H. Qed.

Lemma misses_same r r' cycles : same_runner r r' -> misses r' cycles = misses r cycles.
Proof.
  intros H. unfold misses. f_equal. apply List.filter_ext. intros oc. unfold discovers.
  by rewrite (discover_same r r').
Qed.

Lemma misses_nonneg r cycles : 0 <= misses r cycles.
Proof. unfold misses, len. lia. Qed.

Lemma cycles_without_pool cycles r (s : S) db (p : Pool) : dr_pools r !! db = None -> p ∈ dr_closed r ->
  Forall (absent r db) cycles ->
  dr_pools (DBRunner_cycles us cycles r s).1 !! db = None /\
  p ∈ dr_closed (DBRunner_cycles us cycles r s).1.
Proof.
  revert r s. induction cycles as [|[o cy] cycles IH]; intros r s Hn Hp Ha; [done|].
  apply Forall_cons in Ha as [Hcy Ha]. cbn [DBRunner_cycles foldl fst snd].
  pose proof (Run_same o cy r s) as Hs. pose proof (Run_keeps_closed o cy r s p Hp) as Hc.
  assert (Hn' : dr_pools (DBRunner_Run us o cy r s).1 !! db = None).
  { unfold DBRunner_Run. destruct (discoverDatabases r _) as [dbs|] eqn:Ed; [|done].
    pose proof (evict_known dbs r db) as He. rewrite Hn in He.
    pose proof (launch_known cy (evictStalePools dbs r) dbs db (or_introl (Hcy dbs Ed))) as Hl.
    destruct (launch us cy _ dbs) as [[r' ts] e]. destruct (foldl _ _ _). cbn [fst] in *.
    unfold known in *. congruence. }
  destruct (DBRunner_Run us o cy r s) as [r' s']. cbn [fst] in *. apply (IH r' s' Hn' Hc).
  eapply list.Forall_impl; [exact Ha|]. intros oc Hoc dbs. rewrite (discover_same r r') by done. apply Hoc.
Qed.

Lemma cycles_lifecycle cycles : forall r (s : S) db p n,
  dr_pools r !! db = Some p -> dr_poolLastSeen r !! db = Some n -> 0 <= n < dbPoolTTLCycles ->
  Forall (absent r db) cycles ->
  let r' := (DBRunner_cycles us cycles r s).1 in
  if n + misses r cycles <? dbPoolTTLCycles then
    known r' db = (Some p, Some (n + misses r cycles))
  else dr_pools r' !! db = None /\ p ∈ dr_closed r'.
Proof.
  induction cycles as [|[o cy] cycles IH]; intros r s db p n Hp Hn Hb Ha.
  { cbn zeta. cbn [DBRunner_cycles foldl misses List.filter len length Z.of_nat fst].
    change (misses r []) with 0. rewrite Z.add_0_r, (proj2 (Z.ltb_lt n _)) by lia.
    unfold known. congruence. }
  apply Forall_cons in Ha as [Hcy Ha]. cbn [DBRunner_cycles foldl fst snd].
  pose proof (Run_known o cy r s db p Hp) as Hk. pose proof (Run_closed o cy r s db p Hp) as Hc.
  pose proof (Run_same o cy r s) as Hs.
  assert (Hm : misses r ((o, cy) :: cycles) = (if discovers r cy then 1 else 0) + misses r cycles).
  { unfold misses. cbn [List.filter snd]. destruct (discovers r cy); unfold len; cbn [length]; lia. }
  rewrite Hm. pose proof (misses_nonneg r cycles) as Hnn.
  destruct (DBRunner_Run us o cy r s) as [r' s']. cbn [fst] in *.
  assert (Ha' : Forall (absent r' db) cycles).
  { eapply list.Forall_impl; [exact Ha|]. intros oc Hoc dbs. rewrite (discover_same r r') by done. apply Hoc. }
  rewrite <- (misses_same r r' cycles Hs). rewrite <- (misses_same r r' cycles Hs) in Hnn.
  unfold discovers. destruct (discoverDatabases r (dy_primary cy)) as [dbs|] eqn:Ed.
  - unfold after_discovery in Hk.
    assert (Hmem : mem db dbs = false).
    { apply not_true_is_false. intros H%mem_spec. by apply (Hcy dbs Ed). }
    rewrite Hmem in Hk. unfold known in Hk. rewrite Hp, Hn in Hk. cbn [from_option id fst snd] in Hk.
    pose proof (f_equal fst Hk) as Hk1. pose proof (f_equal snd Hk) as Hk2. cbn [fst snd] in Hk1, Hk2.
    destruct (Z.leb_spec dbPoolTTLCycles (n + 1)); cbn [fst snd] in Hk1, Hk2.
    + rewrite (proj2 (Z.ltb_ge (n + _) _)) by lia.
      apply cycles_without_pool; [done|by apply Hc|done].
    + replace (n + (1 + misses r' cycles)) with (n + 1 + misses r' cycles) by lia.
      apply IH; [done|done|lia|done].
  - cbn [Z.add]. pose proof (f_equal fst Hk) as Hk1. pose proof (f_equal snd Hk) as Hk2.
    cbn in Hk1, Hk2. apply IH; congruence || done.
Qed.

End Lifecycle.

(** The life of a pool. A database that has a pool and is then missing from the lists of
    databases keeps its pool, the same one, for two successful discoveries, and at the third it
    is closed and forgotten, for good as long as the database stays away; discoveries that fail
    do not count; and a cycle that sees the database again starts the count afresh. *)
Theorem stale_pool_lifecycle {MR : MapRange} `{DR : Driver} us {S} {HM : MetricStore S}
    cycles (r : DBRunner) (s : S) db p n :
  dr_pools r !! db = Some p -> dr_poolLastSeen r !! db = Some n -> 0 <= n < 3 ->
  (Forall (absent r db) cycles ->
   let r' := (DBRunner_cycles us cycles r s).1 in
   if n + misses r cycles <? 3 then
     dr_pools r' !! db = Some p /\ dr_poolLastSeen r' !! db = Some (n + misses r cycles)
   else dr_pools r' !! db = None /\ p ∈ dr_closed r') /\
  (forall order cy dbs, discoverDatabases r (dy_primary cy) = Ok dbs -> db ∈ dbs ->
   let r' := (DBRunner_Run us order cy r s).1 in
   dr_pools r' !! db = Some p /\ dr_poolLastSeen r' !! db = Some 0).
Proof.
  intros Hp Hn Hb. split.
  - intros Ha. pose proof (cycles_lifecycle us cycles r s db p n Hp Hn Hb Ha) as H. cbn zeta in *.
    change dbPoolTTLCycles with 3 in H. destruct (_ <? 3); [|done]. unfold known in H.
    split; [exact (f_equal fst H)|exact (f_equal snd H)].
  - intros order cy dbs Hd Hin. pose proof (Run_known us order cy r s db p Hp) as H. cbn zeta.
    rewrite Hd in H. unfold after_discovery in H. rewrite (proj2 (mem_spec db dbs) Hin) in H.
    split; [|exact (f_equal snd H)].
    rewrite <- Hp. exact (f_equal fst H).
Qed.

(** ** The result of a cycle *)

Section Cycle.
Context {MR : MapRange} `{DR : Driver} (us : string -> string -> option string).

Lemma bump_comm o1 o2 n : bump o1 (bump o2 n) = bump o2 (bump o1 n).
Proof.
  destruct o1 as [e1|], o2 as [e2|]; cbn; try destruct (classifyDBError e1);
    try destruct (classifyDBError e2); done.
Qed.

Definition count_all (os : list (option error)) (n : Counters) : Counters :=
  foldl (fun n o => bump o n) n os.

#[export] Instance count_all_proper : Proper ((≡ₚ) ==> eq ==> eq) count_all.
Proof.
  intros l l' Hl n _ <-. revert n. induction Hl as [|o l l' _ IH|a b l|l1 l2 l3 _ IH1 _ IH2]; intros n; cbn.
  - done.
  - apply IH.
  - by rewrite bump_comm.
  - unfold count_all in *. by rewrite IH1, IH2.
Qed.

Definition total (n : Counters) : Z := cn_collected n + cn_timeout n + cn_perm n + cn_other n.

Lemma count_all_total os : forall n, total (count_all os n) = total n + len os.
Proof.
  unfold len. induction os as [|o os IH]; intros n; cbn [count_all foldl length]; [lia|].
  unfold count_all in IH. rewrite IH. unfold total. destruct o as [e|]; cbn;
    [destruct (classifyDBError e); cbn; lia|lia].
Qed.

Context {S : Type} {HM : MetricStore S}.

Definition writes (s : S) (batches : list (list MetricPoint)) : S :=
  foldl (fun s ps => (ms_Write s ps).1) s batches.

Definition found (id : string) (cy : DBCycle) (tasks : list Task) : list (list MetricPoint) :=
  List.filter (fun ps => match ps with [] => false | _ => true end)
    (map (fun t => (task_result id cy t).1) tasks).

Lemma tasks_run id cy tasks : forall (s : S) n,
  foldl (task_body id cy) (s, n) tasks
    = (writes s (found id cy tasks), count_all (map (fun t => (task_result id cy t).2) tasks) n).
Proof.
  induction tasks as [|t tasks IH]; intros s n; [done|]. cbn [foldl]. unfold task_body at 2.
  unfold found. cbn [map List.filter count_all foldl fst snd].
  destruct (task_result id cy t) as [points cerr]. cbn [fst snd].
  destruct points; rewrite IH; done.
Qed.

Lemma found_perm id cy l l' : l ≡ₚ l' -> found id cy l ≡ₚ found id cy l'.
Proof.
  intros Hl. unfold found. induction Hl as [|t l l' _ IH|a b l|l1 l2 l3 _ IH1 _ IH2]; cbn [map List.filter].
  - done.
  - destruct (task_result id cy t).1; [done|by constructor].
  - destruct (task_result id cy a).1, (task_result id cy b).1; try done. apply perm_swap.
  - by rewrite IH1.
Qed.

(** A database gives as many tasks as there are collectors, or one error. *)
Lemma launch_count cy r dbs cols : dr_collectors r = cols ->
  let '(_, tasks, e) := launch us cy r dbs in
  exists opened, len tasks = len cols * opened /\ opened + e = len dbs.
Proof.
  intros Hc. unfold launch.
  assert (H : forall acc : DBRunner * list Task * Z, dr_collectors acc.1.1 = cols ->
    let '(_, tasks, e) := foldl (fun acc db => let '(r, tasks, errOther) := acc in
      match getOrCreatePool us cy r db with
      | (r', Err _) => (r', tasks, errOther + 1)
      | (r', Ok pool) => (r', tasks ++ map (fun c => mkTask db c pool) (dr_collectors r), errOther)
      end) acc dbs in
    exists opened, len tasks = len acc.1.2 + len cols * opened /\ opened + e = len dbs + acc.2).
  { induction dbs as [|db dbs IH]; intros [[a ts] e] Ha; cbn [foldl fst snd] in *.
    { exists 0. unfold len. cbn. lia. }
    pose proof (getOrCreate_same us cy a db) as (_ & _ & _ & Hs & _).
    destruct (getOrCreatePool us cy a db) as [a' [p|er]]; cbn [fst] in Hs.
    - specialize (IH (a', ts ++ map (fun c => mkTask db c p) (dr_collectors a), e)). cbn [fst snd] in IH.
      destruct (foldl _ _ _) as [[r' tasks] e']. destruct IH as (o & H1 & H2); [congruence|].
      exists (o + 1). rewrite H1. unfold len in *. rewrite length_app, length_map, Ha. cbn [length]. lia.
    - specialize (IH (a', ts, e + 1)). cbn [fst snd] in IH.
      destruct (foldl _ _ _) as [[r' tasks] e']. destruct IH as (o & H1 & H2); [congruence|].
      exists o. rewrite H1. unfold len in *. cbn [length]. lia. }
  specialize (H (r, [], 0) Hc). cbn [fst snd] in H. destruct (foldl _ _ _) as [[r' tasks] e].
  destruct H as (o & H1 & H2). exists o. rewrite H1, H2. unfold len. cbn. lia.
Qed.

End Cycle.

(** ** The machine of a run *)

(** The fields of a run, without unfolding anything else. *)
Ltac fields := cbn [fst snd du_cycle du_discovered du_evicted du_dbs du_queue du_slots du_running
  du_leaving du_worked du_counters du_finished].

Section Machine.
Context {MR : MapRange} `{DR : Driver} (us : string -> string -> option string).
Context {S : Type} {HM : MetricStore S}.

Definition names (t : Task) : string * DBCollector := (tk_db t, tk_col t).

(** Tasks that have been made: waiting, collecting, and done collecting. *)
Definition made (u : DBRun) : list Task := du_queue u ++ du_running u ++ du_worked u.

Definition results (cy : DBCycle) (id : string) (ts : list Task) : list (option error) :=
  map (fun t => (task_result id cy t).2) ts.

(** What holds during a run of the runner [r0] on the databases [dbs], that started with the store [s0],
    whatever closes the runner meanwhile. *)
Record running (r0 : DBRunner) (cy : DBCycle) (dbs : list string) (s0 : S) (st : DBRunner * DBRun * S) : Prop := {
  ru_same : same_runner r0 st.1.1;
  ru_cycle : du_cycle st.1.2 = cy;
  ru_discovered : du_discovered st.1.2 = dbs;
  ru_slots : du_slots st.1.2 = len (du_running st.1.2) + len (du_leaving st.1.2);
  ru_cap : du_slots st.1.2 <= Z.max 0 (dr_semaphore r0);
  ru_tasks : exists visited opened failed, dbs = visited ++ du_dbs st.1.2 /\
    (du_evicted st.1.2 = false -> visited = []) /\ visited ≡ₚ opened ++ failed /\
    map names (made st.1.2) ≡ₚ list_prod opened (dr_collectors r0) /\
    du_counters st.1.2 = count_all (results cy (dr_instanceID r0) (du_worked st.1.2))
                           (mkCounters 0 0 0 (len failed));
  ru_done : du_finished st.1.2 = true -> du_evicted st.1.2 = true /\ du_dbs st.1.2 = [] /\
    du_queue st.1.2 = [] /\ du_running st.1.2 = [] /\ du_leaving st.1.2 = [];
  ru_store : st.2 = writes s0 (found (dr_instanceID r0) cy (du_worked st.1.2) ++
    if du_finished st.1.2
    then [telemetry (dy_now cy) (dr_instanceID r0) (len dbs) (du_counters st.1.2)] else [])
}.

Lemma writes_app (s : S) l l' : writes s (l ++ l') = writes (writes s l) l'.
Proof. unfold writes. by rewrite foldl_app. Qed.

Lemma found_snoc id cy ts t :
  found id cy (ts ++ [t]) = found id cy ts ++ match (task_result id cy t).1 with [] => [] | p :: ps => [p :: ps] end.
Proof.
  unfold found. rewrite map_app, List.filter_app. f_equal. cbn. by destruct (task_result id cy t).1.
Qed.

Lemma pool_failed_bump o n : pool_failed (bump o n) = bump o (pool_failed n).
Proof. destruct o as [e|]; cbn; [by destruct (classifyDBError e)|done]. Qed.

Lemma pool_failed_count os : forall n, pool_failed (count_all os n) = count_all os (pool_failed n).
Proof.
  induction os as [|o os IH]; intros n; [done|]. unfold count_all in *. cbn [foldl].
  by rewrite IH, pool_failed_bump.
Qed.

Lemma task_body_eq id cy (s : S) n t :
  task_body id cy (s, n) t
  = (writes s match (task_result id cy t).1 with [] => [] | p :: ps => [p :: ps] end, bump (task_result id cy t).2 n).
Proof. unfold task_body. destruct (task_result id cy t) as [[|p ps] cerr]; done. Qed.

Lemma begin_running cy r (s : S) u : begin_run cy r = Some u ->
  exists dbs, discoverDatabases r (dy_primary cy) = Ok dbs /\ running r cy dbs s (r, u, s).
Proof.
  unfold begin_run. destruct (discoverDatabases r _) as [dbs|] eqn:E; [|done]. intros [= <-].
  exists dbs. split; [done|]. split; cbn; try done; [lia|]. by exists [], [], [].
Qed.

Lemma names_new db pool cols : map names (map (fun c => mkTask db c pool) cols) = map (pair db) cols.
Proof. rewrite map_map. done. Qed.

Lemma same_runner_trans r1 r2 r3 : same_runner r1 r2 -> same_runner r2 r3 -> same_runner r1 r3.
Proof. intros (?&?&?&?&?) (?&?&?&?&?). repeat split; congruence. Qed.

Lemma delete_split {A} (l : list A) k x : l !! k = Some x ->
  l ≡ₚ x :: delete k l /\ len l = len (delete k l) + 1.
Proof.
  intros H. pose proof (delete_Permutation l k x H) as Hp. split; [done|].
  apply Permutation_length in Hp. unfold len. cbn in Hp. lia.
Qed.

Lemma evict_running r0 cy dbs s0 r u r' u' (s : S) :
  act_evict r u = Some (r', u') -> du_finished u = false ->
  running r0 cy dbs s0 (r, u, s) -> running r0 cy dbs s0 (r', u', s).
Proof.
  unfold act_evict. destruct (du_evicted u) eqn:Ee; [done|]. intros [= <- <-] Hf [H1 H2 H3 H4 H5 H6 H7 H8].
  cbn [fst snd] in *. destruct H6 as (vi & op & fa & E1 & E2 & E3 & E4 & E5).
  split; fields; rewrite ?Hf in *; try done.
  - apply (same_runner_trans _ r); [done|apply evict_same].
  - by exists vi, op, fa.
Qed.

Lemma next_running r0 cy dbs s0 r u r' u' (s : S) :
  act_next us r u = Some (r', u') -> du_finished u = false ->
  running r0 cy dbs s0 (r, u, s) -> running r0 cy dbs s0 (r', u', s).
Proof.
  unfold act_next. destruct (du_evicted u) eqn:Ee; [|done]. destruct (du_queue u) eqn:Eq; [|done].
  destruct (du_dbs u) as [|db rest] eqn:Ed; [done|]. intros H Hf [H1 H2 H3 H4 H5 H6 H7 H8].
  cbn [fst snd] in *. pose proof (getOrCreate_same us (du_cycle u) r db) as Hs.
  destruct H6 as (vi & op & fa & E1 & E2 & E3 & E4 & E5). unfold made in E4. rewrite Eq in E4. rewrite Ed in E1.
  assert (Hcols : dr_collectors r = dr_collectors r0) by apply H1.
  destruct (getOrCreatePool us (du_cycle u) r db) as [r1 [p|e]]; injection H as <- <-; cbn [fst] in Hs;
    (split; fields; rewrite ?Hf in *; try done; [by apply (same_runner_trans _ r)|]).
  - exists (vi ++ [db]), (db :: op), fa. split_and!; [by rewrite <- app_assoc|done| | |done].
    + rewrite E3, <- Permutation_cons_append. done.
    + unfold made. cbn [du_queue du_running du_worked list_prod]. rewrite map_app, names_new, Hcols.
      by rewrite E4.
  - exists (vi ++ [db]), op, (fa ++ [db]). split_and!; [by rewrite <- app_assoc|done| |done|].
    + by rewrite E3, app_assoc.
    + assert (Hpf : pool_failed (mkCounters 0 0 0 (len fa)) = mkCounters 0 0 0 (len (fa ++ [db]))).
      { unfold pool_failed, len. rewrite length_app. cbn. f_equal. lia. }
      by rewrite E5, pool_failed_count, Hpf.
Qed.

Lemma start_running r0 cy dbs s0 r u u' (s : S) :
  act_start r u = Some u' -> du_finished u = false ->
  running r0 cy dbs s0 (r, u, s) -> running r0 cy dbs s0 (r, u', s).
Proof.
  unfold act_start. destruct (du_queue u) as [|t q] eqn:Eq; [done|].
  destruct (Z.ltb_spec (du_slots u) (dr_semaphore r)) as [Hlt|]; [|done]. intros [= <-] Hf [H1 H2 H3 H4 H5 H6 H7 H8].
  cbn [fst snd] in *. destruct H6 as (vi & op & fa & E1 & E2 & E3 & E4 & E5). unfold made in E4. rewrite Eq in E4.
  assert (Hc : dr_semaphore r = dr_semaphore r0) by apply H1.
  split; fields; rewrite ?Hf in *; try done.
  - rewrite H4. unfold len. rewrite length_app. cbn. lia.
  - lia.
  - exists vi, op, fa. split_and!; try done. rewrite <- E4. apply Permutation_map. unfold made. cbn. solve_Permutation.
Qed.

Lemma work_running r0 cy dbs s0 r u u' (s s' : S) k :
  act_work r u s k = Some (u', s') -> du_finished u = false ->
  running r0 cy dbs s0 (r, u, s) -> running r0 cy dbs s0 (r, u', s').
Proof.
  unfold act_work. destruct (du_running u !! k) as [t|] eqn:Et; [|done]. rewrite task_body_eq.
  intros [= <- <-] Hf [H1 H2 H3 H4 H5 H6 H7 H8]. cbn [fst snd] in *.
  destruct H6 as (vi & op & fa & E1 & E2 & E3 & E4 & E5).
  destruct (delete_split _ _ _ Et) as [Hp Hl].
  assert (Hid : dr_instanceID r = dr_instanceID r0) by apply H1.
  split; fields; rewrite ?Hf in *; try done.
  - rewrite H4, Hl. unfold len. rewrite length_app. cbn. lia.
  - exists vi, op, fa. split_and!; try done.
    + rewrite <- E4. apply Permutation_map. unfold made. cbn. rewrite Hp at 2. solve_Permutation.
    + rewrite E5, H2, Hid. unfold results. rewrite map_app. unfold count_all. by rewrite foldl_app.
  - by rewrite found_snoc, app_nil_r, writes_app, H2, Hid, H8, app_nil_r.
Qed.

Lemma leave_running r0 cy dbs s0 r u u' (s : S) k :
  act_leave u k = Some u' -> du_finished u = false ->
  running r0 cy dbs s0 (r, u, s) -> running r0 cy dbs s0 (r, u', s).
Proof.
  unfold act_leave. destruct (du_leaving u !! k) as [t|] eqn:Et; [|done].
  intros [= <-] Hf [H1 H2 H3 H4 H5 H6 H7 H8]. cbn [fst snd] in *. destruct (delete_split _ _ _ Et) as [_ Hl].
  split; fields; rewrite ?Hf in *; try done; lia.
Qed.

Lemma report_running r0 cy dbs s0 r u u' (s s' : S) :
  act_report r u s = Some (u', s') -> du_finished u = false ->
  running r0 cy dbs s0 (r, u, s) -> running r0 cy dbs s0 (r, u', s').
Proof.
  unfold act_report. destruct (du_evicted u) eqn:Ee; [|done]. destruct (du_dbs u) eqn:Ed; [|done].
  destruct (du_queue u) eqn:Eq; [|done]. destruct (du_running u) eqn:Er; [|done].
  destruct (du_leaving u) eqn:El; [|done]. intros [= <- <-] Hf [H1 H2 H3 H4 H5 H6 H7 H8]. cbn [fst snd] in *.
  assert (Hid : dr_instanceID r = dr_instanceID r0) by apply H1.
  split; fields; rewrite ?Hf, ?Ed, ?Er, ?El in *; try done.
  - destruct H6 as (vi & op & fa & E1 & E2 & E3 & E4 & E5). unfold made in E4. rewrite Eq, Er in E4.
    exists vi, op, fa. by split_and!.
  - by rewrite writes_app, H2, H3, Hid, H8, app_nil_r.
Qed.

Lemma Close_same r : same_runner r (Close r).
Proof. by apply same_runner_foldl. Qed.

(** Every move keeps it. *)
Lemma move_running r0 cy dbs s0 m st st' : run_move us m st = Some st' ->
  running r0 cy dbs s0 st -> running r0 cy dbs s0 st'.
Proof.
  destruct m as [a|], st as [[r u] s]; cbn [run_move].
  - unfold run_act. destruct (du_finished u) eqn:Ef; [done|].
    destruct a as [| | |k|k|]; rewrite fmap_Some; intros (x & Hx & ->) Hr; cbn.
    + destruct x as [r' u']. by eapply evict_running.
    + destruct x as [r' u']. by eapply next_running.
    + by eapply start_running.
    + destruct x as [u' s']. by eapply work_running.
    + by eapply leave_running.
    + destruct x as [u' s']. by eapply report_running.
  - intros [= <-] [H1 H2 H3 H4 H5 H6 H7 H8]. split; try done.
    apply (same_runner_trans _ r); [done|apply Close_same].
Qed.

Lemma moves_running r0 cy dbs s0 ms : forall st st', run_moves us ms st = Some st' ->
  running r0 cy dbs s0 st -> running r0 cy dbs s0 st'.
Proof.
  induction ms as [|m ms IH]; intros st st'; cbn [run_moves]; [by intros [= <-]|].
  destruct (run_move us m st) as [st1|] eqn:E; [|done]. intros H Hr. apply (IH st1); [done|].
  by eapply move_running.
Qed.

(** *** Some act is always possible, and each counts *)

Lemma act_possible r0 cy dbs s0 r u (s : S) : 0 < dr_semaphore r0 ->
  running r0 cy dbs s0 (r, u, s) -> du_finished u = false -> exists a st', run_act us a (r, u, s) = Some st'.
Proof.
  intros Hc Hr Hf. destruct Hr as [H1 _ _ H4 _ _ _ _]. cbn [fst snd] in *.
  assert (Hcap : dr_semaphore r = dr_semaphore r0) by apply H1.
  assert (Hgo : forall a, run_act us a (r, u, s) <> None -> exists a st', run_act us a (r, u, s) = Some st').
  { intros a Ha. exists a. destruct (run_act us a (r, u, s)) as [st'|]; [by exists st'|done]. }
  destruct (du_running u) as [|t ts] eqn:Er.
  2: { apply (Hgo (AWork 0)). unfold run_act. rewrite Hf. unfold act_work. rewrite Er. cbn.
       by destruct (task_body _ _ _ _). }
  destruct (du_leaving u) as [|t ts] eqn:El.
  2: { apply (Hgo (ALeave 0)). unfold run_act. rewrite Hf. unfold act_leave. by rewrite El. }
  destruct (du_evicted u) eqn:Ee.
  2: { apply (Hgo AEvict). unfold run_act. rewrite Hf. unfold act_evict. by rewrite Ee. }
  destruct (du_queue u) as [|t ts] eqn:Eq.
  2: { apply (Hgo AStart). unfold run_act. rewrite Hf. unfold act_start. rewrite Eq.
       rewrite (proj2 (Z.ltb_lt _ _)); [done|]. rewrite H4, Hcap. done. }
  destruct (du_dbs u) as [|db rest] eqn:Ed.
  - apply (Hgo AReport). unfold run_act. rewrite Hf. unfold act_report. by rewrite Ee, Ed, Eq, Er, El.
  - apply (Hgo ANext). unfold run_act. rewrite Hf. unfold act_next. rewrite Ee, Eq, Ed.
    by destruct (getOrCreatePool us (du_cycle u) r db) as [r' [p|e]].
Qed.

Definition acts (ms : list move) : nat := length (List.filter (fun m => match m with MAct _ => true | MClose => false end) ms).

(** The acts it takes to come to a state of a run: each database one, each task up to three. *)
Definition weight (u : DBRun) : Z :=
  (if du_evicted u then 1 else 0) + (len (du_discovered u) - len (du_dbs u)) + len (du_running u)
    + 3 * len (du_worked u) - len (du_leaving u) + (if du_finished u then 1 else 0).

Lemma act_weight a r u (s : S) r' u' s' : run_act us a (r, u, s) = Some (r', u', s') ->
  weight u' = weight u + 1.
Proof.
  unfold run_act. destruct (du_finished u) eqn:Ef; [done|].
  destruct a as [| | |k|k|]; rewrite fmap_Some; intros (x & Hx & E); unfold weight; rewrite ?Ef.
  - unfold act_evict in Hx. destruct (du_evicted u); [done|]. simplify_eq/=. rewrite ?Ef. lia.
  - unfold act_next in Hx. destruct (du_evicted u); [|done]. destruct (du_queue u); [|done].
    destruct (du_dbs u) as [|db rest]; [done|]. unfold len.
    destruct (getOrCreatePool us (du_cycle u) r db) as [r1 [p|e]]; simplify_eq/=; rewrite ?Ef; lia.
  - unfold act_start in Hx. destruct (du_queue u); [done|]. destruct (_ <? _); [|done]. simplify_eq/=.
    unfold len. rewrite ?length_app, ?Ef. cbn. lia.
  - unfold act_work in Hx. destruct (du_running u !! k) as [t|] eqn:Et; [|done].
    destruct (delete_split _ _ _ Et) as [_ Hl]. destruct (task_body _ _ _ _) as [s1 n]. simplify_eq/=.
    rewrite Hl, ?Ef. unfold len. rewrite !length_app. cbn. lia.
  - unfold act_leave in Hx. destruct (du_leaving u !! k) as [t|] eqn:Et; [|done].
    destruct (delete_split _ _ _ Et) as [_ Hl]. simplify_eq/=. rewrite Hl, ?Ef. lia.
  - unfold act_report in Hx. destruct (du_evicted u); [|done]. destruct (du_dbs u); [|done].
    destruct (du_queue u); [|done]. destruct (du_running u); [|done]. destruct (du_leaving u); [|done].
    simplify_eq/=. lia.
Qed.

Lemma moves_weight ms : forall r u (s : S) r' u' s', run_moves us ms (r, u, s) = Some (r', u', s') ->
  weight u' = weight u + Z.of_nat (acts ms).
Proof.
  induction ms as [|m ms IH]; intros r u s r' u' s'; cbn [run_moves].
  - intros [= <- <- <-]. cbn. lia.
  - destruct (run_move us m (r, u, s)) as [[[r1 u1] s1]|] eqn:E; [|done]. intros H%IH. rewrite H.
    destruct m as [a|]; cbn [run_move] in E.
    + apply act_weight in E. rewrite E. unfold acts. cbn [List.filter length]. lia.
    + by injection E as _ <- _.
Qed.

(** *** A run that nothing interrupts *)

(** The runner and the tasks are those of [launch] on the databases visited. *)
Definition follows (r0 : DBRunner) (cy : DBCycle) (dbs : list string) (st : DBRunner * DBRun * S) : Prop :=
  exists visited ts e, dbs = visited ++ du_dbs st.1.2 /\
    launch us cy (if du_evicted st.1.2 then evictStalePools dbs r0 else r0) visited = (st.1.1, ts, e) /\
    (du_evicted st.1.2 = false -> visited = []) /\
    made st.1.2 ≡ₚ ts /\
    du_counters st.1.2 = count_all (results cy (dr_instanceID r0) (du_worked st.1.2)) (mkCounters 0 0 0 e).

Lemma launch_snoc cy r vi db :
  launch us cy r (vi ++ [db])
  = let '(r', ts, e) := launch us cy r vi in
    match getOrCreatePool us cy r' db with
    | (r'', Err _) => (r'', ts, e + 1)
    | (r'', Ok pool) => (r'', ts ++ map (fun c => mkTask db c pool) (dr_collectors r'), e)
    end.
Proof. unfold launch. rewrite foldl_app. cbn. by destruct (foldl _ _ _) as [[r' ts] e]. Qed.

Lemma act_follows r0 cy dbs s0 a st st' : run_act us a st = Some st' ->
  running r0 cy dbs s0 st -> follows r0 cy dbs st -> follows r0 cy dbs st'.
Proof.
  destruct st as [[r u] s]. unfold run_act. destruct (du_finished u) eqn:Ef; [done|]. intros Ha Hr Hf.
  destruct Hr as [H1 H2 H3 _ _ _ _ _], Hf as (vi & ts & e & E1 & E2 & E3 & E4 & E5). cbn [fst snd] in *.
  assert (Hid : dr_instanceID r = dr_instanceID r0) by apply H1. unfold made in E4.
  destruct a as [| | |k|k|]; apply fmap_Some in Ha as (x & Hx & ->); unfold follows; fields.
  - unfold act_evict in Hx. destruct (du_evicted u) eqn:Ee; [done|]. injection Hx as <-. fields.
    rewrite (E3 eq_refl) in E1, E2. cbn in E2. injection E2 as -> <- <-.
    exists [], [], 0. rewrite H3. by split_and!.
  - unfold act_next in Hx. destruct (du_evicted u) eqn:Ee; [|done]. destruct (du_queue u) eqn:Eq; [|done].
    destruct (du_dbs u) as [|db rest] eqn:Ed; [done|]. rewrite H2 in Hx.
    pose proof (launch_snoc cy (evictStalePools dbs r0) vi db) as Hl. rewrite E2 in Hl.
    destruct (getOrCreatePool us cy r db) as [r1 [p|er]]; injection Hx as <-; fields.
    + eexists (vi ++ [db]), _, _. split_and!; [by rewrite <- app_assoc|exact Hl|done| |done].
      unfold made. fields. rewrite <- E4. cbn. solve_Permutation.
    + eexists (vi ++ [db]), _, _. split_and!; [by rewrite <- app_assoc|exact Hl|done|done|].
      by rewrite E5, pool_failed_count.
  - unfold act_start in Hx. destruct (du_queue u) as [|t q] eqn:Eq; [done|].
    destruct (_ <? _); [|done]. injection Hx as <-. fields.
    exists vi, ts, e. split_and!; try done. rewrite <- E4. unfold made. fields. solve_Permutation.
  - unfold act_work in Hx. destruct (du_running u !! k) as [t|] eqn:Et; [|done].
    rewrite task_body_eq in Hx. injection Hx as <-. fields. destruct (delete_split _ _ _ Et) as [Hp _].
    exists vi, ts, e. split_and!; try done.
    + rewrite Hp in E4. rewrite <- E4. unfold made. fields. solve_Permutation.
    + rewrite E5, H2, Hid. unfold results. rewrite map_app. unfold count_all. by rewrite foldl_app.
  - unfold act_leave in Hx. destruct (du_leaving u !! k) as [t|] eqn:Et; [|done]. injection Hx as <-. fields.
    by exists vi, ts, e.
  - unfold act_report in Hx. destruct (du_evicted u) eqn:Ee; [|done]. destruct (du_dbs u) eqn:Ed; [|done].
    destruct (du_queue u) eqn:Eq; [|done]. destruct (du_running u) eqn:Er; [|done].
    destruct (du_leaving u) eqn:El; [|done]. injection Hx as <-. fields. by exists vi, ts, e.
Qed.

Lemma acts_follow r0 cy dbs s0 l : forall st st', run_moves us (map MAct l) st = Some st' ->
  running r0 cy dbs s0 st -> follows r0 cy dbs st -> running r0 cy dbs s0 st' /\ follows r0 cy dbs st'.
Proof.
  induction l as [|a l IH]; intros st st'; cbn [map run_moves]; [by intros [= <-]|].
  destruct (run_move us (MAct a) st) as [st1|] eqn:E; [|done]. intros H Hr Hf.
  apply (IH st1); [done|by eapply move_running|by eapply act_follows].
Qed.

End Machine.

(** C14: The slots and the tasks of a run. Take a runner with whatever number of slots its configuration
    gives it, a run of it that has discovered some databases, and any order of its acts, with the runner
    closed any number of times in between. There is a slot at least; the channel holds one element for
    each goroutine that collects or has collected and not yet received, and never more than there are
    slots. Each database visited got its tasks, one for each collector, or a failed pool; each of these
    tasks waits, collects or has collected, exactly one of the three and once; and the counters are
    those of the tasks that have collected and the pools that failed. The run takes two acts, one for
    each database and three for each task, no more; until it has reported some act is possible, and when
    it has, every database was visited, every task has collected and every slot is free. *)
Theorem tasks_bounded_and_finish {MR : MapRange} `{DR : Driver} us {S} {HM : MetricStore S}
    id dsn cfg cols cy (r : DBRunner) (s : S) u ms r' u' s' :
  same_runner (NewDBRunner id dsn cfg cols) r -> begin_run cy r = Some u ->
  run_moves us ms (r, u, s) = Some (r', u', s') ->
  let dbs := du_discovered u in
  0 < dr_semaphore r /\
  du_slots u' = len (du_running u') + len (du_leaving u') /\ du_slots u' <= dr_semaphore r /\
  exists visited opened failed,
    dbs = visited ++ du_dbs u' /\ visited ≡ₚ opened ++ failed /\
    map names (du_queue u' ++ du_running u' ++ du_worked u') ≡ₚ list_prod opened cols /\
    du_counters u' = count_all (results cy id (du_worked u')) (mkCounters 0 0 0 (len failed)) /\
    Z.of_nat (acts ms) <= 2 + len dbs + 3 * (len dbs * len cols) /\
    if du_finished u' then
      visited = dbs /\ map names (du_worked u') ≡ₚ list_prod opened cols /\ du_slots u' = 0 /\
      Z.of_nat (acts ms) = 2 + len dbs + 3 * (len opened * len cols)
    else exists a st', run_act us a (r', u', s') = Some st'.
Proof.
  intros Hs Hb Hm dbs. destruct Hs as (Hid & _ & _ & Hcols & Hsem). cbn in Hid, Hcols, Hsem.
  assert (Hcap : 0 < dr_semaphore r).
  { rewrite Hsem. destruct (Z.leb_spec (inc_MaxConcurrentDBs cfg) 0); [done|lia]. }
  destruct (begin_running cy r s u Hb) as (dbs' & Hd & Hr0).
  pose proof (moves_running us _ _ _ _ ms _ _ Hm Hr0) as Hr.
  pose proof (moves_weight us ms _ _ _ _ _ _ Hm) as Hw.
  assert (Hu : u = mkDBRun cy dbs' false dbs' [] 0 [] [] [] (mkCounters 0 0 0 0) false).
  { unfold begin_run in Hb. rewrite Hd in Hb. by injection Hb as <-. }
  assert (Hdbs : dbs = dbs') by (subst dbs; by rewrite Hu). rewrite <- Hdbs in *. clear Hdbs dbs'.
  assert (Hw0 : weight u = 0) by (rewrite Hu; unfold weight, len; fields; cbn [length]; lia). rewrite Hw0 in Hw.
  pose proof Hr as Hrun. destruct Hr as [R1 R2 R3 R4 R5 R6 R7 R8]. cbn [fst snd] in *.
  split; [done|split; [done|split; [lia|]]].
  destruct R6 as (vi & op & fa & E1 & E2 & E3 & E4 & E5). exists vi, op, fa. rewrite Hcols in E4. rewrite Hid in E5.
  pose proof (Permutation_length E4) as Hl. pose proof (Permutation_length E3) as Hl3.
  pose proof (f_equal length E1) as Hl1.
  rewrite length_map in Hl. unfold made in Hl. rewrite !length_app in Hl. rewrite length_app in Hl3, Hl1.
  rewrite length_prod in Hl.
  assert (Hbound : Z.of_nat (acts ms) <= 2 + len dbs + 3 * (len dbs * len cols)).
  { assert (Hle : (length op * length cols <= length dbs * length cols)%nat) by (apply Nat.mul_le_mono_r; lia).
    apply Nat2Z.inj_le in Hle. apply (f_equal Z.of_nat) in Hl. rewrite !Nat2Z.inj_mul, ?Nat2Z.inj_add in *.
    unfold weight, len in *. rewrite R3 in Hw. destruct (du_evicted u'), (du_finished u'); lia. }
  split; [done|split; [done|split; [done|split; [done|split; [done|]]]]].
  destruct (du_finished u') eqn:Ef.
  - destruct (R7 eq_refl) as (F1 & F2 & F3 & F4 & F5). unfold made in E4. rewrite F2, F3, F4, F5, ?app_nil_r in *.
    cbn [app] in E4. split; [done|split; [done|split; [by rewrite R4|]]].
    unfold weight, len in *. rewrite F1, F2, F4, F5, Ef, R3 in Hw. cbn in *. nia.
  - by eapply act_possible.
Qed.

(** C15: One cycle of per-database collection. Whatever the schedule of its tasks, the cycle
    writes the points of each task that found some, in some order, and then five points about
    itself, whose counters do not depend on the schedule: one count for each task, collected
    when it had no error and under the class of its error otherwise, besides the databases whose
    pool could not be opened. With the one collector there is, every database discovered is
    counted exactly once. The run as one function, with its tasks in the order in which they
    collected, gives the same. *)
Theorem db_cycle_any_schedule {MR : MapRange} `{DR : Driver} us {S} {HM : MetricStore S}
    cy (r : DBRunner) (s : S) dbs r' tasks e u schedule r1 u1 s1 :
  discoverDatabases r (dy_primary cy) = Ok dbs ->
  launch us cy (evictStalePools dbs r) dbs = (r', tasks, e) ->
  begin_run cy r = Some u ->
  run_moves us (map MAct schedule) (r, u, s) = Some (r1, u1, s1) -> du_finished u1 = true ->
  dr_collectors r = [DatabaseCollector] ->
  let id := dr_instanceID r in
  let n := count_all (map (fun t => (task_result id cy t).2) tasks) (mkCounters 0 0 0 e) in
  cn_collected n + cn_timeout n + cn_perm n + cn_other n = len dbs /\
  r1 = r' /\
  (exists batches, batches ≡ₚ found id cy tasks /\
    s1 = writes s (batches ++ [telemetry (dy_now cy) id (len dbs) n])) /\
  DBRunner_Run us (fun _ => du_worked u1) cy r s = (r1, s1).
Proof.
  intros Hd Hl Hb Hm Hfin Hc id n.
  destruct (begin_running cy r s u Hb) as (dbs' & Hd' & Hr0). rewrite Hd in Hd'. injection Hd' as <-.
  assert (Hf0 : follows us r cy dbs (r, u, s)).
  { unfold begin_run in Hb. rewrite Hd in Hb. injection Hb as <-. by exists [], [], 0. }
  destruct (acts_follow us _ _ _ _ _ _ _ Hm Hr0 Hf0) as [Hr Hf].
  pose proof (ru_done _ _ _ _ _ Hr Hfin) as (F1 & F2 & F3 & F4 & F5).
  pose proof (ru_store _ _ _ _ _ Hr) as Hs. destruct Hf as (vi & ts & e' & E1 & E2 & _ & E4 & E5).
  cbn [fst snd] in *. unfold made in E4. rewrite F3, F4 in E4. cbn [app] in E4.
  rewrite F2, app_nil_r in E1. subst vi. rewrite F1, Hl in E2. injection E2 as <- <- <-. rewrite Hfin in Hs.
  assert (Hn : du_counters u1 = n).
  { rewrite E5. subst n. unfold results. by rewrite E4. }
  split; [|split; [done|split]].
  - change (total n = len dbs). unfold n. rewrite count_all_total.
    pose proof (evict_same dbs r) as (_ & _ & _ & Hec & _).
    pose proof (launch_count us cy (evictStalePools dbs r) dbs _ Hec) as H. rewrite Hl in H.
    destruct H as (o & H1 & H2). rewrite Hc in H1. unfold total, len in *.
    rewrite length_map. cbn in *. lia.
  - exists (found id cy (du_worked u1)). split; [by apply found_perm|]. by rewrite Hs, Hn.
  - unfold DBRunner_Run. rewrite Hd, Hl, tasks_run. f_equal. rewrite Hs, writes_app. fold id.
    cbn [writes foldl]. do 3 f_equal. by rewrite E5.
Qed.

(** One slot: the second database waits for the first. *)
Definition one_slot_config : InstanceConfig :=
  mkInstanceConfig "i" "" "" "" None 0 (mkIntervalConfig 0 0 0) "" "" "" "" [] "" [] [] 1 "".

(** ** A small world for the witnesses *)

(** A store that remembers its batches. *)
Definition BatchStore : MetricStore (list (list MetricPoint)) := {|
  ms_Write := fun s ps => (s ++ [ps], None);
  ms_Query := fun _ _ => Ok []
|}.

(** A server with the given databases, whose other queries time out. *)
Definition small_server (dbs : list string) : @Conn cell_driver := fun sql _ =>
  if String.eqb sql discoverSQL then Ok (map (fun d => [CText d]) dbs, None)
  else if has_prefix sql "SET " then Ok ([], None)
  else Err "canceling statement due to statement timeout".

Definition small_cycle (dbs : list string) : @DBCycle cell_driver :=
  @mkDBCycle cell_driver 0 (small_server dbs) (fun _ => None) (fun _ => None) (fun _ => small_server dbs).

Definition no_url : string -> string -> option string := fun _ _ => None.

Definition small_runner : DBRunner :=
  mkDBRunner "i" "host=db1" one_slot_config [DatabaseCollector] {["app" := mkPool 0 "host=db1 dbname=app" 2]}
    {["app" := 0]} 1 1 [].

(** Three discoveries without the database: its pool is closed. *)
Lemma stale_pool_lifecycle_witness :
  let r' := (@DBRunner_cycles canonical_MapRange cell_driver no_url _ BatchStore
               (replicate 3 (fun ts => ts, small_cycle ["other"])) small_runner []).1 in
  dr_pools r' !! "app" = None /\ mkPool 0 "host=db1 dbname=app" 2 ∈ dr_closed r'.
Proof.
  refine (proj1 (@stale_pool_lifecycle canonical_MapRange cell_driver no_url _ BatchStore
    (replicate 3 (fun ts => ts, small_cycle ["other"])) small_runner [] "app"
    (mkPool 0 "host=db1 dbname=app" 2) 0 eq_refl eq_refl _) _); [lia|].
  repeat constructor; intros dbs [= <-]; by apply (bool_decide_unpack _).
Defined.

(** Two databases and one slot: the second task waits for the first to leave. *)
Definition small_schedule : list act :=
  [AEvict; ANext; AStart; AWork 0; ALeave 0; ANext; AStart; AWork 0; ALeave 0; AReport].

Definition fresh_runner : DBRunner := NewDBRunner "i" "host=db1" one_slot_config [DatabaseCollector].

Definition small_run : option DBRun := @begin_run cell_driver (small_cycle ["app"; "b"]) fresh_runner.

(** Closed after the first task has left: the run goes on, and its two pools are one that was closed and
    one that is open. *)
Definition small_moves : list move :=
  map MAct (take 5 small_schedule) ++ [MClose] ++ map MAct (drop 5 small_schedule).

Lemma tasks_bounded_and_finish_witness :
  exists u r' u' s', small_run = Some u /\
    @run_moves canonical_MapRange cell_driver no_url _ BatchStore small_moves (fresh_runner, u, []) = Some (r', u', s') /\
    du_finished u' = true /\ du_slots u' = 0 /\ map_to_list (dr_pools r') = [("b", mkPool 1 "host=db1 dbname=b" 2)].
Proof.
  assert (Hb : match small_run with
    | Some u => match @run_moves canonical_MapRange cell_driver no_url _ BatchStore small_moves (fresh_runner, u, []) with
                | Some (r', u', _) => Some (du_finished u', map_to_list (dr_pools r'))
                | None => None
                end
    | None => None
    end = Some (true, [("b", mkPool 1 "host=db1 dbname=b" 2)])) by (vm_compute; reflexivity).
  destruct small_run as [u|] eqn:Eu; [|discriminate].
  destruct (@run_moves canonical_MapRange cell_driver no_url _ BatchStore small_moves (fresh_runner, u, []))
    as [[[r' u'] s']|] eqn:Em; [|discriminate].
  injection Hb as Hf Hp. exists u, r', u', s'. split; [reflexivity|split; [exact Em|split; [exact Hf|split; [|exact Hp]]]].
  destruct (@tasks_bounded_and_finish canonical_MapRange cell_driver no_url _ BatchStore "i" "host=db1"
    one_slot_config [DatabaseCollector] (small_cycle ["app"; "b"]) fresh_runner [] u small_moves r' u' s'
    ltac:(repeat split) Eu Em) as (_ & _ & _ & vi & op & fa & _ & _ & _ & _ & _ & H).
  rewrite Hf in H. exact (proj1 (proj2 (proj2 H))).
Defined.

(** Two databases, one slot, both time out. *)
Lemma db_cycle_any_schedule_witness :
  exists u r1 u1 s1 tasks, small_run = Some u /\
    @run_moves canonical_MapRange cell_driver no_url _ BatchStore (map MAct small_schedule) (fresh_runner, u, [])
      = Some (r1, u1, s1) /\
    let n := @count_all (map (fun t => (@task_result cell_driver "i" (small_cycle ["app"; "b"]) t).2) tasks)
               (mkCounters 0 0 0 0) in
    cn_timeout n = 2 /\
    cn_collected n + cn_timeout n + cn_perm n + cn_other n = 2 /\
    exists batches, batches ≡ₚ @found cell_driver "i" (small_cycle ["app"; "b"]) tasks /\
      s1 = @writes _ BatchStore [] (batches ++ [telemetry 0 "i" 2 n]).
Proof.
  assert (Hb : match small_run with
    | Some u => match @run_moves canonical_MapRange cell_driver no_url _ BatchStore (map MAct small_schedule)
                        (fresh_runner, u, []) with
                | Some (_, u1, _) => du_finished u1
                | None => false
                end
    | None => false
    end = true) by (vm_compute; reflexivity).
  destruct small_run as [u|] eqn:Eu; [|discriminate].
  destruct (@run_moves canonical_MapRange cell_driver no_url _ BatchStore (map MAct small_schedule) (fresh_runner, u, []))
    as [[[r1 u1] s1]|] eqn:Em; [|discriminate].
  eexists u, r1, u1, s1, _. split; [reflexivity|split; [exact Em|]].
  destruct (@db_cycle_any_schedule canonical_MapRange cell_driver no_url _ BatchStore (small_cycle ["app"; "b"])
    fresh_runner [] ["app"; "b"] _ _ 0 u small_schedule r1 u1 s1 eq_refl eq_refl Eu Em Hb eq_refl)
    as (H1 & _ & H3 & _).
  split; [|split; [exact H1|exact H3]]. vm_compute. reflexivity.
Defined.
