(* ===== verification/Orchestrator.v ===== *)
(** * The orchestrator: runners, hot reload, connections

    Models internal/orchestrator/runner.go and orchestrator.go: connecting to an instance and
    building its collectors, starting its goroutines, the reconciliation of runners with the
    table of instances, the lookup of a connection, and the whole as a machine whose events are
    reloads and cycles. Goroutines of one instance share the store, the evaluator and the
    dispatcher. A cycle of a group is taken as one step; a run over the databases goes act by act, as
    in DbRunner, between the other events, and goes on when a reload closes its runner. *)
From S2P Require Import Prelude Float64 GoText Metric SqlConn Collector OsCollectors.
From S2P Require Import CollectorsMedium Group DatabaseCollector Config Instances DbRunner.

Local Open Scope Z_scope.

(** Conversion to int32. *)
Definition i32 (z : Z) : Z := (z + 2 ^ 31) mod 2 ^ 32 - 2 ^ 31.

(** What pgx answers to the parts of an attempt to connect. *)
Record Dial `{DR : Driver} := mkDial {
  dl_parse : string -> option error;
  dl_pool : string -> option error;
  dl_acquire : string -> result Conn
}.

(** ** One instance: runner.go

    [rn_run] is the run over the databases that the runner's goroutine is in, if it is in one. *)

Record instanceRunner `{DR : Driver} := mkRunner {
  rn_cfg : InstanceConfig;
  rn_globalOSMethod : string;
  rn_pool : Pool;
  rn_pgVersion : PGVersion;
  rn_groups : list intervalGroup;
  rn_dbRunner : DBRunner;
  rn_run : option DBRun
}.
Arguments mkRunner {DR}.

(** A goroutine: the loop of one group, or the per-database loop, of the runner with a pool. *)
Inductive goroutine :=
  | GGroup (pool : Z) (name : string)
  | GDatabases (pool : Z).

Section Runner.
Context {MR : MapRange} `{DR : Driver}.
(** net/url and os.Hostname. *)
Context (urlHostname : string -> option string) (hostname : result string).

(** The outcome of [connect]: no pool was opened, one was opened and closed again, or it is kept
    with the version of the server. *)
Inductive connection :=
  | NotOpened (e : error)
  | OpenedClosed (p : Pool) (e : error)
  | Connected (p : Pool) (v : PGVersion).

Definition connect (d : Dial) (serial : Z) (cfg : InstanceConfig) : connection :=
  let id := inc_ID cfg in
  match dl_parse d (inc_DSN cfg) with
  | Some e => NotOpened (wrap ("parse DSN for instance " +:+ id) e)
  | None =>
      match dl_pool d (inc_DSN cfg) with
      | Some e => NotOpened (wrap ("connect to instance " +:+ id) e)
      | None =>
          let p := mkPool serial (inc_DSN cfg) (i32 (inc_MaxConns cfg)) in
          match dl_acquire d (inc_DSN cfg) with
          | Err e => OpenedClosed p (wrap ("acquire conn for version detect on " +:+ id) e)
          | Ok conn =>
              match Detect conn with
              | Err e => OpenedClosed p (wrap ("detect PG version for instance " +:+ id) e)
              | Ok v => Connected p v
              end
          end
      end
  end.

Definition resolveOSMethod (cfg : InstanceConfig) (globalOSMethod : string) : string :=
  if negb (String.eqb (inc_OSMetricsMethod cfg) "") then inc_OSMetricsMethod cfg
  else if negb (String.eqb globalOSMethod "") then globalOSMethod
  else "sql".

Definition buildCollectors (cfg : InstanceConfig) (globalOSMethod : string) (v : PGVersion)
    : list intervalGroup :=
  let id := inc_ID cfg in
  let every10s := newBase id v (10 * Second) in
  let every60s := newBase id v (60 * Second) in
  let every300s := newBase id v (300 * Second) in
  let high :=
    [ CConnections every10s; CCache every60s; CWaitEvents every10s; CLockTree every10s;
      CLongTransactions every10s ] in
  let medium :=
    [ CReplicationStatus every60s; CReplicationLag every10s; CReplicationSlots every60s;
      CStatementsConfig every60s; CStatementsTop every60s 0;
      CCheckpoint (NewCheckpointCollector id v);
      CVacuumProgress every10s; CClusterProgress every10s; CAnalyzeProgress every10s;
      CCreateIndexProgress every10s; CBasebackupProgress every10s; CCopyProgress every10s ] in
  let osMethod := resolveOSMethod cfg globalOSMethod in
  let osCollector := COS (NewOSCollector urlHostname hostname id (inc_DSN cfg) (inc_AgentURL cfg)) in
  let medium := if String.eqb osMethod "sql" then medium ++ [COSSQL (NewOSSQLCollector id v)]
                else medium in
  let high := high ++ [osCollector] in
  let medium := medium ++ [CCluster id] in
  let low :=
    [ CServerInfo every60s; CDatabaseSizes every300s; CSettings every300s;
      CExtensions every300s; CTransactions every60s; CIOStats every60s ] in
  [ mkGroup "high" (ivc_High (inc_Intervals cfg)) high;
    mkGroup "medium" (ivc_Medium (inc_Intervals cfg)) medium;
    mkGroup "low" (ivc_Low (inc_Intervals cfg)) low ].

(** The runner after [connect] and [buildCollectors]. *)
Definition built (cfg : InstanceConfig) (globalOSMethod : string) (p : Pool) (v : PGVersion)
    : instanceRunner :=
  mkRunner cfg globalOSMethod p v (buildCollectors cfg globalOSMethod v)
    (NewDBRunner (inc_ID cfg) (inc_DSN cfg) cfg [DatabaseCollector]) None.

(** [start]: a goroutine per group and one for the databases. *)
Definition start (r : instanceRunner) : list goroutine :=
  let p := pl_serial (rn_pool r) in
  map (fun g => GGroup p (g_name g)) (rn_groups r) ++ [GDatabases p].

(** [queryIC]: without an answer, the zero context. *)
Definition queryIC (acquire : result Conn) : InstanceContext :=
  match acquire with
  | Err _ => mkIC false
  | Ok conn => match queryInstanceContext conn with Ok ic => ic | Err _ => mkIC false end
  end.

Definition set_dbRunner (d : DBRunner) (r : instanceRunner) : instanceRunner :=
  mkRunner (rn_cfg r) (rn_globalOSMethod r) (rn_pool r) (rn_pgVersion r) (rn_groups r) d
    (rn_run r).

Definition set_groups (gs : list intervalGroup) (r : instanceRunner) : instanceRunner :=
  mkRunner (rn_cfg r) (rn_globalOSMethod r) (rn_pool r) (rn_pgVersion r) gs (rn_dbRunner r)
    (rn_run r).

Definition set_run (u : option DBRun) (r : instanceRunner) : instanceRunner :=
  mkRunner (rn_cfg r) (rn_globalOSMethod r) (rn_pool r) (rn_pgVersion r) (rn_groups r) (rn_dbRunner r) u.

(** [close] of a runner: its per-database pools; the caller records its own pool as closed. A run it is
    in is not told. *)
Definition close (r : instanceRunner) : instanceRunner := set_dbRunner (Close (rn_dbRunner r)) r.

(** ** All instances: orchestrator.go *)

(** [o_opened] counts the pools of runners opened so far, [o_closed] lists those closed and
    [o_retired] the runners that were closed and left the map, each with whether it was in a run over
    its databases at that moment; [o_goroutines] are the goroutines that run, [o_reloading] says that
    the reload loop does. *)
Record Orchestrator {I : Type} := mkOrchestrator {
  o_cfg : Config;
  o_runners : gmap string instanceRunner;
  o_goroutines : list goroutine;
  o_reloading : bool;
  o_opened : Z;
  o_closed : list Pool;
  o_retired : list (bool * instanceRunner);
  o_instanceStore : option I
}.
Arguments Orchestrator : clear implicits.

Context {I : Type} {HI : InstanceStore I}.

Definition New (cfg : Config) (instanceStore : option I) : Orchestrator I :=
  mkOrchestrator I cfg ∅ [] false 0 [] [] instanceStore.

(** The steps Start and reload share: connect, build, start, remember; a failure is logged. *)
Definition startRunner (d : Dial) (cfg : InstanceConfig) (o : Orchestrator I) : Orchestrator I :=
  let method := osc_Method (cfg_OSMetrics (o_cfg o)) in
  match connect d (o_opened o) cfg with
  | NotOpened _ => o
  | OpenedClosed p _ =>
      mkOrchestrator I (o_cfg o) (o_runners o) (o_goroutines o) (o_reloading o) (o_opened o + 1)
        (o_closed o ++ [p]) (o_retired o) (o_instanceStore o)
  | Connected p v =>
      let r := built cfg method p v in
      mkOrchestrator I (o_cfg o) (<[inc_ID cfg := r]> (o_runners o)) (o_goroutines o ++ start r)
        (o_reloading o) (o_opened o + 1) (o_closed o) (o_retired o) (o_instanceStore o)
  end.

(** [Start]; without a runner the context is cancelled and an error returned. *)
Definition Start (d : Dial) (o : Orchestrator I) : Orchestrator I * option error :=
  let o' := foldl (fun o inst => if disabled inst then o else startRunner d inst o) o
              (cfg_Instances (o_cfg o)) in
  if decide (o_runners o' = ∅) then
    (mkOrchestrator I (o_cfg o') (o_runners o') [] (o_reloading o') (o_opened o') (o_closed o')
       (o_retired o') (o_instanceStore o'), Some "orchestrator: no instances connected")
  else
    (mkOrchestrator I (o_cfg o') (o_runners o') (o_goroutines o')
       (match o_instanceStore o' with Some _ => true | None => false end) (o_opened o') (o_closed o')
       (o_retired o') (o_instanceStore o'), None).

Definition in_run (r : instanceRunner) : bool :=
  match rn_run r with Some _ => true | None => false end.

(** [r.close()] on the runner of an instance, which leaves the map; its goroutines keep running. *)
Definition stopRunner (o : Orchestrator I) (id : string) (r : instanceRunner) : Orchestrator I :=
  mkOrchestrator I (o_cfg o) (delete id (o_runners o)) (o_goroutines o) (o_reloading o) (o_opened o)
    (o_closed o ++ [rn_pool r]) (o_retired o ++ [(in_run r, close r)]) (o_instanceStore o).

(** The configuration of an instance that was added while running. *)
Definition reloadedConfig (rec : InstanceRecord) : InstanceConfig :=
  mkInstanceConfig (ir_ID rec) (ir_Name rec) (ir_DSN rec) "" None
    (if ir_MaxConns rec =? 0 then 5 else ir_MaxConns rec)
    (mkIntervalConfig (10 * Second) (60 * Second) (300 * Second)) "" "" "" "" [] "" [] [] 0 "".

(** The enabled records by id. *)
Definition desiredInstances (records : list InstanceRecord) : gmap string InstanceRecord :=
  foldl (fun m rec => if ir_Enabled rec then <[ir_ID rec := rec]> m else m) ∅ records.

Definition reload (d : Dial) (o : Orchestrator I) : Orchestrator I :=
  match o_instanceStore o with
  | None => o
  | Some st =>
      match ist_List st with
      | Err _ => o
      | Ok records =>
          let desired := desiredInstances records in
          let o := foldl (fun o kr =>
            match desired !! kr.1 with
            | Some _ => o
            | None => stopRunner o kr.1 kr.2
            end) o (map_range (o_runners o)) in
          foldl (fun o kr =>
            match o_runners o !! kr.1 with
            | Some _ => o
            | None => startRunner d (reloadedConfig kr.2) o
            end) o (map_range desired)
      end
  end.

(** [Stop]: the goroutines end, then every runner is closed; the map is left as it is. It waits for the
    runs that are in flight: it is called when no runner, retired or not, is in one. *)
Definition Stop (o : Orchestrator I) : Orchestrator I :=
  mkOrchestrator I (o_cfg o) (close <$> o_runners o) [] false (o_opened o)
    (o_closed o ++ map (fun kr => rn_pool kr.2) (map_range (o_runners o))) (o_retired o)
    (o_instanceStore o).

(** ** Connections on demand *)

Definition quoted (id : string) (s : string) : error := "instance " +:+ id +:+ s.

Definition instanceDSN (o : Orchestrator I) (instanceID : string) : result string :=
  match o_runners o !! instanceID with
  | Some r => Ok (inc_DSN (rn_cfg r))
  | None =>
      match List.find (fun c => String.eqb (inc_ID c) instanceID) (cfg_Instances (o_cfg o)) with
      | Some c => if disabled c then Err (quoted instanceID " is disabled") else Ok (inc_DSN c)
      | None =>
          match o_instanceStore o with
          | None => Err (quoted instanceID " not found")
          | Some st =>
              match ist_Get st instanceID with
              | Ok (Some rec) =>
                  if ir_Enabled rec then Ok (ir_DSN rec) else Err (quoted instanceID " is disabled")
              | _ => Err (quoted instanceID " not found")
              end
          end
      end
  end.

(** [dialInstance]: [dl_acquire] answers for the fresh connection. *)
Definition dialInstance (d : Dial) (instanceID dsn : string) : result Conn :=
  match dl_parse d dsn with
  | Some e => Err (wrap ("parse DSN for instance " +:+ instanceID) e)
  | None =>
      match dl_acquire d dsn with
      | Err e => Err (wrap ("connect to instance " +:+ instanceID) e)
      | Ok conn => Ok conn
      end
  end.

(** [ConnFor] looks an instance up by itself, in the same order. *)
Definition ConnFor (d : Dial) (o : Orchestrator I) (instanceID : string) : result Conn :=
  match o_runners o !! instanceID with
  | Some r => dialInstance d instanceID (inc_DSN (rn_cfg r))
  | None =>
      match List.find (fun c => String.eqb (inc_ID c) instanceID) (cfg_Instances (o_cfg o)) with
      | Some c =>
          if disabled c then Err (quoted instanceID " is disabled")
          else dialInstance d instanceID (inc_DSN c)
      | None =>
          match o_instanceStore o with
          | None => Err (quoted instanceID " not found")
          | Some st =>
              match ist_Get st instanceID with
              | Ok (Some rec) =>
                  if ir_Enabled rec then dialInstance d instanceID (ir_DSN rec)
                  else Err (quoted instanceID " is disabled")
              | _ => Err (quoted instanceID " not found")
              end
          end
      end
  end.

Definition ConnForDB (us : string -> string -> option string) (d : Dial) (o : Orchestrator I)
    (instanceID dbName : string) : result Conn :=
  match instanceDSN o instanceID with
  | Err e => Err e
  | Ok dsn => dialInstance d instanceID (substituteDBName us dsn dbName)
  end.

(** ** The whole as a machine *)

Section System.
Context {S E D : Type} {HM : MetricStore S} {HE : AlertEvaluator E} {HD : AlertDispatcher D}.
Context (us : string -> string -> option string).

(** A tick of the reload loop, of one group of an instance, of its per-database loop, which begins a run
    and brings the answers to it; and an act of the run of an instance or of a retired runner. *)
Inductive event :=
  | EReload (d : Dial)
  | EGroup (id : string) (i : nat) (cy : Cycle)
  | EDatabases (id : string) (cy : DBCycle)
  | ERun (id : string) (a : act)
  | ERetired (n : nat) (a : act).

Definition set_runners (rs : gmap string instanceRunner) (o : Orchestrator I) : Orchestrator I :=
  mkOrchestrator I (o_cfg o) rs (o_goroutines o) (o_reloading o) (o_opened o) (o_closed o)
    (o_retired o) (o_instanceStore o).

Definition set_retired (rs : list (bool * instanceRunner)) (o : Orchestrator I) : Orchestrator I :=
  mkOrchestrator I (o_cfg o) (o_runners o) (o_goroutines o) (o_reloading o) (o_opened o) (o_closed o)
    rs (o_instanceStore o).

(** One act of the run a runner is in; the goroutine is free again when it has reported. *)
Definition step_run (a : act) (r : instanceRunner) (s : S) : option (instanceRunner * S) :=
  match rn_run r with
  | None => None
  | Some u =>
      match run_act us a (rn_dbRunner r, u, s) with
      | None => None
      | Some (dr, u', s') =>
          Some (set_run (if du_finished u' then None else Some u') (set_dbRunner dr r), s')
      end
  end.

Definition set_store (s : S) (sh : Shared S E D) : Shared S E D :=
  mkShared s (sh_evaluator sh) (sh_dispatcher sh).

(** One event; [None] is a panic. A tick while a run is in flight is dropped, and so is an act out of
    turn. A runner that was closed begins no cycle and no run: its pool is closed, so it gets no
    connection; but a run it is in goes on. *)
Definition handle (ev : event) (sys : Orchestrator I * Shared S E D)
    : option (Orchestrator I * Shared S E D) :=
  let (o, sh) := sys in
  match ev with
  | EReload d => Some (if o_reloading o then reload d o else o, sh)
  | EGroup id i cy =>
      match o_runners o !! id with
      | None => Some sys
      | Some r =>
          match rn_groups r !! i with
          | None => Some sys
          | Some g =>
              match collect cy g sh with
              | None => None
              | Some (g', sh') =>
                  Some (set_runners (<[id := set_groups (<[i := g']> (rn_groups r)) r]> (o_runners o)) o,
                        sh')
              end
          end
      end
  | EDatabases id cy =>
      match o_runners o !! id with
      | None => Some sys
      | Some r =>
          if in_run r then Some sys
          else Some (set_runners (<[id := set_run (begin_run cy (rn_dbRunner r)) r]> (o_runners o)) o, sh)
      end
  | ERun id a =>
      match o_runners o !! id with
      | None => Some sys
      | Some r =>
          match step_run a r (sh_store sh) with
          | None => Some sys
          | Some (r', s') => Some (set_runners (<[id := r']> (o_runners o)) o, set_store s' sh)
          end
      end
  | ERetired n a =>
      match o_retired o !! n with
      | None => Some sys
      | Some br =>
          match step_run a br.2 (sh_store sh) with
          | None => Some sys
          | Some (r', s') => Some (set_retired (<[n := (br.1, r')]> (o_retired o)) o, set_store s' sh)
          end
      end
  end.

Fixpoint handle_all (evs : list event) (sys : Orchestrator I * Shared S E D)
    : option (Orchestrator I * Shared S E D) :=
  match evs with
  | [] => Some sys
  | ev :: rest => match handle ev sys with
                  | None => None
                  | Some sys' => handle_all rest sys'
                  end
  end.

End System.
End Runner.
Arguments Orchestrator {DR} I.
