(* ===== verification/OrchestratorTheorems.v ===== *)
(** * The orchestrator: reconciliation and the pools of the instances

    What orchestrator.go promises: after a reload the runners are those of the enabled instances,
    those that ran before untouched; each pool that was opened is closed exactly once, but for the
    per-database pools that a run opens after a reload closed its runner; and a connection on demand goes to the address of the runner, of the configuration or of the table,
    in that order. *)
From S2P Require Import Prelude Float64 GoText Metric SqlConn Collector OsCollectors Group Config.
From S2P Require Import Instances DbRunner DbRunnerTheorems Orchestrator.

Local Open Scope Z_scope.

Section Orchestrator.
Context {MR : MapRange} `{DR : Driver} (uh : string -> option string) (hn : result string).
Context (us : string -> string -> option string) {I : Type} {HI : InstanceStore I}.

Notation orch := (Orchestrator.Orchestrator I).

(** ** What the loops do at one key *)

(** The effect of starting a runner on the runners: one entry, or none. *)
Lemma startRunner_lookup d cfg (o : orch) id :
  o_runners (startRunner uh hn d cfg o) !! id
    = if decide (id = inc_ID cfg) then
        match connect d (o_opened o) cfg with
        | Connected p v => Some (built uh hn cfg (osc_Method (cfg_OSMetrics (o_cfg o))) p v)
        | _ => o_runners o !! id
        end
      else o_runners o !! id.
Proof.
  unfold startRunner. destruct (connect d (o_opened o) cfg) as [e|p e|p v]; cbn [o_runners].
  - by destruct (decide _).
  - by destruct (decide _).
  - destruct (decide (id = inc_ID cfg)) as [->|]; [by rewrite lookup_insert_eq|].
    by rewrite lookup_insert_ne.
Qed.

(** Fields that starting and stopping leave alone. *)
Definition same_settings (o o' : orch) : Prop :=
  o_cfg o' = o_cfg o /\ o_instanceStore o' = o_instanceStore o /\ o_reloading o' = o_reloading o /\
  (forall g, g ∈ o_goroutines o -> g ∈ o_goroutines o') /\
  (forall p, p ∈ o_closed o -> p ∈ o_closed o').

Lemma same_settings_trans o1 o2 o3 : same_settings o1 o2 -> same_settings o2 o3 -> same_settings o1 o3.
Proof. intros (?&?&?&?&?) (?&?&?&?&?). repeat split; try congruence; auto. Qed.

Lemma startRunner_settings d cfg (o : orch) : same_settings o (startRunner uh hn d cfg o).
Proof.
  unfold startRunner. destruct (connect d (o_opened o) cfg) as [e|p e|p v]; repeat split; cbn; auto;
    intros x Hx; rewrite elem_of_app; by left.
Qed.

Lemma stopRunner_settings (o : orch) id r : same_settings o (stopRunner o id r).
Proof. repeat split; cbn; auto. intros p Hp. rewrite elem_of_app. by left. Qed.

Lemma settings_foldl {B} (f : orch -> B -> orch) l (o : orch) :
  (forall a b, same_settings a (f a b)) -> same_settings o (foldl f o l).
Proof.
  intros Hf. apply (foldl_inv (same_settings o)); [|by repeat split].
  intros a b _ Ha. by eapply same_settings_trans.
Qed.

(** ** Accounts *)

(** Each runner is kept under the id of its configuration, with a pool of its own. *)
Definition runner_pools (o : orch) : gmap string Pool := rn_pool <$> o_runners o.

Definition orch_ok (o : orch) : Prop :=
  (forall id r, o_runners o !! id = Some r -> inc_ID (rn_cfg r) = id) /\
  ledger (runner_pools o) (o_closed o) (o_opened o).

Lemma connect_serial d n cfg p :
  (exists v, connect d n cfg = Connected p v) \/ (exists e, connect d n cfg = OpenedClosed p e) ->
  pl_serial p = n.
Proof.
  unfold connect. intros [[v H]|[e H]]; revert H; destruct (dl_parse _ _); [done| |done|];
    (destruct (dl_pool _ _); [done|]; destruct (dl_acquire _ _) as [c|]; [|by intros [= <-]];
     destruct (Detect c); by intros [= <-]) || idtac.
Qed.

Lemma startRunner_ok d cfg (o : orch) : o_runners o !! inc_ID cfg = None ->
  orch_ok o -> orch_ok (startRunner uh hn d cfg o).
Proof.
  intros Hn [Hid Hl]. unfold startRunner.
  destruct (connect d (o_opened o) cfg) as [e|p e|p v] eqn:E; [done| |]; split; cbn [o_runners].
  - done.
  - apply ledger_lost; [|done]. eapply connect_serial; eauto.
  - intros id r. rewrite lookup_insert_Some. intros [[<- <-]|[_ H]]; [done|by apply Hid].
  - unfold runner_pools. cbn [o_runners o_closed o_opened]. rewrite fmap_insert.
    apply ledger_open; [by rewrite lookup_fmap, Hn|eapply connect_serial; eauto|done].
Qed.

Lemma stopRunner_ok (o : orch) id r : o_runners o !! id = Some r ->
  orch_ok o -> orch_ok (stopRunner o id r).
Proof.
  intros Hr [Hid Hl]. split; cbn.
  - intros k q. rewrite lookup_delete_Some. intros [_ H]. by apply Hid.
  - unfold runner_pools. cbn. rewrite fmap_delete. apply ledger_close; [|done].
    by rewrite lookup_fmap, Hr.
Qed.

(** Replacing the runner of an id by one with the same configuration and pool. *)
Lemma set_runner_ok (o : orch) id r r' : o_runners o !! id = Some r -> rn_pool r' = rn_pool r ->
  rn_cfg r' = rn_cfg r -> orch_ok o -> orch_ok (set_runners (<[id := r']> (o_runners o)) o).
Proof.
  intros Hr Hp Hc [Hid Hl]. split; cbn.
  - intros k q. rewrite lookup_insert_Some. intros [[<- <-]|[_ H]]; [|by apply Hid].
    rewrite Hc. by apply Hid.
  - unfold runner_pools in *. cbn. rewrite fmap_insert, Hp, insert_id; [done|].
    by rewrite lookup_fmap, Hr.
Qed.

(** The per-database pools of a runner: each that was opened is open or was closed, once. *)
Definition db_ok (r : instanceRunner) : Prop := accounted us (rn_dbRunner r).

(** The runners that left the map were closed, and those that were in no run stay so. *)
Definition retired_ok (br : bool * instanceRunner) : Prop :=
  db_ok br.2 /\ (br.1 = false -> rn_run br.2 = None /\ dr_pools (rn_dbRunner br.2) = ∅).

Definition orch_inv (o : orch) : Prop :=
  orch_ok o /\ (forall id r, o_runners o !! id = Some r -> db_ok r) /\ Forall retired_ok (o_retired o).

Lemma close_pools r : dr_pools (rn_dbRunner (close r)) = ∅.
Proof. apply Close_empty. Qed.

Lemma startRunner_inv d cfg (o : orch) : o_runners o !! inc_ID cfg = None ->
  orch_inv o -> orch_inv (startRunner uh hn d cfg o).
Proof.
  intros Hn (Ho & Hl & Hr). split; [by apply startRunner_ok|split].
  - intros id r. rewrite startRunner_lookup. destruct (decide _); [|apply Hl].
    destruct (connect d (o_opened o) cfg); [apply Hl..|]. intros [= <-]. apply New_accounted.
  - unfold startRunner. by destruct (connect d (o_opened o) cfg).
Qed.

Lemma stopRunner_inv (o : orch) id r : o_runners o !! id = Some r ->
  orch_inv o -> orch_inv (stopRunner o id r).
Proof.
  intros Hr (Ho & Hl & Hc). split; [by apply stopRunner_ok|split].
  - intros k q. cbn. rewrite lookup_delete_Some. intros [_ Hq]. by apply (Hl k).
  - apply Forall_app. split; [done|]. constructor; [|constructor]. split; cbn [fst snd].
    + apply Close_accounted. by apply (Hl id).
    + unfold in_run. destruct (rn_run r) eqn:E; [done|]. intros _. split; [exact E|apply close_pools].
Qed.

(** The loop of Start, over configurations with different ids. *)
Lemma start_loop_inv d l : forall o : orch, NoDup (map inc_ID l) ->
  (forall c, c ∈ l -> o_runners o !! inc_ID c = None) -> orch_inv o ->
  orch_inv (foldl (fun o inst => if disabled inst then o else startRunner uh hn d inst o) o l).
Proof.
  induction l as [|c l IH]; intros o Hnd Hn Ho; [done|]. apply NoDup_cons in Hnd as [Hc Hnd].
  cbn [foldl]. apply IH; [done| |].
  - intros c' Hc'. assert (Hne : inc_ID c' <> inc_ID c).
    { intros E. apply Hc. rewrite <- E. apply list_elem_of_fmap. by exists c'. }
    destruct (disabled c); [apply Hn; by right|].
    rewrite startRunner_lookup, decide_False by done. apply Hn. by right.
  - destruct (disabled c); [done|]. apply startRunner_inv; [apply Hn; by left|done].
Qed.

Lemma New_inv cfg st : orch_inv (New cfg st).
Proof.
  split; [split|split; [|constructor]]; cbn.
  - intros id r. by rewrite lookup_empty.
  - unfold runner_pools. cbn. rewrite fmap_empty. apply ledger_empty.
  - intros id r. by rewrite lookup_empty.
Qed.

Lemma Start_inv d cfg (st : option I) : NoDup (map inc_ID (cfg_Instances cfg)) ->
  orch_inv (Start uh hn d (New cfg st)).1.
Proof.
  intros Hnd. unfold Start. cbn [o_cfg New].
  pose proof (start_loop_inv d (cfg_Instances cfg) (New cfg st) Hnd) as H.
  specialize (H (fun c _ => lookup_empty _) (New_inv cfg st)).
  by destruct (decide _).
Qed.

(** ** Reload *)

Definition stop_step (desired : gmap string InstanceRecord) (o : orch) (kr : string * instanceRunner)
    : orch :=
  match desired !! kr.1 with Some _ => o | None => stopRunner o kr.1 kr.2 end.

Definition start_step (d : Dial) (o : orch) (kr : string * InstanceRecord) : orch :=
  match o_runners o !! kr.1 with
  | Some _ => o
  | None => startRunner uh hn d (reloadedConfig kr.2) o
  end.

Lemma stop_step_other desired (o : orch) id r id' : id' <> id ->
  o_runners (stop_step desired o (id, r)) !! id' = o_runners o !! id'.
Proof.
  intros H. unfold stop_step. cbn. destruct (desired !! id); [done|]. cbn. by rewrite lookup_delete_ne.
Qed.

Lemma stop_loop_lookup desired (o : orch) id :
  o_runners (foldl (stop_step desired) o (map_range (o_runners o))) !! id
    = match desired !! id with Some _ => o_runners o !! id | None => None end.
Proof.
  rewrite (foldl_map_range (fun a k => o_runners a !! k) _
    (fun k _ v => match desired !! k with Some _ => v | None => None end)).
  - destruct (o_runners o !! id); by destruct (desired !! id).
  - intros a k v k'. destruct (decide (k' = k)) as [->|Hne]; [|by apply stop_step_other].
    unfold stop_step. cbn. destruct (desired !! k); [done|]. cbn. apply lookup_delete_eq.
Qed.

Lemma desired_keyed records id rec : desiredInstances records !! id = Some rec ->
  ir_ID rec = id /\ ir_Enabled rec = true /\ rec ∈ records.
Proof.
  unfold desiredInstances. revert id rec.
  apply (foldl_inv (fun m : gmap string InstanceRecord => forall id rec, m !! id = Some rec ->
    ir_ID rec = id /\ ir_Enabled rec = true /\ rec ∈ records)); [|by intros id rec; rewrite lookup_empty].
  intros m x Hx Hm id rec. destruct (ir_Enabled x) eqn:E; [|by apply Hm].
  rewrite lookup_insert_Some. intros [[<- <-]|[_ H]]; [done|by apply Hm].
Qed.

Lemma start_loop_own d l : forall o : orch, NoDup (map fst l) ->
  (forall k rec, (k, rec) ∈ l -> ir_ID rec = k) ->
  let o' := foldl (start_step d) o l in
  forall id, match (list_to_map l : gmap string InstanceRecord) !! id with
    | None => o_runners o' !! id = o_runners o !! id
    | Some rec =>
        match o_runners o !! id with
        | Some r => o_runners o' !! id = Some r
        | None => exists n, o_runners o' !! id
            = match connect d n (reloadedConfig rec) with
              | Connected p v =>
                  Some (built uh hn (reloadedConfig rec) (osc_Method (cfg_OSMetrics (o_cfg o))) p v)
              | _ => None
              end
        end
    end.
Proof.
  induction l as [|[k rec] l IH]; intros o Hnd Hk o' id; [done|].
  apply NoDup_cons in Hnd as [Hkl Hnd].
  assert (Hs : same_settings o (start_step d o (k, rec))).
  { unfold start_step. cbn. destruct (o_runners o !! k); [by repeat split|apply startRunner_settings]. }
  destruct Hs as (Hcfg & _).
  assert (Hkey : inc_ID (reloadedConfig rec) = k) by (apply (Hk k rec); by left).
  specialize (IH (start_step d o (k, rec)) Hnd (fun k' r' H => Hk k' r' (proj2 (elem_of_cons _ _ _) (or_intror H))) id).
  unfold o'. cbn [foldl list_to_map foldr fst snd]. cbv zeta in IH. rewrite Hcfg in IH.
  destruct (decide (id = k)) as [->|Hne].
  - rewrite lookup_insert_eq. rewrite (not_elem_of_list_to_map_1 (M := gmap string) l k Hkl) in IH. rewrite IH.
    unfold start_step. cbn. destruct (o_runners o !! k) eqn:E; [done|].
    exists (o_opened o). rewrite startRunner_lookup, Hkey, decide_True, E by done.
    by destruct (connect d (o_opened o) (reloadedConfig rec)).
  - rewrite lookup_insert_ne by done. unfold start_step in IH. cbn in IH.
    assert (Hl : o_runners (start_step d o (k, rec)) !! id = o_runners o !! id).
    { unfold start_step. cbn. destruct (o_runners o !! k); [done|].
      by rewrite startRunner_lookup, Hkey, decide_False. }
    unfold start_step in Hl. cbn in Hl. by rewrite Hl in IH.
Qed.

Lemma reload_unfold d (o : orch) st records : o_instanceStore o = Some st -> ist_List st = Ok records ->
  reload uh hn d o
    = foldl (start_step d) (foldl (stop_step (desiredInstances records)) o (map_range (o_runners o)))
        (map_range (desiredInstances records)).
Proof. intros H1 H2. unfold reload. by rewrite H1, H2. Qed.

Lemma reload_inv d (o : orch) : orch_inv o -> orch_inv (reload uh hn d o).
Proof.
  intros Ho. destruct (o_instanceStore o) as [st|] eqn:Es; [|unfold reload; by rewrite Es].
  destruct (ist_List st) as [records|] eqn:El; [|unfold reload; by rewrite Es, El].
  rewrite (reload_unfold d o st records Es El).
  apply (foldl_inv orch_inv).
  - intros a [k rec] Hin Ha. unfold start_step. cbn. destruct (o_runners a !! k) eqn:E; [done|].
    apply startRunner_inv; [|done]. rewrite map_range_perm, elem_of_map_to_list in Hin.
    destruct (desired_keyed _ _ _ Hin) as [<- _]. exact E.
  - apply (foldl_own_entries o_runners); [| |done].
    + intros a k r Hr Ha. unfold stop_step. cbn. destruct (desiredInstances records !! k); [done|by apply stopRunner_inv].
    + intros a k r k'. apply stop_step_other.
Qed.

Lemma stop_loop_settings desired (o : orch) l : same_settings o (foldl (stop_step desired) o l).
Proof.
  apply settings_foldl. intros a [k r]. unfold stop_step. cbn.
  destruct (desired !! k); [by repeat split|apply stopRunner_settings].
Qed.

Lemma start_step_settings d (o : orch) l : same_settings o (foldl (start_step d) o l).
Proof.
  apply settings_foldl. intros a [k r]. unfold start_step. cbn.
  destruct (o_runners a !! k); [by repeat split|apply startRunner_settings].
Qed.

(** A stopped runner's pool is among those closed. *)
Lemma stop_loop_closed desired (o : orch) id r : o_runners o !! id = Some r -> desired !! id = None ->
  rn_pool r ∈ o_closed (foldl (stop_step desired) o (map_range (o_runners o))).
Proof.
  intros Hr Hd.
  assert (H : forall (l : list (string * instanceRunner)) a, (id, r) ∈ l ->
    rn_pool r ∈ o_closed (foldl (stop_step desired) a l)).
  { induction l as [|kr l IH]; intros a Hin; [by apply not_elem_of_nil in Hin|]. cbn [foldl].
    apply elem_of_cons in Hin as [<-|Hin]; [|by apply IH].
    destruct (stop_loop_settings desired (stop_step desired a (id, r)) l) as (_ & _ & _ & _ & Hc).
    apply Hc. unfold stop_step. cbn. rewrite Hd. cbn. rewrite elem_of_app. right. by left. }
  apply H. by rewrite map_range_perm, elem_of_map_to_list.
Qed.

(** The enabled record with an id. *)
Definition enabled_record (records : list InstanceRecord) (id : string) : option InstanceRecord :=
  List.find (fun rec => String.eqb (ir_ID rec) id && ir_Enabled rec) records.

Lemma find_absent records id : id ∉ map ir_ID records -> enabled_record records id = None.
Proof.
  induction records as [|x l IH]; intros H; [done|]. cbn in *. apply not_elem_of_cons in H as [Hx H].
  rewrite (proj2 (String.eqb_neq (ir_ID x) id)) by congruence. by apply IH.
Qed.

Lemma desired_find records id : NoDup (map ir_ID records) ->
  desiredInstances records !! id = enabled_record records id.
Proof.
  intros Hnd. unfold desiredInstances.
  assert (H : forall m : gmap string InstanceRecord,
    foldl (fun m rec => if ir_Enabled rec then <[ir_ID rec := rec]> m else m) m records !! id
      = match enabled_record records id with Some r => Some r | None => m !! id end).
  { induction records as [|x l IH]; intros m; [done|]. apply NoDup_cons in Hnd as [Hx Hnd].
    cbn [foldl]. rewrite (IH Hnd). unfold enabled_record. cbn [List.find].
    destruct (String.eqb_spec (ir_ID x) id) as [<-|Hne]; cbn [andb].
    - pose proof (find_absent l (ir_ID x) Hx) as Hf. unfold enabled_record in Hf. rewrite Hf.
      destruct (ir_Enabled x); [by rewrite lookup_insert_eq|done].
    - destruct (ir_Enabled x); [|done]. by rewrite lookup_insert_ne. }
  rewrite H. by destruct (enabled_record records id).
Qed.


(** ** The whole machine *)

Context {S E D : Type} {HM : MetricStore S} {HE : AlertEvaluator E} {HD : AlertDispatcher D}.

Lemma set_runner_inv (o : orch) id r r' : o_runners o !! id = Some r -> rn_pool r' = rn_pool r ->
  rn_cfg r' = rn_cfg r -> db_ok r' -> orch_inv o -> orch_inv (set_runners (<[id := r']> (o_runners o)) o).
Proof.
  intros H1 H2 H3 H4 (Ho & Hl & Hr). split; [by apply (set_runner_ok _ id r)|split; [|done]].
  intros k q. cbn. rewrite lookup_insert_Some. intros [[_ <-]|[_ Hq]]; [done|by apply (Hl k)].
Qed.

(** An act of a run changes the account of the runner in order, and neither its pool nor its record. *)
Lemma act_accounted a dr u (s : S) dr' u' s' : run_act us a (dr, u, s) = Some (dr', u', s') ->
  accounted us dr -> accounted us dr'.
Proof.
  unfold run_act. destruct (du_finished u); [done|].
  destruct a as [| | |k|k|]; rewrite fmap_Some; intros (x & Hx & Hst) Ha; simplify_eq/=; try done.
  - unfold act_evict in Hx. destruct (du_evicted u); [done|]. injection Hx as <- <-. by apply evict_accounted.
  - unfold act_next in Hx. destruct (du_evicted u); [|done]. destruct (du_queue u); [|done].
    destruct (du_dbs u) as [|db rest]; [done|].
    pose proof (getOrCreate_accounted us (du_cycle u) dr db Ha) as Hg.
    by destruct (getOrCreatePool us (du_cycle u) dr db) as [r1 [p|e]]; injection Hx as <- _.
Qed.

Lemma step_run_spec a r (s : S) r' s' : step_run us a r s = Some (r', s') -> db_ok r ->
  rn_run r <> None /\ rn_pool r' = rn_pool r /\ rn_cfg r' = rn_cfg r /\ rn_groups r' = rn_groups r /\ db_ok r'.
Proof.
  unfold step_run. destruct (rn_run r) as [u|]; [|done].
  destruct (run_act us a (rn_dbRunner r, u, s)) as [[[dr u'] s1]|] eqn:Ea; [|done]. intros [= <- <-] Hr.
  split_and!; try done. by apply (act_accounted _ _ _ _ _ _ _ Ea).
Qed.

Lemma handle_inv ev (o o' : orch) (sh sh' : Shared S E D) :
  handle uh hn us ev (o, sh) = Some (o', sh') -> orch_inv o -> orch_inv o'.
Proof.
  destruct ev as [d|id i cy|id cy|id a|n a]; cbn [handle].
  - intros [= <- <-] Ho. destruct (o_reloading o); [by apply reload_inv|done].
  - destruct (o_runners o !! id) as [r|] eqn:Er; [|by intros [= <- <-]].
    destruct (rn_groups r !! i) as [g|]; [|by intros [= <- <-]].
    destruct (collect cy g sh) as [[g' sh1]|]; [|done]. intros [= <- <-] Ho.
    apply (set_runner_inv _ id r); try done. exact (proj1 (proj2 Ho) id r Er).
  - destruct (o_runners o !! id) as [r|] eqn:Er; [|by intros [= <- <-]].
    destruct (in_run r); [by intros [= <- <-]|]. intros [= <- <-] Ho.
    apply (set_runner_inv _ id r); try done. exact (proj1 (proj2 Ho) id r Er).
  - destruct (o_runners o !! id) as [r|] eqn:Er; [|by intros [= <- <-]].
    destruct (step_run us a r (sh_store sh)) as [[r' s']|] eqn:Es; [|by intros [= <- <-]].
    intros [= <- <-] Ho. destruct (step_run_spec _ _ _ _ _ Es) as (_ & H1 & H2 & _ & H4);
      [exact (proj1 (proj2 Ho) id r Er)|]. by apply (set_runner_inv _ id r).
  - destruct (o_retired o !! n) as [[b r]|] eqn:Er; [|by intros [= <- <-]]. cbn [fst snd].
    destruct (step_run us a r (sh_store sh)) as [[r' s']|] eqn:Es; [|by intros [= <- <-]].
    intros [= <- <-] (Ho & Hl & Hr).
    destruct (Forall_lookup_1 _ _ _ _ Hr Er) as [Hd Hb]. cbn [fst snd] in Hd, Hb.
    destruct (step_run_spec _ _ _ _ _ Es Hd) as (H0 & _ & _ & _ & H4).
    split; [done|split; [done|]]. cbn. apply Forall_insert; [done|]. split; [done|].
    cbn. intros Hf. by destruct (Hb Hf).
Qed.

Lemma handle_all_inv evs : forall (o o' : orch) (sh sh' : Shared S E D),
  handle_all uh hn us evs (o, sh) = Some (o', sh') -> orch_inv o -> orch_inv o'.
Proof.
  induction evs as [|ev evs IH]; intros o o' sh sh'; cbn [handle_all]; [by intros [= <- <-]|].
  destruct (handle uh hn us ev (o, sh)) as [[o1 sh1]|] eqn:Eh; [|done].
  intros H Ho. apply (IH _ _ _ _ H). by apply (handle_inv ev o o1 sh sh1).
Qed.

Lemma Stop_closed (o : orch) : orch_ok o ->
  map pl_serial (o_closed (Stop o)) ≡ₚ seqZ 0 (o_opened o).
Proof.
  intros [_ [_ Hl]]. rewrite <- Hl. apply Permutation_map. unfold owned, runner_pools. cbn [Stop o_closed].
  rewrite Permutation_app_comm. apply Permutation_app_tail. rewrite map_to_list_fmap, map_range_perm.
  rewrite <- list_fmap_compose. done.
Qed.

(** Nobody is in a run over its databases. *)
Definition idle (o : orch) : Prop :=
  (forall id r, o_runners o !! id = Some r -> rn_run r = None) /\ Forall (fun br => rn_run br.2 = None) (o_retired o).


(** ** Connections on demand *)

(** Which address a connection leads to. Opening a connection to an instance is finding its
    address and dialling it: the address is that of its runner if there is one, else that of the
    configuration, else that of the table; a missing or disabled instance is refused before
    anything is dialled. A connection to one database differs only in the database name. *)
Theorem connections_follow_address (d : Dial) (o : orch) (id dbName : string) :
  ConnFor d o id = match instanceDSN o id with Ok dsn => dialInstance d id dsn | Err e => Err e end /\
  ConnForDB us d o id dbName
    = match instanceDSN o id with
      | Ok dsn => dialInstance d id (substituteDBName us dsn dbName)
      | Err e => Err e
      end /\
  (forall dsn, instanceDSN o id = Ok dsn ->
    (exists r, o_runners o !! id = Some r /\ dsn = inc_DSN (rn_cfg r)) \/
    (o_runners o !! id = None /\
     exists c, c ∈ cfg_Instances (o_cfg o) /\ inc_ID c = id /\ disabled c = false /\ dsn = inc_DSN c) \/
    (o_runners o !! id = None /\ id ∉ map inc_ID (cfg_Instances (o_cfg o)) /\
     exists st rec, o_instanceStore o = Some st /\ ist_Get st id = Ok (Some rec) /\
       ir_Enabled rec = true /\ dsn = ir_DSN rec)).
Proof.
  split; [|split; [done|]].
  - unfold ConnFor, instanceDSN. destruct (o_runners o !! id); [done|].
    destruct (List.find _ _) as [c|]; [by destruct (disabled c)|].
    destruct (o_instanceStore o) as [st|]; [|done].
    destruct (ist_Get st id) as [[rec|]|]; [|done..]. by destruct (ir_Enabled rec).
  - intros dsn. unfold instanceDSN. destruct (o_runners o !! id) as [r|]; [intros [= <-]; left; eauto|].
    destruct (List.find _ _) as [c|] eqn:Ef.
    { apply List.find_some in Ef as [Hc Hid]. apply String.eqb_eq in Hid.
      destruct (disabled c) eqn:Ed; [done|]. intros [= <-]. right. left. split; [done|].
      exists c. by rewrite list_elem_of_In. }
    destruct (o_instanceStore o) as [st|]; [|done].
    destruct (ist_Get st id) as [[rec|]|] eqn:Eg; [|done..].
    destruct (ir_Enabled rec) eqn:Ee; [|done]. intros [= <-]. right. right. split; [done|].
    split; [|by eauto 6]. rewrite list_elem_of_fmap. intros (c & -> & Hc).
    apply list_elem_of_In in Hc.
    pose proof (List.find_none _ _ Ef c Hc) as H. cbn beta in H. by rewrite String.eqb_refl in H.
Qed.

End Orchestrator.

(** ** Witnesses: a configured instance and one added to the table *)

#[local] Existing Instance canonical_MapRange.
#[local] Existing Instance insertion_SliceSort.
#[local] Existing Instance cell_driver.

(** A server of version 16.2. *)
Definition server16 : Conn := fun sql _ =>
  if String.eqb sql "SHOW server_version_num" then Ok ([[CText "160002"]], None)
  else if String.eqb sql "SHOW server_version" then Ok ([[CText "16.2"]], None)
  else if String.eqb sql "SELECT pg_is_in_recovery()" then Ok ([[CBool false]], None)
  else Err "no such relation".

Definition demo_dial : Dial := mkDial _ (fun _ => None) (fun _ => None) (fun _ => Ok server16).

Definition demo_config : Config :=
  match validate minimal_config with Ok c => c | Err _ => minimal_config end.

Definition demo_table : PGInstanceStore :=
  mkInstanceStore {["db2" := mkInstance "db2" "" "host=db2" "" 0 true "manual" 0 0 0]} true.

Definition demo_orchestrator : Orchestrator.Orchestrator PGInstanceStore :=
  (Start (fun _ => None) (Ok "monitor") demo_dial (New demo_config (Some demo_table))).1.


Definition demo_cycle : Cycle :=
  mkCycle _ 0 (Ok server16) (Err "no agent") (Err "no local") (mkAnswers (Ok None) (Ok []) (Ok ∅)).

(** A run over one database, from the tick to its report. *)
Definition demo_acts : list act := [AEvict; ANext; AStart; AWork 0; ALeave 0; AReport].

Definition demo_events : list event :=
  [EGroup "db1" 0 demo_cycle; EDatabases "db1" (small_cycle ["app"])] ++ map (ERun "db1") demo_acts
    ++ [EReload demo_dial].

(** A reload that comes when the run has discovered its database and not yet opened a pool. *)
Definition leak_events : list event :=
  [EDatabases "db1" (small_cycle ["app"]); ERun "db1" AEvict; EReload demo_dial]
    ++ map (ERetired 0) [ANext; AStart; AWork 0; ALeave 0; AReport].

Definition demo_shared : Shared () () () := mkShared () () ().

Definition demo_run (evs : list event) :=
  handle_all (fun _ => None) (Ok "monitor") no_url evs (demo_orchestrator, demo_shared).

(** The runner of db1, which the reload closed, is left with an open pool after the stop. *)
Example reload_during_run_leaks :
  match demo_run leak_events with
  | Some (o', _) =>
      forallb (fun br => negb (in_run br.2)) (o_retired o') &&
      forallb (fun kr => negb (in_run kr.2)) (map_to_list (o_runners o')) = true /\
      map (fun br => (br.1, map_to_list (dr_pools (rn_dbRunner br.2)), dr_closed (rn_dbRunner br.2)))
        (o_retired (Stop o'))
      = [(true, [("app", mkPool 0 "host=db1 dbname=app" 2)], [])]
  | None => False
  end.
Proof. vm_compute. split; reflexivity. Qed.

