(* ===== verification/Pipeline.v ===== *)
(** * From collection to alerts, across all instances

    Composition of the orchestrator with its collectors, the metric store and the alert rules:
    what the evaluator can be given, whatever the servers answer and whatever happens in between.
    The evaluator is one that remembers its batches, the store one that remembers those it
    accepted. *)
From S2P Require Import Prelude Float64 GoText Metric Storage SqlConn Collector LockTree CollectorsHigh.
From S2P Require Import CollectorsMedium OsCollectors CollectorsLow.
From S2P Require Import Alert AlertRules AlertMachine Group Config Instances DatabaseCollector DbRunner DbRunnerTheorems.
From S2P Require Import Orchestrator OrchestratorTheorems.

Local Open Scope Z_scope.

(** An evaluator that remembers its batches. *)
Definition BatchLog : AlertEvaluator (list (list MetricPoint)) := {|
  ae_Evaluate := fun _ log points => (log ++ [points], Ok [])
|}.

(** A store that remembers the batches it accepted. *)
Definition Accepting {S} (HM : MetricStore S) : MetricStore (S * list (list MetricPoint)) := {|
  ms_Write := fun sl points =>
    let (s', err) := ms_Write sl.1 points in
    ((s', match err with None => sl.2 ++ [points] | Some _ => sl.2 end), err);
  ms_Query := fun sl q => ms_Query sl.1 q
|}.

(** ** Which points a group can produce *)

(** The metrics of all collectors that a runner has in its groups. *)
Definition group_metrics : list string :=
  concat [connections_metrics; cache_metrics; wait_events_metrics; lock_tree_metrics;
    long_transactions_metrics; os_metrics; replication_status_metrics; replication_lag_metrics;
    replication_slots_metrics; statements_config_metrics; statements_top_metrics;
    checkpoint_metrics; progress_vacuum_metrics; progress_cluster_metrics;
    progress_analyze_metrics; progress_create_index_metrics; progress_basebackup_metrics;
    progress_copy_metrics; cluster_metrics; server_info_metrics; database_sizes_metrics;
    settings_metrics; extensions_metrics; transactions_metrics; io_stats_metrics].

(** The metrics a runner writes: those of its groups, of the databases, and its own counters. *)
Definition runner_metrics : list string :=
  group_metrics ++ database_metrics
  ++ ["pg.agent.db.discovered"; "pg.agent.db.collected"; "pg.agent.db.errors"].

Lemma group_runner_metrics id points : of_metrics id group_metrics points ->
  of_metrics id runner_metrics points.
Proof.
  intros H. eapply list.Forall_impl; [exact H|]. intros p [Hp Hid]. split; [|done]. apply mem_spec. apply mem_spec in Hp.
  apply elem_of_app. left. exact Hp.
Qed.

Section Groups.
Context {MR : MapRange} `{DR : Driver}.

Definition collector_ok (id : string) (c : collector) : Prop :=
  collector_id c = id /\ forallb (fun n => mem n group_metrics) (collector_metrics c) = true.

Definition group_ok (id : string) (g : intervalGroup) : Prop :=
  Forall (collector_ok id) (g_collectors g).

Definition runner_ok (id : string) (r : instanceRunner) : Prop :=
  inc_ID (rn_cfg r) = id /\ Forall (group_ok id) (rn_groups r).

Lemma collector_metrics_ok c : forallb (fun n => mem n group_metrics) (collector_metrics c) = true.
Proof. destruct c; vm_compute; reflexivity. Qed.

Lemma built_ok uh hn cfg method p v : runner_ok (inc_ID cfg) (built uh hn cfg method p v).
Proof.
  assert (Hall : forall cs, Forall (fun c => collector_id c = inc_ID cfg) cs ->
    Forall (collector_ok (inc_ID cfg)) cs).
  { intros cs H. eapply list.Forall_impl; [exact H|]. intros c Hc.
    split; [done|apply collector_metrics_ok]. }
  split; [done|]. unfold built, buildCollectors. cbn [rn_groups].
  apply Forall_cons; split; [|apply Forall_cons; split; [|apply Forall_cons; split; [|done]]];
    apply Hall; cbn [g_collectors]; try destruct (String.eqb _ "sql");
    repeat (apply Forall_cons; split; [reflexivity|]); apply Forall_nil_2.
Qed.

Lemma runCollectors_ok cy conn ic id cs : Forall (collector_ok id) cs ->
  Forall (collector_ok id) (runCollectors cy conn ic cs).1 /\
  of_metrics id group_metrics (runCollectors cy conn ic cs).2.
Proof.
  intros Hcs. unfold runCollectors, CollectAll.
  apply (foldl_inv (fun acc => Forall (collector_ok id) acc.1 /\ of_metrics id group_metrics acc.2));
    [|by repeat constructor].
  intros [cs' pts] c Hc [H1 H2]. rewrite list.Forall_forall in Hcs. destruct (Hcs c Hc) as [Hid Hm].
  destruct (Collect_emits cy conn ic c) as (He & Hid' & Hm').
  destruct (Collect cy conn ic c) as [c' r]. cbn [fst snd] in *.
  assert (Hc' : Forall (collector_ok id) (cs' ++ [c'])).
  { apply Forall_app. split; [done|]. constructor; [|constructor]. unfold collector_ok.
    by rewrite Hid', Hm'. }
  destruct r as [points|e]; cbn [fst snd]; (split; [done|]); [|done].
  apply of_metrics_app; [done|]. rewrite <- Hid. apply (of_metrics_weaken _ _ _ _ Hm). by apply He.
Qed.

Context {S E D : Type} {HM : MetricStore S} {HE : AlertEvaluator E} {HD : AlertDispatcher D}.

(** What a cycle can do to the shared state: nothing, or store one batch of the instance and, if
    the store took it, evaluate it. *)
Lemma collect_cases cy g (sh : Shared S E D) g' sh' id :
  collect cy g sh = Some (g', sh') -> group_ok id g ->
  group_ok id g' /\
  (sh' = sh \/ exists batch, of_metrics id group_metrics batch /\ batch <> [] /\
     match ms_Write (sh_store sh) batch with
     | (s1, Some _) => sh' = mkShared s1 (sh_evaluator sh) (sh_dispatcher sh)
     | (s1, None) =>
         evaluateAlerts (cy_now cy) (mkShared s1 (sh_evaluator sh) (sh_dispatcher sh)) batch = Some sh'
     end).
Proof.
  intros H Hg. unfold collect in H. destruct (cy_acquire cy) as [conn|]; [|injection H as <- <-; by auto].
  destruct (queryInstanceContext conn) as [ic|]; [|injection H as <- <-; by auto].
  destruct (runCollectors_ok cy conn ic id (g_collectors g) Hg) as [Hcs Hb].
  destruct (runCollectors cy conn ic (g_collectors g)) as [cs batch]. cbn [fst snd] in *.
  destruct batch as [|p batch]; [injection H as <- <-; by auto|].
  destruct (ms_Write (sh_store sh) (p :: batch)) as [s1 [err|]] eqn:Ew.
  - injection H as <- <-. split; [done|]. right. exists (p :: batch).
    split; [done|split; [done|by rewrite Ew]].
  - destruct (evaluateAlerts _ _ _) as [sh1|] eqn:Ee; [|done]. injection H as <- <-.
    split; [done|]. right. exists (p :: batch). split; [done|split; [done|by rewrite Ew]].
Qed.

End Groups.

(** ** Invariants of the whole machine *)

Section System.
Context {MR : MapRange} `{DR : Driver} (uh : string -> option string) (hn : result string).
Context (us : string -> string -> option string).
Context {I : Type} {HI : InstanceStore I}.
Context {S E D : Type} {HM : MetricStore S} {HE : AlertEvaluator E} {HD : AlertDispatcher D}.

Definition runners_ok (o : Orchestrator.Orchestrator I) : Prop :=
  forall id r, o_runners o !! id = Some r -> runner_ok id r.

Lemma startRunner_runners d cfg (o : Orchestrator.Orchestrator I) :
  runners_ok o -> runners_ok (startRunner uh hn d cfg o).
Proof.
  intros Ho id r. rewrite startRunner_lookup. destruct (decide (id = inc_ID cfg)) as [->|]; [|by apply Ho].
  destruct (connect d (o_opened o) cfg) as [e|p e|p v]; [by apply Ho..|]. intros [= <-]. apply built_ok.
Qed.

Lemma reload_runners d (o : Orchestrator.Orchestrator I) :
  runners_ok o -> runners_ok (reload uh hn d o).
Proof.
  intros Ho. unfold reload. destruct (o_instanceStore o) as [st|]; [|done].
  destruct (ist_List st) as [records|]; [|done]. cbv zeta.
  apply (foldl_inv runners_ok); [intros a [k rec] _ Ha; cbn; destruct (o_runners a !! k);
    [done|by apply startRunner_runners]|].
  apply (foldl_inv runners_ok); [|done]. intros a [k r] _ Ha. cbn.
  destruct (desiredInstances records !! k); [done|].
  intros id q. cbn. rewrite lookup_delete_Some. intros [_ Hq]. by apply Ha.
Qed.

Lemma Start_runners d cfg (st : option I) : runners_ok (Start uh hn d (New cfg st)).1.
Proof.
  unfold Start. cbn [o_cfg New].
  assert (H : runners_ok (foldl (fun o inst => if disabled inst then o else startRunner uh hn d inst o)
                           (New cfg st) (cfg_Instances cfg))).
  { apply (foldl_inv runners_ok); [|intros id r; cbn; by rewrite lookup_empty].
    intros a c _ Ha. destruct (disabled c); [done|by apply startRunner_runners]. }
  by destruct (decide _).
Qed.

(** A property of the shared state that storing, evaluating and dispatching batches of instances keep. *)
Definition sh_inv (Q : S -> E -> D -> Prop) (sh : Shared S E D) : Prop :=
  Q (sh_store sh) (sh_evaluator sh) (sh_dispatcher sh).

Record system_inv (Q : S -> E -> D -> Prop) : Prop := {
  si_write : forall s e q id points, of_metrics id runner_metrics points -> Q s e q ->
    Q (ms_Write s points).1 e q;
  si_batch : forall s s1 e q id batch now sh', of_metrics id group_metrics batch -> Q s e q ->
    ms_Write s batch = (s1, None) -> evaluateAlerts now (mkShared s1 e q) batch = Some sh' -> sh_inv Q sh'
}.

(** One that does not look at the dispatcher. *)
Record shared_inv (Q : S -> E -> Prop) : Prop := {
  sv_write : forall s e id points, of_metrics id runner_metrics points -> Q s e ->
    Q (ms_Write s points).1 e;
  sv_batch : forall s s1 e id batch now, of_metrics id group_metrics batch -> Q s e ->
    ms_Write s batch = (s1, None) -> Q s1 (ae_Evaluate now e batch).1
}.

Lemma evaluateAlerts_evaluator now (sh sh' : Shared S E D) points :
  evaluateAlerts now sh points = Some sh' ->
  sh_store sh' = sh_store sh /\ sh_evaluator sh' = (ae_Evaluate now (sh_evaluator sh) points).1.
Proof.
  unfold evaluateAlerts. destruct (ae_Evaluate now (sh_evaluator sh) points) as [e' [evs|]].
  - destruct (dispatchAll _ _); [|done]. by intros [= <-].
  - by intros [= <-].
Qed.

Lemma shared_system_inv Q : shared_inv Q -> system_inv (fun s e _ => Q s e).
Proof.
  intros HQ. split; [intros s e q; apply (sv_write _ HQ)|].
  intros s s1 e q id batch now sh' Hb Hq Hw [H1 H2]%evaluateAlerts_evaluator. unfold sh_inv.
  rewrite H1, H2. by apply (sv_batch _ HQ s s1 e id).
Qed.

Lemma task_result_metrics id cy t : of_metrics id runner_metrics (task_result id cy t).1.
Proof.
  unfold task_result. destruct (tk_col t).
  pose proof (CollectDB_of_metrics (dy_now cy) (dy_query cy (tk_pool t)) (tk_db t)) as H.
  destruct (CollectDB _ _ _) as [points cerr]. cbn [fst] in *. apply list.Forall_fmap.
  eapply list.Forall_impl; [exact H|]. intros p [Hp _]. split; [|done].
  change (mem (pt_Metric p) runner_metrics = true). apply mem_spec.
  apply mem_spec in Hp. apply elem_of_app. right. apply elem_of_app. left. exact Hp.
Qed.

Lemma task_body_inv Q id cy t (s : S) n e q : system_inv Q -> Q s e q -> Q (task_body id cy (s, n) t).1 e q.
Proof.
  intros HQ H. unfold task_body. pose proof (task_result_metrics id cy t) as Hm.
  destruct (task_result id cy t) as [[|p ps] cerr]; [done|]. by eapply (si_write _ HQ).
Qed.

Lemma telemetry_metrics now id n c : of_metrics id runner_metrics (telemetry now id n c).
Proof. repeat (constructor; [by split|]). constructor. Qed.

(** What an act of a run writes, if it writes. *)
Lemma run_act_store a dr u (s : S) dr' u' s' : run_act us a (dr, u, s) = Some (dr', u', s') ->
  s' = s \/ exists id points, of_metrics id runner_metrics points /\ s' = (ms_Write s points).1.
Proof.
  unfold run_act. destruct (du_finished u); [done|].
  destruct a as [| | |k|k|]; rewrite fmap_Some; intros (x & Hx & Hst); simplify_eq/=; try by left.
  - unfold act_work in Hx. destruct (du_running u !! k) as [t|]; [|done]. unfold task_body in Hx.
    pose proof (task_result_metrics (dr_instanceID dr) (du_cycle u) t) as Hm.
    destruct (task_result _ _ t) as [[|p ps] cerr]; simplify_eq/=; [by left|]. right. eauto.
  - unfold act_report in Hx. repeat case_match; simplify_eq/=. right. eexists _, _. split; [|reflexivity].
    apply telemetry_metrics.
Qed.

Lemma step_run_keeps Q a r (s : S) e q r' s' id : system_inv Q -> step_run us a r s = Some (r', s') ->
  Q s e q -> Q s' e q /\ (runner_ok id r -> runner_ok id r').
Proof.
  intros HQ. unfold step_run. destruct (rn_run r) as [u|]; [|done].
  destruct (run_act us a (rn_dbRunner r, u, s)) as [[[dr u'] s1]|] eqn:Ea; [|done]. intros [= <- <-] Hq.
  split; [|done]. destruct (run_act_store _ _ _ _ _ _ _ Ea) as [->|(i & points & Hp & ->)]; [done|].
  by apply (si_write _ HQ _ _ _ i).
Qed.

Lemma handle_keeps Q ev o o' (sh sh' : Shared S E D) : system_inv Q ->
  handle uh hn us ev (o, sh) = Some (o', sh') ->
  runners_ok o -> sh_inv Q sh -> runners_ok o' /\ sh_inv Q sh'.
Proof.
  intros HQ. destruct ev as [d|id i cy|id cy|id a|n a]; cbn [handle].
  - intros [= <- <-] Ho Hs. split; [|done]. destruct (o_reloading o); [by apply reload_runners|done].
  - destruct (o_runners o !! id) as [r|] eqn:Er; [|by intros [= <- <-]].
    destruct (rn_groups r !! i) as [g|] eqn:Eg; [|by intros [= <- <-]].
    destruct (collect cy g sh) as [[g' sh1]|] eqn:Ec; [|done]. intros [= <- <-] Ho Hs.
    destruct (Ho id r Er) as [Hid Hg].
    assert (Hgi : group_ok id g) by (eapply Forall_lookup_1; eauto).
    destruct (collect_cases cy g sh g' sh1 id Ec Hgi) as [Hg' Hcase]. split.
    + intros k q. cbn. rewrite lookup_insert_Some. intros [[<- <-]|[_ Hq]]; [|by apply Ho].
      split; [done|]. cbn. by apply Forall_insert.
    + destruct Hcase as [->|(batch & Hb & _ & Hw)]; [done|].
      destruct (ms_Write (sh_store sh) batch) as [s1 [err|]] eqn:Ew.
      * subst sh1. unfold sh_inv. cbn. pose proof (si_write _ HQ _ _ _ id batch (group_runner_metrics _ _ Hb) Hs) as H.
        by rewrite Ew in H.
      * by apply (si_batch _ HQ (sh_store sh) s1 (sh_evaluator sh) (sh_dispatcher sh) id batch (cy_now cy)).
  - destruct (o_runners o !! id) as [r|] eqn:Er; [|by intros [= <- <-]].
    destruct (in_run r); [by intros [= <- <-]|]. intros [= <- <-] Ho Hs. split; [|done].
    intros k q. cbn. rewrite lookup_insert_Some. intros [[<- <-]|[_ Hq]]; [exact (Ho id r Er)|by apply Ho].
  - destruct (o_runners o !! id) as [r|] eqn:Er; [|by intros [= <- <-]].
    destruct (step_run us a r (sh_store sh)) as [[r' s']|] eqn:Es; [|by intros [= <- <-]].
    intros [= <- <-] Ho Hs. destruct (step_run_keeps Q _ _ _ _ _ _ _ id HQ Es Hs) as [H1 H2]. split; [|done].
    intros k q. cbn. rewrite lookup_insert_Some. intros [[<- <-]|[_ Hq]]; [exact (H2 (Ho id r Er))|by apply Ho].
  - destruct (o_retired o !! n) as [[b r]|] eqn:Er; [|by intros [= <- <-]]. cbn [fst snd].
    destruct (step_run us a r (sh_store sh)) as [[r' s']|] eqn:Es; [|by intros [= <- <-]].
    intros [= <- <-] Ho Hs. destruct (step_run_keeps Q _ _ _ _ _ _ _ "" HQ Es Hs) as [H1 _]. by split.
Qed.

Lemma system_keeps Q evs : system_inv Q -> forall o o' (sh sh' : Shared S E D),
  handle_all uh hn us evs (o, sh) = Some (o', sh') ->
  runners_ok o -> sh_inv Q sh -> runners_ok o' /\ sh_inv Q sh'.
Proof.
  intros HQ. induction evs as [|ev evs IH]; intros o o' sh sh'; cbn [handle_all]; [by intros [= <- <-]|].
  destruct (handle uh hn us ev (o, sh)) as [[o1 sh1]|] eqn:Eh; [|done].
  intros H Ho Hs. destruct (handle_keeps Q ev o o1 sh sh1 HQ Eh Ho Hs). by apply (IH o1 o' sh1 sh').
Qed.

Lemma handle_all_keeps Q evs : shared_inv Q -> forall o o' (sh sh' : Shared S E D),
  handle_all uh hn us evs (o, sh) = Some (o', sh') ->
  runners_ok o -> Q (sh_store sh) (sh_evaluator sh) ->
  runners_ok o' /\ Q (sh_store sh') (sh_evaluator sh').
Proof. intros HQ%shared_system_inv o o' sh sh'. exact (system_keeps _ evs HQ o o' sh sh'). Qed.

End System.

(** ** Properties *)

(** The builtin rules on metrics that no collector of the groups produces. *)
Definition silent_rules : list Rule :=
  List.filter (fun r => negb (mem (r_Metric r) group_metrics)) BuiltinRules.

Lemma silent_never_match {MR : MapRange} id batch : of_metrics id group_metrics batch ->
  Forall (fun pt => pt_InstanceID pt = id /\ forallb (fun rule => negb (matches rule pt)) silent_rules = true)
    batch.
Proof.
  intros H. eapply list.Forall_impl; [exact H|]. intros pt [Hm Hid]. split; [done|].
  apply forallb_forall. intros rule Hr. apply filter_In in Hr as [_ Hr].
  unfold matches. destruct (bool_decide_reflect (pt_Metric pt = r_Metric rule)) as [He|]; [|done].
  rewrite He in Hm. by rewrite Hm in Hr.
Qed.

(** C11: Which builtin rules the groups can feed. Whatever the servers, the agent and the cluster
    managers answer, through any reloads and cycles, each batch the evaluator is given is of one
    instance and none of its points is matched by the rules on table bloat, pending logical
    synchronisation, WAL spikes, query regressions, the disk forecast and anomalies: no collector
    of the groups produces their metrics. *)
Theorem builtin_rules_without_data {MR : MapRange} `{DR : Driver} uh hn us {I} {HI : InstanceStore I}
    {S D} {HM : MetricStore S} {HD : AlertDispatcher D} d cfg (st : option I) evs (s : S) (q : D) o' sh' :
  handle_all (HE := BatchLog) uh hn us evs
    ((Start uh hn d (New cfg st)).1, mkShared s [] q) = Some (o', sh') ->
  map r_ID silent_rules
    = ["table_bloat_warning"; "table_bloat_critical"; "logical_repl_pending_sync";
       "wal_spike_warning"; "query_regression_warning"; "disk_forecast_critical";
       "ml_anomaly_warning"; "ml_anomaly_critical"] /\
  Forall (fun batch => exists id, Forall (fun pt => pt_InstanceID pt = id /\
      forallb (fun rule => negb (matches rule pt)) silent_rules = true) batch)
    (sh_evaluator sh').
Proof.
  intros H. split; [vm_compute; reflexivity|].
  set (Q := fun (_ : S) (log : list (list MetricPoint)) =>
    Forall (fun batch => exists id, of_metrics id group_metrics batch) log).
  assert (HQ : shared_inv (HE := BatchLog) Q).
  { split; [done|]. intros s0 s1 e id batch now Hb Hq _. unfold Q. cbn.
    apply Forall_app. split; [done|]. constructor; [by exists id|constructor]. }
  destruct (handle_all_keeps (HE := BatchLog) uh hn us Q evs HQ _ _ _ _ H) as [_ Hs];
    [apply Start_runners|constructor|].
  eapply list.Forall_impl; [exact Hs|]. intros batch [id Hb]. exists id. by apply silent_never_match.
Qed.


Lemma known_rows_inv {SS : SliceSort} {E} {HE : AlertEvaluator E} :
  shared_inv (fun (t : PGMetricTable) (_ : E) =>
    Forall (fun p => pt_Metric p ∈ runner_metrics) (pgm_rows t)).
Proof.
  assert (Hw : forall (s : PGMetricTable) id points, of_metrics id runner_metrics points ->
    Forall (fun p => pt_Metric p ∈ runner_metrics) (pgm_rows s) ->
    Forall (fun p => pt_Metric p ∈ runner_metrics) (pgm_rows (ms_Write s points).1)).
  { intros s id points Hp Hs. apply Forall_app. split; [exact Hs|].
    eapply list.Forall_impl; [exact Hp|]. intros p [Hm _]. by apply mem_spec. }
  split; [intros s _; exact (Hw s)|]. intros s s1 e0 id batch now Hb Hs Ew. injection Ew as <-.
  exact (Hw s id batch (group_runner_metrics _ _ Hb) Hs).
Qed.

(** C22: Every row of the metrics table has a metric of a collector. Whatever the servers, the agent
    and the cluster managers answer, through any reloads, cycles of groups and runs over databases,
    the table holds only metrics of the twenty-five group collectors, of the database collector and
    of the runners' own counters. *)
Theorem stored_metrics_known {MR : MapRange} {SS : SliceSort} `{DR : Driver} uh hn us {I}
    {HI : InstanceStore I} {E D} {HE : AlertEvaluator E} {HD : AlertDispatcher D} d cfg
    (st : option I) evs (t : PGMetricTable) (e : E) (q : D) o' sh' :
  Forall (fun p => pt_Metric p ∈ runner_metrics) (pgm_rows t) ->
  handle_all uh hn us evs ((Start uh hn d (New cfg st)).1, mkShared t e q) = Some (o', sh') ->
  Forall (fun p => pt_Metric p ∈ runner_metrics) (pgm_rows (sh_store sh')).
Proof.
  intros Ht H.
  by destruct (handle_all_keeps uh hn us _ evs (known_rows_inv (E := E)) _ _ _ _ H) as [_ Hs];
    [apply Start_runners|exact Ht|].
Qed.

(** ** Witnesses: the world of the orchestrator's *)

#[local] Existing Instance canonical_MapRange.
#[local] Existing Instance insertion_SliceSort.
#[local] Existing Instance cell_driver.

(** A server that says it has no pg_stat_statements and answers nothing else. *)
Definition plain_server : Conn := fun sql _ =>
  if String.eqb sql "SELECT pg_is_in_recovery()" then Ok ([[CBool false]], None)
  else if String.eqb sql sqlPGSSInstalled then Ok ([[CInt 0]], None)
  else Err "no such relation".

Definition plain_cycle : Cycle :=
  mkCycle _ 0 (Ok plain_server) (Err "no agent") (Err "no local") (mkAnswers (Ok None) (Ok []) (Ok ∅)).

Definition low_events : list event := [EGroup "db1" 2 plain_cycle; EReload demo_dial].

(** The low group of db1 delivers one batch. *)
Lemma builtin_rules_without_data_witness :
  exists o' sh', handle_all (HE := BatchLog) (fun _ => None) (Ok "monitor") no_url low_events
      (demo_orchestrator, mkShared () [] ()) = Some (o', sh') /\
    len (sh_evaluator sh') = 1 /\
    Forall (fun batch => exists id, Forall (fun pt => pt_InstanceID pt = id /\
        forallb (fun rule => negb (matches rule pt)) silent_rules = true) batch) (sh_evaluator sh').
Proof.
  assert (Hb : match handle_all (HE := BatchLog) (fun _ => None) (Ok "monitor") no_url low_events
      (demo_orchestrator, mkShared () [] ()) with Some (_, sh') => len (sh_evaluator sh') | None => 0 end = 1)
    by (vm_compute; reflexivity).
  destruct (handle_all (HE := BatchLog) (fun _ => None) (Ok "monitor") no_url low_events
      (demo_orchestrator, mkShared () [] ())) as [[o' sh']|] eqn:Eh; [|discriminate].
  exists o', sh'. split; [reflexivity|split; [exact Hb|]].
  exact (proj2 (builtin_rules_without_data (fun _ => None) (Ok "monitor") no_url demo_dial demo_config
    (Some demo_table) low_events () () o' sh' Eh)).
Defined.


Lemma stored_metrics_known_witness :
  exists o' sh', handle_all (HE := BatchLog) (fun _ => None) (Ok "monitor") no_url low_events
      (demo_orchestrator, mkShared (mkPGMetricTable []) [] ()) = Some (o', sh') /\
    pgm_rows (sh_store sh') <> [] /\
    Forall (fun p => pt_Metric p ∈ runner_metrics) (pgm_rows (sh_store sh')).
Proof.
  assert (Hb : match handle_all (HE := BatchLog) (fun _ => None) (Ok "monitor") no_url low_events
      (demo_orchestrator, mkShared (mkPGMetricTable []) [] ()) with
      | Some (_, sh') => match pgm_rows (sh_store sh') with [] => false | _ => true end
      | None => false end = true) by (vm_compute; reflexivity).
  destruct (handle_all (HE := BatchLog) (fun _ => None) (Ok "monitor") no_url low_events
      (demo_orchestrator, mkShared (mkPGMetricTable []) [] ())) as [[o' sh']|] eqn:Eh; [|discriminate].
  exists o', sh'. split; [reflexivity|split].
  - intros Hn. rewrite Hn in Hb. discriminate.
  - refine (stored_metrics_known (HE := BatchLog) (fun _ => None) (Ok "monitor") no_url demo_dial demo_config
      (Some demo_table) low_events (mkPGMetricTable []) [] () o' sh' _ Eh). constructor.
Defined.
