(* ===== verification/SystemAlerts.v ===== *)
(** * From what the servers answer to the alerts that are sent

    The orchestrator of [Pipeline] with the evaluator of internal/alert and its history table. The
    evaluator remembers its batches and the dispatcher its events, so that both can be compared: what
    is sent for a rule and an instance is what the rule's own machine makes of the points of that
    instance, whatever else the system collects, evaluates, reloads or fails to store in between. *)
From S2P Require Import Prelude Float64 Metric Storage SqlConn Collector CollectorsHigh OsCollectors Alert AlertRules.
From S2P Require Import AlertMachine AlertRecovery Group Config Instances DbRunnerTheorems Orchestrator.
From S2P Require Import OrchestratorTheorems Pipeline.

Local Open Scope Z_scope.

(** An evaluator that remembers its batches and when it got them. *)
Definition Remembering {E} (HE : AlertEvaluator E) : AlertEvaluator (E * list (Time * list MetricPoint)) := {|
  ae_Evaluate := fun now el points =>
    let (e', r) := ae_Evaluate now el.1 points in ((e', el.2 ++ [(now, points)]), r)
|}.

(** A dispatcher that keeps every event. *)
Definition EventLog : AlertDispatcher (list AlertEvent) := {|
  ad_Dispatch := fun log ev => Some (log ++ [ev], true)
|}.

Lemma dispatchAll_log log events : dispatchAll (HD := EventLog) log events = Some (log ++ events).
Proof.
  revert log. induction events as [|ev events IH]; intros log; cbn; [by rewrite app_nil_r|].
  by rewrite IH, <- app_assoc.
Qed.

(** ** Keys and events of one rule and one instance *)

Section keys.
Context {SS : SliceSort} {MR : MapRange}.

Lemma app_inj_r (a b s : string) : a +:+ s = b +:+ s -> a = b.
Proof.
  revert b. induction a as [|c a IH]; intros b H.
  - assert (Hl : String.length (b +:+ s) = String.length s) by (by rewrite <- H).
    rewrite string_length_app in Hl. destruct b; [done|]. cbn in Hl. lia.
  - destruct b as [|d b].
    + assert (Hl : String.length (String c a +:+ s) = String.length s) by (by rewrite H).
      rewrite string_length_app in Hl. cbn in Hl. lia.
    + rewrite !str_app_cons in H. injection H as -> H. by rewrite (IH b H).
Qed.

Definition ruleKey (r : Rule) (inst : string) : string := stateKeyWithLabels (r_ID r) inst (r_Labels r).

Lemma ruleKey_inst (r : Rule) (i j : string) : ruleKey r i = ruleKey r j -> i = j.
Proof.
  unfold ruleKey. destruct (labelled_key (r_ID r) (r_Labels r)) as [s Hs]. rewrite !Hs.
  by intros H%app_inj_r%(inj _)%(inj _).
Qed.

Lemma ruleKey_id (r r' : Rule) (i j : string) :
  colon_free (r_ID r) = true -> colon_free (r_ID r') = true -> ruleKey r i = ruleKey r' j -> r_ID r = r_ID r'.
Proof.
  unfold ruleKey. intros Hr Hr'. destruct (labelled_key (r_ID r) (r_Labels r)) as [s ->].
  destruct (labelled_key (r_ID r') (r_Labels r')) as [s' ->].
  rewrite !str_app_assoc. by intros [? _]%sep_inj.
Qed.

Definition about (r : Rule) (inst : string) (ev : AlertEvent) : bool :=
  String.eqb (e_RuleID ev) (r_ID r) && String.eqb (e_InstanceID ev) inst.

(** A step of the evaluation that belongs to a rule and an instance. *)
Definition own (r : Rule) (inst : string) (x : Rule * MetricPoint) : bool :=
  String.eqb (r_ID x.1) (r_ID r) && String.eqb (pt_InstanceID x.2) inst.

(** The points of an instance that a rule sees in the batches, each with the time of its batch. *)
Definition batchPoints (r : Rule) (inst : string) (points : list MetricPoint) : list MetricPoint :=
  List.filter (fun p => matches r p && String.eqb (pt_InstanceID p) inst) points.

Definition seenPoints (r : Rule) (inst : string) (log : list (Time * list MetricPoint))
    : list (MetricPoint * Time) :=
  concat (map (fun b => map (fun p => (p, b.1)) (batchPoints r inst b.2)) log).

(** The elements whose bit is set. *)
Definition mask {A} (bits : list bool) (l : list A) : list A := map snd (List.filter fst (combine bits l)).

Lemma mask_snoc {A} (bits : list bool) (l : list A) b x :
  length bits = length l -> mask (bits ++ [b]) (l ++ [x]) = mask bits l ++ if b then [x] else [].
Proof.
  revert l. induction bits as [|c bits IH]; intros [|y l] H; try done; [by destruct b|].
  injection H as H. specialize (IH l H). unfold mask in *. cbn. destruct c; cbn; by rewrite IH.
Qed.

Lemma mask_all {A} (bits : list bool) (l : list A) :
  length bits = length l -> forallb id bits = true -> mask bits l = l.
Proof.
  revert l. induction bits as [|c bits IH]; intros [|y l] H Hb; try done.
  injection H as H. cbn in Hb. apply andb_true_iff in Hb as [Hc Hb]. unfold id in Hc. subst c.
  unfold mask in *. cbn. by rewrite IH.
Qed.

(** What there is of a rule and an instance follows a machine: the entry of the key is the machine's,
    the history was called once for each of the machine's events, and the events sent are those whose
    call was answered, up to their ids. *)
Record tracks (r : Rule) (inst : string) (e : Evaluator) (h : FlakyHistory) (sent : list AlertEvent)
    (f : stateEntry * list AlertEvent) : Prop := {
  tk_entry : default newEntry (ev_state e !! ruleKey r inst) = f.1;
  tk_calls : length (callsOf (r_ID r) inst (fh_log h)) = length f.2;
  tk_sent : map (setID 0) (List.filter (about r inst) sent)
            = mask (map fc_answered (callsOf (r_ID r) inst (fh_log h))) f.2
}.

Context (rules : list Rule) (Hids : NoDup (map r_ID rules))
  (Hfree : forall r, r ∈ rules -> colon_free (r_ID r) = true).

Lemma rule_of_id r r' : r ∈ rules -> r' ∈ rules -> r_ID r = r_ID r' -> r = r'.
Proof.
  revert Hids. clear Hfree. induction rules as [|q l IH]; [by intros _ []%elem_of_nil|].
  cbn. intros [Hq Hl]%NoDup_cons.
  assert (Hno : forall x, x ∈ l -> r_ID x <> r_ID q).
  { intros x Hx E. apply Hq. rewrite <- E. apply list_elem_of_In, in_map, list_elem_of_In, Hx. }
  intros [->|Hr]%elem_of_cons [->|Hr']%elem_of_cons E; [done|by destruct (Hno r')|by destruct (Hno r)|].
  by apply IH.
Qed.

Lemma transition_fresh (r : Rule) (pt : MetricPoint) (en : stateEntry) (b : bool) (now : Time) en' ev :
  processTransition r pt en b now = (en', Some ev) -> setID 0 ev = ev.
Proof.
  unfold processTransition, fireAlert, resolveAlert. destruct (se_State en), b; destr_ifs; intros H; by simplify_eq/=.
Qed.

Lemma callsOf_snoc i inst log c :
  callsOf i inst (log ++ [c])
  = callsOf i inst log ++ if String.eqb (fc_RuleID c) i && String.eqb (fc_InstanceID c) inst then [c] else [].
Proof. unfold callsOf. rewrite List.filter_app. cbn. by destruct (_ && _). Qed.

(** Recording an event of another key changes nothing for this one. *)
Lemma tracks_other_record r inst e h sent f ev :
  about r inst ev = false -> tracks r inst e h sent f ->
  tracks r inst e (recordEvent h ev).1
    (sent ++ match (recordEvent h ev).2 with Ok ev' => [ev'] | Err _ => [] end) f /\
  tracks r inst e (recordEvent h ev).1 sent f.
Proof.
  intros Ha [H1 H2 H3]. destruct (record_call h ev) as (c & Hlog & E1 & E2 & Hr).
  assert (Hc : callsOf (r_ID r) inst (fh_log (recordEvent h ev).1) = callsOf (r_ID r) inst (fh_log h)).
  { rewrite Hlog, callsOf_snoc, E1, E2. unfold about in Ha. by rewrite Ha, app_nil_r. }
  split; split; rewrite ?Hc; try done. rewrite List.filter_app, map_app, H3.
  destruct (recordEvent h ev).2 as [ev'|]; [|by rewrite app_nil_r]. destruct Hr as [_ Hid].
  cbn [List.filter]. replace (about r inst ev') with false; [by rewrite app_nil_r|].
  rewrite <- Ha. change (about r inst (setID 0 ev) = about r inst (setID 0 ev')). by rewrite Hid.
Qed.

(** An entry of another key changes nothing either. *)
Lemma tracks_other_entry r inst e k en h sent f :
  k <> ruleKey r inst -> tracks r inst e h sent f ->
  tracks r inst (set_state (<[k := en]> (ev_state e)) e) h sent f.
Proof. intros Hk [H1 H2 H3]. split; try done. cbn [ev_state set_state]. by rewrite lookup_insert_ne. Qed.

(** The event of the machine itself. *)
Lemma tracks_own_record r inst e en h sent f ev :
  about r inst ev = true -> setID 0 ev = ev -> tracks r inst e h sent f ->
  tracks r inst (set_state (<[ruleKey r inst := en]> (ev_state e)) e) (recordEvent h ev).1
    (sent ++ match (recordEvent h ev).2 with Ok ev' => [ev'] | Err _ => [] end) (en, f.2 ++ [ev]).
Proof.
  intros Ha Hfresh [H1 H2 H3]. destruct (record_call h ev) as (c & Hlog & E1 & E2 & Hr).
  assert (Hc : callsOf (r_ID r) inst (fh_log (recordEvent h ev).1) = callsOf (r_ID r) inst (fh_log h) ++ [c]).
  { rewrite Hlog, callsOf_snoc, E1, E2. unfold about in Ha. by rewrite Ha. }
  split; cbn [ev_state set_state fst snd].
  - by rewrite lookup_insert_eq.
  - by rewrite Hc, !length_app, H2.
  - rewrite Hc, map_app. change (map fc_answered [c]) with [fc_answered c].
    rewrite mask_snoc by (by rewrite length_map). rewrite List.filter_app, map_app, H3. f_equal.
    destruct (recordEvent h ev).2 as [ev'|]; [|by rewrite Hr]. destruct Hr as [-> Hid].
    rewrite Hfresh in Hid. cbn [List.filter].
    replace (about r inst ev') with true; [cbn [map]; by rewrite Hid|].
    rewrite <- Ha, <- Hid. done.
Qed.

Lemma evalStep_tracks now before (acc : Evaluator * FlakyHistory * list AlertEvent) x r inst f :
  x.1 ∈ rules -> r ∈ rules -> tracks r inst acc.1.1 acc.1.2 (before ++ acc.2) f ->
  let acc' := evalStep now acc x in
  ev_rules acc'.1.1 = ev_rules acc.1.1 /\
  tracks r inst acc'.1.1 acc'.1.2 (before ++ acc'.2) (if own r inst x then feedStep r f (x.2, now) else f).
Proof.
  destruct acc as [[e s] sent], x as [q pt]. cbn [fst snd]. intros Hq Hr Ht.
  unfold evalStep, evalPoint. cbn [fst snd].
  change (stateKeyWithLabels (r_ID q) _ (r_Labels q)) with (ruleKey q (pt_InstanceID pt)).
  change (Compare (r_Operator q) _ _) with (breach q pt).
  pose proof (transition_firing q pt (default newEntry (ev_state e !! ruleKey q (pt_InstanceID pt)))
    (breach q pt) now) as Hev.
  assert (Hkey : own r inst (q, pt) = false -> ruleKey q (pt_InstanceID pt) <> ruleKey r inst).
  { unfold own. cbn [fst snd]. intros Ho Hk. pose proof Hk as Hi. apply ruleKey_id in Hi; [|by apply Hfree..].
    apply rule_of_id in Hi; [|done..]. subst q. apply ruleKey_inst in Hk. subst inst.
    by rewrite !String.eqb_refl in Ho. }
  assert (Hown : own r inst (q, pt) = true -> q = r /\ pt_InstanceID pt = inst).
  { unfold own. cbn [fst snd]. intros [E1%String.eqb_eq E2%String.eqb_eq]%andb_true_iff. split; [|done].
    by apply rule_of_id. }
  destruct (processTransition q pt _ (breach q pt) now) as [en [ev|]] eqn:Ep.
  - destruct Hev as (H1 & H2 & _).
    pose proof (tracks_other_record r inst e s (before ++ sent) f ev) as Hother.
    pose proof (tracks_own_record r inst e en s (before ++ sent) f ev) as Hself.
    destruct (recordEvent s ev) as [s' res]. cbn [fst snd] in *. split; [done|].
    replace (before ++ match res with Ok ev' => sent ++ [ev'] | Err _ => sent end)
      with ((before ++ sent) ++ match res with Ok ev' => [ev'] | Err _ => [] end)
      by (destruct res; by rewrite <- app_assoc, ?app_nil_r).
    destruct (own r inst (q, pt)) eqn:Eo.
    + destruct (Hown eq_refl) as [-> <-]. unfold feedStep. destruct f as [fe fevs]. cbn [fst snd].
      pose proof (tk_entry _ _ _ _ _ _ Ht) as He. cbn [fst] in He. rewrite He in Ep. rewrite Ep.
      apply Hself; [|by eapply transition_fresh|done]. unfold about. by rewrite H1, H2, !String.eqb_refl.
    + apply tracks_other_entry; [by apply Hkey|]. apply Hother; [|done]. unfold about. by rewrite H1, H2.
  - cbn [fst snd]. split; [done|]. destruct (own r inst (q, pt)) eqn:Eo.
    + destruct (Hown eq_refl) as [-> <-]. unfold feedStep. destruct f as [fe fevs]. cbn [fst snd].
      destruct Ht as [He Hc Hs]. cbn [fst snd] in *. rewrite He in Ep. rewrite Ep. cbn [option_list].
      split; cbn [ev_state set_state fst snd]; [by rewrite lookup_insert_eq| |]; by rewrite app_nil_r.
    + apply tracks_other_entry; [by apply Hkey|done].
Qed.

(** ** A batch *)

Lemma evalSteps_rules now l (acc : Evaluator * FlakyHistory * list AlertEvent) :
  ev_rules (foldl (evalStep now) acc l).1.1 = ev_rules acc.1.1.
Proof.
  clear. apply (foldl_inv (fun a : Evaluator * FlakyHistory * list AlertEvent => ev_rules a.1.1 = ev_rules acc.1.1)); [|done].
  intros [[e s] sent] [q pt] _ H. unfold evalStep. cbn [fst snd] in *.
  unfold evalPoint. destruct (processTransition _ _ _ _ _) as [en [ev|]]; [by destruct (recordEvent s ev)|done].
Qed.

Lemma evalSteps_tracks now before r inst l : forall (acc : Evaluator * FlakyHistory * list AlertEvent) f,
  r ∈ rules -> (forall x, x ∈ l -> x.1 ∈ rules) -> tracks r inst acc.1.1 acc.1.2 (before ++ acc.2) f ->
  let acc' := foldl (evalStep now) acc l in
  ev_rules acc'.1.1 = ev_rules acc.1.1 /\
  tracks r inst acc'.1.1 acc'.1.2 (before ++ acc'.2)
    (foldl (feedStep r) f (map (fun x => (x.2, now)) (List.filter (own r inst) l))).
Proof.
  induction l as [|x l IH]; intros acc f Hr Hl Ht; [done|]. cbn [foldl].
  destruct (evalStep_tracks now before acc x r inst f) as [H1 H2]; [apply Hl; by left|done|done|].
  destruct (IH (evalStep now acc x) _ Hr (fun y Hy => Hl y (list_elem_of_further _ _ _ Hy)) H2) as [G1 G2].
  rewrite G1. split; [done|]. cbn [List.filter]. by destruct (own r inst x).
Qed.

Lemma own_pairs r q inst ps :
  List.filter (own r inst) (map (pair q) ps)
  = if String.eqb (r_ID q) (r_ID r) then map (pair q) (List.filter (fun p => String.eqb (pt_InstanceID p) inst) ps)
    else [].
Proof.
  induction ps as [|p ps IH]; [by destruct (String.eqb _ _)|]. cbn [map List.filter]. rewrite IH.
  unfold own. cbn [fst snd]. destruct (String.eqb (r_ID q) (r_ID r)); [|done]. cbn [andb].
  by destruct (String.eqb (pt_InstanceID p) inst).
Qed.

Lemma steps_own r inst points : r ∈ rules ->
  List.filter (own r inst) (steps rules points) = map (pair r) (batchPoints r inst points).
Proof.
  assert (Hsub : forall l, NoDup (map r_ID l) ->
    (r_ID r ∉ map r_ID l -> List.filter (own r inst) (steps l points) = []) /\
    (r ∈ l -> List.filter (own r inst) (steps l points) = map (pair r) (batchPoints r inst points))).
  { induction l as [|q l IH]; [split; [done|by intros []%elem_of_nil]|]. cbn [map]. intros [Hq Hl]%NoDup_cons.
    destruct (IH Hl) as [IH1 IH2]. rewrite steps_cons, List.filter_app, own_pairs. split.
    - intros [Hn1 Hn2]%not_elem_of_cons. rewrite IH1, app_nil_r by done.
      destruct (String.eqb_spec (r_ID q) (r_ID r)); [by destruct Hn1|done].
    - intros [->|Hr]%elem_of_cons.
      + rewrite String.eqb_refl, IH1, app_nil_r by done. unfold batchPoints. by rewrite filter_filter_bool.
      + destruct (String.eqb_spec (r_ID q) (r_ID r)) as [E|_]; [|by apply IH2]. exfalso. apply Hq. rewrite E.
        apply list_elem_of_In, in_map, list_elem_of_In, Hr. }
  apply Hsub, Hids.
Qed.

(** The forecasts call the history for their own rules only, and send nothing. *)
Lemma forecasts_tracks r inst sent f fnow ids (acc : Evaluator * FlakyHistory) :
  r ∈ rules -> r_Type r <> RuleTypeForecastThreshold -> ev_rules acc.1 = rules ->
  tracks r inst acc.1 acc.2 sent f ->
  let acc' := foldl (fun a i => runForecastAlerts (fnow i) a i) acc ids in
  ev_rules acc'.1 = rules /\ tracks r inst acc'.1 acc'.2 sent f.
Proof.
  intros Hr Hty Hrs Ht.
  pose (P := fun a : Evaluator * FlakyHistory => ev_rules a.1 = rules /\ tracks r inst a.1 a.2 sent f).
  apply (foldl_inv P); [|by split].
  intros a i _ [Ha1 Ha2]. unfold runForecastAlerts. destruct (ev_forecastProvider a.1) as [fp|]; [|by split].
  rewrite Ha1. apply (foldl_inv P); [|by split].
  intros [e s] q [Hq%bool_decide_eq_true Hin]%elem_of_filter_bool [He Hs]. cbn [fst snd] in *.
  destruct (forecastRule_effect fp i (fnow i) e s q) as (H1 & H2 & H3).
  destruct (forecastRule fp i (fnow i) (e, s) q) as [e' s']. cbn [fst snd] in *.
  split; [by rewrite <- He|]. cbn [fst snd].
  assert (Hs' : tracks r inst e s' sent f).
  { destruct H3 as [->|(ev & E & ->)]; [done|]. apply tracks_other_record; [|done].
    unfold about. rewrite E. apply andb_false_iff. left. apply String.eqb_neq. intros Eq.
    apply Hty. rewrite <- Hq. f_equal. symmetry. by apply rule_of_id. }
  destruct Hs' as [G1 G2 G3]. split; [by rewrite H1|done|done].
Qed.

Lemma Evaluate_tracks now fnow e s before points :
  ev_rules e = rules ->
  let '(e', s', sent) := Evaluate now fnow e s points in
  ev_rules e' = rules /\
  forall r inst f, r ∈ rules -> r_Type r <> RuleTypeForecastThreshold -> tracks r inst e s before f ->
    tracks r inst e' s' (before ++ sent)
      (foldl (feedStep r) f (map (fun p => (p, now)) (batchPoints r inst points))).
Proof.
  intros He. unfold Evaluate. destruct ((len (ev_rules e) =? 0) || (len points =? 0)) eqn:E.
  - split; [done|]. intros r inst f Hr _ Ht. rewrite app_nil_r.
    apply orb_true_iff in E as [E|E]; zb; unfold len in E.
    + rewrite He in E. destruct rules; [by apply elem_of_nil in Hr|simpl in E; lia].
    + destruct points; [done|simpl in E; lia].
  - rewrite evalRules_steps, He.
    pose proof (fun r inst f => evalSteps_tracks now before r inst (steps rules points) (e, s, []) f) as Hsteps.
    pose proof (evalSteps_rules now (steps rules points) (e, s, [])) as Hrs.
    destruct (foldl (evalStep now) (e, s, []) _) as [[e1 s1] sent]. cbn [fst snd] in *.
    assert (Hru : ev_rules e1 = rules) by congruence.
    pose proof (fun r inst f => forecasts_tracks r inst (before ++ sent) f fnow (uniqueInstances points) (e1, s1)) as Hf.
    pose proof (runForecasts_frame fnow (uniqueInstances points) (e1, s1)) as [_ Hr2].
    destruct (foldl _ (e1, s1) _) as [e2 s2]. cbn [fst snd] in *.
    split; [congruence|]. intros r inst f Hr Hty Ht.
    rewrite <- (app_nil_r before) in Ht. destruct (Hsteps r inst f Hr) as [_ Hst]; [by intros x Hx%steps_rules|done|].
    rewrite steps_own, map_map in Hst by done. by apply Hf.
Qed.
(** ** The whole system *)

Definition watched (e : Evaluator) (s : FlakyHistory) : Prop :=
  ev_rules e = rules /\ ev_state e = ∅ /\ fh_log s = [].

(** What holds at any moment: the rules are in place, what there is of them follows their machines on
    the points of the batches so far, and these are in the table of metrics. *)
Definition followed (t : PGMetricTable) (el : (Evaluator * FlakyHistory) * list (Time * list MetricPoint))
    (sent : list AlertEvent) : Prop :=
  ev_rules el.1.1 = rules /\
  (forall r inst, r ∈ rules -> r_Type r <> RuleTypeForecastThreshold ->
     tracks r inst el.1.1 el.1.2 sent (feed r (seenPoints r inst el.2))) /\
  Forall (fun b => b.2 ⊆ pgm_rows t) el.2.

Lemma seenPoints_snoc r inst log now points :
  seenPoints r inst (log ++ [(now, points)])
  = seenPoints r inst log ++ map (fun p => (p, now)) (batchPoints r inst points).
Proof. unfold seenPoints. rewrite map_app, concat_app. cbn. by rewrite app_nil_r. Qed.

Lemma followed_inv : system_inv (S := PGMetricTable) (HE := Remembering EvaluatorOf) (HD := EventLog) followed.
Proof.
  assert (Hgrow : forall t (log : list (Time * list MetricPoint)) points,
    Forall (fun b => b.2 ⊆ pgm_rows t) log -> Forall (fun b => b.2 ⊆ pgm_rows (pgm_Write t points)) log).
  { intros t log points H. eapply list.Forall_impl; [exact H|]. intros b Hb p Hp. cbn. apply elem_of_app. left. by apply Hb. }
  split.
  - intros t el sent id points _ (H1 & H2 & H3). unfold followed. split_and!; try done. by apply Hgrow.
  - intros t t1 [[e h] log] sent id batch now sh' _ (H1 & H2 & H3) [= <-] He. cbn [fst snd] in *.
    unfold evaluateAlerts in He. cbn [ae_Evaluate Remembering EvaluatorOf sh_evaluator fst snd] in He.
    pose proof (Evaluate_tracks now (fun _ => now) e h sent batch H1) as Hv.
    destruct (Evaluate now (fun _ => now) e h batch) as [[e' h'] evs].
    rewrite dispatchAll_log in He. injection He as <-. destruct Hv as (G1 & G2).
    unfold sh_inv, followed. cbn [fst snd sh_evaluator sh_dispatcher sh_store].
    split_and!; [exact G1| |].
    + intros r inst Hr Hty. rewrite seenPoints_snoc. unfold feed. rewrite foldl_app. by apply G2, H2.
    + apply Forall_app. split; [by apply Hgrow|]. repeat constructor. intros p Hp. cbn. apply elem_of_app. by right.
Qed.

End keys.


(** ** Witness: the connections of db1 *)

#[local] Existing Instance canonical_MapRange.
#[local] Existing Instance insertion_SliceSort.
#[local] Existing Instance cell_driver.

(** A server with so many of a hundred connections in use. *)
Definition busy_server (used : Z) : Conn := fun sql _ =>
  if String.eqb sql "SELECT pg_is_in_recovery()" then Ok ([[CBool false]], None)
  else if String.eqb sql sqlConnectionsByState then Ok ([[CText "active"; CInt used]], None)
  else if String.eqb sql sqlConnectionsMaxReserved then Ok ([[CInt 100; CInt 0]], None)
  else Err "no such relation".

Definition busy_cycle (now : Time) (used : Z) : Cycle :=
  mkCycle _ now (Ok (busy_server used)) (Err "no agent") (Err "no local") (mkAnswers (Ok None) (Ok []) (Ok ∅)).

(** Three cycles at 85 per cent, then one at 10. *)
Definition busy_events : list event :=
  [ EGroup "db1" 0 (busy_cycle 0 85); EReload demo_dial; EGroup "db1" 0 (busy_cycle (10 * Second) 85);
    EGroup "db1" 0 (busy_cycle (20 * Second) 85); EGroup "db1" 0 (busy_cycle (30 * Second) 10) ].

Definition demo_evaluator : Evaluator := set_rules BuiltinRules NewEvaluator.
Definition demo_history (plan : list outcome) : FlakyHistory :=
  mkFlaky (mkPGHistory [] 1 (list_to_set (map r_ID BuiltinRules)) true) plan [].

Definition busy_run (plan : list outcome) :=
  handle_all (I := PGInstanceStore) (HE := Remembering EvaluatorOf) (HD := EventLog) (fun _ => None)
    (Ok "monitor") no_url busy_events
    ((Start (fun _ => None) (Ok "monitor") demo_dial (Orchestrator.New demo_config None)).1,
     mkShared (mkPGMetricTable []) ((demo_evaluator, demo_history plan), []) []).

Definition busy_sent (plan : list outcome) : list AlertEvent :=
  match busy_run plan with
  | Some (_, sh') => List.filter (about rule_connections_warning "db1") (sh_dispatcher sh')
  | None => []
  end.

(** One firing, at the third cycle, and one resolution; an event whose call gets no answer is not sent,
    be it in the table or not. *)
Example busy_fires_once :
  map (fun plan => map (fun ev => (e_IsResolution ev, e_FiredAt ev)) (busy_sent plan))
    [[]; [Ran; Lost]; [Refused; Ran]]
  = [[(false, 20 * Second); (true, 20 * Second)]; [(false, 20 * Second)]; [(true, 20 * Second)]].
Proof. vm_compute. reflexivity. Qed.

Lemma builtin_colon_free q : q ∈ BuiltinRules -> colon_free (r_ID q) = true.
Proof.
  assert (H : Forall (fun q => colon_free (r_ID q) = true) BuiltinRules) by repeat constructor.
  rewrite list.Forall_forall in H. apply H.
Qed.

