(* ===== verification/StatementStore.v ===== *)
(** * The store of statement snapshots

    Models internal/statements/store.go, pgstore.go and nullstore.go over the tables of migration
    015: a snapshot has a unique (instance, time), an entry the primary key (snapshot, query,
    database, user), and deleting a snapshot deletes its entries. Timestamps keep microseconds.
    [ps_fault] says at which phase of a statement the server answers an error. *)
From stdpp Require Import pretty.
From S2P Require Import Prelude Float64 Statements SqlConn Collector.

Local Open Scope Z_scope.

Record SnapshotListOptions := mkSnapshotList {
  slo_Limit : Z;
  slo_Offset : Z;
  slo_From : option Time;
  slo_To : option Time
}.

(** The interface SnapshotStore. [GetSnapshot] may answer a nil snapshot without an error. *)
Class SnapshotStore (T : Type) := {
  st_WriteSnapshot : T -> Snapshot -> list SnapshotEntry -> T * result Z;
  st_GetSnapshot : T -> Z -> result (option Snapshot);
  st_GetSnapshotEntries : T -> Z -> Z -> Z -> result (list SnapshotEntry * Z);
  st_ListSnapshots : T -> string -> SnapshotListOptions -> result (list Snapshot * Z);
  st_GetLatestSnapshots : T -> string -> Z -> result (list Snapshot);
  st_GetEntriesForQuery : T -> string -> Z -> Time -> Time ->
    result (list SnapshotEntry * list Snapshot);
  st_CleanOld : T -> Time -> T * option error
}.

(** ** The tables *)

Inductive phase := PBegin | PInsert | PEntries | PCommit | PQuery | PRows.

Record PGSnapshotStore := mkPGSnapshotStore {
  ps_snaps : gmap Z Snapshot;
  ps_entries : list SnapshotEntry;
  ps_seq : Z;
  ps_fault : phase -> option error
}.

(** The primary key of an entry row and the unique key of a snapshot row. *)
Definition pk (e : SnapshotEntry) : Z * (Z * Z * Z) := (se_SnapshotID e, entryKey e).
Definition uq (r : Snapshot) : string * Time := (sn_InstanceID r, sn_CapturedAt r).

(** What [INSERT ... RETURNING id] of a snapshot stores. *)
Definition snapshotRow (id : Z) (snap : Snapshot) : Snapshot :=
  mkSnapshot id (sn_InstanceID snap) (pg_time (sn_CapturedAt snap)) (sn_PGVersion snap)
    (pg_time <$> sn_StatsReset snap) (sn_TotalStatements snap) (sn_TotalCalls snap)
    (sn_TotalExecTime snap).

(** The values of the columns of an entry: the snapshot id is the new one. *)
Definition entryValues (snapID : Z) (e : SnapshotEntry) : SnapshotEntry :=
  mkSnapshotEntry snapID (se_QueryID e) (se_UserID e) (se_DbID e) (se_DatabaseName e)
    (se_UserName e) (se_Query e) (se_Calls e) (se_TotalExecTime e) (se_TotalPlanTime e)
    (se_Rows e) (se_SharedBlksHit e) (se_SharedBlksRead e) (se_SharedBlksDirtied e)
    (se_SharedBlksWritten e) (se_LocalBlksHit e) (se_LocalBlksRead e) (se_TempBlksRead e)
    (se_TempBlksWritten e) (se_BlkReadTime e) (se_BlkWriteTime e) (se_WALRecords e)
    (se_WALFpi e) (se_WALBytes e) (se_MeanExecTime e) (se_MinExecTime e) (se_MaxExecTime e)
    (se_StddevExecTime e).

Definition next_id (s : PGSnapshotStore) : PGSnapshotStore :=
  mkPGSnapshotStore (ps_snaps s) (ps_entries s) (ps_seq s + 1) (ps_fault s).

(** ** Writing *)

(** The totals, in the order of the entries. *)
Definition total_calls (entries : list SnapshotEntry) : Z :=
  foldl (fun t e => i64 (t + se_Calls e)) 0 entries.
Definition total_exec (entries : list SnapshotEntry) : float64 :=
  foldl (fun t e => fadd t (se_TotalExecTime e)) f0 entries.

Definition with_totals (snap : Snapshot) (entries : list SnapshotEntry) : Snapshot :=
  mkSnapshot (sn_ID snap) (sn_InstanceID snap) (sn_CapturedAt snap) (sn_PGVersion snap)
    (sn_StatsReset snap) (len entries) (total_calls entries) (total_exec entries).

Definition err_duplicate : error := "duplicate key value violates unique constraint".

(** Rows enter the table one by one, each against the primary key. *)
Fixpoint insertRows (table rows : list SnapshotEntry) : option (list SnapshotEntry) :=
  match rows with
  | [] => Some table
  | r :: rows' =>
      if bool_decide (pk r ∈ map pk table) then None else insertRows (table ++ [r]) rows'
  end.

(** [copyEntries] and [batchInsertEntries] differ in the protocol and the text of the error. *)
Definition writeEntries (what : string) (s : PGSnapshotStore) (snapID : Z)
    (entries : list SnapshotEntry) : result (list SnapshotEntry) :=
  match ps_fault s PEntries with
  | Some e => Err (what +:+ e)
  | None => match insertRows (ps_entries s) (map (entryValues snapID) entries) with
            | None => Err (what +:+ err_duplicate)
            | Some table => Ok table
            end
  end.

Definition copyEntries := writeEntries "copy entries: ".
Definition batchInsertEntries := writeEntries "batch insert entry: ".

(** A failing transaction is rolled back; the id it took is not given again. *)
Definition pg_WriteSnapshot (s : PGSnapshotStore) (snap0 : Snapshot) (entries : list SnapshotEntry)
    : PGSnapshotStore * result Z :=
  let snap := with_totals snap0 entries in
  match ps_fault s PBegin with
  | Some e => (s, Err ("begin tx: " +:+ e))
  | None =>
  match ps_fault s PInsert with
  | Some e => (s, Err ("insert snapshot: " +:+ e))
  | None =>
      let snapID := ps_seq s in
      let row := snapshotRow snapID snap in
      if bool_decide (uq row ∈ map (fun kv => uq kv.2) (map_to_list (ps_snaps s)))
      then (next_id s, Err ("insert snapshot: " +:+ err_duplicate))
      else
        match (if len entries =? 0 then Ok (ps_entries s)
               else if 100 <? len entries then copyEntries s snapID entries
               else batchInsertEntries s snapID entries) with
        | Err e => (next_id s, Err e)
        | Ok table =>
            match ps_fault s PCommit with
            | Some e => (next_id s, Err ("commit: " +:+ e))
            | None =>
                (mkPGSnapshotStore (<[snapID := row]> (ps_snaps s)) table (ps_seq s + 1)
                   (ps_fault s), Ok snapID)
            end
        end
  end
  end.

(** Deletion cascades to the entries. *)
Definition pg_CleanOld (s : PGSnapshotStore) (olderThan : Time) : PGSnapshotStore * option error :=
  match ps_fault s PQuery with
  | Some e => (s, Some ("clean old snapshots: " +:+ e))
  | None =>
      let keep := base.filter (fun kv => negb (time_Before (sn_CapturedAt kv.2) (pg_time olderThan)))
                    (ps_snaps s) in
      (mkPGSnapshotStore keep
         (List.filter (fun e => bool_decide (is_Some (keep !! se_SnapshotID e))) (ps_entries s))
         (ps_seq s) (ps_fault s), None)
  end.

(** ** Reading *)

(** The rows of a SELECT with its two failures: the query and the end of its rows. *)
Definition select {A} (s : PGSnapshotStore) (what rerr : string) (rows : result A) : result A :=
  match ps_fault s PQuery with
  | Some e => Err (what +:+ e)
  | None =>
      match rows with
      | Err e => Err (what +:+ e)
      | Ok a => match ps_fault s PRows with Some e => Err (rerr +:+ e) | None => Ok a end
      end
  end.

(** [COUNT] OVER: every row of the page carries the count; an empty page leaves it at zero. *)
Definition counted {A} (all : list A) (page : list A) : list A * Z :=
  (page, match page with [] => 0 | _ => len all end).

Definition default50 (limit : Z) : Z := if limit <=? 0 then 50 else limit.

Definition pg_GetSnapshot (s : PGSnapshotStore) (id : Z) : result (option Snapshot) :=
  let failed e := Err ("get snapshot " +:+ pretty id +:+ ": " +:+ e) in
  match ps_fault s PQuery with
  | Some e => failed e
  | None => match ps_snaps s !! id with
            | Some row => Ok (Some row)
            | None => failed "no rows in result set"
            end
  end.

Section reading.
Context {SS : SliceSort} {MR : MapRange}.

Definition entryRows (s : PGSnapshotStore) (id : Z) : list SnapshotEntry :=
  List.filter (fun e => se_SnapshotID e =? id) (ps_entries s).

(** [ORDER BY total_exec_time DESC]. *)
Definition byExecTime : list SnapshotEntry -> list SnapshotEntry :=
  sort_slice (fun a b => sql_lt (se_TotalExecTime b) (se_TotalExecTime a)).

Definition pg_GetSnapshotEntries (s : PGSnapshotStore) (snapshotID limit offset : Z)
    : result (list SnapshotEntry * Z) :=
  let rows := entryRows s snapshotID in
  select s ("get entries for snapshot " +:+ pretty snapshotID +:+ ": ") "entries rows: "
    (counted rows <$> sql_page (default50 limit) offset (byExecTime rows)).

Definition snapshotRows (s : PGSnapshotStore) (instanceID : string) : list Snapshot :=
  List.filter (fun r => bool_decide (sn_InstanceID r = instanceID))
    (map snd (map_range (ps_snaps s))).

(** [ORDER BY captured_at DESC]. *)
Definition newestFirst : list Snapshot -> list Snapshot :=
  sort_slice (fun a b => time_Before (sn_CapturedAt b) (sn_CapturedAt a)).

Definition listed (opts : SnapshotListOptions) (r : Snapshot) : bool :=
  match slo_From opts with
  | Some from => negb (time_Before (sn_CapturedAt r) (pg_time from)) | None => true
  end
  && match slo_To opts with
     | Some to => negb (time_After (sn_CapturedAt r) (pg_time to)) | None => true
     end.

Definition pg_ListSnapshots (s : PGSnapshotStore) (instanceID : string)
    (opts : SnapshotListOptions) : result (list Snapshot * Z) :=
  let rows := List.filter (listed opts) (snapshotRows s instanceID) in
  select s "list snapshots: " "snapshots rows: "
    (counted rows <$> sql_page (default50 (slo_Limit opts)) (slo_Offset opts) (newestFirst rows)).

Definition pg_GetLatestSnapshots (s : PGSnapshotStore) (instanceID : string) (n : Z)
    : result (list Snapshot) :=
  let n := if n <=? 0 then 2 else n in
  select s "get latest snapshots: " "latest snapshots rows: "
    (sql_page n 0 (newestFirst (snapshotRows s instanceID))).

(** *** Column names *)

(** The columns of the two tables, by migration 015. *)
Definition pgss_snapshots_columns : list string :=
  ["id"; "instance_id"; "captured_at"; "pg_version"; "stats_reset"; "total_statements";
   "total_calls"; "total_exec_time"].

Definition pgss_snapshot_entries_columns : list string :=
  ["snapshot_id"; "queryid"; "userid"; "dbid"; "database_name"; "user_name"; "query"; "calls";
   "total_exec_time"; "total_plan_time"; "rows"; "shared_blks_hit"; "shared_blks_read";
   "shared_blks_dirtied"; "shared_blks_written"; "local_blks_hit"; "local_blks_read";
   "temp_blks_read"; "temp_blks_written"; "blk_read_time"; "blk_write_time"; "wal_records";
   "wal_fpi"; "wal_bytes"; "mean_exec_time"; "min_exec_time"; "max_exec_time";
   "stddev_exec_time"].

(** [entryCols]; in the join, the text puts the alias before the first of them only. *)
Definition entryCols : list string := pgss_snapshot_entries_columns.

Definition unqualified : list string := tail entryCols.

(** A column without an alias must belong to one table of the FROM clause. *)
Definition ambiguous (tables : list (list string)) (column : string) : bool :=
  (1 <? length (List.filter (fun cols => bool_decide (column ∈ cols)) tables))%nat.

(** The error by which the server refuses a select list. *)
Definition resolve (tables : list (list string)) (columns : list string) : option error :=
  match List.find (ambiguous tables) columns with
  | Some c => Some ("column reference " +:+ c +:+ " is ambiguous")
  | None => None
  end.

Definition queryRows (s : PGSnapshotStore) (instanceID : string) (queryID : Z) (from to : Time)
    : list (SnapshotEntry * Snapshot) :=
  sort_slice (fun a b => time_Before (sn_CapturedAt a.2) (sn_CapturedAt b.2))
    (omap (fun e =>
       snap ← ps_snaps s !! se_SnapshotID e;
       if (se_QueryID e =? queryID) && bool_decide (sn_InstanceID snap = instanceID)
          && negb (time_Before (sn_CapturedAt snap) (pg_time from))
          && negb (time_After (sn_CapturedAt snap) (pg_time to))
       then Some (e, snap) else None) (ps_entries s)).

Definition pg_GetEntriesForQuery (s : PGSnapshotStore) (instanceID : string) (queryID : Z)
    (from to : Time) : result (list SnapshotEntry * list Snapshot) :=
  select s ("get entries for query " +:+ pretty queryID +:+ ": ") "query entries rows: "
    match resolve [pgss_snapshot_entries_columns; pgss_snapshots_columns] unqualified with
    | Some e => Err e
    | None => let rows := queryRows s instanceID queryID from to in Ok (map fst rows, map snd rows)
    end.

#[export] Instance PGSnapshots : SnapshotStore PGSnapshotStore := {|
  st_WriteSnapshot := pg_WriteSnapshot;
  st_GetSnapshot := pg_GetSnapshot;
  st_GetSnapshotEntries := pg_GetSnapshotEntries;
  st_ListSnapshots := pg_ListSnapshots;
  st_GetLatestSnapshots := pg_GetLatestSnapshots;
  st_GetEntriesForQuery := pg_GetEntriesForQuery;
  st_CleanOld := pg_CleanOld
|}.

End reading.

(** ** nullstore.go *)

Inductive NullSnapshotStore := mkNull.

#[export] Instance NullSnapshots : SnapshotStore NullSnapshotStore := {|
  st_WriteSnapshot := fun n _ _ => (n, Ok 0);
  st_GetSnapshot := fun _ _ => Ok None;
  st_GetSnapshotEntries := fun _ _ _ _ => Ok ([], 0);
  st_ListSnapshots := fun _ _ _ => Ok ([], 0);
  st_GetLatestSnapshots := fun _ _ _ => Ok [];
  st_GetEntriesForQuery := fun _ _ _ _ _ => Ok ([], []);
  st_CleanOld := fun n _ => (n, None)
|}.

(** * Capturing statement snapshots

    Models internal/statements/capture.go: the version-gated query, one capture of an instance and
    the periodic cycle with its clean-up. The pool of an instance and the connection acquired from
    it are parameters, so is the clock of every step. *)

Definition pgssGate : Gate := mkGate "pgss_snapshot"
  [ mkVariant (mkRange 13 0 0 0) "SELECT s.queryid, s.userid, s.dbid, left(s.query, 8192) AS query,
       s.calls, s.total_exec_time, s.total_plan_time, s.rows,
       s.shared_blks_hit, s.shared_blks_read, s.shared_blks_dirtied, s.shared_blks_written,
       s.local_blks_hit, s.local_blks_read, s.temp_blks_read, s.temp_blks_written,
       s.blk_read_time, s.blk_write_time,
       s.wal_records, s.wal_fpi, s.wal_bytes,
       s.mean_exec_time, s.min_exec_time, s.max_exec_time, s.stddev_exec_time
FROM pg_stat_statements s WHERE s.queryid IS NOT NULL";
    mkVariant (mkRange 9 0 12 99) "SELECT s.queryid, s.userid, s.dbid, left(s.query, 8192) AS query,
       s.calls, s.total_time AS total_exec_time, s.rows,
       s.shared_blks_hit, s.shared_blks_read, s.shared_blks_dirtied, s.shared_blks_written,
       s.local_blks_hit, s.local_blks_read, s.temp_blks_read, s.temp_blks_written,
       s.blk_read_time, s.blk_write_time,
       NULL::double precision AS total_plan_time,
       NULL::bigint AS wal_records, NULL::bigint AS wal_fpi, NULL::numeric AS wal_bytes,
       NULL::double precision AS mean_exec_time, NULL::double precision AS min_exec_time,
       NULL::double precision AS max_exec_time, NULL::double precision AS stddev_exec_time
FROM pg_stat_statements s WHERE s.queryid IS NOT NULL" ].

(** PGVersion.String. *)
Definition version_String (v : PGVersion) : string :=
  pretty (v_Major v) +:+ "." +:+ pretty (v_Minor v).

Record SnapshotCapturer := mkCapturer {
  sc_interval : Duration;
  sc_retention : Duration;
  sc_onStartup : bool
}.

(** [time.Duration(retentionDays) * 24 * time.Hour]. *)
Definition NewSnapshotCapturer (interval : Duration) (retentionDays : Z) (onStartup : bool)
    : SnapshotCapturer :=
  mkCapturer interval (dur_mul (i64 (retentionDays * 24)) Hour) onStartup.

Section capture.
Context `{DR : Driver}.

(** ** Reading pg_stat_statements *)

(** The destinations in the order of each variant's columns: up to version 12 the total plan time
    comes after the block times. *)
Definition scan_pg13 : Scanner SnapshotEntry :=
  queryID ← int64; userID ← int64; dbID ← int64; query ← str;
  calls ← int64; totalExec ← float; totalPlan ← ofloat; rows ← int64;
  sharedHit ← int64; sharedRead ← int64; sharedDirtied ← int64; sharedWritten ← int64;
  localHit ← int64; localRead ← int64; tempRead ← int64; tempWritten ← int64;
  readTime ← float; writeTime ← float;
  walRecords ← oint; walFpi ← oint; walBytes ← ofloat;
  mean ← ofloat; minT ← ofloat; maxT ← ofloat; stddev ← ofloat;
  mret (mkSnapshotEntry 0 queryID userID dbID "" "" query calls totalExec totalPlan rows sharedHit
          sharedRead sharedDirtied sharedWritten localHit localRead tempRead tempWritten readTime
          writeTime walRecords walFpi walBytes mean minT maxT stddev).

Definition scan_pg12 : Scanner SnapshotEntry :=
  queryID ← int64; userID ← int64; dbID ← int64; query ← str;
  calls ← int64; totalExec ← float; rows ← int64;
  sharedHit ← int64; sharedRead ← int64; sharedDirtied ← int64; sharedWritten ← int64;
  localHit ← int64; localRead ← int64; tempRead ← int64; tempWritten ← int64;
  readTime ← float; writeTime ← float;
  totalPlan ← ofloat;
  walRecords ← oint; walFpi ← oint; walBytes ← ofloat;
  mean ← ofloat; minT ← ofloat; maxT ← ofloat; stddev ← ofloat;
  mret (mkSnapshotEntry 0 queryID userID dbID "" "" query calls totalExec totalPlan rows sharedHit
          sharedRead sharedDirtied sharedWritten localHit localRead tempRead tempWritten readTime
          writeTime walRecords walFpi walBytes mean minT maxT stddev).

Definition scanPGSSEntries (conn : Conn) (sql : string) (pgVer : PGVersion)
    : result (list SnapshotEntry) :=
  if AtLeast pgVer 13 0 then
    query_rows conn sql [] scan_pg13 (wrap "query") (wrap "scan (pg13+)") (wrap "rows")
  else
    query_rows conn sql [] scan_pg12 (wrap "query") (wrap "scan (pg<=12)") (wrap "rows").

Definition scan_name : Scanner (Z * string) := oid ← int64; name ← str; mret (oid, name).

(** The names by oid; an error after the rows comes with the map read so far. *)
Definition resolveNames (table sql : string) (conn : Conn) : gmap Z string * option error :=
  match conn sql [] with
  | Err e => (∅, Some (wrap ("query " +:+ table) e))
  | Ok (rows, re) =>
      match rows_loop scan_name (wrap ("scan " +:+ table))
              (fun m r => Ok (<[r.1 := r.2]> m)) ∅ rows with
      | Err e => (∅, Some e)
      | Ok m => (m, re)
      end
  end.

Definition resolveDBNames := resolveNames "pg_database" "SELECT oid, datname FROM pg_database".
Definition resolveUserNames := resolveNames "pg_roles" "SELECT oid, rolname FROM pg_roles".

(** A name that is found replaces the one of the entry. *)
Definition withNames (dbNames userNames : gmap Z string) (e : SnapshotEntry) : SnapshotEntry :=
  mkSnapshotEntry (se_SnapshotID e) (se_QueryID e) (se_UserID e) (se_DbID e)
    (default (se_DatabaseName e) (dbNames !! se_DbID e))
    (default (se_UserName e) (userNames !! se_UserID e)) (se_Query e)
    (se_Calls e) (se_TotalExecTime e) (se_TotalPlanTime e)
    (se_Rows e) (se_SharedBlksHit e) (se_SharedBlksRead e) (se_SharedBlksDirtied e)
    (se_SharedBlksWritten e) (se_LocalBlksHit e) (se_LocalBlksRead e) (se_TempBlksRead e)
    (se_TempBlksWritten e) (se_BlkReadTime e) (se_BlkWriteTime e) (se_WALRecords e)
    (se_WALFpi e) (se_WALBytes e) (se_MeanExecTime e) (se_MinExecTime e) (se_MaxExecTime e)
    (se_StddevExecTime e).

(** [stats_reset] is read from version 14 on; any failure leaves it nil. *)
Definition readStatsReset (conn : Conn) (pgVer : PGVersion) : option Time :=
  if AtLeast pgVer 14 0 then
    match query_row conn "SELECT stats_reset FROM pg_stat_statements_info" [] (dest scan_time) with
    | Ok sr => Some sr
    | Err _ => None
    end
  else None.

(** What is read of an instance before anything is stored: the version, the time of the last
    reset and the entries with their names. *)
Definition readInstance (conn : Conn) (instanceID : string)
    : result (PGVersion * option Time * list SnapshotEntry) :=
  match Detect conn with
  | Err e => Err (wrap ("detect version for " +:+ instanceID) e)
  | Ok pgVer =>
  match query_row conn "SELECT 1 FROM pg_extension WHERE extname = 'pg_stat_statements'" [] int64 with
  | Err e => Err (wrap ("pg_stat_statements not available on " +:+ instanceID) e)
  | Ok _ =>
  let statsReset := readStatsReset conn pgVer in
  match conn "SET statement_timeout = 30000" [] with
  | Err e => Err (wrap ("set statement_timeout for " +:+ instanceID) e)
  | Ok _ =>
  match Select pgssGate pgVer with
  | None => Err ("no PGSS SQL variant for PG " +:+ version_String pgVer)
  | Some sql =>
  match scanPGSSEntries conn sql pgVer with
  | Err e => Err (wrap ("pgss scan for " +:+ instanceID) e)
  | Ok entries =>
      let (dbNames, _) := resolveDBNames conn in
      let (userNames, _) := resolveUserNames conn in
      Ok (pgVer, statsReset, map (withNames dbNames userNames) entries)
  end end end end end.

(** [poolFor] is ConnProvider.PoolForInstance, with the connection that Acquire answers. *)
Definition CaptureInstance {T} {ST : SnapshotStore T} (poolFor : string -> result (result Conn))
    (now : Time) (store : T) (instanceID : string) : T * result Snapshot :=
  match poolFor instanceID with
  | Err e => (store, Err (wrap ("get pool for " +:+ instanceID) e))
  | Ok acquired =>
  match acquired with
  | Err e => (store, Err (wrap ("acquire conn for " +:+ instanceID) e))
  | Ok conn =>
  match readInstance conn instanceID with
  | Err e => (store, Err e)
  | Ok (pgVer, statsReset, entries) =>
      let snap := mkSnapshot 0 instanceID now (v_Num pgVer) statsReset 0 0 f0 in
      match st_WriteSnapshot store snap entries with
      | (store', Err e) => (store', Err (wrap ("write snapshot for " +:+ instanceID) e))
      | (store', Ok snapID) =>
          (store', Ok (mkSnapshot snapID instanceID now (v_Num pgVer) statsReset (len entries)
                         (total_calls entries) (total_exec entries)))
      end
  end end end.

(** ** The cycle *)

(** What a cycle meets: the instances listed, the pools, the clock at each capture and at the
    clean-up, and whether the context has been cancelled when the k-th instance is reached. *)
Record Cycle := mkCycle {
  cy_listed : result (list string);
  cy_pools : string -> result (result Conn);
  cy_clock : nat -> Time;
  cy_end : Time;
  cy_cancelled : nat -> bool
}.

(** The loop over the instances: the number captured, and whether it came to its end. *)
Fixpoint captureAll {T} {ST : SnapshotStore T} (cy : Cycle) (k : nat) (ids : list string)
    (store : T) (captured : Z) : T * Z * bool :=
  match ids with
  | [] => (store, captured, true)
  | id :: ids' =>
      if cy_cancelled cy k then (store, captured, false)
      else match CaptureInstance (cy_pools cy) (cy_clock cy k) store id with
           | (store', Err _) => captureAll cy (S k) ids' store' captured
           | (store', Ok _) => captureAll cy (S k) ids' store' (captured + 1)
           end
  end.

Definition runCycle {T} {ST : SnapshotStore T} (c : SnapshotCapturer) (cy : Cycle) (store : T) : T :=
  match cy_listed cy with
  | Err _ => store
  | Ok ids =>
      match captureAll cy 0 ids store 0 with
      | (store', _, false) => store'
      | (store', _, true) => (st_CleanOld store' (time_Add (cy_end cy) (- sc_retention c))).1
      end
  end.

(** [run]: a cycle at the start when asked for, and one at each tick. *)
Definition run {T} {ST : SnapshotStore T} (c : SnapshotCapturer) (first : Cycle) (ticks : list Cycle)
    (store : T) : T :=
  foldl (fun st cy => runCycle c cy st) (if sc_onStartup c then runCycle c first store else store)
    ticks.

End capture.
