(* ===== verification/StatementApi.v ===== *)
(** * The API of statement snapshots

    Models internal/api/handler_snapshots.go and handler_report_html.go (its template apart) over the interface SnapshotStore. A request gives
    the instance of its path and the parameters of its query; [parse_time] is
    [time.Parse(time.RFC3339, _)]. A handler that dereferences a nil snapshot panics. *)
From stdpp Require Import pretty.
From S2P Require Import Prelude Float64 GoText Json SqlConn Http Statements StatementStore.

Local Open Scope Z_scope.

(** What a handler does: it answers or it panics. *)
Inductive outcome (B : Type) : Type :=
  | Answer (r : response B)
  | NilDereference.
Arguments Answer {B} _.
Arguments NilDereference {B}.

Inductive snapshotBody :=
  | BSnapshots (snapshots : list Snapshot) (total : Z)
  | BSnapshot (snapshot : Snapshot) (entries : list SnapshotEntry) (total_entries : Z)
  | BDiff (d : DiffResult)
  | BInsight (i : QueryInsight)
  | BReport (r : WorkloadReport)
  | BCaptured (s : Snapshot).

Definition queryLimit (def : Z) (v : string) : Z := queryNumber (Z.ltb 0) def v.
Definition queryOffset (v : string) : Z := queryNumber (Z.leb 0) 0 v.

Section handlers.
Context {T : Type} {ST : SnapshotStore T} {SS : SliceSort} {MR : MapRange}.
Context (parse_time : string -> option Time).
Context (sortLong : forall A : Type, (nat -> nat -> bool) -> list A -> list A).

(** The fields of the server that these handlers read. *)
Record APIServer := mkAPIServer {
  api_instanceExists : string -> bool;
  api_pgssStore : option T;
  api_TopN : Z
}.

Definition err {B} (status : Z) (code message : string) : outcome B :=
  Answer (writeError status code message).

Definition internal {B} (message : string) : outcome B :=
  err StatusInternalServerError "internal" message.
Definition notFound {B} (message : string) : outcome B := err StatusNotFound "not_found" message.
Definition invalid {B} (message : string) : outcome B := err StatusBadRequest "invalid_param" message.

(** The two checks every handler starts with. *)
Definition withStore {B} (s : APIServer) (instanceID : string) (k : T -> outcome B) : outcome B :=
  if negb (api_instanceExists s instanceID) then
    notFound ("instance '" +:+ instanceID +:+ "' not found")
  else match api_pgssStore s with
       | None => notFound "statement snapshots not enabled"
       | Some st => k st
       end.

Definition queryTime (v : string) : option Time :=
  if String.eqb v "" then None else parse_time v.

Definition handleListSnapshots (s : APIServer) (instanceID : string) (q : string -> string)
    : outcome snapshotBody :=
  withStore s instanceID (fun st =>
    match st_ListSnapshots st instanceID
            (mkSnapshotList (queryLimit 20 (q "limit")) (queryOffset (q "offset"))
               (queryTime (q "from")) (queryTime (q "to"))) with
    | Err _ => internal "failed to list snapshots"
    | Ok (snaps, total) => Answer (writeJSON StatusOK (BSnapshots snaps total))
    end).

Definition handleGetSnapshot (s : APIServer) (instanceID snapIDStr : string) (q : string -> string)
    : outcome snapshotBody :=
  withStore s instanceID (fun st =>
    match ParseInt snapIDStr with
    | (_, Some _) => invalid "snapId must be an integer"
    | (snapID, None) =>
        match st_GetSnapshot st snapID with
        | Err _ => notFound "snapshot not found"
        | Ok None => NilDereference
        | Ok (Some snap) =>
            if negb (String.eqb (sn_InstanceID snap) instanceID)
            then notFound "snapshot not found for this instance"
            else match st_GetSnapshotEntries st snapID (queryLimit 50 (q "limit"))
                         (queryOffset (q "offset")) with
                 | Err _ => internal "failed to get snapshot entries"
                 | Ok (entries, total) => Answer (writeJSON StatusOK (BSnapshot snap entries total))
                 end
        end
    end).

(** Two snapshots by their ids; a nil one is passed on. *)
Definition snapshotsByID {B} (st : T) (fromStr toStr : string)
    (k : option Snapshot -> option Snapshot -> outcome B) : outcome B :=
  match ParseInt fromStr with
  | (_, Some _) => invalid "from must be an integer"
  | (fromID, None) =>
  match ParseInt toStr with
  | (_, Some _) => invalid "to must be an integer"
  | (toID, None) =>
  match st_GetSnapshot st fromID with
  | Err _ => notFound "from snapshot not found"
  | Ok fromSnap =>
  match st_GetSnapshot st toID with
  | Err _ => notFound "to snapshot not found"
  | Ok toSnap => k fromSnap toSnap
  end end end end.

(** The oldest and the newest snapshot of a time range; at most 1000 snapshots are looked at. *)
Definition snapshotsByTime {B} (st : T) (instanceID fromStr toStr tooFew : string)
    (k : option Snapshot -> option Snapshot -> outcome B) : outcome B :=
  match parse_time fromStr with
  | None => invalid "from_time must be RFC3339"
  | Some fromTime =>
  match parse_time toStr with
  | None => invalid "to_time must be RFC3339"
  | Some toTime =>
  match st_ListSnapshots st instanceID (mkSnapshotList 1000 0 (Some fromTime) (Some toTime)) with
  | Err _ => internal "failed to list snapshots"
  | Ok (snaps, _) =>
      if len snaps <? 2 then notFound tooFew
      else k (last snaps) (head snaps)
  end end end.

(** The two newest snapshots. *)
Definition latestTwo {B} (st : T) (instanceID failure tooFew : string)
    (k : option Snapshot -> option Snapshot -> outcome B) : outcome B :=
  match st_GetLatestSnapshots st instanceID 2 with
  | Err _ => internal failure
  | Ok snaps =>
      if len snaps <? 2 then notFound tooFew
      else k (snaps !! 1%nat) (snaps !! 0%nat)
  end.

(** The check [fromSnap.InstanceID != instanceID || toSnap.InstanceID != instanceID]. *)
Definition ownedBy {B} (instanceID : string) (fromSnap toSnap : option Snapshot)
    (k : Snapshot -> Snapshot -> outcome B) : outcome B :=
  match fromSnap with
  | None => NilDereference
  | Some from =>
      if negb (String.eqb (sn_InstanceID from) instanceID)
      then invalid "snapshots do not belong to this instance"
      else match toSnap with
           | None => NilDereference
           | Some to =>
               if negb (String.eqb (sn_InstanceID to) instanceID)
               then invalid "snapshots do not belong to this instance"
               else k from to
           end
  end.

(** The entries of both snapshots, asked for with limit 0. *)
Definition bothEntries {B} (st : T) (from to : Snapshot)
    (k : list SnapshotEntry -> list SnapshotEntry -> outcome B) : outcome B :=
  match st_GetSnapshotEntries st (sn_ID from) 0 0 with
  | Err _ => internal "failed to get snapshot entries"
  | Ok (fromEntries, _) =>
      match st_GetSnapshotEntries st (sn_ID to) 0 0 with
      | Err _ => internal "failed to get snapshot entries"
      | Ok (toEntries, _) => k fromEntries toEntries
      end
  end.

Definition diffOptions (q : string -> string) : DiffOptions :=
  mkDiffOptions (if String.eqb (q "sort") "" then "total_exec_time" else q "sort")
    (queryLimit 50 (q "limit")) (queryOffset (q "offset")).

Definition computePGSSDiff (st : T) (from to : Snapshot) (q : string -> string)
    : outcome snapshotBody :=
  bothEntries st from to (fun fromEntries toEntries =>
    Answer (writeJSON StatusOK (BDiff (ComputeDiff from to fromEntries toEntries (diffOptions q))))).

Definition given (q : string -> string) (a b : string) : bool :=
  negb (String.eqb (q a) "") && negb (String.eqb (q b) "").

Definition handleSnapshotDiff (s : APIServer) (instanceID : string) (q : string -> string)
    : outcome snapshotBody :=
  withStore s instanceID (fun st =>
    let k fromSnap toSnap := ownedBy instanceID fromSnap toSnap (fun from to =>
                               computePGSSDiff st from to q) in
    if given q "from" "to" then snapshotsByID st (q "from") (q "to") k
    else if given q "from_time" "to_time"
         then snapshotsByTime st instanceID (q "from_time") (q "to_time")
                "need at least 2 snapshots in time range for diff" k
    else invalid "provide from/to snapshot IDs or from_time/to_time").

Definition handleLatestDiff (s : APIServer) (instanceID : string) (q : string -> string)
    : outcome snapshotBody :=
  withStore s instanceID (fun st =>
    latestTwo st instanceID "failed to get latest snapshots"
      "need at least 2 snapshots for diff" (fun fromSnap toSnap =>
      match fromSnap, toSnap with
      | Some from, Some to => computePGSSDiff st from to q
      | _, _ => NilDereference
      end)).

Definition handleQueryInsights (now : Time) (s : APIServer) (instanceID queryIDStr : string)
    (q : string -> string) : outcome snapshotBody :=
  withStore s instanceID (fun st =>
    match ParseInt queryIDStr with
    | (_, Some _) => invalid "queryid must be an integer"
    | (queryID, None) =>
        let from := default (time_Add now (-24 * Hour)) (queryTime (q "from")) in
        let to := default now (queryTime (q "to")) in
        match st_GetEntriesForQuery st instanceID queryID from to with
        | Err _ => internal "failed to get query data"
        | Ok (entries, snapshots) =>
            match BuildQueryInsight entries snapshots with
            | None => notFound "no data found for this query"
            | Some insight => Answer (writeJSON StatusOK (BInsight insight))
            end
        end
    end).

(** [report.InstanceID = instanceID]. *)
Definition report_for (instanceID : string) (r : WorkloadReport) : WorkloadReport :=
  mkReport instanceID (wr_FromTime r) (wr_ToTime r) (wr_Duration r) (wr_StatsResetWarning r)
    (wr_Summary r) (wr_TopByExecTime r) (wr_TopByCalls r) (wr_TopByRows r) (wr_TopByIOReads r)
    (wr_TopByAvgTime r) (wr_NewQueries r) (wr_EvictedQueries r).

(** *** The workload report, as JSON and as HTML

    The report both handlers give; [render] is what they do with it. *)
Definition workloadReport {B} (render : WorkloadReport -> outcome B) (s : APIServer) (instanceID : string)
    (q : string -> string) : outcome B :=
  withStore s instanceID (fun st =>
    let k fromSnap toSnap := ownedBy instanceID fromSnap toSnap (fun from to =>
      bothEntries st from to (fun fromEntries toEntries =>
        let diff := ComputeDiff from to fromEntries toEntries
                      (mkDiffOptions "total_exec_time" 0 0) in
        render (report_for instanceID
          (GenerateReport sortLong (Some diff) (queryLimit (api_TopN s) (q "top_n")))))) in
    if given q "from" "to" then snapshotsByID st (q "from") (q "to") k
    else if given q "from_time" "to_time"
         then snapshotsByTime st instanceID (q "from_time") (q "to_time")
                "need at least 2 snapshots for report" k
    else latestTwo st instanceID "failed to get snapshots" "need at least 2 snapshots for report" k).

Definition handleWorkloadReport (s : APIServer) (instanceID : string) (q : string -> string)
    : outcome snapshotBody :=
  workloadReport (fun r => Answer (writeJSON StatusOK (BReport r))) s instanceID q.

(** *** handler_report_html.go: the same report for a template, with the name of the file unless it is
    shown inline. [show_date] is the form "Jan 2, 2006 3:04:05 PM MST", [show_stamp] "20060102-150405". *)
Record htmlReportData := mkHTMLReport {
  ht_WorkloadReport : WorkloadReport;
  ht_GeneratedAt : string;
  ht_Filename : option string
}.

Definition handleWorkloadReportHTML (show_date show_stamp : Time -> string) (now : Time) (s : APIServer)
    (instanceID : string) (q : string -> string) : outcome htmlReportData :=
  workloadReport (fun r => Answer (writeJSON StatusOK (mkHTMLReport r (show_date now)
      (if String.eqb (q "inline") "true" then None
       else Some ("pgpulse-workload-report-" +:+ instanceID +:+ "-" +:+ show_stamp now +:+ ".html")))))
    s instanceID q.

End handlers.
Arguments APIServer : clear implicits.
Arguments mkAPIServer {T} _ _ _.
Arguments api_instanceExists {T} _ _.
Arguments api_pgssStore {T} _.
Arguments api_TopN {T} _.

(** The manual capture runs the capturer's operation on the spot. *)
Definition handleManualSnapshotCapture `{DR : Driver} {T} {ST : SnapshotStore T} (now : Time)
    (instanceExists : string -> bool) (capturer : option (string -> result (result Conn)))
    (store : T) (instanceID : string) : T * outcome snapshotBody :=
  if negb (instanceExists instanceID) then
    (store, notFound ("instance '" +:+ instanceID +:+ "' not found"))
  else match capturer with
       | None => (store, notFound "statement snapshots not enabled")
       | Some poolFor =>
           match CaptureInstance poolFor now store instanceID with
           | (store', Err e) => (store', internal ("failed to capture snapshot: " +:+ e))
           | (store', Ok snap) => (store', Answer (writeJSON StatusCreated (BCaptured snap)))
           end
       end.

(** ** The template's functions *)

(** A comma before every digit that has a multiple of three digits after it, itself included. *)
Fixpoint with_commas (first : bool) (s : string) : string :=
  match s with
  | EmptyString => EmptyString
  | String c s' =>
      let rest := String c (with_commas false s') in
      if negb first && (Z.of_nat (String.length s) mod 3 =? 0) then "," +:+ rest else rest
  end.

(** [fuel] bounds the calls that are open at once; nothing is the answer of a call that needs more. *)
Fixpoint formatNumberCommas (fuel : nat) (n : Z) : option string :=
  match fuel with
  | O => None
  | S fuel' =>
      if n <? 0 then option_map (fun s => "-" +:+ s) (formatNumberCommas fuel' (i64 (- n)))
      else let s := pretty n in
           Some (if Z.of_nat (String.length s) <=? 3 then s else with_commas true s)
  end.

Definition formatDurationMs (ms : float64) : string :=
  if flt ms f1 then "< 1ms"
  else if flt ms (f_of_Z 1000) then fmt_fixed 1 ms +:+ " ms"
  else let secs := fdiv ms (f_of_Z 1000) in
       if flt secs (f_of_Z 60) then fmt_fixed 1 secs +:+ " s"
       else let mins := fdiv secs (f_of_Z 60) in
            if flt mins (f_of_Z 60) then fmt_fixed 1 mins +:+ " min"
            else fmt_fixed 1 (fdiv mins (f_of_Z 60)) +:+ " h".

Example formatNumberCommas_values :
  formatNumberCommas 2 (-1234567) = Some "-1,234,567" /\ formatNumberCommas 1 999 = Some "999"
  /\ formatNumberCommas 1 100000 = Some "100,000".
Proof. vm_compute. done. Qed.

Fixpoint without_commas (s : string) : string :=
  match s with
  | EmptyString => EmptyString
  | String c s' => if byte_Z c =? 44 then without_commas s' else String c (without_commas s')
  end.

Lemma without_with_commas s : forall first, all_chars is_digit s = true ->
  without_commas (with_commas first s) = s.
Proof.
  induction s as [|c s IH]; intros first; [done|]. cbn [all_chars with_commas].
  intros [Hc Hs]%andb_true_iff.
  assert (Hne : byte_Z c =? 44 = false).
  { unfold is_digit in Hc. apply andb_true_iff in Hc as [Hc _]. apply Z.leb_le in Hc. apply Z.eqb_neq. lia. }
  destruct (negb first && _);
    [change ("," +:+ ?x) with (String (Ascii.ascii_of_N 44) x); cbn [without_commas];
     change (byte_Z (Ascii.ascii_of_N 44) =? 44) with true; cbn iota|];
    cbn [without_commas]; by rewrite Hne, IH.
Qed.

(** Each number an int64 can hold but the least is written after at most one call to itself, and its
    digits are those of the number; the least one is its own negation, so the call never ends. *)
Theorem number_commas_exact n : in_i64 n ->
  (n <> min_i64 -> exists s, formatNumberCommas 2 n = Some s /\ without_commas s = pretty n) /\
  (n = min_i64 -> forall fuel, formatNumberCommas fuel n = None).
Proof.
  intros Hn. split.
  - intros Hmin. unfold in_i64, min_i64, max_i64 in *.
    assert (Hpos : forall m fuel, 0 <= m -> exists s, formatNumberCommas (S fuel) m = Some s /\ without_commas s = pretty m).
    { intros m fuel Hm. cbn [formatNumberCommas]. rewrite (proj2 (Z.ltb_ge m 0)) by lia.
      pose proof (pretty_digits m Hm) as Hd.
      destruct (_ <=? 3); eexists; (split; [reflexivity|]).
      - clear Hmin. revert Hd. generalize (pretty m). induction s as [|c s IH]; [done|].
        cbn [all_chars without_commas]. intros [Hc Hs]%andb_true_iff.
        assert (Hne : byte_Z c =? 44 = false).
        { unfold is_digit in Hc. apply andb_true_iff in Hc as [Hc _]. apply Z.leb_le in Hc. apply Z.eqb_neq. lia. }
        by rewrite Hne, IH.
      - by apply without_with_commas. }
    destruct (Z.ltb_spec n 0) as [Hneg|Hneg]; [|by apply Hpos].
    cbn [formatNumberCommas]. rewrite (proj2 (Z.ltb_lt n 0)) by lia.
    rewrite i64_id by (unfold in_i64, min_i64, max_i64; lia).
    destruct (Hpos (- n) 0%nat) as (s & Hs & Hd); [lia|]. cbn [formatNumberCommas] in Hs. rewrite Hs.
    eexists. split; [reflexivity|]. cbn [option_map].
    change ("-" +:+ s) with (String (Ascii.ascii_of_N 45) s). cbn [without_commas].
    change (byte_Z (Ascii.ascii_of_N 45) =? 44) with false. cbn iota. rewrite Hd.
    by destruct n.
  - intros -> fuel. induction fuel as [|fuel IH]; [done|]. cbn [formatNumberCommas].
    change (min_i64 <? 0) with true. change (i64 (- min_i64)) with min_i64. by rewrite IH.
Qed.

Lemma number_commas_exact_witness :
  (exists s, formatNumberCommas 2 (-1234567) = Some s /\ without_commas s = pretty (-1234567)%Z) /\
  forall fuel, formatNumberCommas fuel min_i64 = None.
Proof.
  split.
  - refine (proj1 (number_commas_exact (-1234567) _) _); [split; vm_compute; discriminate|discriminate].
  - refine (proj2 (number_commas_exact min_i64 _) eq_refl). split; vm_compute; discriminate.
Defined.
