(* ===== verification/StatementTheorems.v ===== *)
(** * Statement snapshots from capture to diff

    The invariant of the snapshot tables, what a write leaves and a read gives back, the capture
    cycle over several instances, and the diff the API computes from the tables. *)
From S2P Require Import Prelude Float64 GoText SqlConn Collector Http Statements.
From S2P Require Import StatementStore StatementApi.

Local Open Scope Z_scope.

(** ** The tables *)

Definition no_faults (s : PGSnapshotStore) : Prop := forall p, ps_fault s p = None.

Definition rows_of (s : PGSnapshotStore) (id : Z) : list SnapshotEntry := entryRows s id.

Record store_inv (s : PGSnapshotStore) : Prop := {
  si_ids : forall id r, ps_snaps s !! id = Some r -> sn_ID r = id /\ id < ps_seq s;
  si_unique : forall id id' r r', ps_snaps s !! id = Some r -> ps_snaps s !! id' = Some r' ->
    uq r = uq r' -> id = id';
  si_owner : forall e, e ∈ ps_entries s -> is_Some (ps_snaps s !! se_SnapshotID e);
  si_key : NoDup (map pk (ps_entries s));
  si_totals : forall id r, ps_snaps s !! id = Some r ->
    sn_TotalStatements r = len (rows_of s id) /\ sn_TotalCalls r = total_calls (rows_of s id) /\
    sn_TotalExecTime r = total_exec (rows_of s id)
}.

Lemma insertRows_spec table rows t' :
  NoDup (map pk table) ->
  insertRows table rows = Some t' <-> t' = table ++ rows /\ NoDup (map pk (table ++ rows)).
Proof.
  revert table. induction rows as [|r rows IH]; intros table Ht; cbn [insertRows].
  { rewrite app_nil_r. split; [by intros [= <-]|by intros [-> _]]. }
  case_bool_decide as E.
  - split; [done|]. intros [_ H]. rewrite map_app in H. apply NoDup_app in H as (_ & H & _).
    destruct (H _ E). by left.
  - rewrite IH; [by rewrite <- app_assoc|].
    rewrite map_app. apply NoDup_app. split; [done|]. split; [|apply NoDup_singleton].
    intros x Hx Hin. apply list_elem_of_singleton in Hin as ->. done.
Qed.

Lemma map_pk_values (id : Z) (es : list SnapshotEntry) :
  map pk (map (entryValues id) es) = map (pair id) (map entryKey es).
Proof. by rewrite !map_map. Qed.

Lemma pair_NoDup (id : Z) (ks : list (Z * Z * Z)) : NoDup (map (pair id) ks) <-> NoDup ks.
Proof. split; [apply NoDup_fmap_1|apply NoDup_fmap_2; intros a b [= ->]; done]. Qed.

(** Rows of a snapshot that is not in the table yet are accepted when their keys differ. *)
Lemma insertRows_fresh s es t' :
  store_inv s ->
  insertRows (ps_entries s) (map (entryValues (ps_seq s)) es) = Some t' <->
  t' = ps_entries s ++ map (entryValues (ps_seq s)) es /\ NoDup (map entryKey es).
Proof.
  intros Hs. rewrite insertRows_spec by apply (si_key s Hs).
  rewrite map_app, map_pk_values, NoDup_app, pair_NoDup.
  split; [tauto|]. intros [-> Hnd]. split; [done|]. split; [apply (si_key s Hs)|]. split; [|done].
  intros x [e [-> He]]%list_elem_of_fmap [k [Hk _]]%list_elem_of_fmap.
  destruct (si_owner s Hs e He) as [r Hr]. apply (si_ids s Hs) in Hr as [_ Hr].
  injection Hk as Hk _. lia.
Qed.

(** ** Writing *)

(** The snapshot is refused: another of the instance has the same time. *)
Definition same_time (s : PGSnapshotStore) (snap : Snapshot) : Prop :=
  exists id r, ps_snaps s !! id = Some r /\ sn_InstanceID r = sn_InstanceID snap /\
    sn_CapturedAt r = pg_time (sn_CapturedAt snap).

Lemma uq_taken s id snap es :
  uq (snapshotRow id (with_totals snap es)) ∈ map (fun kv => uq kv.2) (map_to_list (ps_snaps s))
  <-> same_time s snap.
Proof.
  rewrite list_elem_of_fmap. unfold same_time, uq. cbn. split.
  - intros ([i r] & [= H1 H2] & Hin). apply elem_of_map_to_list in Hin. by exists i, r.
  - intros (i & r & Hr & H1 & H2). exists (i, r). cbn. rewrite H1, H2. split; [done|].
    by apply elem_of_map_to_list.
Qed.

(** The tables after a write that succeeds. *)
Definition written (s : PGSnapshotStore) (snap : Snapshot) (es : list SnapshotEntry)
    : PGSnapshotStore :=
  mkPGSnapshotStore (<[ps_seq s := snapshotRow (ps_seq s) (with_totals snap es)]> (ps_snaps s))
    (ps_entries s ++ map (entryValues (ps_seq s)) es) (ps_seq s + 1) (ps_fault s).

(** A write either leaves the rows as they are, or adds the snapshot under a new id. *)
Lemma write_cases s snap es : store_inv s ->
  match pg_WriteSnapshot s snap es with
  | (s', Err _) =>
      (s' = s \/ s' = next_id s) /\
      (no_faults s -> same_time s snap \/ ~ NoDup (map entryKey es))
  | (s', Ok id) =>
      id = ps_seq s /\ s' = written s snap es /\ ~ same_time s snap /\ NoDup (map entryKey es)
  end.
Proof.
  intros Hs. unfold pg_WriteSnapshot, copyEntries, batchInsertEntries, writeEntries, no_faults.
  destruct (ps_fault s PBegin) eqn:E1. { split; [by left|]. intros H. by rewrite H in E1. }
  destruct (ps_fault s PInsert) eqn:E2. { split; [by left|]. intros H. by rewrite H in E2. }
  case_bool_decide as Hu; rewrite uq_taken in Hu. { split; [by right|]. by left. }
  destruct es as [|e0 es]; [|remember (e0 :: es) as es' eqn:Hes].
  - cbn [len length Z.of_nat Z.eqb]. destruct (ps_fault s PCommit) eqn:E3.
    { split; [by right|]. intros H. by rewrite H in E3. }
    unfold written. cbn [map]. rewrite app_nil_r. repeat split; try done. constructor.
  - assert (len es' =? 0 = false) as ->. { subst. apply Z.eqb_neq. unfold len. cbn. lia. }
    destruct (ps_fault s PEntries) eqn:E4.
    { destruct (100 <? len es'); (split; [by right|]; intros H; by rewrite H in E4). }
    destruct (insertRows _ _) as [t'|] eqn:Ei.
    + apply insertRows_fresh in Ei as [-> Hnd]; [|done].
      destruct (ps_fault s PCommit) eqn:E3; destruct (100 <? len es'); try done;
        (split; [by right|]; intros H; by rewrite H in E3).
    + assert (~ NoDup (map entryKey es')).
      { intros Hnd. rewrite (proj2 (insertRows_fresh s es' _ Hs) (conj eq_refl Hnd)) in Ei. done. }
      destruct (100 <? len es'); (split; [by right|]; by right).
Qed.

Lemma rows_written s snap es id : store_inv s ->
  rows_of (written s snap es) id
  = if id =? ps_seq s then map (entryValues (ps_seq s)) es else rows_of s id.
Proof.
  intros Hs. unfold rows_of, entryRows, written. cbn [ps_entries]. rewrite List.filter_app.
  destruct (Z.eqb_spec id (ps_seq s)) as [->|Hne].
  - rewrite filter_none, filter_all; [done| |].
    + intros x [e [-> _]]%list_elem_of_fmap. apply Z.eqb_refl.
    + intros e He. destruct (si_owner s Hs e He) as [r Hr].
      apply (si_ids s Hs) in Hr as [_ Hr]. apply Z.eqb_neq. lia.
  - rewrite (filter_none _ (map _ es)), app_nil_r; [done|].
    intros x [e [-> _]]%list_elem_of_fmap. apply Z.eqb_neq. cbn. lia.
Qed.

Lemma total_calls_values id es : total_calls (map (entryValues id) es) = total_calls es.
Proof. unfold total_calls. generalize 0. induction es; intros a0; [done|]. apply IHes. Qed.

Lemma total_exec_values id es : total_exec (map (entryValues id) es) = total_exec es.
Proof. unfold total_exec. generalize f0. induction es; intros a0; [done|]. apply IHes. Qed.

Lemma rows_empty s id : store_inv s -> ps_snaps s !! id = None -> rows_of s id = [].
Proof.
  intros Hs Hid. apply filter_none. intros e He. apply Z.eqb_neq. intros <-.
  destruct (si_owner s Hs e He). congruence.
Qed.

Lemma fresh_id s : store_inv s -> ps_snaps s !! ps_seq s = None.
Proof.
  intros Hs. destruct (ps_snaps s !! ps_seq s) as [r|] eqn:E; [|done].
  apply (si_ids s Hs) in E as [_ E]. lia.
Qed.

Lemma snapshots_next_id_inv s : store_inv s -> store_inv (next_id s).
Proof.
  intros [H1 H2 H3 H4 H5]. split; cbn; try done. intros id r Hr. apply H1 in Hr. lia.
Qed.

Lemma written_inv s snap es :
  store_inv s -> ~ same_time s snap -> NoDup (map entryKey es) -> store_inv (written s snap es).
Proof.
  intros Hs Ht Hnd. split; cbn [written ps_snaps ps_entries ps_seq].
  - intros id r [[<- <-]|[Hne Hr]]%lookup_insert_Some; [split; [done|lia]|].
    apply (si_ids s Hs) in Hr. lia.
  - intros id id' r r' [[<- <-]|[Hne Hr]]%lookup_insert_Some
      [[<- <-]|[Hne' Hr']]%lookup_insert_Some Hu; [done| | |by eapply (si_unique s Hs)];
      exfalso; apply Ht; unfold uq in Hu; cbn in Hu; injection Hu as Ha Hb.
    + by exists id', r'.
    + by exists id, r.
  - intros e [He|[x [-> _]]%list_elem_of_fmap]%elem_of_app.
    + apply lookup_insert_is_Some. destruct (decide (ps_seq s = se_SnapshotID e)); [by left|].
      right. split; [done|]. by apply (si_owner s Hs).
    + apply lookup_insert_is_Some. by left.
  - destruct (proj1 (insertRows_spec _ _ _ (si_key s Hs))
      (proj2 (insertRows_fresh s es _ Hs) (conj eq_refl Hnd))) as [_ H]. exact H.
  - intros id r [[<- <-]|[Hne Hr]]%lookup_insert_Some;
      fold (written s snap es); rewrite (rows_written s snap es) by done.
    + rewrite Z.eqb_refl, total_calls_values, total_exec_values. cbn.
      unfold len. by rewrite length_map.
    + rewrite (proj2 (Z.eqb_neq _ _)) by done. by apply (si_totals s Hs).
Qed.

Lemma write_inv s snap es : store_inv s -> store_inv (pg_WriteSnapshot s snap es).1.
Proof.
  intros Hs. pose proof (write_cases s snap es Hs) as H.
  destruct (pg_WriteSnapshot s snap es) as [s' [id|e]]; cbn [fst].
  - destruct H as (_ & -> & Ht & Hnd). by apply written_inv.
  - destruct H as [[-> | ->] _]; [done|by apply snapshots_next_id_inv].
Qed.

(** ** Cleaning *)

Definition kept (cutoff : Time) (r : Snapshot) : bool :=
  negb (time_Before (sn_CapturedAt r) (pg_time cutoff)).

Lemma clean_snaps s cutoff id r : ps_fault s PQuery = None ->
  ps_snaps (pg_CleanOld s cutoff).1 !! id = Some r <->
  ps_snaps s !! id = Some r /\ kept cutoff r = true.
Proof.
  intros Hq. unfold pg_CleanOld. rewrite Hq. cbn [fst ps_snaps].
  rewrite map_lookup_filter_Some. cbn. unfold kept. by rewrite Is_true_true.
Qed.

Lemma filter_refine {A} (f g : A -> bool) (l : list A) :
  (forall x, x ∈ l -> f x = true -> g x = true) -> List.filter f (List.filter g l) = List.filter f l.
Proof.
  induction l as [|x l IH]; intros H; [done|]. cbn.
  assert (List.filter f (List.filter g l) = List.filter f l) as IH'.
  { apply IH. intros y Hy. apply H. by right. }
  destruct (g x) eqn:Eg; cbn; destruct (f x) eqn:Ef; try done; [by rewrite IH'|].
  rewrite (H x) in Eg; [done|by left|done].
Qed.

Lemma clean_rows s cutoff id r :
  ps_fault s PQuery = None -> ps_snaps (pg_CleanOld s cutoff).1 !! id = Some r ->
  rows_of (pg_CleanOld s cutoff).1 id = rows_of s id.
Proof.
  intros Hq. unfold pg_CleanOld. rewrite Hq. cbn [fst ps_snaps]. intros Hr.
  unfold rows_of, entryRows. cbn [ps_entries]. apply filter_refine.
  intros e _ He. apply Z.eqb_eq in He. subst id. apply bool_decide_eq_true. by eexists.
Qed.

Lemma snapshots_clean_inv s cutoff : store_inv s -> store_inv (pg_CleanOld s cutoff).1.
Proof.
  intros Hs. destruct (ps_fault s PQuery) eqn:Hq.
  { unfold pg_CleanOld. by rewrite Hq. }
  split.
  - intros id r Hr. assert (ps_seq (pg_CleanOld s cutoff).1 = ps_seq s) as ->.
    { unfold pg_CleanOld. by rewrite Hq. }
    apply clean_snaps in Hr as [Hr _]; [|done]. by apply (si_ids s Hs).
  - intros id id' r r' [Hr _]%clean_snaps [Hr' _]%clean_snaps; try done. by apply (si_unique s Hs).
  - unfold pg_CleanOld. rewrite Hq. cbn [fst ps_entries ps_snaps].
    intros e [He _]%elem_of_filter_bool. by apply bool_decide_eq_true in He.
  - unfold pg_CleanOld. rewrite Hq. cbn [fst ps_entries].
    generalize (si_key s Hs). generalize (ps_entries s). intros l Hl.
    induction l as [|e l IH]; [constructor|]. cbn in *. apply NoDup_cons in Hl as [He Hl].
    case_bool_decide; [|by apply IH]. cbn. apply NoDup_cons. split; [|by apply IH].
    intros Hin. apply He. apply list_elem_of_fmap in Hin as (x & Hx & Hin).
    rewrite Hx. apply list_elem_of_fmap_2. apply elem_of_filter_bool in Hin. tauto.
  - intros id r Hr. rewrite (clean_rows _ _ _ r) by done.
    apply clean_snaps in Hr as [Hr _]; [|done]. by apply (si_totals s Hs).
Qed.

(** ** Reading *)

Section reading.
Context {SS : SliceSort} {MR : MapRange}.

Lemma byExecTime_spec (l : list SnapshotEntry) :
  byExecTime l ≡ₚ l /\
  StronglySorted (fun a b => sql_lt (se_TotalExecTime a) (se_TotalExecTime b) = false) (byExecTime l).
Proof.
  split; [apply sort_slice_perm|]. apply sort_slice_sorted, weak_on_sql_desc.
Qed.

Lemma byExecTime_perm (l : list SnapshotEntry) : byExecTime l ≡ₚ l.
Proof. apply sort_slice_perm. Qed.

(** The page of entries that the store answers without faults. *)
Definition page_of (s : PGSnapshotStore) (id limit offset : Z) : list SnapshotEntry :=
  take (Z.to_nat (default50 limit)) (drop (Z.to_nat offset) (byExecTime (rows_of s id))).

Lemma get_entries s id limit offset : no_faults s -> 0 <= offset ->
  pg_GetSnapshotEntries s id limit offset
  = Ok (page_of s id limit offset,
        match page_of s id limit offset with [] => 0 | _ => len (rows_of s id) end).
Proof.
  intros Hf Ho. unfold pg_GetSnapshotEntries, select, sql_page, no_faults in *. rewrite !Hf.
  destruct (Z.ltb_spec offset 0); [lia|]. done.
Qed.

Lemma get_snapshot s id r : no_faults s -> ps_snaps s !! id = Some r -> pg_GetSnapshot s id = Ok (Some r).
Proof. intros Hf Hr. unfold pg_GetSnapshot. by rewrite Hf, Hr. Qed.


End reading.

(** ** The diff of the API *)

Section diffs.
Context {SS : SliceSort} {MR : MapRange}.

Lemma snapshotRows_elem s inst r : store_inv s ->
  r ∈ snapshotRows s inst <-> ps_snaps s !! sn_ID r = Some r /\ sn_InstanceID r = inst.
Proof.
  intros Hs. unfold snapshotRows. rewrite elem_of_filter_bool, bool_decide_eq_true.
  assert (r ∈ map snd (map_range (ps_snaps s)) <-> ps_snaps s !! sn_ID r = Some r) as ->; [|tauto].
  rewrite list_elem_of_fmap. setoid_rewrite map_range_perm. split.
  - intros ([id x] & -> & Hx%elem_of_map_to_list). cbn.
    destruct (si_ids s Hs id x Hx) as [-> _]. done.
  - intros Hr. exists (sn_ID r, r). split; [done|]. by apply elem_of_map_to_list.
Qed.

Lemma snapshotRows_NoDup s inst : store_inv s -> NoDup (snapshotRows s inst).
Proof.
  intros Hs. apply NoDup_filter_bool. rewrite map_range_perm.
  apply (NoDup_map_inv sn_ID). rewrite map_map.
  assert (map (fun kv => sn_ID kv.2) (map_to_list (ps_snaps s)) = (map_to_list (ps_snaps s)).*1) as ->.
  { apply map_ext_in. intros [id r] Hin%list_elem_of_In%elem_of_map_to_list. cbn.
    by destruct (si_ids s Hs id r Hin) as [-> _]. }
  apply NoDup_fst_map_to_list.
Qed.

(** [newer] and [older] are the two newest snapshots of the instance. *)
Record newest_two (s : PGSnapshotStore) (inst : string) (newer older : Snapshot) : Prop := {
  nt_newer : ps_snaps s !! sn_ID newer = Some newer /\ sn_InstanceID newer = inst;
  nt_older : ps_snaps s !! sn_ID older = Some older /\ sn_InstanceID older = inst;
  nt_order : sn_CapturedAt older < sn_CapturedAt newer;
  nt_rest : forall id r, ps_snaps s !! id = Some r -> sn_InstanceID r = inst ->
    r = newer \/ r = older \/ sn_CapturedAt r < sn_CapturedAt older
}.

Lemma newestFirst_sorted (l : list Snapshot) :
  StronglySorted (fun x y => time_Before (sn_CapturedAt x) (sn_CapturedAt y) = false) (newestFirst l).
Proof.
  apply sort_slice_sorted. unfold time_Before.
  split; [intros x y _ _ H|intros x y z _ _ _ H1 H2]; zb; apply Z.ltb_ge; lia.
Qed.

Lemma sorted_heads (l : list Snapshot) newer older :
  NoDup l -> newer ∈ l -> older ∈ l -> sn_CapturedAt older < sn_CapturedAt newer ->
  (forall r, r ∈ l -> r = newer \/ r = older \/ sn_CapturedAt r < sn_CapturedAt older) ->
  StronglySorted (fun x y => time_Before (sn_CapturedAt x) (sn_CapturedAt y) = false) l ->
  exists rest, l = newer :: older :: rest.
Proof.
  intros Hnd Hn Ho Hlt Hrest Hs. unfold time_Before in Hs.
  inversion Hs as [|a l1 Hs1 Ha Heq]; subst; [by apply not_elem_of_nil in Hn|].
  rewrite list.Forall_forall in Ha.
  apply NoDup_cons in Hnd as [Hnin Hnd].
  assert (a = newer) as ->.
  { apply elem_of_cons in Hn as [->|Hn]; [done|]. apply Ha in Hn. zb.
    destruct (Hrest a) as [->|[->|H]]; [by left|done|lia|lia]. }
  apply elem_of_cons in Ho as [->|Ho]; [lia|].
  inversion Hs1 as [|b l2 Hs2 Hb Heq]; subst; [by apply not_elem_of_nil in Ho|].
  rewrite list.Forall_forall in Hb. exists l2. f_equal.
  destruct (Hrest b) as [->|[->|H]]; [by right; left|set_solver|done|].
  apply elem_of_cons in Ho as [->|Ho]; [done|]. apply Hb in Ho. zb. lia.
Qed.

Lemma latest_two s inst newer older : store_inv s -> no_faults s ->
  newest_two s inst newer older -> pg_GetLatestSnapshots s inst 2 = Ok [newer; older].
Proof.
  intros Hs Hf [Hn Ho Hlt Hr]. unfold pg_GetLatestSnapshots, select, sql_page. rewrite !Hf. cbn.
  assert (newestFirst (snapshotRows s inst) ≡ₚ snapshotRows s inst) as Hp by apply sort_slice_perm.
  destruct (sorted_heads (newestFirst (snapshotRows s inst)) newer older) as [rest ->]; try done.
  - rewrite Hp. by apply snapshotRows_NoDup.
  - by rewrite Hp, snapshotRows_elem.
  - by rewrite Hp, snapshotRows_elem.
  - intros r Hin. rewrite Hp, snapshotRows_elem in Hin by done. destruct Hin. eauto.
  - apply newestFirst_sorted.
Qed.

(** The entries a diff reads of a snapshot: the store takes limit 0 as 50. *)
Definition compared (s : PGSnapshotStore) (id : Z) : list SnapshotEntry :=
  take 50 (byExecTime (rows_of s id)).

Lemma compared_all s id : len (rows_of s id) <= 50 -> compared s id ≡ₚ rows_of s id.
Proof.
  intros H. unfold compared. rewrite take_ge; [apply byExecTime_perm|].
  rewrite byExecTime_perm. unfold len in H. lia.
Qed.

Lemma compared_keys s id : store_inv s -> NoDup (map entryKey (compared s id)).
Proof.
  intros Hs. apply (NoDup_fmap_1 (pair id)).
  assert (forall l, (forall e, e ∈ l -> se_SnapshotID e = id) -> map (pair id) (map entryKey l) = map pk l)
    as Heq.
  { intros l Hl. rewrite map_map. apply map_ext_in. intros e He%list_elem_of_In.
    unfold pk. by rewrite (Hl e He). }
  assert (forall e, e ∈ byExecTime (rows_of s id) -> se_SnapshotID e = id) as Hid.
  { intros e. rewrite byExecTime_perm. intros [He _]%elem_of_filter_bool. by apply Z.eqb_eq. }
  change (pair id <$> map entryKey (compared s id)) with (map (pair id) (map entryKey (compared s id))).
  rewrite Heq.
  2: { intros e He. apply Hid. by eapply elem_of_take in He as (i & Hi%list_elem_of_lookup_2 & _). }
  unfold compared. rewrite <- firstn_map. apply sublist_NoDup with (map pk (byExecTime (rows_of s id))).
  - rewrite byExecTime_perm. unfold rows_of, entryRows. generalize (si_key s Hs). generalize (ps_entries s).
    induction l as [|e l IH]; [done|]. cbn. intros [He Hl]%NoDup_cons.
    destruct (se_SnapshotID e =? id); [|by apply IH]. cbn. apply NoDup_cons. split; [|by apply IH].
    intros (x & Hx & Hin)%list_elem_of_fmap. apply He. rewrite Hx. apply list_elem_of_fmap_2.
    apply elem_of_filter_bool in Hin. tauto.
  - apply sublist_take.
Qed.

Lemma computeDiff_parts from to fromEntries toEntries opts :
  NoDup (map entryKey fromEntries) -> NoDup (map entryKey toEntries) ->
  let d := ComputeDiff from to fromEntries toEntries opts in
  let both := continuing (fun k => findKey k fromEntries) toEntries in
  dr_FromSnapshot d = from /\ dr_ToSnapshot d = to /\
  (exists all, all ≡ₚ both /\ dr_Entries d = paginate (do_Offset opts) (do_Limit opts) all) /\
  dr_TotalEntries d = len both /\
  dr_NewQueries d = fresh (fun k => findKey k fromEntries) toEntries /\
  dr_EvictedQueries d ≡ₚ fresh (fun k => findKey k toEntries) fromEntries.
Proof.
  intros Hf Ht. unfold ComputeDiff. cbv zeta.
  destruct (diffSteps toEntries (indexEntries fromEntries) [] [] Ht) as (m' & -> & Hm').
  cbn [app dr_FromSnapshot dr_ToSnapshot dr_Entries dr_TotalEntries dr_NewQueries dr_EvictedQueries].
  assert (forall x, x ∈ toEntries -> indexEntries fromEntries !! entryKey x
            = findKey (entryKey x) fromEntries) as Hx by (intros; by apply indexEntries_find).
  rewrite (continuing_ext _ (fun k => findKey k fromEntries) _ Hx),
    (fresh_ext _ (fun k => findKey k fromEntries) _ Hx).
  repeat split.
  - eexists. split; [|done]. apply sort_slice_perm.
  - unfold len, sortEntries. by rewrite sort_slice_perm.
  - by apply evicted_perm.
Qed.

Lemma findKey_absent k (l : list SnapshotEntry) : k ∉ map entryKey l -> findKey k l = None.
Proof.
  intros H. unfold findKey. destruct (List.find _ l) as [x|] eqn:E; [|done].
  apply find_some in E as [E1 E2]. apply bool_decide_eq_true in E2. destruct H.
  rewrite <- E2. by apply list_elem_of_fmap_2, list_elem_of_In.
Qed.

(** C18: The latest diff of the API, from the tables to the answer. For an instance with at least
    two snapshots it compares the two newest ones, on the 50 entries of each with the largest
    execution time: the compared entries are those in both selections, the new ones those only in
    the later, the evicted ones those only in the earlier. When neither snapshot has more than 50
    statements these are all its entries; otherwise a statement that is in both snapshots, but
    not among the 50 of the later one, is answered as evicted. *)
Theorem latest_diff_compares_top_fifty (srv : APIServer PGSnapshotStore) inst q s newer older :
  store_inv s -> no_faults s -> newest_two s inst newer older ->
  api_instanceExists srv inst = true -> api_pgssStore srv = Some s ->
  let from := compared s (sn_ID older) in
  let to := compared s (sn_ID newer) in
  let both := continuing (fun k => findKey k from) to in
  exists d, handleLatestDiff srv inst q = Answer (writeJSON StatusOK (BDiff d)) /\
    dr_FromSnapshot d = older /\ dr_ToSnapshot d = newer /\
    (exists all, all ≡ₚ both /\
       dr_Entries d = paginate (queryOffset (q "offset")) (queryLimit 50 (q "limit")) all) /\
    dr_TotalEntries d = len both /\
    dr_NewQueries d = fresh (fun k => findKey k from) to /\
    dr_EvictedQueries d ≡ₚ fresh (fun k => findKey k to) from /\
    (sn_TotalStatements older <= 50 -> from ≡ₚ rows_of s (sn_ID older)) /\
    (sn_TotalStatements newer <= 50 -> to ≡ₚ rows_of s (sn_ID newer)) /\
    (forall e e', e ∈ from -> e' ∈ rows_of s (sn_ID newer) -> entryKey e' = entryKey e ->
       entryKey e' ∉ map entryKey to -> entryAsDelta e ∈ dr_EvictedQueries d).
Proof.
  intros Hs Hf Hn Hex Hst from to both.
  pose proof (computeDiff_parts older newer from to (diffOptions q) (compared_keys _ _ Hs)
    (compared_keys _ _ Hs)) as (H1 & H2 & H3 & H4 & H5 & H6).
  eexists. split.
  { unfold handleLatestDiff, withStore. rewrite Hex, Hst. cbn [negb]. unfold latestTwo. simpl.
    rewrite (latest_two s inst newer older) by done. cbn [len length lookup list_lookup].
    unfold computePGSSDiff, bothEntries. simpl.
    rewrite !get_entries by (done || lia). unfold page_of.
    change (Z.to_nat (default50 0)) with 50%nat. change (Z.to_nat 0) with 0%nat.
    rewrite !drop_0. fold (compared s (sn_ID older)) (compared s (sn_ID newer)). reflexivity. }
  split; [exact H1|]. split; [exact H2|]. split; [exact H3|]. split; [exact H4|].
  split; [exact H5|]. split; [exact H6|]. destruct Hn as [[Hn _] [Ho _] _ _].
  split; [|split].
  - intros H. apply compared_all. by rewrite (proj1 (si_totals s Hs _ _ Ho)) in H.
  - intros H. apply compared_all. by rewrite (proj1 (si_totals s Hs _ _ Hn)) in H.
  - intros e e' He _ Hk Habs.
    assert (entryAsDelta e ∈ fresh (fun k => findKey k to) from) as Hin.
    { apply list_elem_of_fmap_2, elem_of_filter_bool.
      split; [|done]. apply bool_decide_eq_true, findKey_absent. by rewrite <- Hk. }
    rewrite <- H6 in Hin. exact Hin.
Qed.

End diffs.

(** ** The capture cycle *)

Section cycle.
Context `{DR : Driver} {SS : SliceSort} {MR : MapRange}.

(** What the capture of an instance finds to store at a time. *)
Definition capturable (cy : Cycle) (now : Time) (id : string)
    : option (Snapshot * list SnapshotEntry) :=
  match cy_pools cy id with
  | Ok (Ok conn) =>
      match readInstance conn id with
      | Ok (pgVer, statsReset, entries) =>
          Some (mkSnapshot 0 id now (v_Num pgVer) statsReset 0 0 f0, entries)
      | Err _ => None
      end
  | _ => None
  end.

Lemma capturable_instance cy now id snap es :
  capturable cy now id = Some (snap, es) -> sn_InstanceID snap = id.
Proof.
  unfold capturable. destruct (cy_pools cy id) as [[conn|]|]; try done.
  destruct (readInstance conn id) as [[[v sr] l]|]; [|done]. by intros [= <- _].
Qed.

(** The snapshot and the entries are in the tables under an id that [s] does not have. *)
Definition stored (s s' : PGSnapshotStore) (snap : Snapshot) (es : list SnapshotEntry) : Prop :=
  exists sid, ps_snaps s !! sid = None /\
    ps_snaps s' !! sid = Some (snapshotRow sid (with_totals snap es)) /\
    rows_of s' sid = map (entryValues sid) es.

(** From [s] to [s'] only snapshots of the instances [P] were added. *)
Record extends (P : string -> Prop) (s s' : PGSnapshotStore) : Prop := {
  ex_inv : store_inv s';
  ex_faults : no_faults s';
  ex_kept : forall sid r, ps_snaps s !! sid = Some r ->
    ps_snaps s' !! sid = Some r /\ rows_of s' sid = rows_of s sid;
  ex_new : forall sid r, ps_snaps s' !! sid = Some r -> ps_snaps s !! sid = None ->
    P (sn_InstanceID r)
}.

Lemma extends_trans (P Q R : string -> Prop) s1 s2 s3 :
  extends P s1 s2 -> extends Q s2 s3 ->
  (forall i, P i -> R i) -> (forall i, Q i -> R i) -> extends R s1 s3.
Proof.
  intros [_ _ H1 H2] [H3 H4 H5 H6] HP HQ. split; [done|done| |].
  - intros sid r Hr. destruct (H1 _ _ Hr) as [Hr2 E]. destruct (H5 _ _ Hr2) as [Hr3 E'].
    split; [done|congruence].
  - intros sid r Hr Hn. destruct (ps_snaps s2 !! sid) as [r2|] eqn:E; [|by eapply HQ, H6].
    destruct (H5 _ _ E) as [Hr3 _]. assert (r2 = r) as -> by congruence. by eapply HP, H2.
Qed.

Lemma extends_same s s' (P : string -> Prop) :
  store_inv s' -> no_faults s' -> ps_snaps s' = ps_snaps s -> ps_entries s' = ps_entries s ->
  extends P s s'.
Proof.
  intros Hs Hf H1 H2. split; [done|done| |].
  - intros sid r Hr. unfold rows_of, entryRows. by rewrite H1, H2.
  - intros sid r Hr Hn. congruence.
Qed.

Lemma same_time_extends P s s' snap :
  extends P s s' -> ~ P (sn_InstanceID snap) -> same_time s' snap -> same_time s snap.
Proof.
  intros H Hn (id & r & Hr & Hi & Ht). destruct (ps_snaps s !! id) as [r0|] eqn:E.
  - destruct (ex_kept _ _ _ H _ _ E) as [Hr' _]. exists id, r0.
    assert (r0 = r) as -> by congruence. done.
  - destruct Hn. rewrite <- Hi. by eapply ex_new.
Qed.

(** One capture: nothing of another instance changes; a readable instance is stored. *)
Lemma capture_step cy now id s : store_inv s -> no_faults s ->
  let s' := (CaptureInstance (cy_pools cy) now s id).1 in
  match capturable cy now id with
  | None => s' = s
  | Some (snap, es) =>
      extends (fun i => i = id) s s' /\
      (NoDup (map entryKey es) -> ~ same_time s snap -> stored s s' snap es)
  end.
Proof.
  intros Hs Hf. unfold CaptureInstance, capturable.
  destruct (cy_pools cy id) as [[conn|e]|e]; cbn [fst]; try done.
  destruct (readInstance conn id) as [[[v sr] es]|e]; cbn [fst]; [|done]. cbn zeta.
  set (snap := mkSnapshot 0 id now (v_Num v) sr 0 0 f0).
  change (st_WriteSnapshot s snap es) with (pg_WriteSnapshot s snap es).
  pose proof (write_cases s snap es Hs) as H.
  destruct (pg_WriteSnapshot s snap es) as [s' [sid|e]]; cbn [fst].
  - destruct H as (-> & -> & Ht & Hnd). split.
    + split; [by apply written_inv|exact Hf| |].
      * intros sid r Hr. assert (sid <> ps_seq s).
        { intros ->. by rewrite fresh_id in Hr. }
        rewrite rows_written by done. rewrite (proj2 (Z.eqb_neq _ _)) by done.
        split; [|done]. cbn. by rewrite lookup_insert_ne.
      * intros sid r Hr Hn. cbn [written ps_snaps] in Hr.
        apply lookup_insert_Some in Hr as [[<- <-]|[_ Hr]]; [done|congruence].
    + intros _ _. exists (ps_seq s). split; [by apply fresh_id|]. split.
      * cbn. by rewrite lookup_insert_eq.
      * by rewrite rows_written, Z.eqb_refl.
  - destruct H as [Hc H]. split; [|intros Hnd Ht; by destruct (H Hf)].
    destruct Hc as [-> | ->]; apply extends_same; try done; by apply snapshots_next_id_inv.
Qed.

Lemma stored_extends P s0 s1 s2 snap es :
  stored s0 s1 snap es -> extends P s1 s2 -> stored s0 s2 snap es.
Proof.
  intros (sid & H1 & H2 & H3) H. destruct (ex_kept _ _ _ H _ _ H2) as [H4 H5].
  exists sid. split; [done|]. split; [done|]. by rewrite H5.
Qed.

Lemma stored_before P s0 s1 s2 snap es :
  extends P s0 s1 -> stored s1 s2 snap es -> stored s0 s2 snap es.
Proof.
  intros H (sid & H1 & H2 & H3). exists sid. split; [|done].
  destruct (ps_snaps s0 !! sid) as [r|] eqn:E; [|done].
  destruct (ex_kept _ _ _ H _ _ E) as [H4 _]. congruence.
Qed.

Lemma captureAll_spec cy ids : forall k s n,
  store_inv s -> no_faults s -> (forall j, cy_cancelled cy j = false) -> NoDup ids ->
  let '(s', _, fin) := captureAll cy k ids s n in
  fin = true /\ extends (fun i => exists j, ids !! j = Some i /\
                           is_Some (capturable cy (cy_clock cy (k + j)) i)) s s' /\
  forall j id snap es, ids !! j = Some id -> capturable cy (cy_clock cy (k + j)) id = Some (snap, es) ->
    NoDup (map entryKey es) -> ~ same_time s snap -> stored s s' snap es.
Proof.
  induction ids as [|id ids IH]; intros k s n Hs Hf Hc Hnd; cbn [captureAll].
  { split; [done|]. split; [by apply extends_same|]. intros j id snap es H. by rewrite lookup_nil in H. }
  rewrite Hc. apply NoDup_cons in Hnd as [Hid Hnd].
  pose proof (capture_step cy (cy_clock cy k) id s Hs Hf) as Hstep. cbn zeta in Hstep.
  destruct (CaptureInstance _ _ s id) as [s1 r] eqn:E. cbn [fst] in Hstep.
  set (Q := fun i => i = id /\ is_Some (capturable cy (cy_clock cy k) id)).
  assert (extends Q s s1) as Hx.
  { unfold Q. destruct (capturable cy (cy_clock cy k) id) as [[snap es]|] eqn:Ec.
    - destruct Hstep as [[H1 H2 H3 H4] _]. split; try done. intros sid x Hx1 Hx2. split; [eauto|done].
    - subst s1. by apply extends_same. }
  assert (forall n', let '(s', _, fin) := captureAll cy (S k) ids s1 n' in
    fin = true /\ extends (fun i => exists j, (id :: ids) !! j = Some i /\
                           is_Some (capturable cy (cy_clock cy (k + j)) i)) s s' /\
    forall j id0 snap es, (id :: ids) !! j = Some id0 ->
      capturable cy (cy_clock cy (k + j)) id0 = Some (snap, es) ->
      NoDup (map entryKey es) -> ~ same_time s snap -> stored s s' snap es) as Hall.
  { intros n'. specialize (IH (S k) s1 n' (ex_inv _ _ _ Hx) (ex_faults _ _ _ Hx) Hc Hnd).
    destruct (captureAll cy (S k) ids s1 n') as [[s' m] fin]. destruct IH as (-> & Hx' & Hst).
    split; [done|]. split.
    - eapply extends_trans; [exact Hx|exact Hx'| |].
      + intros i [-> H]. exists 0%nat. by rewrite Nat.add_0_r.
      + intros i (j & H1 & H2). exists (S j). by rewrite Nat.add_succ_r.
    - intros [|j] id0 snap es H1 H2 H3 H4; cbn in H1.
      + injection H1 as <-. rewrite Nat.add_0_r in H2. rewrite H2 in Hstep.
        eapply stored_extends; [|exact Hx']. by apply Hstep.
      + rewrite Nat.add_succ_r in H2. eapply stored_before; [exact Hx|].
        eapply Hst; [done..|]. intros Ht. apply H4. eapply same_time_extends; [exact Hx| |done].
        intros [Heq _]. apply Hid. rewrite <- Heq, (capturable_instance _ _ _ _ _ H2).
        by eapply list_elem_of_lookup_2. }
  destruct r; apply Hall.
Qed.

(** A capture cycle treats every instance on its own. After a cycle over distinct instances,
    in which any of them may be unreachable, unreadable or refused by the store: the tables are
    sound; a snapshot that was there is kept with its entries or, when it is older than the
    retention, deleted with them; every new snapshot is of an instance that could be read; and
    every instance that could be read, had no duplicated statement and no snapshot of the same
    microsecond, has a new snapshot with exactly the entries read and their totals. *)
Theorem capture_cycle_isolated (c : SnapshotCapturer) (cy : Cycle) (s : PGSnapshotStore) ids :
  store_inv s -> no_faults s -> cy_listed cy = Ok ids -> NoDup ids ->
  (forall j, cy_cancelled cy j = false) ->
  let s' := runCycle c cy s in
  let cutoff := time_Add (cy_end cy) (- sc_retention c) in
  store_inv s' /\
  (forall sid r, ps_snaps s !! sid = Some r ->
     if kept cutoff r then ps_snaps s' !! sid = Some r /\ rows_of s' sid = rows_of s sid
     else ps_snaps s' !! sid = None /\ rows_of s' sid = []) /\
  (forall sid r, ps_snaps s' !! sid = Some r -> ps_snaps s !! sid = None ->
     exists j, ids !! j = Some (sn_InstanceID r) /\
       is_Some (capturable cy (cy_clock cy j) (sn_InstanceID r))) /\
  (forall j id snap es, ids !! j = Some id -> capturable cy (cy_clock cy j) id = Some (snap, es) ->
     NoDup (map entryKey es) -> ~ same_time s snap ->
     pg_time cutoff <= pg_time (sn_CapturedAt snap) -> stored s s' snap es).
Proof.
  intros Hs Hf Hl Hnd Hc s' cutoff. unfold runCycle in s'. subst s'. rewrite Hl.
  pose proof (captureAll_spec cy ids 0 s 0 Hs Hf Hc Hnd) as H.
  destruct (captureAll cy 0 ids s 0) as [[s1 m] fin]. destruct H as (-> & [H1 H2 H3 H4] & H5).
  change ((st_CleanOld s1 (time_Add (cy_end cy) (- sc_retention c))).1) with (pg_CleanOld s1 cutoff).1.
  pose proof (snapshots_clean_inv s1 cutoff H1) as Hi.
  split; [done|]. split; [|split].
  - intros sid r Hr. destruct (H3 _ _ Hr) as [Hr1 Hrows].
    destruct (kept cutoff r) eqn:Ek.
    + assert (ps_snaps (pg_CleanOld s1 cutoff).1 !! sid = Some r) as Hr' by by apply clean_snaps.
      split; [done|]. by rewrite (clean_rows _ _ _ r).
    + assert (ps_snaps (pg_CleanOld s1 cutoff).1 !! sid = None) as Hn; [|by split; [|apply rows_empty]].
      destruct (ps_snaps (pg_CleanOld s1 cutoff).1 !! sid) as [x|] eqn:E; [|done].
      apply clean_snaps in E as [E Ex]; [|done]. congruence.
  - intros sid r [Hr _]%clean_snaps Hn; [|done]. destruct (H4 _ _ Hr Hn) as (j & Hj & Hcap). by exists j.
  - intros j id snap es Hj Hcap Hk Ht Hcut.
    destruct (H5 j id snap es Hj Hcap Hk Ht) as (sid & Ha & Hb & Hrows).
    assert (ps_snaps (pg_CleanOld s1 cutoff).1 !! sid = Some (snapshotRow sid (with_totals snap es)))
      as Hb'.
    { apply clean_snaps; [done|]. split; [done|]. unfold kept, time_Before. cbn.
      by rewrite (proj2 (Z.ltb_ge _ _)). }
    exists sid. split; [done|]. split; [done|]. by rewrite (clean_rows _ _ _ _ (H2 PQuery) Hb').
Qed.
End cycle.

(** ** What the other routes answer *)

(** The text of the join leaves total_exec_time without an alias while both tables have it: over
    the PostgreSQL store the insight of a query is always an internal error. *)
Lemma query_insights_always_fail {SS : SliceSort} {MR : MapRange} parse now
    (srv : APIServer PGSnapshotStore) inst s q n :
  api_instanceExists srv inst = true -> api_pgssStore srv = Some s ->
  handleQueryInsights parse now srv inst q n
  = match ParseInt q with
    | (_, Some _) => invalid "queryid must be an integer"
    | (_, None) => internal "failed to get query data"
    end.
Proof.
  intros Hex Hst. unfold handleQueryInsights, withStore. rewrite Hex, Hst. cbn [negb].
  destruct (ParseInt q) as [id [e|]]; [done|]. unfold st_GetEntriesForQuery; cbn.
  unfold pg_GetEntriesForQuery, select. destruct (ps_fault s PQuery); [done|].
  change (resolve _ unqualified) with (Some "column reference total_exec_time is ambiguous").
  done.
Qed.

(** The no-op store answers a nil snapshot without an error, which the handler dereferences. *)
Lemma null_store_dereferenced (srv : APIServer NullSnapshotStore) inst idStr q id :
  api_instanceExists srv inst = true -> api_pgssStore srv = Some mkNull ->
  ParseInt idStr = (id, None) -> handleGetSnapshot srv inst idStr q = NilDereference.
Proof.
  intros Hex Hst Hid. unfold handleGetSnapshot, withStore. by rewrite Hex, Hst, Hid.
Qed.

(** Since version 14 a statement has two rows when it ran both at top level and nested in a
    function; the key of the entries has no such column, so the snapshot is refused. *)
Lemma duplicated_statement_refused s snap e e' es : store_inv s -> no_faults s ->
  entryKey e = entryKey e' ->
  let '(s', r) := pg_WriteSnapshot s snap (e :: e' :: es) in
  (exists msg, r = Err msg) /\ ps_snaps s' = ps_snaps s /\ ps_entries s' = ps_entries s.
Proof.
  intros Hs Hf Hk. pose proof (write_cases s snap (e :: e' :: es) Hs) as H.
  destruct (pg_WriteSnapshot s snap (e :: e' :: es)) as [s' [id|msg]].
  - destruct H as (_ & _ & _ & Hnd). cbn in Hnd. apply NoDup_cons in Hnd as [Hnd _].
    destruct Hnd. rewrite Hk. by left.
  - destruct H as [[-> | ->] _]; (split; [by eexists|done]).
Qed.

(** ** A small deployment *)

#[local] Existing Instance cell_driver.
#[local] Existing Instance insertion_SliceSort.
#[local] Existing Instance canonical_MapRange.

Definition empty_store : PGSnapshotStore := mkPGSnapshotStore ∅ [] 1 (fun _ => None).

Lemma empty_store_inv : store_inv empty_store.
Proof.
  split; cbn; try (intros; by rewrite lookup_empty in *); [|constructor].
  intros e He. by apply not_elem_of_nil in He.
Qed.

Lemma empty_store_faultless : no_faults empty_store.
Proof. by intros p. Qed.

(** [n] statements; statement [i] has run for [i] milliseconds, the first one for [first]. *)
Definition workload (n : nat) (first : Z) : list SnapshotEntry :=
  map (fun i => mkSnapshotEntry 0 (Z.of_nat i) 10 5 "app" "u" "select" 1
         (f_of_Z (if (i =? 1)%nat then first else Z.of_nat i)) None
         1 0 0 0 0 0 0 0 0 f0 f0 None None None None None None None) (seq 1 n).

Definition snapAt (at_ : Time) : Snapshot := mkSnapshot 0 "db1" at_ 160001 None 0 0 f0.

Definition two_snapshots (n : nat) : PGSnapshotStore :=
  (pg_WriteSnapshot (pg_WriteSnapshot empty_store (snapAt 0) (workload n 1)).1
     (snapAt Minute) (workload n 100)).1.

Definition demo_server (n : nat) : APIServer PGSnapshotStore :=
  mkAPIServer (fun id => String.eqb id "db1") (Some (two_snapshots n)) 50.

Definition diff_of (o : outcome snapshotBody) : option DiffResult :=
  match o with Answer (RJSON _ (BDiff d)) => Some d | _ => None end.

(** With 51 statements in both snapshots, the one that became busy is reported as new and an
    unchanged one as evicted. *)
Lemma busy_statement_reported_new :
  (fun d => (map de_QueryID (dr_NewQueries d), map de_QueryID (dr_EvictedQueries d), dr_TotalEntries d))
    <$> diff_of (handleLatestDiff (demo_server 51) "db1" (fun _ => ""))
  = Some ([1], [2], 49).
Proof. vm_compute. reflexivity. Qed.

Lemma two_snapshots_inv n : store_inv (two_snapshots n).
Proof. apply write_inv, write_inv, empty_store_inv. Qed.


Definition demo_older : Snapshot := mkSnapshot 1 "db1" 0 160001 None 2 2 (f_of_Z 3).
Definition demo_newer : Snapshot := mkSnapshot 2 "db1" Minute 160001 None 2 2 (f_of_Z 102).

Lemma demo_newest_two : newest_two (two_snapshots 2) "db1" demo_newer demo_older.
Proof.
  split; [split; [vm_compute; reflexivity|reflexivity]..|vm_compute; reflexivity|].
  intros id r Hr _. apply elem_of_map_to_list in Hr.
  assert (map_to_list (ps_snaps (two_snapshots 2)) = [(1, demo_older); (2, demo_newer)]
          \/ map_to_list (ps_snaps (two_snapshots 2)) = [(2, demo_newer); (1, demo_older)]) as Hm.
  { vm_compute. (left; reflexivity) || (right; reflexivity). }
  destruct Hm as [Hm|Hm]; rewrite Hm in Hr; set_solver.
Qed.

Lemma latest_diff_compares_top_fifty_witness :
  exists d, handleLatestDiff (demo_server 2) "db1" (fun _ => "") = Answer (writeJSON StatusOK (BDiff d))
    /\ dr_ToSnapshot d = demo_newer.
Proof.
  destruct (latest_diff_compares_top_fifty (demo_server 2) "db1" (fun _ => "") (two_snapshots 2)
    demo_newer demo_older (two_snapshots_inv 2)) as (d & H1 & _ & H2 & _).
  - intros p. destruct p; vm_compute; reflexivity.
  - apply demo_newest_two.
  - reflexivity.
  - reflexivity.
  - exists d. split; [exact H1|exact H2].
Defined.

(** An instance of version 16 with one statement; the other instance cannot be reached. *)
Definition demo_conn : Conn := fun sql _ =>
  if String.eqb sql "SHOW server_version_num" then Ok ([[CText "160001"]], None)
  else if String.eqb sql "SHOW server_version" then Ok ([[CText "16.1"]], None)
  else if String.prefix "SELECT 1 FROM pg_extension" sql then Ok ([[CInt 1]], None)
  else if String.prefix "SELECT s.queryid" sql then
    Ok ([ [CInt 7; CInt 10; CInt 5; CText "select 1"; CInt 3; CFloat f1; CNull; CInt 3; CInt 0; CInt 0;
           CInt 0; CInt 0; CInt 0; CInt 0; CInt 0; CInt 0; CFloat f0; CFloat f0; CNull; CNull; CNull;
           CNull; CNull; CNull; CNull] ], None)
  else if String.prefix "SELECT oid, datname" sql then Ok ([[CInt 5; CText "app"]], None)
  else Ok ([], None).

Definition demo_cycle : Cycle :=
  mkCycle (Ok ["down"; "db1"])
    (fun id => if String.eqb id "db1" then Ok (Ok demo_conn) else Ok (Err "connection refused"))
    (fun k => Z.of_nat k * Second) (2 * Second) (fun _ => false).

Lemma capture_cycle_isolated_witness :
  exists es, stored empty_store (runCycle (NewSnapshotCapturer (30 * Minute) 30 true) demo_cycle empty_store)
    (mkSnapshot 0 "db1" Second 160001 None 0 0 f0) es /\ map se_DatabaseName es = ["app"].
Proof.
  destruct (capture_cycle_isolated (NewSnapshotCapturer (30 * Minute) 30 true) demo_cycle empty_store
    ["down"; "db1"] empty_store_inv empty_store_faultless eq_refl) as (_ & _ & _ & H).
  - apply NoDup_cons. split; [set_solver|apply NoDup_singleton].
  - done.
  - destruct (capturable demo_cycle (cy_clock demo_cycle 1%nat) "db1") as [[snap es]|] eqn:E;
      [|vm_compute in E; discriminate E].
    specialize (H 1%nat "db1" snap es eq_refl E).
    vm_compute in E. injection E as <- <-. eexists. split; [apply H|reflexivity].
    + apply NoDup_singleton.
    + intros (id & r & Hr & _). cbn in Hr. by rewrite lookup_empty in Hr.
    + vm_compute. discriminate.
Defined.
