(* ===== verification/Settings.v ===== *)
(** * Snapshots of the settings of an instance

    Models internal/settings/snapshot.go, store.go and diff.go over the table of migration 009. The
    settings are stored as JSON and read back as they were written. [sg_fault] is what the server
    answers to the next statement when it fails. *)
From S2P Require Import Prelude Metric RcaOntology RcaEngine GoText Http SqlConn StatementApi.

Local Open Scope Z_scope.

Record SettingValue := mkSettingValue {
  sv_Setting : string;
  sv_Unit : string;
  sv_Source : string;
  sv_PendingRestart : bool
}.

#[global] Instance SettingValue_eq_dec : EqDecision SettingValue.
Proof. solve_decision. Defined.

Record Snapshot := mkSettingsSnapshot {
  sg_ID : Z;
  sg_InstanceID : string;
  sg_CapturedAt : Time;
  sg_TriggerType : string;
  sg_PGVersion : string;
  sg_Settings : gmap string SettingValue
}.

#[global] Instance Snapshot_eq_dec : EqDecision Snapshot.
Proof. solve_decision. Defined.

Record SnapshotMeta := mkSnapshotMeta {
  sm_ID : Z;
  sm_InstanceID : string;
  sm_CapturedAt : Time;
  sm_TriggerType : string;
  sm_PGVersion : string
}.

(** ** diff.go *)

Record SettingChange := mkChange {
  ch_Name : string;
  ch_OldValue : string;
  ch_NewValue : string;
  ch_Unit : string;
  ch_Source : string
}.

Record SettingsDiff := mkSettingsDiff {
  sd_Changed : list SettingChange;
  sd_Added : list SettingChange;
  sd_Removed : list SettingChange;
  sd_PendingRestart : list string
}.

Section diff.
Context {SS : SliceSort} {MR : MapRange}.

Definition addedChange (name : string) (v : SettingValue) : SettingChange :=
  mkChange name "" (sv_Setting v) (sv_Unit v) (sv_Source v).

Definition changedChange (name : string) (old v : SettingValue) : SettingChange :=
  mkChange name (sv_Setting old) (sv_Setting v) (sv_Unit v) (sv_Source v).

Definition removedChange (name : string) (old : SettingValue) : SettingChange :=
  mkChange name (sv_Setting old) "" "" "".

(** One iteration of the loop over the newer settings. *)
Definition diffNewer (older : gmap string SettingValue) (d : SettingsDiff)
    (kv : string * SettingValue) : SettingsDiff :=
  let '(name, newVal) := kv in
  let d := match older !! name with
           | None => mkSettingsDiff (sd_Changed d) (sd_Added d ++ [addedChange name newVal])
                       (sd_Removed d) (sd_PendingRestart d)
           | Some oldVal =>
               if negb (String.eqb (sv_Setting oldVal) (sv_Setting newVal))
               then mkSettingsDiff (sd_Changed d ++ [changedChange name oldVal newVal]) (sd_Added d)
                      (sd_Removed d) (sd_PendingRestart d)
               else d
           end in
  if sv_PendingRestart newVal
  then mkSettingsDiff (sd_Changed d) (sd_Added d) (sd_Removed d) (sd_PendingRestart d ++ [name])
  else d.

Definition diffOlder (newer : gmap string SettingValue) (d : SettingsDiff)
    (kv : string * SettingValue) : SettingsDiff :=
  let '(name, oldVal) := kv in
  match newer !! name with
  | None => mkSettingsDiff (sd_Changed d) (sd_Added d) (sd_Removed d ++ [removedChange name oldVal])
              (sd_PendingRestart d)
  | Some _ => d
  end.

Definition byName (l : list SettingChange) : list SettingChange :=
  sort_slice (fun a b => string_ltb (ch_Name a) (ch_Name b)) l.

Definition DiffSnapshots (older newer : gmap string SettingValue) : SettingsDiff :=
  let d := foldl (diffNewer older) (mkSettingsDiff [] [] [] []) (map_range newer) in
  let d := foldl (diffOlder newer) d (map_range older) in
  mkSettingsDiff (byName (sd_Changed d)) (byName (sd_Added d)) (byName (sd_Removed d))
    (sort_slice string_ltb (sd_PendingRestart d)).

End diff.

(** ** store.go *)

Record PGSnapshotStore := mkSettingsStore {
  sg_rows : gmap Z Snapshot;
  sg_seq : Z;
  sg_fault : option error
}.

Definition err_NoRows : error := "no rows in result set".

Definition row_of (id : Z) (s : Snapshot) : Snapshot :=
  mkSettingsSnapshot id (sg_InstanceID s) (pg_time (sg_CapturedAt s)) (sg_TriggerType s)
    (sg_PGVersion s) (sg_Settings s).

Definition SaveSnapshot (st : PGSnapshotStore) (snap : Snapshot) : PGSnapshotStore * option error :=
  match sg_fault st with
  | Some e => (st, Some e)
  | None =>
      (mkSettingsStore (<[sg_seq st := row_of (sg_seq st) snap]> (sg_rows st)) (sg_seq st + 1)
         (sg_fault st), None)
  end.

Definition GetSnapshot (st : PGSnapshotStore) (id : Z) : result Snapshot :=
  match sg_fault st with
  | Some e => Err e
  | None => match sg_rows st !! id with Some s => Ok s | None => Err err_NoRows end
  end.

Definition meta_of (s : Snapshot) : SnapshotMeta :=
  mkSnapshotMeta (sg_ID s) (sg_InstanceID s) (sg_CapturedAt s) (sg_TriggerType s) (sg_PGVersion s).

Section store.
Context {SS : SliceSort} {MR : MapRange}.

(** The snapshots of an instance, [ORDER BY captured_at DESC]. *)
Definition instanceRows (st : PGSnapshotStore) (instanceID : string) : list Snapshot :=
  sort_slice (fun a b => time_Before (sg_CapturedAt b) (sg_CapturedAt a))
    (List.filter (fun s => bool_decide (sg_InstanceID s = instanceID))
       (map snd (map_range (sg_rows st)))).

Definition ListSnapshots (st : PGSnapshotStore) (instanceID : string) (limit : Z)
    : result (list SnapshotMeta) :=
  let limit := if limit <=? 0 then 50 else limit in
  match sg_fault st with
  | Some e => Err e
  | None => Ok (map meta_of (take (Z.to_nat limit) (instanceRows st instanceID)))
  end.

Definition LatestSnapshot (st : PGSnapshotStore) (instanceID : string) : result Snapshot :=
  match sg_fault st with
  | Some e => Err e
  | None => match instanceRows st instanceID with
            | [] => Err err_NoRows
            | s :: _ => GetSnapshot st (sg_ID s)
            end
  end.

End store.

(** ** snapshot.go: the collector *)

Record SnapshotConfig := mkSnapshotConfig {
  snc_Enabled : bool;
  snc_ScheduledInterval : Duration;
  snc_CaptureOnStartup : bool;
  snc_RetentionDays : Z
}.

Record SnapshotCollector := mkSnapshotCollector {
  snl_config : SnapshotConfig;
  snl_capturedOnStart : gmap string bool;
  snl_lastScheduled : gmap string Time
}.

Definition NewSnapshotCollector (cfg : SnapshotConfig) : SnapshotCollector :=
  mkSnapshotCollector cfg ∅ ∅.

Section collector.
Context `{DR : Driver}.

Definition scan_setting : Scanner (string * SettingValue) :=
  name ← str; setting ← str; unit_ ← str; source ← str; pending ← boolean;
  mret (name, mkSettingValue setting unit_ source pending).

Definition settingsMap (rows : list (string * SettingValue)) : gmap string SettingValue :=
  foldl (fun m kv => <[kv.1 := kv.2]> m) ∅ rows.

Definition settingsSQL : string := "
		SELECT name, setting, COALESCE(unit, ''), source, pending_restart
		FROM pg_catalog.pg_settings
		ORDER BY name
	".

(** A row that cannot be read ends the rows, and the error after them is not looked at. *)
Definition capture (conn : Conn) (now : Time) (st : PGSnapshotStore) (instanceID trigger : string)
    : PGSnapshotStore * option error :=
  match query_skip conn settingsSQL [] scan_setting with
  | Err e => (st, Some e)
  | Ok (rows, _) =>
      let version := match query_row conn "SELECT version()" [] str with Ok v => v | Err _ => "" end in
      SaveSnapshot st (mkSettingsSnapshot 0 instanceID now trigger version (settingsMap rows))
  end.

(** The three readings of the clock: the check, the capture and the note of the capture. *)
Record CollectTimes := mkCollectTimes { ct_check : Time; ct_capture : Time; ct_done : Time }.

Definition Collect (c : SnapshotCollector) (conn : Conn) (t : CollectTimes) (st : PGSnapshotStore)
    (instanceID : string) : SnapshotCollector * PGSnapshotStore * option error :=
  if negb (snc_Enabled (snl_config c)) then (c, st, None)
  else
    let needsStartup := snc_CaptureOnStartup (snl_config c)
                        && negb (default false (snl_capturedOnStart c !! instanceID)) in
    let needsScheduled := snc_ScheduledInterval (snl_config c)
          <=? time_Sub (ct_check t) (default zero_time (snl_lastScheduled c !! instanceID)) in
    if needsStartup then
      match capture conn (ct_capture t) st instanceID "startup" with
      | (st', Some e) => (c, st', Some (wrap "startup settings snapshot" e))
      | (st', None) =>
          (mkSnapshotCollector (snl_config c) (<[instanceID := true]> (snl_capturedOnStart c))
             (snl_lastScheduled c), st', None)
      end
    else if needsScheduled then
      match capture conn (ct_capture t) st instanceID "scheduled" with
      | (st', Some e) => (c, st', Some (wrap "scheduled settings snapshot" e))
      | (st', None) =>
          (mkSnapshotCollector (snl_config c) (snl_capturedOnStart c)
             (<[instanceID := ct_done t]> (snl_lastScheduled c)), st', None)
      end
    else (c, st, None).

Definition CaptureManual (conn : Conn) (now : Time) (st : PGSnapshotStore) (instanceID : string)
    : PGSnapshotStore * option error := capture conn now st instanceID "manual".

End collector.

(** * Settings: the API and the provider of the root cause analysis

    Models internal/api/settings_handlers.go and internal/rca/settings_adapter.go over the store
    of settings snapshots. *)

Inductive settingsBody :=
  | BHistory (metas : list SnapshotMeta) (count : Z)
  | BSettingsDiff (d : SettingsDiff) (from_id to_id : Z) (from_at to_at : Time)
  | BLatest (s : Settings.Snapshot)
  | BPending (l : list Settings.SettingChange) (count : Z)
  | BTaken (instance_id : string) (settings_count : Z) (pg_version : string).

Section handlers.
Context {SS : SliceSort} {MR : MapRange}.

(** The two checks every handler starts with. *)
Definition withSnapshots {B} (instanceExists : string -> bool)
    (snapshotStore : option Settings.PGSnapshotStore) (instanceID : string)
    (k : Settings.PGSnapshotStore -> response B) : response B :=
  if negb (instanceExists instanceID) then
    writeError StatusNotFound "not_found" ("instance '" +:+ instanceID +:+ "' not found")
  else match snapshotStore with
       | None => writeError StatusServiceUnavailable "unavailable"
                   "settings snapshot storage not configured"
       | Some st => k st
       end.

Definition isNoRows (e : error) : bool := String.eqb e err_NoRows.

Definition handleSettingsHistory (instanceExists : string -> bool)
    (snapshotStore : option Settings.PGSnapshotStore) (instanceID limitStr : string)
    : response settingsBody :=
  withSnapshots instanceExists snapshotStore instanceID (fun st =>
    match ListSnapshots st instanceID (queryLimit 50 limitStr) with
    | Err _ => writeError StatusInternalServerError "internal" "failed to list snapshots"
    | Ok metas => writeJSON StatusOK (BHistory metas (len metas))
    end).

Definition snapshotOr404 {B} (st : Settings.PGSnapshotStore) (id : Z) (missing : string)
    (k : Settings.Snapshot -> response B) : response B :=
  match Settings.GetSnapshot st id with
  | Ok s => k s
  | Err e => if isNoRows e then writeError StatusNotFound "not_found" missing
             else writeError StatusInternalServerError "internal" "failed to get snapshot"
  end.

Definition handleSettingsDiff (instanceExists : string -> bool)
    (snapshotStore : option Settings.PGSnapshotStore) (instanceID fromStr toStr : string)
    : response settingsBody :=
  withSnapshots instanceExists snapshotStore instanceID (fun st =>
    if String.eqb fromStr "" || String.eqb toStr "" then
      writeError StatusBadRequest "invalid_param" "from and to snapshot IDs are required"
    else match ParseInt fromStr with
    | (_, Some _) => writeError StatusBadRequest "invalid_param" "from must be an integer"
    | (fromID, None) =>
    match ParseInt toStr with
    | (_, Some _) => writeError StatusBadRequest "invalid_param" "to must be an integer"
    | (toID, None) =>
        snapshotOr404 st fromID "from snapshot not found" (fun fromSnap =>
        snapshotOr404 st toID "to snapshot not found" (fun toSnap =>
          if negb (String.eqb (sg_InstanceID fromSnap) instanceID)
             || negb (String.eqb (sg_InstanceID toSnap) instanceID)
          then writeError StatusBadRequest "invalid_param"
                 "snapshots do not belong to this instance"
          else writeJSON StatusOK
                 (BSettingsDiff (DiffSnapshots (sg_Settings fromSnap) (sg_Settings toSnap))
                    fromID toID (sg_CapturedAt fromSnap) (sg_CapturedAt toSnap))))
    end end).

Definition handleSettingsLatest (instanceExists : string -> bool)
    (snapshotStore : option Settings.PGSnapshotStore) (instanceID : string)
    : response settingsBody :=
  withSnapshots instanceExists snapshotStore instanceID (fun st =>
    match LatestSnapshot st instanceID with
    | Ok snap => writeJSON StatusOK (BLatest snap)
    | Err e => if isNoRows e
               then writeError StatusNotFound "not_found" "no snapshots found for this instance"
               else writeError StatusInternalServerError "internal" "failed to get snapshot"
    end).

(** In the order in which the map is ranged over. *)
Definition pendingOf (settings : gmap string SettingValue) : list Settings.SettingChange :=
  foldl (fun acc kv => if sv_PendingRestart kv.2
                       then acc ++ [mkChange kv.1 "" (sv_Setting kv.2) (sv_Unit kv.2) (sv_Source kv.2)]
                       else acc) [] (map_range settings).

Definition handleSettingsPendingRestart (instanceExists : string -> bool)
    (snapshotStore : option Settings.PGSnapshotStore) (instanceID : string)
    : response settingsBody :=
  withSnapshots instanceExists snapshotStore instanceID (fun st =>
    match LatestSnapshot st instanceID with
    | Ok snap => let pending := pendingOf (sg_Settings snap) in
                 writeJSON StatusOK (BPending pending (len pending))
    | Err e => if isNoRows e then writeJSON StatusOK (BPending [] 0)
               else writeError StatusInternalServerError "internal" "failed to get snapshot"
    end).

Definition manualSettingsSQL : string := "
		SELECT name, setting, COALESCE(unit, ''), source, pending_restart
		FROM pg_settings
		ORDER BY name
	".

(** Unlike the collector, the handler gives up when the rows end with an error. *)
Definition handleSettingsManualSnapshot `{DR : Driver} (now : Time)
    (instanceExists : string -> bool) (snapshotStore : option Settings.PGSnapshotStore)
    (connProvider : option (string -> result Conn)) (instanceID : string)
    : option Settings.PGSnapshotStore * response settingsBody :=
  let failed message := (snapshotStore, writeError StatusInternalServerError "internal" message) in
  if negb (instanceExists instanceID) then
    (snapshotStore,
     writeError StatusNotFound "not_found" ("instance '" +:+ instanceID +:+ "' not found"))
  else match snapshotStore with
  | None => (None, writeError StatusServiceUnavailable "unavailable"
                     "settings snapshot storage not configured")
  | Some st =>
  match connProvider with
  | None => (snapshotStore, writeError StatusServiceUnavailable "unavailable"
                              "connection provider not available")
  | Some connFor =>
  match connFor instanceID with
  | Err _ => failed "failed to connect to instance"
  | Ok conn =>
  match query_skip conn manualSettingsSQL [] scan_setting with
  | Err _ => failed "failed to query settings"
  | Ok (_, Some _) => failed "failed to read settings"
  | Ok (rows, None) =>
      let settings := settingsMap rows in
      let version := match query_row conn "SHOW server_version" [] str with
                     | Ok v => v | Err _ => "" end in
      match SaveSnapshot st (mkSettingsSnapshot 0 instanceID now "manual" version settings) with
      | (st', Some _) => (Some st', writeError StatusInternalServerError "internal"
                                      "failed to save snapshot")
      | (st', None) => (Some st', writeJSON StatusCreated
                                    (BTaken instanceID (Z.of_nat (size settings)) version))
      end
  end end end end.

(** ** settings_adapter.go *)

(** The changes between two adjacent snapshots; either may fail to load. *)
Definition changesBetween (st : Settings.PGSnapshotStore) (newer older : SnapshotMeta)
    : list RcaEngine.SettingChange :=
  match Settings.GetSnapshot st (sm_ID newer) with
  | Err _ => []
  | Ok newerSnap =>
      match Settings.GetSnapshot st (sm_ID older) with
      | Err _ => []
      | Ok olderSnap =>
          map (fun ch => mkSettingChange (ch_Name ch) (ch_OldValue ch) (ch_NewValue ch)
                           (sm_CapturedAt newer))
            (sd_Changed (DiffSnapshots (sg_Settings olderSnap) (sg_Settings newerSnap)))
      end
  end.

(** The loop over the pairs of neighbours, newest first. *)
Fixpoint windowChanges (st : Settings.PGSnapshotStore) (from to : Time) (metas : list SnapshotMeta)
    : list RcaEngine.SettingChange :=
  match metas with
  | newer :: ((older :: _) as rest) =>
      (if time_Before (sm_CapturedAt newer) from || time_After (sm_CapturedAt newer) to then []
       else changesBetween st newer older) ++ windowChanges st from to rest
  | _ => []
  end.

Definition GetChanges (st : Settings.PGSnapshotStore) (instanceID : string) (from to : Time)
    : result (list RcaEngine.SettingChange) :=
  match ListSnapshots st instanceID 50 with
  | Err e => Err e
  | Ok metas => if len metas <? 2 then Ok [] else Ok (windowChanges st from to metas)
  end.

(** The provider that main.go gives to the engine. *)
Definition NewSnapshotSettingsProvider (st : Settings.PGSnapshotStore) : SettingsProvider :=
  GetChanges st.

End handlers.
