(* ===== verification/SettingsTheorems.v ===== *)
(** * What the differences between settings snapshots say

    A difference is a patch: it turns the older settings into the newer ones and has no superfluous
    entry. The changes given to the root cause analysis are those between neighbouring snapshots. *)
From S2P Require Import Prelude Metric SqlConn RcaOntology RcaEngine Settings.

Local Open Scope Z_scope.

Section patch.
Context {SS : SliceSort} {MR : MapRange}.

(** ** The lists of a difference *)

Definition asChanged (older : gmap string SettingValue) (kv : string * SettingValue)
    : option Settings.SettingChange :=
  old ← older !! kv.1;
  if negb (String.eqb (sv_Setting old) (sv_Setting kv.2)) then Some (changedChange kv.1 old kv.2) else None.

Definition asAdded (older : gmap string SettingValue) (kv : string * SettingValue)
    : option Settings.SettingChange :=
  match older !! kv.1 with None => Some (addedChange kv.1 kv.2) | Some _ => None end.

Definition asPending (kv : string * SettingValue) : option string :=
  if sv_PendingRestart kv.2 then Some kv.1 else None.

Definition asRemoved (newer : gmap string SettingValue) (kv : string * SettingValue)
    : option Settings.SettingChange :=
  match newer !! kv.1 with None => Some (removedChange kv.1 kv.2) | Some _ => None end.

Lemma diffNewer_fold older l : forall d,
  foldl (diffNewer older) d l
  = mkSettingsDiff (sd_Changed d ++ omap (asChanged older) l) (sd_Added d ++ omap (asAdded older) l)
      (sd_Removed d) (sd_PendingRestart d ++ omap asPending l).
Proof.
  induction l as [|[name v] l IH]; intros [c a r p].
  { cbn. by rewrite !app_nil_r. }
  cbn [foldl]. rewrite IH. unfold diffNewer, asChanged at 2, asAdded at 2, asPending at 2.
  cbn [omap list_omap fst snd]. unfold asChanged, asAdded, asPending. cbn.
  destruct (older !! name) as [o|]; cbn; [destruct (negb _); cbn|];
    destruct (sv_PendingRestart v); cbn; by rewrite <- ?app_assoc.
Qed.

Lemma diffOlder_fold newer l : forall d,
  foldl (diffOlder newer) d l
  = mkSettingsDiff (sd_Changed d) (sd_Added d) (sd_Removed d ++ omap (asRemoved newer) l)
      (sd_PendingRestart d).
Proof.
  induction l as [|[name v] l IH]; intros [c a r p].
  { cbn. by rewrite app_nil_r. }
  cbn [foldl]. rewrite IH. cbn [omap list_omap]. unfold diffOlder, asRemoved. cbn.
  destruct (newer !! name); cbn; by rewrite <- ?app_assoc.
Qed.

Lemma DiffSnapshots_eq older newer :
  DiffSnapshots older newer
  = mkSettingsDiff (byName (omap (asChanged older) (map_range newer)))
      (byName (omap (asAdded older) (map_range newer)))
      (byName (omap (asRemoved newer) (map_range older)))
      (sort_slice string_ltb (omap asPending (map_range newer))).
Proof. unfold DiffSnapshots. by rewrite diffNewer_fold, diffOlder_fold. Qed.

Lemma byName_perm l : byName l ≡ₚ l.
Proof. apply sort_slice_perm. Qed.

Lemma elem_omap_range {A} (f : string * SettingValue -> option A) (m : gmap string SettingValue) x :
  x ∈ omap f (map_range m) <-> exists name v, m !! name = Some v /\ f (name, v) = Some x.
Proof.
  rewrite list_elem_of_omap. setoid_rewrite map_range_perm. split.
  - intros ([name v] & H%elem_of_map_to_list & Hf). by exists name, v.
  - intros (name & v & H%elem_of_map_to_list & Hf). by exists (name, v).
Qed.

(** At most one entry comes of each key, and it bears the key as its name. *)
Lemma names_NoDup {A} (f : string * SettingValue -> option A) (nm : A -> string)
    (m : gmap string SettingValue) :
  (forall kv x, f kv = Some x -> nm x = kv.1) -> NoDup (map nm (omap f (map_range m))).
Proof.
  intros Hf. assert (NoDup (map_range m).*1) as Hnd.
  { rewrite map_range_perm. apply NoDup_fst_map_to_list. }
  induction (map_range m) as [|kv l IH]; [constructor|]. csimpl in Hnd.
  apply NoDup_cons in Hnd as [Hk Hnd]. csimpl.
  destruct (f kv) as [x|] eqn:E; [|by apply IH]. csimpl. apply NoDup_cons. split; [|by apply IH].
  intros (y & Hy & (kv' & Hin & E')%list_elem_of_omap)%list_elem_of_fmap. apply Hk.
  rewrite (Hf _ _ E) in Hy. rewrite Hy, (Hf _ _ E'). by apply list_elem_of_fmap_2.
Qed.

Lemma changed_elem older newer ch :
  ch ∈ sd_Changed (DiffSnapshots older newer) <->
  exists o v, older !! ch_Name ch = Some o /\ newer !! ch_Name ch = Some v /\
    sv_Setting o <> sv_Setting v /\ ch = changedChange (ch_Name ch) o v.
Proof.
  rewrite DiffSnapshots_eq. cbn [sd_Changed]. rewrite byName_perm, elem_omap_range. split.
  - intros (name & v & Hv & H). unfold asChanged in H. cbn in H.
    destruct (older !! name) as [o|] eqn:Eo; [|done]. cbn in H.
    destruct (String.eqb_spec (sv_Setting o) (sv_Setting v)); [done|]. cbn in H. injection H as <-.
    by exists o, v.
  - intros (o & v & Ho & Hv & Hne & ->). exists (ch_Name ch), v. split; [done|].
    unfold asChanged. cbn. rewrite Ho. cbn. by destruct (String.eqb_spec (sv_Setting o) (sv_Setting v)).
Qed.

Lemma added_elem older newer ch :
  ch ∈ sd_Added (DiffSnapshots older newer) <->
  exists v, older !! ch_Name ch = None /\ newer !! ch_Name ch = Some v /\ ch = addedChange (ch_Name ch) v.
Proof.
  rewrite DiffSnapshots_eq. cbn [sd_Added]. rewrite byName_perm, elem_omap_range. split.
  - intros (name & v & Hv & H). unfold asAdded in H. cbn in H.
    destruct (older !! name) eqn:Eo; [done|]. injection H as <-. by exists v.
  - intros (v & Ho & Hv & ->). exists (ch_Name ch), v. split; [done|]. unfold asAdded. cbn. by rewrite Ho.
Qed.

Lemma removed_elem older newer ch :
  ch ∈ sd_Removed (DiffSnapshots older newer) <->
  exists o, older !! ch_Name ch = Some o /\ newer !! ch_Name ch = None /\ ch = removedChange (ch_Name ch) o.
Proof.
  rewrite DiffSnapshots_eq. cbn [sd_Removed]. rewrite byName_perm, elem_omap_range. split.
  - intros (name & o & Ho & H). unfold asRemoved in H. cbn in H.
    destruct (newer !! name) eqn:Ev; [done|]. injection H as <-. by exists o.
  - intros (o & Ho & Hv & ->). exists (ch_Name ch), o. split; [done|]. unfold asRemoved. cbn. by rewrite Hv.
Qed.

Lemma pending_elem older newer name :
  name ∈ sd_PendingRestart (DiffSnapshots older newer) <->
  exists v, newer !! name = Some v /\ sv_PendingRestart v = true.
Proof.
  rewrite DiffSnapshots_eq. cbn [sd_PendingRestart]. rewrite sort_slice_perm, elem_omap_range.
  unfold asPending. cbn. split.
  - intros (n & v & Hv & H). destruct (sv_PendingRestart v) eqn:E; [|done]. injection H as ->. eauto.
  - intros (v & Hv & H). exists name, v. by rewrite H.
Qed.

Lemma byName_sorted l :
  StronglySorted (fun a b => string_ltb (ch_Name b) (ch_Name a) = false) (byName l).
Proof. apply sort_slice_sorted. apply (weak_on_string ch_Name). Qed.

(** ** The difference as a patch *)

Definition set_value (m : gmap string string) (ch : Settings.SettingChange) : gmap string string :=
  <[ch_Name ch := ch_NewValue ch]> m.

Definition applyDiff (m : gmap string string) (d : SettingsDiff) : gmap string string :=
  foldl set_value (foldl set_value (foldl (fun m ch => delete (ch_Name ch) m) m (sd_Removed d))
    (sd_Changed d)) (sd_Added d).

Lemma set_values_other l : forall m name, name ∉ map ch_Name l -> foldl set_value m l !! name = m !! name.
Proof.
  induction l as [|ch l IH]; intros m name H; [done|]. cbn in *.
  apply not_elem_of_cons in H as [H1 H2]. rewrite IH by done. unfold set_value.
  by rewrite lookup_insert_ne.
Qed.

Lemma set_values_in l : forall m ch, NoDup (map ch_Name l) -> ch ∈ l ->
  foldl set_value m l !! ch_Name ch = Some (ch_NewValue ch).
Proof.
  induction l as [|x l IH]; intros m ch Hnd Hin; [by apply not_elem_of_nil in Hin|].
  cbn in *. apply NoDup_cons in Hnd as [Hx Hnd].
  apply elem_of_cons in Hin as [->|Hin]; [|by apply IH].
  rewrite set_values_other by done. unfold set_value. by rewrite lookup_insert_eq.
Qed.

Lemma deletes_lookup l : forall (m : gmap string string) name,
  foldl (fun m ch => delete (ch_Name ch) m) m l !! name
  = if bool_decide (name ∈ map ch_Name l) then None else m !! name.
Proof.
  induction l as [|ch l IH]; intros m name; [done|]. cbn [foldl map]. rewrite IH.
  repeat case_bool_decide; try done.
  - destruct H0. by right.
  - apply elem_of_cons in H0 as [->|H0]; [by rewrite lookup_delete_eq|done].
  - rewrite lookup_delete_ne; [done|]. intros Heq. apply H0. rewrite Heq. by left.
Qed.

Lemma diff_names_NoDup older newer :
  let d := DiffSnapshots older newer in
  NoDup (map ch_Name (sd_Changed d) ++ map ch_Name (sd_Added d) ++ map ch_Name (sd_Removed d)) /\
  NoDup (sd_PendingRestart d).
Proof.
  cbv zeta. split.
  - apply NoDup_app. split; [|split; [|apply NoDup_app; split; [|split]]].
    + rewrite DiffSnapshots_eq. cbn. rewrite byName_perm. apply names_NoDup.
      intros [n v] x. unfold asChanged. cbn. destruct (older !! n); [|done]. cbn.
      destruct (negb _); [|done]. by intros [= <-].
    + intros n (ch & -> & (o & v & Ho & Hv & _)%changed_elem)%list_elem_of_fmap
        [(x & Hx & (v' & H' & _)%added_elem)%list_elem_of_fmap
        |(x & Hx & (v' & _ & H' & _)%removed_elem)%list_elem_of_fmap]%elem_of_app;
        rewrite <- Hx in H'; congruence.
    + rewrite DiffSnapshots_eq. cbn. rewrite byName_perm. apply names_NoDup.
      intros [n v] x. unfold asAdded. cbn. destruct (older !! n); [done|]. by intros [= <-].
    + intros n (ch & -> & (v & Ho & Hv & _)%added_elem)%list_elem_of_fmap
        (x & Hx & (v' & H' & _)%removed_elem)%list_elem_of_fmap. rewrite <- Hx in H'. congruence.
    + rewrite DiffSnapshots_eq. cbn. rewrite byName_perm. apply names_NoDup.
      intros [n v] x. unfold asRemoved. cbn. destruct (newer !! n); [done|]. by intros [= <-].
  - rewrite DiffSnapshots_eq. cbn. rewrite sort_slice_perm.
    rewrite <- (map_id (omap asPending _)). apply (names_NoDup asPending (fun x => x)).
    intros [n v] x. unfold asPending. cbn. destruct (sv_PendingRestart v); [|done]. by intros [= <-].
Qed.

Lemma applyDiff_newer older newer :
  applyDiff (sv_Setting <$> older) (DiffSnapshots older newer) = sv_Setting <$> newer.
Proof.
  pose proof (diff_names_NoDup older newer) as [Hnd _]. cbv zeta in Hnd.
  apply NoDup_app in Hnd as (Hc & _ & Hnd). apply NoDup_app in Hnd as (Ha & _ & _).
  apply map_eq. intros name. unfold applyDiff. rewrite lookup_fmap.
  destruct (decide (name ∈ map ch_Name (sd_Added (DiffSnapshots older newer)))) as [Hin|Hna].
  { apply list_elem_of_fmap in Hin as (ch & -> & Hin). rewrite set_values_in by done.
    apply added_elem in Hin as (v & _ & Hv & Heq). by rewrite Hv, Heq. }
  rewrite set_values_other by done.
  destruct (decide (name ∈ map ch_Name (sd_Changed (DiffSnapshots older newer)))) as [Hin|Hnc].
  { apply list_elem_of_fmap in Hin as (ch & -> & Hin). rewrite set_values_in by done.
    apply changed_elem in Hin as (o & v & _ & Hv & _ & Heq). by rewrite Hv, Heq. }
  rewrite set_values_other, deletes_lookup, lookup_fmap by done.
  destruct (older !! name) as [o|] eqn:Eo, (newer !! name) as [v|] eqn:Ev; cbn.
  - rewrite bool_decide_false.
    + destruct (decide (sv_Setting o = sv_Setting v)) as [->|Hne]; [done|]. destruct Hnc.
      apply list_elem_of_fmap. exists (changedChange name o v). split; [done|]. apply changed_elem.
      by exists o, v.
    + intros (ch & -> & (x & _ & H & _)%removed_elem)%list_elem_of_fmap. congruence.
  - rewrite bool_decide_true; [done|]. apply list_elem_of_fmap. exists (removedChange name o).
    split; [done|]. apply removed_elem. by exists o.
  - destruct Hna. apply list_elem_of_fmap. exists (addedChange name v).
    split; [done|]. apply added_elem. by exists v.
  - by destruct (bool_decide _).
Qed.

(** C19: A difference of settings is an exact patch. Applied to the older values (deleting the
    removed names, setting the changed and the added ones) it gives the newer values; no name
    appears twice in its three lists, a changed entry shows two different values, those of the
    two snapshots; the lists are in the order of the names, and the pending ones are exactly the
    newer settings that wait for a restart. *)
Theorem settings_diff_is_patch (older newer : gmap string SettingValue) :
  let d := DiffSnapshots older newer in
  applyDiff (sv_Setting <$> older) d = sv_Setting <$> newer /\
  NoDup (map ch_Name (sd_Changed d) ++ map ch_Name (sd_Added d) ++ map ch_Name (sd_Removed d)) /\
  (forall ch, ch ∈ sd_Changed d -> ch_OldValue ch <> ch_NewValue ch /\
     (sv_Setting <$> older) !! ch_Name ch = Some (ch_OldValue ch)) /\
  Forall (StronglySorted (fun a b => string_ltb (ch_Name b) (ch_Name a) = false))
    [sd_Changed d; sd_Added d; sd_Removed d] /\
  NoDup (sd_PendingRestart d) /\
  forall name, name ∈ sd_PendingRestart d <->
    exists v, newer !! name = Some v /\ sv_PendingRestart v = true.
Proof.
  cbv zeta. split; [apply applyDiff_newer|].
  destruct (diff_names_NoDup older newer) as [H1 H2].
  split; [done|]. split; [|split; [|split; [done|apply pending_elem]]].
  - intros ch (o & v & Ho & Hv & Hne & Heq)%changed_elem. rewrite lookup_fmap, Ho, Heq. done.
  - rewrite DiffSnapshots_eq. cbn. repeat constructor; apply byName_sorted.
Qed.

End patch.

(** ** The changes in a window *)

Section window.
Context {SS : SliceSort} {MR : MapRange}.

Record settings_store_ok (st : Settings.PGSnapshotStore) : Prop := {
  so_id : forall id s, sg_rows st !! id = Some s -> sg_ID s = id /\ id < sg_seq st;
  so_times : forall id id' s s', sg_rows st !! id = Some s -> sg_rows st !! id' = Some s' ->
    sg_InstanceID s = sg_InstanceID s' -> sg_CapturedAt s = sg_CapturedAt s' -> id = id'
}.

Lemma instanceRows_elem st inst s : settings_store_ok st ->
  s ∈ instanceRows st inst <-> sg_rows st !! sg_ID s = Some s /\ sg_InstanceID s = inst.
Proof.
  intros Hs. unfold instanceRows. rewrite sort_slice_perm, elem_of_filter_bool, bool_decide_eq_true.
  assert (s ∈ map snd (map_range (sg_rows st)) <-> sg_rows st !! sg_ID s = Some s) as ->; [|tauto].
  rewrite list_elem_of_fmap. setoid_rewrite map_range_perm. split.
  - intros ([id x] & -> & Hx%elem_of_map_to_list). cbn.
    destruct (so_id st Hs id x Hx) as [-> _]. done.
  - intros Hr. exists (sg_ID s, s). split; [done|]. by apply elem_of_map_to_list.
Qed.

Lemma instanceRows_sorted st inst :
  StronglySorted (fun x y => time_Before (sg_CapturedAt x) (sg_CapturedAt y) = false)
    (instanceRows st inst).
Proof.
  apply sort_slice_sorted. unfold time_Before.
  split; [intros x y _ _ H|intros x y z _ _ _ H1 H2]; zb; apply Z.ltb_ge; lia.
Qed.

Lemma instanceRows_NoDup st inst : settings_store_ok st -> NoDup (instanceRows st inst).
Proof.
  intros Hs. unfold instanceRows. rewrite sort_slice_perm.
  rewrite NoDup_ListNoDup. apply List.NoDup_filter. rewrite <- NoDup_ListNoDup.
  assert (NoDup (map sg_ID (map snd (map_range (sg_rows st))))) as H; [|by apply (NoDup_fmap_1 sg_ID)].
  rewrite map_range_perm, map_map.
  assert (map (fun kv => sg_ID kv.2) (map_to_list (sg_rows st)) = (map_to_list (sg_rows st)).*1) as ->.
  { apply map_ext_in. intros [id r] Hin%list_elem_of_In%elem_of_map_to_list. cbn.
    by destruct (so_id st Hs id r Hin) as [-> _]. }
  apply NoDup_fst_map_to_list.
Qed.

Lemma StronglySorted_lookup {A} (R : A -> A -> Prop) (l : list A) i j x y :
  StronglySorted R l -> l !! i = Some x -> l !! j = Some y -> (i < j)%nat -> R x y.
Proof.
  intros Hs. revert i j. induction Hs as [|a l Hs IH Ha]; intros i j Hi Hj Hlt; [done|].
  destruct j as [|j]; [lia|]. cbn in Hj. destruct i as [|i]; cbn in Hi.
  - injection Hi as <-. rewrite list.Forall_forall in Ha. apply Ha. by eapply list_elem_of_lookup_2.
  - eapply IH; [done..|lia].
Qed.

(** Newer snapshots come strictly before older ones. *)
Lemma instanceRows_lt st inst i j a b : settings_store_ok st ->
  instanceRows st inst !! i = Some a -> instanceRows st inst !! j = Some b ->
  (i < j)%nat -> sg_CapturedAt b < sg_CapturedAt a.
Proof.
  intros Hs Hi Hj Hij.
  pose proof (StronglySorted_lookup _ _ _ _ _ _ (instanceRows_sorted st inst) Hi Hj Hij) as H.
  unfold time_Before in H. zb. destruct (decide (sg_CapturedAt a = sg_CapturedAt b)) as [He|]; [|lia].
  exfalso. pose proof (list_elem_of_lookup_2 _ _ _ Hi) as Ha.
  pose proof (list_elem_of_lookup_2 _ _ _ Hj) as Hb.
  apply instanceRows_elem in Ha as [Ha Hia], Hb as [Hb Hib]; try done.
  assert (sg_ID a = sg_ID b) as Heq by (eapply (so_times st Hs); [done|done|congruence|done]).
  rewrite Heq in Ha. assert (a = b) as -> by congruence.
  pose proof (NoDup_lookup _ _ _ _ (instanceRows_NoDup st inst Hs) Hi Hj). lia.
Qed.

(** Two snapshots of the instance, the first before the second, with none in between. *)
Record neighbours (st : Settings.PGSnapshotStore) (inst : string) (older newer : Settings.Snapshot)
    : Prop := {
  nb_older : sg_rows st !! sg_ID older = Some older /\ sg_InstanceID older = inst;
  nb_newer : sg_rows st !! sg_ID newer = Some newer /\ sg_InstanceID newer = inst;
  nb_order : sg_CapturedAt older < sg_CapturedAt newer;
  nb_between : forall x, sg_rows st !! sg_ID x = Some x -> sg_InstanceID x = inst ->
    sg_CapturedAt x <= sg_CapturedAt older \/ sg_CapturedAt newer <= sg_CapturedAt x
}.

Lemma neighbours_adjacent st inst older newer : settings_store_ok st ->
  (exists i, instanceRows st inst !! i = Some newer /\ instanceRows st inst !! S i = Some older)
  <-> neighbours st inst older newer.
Proof.
  intros Hs. split.
  - intros (i & Hn & Ho). split.
    + apply (instanceRows_elem st inst older Hs). by eapply list_elem_of_lookup_2.
    + apply (instanceRows_elem st inst newer Hs). by eapply list_elem_of_lookup_2.
    + eapply (instanceRows_lt st inst i (S i)); [done..|lia].
    + intros x Hx Hi. assert (x ∈ instanceRows st inst) as Hin by by apply instanceRows_elem.
      apply list_elem_of_lookup in Hin as [k Hk].
      destruct (lt_eq_lt_dec k i) as [[Hlt | ->]|Hlt].
      * pose proof (instanceRows_lt st inst k i x newer Hs Hk Hn Hlt). lia.
      * assert (x = newer) as -> by congruence. lia.
      * destruct (decide (k = S i)) as [->|].
        { assert (x = older) as -> by congruence. lia. }
        pose proof (instanceRows_lt st inst (S i) k older x Hs Ho Hk). lia.
  - intros [Hn Ho Hlt Hb]. apply instanceRows_elem in Hn, Ho; try done.
    apply list_elem_of_lookup in Ho as [i Hi]. apply list_elem_of_lookup in Hn as [j Hj].
    destruct (lt_eq_lt_dec i j) as [[Hij | <-]|Hij].
    + destruct (decide (j = S i)) as [->|Hne]; [by exists i|].
      destruct (lookup_lt_is_Some_2 (instanceRows st inst) (S i)) as [x Hx].
      { apply lookup_lt_Some in Hj. lia. }
      pose proof (instanceRows_lt st inst i (S i) newer x Hs Hi Hx).
      pose proof (instanceRows_lt st inst (S i) j x older Hs Hx Hj).
      apply list_elem_of_lookup_2, instanceRows_elem in Hx as [Hx Hxi]; [|done].
      destruct (Hb x Hx Hxi); lia.
    + assert (older = newer) as -> by congruence. lia.
    + pose proof (instanceRows_lt st inst j i older newer Hs Hj Hi). lia.
Qed.

Lemma windowChanges_elem st from to (l : list Settings.Snapshot) x :
  x ∈ windowChanges st from to (map meta_of l) <->
  exists i newer older, l !! i = Some newer /\ l !! S i = Some older /\
    from <= sg_CapturedAt newer <= to /\ x ∈ changesBetween st (meta_of newer) (meta_of older).
Proof.
  induction l as [|a l IH]; cbn [map windowChanges].
  { split; [intros []%not_elem_of_nil|]. intros (i & n & o & H & _). by rewrite lookup_nil in H. }
  destruct l as [|b l]; cbn [map] in *.
  { split; [intros []%not_elem_of_nil|]. intros (i & n & o & _ & H & _). by destruct i. }
  rewrite elem_of_app, IH. split.
  - intros [H|(i & n & o & H)].
    + destruct (_ || _) eqn:E; [by apply not_elem_of_nil in H|].
      apply orb_false_iff in E as [E1 E2]. unfold time_Before, time_After in *. cbn in *. zb.
      exists 0%nat, a, b. split; [done|]. split; [done|]. split; [lia|done].
    + by exists (S i), n, o.
  - intros ([|i] & n & o & H1 & H2 & H3 & H4); [|right; by exists i, n, o].
    left. cbn in H1, H2. injection H1 as ->. injection H2 as ->.
    unfold time_Before, time_After. cbn.
    rewrite (proj2 (Z.ltb_ge _ _)), (proj2 (Z.ltb_ge _ _)) by lia. done.
Qed.

(** C20: The settings changes given to the root cause analysis are exactly those in the window. For
    an instance with at most fifty snapshots, taken at different times, the provider answers a
    change if and only if two neighbouring snapshots of the instance, the later one taken within
    the window, both have the setting and show different values for it; it is dated at the later
    snapshot. Settings that appear or disappear are not changes. *)
Theorem settings_changes_exact (st : Settings.PGSnapshotStore) inst from to :
  settings_store_ok st -> sg_fault st = None -> len (instanceRows st inst) <= 50 ->
  exists changes, NewSnapshotSettingsProvider st inst from to = Ok changes /\
    forall x, x ∈ changes <->
      exists older newer o v, neighbours st inst older newer /\
        from <= sg_CapturedAt newer <= to /\
        sg_Settings older !! sc_Name x = Some o /\ sg_Settings newer !! sc_Name x = Some v /\
        sv_Setting o <> sv_Setting v /\
        x = mkSettingChange (sc_Name x) (sv_Setting o) (sv_Setting v) (sg_CapturedAt newer).
Proof.
  intros Hs Hf Hlen. unfold NewSnapshotSettingsProvider, GetChanges, ListSnapshots.
  rewrite Hf. change (Z.to_nat (if 50 <=? 0 then 50 else 50)) with 50%nat.
  rewrite take_ge by (unfold len in Hlen; lia).
  exists (windowChanges st from to (map meta_of (instanceRows st inst))). split.
  { destruct (len (map meta_of (instanceRows st inst)) <? 2) eqn:E; [|done]. zb.
    unfold len in E. rewrite length_map in E.
    destruct (instanceRows st inst) as [|a [|b l]]; cbn in *; [done..|lia]. }
  intros x. rewrite windowChanges_elem. unfold changesBetween, Settings.GetSnapshot. rewrite Hf.
  split.
  - intros (i & newer & older & Hn & Ho & Hw & Hx).
    assert (neighbours st inst older newer) as Hnb by (apply neighbours_adjacent; [done|by exists i]).
    destruct Hnb as [[Hor Hoi] [Hnr Hni] Hlt Hb]. cbn [sm_ID sm_CapturedAt meta_of] in Hx.
    rewrite Hor, Hnr in Hx.
    apply list_elem_of_fmap in Hx as (ch & -> & (o & v & H1 & H2 & H3 & H4)%changed_elem).
    exists older, newer, o, v. cbn [sc_Name]. split; [by split|]. split; [done|].
    split; [done|]. split; [done|]. split; [done|]. by rewrite H4.
  - intros (older & newer & o & v & Hnb & Hw & Ho & Hv & Hne & Hx).
    destruct (proj2 (neighbours_adjacent st inst older newer Hs) Hnb) as (i & Hi & Hj).
    exists i, newer, older. split; [done|]. split; [done|]. split; [done|].
    destruct Hnb as [[Hor _] [Hnr _] _ _]. cbn [sm_ID sm_CapturedAt meta_of]. rewrite Hor, Hnr.
    apply list_elem_of_fmap. exists (changedChange (sc_Name x) o v). split; [done|].
    apply changed_elem. by exists o, v.
Qed.

End window.

(** ** A store with three snapshots *)

#[local] Existing Instance insertion_SliceSort.
#[local] Existing Instance canonical_MapRange.

Definition demo_settings (mem : string) : gmap string SettingValue :=
  {[ "work_mem" := mkSettingValue mem "kB" "configuration file" false;
     "max_connections" := mkSettingValue "100" "" "default" true ]}.

Definition demo_snapshot (at_ : Time) (mem : string) : Settings.Snapshot :=
  mkSettingsSnapshot 0 "db1" at_ "manual" "16.1" (demo_settings mem).

Definition demo_store : Settings.PGSnapshotStore :=
  foldl (fun st s => (SaveSnapshot st s).1) (mkSettingsStore ∅ 1 None)
    [demo_snapshot 0 "4096"; demo_snapshot Hour "4096"; demo_snapshot (2 * Hour) "8192"].

Lemma demo_store_rows : map_to_list (sg_rows demo_store) ≡ₚ
  [(1, row_of 1 (demo_snapshot 0 "4096")); (2, row_of 2 (demo_snapshot Hour "4096"));
   (3, row_of 3 (demo_snapshot (2 * Hour) "8192"))].
Proof.
  unfold demo_store. cbn [foldl SaveSnapshot fst sg_rows sg_seq sg_fault].
  rewrite !map_to_list_insert by (vm_compute; reflexivity). rewrite map_to_list_empty.
  change (1 + 1) with 2. change (2 + 1) with 3. solve_Permutation.
Qed.

Lemma demo_store_ok : settings_store_ok demo_store.
Proof.
  assert (forall id s, sg_rows demo_store !! id = Some s ->
    (id, s) ∈ [(1, row_of 1 (demo_snapshot 0 "4096")); (2, row_of 2 (demo_snapshot Hour "4096"));
               (3, row_of 3 (demo_snapshot (2 * Hour) "8192"))]) as H.
  { intros id s Hs. apply elem_of_map_to_list in Hs. by rewrite demo_store_rows in Hs. }
  split.
  - intros id s Hs%H. rewrite !elem_of_cons in Hs.
    destruct Hs as [[= -> ->]|[[= -> ->]|[[= -> ->]|[]%not_elem_of_nil]]]; split; done.
  - intros id id' s s' Hs%H Hs'%H _ Ht. rewrite !elem_of_cons in Hs, Hs'.
    destruct Hs as [[= -> ->]|[[= -> ->]|[[= -> ->]|[]%not_elem_of_nil]]],
      Hs' as [[= -> ->]|[[= -> ->]|[[= -> ->]|[]%not_elem_of_nil]]]; vm_compute in Ht; done.
Qed.

Lemma settings_changes_exact_witness :
  exists changes, NewSnapshotSettingsProvider demo_store "db1" Minute (3 * Hour) = Ok changes /\
    mkSettingChange "work_mem" "4096" "8192" (2 * Hour) ∈ changes.
Proof.
  destruct (settings_changes_exact demo_store "db1" Minute (3 * Hour) demo_store_ok eq_refl)
    as (changes & H1 & _).
  { vm_compute. discriminate. }
  exists changes. split; [exact H1|]. vm_compute in H1. injection H1 as <-. left.
Defined.
