(* ===== verification/Plans.v ===== *)
(** * Captured query plans

    Models internal/plans/capture.go, store.go and retention.go over the table of migration 008,
    whose unique key is (instance, fingerprint, plan hash). [jsonb] says which texts the server
    casts to jsonb; text columns take valid UTF-8 without a NUL. Contexts are left out, and the
    configured limit of plan bytes is not negative. *)
From S2P Require Import Prelude Float64 GoText SqlConn.

Local Open Scope Z_scope.

(** * MD5 and SHA-256

    The digests of crypto/md5 and crypto/sha256 in the Go standard library, by RFC 1321 and FIPS
    180-4: executable on strings of bytes, with the hexadecimal form that [fmt.Sprintf("%x", _)]
    gives. Words are integers below 2^32. *)

Definition w32 (z : Z) : Z := z mod 2 ^ 32.
Definition add32 (a b : Z) : Z := w32 (a + b).
Definition not32 (a : Z) : Z := Z.lxor a (2 ^ 32 - 1).
Definition rotl (n x : Z) : Z := Z.lor (w32 (Z.shiftl x n)) (Z.shiftr x (32 - n)).
Definition rotr (n x : Z) : Z := rotl (32 - n) x.

Fixpoint message (s : string) : list Z :=
  match s with EmptyString => [] | String c s' => byte_Z c :: message s' end.

(** [n] bytes of [z], the least significant first. *)
Fixpoint bytes_le (n : nat) (z : Z) : list Z :=
  match n with O => [] | S n' => z mod 256 :: bytes_le n' (z / 256) end.

Definition from_le (l : list Z) : Z := foldr (fun b acc => b + 256 * acc) 0 l.
Definition from_be (l : list Z) : Z := foldl (fun acc b => 256 * acc + b) 0 l.

(** The message, the bit 1, zeros, and the length in bits on eight bytes: whole blocks of 64. *)
Definition padded (length_bytes : Z -> list Z) (m : list Z) : list Z :=
  let n := len m in
  m ++ [128] ++ replicate (Z.to_nat ((55 - n) mod 64)) 0 ++ length_bytes (8 * n mod 2 ^ 64).

Fixpoint chunks {A} (fuel n : nat) (l : list A) : list (list A) :=
  match fuel, l with
  | S fuel', _ :: _ => take n l :: chunks fuel' n (drop n l)
  | _, _ => []
  end.

Definition blocks (l : list Z) : list (list Z) := chunks (length l) 64 l.
Definition words (of_bytes : list Z -> Z) (block : list Z) : list Z :=
  map of_bytes (chunks 16 4 block).

Definition hex (l : list Z) : string :=
  fold_right (fun b s => String (hex_digit (b / 16)) (String (hex_digit (b mod 16)) s)) EmptyString l.

(** ** MD5 *)

Definition md5_K : list Z :=
  [3614090360; 3905402710; 606105819; 3250441966; 4118548399; 1200080426;
   2821735955; 4249261313; 1770035416; 2336552879; 4294925233; 2304563134;
   1804603682; 4254626195; 2792965006; 1236535329; 4129170786; 3225465664;
   643717713; 3921069994; 3593408605; 38016083; 3634488961; 3889429448;
   568446438; 3275163606; 4107603335; 1163531501; 2850285829; 4243563512;
   1735328473; 2368359562; 4294588738; 2272392833; 1839030562; 4259657740;
   2763975236; 1272893353; 4139469664; 3200236656; 681279174; 3936430074;
   3572445317; 76029189; 3654602809; 3873151461; 530742520; 3299628645;
   4096336452; 1126891415; 2878612391; 4237533241; 1700485571; 2399980690;
   4293915773; 2240044497; 1873313359; 4264355552; 2734768916; 1309151649;
   4149444226; 3174756917; 718787259; 3951481745].

Definition md5_S : list Z :=
  [7; 12; 17; 22; 7; 12; 17; 22; 7; 12; 17; 22; 7; 12; 17; 22;
   5; 9; 14; 20; 5; 9; 14; 20; 5; 9; 14; 20; 5; 9; 14; 20;
   4; 11; 16; 23; 4; 11; 16; 23; 4; 11; 16; 23; 4; 11; 16; 23;
   6; 10; 15; 21; 6; 10; 15; 21; 6; 10; 15; 21; 6; 10; 15; 21].

Definition md5_round (m : list Z) (st : Z * Z * Z * Z) (i : nat * (Z * Z)) : Z * Z * Z * Z :=
  let '(a, b, c, d) := st in
  let '(i, (k, s)) := i in
  let z := Z.of_nat i in
  let '(f, g) :=
    if z <? 16 then (Z.lor (Z.land b c) (Z.land (not32 b) d), z)
    else if z <? 32 then (Z.lor (Z.land d b) (Z.land (not32 d) c), (5 * z + 1) mod 16)
    else if z <? 48 then (Z.lxor b (Z.lxor c d), (3 * z + 5) mod 16)
    else (Z.lxor c (Z.lor b (not32 d)), (7 * z) mod 16) in
  let f := w32 (f + a + k + nth (Z.to_nat g) m 0) in
  (d, add32 b (rotl s f), b, c).

Definition md5_block (st : Z * Z * Z * Z) (block : list Z) : Z * Z * Z * Z :=
  let '(a, b, c, d) := st in
  let '(a', b', c', d') :=
    foldl (md5_round (words from_le block)) st (zip (seq 0 64) (zip md5_K md5_S)) in
  (add32 a a', add32 b b', add32 c c', add32 d d').

Definition md5 (s : string) : string :=
  let '(a, b, c, d) := foldl md5_block (1732584193, 4023233417, 2562383102, 271733878)
                         (blocks (padded (bytes_le 8) (message s))) in
  hex (bytes_le 4 a ++ bytes_le 4 b ++ bytes_le 4 c ++ bytes_le 4 d).

(** ** SHA-256 *)

Definition sha256_K : list Z :=
  [1116352408; 1899447441; 3049323471; 3921009573; 961987163; 1508970993;
   2453635748; 2870763221; 3624381080; 310598401; 607225278; 1426881987;
   1925078388; 2162078206; 2614888103; 3248222580; 3835390401; 4022224774;
   264347078; 604807628; 770255983; 1249150122; 1555081692; 1996064986;
   2554220882; 2821834349; 2952996808; 3210313671; 3336571891; 3584528711;
   113926993; 338241895; 666307205; 773529912; 1294757372; 1396182291;
   1695183700; 1986661051; 2177026350; 2456956037; 2730485921; 2820302411;
   3259730800; 3345764771; 3516065817; 3600352804; 4094571909; 275423344;
   430227734; 506948616; 659060556; 883997877; 958139571; 1322822218;
   1537002063; 1747873779; 1955562222; 2024104815; 2227730452; 2361852424;
   2428436474; 2756734187; 3204031479; 3329325298].

Definition sha256_H : list Z :=
  [1779033703; 3144134277; 1013904242; 2773480762;
   1359893119; 2600822924; 528734635; 1541459225].

Definition sigma (a b : Z) (c x : Z) : Z := Z.lxor (rotr a x) (Z.lxor (rotr b x) (Z.shiftr x c)).
Definition Sigma (a b c x : Z) : Z := Z.lxor (rotr a x) (Z.lxor (rotr b x) (rotr c x)).

(** The message schedule, the latest word first. *)
Fixpoint schedule (n : nat) (w : list Z) : list Z :=
  match n with
  | O => w
  | S n' =>
      schedule n' (w32 (sigma 17 19 10 (nth 1 w 0) + nth 6 w 0 + sigma 7 18 3 (nth 14 w 0)
                        + nth 15 w 0) :: w)
  end.

Definition sha256_round (st : list Z) (kw : Z * Z) : list Z :=
  match st with
  | [a; b; c; d; e; f; g; h] =>
      let t1 := h + Sigma 6 11 25 e + Z.lxor (Z.land e f) (Z.land (not32 e) g) + kw.1 + kw.2 in
      let t2 := Sigma 2 13 22 a + Z.lxor (Z.land a b) (Z.lxor (Z.land a c) (Z.land b c)) in
      [w32 (t1 + t2); a; b; c; w32 (d + t1); e; f; g]
  | _ => st
  end.

Definition sha256_block (st block : list Z) : list Z :=
  let w := reverse (schedule 48 (reverse (words from_be block))) in
  zip_with add32 st (foldl sha256_round st (zip sha256_K w)).

Definition sha256 (s : string) : string :=
  let st := foldl sha256_block sha256_H
              (blocks (padded (fun n => reverse (bytes_le 8 n)) (message s))) in
  hex (concat (map (fun w => reverse (bytes_le 4 w)) st)).

(** ** The test vectors of the two standards *)

Example md5_vectors :
  md5 "" = "d41d8cd98f00b204e9800998ecf8427e" /\
  md5 "message digest" = "f96b697d7cb7938d525a2f31aaf161d0" /\
  md5 "12345678901234567890123456789012345678901234567890123456789012345678901234567890"
    = "57edf4a22be3c955ac49da2e2107b67a".
Proof. vm_compute. done. Qed.

Example sha256_vectors :
  sha256 "abc" = "ba7816bf8f01cfea414140de5dae2223b00361a396177a9cb410ff61f20015ad" /\
  sha256 "abcdbcdecdefdefgefghfghighijhijkijkljklmklmnlmnomnopnopq"
    = "248d6a61d20638b8e5c026930c3e6039a33ce45964ff2167f6ecedd419db06c1".
Proof. vm_compute. done. Qed.

(** ** The length of a digest *)

Lemma hex_length l : String.length (hex l) = (2 * length l)%nat.
Proof. induction l as [|b l IH]; [done|]. unfold hex in *. cbn. rewrite IH. lia. Qed.

Lemma bytes_le_length n z : length (bytes_le n z) = n.
Proof. revert z. induction n as [|n IH]; intros z; [done|]. cbn. by rewrite IH. Qed.

Lemma md5_length s : String.length (md5 s) = 32%nat.
Proof.
  unfold md5. destruct (foldl _ _ _) as [[[a b] c] d].
  by rewrite hex_length, !length_app, !bytes_le_length.
Qed.

Definition TriggerDuration : string := "duration_threshold".
Definition TriggerManual : string := "manual".
Definition TriggerScheduled : string := "scheduled_topn".
Definition TriggerHashDiff : string := "hash_diff_signal".

Record CaptureConfig := mkCaptureConfig {
  cc_Enabled : bool;
  cc_DurationThresholdMs : Z;
  cc_DedupWindowSeconds : Z;
  cc_ScheduledTopNCount : Z;
  cc_ScheduledTopNInterval : Duration;
  cc_MaxPlanBytes : Z;
  cc_RetentionDays : Z
}.

(** The values found in the metadata of a plan; no metadata is the empty map. *)
Inductive metaValue := MInt (z : Z) | MString (s : string).

Record PlanCapture := mkPlan {
  pc_ID : Z;
  pc_InstanceID : string;
  pc_DatabaseName : string;
  pc_QueryFingerprint : string;
  pc_PlanHash : string;
  pc_PlanText : string;
  pc_TriggerType : string;
  pc_DurationMs : Z;
  pc_QueryText : string;
  pc_Truncated : bool;
  pc_Metadata : gmap string metaValue;
  pc_CapturedAt : Time
}.

(** ** Fingerprints and the kinds of statements *)

(** [strings.Join(strings.Fields(strings.ToLower(q)), " ")]. *)
Definition NormalizeQuery (q : string) : string := Join (Fields (ToLower q)) " ".

Definition Fingerprint (query : string) : string := md5 (NormalizeQuery query).

Definition starts_with_any (kws : list string) (q : string) : bool :=
  let upper := ToUpper (TrimSpace q) in existsb (has_prefix upper) kws.

Definition IsDDL : string -> bool :=
  starts_with_any ["DROP "; "CREATE "; "TRUNCATE "; "ALTER "; "REINDEX "].

Definition IsDDLStrict : string -> bool :=
  starts_with_any ["DROP "; "CREATE "; "TRUNCATE "; "ALTER "; "REINDEX "; "INSERT "; "UPDATE ";
                   "DELETE "].

(** The first [maxLen] bytes. *)
Definition truncateStr (s : string) (maxLen : Z) : string :=
  if Z.of_nat (String.length s) <=? maxLen then s else String.substring 0 (Z.to_nat maxLen) s.

(** ** The dedup cache *)

Record dedupCache := mkDedup { dc_entries : gmap string Time; dc_window : Duration }.

(** [t] is the reading of the clock by time.Since, [t'] the one stored. *)
Definition seen (c : dedupCache) (t t' : Time) (instanceID fingerprint : string)
    : dedupCache * bool :=
  let key := instanceID +:+ ":" +:+ fingerprint in
  match dc_entries c !! key with
  | Some t0 =>
      if time_Sub t t0 <? dc_window c then (c, true)
      else (mkDedup (<[key := t']> (dc_entries c)) (dc_window c), false)
  | None => (mkDedup (<[key := t']> (dc_entries c)) (dc_window c), false)
  end.

(** ** store.go *)

Record PGPlanStore := mkPlanStore {
  pp_rows : gmap Z PlanCapture;
  pp_seq : Z;
  pp_fault : option error
}.

(** The interface CaptureStore, as the collector uses it. *)
Class CaptureStore (T : Type) := {
  cs_SavePlan : T -> PlanCapture -> T * option error;
  cs_LatestPlanHash : T -> string -> string -> result string
}.

Definition plan_key (p : PlanCapture) : string * string * string :=
  (pc_InstanceID p, pc_QueryFingerprint p, pc_PlanHash p).

(** The row that an INSERT makes of a plan. *)
Definition plan_row (id : Z) (p : PlanCapture) : PlanCapture :=
  mkPlan id (pc_InstanceID p) (pc_DatabaseName p) (pc_QueryFingerprint p) (pc_PlanHash p)
    (pc_PlanText p) (pc_TriggerType p) (pc_DurationMs p) (pc_QueryText p) (pc_Truncated p)
    (pc_Metadata p) (pg_time (pc_CapturedAt p)).

(** What DO UPDATE sets: the time and the metadata. *)
Definition plan_updated (p old : PlanCapture) : PlanCapture :=
  mkPlan (pc_ID old) (pc_InstanceID old) (pc_DatabaseName old) (pc_QueryFingerprint old)
    (pc_PlanHash old) (pc_PlanText old) (pc_TriggerType old) (pc_DurationMs old)
    (pc_QueryText old) (pc_Truncated old) (pc_Metadata p) (pg_time (pc_CapturedAt p)).

Section plans.
Context (jsonb : string -> bool) {SS : SliceSort} {MR : MapRange}.

Definition plan_accepted (p : PlanCapture) : bool :=
  forallb pg_text [pc_InstanceID p; pc_DatabaseName p; pc_QueryFingerprint p; pc_PlanHash p;
                   pc_PlanText p; pc_TriggerType p; pc_QueryText p]
  && jsonb (pc_PlanText p).

Definition row_with_key (s : PGPlanStore) (k : string * string * string)
    : option (Z * PlanCapture) :=
  List.find (fun kv => bool_decide (plan_key kv.2 = k)) (map_range (pp_rows s)).

Definition SavePlan (s : PGPlanStore) (p : PlanCapture) : PGPlanStore * option error :=
  match pp_fault s with
  | Some e => (s, Some e)
  | None =>
      if negb (plan_accepted p) then (s, Some "invalid input syntax")
      else match row_with_key s (plan_key p) with
           | None =>
               (mkPlanStore (<[pp_seq s := plan_row (pp_seq s) p]> (pp_rows s)) (pp_seq s + 1)
                  (pp_fault s), None)
           | Some (id, old) =>
               (mkPlanStore (<[id := plan_updated p old]> (pp_rows s)) (pp_seq s + 1)
                  (pp_fault s), None)
           end
  end.

(** [ORDER BY captured_at DESC] over the rows that [keep] selects. *)
Definition newestPlans (s : PGPlanStore) (keep : PlanCapture -> bool) : list PlanCapture :=
  sort_slice (fun a b => time_Before (pc_CapturedAt b) (pc_CapturedAt a))
    (List.filter keep (map snd (map_range (pp_rows s)))).

(** Any failure reads as "no plan". *)
Definition LatestPlanHash (s : PGPlanStore) (instanceID fingerprint : string) : result string :=
  match pp_fault s with
  | Some _ => Ok ""
  | None =>
      match newestPlans s (fun p => String.eqb (pc_InstanceID p) instanceID
                                    && String.eqb (pc_QueryFingerprint p) fingerprint) with
      | p :: _ => Ok (pc_PlanHash p)
      | [] => Ok ""
      end
  end.

#[export] Instance PGPlans : CaptureStore PGPlanStore := {|
  cs_SavePlan := SavePlan;
  cs_LatestPlanHash := LatestPlanHash
|}.

(** A listed plan comes without its text. *)
Definition without_text (p : PlanCapture) : PlanCapture :=
  mkPlan (pc_ID p) (pc_InstanceID p) (pc_DatabaseName p) (pc_QueryFingerprint p) (pc_PlanHash p)
    "" (pc_TriggerType p) (pc_DurationMs p) (pc_QueryText p) (pc_Truncated p) (pc_Metadata p)
    (pc_CapturedAt p).

Definition ListPlans (s : PGPlanStore) (instanceID fingerprint : string) (since : option Time)
    (triggerType : string) : result (list PlanCapture) :=
  match pp_fault s with
  | Some e => Err e
  | None =>
      Ok (map without_text (take 100 (newestPlans s (fun p =>
            String.eqb (pc_InstanceID p) instanceID
            && opt_filter fingerprint (pc_QueryFingerprint p)
            && match since with
               | Some t => negb (time_Before (pc_CapturedAt p) (pg_time t)) | None => true
               end
            && opt_filter triggerType (pc_TriggerType p)))))
  end.

Definition err_NoRows : error := "no rows in result set".

Definition GetPlan (s : PGPlanStore) (planID : Z) : result PlanCapture :=
  match pp_fault s with
  | Some e => Err e
  | None => match pp_rows s !! planID with Some p => Ok p | None => Err err_NoRows end
  end.

Definition ListRegressions (s : PGPlanStore) (instanceID : string) : result (list PlanCapture) :=
  match pp_fault s with
  | Some e => Err e
  | None =>
      Ok (map without_text (take 50 (newestPlans s (fun p =>
            String.eqb (pc_TriggerType p) TriggerHashDiff
            && String.eqb (pc_InstanceID p) instanceID))))
  end.

(** ** retention.go *)

(** One tick; [add_days] is AddDate(0, 0, _) in the zone of the process. *)
Definition retentionTick (add_days : Time -> Z -> Time) (planDays : Z) (now : Time)
    (s : PGPlanStore) : PGPlanStore :=
  match pp_fault s with
  | Some _ => s
  | None =>
      let cutoff := pg_time (add_days now (- planDays)) in
      mkPlanStore (base.filter (fun kv => negb (time_Before (pc_CapturedAt kv.2) cutoff)) (pp_rows s))
        (pp_seq s) (pp_fault s)
  end.

End plans.

(** ** The collector *)

Record Collector := mkCollector {
  cl_config : CaptureConfig;
  cl_dedup : dedupCache;
  cl_lastTopN : gmap string Time
}.

Definition NewCollector (cfg : CaptureConfig) : Collector :=
  mkCollector cfg (mkDedup ∅ (dur_mul (cc_DedupWindowSeconds cfg) Second)) ∅.

Definition with_dedup (c : Collector) (d : dedupCache) : Collector :=
  mkCollector (cl_config c) d (cl_lastTopN c).

Section collector.
Context `{DR : Driver} {T : Type} {CS : CaptureStore T}.

Definition regression_of (plan : PlanCapture) (prevHash : string) : PlanCapture :=
  mkPlan (pc_ID plan) (pc_InstanceID plan) (pc_DatabaseName plan) (pc_QueryFingerprint plan)
    (pc_PlanHash plan) (pc_PlanText plan) TriggerHashDiff (pc_DurationMs plan) (pc_QueryText plan)
    (pc_Truncated plan)
    {[ "prev_hash" := MString prevHash; "new_hash" := MString (pc_PlanHash plan) ]}
    (pc_CapturedAt plan).

(** A plan that differs from the latest one is saved twice, first as a regression. *)
Definition checkAndSave (s : T) (plan : PlanCapture) : T * option error :=
  let prevHash := match cs_LatestPlanHash s (pc_InstanceID plan) (pc_QueryFingerprint plan) with
                  | Ok h => h | Err _ => "" end in
  let s := if negb (String.eqb prevHash "") && negb (String.eqb prevHash (pc_PlanHash plan))
           then (cs_SavePlan s (regression_of plan prevHash)).1 else s in
  cs_SavePlan s plan.

(** The text, its digest, and whether it was cut. *)
Definition runExplain (cfg : CaptureConfig) (conn : Conn) (query : string)
    : result (string * string * bool) :=
  match query_row conn ("EXPLAIN (FORMAT JSON) " +:+ query) [] str with
  | Err e => Err e
  | Ok planText =>
      let truncated := cc_MaxPlanBytes cfg <? Z.of_nat (String.length planText) in
      let planText := if truncated then String.substring 0 (Z.to_nat (cc_MaxPlanBytes cfg)) planText
                      else planText in
      Ok (planText, sha256 planText, truncated)
  end.

Definition CaptureManual (c : Collector) (conn : Conn) (now : Time) (s : T)
    (instanceID database query : string) : T * result PlanCapture :=
  match runExplain (cl_config c) conn query with
  | Err e => (s, Err (wrap "explain" e))
  | Ok (text, hash, truncated) =>
      let plan := mkPlan 0 instanceID database (Fingerprint query) hash text TriggerManual 0
                    (truncateStr query 4096) truncated ∅ now in
      match checkAndSave s plan with
      | (s', Some e) => (s', Err e)
      | (s', None) => (s', Ok plan)
      end
  end.

Record hit := mkHit { h_datname : string; h_query : string; h_durationMs : float64 }.

(** The clock of one hit: the two readings of the dedup cache and the time of the capture. *)
Record HitTimes := mkHitTimes { ht_since : Time; ht_stored : Time; ht_captured : Time }.

Definition durationHit (cfg : CaptureConfig) (conn : Conn) (instanceID : string)
    (acc : dedupCache * T) (ht : hit * HitTimes) : dedupCache * T :=
  let '(d, s) := acc in
  let '(h, t) := ht in
  let fp := Fingerprint (h_query h) in
  match seen d (ht_since t) (ht_stored t) instanceID fp with
  | (d, true) => (d, s)
  | (d, false) =>
      if IsDDL (h_query h) then (d, s)
      else match runExplain cfg conn (h_query h) with
           | Err _ => (d, s)
           | Ok (text, hash, truncated) =>
               (d, (checkAndSave s (mkPlan 0 instanceID (h_datname h) fp hash text TriggerDuration
                      (f_trunc (h_durationMs h)) (truncateStr (h_query h) 4096) truncated ∅
                      (ht_captured t))).1)
           end
  end.

Definition scan_hit : Scanner hit :=
  datname ← str; query ← str; durationMs ← float; mret (mkHit datname query durationMs).

Definition durationSQL : string := "
		SELECT datname, query,
		       EXTRACT(EPOCH FROM (now() - query_start)) * 1000 AS duration_ms
		FROM pg_stat_activity
		WHERE state = 'active'
		  AND query NOT LIKE '%pg_stat_activity%'
		  AND query NOT LIKE '%pgpulse%'
		  AND now() - query_start > ($1::bigint * interval '1 millisecond')
		  AND pid != pg_backend_pid()
	".

Definition with_times {A} (clock : nat -> HitTimes) (l : list A) : list (A * HitTimes) :=
  imap (fun i h => (h, clock i)) l.

Definition collectDurationThreshold (c : Collector) (conn : Conn) (clock : nat -> HitTimes) (s : T)
    (instanceID : string) : Collector * T * option error :=
  match query_skip conn durationSQL [AInt (cc_DurationThresholdMs (cl_config c))] scan_hit with
  | Err e => (c, s, Some e)
  | Ok (hits, _) =>
      let '(d, s') := foldl (durationHit (cl_config c) conn instanceID) (cl_dedup c, s)
                        (with_times clock hits) in
      (with_dedup c d, s', None)
  end.

Definition topNHit (cfg : CaptureConfig) (conn : Conn) (instanceID : string) (clock : nat -> HitTimes)
    (s : T) (ih : nat * (string * string)) : T :=
  let '(i, (query, datname)) := ih in
  if IsDDLStrict query then s
  else match runExplain cfg conn query with
       | Err _ => s
       | Ok (text, hash, truncated) =>
           (checkAndSave s (mkPlan 0 instanceID datname (Fingerprint query) hash text
              TriggerScheduled 0 (truncateStr query 4096) truncated
              {[ "rank" := MInt (Z.of_nat i + 1) ]} (ht_captured (clock i)))).1
       end.

Definition scan_topN : Scanner (string * string) := query ← str; datname ← str; mret (query, datname).

Definition topNSQL : string := "
		SELECT query, d.datname
		FROM pg_stat_statements s
		JOIN pg_database d ON d.oid = s.dbid
		WHERE query NOT LIKE '%pgpulse%'
		  AND length(query) > 10
		  AND query NOT LIKE '<%%'
		ORDER BY s.total_exec_time DESC
		LIMIT $1
	".

Definition collectScheduledTopN (c : Collector) (conn : Conn) (clock : nat -> HitTimes) (s : T)
    (instanceID : string) : T * option error :=
  match query_skip conn topNSQL [AInt (cc_ScheduledTopNCount (cl_config c))] scan_topN with
  | Err e => (s, Some e)
  | Ok (hits, _) =>
      (foldl (topNHit (cl_config c) conn instanceID clock) s (imap (fun i h => (i, h)) hits), None)
  end.

(** The clock of one call: of the two passes, of the check between them and of the note at the
    end. *)
Record CollectClock := mkCollectClock {
  ck_duration : nat -> HitTimes;
  ck_check : Time;
  ck_topN : nat -> HitTimes;
  ck_done : Time
}.

Definition Collect (c : Collector) (conn : Conn) (ck : CollectClock) (s : T) (instanceID : string)
    : Collector * T * option error :=
  if negb (cc_Enabled (cl_config c)) then (c, s, None)
  else match collectDurationThreshold c conn (ck_duration ck) s instanceID with
  | (c, s, Some e) => (c, s, Some (wrap "duration threshold capture" e))
  | (c, s, None) =>
      if cc_ScheduledTopNInterval (cl_config c)
           <=? time_Sub (ck_check ck) (default zero_time (cl_lastTopN c !! instanceID)) then
        match collectScheduledTopN c conn (ck_topN ck) s instanceID with
        | (s, Some e) => (c, s, Some (wrap "scheduled topN capture" e))
        | (s, None) =>
            (mkCollector (cl_config c) (cl_dedup c) (<[instanceID := ck_done ck]> (cl_lastTopN c)), s,
             None)
        end
      else (c, s, None)
  end.

End collector.
