(* ===== verification/PlanApi.v ===== *)
(** * Plans, explain and session actions over the API

    Models internal/api/plan_handlers.go, explain.go and session_actions.go. A request body is the
    decoded value, or nothing when it is not valid JSON. The handlers that act on an instance
    return the statements they sent to it, in order. *)
From S2P Require Import Prelude Float64 GoText Http SqlConn Plans.

Local Open Scope Z_scope.

Inductive planBody :=
  | BPlans (plans : list PlanCapture) (count : Z)
  | BPlan (p : PlanCapture)
  | BExplained (plan_json query database : string).

Section plan_handlers.
Context (jsonb : string -> bool) {SS : SliceSort} {MR : MapRange}.
Context (parse_time : string -> option Time).
Context (instanceExists : string -> bool) (planStore : option PGPlanStore).

Definition withPlanStore {B} (instanceID : string) (k : PGPlanStore -> response B) : response B :=
  if negb (instanceExists instanceID) then
    writeError StatusNotFound "not_found" ("instance '" +:+ instanceID +:+ "' not found")
  else match planStore with
       | None => writeError StatusServiceUnavailable "unavailable"
                   "plan capture storage not configured"
       | Some st => k st
       end.

Definition handleListPlans (instanceID : string) (q : string -> string) : response planBody :=
  withPlanStore instanceID (fun st =>
    let answer since :=
      match ListPlans st instanceID (q "fingerprint") since (q "trigger") with
      | Err _ => writeError StatusInternalServerError "internal" "failed to list plans"
      | Ok l => writeJSON StatusOK (BPlans l (len l))
      end in
    if String.eqb (q "since") "" then answer None
    else match parse_time (q "since") with
         | None => writeError StatusBadRequest "invalid_param" "since must be RFC3339 format"
         | Some t => answer (Some t)
         end).

Definition handleGetPlan (instanceID planIDStr : string) : response planBody :=
  withPlanStore instanceID (fun st =>
    match ParseInt planIDStr with
    | (_, Some _) => writeError StatusBadRequest "invalid_param" "plan_id must be an integer"
    | (planID, None) =>
        match GetPlan st planID with
        | Err e => if String.eqb e Plans.err_NoRows
                   then writeError StatusNotFound "not_found" "plan not found"
                   else writeError StatusInternalServerError "internal" "failed to get plan"
        | Ok plan => if negb (String.eqb (pc_InstanceID plan) instanceID)
                     then writeError StatusNotFound "not_found" "plan not found for this instance"
                     else writeJSON StatusOK (BPlan plan)
        end
    end).

Definition handleListRegressions (instanceID : string) : response planBody :=
  withPlanStore instanceID (fun st =>
    match ListRegressions st instanceID with
    | Err _ => writeError StatusInternalServerError "internal" "failed to list regressions"
    | Ok l => writeJSON StatusOK (BPlans l (len l))
    end).

Record manualCaptureRequest := mkManualCapture { mc_Query : string; mc_Database : string }.

(** The hash of a manual plan is the time in nanoseconds. *)
Definition handleManualCapture `{DR : Driver} (hash_clock now : Time)
    (connProvider : option (string -> result Conn)) (instanceID : string)
    (body : option manualCaptureRequest) : option PGPlanStore * response planBody :=
  let fail {A} (r : A) := (planStore, r) in
  if negb (instanceExists instanceID) then
    fail (writeError StatusNotFound "not_found" ("instance '" +:+ instanceID +:+ "' not found"))
  else match planStore with
  | None => fail (writeError StatusServiceUnavailable "unavailable"
                    "plan capture storage not configured")
  | Some st =>
  match connProvider with
  | None => fail (writeError StatusServiceUnavailable "unavailable"
                    "connection provider not available")
  | Some connFor =>
  match body with
  | None => fail (writeError StatusBadRequest "invalid_body" "invalid JSON body")
  | Some req =>
  if String.eqb (mc_Query req) "" then
    fail (writeError StatusBadRequest "invalid_body" "query is required")
  else match connFor instanceID with
  | Err _ => fail (writeError StatusInternalServerError "internal" "failed to connect to instance")
  | Ok conn =>
  match query_row conn ("EXPLAIN (FORMAT JSON) " +:+ mc_Query req) [] str with
  | Err e => fail (writeError StatusBadRequest "explain_failed" ("EXPLAIN failed: " +:+ e))
  | Ok planJSON =>
      match SavePlan jsonb st
              (mkPlan 0 instanceID (mc_Database req) "manual" (hex_int hash_clock) planJSON
                 TriggerManual 0 (mc_Query req) false ∅ now) with
      | (st', Some _) => (Some st', writeError StatusInternalServerError "internal"
                                      "failed to save plan")
      | (st', None) => (Some st', writeJSON StatusOK
                                    (BExplained planJSON (mc_Query req) (mc_Database req)))
      end
  end end end end end.

End plan_handlers.

(** ** explain.go *)

Record explainRequest := mkExplainRequest {
  ex_Database : string;
  ex_Query : string;
  ex_Analyze : bool;
  ex_Buffers : bool
}.

Definition explainSQL (req : explainRequest) : string :=
  "EXPLAIN (" +:+ Join (["FORMAT JSON"] ++ (if ex_Analyze req then ["ANALYZE"] else [])
                        ++ (if ex_Buffers req then ["BUFFERS"] else [])) ", "
  +:+ ") " +:+ ex_Query req.

Definition StatusUnprocessableEntity : Z := 422.

(** The statements sent to an instance. *)
Abbreviation sent := (list (string * list arg)) (only parsing).

(** The two settings are best effort. [quote] is the form %q of a string. *)
Definition handleExplain `{DR : Driver} (quote : string -> string) (instanceExists : string -> bool)
    (connForDB : option (string -> string -> result Conn)) (instanceID : string)
    (body : option explainRequest) : sent * response string :=
  match body with
  | None => ([], writeError StatusBadRequest "bad_request" "invalid JSON body")
  | Some req =>
  if String.eqb (ex_Database req) "" || String.eqb (ex_Query req) "" then
    ([], writeError StatusBadRequest "bad_request" "database and query are required")
  else if negb (instanceExists instanceID) then
    ([], writeError StatusNotFound "not_found" "instance not found")
  else match connForDB with
  | None => ([], writeError StatusServiceUnavailable "not_available"
                   "instance connection provider not configured")
  | Some connFor =>
  match connFor instanceID (ex_Database req) with
  | Err e => ([], writeError StatusBadGateway "connection_error"
                    ("cannot connect to database " +:+ quote (ex_Database req) +:+ ": " +:+ e))
  | Ok conn =>
      ([("SET statement_timeout = '30s'", []); ("SET application_name = 'pgpulse_explain'", []);
        (explainSQL req, [])],
       match query_row conn (explainSQL req) [] str with
       | Err e => writeError StatusUnprocessableEntity "explain_error" e
       | Ok planJSON => writeJSON StatusOK planJSON
       end)
  end end end.

(** ** session_actions.go *)

Record sessionActionResponse := mkSessionAction {
  sr_PID : Z;
  sr_Action : string;
  sr_Success : bool
}.

Definition ownPidSQL : string := "SELECT pg_backend_pid()".

Definition superuserSQL : string := "
		SELECT COALESCE(u.usesuper, false)
		FROM pg_stat_activity a
		LEFT JOIN pg_user u ON u.usename = a.usename
		WHERE a.pid = $1
	".

Definition actionSQL (action : string) : string :=
  "SELECT " +:+ (if String.eqb action "cancel" then "pg_cancel_backend($1)"
                 else "pg_terminate_backend($1)").

Definition handleSessionAction `{DR : Driver} (instanceExists : string -> bool)
    (connProvider : option (string -> result Conn)) (instanceID pidStr action : string)
    : sent * response sessionActionResponse :=
  let invalid := ([], writeError StatusBadRequest "bad_request" "invalid pid") in
  match Atoi pidStr with
  | (_, Some _) => invalid
  | (pid, None) =>
  if pid <=? 0 then invalid
  else if negb (instanceExists instanceID) then
    ([], writeError StatusNotFound "not_found" "instance not found")
  else match connProvider with
  | None => ([], writeError StatusServiceUnavailable "unavailable"
                   "connection provider not available")
  | Some connFor =>
  match connFor instanceID with
  | Err _ => ([], writeError StatusBadGateway "connection_error" "failed to connect to instance")
  | Ok conn =>
      let ownPID := match query_row conn ownPidSQL [] int64 with Ok p => p | Err _ => 0 end in
      if pid =? ownPID then
        ([(ownPidSQL, [])],
         writeError StatusBadRequest "bad_request" "cannot target PGPulse's own backend")
      else
        let checks := [(ownPidSQL, []); (superuserSQL, [AInt pid])] in
        match query_row conn superuserSQL [AInt pid] boolean with
        | Err _ => (checks, writeJSON StatusOK (mkSessionAction pid action false))
        | Ok true => (checks, writeError StatusForbidden "forbidden"
                                "cannot terminate superuser session")
        | Ok false =>
            let success := match query_row conn (actionSQL action) [AInt pid] boolean with
                           | Ok b => b | Err _ => false end in
            (checks ++ [(actionSQL action, [AInt pid])],
             writeJSON StatusOK (mkSessionAction pid action success))
        end
  end end end.

Definition handleSessionCancel `{DR : Driver} (instanceExists : string -> bool)
    (connProvider : option (string -> result Conn)) (instanceID pidStr : string) :=
  handleSessionAction instanceExists connProvider instanceID pidStr "cancel".

Definition handleSessionTerminate `{DR : Driver} (instanceExists : string -> bool)
    (connProvider : option (string -> result Conn)) (instanceID pidStr : string) :=
  handleSessionAction instanceExists connProvider instanceID pidStr "terminate".

(** * The table of plans, the dedup cache and the guarded session actions

    What saving a captured plan leaves in the table, when the cache lets a query through, and which
    statements a session action sends. *)

(** ** The dedup cache *)

Record call := mkCall { k_time : Time; k_instance : string; k_query : string }.

(** The answers of the cache to a sequence of calls. *)
Fixpoint answers (c : dedupCache) (calls : list call) : list bool :=
  match calls with
  | [] => []
  | k :: rest =>
      let '(c', b) := seen c (k_time k) (k_time k) (k_instance k) (Fingerprint (k_query k)) in
      b :: answers c' rest
  end.

Definition same_query (a b : call) : Prop :=
  k_instance a = k_instance b /\ Fingerprint (k_query a) = Fingerprint (k_query b).

Definition cache_key (k : call) : string := k_instance k +:+ ":" +:+ Fingerprint (k_query k).

Lemma app_inj_len (a b i j : string) :
  String.length i = String.length j -> a +:+ i = b +:+ j -> a = b /\ i = j.
Proof.
  intros Hl. revert b. induction a as [|x a IH]; intros b H.
  - destruct b as [|y b]; [done|]. apply (f_equal String.length) in H.
    rewrite !string_length_app in H. cbn in H. lia.
  - destruct b as [|y b].
    + apply (f_equal String.length) in H. rewrite !string_length_app in H. cbn in H. lia.
    + injection H as -> H. by destruct (IH b H) as [-> ->].
Qed.

Lemma cache_key_inj a b : cache_key a = cache_key b <-> same_query a b.
Proof.
  unfold cache_key, same_query. split; [|by intros [-> ->]]. intros H.
  apply app_inj_len in H as [-> H].
  - split; [done|]. by apply (sep_inj colon "" "" _ _ eq_refl eq_refl) in H as [_ ?].
  - rewrite !string_length_app. unfold Fingerprint. by rewrite !md5_length.
Qed.

(** The calls let through so far, the latest first, agree with the cache. *)
Definition cache_of (c : dedupCache) (passed : list call) : Prop :=
  forall key, dc_entries c !! key
    = k_time <$> head (List.filter (fun k => String.eqb (cache_key k) key) passed).

Lemma seen_spec c passed k : cache_of c passed ->
  let '(c', b) := seen c (k_time k) (k_time k) (k_instance k) (Fingerprint (k_query k)) in
  dc_window c' = dc_window c /\
  match head (List.filter (fun x => String.eqb (cache_key x) (cache_key k)) passed) with
  | Some x => b = (time_Sub (k_time k) (k_time x) <? dc_window c)
  | None => b = false
  end /\
  cache_of c' (if b then passed else k :: passed).
Proof.
  intros Hc. unfold seen. fold (cache_key k). rewrite (Hc (cache_key k)).
  assert (forall w, cache_of (mkDedup (<[cache_key k := k_time k]> (dc_entries c)) w) (k :: passed)) as Hi.
  { intros w key. cbn. destruct (String.eqb_spec (cache_key k) key) as [<-|Hne].
    - by rewrite lookup_insert_eq.
    - rewrite lookup_insert_ne by done. apply Hc. }
  destruct (head _) as [x|]; cbn; [|by split].
  destruct (_ <? _); cbn; by split.
Qed.

Lemma head_filter (f : call -> bool) (l : list call) :
  match head (List.filter f l) with
  | Some x => x ∈ l /\ f x = true
  | None => forall x, x ∈ l -> f x = false
  end.
Proof.
  destruct (List.filter f l) as [|x r] eqn:E; cbn.
  - intros x Hx. destruct (f x) eqn:Ef; [|done]. exfalso.
    apply (not_elem_of_nil x). rewrite <- E. by apply elem_of_filter_bool.
  - assert (x ∈ List.filter f l) as H by (rewrite E; by left). by apply elem_of_filter_bool in H as [? ?].
Qed.

Lemma time_Sub_mono t a b : a <= b -> time_Sub t b <= time_Sub t a.
Proof. unfold time_Sub. lia. Qed.

(** The calls of the same query before a call that were let through. *)
Definition earlier (passed calls : list call) (out : list bool) (j : nat) (x : call) : Prop :=
  x ∈ passed \/ exists i, (i < j)%nat /\ calls !! i = Some x /\ out !! i = Some false.

Lemma answers_spec calls : forall c passed, cache_of c passed ->
  StronglySorted (fun a b => k_time b <= k_time a) passed ->
  (forall x k, x ∈ passed -> k ∈ calls -> k_time x <= k_time k) ->
  StronglySorted (fun a b => k_time a <= k_time b) calls ->
  forall (j : nat) (k : call) (b : bool), calls !! j = Some k -> answers c calls !! j = Some b ->
  if b then exists x, earlier passed calls (answers c calls) j x /\ same_query x k /\
              time_Sub (k_time k) (k_time x) < dc_window c
  else forall x, earlier passed calls (answers c calls) j x -> same_query x k ->
         dc_window c <= time_Sub (k_time k) (k_time x).
Proof.
  induction calls as [|k0 calls IH]; intros c passed Hc Hp Hpc Hs j k b Hj Hb; [done|].
  cbn [answers] in *. pose proof (seen_spec c passed k0 Hc) as Hseen.
  destruct (seen c _ _ _ _) as [c' b0]. destruct Hseen as (Hw & Hhead & Hc').
  apply StronglySorted_inv in Hs as [Hs Hall]. rewrite list.Forall_forall in Hall.
  destruct j as [|j]; cbn in Hj, Hb.
  - injection Hj as ->. injection Hb as ->.
    pose proof (head_filter (fun x => String.eqb (cache_key x) (cache_key k)) passed) as Hf.
    assert (forall x, earlier passed (k :: calls) (b :: answers c' calls) 0 x -> x ∈ passed) as He.
    { intros x [?|(i & ? & _)]; [done|lia]. }
    destruct (head _) as [x|] eqn:E.
    + subst b. destruct Hf as [Hin Hk]. apply String.eqb_eq, cache_key_inj in Hk.
      destruct (time_Sub (k_time k) (k_time x) <? dc_window c) eqn:Ew; zb.
      * exists x. split; [by left|]. by split.
      * intros y Hy%He Hsame. transitivity (time_Sub (k_time k) (k_time x)); [done|].
        apply time_Sub_mono. apply cache_key_inj, String.eqb_eq in Hsame.
        clear -E Hy Hsame Hp. induction Hp as [|a l Hp IH Ha]; [by apply not_elem_of_nil in Hy|].
        rewrite list.Forall_forall in Ha. cbn in E.
        destruct (String.eqb (cache_key a) (cache_key k)) eqn:Ea; cbn in E.
        { injection E as <-. apply elem_of_cons in Hy as [->|Hy]; [done|]. by apply Ha. }
        apply elem_of_cons in Hy as [->|Hy]; [congruence|]. by apply IH.
    + subst b. intros y Hy%He Hsame. apply Hf in Hy. apply cache_key_inj, String.eqb_eq in Hsame. congruence.
  - assert (forall x, earlier (if b0 then passed else k0 :: passed) calls (answers c' calls) j x
              <-> earlier passed (k0 :: calls) (b0 :: answers c' calls) (S j) x) as He.
    { intros x. unfold earlier. destruct b0.
      - split; intros [?|(i & H1 & H2 & H3)]; [by left|right; exists (S i); cbn; auto with lia|by left|].
        destruct i as [|i]; [done|]. right. exists i. cbn in *. auto with lia.
      - rewrite elem_of_cons. split.
        + intros [[->|?]|(i & H1 & H2 & H3)]; [right; exists 0%nat; cbn; auto with lia|by left|].
          right. exists (S i). cbn. auto with lia.
        + intros [?|([|i] & H1 & H2 & H3)]; [by left; right| |].
          * cbn in H2. injection H2 as ->. by left; left.
          * right. exists i. cbn in *. auto with lia. }
    specialize (IH c' (if b0 then passed else k0 :: passed) Hc').
    rewrite Hw in IH. assert (k ∈ calls) as Hkc by by eapply list_elem_of_lookup_2.
    assert (if b then exists x, earlier (if b0 then passed else k0 :: passed) calls (answers c' calls) j x
                /\ same_query x k /\ time_Sub (k_time k) (k_time x) < dc_window c
            else forall x, earlier (if b0 then passed else k0 :: passed) calls (answers c' calls) j x ->
                same_query x k -> dc_window c <= time_Sub (k_time k) (k_time x)) as H.
    { apply IH; try done.
      - destruct b0; [done|]. constructor; [done|]. rewrite list.Forall_forall. intros x Hx.
        apply Hpc; [done|by left].
      - destruct b0; intros x y Hx Hy; [apply Hpc; [done|by right]|].
        apply elem_of_cons in Hx as [->|Hx]; [by apply Hall|apply Hpc; [done|by right]]. }
    destruct b.
    + destruct H as (x & Hx & ?). exists x. by rewrite <- He.
    + intros x Hx. apply H. by rewrite He.
Qed.

(** C21: The dedup cache explains a query once per window. For calls at times that do not go back:
    of two calls of the same instance and fingerprint that are both let through, the later one
    comes at least a window after the earlier, and a call is held back only when one of the same
    instance and fingerprint was let through less than a window before it. *)
Theorem dedup_once_per_window (window : Duration) (calls : list call) :
  StronglySorted (fun a b => k_time a <= k_time b) calls ->
  let out := answers (mkDedup ∅ window) calls in
  (forall i j a b, (i < j)%nat -> calls !! i = Some a -> calls !! j = Some b -> same_query a b ->
     out !! i = Some false -> out !! j = Some false -> window <= time_Sub (k_time b) (k_time a)) /\
  (forall j b, calls !! j = Some b -> out !! j = Some true ->
     exists i a, (i < j)%nat /\ calls !! i = Some a /\ same_query a b /\ out !! i = Some false /\
       time_Sub (k_time b) (k_time a) < window).
Proof.
  intros Hs out.
  assert (cache_of (mkDedup ∅ window) []) as Hc by (intros key; cbn; by rewrite lookup_empty).
  pose proof (answers_spec calls (mkDedup ∅ window) [] Hc) as H. fold out in H. cbn [dc_window] in H.
  split.
  - intros i j a b Hij Ha Hb Hq Hi Hj.
    apply (H (SSorted_nil _) (fun x k Hx => match not_elem_of_nil x Hx with end) Hs j b false Hb Hj);
      [right; by exists i|done].
  - intros j b Hb Hj.
    destruct (H (SSorted_nil _) (fun x k Hx => match not_elem_of_nil x Hx with end) Hs j b true Hb Hj)
      as (x & [[]%not_elem_of_nil|(i & H1 & H2 & H3)] & Hq & Hlt).
    by exists i, x.
Qed.

(** ** Saving a plan *)

Section saving.
Context (jsonb : string -> bool) {SS : SliceSort} {MR : MapRange}.

Record plan_store_ok (s : PGPlanStore) : Prop := {
  po_id : forall id p, pp_rows s !! id = Some p -> pc_ID p = id /\ id < pp_seq s;
  po_key : forall id id' p p', pp_rows s !! id = Some p -> pp_rows s !! id' = Some p' ->
    plan_key p = plan_key p' -> id = id'
}.

Lemma row_with_key_spec s k :
  match row_with_key s k with
  | Some (id, p) => pp_rows s !! id = Some p /\ plan_key p = k
  | None => forall id p, pp_rows s !! id = Some p -> plan_key p <> k
  end.
Proof.
  unfold row_with_key. destruct (List.find _ _) as [[id p]|] eqn:E.
  - apply find_some in E as [Hin Hk]. apply bool_decide_eq_true in Hk.
    apply list_elem_of_In in Hin. by rewrite map_range_perm, elem_of_map_to_list in Hin.
  - intros id p Hp Hk. eapply find_none in E; [|apply list_elem_of_In].
    2: { rewrite map_range_perm. by apply elem_of_map_to_list. }
    apply bool_decide_eq_false in E. done.
Qed.

Lemma row_with_key_unique s k id p : plan_store_ok s ->
  pp_rows s !! id = Some p -> plan_key p = k -> row_with_key s k = Some (id, p).
Proof.
  intros Hs Hp Hk. pose proof (row_with_key_spec s k) as H.
  destruct (row_with_key s k) as [[id' p']|]; [|by destruct (H id p Hp)].
  destruct H as [Hp' Hk']. assert (id' = id) as -> by (eapply po_key; [done..|congruence]). congruence.
Qed.

(** The row with the key of a saved plan: a new one, or the old one with time and metadata set. *)
Definition saved_row (s : PGPlanStore) (p : PlanCapture) : Z * PlanCapture :=
  match row_with_key s (plan_key p) with
  | None => (pp_seq s, plan_row (pp_seq s) p)
  | Some (id, old) => (id, plan_updated p old)
  end.

Lemma saved_row_key s p : plan_key (saved_row s p).2 = plan_key p.
Proof.
  unfold saved_row. pose proof (row_with_key_spec s (plan_key p)) as H.
  destruct (row_with_key s (plan_key p)) as [[id old]|]; [|done]. destruct H as [_ <-]. done.
Qed.

Lemma SavePlan_eq s p : pp_fault s = None -> plan_accepted jsonb p = true ->
  SavePlan jsonb s p
  = (mkPlanStore (<[(saved_row s p).1 := (saved_row s p).2]> (pp_rows s)) (pp_seq s + 1) (pp_fault s),
     None).
Proof.
  intros Hf Ha. unfold SavePlan, saved_row. rewrite Hf, Ha. cbn [negb].
  by destruct (row_with_key s (plan_key p)) as [[id old]|].
Qed.

Lemma saved_ok s p : plan_store_ok s ->
  plan_store_ok (mkPlanStore (<[(saved_row s p).1 := (saved_row s p).2]> (pp_rows s)) (pp_seq s + 1)
                   (pp_fault s)).
Proof.
  intros Hs. pose proof (row_with_key_spec s (plan_key p)) as Hk.
  assert (pc_ID (saved_row s p).2 = (saved_row s p).1 /\ (saved_row s p).1 < pp_seq s + 1) as Hid.
  { unfold saved_row. destruct (row_with_key s (plan_key p)) as [[id old]|]; cbn; [|lia].
    destruct Hk as [Hk _]. apply (po_id s Hs) in Hk. lia. }
  assert (forall id q, pp_rows s !! id = Some q -> plan_key q = plan_key p -> id = (saved_row s p).1)
    as Huniq.
  { intros id q Hq Hqk. unfold saved_row. by rewrite (row_with_key_unique s _ id q Hs Hq Hqk). }
  split; cbn [pp_rows pp_seq].
  - intros id q [[<- <-]|[_ Hq]]%lookup_insert_Some; [done|]. apply (po_id s Hs) in Hq. lia.
  - intros id id' q q' [[<- <-]|[Hne Hq]]%lookup_insert_Some [[<- <-]|[Hne' Hq']]%lookup_insert_Some Heq.
    + done.
    + rewrite saved_row_key in Heq. by apply Huniq in Hq'.
    + rewrite saved_row_key in Heq. by apply Huniq in Hq.
    + by eapply po_key.
Qed.

Lemma regression_accepted plan prev :
  plan_accepted jsonb plan = true -> plan_accepted jsonb (regression_of plan prev) = true.
Proof.
  unfold plan_accepted. cbn. rewrite !andb_true_iff. intuition.
Qed.

(** The hash of the latest plan differs from the plan's. *)
Definition plan_changed (s : PGPlanStore) (plan : PlanCapture) : bool :=
  match LatestPlanHash s (pc_InstanceID plan) (pc_QueryFingerprint plan) with
  | Ok prev => negb (String.eqb prev "") && negb (String.eqb prev (pc_PlanHash plan))
  | Err _ => false
  end.

(** Saving a captured plan, regressions included. The table keeps one row per instance,
    fingerprint and plan hash; rows of other keys stay as they are, and the row of the plan has
    its time and its metadata. A plan seen before keeps the trigger of its row; a new plan that
    differs from the latest one of the query is marked as a regression; any other has its own
    trigger. In each case the metadata is the plan's own: the hashes written with a regression are
    overwritten by the second save. *)
Theorem check_and_save_exact (s : PGPlanStore) (plan : PlanCapture) :
  plan_store_ok s -> pp_fault s = None -> plan_accepted jsonb plan = true ->
  let '(s', e) := @checkAndSave _ (PGPlans jsonb) s plan in
  e = None /\ plan_store_ok s' /\
  (forall id p, plan_key p <> plan_key plan -> pp_rows s' !! id = Some p <-> pp_rows s !! id = Some p) /\
  exists id row, pp_rows s' !! id = Some row /\ plan_key row = plan_key plan /\
    pc_CapturedAt row = pg_time (pc_CapturedAt plan) /\ pc_Metadata row = pc_Metadata plan /\
    pc_TriggerType row =
      match row_with_key s (plan_key plan) with
      | Some (_, old) => pc_TriggerType old
      | None => if plan_changed s plan then TriggerHashDiff else pc_TriggerType plan
      end.
Proof.
  intros Hs Hf Ha. unfold checkAndSave. cbn [cs_LatestPlanHash cs_SavePlan PGPlans].
  assert (forall s0 p, plan_store_ok s0 -> plan_key p = plan_key plan -> forall id q, plan_key q <> plan_key plan ->
    <[(saved_row s0 p).1 := (saved_row s0 p).2]> (pp_rows s0) !! id = Some q
    <-> pp_rows s0 !! id = Some q) as Hother.
  { intros s0 p Hs0 Hp id q Hq. rewrite lookup_insert_Some. split.
    - intros [[_ Heq]|[_ ?]]; [|done]. rewrite <- Heq, saved_row_key in Hq. congruence.
    - intros Hin. right. split; [|done]. intros <-. unfold saved_row in Hin.
      pose proof (row_with_key_spec s0 (plan_key p)) as Hk.
      destruct (row_with_key s0 (plan_key p)) as [[i old]|]; cbn in Hin; [destruct Hk; congruence|].
      apply (po_id s0 Hs0) in Hin. lia. }
  set (prev := match LatestPlanHash s _ _ with Ok h => h | Err _ => "" end).
  assert (negb (String.eqb prev "") && negb (String.eqb prev (pc_PlanHash plan)) = plan_changed s plan) as ->.
  { unfold prev, plan_changed. by destruct (LatestPlanHash s _ _). }
  destruct (plan_changed s plan).
  - rewrite (SavePlan_eq s (regression_of plan prev)) by (done || by apply regression_accepted).
    cbn [fst]. set (s1 := mkPlanStore _ _ _). assert (plan_store_ok s1) as Hs1 by by apply saved_ok.
    rewrite SavePlan_eq by done. split; [done|]. split; [by apply saved_ok|]. split.
    + intros id q Hq. cbn [pp_rows]. rewrite Hother by done. unfold s1. cbn [pp_rows].
      by apply (Hother s (regression_of plan prev)).
    + assert (row_with_key s1 (plan_key plan) = Some (saved_row s (regression_of plan prev))) as Hrow.
      { rewrite (surjective_pairing (saved_row _ _)). apply row_with_key_unique; [done| |].
        - unfold s1. cbn [pp_rows]. apply lookup_insert_eq.
        - exact (saved_row_key s (regression_of plan prev)). }
      exists (saved_row s1 plan).1, (saved_row s1 plan).2. cbn [pp_rows].
      rewrite lookup_insert_eq, saved_row_key. do 2 (split; [done|]).
      unfold saved_row at 1 2 3. rewrite Hrow. rewrite (surjective_pairing (saved_row s _)). cbn.
      split; [done|]. split; [done|]. unfold saved_row.
      change (plan_key (regression_of plan prev)) with (plan_key plan).
      by destruct (row_with_key s (plan_key plan)) as [[i old]|].
  - rewrite SavePlan_eq by done. split; [done|]. split; [by apply saved_ok|]. split; [by apply Hother|].
    exists (saved_row s plan).1, (saved_row s plan).2. cbn [pp_rows].
    rewrite lookup_insert_eq, saved_row_key. do 2 (split; [done|]).
    unfold saved_row. by destruct (row_with_key s (plan_key plan)) as [[i old]|].
Qed.

End saving.

(** ** Session actions *)

(** A session action is sent only past its guards. If a request makes the server send the
    cancel or terminate statement to an instance, then the pid of the path is a positive number,
    the instance exists and could be reached, the pid is not that of the connection itself, the
    instance answered that its user is no superuser, the statement names that pid and is the last
    of at most three; and success is answered only when the statement answered true. *)
Theorem session_action_guarded `{DR : Driver} instanceExists connProvider instanceID pidStr action
    (args : list arg) :
  let '(stmts, answer) := handleSessionAction instanceExists connProvider instanceID pidStr action in
  (actionSQL action, args) ∈ stmts ->
  exists pid connFor conn,
    Atoi pidStr = (pid, None) /\ 0 < pid /\ args = [AInt pid] /\
    instanceExists instanceID = true /\ connProvider = Some connFor /\ connFor instanceID = Ok conn /\
    query_row conn ownPidSQL [] int64 <> Ok pid /\
    query_row conn superuserSQL [AInt pid] boolean = Ok false /\
    stmts = [(ownPidSQL, []); (superuserSQL, [AInt pid]); (actionSQL action, [AInt pid])] /\
    exists success, answer = writeJSON StatusOK (mkSessionAction pid action success) /\
      (success = true <-> query_row conn (actionSQL action) [AInt pid] boolean = Ok true).
Proof.
  assert (actionSQL action <> ownPidSQL /\ actionSQL action <> superuserSQL) as [H1 H2].
  { unfold actionSQL. destruct (String.eqb action "cancel"); split; discriminate. }
  assert (forall (l : list (string * list arg)), (forall p, p ∈ l -> p.1 = ownPidSQL \/ p.1 = superuserSQL) ->
    (actionSQL action, args) ∈ l -> False) as Hno.
  { intros l Hl Hin. destruct (Hl _ Hin); by cbn in *. }
  unfold handleSessionAction. destruct (Atoi pidStr) as [pid [e|]]; [by intros ?%not_elem_of_nil|].
  destruct (Z.leb_spec pid 0); [by intros ?%not_elem_of_nil|].
  destruct (instanceExists instanceID) eqn:Ei; cbn [negb]; [|by intros ?%not_elem_of_nil].
  destruct connProvider as [connFor|]; [|by intros ?%not_elem_of_nil].
  destruct (connFor instanceID) as [conn|] eqn:Ec; [|by intros ?%not_elem_of_nil].
  destruct (Z.eqb_spec pid (match query_row conn ownPidSQL [] int64 with Ok p => p | Err _ => 0 end)) as [|Hne].
  { intros Hin. exfalso. eapply Hno; [|exact Hin]. set_solver. }
  destruct (query_row conn superuserSQL [AInt pid] boolean) as [[]|e] eqn:Es;
    try (intros Hin; exfalso; eapply Hno; [|exact Hin]; intros p; rewrite !elem_of_cons;
         intros [->|[->|[]%not_elem_of_nil]]; auto).
  intros Hin. exists pid, connFor, conn. split; [done|]. split; [lia|]. split.
  { cbn [app] in Hin. rewrite !elem_of_cons in Hin.
    destruct Hin as [Hin|[Hin|[Hin|[]%not_elem_of_nil]]]; congruence. }
  split; [done|]. split; [done|]. split; [done|]. split.
  { intros Hown. rewrite Hown in Hne. done. }
  split; [done|]. split; [done|]. eexists. split; [reflexivity|].
  destruct (query_row conn (actionSQL action) [AInt pid] boolean) as [[]|]; split; congruence.
Qed.

(** ** A small deployment *)

#[local] Existing Instance cell_driver.
#[local] Existing Instance insertion_SliceSort.
#[local] Existing Instance canonical_MapRange.

Lemma dedup_once_per_window_witness :
  let calls := [mkCall 0 "db1" "SELECT 1"; mkCall (10 * Second) "db1" "select  1";
                mkCall (70 * Second) "db1" "SELECT 1"] in
  answers (mkDedup ∅ Minute) calls = [false; true; false] /\
  Minute <= time_Sub (70 * Second) 0.
Proof.
  intros calls.
  assert (answers (mkDedup ∅ Minute) calls = [false; true; false]) as E by (vm_compute; reflexivity).
  split; [exact E|].
  assert (StronglySorted (fun a b => k_time a <= k_time b) calls) as Hs.
  { unfold calls. repeat constructor; vm_compute; discriminate. }
  destruct (dedup_once_per_window Minute calls Hs) as [H _]. rewrite E in H.
  apply (H 0%nat 2%nat (mkCall 0 "db1" "SELECT 1") (mkCall (70 * Second) "db1" "SELECT 1"));
    [lia|reflexivity|reflexivity|by split|reflexivity|reflexivity].
Defined.

Definition demo_plan (hash text : string) (at_ : Time) : PlanCapture :=
  mkPlan 0 "db1" "app" "f1" hash text TriggerDuration 1500 "select" false ∅ at_.

Definition any_json : string -> bool := fun _ => true.

Definition demo_plans : PGPlanStore :=
  (SavePlan any_json (mkPlanStore ∅ 1 None) (demo_plan "h1" "[1]" 0)).1.

Lemma demo_plans_ok : plan_store_ok demo_plans.
Proof.
  unfold demo_plans. rewrite SavePlan_eq by (vm_compute; reflexivity). apply saved_ok.
  split; cbn; intros; by rewrite lookup_empty in *.
Qed.

(** A new plan of the query: the row is a regression, without the hashes. *)
Lemma check_and_save_exact_witness :
  exists id row, pp_rows (@checkAndSave _ (PGPlans any_json) demo_plans (demo_plan "h2" "[2]" Minute)).1 !! id
      = Some row /\
    pc_TriggerType row = TriggerHashDiff /\ pc_Metadata row = ∅.
Proof.
  pose proof (check_and_save_exact any_json demo_plans (demo_plan "h2" "[2]" Minute) demo_plans_ok eq_refl
    (ltac:(vm_compute; reflexivity))) as H.
  destruct (@checkAndSave _ (PGPlans any_json) demo_plans (demo_plan "h2" "[2]" Minute)) as [s' e].
  destruct H as (_ & _ & _ & id & row & H1 & _ & _ & H2 & H3). exists id, row. cbn [fst].
  split; [exact H1|]. split; [|exact H2]. rewrite H3. vm_compute. reflexivity.
Defined.

Definition demo_session : Conn := fun sql _ =>
  if String.eqb sql ownPidSQL then Ok ([[CInt 100]], None)
  else if String.eqb sql superuserSQL then Ok ([[CBool false]], None)
  else Ok ([[CBool true]], None).

Lemma session_action_guarded_witness :
  exists pid : Z, Atoi "42" = (pid, None) /\ 0 < pid.
Proof.
  pose proof (session_action_guarded (fun _ => true) (Some (fun _ => Ok demo_session)) "db1" "42"
    "terminate" [AInt 42]) as H.
  destruct (handleSessionAction _ _ "db1" "42" "terminate") as [stmts answer] eqn:E.
  destruct H as (pid & _ & _ & H1 & H2 & _).
  - apply (f_equal fst) in E. vm_compute in E. subst stmts. right. right. left.
  - exists pid. split; [exact H1|exact H2].
Defined.
