(* ===== verification/Routes.v ===== *)
(** * The routes of the API

    Models Routes of internal/api/server.go and internal/api/middleware.go: the table of endpoints
    with the middleware in front of each, with authentication and without, and the middleware
    around all of them. How chi matches a path to a pattern is not modelled: a theorem speaks of
    the endpoint that was matched. *)
From S2P Require Import Prelude Float64 GoText Auth Http.

Local Open Scope Z_scope.

Inductive method := GET | POST | PUT | DELETE.

#[global] Instance method_eq_dec : EqDecision method.
Proof. solve_decision. Defined.

(** The middleware that a group of routes uses. *)
Inductive guard :=
  | NeedAuth
  | NeedPerm (p : Permission)
  | LoginLimit
  | ImplicitAdmin.

(** The optional parts of the server: [if s.alertRuleStore != nil] and the like. *)
Inductive feature :=
  | AlertRuleStore
  | RemediationEngine
  | RCAEngine
  | PlaybookStore
  | ForecastEngine
  | InstanceStore.

Inductive entry :=
  | Endpoint (m : method) (path handler : string)
  | Group (guards : list guard) (entries : list entry)
  | Route (prefix : string) (entries : list entry)
  | When (part : feature) (entries : list entry).

Definition Get := Endpoint GET.
Definition Post := Endpoint POST.
Definition Put := Endpoint PUT.
Definition Delete := Endpoint DELETE.

Definition publicRoutes : list entry :=
  [ Get "/health" "handleHealth";
    Get "/system/mode" "handleSystemMode" ].

Definition authRoutes : list entry := [
    Group [LoginLimit] [
      Post "/auth/login" "handleLogin" ];
    Post "/auth/refresh" "handleRefresh";
    Group [NeedAuth] [
      Get "/auth/me" "handleMe";
      Get "/instances" "handleListInstances";
      Get "/instances/{id}" "handleGetInstance";
      Get "/instances/{id}/metrics" "handleQueryMetrics";
      Get "/instances/{id}/metrics/current" "handleCurrentMetrics";
      Get "/instances/{id}/metrics/history" "handleMetricsHistory";
      Get "/instances/{id}/metrics/{metric}/forecast" "handleGetMetricForecast";
      Get "/instances/{id}/replication" "handleReplication";
      Get "/instances/{id}/activity/wait-events" "handleWaitEvents";
      Get "/instances/{id}/activity/long-transactions" "handleLongTransactions";
      Get "/instances/{id}/activity/statements" "handleStatements";
      Get "/instances/{id}/activity/locks" "handleLockTree";
      Get "/instances/{id}/activity/progress" "handleProgress";
      Get "/instances/{id}/os" "handleOSMetrics";
      Get "/instances/{id}/cluster" "handleClusterMetrics";
      Get "/instances/{id}/databases" "handleListDatabases";
      Get "/instances/{id}/databases/{dbname}/metrics" "handleGetDatabaseMetrics";
      Get "/instances/{id}/logical-replication" "handleLogicalReplication";
      Get "/instances/{id}/plans" "handleListPlans";
      Get "/instances/{id}/plans/regressions" "handleListRegressions";
      Get "/instances/{id}/plans/{plan_id}" "handleGetPlan";
      Get "/instances/{id}/settings/history" "handleSettingsHistory";
      Get "/instances/{id}/settings/diff" "handleSettingsDiff";
      Get "/instances/{id}/settings/latest" "handleSettingsLatest";
      Get "/instances/{id}/settings/pending-restart" "handleSettingsPendingRestart";
      Get "/instances/{id}/snapshots/diff" "handleSnapshotDiff";
      Get "/instances/{id}/snapshots/latest-diff" "handleLatestDiff";
      Get "/instances/{id}/snapshots" "handleListSnapshots";
      Get "/instances/{id}/snapshots/{snapId}" "handleGetSnapshot";
      Get "/instances/{id}/query-insights/{queryid}" "handleQueryInsights";
      Get "/instances/{id}/workload-report/html" "handleWorkloadReportHTML";
      Get "/instances/{id}/workload-report" "handleWorkloadReport";
      Group [NeedPerm PermInstanceManagement] [
        Post "/instances/{id}/plans/capture" "handleManualCapture";
        Post "/instances/{id}/settings/snapshot" "handleSettingsManualSnapshot";
        Post "/instances/{id}/snapshots/capture" "handleManualSnapshotCapture";
        Post "/instances/{id}/sessions/{pid}/cancel" "handleSessionCancel";
        Post "/instances/{id}/sessions/{pid}/terminate" "handleSessionTerminate";
        Post "/instances/{id}/explain" "handleExplain" ];
      When AlertRuleStore [
        Get "/alerts" "handleGetActiveAlerts";
        Get "/alerts/history" "handleGetAlertHistory";
        Get "/alerts/rules" "handleGetAlertRules";
        Group [NeedPerm PermAlertManagement] [
          Post "/alerts/rules" "handleCreateAlertRule";
          Put "/alerts/rules/{id}" "handleUpdateAlertRule";
          Delete "/alerts/rules/{id}" "handleDeleteAlertRule";
          Post "/alerts/test" "handleTestNotification" ] ];
      When RemediationEngine [
        Get "/instances/{id}/recommendations" "handleListRecommendations";
        Post "/instances/{id}/diagnose" "handleDiagnose";
        Get "/recommendations" "handleListAllRecommendations";
        Get "/recommendations/rules" "handleListRemediationRules";
        Group [NeedPerm PermAlertManagement] [
          Put "/recommendations/{id}/acknowledge" "handleAcknowledgeRecommendation" ] ];
      When RCAEngine [
        Post "/instances/{id}/rca/analyze" "handleRCAAnalyze";
        Get "/instances/{id}/rca/incidents" "handleRCAListIncidents";
        Get "/instances/{id}/rca/incidents/{incidentId}" "handleRCAGetIncident";
        Get "/rca/incidents" "handleRCAListAllIncidents";
        Get "/rca/graph" "handleRCAGetGraph";
        Group [NeedPerm PermAlertManagement] [
          Put "/rca/incidents/{incidentId}/review" "handleRCAReviewIncident" ] ];
      When PlaybookStore [
        Get "/playbooks" "handleListPlaybooks";
        Get "/playbooks/resolve" "handleResolvePlaybook";
        Group [NeedPerm PermAlertManagement] [
          Post "/playbooks" "handleCreatePlaybook" ];
        Route "/playbooks/{id}" [
          Get "/" "handleGetPlaybook";
          Group [NeedPerm PermAlertManagement] [
            Put "/" "handleUpdatePlaybook";
            Post "/deprecate" "handleDeprecatePlaybook" ];
          Group [NeedPerm PermUserManagement] [
            Delete "/" "handleDeletePlaybook";
            Post "/promote" "handlePromotePlaybook" ] ];
        Post "/instances/{id}/playbooks/{playbookId}/run" "handleStartRun";
        Get "/instances/{id}/playbook-runs" "handleListInstanceRuns";
        Route "/playbook-runs" [
          Get "/" "handleListAllRuns";
          Route "/{runId}" [
            Get "/" "handleGetRun";
            Post "/abandon" "handleAbandonRun";
            Post "/feedback" "handleSubmitFeedback";
            Route "/steps/{stepOrder}" [
              Post "/execute" "handleExecuteStep";
              Post "/skip" "handleSkipStep";
              Post "/retry" "handleRetryStep";
              Post "/request-approval" "handleRequestApproval";
              Group [NeedPerm PermInstanceManagement] [
                Post "/confirm" "handleConfirmStep";
                Post "/approve" "handleApproveStep" ] ] ] ] ];
      When ForecastEngine [
        Route "/instances/{id}/forecast" [
          Get "/eta" "handleForecastETA";
          Get "/eta/{pid}" "handleForecastETAByPID";
          Get "/needs" "handleForecastNeeds";
          Get "/needs/{database}/{table}" "handleForecastNeedsForTable";
          Get "/history" "handleForecastHistory" ] ];
      When InstanceStore [
        Group [NeedPerm PermInstanceManagement] [
          Post "/instances" "handleCreateInstance";
          Put "/instances/{id}" "handleUpdateInstance";
          Delete "/instances/{id}" "handleDeleteInstance";
          Post "/instances/bulk" "handleBulkImport";
          Post "/instances/{id}/test" "handleTestConnection" ] ];
      Group [NeedPerm PermUserManagement] [
        Post "/auth/register" "handleRegister";
        Get "/auth/users" "handleListUsers";
        Put "/auth/users/{id}" "handleUpdateUser";
        Delete "/auth/users/{id}" "handleDeleteUser";
        Put "/auth/users/{id}/password" "handleAdminResetPassword" ];
      Put "/auth/me/password" "handleChangePassword" ] ].

(** Without authentication, login and refresh answer a fixed pair of tokens. *)
Definition openRoutes : list entry := [
    Post "/auth/login" "stub";
    Post "/auth/refresh" "stub";
    Group [ImplicitAdmin] [
      Get "/auth/me" "handleMe";
      Get "/instances" "handleListInstances";
      Get "/instances/{id}" "handleGetInstance";
      Get "/instances/{id}/metrics" "handleQueryMetrics";
      Get "/instances/{id}/metrics/current" "handleCurrentMetrics";
      Get "/instances/{id}/metrics/history" "handleMetricsHistory";
      Get "/instances/{id}/metrics/{metric}/forecast" "handleGetMetricForecast";
      Get "/instances/{id}/replication" "handleReplication";
      Get "/instances/{id}/activity/wait-events" "handleWaitEvents";
      Get "/instances/{id}/activity/long-transactions" "handleLongTransactions";
      Get "/instances/{id}/activity/statements" "handleStatements";
      Get "/instances/{id}/activity/locks" "handleLockTree";
      Get "/instances/{id}/activity/progress" "handleProgress";
      Get "/instances/{id}/os" "handleOSMetrics";
      Get "/instances/{id}/cluster" "handleClusterMetrics";
      Get "/instances/{id}/databases" "handleListDatabases";
      Get "/instances/{id}/databases/{dbname}/metrics" "handleGetDatabaseMetrics";
      Get "/instances/{id}/logical-replication" "handleLogicalReplication";
      Get "/instances/{id}/plans" "handleListPlans";
      Get "/instances/{id}/plans/regressions" "handleListRegressions";
      Get "/instances/{id}/plans/{plan_id}" "handleGetPlan";
      Post "/instances/{id}/plans/capture" "handleManualCapture";
      Get "/instances/{id}/settings/history" "handleSettingsHistory";
      Get "/instances/{id}/settings/diff" "handleSettingsDiff";
      Get "/instances/{id}/settings/latest" "handleSettingsLatest";
      Get "/instances/{id}/settings/pending-restart" "handleSettingsPendingRestart";
      Post "/instances/{id}/settings/snapshot" "handleSettingsManualSnapshot";
      Get "/instances/{id}/snapshots/diff" "handleSnapshotDiff";
      Get "/instances/{id}/snapshots/latest-diff" "handleLatestDiff";
      Get "/instances/{id}/snapshots" "handleListSnapshots";
      Get "/instances/{id}/snapshots/{snapId}" "handleGetSnapshot";
      Get "/instances/{id}/query-insights/{queryid}" "handleQueryInsights";
      Get "/instances/{id}/workload-report/html" "handleWorkloadReportHTML";
      Get "/instances/{id}/workload-report" "handleWorkloadReport";
      Post "/instances/{id}/snapshots/capture" "handleManualSnapshotCapture";
      Post "/instances/{id}/sessions/{pid}/cancel" "handleSessionCancel";
      Post "/instances/{id}/sessions/{pid}/terminate" "handleSessionTerminate";
      Post "/instances/{id}/explain" "handleExplain";
      When AlertRuleStore [
        Get "/alerts" "handleGetActiveAlerts";
        Get "/alerts/history" "handleGetAlertHistory";
        Get "/alerts/rules" "handleGetAlertRules";
        Post "/alerts/rules" "handleCreateAlertRule";
        Put "/alerts/rules/{id}" "handleUpdateAlertRule";
        Delete "/alerts/rules/{id}" "handleDeleteAlertRule";
        Post "/alerts/test" "handleTestNotification" ];
      When RemediationEngine [
        Get "/instances/{id}/recommendations" "handleListRecommendations";
        Post "/instances/{id}/diagnose" "handleDiagnose";
        Get "/recommendations" "handleListAllRecommendations";
        Get "/recommendations/rules" "handleListRemediationRules";
        Put "/recommendations/{id}/acknowledge" "handleAcknowledgeRecommendation" ];
      When RCAEngine [
        Post "/instances/{id}/rca/analyze" "handleRCAAnalyze";
        Get "/instances/{id}/rca/incidents" "handleRCAListIncidents";
        Get "/instances/{id}/rca/incidents/{incidentId}" "handleRCAGetIncident";
        Get "/rca/incidents" "handleRCAListAllIncidents";
        Get "/rca/graph" "handleRCAGetGraph";
        Put "/rca/incidents/{incidentId}/review" "handleRCAReviewIncident" ];
      When PlaybookStore [
        Get "/playbooks" "handleListPlaybooks";
        Get "/playbooks/resolve" "handleResolvePlaybook";
        Post "/playbooks" "handleCreatePlaybook";
        Route "/playbooks/{id}" [
          Get "/" "handleGetPlaybook";
          Put "/" "handleUpdatePlaybook";
          Delete "/" "handleDeletePlaybook";
          Post "/promote" "handlePromotePlaybook";
          Post "/deprecate" "handleDeprecatePlaybook" ];
        Post "/instances/{id}/playbooks/{playbookId}/run" "handleStartRun";
        Get "/instances/{id}/playbook-runs" "handleListInstanceRuns";
        Route "/playbook-runs" [
          Get "/" "handleListAllRuns";
          Route "/{runId}" [
            Get "/" "handleGetRun";
            Post "/abandon" "handleAbandonRun";
            Post "/feedback" "handleSubmitFeedback";
            Route "/steps/{stepOrder}" [
              Post "/execute" "handleExecuteStep";
              Post "/skip" "handleSkipStep";
              Post "/retry" "handleRetryStep";
              Post "/request-approval" "handleRequestApproval";
              Post "/confirm" "handleConfirmStep";
              Post "/approve" "handleApproveStep" ] ] ] ];
      When ForecastEngine [
        Route "/instances/{id}/forecast" [
          Get "/eta" "handleForecastETA";
          Get "/eta/{pid}" "handleForecastETAByPID";
          Get "/needs" "handleForecastNeeds";
          Get "/needs/{database}/{table}" "handleForecastNeedsForTable";
          Get "/history" "handleForecastHistory" ] ];
      When InstanceStore [
        Post "/instances" "handleCreateInstance";
        Put "/instances/{id}" "handleUpdateInstance";
        Delete "/instances/{id}" "handleDeleteInstance";
        Post "/instances/bulk" "handleBulkImport";
        Post "/instances/{id}/test" "handleTestConnection" ] ] ].

Definition Routes (authEnabled : bool) : list entry :=
  [ Route "/api/v1" (publicRoutes ++ (if authEnabled then authRoutes else openRoutes)) ].

(** ** The table *)

Record route := mkRoute {
  rt_method : method;
  rt_path : string;
  rt_handler : string;
  rt_guards : list guard;
  rt_parts : list feature
}.

(** The path below a prefix: the pattern "/" stands for the prefix itself. *)
Definition below (prefix path : string) : string :=
  if String.eqb path "/" then prefix else prefix +:+ path.

Fixpoint flatten (prefix : string) (guards : list guard) (parts : list feature) (e : entry)
    : list route :=
  match e with
  | Endpoint m path handler => [mkRoute m (below prefix path) handler guards parts]
  | Group gs es => concat (map (flatten prefix (guards ++ gs) parts) es)
  | Route p es => concat (map (flatten (below prefix p) guards parts) es)
  | When part es => concat (map (flatten prefix guards (parts ++ [part])) es)
  end.

Definition all_routes (authEnabled : bool) : list route :=
  concat (map (flatten "" [] []) (Routes authEnabled)).

(** The endpoints of a server with the parts that [on] names. *)
Definition table (authEnabled : bool) (on : feature -> bool) : list route :=
  List.filter (fun rt => forallb on (rt_parts rt)) (all_routes authEnabled).

(** ** Going through the middleware *)

Section enter.
Context {CR : Crypto}.

(** The claims the handler sees, or the error that is answered; [limited] is what the login
    limiter answers. *)
Fixpoint enter (s : JWTService) (now : Time) (r : Request) (limited : option httpError)
    (guards : list guard) (claims : option Claims) : option Claims + httpError :=
  match guards with
  | [] => inl claims
  | g :: gs =>
      match g with
      | NeedAuth =>
          match RequireAuth s now r with
          | inl c => enter s now r limited gs (Some c)
          | inr e => inr e
          end
      | NeedPerm p =>
          match RequirePermission p claims with
          | None => enter s now r limited gs claims
          | Some e => inr e
          end
      | LoginLimit =>
          match limited with None => enter s now r limited gs claims | Some e => inr e end
      | ImplicitAdmin =>
          match NewAuthMiddleware s AuthDisabled now r with
          | inl c => enter s now r limited gs (Some c)
          | inr e => inr e
          end
      end
  end.
End enter.

(** ** The middleware around the routes *)

Abbreviation headers := (gmap string string).

(** What a handler did: a response with its headers, or a panic with the headers set so far. *)
Inductive served :=
  | Served (status : Z) (hs : headers)
  | Panicked (hs : headers).

(** A request as the middleware sees it, and the rest of the chain on it: the identifier is what
    requestIDMiddleware puts into the context, [hs] the headers set so far. *)
Record httpRequest := mkHttpRequest { hr_Method : string; hr_RequestID : string }.

Definition next_handler : Type := httpRequest -> string -> headers -> served.

(** [generated] is the identifier drawn from the random source. *)
Definition requestIDMiddleware (generated : string) (next : next_handler) : next_handler :=
  fun r id hs =>
    let id := if String.eqb (hr_RequestID r) "" then generated else hr_RequestID r in
    next r id (<["X-Request-ID" := id]> hs).

Definition securityHeadersMiddleware (next : next_handler) : next_handler := fun r id hs =>
  next r id
    (<["Content-Security-Policy" := "default-src 'self'; script-src 'self'; style-src 'self' 'unsafe-inline' https://fonts.googleapis.com; img-src 'self' data:; font-src 'self' https://fonts.gstatic.com; connect-src 'self'"]>
    (<["Referrer-Policy" := "strict-origin-when-cross-origin"]>
    (<["X-Frame-Options" := "DENY"]>
    (<["X-Content-Type-Options" := "nosniff"]> hs)))).

(** The log line comes after the response; a panic goes through without one. *)
Definition loggerMiddleware (next : next_handler) : next_handler := next.

Definition recovererMiddleware (next : next_handler) : next_handler := fun r id hs =>
  match next r id hs with
  | Panicked hs' => Served StatusInternalServerError (<["Content-Type" := "application/json"]> hs')
  | Served st hs' => Served st hs'
  end.

Definition corsMiddleware (origin : string) (next : next_handler) : next_handler := fun r id hs =>
  let hs :=
    <["Access-Control-Max-Age" := "86400"]>
    (<["Access-Control-Allow-Credentials" := "true"]>
    (<["Access-Control-Allow-Headers" := "Authorization, Content-Type, X-Request-ID"]>
    (<["Access-Control-Allow-Methods" := "GET, POST, PUT, DELETE, OPTIONS"]>
    (<["Access-Control-Allow-Origin" := origin]> hs)))) in
  if String.eqb (hr_Method r) "OPTIONS" then Served StatusNoContent hs else next r id hs.

(** The chain of [Routes] around the router. *)
Definition chain (generated : string) (cors : option string) (router : next_handler)
    : next_handler :=
  requestIDMiddleware generated (securityHeadersMiddleware (loggerMiddleware (recovererMiddleware
    (match cors with Some origin => corsMiddleware origin router | None => router end)))).
