(* ===== verification/RoutesTheorems.v ===== *)
(** * Who reaches which endpoint

    The guards in front of the endpoints, computed over every configuration of the server, and the
    headers that the middleware puts on every response. *)
From S2P Require Import Prelude Float64 GoText Auth Http AuthApi AuthTheorems Routes.

Local Open Scope Z_scope.

(** ** The policy *)

Inductive access := Open | LoginOnly | SignedIn | Holding (p : Permission).

Definition user_management : list string :=
  ["handleRegister"; "handleListUsers"; "handleUpdateUser"; "handleDeleteUser";
   "handleAdminResetPassword"; "handleDeletePlaybook"; "handlePromotePlaybook"].

Definition instance_management : list string :=
  ["handleManualCapture"; "handleSettingsManualSnapshot"; "handleManualSnapshotCapture";
   "handleSessionCancel"; "handleSessionTerminate"; "handleExplain"; "handleConfirmStep";
   "handleApproveStep"; "handleCreateInstance"; "handleUpdateInstance"; "handleDeleteInstance";
   "handleBulkImport"; "handleTestConnection"].

Definition alert_management : list string :=
  ["handleCreateAlertRule"; "handleUpdateAlertRule"; "handleDeleteAlertRule";
   "handleTestNotification"; "handleAcknowledgeRecommendation"; "handleRCAReviewIncident";
   "handleCreatePlaybook"; "handleUpdatePlaybook"; "handleDeprecatePlaybook"].

(** The endpoints that write and ask for no permission beyond a valid access token. *)
Definition signed_in_writes : list string :=
  ["handleDiagnose"; "handleRCAAnalyze"; "handleStartRun"; "handleAbandonRun";
   "handleSubmitFeedback"; "handleExecuteStep"; "handleSkipStep"; "handleRetryStep";
   "handleRequestApproval"; "handleChangePassword"].

Definition policy (handler : string) : access :=
  if mem handler ["handleHealth"; "handleSystemMode"; "handleRefresh"] then Open
  else if String.eqb handler "handleLogin" then LoginOnly
  else if mem handler user_management then Holding PermUserManagement
  else if mem handler instance_management then Holding PermInstanceManagement
  else if mem handler alert_management then Holding PermAlertManagement
  else SignedIn.

Definition guards_of (a : access) : list guard :=
  match a with
  | Open => []
  | LoginOnly => [LoginLimit]
  | SignedIn => [NeedAuth]
  | Holding p => [NeedAuth; NeedPerm p]
  end.

Definition guard_eqb (a b : guard) : bool :=
  match a, b with
  | NeedAuth, NeedAuth | LoginLimit, LoginLimit | ImplicitAdmin, ImplicitAdmin => true
  | NeedPerm p, NeedPerm q => String.eqb p q
  | _, _ => false
  end.

Fixpoint guards_eqb (a b : list guard) : bool :=
  match a, b with
  | [], [] => true
  | x :: a, y :: b => guard_eqb x y && guards_eqb a b
  | _, _ => false
  end.

Lemma guards_eqb_eq a b : guards_eqb a b = true -> a = b.
Proof.
  revert b. induction a as [|x a IH]; intros [|y b]; cbn; try done.
  intros [H1 H2]%andb_true_iff. f_equal; [|by apply IH].
  destruct x, y; cbn in H1; try done. apply String.eqb_eq in H1. by subst.
Qed.

Definition is_get (m : method) : bool := match m with GET => true | _ => false end.

(** The guards are those of the policy; a write that asks only for a token is one of the list, and
    what is open answers to GET, the refresh of a token apart. *)
Definition route_ok (rt : route) : bool :=
  guards_eqb (rt_guards rt) (guards_of (policy (rt_handler rt)))
  && match policy (rt_handler rt) with
     | SignedIn => is_get (rt_method rt) || mem (rt_handler rt) signed_in_writes
     | Open => is_get (rt_method rt) || String.eqb (rt_handler rt) "handleRefresh"
     | _ => true
     end.

Lemma routes_checked : forallb route_ok (all_routes true) = true.
Proof. vm_compute. reflexivity. Qed.

Lemma table_elem b on rt : rt ∈ table b on <-> rt ∈ all_routes b /\ forallb on (rt_parts rt) = true.
Proof. unfold table. rewrite elem_of_filter_bool. tauto. Qed.

Lemma checked (P : route -> bool) b on rt :
  forallb P (all_routes b) = true -> rt ∈ table b on -> P rt = true.
Proof.
  intros H [Hin _]%table_elem. apply (proj1 (forallb_forall _ _) H). by apply list_elem_of_In.
Qed.

Section reach.
Context {CR : Crypto}.

(** What a policy asks of a request. *)
Definition satisfied (s : JWTService) (now : Time) (r : Request) (limited : option httpError)
    (a : access) : Prop :=
  match a with
  | Open => True
  | LoginOnly => limited = None
  | SignedIn => exists c, RequireAuth s now r = inl c
  | Holding p => exists c, RequireAuth s now r = inl c /\ HasPermission (c_Role c) p = true
  end.

Lemma enter_policy s now r limited a :
  (exists c, enter s now r limited (guards_of a) None = inl c) <-> satisfied s now r limited a.
Proof.
  destruct a as [| | |p]; cbn.
  - split; [done|]. intros _. by exists None.
  - destruct limited; split; try done; [by intros [c ?]|]. intros _. by exists None.
  - destruct (RequireAuth s now r) as [c|e]; split.
    + intros _. by exists c.
    + intros _. by exists (Some c).
    + by intros [].
    + by intros [].
  - destruct (RequireAuth s now r) as [c|e].
    + cbn. destruct (HasPermission (c_Role c) p) eqn:E; cbn; split.
      * intros _. by exists c.
      * intros _. by exists (Some c).
      * by intros [].
      * intros (c' & [= <-] & H). congruence.
    + split; [by intros []|]. by intros (c & ? & _).
Qed.

(** C16: With authentication, an endpoint is reached exactly when its policy is satisfied: health,
    mode and refresh by anyone, login within its limit, everything else with a valid access
    token; user, instance and alert management only by a role that holds the permission. A
    request method other than GET asks for such a permission on every endpoint but twelve: login,
    refresh, and the ten for whoever is signed in, which run analyses and playbook steps or change
    one's own password. *)
Theorem routes_guarded (on : feature -> bool) (rt : route) s now r limited :
  rt ∈ table true on ->
  ((exists c, enter s now r limited (rt_guards rt) None = inl c) <->
   satisfied s now r limited (policy (rt_handler rt))) /\
  (rt_method rt <> GET -> rt_handler rt ∉ "handleLogin" :: "handleRefresh" :: signed_in_writes ->
   exists p, policy (rt_handler rt) = Holding p /\ p <> PermViewAll /\ p <> PermSelfManagement).
Proof.
  intros Hin. pose proof (checked route_ok true on rt routes_checked Hin) as Hok. unfold route_ok in Hok.
  apply andb_true_iff in Hok as [Hg Hw]. apply guards_eqb_eq in Hg. split.
  - rewrite Hg. apply enter_policy.
  - intros Hm Hn. assert (is_get (rt_method rt) = false) as Hnot by by destruct (rt_method rt).
    rewrite Hnot in Hw. destruct (policy (rt_handler rt)) as [| | |p] eqn:Ep; cbn [orb] in Hw.
    + apply String.eqb_eq in Hw. destruct Hn. rewrite Hw. right. left.
    + exfalso. apply Hn. unfold policy in Ep. destr_ifs; try discriminate Ep.
      match goal with H : String.eqb _ _ = true |- _ => apply String.eqb_eq in H; rewrite H end. left.
    + apply mem_spec in Hw. destruct Hn. right. by right.
    + exists p. split; [done|]. unfold policy in Ep.
      destr_ifs; try discriminate Ep; injection Ep as <-; split; discriminate.
Qed.
End reach.

(** ** The two tables *)

(** An endpoint and the parts of the server it needs. *)
Definition endpoint (rt : route) : string * method * string * list feature :=
  (rt_handler rt, rt_method rt, rt_path rt, rt_parts rt).

(** The endpoints that exist only with authentication. *)
Definition accounts : list string :=
  ["handleLogin"; "handleRefresh"; "handleRegister"; "handleListUsers"; "handleUpdateUser";
   "handleDeleteUser"; "handleAdminResetPassword"; "handleChangePassword"].

Definition is_account (rt : route) : bool := mem (rt_handler rt) accounts.
Definition is_stub (rt : route) : bool := String.eqb (rt_handler rt) "stub".

Definition method_eqb (a b : method) : bool :=
  match a, b with
  | GET, GET | POST, POST | PUT, PUT | DELETE, DELETE => true
  | _, _ => false
  end.

Definition feature_eqb (a b : feature) : bool :=
  match a, b with
  | AlertRuleStore, AlertRuleStore | RemediationEngine, RemediationEngine | RCAEngine, RCAEngine
  | PlaybookStore, PlaybookStore | ForecastEngine, ForecastEngine | InstanceStore, InstanceStore => true
  | _, _ => false
  end.

Fixpoint features_eqb (a b : list feature) : bool :=
  match a, b with
  | [], [] => true
  | x :: a, y :: b => feature_eqb x y && features_eqb a b
  | _, _ => false
  end.

Lemma features_eqb_eq a b : features_eqb a b = true -> a = b.
Proof.
  revert b. induction a as [|x a IH]; intros [|y b]; cbn; try done.
  intros [H1 H2]%andb_true_iff. f_equal; [|by apply IH]. by destruct x, y.
Qed.

(** The handler is compared first: it tells most endpoints apart. *)
Definition endpoint_eqb (a b : route) : bool :=
  String.eqb (rt_handler a) (rt_handler b) && method_eqb (rt_method a) (rt_method b)
  && String.eqb (rt_path a) (rt_path b) && features_eqb (rt_parts a) (rt_parts b).

Lemma endpoint_eqb_eq a b : endpoint_eqb a b = true -> endpoint a = endpoint b.
Proof.
  unfold endpoint_eqb, endpoint. rewrite !andb_true_iff. intros [[[H1 H2] H3] H4].
  apply String.eqb_eq in H1, H3. apply features_eqb_eq in H4. rewrite H1, H3, H4.
  by destruct (rt_method a), (rt_method b).
Qed.

Definition closed : list route := List.filter (fun rt => negb (is_account rt)) (all_routes true).
Definition opened : list route := List.filter (fun rt => negb (is_stub rt)) (all_routes false).

Definition covered (l l' : list route) : bool := forallb (fun rt => existsb (endpoint_eqb rt) l') l.

Lemma covered_elem l l' rt : covered l l' = true -> rt ∈ l -> exists rt', rt' ∈ l' /\ endpoint rt = endpoint rt'.
Proof.
  intros H Hin%list_elem_of_In. apply (proj1 (forallb_forall _ _) H), existsb_exists in Hin as (x & Hx & Heq).
  exists x. split; [by apply list_elem_of_In|by apply endpoint_eqb_eq].
Qed.

Lemma closed_covered : covered closed opened = true.
Proof. vm_compute. reflexivity. Qed.

Lemma opened_covered : covered opened closed = true.
Proof. vm_compute. reflexivity. Qed.

(** Without the claims of an administrator there are only the public endpoints. *)
Definition open_guards (rt : route) : bool :=
  guards_eqb (rt_guards rt) [ImplicitAdmin]
  || (guards_eqb (rt_guards rt) [] && mem (rt_handler rt) ["handleHealth"; "handleSystemMode"; "stub"]).

Lemma open_guards_checked : forallb open_guards (all_routes false) = true.
Proof. vm_compute. reflexivity. Qed.

Fixpoint distinct (l : list route) : bool :=
  match l with
  | [] => true
  | a :: l' => negb (existsb (fun b => method_eqb (rt_method a) (rt_method b)
                                       && String.eqb (rt_path a) (rt_path b)) l') && distinct l'
  end.

Lemma distinct_NoDup l : distinct l = true -> NoDup (map (fun rt => (rt_method rt, rt_path rt)) l).
Proof.
  induction l as [|a l IH]; [constructor|]. cbn. intros [H1 H2]%andb_true_iff.
  apply NoDup_cons. split; [|by apply IH]. intros (b & [= Hm Hp] & Hin)%list_elem_of_fmap.
  apply negb_true_iff in H1. rewrite <- not_true_iff_false in H1. apply H1, existsb_exists.
  exists b. split; [by apply list_elem_of_In|]. rewrite Hm, Hp, String.eqb_refl.
  by destruct (rt_method b).
Qed.

Lemma routes_distinct b : distinct (all_routes b) = true.
Proof. destruct b; vm_compute; reflexivity. Qed.

Lemma filter_map_NoDup {A B} (g : A -> B) (f : A -> bool) (l : list A) :
  NoDup (map g l) -> NoDup (map g (List.filter f l)).
Proof.
  induction l as [|a l IH]; [done|]. cbn. intros [Ha Hl]%NoDup_cons.
  destruct (f a); [|by apply IH]. cbn. apply NoDup_cons. split; [|by apply IH].
  intros (x & Hx & [_ Hin]%elem_of_filter_bool)%list_elem_of_fmap. apply Ha. rewrite Hx.
  by apply list_elem_of_fmap_2.
Qed.

Lemma endpoints_below (on : feature -> bool) b b' l l' (drop : route -> bool) (drop' : route -> bool) :
  (forall rt, rt ∈ l -> exists rt', rt' ∈ l' /\ endpoint rt = endpoint rt') ->
  l = List.filter (fun rt => negb (drop rt)) (all_routes b) ->
  l' = List.filter (fun rt => negb (drop' rt)) (all_routes b') ->
  forall ep, ep ∈ map endpoint (List.filter (fun rt => negb (drop rt)) (table b on)) ->
    ep ∈ map endpoint (List.filter (fun rt => negb (drop' rt)) (table b' on)).
Proof.
  intros H -> -> ep (rt & -> & [Hd [Hin Hon]%table_elem]%elem_of_filter_bool)%list_elem_of_fmap.
  destruct (H rt) as (rt' & [Hd' Hin']%elem_of_filter_bool & Heq).
  { by apply elem_of_filter_bool. }
  rewrite Heq. apply list_elem_of_fmap_2, elem_of_filter_bool. split; [done|].
  apply table_elem. split; [done|]. assert (rt_parts rt = rt_parts rt') as <- by (by injection Heq). done.
Qed.

(** Turning authentication off keeps the endpoints. Apart from those of the accounts, the two
    tables have the same methods, paths and handlers, whatever parts of the server are configured;
    in the open table no endpoint but the public ones is without the claims of an administrator,
    and in neither table do two endpoints share a method and a path. *)
Theorem open_table_same_endpoints (on : feature -> bool) :
  (forall ep, ep ∈ map endpoint (List.filter (fun rt => negb (is_account rt)) (table true on)) <->
   ep ∈ map endpoint (List.filter (fun rt => negb (is_stub rt)) (table false on))) /\
  (forall rt, rt ∈ table false on -> rt_guards rt = [ImplicitAdmin] \/
     (rt_guards rt = [] /\ rt_handler rt ∈ ["handleHealth"; "handleSystemMode"; "stub"])) /\
  forall b, NoDup (map (fun rt => (rt_method rt, rt_path rt)) (table b on)).
Proof.
  split; [|split].
  - intros ep. split.
    + eapply (endpoints_below on true false closed opened); [|reflexivity..].
      intros rt. apply covered_elem, closed_covered.
    + eapply (endpoints_below on false true opened closed); [|reflexivity..].
      intros rt. apply covered_elem, opened_covered.
  - intros rt Hin. apply (checked open_guards) in Hin; [|apply open_guards_checked].
    apply orb_true_iff in Hin as [Hin|Hin]; [left; by apply guards_eqb_eq|].
    apply andb_true_iff in Hin as [H1 H2]. right. split; [by apply guards_eqb_eq|by apply mem_spec].
  - intros b. apply filter_map_NoDup, distinct_NoDup, routes_distinct.
Qed.

(** ** Every response has the security headers *)

(** A handler adds to the headers that it was given. *)
Definition adds_headers (next : next_handler) : Prop := forall r id hs,
  match next r id hs with
  | Served _ hs' | Panicked hs' =>
      forall k v, hs !! k = Some v ->
        k ∈ ["X-Request-ID"; "X-Content-Type-Options"; "X-Frame-Options"; "Content-Security-Policy"] ->
        hs' !! k = Some v
  end.

Lemma cors_adds origin next : adds_headers next -> adds_headers (corsMiddleware origin next).
Proof.
  intros H r id hs. unfold corsMiddleware.
  assert (forall k v, hs !! k = Some v ->
    k ∈ ["X-Request-ID"; "X-Content-Type-Options"; "X-Frame-Options"; "Content-Security-Policy"] ->
    <["Access-Control-Max-Age" := "86400"]>
    (<["Access-Control-Allow-Credentials" := "true"]>
    (<["Access-Control-Allow-Headers" := "Authorization, Content-Type, X-Request-ID"]>
    (<["Access-Control-Allow-Methods" := "GET, POST, PUT, DELETE, OPTIONS"]>
    (<["Access-Control-Allow-Origin" := origin]> hs)))) !! k = Some v) as Hk.
  { intros k v Hv Hin. rewrite !elem_of_cons in Hin.
    destruct Hin as [->|[->|[->|[->|[]%not_elem_of_nil]]]]; by rewrite !lookup_insert_ne. }
  destruct (String.eqb _ _); [done|].
  specialize (H r id (<["Access-Control-Max-Age" := "86400"]>
    (<["Access-Control-Allow-Credentials" := "true"]>
    (<["Access-Control-Allow-Headers" := "Authorization, Content-Type, X-Request-ID"]>
    (<["Access-Control-Allow-Methods" := "GET, POST, PUT, DELETE, OPTIONS"]>
    (<["Access-Control-Allow-Origin" := origin]> hs)))))).
  destruct (next r id _); auto.
Qed.

(** Through the chain every request is answered, a panic by a 500, with the identifier of the
    request and the headers against sniffing and framing; a preflight request does not reach the
    router. *)
Theorem chain_answers_with_headers generated cors router r id0 :
  adds_headers router ->
  exists status hs, chain generated cors router r id0 ∅ = Served status hs /\
    hs !! "X-Request-ID" = Some (if String.eqb (hr_RequestID r) "" then generated else hr_RequestID r) /\
    hs !! "X-Content-Type-Options" = Some "nosniff" /\ hs !! "X-Frame-Options" = Some "DENY" /\
    is_Some (hs !! "Content-Security-Policy") /\
    (hr_Method r = "OPTIONS" -> cors <> None -> status = StatusNoContent).
Proof.
  intros Hr. unfold chain, requestIDMiddleware, securityHeadersMiddleware, loggerMiddleware,
    recovererMiddleware.
  set (id := if String.eqb (hr_RequestID r) "" then generated else hr_RequestID r).
  set (next := match cors with Some origin => corsMiddleware origin router | None => router end).
  assert (adds_headers next) as Hn. { unfold next. destruct cors; [by apply cors_adds|done]. }
  match goal with |- context [next r id ?h] => set (hs := h) end.
  specialize (Hn r id hs).
  assert (hr_Method r = "OPTIONS" -> cors <> None -> exists h, next r id hs = Served StatusNoContent h) as Ho.
  { intros Hm Hc. unfold next. destruct cors as [o|]; [|done]. unfold corsMiddleware. rewrite Hm.
    by eexists. }
  assert (forall k v h, hs !! k = Some v ->
    k ∈ ["X-Request-ID"; "X-Content-Type-Options"; "X-Frame-Options"; "Content-Security-Policy"] ->
    (forall k v, hs !! k = Some v ->
       k ∈ ["X-Request-ID"; "X-Content-Type-Options"; "X-Frame-Options"; "Content-Security-Policy"] ->
       h !! k = Some v) -> (<["Content-Type" := "application/json"]> h : headers) !! k = Some v) as Hct.
  { intros k v h Hv Hin Hh. rewrite lookup_insert_ne; [by apply Hh|].
    intros <-. rewrite !elem_of_cons in Hin.
    destruct Hin as [?|[?|[?|[?|[]%not_elem_of_nil]]]]; discriminate. }
  assert (hs !! "X-Request-ID" = Some id /\ hs !! "X-Content-Type-Options" = Some "nosniff" /\
    hs !! "X-Frame-Options" = Some "DENY" /\ exists v, hs !! "Content-Security-Policy" = Some v)
    as (H1 & H2 & H3 & v & H4).
  { unfold hs. repeat split; try (eexists); by simplify_map_eq. }
  destruct (next r id hs) as [st h|h]; eexists _, _; (split; [reflexivity|]).
  - split; [apply Hn; [done|set_solver]|]. split; [apply Hn; [done|set_solver]|].
    split; [apply Hn; [done|set_solver]|]. split; [exists v; apply Hn; [done|set_solver]|].
    intros Hm Hc. destruct (Ho Hm Hc) as [h' [= -> _]]. done.
  - split; [apply Hct; [done|set_solver|done]|]. split; [apply Hct; [done|set_solver|done]|].
    split; [apply Hct; [done|set_solver|done]|]. split; [exists v; apply Hct; [done|set_solver|done]|].
    intros Hm Hc. by destruct (Ho Hm Hc) as [h' ?].
Qed.

(** ** A sample request *)

Definition terminate_route : route :=
  mkRoute POST "/api/v1/instances/{id}/sessions/{pid}/terminate" "handleSessionTerminate"
    [NeedAuth; NeedPerm PermInstanceManagement] [].

Lemma terminate_listed on : terminate_route ∈ table true on.
Proof.
  apply table_elem. split; [|done].
  assert (existsb (fun rt => endpoint_eqb terminate_route rt && guards_eqb (rt_guards terminate_route) (rt_guards rt))
            (all_routes true) = true) as H by (vm_compute; reflexivity).
  apply existsb_exists in H as (rt & Hin & [He Hg]%andb_true_iff).
  apply endpoint_eqb_eq in He. apply guards_eqb_eq in Hg. apply list_elem_of_In.
  destruct rt as [m p h g n]. injection He as <- <- <- <-. cbn in Hg. by subst g.
Qed.

#[local] Existing Instance demoCrypto.

(** The token of a roles administrator does not reach it. *)
Lemma routes_guarded_witness :
  ~ exists c, enter (as_jwt demo_server) 0 demo_request None (rt_guards terminate_route) None = inl c.
Proof.
  intros H. destruct (routes_guarded (fun _ => false) terminate_route (as_jwt demo_server) 0 demo_request
    None (terminate_listed _)) as [[H1 _] _].
  destruct (H1 H) as (c & Hc & Hp). rewrite demo_auth in Hc. injection Hc as <-.
  vm_compute in Hp. discriminate Hp.
Defined.
