(* ===== verification/Email.v ===== *)
(** * E-mail notifications

    Models internal/alert/template.go and internal/alert/notifier/email.go: the subject, the HTML and the
    plain text of a message with the escaping of html/template, its MIME form, and the SMTP session that
    delivers it, as a notifier of the dispatcher. The texts of times and durations, the parsing of
    addresses and the MIME boundary are parameters; the mail server answers each command. *)
From S2P Require Import Prelude Float64 Metric GoText Json SqlConn Alert Dispatcher Config.

Local Open Scope Z_scope.

(** ** html/template: a template is literal text with slots, escaped by their context *)

(** The escaping of text and of quoted attributes. All replaced characters are ASCII, so bytes do. *)
Definition html_char (c : Ascii.ascii) : string :=
  let z := byte_Z c in
  if z =? 0 then bytes [239; 191; 189]%N
  else if z =? 34 then "&#34;" else if z =? 38 then "&amp;" else if z =? 39 then "&#39;"
  else if z =? 43 then "&#43;" else if z =? 60 then "&lt;" else if z =? 62 then "&gt;"
  else String c "".

Fixpoint html_escape (s : string) : string :=
  match s with
  | EmptyString => EmptyString
  | String c s' => html_char c +:+ html_escape s'
  end.

(** The filter of values in style attributes, for values without a backslash (the colors have none):
    nothing that could end the value, no comment, no word that runs a script. *)
Definition css_unsafe (c : Ascii.ascii) : bool :=
  existsb (Z.eqb (byte_Z c)) [0; 34; 39; 40; 41; 47; 59; 64; 91; 92; 93; 96; 123; 125; 60; 62].

Fixpoint css_safe (after_dash : bool) (s : string) : bool :=
  match s with
  | EmptyString => true
  | String c s' => let dash := byte_Z c =? 45 in
                   negb (css_unsafe c) && negb (after_dash && dash) && css_safe dash s'
  end.

Fixpoint css_name (s : string) : string :=
  match s with
  | EmptyString => EmptyString
  | String c s' => if is_word c then String c (css_name s') else css_name s'
  end.

Definition css_value (s : string) : string :=
  let id := ToLower (css_name s) in
  if css_safe false s && negb (ContainsStr id "expression") && negb (ContainsStr id "mozbinding")
  then s else "ZgotmplZ".

(** The filter of links: a scheme that is not one of three is refused. Folding also takes the long s. *)
Fixpoint fold_long_s (s : string) : string :=
  match s with
  | String c ((String d s') as t) =>
      if (byte_Z c =? 197) && (byte_Z d =? 191) then String (Ascii.ascii_of_N 115) (fold_long_s s')
      else String c (fold_long_s t)
  | _ => s
  end.

Definition known_scheme (protocol : string) : bool :=
  existsb (EqualFold (fold_long_s protocol)) ["http"; "https"; "mailto"].

Definition slash_char : Ascii.ascii := Ascii.ascii_of_N 47.

Definition url_safe (s : string) : bool :=
  match cut colon s with
  | Some (protocol, _) => Contains protocol slash_char || known_scheme protocol
  | None => true
  end.

Definition url_filter (s : string) : string := if url_safe s then s else "#ZgotmplZ".

Definition is_hex (c : Ascii.ascii) : bool := is_digit c || is_hex_letter c.

Definition url_plain (c : Ascii.ascii) : bool :=
  (is_word c) || existsb (Z.eqb (byte_Z c)) [33; 35; 36; 38; 42; 43; 44; 47; 58; 59; 61; 63; 64; 91; 93; 45; 46; 126].

Fixpoint url_normalize (s : string) : string :=
  match s with
  | EmptyString => EmptyString
  | String c s' =>
      let kept := url_plain c || ((byte_Z c =? 37) && match s' with
                                                      | String a (String b _) => is_hex a && is_hex b
                                                      | _ => false
                                                      end) in
      if kept then String c (url_normalize s')
      else "%" +:+ String (hex_digit (byte_Z c / 16)) (String (hex_digit (byte_Z c mod 16)) (url_normalize s'))
  end.

(** A piece of a template: its own text, or a value in a text, in a style, or in a link, which is
    filtered when it can hold the scheme. *)
Inductive piece :=
  | Lit (s : string)
  | Text (s : string)
  | Css (s : string)
  | Url (start : bool) (s : string).

Definition piece_html (p : piece) : string :=
  match p with
  | Lit s => s
  | Text s => html_escape s
  | Css s => html_escape (css_value s)
  | Url start s => html_escape (url_normalize (if start then url_filter s else s))
  end.

Definition render (ps : list piece) : string := foldr (fun p rest => piece_html p +:+ rest) "" ps.

(** ** template.go *)

Definition FormatSubject (ev : AlertEvent) : string :=
  let tag := if e_IsResolution ev then "RESOLVED" else ToUpper (e_Severity ev) in
  "[" +:+ tag +:+ "] " +:+ e_RuleName ev +:+ bytes [32; 226; 128; 148; 32]%N +:+ e_InstanceID ev.

Definition severityColor (s : Severity) : string :=
  if decide (s = SeverityCritical) then "#dc2626"
  else if decide (s = SeverityWarning) then "#d97706"
  else if decide (s = SeverityInfo) then "#2563eb" else "#6b7280".

Definition severityEmoji (s : Severity) : string :=
  if decide (s = SeverityCritical) then bytes [240; 159; 148; 180]%N
  else if decide (s = SeverityWarning) then bytes [240; 159; 159; 160]%N
  else if decide (s = SeverityInfo) then bytes [240; 159; 148; 181]%N
  else bytes [226; 154; 170]%N.

Definition recommendationColor (priority : string) : string :=
  if String.eqb priority "action_required" then "#EF4444"
  else if String.eqb priority "suggestion" then "#EAB308" else "#3B82F6".

Record templateData := mkTemplateData {
  td_Event : AlertEvent;
  td_DashboardURL : string;
  td_SeverityColor : string;
  td_SeverityEmoji : string;
  td_Duration : string;
  td_Timestamp : string;
  td_ResolvedTime : string;
  td_LabelPairs : list (string * string);
  td_Recommendations : list RemediationResult
}.

(** [time.Duration.Round(time.Second)]: halves away from zero, at the ends of the range saturating. *)
Definition round_second (d : Duration) : Duration :=
  let r := Z.rem d Second in
  let away := if d <? 0 then d - r - Second else d - r + Second in
  if 2 * Z.abs r <? Second then d - r
  else if (min_i64 <=? away) && (away <=? max_i64) then away else if d <? 0 then min_i64 else max_i64.

Section templates.
Context {SS : SliceSort} {MR : MapRange}.
Context (show_time : Time -> string) (show_duration : Duration -> string).

Definition buildTemplateData (ev : AlertEvent) (dashboardURL : string) (recs : list RemediationResult)
    : templateData :=
  let pairs := sort_slice (fun a b => string_ltb (fst a) (fst b)) (map_range (e_Labels ev)) in
  let stamp := show_time (e_FiredAt ev) in
  if e_IsResolution ev then
    mkTemplateData ev dashboardURL "#16a34a" (bytes [226; 156; 133]%N)
      (match e_ResolvedAt ev with
       | Some r => show_duration (round_second (time_Sub r (e_FiredAt ev)))
       | None => ""
       end)
      stamp (match e_ResolvedAt ev with Some r => show_time r | None => "" end) pairs recs
  else mkTemplateData ev dashboardURL (severityColor (e_Severity ev)) (severityEmoji (e_Severity ev))
         "" stamp "" pairs recs.

(** *** The HTML templates. They have no apostrophe: it stands for the double quote here. *)

Definition dq (s : string) : piece := Lit (ReplaceByte (Ascii.ascii_of_N 39) (Ascii.ascii_of_N 34) s).

(** A row of the table: more of the style of its label, more of that of its value, and the two. *)
Definition row (width : string) (extra label value : list piece) : list piece :=
  [dq ("
        <tr>
          <td style='border-bottom:1px solid #e5e7eb;font-weight:bold;" +:+ width +:+ "'>")]
  ++ label
  ++ [dq "</td>
          <td style='border-bottom:1px solid #e5e7eb;"] ++ extra ++ [dq "'>"]
  ++ value
  ++ [dq "</td>
        </tr>"].

Definition label_row (kv : string * string) : list piece := row "" [] [Text (fst kv)] [Text (snd kv)].

(** What both have: the head with its color and title, the rows, and what comes between the labels and
    the end. *)
Definition html_page (d : templateData) (color : list piece) (title : string)
    (severity : piece) (times recommendations : list piece) : list piece :=
  let ev := td_Event d in
  [dq "<!DOCTYPE html>
<html>
<head><meta charset='utf-8'></head>
<body style='margin:0;padding:0;font-family:Arial,Helvetica,sans-serif;background:#f9fafb;'>
<table width='100%' cellpadding='0' cellspacing='0' style='max-width:600px;margin:0 auto;'>
  <tr>
    <td style='background:"] ++ color ++ [dq ";color:#fff;padding:16px 24px;font-size:18px;font-weight:bold;'>
      "; Text (td_SeverityEmoji d); dq (" " +:+ title +:+ ": "); Text (e_RuleName ev); dq "
    </td>
  </tr>
  <tr>
    <td style='background:#fff;padding:24px;'>
      <table width='100%' cellpadding='8' cellspacing='0' style='border-collapse:collapse;'>"]
  ++ row "width:140px;" [] [dq "Instance"] [Text (e_InstanceID ev)]
  ++ row "" [] [dq "Metric"]
       [dq "<code style='background:#f3f4f6;padding:2px 6px;border-radius:3px;'>"; Text (e_Metric ev); dq "</code>"]
  ++ row "" ([dq "color:"] ++ color ++ [dq ";font-weight:bold;"]) [dq "Current Value"] [Text (fmt_fixed 2 (e_Value ev))]
  ++ row "" [] [dq "Threshold"] [Text (e_Operator ev); dq " "; Text (fmt_fixed 2 (e_Threshold ev))]
  ++ row "" [] [dq "Severity"]
       ([dq "<span style='background:"] ++ color
        ++ [dq ";color:#fff;padding:2px 8px;border-radius:4px;font-size:13px;'>"; severity; dq "</span>"])
  ++ row "" [] [dq "Fired At"] [Text (td_Timestamp d)]
  ++ times
  ++ concat (map label_row (td_LabelPairs d))
  ++ [dq "
      </table>"]
  ++ recommendations
  ++ (if String.eqb (td_DashboardURL d) "" then []
      else [dq "
      <div style='margin-top:24px;text-align:center;'>
        <a href='"; Url true (td_DashboardURL d); dq "/instances/"; Url false (e_InstanceID ev);
            dq "' style='display:inline-block;background:"] ++ color ++ [dq ";color:#fff;padding:10px 24px;text-decoration:none;border-radius:6px;font-weight:bold;'>View in Dashboard</a>
      </div>"])
  ++ [dq "
    </td>
  </tr>
  <tr>
    <td style='background:#f3f4f6;color:#6b7280;padding:12px 24px;font-size:12px;text-align:center;'>
      Sent by PGPulse Alert Engine
    </td>
  </tr>
</table>
</body>
</html>"].

Definition recommendation_html (r : RemediationResult) : list piece :=
  [dq "
        <div style='border-left:4px solid "; Css (recommendationColor (rr_Priority r));
   dq ";padding:8px 12px;margin-bottom:8px;background:#f9fafb;'>
          <div style='font-weight:bold;margin-bottom:4px;'>"; Text (rr_Title r); dq "</div>
          <div style='font-size:13px;color:#374151;'>"; Text (rr_Description r); dq "</div>"]
  ++ (if String.eqb (rr_DocURL r) "" then []
      else [dq "
          <div style='font-size:12px;margin-top:4px;'><a href='"; Url true (rr_DocURL r);
            dq "' style='color:#2563eb;'>Documentation</a></div>"])
  ++ [dq "
        </div>"].

Definition fireHTMLTemplate (d : templateData) : list piece :=
  html_page d [Css (td_SeverityColor d)] "Alert" (Text (e_Severity (td_Event d))) []
    (match td_Recommendations d with
     | [] => []
     | recs => [dq "
      <div style='margin-top:24px;'>
        <div style='font-weight:bold;font-size:15px;margin-bottom:12px;'>Recommendations</div>"]
               ++ concat (map recommendation_html recs) ++ [dq "
      </div>"]
     end).

Definition resolveHTMLTemplate (d : templateData) : list piece :=
  html_page d [dq "#16a34a"] "Resolved" (dq "resolved")
    (row "" [] [dq "Resolved At"] [Text (td_ResolvedTime d)] ++ row "" [] [dq "Duration"] [Text (td_Duration d)]) [].

(** Both are well-formed templates and every value they print is a text, so executing them into a
    buffer does not fail. *)
Definition RenderHTMLTemplate (ev : AlertEvent) (dashboardURL : string) (recs : list RemediationResult)
    : string :=
  let d := buildTemplateData ev dashboardURL recs in
  render (if e_IsResolution ev then resolveHTMLTemplate d else fireHTMLTemplate d).

(** *** The plain texts *)

Definition lines (l : list string) : string := Join l newline.

(** The lines of both text templates, with what only one of them has. *)
Definition text_lines (head : string) (d : templateData) (times recommendations : list string) : string :=
  let ev := td_Event d in
  lines ([head; "";
          "Instance:      " +:+ e_InstanceID ev;
          "Metric:        " +:+ e_Metric ev;
          "Current Value: " +:+ fmt_fixed 2 (e_Value ev);
          "Threshold:     " +:+ e_Operator ev +:+ " " +:+ fmt_fixed 2 (e_Threshold ev);
          "Severity:      " +:+ e_Severity ev;
          "Fired At:      " +:+ td_Timestamp d]
         ++ times
         ++ (match td_LabelPairs d with
             | [] => []
             | ps => ["Labels:        " +:+ Join (map (fun kv => fst kv +:+ "=" +:+ snd kv) ps) ", "]
             end)
         ++ recommendations
         ++ (if String.eqb (td_DashboardURL d) "" then []
             else [""; "Dashboard: " +:+ td_DashboardURL d +:+ "/instances/" +:+ e_InstanceID ev])
         ++ [""; "--"; "Sent by PGPulse Alert Engine"; ""]).

Definition fireTextTemplate (d : templateData) : string :=
  text_lines ("[" +:+ ToUpper (e_Severity (td_Event d)) +:+ "] Alert: " +:+ e_RuleName (td_Event d)) d []
    (match td_Recommendations d with
     | [] => []
     | recs => [""; "Recommendations:"]
               ++ map (fun r => "  - [" +:+ rr_Priority r +:+ "] " +:+ rr_Title r +:+ ": " +:+ rr_Description r) recs
     end).

Definition resolveTextTemplate (d : templateData) : string :=
  text_lines ("[RESOLVED] Resolved: " +:+ e_RuleName (td_Event d)) d
    ["Resolved At:   " +:+ td_ResolvedTime d; "Duration:      " +:+ td_Duration d] [].

Definition RenderTextTemplate (ev : AlertEvent) (dashboardURL : string) (recs : list RemediationResult)
    : string :=
  let d := buildTemplateData ev dashboardURL recs in
  if e_IsResolution ev then resolveTextTemplate d else fireTextTemplate d.

(** ** email.go *)

Definition crlf : string := Eval vm_compute in bytes [13; 10]%N.

Definition buildMIMEMessage (boundary from : string) (to : list string) (subject textBody htmlBody : string)
    : string :=
  "From: " +:+ from +:+ crlf +:+
  "To: " +:+ Join to ", " +:+ crlf +:+
  "Subject: " +:+ subject +:+ crlf +:+
  "MIME-Version: 1.0" +:+ crlf +:+
  "Content-Type: multipart/alternative; boundary=" +:+ quoted boundary +:+ crlf +:+
  crlf +:+
  "--" +:+ boundary +:+ crlf +:+
  "Content-Type: text/plain; charset=" +:+ quoted "utf-8" +:+ crlf +:+
  crlf +:+ textBody +:+ crlf +:+
  "--" +:+ boundary +:+ crlf +:+
  "Content-Type: text/html; charset=" +:+ quoted "utf-8" +:+ crlf +:+
  crlf +:+ htmlBody +:+ crlf +:+
  "--" +:+ boundary +:+ "--" +:+ crlf.

(** What the client asks of the network and of the mail server. *)
Inductive smtpCall :=
  | CDial (addr : string)
  | CNewClient (host : string)
  | CStartTLS (serverName : string) (skipVerify : bool)
  | CAuth (username password host : string)
  | CMail (from : string)
  | CRcpt (to : string)
  | CData
  | CWrite (msg : string)
  | CCloseData
  | CQuit.

(** What one attempt meets: the answer to each call, given the calls before it, and whether the server
    offers STARTTLS. *)
Record MailServer := mkMailServer {
  sv_reply : list smtpCall -> smtpCall -> option error;
  sv_starttls : bool
}.

(** [splitHostPort] is net.SplitHostPort, [joinHostPort] net.JoinHostPort. *)
Context (splitHostPort : string -> result (string * string)) (joinHostPort : string -> string -> string).

(** The calls so far and the error that ended the session. *)
Definition session : Type := (list smtpCall * option error).

(** One call; the next ones are made only when it succeeds. *)
Definition call (sv : MailServer) (c : smtpCall) (failure : string) (done : list smtpCall)
    (k : list smtpCall -> session) : session :=
  match sv_reply sv done c with
  | Some e => (done ++ [c], Some (wrap failure e))
  | None => k (done ++ [c])
  end.

(** The recipients, one after the other. [quote_go] is the verb %q. *)
Fixpoint rcptLoop (sv : MailServer) (quote_go : string -> string) (to : list string) (done : list smtpCall)
    (k : list smtpCall -> session) : session :=
  match to with
  | [] => k done
  | r :: to' => call sv (CRcpt r) ("smtp RCPT TO " +:+ quote_go r) done (fun done =>
                  rcptLoop sv quote_go to' done k)
  end.

Context (quote_go : string -> string).

(** From MAIL FROM on; the result of Quit is returned as it is. *)
Definition deliver (sv : MailServer) (cfg : EmailConfig) (msg : string) (done : list smtpCall) : session :=
  call sv (CMail (emc_From cfg)) "smtp MAIL FROM" done (fun done =>
  rcptLoop sv quote_go (emc_Recipients cfg) done (fun done =>
  call sv CData "smtp DATA" done (fun done =>
  call sv (CWrite msg) "smtp write" done (fun done =>
  call sv CCloseData "smtp close data" done (fun done =>
  (done ++ [CQuit], sv_reply sv done CQuit)))))).

Definition authenticate (sv : MailServer) (cfg : EmailConfig) (host msg : string) (done : list smtpCall) : session :=
  if String.eqb (emc_Username cfg) "" then deliver sv cfg msg done
  else call sv (CAuth (emc_Username cfg) (emc_Password cfg) host) "smtp auth" done (deliver sv cfg msg).

(** The client is closed when the function returns. *)
Definition sendSMTP (sv : MailServer) (cfg : EmailConfig) (msg : string) : session :=
  match splitHostPort (emc_Host cfg +:+ ":" +:+ pretty.pretty (emc_Port cfg)) with
  | Err e => ([], Some (wrap "invalid smtp address" e))
  | Ok (host, port) =>
      call sv (CDial (joinHostPort host port)) "dial smtp" [] (fun done =>
      call sv (CNewClient host) "smtp client" done (fun done =>
      if sv_starttls sv then
        call sv (CStartTLS host (emc_TLSSkipVerify cfg)) "starttls" done (authenticate sv cfg host msg)
      else authenticate sv cfg host msg done))
  end.

Definition Send (sv : MailServer) (boundary : string) (cfg : EmailConfig) (dashboardURL : string) (ev : AlertEvent)
    : session :=
  sendSMTP sv cfg (buildMIMEMessage boundary (emc_From cfg) (emc_Recipients cfg) (FormatSubject ev)
                     (RenderTextTemplate ev dashboardURL (e_Recommendations ev))
                     (RenderHTMLTemplate ev dashboardURL (e_Recommendations ev))).

(** The notifier in the world of the dispatcher: an attempt takes time and meets a server; the boundary
    is drawn anew. *)
Program Definition EmailNotifier {W} `{World W} (attempt : W -> W * MailServer * string)
    (attempt_clock : forall w, clock w <= clock (attempt w).1.1) (cfg : EmailConfig) (dashboardURL : string)
    : Notifier W := {|
  n_Name := "email";
  n_Send := fun w ev => let '(w', sv, boundary) := attempt w in
                        (w', (Send sv boundary cfg dashboardURL ev).2)
|}.
Next Obligation.
  intros W HW attempt Hc cfg url w ev. specialize (Hc w). cbn. by destruct (attempt w) as [[w' sv] b].
Qed.

(** ** No value of an event changes the structure of a page *)

(** What makes the structure: the signs of tags and the quotes of attributes, in order. *)
Definition markup_char (c : Ascii.ascii) : bool := existsb (Z.eqb (byte_Z c)) [60; 62; 34].

Fixpoint markup (s : string) : string :=
  match s with
  | EmptyString => EmptyString
  | String c s' => if markup_char c then String c (markup s') else markup s'
  end.

Definition own_markup (ps : list piece) : string :=
  foldr (fun p rest => match p with Lit s => markup s | _ => "" end +:+ rest) "" ps.

Lemma markup_app a b : markup (a +:+ b) = markup a +:+ markup b.
Proof.
  induction a as [|c a IH]; [done|]. rewrite str_app_cons. cbn [markup]. destruct (markup_char c); [|done].
  by rewrite IH, str_app_cons.
Qed.

Lemma html_char_markup c : markup (html_char c) = "".
Proof.
  unfold html_char.
  destruct (byte_Z c =? 0); [done|]. destruct (Z.eqb_spec (byte_Z c) 34) as [|H1]; [done|].
  destruct (byte_Z c =? 38); [done|]. destruct (byte_Z c =? 39); [done|]. destruct (byte_Z c =? 43); [done|].
  destruct (Z.eqb_spec (byte_Z c) 60) as [|H2]; [done|]. destruct (Z.eqb_spec (byte_Z c) 62) as [|H3]; [done|].
  cbn [markup]. assert (markup_char c = false) as ->; [|done]. unfold markup_char. cbn [existsb].
  by rewrite !(proj2 (Z.eqb_neq _ _)) by done.
Qed.

Lemma html_escape_markup s : markup (html_escape s) = "".
Proof. induction s as [|c s IH]; [done|]. cbn [html_escape]. by rewrite markup_app, html_char_markup, IH. Qed.

Lemma render_markup ps : markup (render ps) = own_markup ps.
Proof.
  induction ps as [|p ps IH]; [done|]. cbn [render own_markup foldr]. rewrite markup_app. fold (render ps). rewrite IH.
  by destruct p; cbn [piece_html]; rewrite ?html_escape_markup.
Qed.

Lemma own_markup_app a b : own_markup (a ++ b) = own_markup a +:+ own_markup b.
Proof. induction a as [|p a IH]; [done|]. cbn [app own_markup foldr]. fold (own_markup (a ++ b)). by rewrite IH, str_app_assoc. Qed.

(** The values of slots disappear; the literal texts are not computed. *)
Ltac own_pieces := rewrite ?own_markup_app; unfold dq; cbn [own_markup foldr app].

Lemma own_markup_map {A B} (f : A -> list piece) (g : B -> list piece) l l' :
  Forall2 (fun x y => own_markup (f x) = own_markup (g y)) l l' ->
  own_markup (concat (map f l)) = own_markup (concat (map g l')).
Proof. induction 1 as [|x y l l' H _ IH]; [done|]. cbn [map concat]. by rewrite !own_markup_app, H, IH. Qed.

Lemma row_markup width extra extra' label label' value value' :
  own_markup extra = own_markup extra' -> own_markup label = own_markup label' -> own_markup value = own_markup value' ->
  own_markup (row width extra label value) = own_markup (row width extra' label' value').
Proof. intros H1 H2 H3. unfold row. by rewrite !own_markup_app, H1, H2, H3. Qed.

Lemma label_rows_markup (l l' : list (string * string)) : length l = length l' ->
  own_markup (concat (map label_row l)) = own_markup (concat (map label_row l')).
Proof.
  intros Hl. apply own_markup_map. revert l' Hl.
  induction l as [|x l IH]; intros [|y l'] Hl; try done; constructor; [|apply IH; by injection Hl].
  apply row_markup; own_pieces; reflexivity.
Qed.

Lemma recommendations_markup recs recs' :
  map (fun r => String.eqb (rr_DocURL r) "") recs = map (fun r => String.eqb (rr_DocURL r) "") recs' ->
  own_markup (concat (map recommendation_html recs)) = own_markup (concat (map recommendation_html recs')).
Proof.
  intros Hl. apply own_markup_map. revert recs' Hl.
  induction recs as [|x l IH]; intros [|y l'] Hl; try done; constructor; [|apply IH; by injection Hl].
  injection Hl as Hd _. unfold recommendation_html. rewrite Hd.
  destruct (String.eqb (rr_DocURL y) ""); own_pieces; reflexivity.
Qed.

Lemma page_markup d d' color title severity severity' times times' recs recs' :
  (forall s, color (s : string) = [Css s] \/ color s = [dq "#16a34a"]) ->
  own_markup [severity] = own_markup [severity'] -> own_markup times = own_markup times' ->
  own_markup recs = own_markup recs' -> length (td_LabelPairs d) = length (td_LabelPairs d') ->
  String.eqb (td_DashboardURL d) "" = String.eqb (td_DashboardURL d') "" ->
  own_markup (html_page d (color (td_SeverityColor d)) title severity times recs)
  = own_markup (html_page d' (color (td_SeverityColor d')) title severity' times' recs').
Proof.
  intros Hcolor Hs Ht Hr Hl Hd.
  assert (Hc : forall s, own_markup (color s) = "").
  { intros s. by destruct (Hcolor s) as [-> | ->]. }
  assert (Hs' : match severity with Lit s => markup s | _ => "" end = match severity' with Lit s => markup s | _ => "" end).
  { revert Hs. cbn [own_markup foldr]. by rewrite !str_app_nil. }
  unfold html_page, row. rewrite Hd. destruct (String.eqb (td_DashboardURL d') "").
  - own_pieces. rewrite !Hc, Ht, Hr, (label_rows_markup _ _ Hl), Hs'. reflexivity.
  - own_pieces. rewrite !Hc, Ht, Hr, (label_rows_markup _ _ Hl), Hs'. reflexivity.
Qed.
Lemma label_pairs ev url recs : length (td_LabelPairs (buildTemplateData ev url recs)) = size (e_Labels ev).
Proof.
  assert (H : td_LabelPairs (buildTemplateData ev url recs)
    = sort_slice (fun a b => string_ltb (fst a) (fst b)) (map_range (e_Labels ev)))
    by (unfold buildTemplateData; by destruct (e_IsResolution ev)).
  rewrite H, sort_slice_perm, map_range_perm. apply length_map_to_list.
Qed.

(** A link of a message has no scheme but the three of the web and of mail. *)
Lemma link_scheme s : match cut colon (url_filter s) with
  | Some (protocol, _) => Contains protocol slash_char = true \/ known_scheme protocol = true
  | None => True
  end.
Proof.
  unfold url_filter. destruct (url_safe s) eqn:E; [|by vm_compute].
  unfold url_safe in E. destruct (cut colon s) as [[protocol rest]|]; [|done]. by apply orb_true_iff.
Qed.

(** C29: In the HTML page of a message, no value of an event, of a label or of a recommendation can add a
    tag or an attribute, or end one: the signs that make the structure of the page that
    RenderHTMLTemplate gives are the same, in the same order, for any two events that agree in the kind
    of event, the number of labels and of recommendations, and in which links there are. This is
    about that page only. The message around it is not protected: a rule name with a line break in it
    adds a header to the mail, or ends the headers (rule_name_adds_header). *)
Theorem mail_markup_fixed (ev ev' : AlertEvent) (url url' : string) (recs recs' : list RemediationResult) :
  e_IsResolution ev = e_IsResolution ev' -> size (e_Labels ev) = size (e_Labels ev') ->
  map (fun r => String.eqb (rr_DocURL r) "") recs = map (fun r => String.eqb (rr_DocURL r) "") recs' ->
  String.eqb url "" = String.eqb url' "" ->
  markup (RenderHTMLTemplate ev url recs) = markup (RenderHTMLTemplate ev' url' recs').
Proof.
  intros Hres Hsize Hrecs Hurl. unfold RenderHTMLTemplate. rewrite !render_markup, <- Hres.
  pose proof (label_pairs ev url recs) as H1. pose proof (label_pairs ev' url' recs') as H2.
  assert (Hd : forall e u l, td_DashboardURL (buildTemplateData e u l) = u)
    by (intros e u l; unfold buildTemplateData; by destruct (e_IsResolution e)).
  assert (Hr : forall e u l, td_Recommendations (buildTemplateData e u l) = l)
    by (intros e u l; unfold buildTemplateData; by destruct (e_IsResolution e)).
  assert (Hl : length (td_LabelPairs (buildTemplateData ev url recs))
    = length (td_LabelPairs (buildTemplateData ev' url' recs'))) by lia.
  destruct (e_IsResolution ev).
  - apply (page_markup _ _ (fun _ => [dq "#16a34a"])); [by right|done| |done|done|by rewrite !Hd].
    unfold row. own_pieces. reflexivity.
  - apply (page_markup _ _ (fun s => [Css s])); [by left|done|done| |done|by rewrite !Hd].
    rewrite !Hr. pose proof (recommendations_markup recs recs' Hrecs) as Hm.
    destruct recs, recs'; try done. rewrite !own_markup_app, Hm. reflexivity.
Qed.

(** ** The session follows a script *)

(** The calls of a session that meets no error: up to the recipients, and from them on. *)
Definition opening (starttls : bool) (host port : string) (cfg : EmailConfig) : list smtpCall :=
  [CDial (joinHostPort host port); CNewClient host]
  ++ (if starttls then [CStartTLS host (emc_TLSSkipVerify cfg)] else [])
  ++ (if String.eqb (emc_Username cfg) "" then [] else [CAuth (emc_Username cfg) (emc_Password cfg) host])
  ++ [CMail (emc_From cfg)].

Definition script (starttls : bool) (host port : string) (cfg : EmailConfig) (msg : string) : list smtpCall :=
  opening starttls host port cfg ++ map CRcpt (emc_Recipients cfg) ++ [CData; CWrite msg; CCloseData; CQuit].

(** The first call of a script that the server refuses. *)
Fixpoint refused_at (sv : MailServer) (done l : list smtpCall) : option (list smtpCall) :=
  match l with
  | [] => None
  | c :: l' => match sv_reply sv done c with
               | Some _ => Some (done ++ [c])
               | None => refused_at sv (done ++ [c]) l'
               end
  end.

(** [s] makes the calls of [l] after those of [done], up to the first refusal. *)
Definition follows (sv : MailServer) (done l : list smtpCall) (s : session) : Prop :=
  match refused_at sv done l with
  | Some calls => s.1 = calls /\ is_Some s.2
  | None => s = (done ++ l, None)
  end.

Lemma follows_call sv c failure done l k :
  (forall d, d = done ++ [c] -> follows sv d l (k d)) ->
  follows sv done (c :: l) (call sv c failure done k).
Proof.
  intros H. unfold follows, call in *. cbn [refused_at]. destruct (sv_reply sv done c); [done|].
  specialize (H _ eq_refl). by rewrite <- app_assoc in H.
Qed.

Lemma follows_rcpt sv to : forall done l k,
  (forall d, d = done ++ map CRcpt to -> follows sv d l (k d)) ->
  follows sv done (map CRcpt to ++ l) (rcptLoop sv quote_go to done k).
Proof.
  induction to as [|r to IH]; intros done l k H; cbn [map app rcptLoop].
  - apply H. cbn. by rewrite app_nil_r.
  - apply follows_call. intros d ->. apply IH. intros d ->. apply H. by rewrite <- app_assoc.
Qed.

Lemma follows_quit sv done : follows sv done [CQuit] (done ++ [CQuit], sv_reply sv done CQuit).
Proof. unfold follows. cbn. by destruct (sv_reply sv done CQuit). Qed.

Lemma follows_deliver sv cfg msg done :
  follows sv done ([CMail (emc_From cfg)] ++ map CRcpt (emc_Recipients cfg) ++ [CData; CWrite msg; CCloseData; CQuit])
    (deliver sv cfg msg done).
Proof.
  apply follows_call. intros ? _. apply follows_rcpt. intros ? _.
  do 3 (apply follows_call; intros ? _). apply follows_quit.
Qed.

Lemma follows_authenticate sv cfg host msg done :
  follows sv done
    ((if String.eqb (emc_Username cfg) "" then [] else [CAuth (emc_Username cfg) (emc_Password cfg) host])
     ++ [CMail (emc_From cfg)] ++ map CRcpt (emc_Recipients cfg) ++ [CData; CWrite msg; CCloseData; CQuit])
    (authenticate sv cfg host msg done).
Proof.
  unfold authenticate. destruct (String.eqb (emc_Username cfg) ""); [apply follows_deliver|].
  apply follows_call. intros ? _. apply follows_deliver.
Qed.

Lemma follows_sendSMTP sv cfg msg host port :
  splitHostPort (emc_Host cfg +:+ ":" +:+ pretty.pretty (emc_Port cfg)) = Ok (host, port) ->
  follows sv [] (script (sv_starttls sv) host port cfg msg) (sendSMTP sv cfg msg).
Proof.
  intros H. unfold sendSMTP, script, opening. rewrite H, <- !app_assoc.
  apply follows_call. intros ? _. apply follows_call. intros ? _.
  destruct (sv_starttls sv); [apply follows_call; intros ? _|]; apply follows_authenticate.
Qed.

Lemma refused_prefix sv l : forall pre calls, refused_at sv pre l = Some calls -> calls `prefix_of` pre ++ l.
Proof.
  induction l as [|c l IH]; intros pre calls H; [done|]. cbn in H.
  destruct (sv_reply sv pre c).
  - injection H as <-. exists l. by rewrite <- app_assoc.
  - apply IH in H. by rewrite <- app_assoc in H.
Qed.

Lemma refused_before sv c a b : (forall d, is_Some (sv_reply sv d c)) -> forall pre,
  exists calls, refused_at sv pre (a ++ c :: b) = Some calls /\ calls `prefix_of` pre ++ a ++ [c].
Proof.
  intros Hc. induction a as [|x a IH]; intros pre; cbn [app refused_at].
  - destruct (Hc pre) as [e ->]. by eexists.
  - destruct (sv_reply sv pre x).
    + eexists. split; [reflexivity|]. exists (a ++ [c]). by rewrite <- app_assoc.
    + destruct (IH (pre ++ [x])) as (calls & H1 & H2). exists calls. by rewrite <- app_assoc in H2.
Qed.

(** Delivering a message makes exactly the calls of the script (dial, client, STARTTLS when it is
    offered, authentication when a user is configured, sender, every recipient in order, the message
    once, quit) up to the first one that is refused. So Send succeeds if and only if no call is refused,
    and then the whole script was followed; and when one recipient is refused the message is sent to
    nobody. *)
Theorem mail_session_exact sv boundary cfg url ev host port :
  splitHostPort (emc_Host cfg +:+ ":" +:+ pretty.pretty (emc_Port cfg)) = Ok (host, port) ->
  let msg := buildMIMEMessage boundary (emc_From cfg) (emc_Recipients cfg) (FormatSubject ev)
               (RenderTextTemplate ev url (e_Recommendations ev))
               (RenderHTMLTemplate ev url (e_Recommendations ev)) in
  let all := script (sv_starttls sv) host port cfg msg in
  let s := Send sv boundary cfg url ev in
  s.1 `prefix_of` all /\
  (s.2 = None <-> refused_at sv [] all = None) /\
  (s.2 = None -> s.1 = all) /\
  (forall r, r ∈ emc_Recipients cfg -> (forall d, is_Some (sv_reply sv d (CRcpt r))) ->
     is_Some s.2 /\ forall m, CWrite m ∉ s.1).
Proof.
  intros Hsplit msg all s.
  assert (Hf : follows sv [] all s) by (by apply follows_sendSMTP).
  clearbody s. unfold follows in Hf. split_and!.
  - destruct (refused_at sv [] all) as [calls|] eqn:E; [|by subst s].
    destruct Hf as [-> _]. by apply (refused_prefix sv all []).
  - destruct (refused_at sv [] all) as [calls|]; [|by subst s].
    destruct Hf as [_ [e He]]. split; intros H; [congruence|done].
  - destruct (refused_at sv [] all) as [calls|]; [|by subst s].
    destruct Hf as [_ [e He]]. congruence.
  - intros r (l1 & l2 & Hr)%list_elem_of_split Hrefused.
    destruct (refused_before sv (CRcpt r) (opening (sv_starttls sv) host port cfg ++ map CRcpt l1)
      (map CRcpt l2 ++ [CData; CWrite msg; CCloseData; CQuit]) Hrefused []) as (calls & Hc & Hp).
    replace (_ ++ CRcpt r :: _) with all in Hc
      by (unfold all, script; rewrite Hr, map_app, <- !app_assoc; reflexivity).
    rewrite Hc in Hf. destruct Hf as [-> Hs]. split; [done|].
    intros m Hm. apply (elem_of_prefix _ _ _ Hm) in Hp.
    cbn [app] in Hp. unfold opening in Hp.
    rewrite !elem_of_app in Hp. destruct Hp as [[Hp|Hp]|Hp]; [|set_solver|set_solver].
    repeat case_match; set_solver.
Qed.

End templates.

(** ** Concrete messages *)

Definition demo_event (name : string) : AlertEvent :=
  mkAlertEvent 1 "cpu" name "db1" SeverityWarning (fconst 955 10) (fconst 90 1) OpGreater "pg.cpu"
    {["host" := "a"]} [] 0 None false [mkRemediationResult "r" "Scale up" "Add cores" "suggestion" "capacity" ""].

Definition demo_email : EmailConfig :=
  mkEmailConfig "smtp.example.org" 587 "" "" "pgpulse@example.org" ["a@example.org"; "b@example.org"] false 10.

Definition demo_split (s : string) : result (string * string) :=
  match cut colon s with Some hp => Ok hp | None => Err "missing port in address" end.

(** The second recipient is refused. *)
Definition picky : MailServer :=
  mkMailServer (fun _ c => match c with CRcpt r => if String.eqb r "b@example.org" then Some "550 unknown" else None
                           | _ => None end) false.

#[local] Existing Instance canonical_MapRange.
#[local] Existing Instance insertion_SliceSort.

Lemma mail_session_exact_witness :
  let s := Send (fun _ => "t") (fun _ => "d") demo_split (fun h p => h +:+ ":" +:+ p) (fun s => s)
             picky "b" demo_email "" (demo_event "CPU") in
  s.1 = [CDial "smtp.example.org:587"; CNewClient "smtp.example.org"; CMail "pgpulse@example.org";
         CRcpt "a@example.org"; CRcpt "b@example.org"] /\
  (is_Some s.2 /\ forall m, CWrite m ∉ s.1).
Proof.
  split; [vm_compute; reflexivity|].
  refine (proj2 (proj2 (proj2 (mail_session_exact (fun _ => "t") (fun _ => "d") demo_split
    (fun h p => h +:+ ":" +:+ p) (fun s => s) picky "b" demo_email "" (demo_event "CPU")
    "smtp.example.org" "587" _))) "b@example.org" _ _).
  - vm_compute. reflexivity.
  - right. left.
  - intros d. by eexists.
Defined.

(** A name that tries to add a script, and a link that is one. *)
Definition hostile_event : AlertEvent :=
  demo_event ("<script>alert(1)</script>" +:+ String dquote " onload=x").

Definition hostile_link : list RemediationResult :=
  [mkRemediationResult "r" "<b>" "</div>" "suggestion" "c" "javascript:alert(1)"].

Lemma mail_markup_fixed_witness :
  let show := fun _ : Z => "t" in
  markup (RenderHTMLTemplate show show hostile_event "https://p" hostile_link)
  = markup (RenderHTMLTemplate show show (demo_event "CPU") "https://q"
      [mkRemediationResult "r" "Scale up" "Add cores" "suggestion" "c" "https://d"]).
Proof.
  exact (mail_markup_fixed (fun _ => "t") (fun _ => "t") hostile_event (demo_event "CPU") "https://p" "https://q"
    hostile_link [mkRemediationResult "r" "Scale up" "Add cores" "suggestion" "c" "https://d"]
    eq_refl eq_refl eq_refl eq_refl).
Defined.

Example hostile_values : html_escape "<b>&'+" = "&lt;b&gt;&amp;&#39;&#43;" /\
  piece_html (Url true "javascript:alert(1)") = "#ZgotmplZ" /\
  piece_html (Url true "HTTPS://a/%2f?q='x'&r= ") = "HTTPS://a/%2f?q=%27x%27&amp;r=%20" /\
  piece_html (Css "#dc2626") = "#dc2626" /\ piece_html (Css "red;x:y") = "ZgotmplZ".
Proof. vm_compute. done. Qed.

Example text_value :
  RenderTextTemplate (fun _ => "2026-03-01T10:00:00Z") (fun _ => "") (demo_event "CPU") "https://p"
    (e_Recommendations (demo_event "CPU"))
  = lines ["[WARNING] Alert: CPU"; ""; "Instance:      db1"; "Metric:        pg.cpu"; "Current Value: 95.50";
           "Threshold:     > 90.00"; "Severity:      warning"; "Fired At:      2026-03-01T10:00:00Z";
           "Labels:        host=a"; ""; "Recommendations:"; "  - [suggestion] Scale up: Add cores"; "";
           "Dashboard: https://p/instances/db1"; ""; "--"; "Sent by PGPulse Alert Engine"; ""].
Proof. vm_compute. done. Qed.

(** The subject is not checked for line breaks: a rule name with one adds a header to every message. *)
Example rule_name_adds_header :
  nth 3 (Split (Ascii.ascii_of_N 10)
    (buildMIMEMessage "b" "f" ["t"] (FormatSubject (demo_event ("CPU" +:+ crlf +:+ "Reply-To: eve@example.org" +:+ crlf +:+ "X:")))
       "" "")) ""
  = "Reply-To: eve@example.org" +:+ String (Ascii.ascii_of_N 13) "".
Proof. vm_compute. done. Qed.
