(* ===== verification/AlertApi.v ===== *)
(** * The API of alerts

    Models internal/api/alerts.go over the tables alert_rules and alert_history: validation of a
    rule, its creation, update and deletion with the reload of the evaluator, the active alerts
    and the history with its filters (buildHistoryQuery of internal/alert/pgstore.go), the
    recommendations attached to events, and the test notification. A request body is the decoded
    value, or [None] when it does not decode; a pointer, slice or map of the body is an option.
    [parse_time] is [time.Parse(time.RFC3339, _)] and [quote] the form %q of a string. *)
From S2P Require Import Prelude Float64 GoText Metric Remediation Alert AlertRules Dispatcher.
From S2P Require Import SqlConn Http Config.

Local Open Scope Z_scope.

(** ** The two tables

    A rule that goes takes its history with it: rule_id references alert_rules with ON DELETE
    CASCADE. *)
Record AlertDB := mkAlertDB {
  ad_rules : RuleTable;
  ad_history : PGHistory
}.

Definition set_rule_ids (ids : gset string) (rows : list AlertEvent) (h : PGHistory) : PGHistory :=
  mkPGHistory rows (pg_next_id h) ids (pg_online h).

(** Each statement may fail on its own; [fault] is its error, [None] when it runs. *)
Definition db_Get (fault : option error) (d : AlertDB) (id : string) : result Rule :=
  match fault with
  | Some e => Err ("get rule " +:+ id +:+ ": " +:+ e)
  | None => rs_Get (ad_rules d) id
  end.

(** Text that is not valid UTF-8 or holds a NUL is refused, also within the labels. *)
Definition rule_texts (r : Rule) : bool :=
  forallb pg_text (r_ID r :: r_Name r :: r_Description r :: r_Metric r :: r_Channels r)
  && forallb (fun kv => pg_text (fst kv) && pg_text (snd kv)) (map_to_list (r_Labels r)).

Definition err_rule_text : error := "invalid byte sequence for encoding UTF8".

Definition db_Create (fault : option error) (d : AlertDB) (r : Rule) : AlertDB * option error :=
  match fault with
  | Some e => (d, Some (wrap "create rule" e))
  | None =>
      if negb (rule_texts r) then (d, Some (wrap "create rule" err_rule_text))
      else match rs_Create (ad_rules d) r with
      | (t, None) =>
          let h := ad_history d in
          (mkAlertDB t (set_rule_ids ({[ r_ID r ]} ∪ pg_ruleIDs h) (pg_rows h) h), None)
      | (_, Some e) => (d, Some e)
      end
  end.

Definition db_Update (fault : option error) (d : AlertDB) (r : Rule) : AlertDB * option error :=
  match fault with
  | Some e => (d, Some (wrap "update rule" e))
  | None =>
      if negb (rule_texts r) then (d, Some (wrap "update rule" err_rule_text))
      else let '(t, e) := rs_Update (ad_rules d) r in (mkAlertDB t (ad_history d), e)
  end.

Definition db_Delete (fault : option error) (d : AlertDB) (id : string) : AlertDB * option error :=
  match fault with
  | Some e => (d, Some (wrap "delete rule" e))
  | None =>
      let h := ad_history d in
      (mkAlertDB (rs_Delete (ad_rules d) id)
         (set_rule_ids (pg_ruleIDs h ∖ {[ id ]})
            (List.filter (fun row => negb (String.eqb (e_RuleID row) id)) (pg_rows h)) h), None)
  end.

(** ** Validation *)

Record createRuleRequest := mkRuleRequest {
  rq_ID : string;
  rq_Name : string;
  rq_Description : string;
  rq_Metric : string;
  rq_Operator : Operator;
  rq_Threshold : float64;
  rq_Severity : Severity;
  rq_Labels : option Labels;
  rq_ConsecutiveCount : Z;
  rq_CooldownMinutes : Z;
  rq_Channels : option (list string);
  rq_Enabled : option bool
}.

(** [^[a-z0-9][a-z0-9_-]*$]. *)
Definition slugFirst (c : Ascii.ascii) : bool :=
  ((97 <=? byte_Z c) && (byte_Z c <=? 122)) || ((48 <=? byte_Z c) && (byte_Z c <=? 57)).

Definition slugRest (c : Ascii.ascii) : bool :=
  slugFirst c || (byte_Z c =? 95) || (byte_Z c =? 45).

Definition slugPattern (s : string) : bool :=
  match s with EmptyString => false | String c s' => slugFirst c && all_chars slugRest s' end.

Definition validOperator (op : Operator) : bool :=
  bool_decide (op ∈ [OpGreater; OpGreaterEqual; OpLess; OpLessEqual; OpEqual; OpNotEqual]).

Definition validateRuleRequest (req : createRuleRequest) : option error :=
  if String.eqb (rq_ID req) "" then Some "id is required"
  else if negb (slugPattern (rq_ID req)) then
    Some "id must be lowercase alphanumeric with dashes/underscores"
  else if String.eqb (rq_Name req) "" then Some "name is required"
  else if String.eqb (rq_Metric req) "" then Some "metric is required"
  else if negb (validOperator (rq_Operator req)) then
    Some "operator must be one of: >, >=, <, <=, ==, !="
  else if String.eqb (rq_Severity req) "" then Some "severity is required"
  else if negb (validSeverity (rq_Severity req)) then
    Some "severity must be one of: info, warning, critical"
  else None.

(** The value of the request, the configured one, or the fixed one: the first that is positive. *)
Definition positive_or (z configured fixed : Z) : Z :=
  if z <=? 0 then if configured <=? 0 then fixed else configured else z.

Definition new_rule (cfg : AlertingConfig) (req : createRuleRequest) : Rule :=
  mkRule (rq_ID req) (rq_Name req) (rq_Description req) (rq_Metric req) (rq_Operator req)
    (rq_Threshold req) (rq_Severity req) (default ∅ (rq_Labels req))
    (positive_or (rq_ConsecutiveCount req) (alc_DefaultConsecutiveCount cfg) 3)
    (positive_or (rq_CooldownMinutes req) (alc_DefaultCooldownMinutes cfg) 15)
    (default [] (rq_Channels req)) SourceCustom (default true (rq_Enabled req)) "" false 0.

(** ** The handlers of rules *)

Inductive alertsBody :=
  | BRules (rules : list Rule) (count : Z)
  | BRule (rule : Rule)
  | BNoContent
  | BEvents (events : list (AlertEvent * list Recommendation)) (count : Z)
  | BSent (channel : string).

(** The part of the server these handlers change. *)
Record AlertsServer := mkAlertsServer {
  as_db : AlertDB;
  as_evaluator : option Evaluator
}.

(** The errors of the statements of one request that are refused: the read, the write and the reload. *)
Record Faults := mkFaults {
  f_read : option error;
  f_write : option error;
  f_reload : option error
}.

Section rules.
Context {SS : SliceSort} {MR : MapRange}.
Context (quote : string -> string).

Definition db_ListEnabled (fault : option error) (d : AlertDB) : result (list Rule) :=
  match fault with
  | Some e => Err (wrap "list enabled rules" e)
  | None => Ok (rs_ListEnabled (ad_rules d))
  end.

(** [s.evaluator.LoadRules]: a failure is logged only. *)
Definition reloadRules (fault : option error) (s : AlertsServer) : AlertsServer :=
  mkAlertsServer (as_db s)
    (match as_evaluator s with
     | None => None
     | Some e => Some (LoadRules (db_ListEnabled fault (as_db s)) e).1
     end).

Definition handleGetAlertRules (f : Faults) (s : AlertsServer) : response alertsBody :=
  match f_read f with
  | Some _ => writeError StatusInternalServerError "INTERNAL" "failed to list alert rules"
  | None => let rules := rs_List (ad_rules (as_db s)) in
            writeJSON StatusOK (BRules rules (len rules))
  end.

Definition orElse {A} (given : bool) (new old : A) : A := if given then new else old.
Definition nonempty (s : string) : bool := negb (String.eqb s "").

(** The changes to a builtin rule. *)
Definition update_builtin (req : createRuleRequest) (r : Rule) : Rule :=
  mkRule (r_ID r) (r_Name r) (r_Description r) (r_Metric r) (r_Operator r)
    (orElse (fne (rq_Threshold req) f0) (rq_Threshold req) (r_Threshold r))
    (r_Severity r) (r_Labels r)
    (orElse (0 <? rq_ConsecutiveCount req) (rq_ConsecutiveCount req) (r_ConsecutiveCount r))
    (orElse (0 <? rq_CooldownMinutes req) (rq_CooldownMinutes req) (r_CooldownMinutes r))
    (default (r_Channels r) (rq_Channels req))
    (r_Source r) (default (r_Enabled r) (rq_Enabled req))
    (r_Type r) (r_UseLowerBound r) (r_ConsecutivePointsRequired r).

(** The changes to a custom rule; an operator or severity that is given must be valid. *)
Definition update_custom (req : createRuleRequest) (r : Rule) : result Rule :=
  if nonempty (rq_Operator req) && negb (validOperator (rq_Operator req)) then
    Err "operator must be one of: >, >=, <, <=, ==, !="
  else if nonempty (rq_Severity req) && negb (validSeverity (rq_Severity req)) then
    Err "severity must be info, warning, or critical"
  else Ok (mkRule (r_ID r) (orElse (nonempty (rq_Name req)) (rq_Name req) (r_Name r))
    (orElse (nonempty (rq_Description req)) (rq_Description req) (r_Description r))
    (orElse (nonempty (rq_Metric req)) (rq_Metric req) (r_Metric r))
    (orElse (nonempty (rq_Operator req)) (rq_Operator req) (r_Operator r))
    (orElse (fne (rq_Threshold req) f0) (rq_Threshold req) (r_Threshold r))
    (orElse (nonempty (rq_Severity req)) (rq_Severity req) (r_Severity r))
    (default (r_Labels r) (rq_Labels req))
    (orElse (0 <? rq_ConsecutiveCount req) (rq_ConsecutiveCount req) (r_ConsecutiveCount r))
    (orElse (0 <? rq_CooldownMinutes req) (rq_CooldownMinutes req) (r_CooldownMinutes r))
    (default (r_Channels r) (rq_Channels req))
    (r_Source r) (default (r_Enabled r) (rq_Enabled req))
    (r_Type r) (r_UseLowerBound r) (r_ConsecutivePointsRequired r)).

Definition updated_rule (req : createRuleRequest) (r : Rule) : result Rule :=
  if String.eqb (r_Source r) SourceBuiltin then Ok (update_builtin req r) else update_custom req r.

Definition rule_not_found (ruleID : string) : response alertsBody :=
  writeError StatusNotFound "NOT_FOUND" ("rule " +:+ quote ruleID +:+ " not found").

(** *** The handlers

    A handler checks the request (an update and a deletion read the rule first), sends its one
    statement, and reloads the evaluator's rules when that succeeds. *)

Inductive ruleWrite :=
  | WCreate (rule : Rule)
  | WUpdate (rule : Rule)
  | WDelete (ruleID : string).

Definition create_write (cfg : AlertingConfig) (body : option createRuleRequest)
    : response alertsBody + ruleWrite :=
  match body with
  | None => inl (writeError StatusBadRequest "INVALID_BODY" "invalid JSON body")
  | Some req =>
      match validateRuleRequest req with
      | Some e => inl (writeError StatusBadRequest "VALIDATION_ERROR" e)
      | None => inr (WCreate (new_rule cfg req))
      end
  end.

Definition update_write (read : option error) (d : AlertDB) (ruleID : string)
    (body : option createRuleRequest) : response alertsBody + ruleWrite :=
  match db_Get read d ruleID with
  | Err _ => inl (rule_not_found ruleID)
  | Ok existing =>
  match body with
  | None => inl (writeError StatusBadRequest "INVALID_BODY" "invalid JSON body")
  | Some req =>
  match updated_rule req existing with
  | Err e => inl (writeError StatusBadRequest "VALIDATION_ERROR" e)
  | Ok rule => inr (WUpdate rule)
  end end end.

Definition delete_write (read : option error) (d : AlertDB) (ruleID : string)
    : response alertsBody + ruleWrite :=
  match db_Get read d ruleID with
  | Err _ => inl (rule_not_found ruleID)
  | Ok existing =>
      if String.eqb (r_Source existing) SourceBuiltin then
        inl (writeError StatusConflict "BUILTIN_RULE"
               "builtin rules cannot be deleted; disable them instead")
      else inr (WDelete ruleID)
  end.

Definition db_write (fault : option error) (d : AlertDB) (w : ruleWrite) : AlertDB * option error :=
  match w with
  | WCreate rule => db_Create fault d rule
  | WUpdate rule => db_Update fault d rule
  | WDelete ruleID => db_Delete fault d ruleID
  end.

Definition write_failed (w : ruleWrite) : response alertsBody :=
  match w with
  | WCreate rule => writeError StatusConflict "DUPLICATE_ID"
                      ("rule " +:+ quote (r_ID rule) +:+ " already exists")
  | WUpdate _ => writeError StatusInternalServerError "INTERNAL" "failed to update rule"
  | WDelete _ => writeError StatusInternalServerError "INTERNAL" "failed to delete rule"
  end.

Definition write_done (w : ruleWrite) : response alertsBody :=
  match w with
  | WCreate rule => writeJSON StatusCreated (BRule rule)
  | WUpdate rule => writeJSON StatusOK (BRule rule)
  | WDelete _ => writeJSON StatusNoContent BNoContent
  end.

(** The rest of a handler when nothing comes between its statements. *)
Definition carry_out (f : Faults) (s : AlertsServer) (checked : response alertsBody + ruleWrite)
    : AlertsServer * response alertsBody :=
  match checked with
  | inl answer => (s, answer)
  | inr w =>
      match db_write (f_write f) (as_db s) w with
      | (d, Some _) => (mkAlertsServer d (as_evaluator s), write_failed w)
      | (d, None) => (reloadRules (f_reload f) (mkAlertsServer d (as_evaluator s)), write_done w)
      end
  end.

Definition handleCreateAlertRule (cfg : AlertingConfig) (f : Faults) (s : AlertsServer)
    (body : option createRuleRequest) : AlertsServer * response alertsBody :=
  carry_out f s (create_write cfg body).

Definition handleUpdateAlertRule (f : Faults) (s : AlertsServer) (ruleID : string)
    (body : option createRuleRequest) : AlertsServer * response alertsBody :=
  carry_out f s (update_write (f_read f) (as_db s) ruleID body).

Definition handleDeleteAlertRule (f : Faults) (s : AlertsServer) (ruleID : string)
    : AlertsServer * response alertsBody :=
  carry_out f s (delete_write (f_read f) (as_db s) ruleID).

End rules.

(** ** Events *)

Record AlertHistoryQuery := mkHistoryQuery {
  hq_InstanceID : string;
  hq_RuleID : string;
  hq_Severity : Severity;
  hq_Start : Time;
  hq_End : Time;
  hq_UnresolvedOnly : bool;
  hq_Limit : Z
}.

(** The conditions of [buildHistoryQuery]; an empty field and the zero time ask for nothing. *)
Definition history_selected (q : AlertHistoryQuery) (row : AlertEvent) : bool :=
  (String.eqb (hq_InstanceID q) "" || String.eqb (e_InstanceID row) (hq_InstanceID q))
  && (String.eqb (hq_RuleID q) "" || String.eqb (e_RuleID row) (hq_RuleID q))
  && (String.eqb (hq_Severity q) "" || String.eqb (e_Severity row) (hq_Severity q))
  && (time_IsZero (hq_Start q) || (pg_time (hq_Start q) <=? pg_time (e_FiredAt row)))
  && (time_IsZero (hq_End q) || (pg_time (e_FiredAt row) <=? pg_time (hq_End q)))
  && (negb (hq_UnresolvedOnly q) || unresolved row).

Section events.
Context {SS : SliceSort}.
Context (parse_time : string -> option Time).

Definition pg_QueryHistory (h : PGHistory) (q : AlertHistoryQuery) : result (list AlertEvent) :=
  if pg_online h then
    let rows := sort_slice (fun a b => pg_time (e_FiredAt b) <? pg_time (e_FiredAt a))
                  (List.filter (history_selected q) (pg_rows h)) in
    Ok (if 0 <? hq_Limit q then take (Z.to_nat (hq_Limit q)) rows else rows)
  else Err "query alert history".

(** The recommendations of each stored event; an event without a number has none. *)
Definition enrichAlertEvents {R} {RS : RecommendationStore R} (store : option R)
    (events : list AlertEvent) : list (AlertEvent * list Recommendation) :=
  map (fun ev =>
    (ev, match store with
         | Some st => if 0 <? e_ID ev
                      then match rs_ListByAlertEvent st (e_ID ev) with Ok recs => recs | Err _ => [] end
                      else []
         | None => []
         end)) events.

Definition handleGetActiveAlerts {R} {RS : RecommendationStore R} (store : option R) (h : PGHistory)
    : response alertsBody :=
  match pg_ListUnresolved h with
  | Err _ => writeError StatusInternalServerError "INTERNAL" "failed to list active alerts"
  | Ok events => let enriched := enrichAlertEvents store events in
                 writeJSON StatusOK (BEvents enriched (len enriched))
  end.

(** An optional time parameter; absent reads as the zero time. *)
Definition time_param (v : string) : option Time :=
  if String.eqb v "" then Some zero_time else parse_time v.

Definition limit_param (v : string) : option Z :=
  if String.eqb v "" then Some 100
  else match Atoi v with
       | (_, Some _) => None
       | (n, None) => if n <? 1 then None else Some (if 1000 <? n then 1000 else n)
       end.

Definition history_query (q : string -> string) : AlertHistoryQuery + response alertsBody :=
  if negb (String.eqb (q "severity") "") && negb (validSeverity (q "severity")) then
    inr (writeError StatusBadRequest "INVALID_SEVERITY" "severity must be info, warning, or critical")
  else match time_param (q "start") with
  | None => inr (writeError StatusBadRequest "INVALID_TIME" "start must be RFC3339 format")
  | Some start =>
  match time_param (q "end") with
  | None => inr (writeError StatusBadRequest "INVALID_TIME" "end must be RFC3339 format")
  | Some end_ =>
  match limit_param (q "limit") with
  | None => inr (writeError StatusBadRequest "INVALID_LIMIT" "limit must be a positive integer")
  | Some limit =>
      inl (mkHistoryQuery (q "instance_id") (q "rule_id") (q "severity") start end_
             (String.eqb (q "unresolved") "true") limit)
  end end end.

Definition handleGetAlertHistory {R} {RS : RecommendationStore R} (store : option R) (h : PGHistory)
    (q : string -> string) : response alertsBody :=
  match history_query q with
  | inr answer => answer
  | inl hq =>
      match pg_QueryHistory h hq with
      | Err _ => writeError StatusInternalServerError "INTERNAL" "failed to query alert history"
      | Ok events => let enriched := enrichAlertEvents store events in
                     writeJSON StatusOK (BEvents enriched (len enriched))
      end
  end.
End events.

(** ** The test notification *)

Record testNotificationRequest := mkTestNotification {
  tn_Channel : string;
  tn_Message : string
}.

Definition testEvent (now : Time) : AlertEvent :=
  mkAlertEvent 0 "pg.test" "Test Notification" "test" SeverityInfo f0 f0 "" "pg.test" ∅ [] now None
    false [].

(** The context of the call ends after 15 seconds; what the notifier makes of it is its own. *)
Definition handleTestNotification {W : Type} {HW : World W} (quote : string -> string)
    (registry : option (gmap string (Notifier W))) (w : W) (body : option testNotificationRequest)
    : W * response alertsBody :=
  match body with
  | None => (w, writeError StatusBadRequest "INVALID_BODY" "invalid JSON body")
  | Some req =>
      if String.eqb (tn_Channel req) "" then
        (w, writeError StatusBadRequest "VALIDATION_ERROR" "channel is required")
      else match registry with
      | None => (w, writeError StatusServiceUnavailable "NO_NOTIFIERS"
                      "no notifier registry configured")
      | Some reg =>
          match registry_Get reg (tn_Channel req) with
          | None => (w, writeError StatusBadRequest "UNKNOWN_CHANNEL"
                          ("channel " +:+ quote (tn_Channel req) +:+ " is not registered"))
          | Some n =>
              match n_Send n w (testEvent (clock w)) with
              | (w', Some e) => (w', writeError StatusBadGateway "SEND_FAILED"
                                       ("failed to send test notification: " +:+ e))
              | (w', None) => (w', writeJSON StatusOK (BSent (tn_Channel req)))
              end
          end
      end
  end.

(** ** The start of the alerting part in cmd/pgpulse-server/main.go

    Any error ends the program; what was seeded before it stays. [sf_seed] is the number of builtin
    rules whose statement took effect before the one that failed. *)
Record StartFaults := mkStartFaults {
  sf_seed : option (nat * error);
  sf_load : option error;
  sf_restore : option error
}.

Definition seeded (rules : list Rule) (d : AlertDB) : AlertDB * option error :=
  let '(t, e) := seedRules (ad_rules d) rules in
  (mkAlertDB t (set_rule_ids (dom t) (pg_rows (ad_history d)) (ad_history d)), e).

Definition db_Seed (fault : option (nat * error)) (d : AlertDB) : AlertDB * option error :=
  match fault with
  | Some (n, e) => ((seeded (take n BuiltinRules) d).1, Some e)
  | None => seeded BuiltinRules d
  end.

(** The tables as they are left, and the evaluator of the program that runs. *)
Definition startAlerting {SS : SliceSort} {MR : MapRange} (f : StartFaults) (d : AlertDB)
    : AlertDB * option Evaluator :=
  match db_Seed (sf_seed f) d with
  | (d, Some _) => (d, None)
  | (d, None) =>
      match LoadRules (db_ListEnabled (sf_load f) d) NewEvaluator with
      | (_, Some _) => (d, None)
      | (e, None) =>
          match sf_restore f with
          | Some _ => (d, None)
          | None =>
              match RestoreState (ad_history d) e with
              | (_, Some _) => (d, None)
              | (e, None) => (d, Some e)
              end
          end
      end
  end.

(** ** Requests that overlap

    The server handles every request in a goroutine of its own, and the evaluator's lock is held only
    while a list of rules is put in place, not while it is read: the steps of several requests may
    come in any order. *)

Inductive request :=
  | CreateRule (body : option createRuleRequest)
  | UpdateRule (id : string) (body : option createRuleRequest)
  | DeleteRule (id : string).

(** Where a request is: its statement is to be sent; the rules are to be listed; the list is to be put
    in place; it is answered. *)
Inductive phase :=
  | ToWrite (w : ruleWrite)
  | ToList (w : ruleWrite)
  | ToInstall (w : ruleWrite) (listed : result (list Rule))
  | Answered (answer : response alertsBody).

(** The process: its evaluator, and the requests it has got so far. *)
Record AlertProcess := mkAlertProcess {
  pr_evaluator : Evaluator;
  pr_requests : list phase
}.

(** The tables outlive the process, which may be down. *)
Record AlertSystem := mkAlertSystem {
  sy_db : AlertDB;
  sy_process : option AlertProcess
}.

(** One step: a start (which ends the process that runs, if one does), the arrival of a request, the
    write, the listing or the installation of request number [i], or an operation of the evaluator or
    of the cleanup on the history. *)
Inductive event :=
  | Started (f : StartFaults)
  | Arrived (read : option error) (req : request)
  | Wrote (i : nat) (o : outcome)
  | Listed (i : nat) (fault : option error)
  | Installed (i : nat)
  | Recorded (ev : AlertEvent)
  | Resolved (ruleID instanceID : string) (at_ : Time)
  | Cleaned (olderThan : Duration) (now : Time).

Section overlapping.
Context {SS : SliceSort} {MR : MapRange} (quote : string -> string) (cfg : AlertingConfig).

Definition checked_write (read : option error) (d : AlertDB) (req : request)
    : response alertsBody + ruleWrite :=
  match req with
  | CreateRule body => create_write cfg body
  | UpdateRule id body => update_write quote read d id body
  | DeleteRule id => delete_write quote read d id
  end.

Definition arrival (read : option error) (d : AlertDB) (req : request) : phase :=
  match checked_write read d req with inl answer => Answered answer | inr w => ToWrite w end.

(** The write statement and the request after it. *)
Definition write_step (o : outcome) (d : AlertDB) (w : ruleWrite) : AlertDB * phase :=
  match o, db_write None d w with
  | Ran, (d', None) => (d', ToList w)
  | Ran, (d', Some _) => (d', Answered (write_failed quote w))
  | Refused, _ => (d, Answered (write_failed quote w))
  | Lost, (d', _) => (d', Answered (write_failed quote w))
  end.

Definition set_request (i : nat) (ph : phase) (p : AlertProcess) : AlertProcess :=
  mkAlertProcess (pr_evaluator p) (<[i := ph]> (pr_requests p)).

Definition request_step (d : AlertDB) (p : AlertProcess) (ev : event) : option AlertSystem :=
  match ev with
  | Arrived read req =>
      Some (mkAlertSystem d (Some (mkAlertProcess (pr_evaluator p)
                                     (pr_requests p ++ [arrival read d req]))))
  | Wrote i o =>
      match pr_requests p !! i with
      | Some (ToWrite w) => let '(d', ph) := write_step o d w in
                            Some (mkAlertSystem d' (Some (set_request i ph p)))
      | _ => None
      end
  | Listed i fault =>
      match pr_requests p !! i with
      | Some (ToList w) =>
          Some (mkAlertSystem d (Some (set_request i (ToInstall w (db_ListEnabled fault d)) p)))
      | _ => None
      end
  | Installed i =>
      match pr_requests p !! i with
      | Some (ToInstall w listed) =>
          Some (mkAlertSystem d (Some (mkAlertProcess (LoadRules listed (pr_evaluator p)).1
                                         (<[i := Answered (write_done w)]> (pr_requests p)))))
      | _ => None
      end
  | Recorded e => Some (mkAlertSystem (mkAlertDB (ad_rules d) (pg_Record (ad_history d) e).1) (Some p))
  | Resolved r i t =>
      Some (mkAlertSystem (mkAlertDB (ad_rules d) (pg_Resolve (ad_history d) r i t).1) (Some p))
  | Cleaned age now =>
      Some (mkAlertSystem (mkAlertDB (ad_rules d) (pg_Cleanup (ad_history d) age now).1) (Some p))
  | Started _ => None
  end.

Definition start_step (f : StartFaults) (d : AlertDB) : AlertSystem :=
  let '(d', e) := startAlerting f d in
  mkAlertSystem d' ((fun e => mkAlertProcess e []) <$> e).

Definition step (y : AlertSystem) (ev : event) : option AlertSystem :=
  match ev with
  | Started f => Some (start_step f (sy_db y))
  | _ => p ← sy_process y; request_step (sy_db y) p ev
  end.

Fixpoint run (y : AlertSystem) (evs : list event) : option AlertSystem :=
  match evs with [] => Some y | ev :: evs' => y' ← step y ev; run y' evs' end.

End overlapping.
