(* ===== verification/AlertApiTheorems.v ===== *)
(** * Alert rules managed through the API: invariants and effects

    What stays true of the rule table, the history and the evaluator over any interleaving of the
    steps of requests with history operations and (failed) starts, and what a single request does. *)
From S2P Require Import Prelude Float64 GoText Metric Remediation Alert AlertRules Dispatcher.
From S2P Require Import SqlConn Http Config AlertApi.

Local Open Scope Z_scope.

(** ** Valid rules and builtin rules *)

Record rule_valid (r : Rule) : Prop := {
  rv_slug : slugPattern (r_ID r) = true;
  rv_name : r_Name r <> "";
  rv_metric : r_Metric r <> "";
  rv_allowed : rowAllowed r = true;
  rv_count : 0 < r_ConsecutiveCount r;
  rv_cooldown : 0 < r_CooldownMinutes r
}.

(** What an update of a builtin rule leaves alone. *)
Record same_identity (b r : Rule) : Prop := {
  si_id : r_ID r = r_ID b;
  si_name : r_Name r = r_Name b;
  si_description : r_Description r = r_Description b;
  si_metric : r_Metric r = r_Metric b;
  si_operator : r_Operator r = r_Operator b;
  si_severity : r_Severity r = r_Severity b;
  si_labels : r_Labels r = r_Labels b;
  si_source : r_Source r = SourceBuiltin
}.

Definition valid_check (r : Rule) : bool :=
  slugPattern (r_ID r) && nonempty (r_Name r) && nonempty (r_Metric r) && rowAllowed r
  && (0 <? r_ConsecutiveCount r) && (0 <? r_CooldownMinutes r).

Lemma nonempty_spec s : nonempty s = true <-> s <> "".
Proof. unfold nonempty. rewrite negb_true_iff. apply String.eqb_neq. Qed.

Lemma valid_check_spec r : valid_check r = true <-> rule_valid r.
Proof.
  unfold valid_check. rewrite !andb_true_iff, !nonempty_spec, !Z.ltb_lt. split.
  - by intros [[[[[? ?] ?] ?] ?] ?].
  - by intros [].
Qed.

Lemma builtin_checked : forallb valid_check BuiltinRules = true.
Proof. vm_compute. reflexivity. Qed.

Lemma builtin_valid b : b ∈ BuiltinRules -> rule_valid b.
Proof.
  intros H%list_elem_of_In. apply valid_check_spec.
  by apply (proj1 (forallb_forall _ _) builtin_checked).
Qed.

(** ** The invariant *)

Record tables_ok (d : AlertDB) : Prop := {
  to_rows : forall id r, ad_rules d !! id = Some r -> r_ID r = id /\ rule_valid r;
  to_builtin : forall b, b ∈ BuiltinRules -> exists r, ad_rules d !! r_ID b = Some r /\ same_identity b r;
  to_ids : pg_ruleIDs (ad_history d) = dom (ad_rules d);
  to_refs : forall row, row ∈ pg_rows (ad_history d) -> e_RuleID row ∈ dom (ad_rules d)
}.

Lemma rowAllowed_iff r : rowAllowed r = true <->
  validSeverity (r_Severity r) = true /\ in_int4 (r_ConsecutiveCount r) = true /\
  in_int4 (r_CooldownMinutes r) = true /\ validOperator (r_Operator r) = true /\
  r_Source r ∈ [SourceBuiltin; SourceCustom].
Proof.
  unfold rowAllowed, validOperator. rewrite !andb_true_iff, !bool_decide_eq_true. tauto.
Qed.

(** A write of one rule under its own id keeps the tables. *)
Lemma tables_put d r :
  tables_ok d -> rule_valid r ->
  (forall b, b ∈ BuiltinRules -> r_ID b = r_ID r -> same_identity b r) ->
  tables_ok (mkAlertDB (<[r_ID r := r]> (ad_rules d))
    (set_rule_ids ({[ r_ID r ]} ∪ pg_ruleIDs (ad_history d)) (pg_rows (ad_history d))
       (ad_history d))).
Proof.
  intros [Hr Hb Hi Hf] Hv Hid. split; cbn.
  - intros id x [[<- <-]|[_ H]]%lookup_insert_Some; [done|by apply Hr].
  - intros b Hin. destruct (decide (r_ID b = r_ID r)) as [E|E].
    + exists r. rewrite E, lookup_insert_eq. split; [done|by apply Hid].
    + rewrite lookup_insert_ne by congruence. by apply Hb.
  - by rewrite Hi, dom_insert_L.
  - intros row Hrow. rewrite dom_insert_L. apply elem_of_union_r. by apply Hf.
Qed.

Lemma set_rule_ids_same h : set_rule_ids (pg_ruleIDs h) (pg_rows h) h = h.
Proof. by destruct h. Qed.

(** The same for a rule that is there already: the history is not touched. *)
Lemma tables_replace d r :
  tables_ok d -> r_ID r ∈ dom (ad_rules d) -> rule_valid r ->
  (forall b, b ∈ BuiltinRules -> r_ID b = r_ID r -> same_identity b r) ->
  tables_ok (mkAlertDB (<[r_ID r := r]> (ad_rules d)) (ad_history d)).
Proof.
  intros Hd Hin Hv Hid. pose proof (tables_put d r Hd Hv Hid) as H.
  rewrite (to_ids _ Hd) in H.
  rewrite (subseteq_union_1_L {[r_ID r]} (dom (ad_rules d))) in H by set_solver.
  by rewrite <- (to_ids _ Hd), set_rule_ids_same in H.
Qed.

Lemma tables_delete d id :
  tables_ok d -> (forall b, b ∈ BuiltinRules -> r_ID b <> id) -> tables_ok (db_Delete None d id).1.
Proof.
  intros [Hr Hb Hi Hf] Hid. cbn. unfold rs_Delete. split; cbn.
  - intros i x [_ H]%lookup_delete_Some. by apply Hr.
  - intros b Hin. destruct (Hb b Hin) as (x & Hx & Hsi). exists x. split; [|done].
    apply lookup_delete_Some. split; [|done]. intros E. by apply (Hid b Hin).
  - by rewrite Hi, dom_delete_L.
  - intros row [Hne%negb_true_iff%String.eqb_neq Hrow]%elem_of_filter_bool.
    rewrite dom_delete_L. apply elem_of_difference. split; [by apply Hf|].
    by intros ?%elem_of_singleton.
Qed.

(** ** New and updated rules are valid *)

Lemma validate_ok req : validateRuleRequest req = None ->
  slugPattern (rq_ID req) = true /\ rq_Name req <> "" /\ rq_Metric req <> "" /\
  validOperator (rq_Operator req) = true /\ validSeverity (rq_Severity req) = true.
Proof.
  unfold validateRuleRequest.
  destruct (String.eqb (rq_ID req) ""); [done|].
  destruct (slugPattern (rq_ID req)); [|done]. cbn.
  destruct (String.eqb_spec (rq_Name req) ""); [done|].
  destruct (String.eqb_spec (rq_Metric req) ""); [done|].
  destruct (validOperator (rq_Operator req)); [|done]. cbn.
  destruct (String.eqb (rq_Severity req) ""); [done|].
  by destruct (validSeverity (rq_Severity req)).
Qed.

Lemma positive_or_pos z c k : 0 < k -> 0 < positive_or z c k.
Proof. unfold positive_or. intros ?. destr_ifs; zb; lia. Qed.

Lemma new_rule_valid cfg req :
  validateRuleRequest req = None -> rowAllowed (new_rule cfg req) = true ->
  rule_valid (new_rule cfg req).
Proof.
  intros (? & ? & ? & ? & ?)%validate_ok Ha.
  by split; try done; cbn; apply positive_or_pos.
Qed.

Lemma orElse_pos z old : 0 < old -> 0 < orElse (0 <? z) z old.
Proof. unfold orElse. intros ?. destr_ifs; zb; lia. Qed.

Lemma orElse_nonempty s old : old <> "" -> orElse (nonempty s) s old <> "".
Proof. unfold orElse. intros ?. destruct (nonempty s) eqn:E; [by apply nonempty_spec|done]. Qed.

(** The row an update writes: that of the request with the source of the table. *)
Definition update_row (r : Rule) (source : string) : Rule :=
  mkRule (r_ID r) (r_Name r) (r_Description r) (r_Metric r) (r_Operator r) (r_Threshold r)
    (r_Severity r) (r_Labels r) (r_ConsecutiveCount r) (r_CooldownMinutes r) (r_Channels r)
    source (r_Enabled r) "" false 0.

Lemma updated_spec req r r' : updated_rule req r = Ok r' ->
  r_ID r' = r_ID r /\ r_Source r' = r_Source r /\
  (forall src, rule_valid r -> rowAllowed (update_row r' src) = true -> rule_valid (update_row r' src)) /\
  (forall b, same_identity b r -> same_identity b (update_row r' SourceBuiltin)).
Proof.
  unfold updated_rule. destruct (String.eqb_spec (r_Source r) SourceBuiltin) as [Hs|Hs].
  - intros [= <-]. cbn. do 2 (split; [done|]). split.
    + intros src [] Ha. split; cbn; try done; by apply orElse_pos.
    + intros b []. by split.
  - unfold update_custom. destr_ifs; try done. intros [= <-]. cbn. do 2 (split; [done|]). split.
    + intros src [] Ha. split; cbn; try done; try (by apply orElse_pos); by apply orElse_nonempty.
    + intros b Hb. destruct Hs. apply Hb.
Qed.

(** ** One request *)

Section requests.
Context {SS : SliceSort} {MR : MapRange} (quote : string -> string) (cfg : AlertingConfig).

Definition serve_request (f : Faults) (s : AlertsServer) (req : request)
    : AlertsServer * response alertsBody :=
  match req with
  | CreateRule body => handleCreateAlertRule quote cfg f s body
  | UpdateRule id body => handleUpdateAlertRule quote f s id body
  | DeleteRule id => handleDeleteAlertRule quote f s id
  end.

(** *** What one request does *)

(** The effect of a request that is carried out on the table and the history rows. *)
Definition effect (s s' : AlertsServer) (req : request) (answer : alertsBody) : Prop :=
  let t := ad_rules (as_db s) in let t' := ad_rules (as_db s') in
  let rows := pg_rows (ad_history (as_db s)) in let rows' := pg_rows (ad_history (as_db s')) in
  match req with
  | CreateRule body =>
      exists q, body = Some q /\ validateRuleRequest q = None /\ t !! rq_ID q = None /\
        t' = <[rq_ID q := new_rule cfg q]> t /\ rows' = rows /\ answer = BRule (new_rule cfg q)
  | UpdateRule id body =>
      exists q r r', body = Some q /\ t !! id = Some r /\ updated_rule q r = Ok r' /\
        t' = <[id := update_row r' (r_Source r)]> t /\ rows' = rows /\ answer = BRule r'
  | DeleteRule id =>
      exists r, t !! id = Some r /\ r_Source r <> SourceBuiltin /\ t' = delete id t /\
        rows' = List.filter (fun row => negb (String.eqb (e_RuleID row) id)) rows /\
        answer = BNoContent
  end.

Definition reloaded (f : Faults) (s s' : AlertsServer) : Prop :=
  match as_evaluator s, as_evaluator s' with
  | None, None => True
  | Some e, Some e' =>
      ev_state e' = ev_state e /\
      ev_rules e' = match f_reload f with
                    | None => rs_ListEnabled (ad_rules (as_db s')) | Some _ => ev_rules e end
  | _, _ => False
  end.

Lemma reload_reloaded f s s' : as_evaluator s' = as_evaluator s ->
  reloaded f s (reloadRules (f_reload f) s').
Proof.
  unfold reloaded, reloadRules. cbn. intros ->. destruct (as_evaluator s) as [e|]; [|done].
  by destruct (f_reload f).
Qed.

Lemma as_same s : mkAlertsServer (as_db s) (as_evaluator s) = s.
Proof. by destruct s. Qed.

Lemma rs_Create_cases t r :
  (t !! r_ID r = None /\ rowAllowed r = true /\ rs_Create t r = (<[r_ID r := persisted r]> t, None))
  \/ exists e, rs_Create t r = (t, Some e).
Proof.
  unfold rs_Create. destruct (bool_decide (t !! r_ID r = None)) eqn:E; cbn; [|by right; eexists].
  apply bool_decide_eq_true in E. destruct (rowAllowed r); [by left|by right; eexists].
Qed.

Lemma rs_Update_eq t r old : t !! r_ID r = Some old ->
  rs_Update t r = if rowAllowed (update_row r (r_Source old))
                  then (<[r_ID r := update_row r (r_Source old)]> t, None)
                  else (t, Some "update rule").
Proof. unfold rs_Update. by intros ->. Qed.

(** What a statement may write: the table checks the rest. *)
Definition write_ok (w : ruleWrite) : Prop :=
  match w with
  | WCreate r => persisted r = r /\ (rowAllowed r = true -> rule_valid r)
  | WUpdate r =>
      (forall src, rowAllowed (update_row r src) = true -> rule_valid (update_row r src)) /\
      (forall b, b ∈ BuiltinRules -> r_ID b = r_ID r -> same_identity b (update_row r SourceBuiltin))
  | WDelete id => forall b, b ∈ BuiltinRules -> r_ID b <> id
  end.

(** The effect of a statement on the tables. *)
Definition written (d d' : AlertDB) (w : ruleWrite) : Prop :=
  let t := ad_rules d in let rows := pg_rows (ad_history d) in
  match w with
  | WCreate r => t !! r_ID r = None /\ ad_rules d' = <[r_ID r := r]> t /\ pg_rows (ad_history d') = rows
  | WUpdate r =>
      ad_rules d' = match t !! r_ID r with
                    | Some old => <[r_ID r := update_row r (r_Source old)]> t | None => t end /\
      pg_rows (ad_history d') = rows
  | WDelete id =>
      ad_rules d' = delete id t /\
      pg_rows (ad_history d') = List.filter (fun row => negb (String.eqb (e_RuleID row) id)) rows
  end.

Lemma builtin_stored d b r : tables_ok d -> b ∈ BuiltinRules -> ad_rules d !! r_ID b = Some r ->
  same_identity b r.
Proof. intros Hd Hb Hl. destruct (to_builtin _ Hd b Hb) as (x & Hx & Hs). congruence. Qed.

(** A statement that is refused changes nothing, and one that runs keeps the tables. *)
Lemma db_write_cases d w : tables_ok d -> write_ok w ->
  (exists e, db_write None d w = (d, Some e)) \/
  exists d', db_write None d w = (d', None) /\ written d d' w /\ tables_ok d'.
Proof.
  intros Hd. destruct w as [r|r|id]; cbn [db_write write_ok].
  - intros [Hp Hv]. unfold db_Create. destruct (rule_texts r); cbn [negb]; [|left; by eexists].
    destruct (rs_Create_cases (ad_rules d) r) as [(Hn & Ha & ->)|[e ->]]; [|left; by eexists].
    rewrite Hp. right. eexists. split; [reflexivity|]. split; [done|].
    apply tables_put; [done|by apply Hv|].
    intros b Hb Heq. destruct (to_builtin _ Hd b Hb) as (x & Hx & _). congruence.
  - intros [Hv Hid]. unfold db_Update. destruct (rule_texts r); cbn [negb]; [|left; by eexists].
    destruct (ad_rules d !! r_ID r) as [old|] eqn:El.
    2:{ right. unfold rs_Update. rewrite El. eexists. split; [reflexivity|]. split; [by cbn; rewrite El|].
        by destruct d. }
    rewrite (rs_Update_eq _ r old El).
    destruct (rowAllowed (update_row r (r_Source old))) eqn:Ea; cbv zeta iota beta.
    + right. eexists. split; [reflexivity|]. split; [by cbn; rewrite El|].
      change (r_ID r) with (r_ID (update_row r (r_Source old))) at 1.
      apply tables_replace; [done|by apply elem_of_dom_2 in El|by apply Hv|].
      intros b Hb Heq. change (r_ID (update_row r (r_Source old))) with (r_ID r) in Heq.
      rewrite <- Heq in El. pose proof (builtin_stored d b old Hd Hb El) as Hs.
      rewrite (si_source _ _ Hs). by apply Hid.
    + left. eexists. by destruct d.
  - intros Hid. right. eexists. split; [reflexivity|]. split; [done|].
    by apply tables_delete.
Qed.

(** What is checked before the statement is sent. *)
Definition checked_ok (read : option error) (d : AlertDB) (req : request) (w : ruleWrite) : Prop :=
  match req with
  | CreateRule body => exists q, body = Some q /\ validateRuleRequest q = None /\ w = WCreate (new_rule cfg q)
  | UpdateRule id body => exists q r r', body = Some q /\ ad_rules d !! id = Some r /\
      updated_rule q r = Ok r' /\ r_ID r' = id /\ w = WUpdate r'
  | DeleteRule id => exists r, ad_rules d !! id = Some r /\ r_Source r <> SourceBuiltin /\ w = WDelete id
  end.

Lemma checked_cases read d req : tables_ok d ->
  (exists code e, checked_write quote cfg read d req = inl (RError code e) /\ 300 <= code) \/
  exists w, checked_write quote cfg read d req = inr w /\ checked_ok read d req w /\ write_ok w.
Proof.
  intros Hd. destruct req as [body|id body|id]; cbn [checked_write checked_ok].
  - unfold create_write. destruct body as [q|]; [|left; by do 2 eexists].
    destruct (validateRuleRequest q) as [e|] eqn:Ev; [left; by do 2 eexists|].
    right. eexists. split; [reflexivity|]. split; [by exists q|]. split; [done|].
    by apply new_rule_valid.
  - unfold update_write, db_Get, rs_Get. destruct read; [left; by do 2 eexists|].
    destruct (ad_rules d !! id) as [r|] eqn:El; [|left; by do 2 eexists].
    destruct body as [q|]; [|left; by do 2 eexists].
    destruct (updated_rule q r) as [r'|e] eqn:Eu; [|left; by do 2 eexists].
    destruct (updated_spec q r r' Eu) as (Hid & _ & Hval & Hsame).
    destruct (to_rows _ Hd id r El) as [Hrid Hrv]. rewrite Hrid in Hid.
    right. eexists. split; [reflexivity|]. split; [by exists q, r, r'|]. split; [by auto|].
    intros b Hb Heq. apply Hsame, (builtin_stored d b r Hd Hb). congruence.
  - unfold delete_write, db_Get, rs_Get. destruct read; [left; by do 2 eexists|].
    destruct (ad_rules d !! id) as [r|] eqn:El; [|left; by do 2 eexists].
    destruct (String.eqb_spec (r_Source r) SourceBuiltin) as [Hs|Hs]; [left; by do 2 eexists|].
    right. eexists. split; [reflexivity|]. split; [by exists r|].
    intros b Hb <-. apply Hs, (si_source b r), (builtin_stored d b r Hd Hb El).
Qed.

Lemma serve_request_eq f s req :
  serve_request f s req = carry_out quote f s (checked_write quote cfg (f_read f) (as_db s) req).
Proof. by destruct req. Qed.

Lemma db_write_fault e d w : exists e', db_write (Some e) d w = (d, Some e').
Proof. destruct w; by eexists. Qed.

Lemma effect_written f s req w s' code answer : checked_ok (f_read f) (as_db s) req w ->
  written (as_db s) (as_db s') w -> write_done w = RJSON code answer ->
  effect s s' req answer.
Proof.
  destruct req as [body|id body|id]; cbn [checked_ok].
  - intros (q & -> & Hv & ->) (Hn & Ht & Hr) [= _ <-]. exists q. by split_and!.
  - intros (q & r & r' & -> & Hl & Hu & Hid & ->) (Ht & Hr) [= _ <-]. rewrite Hid, Hl in Ht.
    exists q, r, r'. by split_and!.
  - intros (r & Hl & Hs & ->) (Ht & Hr) [= _ <-]. exists r. by split_and!.
Qed.

Lemma write_answers w : (exists code e, write_failed quote w = RError code e /\ 300 <= code) /\
  exists code b, write_done w = RJSON code b /\ code < 300.
Proof. destruct w; split; do 2 eexists; done. Qed.

Lemma serve_cases f s req : tables_ok (as_db s) ->
  let '(s', resp) := serve_request f s req in
  (exists code e, resp = RError code e /\ 300 <= code /\ s' = s) \/
  (exists code b, resp = RJSON code b /\ code < 300 /\ f_write f = None /\
     effect s s' req b /\ reloaded f s s' /\ tables_ok (as_db s')).
Proof.
  intros Hd. rewrite serve_request_eq. unfold carry_out.
  destruct (checked_cases (f_read f) (as_db s) req Hd) as [(code & e & -> & Hc)|(w & -> & Hok & Hw)].
  { left. by exists code, e. }
  destruct (write_answers w) as [(c1 & e1 & Hf & Hc1) (c2 & b2 & Hdn & Hc2)].
  destruct (f_write f) as [e|] eqn:Ef.
  { destruct (db_write_fault e (as_db s) w) as [e' ->]. left. rewrite Hf, as_same. by exists c1, e1. }
  destruct (db_write_cases (as_db s) w Hd Hw) as [[e ->]|(d' & -> & Hwr & Hd')].
  { left. rewrite Hf, as_same. by exists c1, e1. }
  right. rewrite Hdn. exists c2, b2. do 3 (split; [done|]).
  split; [by apply (effect_written f s req w _ c2 b2 Hok)|]. split; [by apply reload_reloaded|done].
Qed.
(** ** Starts and history operations *)

(** What seeding needs: no custom rule has the id of a builtin one. *)
Record tables_open (d : AlertDB) : Prop := {
  tp_rows : forall id r, ad_rules d !! id = Some r -> r_ID r = id /\ rule_valid r;
  tp_builtin : forall b r, b ∈ BuiltinRules -> ad_rules d !! r_ID b = Some r ->
    r_Source r = SourceBuiltin;
  tp_refs : forall row, row ∈ pg_rows (ad_history d) -> e_RuleID row ∈ dom (ad_rules d)
}.

Lemma tables_ok_open d : tables_ok d -> tables_open d.
Proof.
  intros [Hr Hb Hi Hf]. split; [done| |done].
  intros b r Hin Hl. destruct (Hb b Hin) as (x & Hx & Hs). rewrite Hl in Hx. injection Hx as ->.
  apply Hs.
Qed.

Lemma builtin_by_id id b : list_find (fun r => r_ID r = id) BuiltinRules = Some b ->
  b.2 ∈ BuiltinRules /\ r_ID b.2 = id.
Proof.
  destruct b as [i b]. intros (Hl & Hid & _)%list_find_Some. split; [|done].
  by apply list_elem_of_lookup_2 in Hl.
Qed.

Lemma builtin_found b : b ∈ BuiltinRules ->
  exists i, list_find (fun r => r_ID r = r_ID b) BuiltinRules = Some (i, b).
Proof.
  intros Hb. destruct (list_find_elem_of (fun r => r_ID r = r_ID b) BuiltinRules b Hb eq_refl) as [[i x] E].
  exists i. rewrite E. destruct (builtin_by_id _ _ E) as [Hx Hid]. cbn in Hx, Hid.
  pose proof builtin_nodup as Hn.
  apply list_elem_of_lookup in Hb as [j Hj]. apply list_elem_of_lookup in Hx as [k Hk].
  assert (j = k) as ->.
  { eapply NoDup_lookup; [exact Hn| |]; rewrite list_lookup_fmap; [by rewrite Hj|].
    rewrite Hk. cbn. by rewrite Hid. }
  congruence.
Qed.

Lemma upsert_ok b o : b ∈ BuiltinRules ->
  (forall r, o = Some r -> r_ID r = r_ID b /\ rule_valid r /\ r_Source r = SourceBuiltin) ->
  rule_valid (upsertRow o b) /\ same_identity b (upsertRow o b).
Proof.
  intros Hb Ho. pose proof (builtin_valid b Hb) as Hv. pose proof (builtin_source b Hb) as Hs.
  destruct o as [r|]; cbn.
  - destruct (Ho r eq_refl) as (Hid & Hr & Hsr). rewrite decide_True by done.
    split; [|by split].
    destruct Hv as [? ? ? Ha _ _], Hr as [? _ _ Ha' ? ?]. split; cbn; try done.
    apply rowAllowed_iff in Ha as (? & _ & _ & ? & _), Ha' as (_ & ? & ? & _ & ?).
    by apply rowAllowed_iff.
  - split; [|by split]. by destruct Hv.
Qed.

Section seeding.
Context (l : list Rule) (d : AlertDB).
Context (Hsub : forall b, b ∈ l -> b ∈ BuiltinRules) (Hnd : NoDup (map r_ID l)) (Hopen : tables_open d).

Lemma seeded_lookup id : (seeded l d).2 = None /\
  ad_rules (seeded l d).1 !! id = match list_find (fun r => r_ID r = id) l with
                                  | Some (_, r) => Some (upsertRow (ad_rules d !! id) r)
                                  | None => ad_rules d !! id end.
Proof.
  unfold seeded. assert (forallb rowAllowed l = true) as Ha.
  { apply forallb_forall. intros r Hr%list_elem_of_In%Hsub%list_elem_of_In.
    by apply (proj1 (forallb_forall _ _) builtin_allowed). }
  destruct (seed_lookup l (ad_rules d) id Ha Hnd) as [H1 H2]. by destruct (seedRules (ad_rules d) l).
Qed.

(** A row after the seeding: that of a seeded rule, or the old one. *)
Lemma seeded_row id :
  (exists b, b ∈ l /\ r_ID b = id /\ ad_rules (seeded l d).1 !! id = Some (upsertRow (ad_rules d !! id) b) /\
     rule_valid (upsertRow (ad_rules d !! id) b) /\ same_identity b (upsertRow (ad_rules d !! id) b)) \/
  (forall b, b ∈ l -> r_ID b <> id) /\ ad_rules (seeded l d).1 !! id = ad_rules d !! id.
Proof.
  destruct (seeded_lookup id) as [_ Hl]. destruct (list_find _ l) as [[i b]|] eqn:Ef.
  - left. apply list_find_Some in Ef as (Hi & Hid & _). apply list_elem_of_lookup_2 in Hi.
    exists b. split; [done|]. split; [done|]. split; [done|]. apply upsert_ok; [by apply Hsub|].
    intros r Hr. destruct (tp_rows _ Hopen id r Hr) as [? ?]. split; [congruence|]. split; [done|].
    rewrite <- Hid in Hr. by apply (tp_builtin _ Hopen b r); [apply Hsub|].
  - right. split; [|done]. apply list_find_None in Ef. rewrite list.Forall_forall in Ef. exact Ef.
Qed.

Lemma seeded_dom row : row ∈ pg_rows (ad_history d) -> e_RuleID row ∈ dom (ad_rules (seeded l d).1).
Proof.
  intros [x Hx]%(tp_refs _ Hopen)%elem_of_dom. apply elem_of_dom.
  destruct (seeded_row (e_RuleID row)) as [(b & _ & _ & -> & _)|[_ ->]]; by eexists.
Qed.

Lemma seeded_history : pg_rows (ad_history (seeded l d).1) = pg_rows (ad_history d) /\
  pg_ruleIDs (ad_history (seeded l d).1) = dom (ad_rules (seeded l d).1).
Proof. unfold seeded. by destruct (seedRules _ _). Qed.

Lemma seeded_open : tables_open (seeded l d).1.
Proof.
  destruct seeded_history as [Hrows _]. split.
  - intros id r Hl. destruct (seeded_row id) as [(b & _ & Hid & Hb & Hv & Hs)|[_ He]].
    + assert (r = upsertRow (ad_rules d !! id) b) as -> by congruence. split; [|done].
      rewrite (si_id _ _ Hs). done.
    + rewrite He in Hl. by apply (tp_rows _ Hopen).
  - intros b r Hb Hl. destruct (seeded_row (r_ID b)) as [(b' & _ & Hid & Hb' & _ & Hs)|[_ He]].
    + assert (r = upsertRow (ad_rules d !! r_ID b) b') as -> by congruence. apply Hs.
    + rewrite He in Hl. by apply (tp_builtin _ Hopen b).
  - intros row. rewrite Hrows. apply seeded_dom.
Qed.

(** Every builtin rule is there when all are seeded, or when it was there before. *)
Lemma seeded_ok : (forall b, b ∈ BuiltinRules -> b ∈ l \/
    exists r, ad_rules d !! r_ID b = Some r /\ same_identity b r) -> tables_ok (seeded l d).1.
Proof.
  intros Hall. destruct seeded_open as [Hr Hb Hf]. destruct seeded_history as [_ Hids].
  split; [done| |done|done].
  intros b Hin. destruct (seeded_row (r_ID b)) as [(b' & Hb' & Hid & Hl & _ & Hs)|[Hno Hl]].
  - assert (b' = b) as ->; [|by eexists].
    destruct (builtin_found b Hin) as [i Ei]. destruct (builtin_found b' (Hsub _ Hb')) as [j Ej].
    rewrite Hid in Ej. congruence.
  - destruct (Hall b Hin) as [Hb'|(r & Hx & Hs)]; [by destruct (Hno b Hb')|].
    exists r. split; [|done]. by rewrite Hl.
Qed.
End seeding.

Lemma seed_prefix n : (forall b, b ∈ take n BuiltinRules -> b ∈ BuiltinRules) /\
  NoDup (map r_ID (take n BuiltinRules)).
Proof.
  split.
  - intros b. apply subseteq_take.
  - assert (map r_ID (take n BuiltinRules) = take n (map r_ID BuiltinRules)) as ->.
    { symmetry. apply firstn_map. }
    eapply sublist_NoDup; [apply builtin_nodup|]. apply sublist_take.
Qed.

(** What a start leaves in the tables, whether it succeeds or not. *)
Lemma start_ok f d : tables_open d ->
  let '(d', e) := startAlerting f d in
  tables_open d' /\ (tables_ok d -> tables_ok d') /\
  (is_Some e -> tables_ok d') /\
  forall e', e = Some e' -> ev_rules e' = rs_ListEnabled (ad_rules d').
Proof.
  intros Hd.
  assert (forall n e, db_Seed (Some (n, e)) d = ((seeded (take n BuiltinRules) d).1, Some e)) as Hpart by done.
  assert (forall n, tables_open (seeded (take n BuiltinRules) d).1 /\
    (tables_ok d -> tables_ok (seeded (take n BuiltinRules) d).1)) as Hpre.
  { intros n. destruct (seed_prefix n) as [H1 H2]. split; [by apply seeded_open|].
    intros Hok. apply seeded_ok; [done..|]. intros b Hb. right. by apply (to_builtin _ Hok). }
  assert (tables_ok (seeded BuiltinRules d).1) as Hfull.
  { apply seeded_ok; [done|apply builtin_nodup|done|]. intros b Hb. by left. }
  unfold startAlerting. destruct (sf_seed f) as [[n e]|].
  { rewrite Hpart. destruct (Hpre n) as [H1 H2]. split_and!; [done|done|by intros [? ?]|done]. }
  unfold db_Seed. pose proof (proj1 (seeded_lookup BuiltinRules d (fun b Hb => Hb) builtin_nodup "")) as Hn.
  destruct (seeded BuiltinRules d) as [d' e]. cbn [fst snd] in *. subst e.
  unfold db_ListEnabled, LoadRules.
  assert (tables_open d' /\ (tables_ok d -> tables_ok d')) as [Ho Hk] by (split; [by apply tables_ok_open|done]).
  destruct (sf_load f); [split_and!; try done; by intros [? ?]|].
  destruct (sf_restore f); [split_and!; try done; by intros [? ?]|].
  unfold RestoreState. cbn [ahs_ListUnresolved PGAlertHistoryStore].
  destruct (pg_ListUnresolved (ad_history d')); [|split_and!; try done; by intros [? ?]].
  split_and!; [done|done|done|]. intros e' [= <-]. done.
Qed.

Lemma history_ok d h' :
  tables_ok d -> pg_ruleIDs h' = pg_ruleIDs (ad_history d) ->
  (forall row, row ∈ pg_rows h' -> (exists row', row' ∈ pg_rows (ad_history d) /\
      e_RuleID row = e_RuleID row') \/ e_RuleID row ∈ pg_ruleIDs (ad_history d)) ->
  tables_ok (mkAlertDB (ad_rules d) h').
Proof.
  intros [Hr Hb Hi Hf] Hids Hrows. split; cbn; [done|done|congruence|].
  intros row [(row' & Hin & ->)|Hin]%Hrows; [by apply Hf|congruence].
Qed.

Lemma history_ops_ok d : tables_ok d ->
  (forall e, tables_ok (mkAlertDB (ad_rules d) (pg_Record (ad_history d) e).1)) /\
  (forall r i t, tables_ok (mkAlertDB (ad_rules d) (pg_Resolve (ad_history d) r i t).1)) /\
  (forall age now, tables_ok (mkAlertDB (ad_rules d) (pg_Cleanup (ad_history d) age now).1)).
Proof.
  intros Hd. split_and!; intros; (apply history_ok; [done| |]).
  - unfold pg_Record. by destruct (_ && _).
  - unfold pg_Record. destruct (_ && _) eqn:E; [|intros row Hrow; left; by exists row].
    intros row [Hrow|Hrow]%elem_of_app; cbn; [left; by exists row|].
    apply list_elem_of_singleton in Hrow as ->. right.
    by apply andb_true_iff in E as [[_ ?%bool_decide_eq_true]%andb_true_iff _].
  - unfold pg_Resolve. by destruct (pg_online _).
  - unfold pg_Resolve. destruct (pg_online _); [|intros row Hrow; left; by exists row].
    intros row (row' & -> & Hin)%list_elem_of_fmap. left. exists row'. split; [done|].
    by destruct (_ && _).
  - unfold pg_Cleanup. by destruct (pg_online _).
  - unfold pg_Cleanup. destruct (pg_online _); [|intros row Hrow; left; by exists row].
    intros row [_ Hin]%elem_of_filter_bool. left. by exists row.
Qed.

(** ** Overlapping requests *)

Abbreviation step := (step quote cfg).
Abbreviation run := (run quote cfg).

Definition phase_ok (ph : phase) : Prop := match ph with ToWrite w => write_ok w | _ => True end.

(** The tables can be seeded, and while a process runs they are complete and only proper statements are
    pending. *)
Record system_ok (y : AlertSystem) : Prop := {
  so_open : tables_open (sy_db y);
  so_up : forall p, sy_process y = Some p -> tables_ok (sy_db y) /\ Forall phase_ok (pr_requests p)
}.

Lemma write_step_ok o d w : tables_ok d -> write_ok w ->
  tables_ok (write_step quote o d w).1 /\ phase_ok (write_step quote o d w).2.
Proof.
  intros Hd Hw. unfold write_step.
  destruct (db_write_cases d w Hd Hw) as [[e ->]|(d' & -> & _ & Hd')]; by destruct o.
Qed.

Lemma requests_set p i ph : Forall phase_ok (pr_requests p) -> phase_ok ph ->
  Forall phase_ok (pr_requests (set_request i ph p)).
Proof. intros Hp Hph. cbn. by apply Forall_insert. Qed.

Lemma step_ok y ev y' : system_ok y -> step y ev = Some y' ->
  system_ok y' /\ (tables_ok (sy_db y) -> tables_ok (sy_db y')).
Proof.
  intros [Ho Hup] Hs.
  assert (forall d p, tables_ok d -> Forall phase_ok (pr_requests p) ->
    y' = mkAlertSystem d (Some p) ->
    system_ok y' /\ (tables_ok (sy_db y) -> tables_ok (sy_db y'))) as Hdone.
  { intros d p Hd Hp ->. split; [|done]. split; cbn; [by apply tables_ok_open|]. by intros ? [= <-]. }
  destruct ev as [f|read req|i o|i fault|i|e|r i t|age now]; cbn [AlertApi.step] in Hs.
  { injection Hs as <-. unfold start_step. pose proof (start_ok f (sy_db y) Ho) as H.
    destruct (startAlerting f (sy_db y)) as [d' e]. destruct H as (H1 & H2 & H3 & _). split; [|done].
    split; cbn; [done|]. intros p Hp. destruct e as [e|]; [|done]. injection Hp as <-.
    split; [by apply H3|constructor]. }
  all: destruct (sy_process y) as [p|]; [|done]; destruct (Hup p eq_refl) as [Hd Hp];
    cbn [mbind option_bind request_step] in Hs.
  - injection Hs as <-. refine (Hdone _ _ _ _ eq_refl); [done| ]. cbn. apply Forall_app. split; [done|].
    apply Forall_singleton. unfold arrival.
    destruct (checked_cases read (sy_db y) req Hd) as [(? & ? & -> & _)|(w & -> & _ & Hw)]; done.
  - destruct (pr_requests p !! i) as [[w| | |]|] eqn:Ei; try done.
    pose proof (proj1 (Forall_lookup _ _) Hp i _ Ei) as Hw. cbn in Hw.
    destruct (write_step_ok o (sy_db y) w Hd Hw) as [H1 H2].
    destruct (write_step quote o (sy_db y) w) as [d' ph]. injection Hs as <-.
    refine (Hdone _ _ _ _ eq_refl); [exact H1|by apply requests_set].
  - destruct (pr_requests p !! i) as [[| w | |]|]; try done. injection Hs as <-.
    refine (Hdone _ _ Hd _ eq_refl). by apply requests_set.
  - destruct (pr_requests p !! i) as [[| | w listed |]|]; try done. injection Hs as <-.
    refine (Hdone _ _ _ _ eq_refl); [exact Hd| ]. apply Forall_insert; [exact Hp|exact I].
  - injection Hs as <-. refine (Hdone _ _ _ _ eq_refl); [apply (history_ops_ok _ Hd)|exact Hp].
  - injection Hs as <-. refine (Hdone _ _ _ _ eq_refl); [apply (history_ops_ok _ Hd)|exact Hp].
  - injection Hs as <-. refine (Hdone _ _ _ _ eq_refl); [apply (history_ops_ok _ Hd)|exact Hp].
Qed.

Lemma run_ok evs : forall y y', system_ok y -> run y evs = Some y' ->
  system_ok y' /\ (tables_ok (sy_db y) -> tables_ok (sy_db y')).
Proof.
  induction evs as [|ev evs IH]; intros y y' Hy; cbn.
  - by intros [= <-].
  - destruct (step y ev) as [y1|] eqn:E; [|done]. cbn. intros Hr.
    destruct (step_ok y ev y1 Hy E) as [H1 Hs1]. destruct (IH y1 y' H1 Hr) as [H2 Hs2]. auto.
Qed.

Lemma run_app evs1 evs2 y : run y (evs1 ++ evs2) = run y evs1 ≫= (fun y1 => run y1 evs2).
Proof.
  revert y. induction evs1 as [|ev evs1 IH]; intros y; [done|]. cbn.
  destruct (step y ev) as [y1|]; [|done]. cbn. apply IH.
Qed.

(** *** The rules of the evaluator *)

Definition is_start (ev : event) : bool := match ev with Started _ => true | _ => false end.

(** [l] are the enabled rules that the table had at some moment since the last start. *)
Definition listed_at (y0 : AlertSystem) (evs : list event) (l : list Rule) : Prop :=
  exists evs1 evs2 y1, evs = evs1 ++ evs2 /\ run y0 evs1 = Some y1 /\ is_Some (sy_process y1) /\
    Forall (fun ev => is_start ev = false) evs2 /\ l = rs_ListEnabled (ad_rules (sy_db y1)).

Lemma listed_later y0 evs ev l : is_start ev = false -> listed_at y0 evs l -> listed_at y0 (evs ++ [ev]) l.
Proof.
  intros Hev (evs1 & evs2 & y1 & -> & H1 & H2 & H3 & ->). exists evs1, (evs2 ++ [ev]), y1.
  rewrite <- app_assoc. split_and!; try done. apply Forall_app. split; [done|]. by apply Forall_singleton.
Qed.

Lemma evaluator_listed y0 evs : sy_process y0 = None -> system_ok y0 -> forall y p,
  run y0 evs = Some y -> sy_process y = Some p ->
  listed_at y0 evs (ev_rules (pr_evaluator p)) /\
  forall i w l, pr_requests p !! i = Some (ToInstall w (Ok l)) -> listed_at y0 evs l.
Proof.
  intros H0 Hok0. induction evs as [|ev evs IH] using rev_ind; intros y p Hr Hp.
  { cbn in Hr. congruence. }
  rewrite run_app in Hr. destruct (run y0 evs) as [y1|] eqn:E1; [|done]. cbn [mbind option_bind] in Hr.
  assert (step y1 ev = Some y) as Hs by (cbn in Hr; by destruct (step y1 ev)).
  assert (listed_at y0 (evs ++ [ev]) (rs_ListEnabled (ad_rules (sy_db y)))) as Hnow.
  { exists (evs ++ [ev]), [], y. rewrite app_nil_r. split_and!; [done| |by eexists|done|done].
    by rewrite run_app, E1. }
  pose proof (fun l H => listed_later y0 evs ev l H) as Hlater.
  destruct ev as [f|read req|i o|i fault|i|e|r i t|age now]; cbn [AlertApi.step] in Hs.
  { injection Hs as <-. unfold start_step in *.
    pose proof (start_ok f (sy_db y1) (so_open _ (proj1 (run_ok evs y0 y1 Hok0 E1)))) as H.
    destruct (startAlerting f (sy_db y1)) as [d' e]. destruct H as (_ & _ & _ & H).
    destruct e as [e|]; [|done]. injection Hp as <-. cbn. split; [by rewrite (H e eq_refl)|].
    intros i w l Hl. by rewrite lookup_nil in Hl. }
  all: destruct (sy_process y1) as [p1|] eqn:Ep1; [|done]; destruct (IH y1 p1 eq_refl Ep1) as [Hev Hreq];
    cbn [mbind option_bind request_step] in Hs; apply (Hlater _ eq_refl) in Hev.
  all: try (injection Hs as <-; injection Hp as <-; split; [exact Hev|]; intros j w l Hj;
    by apply (Hlater _ eq_refl), (Hreq j w l)).
  - injection Hs as <-. injection Hp as <-. split; [exact Hev|]. cbn. intros j w l Hj.
    apply lookup_app_Some in Hj as [Hj|[_ Hj]]; [by apply (Hlater _ eq_refl), (Hreq j w l)|].
    unfold arrival in Hj. destruct (checked_write _ _ _ _ _);
      destruct (j - length (pr_requests p1))%nat; cbn in Hj; try discriminate Hj;
      by rewrite lookup_nil in Hj.
  - destruct (pr_requests p1 !! i) as [[w0| | |]|]; try done.
    destruct (write_step quote o (sy_db y1) w0) as [d' ph] eqn:Ew. injection Hs as <-. injection Hp as <-.
    split; [exact Hev|]. cbn. intros j w l Hj.
    apply list_lookup_insert_Some in Hj as [(_ & Hph & _)|[_ Hj]]; [|by apply (Hlater _ eq_refl), (Hreq j w l)].
    exfalso. unfold write_step in Ew. destruct o, (db_write None (sy_db y1) w0) as [? [?|]];
      injection Ew as _ <-; discriminate Hph.
  - destruct (pr_requests p1 !! i) as [[|w0| |]|]; try done. injection Hs as <-. injection Hp as <-.
    split; [exact Hev|]. cbn. intros j w l Hj.
    apply list_lookup_insert_Some in Hj as [(_ & Hph & _)|[_ Hj]]; [|by apply (Hlater _ eq_refl), (Hreq j w l)].
    destruct fault as [e|]; [discriminate Hph|]. injection Hph as _ <-. exact Hnow.
  - destruct (pr_requests p1 !! i) as [[| |w0 listed|]|] eqn:Ei; try done. injection Hs as <-.
    injection Hp as <-. cbn. split.
    + destruct listed as [l|e]; [|exact Hev]. cbn. by apply (Hlater _ eq_refl), (Hreq i w0 l).
    + intros j w l Hj.
      apply list_lookup_insert_Some in Hj as [(_ & Hph & _)|[_ Hj]]; [discriminate Hph|].
      by apply (Hlater _ eq_refl), (Hreq j w l).
Qed.

(** *** When the evaluator is up to date *)

Definition up_to_date (y : AlertSystem) : Prop :=
  forall p, sy_process y = Some p -> ev_rules (pr_evaluator p) = rs_ListEnabled (ad_rules (sy_db y)).

(** Events that leave the rules of the table alone. *)
Definition no_write (ev : event) : bool := match ev with Started _ | Wrote _ _ => false | _ => true end.

Lemma no_write_step y ev y' p i ph : no_write ev = true -> sy_process y = Some p -> step y ev = Some y' ->
  pr_requests p !! i = Some ph ->
  ad_rules (sy_db y') = ad_rules (sy_db y) /\
  exists p', sy_process y' = Some p' /\
    (pr_requests p' !! i = Some ph \/ ev = Installed i \/ ev = Listed i None \/ exists e, ev = Listed i (Some e)).
Proof.
  intros Hn Hp Hs Hi. destruct ev as [f|read req|j o|j fault|j|e|r j t|age now]; try done;
    cbn [AlertApi.step] in Hs; rewrite Hp in Hs; cbn [mbind option_bind request_step] in Hs;
    try (injection Hs as <-; split; [done|]; eexists; split; [reflexivity|]; by left).
  - injection Hs as <-. split; [done|]. eexists. split; [reflexivity|]. left. cbn.
    by apply lookup_app_l_Some.
  - destruct (pr_requests p !! j) as [[| w | |]|] eqn:Ej; try done. injection Hs as <-. split; [done|].
    eexists. split; [reflexivity|]. destruct (decide (j = i)) as [->|Hj].
    + destruct fault as [e|]; [right; right; right; by exists e|by right; right; left].
    + left. cbn. by rewrite list_lookup_insert_ne.
  - destruct (pr_requests p !! j) as [[| | w listed|]|] eqn:Ej; try done. injection Hs as <-. split; [done|].
    eexists. split; [reflexivity|]. destruct (decide (j = i)) as [->|Hj]; [by right; left|].
    left. cbn. by rewrite list_lookup_insert_ne.
Qed.

(** A list on its way to the evaluator stays what the table holds while nothing is written, until it is
    put in place; then the request is answered for good. *)
Lemma no_write_run evs i w : forall y y' p,
  Forall (fun ev => no_write ev = true) evs -> sy_process y = Some p -> run y evs = Some y' ->
  (pr_requests p !! i = Some (ToInstall w (Ok (rs_ListEnabled (ad_rules (sy_db y))))) \/
   exists a, pr_requests p !! i = Some (Answered a)) ->
  exists p', sy_process y' = Some p' /\
    (pr_requests p' !! i = Some (ToInstall w (Ok (rs_ListEnabled (ad_rules (sy_db y'))))) \/
     exists a, pr_requests p' !! i = Some (Answered a)).
Proof.
  induction evs as [|ev evs IH]; intros y y' p Hn Hp Hr Hi; cbn in Hr.
  { injection Hr as <-. by exists p. }
  apply Forall_cons in Hn as [Hn1 Hn]. destruct (step y ev) as [y1|] eqn:Es; [|done]. cbn in Hr.
  assert (exists p1, sy_process y1 = Some p1 /\
    (pr_requests p1 !! i = Some (ToInstall w (Ok (rs_ListEnabled (ad_rules (sy_db y1))))) \/
     exists a, pr_requests p1 !! i = Some (Answered a))) as (p1 & Hp1 & H1); [|by eapply IH].
  destruct Hi as [Hi|[a Hi]].
  - destruct (no_write_step y ev y1 p i _ Hn1 Hp Es Hi) as (Hd & p1 & Hp1 & H).
    exists p1. split; [done|]. destruct H as [H|H]; [left; by rewrite Hd|].
    assert (ev = Installed i) as ->.
    { destruct H as [->|[->|[e ->]]]; [done| |]; cbn in Es; rewrite Hp in Es; cbn in Es;
        by rewrite Hi in Es. }
    cbn in Es. rewrite Hp in Es. cbn in Es. rewrite Hi in Es. injection Es as <-. injection Hp1 as <-.
    right. eexists. cbn. apply list_lookup_insert_eq. by apply lookup_lt_Some in Hi.
  - destruct (no_write_step y ev y1 p i _ Hn1 Hp Es Hi) as (_ & p1 & Hp1 & H).
    exists p1. split; [done|]. right. destruct H as [H|H]; [by exists a|].
    exfalso. destruct H as [->|[->|[e ->]]]; cbn in Es; rewrite Hp in Es; cbn in Es;
      by rewrite Hi in Es.
Qed.

Lemma reload_last y i evs y' : Forall (fun ev => no_write ev = true) evs ->
  run y (Listed i None :: evs ++ [Installed i]) = Some y' -> up_to_date y'.
Proof.
  intros Hn Hr. cbn in Hr. destruct (sy_process y) as [p|] eqn:Hp; [|done]. cbn in Hr.
  destruct (pr_requests p !! i) as [[| w | |]|] eqn:Ei; try done. cbn in Hr.
  rewrite run_app in Hr. match type of Hr with context [run ?s evs] => set (y1 := s) in Hr end.
  destruct (run y1 evs) as [y2|] eqn:E2; [|done]. cbn [mbind option_bind] in Hr.
  destruct (no_write_run evs i w y1 y2 _ Hn eq_refl E2) as (p2 & Hp2 & H).
  { left. cbn. apply list_lookup_insert_eq. by apply lookup_lt_Some in Ei. }
  cbn in Hr. rewrite Hp2 in Hr. cbn in Hr. destruct H as [H|[a H]]; rewrite H in Hr; [|done].
  cbn in Hr. injection Hr as <-. by intros p' [= <-].
Qed.

(** *** A request that meets no other *)

(** The steps of a request are those of its handler. *)
Lemma lone_request y p f req : sy_process y = Some p -> f_write f = None ->
  let s := mkAlertsServer (sy_db y) (Some (pr_evaluator p)) in
  let '(s', resp) := serve_request f s req in
  let n := length (pr_requests p) in
  exists evs e', run y (Arrived (f_read f) req :: evs)
      = Some (mkAlertSystem (as_db s') (Some (mkAlertProcess e' (pr_requests p ++ [Answered resp])))) /\
    as_evaluator s' = Some e' /\ (evs = [] \/ evs = [Wrote n Ran] \/ evs = [Wrote n Ran; Listed n (f_reload f); Installed n]).
Proof.
  intros Hp Hf s. rewrite serve_request_eq. unfold carry_out. rewrite Hf. cbn [as_db as_evaluator s].
  assert (forall ph, (pr_requests p ++ [ph]) !! length (pr_requests p) = Some ph) as Hlast.
  { intros ph. by rewrite lookup_app_r, Nat.sub_diag by lia. }
  assert (forall ph ph', <[length (pr_requests p) := ph']> (pr_requests p ++ [ph]) = pr_requests p ++ [ph'])
    as Hset.
  { intros ph ph'. rewrite <- (Nat.add_0_r (length (pr_requests p))). by rewrite insert_app_r. }
  destruct (checked_write quote cfg (f_read f) (sy_db y) req) as [a|w] eqn:Ec.
  - exists [], (pr_evaluator p). cbn. rewrite Hp. cbn. unfold arrival. rewrite Ec.
    split; [done|]. split; [done|by left].
  - destruct (db_write None (sy_db y) w) as [d [e|]] eqn:Ew.
    + exists [Wrote (length (pr_requests p)) Ran], (pr_evaluator p). cbn. rewrite Hp. cbn.
      unfold arrival. rewrite Ec, Hlast. cbn. unfold write_step. rewrite Ew. unfold set_request. cbn.
      rewrite Hset. split; [done|]. split; [done|by right; left].
    + exists [Wrote (length (pr_requests p)) Ran; Listed (length (pr_requests p)) (f_reload f);
              Installed (length (pr_requests p))]. eexists.
      cbn. rewrite Hp. cbn. unfold arrival. rewrite Ec, Hlast. cbn. unfold write_step. rewrite Ew.
      unfold set_request. cbn. rewrite Hset, Hlast. cbn. rewrite Hset, Hlast. cbn. rewrite Hset.
      split; [done|]. split; [done|by right; right].
Qed.

(** *** Properties *)

(** The first start finds an empty database. *)
Definition fresh (online : bool) : AlertSystem :=
  mkAlertSystem (mkAlertDB ∅ (mkPGHistory [] 1 ∅ online)) None.

Lemma fresh_ok online : system_ok (fresh online).
Proof. split; [|done]. split; cbn; try done. intros row H. by apply not_elem_of_nil in H. Qed.

Lemma listed_valid d : tables_ok d ->
  Forall (fun r => rule_valid r /\ r_Enabled r = true) (rs_ListEnabled (ad_rules d)).
Proof.
  intros Hd. apply list.Forall_forall. intros r. unfold rs_ListEnabled. rewrite sort_slice_perm.
  intros [He (kv & -> & Hkv)%list_elem_of_fmap]%elem_of_filter_bool. split; [|done].
  destruct kv as [id r]. rewrite map_range_perm, elem_of_map_to_list in Hkv. by apply (to_rows _ Hd id).
Qed.

(** C34: The alert rules stay sound whatever is asked of the API. From an empty database on, over any
    starts of the program (failed ones included, wherever the seeding stopped) and any interleaving of
    the steps of any number of requests that create, change or delete rules (each checks, writes,
    lists the rules and installs them; any statement may be refused, or take effect although its
    answer is lost) with the evaluator's writes to the history and the cleanup: every rule in the
    table has a slug as its key, a name, a metric, an operator, severity and source that the table
    allows and positive counts; every row of the history belongs to a rule; once a start has
    succeeded every builtin rule is there with its metric, operator, severity and source; and the
    evaluator always works with valid, enabled rules, namely those of the table at some moment since
    the start. It is up to date as soon as a reload that read the rules after the last write is the
    last one to install them; when reloads overlap this may fail, and stay so until the next one
    (overlapping_creates_stale). *)
Theorem alert_rules_stay_sound (online : bool) (events : list event) (y : AlertSystem) :
  run (fresh online) events = Some y ->
  (forall id r, ad_rules (sy_db y) !! id = Some r -> r_ID r = id /\ rule_valid r) /\
  (forall row, row ∈ pg_rows (ad_history (sy_db y)) -> e_RuleID row ∈ dom (ad_rules (sy_db y))) /\
  (forall evs1 evs2 y1, events = evs1 ++ evs2 -> run (fresh online) evs1 = Some y1 ->
     is_Some (sy_process y1) -> forall b, b ∈ BuiltinRules ->
     exists r, ad_rules (sy_db y) !! r_ID b = Some r /\ same_identity b r) /\
  (forall p, sy_process y = Some p ->
     Forall (fun r => rule_valid r /\ r_Enabled r = true) (ev_rules (pr_evaluator p)) /\
     listed_at (fresh online) events (ev_rules (pr_evaluator p))) /\
  (forall i evs y', Forall (fun ev => no_write ev = true) evs ->
     run y (Listed i None :: evs ++ [Installed i]) = Some y' -> up_to_date y').
Proof.
  intros Hr. destruct (run_ok events (fresh online) y (fresh_ok online) Hr) as [[[H1 _ H3] Hup] _].
  split_and!; [done|done| | |].
  - intros evs1 evs2 y1 -> Hr1 [p Hp] b Hb. rewrite run_app, Hr1 in Hr.
    destruct (run_ok evs1 _ y1 (fresh_ok online) Hr1) as [Hy1 _].
    destruct (run_ok evs2 y1 y Hy1 Hr) as [_ Hkeep].
    apply (to_builtin _ (Hkeep (proj1 (so_up _ Hy1 p Hp))) b Hb).
  - intros p Hp. destruct (evaluator_listed (fresh online) events eq_refl (fresh_ok online) y p Hr Hp)
      as [Hl _]. split; [|done].
    destruct Hl as (evs1 & evs2 & y1 & _ & Hr1 & [p1 Hp1] & _ & ->).
    apply listed_valid. destruct (run_ok evs1 _ y1 (fresh_ok online) Hr1) as [Hy1 _].
    by apply (so_up _ Hy1 p1).
  - intros i evs y' Hn Hrun. by apply (reload_last y i evs).
Qed.

End requests.

(** ** Concrete runs *)

#[local] Existing Instance canonical_MapRange.
#[local] Existing Instance insertion_SliceSort.

Definition no_faults : Faults := mkFaults None None None.
Definition demo_quote (s : string) : string := s.
Definition demo_cfg : AlertingConfig := mkAlertingConfig true 0 0 [] 5 30 "" None.

Definition empty_request : createRuleRequest :=
  mkRuleRequest "" "" "" "" "" f0 "" None 0 0 None None.

Definition demo_request : createRuleRequest :=
  mkRuleRequest "my-rule" "Mine" "" "pg.connections.total" ">" (f_of_Z 10) "info" None 0 0 None None.

Definition no_start_faults : StartFaults := mkStartFaults None None None.

(** A first start that breaks off after three rules, a second one, and two requests, the second of
    which is refused. *)
Definition demo_events : list event :=
  [ Started (mkStartFaults (Some (3%nat, "connection reset")) None None); Started no_start_faults;
    Arrived None (CreateRule (Some demo_request)); Wrote 0 Ran;
    Arrived None (DeleteRule "disk_forecast_critical"); Listed 0 None; Installed 0 ].

Definition demo_end : AlertSystem := default (fresh true) (run demo_quote demo_cfg (fresh true) demo_events).

Lemma demo_ran : run demo_quote demo_cfg (fresh true) demo_events = Some demo_end.
Proof.
  unfold demo_end. destruct (run demo_quote demo_cfg (fresh true) demo_events) eqn:E; [done|].
  assert (bool_decide (is_Some (run demo_quote demo_cfg (fresh true) demo_events)) = true) as H
    by (vm_compute; reflexivity).
  rewrite E in H. discriminate H.
Qed.

Lemma alert_rules_stay_sound_witness :
  (forall id r, ad_rules (sy_db demo_end) !! id = Some r -> r_ID r = id /\ rule_valid r) /\
  bool_decide (is_Some (sy_process demo_end)) = true /\
  bool_decide (is_Some (ad_rules (sy_db demo_end) !! "my-rule")) = true.
Proof.
  destruct (alert_rules_stay_sound demo_quote demo_cfg true demo_events demo_end demo_ran) as (H1 & _).
  split; [exact H1|]. vm_compute. done.
Defined.

Definition second_request : createRuleRequest :=
  mkRuleRequest "other-rule" "Other" "" "pg.connections.total" ">" (f_of_Z 20) "info" None 0 0 None None.

(** Two creations overlap. The first lists the rules before the second writes, and installs its list
    last: both are answered with success, no statement failed and nothing is pending, but the
    evaluator does not know the second rule, and no later evaluation makes it known. *)
Definition overlap : list event :=
  [ Started no_start_faults; Arrived None (CreateRule (Some demo_request));
    Arrived None (CreateRule (Some second_request));
    Wrote 0 Ran; Listed 0 None; Wrote 1 Ran; Listed 1 None; Installed 1; Installed 0 ].

Definition ids_of (l : list Rule) : list string :=
  List.filter (fun id => mem id ["my-rule"; "other-rule"]) (map r_ID l).

Lemma overlapping_creates_stale :
  option_map (fun y => (ids_of (rs_ListEnabled (ad_rules (sy_db y))),
      option_map (fun p => (ids_of (ev_rules (pr_evaluator p)),
         map (fun ph => match ph with Answered a => status_of a | _ => 0 end) (pr_requests p)))
        (sy_process y)))
    (run demo_quote demo_cfg (fresh true) overlap)
  = Some (["my-rule"; "other-rule"], Some (["my-rule"], [201; 201])).
Proof. vm_compute. reflexivity. Qed.

(** The server after a successful start. *)
Definition demo_server : AlertsServer :=
  let '(d, e) := startAlerting no_start_faults (mkAlertDB ∅ (mkPGHistory [] 1 ∅ true)) in mkAlertsServer d e.

Lemma demo_server_ok : tables_ok (as_db demo_server).
Proof.
  pose proof (start_ok no_start_faults _ (so_open _ (fresh_ok true))) as H.
  unfold demo_server. cbn [sy_db fresh] in H.
  assert (bool_decide (is_Some (startAlerting no_start_faults (mkAlertDB ∅ (mkPGHistory [] 1 ∅ true))).2) = true)
    as Hup by (vm_compute; reflexivity). apply bool_decide_eq_true in Hup.
  destruct (startAlerting no_start_faults _) as [d e]. by apply H.
Qed.


(** A count that the column cannot hold is answered as if the id were taken. *)
Lemma oversized_count_answers_duplicate :
  (handleCreateAlertRule demo_quote demo_cfg no_faults demo_server
    (Some (mkRuleRequest "my-rule" "Mine" "" "pg.connections.total" ">" (f_of_Z 10) "info" None
             (2 ^ 31) 0 None None))).2
  = writeError 409 "DUPLICATE_ID" "rule my-rule already exists" /\
  bool_decide (ad_rules (as_db demo_server) !! "my-rule" = None) = true.
Proof. vm_compute. done. Qed.

(** The metrics of one cycle go through the evaluator of the server. *)
Definition evaluated (s : AlertsServer) (connections : Z) : AlertsServer :=
  match as_evaluator s with
  | None => s
  | Some e =>
      let '(e', h, _) := @Evaluate insertion_SliceSort canonical_MapRange PGHistory
        (@PGAlertHistoryStore insertion_SliceSort) Second (fun _ => Second) e (ad_history (as_db s))
        [mkPoint "db1" "pg.connections.utilization_pct" (f_of_Z connections) ∅ 0] in
      mkAlertsServer (mkAlertDB (ad_rules (as_db s)) h) (Some e')
  end.

Definition active (s : AlertsServer) : list string :=
  match pg_ListUnresolved (ad_history (as_db s)) with Ok evs => map e_RuleID evs | Err _ => [] end.

Definition disable : request :=
  UpdateRule "connections_critical"
    (Some (mkRuleRequest "" "" "" "" "" f0 "" None 0 0 None (Some false))).

(** The alert of a rule that is disabled while it fires stays active although its condition
    clears: no rule of the evaluator looks at it again. *)
Lemma disabled_rule_stays_active :
  let s := evaluated demo_server 100 in
  let s' := (serve_request demo_quote demo_cfg no_faults s disable).1 in
  active s = ["connections_critical"] /\
  active (evaluated (evaluated s' 0) 0) = ["connections_critical"] /\
  active (evaluated (evaluated s 0) 0) = [].
Proof. vm_compute. done. Qed.
