(* ===== verification/InstancesApi.v ===== *)
(** * The API of instances

    Models internal/api/instances_crud.go and instances.go over the table of instances: masking
    of passwords, host and port of a DSN, the listing with its enrichment, creation, update,
    deletion, the CSV import and the connection test; and the seeding of the table from the
    configuration in cmd/pgpulse-server/main.go. [url_Parse] is [net/url.Parse] with the parts of
    a URL that the code reads and [url_String] the text of a URL; [quote] is the form %q of a
    string; [rfc3339] the form of a time. *)
From stdpp Require Import pretty.
From S2P Require Import Prelude Float64 GoText Metric Alert SqlConn Http Config Instances.

Local Open Scope Z_scope.

(** ** DSNs *)

Record Userinfo := mkUserinfo { ui_Username : string; ui_Password : option string }.

(** A parsed URL; [u_rest] stands for the parts the code does not look at. *)
Record URL := mkURL {
  u_Scheme : string;
  u_User : option Userinfo;
  u_Host : string;
  u_Hostname : string;
  u_Port : string;
  u_rest : string
}.

Definition set_user (ui : Userinfo) (u : URL) : URL :=
  mkURL (u_Scheme u) (Some ui) (u_Host u) (u_Hostname u) (u_Port u) (u_rest u).

Definition stars : string := "*****".

(** The loop over the fields of a key=value DSN. *)
Definition maskField (p : string) : string :=
  if has_prefix p "password=" then "password=" +:+ stars else p.

Definition maskKeyValue (dsn : string) : string :=
  if ContainsStr dsn "password=" then Join (map maskField (Fields dsn)) " " else dsn.

Definition keyValueStep (hp : string * Z) (part : string) : string * Z :=
  if has_prefix part "host=" then (TrimPrefix part "host=", hp.2)
  else if has_prefix part "port=" then
    match Atoi (TrimPrefix part "port=") with
    | (p, None) => (hp.1, p)
    | (_, Some _) => hp
    end
  else hp.

Definition parseKeyValueDSN (dsn : string) (defaultPort : Z) : string * Z :=
  foldl keyValueStep ("", defaultPort) (Fields dsn).

(** The port of a URL, 5432 when there is none or none that parses. *)
Definition url_port (u : URL) : Z :=
  if String.eqb (u_Port u) "" then 5432
  else match Atoi (u_Port u) with (p, None) => p | (_, Some _) => 5432 end.

Section dsn.
Context (url_Parse : string -> result URL) (url_String : URL -> string).

Definition mask_user (u : URL) : URL :=
  match u_User u with
  | Some ui => match ui_Password ui with
               | Some _ => set_user (mkUserinfo (ui_Username ui) (Some stars)) u
               | None => u
               end
  | None => u
  end.

Definition maskDSN (dsn : string) : string :=
  match url_Parse dsn with
  | Err _ => maskKeyValue dsn
  | Ok u => if String.eqb (u_Scheme u) "" then maskKeyValue dsn else url_String (mask_user u)
  end.

Definition parseHostPort (dsn : string) : string * Z :=
  match url_Parse dsn with
  | Ok u => if String.eqb (u_Host u) "" then parseKeyValueDSN dsn 5432
            else (u_Hostname u, url_port u)
  | Err _ => parseKeyValueDSN dsn 5432
  end.

Definition extractHostPort (dsn : string) : string * Z :=
  let keyValue :=
    let '(host, port) := parseKeyValueDSN dsn 0 in
    if String.eqb host "" then ("", 0) else (host, if port =? 0 then 5432 else port) in
  match url_Parse dsn with
  | Ok u => if String.eqb (u_Host u) "" then keyValue else (u_Hostname u, url_port u)
  | Err _ => keyValue
  end.

(** ** Responses *)

Record InstanceCRUDResponse := mkInstanceCRUD {
  icr_ID : string;
  icr_Name : string;
  icr_Host : string;
  icr_Port : Z;
  icr_DSN : string;
  icr_Enabled : bool;
  icr_Source : string;
  icr_MaxConns : Z;
  icr_CreatedAt : string;
  icr_UpdatedAt : string
}.

Context (rfc3339 : Time -> string) (quote : string -> string).

Definition toInstanceCRUDResponse (r : InstanceRecord) : InstanceCRUDResponse :=
  mkInstanceCRUD (ir_ID r) (ir_Name r) (ir_Host r) (ir_Port r) (maskDSN (ir_DSN r)) (ir_Enabled r)
    (ir_Source r) (ir_MaxConns r) (rfc3339 (ir_CreatedAt r)) (rfc3339 (ir_UpdatedAt r)).

Record InstanceResponse := mkInstanceResponse {
  irs_ID : string;
  irs_Name : string;
  irs_Host : string;
  irs_Port : Z;
  irs_Description : string;
  irs_Enabled : bool;
  irs_Source : string;
  irs_AgentAvailable : bool
}.

Definition instanceRecordToResponse (r : InstanceRecord) : InstanceResponse :=
  mkInstanceResponse (ir_ID r) (ir_Name r) (ir_Host r) (ir_Port r) "" (ir_Enabled r) (ir_Source r)
    false.

Definition toInstanceResponse (ic : InstanceConfig) : InstanceResponse :=
  let '(host, port) := extractHostPort (inc_DSN ic) in
  mkInstanceResponse (inc_ID ic) "" host port (inc_Description ic)
    (default true (inc_Enabled ic)) "" (negb (String.eqb (inc_AgentURL ic) "")).

(** What the connection test answers. *)
Inductive testAnswer :=
  | TestFailed (message : string)
  | TestSucceeded (version : string).

Inductive instancesBody :=
  | BInstances (items : list InstanceResponse) (count : Z)
  | BEnriched (items : list (InstanceResponse * gmap string float64 * gmap string Z)) (count : Z)
  | BInstance (i : InstanceResponse)
  | BStored (i : InstanceCRUDResponse)
  | BDeleted (id : string)
  | BImport (imported skipped : Z) (errors : list string)
  | BTest (answer : testAnswer).

(** ** Reading *)

Context {SS : SliceSort} {MR : MapRange}.

(** The instances of the store, or those of the configuration when the store fails. *)
Definition resolveInstanceList (store : option PGInstanceStore) (instances : list InstanceConfig)
    : list InstanceResponse :=
  match store with
  | Some st => match ins_List st with
               | Ok records => map instanceRecordToResponse records
               | Err _ => map toInstanceResponse instances
               end
  | None => map toInstanceResponse instances
  end.

Definition incr (m : gmap string Z) (k : string) : gmap string Z :=
  <[k := default 0 (m !! k) + 1]> m.

Definition buildAlertCounts (events : list AlertEvent) : gmap string (gmap string Z) :=
  foldl (fun result ev =>
    let counts := default ∅ (result !! e_InstanceID ev) in
    <[e_InstanceID ev := incr counts (e_Severity ev)]> result) ∅ events.

(** [currentValues] is CurrentMetricValues of the metrics querier, when the store has one. *)
Definition handleListInstances (store : option PGInstanceStore) (instances : list InstanceConfig)
    (unresolved : option (result (list AlertEvent)))
    (currentValues : option (string -> result (gmap string float64)))
    (includes : list string) : response instancesBody :=
  let includeMetrics := mem "metrics" includes in
  let includeAlerts := mem "alerts" includes in
  let responses := resolveInstanceList store instances in
  if negb includeMetrics && negb includeAlerts then
    writeJSON StatusOK (BInstances responses (len responses))
  else
    let counts := match includeAlerts, unresolved with
                  | true, Some (Ok events) => buildAlertCounts events
                  | _, _ => ∅
                  end in
    let metricsOf id := match includeMetrics, currentValues with
                        | true, Some f => match f id with Ok vals => vals | Err _ => ∅ end
                        | _, _ => ∅
                        end in
    let items := map (fun r => (r, metricsOf (irs_ID r), default ∅ (counts !! irs_ID r))) responses in
    writeJSON StatusOK (BEnriched items (len items)).

Definition handleGetInstance (store : option PGInstanceStore) (instances : list InstanceConfig)
    (id : string) : response instancesBody :=
  let fallback :=
    match List.find (fun inst => String.eqb (inc_ID inst) id) instances with
    | Some inst => writeJSON StatusOK (BInstance (toInstanceResponse inst))
    | None => writeError StatusNotFound "not_found" ("instance '" +:+ id +:+ "' not found")
    end in
  match store with
  | Some st => match ins_Get st id with
               | Ok (Some rec) => writeJSON StatusOK (BInstance (instanceRecordToResponse rec))
               | _ => fallback
               end
  | None => fallback
  end.

(** ** Writing *)

Definition noStore : response instancesBody :=
  writeError StatusServiceUnavailable "no_store" "instance store not available".

Definition instanceNotFound (id : string) : response instancesBody :=
  writeError StatusNotFound "not_found" ("instance " +:+ quote id +:+ " not found").

Record createInstanceRequest := mkCreateInstance {
  ci_ID : string;
  ci_Name : string;
  ci_DSN : string;
  ci_Enabled : option bool;
  ci_MaxConns : Z
}.

(** The record of a new instance. *)
Definition new_instance (id name dsn : string) (enabled : bool) (source : string) (maxConns : Z)
    : InstanceRecord :=
  let '(host, port) := parseHostPort dsn in
  mkInstance id name dsn host port enabled source maxConns zero_time zero_time.

Definition handleCreateInstance (now : Time) (store : option PGInstanceStore)
    (body : option createInstanceRequest) : option PGInstanceStore * response instancesBody :=
  match store with
  | None => (None, noStore)
  | Some st =>
  match body with
  | None => (store, writeError StatusBadRequest "invalid_json" "invalid JSON body")
  | Some req =>
      if String.eqb (ci_ID req) "" then
        (store, writeError StatusBadRequest "validation_error" "id is required")
      else if String.eqb (ci_DSN req) "" then
        (store, writeError StatusBadRequest "validation_error" "dsn is required")
      else
        let rec := new_instance (ci_ID req) (ci_Name req) (ci_DSN req)
                     (default true (ci_Enabled req)) "manual" (default_conns (ci_MaxConns req)) in
        match ins_Create now st rec with
        | (st', Err e) =>
            (Some st',
             if ContainsStr e "duplicate key"
             then writeError StatusConflict "duplicate"
                    ("instance " +:+ quote (ci_ID req) +:+ " already exists")
             else writeError StatusInternalServerError "server_error" "failed to create instance")
        | (st', Ok created) =>
            (Some st', writeJSON StatusCreated (BStored (toInstanceCRUDResponse created)))
        end
  end end.

Record updateInstanceRequest := mkUpdateInstance {
  ui_Name : option string;
  ui_DSN : option string;
  ui_Enabled : option bool;
  ui_MaxConns : option Z
}.

Definition apply_update (req : updateInstanceRequest) (r : InstanceRecord) : InstanceRecord :=
  let '(host, port) := match ui_DSN req with
                       | Some dsn => parseHostPort dsn
                       | None => (ir_Host r, ir_Port r)
                       end in
  mkInstance (ir_ID r) (default (ir_Name r) (ui_Name req)) (default (ir_DSN r) (ui_DSN req))
    host port (default (ir_Enabled r) (ui_Enabled req)) (ir_Source r)
    (default (ir_MaxConns r) (ui_MaxConns req)) (ir_CreatedAt r) (ir_UpdatedAt r).

Definition handleUpdateInstance (now : Time) (store : option PGInstanceStore) (id : string)
    (body : option updateInstanceRequest) : option PGInstanceStore * response instancesBody :=
  match store with
  | None => (None, noStore)
  | Some st =>
  match ins_Get st id with
  | Err _ => (store, writeError StatusInternalServerError "server_error" "failed to get instance")
  | Ok None => (store, instanceNotFound id)
  | Ok (Some existing) =>
  match body with
  | None => (store, writeError StatusBadRequest "invalid_json" "invalid JSON body")
  | Some req =>
      match ins_Update now st (apply_update req existing) with
      | (st', Err _) => (Some st', writeError StatusInternalServerError "server_error"
                                     "failed to update instance")
      | (st', Ok updated) =>
          (Some st', writeJSON StatusOK (BStored (toInstanceCRUDResponse updated)))
      end
  end end end.

Definition handleDeleteInstance (store : option PGInstanceStore) (id : string)
    : option PGInstanceStore * response instancesBody :=
  match store with
  | None => (None, noStore)
  | Some st =>
      match ins_Delete st id with
      | (st', Some e) =>
          (Some st', if ContainsStr e "not found" then instanceNotFound id
                     else writeError StatusInternalServerError "server_error"
                            "failed to delete instance")
      | (st', None) => (Some st', writeJSON StatusOK (BDeleted id))
      end
  end.

(** ** CSV import *)

(** What a call of [reader.Read] gives. *)
Inductive csvRead :=
  | CsvRecord (fields : list string)
  | CsvError (e : error)
  | CsvEOF.

(** [strconv.ParseBool]; anything it does not know reads as false, with an error that is dropped. *)
Definition ParseBool (v : string) : bool := mem v ["1"; "t"; "T"; "TRUE"; "true"; "True"].

Definition csvField (record : list string) (i : nat) : string :=
  TrimSpace (default "" (record !! i)).

Definition csvEnabled (record : list string) : bool :=
  let v := csvField record 3 in if String.eqb v "" then true else ParseBool v.

Definition csvMaxConns (record : list string) : Z :=
  let v := csvField record 4 in
  if String.eqb v "" then 5
  else match Atoi v with
       | (mc, None) => if 0 <? mc then mc else 5
       | (_, Some _) => 5
       end.

Record importState := mkImport {
  im_store : PGInstanceStore;
  im_imported : Z;
  im_skipped : Z;
  im_errors : list string
}.

Definition skip (message : string) (s : importState) : importState :=
  mkImport (im_store s) (im_imported s) (im_skipped s + 1) (im_errors s ++ [message]).

Definition csvRecord (record : list string) : InstanceRecord :=
  new_instance (csvField record 0) (csvField record 1) (csvField record 2) (csvEnabled record)
    "csv_import" (csvMaxConns record).

(** The body of the loop for a record. *)
Definition importRecord (now : Time) (s : importState) (record : list string) : importState :=
  if len record <? 3 then
    skip ("row needs at least 3 fields (id, name, dsn), got " +:+ pretty (len record)) s
  else
    let rec := csvRecord record in
    if String.eqb (ir_ID rec) "" || String.eqb (ir_DSN rec) "" then
      skip ("skipping row: id and dsn are required (id=" +:+ quote (ir_ID rec) +:+ ")") s
    else match ins_Create now (im_store s) rec with
         | (st, Err e) => skip ("instance " +:+ quote (ir_ID rec) +:+ ": " +:+ e)
                            (mkImport st (im_imported s) (im_skipped s) (im_errors s))
         | (st, Ok _) => mkImport st (im_imported s + 1) (im_skipped s) (im_errors s)
         end.

(** The loop over the reads from number [i] on: it ends at the end of the file only. [None] is a
    loop that has not ended after [fuel] reads. *)
Fixpoint importLoop (now : nat -> Time) (reads : nat -> csvRead) (fuel i : nat) (s : importState)
    : option importState :=
  match fuel with
  | O => None
  | S fuel' =>
      match reads i with
      | CsvEOF => Some s
      | CsvError e => importLoop now reads fuel' (S i) (skip ("CSV parse error: " +:+ e) s)
      | CsvRecord record => importLoop now reads fuel' (S i) (importRecord (now i) s record)
      end
  end.

Definition handleBulkImport (now : nat -> Time) (reads : nat -> csvRead) (fuel : nat)
    (store : option PGInstanceStore) : option (option PGInstanceStore * response instancesBody) :=
  match store with
  | None => Some (None, noStore)
  | Some st =>
      match importLoop now reads fuel 0 (mkImport st 0 0 []) with
      | None => None
      | Some s => Some (Some (im_store s),
                        writeJSON StatusOK (BImport (im_imported s) (im_skipped s) (im_errors s)))
      end
  end.

(** ** The connection test

    [dial] is pgx.Connect within five seconds; a body that does not decode or has no DSN asks for
    the instance of the path. *)
Definition handleTestConnection `{DR : Driver} (dial : string -> result Conn)
    (store : option PGInstanceStore) (id : string) (body : option string) : response instancesBody :=
  let test dsn :=
    match dial dsn with
    | Err e => writeJSON StatusOK (BTest (TestFailed e))
    | Ok conn =>
        match query_row conn "SELECT version()" [] str with
        | Err e => writeJSON StatusOK
                     (BTest (TestFailed ("connected but SELECT version() failed: " +:+ e)))
        | Ok version => writeJSON StatusOK (BTest (TestSucceeded version))
        end
    end in
  let stored :=
    match store with
    | Some st =>
        if String.eqb id "" then
          writeError StatusBadRequest "validation_error" "dsn is required"
        else match ins_Get st id with
             | Ok (Some inst) => test (ir_DSN inst)
             | _ => instanceNotFound id
             end
    | None => writeError StatusBadRequest "validation_error" "dsn is required"
    end in
  match body with
  | Some dsn => if String.eqb dsn "" then stored else test dsn
  | None => stored
  end.

(** ** Seeding from the configuration (main.go)

    Its extractHostPort knows URLs only; an error is logged and the next instance follows. *)
Definition seedHostPort (dsn : string) : string * Z :=
  match url_Parse dsn with
  | Ok u => if String.eqb (u_Host u) "" then ("", 5432) else (u_Hostname u, url_port u)
  | Err _ => ("", 5432)
  end.

Definition seedRecord (inst : InstanceConfig) : InstanceRecord :=
  let '(host, port) := seedHostPort (inc_DSN inst) in
  mkInstance (inc_ID inst) (inc_Name inst) (inc_DSN inst) host port
    (default true (inc_Enabled inst)) "" (default_conns (inc_MaxConns inst)) zero_time zero_time.

Definition seedInstancesFromConfig (now : Time) (store : PGInstanceStore)
    (instances : list InstanceConfig) : PGInstanceStore :=
  foldl (fun st inst => (ins_Seed now st (seedRecord inst)).1) store instances.

End dsn.
