(* ===== verification/ForecastStore.v ===== *)
(** * The storage of maintenance forecasts, the thresholds and the engine

    Models internal/forecast/pgstore.go and nullstore.go over the tables maintenance_operations
    and maintenance_forecasts of migration 019, internal/forecast/threshold.go over the
    connections to an instance, internal/forecast/engine.go and the loop of evaluator.go, and the handlers
    of internal/api/forecast_maint.go and forecast.go. Texts
    are taken to be valid UTF-8 without NUL. A statement SET LOCAL or BEGIN is a query whose rows
    are not read. *)
From stdpp Require Import pretty.
From S2P Require Import Prelude Float64 Metric Ml MlDetector GoText Forecast Http SqlConn Config.

Local Open Scope Z_scope.

(** ** store.go *)

Record OperationFilter := mkOperationFilter {
  of_InstanceID : string;
  of_Operation : string;
  of_Database : string;
  of_Table : string;
  of_Since : Time;
  of_Limit : Z;
  of_Offset : Z
}.

Record ForecastFilter := mkForecastFilter {
  ff_InstanceID : string;
  ff_Operation : string;
  ff_Database : string;
  ff_Table : string;
  ff_Statuses : list string
}.

(** The operations of the interface ForecastStore beside those of class [ForecastStore]. *)
Class ForecastQueries (F : Type) := {
  fs_ListOperations : F -> OperationFilter -> result (list (Z * MaintenanceOperation) * Z);
  fs_CleanOldOperations : F -> Time -> F * result Z;
  fs_UpsertForecast : F -> MaintenanceForecast -> F * option error;
  fs_ListForecasts : F -> ForecastFilter -> result (list (Z * MaintenanceForecast));
  fs_DeleteForecasts : F -> string -> F * option error
}.

(** ** pgstore.go: the tables

    An operation is kept with its id (its time of creation is left out), a forecast under its
    unique key. The sequences of both tables also advance for a row that is refused or only
    updated. *)
Abbreviation ForecastKey := (string * string * string * string)%type.

Definition forecast_key (f : MaintenanceForecast) : ForecastKey :=
  (mf_InstanceID f, mf_Database f, mf_Table f, mf_Operation f).

Inductive statement :=
  SWriteOp | SCountOps | SListOps | SCleanOps | SBegin | SUpsert | SCommit | SListForecasts | SDelete.

Record PGForecastStore := mkForecastStore {
  pf_ops : list (Z * MaintenanceOperation);
  pf_opseq : Z;
  pf_rows : gmap ForecastKey (Z * MaintenanceForecast);
  pf_seq : Z;
  pf_fault : statement -> option error
}.

(** The check constraints of the tables. *)
Definition operation_allowed (op : MaintenanceOperation) : bool :=
  mem (mo_Operation op) ["vacuum"; "analyze"; "reindex_concurrent"; "basebackup"]
  && mem (mo_Outcome op) ["completed"; "canceled"; "failed"; "disappeared"; "unknown"].

Definition forecast_allowed (f : MaintenanceForecast) : bool :=
  mem (mf_Operation f) ["vacuum"; "analyze"; "reindex"; "basebackup"]
  && mem (mf_Status f) ["predicted"; "imminent"; "overdue"; "not_needed"; "insufficient_data"].

Definition err_check : error := "new row violates check constraint".

(** The columns of type timestamptz keep microseconds. *)
Definition operation_row (op : MaintenanceOperation) : MaintenanceOperation :=
  mkOperation (mo_InstanceID op) (mo_Operation op) (mo_Outcome op) (mo_Database op) (mo_Table op)
    (mo_TableSizeBytes op) (pg_time (mo_StartedAt op)) (pg_time (mo_CompletedAt op))
    (mo_DurationSec op) (mo_FinalPct op) (mo_AvgRatePerSec op).

Definition forecast_row (f : MaintenanceForecast) : MaintenanceForecast :=
  mkForecast (mf_InstanceID f) (mf_Database f) (mf_Table f) (mf_Operation f) (mf_Status f)
    (option_map pg_time (mf_PredictedAt f)) (mf_TimeUntilSec f) (mf_CurrentValue f)
    (mf_ThresholdValue f) (mf_AccumulationRate f) (mf_Method f) (pg_time (mf_EvaluatedAt f)).

Definition set_ops (ops : list (Z * MaintenanceOperation)) (s : PGForecastStore) : PGForecastStore :=
  mkForecastStore ops (pf_opseq s) (pf_rows s) (pf_seq s) (pf_fault s).

Definition set_rows (rows : gmap ForecastKey (Z * MaintenanceForecast)) (seq : Z)
    (s : PGForecastStore) : PGForecastStore :=
  mkForecastStore (pf_ops s) (pf_opseq s) rows seq (pf_fault s).

Definition WriteOperation (s : PGForecastStore) (op : MaintenanceOperation)
    : PGForecastStore * option error :=
  match pf_fault s SWriteOp with
  | Some e => (s, Some (wrap "forecast: write operation" e))
  | None =>
      let next := mkForecastStore (pf_ops s) (pf_opseq s + 1) (pf_rows s) (pf_seq s) (pf_fault s) in
      if operation_allowed op
      then (set_ops (pf_ops s ++ [(pf_opseq s, operation_row op)]) next, None)
      else (next, Some (wrap "forecast: write operation" err_check))
  end.

(** January 1 of the year 2000, when no time is asked for. *)
Definition default_since : Time := 946684800 * Second.

Definition operation_selected (filter : OperationFilter) (op : MaintenanceOperation) : bool :=
  let since := if time_IsZero (of_Since filter) then default_since else of_Since filter in
  String.eqb (mo_InstanceID op) (of_InstanceID filter)
  && opt_filter (of_Operation filter) (mo_Operation op) && opt_filter (of_Database filter) (mo_Database op)
  && opt_filter (of_Table filter) (mo_Table op)
  && negb (time_Before (mo_CompletedAt op) (pg_time since)).

Section store.
Context {SS : SliceSort} {MR : MapRange}.

Definition ListOperations (s : PGForecastStore) (filter : OperationFilter)
    : result (list (Z * MaintenanceOperation) * Z) :=
  let rows := List.filter (fun r => operation_selected filter r.2) (pf_ops s) in
  match pf_fault s SCountOps with
  | Some e => Err (wrap "forecast: count operations" e)
  | None =>
      match pf_fault s SListOps with
      | Some e => Err (wrap "forecast: list operations" e)
      | None =>
          let limit := if of_Limit filter <=? 0 then 50 else of_Limit filter in
          match sql_page limit (of_Offset filter)
                  (sort_slice (fun a b => time_Before (mo_CompletedAt b.2) (mo_CompletedAt a.2)) rows) with
          | Err e => Err (wrap "forecast: list operations" e)
          | Ok page => Ok (page, len rows)
          end
      end
  end.

Definition CleanOldOperations (s : PGForecastStore) (olderThan : Time) : PGForecastStore * result Z :=
  match pf_fault s SCleanOps with
  | Some e => (s, Err (wrap "forecast: clean operations" e))
  | None =>
      let kept := List.filter
        (fun r => negb (time_Before (mo_CompletedAt r.2) (pg_time olderThan))) (pf_ops s) in
      (set_ops kept s, Ok (len (pf_ops s) - len kept))
  end.

(** INSERT ... ON CONFLICT DO UPDATE: an updated row keeps its id. *)
Definition upsert (s : PGForecastStore) (f : MaintenanceForecast) : PGForecastStore * option error :=
  match pf_fault s SUpsert with
  | Some e => (s, Some e)
  | None =>
      if forecast_allowed f then
        let id := match pf_rows s !! forecast_key f with Some old => old.1 | None => pf_seq s end in
        (set_rows (<[forecast_key f := (id, forecast_row f)]> (pf_rows s)) (pf_seq s + 1) s, None)
      else (set_rows (pf_rows s) (pf_seq s + 1) s, Some err_check)
  end.

Definition UpsertForecast (s : PGForecastStore) (f : MaintenanceForecast)
    : PGForecastStore * option error :=
  match upsert s f with
  | (s', Some e) => (s', Some (wrap "forecast: upsert forecast" e))
  | (s', None) => (s', None)
  end.

(** The loop of the batch, from number [i] on. *)
Fixpoint upsertAll (s : PGForecastStore) (i : Z) (forecasts : list MaintenanceForecast)
    : PGForecastStore * option error :=
  match forecasts with
  | [] => (s, None)
  | f :: rest =>
      match upsert s f with
      | (s', Some e) => (s', Some (wrap ("forecast: upsert forecast[" +:+ pretty i +:+ "]") e))
      | (s', None) => upsertAll s' (i + 1) rest
      end
  end.

(** A transaction: without its commit the rows stay as they were. *)
Definition UpsertForecasts (s : PGForecastStore) (forecasts : list MaintenanceForecast)
    : PGForecastStore * option error :=
  match forecasts with
  | [] => (s, None)
  | _ =>
      match pf_fault s SBegin with
      | Some e => (s, Some (wrap "forecast: begin batch upsert" e))
      | None =>
          match upsertAll s 0 forecasts with
          | (s', Some e) => (set_rows (pf_rows s) (pf_seq s') s, Some e)
          | (s', None) =>
              match pf_fault s SCommit with
              | Some e => (set_rows (pf_rows s) (pf_seq s') s, Some e)
              | None => (s', None)
              end
          end
      end
  end.

(** CASE status WHEN ... END; a status outside the list would sort last. *)
Definition status_rank (status : string) : Z :=
  if String.eqb status "overdue" then 1
  else if String.eqb status "imminent" then 2
  else if String.eqb status "predicted" then 3
  else if String.eqb status "insufficient_data" then 4
  else if String.eqb status "not_needed" then 5
  else 6.

Definition forecast_before (a b : Z * MaintenanceForecast) : bool :=
  let ra := status_rank (mf_Status a.2) in let rb := status_rank (mf_Status b.2) in
  (ra <? rb) || ((ra =? rb) && sql_lt (mf_TimeUntilSec a.2) (mf_TimeUntilSec b.2)).

Definition forecast_selected (filter : ForecastFilter) (f : MaintenanceForecast) : bool :=
  String.eqb (mf_InstanceID f) (ff_InstanceID filter)
  && opt_filter (ff_Operation filter) (mf_Operation f) && opt_filter (ff_Database filter) (mf_Database f)
  && opt_filter (ff_Table filter) (mf_Table f)
  && (match ff_Statuses filter with [] => true | l => mem (mf_Status f) l end).

Definition ListForecasts (s : PGForecastStore) (filter : ForecastFilter)
    : result (list (Z * MaintenanceForecast)) :=
  match pf_fault s SListForecasts with
  | Some e => Err (wrap "forecast: list forecasts" e)
  | None => Ok (sort_slice forecast_before
                  (List.filter (fun r => forecast_selected filter r.2)
                     (map snd (map_range (pf_rows s)))))
  end.

Definition DeleteForecasts (s : PGForecastStore) (instanceID : string)
    : PGForecastStore * option error :=
  match pf_fault s SDelete with
  | Some e => (s, Some (wrap "forecast: delete forecasts" e))
  | None => (set_rows (filter (fun kv => mf_InstanceID kv.2.2 <> instanceID) (pf_rows s)) (pf_seq s) s,
             None)
  end.

#[export] Instance PGForecasts : ForecastStore PGForecastStore := {|
  fs_WriteOperation := WriteOperation;
  fs_UpsertForecasts := UpsertForecasts
|}.

#[export] Instance PGForecastQueries : ForecastQueries PGForecastStore := {|
  fs_ListOperations := ListOperations;
  fs_CleanOldOperations := CleanOldOperations;
  fs_UpsertForecast := UpsertForecast;
  fs_ListForecasts := ListForecasts;
  fs_DeleteForecasts := DeleteForecasts
|}.
End store.

(** ** nullstore.go *)

Inductive NullForecastStore := mkNullForecasts.

#[export] Instance NullForecasts : ForecastStore NullForecastStore := {|
  fs_WriteOperation n _ := (n, None);
  fs_UpsertForecasts n _ := (n, None)
|}.

#[export] Instance NullForecastQueries : ForecastQueries NullForecastStore := {|
  fs_ListOperations _ _ := Ok ([], 0);
  fs_CleanOldOperations n _ := (n, Ok 0);
  fs_UpsertForecast n _ := (n, None);
  fs_ListForecasts _ _ := Ok [];
  fs_DeleteForecasts n _ := (n, None)
|}.

(** ** engine.go and the loop of evaluator.go *)

Record ForecastEngine (F : Type) := mkForecastEngine {
  fe_Tracker : OperationTracker;
  fe_ETA : ETACalculator;
  fe_Store : F;
  fe_cfg : MaintenanceForecastConfig
}.
Arguments mkForecastEngine {F} _ _ _ _.
Arguments fe_Tracker {F} _.
Arguments fe_ETA {F} _.
Arguments fe_Store {F} _.
Arguments fe_cfg {F} _.

Definition NewForecastEngine {F} (store : F) (cfg : MaintenanceForecastConfig) : ForecastEngine F :=
  mkForecastEngine (NewOperationTracker (15 * Second) (fc_ETAWindowSize cfg))
    (NewETACalculator (mkETAConfig (fc_ETAWindowSize cfg) (fc_ETADecayFactor cfg)
                         (fc_ETAMinSamples cfg))) store cfg.

(** One tick of retentionCleanup; [add_days] is [Time.AddDate(0, 0, _)]. *)
Definition retentionCleanup {F} {FQ : ForecastQueries F} (add_days : Time -> Z -> Time) (now : Time)
    (cfg : MaintenanceForecastConfig) (store : F) : F :=
  (fs_CleanOldOperations store (add_days now (- fc_RetentionDays cfg))).1.

Section evaluate.
Context {MR : MapRange} {M F : Type} {HM : MetricStore M} {HF : ForecastStore F}.
Context (cfg : MaintenanceForecastConfig).

(** What one cycle of the evaluator meets: the instances, the answer of the threshold querier for
    each, the clock and the end of its context before the [k]-th instance. *)
Record EvalCycle := mkEvalCycle {
  ec_instances : result (list string);
  ec_thresholds : string -> result (list TableThresholds);
  ec_clock : nat -> Time;
  ec_cancelled : nat -> bool
}.

Fixpoint evaluateFrom (m : M) (cy : EvalCycle) (k : nat) (ids : list string) (f : F) : F :=
  match ids with
  | [] => f
  | id :: ids' =>
      if ec_cancelled cy k then f
      else evaluateFrom m cy (S k) ids'
             (evaluateInstance cfg m f id (ec_thresholds cy id) (ec_clock cy k))
  end.

Definition evaluate (m : M) (cy : EvalCycle) (f : F) : F :=
  match ec_instances cy with
  | Err _ => f
  | Ok ids => evaluateFrom m cy 0 ids f
  end.

(** [Run]: a first cycle at once, then one for each tick. *)
Definition Run (first : M * EvalCycle) (ticks : list (M * EvalCycle)) (f : F) : F :=
  foldl (fun f c => evaluate c.1 c.2 f) f (first :: ticks).
End evaluate.

(** ** threshold.go: the settings of an instance, and the options of a table that override them *)

Definition equals_char : Ascii.ascii := Eval compute in Ascii.ascii_of_N 61.

Definition parseReloptions (opts : list string) : gmap string string :=
  foldl (fun result opt =>
    match SplitN equals_char 2 opt with
    | [name; value] => if has_prefix name "autovacuum" then <[name := value]> result else result
    | _ => result
    end) ∅ opts.

(** The five parameters, from the configuration, from pg_settings or for one table. *)
Record vacuumParams := mkVacuumParams {
  vp_vacThreshold : Z;
  vp_vacScale : float64;
  vp_anThreshold : Z;
  vp_anScale : float64;
  vp_enabled : bool
}.

Definition fallbackParams (cfg : MaintenanceForecastConfig) : vacuumParams :=
  mkVacuumParams (fc_VacuumThresholdFallback cfg) (fc_VacuumScaleFactorFallback cfg)
    (fc_AnalyzeThresholdFallback cfg) (fc_AnalyzeScaleFactorFallback cfg) true.

(** A number that does not parse leaves the old one. *)
Definition atoi_or (v : string) (old : Z) : Z :=
  match Atoi v with (n, None) => n | (_, Some _) => old end.

Definition float_or (v : string) (old : float64) : float64 :=
  match ParseFloatErr v with Ok x => x | Err _ => old end.

(** The switch over the names of the settings. *)
Definition applySetting (p : vacuumParams) (row : string * string) : vacuumParams :=
  let '(name, setting) := row in
  if String.eqb name "autovacuum_vacuum_threshold" then
    mkVacuumParams (atoi_or setting (vp_vacThreshold p)) (vp_vacScale p) (vp_anThreshold p)
      (vp_anScale p) (vp_enabled p)
  else if String.eqb name "autovacuum_vacuum_scale_factor" then
    mkVacuumParams (vp_vacThreshold p) (float_or setting (vp_vacScale p)) (vp_anThreshold p)
      (vp_anScale p) (vp_enabled p)
  else if String.eqb name "autovacuum_analyze_threshold" then
    mkVacuumParams (vp_vacThreshold p) (vp_vacScale p) (atoi_or setting (vp_anThreshold p))
      (vp_anScale p) (vp_enabled p)
  else if String.eqb name "autovacuum_analyze_scale_factor" then
    mkVacuumParams (vp_vacThreshold p) (vp_vacScale p) (vp_anThreshold p)
      (float_or setting (vp_anScale p)) (vp_enabled p)
  else if String.eqb name "autovacuum" then
    mkVacuumParams (vp_vacThreshold p) (vp_vacScale p) (vp_anThreshold p) (vp_anScale p)
      (String.eqb setting "on")
  else p.

(** The overrides of one table. *)
Definition overridden (overrides : gmap string string) (p : vacuumParams) : vacuumParams :=
  let int name old := match overrides !! name with Some v => atoi_or v old | None => old end in
  let flt name old := match overrides !! name with Some v => float_or v old | None => old end in
  mkVacuumParams (int "autovacuum_vacuum_threshold" (vp_vacThreshold p))
    (flt "autovacuum_vacuum_scale_factor" (vp_vacScale p))
    (int "autovacuum_analyze_threshold" (vp_anThreshold p))
    (flt "autovacuum_analyze_scale_factor" (vp_anScale p))
    (match overrides !! "autovacuum_enabled" with
     | Some v => String.eqb v "true" || String.eqb v "on"
     | None => vp_enabled p
     end).

Definition effective (threshold : Z) (scale : float64) (tuples : Z) : float64 :=
  fadd (f_of_Z threshold) (fmul scale (f_of_Z tuples)).

Section querier.
Context `{DR : Driver}.

Definition settingsSQL : string := "
		SELECT name, setting FROM pg_settings
		WHERE name IN (
			'autovacuum_vacuum_threshold',
			'autovacuum_vacuum_scale_factor',
			'autovacuum_analyze_threshold',
			'autovacuum_analyze_scale_factor',
			'autovacuum'
		)".

Definition databasesSQL : string := "
		SELECT datname FROM pg_database
		WHERE datallowconn AND NOT datistemplate AND datname != 'template0'".

Definition tablesSQL : string := "
		SELECT
			n.nspname AS schema,
			c.relname AS table_name,
			current_database() AS database,
			c.reltuples::bigint AS reltuples,
			c.reloptions
		FROM pg_class c
		JOIN pg_namespace n ON n.oid = c.relnamespace
		WHERE c.relkind IN ('r', 'm')
		  AND n.nspname NOT IN ('pg_catalog', 'information_schema', 'pg_toast')".

Definition scan_setting : Scanner (string * string) := name ← str; setting ← str; mret (name, setting).

(** Schema, table, database, tuples and options. *)
Definition scan_table : Scanner (string * string * string * Z * list string) :=
  schema ← str; table ← str; db ← str; tuples ← int64; options ← strs;
  mret (schema, table, db, tuples, options).

Definition globalParams (cfg : MaintenanceForecastConfig) (conn : Conn) : vacuumParams :=
  match query_skip conn settingsSQL [] scan_setting with
  | Err _ => fallbackParams cfg
  | Ok (rows, _) => foldl applySetting (fallbackParams cfg) rows
  end.

Definition table_thresholds (defaults : vacuumParams)
    (row : string * string * string * Z * list string) : TableThresholds :=
  let '(schema, table, db, tuples, options) := row in
  let p := overridden (parseReloptions options) defaults in
  let tuples := if tuples <? 0 then 0 else tuples in
  mkThresholds db schema table tuples (vp_enabled p) (vp_vacThreshold p) (vp_vacScale p)
    (vp_anThreshold p) (vp_anScale p) (effective (vp_vacThreshold p) (vp_vacScale p) tuples)
    (effective (vp_anThreshold p) (vp_anScale p) tuples).

(** The statements before the query, each with the name under which its error is reported. *)
Definition preamble : list (string * string) :=
  [ ("begin tx", "begin");
    ("set statement_timeout", "SET LOCAL statement_timeout = '5s'");
    ("set lock_timeout", "SET LOCAL lock_timeout = '2s'");
    ("set application_name", "SET LOCAL application_name = 'pgpulse_forecast'") ].

Fixpoint execAll (conn : Conn) (stmts : list (string * string)) : option error :=
  match stmts with
  | [] => None
  | (what, sql) :: rest =>
      match conn sql [] with Err e => Some (wrap what e) | Ok _ => execAll conn rest end
  end.

Definition queryDatabaseTables (connForDB : string -> string -> result Conn)
    (instanceID database : string) (defaults : vacuumParams) : result (list TableThresholds) :=
  match connForDB instanceID database with
  | Err e => Err (wrap ("connect to " +:+ database) e)
  | Ok conn =>
      match execAll conn preamble with
      | Some e => Err e
      | None =>
          match query_skip conn tablesSQL [] scan_table with
          | Err e => Err (wrap "query tables" e)
          | Ok (rows, Some e) => Err e
          | Ok (rows, None) => Ok (map (table_thresholds defaults) rows)
          end
      end
  end.

(** A database that fails is left out. *)
Definition GetTableThresholds (cfg : MaintenanceForecastConfig)
    (connFor : string -> result Conn) (connForDB : string -> string -> result Conn)
    (instanceID : string) : result (list TableThresholds) :=
  match connFor instanceID with
  | Err e => Err (wrap "forecast: threshold connect" e)
  | Ok conn =>
      let globals := globalParams cfg conn in
      match query_skip conn databasesSQL [] str with
      | Err e => Err (wrap "forecast: discover databases" e)
      | Ok (databases, _) =>
          Ok (concat (map (fun db =>
                match queryDatabaseTables connForDB instanceID db globals with
                | Ok ts => ts
                | Err _ => []
                end) databases))
      end
  end.
End querier.

(** ** The API of forecasts

    Models internal/api/forecast_maint.go over the forecast store and the tracker, and
    internal/api/forecast.go over the anomaly detector. *)

Record ForecastSummary := mkForecastSummary {
  fsu_ImminentCount : Z;
  fsu_OverdueCount : Z;
  fsu_PredictedCount : Z;
  fsu_TotalTablesEvaluated : Z
}.

Inductive forecastBody :=
  | BEtas (operations : list OperationETA) (evaluated_at : Time)
  | BEta (operation : OperationETA)
  | BNeeds (forecasts : list (Z * MaintenanceForecast)) (summary : ForecastSummary)
  | BTableNeeds (forecasts : list (Z * MaintenanceForecast))
  | BMetricForecast (forecast : ForecastResult)
  | BOperations (operations : list (Z * MaintenanceOperation)) (total page per_page : Z).

Definition StatusNotImplemented : Z := 501.
Definition comma_char : Ascii.ascii := Eval compute in Ascii.ascii_of_N 44.

(** The loop of [computeSummary] over one forecast. *)
Definition count_status (s : ForecastSummary) (f : MaintenanceForecast) : ForecastSummary :=
  if String.eqb (mf_Status f) "imminent" then
    mkForecastSummary (fsu_ImminentCount s + 1) (fsu_OverdueCount s) (fsu_PredictedCount s)
      (fsu_TotalTablesEvaluated s)
  else if String.eqb (mf_Status f) "overdue" then
    mkForecastSummary (fsu_ImminentCount s) (fsu_OverdueCount s + 1) (fsu_PredictedCount s)
      (fsu_TotalTablesEvaluated s)
  else if String.eqb (mf_Status f) "predicted" then
    mkForecastSummary (fsu_ImminentCount s) (fsu_OverdueCount s) (fsu_PredictedCount s + 1)
      (fsu_TotalTablesEvaluated s)
  else s.

Definition computeSummary (forecasts : list MaintenanceForecast) : ForecastSummary :=
  foldl count_status (mkForecastSummary 0 0 0 (len forecasts)) forecasts.

Section handlers.
Context {MR : MapRange} {F : Type} {FQ : ForecastQueries F}.
Context (math_Pow : float64 -> float64 -> float64).
Context (instanceExists : string -> bool) (engine : option (ForecastEngine F)).

(** The two checks every handler starts with. *)
Definition withEngine {B} (instanceID : string) (k : ForecastEngine F -> response B) : response B :=
  if negb (instanceExists instanceID) then
    writeError StatusNotFound "not_found" ("instance '" +:+ instanceID +:+ "' not found")
  else match engine with
       | None => writeError StatusNotImplemented "disabled" "forecast subsystem is disabled"
       | Some e => k e
       end.

Definition handleForecastETA (now : Time) (instanceID : string) : response forecastBody :=
  withEngine instanceID (fun e =>
    writeJSON StatusOK (BEtas (ComputeAll math_Pow (fe_ETA e) (fe_Tracker e) instanceID now) now)).

Definition handleForecastETAByPID (now : Time) (instanceID pidStr : string)
    : response forecastBody :=
  withEngine instanceID (fun e =>
    let bad := writeError StatusBadRequest "bad_request" "pid must be a positive integer" in
    match Atoi pidStr with
    | (_, Some _) => bad
    | (pid, None) =>
        if pid <=? 0 then bad
        else match ComputeByPID math_Pow (fe_ETA e) (fe_Tracker e) instanceID pid now with
             | None => writeError StatusNotFound "not_found"
                         ("no active operation for PID " +:+ pretty.pretty pid)
             | Some eta => writeJSON StatusOK (BEta eta)
             end
    end).

Definition failedList : response forecastBody :=
  writeError StatusInternalServerError "internal" "failed to list forecasts".

Definition handleForecastNeeds (instanceID : string) (q : string -> string) : response forecastBody :=
  withEngine instanceID (fun e =>
    let statuses := if String.eqb (q "status") "" then [] else Split comma_char (q "status") in
    match fs_ListForecasts (fe_Store e)
            (mkForecastFilter instanceID (q "operation") "" "" statuses) with
    | Err _ => failedList
    | Ok forecasts =>
        writeJSON StatusOK (BNeeds forecasts (computeSummary (map snd forecasts)))
    end).

Definition handleForecastNeedsForTable (instanceID database table : string)
    : response forecastBody :=
  withEngine instanceID (fun e =>
    match fs_ListForecasts (fe_Store e) (mkForecastFilter instanceID "" database table []) with
    | Err _ => failedList
    | Ok forecasts => writeJSON StatusOK (BTableNeeds forecasts)
    end).

(** The offset is computed in 64 bits and may wrap. *)
Definition handleForecastHistory (instanceID : string) (q : string -> string)
    : response forecastBody :=
  withEngine instanceID (fun e =>
    let page := queryNumber (Z.ltb 0) 1 (q "page") in
    let perPage := queryNumber (fun v => (0 <? v) && (v <=? 200)) 50 (q "per_page") in
    match fs_ListOperations (fe_Store e)
            (mkOperationFilter instanceID (q "operation") (q "database") (q "table") zero_time
               perPage (i64 ((page - 1) * perPage))) with
    | Err _ => writeError StatusInternalServerError "internal" "failed to list history"
    | Ok (ops, total) => writeJSON StatusOK (BOperations ops total page perPage)
    end).
(** ** forecast.go: the forecast of one metric *)

Definition defaultForecastHorizon (cfg : MLConfig) (metric : string) : Z :=
  match List.find (fun mc => String.eqb (mmc_Key mc) metric && (0 <? mmc_ForecastHorizon mc))
          (mlc_Metrics cfg) with
  | Some mc => mmc_ForecastHorizon mc
  | None => if 0 <? fcc_Horizon (mlc_Forecast cfg) then fcc_Horizon (mlc_Forecast cfg) else 60
  end.

(** The largest horizon a client gets: twice the global one, computed in 64 bits, and 240 at
    least. *)
Definition horizonCap (cfg : MLConfig) : Z := Z.max 240 (i64 (fcc_Horizon (mlc_Forecast cfg) * 2)).

(** The horizon asked for; [None] when it is not a positive number. *)
Definition requestedHorizon (cfg : MLConfig) (metric h : string) : option Z :=
  if String.eqb h "" then Some (defaultForecastHorizon cfg metric)
  else match Atoi h with
       | (n, None) => if n <=? 0 then None else Some (Z.min n (horizonCap cfg))
       | (_, Some _) => None
       end.

Definition handleGetMetricForecast (cfg : MLConfig) (detector : option Detector) (now : Time)
    (instanceID metric h : string) : response forecastBody :=
  if negb (instanceExists instanceID) then
    writeError StatusNotFound "not_found" ("instance '" +:+ instanceID +:+ "' not found")
  else match detector with
  | None => writeError StatusServiceUnavailable "unavailable" "ML detector not configured"
  | Some d =>
      match requestedHorizon cfg metric h with
      | None => writeError StatusBadRequest "bad_request" "horizon must be a positive integer"
      | Some horizon =>
          match detectorForecast d instanceID metric horizon now with
          | Ok r => writeJSON StatusOK (BMetricForecast r)
          | Err e =>
              if String.eqb e ErrNotBootstrapped then
                writeError StatusServiceUnavailable "not_ready" "ML detector not yet bootstrapped"
              else if String.eqb e ErrNoBaseline then
                writeError StatusNotFound "no_baseline" "no fitted baseline for this metric"
              else writeError StatusInternalServerError "internal" "forecast failed"
          end
      end
  end.
End handlers.
