(* ===== verification/ForecastStoreTheorems.v ===== *)
(** * Theorems on stored forecasts

    A batch of forecasts is written whole or not at all, the last of equal keys winning; and what
    one evaluation of an instance computes is what the API then lists, in the order promised. *)
From S2P Require Import Prelude Float64 Metric GoText Http Forecast SqlConn Config ForecastStore.

Local Open Scope Z_scope.

(** ** One batch *)

(** The forecasts of a batch that go to one row. *)
Definition written (k : ForecastKey) (fs : list MaintenanceForecast) : list MaintenanceForecast :=
  List.filter (fun f => bool_decide (forecast_key f = k)) fs.

(** The row under [k] after the forecasts [fs] were written to [s]: the last one's, with the id of
    the row it replaces. *)
Definition row_after (s : PGForecastStore) (fs : list MaintenanceForecast) (k : ForecastKey)
    (row : option (Z * MaintenanceForecast)) : Prop :=
  match last (written k fs) with
  | None => row = pf_rows s !! k
  | Some f => exists id, row = Some (id, forecast_row f) /\
      forall old, pf_rows s !! k = Some old -> id = old.1
  end.

Lemma last_written_cons (k : ForecastKey) f fs :
  last (written k (f :: fs)) =
  match last (written k fs) with
  | Some g => Some g
  | None => if bool_decide (forecast_key f = k) then Some f else None
  end.
Proof.
  unfold written. simpl. case_bool_decide; [|by destruct (last _)].
  rewrite last_cons. by destruct (last _).
Qed.

Lemma stored_upsert_inv s f s' : upsert s f = (s', None) ->
  pf_fault s SUpsert = None /\ forecast_allowed f = true /\ pf_ops s' = pf_ops s /\
  pf_fault s' = pf_fault s /\ forall k, row_after s [f] k (pf_rows s' !! k).
Proof.
  unfold upsert. destruct (pf_fault s SUpsert) eqn:Ef; [done|].
  destruct (forecast_allowed f); [|done]. intros [= <-]. do 4 (split; [done|]).
  intros k. unfold row_after. rewrite last_written_cons. simpl. case_bool_decide as Hk.
  - subst k. rewrite lookup_insert_eq. eexists. split; [done|]. intros old ->. done.
  - by rewrite lookup_insert_ne.
Qed.

Lemma row_after_trans s s1 f fs k row :
  row_after s [f] k (pf_rows s1 !! k) -> row_after s1 fs k row -> row_after s (f :: fs) k row.
Proof.
  unfold row_after. rewrite !last_written_cons. destruct (last (written k fs)) as [g|]; simpl.
  - case_bool_decide.
    + intros (id & E & Hid) (id' & -> & Hid'). exists id'. split; [done|]. intros old Hold.
      rewrite (Hid' _ E). simpl. by apply Hid.
    + intros E (id' & -> & Hid'). exists id'. split; [done|]. intros old Hold. apply Hid'. congruence.
  - intros H ->. done.
Qed.

Lemma upsertAll_rows fs : forall s i s', upsertAll s i fs = (s', None) ->
  pf_ops s' = pf_ops s /\ pf_fault s' = pf_fault s /\
  forall k, row_after s fs k (pf_rows s' !! k).
Proof.
  induction fs as [|f fs IH]; simpl; intros s i s' H; [by simplify_eq|].
  destruct (upsert s f) as [s1 [e|]] eqn:E; [done|].
  destruct (stored_upsert_inv _ _ _ E) as (_ & _ & Eo & Ef & Hf).
  destruct (IH _ _ _ H) as (Eo' & Ef' & Hr). rewrite Eo', Ef', Eo, Ef.
  do 2 (split; [done|]). intros k. eapply row_after_trans; eauto.
Qed.

Lemma upsert_fails s f s' e : upsert s f = (s', Some e) ->
  pf_fault s SUpsert <> None \/ forecast_allowed f = false.
Proof.
  unfold upsert. destruct (pf_fault s SUpsert); [by left|].
  destruct (forecast_allowed f); [done|by right].
Qed.

Lemma upsertAll_succeeds fs : forall s i,
  (upsertAll s i fs).2 = None <->
  fs = [] \/ (pf_fault s SUpsert = None /\ forallb forecast_allowed fs = true).
Proof.
  induction fs as [|f fs IH]; simpl; intros s i; [by split; [left|]|].
  destruct (upsert s f) as [s1 [e|]] eqn:E; simpl.
  - destruct (upsert_fails _ _ _ _ E) as [H|H]; rewrite ?H; naive_solver.
  - destruct (stored_upsert_inv _ _ _ E) as (Hf & Ha & _ & Ef & _). rewrite IH, Ef, Ha, Hf. simpl.
    split; [|naive_solver]. intros [->|[_ H]]; auto.
Qed.

Lemma batch_rows s fs s' : UpsertForecasts s fs = (s', None) ->
  pf_ops s' = pf_ops s /\ pf_fault s' = pf_fault s /\
  forall k, row_after s fs k (pf_rows s' !! k).
Proof.
  unfold UpsertForecasts. destruct fs as [|f fs]; [by intros [= <-]|].
  destruct (pf_fault s SBegin); [done|].
  destruct (upsertAll s 0 (f :: fs)) as [s1 [e|]] eqn:E; [done|].
  destruct (pf_fault s SCommit); [done|]. intros [= <-]. exact (upsertAll_rows _ _ _ _ E).
Qed.

Lemma batch_succeeds s fs : (UpsertForecasts s fs).2 = None <->
  fs = [] \/ (forallb forecast_allowed fs = true /\
              pf_fault s SBegin = None /\ pf_fault s SUpsert = None /\ pf_fault s SCommit = None).
Proof.
  pose proof (upsertAll_succeeds fs s 0) as H. unfold UpsertForecasts.
  destruct fs as [|f fs]; [by split; [left|]|]. destruct (pf_fault s SBegin); [naive_solver|].
  destruct (upsertAll s 0 (f :: fs)) as [s1 [e|]] eqn:E; cbn [snd] in *.
  - split; [done|]. naive_solver.
  - destruct (pf_fault s SCommit); cbn [snd]; naive_solver.
Qed.

(** A batch of forecasts is all or nothing. It succeeds exactly when it is empty, or no
    statement of the transaction fails and every forecast has an operation and a status the table
    accepts; then each key holds the last forecast of the batch with that key, a replaced row
    keeping its id, and other keys are untouched. After an error the rows and the history are those
    from before. *)
Theorem forecast_upsert_exact (s : PGForecastStore) (fs : list MaintenanceForecast) :
  let r := UpsertForecasts s fs in
  (r.2 = None <-> fs = [] \/ (forallb forecast_allowed fs = true /\ pf_fault s SBegin = None /\
                              pf_fault s SUpsert = None /\ pf_fault s SCommit = None)) /\
  pf_ops r.1 = pf_ops s /\
  match r.2 with
  | None => forall k, row_after s fs k (pf_rows r.1 !! k)
  | Some _ => pf_rows r.1 = pf_rows s
  end.
Proof.
  split; [apply batch_succeeds|]. destruct (UpsertForecasts s fs) as [s' [e|]] eqn:E; simpl.
  - revert E. unfold UpsertForecasts. destruct fs as [|f fs]; [done|].
    destruct (pf_fault s SBegin); [by intros [= <- _]|].
    destruct (upsertAll s 0 (f :: fs)) as [s1 [e'|]]; [by intros [= <- _]|].
    destruct (pf_fault s SCommit); [|done]. by intros [= <- _].
  - destruct (batch_rows _ _ _ E) as (Eo & _ & H). done.
Qed.

(** ** From an evaluation to the API *)

(** Every row stands under its own key. *)
Definition keyed (s : PGForecastStore) : Prop :=
  map_Forall (fun k row => forecast_key row.2 = k) (pf_rows s).

(** No statement of the store fails. *)
Definition up (s : PGForecastStore) : Prop := forall st, pf_fault s st = None.

Lemma batch_keyed s fs s' : keyed s -> UpsertForecasts s fs = (s', None) -> keyed s'.
Proof.
  intros Hs H k row Hrow. destruct (batch_rows _ _ _ H) as (_ & _ & Hr). specialize (Hr k).
  rewrite Hrow in Hr. unfold row_after in Hr.
  destruct (last (written k fs)) as [f|] eqn:E.
  - destruct Hr as (id & [= ->] & _). apply last_Some_elem_of in E.
    apply elem_of_filter_bool in E as [Hk%bool_decide_eq_true _]. exact Hk.
  - by apply Hs.
Qed.

Section served.
Context {SS : SliceSort} {MR : MapRange} {M : Type} {HM : MetricStore M}.
Context (math_Pow : float64 -> float64 -> float64).

Lemma projectNeed_fields cfg id op t limit points now :
  let f := projectNeed cfg id op t limit points now in
  forecast_key f = (id, tt_Database t, tt_Table t, op) /\
  mem (mf_Status f) ["predicted"; "imminent"; "overdue"; "not_needed"; "insufficient_data"] = true.
Proof.
  unfold projectNeed. destruct (_ <? _); [done|]. destruct (fge _ _); [done|].
  destruct (fle (computeRate points) f0); [done|]. simpl. split; [done|]. by destruct (fle _ _).
Qed.

(** Whatever an evaluation computes fits the table and is about its instance. *)
Lemma computed_fits cfg m id ts now f :
  f ∈ computedForecasts cfg m id ts now -> forecast_allowed f = true /\ mf_InstanceID f = id.
Proof.
  unfold computedForecasts. rewrite !elem_of_app, list_elem_of_In, in_concat.
  intros [(l & Hl & Hf)|[Hf|Hf]].
  - apply in_map_iff in Hl as (t & <- & _). unfold forecast_allowed.
    destruct Hf as [<-|[<-|[]]]; unfold evaluateVacuum, evaluateAnalyze;
      [pose proof (projectNeed_fields cfg id "vacuum" t (tt_EffectiveVacuumLimit t)
         (queryMetricHistory cfg m id "pg.db.vacuum.dead_tuples" (tt_Database t) (tt_Table t) now) now)
         as [Hk Hst]
      |pose proof (projectNeed_fields cfg id "analyze" t (tt_EffectiveAnalyzeLimit t)
         (queryMetricHistory cfg m id "pg.db.vacuum.mod_since_analyze" (tt_Database t) (tt_Table t) now)
         now) as [Hk Hst]];
      unfold forecast_key in Hk; injection Hk as E1 _ _ E4; rewrite E4, Hst; done.
  - unfold evaluateReindexBatch in Hf. destruct (ms_Query _ _); [|by apply not_elem_of_nil in Hf].
    apply list_elem_of_fmap in Hf as ([[db table] ratio] & -> & _). unfold forecast_allowed. simpl.
    destruct (fge _ _); [done|]. by destruct (fge _ _).
  - destruct (_ <? _); [|by apply not_elem_of_nil in Hf]. by apply list_elem_of_singleton in Hf as ->.
Qed.

Lemma evaluateInstance_batch cfg m s id ts now :
  evaluateInstance cfg m s id (Ok ts) now = (UpsertForecasts s (computedForecasts cfg m id ts now)).1.
Proof.
  unfold evaluateInstance. by destruct (computedForecasts cfg m id ts now) as [|f fs].
Qed.

Lemma evaluation_stored cfg m s id ts now : up s ->
  exists s', UpsertForecasts s (computedForecasts cfg m id ts now) = (s', None) /\
    evaluateInstance cfg m s id (Ok ts) now = s'.
Proof.
  intros Hs. rewrite evaluateInstance_batch.
  destruct (UpsertForecasts s _) as [s' e] eqn:E. exists s'. split; [|done].
  assert (H : e = None); [|by rewrite H]. change e with ((s', e).2). rewrite <- E.
  apply batch_succeeds. right. repeat split; try apply Hs.
  apply forallb_forall. intros f Hf%list_elem_of_In. by apply computed_fits in Hf as [? _].
Qed.

Lemma weak_on_forecast (l : list (Z * MaintenanceForecast)) : weak_on forecast_before l.
Proof.
  apply (weak_on_lex (fun r => status_rank (mf_Status r.2))
           (fun a b => sql_lt (mf_TimeUntilSec a.2) (mf_TimeUntilSec b.2))), weak_on_sql.
Qed.

(** What a listing without a filter holds. *)
Lemma listed_rows s id rows : keyed s ->
  ListForecasts s (mkForecastFilter id "" "" "" []) = Ok rows ->
  StronglySorted (fun a b => forecast_before b a = false) rows /\
  NoDup (map (fun r => forecast_key r.2) rows) /\
  forall row, row ∈ rows <-> mf_InstanceID row.2 = id /\ pf_rows s !! forecast_key row.2 = Some row.
Proof.
  intros Hs. unfold ListForecasts. destruct (pf_fault _ _); [done|]. intros [= <-].
  set (l := List.filter _ _).
  assert (Hel : forall row, row ∈ l <-> mf_InstanceID row.2 = id /\
                                        pf_rows s !! forecast_key row.2 = Some row).
  { intros row. unfold l. rewrite elem_of_filter_bool. unfold forecast_selected, opt_filter. simpl.
    rewrite !andb_true_r, String.eqb_eq, list_elem_of_fmap. split.
    - intros [Hid ([k r] & -> & Hk)]. rewrite map_range_perm in Hk.
      apply elem_of_map_to_list in Hk. simpl in *. by rewrite (Hs _ _ Hk).
    - intros [Hid Hk]. split; [done|]. exists (forecast_key row.2, row). split; [done|].
      rewrite map_range_perm. by apply elem_of_map_to_list. }
  split; [|split].
  - apply sort_slice_sorted, weak_on_forecast.
  - rewrite (Permutation_map _ (sort_slice_perm _ _ _)). unfold l.
    assert (E : map (fun r => forecast_key r.2) (map snd (map_range (pf_rows s)))
                = map fst (map_range (pf_rows s))).
    { rewrite map_map. apply map_ext_in. intros [k r] Hk%list_elem_of_In.
      rewrite map_range_perm in Hk. apply elem_of_map_to_list in Hk. by apply Hs. }
    assert (ND : NoDup (map (fun r => forecast_key r.2) (map snd (map_range (pf_rows s))))).
    { rewrite E, (Permutation_map _ (map_range_perm _ _ _)). apply NoDup_fst_map_to_list. }
    clear -ND. induction (map snd (map_range (pf_rows s))) as [|r rs IH]; simpl in *; [done|].
    apply NoDup_cons in ND as [Hn ND]. destruct (forecast_selected _ _); simpl; [|by apply IH].
    apply NoDup_cons. split; [|by apply IH]. contradict Hn.
    apply list_elem_of_fmap in Hn as (y & Ey & Hy). apply elem_of_filter_bool in Hy as [_ Hy].
    apply list_elem_of_fmap. eauto.
  - intros row. rewrite sort_slice_perm. apply Hel.
Qed.

Lemma count_status_spec l : forall a b c t,
  foldl count_status (mkForecastSummary a b c t) l =
  mkForecastSummary (a + len (List.filter (fun f => String.eqb (mf_Status f) "imminent") l))
    (b + len (List.filter (fun f => String.eqb (mf_Status f) "overdue") l))
    (c + len (List.filter (fun f => String.eqb (mf_Status f) "predicted") l)) t.
Proof.
  induction l as [|f l IH]; intros a b c t; [simpl; unfold len; simpl; by rewrite !Z.add_0_r|].
  change (foldl count_status (mkForecastSummary a b c t) (f :: l))
    with (foldl count_status (count_status (mkForecastSummary a b c t) f) l).
  cbn [List.filter]. unfold count_status at 2.
  destruct (String.eqb_spec (mf_Status f) "imminent") as [E1|E1];
    destruct (String.eqb_spec (mf_Status f) "overdue") as [E2|E2];
    destruct (String.eqb_spec (mf_Status f) "predicted") as [E3|E3]; try congruence;
    cbn [fsu_ImminentCount fsu_OverdueCount fsu_PredictedCount fsu_TotalTablesEvaluated];
    rewrite IH; unfold len; f_equal; cbn [length]; lia.
Qed.

(** C28: What the evaluator computed for an instance is what the API serves. On a store whose
    statements succeed, after an evaluation with the thresholds [ts] the answer lists the rows of
    the instance, each key once, the most urgent status first and the sooner time first within a
    status (a NaN last); a row is there exactly when it is the last forecast computed for its key,
    or an older row whose key was not computed again; the summary counts the listed statuses. This is
    the value that is to be encoded: one with a number JSON cannot write is sent as an empty body
    ([Http.sent]). *)
Theorem evaluated_needs_served (cfg : MaintenanceForecastConfig) (m : M) (s : PGForecastStore)
    (tr : OperationTracker) (eta : ETACalculator) (exists_ : string -> bool)
    (id : string) (ts : list TableThresholds) (now : Time) :
  keyed s -> up s -> exists_ id = true ->
  let s' := evaluateInstance cfg m s id (Ok ts) now in
  let computed k := last (written k (computedForecasts cfg m id ts now)) in
  exists rows,
    handleForecastNeeds exists_ (Some (mkForecastEngine tr eta s' cfg)) id (fun _ => "")
      = RJSON 200 (BNeeds rows (mkForecastSummary
          (len (List.filter (fun f => String.eqb (mf_Status f) "imminent") (map snd rows)))
          (len (List.filter (fun f => String.eqb (mf_Status f) "overdue") (map snd rows)))
          (len (List.filter (fun f => String.eqb (mf_Status f) "predicted") (map snd rows)))
          (len (map snd rows)))) /\
    StronglySorted (fun a b => forecast_before b a = false) rows /\
    NoDup (map (fun r => forecast_key r.2) rows) /\
    (forall k f, computed k = Some f -> exists i, (i, forecast_row f) ∈ rows) /\
    (forall row, row ∈ rows ->
       match computed (forecast_key row.2) with
       | Some f => row.2 = forecast_row f
       | None => mf_InstanceID row.2 = id /\ pf_rows s !! forecast_key row.2 = Some row
       end).
Proof.
  intros Hk Hup Hex s' computed.
  destruct (evaluation_stored cfg m s id ts now Hup) as (s1 & Hb & Es). subst s'.
  rewrite Es. pose proof (batch_keyed _ _ _ Hk Hb) as Hk1.
  destruct (batch_rows _ _ _ Hb) as (_ & Ef & Hr).
  destruct (ListForecasts s1 (mkForecastFilter id "" "" "" [])) as [rows|e] eqn:El.
  2: { unfold ListForecasts in El. rewrite Ef, Hup in El. discriminate. }
  exists rows. destruct (listed_rows _ _ _ Hk1 El) as (Hsort & Hnd & Hel).
  split; [|split; [done|split; [done|split]]].
  - unfold handleForecastNeeds, withEngine. rewrite Hex. simpl. rewrite El.
    unfold computeSummary. rewrite count_status_spec, !Z.add_0_l. done.
  - intros k f Hf. specialize (Hr k). unfold row_after in Hr. fold (computed k) in Hr.
    rewrite Hf in Hr. destruct Hr as (i & Hi & _). exists i. apply Hel. cbn [snd].
    apply last_Some_elem_of in Hf. apply elem_of_filter_bool in Hf as [Hfk%bool_decide_eq_true Hf].
    split; [by apply computed_fits in Hf as [_ ?]|]. unfold forecast_key, forecast_row in *.
    cbn in *. by rewrite Hfk.
  - intros row Hrow. apply Hel in Hrow as [Hid Hrow]. specialize (Hr (forecast_key row.2)).
    rewrite Hrow in Hr. unfold row_after in Hr. fold (computed (forecast_key row.2)) in Hr.
    destruct (computed _) as [f|]; [by destruct Hr as (i & [= ->] & _)|done].
Qed.
End served.

(** ** Concrete stores *)

#[local] Existing Instance canonical_MapRange.
#[local] Existing Instance insertion_SliceSort.

(** Three points of dead tuples for every query. *)
#[local] Instance demoPoints : MetricStore unit := {|
  ms_Write := fun m _ => (m, None);
  ms_Query := fun _ q =>
    if String.eqb (q_Metric q) "pg.db.vacuum.dead_tuples" then
      Ok (map (fun k => mkPoint "db1" (q_Metric q) (f_of_Z (20 * k)) (q_Labels q) (k * Minute)) [1; 2; 3])
    else Ok []
|}.

Definition demoNeeds : MaintenanceForecastConfig :=
  ApplyDefaults (mkForecastConfig true 0 f0 0 0 0 0 0 f0 0 f0 f0 f0 0 0).

Definition orders (schema : string) (limit : Z) : TableThresholds :=
  mkThresholds "app" schema "orders" 100 true 50 (fconst 2 10) 50 (fconst 1 10) (f_of_Z limit) (f_of_Z 60).

Definition emptyForecasts : PGForecastStore := mkForecastStore [] 1 ∅ 1 (fun _ => None).

Definition needsOf (ts : list TableThresholds) : list (string * string * string) :=
  match ListForecasts (evaluateInstance demoNeeds tt emptyForecasts "db1" (Ok ts) (10 * Minute))
          (mkForecastFilter "db1" "" "" "" []) with
  | Ok rows => map (fun r => (mf_Table r.2, mf_Operation r.2, mf_Status r.2)) rows
  | Err _ => []
  end.

(** Tables of the same name in two schemas share a row: the overdue one disappears behind the
    other. *)
Example same_named_tables_collide :
  needsOf [orders "public" 50] = [("orders", "vacuum", "overdue"); ("orders", "analyze", "insufficient_data")] /\
  needsOf [orders "public" 50; orders "audit" 1000000] =
    [("orders", "vacuum", "predicted"); ("orders", "analyze", "insufficient_data")].
Proof. split; vm_compute; reflexivity. Qed.

Lemma evaluated_needs_served_witness :
  exists rows summary,
    handleForecastNeeds (fun _ => true)
      (Some (mkForecastEngine (NewOperationTracker 0 10) (NewETACalculator (mkETAConfig 0 f0 0))
               (evaluateInstance demoNeeds tt emptyForecasts "db1"
                  (Ok [orders "public" 50; orders "audit" 1000000]) (10 * Minute)) demoNeeds))
      "db1" (fun _ => "") = RJSON 200 (BNeeds rows summary) /\
    NoDup (map (fun r => forecast_key r.2) rows).
Proof.
  destruct (evaluated_needs_served demoNeeds tt emptyForecasts (NewOperationTracker 0 10)
              (NewETACalculator (mkETAConfig 0 f0 0)) (fun _ => true) "db1"
              [orders "public" 50; orders "audit" 1000000] (10 * Minute))
    as (rows & H & _ & Hnd & _).
  - apply map_Forall_empty.
  - intros st. reflexivity.
  - reflexivity.
  - exists rows. eexists. split; [exact H|exact Hnd].
Defined.
