(* ===== verification/RcaStore.v ===== *)
(** * The storage of incidents and their API

    Models internal/rca/store.go, pgstore.go and nullstore.go over the table rca_incidents of
    migration 016, and internal/api/rca.go. Chains, timeline, quality and hooks are one JSON
    document: encoding it fails on a number that is not finite and on a year beyond 9999, and
    jsonb has no negative zero; its texts are taken to be valid UTF-8 without NUL. *)
From stdpp Require Import pretty.
From S2P Require Import Prelude Float64 Metric RcaGraph RcaOntology RcaEngine RcaTheorems GoText Http SqlConn.

Local Open Scope Z_scope.

(** ** The document timeline_json *)

Record incidentJSONB := mkDoc {
  dj_PrimaryChain : option CausalChainResult;
  dj_AlternativeChain : option CausalChainResult;
  dj_Timeline : list TimelineEvent;
  dj_Quality : QualityStatus;
  dj_RemediationHooks : list string
}.

Definition json_float (x : float64) : bool := negb (is_nan x) && negb (is_infinite x).

(** The years 0 to 9999. *)
Definition json_time (t : Time) : bool :=
  (-62167219200 * Second <=? t) && (t <? 253402300800 * Second).

Definition json_event (e : TimelineEvent) : bool :=
  json_time (te_Timestamp e)
  && forallb json_float [te_Value e; te_BaselineVal e; te_ZScore e; te_Strength e].

Definition json_chain (c : CausalChainResult) : bool :=
  json_float (cr_Score c) && forallb json_event (cr_Events c).

Definition json_ochain (c : option CausalChainResult) : bool :=
  match c with Some c => json_chain c | None => true end.

(** [json.Marshal(doc)] succeeds. *)
Definition doc_encodes (d : incidentJSONB) : bool :=
  json_ochain (dj_PrimaryChain d) && json_ochain (dj_AlternativeChain d)
  && forallb json_event (dj_Timeline d) && json_float (qs_TelemetryCompleteness (dj_Quality d)).

(** What jsonb keeps of the document. *)
Definition jsonb_num (x : float64) : float64 := if is_zero x then f0 else x.

Definition jsonb_event (e : TimelineEvent) : TimelineEvent :=
  mkTimelineEvent (te_Timestamp e) (te_NodeID e) (te_NodeName e) (te_MetricKey e)
    (jsonb_num (te_Value e)) (jsonb_num (te_BaselineVal e)) (jsonb_num (te_ZScore e))
    (jsonb_num (te_Strength e)) (te_Layer e) (te_Role e) (te_Evidence e) (te_Description e)
    (te_EdgeDesc e).

Definition jsonb_chain (c : CausalChainResult) : CausalChainResult :=
  mkChainResult (cr_ChainID c) (cr_ChainName c) (jsonb_num (cr_Score c)) (cr_RootCauseKey c)
    (map jsonb_event (cr_Events c)).

Definition jsonb_quality (q : QualityStatus) : QualityStatus :=
  mkQuality (jsonb_num (qs_TelemetryCompleteness q)) (qs_AnomalySourceMode q)
    (qs_ScopeLimitations q) (qs_UnavailableDeps q).

Definition jsonb_doc (d : incidentJSONB) : incidentJSONB :=
  mkDoc (option_map jsonb_chain (dj_PrimaryChain d)) (option_map jsonb_chain (dj_AlternativeChain d))
    (map jsonb_event (dj_Timeline d)) (jsonb_quality (dj_Quality d)) (dj_RemediationHooks d).

(** ** The table *)

(** The columns that only a review sets. *)
Record Review := mkReview {
  rv_Status : option string;
  rv_By : option string;
  rv_At : option Time;
  rv_Comment : option string
}.

Definition no_review : Review := mkReview None None None None.

Record IncidentRow := mkIncidentRow {
  ir_InstanceID : string;
  ir_TriggerMetric : string;
  ir_TriggerValue : float64;
  ir_TriggerTime : Time;
  ir_TriggerKind : string;
  ir_Window : TimeWindow;
  ir_PrimaryChainID : option string;
  ir_PrimaryRootCause : option string;
  ir_Confidence : float64;
  ir_ConfidenceBucket : string;
  ir_QualityStatus : string;
  ir_Doc : incidentJSONB;
  ir_Summary : string;
  ir_AutoTriggered : bool;
  ir_RemediationHooks : list string;
  ir_ChainVersion : string;
  ir_AnomalySourceMode : string;
  ir_Review : Review;
  ir_CreatedAt : Time
}.

Inductive incident_stmt := ICreate | IGet | ICount | IList | IReview | ICleanup.

Record PGIncidentStore := mkIncidentStore {
  pi_rows : gmap Z IncidentRow;
  pi_seq : Z;
  pi_fault : incident_stmt -> option error
}.

Definition set_incidents (rows : gmap Z IncidentRow) (s : PGIncidentStore) : PGIncidentStore :=
  mkIncidentStore rows (pi_seq s) (pi_fault s).

Definition incident_doc (i : Incident) : incidentJSONB :=
  mkDoc (in_PrimaryChain i) (in_AlternativeChain i) (in_Timeline i) (in_Quality i)
    (in_RemediationHooks i).

Definition incident_row (i : Incident) : IncidentRow :=
  mkIncidentRow (in_InstanceID i) (in_TriggerMetric i) (in_TriggerValue i)
    (pg_time (in_TriggerTime i)) (in_TriggerKind i)
    (mkWindow (pg_time (w_From (in_AnalysisWindow i))) (pg_time (w_To (in_AnalysisWindow i))))
    (option_map cr_ChainID (in_PrimaryChain i)) (option_map cr_RootCauseKey (in_PrimaryChain i))
    (in_Confidence i) (in_ConfidenceBucket i) (qs_AnomalySourceMode (in_Quality i))
    (jsonb_doc (incident_doc i)) (in_Summary i) (in_AutoTriggered i) (in_RemediationHooks i)
    (in_ChainVersion i) (in_AnomalyMode i) no_review (pg_time (in_CreatedAt i)).

(** The texts of an incident that come from outside: of the request and of the summary. *)
Definition incident_texts (i : Incident) : bool :=
  forallb pg_text [in_InstanceID i; in_TriggerMetric i; in_TriggerKind i; in_Summary i].

Definition err_text : error := "invalid byte sequence for encoding UTF8".
Definition err_json : error := "json: unsupported value".
Definition incident_not_found (id : Z) : error := "incident " +:+ pretty id +:+ " not found".
Definition err_no_rows : error := "no rows in result set".

(** A row that is refused still takes a number of the sequence. *)
Definition pgi_Create (s : PGIncidentStore) (i : Incident) : PGIncidentStore * result Z :=
  if negb (doc_encodes (incident_doc i)) then (s, Err (wrap "rca pgstore marshal" err_json))
  else match pi_fault s ICreate with
  | Some e => (s, Err (wrap "rca pgstore create" e))
  | None =>
      if negb (incident_texts i) then (s, Err (wrap "rca pgstore create" err_text))
      else (mkIncidentStore (<[pi_seq s := incident_row i]> (pi_rows s)) (pi_seq s + 1) (pi_fault s),
            Ok (pi_seq s))
  end.

(** The document's chains, timeline, quality and hooks are those of the incident. *)
Definition incident_of (id : Z) (r : IncidentRow) : Incident :=
  let d := ir_Doc r in
  mkIncident id (ir_InstanceID r) (ir_TriggerMetric r) (ir_TriggerValue r) (ir_TriggerTime r)
    (ir_TriggerKind r) (ir_Window r) (dj_PrimaryChain d) (dj_AlternativeChain d) (dj_Timeline d)
    (ir_Summary r) (ir_Confidence r) (ir_ConfidenceBucket r) (dj_Quality d)
    (dj_RemediationHooks d) (ir_AutoTriggered r) (ir_ChainVersion r) (ir_AnomalySourceMode r)
    (ir_CreatedAt r).

Definition pgi_Get (s : PGIncidentStore) (id : Z) : result (option (Incident * Review)) :=
  match pi_fault s IGet with
  | Some e => Err (wrap "rca pgstore get" e)
  | None =>
      match pi_rows s !! id with
      | None => Err (wrap "rca pgstore get" err_no_rows)
      | Some r => Ok (Some (incident_of id r, ir_Review r))
      end
  end.

(** An entry of a listing: the columns it selects, the other fields zero. *)
Definition listed_incident (id : Z) (r : IncidentRow) : Incident :=
  mkIncident id (ir_InstanceID r) (ir_TriggerMetric r) (ir_TriggerValue r) (ir_TriggerTime r)
    (ir_TriggerKind r) (mkWindow zero_time zero_time)
    (option_map (fun c => mkChainResult c "" f0 (default "" (ir_PrimaryRootCause r)) [])
       (ir_PrimaryChainID r)) None []
    (ir_Summary r) (ir_Confidence r) (ir_ConfidenceBucket r) (mkQuality f0 "" [] [])
    [] (ir_AutoTriggered r) (ir_ChainVersion r) (ir_AnomalySourceMode r)
    (ir_CreatedAt r).

Section store.
Context {SS : SliceSort} {MR : MapRange}.

Definition newest_first (a b : Z * IncidentRow) : bool :=
  time_Before (ir_CreatedAt b.2) (ir_CreatedAt a.2).

(** [where_] is the name the errors carry. *)
Definition list_incidents (s : PGIncidentStore) (selected : IncidentRow -> bool)
    (count_what list_what : string) (limit offset : Z) : result (list Incident * Z) :=
  let rows := List.filter (fun kr => selected kr.2) (map_range (pi_rows s)) in
  match pi_fault s ICount with
  | Some e => Err (wrap count_what e)
  | None =>
      match pi_fault s IList with
      | Some e => Err (wrap list_what e)
      | None =>
          match sql_page limit offset (sort_slice newest_first rows) with
          | Err e => Err (wrap list_what e)
          | Ok page => Ok (map (fun kr => listed_incident kr.1 kr.2) page, len rows)
          end
      end
  end.

Definition pgi_ListByInstance (s : PGIncidentStore) (instanceID : string) (limit offset : Z)
    : result (list Incident * Z) :=
  list_incidents s (fun r => String.eqb (ir_InstanceID r) instanceID)
    "rca pgstore count" "rca pgstore list" limit offset.

Definition pgi_ListAll (s : PGIncidentStore) (limit offset : Z) : result (list Incident * Z) :=
  list_incidents s (fun _ => true) "rca pgstore count all" "rca pgstore list all" limit offset.
End store.

Definition with_review (v : Review) (r : IncidentRow) : IncidentRow :=
  mkIncidentRow (ir_InstanceID r) (ir_TriggerMetric r) (ir_TriggerValue r) (ir_TriggerTime r)
    (ir_TriggerKind r) (ir_Window r) (ir_PrimaryChainID r) (ir_PrimaryRootCause r)
    (ir_Confidence r) (ir_ConfidenceBucket r) (ir_QualityStatus r) (ir_Doc r) (ir_Summary r)
    (ir_AutoTriggered r) (ir_RemediationHooks r) (ir_ChainVersion r) (ir_AnomalySourceMode r) v
    (ir_CreatedAt r).

(** [now] is the clock of the server. *)
Definition pgi_UpdateReview (now : Time) (s : PGIncidentStore) (id : Z) (status comment : string)
    : PGIncidentStore * option error :=
  let failed e := (s, Some (wrap "rca pgstore update review" e)) in
  match pi_fault s IReview with
  | Some e => failed e
  | None =>
      if negb (pg_text status && pg_text comment) then failed err_text
      else match pi_rows s !! id with
           | None => (s, Some (incident_not_found id))
           | Some r =>
               let v := mkReview (Some status) (rv_By (ir_Review r)) (Some (pg_time now))
                          (Some comment) in
               (set_incidents (<[id := with_review v r]> (pi_rows s)) s, None)
           end
  end.

Definition pgi_Cleanup (now : Time) (s : PGIncidentStore) (olderThan : Duration)
    : PGIncidentStore * result Z :=
  match pi_fault s ICleanup with
  | Some e => (s, Err (wrap "rca pgstore cleanup" e))
  | None =>
      let cutoff := pg_time (time_Add now (i64 (- olderThan))) in
      let kept := filter (fun kr => cutoff <= ir_CreatedAt kr.2) (pi_rows s) in
      (set_incidents kept s, Ok (Z.of_nat (size (pi_rows s)) - Z.of_nat (size kept)))
  end.

(** ** The interface IncidentStore beside [Create] *)

Class IncidentQueries (I : Type) := {
  iq_Get : I -> Z -> result (option (Incident * Review));
  iq_ListByInstance : I -> string -> Z -> Z -> result (list Incident * Z);
  iq_ListAll : I -> Z -> Z -> result (list Incident * Z);
  iq_UpdateReview : Time -> I -> Z -> string -> string -> I * option error;
  iq_Cleanup : Time -> I -> Duration -> I * result Z
}.

#[export] Instance PGIncidents : IncidentStore PGIncidentStore := {| is_Create := pgi_Create |}.

#[export] Instance PGIncidentQueries {SS : SliceSort} {MR : MapRange}
    : IncidentQueries PGIncidentStore := {|
  iq_Get := pgi_Get;
  iq_ListByInstance := pgi_ListByInstance;
  iq_ListAll := pgi_ListAll;
  iq_UpdateReview := pgi_UpdateReview;
  iq_Cleanup := pgi_Cleanup
|}.

Inductive NullIncidentStore := NewNullIncidentStore.

#[export] Instance NullIncidents : IncidentStore NullIncidentStore := {|
  is_Create n _ := (n, Ok 0)
|}.

#[export] Instance NullIncidentQueries : IncidentQueries NullIncidentStore := {|
  iq_Get _ _ := Ok None;
  iq_ListByInstance _ _ _ _ := Ok ([], 0);
  iq_ListAll _ _ _ := Ok ([], 0);
  iq_UpdateReview _ n _ _ _ := (n, None);
  iq_Cleanup _ n _ := (n, Ok 0)
|}.

(** ** api/rca.go *)

Record rcaAnalyzeRequest := mkAnalyzeBody {
  ab_Metric : string;
  ab_Value : float64;
  ab_Timestamp : string;
  ab_WindowMinutes : Z
}.

Record rcaReviewRequest := mkReviewBody {
  rb_Status : string;
  rb_Comment : string
}.

Inductive rcaBody :=
  | BIncident (incident : Incident) (review : Review)
  | BIncidents (incidents : list Incident) (total : Z)
  | BGraph (nodes : gmap string CausalNode) (edges : list CausalEdge) (chain_ids : list string)
  | BReviewed (incident_id : Z) (status : string).

(** The limit, at most 500, and the offset of a query. *)
Definition parseRCAPagination (q : string -> string) : Z * Z :=
  (Z.min 500 (queryNumber (Z.ltb 0) 20 (q "limit")), queryNumber (Z.leb 0) 0 (q "offset")).

(** The request of the analysis, or the message of the error: the kind of trigger stays empty. *)
Definition analyze_request (parse_time : string -> option Time) (now : Time) (instanceID : string)
    (body : option rcaAnalyzeRequest) : string + AnalyzeRequest :=
  match body with
  | None => inl "invalid JSON body"
  | Some req =>
      if String.eqb (ab_Metric req) "" then inl "metric is required"
      else
        let window := if ab_WindowMinutes req =? 0 then 30 else ab_WindowMinutes req in
        let at_ t := inr (mkRequest instanceID (ab_Metric req) (ab_Value req) t window "") in
        if String.eqb (ab_Timestamp req) "" then at_ now
        else match parse_time (ab_Timestamp req) with
             | Some t => at_ t
             | None => inl "timestamp must be RFC3339"
             end
  end.

Section handlers.
Context (instanceExists : string -> bool).

Definition rca_not_found {B} : response B := writeError StatusNotFound "NOT_FOUND" "instance not found".
Definition list_failed {B} : response B :=
  writeError StatusInternalServerError "INTERNAL" "failed to list incidents".
Definition bad_incident_id {B} : response B :=
  writeError StatusBadRequest "INVALID_ID" "incidentId must be an integer".

Section queries.
Context {I : Type} {IQ : IncidentQueries I}.

Definition handleRCAListIncidents (store : I) (instanceID : string) (q : string -> string)
    : response rcaBody :=
  if negb (instanceExists instanceID) then rca_not_found
  else let '(limit, offset) := parseRCAPagination q in
       match iq_ListByInstance store instanceID limit offset with
       | Err _ => list_failed
       | Ok (incidents, total) => writeJSON StatusOK (BIncidents incidents total)
       end.

Definition handleRCAListAllIncidents (store : I) (q : string -> string) : response rcaBody :=
  let '(limit, offset) := parseRCAPagination q in
  match iq_ListAll store limit offset with
  | Err _ => list_failed
  | Ok (incidents, total) => writeJSON StatusOK (BIncidents incidents total)
  end.

Definition handleRCAGetIncident (store : I) (instanceID incidentIDStr : string) : response rcaBody :=
  if negb (instanceExists instanceID) then rca_not_found
  else match ParseInt incidentIDStr with
  | (_, Some _) => bad_incident_id
  | (incidentID, None) =>
      match iq_Get store incidentID with
      | Err _ => writeError StatusInternalServerError "INTERNAL" "failed to get incident"
      | Ok None => writeError StatusNotFound "NOT_FOUND" "incident not found"
      | Ok (Some (incident, review)) => writeJSON StatusOK (BIncident incident review)
      end
  end.

Definition handleRCAReviewIncident (now : Time) (store : I) (incidentIDStr : string)
    (body : option rcaReviewRequest) : I * response rcaBody :=
  match ParseInt incidentIDStr with
  | (_, Some _) => (store, bad_incident_id)
  | (incidentID, None) =>
      match body with
      | None => (store, writeError StatusBadRequest "INVALID_BODY" "invalid JSON body")
      | Some req =>
          if String.eqb (rb_Status req) "" then
            (store, writeError StatusBadRequest "INVALID_BODY" "status is required")
          else match iq_UpdateReview now store incidentID (rb_Status req) (rb_Comment req) with
               | (store', Some _) =>
                   (store', writeError StatusNotFound "NOT_FOUND" "incident not found or update failed")
               | (store', None) => (store', writeJSON StatusOK (BReviewed incidentID (rb_Status req)))
               end
      end
  end.
End queries.

Definition handleRCAGetGraph (en : Engine) : response rcaBody :=
  let g := en_graph en in
  writeJSON StatusOK (BGraph (g_Nodes g)
    (map (fun e => mkEdge (ed_FromNode e) (ed_ToNode e) (ed_MinLag e) (ed_MaxLag e)
            (dur_Seconds (ed_MinLag e)) (dur_Seconds (ed_MaxLag e)) (ed_Temporal e) (ed_Evidence e)
            (ed_Description e) (ed_BaseConfidence e) (ed_ChainID e) (ed_RemediationHook e))
         (g_Edges g)) (g_ChainIDs g)).

Section analyze.
Context {SS : SliceSort} {MR : MapRange} {A I R M : Type} {HA : AnomalySource A}
  {HI : IncidentStore I} {HR : RemediationHookEvaluator R} {HM : MetricStore M}.
Context (math_Exp : float64 -> float64) (clockString rfc3339Nano : Time -> string)
  (parse_time : string -> option Time).

(** The state and the answer; [None] is a panic. [now] is read before the analysis and [built]
    when the incident is made. *)
Definition handleRCAAnalyze (en : Engine) (a : A) (m : M) (store : option I) (rem : option R)
    (now built : Time) (instanceID : string) (body : option rcaAnalyzeRequest)
    : option (A * option I * option R * response rcaBody) :=
  if negb (instanceExists instanceID) then Some (a, store, rem, rca_not_found)
  else match analyze_request parse_time now instanceID body with
  | inl e => Some (a, store, rem, writeError StatusBadRequest "INVALID_BODY" e)
  | inr req =>
      match Analyze math_Exp clockString rfc3339Nano en a m store rem built req with
      | None => None
      | Some (a', store', rem', Err _) =>
          Some (a', store', rem', writeError StatusInternalServerError "RCA_ERROR" "analysis failed")
      | Some (a', store', rem', Ok incident) =>
          Some (a', store', rem', writeJSON StatusOK (BIncident incident no_review))
      end
  end.
End analyze.
End handlers.

(** ** What an analysis stored is what the API serves *)

(** The ids of the table are those its sequence gave out. *)
Record incidents_wf (s : PGIncidentStore) : Prop := {
  iw_seq : 0 < pi_seq s;
  iw_ids : forall id r, pi_rows s !! id = Some r -> 0 < id < pi_seq s
}.

Lemma analyze_stores {SS : SliceSort} {MR : MapRange} {A I R M : Type} {HA : AnomalySource A}
    {HI : IncidentStore I} {HR : RemediationHookEvaluator R} {HM : MetricStore M}
    math_Exp clockString rfc3339Nano en (a : A) (m : M) (store : option I) (rem : option R) now req
    a' store' rem' inc :
  Analyze math_Exp clockString rfc3339Nano en a m store rem now req
    = Some (a', store', rem', Ok inc) ->
  exists inc0, in_ID inc0 = 0 /\ storeAndFire en inc0 store rem = (inc, store', rem').
Proof.
  unfold Analyze. destruct (slice_cap _ (ChainsForTrigger _ _)) as [ids|]; [|done].
  destruct (slice_cap _ (MetricKeysForChains _ _)) as [keys|]; [|done].
  destruct (as_GetAnomalies _ _ _ _ _ _) as [[a1 [found|err]]|]; [|done..].
  destruct (storeAndFire en _ store rem) as [[inc1 s1] r1] eqn:E. intros [= _ <- <- <-].
  eexists. split; [|exact E]. done.
Qed.

Lemma create_inv s i : incidents_wf s ->
  let '(s', r) := pgi_Create s i in
  incidents_wf s' /\ pi_fault s' = pi_fault s /\
  match r with
  | Ok id => id = pi_seq s /\ pi_rows s !! id = None /\ pi_rows s' = <[id := incident_row i]> (pi_rows s)
  | Err _ => s' = s
  end.
Proof.
  intros Hs. unfold pgi_Create. destruct (doc_encodes _); [|done]. cbn [negb].
  destruct (pi_fault s ICreate); [done|]. destruct (incident_texts i); [|done]. simpl.
  destruct Hs as [Hq Hi]. split; [|split; [done|split; [done|split; [|done]]]].
  - split; simpl; [lia|]. intros id r.
    destruct (decide (id = pi_seq s)) as [->|]; [rewrite lookup_insert_eq; lia|].
    rewrite lookup_insert_ne by done. intros H%Hi. lia.
  - destruct (pi_rows s !! pi_seq s) as [r|] eqn:E; [|done]. apply Hi in E. lia.
Qed.

(** The incident as the table gives it back: times to the microsecond, no negative zero in the
    document. *)
Definition kept_incident (i : Incident) : Incident :=
  mkIncident (in_ID i) (in_InstanceID i) (in_TriggerMetric i) (in_TriggerValue i)
    (pg_time (in_TriggerTime i)) (in_TriggerKind i)
    (mkWindow (pg_time (w_From (in_AnalysisWindow i))) (pg_time (w_To (in_AnalysisWindow i))))
    (option_map jsonb_chain (in_PrimaryChain i)) (option_map jsonb_chain (in_AlternativeChain i))
    (map jsonb_event (in_Timeline i)) (in_Summary i) (in_Confidence i) (in_ConfidenceBucket i)
    (jsonb_quality (in_Quality i)) (in_RemediationHooks i) (in_AutoTriggered i)
    (in_ChainVersion i) (in_AnomalyMode i) (pg_time (in_CreatedAt i)).

Section served.
Context {SS : SliceSort} {MR : MapRange} {A R M : Type} {HA : AnomalySource A}
  {HR : RemediationHookEvaluator R} {HM : MetricStore M}.
Context (math_Exp : float64 -> float64) (clockString rfc3339Nano : Time -> string)
  (parse_time : string -> option Time) (instanceExists : string -> bool).

(** C24: The incident a client gets from an analysis is the one the API keeps. When a request for
    an analysis is answered with an incident, either it was not stored, the table is as before
    and its id is 0, so no hook names it; or it has a fresh id, every other row is untouched, and
    asking for the id, under any known instance, answers the same incident: chains, timeline,
    quality and hooks included, times to the microsecond, no review yet. It is stored exactly when
    its document has only finite numbers and ordinary years, its texts fit a column, and the
    statement does not fail. *)
Theorem analyzed_incident_served (en : Engine) (a : A) (m : M) (s s' : PGIncidentStore)
    (rem rem' : option R) (now built : Time) (inst : string) (body : option rcaAnalyzeRequest)
    (a' : A) (inc : Incident) :
  incidents_wf s -> pi_fault s IGet = None ->
  handleRCAAnalyze instanceExists math_Exp clockString rfc3339Nano parse_time en a m (Some s) rem
    now built inst body = Some (a', Some s', rem', RJSON StatusOK (BIncident inc no_review)) ->
  incidents_wf s' /\
  (in_ID inc <> 0 <-> doc_encodes (incident_doc inc) = true /\ incident_texts inc = true /\
                      pi_fault s ICreate = None) /\
  (in_ID inc = 0 -> s' = s /\ rem' = rem) /\
  (in_ID inc <> 0 ->
     pi_rows s !! in_ID inc = None /\
     (forall id, id <> in_ID inc -> pi_rows s' !! id = pi_rows s !! id) /\
     forall inst' idStr, instanceExists inst' = true -> ParseInt idStr = (in_ID inc, None) ->
       handleRCAGetIncident instanceExists s' inst' idStr
       = RJSON StatusOK (BIncident (kept_incident inc) no_review)).
Proof.
  intros Hs Hget. unfold handleRCAAnalyze. destruct (instanceExists inst); [cbn [negb]|done].
  destruct (analyze_request _ _ _ _) as [e|req]; [done|].
  destruct (Analyze _ _ _ _ _ _ _ _ _ _) as [[[[a1 s1] r1] [inc1|e]]|] eqn:E; try done.
  intros [= _ -> -> ->]. apply analyze_stores in E as (i0 & Hi0 & E). unfold storeAndFire in E.
  cbn [is_Create PGIncidents] in E. pose proof (create_inv s i0 Hs) as Hc.
  assert (Hiff : match (pgi_Create s i0).2 with Ok _ => True | Err _ => False end <-> doc_encodes (incident_doc i0) = true /\
            incident_texts i0 = true /\ pi_fault s ICreate = None).
  { unfold pgi_Create. destruct (doc_encodes _), (pi_fault s ICreate), (incident_texts i0); naive_solver. }
  destruct (pgi_Create s i0) as [s1 [id|e]]; destruct Hc as (Hw & Hf & Hr); cbn [snd] in Hiff.
  - destruct Hr as (-> & Hnone & Hrows). injection E as <- <- _. split; [done|].
    pose proof (iw_seq s Hs). cbn [in_ID setIncidentID]. split; [|split; [lia|intros _]].
    { split; [intros _; by apply Hiff|cbn; lia]. }
    split; [done|]. rewrite Hrows. split; [intros id Hid; by rewrite lookup_insert_ne|].
    intros inst' idStr Hex Hid. unfold handleRCAGetIncident. rewrite Hex, Hid. simpl.
    unfold pgi_Get. rewrite Hf, Hget, Hrows, lookup_insert_eq. reflexivity.
  - subst s1. cbn [fst snd] in E. rewrite Hi0 in E. rewrite andb_false_r in E.
    assert (inc = i0 /\ s' = s /\ rem' = rem) as (-> & -> & ->) by (destruct rem; by simplify_eq).
    split; [done|]. rewrite Hi0. split; [|split; [done|done]].
    split; [done|]. intros H. exfalso. by apply Hiff.
Qed.
End served.

(** ** Reviews *)

(** A request that is refused: the store stays, no incident makes it succeed. *)
Ltac refused := split; [split; [done|intros (?&?&?&?&?&?&?&?&?&?); congruence]|split; [by auto|done]].

(** A review is all or nothing. The answer is 200 exactly when the id is a number, the body
    names a status, the texts fit their columns, the statement does not fail and the incident
    exists; then the review of that row, and nothing else of the table, is the status and the
    comment given, at the server's time, and any known instance reads it back. Every other answer is
    400 or 404 and leaves the store as it was. *)
Theorem review_exact {SS : SliceSort} {MR : MapRange} (now : Time) (s : PGIncidentStore)
    (idStr : string) (body : option rcaReviewRequest) :
  let '(s', r) := handleRCAReviewIncident now s idStr body in
  (status_of r = StatusOK <->
     exists id req row, ParseInt idStr = (id, None) /\ body = Some req /\ rb_Status req <> "" /\
       pg_text (rb_Status req) = true /\ pg_text (rb_Comment req) = true /\
       pi_fault s IReview = None /\ pi_rows s !! id = Some row) /\
  (status_of r <> StatusOK -> s' = s /\ (status_of r = 400 \/ status_of r = 404)) /\
  forall id req row, status_of r = StatusOK -> ParseInt idStr = (id, None) -> body = Some req ->
    pi_rows s !! id = Some row ->
    let v := mkReview (Some (rb_Status req)) (rv_By (ir_Review row)) (Some (pg_time now))
               (Some (rb_Comment req)) in
    pi_rows s' = <[id := with_review v row]> (pi_rows s) /\
    forall exists_ inst, exists_ inst = true -> pi_fault s IGet = None ->
      handleRCAGetIncident exists_ s' inst idStr
      = RJSON StatusOK (BIncident (incident_of id row) v).
Proof.
  unfold handleRCAReviewIncident.
  destruct (ParseInt idStr) as [id [e|]] eqn:Eid; [refused|].
  destruct body as [req|]; [|refused].
  destruct (String.eqb_spec (rb_Status req) "") as [Es|Es];
    [refused|].
  cbn [iq_UpdateReview PGIncidentQueries]. unfold pgi_UpdateReview.
  destruct (pi_fault s IReview) eqn:Ef; [refused|].
  destruct (pg_text (rb_Status req)) eqn:Et, (pg_text (rb_Comment req)) eqn:Ec; simpl;
    [|refused..].
  destruct (pi_rows s !! id) as [row|] eqn:Er;
    [|refused].
  split; [|split; [done|]].
  - split; [intros _|done]. by exists id, req, row.
  - intros id' req' row' _ [= <-] [= <-] Hrow. assert (row' = row) as -> by congruence.
    split; [done|]. intros exists_ inst Hex Hget. unfold handleRCAGetIncident. rewrite Hex, Eid. simpl.
    unfold pgi_Get. simpl. rewrite Hget, lookup_insert_eq. done.
Qed.

(** ** A concrete analysis, stored and read *)

#[local] Existing Instance insertion_SliceSort.
#[local] Existing Instance canonical_MapRange.
#[local] Existing Instance RcaTheorems.demoSource.
#[local] Existing Instance RcaTheorems.demoHooks.
#[local] Existing Instance RcaTheorems.demoMetrics.

Definition emptyIncidents : PGIncidentStore := mkIncidentStore ∅ 1 (fun _ => None).

Definition demoAsked : rcaAnalyzeRequest :=
  mkAnalyzeBody "pg.replication.lag.replay_bytes" (f_of_Z 5) "" 0.

Abbreviation demoAnswer :=
  (handleRCAAnalyze (fun id => String.eqb id "db1") (fun _ => f1) (fun _ => "12:00:00")
     (fun _ => "t") (fun _ => None) demoEngine demoAnomalies tt (Some emptyIncidents)
     (Some (@nil HookCall)) (1100 * Second) (1100 * Second) "db1" (Some demoAsked)).

(** Answered with an incident that has a chain and the id 1. *)
Definition demoServed (res : option (gmap string (list AnomalyEvent) * option PGIncidentStore
    * option (list HookCall) * response rcaBody)) : bool :=
  match res with
  | Some (_, Some _, _, RJSON 200 (BIncident inc (mkReview None None None None))) =>
      bool_decide (is_Some (in_PrimaryChain inc)) && (in_ID inc =? 1)
  | _ => false
  end.

Lemma demo_incident_served : demoServed demoAnswer = true.
Proof. vm_compute. reflexivity. Qed.

Lemma demoServed_inv res : demoServed res = true ->
  exists a' s' rem' inc, res = Some (a', Some s', rem', RJSON StatusOK (BIncident inc no_review)) /\
    in_ID inc = 1.
Proof.
  destruct res as [[[[a' [s'|]] rem'] [|st b]]|]; try done. unfold demoServed.
  destruct (Z.eq_dec st 200) as [->|Hne].
  2: { intros Hd. exfalso. destruct st as [|p|p]; try discriminate.
       repeat (destruct p as [p|p|]; try discriminate). by apply Hne. }
  destruct b as [inc [[] [] [] []]| | |]; try done.
  intros [_ Hid%Z.eqb_eq]%andb_true_iff. by exists a', s', rem', inc.
Qed.

Lemma analyzed_incident_served_witness : exists (inc : Incident) (s' : PGIncidentStore),
  handleRCAGetIncident (fun id => String.eqb id "db1") s' "db1" "1"
    = RJSON StatusOK (BIncident (kept_incident inc) no_review) /\ in_ID inc = 1.
Proof.
  destruct (demoServed_inv _ demo_incident_served) as (a' & s' & rem' & inc & E & Hid).
  exists inc, s'. split; [|exact Hid].
  destruct (analyzed_incident_served (fun _ => f1) (fun _ => "12:00:00") (fun _ => "t") (fun _ => None)
              (fun id => String.eqb id "db1") demoEngine demoAnomalies tt emptyIncidents s'
              (Some (@nil HookCall)) rem' (1100 * Second) (1100 * Second) "db1" (Some demoAsked)
              a' inc) as (_ & _ & _ & H).
  - split; [reflexivity|]. intros id r H. discriminate.
  - reflexivity.
  - exact E.
  - destruct H as (_ & _ & H); [rewrite Hid; discriminate|].
    apply H; [reflexivity|]. rewrite Hid. reflexivity.
Defined.
