(* ===== verification/MetricsApi.v ===== *)
(** * Metrics over the API

    Models internal/storage/queries.go over the metrics table, and internal/api/metrics.go,
    databases.go, os.go and health.go. [date_trunc] and [minute_of] are PostgreSQL's, in the time
    zone of the session, [sql_avg] its average and [metric_before] the order of its collation;
    [parse_time] and [rfc3339] read and print RFC 3339 times, [labels_json] encodes labels and
    [quote] is the form %q. A CSV answer is the records given to encoding/csv. *)
From S2P Require Import Prelude Float64 Metric Storage GoText Http SqlConn OsCollectors Config.

Local Open Scope Z_scope.

(** ** queries.go *)

Record MetricValue := mkMetricValue { mv_Value : float64; mv_Labels : Labels }.

Record CurrentMetricsResult := mkCurrentMetrics {
  cm_InstanceID : string;
  cm_CollectedAt : Time;
  cm_Metrics : gmap string MetricValue
}.

Record HistoryRequest := mkHistoryRequest {
  hr_InstanceID : string;
  hr_Metrics : list string;
  hr_From : Time;
  hr_To : Time;
  hr_Step : string
}.

Record TimeSeriesPoint := mkTimeSeriesPoint { ts_T : Time; ts_V : float64 }.

Record HistoryResult := mkHistoryResult {
  hs_InstanceID : string;
  hs_From : Time;
  hs_To : Time;
  hs_Step : string;
  hs_Series : gmap string (list TimeSeriesPoint)
}.

Definition validSteps : list string := ["1m"; "5m"; "15m"; "1h"; "1d"].

Definition ValidStep (quote : string -> string) (step : string) : option error :=
  if mem step validSteps then None
  else Some ("invalid step " +:+ quote step +:+ ": must be one of 1m, 5m, 15m, 1h, 1d").

Definition bucketExpr (step : string) : string :=
  if String.eqb step "1m" then "date_trunc('minute', time)"
  else if String.eqb step "5m" then
    "date_trunc('hour', time) + (EXTRACT(MINUTE FROM time)::int / 5) * interval '5 minutes'"
  else if String.eqb step "15m" then
    "date_trunc('hour', time) + (EXTRACT(MINUTE FROM time)::int / 15) * interval '15 minutes'"
  else if String.eqb step "1h" then "date_trunc('hour', time)"
  else if String.eqb step "1d" then "date_trunc('day', time)"
  else "date_trunc('minute', time)".

Section queries.
Context {SS : SliceSort} (date_trunc : string -> Time -> Time) (minute_of : Time -> Z)
  (sql_avg : list float64 -> float64) (metric_before : string -> string -> bool).

(** The value of [bucketExpr step] on a row. *)
Definition bucket_time (step : string) (t : Time) : Time :=
  if String.eqb step "5m" then date_trunc "hour" t + (minute_of t / 5) * (5 * Minute)
  else if String.eqb step "15m" then date_trunc "hour" t + (minute_of t / 15) * (15 * Minute)
  else if String.eqb step "1h" then date_trunc "hour" t
  else if String.eqb step "1d" then date_trunc "day" t
  else date_trunc "minute" t.

(** DISTINCT ON (metric) in the order of time, newest first: one row for each metric. *)
Definition latest_rows (rows : list MetricPoint) (instanceID : string) : list MetricPoint :=
  dedup_key pt_Metric
    (sort_slice (fun a b => time_After (pt_Timestamp a) (pt_Timestamp b))
       (List.filter (fun p => String.eqb (pt_InstanceID p) instanceID) rows)).

(** The loop over the rows. *)
Definition currentStep (r : CurrentMetricsResult) (p : MetricPoint) : CurrentMetricsResult :=
  mkCurrentMetrics (cm_InstanceID r)
    (if time_After (pt_Timestamp p) (cm_CollectedAt r) then pt_Timestamp p else cm_CollectedAt r)
    (<[pt_Metric p := mkMetricValue (pt_Value p) (pt_Labels p)]> (cm_Metrics r)).

Definition CurrentMetrics (t : PGMetricTable) (fault : option error) (instanceID : string)
    : result CurrentMetricsResult :=
  match fault with
  | Some e => Err (wrap "current metrics query" e)
  | None => Ok (foldl currentStep (mkCurrentMetrics instanceID zero_time ∅)
                  (latest_rows (pgm_rows t) instanceID))
  end.

Definition CurrentMetricValues (t : PGMetricTable) (fault : option error) (instanceID : string)
    : result (gmap string float64) :=
  match fault with
  | Some e => Err (wrap "current metric values query" e)
  | None => Ok (foldl (fun m p => <[pt_Metric p := pt_Value p]> m) ∅
                  (latest_rows (pgm_rows t) instanceID))
  end.

Definition history_row (req : HistoryRequest) (p : MetricPoint) : bool :=
  String.eqb (pt_InstanceID p) (hr_InstanceID req) && mem (pt_Metric p) (hr_Metrics req)
  && (pg_time (hr_From req) <=? pt_Timestamp p) && (pt_Timestamp p <=? pg_time (hr_To req)).

(** [result.Series[metric] = append(result.Series[metric], _)]. *)
Definition append_series (series : gmap string (list TimeSeriesPoint))
    (mp : string * TimeSeriesPoint) : gmap string (list TimeSeriesPoint) :=
  <[mp.1 := default [] (series !! mp.1) ++ [mp.2]]> series.

(** The rows of the aggregated query: a bucket and a metric with their average, by bucket. *)
Definition aggregated_rows (req : HistoryRequest) (rows : list MetricPoint)
    : list (string * TimeSeriesPoint) :=
  let chosen := List.filter (history_row req) rows in
  let key p := (bucket_time (hr_Step req) (pt_Timestamp p), pt_Metric p) in
  sort_slice (fun a b => time_Before (ts_T a.2) (ts_T b.2))
    (map (fun p => (pt_Metric p, mkTimeSeriesPoint (key p).1
                      (sql_avg (map pt_Value (List.filter (fun x => bool_decide (key x = key p)) chosen)))))
       (dedup_key key chosen)).

(** The rows of the raw query: by metric and time, cut at a thousand for each metric asked for,
    counted over all metrics together. *)
Definition raw_before (a b : MetricPoint) : bool :=
  metric_before (pt_Metric a) (pt_Metric b)
  || (String.eqb (pt_Metric a) (pt_Metric b) && time_Before (pt_Timestamp a) (pt_Timestamp b)).

Definition raw_rows (req : HistoryRequest) (rows : list MetricPoint)
    : list (string * TimeSeriesPoint) :=
  map (fun p => (pt_Metric p, mkTimeSeriesPoint (pt_Timestamp p) (pt_Value p)))
    (slice_to (1000 * len (hr_Metrics req)) (sort_slice raw_before (List.filter (history_row req) rows))).

Definition HistoryMetrics (t : PGMetricTable) (fault : option error) (req : HistoryRequest)
    : result HistoryResult :=
  let empty := foldl (fun s m => <[m := []]> s) ∅ (hr_Metrics req) in
  let answer rows := Ok (mkHistoryResult (hr_InstanceID req) (hr_From req) (hr_To req) (hr_Step req)
                           (foldl append_series empty rows)) in
  match fault with
  | Some e => Err (wrap (if String.eqb (hr_Step req) "" then "history metrics raw query"
                         else "history metrics aggregated query") e)
  | None => if String.eqb (hr_Step req) "" then answer (raw_rows req (pgm_rows t))
            else answer (aggregated_rows req (pgm_rows t))
  end.
End queries.

(** ** metrics.go *)

(** The queries of the PostgreSQL store that the API finds by a type assertion. *)
Record MetricsQuerier := mkQuerier {
  mq_CurrentMetrics : string -> result CurrentMetricsResult;
  mq_HistoryMetrics : HistoryRequest -> result HistoryResult
}.

Definition pg_querier {SS : SliceSort} date_trunc minute_of sql_avg metric_before
    (t : PGMetricTable) (fault : option error) : MetricsQuerier :=
  mkQuerier (CurrentMetrics t fault)
    (HistoryMetrics date_trunc minute_of sql_avg metric_before t fault).

Inductive metricsBody :=
  | BPoints (points : list MetricPoint) (count : Z) (instance_id metric start end_ : string) (limit : Z)
  | BCsv (records : list (list string))
  | BCurrent (r : CurrentMetricsResult)
  | BHistory (r : HistoryResult).

Definition asc_comma : Ascii.ascii := Eval compute in Ascii.ascii_of_N 44.

Section handlers.
Context (parse_time : string -> option Time) (rfc3339 : Time -> string)
  (labels_json : Labels -> string) (quote : string -> string) (instanceExists : string -> bool).

Definition instance_404 {B} (instanceID : string) : response B :=
  writeError StatusNotFound "not_found" ("instance '" +:+ instanceID +:+ "' not found").

(** A time of the query: absent, it keeps [def]. *)
Definition time_or (what v : string) (def : Time) : result Time :=
  if String.eqb v "" then Ok def
  else match parse_time v with
       | Some t => Ok t
       | None => Err ("invalid '" +:+ what +:+ "' parameter: must be RFC3339")
       end.

Definition parseMetricQuery (now : Time) (q : string -> string) (instanceID : string)
    : result MetricQuery :=
  match time_or "start" (q "start") (time_Add now (- Hour)) with
  | Err e => Err e
  | Ok start =>
      match time_or "end" (q "end") now with
      | Err e => Err e
      | Ok end_ =>
          let query limit := Ok (mkQuery instanceID (q "metric") ∅ start end_ limit) in
          if String.eqb (q "limit") "" then query 1000
          else match Atoi (q "limit") with
               | (n, None) => if (n <? 1) || (10000 <? n)
                              then Err "invalid 'limit' parameter: must be 1-10000" else query n
               | (_, Some _) => Err "invalid 'limit' parameter: must be 1-10000"
               end
      end
  end.

Definition resolveFormat (format accept : string) : string :=
  if String.eqb format "csv" then "csv"
  else if ContainsStr accept "text/csv" then "csv" else "json".

Definition csv_records (points : list MetricPoint) : list (list string) :=
  ["instance_id"; "metric"; "value"; "labels"; "timestamp"]
  :: map (fun p => [pt_InstanceID p; pt_Metric p; fmt_fixed 6 (pt_Value p);
                    labels_json (pt_Labels p); rfc3339 (pt_Timestamp p)]) points.

Definition handleQueryMetrics {S} {HM : MetricStore S} (now : Time) (store : S) (instanceID : string)
    (q : string -> string) (accept : string) : response metricsBody :=
  if negb (instanceExists instanceID) then instance_404 instanceID
  else match parseMetricQuery now q instanceID with
  | Err e => writeError StatusBadRequest "bad_request" e
  | Ok query =>
      match ms_Query store query with
      | Err _ => writeError StatusInternalServerError "internal_error" "failed to query metrics"
      | Ok points =>
          if String.eqb (resolveFormat (q "format") accept) "csv"
          then writeJSON StatusOK (BCsv (csv_records points))
          else writeJSON StatusOK (BPoints points (len points) instanceID (q_Metric query)
                 (rfc3339 (q_Start query)) (rfc3339 (q_End query)) (q_Limit query))
      end
  end.

Definition no_querier {B} : response B :=
  writeError StatusServiceUnavailable "not_available" "metrics querier not available".

Definition handleCurrentMetrics (querier : option MetricsQuerier) (instanceID : string)
    : response metricsBody :=
  if negb (instanceExists instanceID) then instance_404 instanceID
  else match querier with
  | None => no_querier
  | Some mq =>
      match mq_CurrentMetrics mq instanceID with
      | Err _ => writeError StatusInternalServerError "internal_error" "failed to query current metrics"
      | Ok r => writeJSON StatusOK (BCurrent r)
      end
  end.

(** The metrics asked for: a list with commas, or the repeated parameter. *)
Definition requested_metrics (metrics : string) (metric : list string) : list string :=
  let l := if String.eqb metrics "" then []
           else List.filter (fun m => negb (String.eqb m "")) (map TrimSpace (Split asc_comma metrics)) in
  match l with [] => metric | _ => l end.

(** The request, or the message of the error. *)
Definition history_request (now : Time) (instanceID : string) (q : string -> string)
    (metric : list string) : result HistoryRequest :=
  match requested_metrics (q "metrics") metric with
  | [] => Err "at least one 'metric' or 'metrics' query parameter is required"
  | metrics =>
      match time_or "from" (q "from") (time_Add now (- Hour)) with
      | Err e => Err e
      | Ok from =>
          match time_or "to" (q "to") now with
          | Err e => Err e
          | Ok to =>
              if negb (time_Before from to) then Err "'from' must be before 'to'"
              else
                let req := Ok (mkHistoryRequest instanceID metrics from to (q "step")) in
                if String.eqb (q "step") "" then req
                else match ValidStep quote (q "step") with Some e => Err e | None => req end
          end
      end
  end.

Definition handleMetricsHistory (querier : option MetricsQuerier) (now : Time) (instanceID : string)
    (q : string -> string) (metric : list string) : response metricsBody :=
  if negb (instanceExists instanceID) then instance_404 instanceID
  else match history_request now instanceID q metric with
  | Err e => writeError StatusBadRequest "bad_request" e
  | Ok req =>
      match querier with
      | None => no_querier
      | Some mq =>
          match mq_HistoryMetrics mq req with
          | Err _ => writeError StatusInternalServerError "internal_error"
                       "failed to query metrics history"
          | Ok r => writeJSON StatusOK (BHistory r)
          end
      end
  end.
End handlers.

(** ** databases.go *)

Record databaseSummary := mkDatabaseSummary {
  dsu_Name : string;
  dsu_LargeObjCount : Z;
  dsu_DeadTuples : Z;
  dsu_UnusedIndexes : Z;
  dsu_MaxBloatRatio : float64;
  dsu_LastCollected : string
}.

Record tableMetric := mkTableMetric {
  tm_Schema : string;
  tm_Table : string;
  tm_TotalBytes : float64;
  tm_TableBytes : float64;
  tm_BloatRatio : float64;
  tm_WastedBytes : float64
}.

Record indexMetric := mkIndexMetric {
  im_Schema : string;
  im_Table : string;
  im_Index : string;
  im_ScanCount : float64;
  im_TupRead : float64;
  im_CacheHitPct : float64;
  im_Unused : bool;
  im_UnusedBytes : float64;
  im_BloatRatio : float64;
  im_WastedBytes : float64
}.

Record vacuumMetric := mkVacuumMetric {
  vm_Schema : string;
  vm_Table : string;
  vm_DeadTuples : float64;
  vm_DeadPct : float64;
  vm_AutovacuumAgeSec : float64;
  vm_AutoanalyzeAgeSec : float64
}.

Record schemaMetric := mkSchemaMetric { sm_Schema : string; sm_SizeBytes : float64 }.
Record sequenceMetric := mkSequenceMetric { qm_Schema : string; qm_Sequence : string; qm_LastValue : float64 }.

Record functionMetric := mkFunctionMetric {
  fm_Schema : string;
  fm_Function : string;
  fm_Calls : float64;
  fm_TotalTimeMs : float64;
  fm_SelfTimeMs : float64
}.

Record catalogMetric := mkCatalogMetric { cm_Table : string; cm_SizeBytes : float64 }.

Record databaseMetrics := mkDatabaseMetrics {
  dm_DatabaseName : string;
  dm_CollectedAt : string;
  dm_Tables : list tableMetric;
  dm_Indexes : list indexMetric;
  dm_Vacuum : list vacuumMetric;
  dm_Schemas : list schemaMetric;
  dm_Sequences : list sequenceMetric;
  dm_Functions : list functionMetric;
  dm_Catalogs : list catalogMetric;
  dm_LargeObjectCount : float64;
  dm_LargeObjectSizeBytes : float64;
  dm_UnusedIndexCount : Z;
  dm_UnloggedCount : float64;
  dm_PartitionCount : float64
}.

Inductive databasesBody :=
  | BDatabases (l : list databaseSummary)
  | BDatabase (m : databaseMetrics).

(** What the last ten minutes hold under the prefix. *)
Definition db_query (now : Time) (instanceID : string) (labels : Labels) : MetricQuery :=
  mkQuery instanceID "pg.db." labels (time_Add now (- (10 * Minute))) now 10000.

(** The sums of one database. *)
Record dbAgg := mkDbAgg {
  ag_largeObjCount : Z;
  ag_deadTuples : Z;
  ag_unusedIndexes : Z;
  ag_maxBloat : float64;
  ag_lastSeen : Time
}.

Definition aggregate (agg : dbAgg) (p : MetricPoint) : dbAgg :=
  let seen := if time_After (pt_Timestamp p) (ag_lastSeen agg) then pt_Timestamp p else ag_lastSeen agg in
  let add old := i64 (old + f_trunc (pt_Value p)) in
  let has name := String.eqb (pt_Metric p) name in
  mkDbAgg
    (if has "pg.db.large_objects.count" then add (ag_largeObjCount agg) else ag_largeObjCount agg)
    (if has "pg.db.vacuum.dead_tuples" then add (ag_deadTuples agg) else ag_deadTuples agg)
    (if has "pg.db.index.unused" then add (ag_unusedIndexes agg) else ag_unusedIndexes agg)
    (if has "pg.db.table.bloat_ratio" && fgt (pt_Value p) (ag_maxBloat agg) then pt_Value p
     else ag_maxBloat agg)
    seen.

Definition aggregate_point (dbs : gmap string dbAgg) (p : MetricPoint) : gmap string dbAgg :=
  let dbName := label_get (pt_Labels p) "database" in
  if String.eqb dbName "" then dbs
  else <[dbName := aggregate (default (mkDbAgg 0 0 0 f0 zero_time) (dbs !! dbName)) p]> dbs.

(** The maps and lists the loop over the points fills. *)
Record dbSections := mkDbSections {
  se_latest : Time;
  se_tables : gmap string tableMetric;
  se_indexes : gmap string indexMetric;
  se_vacuum : gmap string vacuumMetric;
  se_schemas : list schemaMetric;
  se_sequences : list sequenceMetric;
  se_functions : list functionMetric;
  se_catalogs : list catalogMetric;
  se_largeObjectCount : float64;
  se_largeObjectSizeBytes : float64;
  se_unloggedCount : float64;
  se_partitionCount : float64
}.

Definition no_sections : dbSections :=
  mkDbSections zero_time ∅ ∅ ∅ [] [] [] [] f0 f0 f0 f0.

Section point.
Context (p : MetricPoint).

Definition lbl (name : string) : string := label_get (pt_Labels p) name.
Definition named (name : string) : bool := String.eqb (pt_Metric p) name.

Definition getOrCreateTable (m : gmap string tableMetric) (key : string) : tableMetric :=
  default (mkTableMetric (lbl "schema") (lbl "table") f0 f0 f0 f0) (m !! key).

Definition step_table (m : gmap string tableMetric) : gmap string tableMetric :=
  let key := lbl "schema" +:+ "." +:+ lbl "table" in
  let t := getOrCreateTable m key in
  let put total bytes bloat wasted :=
    <[key := mkTableMetric (tm_Schema t) (tm_Table t) total bytes bloat wasted]> m in
  if named "pg.db.table.total_bytes" then
    put (pt_Value p) (tm_TableBytes t) (tm_BloatRatio t) (tm_WastedBytes t)
  else if named "pg.db.table.table_bytes" then
    put (tm_TotalBytes t) (pt_Value p) (tm_BloatRatio t) (tm_WastedBytes t)
  else if named "pg.db.table.bloat_ratio" then
    put (tm_TotalBytes t) (tm_TableBytes t) (pt_Value p) (tm_WastedBytes t)
  else if named "pg.db.table.wasted_bytes" then
    put (tm_TotalBytes t) (tm_TableBytes t) (tm_BloatRatio t) (pt_Value p)
  else m.

Definition getOrCreateIndex (m : gmap string indexMetric) (key : string) : indexMetric :=
  default (mkIndexMetric (lbl "schema") (lbl "table") (lbl "index") f0 f0 f0 false f0 f0 f0) (m !! key).

Definition step_index (m : gmap string indexMetric) : gmap string indexMetric :=
  let key := lbl "schema" +:+ "." +:+ lbl "table" +:+ "." +:+ lbl "index" in
  let i := getOrCreateIndex m key in
  let put scans read hit unused ubytes bloat wasted :=
    <[key := mkIndexMetric (im_Schema i) (im_Table i) (im_Index i) scans read hit unused ubytes bloat
               wasted]> m in
  if named "pg.db.index.scan_count" then
    put (pt_Value p) (im_TupRead i) (im_CacheHitPct i) (im_Unused i) (im_UnusedBytes i)
      (im_BloatRatio i) (im_WastedBytes i)
  else if named "pg.db.index.tup_read" then
    put (im_ScanCount i) (pt_Value p) (im_CacheHitPct i) (im_Unused i) (im_UnusedBytes i)
      (im_BloatRatio i) (im_WastedBytes i)
  else if named "pg.db.index.cache_hit_pct" then
    put (im_ScanCount i) (im_TupRead i) (pt_Value p) (im_Unused i) (im_UnusedBytes i)
      (im_BloatRatio i) (im_WastedBytes i)
  else if named "pg.db.index.unused" then
    put (im_ScanCount i) (im_TupRead i) (im_CacheHitPct i) true (im_UnusedBytes i)
      (im_BloatRatio i) (im_WastedBytes i)
  else if named "pg.db.index.unused_bytes" then
    put (im_ScanCount i) (im_TupRead i) (im_CacheHitPct i) (im_Unused i) (pt_Value p)
      (im_BloatRatio i) (im_WastedBytes i)
  else if named "pg.db.index.bloat_ratio" then
    put (im_ScanCount i) (im_TupRead i) (im_CacheHitPct i) (im_Unused i) (im_UnusedBytes i)
      (pt_Value p) (im_WastedBytes i)
  else if named "pg.db.index.wasted_bytes" then
    put (im_ScanCount i) (im_TupRead i) (im_CacheHitPct i) (im_Unused i) (im_UnusedBytes i)
      (im_BloatRatio i) (pt_Value p)
  else m.

Definition getOrCreateVacuum (m : gmap string vacuumMetric) (key : string) : vacuumMetric :=
  default (mkVacuumMetric (lbl "schema") (lbl "table") f0 f0 f0 f0) (m !! key).

Definition step_vacuum (m : gmap string vacuumMetric) : gmap string vacuumMetric :=
  let key := lbl "schema" +:+ "." +:+ lbl "table" in
  let v := getOrCreateVacuum m key in
  let put dead pct vac an := <[key := mkVacuumMetric (vm_Schema v) (vm_Table v) dead pct vac an]> m in
  if named "pg.db.vacuum.dead_tuples" then
    put (pt_Value p) (vm_DeadPct v) (vm_AutovacuumAgeSec v) (vm_AutoanalyzeAgeSec v)
  else if named "pg.db.vacuum.dead_pct" then
    put (vm_DeadTuples v) (pt_Value p) (vm_AutovacuumAgeSec v) (vm_AutoanalyzeAgeSec v)
  else if named "pg.db.vacuum.autovacuum_age_sec" then
    put (vm_DeadTuples v) (vm_DeadPct v) (pt_Value p) (vm_AutoanalyzeAgeSec v)
  else if named "pg.db.vacuum.autoanalyze_age_sec" then
    put (vm_DeadTuples v) (vm_DeadPct v) (vm_AutovacuumAgeSec v) (pt_Value p)
  else m.

Definition add_if {A} (name : string) (x : A) (l : list A) : list A :=
  if named name then l ++ [x] else l.

Definition set_if (name : string) (old : float64) : float64 :=
  if named name then pt_Value p else old.

(** One pass of the loop, by what it writes. *)
Definition section_step (s : dbSections) : dbSections :=
  mkDbSections
    (if time_After (pt_Timestamp p) (se_latest s) then pt_Timestamp p else se_latest s)
    (step_table (se_tables s)) (step_index (se_indexes s)) (step_vacuum (se_vacuum s))
    (add_if "pg.db.schema.size_bytes" (mkSchemaMetric (lbl "schema") (pt_Value p)) (se_schemas s))
    (add_if "pg.db.sequence.last_value"
       (mkSequenceMetric (lbl "schema") (lbl "sequence") (pt_Value p)) (se_sequences s))
    (add_if "pg.db.function.calls"
       (mkFunctionMetric (lbl "schema") (lbl "function") (pt_Value p) f0 f0) (se_functions s))
    (add_if "pg.db.catalog.size_bytes" (mkCatalogMetric (lbl "table") (pt_Value p)) (se_catalogs s))
    (set_if "pg.db.large_objects.count" (se_largeObjectCount s))
    (set_if "pg.db.large_objects.size_bytes" (se_largeObjectSizeBytes s))
    (set_if "pg.db.unlogged.count" (se_unloggedCount s))
    (if named "pg.db.partition.count" then fadd (se_partitionCount s) (pt_Value p)
     else se_partitionCount s).
End point.

Section databases.
Context {MR : MapRange} {S : Type} {HM : MetricStore S}.
Context (rfc3339 : Time -> string) (instanceExists : string -> bool).

Definition print_time (t : Time) : string := if time_IsZero t then "" else rfc3339 t.

Definition handleListDatabases (now : Time) (store : S) (instanceID : string)
    : response databasesBody :=
  if negb (instanceExists instanceID) then instance_404 instanceID
  else match ms_Query store (db_query now instanceID ∅) with
  | Err _ => writeError StatusInternalServerError "internal_error" "failed to query database metrics"
  | Ok points =>
      writeJSON StatusOK (BDatabases (map (fun kv =>
          mkDatabaseSummary kv.1 (ag_largeObjCount kv.2) (ag_deadTuples kv.2)
            (ag_unusedIndexes kv.2) (ag_maxBloat kv.2) (print_time (ag_lastSeen kv.2)))
        (map_range (foldl aggregate_point ∅ points))))
  end.

Definition handleGetDatabaseMetrics (now : Time) (store : S) (instanceID dbName : string)
    : response databasesBody :=
  if negb (instanceExists instanceID) then instance_404 instanceID
  else match ms_Query store (db_query now instanceID {["database" := dbName]}) with
  | Err _ => writeError StatusInternalServerError "internal_error" "failed to query database metrics"
  | Ok points =>
      let s := foldl (fun s p => section_step p s) no_sections points in
      let indexes := map snd (map_range (se_indexes s)) in
      writeJSON StatusOK (BDatabase (mkDatabaseMetrics dbName (print_time (se_latest s))
        (map snd (map_range (se_tables s))) indexes (map snd (map_range (se_vacuum s)))
        (se_schemas s) (se_sequences s) (se_functions s) (se_catalogs s)
        (se_largeObjectCount s) (se_largeObjectSizeBytes s)
        (len (List.filter im_Unused indexes)) (se_unloggedCount s) (se_partitionCount s)))
  end.
End databases.

(** ** os.go and health.go

    [scrapeOS] and [scrapeCluster] are the agent's client on the agent's address. *)

Inductive agentBody (P E : Type) :=
  | BUnavailable (reason : string)
  | BOS (snap : OSSnapshot)
  | BNoCluster
  | BCluster (patroni : P) (etcd : E).
Arguments BUnavailable {P E} _.
Arguments BOS {P E} _.
Arguments BNoCluster {P E}.
Arguments BCluster {P E} _ _.

Definition findInstanceConfig (instances : list InstanceConfig) (id : string) : option InstanceConfig :=
  List.find (fun i => String.eqb (inc_ID i) id) instances.

Definition handleOSMetrics {P E} (instances : list InstanceConfig)
    (scrapeOS : string -> result OSSnapshot) (id : string) : response (agentBody P E) :=
  match findInstanceConfig instances id with
  | None => writeError StatusNotFound "not_found" "instance not found"
  | Some cfg =>
      if String.eqb (inc_AgentURL cfg) "" then
        writeJSON StatusOK (BUnavailable "OS agent not configured for this instance")
      else match scrapeOS (inc_AgentURL cfg) with
           | Err _ => writeJSON StatusOK (BUnavailable "OS agent unreachable")
           | Ok snap => writeJSON StatusOK (BOS snap)
           end
  end.

Definition handleClusterMetrics {P E} (instances : list InstanceConfig)
    (scrapeCluster : string -> result (P * E)) (id : string) : response (agentBody P E) :=
  match findInstanceConfig instances id with
  | None => writeError StatusNotFound "not_found" "instance not found"
  | Some cfg =>
      if String.eqb (inc_AgentURL cfg) "" then writeJSON StatusOK BNoCluster
      else match scrapeCluster (inc_AgentURL cfg) with
           | Err _ => writeJSON StatusOK BNoCluster
           | Ok (patroni, etcd) => writeJSON StatusOK (BCluster patroni etcd)
           end
  end.

Record HealthResponse := mkHealth {
  he_Status : string;
  he_Storage : string;
  he_Uptime : string;
  he_Version : string
}.

(** [pool] is the answer of a ping, when there is a pool; [duration_string] prints a duration. *)
Definition handleHealth (duration_string : Duration -> string) (version : string)
    (startTime now : Time) (pool : option (option error)) : response HealthResponse :=
  let since := time_Sub now startTime in
  let resp status storage :=
    mkHealth status storage (duration_string (Z.quot since Second * Second)) version in
  match pool with
  | None => writeJSON StatusOK (resp "ok" "disabled")
  | Some None => writeJSON StatusOK (resp "ok" "ok")
  | Some (Some _) => writeJSON StatusServiceUnavailable (resp "error" "error")
  end.
