(* ===== verification/Cluster.v ===== *)
(** * Patroni, etcd and the agent

    Models internal/cluster (the providers of Patroni's and etcd's state over HTTP and over their
    command line tools, with the fallback between the two) and internal/agent/server.go and
    scraper.go (the agent's interface and its client), with what the cluster collector and the
    API make of them. A GET answers by URL, a command by path and arguments; texts of decoding
    errors, the parsing and printing of times and the text of an operating system snapshot are
    parameters. Deadlines are answers like any other failure. *)
From stdpp Require Import pretty.
From S2P Require Import Prelude Float64 Metric GoText Json SqlConn Collector OsCollectors Http Config.
From S2P Require Import MetricsApi.

Local Open Scope Z_scope.

(** What a GET meets: a URL that does not parse, no answer, or a status with a body that is read to
    its end or breaks off. *)
Inductive httpAnswer :=
  | HttpBadURL (e : error)
  | HttpDown (e : error)
  | HttpAnswer (status : Z) (body : result string).

Section providers.
Context (http : string -> httpAnswer) (Stat : string -> option error)
  (exec : string -> list string -> result string) (json_error : string -> error).

(** ** internal/cluster/patroni *)

Definition ErrPatroniNotConfigured : error := "patroni not configured".
Definition ErrPatroniUnavailable : error := "patroni unavailable".

Record PatroniConfig := mkPatroniConfig {
  pc_PatroniURL : string;
  pc_PatroniConfig : string;
  pc_PatroniCtlPath : string
}.

Record ClusterState := mkClusterState { cs_ClusterName : string; cs_Members : list ClusterMember }.

Record SwitchoverEvent := mkSwitchover {
  se_Timestamp : string;
  se_FromNode : string;
  se_ToNode : string;
  se_Reason : string
}.

Record PatroniProvider := mkPatroni {
  pa_GetClusterState : result ClusterState;
  pa_GetHistory : result (list SwitchoverEvent);
  pa_GetVersion : result string
}.

(** *** rest.go *)

Definition slash : Ascii.ascii := Eval compute in Ascii.ascii_of_N 47.

Definition patroni_doGet (baseURL path : string) : result string :=
  match http (baseURL +:+ path) with
  | HttpBadURL e => Err (wrap "patroni rest: create request" e)
  | HttpDown e => Err (wrap ErrPatroniUnavailable e)
  | HttpAnswer status (Err e) => Err (wrap "patroni rest: read response" e)
  | HttpAnswer status (Ok body) =>
      if status =? StatusOK then Ok body
      else Err (wrap ErrPatroniUnavailable ("status " +:+ pretty status))
  end.

(** The members of the answer have the fields of [ClusterMember]. *)
Definition zero_member : ClusterMember := mkMember "" "" 0 "" "" 0 0 None.

Definition member_fields : list (string * decoder ClusterMember) :=
  [ ("name", in_field cm_Name (fun m x => mkMember x (cm_Host m) (cm_Port m) (cm_Role m) (cm_State m)
       (cm_Timeline m) (cm_Lag m) (cm_Tags m)) decode_string);
    ("host", in_field cm_Host (fun m x => mkMember (cm_Name m) x (cm_Port m) (cm_Role m) (cm_State m)
       (cm_Timeline m) (cm_Lag m) (cm_Tags m)) decode_string);
    ("port", in_field cm_Port (fun m x => mkMember (cm_Name m) (cm_Host m) x (cm_Role m) (cm_State m)
       (cm_Timeline m) (cm_Lag m) (cm_Tags m)) decode_int);
    ("role", in_field cm_Role (fun m x => mkMember (cm_Name m) (cm_Host m) (cm_Port m) x (cm_State m)
       (cm_Timeline m) (cm_Lag m) (cm_Tags m)) decode_string);
    ("state", in_field cm_State (fun m x => mkMember (cm_Name m) (cm_Host m) (cm_Port m) (cm_Role m) x
       (cm_Timeline m) (cm_Lag m) (cm_Tags m)) decode_string);
    ("timeline", in_field cm_Timeline (fun m x => mkMember (cm_Name m) (cm_Host m) (cm_Port m) (cm_Role m)
       (cm_State m) x (cm_Lag m) (cm_Tags m)) decode_int);
    ("lag", in_field cm_Lag (fun m x => mkMember (cm_Name m) (cm_Host m) (cm_Port m) (cm_Role m)
       (cm_State m) (cm_Timeline m) x (cm_Tags m)) decode_int);
    ("tags", in_field cm_Tags (fun m x => mkMember (cm_Name m) (cm_Host m) (cm_Port m) (cm_Role m)
       (cm_State m) (cm_Timeline m) (cm_Lag m) x) decode_string_map) ].

Record patroniClusterResponse := mkClusterResponse { cr_Scope : string; cr_Members : list ClusterMember }.

Definition cluster_fields : list (string * decoder patroniClusterResponse) :=
  [ ("scope", in_field cr_Scope (fun r x => mkClusterResponse x (cr_Members r)) decode_string);
    ("members", in_field cr_Members (fun r x => mkClusterResponse (cr_Scope r) x)
       (decode_list (decode_struct member_fields) zero_member)) ].

Definition rest_GetClusterState (baseURL : string) : result ClusterState :=
  match patroni_doGet baseURL "/cluster" with
  | Err e => Err e
  | Ok body =>
      match Unmarshal json_error (decode_struct cluster_fields) (mkClusterResponse "" []) body with
      | Err e => Err (wrap "patroni rest: parse cluster response" e)
      | Ok resp => Ok (mkClusterState (cr_Scope resp) (cr_Members resp))
      end
  end.

(** The string at an index, when it is one. *)
Definition string_at (arr : list json) (i : nat) : option string :=
  match nth_error arr i with
  | Some j => match decode_string "" j with (s, true) => Some s | _ => None end
  | None => None
  end.

(** One entry of the history; entries that are no array of four values are skipped. *)
Definition history_event (entry : json) : option SwitchoverEvent :=
  match entry with
  | JArr arr =>
      if len arr <? 4 then None
      else Some (mkSwitchover (default "" (string_at arr 3))
                   (if 5 <=? len arr then default "" (string_at arr 3) else "")
                   (if 6 <=? len arr then default "" (string_at arr 4) else "")
                   (default "" (string_at arr 2)))
  | _ => None
  end.

Definition rest_GetHistory (baseURL : string) : result (list SwitchoverEvent) :=
  match patroni_doGet baseURL "/history" with
  | Err e => Err e
  | Ok body =>
      match parse_all body with
      | Some (JArr raw) => Ok (omap history_event raw)
      | _ => Ok []
      end
  end.

Record patroniRootResponse := mkRoot { ro_Version : string; ro_Scope : string }.

Definition root_fields : list (string * decoder patroniRootResponse) :=
  [ ("patroni", decode_struct
      [ ("version", in_field ro_Version (fun r x => mkRoot x (ro_Scope r)) decode_string);
        ("scope", in_field ro_Scope (fun r x => mkRoot (ro_Version r) x) decode_string) ]) ].

Definition rest_GetVersion (baseURL : string) : result string :=
  match patroni_doGet baseURL "/" with
  | Err e => Err e
  | Ok body =>
      match Unmarshal json_error (decode_struct root_fields) (mkRoot "" "") body with
      | Err e => Err (wrap "patroni rest: parse root response" e)
      | Ok resp =>
          if String.eqb (ro_Version resp) "" then Err (wrap ErrPatroniUnavailable "empty version in response")
          else Ok (ro_Version resp)
      end
  end.

Definition NewRESTProvider (url : string) : PatroniProvider :=
  let baseURL := TrimRight slash url in
  mkPatroni (rest_GetClusterState baseURL) (rest_GetHistory baseURL) (rest_GetVersion baseURL).

(** *** shell.go *)

Definition patroni_run (ctlPath configPath : string) (args : list string) : result string :=
  match Stat ctlPath with
  | Some e => Err (wrap ErrPatroniUnavailable e)
  | None =>
      match exec ctlPath ((if String.eqb configPath "" then [] else ["-c"; configPath]) ++ args) with
      | Err e => Err (wrap ErrPatroniUnavailable (wrap ("patronictl " +:+ Join args " ") e))
      | Ok out => Ok out
      end
  end.

Record patroniCtlMember := mkCtlMember {
  pm_Member : string;
  pm_Host : string;
  pm_Role : string;
  pm_State : string;
  pm_TL : Z;
  pm_LagInMB : Z;
  pm_Cluster : string
}.

Definition ctl_fields : list (string * decoder patroniCtlMember) :=
  [ ("Member", in_field pm_Member (fun m x => mkCtlMember x (pm_Host m) (pm_Role m) (pm_State m) (pm_TL m)
       (pm_LagInMB m) (pm_Cluster m)) decode_string);
    ("Host", in_field pm_Host (fun m x => mkCtlMember (pm_Member m) x (pm_Role m) (pm_State m) (pm_TL m)
       (pm_LagInMB m) (pm_Cluster m)) decode_string);
    ("Role", in_field pm_Role (fun m x => mkCtlMember (pm_Member m) (pm_Host m) x (pm_State m) (pm_TL m)
       (pm_LagInMB m) (pm_Cluster m)) decode_string);
    ("State", in_field pm_State (fun m x => mkCtlMember (pm_Member m) (pm_Host m) (pm_Role m) x (pm_TL m)
       (pm_LagInMB m) (pm_Cluster m)) decode_string);
    ("TL", in_field pm_TL (fun m x => mkCtlMember (pm_Member m) (pm_Host m) (pm_Role m) (pm_State m) x
       (pm_LagInMB m) (pm_Cluster m)) decode_int);
    ("Lag in MB", in_field pm_LagInMB (fun m x => mkCtlMember (pm_Member m) (pm_Host m) (pm_Role m)
       (pm_State m) (pm_TL m) x (pm_Cluster m)) decode_int);
    ("Cluster", in_field pm_Cluster (fun m x => mkCtlMember (pm_Member m) (pm_Host m) (pm_Role m)
       (pm_State m) (pm_TL m) (pm_LagInMB m) x) decode_string) ].

Definition ctl_member (m : patroniCtlMember) : ClusterMember :=
  mkMember (pm_Member m) (pm_Host m) 0 (ToLower (pm_Role m)) (pm_State m) (pm_TL m)
    (i64 (pm_LagInMB m * 1024 * 1024)) None.

Definition shell_GetClusterState (ctlPath configPath : string) : result ClusterState :=
  match patroni_run ctlPath configPath ["list"; "-f"; "json"] with
  | Err e => Err e
  | Ok out =>
      match Unmarshal json_error (decode_list (decode_struct ctl_fields) (mkCtlMember "" "" "" "" 0 0 "")) [] out with
      | Err e => Err (wrap "patroni shell: parse list output" e)
      | Ok members =>
          Ok (mkClusterState (match members with m :: _ => pm_Cluster m | [] => "" end)
                (map ctl_member members))
      end
  end.

Definition newline_char : Ascii.ascii := Eval compute in Ascii.ascii_of_N 10.
Definition bar : Ascii.ascii := Eval compute in Ascii.ascii_of_N 124.

(** One line of the table; borders, the header and other lines are skipped. *)
Definition history_line (text : string) : option SwitchoverEvent :=
  let line := TrimSpace text in
  if String.eqb line "" || has_prefix line "+" then None
  else if negb (has_prefix line "|") then None
  else let parts := Split bar line in
       if len parts <? 5 then None
       else let at_ i := TrimSpace (nth i parts "") in
            if String.eqb (at_ 1%nat) "TL" then None
            else Some (mkSwitchover (at_ 4%nat) "" "" (at_ 3%nat)).

Definition parse_history (out : string) : list SwitchoverEvent :=
  omap history_line (Split newline_char out).

Definition shell_GetHistory (ctlPath configPath : string) : result (list SwitchoverEvent) :=
  match patroni_run ctlPath configPath ["history"] with
  | Err e => Err e
  | Ok out => Ok (parse_history out)
  end.

Definition shell_GetVersion (ctlPath configPath : string) : result string :=
  match patroni_run ctlPath configPath ["version"] with
  | Err e => Err e
  | Ok out =>
      let output := TrimSpace out in
      let parts := Fields output in
      Ok (if 3 <=? len parts then List.last parts "" else output)
  end.

Definition Cluster_NewShellProvider (ctlPath configPath : string) : PatroniProvider :=
  mkPatroni (shell_GetClusterState ctlPath configPath) (shell_GetHistory ctlPath configPath)
    (shell_GetVersion ctlPath configPath).

(** *** fallback.go, noop.go, provider.go *)

Definition or_else {A} (first second : result A) : result A :=
  match first with Ok a => Ok a | Err _ => second end.

Definition NewFallbackProvider (primary secondary : PatroniProvider) : PatroniProvider :=
  mkPatroni (or_else (pa_GetClusterState primary) (pa_GetClusterState secondary))
    (or_else (pa_GetHistory primary) (pa_GetHistory secondary))
    (or_else (pa_GetVersion primary) (pa_GetVersion secondary)).

Definition NoOpProvider : PatroniProvider :=
  mkPatroni (Err ErrPatroniNotConfigured) (Err ErrPatroniNotConfigured) (Err ErrPatroniNotConfigured).

Definition patroni_NewProvider (cfg : PatroniConfig) : PatroniProvider :=
  let providers :=
    (if String.eqb (pc_PatroniURL cfg) "" then [] else [NewRESTProvider (pc_PatroniURL cfg)])
    ++ (if String.eqb (pc_PatroniCtlPath cfg) "" && String.eqb (pc_PatroniConfig cfg) "" then []
        else [Cluster_NewShellProvider
                (if String.eqb (pc_PatroniCtlPath cfg) "" then "/usr/bin/patronictl" else pc_PatroniCtlPath cfg)
                (pc_PatroniConfig cfg)]) in
  match providers with
  | [] => NoOpProvider
  | [p] => p
  | p :: q :: _ => NewFallbackProvider p q
  end.

(** ** internal/cluster/etcd *)

Definition ErrETCDNotConfigured : error := "etcd not configured".
Definition ErrETCDUnavailable : error := "etcd unavailable".

Record ETCDConfig := mkETCDConfig { ec_Endpoints : list string; ec_CtlPath : string }.

Record ETCDProvider := mkETCD {
  et_GetMembers : result (list ETCDMember);
  et_GetEndpointHealth : result (gmap string bool)
}.

(** *** http.go *)

Definition etcd_doGet (url : string) : result string :=
  match http url with
  | HttpBadURL e => Err (wrap "etcd http: create request" e)
  | HttpDown e => Err (wrap ErrETCDUnavailable e)
  | HttpAnswer status (Err e) => Err (wrap "etcd http: read response" e)
  | HttpAnswer status (Ok body) =>
      if status =? StatusOK then Ok body
      else Err (wrap ErrETCDUnavailable ("status " +:+ pretty status))
  end.

(** A member of the answers; [I] is the type of its identifier. *)
Record listedMember (I : Type) := mkListed {
  lm_ID : I;
  lm_Name : string;
  lm_PeerURLs : list string;
  lm_ClientURLs : list string
}.
Arguments mkListed {I} _ _ _ _.
Arguments lm_ID {I} _.
Arguments lm_Name {I} _.
Arguments lm_PeerURLs {I} _.
Arguments lm_ClientURLs {I} _.

Definition listed_fields {I} (idName : string) (dec : decoder I) : list (string * decoder (listedMember I)) :=
  [ (idName, in_field lm_ID (fun m x => mkListed x (lm_Name m) (lm_PeerURLs m) (lm_ClientURLs m)) dec);
    ("name", in_field lm_Name (fun m x => mkListed (lm_ID m) x (lm_PeerURLs m) (lm_ClientURLs m)) decode_string);
    ("peerURLs", in_field lm_PeerURLs (fun m x => mkListed (lm_ID m) (lm_Name m) x (lm_ClientURLs m))
       (decode_list decode_string ""));
    ("clientURLs", in_field lm_ClientURLs (fun m x => mkListed (lm_ID m) (lm_Name m) (lm_PeerURLs m) x)
       (decode_list decode_string "")) ].

(** The answer has one field, the members. *)
Definition members_fields {I} (idName : string) (dec : decoder I) (zero : I)
    : list (string * decoder (list (listedMember I))) :=
  [ ("members", decode_list (decode_struct (listed_fields idName dec)) (mkListed zero "" [] [])) ].

Definition etcd_member {I} (show : I -> string) (m : listedMember I) : ETCDMember :=
  mkETCDMember (show (lm_ID m)) (lm_Name m) (hd "" (lm_PeerURLs m)) (hd "" (lm_ClientURLs m)) false
    "running" 0.

Definition getMembersFromEndpoint (endpoint : string) : result (list ETCDMember) :=
  match etcd_doGet (TrimRight slash endpoint +:+ "/v2/members") with
  | Err e => Err e
  | Ok body =>
      match Unmarshal json_error (decode_struct (members_fields "id" decode_string "")) [] body with
      | Err e => Err (wrap "etcd http: parse members response" e)
      | Ok members => Ok (map (etcd_member (fun id => id)) members)
      end
  end.

(** The endpoints are tried in order until one answers; [lastErr] is the last failure. *)
Fixpoint tryEndpoints (lastErr : option error) (endpoints : list string) : result (list ETCDMember) :=
  match endpoints with
  | [] => Err (default (wrap ErrETCDUnavailable "no endpoints configured") lastErr)
  | ep :: rest =>
      match getMembersFromEndpoint ep with
      | Err e => tryEndpoints (Some e) rest
      | Ok members => Ok members
      end
  end.

Definition checkHealth (endpoint : string) : bool :=
  match etcd_doGet (TrimRight slash endpoint +:+ "/health") with
  | Err _ => false
  | Ok body =>
      match Unmarshal json_error (decode_struct [("health", decode_string)]) "" body with
      | Err _ => false
      | Ok health => String.eqb health "true"
      end
  end.

Definition http_GetEndpointHealth (endpoints : list string) : result (gmap string bool) :=
  Ok (foldl (fun m ep => <[ep := checkHealth ep]> m) ∅ endpoints).

Definition NewHTTPProvider (endpoints : list string) : ETCDProvider :=
  mkETCD (tryEndpoints None endpoints) (http_GetEndpointHealth endpoints).

(** *** shell.go *)

Definition etcd_run (ctlPath : string) (endpoints args : list string) : result string :=
  match Stat ctlPath with
  | Some e => Err (wrap ErrETCDUnavailable e)
  | None =>
      match exec ctlPath ((match endpoints with [] => [] | _ => ["--endpoints=" +:+ Join endpoints ","] end)
                          ++ args) with
      | Err e => Err (wrap ErrETCDUnavailable (wrap ("etcdctl " +:+ Join args " ") e))
      | Ok out => Ok out
      end
  end.

Definition etcdctl_GetMembers (ctlPath : string) (endpoints : list string) : result (list ETCDMember) :=
  match etcd_run ctlPath endpoints ["member"; "list"; "--write-out=json"] with
  | Err e => Err e
  | Ok out =>
      match Unmarshal json_error (decode_struct (members_fields "ID" decode_uint 0)) [] out with
      | Err e => Err (wrap "etcd shell: parse member list" e)
      | Ok members => Ok (map (etcd_member hex_int) members)
      end
  end.

Record etcdCtlEndpointHealth := mkEndpointHealth {
  eh_Endpoint : string;
  eh_Health : bool;
  eh_Took : string
}.

Definition health_fields : list (string * decoder etcdCtlEndpointHealth) :=
  [ ("endpoint", in_field eh_Endpoint (fun e x => mkEndpointHealth x (eh_Health e) (eh_Took e)) decode_string);
    ("health", in_field eh_Health (fun e x => mkEndpointHealth (eh_Endpoint e) x (eh_Took e)) decode_bool);
    ("took", in_field eh_Took (fun e x => mkEndpointHealth (eh_Endpoint e) (eh_Health e) x) decode_string) ].

Definition etcdctl_GetEndpointHealth (ctlPath : string) (endpoints : list string) : result (gmap string bool) :=
  match etcd_run ctlPath endpoints ["endpoint"; "health"; "--write-out=json"] with
  | Err e => Err e
  | Ok out =>
      match Unmarshal json_error (decode_list (decode_struct health_fields) (mkEndpointHealth "" false "")) [] out with
      | Err e => Err (wrap "etcd shell: parse endpoint health" e)
      | Ok entries => Ok (foldl (fun m e => <[eh_Endpoint e := eh_Health e]> m) ∅ entries)
      end
  end.

Definition etcd_NewShellProvider (ctlPath : string) (endpoints : list string) : ETCDProvider :=
  mkETCD (etcdctl_GetMembers ctlPath endpoints) (etcdctl_GetEndpointHealth ctlPath endpoints).

(** *** fallback.go, noop.go, provider.go *)

Definition etcd_NewFallbackProvider (primary secondary : ETCDProvider) : ETCDProvider :=
  mkETCD (or_else (et_GetMembers primary) (et_GetMembers secondary))
    (or_else (et_GetEndpointHealth primary) (et_GetEndpointHealth secondary)).

Definition etcd_NoOpProvider : ETCDProvider := mkETCD (Err ErrETCDNotConfigured) (Err ErrETCDNotConfigured).

Definition etcd_NewProvider (cfg : ETCDConfig) : ETCDProvider :=
  let providers :=
    (match ec_Endpoints cfg with [] => [] | eps => [NewHTTPProvider eps] end)
    ++ (if String.eqb (ec_CtlPath cfg) "" then []
        else [etcd_NewShellProvider (ec_CtlPath cfg) (ec_Endpoints cfg)]) in
  match providers with
  | [] => etcd_NoOpProvider
  | [p] => p
  | p :: q :: _ => etcd_NewFallbackProvider p q
  end.

(** ** What the cluster collector of an instance asks (orchestrator/runner.go) *)

Definition runner_patroni (cfg : InstanceConfig) : PatroniProvider :=
  patroni_NewProvider (mkPatroniConfig (inc_PatroniURL cfg) (inc_PatroniConfig cfg) (inc_PatroniCtlPath cfg)).

Definition runner_etcd (cfg : InstanceConfig) : ETCDProvider :=
  etcd_NewProvider (mkETCDConfig (inc_ETCDEndpoints cfg) (inc_ETCDCtlPath cfg)).

Definition cluster_answers (p : PatroniProvider) (e : ETCDProvider) : ClusterAnswers :=
  mkAnswers (match pa_GetClusterState p with Ok s => Ok (Some (cs_Members s)) | Err e => Err e end)
    (et_GetMembers e) (et_GetEndpointHealth e).

(** ** internal/agent/server.go

    The body of each answer; the status is always 200. [show_snapshot] is the JSON text of an
    operating system snapshot, nothing when a number is not finite: then nothing is written. *)
Context (show_snapshot : OSSnapshot -> option string) (show_time : Time -> string).

Definition agent_handleHealth (now : Time) : string :=
  encode_json (JObj [("status", JStr "ok"); ("timestamp", JStr (show_time now))]).

Definition agent_handleMetricsOS (snap : result OSSnapshot) : string :=
  match snap with
  | Err e => encode_json (JObj [("available", JBool false); ("reason", JStr e)])
  | Ok s => match show_snapshot s with Some text => text +:+ newline | None => "" end
  end.

(** Keys of a map are written in order; an empty map is left out. *)
Definition tags_json (tags : option (gmap string string)) : list (string * json) :=
  match map_to_list (default ∅ tags) with
  | [] => []
  | l => [("tags", JObj (map (fun kv => (fst kv, JStr (snd kv)))
                           (insertion_sort (fun a b => string_ltb (fst a) (fst b)) l)))]
  end.

Definition member_json (m : ClusterMember) : json :=
  JObj ([("name", JStr (cm_Name m)); ("host", JStr (cm_Host m)); ("port", JInt (cm_Port m));
         ("role", JStr (cm_Role m)); ("state", JStr (cm_State m)); ("timeline", JInt (cm_Timeline m));
         ("lag", JInt (cm_Lag m))] ++ tags_json (cm_Tags m)).

Definition state_json (s : ClusterState) : json :=
  JObj [("cluster_name", JStr (cs_ClusterName s)); ("members", JArr (map member_json (cs_Members s)))].

Definition etcd_json (m : ETCDMember) : json :=
  JObj [("id", JStr (em_ID m)); ("name", JStr (em_Name m)); ("peer_url", JStr (em_PeerURL m));
        ("client_url", JStr (em_ClientURL m)); ("is_leader", JBool (em_IsLeader m));
        ("status", JStr (em_Status m)); ("db_size", JInt (em_DBSize m))].

(** A provider that is missing or fails leaves its part null. *)
Definition cluster_snapshot (p : option PatroniProvider) (e : option ETCDProvider) : json * json :=
  (match p with
   | Some p => match pa_GetClusterState p with Ok s => state_json s | Err _ => JNull end
   | None => JNull
   end,
   match e with
   | Some e => match et_GetMembers e with Ok ms => JArr (map etcd_json ms) | Err _ => JNull end
   | None => JNull
   end).

Definition agent_handleMetricsCluster (p : option PatroniProvider) (e : option ETCDProvider) : string :=
  let (patroni, etcd) := cluster_snapshot p e in
  encode_json (JObj [("patroni", patroni); ("etcd", etcd)]).

(** The agent's main: its address, and the server's configuration from the settings of the file. *)
Record AgentServer := mkAgentServer {
  as_ListenAddr : string;
  as_MountPoints : list string;
  as_PatroniProvider : option PatroniProvider;
  as_ETCDProvider : option ETCDProvider
}.

Definition agent_main (k : AgentConfig) : AgentServer :=
  mkAgentServer
    (if String.eqb (agc_ListenAddr k) "" then "0.0.0.0:9187" else agc_ListenAddr k)
    (agc_MountPoints k)
    (Some (patroni_NewProvider (mkPatroniConfig (agc_PatroniURL k) (agc_PatroniConfig k) (agc_PatroniCtlPath k))))
    (Some (etcd_NewProvider (mkETCDConfig (agc_ETCDEndpoints k) (agc_ETCDCtlPath k)))).

(** ** internal/agent/scraper.go *)

Context (parse_time : string -> option Time).

Definition scrape {A} (what : string) (dec : decoder A) (zero : A) (url : string) : result A :=
  match http url with
  | HttpBadURL e => Err (wrap "create request" e)
  | HttpDown e => Err (wrap ("scrape " +:+ what +:+ " metrics") e)
  | HttpAnswer status body =>
      if negb (status =? StatusOK) then Err ("agent returned status " +:+ pretty status)
      else match (match body with Ok b => Decode json_error dec zero b | Err e => Err e end) with
           | Err e => Err (wrap ("decode " +:+ what +:+ " metrics") e)
           | Ok v => Ok v
           end
  end.

Definition decode_time : decoder Time := fun old j =>
  match j with
  | JNull => (old, true)
  | JStr s => match parse_time s with Some t => (t, true) | None => (old, false) end
  | _ => (old, false)
  end.

Definition release_fields : list (string * decoder OSRelease) :=
  [ ("name", in_field os_Name (fun r x => mkOSRelease x (os_Version r) (os_ID r)) decode_string);
    ("version", in_field os_Version (fun r x => mkOSRelease (os_Name r) x (os_ID r)) decode_string);
    ("id", in_field os_ID (fun r x => mkOSRelease (os_Name r) (os_Version r) x) decode_string) ].

Definition load_fields : list (string * decoder LoadAvg) :=
  [ ("1m", in_field la_One (fun r x => mkLoadAvg x (la_Five r) (la_Fifteen r)) decode_float);
    ("5m", in_field la_Five (fun r x => mkLoadAvg (la_One r) x (la_Fifteen r)) decode_float);
    ("15m", in_field la_Fifteen (fun r x => mkLoadAvg (la_One r) (la_Five r) x) decode_float) ].

Definition memory_fields : list (string * decoder MemoryInfo) :=
  [ ("total_kb", in_field mi_TotalKB (fun r x => mkMemory x (mi_AvailableKB r) (mi_UsedKB r)
       (mi_CommitLimitKB r) (mi_CommittedAsKB r)) decode_int);
    ("available_kb", in_field mi_AvailableKB (fun r x => mkMemory (mi_TotalKB r) x (mi_UsedKB r)
       (mi_CommitLimitKB r) (mi_CommittedAsKB r)) decode_int);
    ("used_kb", in_field mi_UsedKB (fun r x => mkMemory (mi_TotalKB r) (mi_AvailableKB r) x
       (mi_CommitLimitKB r) (mi_CommittedAsKB r)) decode_int);
    ("commit_limit_kb", in_field mi_CommitLimitKB (fun r x => mkMemory (mi_TotalKB r) (mi_AvailableKB r)
       (mi_UsedKB r) x (mi_CommittedAsKB r)) decode_int);
    ("committed_as_kb", in_field mi_CommittedAsKB (fun r x => mkMemory (mi_TotalKB r) (mi_AvailableKB r)
       (mi_UsedKB r) (mi_CommitLimitKB r) x) decode_int) ].

Definition cpu_fields : list (string * decoder CPUInfo) :=
  [ ("user_pct", in_field cp_UserPct (fun r x => mkCPU x (cp_SystemPct r) (cp_IOWaitPct r) (cp_IdlePct r)
       (cp_NumCPUs r)) decode_float);
    ("system_pct", in_field cp_SystemPct (fun r x => mkCPU (cp_UserPct r) x (cp_IOWaitPct r) (cp_IdlePct r)
       (cp_NumCPUs r)) decode_float);
    ("iowait_pct", in_field cp_IOWaitPct (fun r x => mkCPU (cp_UserPct r) (cp_SystemPct r) x (cp_IdlePct r)
       (cp_NumCPUs r)) decode_float);
    ("idle_pct", in_field cp_IdlePct (fun r x => mkCPU (cp_UserPct r) (cp_SystemPct r) (cp_IOWaitPct r) x
       (cp_NumCPUs r)) decode_float);
    ("num_cpus", in_field cp_NumCPUs (fun r x => mkCPU (cp_UserPct r) (cp_SystemPct r) (cp_IOWaitPct r)
       (cp_IdlePct r) x) decode_int) ].

Definition disk_fields : list (string * decoder DiskInfo) :=
  [ ("mount", in_field di_Mount (fun r x => mkDisk x (di_Device r) (di_FSType r) (di_TotalBytes r)
       (di_UsedBytes r) (di_FreeBytes r) (di_InodesTotal r) (di_InodesUsed r)) decode_string);
    ("device", in_field di_Device (fun r x => mkDisk (di_Mount r) x (di_FSType r) (di_TotalBytes r)
       (di_UsedBytes r) (di_FreeBytes r) (di_InodesTotal r) (di_InodesUsed r)) decode_string);
    ("fstype", in_field di_FSType (fun r x => mkDisk (di_Mount r) (di_Device r) x (di_TotalBytes r)
       (di_UsedBytes r) (di_FreeBytes r) (di_InodesTotal r) (di_InodesUsed r)) decode_string);
    ("total_bytes", in_field di_TotalBytes (fun r x => mkDisk (di_Mount r) (di_Device r) (di_FSType r) x
       (di_UsedBytes r) (di_FreeBytes r) (di_InodesTotal r) (di_InodesUsed r)) decode_int);
    ("used_bytes", in_field di_UsedBytes (fun r x => mkDisk (di_Mount r) (di_Device r) (di_FSType r)
       (di_TotalBytes r) x (di_FreeBytes r) (di_InodesTotal r) (di_InodesUsed r)) decode_int);
    ("free_bytes", in_field di_FreeBytes (fun r x => mkDisk (di_Mount r) (di_Device r) (di_FSType r)
       (di_TotalBytes r) (di_UsedBytes r) x (di_InodesTotal r) (di_InodesUsed r)) decode_int);
    ("inodes_total", in_field di_InodesTotal (fun r x => mkDisk (di_Mount r) (di_Device r) (di_FSType r)
       (di_TotalBytes r) (di_UsedBytes r) (di_FreeBytes r) x (di_InodesUsed r)) decode_int);
    ("inodes_used", in_field di_InodesUsed (fun r x => mkDisk (di_Mount r) (di_Device r) (di_FSType r)
       (di_TotalBytes r) (di_UsedBytes r) (di_FreeBytes r) (di_InodesTotal r) x) decode_int) ].

Definition diskstat_fields : list (string * decoder DiskStatInfo) :=
  [ ("device", in_field ds_Device (fun r x => mkDiskStat x (ds_ReadsCompleted r) (ds_WritesCompleted r)
       (ds_ReadKB r) (ds_WriteKB r) (ds_IOInProgress r) (ds_ReadAwaitMs r) (ds_WriteAwaitMs r) (ds_UtilPct r)) decode_string);
    ("reads_completed", in_field ds_ReadsCompleted (fun r x => mkDiskStat (ds_Device r) x (ds_WritesCompleted r)
       (ds_ReadKB r) (ds_WriteKB r) (ds_IOInProgress r) (ds_ReadAwaitMs r) (ds_WriteAwaitMs r) (ds_UtilPct r)) decode_int);
    ("writes_completed", in_field ds_WritesCompleted (fun r x => mkDiskStat (ds_Device r) (ds_ReadsCompleted r) x
       (ds_ReadKB r) (ds_WriteKB r) (ds_IOInProgress r) (ds_ReadAwaitMs r) (ds_WriteAwaitMs r) (ds_UtilPct r)) decode_int);
    ("read_kb", in_field ds_ReadKB (fun r x => mkDiskStat (ds_Device r) (ds_ReadsCompleted r) (ds_WritesCompleted r)
       x (ds_WriteKB r) (ds_IOInProgress r) (ds_ReadAwaitMs r) (ds_WriteAwaitMs r) (ds_UtilPct r)) decode_int);
    ("write_kb", in_field ds_WriteKB (fun r x => mkDiskStat (ds_Device r) (ds_ReadsCompleted r) (ds_WritesCompleted r)
       (ds_ReadKB r) x (ds_IOInProgress r) (ds_ReadAwaitMs r) (ds_WriteAwaitMs r) (ds_UtilPct r)) decode_int);
    ("io_in_progress", in_field ds_IOInProgress (fun r x => mkDiskStat (ds_Device r) (ds_ReadsCompleted r)
       (ds_WritesCompleted r) (ds_ReadKB r) (ds_WriteKB r) x (ds_ReadAwaitMs r) (ds_WriteAwaitMs r) (ds_UtilPct r)) decode_int);
    ("read_await_ms", in_field ds_ReadAwaitMs (fun r x => mkDiskStat (ds_Device r) (ds_ReadsCompleted r)
       (ds_WritesCompleted r) (ds_ReadKB r) (ds_WriteKB r) (ds_IOInProgress r) x (ds_WriteAwaitMs r) (ds_UtilPct r)) decode_float);
    ("write_await_ms", in_field ds_WriteAwaitMs (fun r x => mkDiskStat (ds_Device r) (ds_ReadsCompleted r)
       (ds_WritesCompleted r) (ds_ReadKB r) (ds_WriteKB r) (ds_IOInProgress r) (ds_ReadAwaitMs r) x (ds_UtilPct r)) decode_float);
    ("util_pct", in_field ds_UtilPct (fun r x => mkDiskStat (ds_Device r) (ds_ReadsCompleted r)
       (ds_WritesCompleted r) (ds_ReadKB r) (ds_WriteKB r) (ds_IOInProgress r) (ds_ReadAwaitMs r) (ds_WriteAwaitMs r) x) decode_float) ].

Definition zero_snapshot : OSSnapshot :=
  mkOSSnapshot zero_time "" (mkOSRelease "" "" "") f0 (mkLoadAvg f0 f0 f0) (mkMemory 0 0 0 0 0)
    (mkCPU f0 f0 f0 f0 0) [] [].

Definition snapshot_fields : list (string * decoder OSSnapshot) :=
  [ ("collected_at", in_field sn_CollectedAt (fun r x => mkOSSnapshot x (sn_Hostname r) (sn_OSRelease r)
       (sn_UptimeSecs r) (sn_LoadAvg r) (sn_Memory r) (sn_CPU r) (sn_Disks r) (sn_DiskStats r)) decode_time);
    ("hostname", in_field sn_Hostname (fun r x => mkOSSnapshot (sn_CollectedAt r) x (sn_OSRelease r)
       (sn_UptimeSecs r) (sn_LoadAvg r) (sn_Memory r) (sn_CPU r) (sn_Disks r) (sn_DiskStats r)) decode_string);
    ("os_release", in_field sn_OSRelease (fun r x => mkOSSnapshot (sn_CollectedAt r) (sn_Hostname r) x
       (sn_UptimeSecs r) (sn_LoadAvg r) (sn_Memory r) (sn_CPU r) (sn_Disks r) (sn_DiskStats r))
       (decode_struct release_fields));
    ("uptime_seconds", in_field sn_UptimeSecs (fun r x => mkOSSnapshot (sn_CollectedAt r) (sn_Hostname r)
       (sn_OSRelease r) x (sn_LoadAvg r) (sn_Memory r) (sn_CPU r) (sn_Disks r) (sn_DiskStats r)) decode_float);
    ("load_avg", in_field sn_LoadAvg (fun r x => mkOSSnapshot (sn_CollectedAt r) (sn_Hostname r)
       (sn_OSRelease r) (sn_UptimeSecs r) x (sn_Memory r) (sn_CPU r) (sn_Disks r) (sn_DiskStats r))
       (decode_struct load_fields));
    ("memory", in_field sn_Memory (fun r x => mkOSSnapshot (sn_CollectedAt r) (sn_Hostname r)
       (sn_OSRelease r) (sn_UptimeSecs r) (sn_LoadAvg r) x (sn_CPU r) (sn_Disks r) (sn_DiskStats r))
       (decode_struct memory_fields));
    ("cpu", in_field sn_CPU (fun r x => mkOSSnapshot (sn_CollectedAt r) (sn_Hostname r)
       (sn_OSRelease r) (sn_UptimeSecs r) (sn_LoadAvg r) (sn_Memory r) x (sn_Disks r) (sn_DiskStats r))
       (decode_struct cpu_fields));
    ("disks", in_field sn_Disks (fun r x => mkOSSnapshot (sn_CollectedAt r) (sn_Hostname r)
       (sn_OSRelease r) (sn_UptimeSecs r) (sn_LoadAvg r) (sn_Memory r) (sn_CPU r) x (sn_DiskStats r))
       (decode_list (decode_struct disk_fields) (mkDisk "" "" "" 0 0 0 0 0)));
    ("diskstats", in_field sn_DiskStats (fun r x => mkOSSnapshot (sn_CollectedAt r) (sn_Hostname r)
       (sn_OSRelease r) (sn_UptimeSecs r) (sn_LoadAvg r) (sn_Memory r) (sn_CPU r) (sn_Disks r) x)
       (decode_list (decode_struct diskstat_fields) (mkDiskStat "" 0 0 0 0 0 f0 f0 f0))) ].

Definition ScrapeOS (agentURL : string) : result OSSnapshot :=
  scrape "OS" (decode_struct snapshot_fields) zero_snapshot (TrimRight slash agentURL +:+ "/metrics/os").

Definition clusterSnapshot_fields : list (string * decoder (any * any)) :=
  [ ("patroni", in_field fst (fun r x => (x, snd r)) decode_any);
    ("etcd", in_field snd (fun r x => (fst r, x)) decode_any) ].

(** The two parts are values of interfaces: they are only handed on. *)
Definition ScrapeCluster (agentURL : string) : result (any * any) :=
  scrape "cluster" (decode_struct clusterSnapshot_fields) (AnyNil, AnyNil)
    (TrimRight slash agentURL +:+ "/metrics/cluster").

Definition IsAlive (agentURL : string) : bool :=
  match http (TrimRight slash agentURL +:+ "/health") with
  | HttpAnswer status _ => status =? StatusOK
  | _ => false
  end.

End providers.

(** ** Theorems *)

(** The first source that answers, else the failure of the last one. *)
Fixpoint first_ok {A} (failure : error) (l : list (result A)) : result A :=
  match l with
  | [] => Err failure
  | Ok a :: _ => Ok a
  | Err e :: l' => first_ok e l'
  end.

Section theorems.
Context (http : string -> httpAnswer) (Stat : string -> option error)
  (exec : string -> list string -> result string) (json_error : string -> error).

Notation patroni_provider := (patroni_NewProvider http Stat exec json_error).
Notation etcd_provider := (etcd_NewProvider http Stat exec json_error).

(** The sources a configuration names, in order. *)
Definition patroni_sources (cfg : PatroniConfig) : list PatroniProvider :=
  (if String.eqb (pc_PatroniURL cfg) "" then [] else [NewRESTProvider http json_error (pc_PatroniURL cfg)])
  ++ (if String.eqb (pc_PatroniCtlPath cfg) "" && String.eqb (pc_PatroniConfig cfg) "" then []
      else [Cluster_NewShellProvider Stat exec json_error
              (if String.eqb (pc_PatroniCtlPath cfg) "" then "/usr/bin/patronictl" else pc_PatroniCtlPath cfg)
              (pc_PatroniConfig cfg)]).

(** Every operation of the provider of a configuration is that of the first source that answers. *)
Lemma patroni_provider_spec cfg :
  pa_GetClusterState (patroni_provider cfg)
    = first_ok ErrPatroniNotConfigured (map pa_GetClusterState (patroni_sources cfg)) /\
  pa_GetHistory (patroni_provider cfg)
    = first_ok ErrPatroniNotConfigured (map pa_GetHistory (patroni_sources cfg)) /\
  pa_GetVersion (patroni_provider cfg)
    = first_ok ErrPatroniNotConfigured (map pa_GetVersion (patroni_sources cfg)).
Proof.
  unfold patroni_NewProvider, patroni_sources.
  set (ps := _ ++ _).
  assert (Hps : (length ps <= 2)%nat).
  { unfold ps. rewrite length_app. destruct (String.eqb (pc_PatroniURL cfg) ""), (_ && _); cbn; lia. }
  assert (Hok : forall A (r : result A) e, r = match r with Ok a => Ok a | Err e' => first_ok e' [] end)
    by (intros A r e; by destruct r).
  destruct ps as [|p [|q [|? ?]]]; cbn [map first_ok]; [done| | |cbn in Hps; lia].
  - split_and!; by apply Hok.
  - cbn [NewFallbackProvider pa_GetClusterState pa_GetHistory pa_GetVersion]. unfold or_else.
    split_and!; case_match; try done; by apply Hok.
Qed.

Lemma tryEndpoints_spec last eps :
  tryEndpoints http json_error last eps
  = first_ok (default (wrap ErrETCDUnavailable "no endpoints configured") last)
      (map (getMembersFromEndpoint http json_error) eps).
Proof.
  revert last. induction eps as [|ep eps IH]; intros last; [done|]. cbn.
  destruct (getMembersFromEndpoint http json_error ep) as [ms|e]; [done|]. by rewrite IH.
Qed.

Lemma first_ok_In {A} (l : list (result A)) : forall f a, first_ok f l = Ok a -> Ok a ∈ l.
Proof.
  induction l as [|[x|e] l IH]; intros f a; cbn; [done| |].
  - intros [= ->]. by left.
  - intros H. right. by apply (IH e).
Qed.

(** ** A tag that is no string hides the cluster *)

Definition typed_tag (v : json) : bool :=
  match v with JNull | JStr _ => false | _ => true end.

Lemma typed_tag_fails v : typed_tag v = true -> fails decode_string v.
Proof. by destruct v. Qed.

(** Patroni's REST interface reports the tags of a member with their types (such as
    nofailover: true), but the provider decodes tags as strings: when one member has one tag that
    is neither a string nor null, the whole state fails to decode, and without the command line
    tool the collector gives no point of the Patroni cluster, whatever the other members are. *)
Theorem typed_tag_hides_cluster cfg now id body l ms m ts k v :
  pc_PatroniURL cfg <> "" -> pc_PatroniCtlPath cfg = "" -> pc_PatroniConfig cfg = "" ->
  http (TrimRight slash (pc_PatroniURL cfg) +:+ "/cluster") = HttpAnswer StatusOK (Ok body) ->
  parse_all body = Some (JObj l) ->
  ("members", JArr ms) ∈ l -> JObj m ∈ ms -> ("tags", JObj ts) ∈ m -> (k, v) ∈ ts ->
  typed_tag v = true ->
  pa_GetClusterState (patroni_provider cfg)
    = Err (wrap "patroni rest: parse cluster response" (json_error body)) /\
  forall e, patroniPoints now id (ca_State (cluster_answers (patroni_provider cfg) e)) = [].
Proof.
  intros Hurl Hctl Hcfg Hget Hbody Hms Hm Hts Hv Ht.
  assert (Hf : fails (decode_struct cluster_fields) (JObj l)).
  { eapply (decode_struct_fails _ "members"); [reflexivity| |exact Hms]. apply in_field_fails.
    eapply decode_list_fails; [|exact Hm].
    eapply (decode_struct_fails _ "tags"); [reflexivity| |exact Hts]. apply in_field_fails.
    eapply string_map_fails; [by apply typed_tag_fails|exact Hv]. }
  assert (H : pa_GetClusterState (patroni_provider cfg)
    = Err (wrap "patroni rest: parse cluster response" (json_error body))).
  { rewrite (proj1 (patroni_provider_spec cfg)). unfold patroni_sources. rewrite Hctl, Hcfg. cbn [String.eqb andb].
    destruct (String.eqb_spec (pc_PatroniURL cfg) "") as [|_]; [done|].
    cbn [app map NewRESTProvider pa_GetClusterState]. unfold rest_GetClusterState, patroni_doGet.
    rewrite Hget. change (StatusOK =? StatusOK) with true. cbn iota. unfold Unmarshal. rewrite Hbody.
    specialize (Hf (mkClusterResponse "" [])).
    destruct (decode_struct cluster_fields (mkClusterResponse "" []) (JObj l)) as [r ok]. cbn in Hf. by rewrite Hf. }
  split; [exact H|]. intros e. cbn [cluster_answers ca_State]. by rewrite H.
Qed.

(** ** The etcd leader *)

Lemma listed_no_leader {I} (show : I -> string) ms m :
  m ∈ map (etcd_member show) ms -> em_IsLeader m = false.
Proof. by intros (x & -> & _)%list_elem_of_fmap. Qed.

Lemma shell_no_leader ctl eps ms m :
  et_GetMembers (etcd_NewShellProvider Stat exec json_error ctl eps) = Ok ms -> m ∈ ms -> em_IsLeader m = false.
Proof.
  cbn. unfold etcdctl_GetMembers. repeat case_match; intros [= <-]. by apply listed_no_leader.
Qed.

Lemma http_no_leader eps ms m :
  et_GetMembers (NewHTTPProvider http json_error eps) = Ok ms -> m ∈ ms -> em_IsLeader m = false.
Proof.
  cbn. rewrite tryEndpoints_spec. intros (ep & Hep & _)%first_ok_In%list_elem_of_fmap. symmetry in Hep.
  revert Hep. unfold getMembersFromEndpoint. repeat case_match; intros [= <-]. by apply listed_no_leader.
Qed.

Lemma etcd_no_leader cfg ms m :
  et_GetMembers (etcd_provider cfg) = Ok ms -> m ∈ ms -> em_IsLeader m = false.
Proof.
  unfold etcd_NewProvider. destruct (ec_Endpoints cfg) as [|ep eps], (String.eqb (ec_CtlPath cfg) "");
    cbn [app]; try done.
  - apply shell_no_leader.
  - apply http_no_leader.
  - cbn [etcd_NewFallbackProvider et_GetMembers]. unfold or_else.
    destruct (et_GetMembers (NewHTTPProvider http json_error (ep :: eps))) as [ms'|e] eqn:E.
    + intros [= <-]. by apply (http_no_leader _ _ _ E).
    + apply shell_no_leader.
Qed.

Lemma count_float_none {A} (f : A -> bool) l : (forall x, x ∈ l -> f x = false) -> count_float f l = f0.
Proof.
  unfold count_float. generalize f0. induction l as [|x l IH]; intros n H; [done|].
  cbn. rewrite H by left. apply IH. intros y Hy. apply H. by right.
Qed.
End theorems.

(** No provider of etcd ever marks a member as the leader, so whatever the endpoints and etcdctl
    answer, every point of metric cluster.etcd.leader_count that the collector gives is 0. *)
Theorem etcd_leader_never_counted {MR : MapRange} http Stat exec json_error cfg p now id pts pt :
  Cluster_Collect now id (cluster_answers p (etcd_NewProvider http Stat exec json_error cfg)) = Ok pts ->
  pt ∈ pts -> pt_Metric pt = "cluster.etcd.leader_count" -> pt_Value pt = f0.
Proof.
  unfold Cluster_Collect. intros [= <-] Hpt Hm.
  apply elem_of_app in Hpt as [Hpt|Hpt].
  - exfalso. revert Hpt. cbn [cluster_answers ca_State].
    destruct (pa_GetClusterState p) as [s|]; [|by intros ?%elem_of_nil]. cbn [patroniPoints].
    intros [H|H]%elem_of_app.
    + revert H. generalize (cs_Members s). intros l.
      assert (Hg : forall acc, pt ∈ foldl (fun acc m => acc ++ memberPoints now id m) acc l ->
                pt ∈ acc \/ exists m, pt ∈ memberPoints now id m).
      { induction l as [|m l IH]; intros acc H; [by left|]. cbn in H.
        apply IH in H as [[H|H]%elem_of_app|H]; eauto. }
      intros [H|[m H]]%Hg; [by apply elem_of_nil in H|].
      unfold memberPoints in H. set_unfold. destruct H as [->|[->|[]]]; discriminate Hm.
    + set_unfold. destruct H as [->|[->|[->|[]]]]; discriminate Hm.
  - revert Hpt. cbn [cluster_answers ca_Members ca_Health]. unfold etcdPoints. intros [H|H]%elem_of_app.
    + destruct (et_GetMembers _) as [ms|] eqn:E; [|by apply elem_of_nil in H].
      set_unfold. destruct H as [->|[->|[]]]; [discriminate Hm|].
      cbn. apply count_float_none. intros m. by apply (etcd_no_leader http Stat exec json_error cfg).
    + exfalso. destruct (et_GetEndpointHealth _) as [h|]; [|by apply elem_of_nil in H].
      apply list_elem_of_fmap in H as (eh & -> & _). discriminate Hm.
Qed.

(** ** The agent's answers, read by its client *)

Lemma small_tags tags : Forall (fun kv => small 1 (snd kv)) (tags_json tags).
Proof.
  unfold tags_json. destruct (map_to_list (default ∅ tags)) as [|x l]; [constructor|].
  apply List.Forall_cons; [|constructor]. cbn [snd]. apply (small_obj 0), list.Forall_fmap, list.Forall_forall.
  intros kv _. cbn. auto with json.
Qed.

Lemma small_member m : small 2 (member_json m).
Proof.
  apply (small_obj 1), Forall_app. split; [small_fields|apply small_tags].
Qed.

Lemma small_state s : small 4 (state_json s).
Proof.
  apply (small_obj 3). small_fields.
  apply (small_arr 2), list.Forall_fmap, list.Forall_forall. intros m _. cbn. apply small_member.
Qed.

Lemma small_etcd m : small 1 (etcd_json m).
Proof. apply (small_obj 0). small_fields. Qed.

Lemma small_snapshot p e :
  small 4 (cluster_snapshot p e).1 /\ small 4 (cluster_snapshot p e).2.
Proof.
  split; cbn [cluster_snapshot fst snd].
  - destruct p as [p|]; [|auto with json]. destruct (pa_GetClusterState p); [apply small_state|auto with json].
  - destruct e as [e|]; [|auto with json]. destruct (et_GetMembers e) as [ms|]; [|auto with json].
    apply (small_le 2); [lia|]. apply (small_arr 1), list.Forall_fmap, list.Forall_forall.
    intros m _. cbn. apply small_etcd.
Qed.

Lemma decode_written {A} json_error (dec : decoder A) zero v j :
  small 10 j -> dec zero (coerce_json j) = (v, true) ->
  Decode json_error dec zero (encode_json j) = Ok v.
Proof.
  intros [Hn Hd] Hv. unfold Decode.
  destruct (parse_written j Hn) as [_ ->]; [|by rewrite Hv].
  unfold maxNestingDepth. lia.
Qed.

Lemma scrape_ok {A} http json_error what (dec : decoder A) zero url body v :
  http url = HttpAnswer StatusOK (Ok body) -> Decode json_error dec zero body = Ok v ->
  scrape http json_error what dec zero url = Ok v.
Proof. intros Hu Hv. unfold scrape. rewrite Hu. cbn [negb]. by rewrite Hv. Qed.

(** The values of the page: what a provider said, with every integer as the nearest float. *)
Definition AnyInt (z : Z) : any := AnyFloat (f_of_Z z).
Definition AnyText (s : string) : any := AnyStr (coerce s).

Definition member_any (m : ClusterMember) : any :=
  AnyMap (map_of ([("name", AnyText (cm_Name m)); ("host", AnyText (cm_Host m)); ("port", AnyInt (cm_Port m));
                 ("role", AnyText (cm_Role m)); ("state", AnyText (cm_State m)); ("timeline", AnyInt (cm_Timeline m));
                 ("lag", AnyInt (cm_Lag m))]
    ++ match map_to_list (default ∅ (cm_Tags m)) with
       | [] => []
       | l => [("tags", AnyMap (map_of (map (fun kv => (coerce (fst kv), AnyText (snd kv)))
                           (insertion_sort (fun a b => string_ltb (fst a) (fst b)) l))))]
       end)).

Definition state_any (s : ClusterState) : any :=
  AnyMap (map_of [("cluster_name", AnyText (cs_ClusterName s));
                ("members", AnyArr (map member_any (cs_Members s)))]).

Definition etcd_any (m : ETCDMember) : any :=
  AnyMap (map_of [("id", AnyText (em_ID m)); ("name", AnyText (em_Name m)); ("peer_url", AnyText (em_PeerURL m));
                ("client_url", AnyText (em_ClientURL m)); ("is_leader", AnyBool (em_IsLeader m));
                ("status", AnyText (em_Status m)); ("db_size", AnyInt (em_DBSize m))]).

Definition page_patroni (p : option PatroniProvider) : any :=
  match p with
  | Some p => match pa_GetClusterState p with Ok s => state_any s | Err _ => AnyNil end
  | None => AnyNil
  end.

Definition page_etcd (e : option ETCDProvider) : any :=
  match e with
  | Some e => match et_GetMembers e with Ok ms => AnyArr (map etcd_any ms) | Err _ => AnyNil end
  | None => AnyNil
  end.

(** The integers are those of the code's int and int64 fields. *)
Definition int64_answers (p : option PatroniProvider) (e : option ETCDProvider) : Prop :=
  (forall q s m, p = Some q -> pa_GetClusterState q = Ok s -> m ∈ cs_Members s ->
     in_i64 (cm_Port m) /\ in_i64 (cm_Timeline m) /\ in_i64 (cm_Lag m)) /\
  (forall q ms m, e = Some q -> et_GetMembers q = Ok ms -> m ∈ ms -> in_i64 (em_DBSize m)).

Lemma int64_any z : in_i64 z ->
  AnyFloat (ParseFloat (pretty z)) = AnyInt z /\
  match ParseFloatErr (pretty z) with Ok _ => true | Err _ => false end = true.
Proof.
  unfold in_i64, min_i64, max_i64. intros H. assert (Z.abs z < 2 ^ 64) as Hz by lia.
  by rewrite (ParseFloat_pretty z Hz), (ParseFloatErr_pretty z Hz).
Qed.

Lemma tags_any tags :
  map (fun kv => (fst kv, as_any (snd kv))) (map coerce_member (tags_json tags))
  = match map_to_list (default ∅ tags) with
    | [] => []
    | l => [("tags", AnyMap (map_of (map (fun kv => (coerce (fst kv), AnyText (snd kv)))
              (insertion_sort (fun a b => string_ltb (fst a) (fst b)) l))))]
    end /\
  forallb (fun kv => floats_fit (snd kv)) (map coerce_member (tags_json tags)) = true.
Proof.
  unfold tags_json. destruct (map_to_list (default ∅ tags)) as [|x l]; [done|].
  generalize (insertion_sort (fun a b => string_ltb (fst a) (fst b)) (x :: l)). intros l'.
  cbn [map coerce_member fst snd coerce_json as_any forallb floats_fit]. split.
  - rewrite !map_map. reflexivity.
  - rewrite andb_true_r. induction l' as [|y l' IH]; [done|]. exact IH.
Qed.

Lemma member_shown m : in_i64 (cm_Port m) -> in_i64 (cm_Timeline m) -> in_i64 (cm_Lag m) ->
  as_any (coerce_json (member_json m)) = member_any m /\ floats_fit (coerce_json (member_json m)) = true.
Proof.
  intros H1 H2 H3. unfold member_json, member_any. destruct (tags_any (cm_Tags m)) as [Ht1 Ht2].
  destruct (int64_any _ H1) as [P1 F1], (int64_any _ H2) as [P2 F2], (int64_any _ H3) as [P3 F3].
  change (coerce_json (JObj ?l)) with (JObj (map coerce_member l)). rewrite map_app.
  cbn [as_any floats_fit]. rewrite map_app, forallb_app, Ht1, Ht2.
  cbn [map coerce_member fst snd coerce_json JInt as_any forallb floats_fit].
  rewrite P1, P2, P3, F1, F2, F3. done.
Qed.

Lemma etcd_shown m : in_i64 (em_DBSize m) ->
  as_any (coerce_json (etcd_json m)) = etcd_any m /\ floats_fit (coerce_json (etcd_json m)) = true.
Proof.
  intros H. destruct (int64_any _ H) as [P F]. unfold etcd_json, etcd_any.
  cbn [coerce_json map fst snd JInt as_any floats_fit forallb]. rewrite P, F. done.
Qed.

Lemma list_shown {A} (f : A -> json) (g : A -> any) (l : list A) :
  (forall x, x ∈ l -> as_any (coerce_json (f x)) = g x /\ floats_fit (coerce_json (f x)) = true) ->
  as_any (coerce_json (JArr (map f l))) = AnyArr (map g l) /\ floats_fit (coerce_json (JArr (map f l))) = true.
Proof.
  intros H. cbn [coerce_json as_any floats_fit]. rewrite !map_map. split.
  - f_equal. apply map_ext_in. intros x Hx%list_elem_of_In. by apply H.
  - apply forallb_forall. intros j (x & <- & Hx)%in_map_iff. apply list_elem_of_In in Hx. by apply H.
Qed.

Lemma snapshot_shown p e : int64_answers p e ->
  (as_any (coerce_json (cluster_snapshot p e).1), as_any (coerce_json (cluster_snapshot p e).2))
    = (page_patroni p, page_etcd e) /\
  floats_fit (coerce_json (cluster_snapshot p e).1) = true /\
  floats_fit (coerce_json (cluster_snapshot p e).2) = true.
Proof.
  intros [Hp He]. unfold cluster_snapshot, page_patroni, page_etcd. cbn [fst snd].
  assert (forall a a' b b' x y, a = a' /\ x = true -> b = b' /\ y = true ->
    (a, b) = (a' : any, b' : any) /\ x = true /\ y = true) as Hj.
  { intros ? ? ? ? ? ? [-> ->] [-> ->]. done. }
  apply Hj.
  - destruct p as [q|]; [|done]. destruct (pa_GetClusterState q) as [s|] eqn:Es; [|done].
    destruct (list_shown member_json member_any (cs_Members s)) as [H1 H2].
    { intros m Hm. destruct (Hp q s m eq_refl Es Hm) as (? & ? & ?). by apply member_shown. }
    unfold state_json, state_any. cbn [coerce_json as_any floats_fit] in H1, H2.
    cbn [coerce_json map fst snd as_any floats_fit forallb]. by rewrite H1, H2.
  - destruct e as [q|]; [|done]. destruct (et_GetMembers q) as [ms|] eqn:Em; [|done].
    apply list_shown. intros m Hm. by apply etcd_shown, (He q ms).
Qed.

(** C27: The cluster page of an instance whose agent answers shows what the agent's own Patroni and etcd
    providers said when it was asked, null where one is missing or failed: every text and flag as it
    was, whatever characters it has (only bytes that are no UTF-8 are replaced), and every integer as
    the nearest float, since the client reads the two parts as values of interfaces: it is exact up to
    2^53, and a lag or a size beyond is rounded. *)
Theorem cluster_page_shows_agent http json_error instances id cfg p e :
  findInstanceConfig instances id = Some cfg -> inc_AgentURL cfg <> "" -> int64_answers p e ->
  http (TrimRight slash (inc_AgentURL cfg) +:+ "/metrics/cluster")
    = HttpAnswer StatusOK (Ok (agent_handleMetricsCluster p e)) ->
  handleClusterMetrics instances (ScrapeCluster http json_error) id
  = writeJSON StatusOK (BCluster (page_patroni p) (page_etcd e)).
Proof.
  intros Hi Hurl Hint Hget. unfold handleClusterMetrics. rewrite Hi.
  destruct (String.eqb_spec (inc_AgentURL cfg) "") as [|_]; [done|].
  unfold ScrapeCluster, agent_handleMetricsCluster in *.
  destruct (small_snapshot p e) as [H1 H2]. destruct (snapshot_shown p e Hint) as (E & F1 & F2).
  destruct (cluster_snapshot p e) as [j1 j2]. cbn [fst snd] in *. injection E as <- <-.
  rewrite (scrape_ok _ _ _ _ _ _ _ (as_any (coerce_json j1), as_any (coerce_json j2)) Hget); [reflexivity|].
  apply decode_written.
  - apply (small_obj 9). small_fields; (eapply small_le; [|eassumption]; lia).
  - change (coerce_json (JObj [("patroni", j1); ("etcd", j2)]))
      with (JObj [("patroni", coerce_json j1); ("etcd", coerce_json j2)]).
    cbn -[coerce_json floats_fit as_any]. unfold decode_any, in_field. rewrite F1.
    cbn -[coerce_json floats_fit as_any]. by rewrite F2.
Qed.

(** C31: An agent that cannot read its operating system answers with status 200 and the reason, and
    its client, which knows no such field, takes the answer for a snapshot with every value zero:
    the collector reports an idle machine without memory instead of a failure, and the page of
    the instance shows it as available. *)
Theorem unavailable_agent_read_as_zeros http json_error show_snapshot parse_time reason clock id url local :
  http (TrimRight slash url +:+ "/metrics/os")
    = HttpAnswer StatusOK (Ok (agent_handleMetricsOS show_snapshot (Err reason))) ->
  let scraped := ScrapeOS http json_error parse_time url in
  scraped = Ok zero_snapshot /\
  OS_Collect clock (mkOSCollector id OSSourceAgent) scraped local
  = Ok (map (fun m => raw_point clock id m f0 ∅)
          ["os.cpu.user_pct"; "os.cpu.system_pct"; "os.cpu.iowait_pct"; "os.cpu.idle_pct";
           "os.memory.total_kb"; "os.memory.available_kb"; "os.memory.used_kb"; "os.memory.commit_limit_kb";
           "os.memory.committed_as_kb"; "os.load.1m"; "os.load.5m"; "os.load.15m"; "os.uptime_seconds"]) /\
  forall cfg instances, findInstanceConfig instances id = Some cfg -> inc_AgentURL cfg = url -> url <> "" ->
    handleOSMetrics (P := json) (E := json) instances (ScrapeOS http json_error parse_time) id
    = writeJSON StatusOK (BOS zero_snapshot).
Proof.
  intros Hget scraped.
  assert (Hs : scraped = Ok zero_snapshot).
  { apply (scrape_ok _ _ _ _ _ _ _ _ Hget). unfold agent_handleMetricsOS.
    apply decode_written; [|done]. apply (small_obj 9). small_fields. }
  split; [exact Hs|]. rewrite Hs. split; [done|].
  intros cfg instances Hi <- Hurl. unfold handleOSMetrics. rewrite Hi.
  destruct (String.eqb_spec (inc_AgentURL cfg) "") as [|_]; [done|].
  change (ScrapeOS http json_error parse_time (inc_AgentURL cfg)) with scraped. by rewrite Hs.
Qed.

(** ** Concrete runs *)

(** Patroni's answer for a leader and a replica that must not take over. *)
Definition sample_cluster : json :=
  JObj [("members", JArr
    [JObj [("name", JStr "pg1"); ("role", JStr "leader"); ("state", JStr "running"); ("timeline", JInt 3)];
     JObj [("name", JStr "pg2"); ("role", JStr "replica"); ("state", JStr "streaming");
           ("lag", JInt 0); ("tags", JObj [("nofailover", JBool true)])]]);
        ("scope", JStr "main")].

Definition sample_http (url : string) : httpAnswer :=
  if String.eqb url "http://pg1:8008/cluster" then HttpAnswer StatusOK (Ok (print_json sample_cluster))
  else HttpDown "connection refused".

Definition no_file (_ : string) : option error := Some "no such file".
Definition no_exec (_ : string) (_ : list string) : result string := Err "not run".
Definition sample_error (_ : string) : error := "json: cannot unmarshal".

Lemma typed_tag_hides_cluster_witness :
  (pa_GetClusterState (patroni_NewProvider sample_http no_file no_exec sample_error
                         (mkPatroniConfig "http://pg1:8008/" "" ""))
   = Err "patroni rest: parse cluster response: json: cannot unmarshal") /\
  forall e, patroniPoints 0 "i1" (ca_State (cluster_answers
    (patroni_NewProvider sample_http no_file no_exec sample_error (mkPatroniConfig "http://pg1:8008/" "" "")) e)) = [].
Proof.
  refine (typed_tag_hides_cluster sample_http no_file no_exec sample_error (mkPatroniConfig "http://pg1:8008/" "" "") 0 "i1"
    (print_json sample_cluster) _ _ _ _ "nofailover" (JBool true) _ eq_refl eq_refl eq_refl _ _ _ _ _ eq_refl);
    [done|vm_compute; reflexivity|left|right; left|right; right; right; right; left|left].
Defined.

Lemma etcd_leader_never_counted_witness :
  exists pts pt, pt ∈ pts /\ pt_Metric pt = "cluster.etcd.leader_count" /\ pt_Value pt = f0 /\
  @Cluster_Collect canonical_MapRange 0 "i1" (cluster_answers NoOpProvider
    (etcd_NewProvider (fun _ => HttpDown "") (fun _ => None)
      (fun _ _ => Ok (print_json (JObj [("members", JArr [JObj [("ID", JInt 255); ("name", JStr "e1")]])])))
      sample_error (mkETCDConfig [] "etcdctl"))) = Ok pts.
Proof.
  set (e := etcd_NewProvider _ _ _ _ _).
  exists (default [] (match @Cluster_Collect canonical_MapRange 0 "i1" (cluster_answers NoOpProvider e) with
                      | Ok p => Some p | Err _ => None end)).
  exists (raw_point 0 "i1" "cluster.etcd.leader_count" f0 ∅).
  assert (Hin : raw_point 0 "i1" "cluster.etcd.leader_count" f0 ∅
    ∈ default [] (match @Cluster_Collect canonical_MapRange 0 "i1" (cluster_answers NoOpProvider e) with
                  | Ok p => Some p | Err _ => None end)).
  { vm_compute. right. left. }
  split; [exact Hin|]. split; [done|]. split; [|vm_compute; reflexivity].
  exact (@etcd_leader_never_counted canonical_MapRange (fun _ => HttpDown "") (fun _ => None)
      (fun _ _ => Ok (print_json (JObj [("members", JArr [JObj [("ID", JInt 255); ("name", JStr "e1")]])])))
      sample_error (mkETCDConfig [] "etcdctl") NoOpProvider 0 "i1" _ _
      ltac:(vm_compute; reflexivity) Hin eq_refl).
Defined.

Definition sample_state : ClusterState :=
  mkClusterState "main" [mkMember "pg <1>" "h1" 5432 "leader" "running" 3 0 (Some {["zone" := "a"]})].

Definition sample_patroni : PatroniProvider := mkPatroni (Ok sample_state) (Ok []) (Ok "3.0.4").

Definition agent_http (body : string) (url : string) : httpAnswer :=
  if String.eqb url "http://a:9187/metrics/cluster" || String.eqb url "http://a:9187/metrics/os"
  then HttpAnswer StatusOK (Ok body) else HttpDown "connection refused".

Definition sample_instance : InstanceConfig :=
  mkInstanceConfig "i1" "" "" "" None 0 (mkIntervalConfig 0 0 0) "http://a:9187/" "" "" "" [] "" [] [] 1 "".

Lemma cluster_page_shows_agent_witness :
  handleClusterMetrics [sample_instance]
    (ScrapeCluster (agent_http (agent_handleMetricsCluster (Some sample_patroni) None)) sample_error) "i1"
  = writeJSON StatusOK (BCluster (state_any sample_state) AnyNil).
Proof.
  refine (cluster_page_shows_agent _ sample_error [sample_instance] "i1" sample_instance (Some sample_patroni) None
    eq_refl ltac:(done) _ eq_refl).
  split; [|intros q ms m H; discriminate H]. intros q s m [= <-] [= <-] Hm. cbn in Hm.
  apply list_elem_of_singleton in Hm as ->. repeat split; discriminate.
Defined.

(** A lag of 2^53 + 1 bytes is shown as 2^53. *)
Example large_lag_rounded : AnyInt (2 ^ 53 + 1) = AnyInt (2 ^ 53) /\ AnyInt (2 ^ 53 - 1) <> AnyInt (2 ^ 53).
Proof. split; [vm_compute; reflexivity|]. vm_compute. discriminate. Qed.

Lemma unavailable_agent_read_as_zeros_witness :
  ScrapeOS (agent_http (agent_handleMetricsOS (fun _ => None) (Err "OS metrics only available on Linux")))
    sample_error (fun _ => None) "http://a:9187/" = Ok zero_snapshot.
Proof.
  exact (proj1 (unavailable_agent_read_as_zeros _ sample_error (fun _ => None) (fun _ => None)
    "OS metrics only available on Linux" 0 "i1" "http://a:9187/" (Err "") eq_refl)).
Defined.

(** In an entry with names of nodes, the node left is given as the timestamp, and the node taken as
    the node left: the indexes are one too low. *)
Example history_nodes_shifted :
  history_event (JArr [JInt 1; JInt 25; JStr "no recovery target specified"; JStr "2026-03-01T10:00"; JStr "pg1";
                       JStr "pg2"])
  = Some (mkSwitchover "2026-03-01T10:00" "2026-03-01T10:00" "pg1" "no recovery target specified").
Proof. done. Qed.

Example parse_history_value :
  parse_history ("+----+-----+--------+------------------+" +:+ newline +:+
                 "| TL | LSN | Reason | Timestamp        |" +:+ newline +:+
                 "+----+-----+--------+------------------+" +:+ newline +:+
                 "|  1 | 123 | crash  | 2026-03-01T10:00 |" +:+ newline)
  = [mkSwitchover "2026-03-01T10:00" "" "" "crash"].
Proof. vm_compute. done. Qed.

(** Without etcdctl and with every endpoint down, no member is known. *)
Example endpoints_down :
  et_GetMembers (etcd_NewProvider (fun _ => HttpDown "connection refused") no_file no_exec sample_error
                   (mkETCDConfig ["http://e1:2379"; "http://e2:2379/"] ""))
  = Err "etcd unavailable: connection refused".
Proof. done. Qed.
