(* ===== verification/MetricsApiTheorems.v ===== *)
(** * Theorems on the metrics API

    Which sections of the page of a database can be filled at all, which of several values of a
    table it shows, and what a history of raw values holds. *)
From S2P Require Import Prelude Float64 Metric Storage Alert GoText Http SqlConn Config Group Instances.
From S2P Require Import DbRunner DbRunnerTheorems Orchestrator OrchestratorTheorems Pipeline MetricsApi.

Local Open Scope Z_scope.

(** ** The sections nobody feeds *)

(** Names the loops look for that no collector has. *)
Definition unfed_metrics : list string :=
  ["pg.db.table.table_bytes"; "pg.db.table.bloat_ratio"; "pg.db.table.wasted_bytes";
   "pg.db.index.scan_count"; "pg.db.index.tup_read"; "pg.db.index.cache_hit_pct";
   "pg.db.index.unused"; "pg.db.index.unused_bytes"; "pg.db.index.bloat_ratio";
   "pg.db.index.wasted_bytes"; "pg.db.sequence.last_value"; "pg.db.function.calls";
   "pg.db.large_objects.size_bytes"; "pg.db.unlogged.count"; "pg.db.partition.count"].

Lemma unfed_unknown : forallb (fun name => negb (mem name runner_metrics)) unfed_metrics = true.
Proof. vm_compute. reflexivity. Qed.

Lemma unfed_named p name : pt_Metric p ∈ runner_metrics -> mem name unfed_metrics = true ->
  named p name = false.
Proof.
  intros Hp Hn. unfold named. destruct (String.eqb_spec (pt_Metric p) name) as [E|]; [|done].
  subst name. apply mem_spec in Hn. pose proof unfed_unknown as Hu.
  rewrite forallb_forall in Hu. specialize (Hu _ (proj1 (list_elem_of_In _ _) Hn)).
  apply mem_spec in Hp. by rewrite Hp in Hu.
Qed.

Definition plain_table (t : tableMetric) : Prop :=
  tm_TableBytes t = f0 /\ tm_BloatRatio t = f0 /\ tm_WastedBytes t = f0.

Record sections_unfed (s : dbSections) : Prop := {
  su_tables : map_Forall (fun _ t => plain_table t) (se_tables s);
  su_indexes : se_indexes s = ∅;
  su_sequences : se_sequences s = [];
  su_functions : se_functions s = [];
  su_bytes : se_largeObjectSizeBytes s = f0;
  su_unlogged : se_unloggedCount s = f0;
  su_partitions : se_partitionCount s = f0
}.

Ltac unfed p H := repeat match goal with
  | |- context [named p ?name] => rewrite (unfed_named p name H) by (vm_compute; reflexivity)
  end.

Lemma section_step_unfed p s : pt_Metric p ∈ runner_metrics -> sections_unfed s ->
  sections_unfed (section_step p s).
Proof.
  intros Hp [H1 H2 H3 H4 H5 H6 H7]. unfold section_step.
  split; cbn [se_tables se_indexes se_sequences se_functions se_largeObjectSizeBytes se_unloggedCount
              se_partitionCount].
  - unfold step_table. unfed p Hp. destruct (named p _); [|exact H1].
    apply map_Forall_insert_2; [|exact H1]. unfold plain_table, getOrCreateTable. cbn.
    destruct (se_tables s !! _) as [t|] eqn:E; [|done]. exact (H1 _ _ E).
  - rewrite H2. unfold step_index. unfed p Hp. reflexivity.
  - unfold add_if. unfed p Hp. exact H3.
  - unfold add_if. unfed p Hp. exact H4.
  - unfold set_if. unfed p Hp. exact H5.
  - unfold set_if. unfed p Hp. exact H6.
  - unfed p Hp. exact H7.
Qed.

Lemma aggregate_unfed (dbs : gmap string dbAgg) p : pt_Metric p ∈ runner_metrics ->
  map_Forall (fun _ a => ag_unusedIndexes a = 0 /\ ag_maxBloat a = f0) dbs ->
  map_Forall (fun _ a => ag_unusedIndexes a = 0 /\ ag_maxBloat a = f0) (aggregate_point dbs p).
Proof.
  intros Hp H. unfold aggregate_point. destruct (String.eqb _ ""); [exact H|].
  apply map_Forall_insert_2; [|exact H]. unfold aggregate. cbn [ag_unusedIndexes ag_maxBloat].
  change (String.eqb (pt_Metric p)) with (named p). unfed p Hp. cbn [andb].
  destruct (dbs !! _) as [a|] eqn:E; [exact (H _ _ E)|done].
Qed.

Lemma query_known {SS : SliceSort} (t : PGMetricTable) q :
  Forall (fun p => pt_Metric p ∈ runner_metrics) (pgm_rows t) ->
  forall p, p ∈ pgm_Query (pgm_rows t) q -> pt_Metric p ∈ runner_metrics.
Proof.
  intros H p Hp. rewrite list.Forall_forall in H. apply H. unfold pgm_Query in Hp.
  assert (Hs : p ∈ sort_slice (fun a b => time_After (pt_Timestamp a) (pt_Timestamp b))
                     (List.filter (rowSelected q) (pgm_rows t))).
  { destruct (0 <? q_Limit q); [|exact Hp]. unfold slice_to in Hp.
    by apply (subseteq_take (Z.to_nat (q_Limit q))) in Hp. }
  rewrite sort_slice_perm in Hs. by apply elem_of_filter_bool in Hs as [_ ?].
Qed.

(** C30: Most of the page of a database stays empty. Whatever the servers answer, through any
    reloads and cycles from an empty metrics table, no answer for a database has an index, a
    sequence, a function, a size of large objects, or a count of unused indexes, unlogged tables or
    partitions; no table has a heap size, a bloat ratio or wasted bytes; and no entry in the list of
    databases has unused indexes or bloat: the names the page looks for are not those the collectors
    write. *)
Theorem database_page_unfed {MR : MapRange} {SS : SliceSort} `{DR : Driver} uh hn us {I}
    {HI : InstanceStore I} {E D} {HE : AlertEvaluator E} {HD : AlertDispatcher D} d cfg
    (st : option I) evs (e : E) (q : D) o' sh' (rfc3339 : Time -> string) exists_ now inst db :
  handle_all uh hn us evs
    ((Start uh hn d (New cfg st)).1, mkShared (mkPGMetricTable []) e q) = Some (o', sh') ->
  (forall m, handleGetDatabaseMetrics rfc3339 exists_ now (sh_store sh') inst db
               = RJSON StatusOK (BDatabase m) ->
     dm_Indexes m = [] /\ dm_Sequences m = [] /\ dm_Functions m = [] /\
     dm_LargeObjectSizeBytes m = f0 /\ dm_UnusedIndexCount m = 0 /\ dm_UnloggedCount m = f0 /\
     dm_PartitionCount m = f0 /\ Forall plain_table (dm_Tables m)) /\
  (forall l, handleListDatabases rfc3339 exists_ now (sh_store sh') inst
               = RJSON StatusOK (BDatabases l) ->
     Forall (fun s => dsu_UnusedIndexes s = 0 /\ dsu_MaxBloatRatio s = f0) l).
Proof.
  intros H. set (Q := fun (t : PGMetricTable) (_ : E) =>
    Forall (fun p => pt_Metric p ∈ runner_metrics) (pgm_rows t)).
  assert (Ht : Q (sh_store sh') (sh_evaluator sh')).
  { destruct (handle_all_keeps uh hn us Q evs (known_rows_inv (E := E)) _ _ _ _ H) as [_ Hs];
      [apply Start_runners|constructor|exact Hs]. }
  split.
  - intros m. unfold handleGetDatabaseMetrics. destruct (exists_ inst); [cbn [negb]|done].
    cbn [ms_Query PGMetricStore].
    pose proof (query_known (sh_store sh') (db_query now inst {["database" := db]}) Ht) as Hk.
    assert (Hs : sections_unfed (foldl (fun s p => section_step p s) no_sections
                   (pgm_Query (pgm_rows (sh_store sh')) (db_query now inst {["database" := db]})))).
    { apply (foldl_inv sections_unfed); [|by split]. intros s p Hp Hs.
      apply section_step_unfed; [by apply Hk|exact Hs]. }
    set (s := foldl _ _ _) in *. intros [= <-]. destruct Hs as [H1 H2 H3 H4 H5 H6 H7].
    cbn [dm_Indexes dm_Sequences dm_Functions dm_LargeObjectSizeBytes dm_UnusedIndexCount
         dm_UnloggedCount dm_PartitionCount dm_Tables].
    assert (Hi : map snd (map_range (se_indexes s)) = []).
    { rewrite H2. pose proof (map_range_perm _ _ (∅ : gmap string indexMetric)) as Hp.
      rewrite map_to_list_empty in Hp. by apply Permutation_nil_r in Hp as ->. }
    rewrite Hi. repeat (split; [done|]). apply list.Forall_fmap.
    rewrite (map_range_perm _ _ (se_tables s)). apply map_Forall_to_list in H1.
    eapply list.Forall_impl; [exact H1|]. by intros [k t].
  - intros l. unfold handleListDatabases. destruct (exists_ inst); [cbn [negb]|done].
    cbn [ms_Query PGMetricStore].
    pose proof (query_known (sh_store sh') (db_query now inst ∅) Ht) as Hk.
    assert (Hs : map_Forall (fun _ a => ag_unusedIndexes a = 0 /\ ag_maxBloat a = f0)
                   (foldl aggregate_point ∅ (pgm_Query (pgm_rows (sh_store sh')) (db_query now inst ∅)))).
    { apply (foldl_inv (fun m => map_Forall (fun _ a => ag_unusedIndexes a = 0 /\ ag_maxBloat a = f0) m));
        [|apply map_Forall_empty]. intros m p Hp Hm. apply aggregate_unfed; [by apply Hk|exact Hm]. }
    set (m := foldl _ _ _) in *. intros [= <-]. apply list.Forall_fmap.
    rewrite (map_range_perm _ _ m). apply map_Forall_to_list in Hs.
    eapply list.Forall_impl; [exact Hs|]. by intros [k a].
Qed.

(** ** Raw histories *)

Section history.
Context {SS : SliceSort} (date_trunc : string -> Time -> Time) (minute_of : Time -> Z)
  (sql_avg : list float64 -> float64) (metric_before : string -> string -> bool).

(** The collation is a strict total order. *)
Record collation : Prop := {
  co_asym : forall a b, metric_before a b = true -> metric_before b a = false;
  co_ntrans : forall a b c, metric_before a b = false -> metric_before b c = false ->
    metric_before a c = false;
  co_total : forall a b, metric_before a b = false -> metric_before b a = false -> a = b
}.

Lemma weak_on_raw (l : list MetricPoint) : collation -> weak_on (raw_before metric_before) l.
Proof.
  intros [Ha Hn Ht]. unfold raw_before, time_Before. split.
  - intros x y _ _ [H|[He H]%andb_true_iff]%orb_true_iff; apply orb_false_iff.
    + split; [by apply Ha|]. apply andb_false_iff. left. apply String.eqb_neq. intros E.
      rewrite E in H. by rewrite (Ha _ _ H) in H.
    + apply String.eqb_eq in He. rewrite He. split.
      * destruct (metric_before _ _) eqn:E; [|done]. by rewrite (Ha _ _ E) in E.
      * apply andb_false_iff. right. apply Z.ltb_ge. apply Z.ltb_lt in H. lia.
  - intros x y z _ _ _ [H1 H1']%orb_false_iff [H2 H2']%orb_false_iff. apply orb_false_iff.
    split; [by eapply Hn|]. apply andb_false_iff. destruct (String.eqb_spec (pt_Metric x) (pt_Metric z))
      as [E|]; [right|by left].
    assert (Exy : pt_Metric x = pt_Metric y) by (apply Ht; [done|]; rewrite E; exact H2).
    rewrite Exy, String.eqb_refl in H1'. rewrite <- E, Exy, String.eqb_refl in H2'. simpl in *.
    apply Z.ltb_ge in H1', H2'. apply Z.ltb_ge. lia.
Qed.

(** The series of one metric: the points the rows give it, appended in order. *)
Lemma append_series_lookup rows (series : gmap string (list TimeSeriesPoint)) m :
  is_Some (series !! m) ->
  foldl append_series series rows !! m =
    Some (default [] (series !! m) ++ map snd (List.filter (fun r => String.eqb r.1 m) rows)).
Proof.
  revert series. induction rows as [|[k pt] rows IH]; intros series [l Hl]; simpl.
  { by rewrite Hl, app_nil_r. }
  destruct (String.eqb_spec k m) as [->|Hne]; simpl.
  - unfold append_series at 2. simpl. rewrite IH by (rewrite lookup_insert_eq; eauto).
    rewrite lookup_insert_eq. simpl. by rewrite <- app_assoc.
  - unfold append_series at 2. simpl. rewrite IH; by rewrite lookup_insert_ne.
Qed.

Lemma requested_empty metrics m : m ∈ metrics ->
  foldl (fun (s : gmap string (list TimeSeriesPoint)) m => <[m := []]> s) ∅ metrics !! m = Some [].
Proof.
  intros Hm.
  assert (H : forall s : gmap string (list TimeSeriesPoint), s !! m = Some [] \/ m ∈ metrics ->
    foldl (fun s m => <[m := []]> s) s metrics !! m = Some []); [|by apply H; right].
  clear Hm. induction metrics as [|k metrics IH]; intros s; simpl; [set_solver|].
  intros H. apply IH. destruct (decide (k = m)) as [->|]; [left; by rewrite lookup_insert_eq|].
  rewrite lookup_insert_ne by done. set_solver.
Qed.

Lemma map_filter_metric m (l : list MetricPoint) :
  map snd (List.filter (fun r : string * TimeSeriesPoint => String.eqb r.1 m)
    (map (fun p => (pt_Metric p, mkTimeSeriesPoint (pt_Timestamp p) (pt_Value p))) l))
  = map (fun p => mkTimeSeriesPoint (pt_Timestamp p) (pt_Value p))
      (List.filter (fun p => String.eqb (pt_Metric p) m) l).
Proof. induction l as [|p l IH]; simpl; [done|]. destruct (String.eqb _ _); simpl; by rewrite IH. Qed.

(** Of the rows before a cut, those of one metric, when the rows of the metrics before it already
    fill the cut. *)
Lemma starved (l : list MetricPoint) n m : collation ->
  StronglySorted (fun a b => raw_before metric_before b a = false) l ->
  (n <= length (List.filter (fun p => metric_before (pt_Metric p) m) l))%nat ->
  List.filter (fun p => String.eqb (pt_Metric p) m) (take n l) = [].
Proof.
  intros Hc. revert n. induction l as [|p l IH]; intros [|n] Hs Hn; try done.
  apply StronglySorted_inv in Hs as [Hs Hp]. simpl in Hn |- *.
  destruct (metric_before (pt_Metric p) m) eqn:Ep.
  - destruct (String.eqb_spec (pt_Metric p) m) as [E|].
    + rewrite E in Ep. by rewrite (co_asym Hc _ _ Ep) in Ep.
    + apply IH; [done|]. simpl in Hn. lia.
  - exfalso. assert (E : List.filter (fun p => metric_before (pt_Metric p) m) l = []).
    { apply filter_none. intros x Hx. apply list.Forall_forall with (x := x) in Hp; [|done].
      unfold raw_before in Hp. apply orb_false_iff in Hp as [Hp _].
      by apply (co_ntrans Hc _ (pt_Metric p)). }
    rewrite E in Hn. simpl in Hn. lia.
Qed.

(** C23: What a raw history holds. When the rows asked for are at most a thousand for each metric
    named, every metric named has exactly its rows of the instance and the period, in time order.
    The thousand is not counted for each metric, though: a metric is answered as empty as soon as the
    rows of the metrics sorted before it reach the total. *)
Theorem raw_history_exact (t : PGMetricTable) (req : HistoryRequest) (m : string) :
  collation -> hr_Step req = "" -> m ∈ hr_Metrics req ->
  let chosen := List.filter (history_row req) (pgm_rows t) in
  let limit := 1000 * len (hr_Metrics req) in
  exists r l, HistoryMetrics date_trunc minute_of sql_avg metric_before t None req = Ok r /\
    hs_Series r !! m = Some l /\
    (len chosen <= limit ->
       l ≡ₚ map (fun p => mkTimeSeriesPoint (pt_Timestamp p) (pt_Value p))
              (List.filter (fun p => String.eqb (pt_Metric p) m) chosen) /\
       StronglySorted (fun a b => ts_T a <= ts_T b) l) /\
    (limit <= len (List.filter (fun p => metric_before (pt_Metric p) m) chosen) -> l = []).
Proof.
  intros Hc Hstep Hm chosen limit. unfold HistoryMetrics. rewrite Hstep.
  change (String.eqb "" "") with true. cbn [hs_Series].
  eexists _, _. split; [reflexivity|]. cbn [hs_Series].
  pose proof (requested_empty _ _ Hm) as He.
  split; [rewrite append_series_lookup by eauto; rewrite He; reflexivity|]. cbn [default app].
  unfold raw_rows. fold chosen limit. rewrite map_filter_metric.
  pose proof (sort_slice_perm _ (raw_before metric_before) chosen) as Hperm.
  pose proof (sort_slice_sorted _ _ chosen (weak_on_raw chosen Hc)) as Hsort.
  set (sorted := sort_slice _ chosen) in *. unfold slice_to. split.
  - intros Hle. rewrite take_ge by (rewrite Hperm; unfold len in Hle; lia). split.
    + apply Permutation_map. by rewrite (filter_perm _ _ _ Hperm).
    + clear -Hsort. induction Hsort as [|p l Hs IH Hp]; simpl; [constructor|].
      destruct (String.eqb_spec (pt_Metric p) m) as [E|]; [|done]. simpl. constructor; [done|].
      apply list.Forall_forall. intros x Hx.
      apply list_elem_of_fmap in Hx as (y & -> & Hy). apply elem_of_filter_bool in Hy as [Ey Hy].
      apply String.eqb_eq in Ey. apply list.Forall_forall with (x := y) in Hp; [|done].
      unfold raw_before in Hp. apply orb_false_iff in Hp as [_ Hp].
      rewrite E, Ey, String.eqb_refl in Hp. simpl in Hp. apply Z.ltb_ge in Hp. exact Hp.
  - intros Hlim. rewrite (starved sorted (Z.to_nat limit) m Hc Hsort); [done|].
    unfold len in Hlim. rewrite (Permutation_length (filter_perm _ _ _ Hperm)). lia.
Qed.
End history.

(** ** Concrete tables *)

#[local] Existing Instance canonical_MapRange.
#[local] Existing Instance insertion_SliceSort.
#[local] Existing Instance cell_driver.

(** The sizes of one table, taken twice, as the PostgreSQL store keeps them. *)
Definition twice : PGMetricTable :=
  mkPGMetricTable (map (fun vt => mkPoint "db1" "pg.db.table.total_bytes" (f_of_Z vt.1)
      (list_to_map [("database", "app"); ("schema", "public"); ("table", "orders")]) (vt.2 * Minute))
    [(1000, 100); (2000, 105)]).

Definition page_of (t : PGMetricTable) : option (string * list (string * float64)) :=
  match handleGetDatabaseMetrics (fun t => if t =? 105 * Minute then "new" else "old") (fun _ => true)
          (106 * Minute) t "db1" "app" with
  | RJSON _ (BDatabase m) =>
      Some (dm_CollectedAt m, map (fun t => (tm_Table t, tm_TotalBytes t)) (dm_Tables m))
  | _ => None
  end.

(** The rows come newest first and the last one read wins: the page gives the time of the newest
    collection and the size of the oldest. *)
Example page_shows_oldest_size : page_of twice = Some ("new", [("orders", f_of_Z 1000)]).
Proof. vm_compute. reflexivity. Qed.

Lemma database_page_unfed_witness :
  exists o' sh', handle_all (HE := BatchLog) (fun _ => None) (Ok "monitor") no_url low_events
      (demo_orchestrator, mkShared (mkPGMetricTable []) [] ()) = Some (o', sh') /\
    pgm_rows (sh_store sh') <> [] /\
    forall m, handleGetDatabaseMetrics (fun _ => "now") (fun _ => true) 0 (sh_store sh') "db1" "app"
                = RJSON StatusOK (BDatabase m) -> dm_Indexes m = [] /\ dm_UnusedIndexCount m = 0.
Proof.
  assert (Hb : match handle_all (HE := BatchLog) (fun _ => None) (Ok "monitor") no_url low_events
      (demo_orchestrator, mkShared (mkPGMetricTable []) [] ()) with
      | Some (_, sh') => match pgm_rows (sh_store sh') with [] => false | _ => true end
      | None => false end = true) by (vm_compute; reflexivity).
  destruct (handle_all (HE := BatchLog) (fun _ => None) (Ok "monitor") no_url low_events
      (demo_orchestrator, mkShared (mkPGMetricTable []) [] ())) as [[o' sh']|] eqn:Eh; [|discriminate].
  exists o', sh'. split; [reflexivity|split].
  - intros Hn. rewrite Hn in Hb. discriminate.
  - destruct (database_page_unfed (HE := BatchLog) (fun _ => None) (Ok "monitor") no_url demo_dial
      demo_config (Some demo_table) low_events [] () o' sh' (fun _ => "now") (fun _ => true) 0
      "db1" "app" Eh) as [H _].
    intros m Hm. destruct (H m Hm) as (H1 & _ & _ & _ & H5 & _). by split.
Defined.

Lemma string_collation : collation string_ltb.
Proof.
  split; [exact string_ltb_asym| |exact string_ltb_total].
  intros a b c H1 H2. destruct (weak_on_string (fun s => s) [a; b; c]) as [_ H].
  apply (H a b c); set_solver.
Qed.

Definition demoHistory : HistoryRequest :=
  mkHistoryRequest "db1" ["pg.db.table.total_bytes"] 0 (200 * Minute) "".

Lemma raw_history_exact_witness :
  exists r l, HistoryMetrics (fun _ t => t) (fun _ => 0) (fun _ => f0) string_ltb twice None demoHistory = Ok r /\
    hs_Series r !! "pg.db.table.total_bytes" = Some l /\
    StronglySorted (fun a b => ts_T a <= ts_T b) l /\ length l = 2%nat.
Proof.
  destruct (raw_history_exact (fun _ t => t) (fun _ => 0) (fun _ => f0) string_ltb twice demoHistory
              "pg.db.table.total_bytes" string_collation) as (r & l & Hr & Hl & Hle & _).
  - reflexivity.
  - apply list_elem_of_singleton. reflexivity.
  - exists r, l. split; [exact Hr|split; [exact Hl|]].
    destruct Hle as [Hp Hs]; [vm_compute; discriminate|]. split; [exact Hs|].
    rewrite Hp. vm_compute. reflexivity.
Defined.
