(* ===== verification/LiveApi.v ===== *)
(** * Handlers that ask the instance

    Models internal/api/activity.go, replication.go, logical_replication.go, handler_progress.go
    and handler_statements.go: each opens a connection to the instance, sets a timeout, runs
    statements and answers what they returned. A SET statement is a query whose rows are not
    read. A loop that goes on after a failing Scan is [query_skip]: the driver has closed the
    rows. *)
From S2P Require Import Prelude Float64 GoText Http SqlConn Collector.

Local Open Scope Z_scope.

Definition timeoutSQL : string := "SET LOCAL statement_timeout = '5s'".

Section live.
Context `{DR : Driver} {MR : MapRange}.
Context (instanceExists : string -> bool) (connProvider : option (string -> result Conn)).

Definition internal {B} (message : string) : response B :=
  writeError StatusInternalServerError "internal_error" message.

(** The checks every handler starts with; [checked] runs between the first two and the connection. *)
Definition withInstance {B} (instanceID : string) (k : (string -> result Conn) -> response B)
    : response B :=
  if negb (instanceExists instanceID) then
    writeError StatusNotFound "not_found" ("instance '" +:+ instanceID +:+ "' not found")
  else match connProvider with
       | None => writeError StatusServiceUnavailable "not_available"
                   "instance connection provider not configured"
       | Some connFor => k connFor
       end.

Definition withConn {B} (instanceID : string) (connFor : string -> result Conn)
    (k : Conn -> response B) : response B :=
  match connFor instanceID with
  | Err _ => writeError StatusBadGateway "connection_error" "failed to connect to instance"
  | Ok conn => match conn timeoutSQL [] with
               | Err _ => internal "failed to configure connection"
               | Ok _ => k conn
               end
  end.

(** ** activity.go *)

Record WaitEvent := mkWaitEvent { we_Type : string; we_Event : string; we_Count : Z }.
Record WaitEventsResponse := mkWaitEvents { wr_Events : list WaitEvent; wr_TotalBackends : Z }.

Record LongTransaction := mkLongTransaction {
  lt_PID : Z;
  lt_Username : string;
  lt_Database : string;
  lt_ApplicationName : string;
  lt_State : string;
  lt_Waiting : bool;
  lt_DurationSeconds : float64;
  lt_Query : string;
  lt_XactStart : Time
}.

Definition backendsSQL : string := "SELECT count(*) FROM pg_stat_activity WHERE pid != pg_backend_pid()".
Definition waitEventsSQL : string := "SELECT wait_event_type, wait_event, count(*) AS count
FROM pg_stat_activity
WHERE wait_event IS NOT NULL AND pid != pg_backend_pid()
GROUP BY 1, 2 ORDER BY 3 DESC".
Definition longTransactionsSQL : string := "SELECT pid, usename, datname, COALESCE(application_name, '') AS application_name, state, wait_event IS NOT NULL AS waiting,
       EXTRACT(EPOCH FROM (now() - xact_start)) AS duration_seconds,
       LEFT(query, 200) AS query, xact_start
FROM pg_stat_activity
WHERE xact_start IS NOT NULL
  AND pid != pg_backend_pid()
  AND EXTRACT(EPOCH FROM (now() - xact_start)) > $1
ORDER BY duration_seconds DESC".

Definition scan_wait_event : Scanner WaitEvent := t ← str; e ← str; n ← int64; mret (mkWaitEvent t e n).

Definition handleWaitEvents (instanceID : string) : response WaitEventsResponse :=
  withInstance instanceID (fun connFor => withConn instanceID connFor (fun conn =>
    match query_row conn backendsSQL [] int64 with
    | Err _ => internal "failed to count backends"
    | Ok total =>
        match query_skip conn waitEventsSQL [] scan_wait_event with
        | Err _ => internal "failed to query wait events"
        | Ok (events, _) => writeJSON StatusOK (mkWaitEvents events total)
        end
    end)).

Definition scan_long_transaction : Scanner LongTransaction :=
  pid ← int64; user ← str; db ← str; app ← str; state ← str; waiting ← boolean;
  duration ← float; query ← str; start ← dest scan_time;
  mret (mkLongTransaction pid user db app state waiting duration query start).

Definition handleLongTransactions (instanceID threshold : string) : response (list LongTransaction) :=
  withInstance instanceID (fun connFor =>
    let bad := writeError StatusBadRequest "bad_request" "invalid 'threshold_seconds' parameter" in
    let run seconds := withConn instanceID connFor (fun conn =>
      match query_skip conn longTransactionsSQL [AFloat seconds] scan_long_transaction with
      | Err _ => internal "failed to query long transactions"
      | Ok (txns, _) => writeJSON StatusOK txns
      end) in
    if String.eqb threshold "" then run (f_of_Z 5)
    else match ParseFloatErr threshold with
         | Err _ => bad
         | Ok v => if flt v f0 then bad else run v
         end).

(** ** replication.go *)

Record LagInfo := mkLagInfo {
  li_PendingBytes : Z;
  li_WriteBytes : Z;
  li_FlushBytes : Z;
  li_ReplayBytes : Z;
  li_WriteLag : string;
  li_FlushLag : string;
  li_ReplayLag : string
}.

Record ReplicaInfo := mkReplicaInfo {
  ri_ClientAddr : string;
  ri_ApplicationName : string;
  ri_State : string;
  ri_SyncState : string;
  ri_Lag : LagInfo
}.

Record SlotInfo := mkSlotInfo {
  si_SlotName : string;
  si_SlotType : string;
  si_Active : bool;
  si_WALRetainedBytes : Z
}.

Record WALReceiverInfo := mkWALReceiver { wa_SenderHost : string; wa_SenderPort : Z; wa_Status : string }.

Record ReplicationResponse := mkReplication {
  rr_InstanceID : string;
  rr_Role : string;
  rr_Replicas : list ReplicaInfo;
  rr_Slots : list SlotInfo;
  rr_WALReceiver : option WALReceiverInfo
}.

Definition walReceiverSQL : string := "SELECT sender_host, sender_port, status FROM pg_stat_wal_receiver".
Definition replicasSQL : string := "SELECT client_addr::text, application_name, state, sync_state,
       pg_wal_lsn_diff(pg_current_wal_insert_lsn(), sent_lsn) AS pending_bytes,
       pg_wal_lsn_diff(sent_lsn, write_lsn) AS write_bytes,
       pg_wal_lsn_diff(write_lsn, flush_lsn) AS flush_bytes,
       pg_wal_lsn_diff(flush_lsn, replay_lsn) AS replay_bytes,
       COALESCE(write_lag::text, '') AS write_lag,
       COALESCE(flush_lag::text, '') AS flush_lag,
       COALESCE(replay_lag::text, '') AS replay_lag
FROM pg_stat_replication".
Definition slotsSQL : string := "SELECT slot_name, slot_type, active,
       pg_wal_lsn_diff(pg_current_wal_insert_lsn(), restart_lsn) AS wal_retained_bytes
FROM pg_replication_slots".

Definition scan_replica : Scanner ReplicaInfo :=
  addr ← ostr; app ← str; state ← str; sync ← str; pending ← int64; write ← int64; flush ← int64;
  replay ← int64; wlag ← str; flag ← str; rlag ← str;
  mret (mkReplicaInfo (default "" addr) app state sync
          (mkLagInfo pending write flush replay wlag flag rlag)).

Definition scan_slot : Scanner SlotInfo :=
  name ← str; kind ← str; active ← boolean; retained ← int64; mret (mkSlotInfo name kind active retained).

Definition scan_receiver : Scanner WALReceiverInfo :=
  host ← str; port ← int64; status ← str; mret (mkWALReceiver host port status).

Definition handleReplication (instanceID : string) : response ReplicationResponse :=
  withInstance instanceID (fun connFor => withConn instanceID connFor (fun conn =>
    match query_row conn "SELECT pg_is_in_recovery()" [] boolean with
    | Err _ => internal "failed to check recovery status"
    | Ok true =>
        let answer wr := writeJSON StatusOK (mkReplication instanceID "replica" [] [] wr) in
        match conn walReceiverSQL [] with
        | Err _ => internal "failed to query WAL receiver"
        | Ok ([], _) => answer None
        | Ok (row :: _, _) =>
            match Scan scan_receiver row with
            | Err _ => internal "failed to read WAL receiver data"
            | Ok wr => answer (Some wr)
            end
        end
    | Ok false =>
        match query_skip conn replicasSQL [] scan_replica with
        | Err _ => internal "failed to query replication status"
        | Ok (replicas, _) =>
            let slots := match query_skip conn slotsSQL [] scan_slot with
                         | Ok (slots, _) => slots
                         | Err _ => []
                         end in
            writeJSON StatusOK (mkReplication instanceID "primary" replicas slots None)
        end
    end)).

(** ** logical_replication.go *)

Record PendingTable := mkPendingTable {
  pt_TableName : string;
  pt_SyncState : string;
  pt_SyncStateLabel : string;
  pt_SyncLSN : string
}.

Record SubscriptionStats := mkSubscriptionStats {
  ss_PID : Z;
  ss_ReceivedLSN : string;
  ss_LatestEndLSN : string;
  ss_LatestEndTime : string;
  ss_ApplyErrorCount : option Z;
  ss_SyncErrorCount : option Z
}.

Record SubscriptionStatus := mkSubscription {
  su_Database : string;
  su_SubscriptionName : string;
  su_TablesPending : list PendingTable;
  su_Stats : option SubscriptionStats
}.

Record LogicalReplicationResponse := mkLogicalReplication {
  lr_Subscriptions : list SubscriptionStatus;
  lr_TotalPendingTables : Z
}.

Definition syncStateLabel (state : string) : string :=
  if String.eqb state "i" then "Initializing"
  else if String.eqb state "d" then "Data Copy"
  else if String.eqb state "s" then "Synchronized"
  else if String.eqb state "f" then "Finalized"
  else state.

Definition userDatabasesSQL : string := "SELECT datname FROM pg_database WHERE datallowconn AND NOT datistemplate".
Definition pendingSQL : string := "
		SELECT s.subname,
		       r.srrelid::regclass::text AS table_name,
		       r.srsubstate::text,
		       COALESCE(r.srsublsn::text, '') AS sync_lsn
		FROM pg_subscription_rel r
		JOIN pg_subscription s ON s.oid = r.srsubid
		WHERE r.srsubstate <> 'r'".
Definition stats15SQL : string := "SELECT pid,
			        COALESCE(received_lsn::text, ''),
			        COALESCE(latest_end_lsn::text, ''),
			        COALESCE(latest_end_time::text, ''),
			        apply_error_count,
			        sync_error_count
			 FROM pg_stat_subscription
			 WHERE subname = $1 LIMIT 1".
Definition statsSQL : string := "SELECT pid,
			        COALESCE(received_lsn::text, ''),
			        COALESCE(latest_end_lsn::text, ''),
			        COALESCE(latest_end_time::text, '')
			 FROM pg_stat_subscription
			 WHERE subname = $1 LIMIT 1".

Definition scan_stats15 : Scanner SubscriptionStats :=
  pid ← int64; received ← str; endLSN ← str; endTime ← str; apply ← oint; sync ← oint;
  mret (mkSubscriptionStats pid received endLSN endTime apply sync).

Definition scan_stats : Scanner SubscriptionStats :=
  pid ← int64; received ← str; endLSN ← str; endTime ← str;
  mret (mkSubscriptionStats pid received endLSN endTime None None).

Definition querySubscriptionStats (conn : Conn) (subname : string) (pgVer : PGVersion)
    : result SubscriptionStats :=
  if AtLeast pgVer 15 0 then
    match query_row conn stats15SQL [AText subname] scan_stats15 with
    | Err e => Err (wrap ("stat_subscription (PG15+) for " +:+ subname) e)
    | Ok s => Ok s
    end
  else
    match query_row conn statsSQL [AText subname] scan_stats with
    | Err e => Err (wrap ("stat_subscription for " +:+ subname) e)
    | Ok s => Ok s
    end.

Definition scan_pending : Scanner (string * PendingTable) :=
  subname ← str; table ← str; state ← str; lsn ← str;
  mret (subname, mkPendingTable table state (syncStateLabel state) lsn).

(** The loop that groups the pending tables by subscription. *)
Definition group_pending (dbName : string) (subs : gmap string SubscriptionStatus)
    (row : string * PendingTable) : gmap string SubscriptionStatus :=
  let sub := default (mkSubscription dbName row.1 [] None) (subs !! row.1) in
  <[row.1 := mkSubscription (su_Database sub) (su_SubscriptionName sub)
               (su_TablesPending sub ++ [row.2]) (su_Stats sub)]> subs.

(** [connectDB] opens a connection like the main one, to another database. *)
Definition queryDBLogicalReplication (connectDB : string -> result Conn) (dbName : string)
    (pgVer : PGVersion) : result (list SubscriptionStatus) :=
  match connectDB dbName with
  | Err e => Err (wrap ("connect to " +:+ dbName) e)
  | Ok conn =>
      match conn timeoutSQL [] with
      | Err e => Err (wrap ("set timeout on " +:+ dbName) e)
      | Ok _ =>
          match query_skip conn pendingSQL [] scan_pending with
          | Err _ => Ok []
          | Ok (rows, _) =>
              let with_stats sub :=
                match querySubscriptionStats conn (su_SubscriptionName sub) pgVer with
                | Err _ => sub
                | Ok stats => mkSubscription (su_Database sub) (su_SubscriptionName sub)
                                (su_TablesPending sub) (Some stats)
                end in
              Ok (map (fun kv => with_stats kv.2)
                    (map_range (foldl (group_pending dbName) ∅ rows)))
          end
      end
  end.

Definition handleLogicalReplication (connectDB : string -> result Conn) (instanceID : string)
    : response LogicalReplicationResponse :=
  withInstance instanceID (fun connFor => withConn instanceID connFor (fun conn =>
    match Detect conn with
    | Err _ => internal "failed to detect PostgreSQL version"
    | Ok pgVer =>
        match query_skip conn userDatabasesSQL [] str with
        | Err _ => internal "failed to list databases"
        | Ok (databases, _) =>
            let subs := concat (map (fun db =>
              match queryDBLogicalReplication connectDB db pgVer with Ok l => l | Err _ => [] end)
              databases) in
            writeJSON StatusOK (mkLogicalReplication subs
              (foldl (fun n sub => n + len (su_TablesPending sub)) 0 subs))
        end
    end)).

(** ** handler_progress.go *)

(** The values of the details of an operation. *)
Inductive detail :=
  | DInt (z : Z)
  | DText (s : string)
  | DTextPtr (s : option string).

Record ProgressOperation := mkProgressOperation {
  po_OperationType : string;
  po_PID : Z;
  po_Datname : string;
  po_Relname : option string;
  po_Phase : string;
  po_ProgressPct : option float64;
  po_DurationSeconds : float64;
  po_Details : list (string * detail)
}.

Definition vacuumProgressSQL : string := "SELECT
    v.pid,
    sa.datname,
    v.relid::regclass::text AS relname,
    v.phase,
    v.heap_blks_total,
    v.heap_blks_scanned,
    v.heap_blks_vacuumed,
    v.index_vacuum_count,
    v.max_dead_tuples,
    v.num_dead_tuples,
    EXTRACT(EPOCH FROM (now() - sa.xact_start))::float8 AS duration_seconds,
    CASE WHEN v.heap_blks_total > 0
         THEN (v.heap_blks_scanned::float8 / v.heap_blks_total) * 100
         ELSE NULL END AS progress_pct
FROM pg_stat_progress_vacuum v
JOIN pg_stat_activity sa ON sa.pid = v.pid".
Definition clusterProgressSQL : string := "SELECT
    c.pid,
    sa.datname,
    c.relid::regclass::text AS relname,
    c.command AS phase,
    c.heap_tuples_scanned,
    c.heap_tuples_written,
    c.heap_blks_total,
    c.heap_blks_scanned,
    c.index_rebuild_count,
    EXTRACT(EPOCH FROM (now() - sa.xact_start))::float8 AS duration_seconds,
    CASE WHEN c.heap_blks_total > 0
         THEN (c.heap_blks_scanned::float8 / c.heap_blks_total) * 100
         ELSE NULL END AS progress_pct
FROM pg_stat_progress_cluster c
JOIN pg_stat_activity sa ON sa.pid = c.pid".
Definition createIndexProgressSQL : string := "SELECT
    ci.pid,
    sa.datname,
    ci.relid::regclass::text AS relname,
    ci.index_relid::regclass::text AS index_name,
    ci.command,
    ci.phase,
    ci.tuples_total,
    ci.tuples_done,
    ci.partitions_total,
    ci.partitions_done,
    ci.blocks_total,
    ci.blocks_done,
    ci.lockers_total,
    ci.lockers_done,
    EXTRACT(EPOCH FROM (now() - sa.xact_start))::float8 AS duration_seconds,
    CASE WHEN ci.blocks_total > 0
         THEN (ci.blocks_done::float8 / ci.blocks_total) * 100
         WHEN ci.tuples_total > 0
         THEN (ci.tuples_done::float8 / ci.tuples_total) * 100
         ELSE NULL END AS progress_pct
FROM pg_stat_progress_create_index ci
JOIN pg_stat_activity sa ON sa.pid = ci.pid".
Definition analyzeProgressSQL : string := "SELECT
    a.pid,
    sa.datname,
    a.relid::regclass::text AS relname,
    a.phase,
    a.sample_blks_total,
    a.sample_blks_scanned,
    a.ext_stats_total,
    a.ext_stats_computed,
    EXTRACT(EPOCH FROM (now() - sa.xact_start))::float8 AS duration_seconds,
    CASE WHEN a.sample_blks_total > 0
         THEN (a.sample_blks_scanned::float8 / a.sample_blks_total) * 100
         ELSE NULL END AS progress_pct
FROM pg_stat_progress_analyze a
JOIN pg_stat_activity sa ON sa.pid = a.pid".
Definition basebackupProgressSQL : string := "SELECT
    b.pid,
    sa.datname,
    b.phase,
    b.backup_total,
    b.backup_streamed,
    b.tablespaces_total,
    b.tablespaces_streamed,
    EXTRACT(EPOCH FROM (now() - sa.xact_start))::float8 AS duration_seconds,
    CASE WHEN b.backup_total > 0
         THEN (b.backup_streamed::float8 / b.backup_total) * 100
         ELSE NULL END AS progress_pct
FROM pg_stat_progress_basebackup b
JOIN pg_stat_activity sa ON sa.pid = b.pid".
Definition copyProgressSQL : string := "SELECT
    cp.pid,
    sa.datname,
    cp.relid::regclass::text AS relname,
    cp.command,
    cp.type AS copy_type,
    cp.bytes_total,
    cp.bytes_processed,
    cp.tuples_processed,
    cp.tuples_excluded,
    EXTRACT(EPOCH FROM (now() - sa.xact_start))::float8 AS duration_seconds,
    CASE WHEN cp.bytes_total > 0
         THEN (cp.bytes_processed::float8 / cp.bytes_total) * 100
         ELSE NULL END AS progress_pct
FROM pg_stat_progress_copy cp
JOIN pg_stat_activity sa ON sa.pid = cp.pid".

Definition counters (names : list string) (values : list Z) : list (string * detail) :=
  zip names (map DInt values).

(** The columns that vacuum, cluster and analyze have in common, with [names] for the counters. *)
Definition scan_phased (op : string) (names : list string) : Scanner ProgressOperation :=
  pid ← int64; datname ← str; relname ← ostr; phase ← str; values ← many int64 (length names);
  duration ← ofloat; pct ← ofloat;
  mret (mkProgressOperation op pid datname relname phase pct (default f0 duration)
          (counters names values)).

(** A query whose first failing row loses the whole answer. *)
Definition progress_rows (conn : Conn) (sql what : string) (s : Scanner ProgressOperation)
    : result (list ProgressOperation) :=
  query_rows conn sql [] s (fun e => e) (wrap ("scan " +:+ what +:+ " row")) (fun e => e).

Definition queryVacuumProgress (conn : Conn) : result (list ProgressOperation) :=
  progress_rows conn vacuumProgressSQL "vacuum" (scan_phased "vacuum"
    ["heap_blks_total"; "heap_blks_scanned"; "heap_blks_vacuumed"; "index_vacuum_count";
     "max_dead_tuples"; "num_dead_tuples"]).

Definition queryClusterProgress (conn : Conn) : result (list ProgressOperation) :=
  progress_rows conn clusterProgressSQL "cluster" (scan_phased "cluster"
    ["heap_tuples_scanned"; "heap_tuples_written"; "heap_blks_total"; "heap_blks_scanned";
     "index_rebuild_count"]).

Definition queryAnalyzeProgress (conn : Conn) : result (list ProgressOperation) :=
  progress_rows conn analyzeProgressSQL "analyze" (scan_phased "analyze"
    ["sample_blks_total"; "sample_blks_scanned"; "ext_stats_total"; "ext_stats_computed"]).

Definition create_index_counters : list string :=
  ["tuples_total"; "tuples_done"; "partitions_total"; "partitions_done"; "blocks_total";
   "blocks_done"; "lockers_total"; "lockers_done"].

Definition scan_create_index : Scanner ProgressOperation :=
  pid ← int64; datname ← str; relname ← ostr; indexName ← ostr; command ← str; phase ← str;
  values ← many int64 (length create_index_counters); duration ← ofloat; pct ← ofloat;
  mret (mkProgressOperation "create_index" pid datname relname phase pct (default f0 duration)
          ([("index_name", DTextPtr indexName); ("command", DText command)]
           ++ counters create_index_counters values)).

Definition queryCreateIndexProgress (conn : Conn) : result (list ProgressOperation) :=
  progress_rows conn createIndexProgressSQL "create index" scan_create_index.

Definition scan_basebackup : Scanner ProgressOperation :=
  pid ← int64; datname ← str; phase ← str; values ← many int64 4; duration ← ofloat; pct ← ofloat;
  mret (mkProgressOperation "basebackup" pid datname None phase pct (default f0 duration)
          (counters ["backup_total"; "backup_streamed"; "tablespaces_total"; "tablespaces_streamed"]
             values)).

Definition queryBasebackupProgress (conn : Conn) : result (list ProgressOperation) :=
  progress_rows conn basebackupProgressSQL "basebackup" scan_basebackup.

(** The command stands for the phase. *)
Definition scan_copy : Scanner ProgressOperation :=
  pid ← int64; datname ← str; relname ← ostr; command ← str; copyType ← str;
  values ← many int64 4; duration ← ofloat; pct ← ofloat;
  mret (mkProgressOperation "copy" pid datname relname command pct (default f0 duration)
          ([("command", DText command); ("copy_type", DText copyType)]
           ++ counters ["bytes_total"; "bytes_processed"; "tuples_processed"; "tuples_excluded"]
                values)).

Definition queryCopyProgress (conn : Conn) : result (list ProgressOperation) :=
  progress_rows conn copyProgressSQL "copy" scan_copy.

Definition detectPGVersion (conn : Conn) : result Z :=
  match query_row conn "SHOW server_version_num" [] str with
  | Err e => Err (wrap "query server_version_num" e)
  | Ok s => match Atoi s with
            | (num, None) => Ok num
            | (_, Some e) => Err (wrap "parse server_version_num" e)
            end
  end.

(** The six queries with the version from which each is run, in order. *)
Definition progress_queries : list (Z * (Conn -> result (list ProgressOperation))) :=
  [ (0, queryVacuumProgress); (120000, queryClusterProgress); (120000, queryCreateIndexProgress);
    (130000, queryAnalyzeProgress); (130000, queryBasebackupProgress); (140000, queryCopyProgress) ].

(** A query that fails is logged and adds nothing. *)
Definition handleProgress (instanceID : string) : response (list ProgressOperation) :=
  withInstance instanceID (fun connFor => withConn instanceID connFor (fun conn =>
    match detectPGVersion conn with
    | Err _ => internal "failed to detect PostgreSQL version"
    | Ok pgVersionNum =>
        writeJSON StatusOK (foldl (fun ops (vq : Z * (Conn -> result (list ProgressOperation))) =>
          if (vq.1 =? 0) || (vq.1 <=? pgVersionNum)
          then match vq.2 conn with Ok l => ops ++ l | Err _ => ops end
          else ops) [] progress_queries)
    end)).

(** ** handler_statements.go *)

Record StatementsConfig := mkStatementsConfig {
  sc_Max : Z;
  sc_Track : string;
  sc_IOTiming : bool;
  sc_CurrentCount : Z;
  sc_FillPct : float64;
  sc_StatsReset : option string;
  sc_StatsResetAgeSeconds : option float64
}.

Record StatementEntry := mkStatementEntry {
  st_QueryID : Z;
  st_QueryText : string;
  st_DBName : string;
  st_Username : string;
  st_Calls : Z;
  st_TotalExecTimeMs : float64;
  st_MeanExecTimeMs : float64;
  st_Rows : Z;
  st_BlkReadTimeMs : float64;
  st_BlkWriteTimeMs : float64;
  st_IOTimeMs : float64;
  st_CPUTimeMs : float64;
  st_SharedBlksHit : Z;
  st_SharedBlksRead : Z;
  st_HitRatio : float64;
  st_PctOfTotalTime : float64
}.

Record StatementsResponse := mkStatementsResponse {
  sr_Config : StatementsConfig;
  sr_Statements : list StatementEntry
}.

Definition sortColumn (sort : string) (pgVersionNum : Z) : string :=
  let new := 130000 <=? pgVersionNum in
  if String.eqb sort "io_time" then "(s.blk_read_time + s.blk_write_time)"
  else if String.eqb sort "cpu_time" then
    if new then "(s.total_exec_time - s.blk_read_time - s.blk_write_time)"
    else "(s.total_time - s.blk_read_time - s.blk_write_time)"
  else if String.eqb sort "calls" then "s.calls"
  else if String.eqb sort "rows" then "s.rows"
  else if new then "s.total_exec_time" else "s.total_time".

Definition statements13SQL : string * string := 
  ("SELECT
    s.queryid,
    LEFT(s.query, 500) AS query_text,
    d.datname,
    r.rolname AS usename,
    s.calls,
    s.total_exec_time AS total_exec_time_ms,
    s.total_exec_time / NULLIF(s.calls, 0) AS mean_exec_time_ms,
    s.rows,
    s.blk_read_time AS blk_read_time_ms,
    s.blk_write_time AS blk_write_time_ms,
    (s.blk_read_time + s.blk_write_time) AS io_time_ms,
    (s.total_exec_time - s.blk_read_time - s.blk_write_time) AS cpu_time_ms,
    s.shared_blks_hit,
    s.shared_blks_read,
    CASE WHEN (s.shared_blks_hit + s.shared_blks_read) > 0
         THEN s.shared_blks_hit::float8 / (s.shared_blks_hit + s.shared_blks_read)
         ELSE 0 END AS hit_ratio,
    s.total_exec_time / NULLIF(sum(s.total_exec_time) OVER (), 0) * 100 AS pct_of_total_time
FROM pg_stat_statements s
JOIN pg_database d ON d.oid = s.dbid
JOIN pg_roles r ON r.oid = s.userid
ORDER BY ",
   " DESC
LIMIT $1").
Definition statementsOldSQL : string * string := 
  ("SELECT
    s.queryid,
    LEFT(s.query, 500) AS query_text,
    d.datname,
    r.rolname AS usename,
    s.calls,
    s.total_time AS total_exec_time_ms,
    s.total_time / NULLIF(s.calls, 0) AS mean_exec_time_ms,
    s.rows,
    s.blk_read_time AS blk_read_time_ms,
    s.blk_write_time AS blk_write_time_ms,
    (s.blk_read_time + s.blk_write_time) AS io_time_ms,
    (s.total_time - s.blk_read_time - s.blk_write_time) AS cpu_time_ms,
    s.shared_blks_hit,
    s.shared_blks_read,
    CASE WHEN (s.shared_blks_hit + s.shared_blks_read) > 0
         THEN s.shared_blks_hit::float8 / (s.shared_blks_hit + s.shared_blks_read)
         ELSE 0 END AS hit_ratio,
    s.total_time / NULLIF(sum(s.total_time) OVER (), 0) * 100 AS pct_of_total_time
FROM pg_stat_statements s
JOIN pg_database d ON d.oid = s.dbid
JOIN pg_roles r ON r.oid = s.userid
ORDER BY ",
   " DESC
LIMIT $1").

(** The statement of a version, with the column it is sorted by in its place. *)
Definition statementsSQL (sort : string) (pgVersionNum : Z) : string :=
  let (before, after) := if 130000 <=? pgVersionNum then statements13SQL else statementsOldSQL in
  before +:+ sortColumn sort pgVersionNum +:+ after.

Definition extensionSQL : string := "SELECT EXISTS(SELECT 1 FROM pg_extension WHERE extname = 'pg_stat_statements')".
Definition pgssConfigSQL : string := "SELECT
    (SELECT setting FROM pg_settings WHERE name = 'pg_stat_statements.max') AS max_setting,
    (SELECT setting FROM pg_settings WHERE name = 'pg_stat_statements.track') AS track_setting,
    (SELECT setting FROM pg_settings WHERE name = 'track_io_timing') AS io_timing,
    (SELECT count(*) FROM pg_stat_statements) AS current_count".
Definition pgssInfoSQL : string := "SELECT
    stats_reset::text,
    EXTRACT(EPOCH FROM (now() - stats_reset)) AS stats_reset_age_seconds
FROM pg_stat_statements_info".

Definition scan_statement : Scanner StatementEntry :=
  id ← int64; text ← str; db ← str; user ← str; calls ← int64; total ← float; mean ← float;
  rows ← int64; read ← float; write ← float; io ← float; cpu ← float; hit ← int64; blks ← int64;
  ratio ← float; pct ← float;
  mret (mkStatementEntry id text db user calls total mean rows read write io cpu hit blks ratio pct).

(** The configuration, before the answer about the reset. A number that does not parse is 0. *)
Definition statements_config (row : string * string * string * Z) : StatementsConfig :=
  let '(maxStr, track, ioTiming, count) := row in
  let max := (Atoi maxStr).1 in
  mkStatementsConfig max track (String.eqb ioTiming "on") count
    (if 0 <? max then fmul (fdiv (f_of_Z count) (f_of_Z max)) (f_of_Z 100) else f0) None None.

Definition queryStatementsConfig (conn : Conn) (pgVersionNum : Z) : result StatementsConfig :=
  match query_row conn pgssConfigSQL [] (m ← str; t ← str; io ← str; n ← int64; mret (m, t, io, n)) with
  | Err e => Err e
  | Ok row =>
      let cfg := statements_config row in
      if 140000 <=? pgVersionNum then
        match query_row conn pgssInfoSQL [] (r ← ostr; a ← ofloat; mret (r, a)) with
        | Ok (reset, age) => Ok (mkStatementsConfig (sc_Max cfg) (sc_Track cfg) (sc_IOTiming cfg)
                                   (sc_CurrentCount cfg) (sc_FillPct cfg) reset age)
        | Err _ => Ok cfg
        end
      else Ok cfg
  end.

(** The statements on the connection. *)
Definition answerStatements (sort : string) (limit : Z) (conn : Conn) : response StatementsResponse :=
  match query_row conn extensionSQL [] boolean with
  | Err _ => internal "failed to check extensions"
  | Ok false => writeError StatusNotFound "EXTENSION_NOT_FOUND"
                  "pg_stat_statements extension not available"
  | Ok true =>
      match detectPGVersion conn with
      | Err _ => internal "failed to detect PostgreSQL version"
      | Ok version =>
          match queryStatementsConfig conn version with
          | Err _ => internal "failed to query statements configuration"
          | Ok cfg =>
              match query_skip conn (statementsSQL sort version) [AInt limit] scan_statement with
              | Err _ => internal "failed to query statements"
              | Ok (stmts, _) => writeJSON StatusOK (mkStatementsResponse cfg stmts)
              end
          end
      end
  end.

Definition handleStatements (instanceID sort limitStr : string) : response StatementsResponse :=
  withInstance instanceID (fun connFor =>
    let bad := writeError StatusBadRequest "bad_request"
                 "'limit' must be an integer between 1 and 100" in
    let run limit := withConn instanceID connFor (answerStatements sort limit) in
    if String.eqb limitStr "" then run 25
    else match Atoi limitStr with
         | (v, None) => if (v <? 1) || (100 <? v) then bad else run v
         | (_, Some _) => bad
         end).
End live.

(** ** What a client can make the server send *)

(** Every statement of the handlers of one instance, whatever the parameters. *)
Definition sort_columns : list string :=
  ["(s.blk_read_time + s.blk_write_time)"; "(s.total_exec_time - s.blk_read_time - s.blk_write_time)";
   "(s.total_time - s.blk_read_time - s.blk_write_time)"; "s.calls"; "s.rows"; "s.total_exec_time";
   "s.total_time"].

Definition statement_texts : list string :=
  concat (map (fun ba : string * string => map (fun col => ba.1 +:+ col +:+ ba.2) sort_columns)
    [statements13SQL; statementsOldSQL]).

Definition live_statements : list string :=
  [ timeoutSQL; backendsSQL; waitEventsSQL; longTransactionsSQL; "SELECT pg_is_in_recovery()";
    walReceiverSQL; replicasSQL; slotsSQL; "SHOW server_version_num"; vacuumProgressSQL;
    clusterProgressSQL; createIndexProgressSQL; analyzeProgressSQL; basebackupProgressSQL;
    copyProgressSQL; extensionSQL; pgssConfigSQL; pgssInfoSQL ] ++ statement_texts.

Lemma sortColumn_fixed sort v : sortColumn sort v ∈ sort_columns.
Proof. unfold sortColumn. repeat case_match; unfold sort_columns; set_solver. Qed.

Lemma statementsSQL_fixed sort v : statementsSQL sort v ∈ statement_texts.
Proof.
  unfold statementsSQL, statement_texts. rewrite list_elem_of_In, in_concat.
  pose proof (sortColumn_fixed sort v) as Hc.
  destruct (130000 <=? v); [destruct statements13SQL as [a b] eqn:E|destruct statementsOldSQL as [a b] eqn:E];
    exists (map (fun col => a +:+ col +:+ b) sort_columns); (split; [|apply in_map_iff; exists (sortColumn sort v);
      split; [done|by apply list_elem_of_In]]).
  - left. reflexivity.
  - right. left. reflexivity.
Qed.

Section fixed.
Context `{DR : Driver}.

(** Two connections that answer the statements of [l] alike. *)
Definition agree (l : list string) (c c' : Conn) : Prop :=
  forall sql args, sql ∈ l -> c sql args = c' sql args.

Lemma agree_row {A} l c c' sql args (s : Scanner A) : agree l c c' -> sql ∈ l ->
  query_row c sql args s = query_row c' sql args s.
Proof. intros H Hs. unfold query_row. by rewrite (H sql args Hs). Qed.

Lemma agree_skip {A} l c c' sql args (s : Scanner A) : agree l c c' -> sql ∈ l ->
  query_skip c sql args s = query_skip c' sql args s.
Proof. intros H Hs. unfold query_skip. by rewrite (H sql args Hs). Qed.

Lemma agree_progress l c c' sql what s : agree l c c' -> sql ∈ l ->
  progress_rows c sql what s = progress_rows c' sql what s.
Proof. intros H Hs. unfold progress_rows, query_rows, query_loop. by rewrite (H sql [] Hs). Qed.

(** Membership in the list of statements. *)
Ltac listed := apply list_elem_of_In; repeat (first [left; reflexivity | right]).

Lemma version_agree c c' : agree live_statements c c' -> detectPGVersion c = detectPGVersion c'.
Proof. intros H. unfold detectPGVersion. by rewrite (agree_row _ c c' _ _ _ H) by listed. Qed.

Lemma config_agree c c' v : agree live_statements c c' ->
  queryStatementsConfig c v = queryStatementsConfig c' v.
Proof.
  intros H. unfold queryStatementsConfig.
  rewrite (agree_row _ c c' pgssConfigSQL _ _ H), (agree_row _ c c' pgssInfoSQL _ _ H) by listed.
  reflexivity.
Qed.

Lemma progress_agree c c' : agree live_statements c c' -> forall v ops,
  foldl (fun ops (vq : Z * (Conn -> result (list ProgressOperation))) =>
          if (vq.1 =? 0) || (vq.1 <=? v)
          then match vq.2 c with Ok l => ops ++ l | Err _ => ops end else ops) ops progress_queries
  = foldl (fun ops (vq : Z * (Conn -> result (list ProgressOperation))) =>
          if (vq.1 =? 0) || (vq.1 <=? v)
          then match vq.2 c' with Ok l => ops ++ l | Err _ => ops end else ops) ops progress_queries.
Proof.
  intros H v ops. unfold progress_queries. cbn [foldl fst snd].
  unfold queryVacuumProgress, queryClusterProgress, queryCreateIndexProgress, queryAnalyzeProgress,
    queryBasebackupProgress, queryCopyProgress.
  rewrite !(agree_progress _ c c' _ _ _ H) by listed. reflexivity.
Qed.

Lemma statements_agree c c' sort : agree live_statements c c' ->
  forall limit, answerStatements sort limit c = answerStatements sort limit c'.
Proof.
  intros H limit. unfold answerStatements. rewrite (agree_row _ c c' extensionSQL _ _ H) by listed.
  rewrite (version_agree _ _ H).
  destruct (query_row c' extensionSQL [] boolean) as [[|]|]; try done.
  destruct (detectPGVersion c') as [v|]; [|done]. rewrite (config_agree _ _ v H).
  rewrite (agree_skip _ c c' _ _ _ H); [done|].
  unfold live_statements. apply elem_of_app. right. apply statementsSQL_fixed.
Qed.

(** C26: No parameter of a request becomes part of a statement. The five handlers that ask one
    connection see the instance only through a fixed list of statements: on two connections that
    answer those alike they answer alike, whatever the sort order, the limit, the threshold and the
    answers are; a parameter can only select one of the texts or be sent as an argument. *)
Theorem live_statements_fixed (exists_ : string -> bool) (c c' : Conn) (id sort limit threshold : string) :
  agree live_statements c c' ->
  let on (conn : Conn) := Some (fun _ : string => Ok conn) in
  handleWaitEvents exists_ (on c) id = handleWaitEvents exists_ (on c') id /\
  handleLongTransactions exists_ (on c) id threshold = handleLongTransactions exists_ (on c') id threshold /\
  handleReplication exists_ (on c) id = handleReplication exists_ (on c') id /\
  handleProgress exists_ (on c) id = handleProgress exists_ (on c') id /\
  handleStatements exists_ (on c) id sort limit = handleStatements exists_ (on c') id sort limit.
Proof.
  intros H on. pose proof (version_agree _ _ H) as Hv.
  assert (Ht : c timeoutSQL [] = c' timeoutSQL []) by (apply H; listed).
  unfold handleWaitEvents, handleLongTransactions, handleReplication, handleProgress, handleStatements,
    withInstance, withConn, on. destruct (exists_ id); [cbn [negb]|done]. rewrite Ht.
  destruct (c' timeoutSQL []); [|done].
  repeat split.
  - rewrite (agree_row _ c c' backendsSQL _ _ H), (agree_skip _ c c' waitEventsSQL _ _ H) by listed. done.
  - destruct (String.eqb threshold ""); [|destruct (ParseFloatErr threshold) as [v|]; [|done]; destruct (flt v f0); [done|]];
      rewrite (agree_skip _ c c' longTransactionsSQL _ _ H) by listed; done.
  - rewrite (agree_row _ c c' "SELECT pg_is_in_recovery()" _ _ H) by listed.
    rewrite (agree_skip _ c c' replicasSQL _ _ H), (agree_skip _ c c' slotsSQL _ _ H) by listed.
    rewrite (H walReceiverSQL []) by listed. done.
  - rewrite Hv. destruct (detectPGVersion c') as [v|]; [|done]. by rewrite (progress_agree _ _ H v []).
  - pose proof (statements_agree c c' sort H) as E.
    destruct (String.eqb limit ""); [apply E|]. destruct (Atoi limit) as [v [e|]]; [done|].
    destruct ((v <? 1) || (100 <? v)); [done|apply E].
Qed.
End fixed.

(** ** Concrete servers *)

#[local] Existing Instance cell_driver.

Definition server (rows : list (list pgcell)) : Conn := fun sql _ =>
  if String.eqb sql "SHOW server_version_num" then Ok ([[CText "160002"]], None)
  else if String.eqb sql longTransactionsSQL || String.eqb sql basebackupProgressSQL then Ok (rows, None)
  else if String.eqb sql timeoutSQL then Ok ([], None) else Err "no such relation".

Definition client_row : list pgcell :=
  [CInt 42; CText "app"; CText "shop"; CText ""; CText "active"; CBool false; CFloat (f_of_Z 600);
   CText "UPDATE"; CTime 0].

(** A worker of autovacuum has a transaction and no user. *)
Definition autovacuum_row : list pgcell :=
  [CInt 7; CNull; CText "shop"; CText ""; CText "active"; CBool false; CFloat (f_of_Z 900);
   CText "autovacuum"; CTime 0].

Definition long_pids (rows : list (list pgcell)) : list Z :=
  match handleLongTransactions (fun _ => true) (Some (fun _ => Ok (server rows))) "db1" "" with
  | RJSON _ l => map lt_PID l
  | RError _ _ => [-1]
  end.

(** One such row hides itself and every transaction after it. *)
Example autovacuum_cuts_the_list :
  long_pids [client_row] = [42] /\ long_pids [autovacuum_row; client_row] = [].
Proof. split; vm_compute; reflexivity. Qed.

(** The sender of a base backup is in no database: its progress is never shown. *)
Example basebackup_never_listed :
  handleProgress (fun _ => true)
    (Some (fun _ => Ok (server [[CInt 9; CNull; CText "streaming database files"; CInt 100; CInt 50;
                                 CInt 1; CInt 0; CFloat (f_of_Z 60); CFloat (f_of_Z 50)]]))) "db1"
  = RJSON StatusOK [].
Proof. vm_compute. reflexivity. Qed.

Lemma live_statements_fixed_witness :
  agree live_statements (server [client_row]) (fun sql args =>
    if String.eqb sql "DROP TABLE orders" then Ok ([], None) else server [client_row] sql args) /\
  handleStatements (fun _ => true) (Some (fun _ => Ok (server [client_row]))) "db1" "DROP TABLE orders" "10"
  = handleStatements (fun _ => true) (Some (fun _ => Ok (fun sql args =>
      if String.eqb sql "DROP TABLE orders" then Ok ([], None) else server [client_row] sql args)))
      "db1" "DROP TABLE orders" "10".
Proof.
  assert (H : agree live_statements (server [client_row]) (fun sql args =>
    if String.eqb sql "DROP TABLE orders" then Ok ([], None) else server [client_row] sql args)).
  { intros sql args Hs. destruct (String.eqb_spec sql "DROP TABLE orders") as [->|]; [|reflexivity].
    exfalso. apply mem_spec in Hs. vm_compute in Hs. discriminate. }
  split; [exact H|].
  exact (proj2 (proj2 (proj2 (proj2 (live_statements_fixed (fun _ => true) _ _ "db1" "DROP TABLE orders"
    "10" "" H))))).
Defined.
