(* ===== verification/Startup.v ===== *)
(** * The server program

    Models internal/storage/migrate.go and pool.go, cmd/pgpulse-server/main.go (with the two variants of
    its desktop mode) and internal/ml/lister.go: the migrations, the flags and the configuration they
    make, which parts are built, started and stopped in which order, and the lists of instances the
    background workers go by. Connecting and the other steps of start-up that can end the program are
    given by what they answer; net/url's parser is a parameter. *)
From stdpp Require Import pretty.
From S2P Require Import Prelude Float64 Metric Alert GoText Forecast Auth Http SqlConn Collector.
From S2P Require Import Config Group Instances DbRunner DbRunnerTheorems Orchestrator.
From S2P Require Import OrchestratorTheorems Routes InstancesApi.

Local Open Scope Z_scope.

(** ** Schema migrations

    Models internal/storage/migrate.go: the pending files are applied in order of their names, each
    in a transaction with the record of its version. A database is any state with what a file does
    to it; [mi_fault] says which statement fails, for the file it is about. *)

Record MigrateOptions := mkMigrateOptions { mo_UseTimescaleDB : bool }.

Inductive mstmt := MCreate | MCheck | MBegin | MRecord | MCommit.

(** The database, and the versions of the table schema_migrations. *)
Record Migrated (D : Type) := mkMigrated {
  mi_db : D;
  mi_versions : gset string;
  mi_fault : mstmt -> string -> option error
}.
Arguments mkMigrated {D} _ _ _.
Arguments mi_db {D} _.
Arguments mi_versions {D} _.
Arguments mi_fault {D} _.

Definition isConditional (filename : string) (opts : MigrateOptions) : bool :=
  String.eqb filename "002_timescaledb.sql" && negb (mo_UseTimescaleDB opts).

Section migrate.
Context {D : Type} (run : string -> D -> result D) {SS : SliceSort} (opts : MigrateOptions).

(** The embedded files, name and content. *)
Context (files : list (string * string)).

Definition content_of (name : string) : result string :=
  match List.find (fun f => String.eqb f.1 name) files with
  | Some f => Ok f.2
  | None => Err "file does not exist"
  end.

(** The transaction of one file: its content, its record and the commit, or nothing. *)
Definition apply_file (name content : string) (s : Migrated D) : Migrated D * option error :=
  let fail what e := (s, Some (wrap ("migration " +:+ name +:+ what) e)) in
  match mi_fault s MBegin name with
  | Some e => fail ": begin" e
  | None =>
      match run content (mi_db s) with
      | Err e => fail "" e
      | Ok db =>
          match mi_fault s MRecord name with
          | Some e => fail ": record" e
          | None =>
              match mi_fault s MCommit name with
              | Some e => fail ": commit" e
              | None => (mkMigrated db ({[name]} ∪ mi_versions s) (mi_fault s), None)
              end
          end
      end
  end.

(** The loop over the sorted names. *)
Fixpoint migrateLoop (names : list string) (s : Migrated D) : Migrated D * option error :=
  match names with
  | [] => (s, None)
  | name :: names' =>
      match mi_fault s MCheck name with
      | Some e => (s, Some (wrap ("check migration " +:+ name) e))
      | None =>
          if decide (name ∈ mi_versions s) then migrateLoop names' s
          else if isConditional name opts then migrateLoop names' s
          else match content_of name with
               | Err e => (s, Some (wrap ("read migration " +:+ name) e))
               | Ok content =>
                   match apply_file name content s with
                   | (s', Some e) => (s', Some e)
                   | (s', None) => migrateLoop names' s'
                   end
               end
      end
  end.

Definition Migrate (s : Migrated D) : Migrated D * option error :=
  match mi_fault s MCreate "" with
  | Some e => (s, Some (wrap "create schema_migrations" e))
  | None => migrateLoop (sort_slice string_ltb (map fst files)) s
  end.

(** ** What it leaves *)

(** The files still to apply, in order. *)
Definition is_pending (versions : gset string) (name : string) : bool :=
  negb (bool_decide (name ∈ versions)) && negb (isConditional name opts).

(** The effect of files, one after the other. *)
Inductive ran : list string -> D -> D -> Prop :=
  | ran_nil db : ran [] db db
  | ran_cons name content db db' db'' names :
      content_of name = Ok content -> run content db = Ok db' -> ran names db' db'' ->
      ran (name :: names) db db''.

Lemma apply_file_inv name content s s' e : apply_file name content s = (s', e) ->
  match e with
  | Some _ => s' = s
  | None => run content (mi_db s) = Ok (mi_db s') /\ mi_versions s' = {[name]} ∪ mi_versions s /\
            mi_fault s' = mi_fault s
  end.
Proof.
  unfold apply_file. destruct (mi_fault s MBegin name); [by intros [= <- <-]|].
  destruct (run content (mi_db s)) as [db|]; [|by intros [= <- <-]].
  destruct (mi_fault s MRecord name); [by intros [= <- <-]|].
  destruct (mi_fault s MCommit name); by intros [= <- <-].
Qed.

Lemma pending_other name versions names : name ∉ names ->
  List.filter (is_pending ({[name]} ∪ versions)) names = List.filter (is_pending versions) names.
Proof.
  intros Hn. induction names as [|x names IH]; simpl; [done|]. rewrite IH by set_solver.
  assert (E : is_pending ({[name]} ∪ versions) x = is_pending versions x); [|by rewrite E].
  unfold is_pending. f_equal. f_equal. apply bool_decide_ext. set_solver.
Qed.

Lemma migrateLoop_spec names : NoDup names -> forall s s' e, migrateLoop names s = (s', e) ->
  exists applied rest, List.filter (is_pending (mi_versions s)) names = applied ++ rest /\
    ran applied (mi_db s) (mi_db s') /\
    mi_versions s' = list_to_set applied ∪ mi_versions s /\ mi_fault s' = mi_fault s /\
    (e = None -> rest = []).
Proof.
  induction 1 as [|name names Hn _ IH]; intros s s' e; simpl.
  { intros [= <- <-]. exists [], []. split_and!; try done; [constructor|set_solver]. }
  assert (Hstop : forall l, exists applied rest, l = applied ++ rest /\ ran applied (mi_db s) (mi_db s) /\
    mi_versions s = list_to_set applied ∪ mi_versions s /\ mi_fault s = mi_fault s).
  { intros l. exists [], l. split_and!; try done; [constructor|set_solver]. }
  destruct (mi_fault s MCheck name).
  { intros [= <- <-]. edestruct Hstop as (a & r & H1 & H2 & H3 & H4). by exists a, r. }
  unfold is_pending at 1. destruct (decide (name ∈ mi_versions s)) as [Hin|Hin].
  { rewrite bool_decide_eq_true_2 by done. apply IH. }
  rewrite bool_decide_eq_false_2 by done. cbn [negb andb].
  destruct (isConditional name opts); [apply IH|]. cbn [negb].
  destruct (content_of name) as [content|] eqn:Ec.
  2: { intros [= <- <-]. edestruct Hstop as (a & r & H1 & H2 & H3 & H4). by exists a, r. }
  destruct (apply_file name content s) as [s1 [e1|]] eqn:Ea; apply apply_file_inv in Ea.
  { intros [= <- <-]. subst s1. edestruct Hstop as (a & r & H1 & H2 & H3 & H4). by exists a, r. }
  destruct Ea as (Hr & Hv & Hf). intros H. destruct (IH s1 s' e H) as (a & r & H1 & H2 & H3 & H4 & H5).
  rewrite Hv, pending_other in H1 by done. exists (name :: a), r.
  split_and!; [by rewrite H1| |by rewrite H3, Hv; set_solver|by rewrite H4|done].
  econstructor; eauto.
Qed.

(** C25: Migrations are applied in order, each with its record, and none twice. Whatever fails, the
    files a start-up applies are the first ones pending, in the order of their names, one after the
    other; their versions and no others are added; when it reports no error, every pending file was
    applied, and a second start-up, with every statement working, finds nothing to do and changes
    nothing. *)
Theorem migrate_exact (s s' : Migrated D) (e : option error) :
  NoDup (map fst files) -> Migrate s = (s', e) ->
  exists names applied rest,
    names ≡ₚ map fst files /\ StronglySorted (fun a b => string_ltb b a = false) names /\
    List.filter (is_pending (mi_versions s)) names = applied ++ rest /\
    ran applied (mi_db s) (mi_db s') /\
    mi_versions s' = list_to_set applied ∪ mi_versions s /\
    (e = None -> rest = [] /\ ((forall st f, mi_fault s st f = None) -> Migrate s' = (s', None))).
Proof.
  intros Hnd. unfold Migrate. set (names := sort_slice string_ltb (map fst files)).
  assert (Hp : names ≡ₚ map fst files) by apply sort_slice_perm.
  assert (Hn : NoDup names) by (by rewrite Hp).
  assert (Hs : StronglySorted (fun a b => string_ltb b a = false) names)
    by (apply sort_slice_sorted, (weak_on_string (fun x => x))).
  destruct (mi_fault s MCreate "") as [e0|].
  { intros [= <- <-]. exists names, [], (List.filter (is_pending (mi_versions s)) names).
    split_and!; try done; [constructor|set_solver]. }
  intros H. destruct (migrateLoop_spec names Hn s s' e H) as (a & r & H1 & H2 & H3 & H4 & H5).
  exists names, a, r. split_and!; try done. intros He. split; [by apply H5|]. intros Hok.
  rewrite H4, Hok. specialize (H5 He). subst r. rewrite app_nil_r in H1.
  assert (Hnone : List.filter (is_pending (mi_versions s')) names = []).
  { apply filter_none. intros x Hx. rewrite H3. destruct (is_pending (mi_versions s) x) eqn:Ex.
    - assert (x ∈ a) by (rewrite <- H1; by apply elem_of_filter_bool).
      unfold is_pending. rewrite bool_decide_eq_true_2 by set_solver. done.
    - unfold is_pending in *. destruct (isConditional x opts); [by rewrite andb_false_r|].
      rewrite andb_true_r in *. apply negb_false_iff, bool_decide_eq_true in Ex.
      apply negb_false_iff, bool_decide_eq_true. set_solver. }
  clear -Hnone Hok H4. induction names as [|x names IH]; simpl; [done|]. rewrite H4, Hok. simpl in Hnone.
  unfold is_pending in Hnone at 1. destruct (decide (x ∈ mi_versions s')) as [Hx|Hx].
  - rewrite bool_decide_eq_true_2 in Hnone by done. by apply IH.
  - rewrite bool_decide_eq_false_2 in Hnone by done. cbn [negb andb] in Hnone.
    destruct (isConditional x opts); [by apply IH|done].
Qed.
End migrate.

(** ** A start-up that fails half-way, and the next one *)

#[local] Existing Instance insertion_SliceSort.

Definition demo_files : list (string * string) :=
  [("002_timescaledb.sql", "hypertable"); ("001_metrics.sql", "metrics"); ("004_alerts.sql", "alerts");
   ("003_users.sql", "users")].

Definition demo_run (content : string) (db : list string) : result (list string) := Ok (db ++ [content]).

Definition fresh (broken : option string) : Migrated (list string) :=
  mkMigrated [] ∅ (fun st f => match st, broken with
    | MRecord, Some b => if String.eqb f b then Some "disk full" else None
    | _, _ => None
    end).

Example half_way :
  mi_db (Migrate demo_run (mkMigrateOptions false) demo_files (fresh (Some "003_users.sql"))).1 = ["metrics"] /\
  mi_db (Migrate demo_run (mkMigrateOptions false) demo_files (fresh None)).1 = ["metrics"; "users"; "alerts"].
Proof. split; vm_compute; reflexivity. Qed.

Lemma migrate_exact_witness :
  let r := Migrate demo_run (mkMigrateOptions false) demo_files (fresh None) in
  Migrate demo_run (mkMigrateOptions false) demo_files r.1 = (r.1, None).
Proof.
  intros r.
  destruct (migrate_exact demo_run (mkMigrateOptions false) demo_files (fresh None) r.1 r.2)
    as (names & a & rest & _ & _ & _ & _ & _ & H).
  - apply NoDup_ListNoDup. repeat constructor; simpl; intuition discriminate.
  - subst r. by destruct (Migrate _ _ _ _).
  - apply H; [vm_compute; reflexivity|]. intros [] f; reflexivity.
Defined.

(** ** Flags and configuration *)

Record Flags := mkFlags {
  fl_Target : string;
  fl_TargetHost : string;
  fl_TargetPort : Z;
  fl_TargetUser : string;
  fl_TargetPassword : string;
  fl_TargetDBName : string;
  fl_Listen : string;
  fl_NoAuth : bool;
  fl_Config : string
}.

Definition parseLogLevel (s : string) : option error :=
  if existsb (String.eqb s) ["debug"; ""; "info"; "warn"; "error"] then None
  else Some ("unknown log level " +:+ s).

(** url.PathEscape: what is neither a letter, a digit nor one of these is written in hexadecimal. *)
Definition path_char (c : Ascii.ascii) : bool :=
  (is_word c) || existsb (fun d => byte_Z c =? d) [45; 46; 126; 36; 38; 43; 58; 61; 64].

Definition upper_hex (z : Z) : Ascii.ascii :=
  Ascii.ascii_of_N (Z.to_N (if z <? 10 then 48 + z else 55 + z)).

Fixpoint PathEscape (s : string) : string :=
  match s with
  | EmptyString => EmptyString
  | String c s' =>
      if path_char c then String c (PathEscape s')
      else "%" +:+ String (upper_hex (byte_Z c / 16)) (String (upper_hex (byte_Z c mod 16)) (PathEscape s'))
  end.

Section config.
Context (url_Parse : string -> result URL) (url_path : URL -> string).

(** The instance of --target or --target-host: it has no intervals. *)
Definition synthesizeCLIInstance (fl : Flags) : option InstanceConfig :=
  let dsn :=
    if String.eqb (fl_Target fl) "" && negb (String.eqb (fl_TargetHost fl) "") then
      "postgres://" +:+ PathEscape (fl_TargetUser fl) +:+ ":" +:+ PathEscape (fl_TargetPassword fl) +:+ "@"
      +:+ fl_TargetHost fl +:+ ":" +:+ pretty (fl_TargetPort fl) +:+ "/" +:+ fl_TargetDBName fl
      +:+ "?sslmode=disable"
    else fl_Target fl in
  if String.eqb dsn "" then None
  else
    let (h, p) := seedHostPort url_Parse dsn in
    let path := match url_Parse dsn with Ok u => TrimPrefix (url_path u) "/" | Err _ => "" end in
    let db := if String.eqb path "" then "postgres" else path in
    Some (mkInstanceConfig "cli-target" (h +:+ ":" +:+ pretty p +:+ "/" +:+ db) dsn "" (Some true) 5
            (mkIntervalConfig 0 0 0) "" "" "" "" [] "" [] [] 0 "").

(** [config.Config{}]. *)
Definition zero_config : Config :=
  mkConfig (mkServerConfig "" 0 "" false "" 0 0 0) (mkStorageConfig "" false 0)
    (mkAuthConfig false "" "" 0 0 0 None) (mkAlertingConfig false 0 0 [] 0 0 "" None)
    (mkPlanCaptureConfig false 0 0 0 0 0 0) (mkSettingsSnapshotConfig false 0 false 0)
    (mkStatementSnapshotsConfig false 0 0 false 0)
    (mkMLConfig false f0 f0 "" 0 [] (mkMLPersistenceConfig false) (mkMLForecastConfig 0 f0 0))
    (mkRemediationConfig false 0 0 f0 f0)
    (mkRCAConfig false 0 "" 0 0 0 0 0 f0 f0 0 false false 0 0 f0)
    (mkPlaybooksConfig false 0 0 0 0 0)
    (mkForecastConfig false 0 f0 0 0 0 0 0 f0 0 f0 f0 f0 0 0) (mkOSMetricsConfig "") [].

(** The fields of a configuration that the flags change. *)
Definition override (server : ServerConfig) (auth : AuthConfig) (instances : list InstanceConfig) (c : Config)
    : Config :=
  mkConfig server (cfg_Storage c) auth (cfg_Alerting c) (cfg_PlanCapture c) (cfg_SettingsSnapshot c)
    (cfg_StatementSnapshots c) (cfg_ML c) (cfg_Remediation c) (cfg_RCA c) (cfg_Playbooks c)
    (cfg_MaintenanceForecast c) (cfg_OSMetrics c) instances.

Definition no_auth (a : AuthConfig) : AuthConfig :=
  mkAuthConfig false (auc_JWTSecret a) (auc_RefreshSecret a) (auc_AccessTokenTTL a) (auc_RefreshTokenTTL a)
    (auc_BcryptCost a) (auc_InitialAdmin a).

Definition with_listen (listen : string) (s : ServerConfig) : ServerConfig :=
  mkServerConfig listen (svc_Port s) (svc_LogLevel s) (svc_CORSEnabled s) (svc_CORSOrigin s)
    (svc_ReadTimeout s) (svc_WriteTimeout s) (svc_ShutdownTimeout s).

Definition listen_address (fl : Flags) (s : ServerConfig) : string :=
  let l := if String.eqb (fl_Listen fl) "" then svc_Listen s else fl_Listen fl in
  let l := if negb (svc_Port s =? 0) && String.eqb l "" then ":" +:+ pretty (svc_Port s) else l in
  if String.eqb l "" then ":8989" else l.

Definition applyFlags (fl : Flags) (cli : option InstanceConfig) (c : Config) : Config :=
  override (with_listen (listen_address fl (cfg_Server c)) (cfg_Server c))
    (if fl_NoAuth fl then no_auth (cfg_Auth c) else cfg_Auth c)
    (match cli with Some inst => [inst] | None => cfg_Instances c end) c.

(** From the flags to the configuration that is used; an error ends the program. [desktop] is the dialog
    of the desktop mode, when it is on; [load] is config.Load. *)
Definition resolveConfig (fl : Flags) (desktop : option (string -> result string))
    (load : string -> result Config) : result Config :=
  if negb (String.eqb (fl_Target fl) "") && negb (String.eqb (fl_TargetHost fl) "") then
    Err "--target and --target-host are mutually exclusive"
  else
    let cli := synthesizeCLIInstance fl in
    match (match desktop with Some dialog => dialog (fl_Config fl) | None => Ok (fl_Config fl) end) with
    | Err e => Err (wrap "desktop config resolution failed" e)
    | Ok path =>
        match (match load path, cli with
               | Ok c, _ => Ok c
               | Err _, Some _ => Ok zero_config
               | Err e, None => Err (wrap "failed to load config" e)
               end) with
        | Err e => Err e
        | Ok c =>
            let c := applyFlags fl cli c in
            match parseLogLevel (svc_LogLevel (cfg_Server c)) with
            | Some e => Err (wrap "invalid log level" e)
            | None => Ok c
            end
        end
    end.
End config.

(** ** What is built *)

Inductive mode := Persistent | Live | LogOnly.

(** Parts with goroutines of their own. *)
Inductive worker :=
  | WPlanRetention | WAlertCleanup | WDispatcher | WBackground | WFeedback | WForecast | WHTTP
  | WOrchestrator | WCapturer.

#[global] Instance worker_eq_dec : EqDecision worker.
Proof. solve_decision. Defined.

(** The parts of a server: [wi_pgss] is the store of statement snapshots handed to it (none, the null
    store, or the table), [wi_deferred] what main stops when it returns, in the order of the defers. *)
Record Wiring := mkWiring {
  wi_cfg : Config;
  wi_mode : mode;
  wi_authMode : AuthMode;
  wi_users : bool;
  wi_alerting : bool;
  wi_email : bool;
  wi_detector : bool;
  wi_detectorAPI : bool;
  wi_remediation : bool;
  wi_rca : bool;
  wi_rcaTrigger : bool;
  wi_rcaStatements : bool;
  wi_pgss : option bool;
  wi_playbooks : bool;
  wi_forecast : bool;
  wi_instanceStore : bool;
  wi_workers : list worker;
  wi_deferred : list worker
}.

(** The steps of start-up that end the program when they fail. *)
Inductive stage := StPool | StMigrate | StSeedRules | StLoadRules | StRestoreState | StSeedPlaybooks | StUsers.

Section wiring.
Context (fault : stage -> option error).

(** A step, when it is taken. *)
Definition step {A} (taken : bool) (st : stage) (failure : string) (k : result A) : result A :=
  if negb taken then k
  else match fault st with Some e => Err (wrap failure e) | None => k end.

Definition when {A} (b : bool) (x : A) : list A := if b then [x] else [].

Definition persistent (cfg : Config) : result Wiring :=
  let alerting := alc_Enabled (cfg_Alerting cfg) in
  let detector := mlc_Enabled (cfg_ML cfg) in
  let playbooks := pbc_Enabled (cfg_Playbooks cfg) in
  let auth := auc_Enabled (cfg_Auth cfg) in
  let statements := ssc_Enabled (cfg_StatementSnapshots cfg) in
  let rca := rca_Enabled (cfg_RCA cfg) in
  let plans := cfg_PlanCapture cfg in
  step true StPool "failed to connect to storage DB" (
  step true StMigrate "failed to run migrations" (
  step alerting StSeedRules "failed to seed alert rules" (
  step alerting StLoadRules "failed to load alert rules" (
  step alerting StRestoreState "failed to restore alert state" (
  step playbooks StSeedPlaybooks "failed to seed playbooks" (
  step auth StUsers "failed to count users" (
  Ok (mkWiring cfg Persistent (if auth then AuthEnabled else AuthDisabled) auth alerting
        (alerting && match alc_Email (cfg_Alerting cfg) with Some _ => true | None => false end)
        detector (auth && detector) true rca (rca && alerting) (rca && statements) (Some statements) playbooks
        (fc_Enabled (cfg_MaintenanceForecast cfg)) true
        (when (pcc_Enabled plans && (0 <? pcc_RetentionDays plans)) WPlanRetention
         ++ when alerting WAlertCleanup ++ when alerting WDispatcher
         ++ when (rmc_Enabled (cfg_Remediation cfg)) WBackground ++ when playbooks WFeedback)
        (when (rmc_Enabled (cfg_Remediation cfg)) WBackground ++ when playbooks WFeedback))))))))).

(** Features that need storage are switched off in the configuration. *)
Definition live_config (c : Config) : Config :=
  let ml := cfg_ML c in let pc := cfg_PlanCapture c in let sg := cfg_SettingsSnapshot c in
  mkConfig (cfg_Server c) (cfg_Storage c) (cfg_Auth c) (cfg_Alerting c)
    (mkPlanCaptureConfig false (pcc_DurationThresholdMs pc) (pcc_DedupWindowSeconds pc)
       (pcc_ScheduledTopNCount pc) (pcc_ScheduledTopNInterval pc) (pcc_MaxPlanBytes pc) (pcc_RetentionDays pc))
    (mkSettingsSnapshotConfig false (sgc_ScheduledInterval sg) (sgc_CaptureOnStartup sg) (sgc_RetentionDays sg))
    (cfg_StatementSnapshots c)
    (mkMLConfig false (mlc_ZScoreWarn ml) (mlc_ZScoreCrit ml) (mlc_AnomalyLogic ml) (mlc_CollectionInterval ml)
       (mlc_Metrics ml) (mlc_Persistence ml) (mlc_Forecast ml))
    (cfg_Remediation c) (cfg_RCA c) (cfg_Playbooks c) (cfg_MaintenanceForecast c) (cfg_OSMetrics c)
    (cfg_Instances c).

(** A server without storage has none of the optional parts. *)
Definition bare (cfg : Config) (m : mode) (auth : AuthMode) : Wiring :=
  mkWiring cfg m auth false false false false false false false false false None false false false [] [].

Definition wire (fl : Flags) (cfg : Config) : result Wiring :=
  let auth := if negb (auc_Enabled (cfg_Auth cfg)) || fl_NoAuth fl then AuthDisabled else AuthEnabled in
  if negb (String.eqb (stc_DSN (cfg_Storage cfg)) "") then persistent cfg
  else match cfg_Instances cfg with
       | _ :: _ => Ok (bare (live_config cfg) Live auth)
       | [] => Ok (bare cfg LogOnly auth)
       end.
End wiring.

(** The optional parts of the route table. *)
Definition features (w : Wiring) (f : feature) : bool :=
  match f with
  | AlertRuleStore => wi_alerting w
  | RemediationEngine => wi_remediation w
  | RCAEngine => wi_rca w
  | PlaybookStore => wi_playbooks w
  | ForecastEngine => wi_forecast w
  | InstanceStore => wi_instanceStore w
  end.

(** ** What runs *)

Inductive act :=
  | Launch (x : worker)
  | Desktop
  | Wait
  | Halt (x : worker)
  | CloseStore.

Definition capturing (w : Wiring) : bool :=
  ssc_Enabled (cfg_StatementSnapshots (wi_cfg w)) && match wi_pgss w with Some _ => true | None => false end.

(** [startServer]: in desktop mode the window serves the interface until it is closed, and nothing
    follows; else the server runs until a signal comes. *)
Definition startServer (desktop : bool) (w : Wiring) : list act :=
  when (wi_forecast w) (Launch WForecast)
  ++ if desktop then [Desktop]
     else [Launch WHTTP; Launch WOrchestrator] ++ when (capturing w) (Launch WCapturer)
          ++ [Wait; Halt WHTTP; Halt WOrchestrator] ++ when (wi_alerting w) (Halt WDispatcher)
          ++ [CloseStore] ++ when (capturing w) (Halt WCapturer).

Definition main_run (desktop : bool) (w : Wiring) : list act :=
  map Launch (wi_workers w) ++ startServer desktop w ++ map Halt (rev (wi_deferred w)).

(** The orchestrator of the program: main gives it no table of instances. *)
Definition main_orchestrator `{DR : Driver} {I : Type} (w : Wiring) : Orchestrator.Orchestrator I :=
  Orchestrator.New (wi_cfg w) None.

(** ** The lists of instances *)

Section lists.
Context {I : Type} {HI : Instances.InstanceStore I}.

(** ml/lister.go: the enabled rows in order. [rows] is the table's listing. *)
Definition ml_ListInstanceIDs (st : I) : result (list string) :=
  match ist_List st with
  | Err e => Err e
  | Ok records => Ok (map ir_ID (List.filter ir_Enabled records))
  end.

(** forecastInstanceLister. *)
Definition ActiveInstanceIDs (st : option I) : result (list string) :=
  match st with
  | None => Ok []
  | Some st => match ist_List st with
               | Err e => Err e
               | Ok records => Ok (map ir_ID (List.filter ir_Enabled records))
               end
  end.

(** pgssInstanceLister: the enabled instances of the configuration, then those of the table that were
    not seen; a failure of the table is ignored. *)
Definition pgss_ListInstanceIDs (cfg : Config) (st : option I) : list string :=
  let ids := map inc_ID (List.filter (fun i => negb (disabled i)) (cfg_Instances cfg)) in
  match st with
  | None => ids
  | Some st =>
      match ist_List st with
      | Err _ => ids
      | Ok records =>
          ids ++ map ir_ID (List.filter (fun r => ir_Enabled r && negb (mem (ir_ID r) ids)) records)
      end
  end.

(** *** pgssConnProvider: a pool per instance, made at its first use *)

Record PoolCache := mkPoolCache { pp_pools : gmap string Pool; pp_opened : Z; pp_closed : list Pool }.

Definition pgss_DSN (cfg : Config) (st : option I) (id : string) : string :=
  let dsn := match List.find (fun i => String.eqb (inc_ID i) id) (cfg_Instances cfg) with
             | Some i => inc_DSN i
             | None => ""
             end in
  if negb (String.eqb dsn "") then dsn
  else match st with
       | None => ""
       | Some st => match ist_Get st id with Ok (Some rec) => ir_DSN rec | _ => "" end
       end.

(** Between its two critical sections a call has nothing, the pool it found, or the pool it opened. *)
Inductive poolCall :=
  | PcFailed (e : error)
  | PcFound (p : Pool)
  | PcOpened (p : Pool).

(** The first section and, without a pool, the opening of one with two connections. *)
Definition pool_begin (parse open : string -> option error) (cfg : Config) (st : option I) (id : string)
    (c : PoolCache) : PoolCache * poolCall :=
  match pp_pools c !! id with
  | Some p => (c, PcFound p)
  | None =>
      let dsn := pgss_DSN cfg st id in
      if String.eqb dsn "" then (c, PcFailed ("instance " +:+ id +:+ " not found"))
      else match parse dsn with
           | Some e => (c, PcFailed (wrap ("parse DSN for " +:+ id) e))
           | None =>
               match open dsn with
               | Some e => (c, PcFailed (wrap ("create pool for " +:+ id) e))
               | None => (mkPoolCache (pp_pools c) (pp_opened c + 1) (pp_closed c),
                          PcOpened (mkPool (pp_opened c) dsn 2))
               end
           end
  end.

(** The second section: a pool that another call has stored meanwhile is kept. *)
Definition pool_end (id : string) (k : poolCall) (c : PoolCache) : PoolCache * result Pool :=
  match k with
  | PcFailed e => (c, Err e)
  | PcFound p => (c, Ok p)
  | PcOpened p =>
      match pp_pools c !! id with
      | Some q => (mkPoolCache (pp_pools c) (pp_opened c) (pp_closed c ++ [p]), Ok q)
      | None => (mkPoolCache (<[id := p]> (pp_pools c)) (pp_opened c) (pp_closed c), Ok p)
      end
  end.

End lists.

(** storage/pool.go: connecting to the storage; a pool that does not answer is closed again. *)
Definition NewPool {P} (parse : string -> option error) (open : string -> result P) (ping : P -> option error)
    (dsn : string) : list P * result P :=
  match parse dsn with
  | Some e => ([], Err (wrap "parse storage DSN" e))
  | None =>
      match open dsn with
      | Err e => ([], Err (wrap "create storage pool" e))
      | Ok p => match ping p with
                | Some e => ([p], Err (wrap "ping storage DB" e))
                | None => ([], Ok p)
                end
      end
  end.

(** ** Theorems *)

Section theorems.
Context {MR : MapRange} `{DR : Driver} (uh : string -> option string) (hn : result string)
  (us : string -> string -> option string) {I : Type} {HI : Instances.InstanceStore I}.
Context (url_Parse : string -> result URL) (url_path : URL -> string).

(** Runners of instances that the list has, enabled. *)
Definition configured (l : list InstanceConfig) (o : Orchestrator.Orchestrator I) : Prop :=
  forall id r, o_runners o !! id = Some r ->
    exists inst, inst ∈ l /\ disabled inst = false /\ inc_ID inst = id /\ rn_cfg r = inst /\
      map g_interval (rn_groups r)
      = [ivc_High (inc_Intervals inst); ivc_Medium (inc_Intervals inst); ivc_Low (inc_Intervals inst)].

Lemma start_configured d l l0 (o : Orchestrator.Orchestrator I) : (forall i, i ∈ l0 -> i ∈ l) ->
  configured l o ->
  configured l (foldl (fun o inst => if disabled inst then o else startRunner uh hn d inst o) o l0).
Proof.
  revert o. induction l0 as [|inst l0 IH]; intros o Hl Ho; [done|]. cbn.
  apply IH; [intros i Hi; apply Hl; by right|].
  destruct (disabled inst) eqn:Ed; [done|]. intros id r. rewrite startRunner_lookup.
  destruct (decide (id = inc_ID inst)) as [->|]; [|apply Ho].
  destruct (connect d (o_opened o) inst) as [e|p e|p v]; [apply Ho|apply Ho|].
  intros [= <-]. exists inst. split_and!; try done. apply Hl. by left.
Qed.

Lemma Start_configured d (w : Wiring) :
  configured (cfg_Instances (wi_cfg w)) (Start uh hn d (main_orchestrator (I := I) w)).1 /\
  o_instanceStore (Start uh hn d (main_orchestrator (I := I) w)).1 = None /\
  o_reloading (Start uh hn d (main_orchestrator (I := I) w)).1 = false.
Proof.
  unfold Start. cbn [main_orchestrator Orchestrator.New o_cfg].
  set (o' := foldl _ _ _).
  assert (Hc : configured (cfg_Instances (wi_cfg w)) o').
  { apply start_configured; [done|]. intros id r. cbn. by rewrite lookup_empty. }
  assert (Hs : same_settings (Orchestrator.New (I := I) (wi_cfg w) None) o').
  { apply settings_foldl. intros a b. destruct (disabled b); [by repeat split|apply startRunner_settings]. }
  destruct Hs as (_ & Hi & Hr & _). cbn in Hi, Hr.
  destruct (decide _); cbn; split_and!; try done; by rewrite ?Hi, ?Hr.
Qed.

Section system.
Context {S E D : Type} {HM : MetricStore S} {HE : Group.AlertEvaluator E} {HD : AlertDispatcher D}.

Lemma run_configured l evs : forall (o o' : Orchestrator.Orchestrator I) (sh sh' : Shared S E D),
  configured l o -> o_reloading o = false ->
  handle_all uh hn us evs (o, sh) = Some (o', sh') ->
  forall id, is_Some (o_runners o' !! id) -> exists inst, inst ∈ l /\ disabled inst = false /\ inc_ID inst = id.
Proof.
  induction evs as [|ev evs IH]; intros o o' sh sh' Hc Hr H; cbn [handle_all] in H.
  - injection H as <- <-. intros id [r Hid]. destruct (Hc id r Hid) as (i & ? & ? & ? & _). eauto.
  - destruct (handle uh hn us ev (o, sh)) as [[o1 sh1]|] eqn:E1; [|done].
    assert (Hkeep : forall id r r', o_runners o !! id = Some r -> rn_cfg r' = rn_cfg r ->
      map g_interval (rn_groups r') = map g_interval (rn_groups r) ->
      configured l (set_runners (<[id := r']> (o_runners o)) o)).
    { intros id r r' Hid Hcf Hg id2 r2. cbn. rewrite lookup_insert_Some.
      intros [[<- <-]|[_ H2]]; [|by apply Hc]. destruct (Hc id r Hid) as (i & ? & ? & ? & ? & ?).
      exists i. split_and!; congruence. }
    refine (IH o1 o' sh1 sh' _ _ H); clear IH H.
    + destruct ev as [d|id i cy|id cy|id a|n a]; cbn in E1.
      * rewrite Hr in E1. by injection E1 as <- <-.
      * destruct (o_runners o !! id) as [r|] eqn:Er; [|by injection E1 as <- <-].
        destruct (rn_groups r !! i) as [g|] eqn:Eg; [|by injection E1 as <- <-].
        destruct (collect cy g sh) as [[g' sh2]|] eqn:Ec; [|done]. injection E1 as <- <-.
        apply (Hkeep id r); [done|done|]. cbn [set_groups rn_groups].
        assert (Hg : g_interval g' = g_interval g).
        { revert Ec. unfold collect. repeat case_match; by intros [= <- <-]. }
        rewrite list_fmap_insert, Hg. apply list_insert_id. by rewrite list_lookup_fmap, Eg.
      * destruct (o_runners o !! id) as [r|] eqn:Er; [|by injection E1 as <- <-].
        destruct (in_run r); injection E1 as <- <-; [done|]. by apply (Hkeep id r).
      * destruct (o_runners o !! id) as [r|] eqn:Er; [|by injection E1 as <- <-].
        destruct (step_run us a r (sh_store sh)) as [[r' s']|] eqn:Es; [|by injection E1 as <- <-].
        injection E1 as <- <-. unfold step_run in Es. destruct (rn_run r) as [u|]; [|done].
        destruct (run_act us a (rn_dbRunner r, u, sh_store sh)) as [[[dr u'] s1]|]; [|done].
        injection Es as <- <-. by apply (Hkeep id r).
      * destruct (o_retired o !! n) as [[b r]|]; [|by injection E1 as <- <-]. cbn [fst snd] in E1.
        destruct (step_run us a r (sh_store sh)) as [[r' s']|]; by injection E1 as <- <-.
    + destruct ev as [d|id i cy|id cy|id a|n a]; cbn in E1.
      * rewrite Hr in E1. by injection E1 as <- <-.
      * repeat case_match; try done; by injection E1 as <- <-.
      * repeat case_match; try done; by injection E1 as <- <-.
      * repeat case_match; try done; by injection E1 as <- <-.
      * repeat case_match; try done; by injection E1 as <- <-.
Qed.

End system.
End theorems.

(** The program gives its orchestrator no table of instances, so the reload loop never runs: whatever
    instances the API creates, imports, enables or disables in the table, at any moment the runners are
    those of enabled instances of the configuration that was read at start-up. *)
Theorem table_instances_never_run {MR : MapRange} `{DR : Driver} uh hn us {I} {HI : Instances.InstanceStore I}
    {S E D} {HM : MetricStore S} {HE : Group.AlertEvaluator E} {HD : AlertDispatcher D}
    (w : Wiring) (d : Dial) evs (sh sh' : Shared S E D) (o' : Orchestrator.Orchestrator I) id r :
  handle_all uh hn us evs ((Start uh hn d (main_orchestrator w)).1, sh) = Some (o', sh') ->
  o_runners o' !! id = Some r ->
  exists inst, inst ∈ cfg_Instances (wi_cfg w) /\ disabled inst = false /\ inc_ID inst = id.
Proof.
  intros H Hr. destruct (Start_configured (I := I) uh hn d w) as (Hc & _ & Hre).
  by apply (run_configured uh hn us (cfg_Instances (wi_cfg w)) evs _ _ _ _ Hc Hre H id).
Qed.

(** A start-up that ends well took every step. *)
Lemma start_step_ok {A} fault taken st failure (k : result A) w : step fault taken st failure k = Ok w -> k = Ok w.
Proof. unfold step. destruct (negb taken); [done|]. by destruct (fault st). Qed.

Lemma wire_instances fault fl cfg w : wire fault fl cfg = Ok w -> cfg_Instances (wi_cfg w) = cfg_Instances cfg.
Proof.
  unfold wire. destruct (negb (String.eqb (stc_DSN (cfg_Storage cfg)) "")).
  - unfold persistent. intros H. repeat apply start_step_ok in H. by injection H as <-.
  - destruct (cfg_Instances cfg) eqn:E; intros [= <-]; exact E.
Qed.

Lemma resolve_instances url_Parse url_path fl desktop load cfg inst :
  synthesizeCLIInstance url_Parse url_path fl = Some inst ->
  resolveConfig url_Parse url_path fl desktop load = Ok cfg -> cfg_Instances cfg = [inst].
Proof.
  unfold resolveConfig. intros ->. destruct (_ && _); [done|].
  destruct (match desktop with Some _ => _ | None => _ end) as [path|]; [|done].
  destruct (load path); (destruct (parseLogLevel _); [done|]); by intros [= <-].
Qed.

Lemma cli_instance url_Parse url_path fl inst : synthesizeCLIInstance url_Parse url_path fl = Some inst ->
  inc_ID inst = "cli-target" /\ disabled inst = false /\ inc_Intervals inst = mkIntervalConfig 0 0 0.
Proof.
  unfold synthesizeCLIInstance. destruct (String.eqb _ ""); [done|].
  destruct (seedHostPort _ _) as [h p]. by intros [= <-].
Qed.

(** C32: The documented quick start (--target or --target-host, with or without a configuration file)
    always ends in a panic as soon as the connection to the target succeeds: the instance made from the
    flags has no collection intervals, the defaults of the configuration file are not applied to it, and
    the ticker of each of its three groups panics. *)
Theorem quick_start_panics {MR : MapRange} `{DR : Driver} uh hn {I} {HI : Instances.InstanceStore I}
    {S E D} {HM : MetricStore S} {HE : Group.AlertEvaluator E} {HD : AlertDispatcher D}
    url_Parse url_path fault fl desktop load cfg w inst (d : Dial) p v :
  synthesizeCLIInstance url_Parse url_path fl = Some inst ->
  resolveConfig url_Parse url_path fl desktop load = Ok cfg ->
  wire fault fl cfg = Ok w ->
  connect d 0 inst = Connected p v ->
  exists r, o_runners (Start uh hn d (main_orchestrator (I := I) w)).1 !! "cli-target" = Some r /\
    length (rn_groups r) = 3%nat /\
    forall g cycles (sh : Shared S E D), g ∈ rn_groups r -> run cycles g sh = None.
Proof.
  intros Hi Hc Hw Hconn. destruct (cli_instance _ _ _ _ Hi) as (Hid & Hen & Hint).
  pose proof (resolve_instances _ _ _ _ _ _ _ Hi Hc) as Hl. rewrite <- (wire_instances _ _ _ _ Hw) in Hl.
  destruct (Start_configured (I := I) uh hn d w) as (Hcf & _). rewrite Hl in Hcf.
  assert (Hr : exists r, o_runners (Start uh hn d (main_orchestrator (I := I) w)).1 !! "cli-target" = Some r).
  { unfold Start. cbn [main_orchestrator Orchestrator.New o_cfg]. rewrite Hl. cbn [foldl]. rewrite Hen.
    match goal with |- context [startRunner uh hn d inst ?o] =>
      pose proof (startRunner_lookup uh hn d inst o "cli-target") as Hlk end.
    rewrite Hid, decide_True in Hlk by done. cbn [main_orchestrator Orchestrator.New o_opened] in Hlk. rewrite Hconn in Hlk.
    destruct (decide _) as [He|_]; [by rewrite He in Hlk|]. eexists. exact Hlk. }
  destruct Hr as [r Hr]. exists r. split; [exact Hr|].
  destruct (Hcf _ _ Hr) as (i & [->|[]%elem_of_nil]%elem_of_cons & _ & _ & _ & Hg).
  rewrite Hint in Hg. split; [by rewrite <- (length_map g_interval), Hg|].
  intros g cycles sh Hin. unfold run.
  assert (Hz : g_interval g ∈ map g_interval (rn_groups r)) by (by apply list_elem_of_fmap_2).
  rewrite Hg in Hz. cbn in Hz. assert (g_interval g = 0) as -> by set_solver. done.
Qed.

(** Of two captures that open a pool for one instance at the same time the first keeps it: both get it,
    and the other pool is closed. *)
Lemma first_pool_kept id p q c : pp_pools c !! id = None ->
  (pool_end id (PcOpened p) c).2 = Ok p /\
  pool_end id (PcOpened q) (pool_end id (PcOpened p) c).1
    = (mkPoolCache (<[id := p]> (pp_pools c)) (pp_opened c) (pp_closed c ++ [q]), Ok p).
Proof. intros Hc. cbn [pool_end]. rewrite Hc. cbn. by rewrite lookup_insert_eq. Qed.

(** No instance is captured twice when the configuration and the table have each of theirs once. *)
Lemma captured_once {I} {HI : Instances.InstanceStore I} cfg (st : option I) :
  NoDup (map inc_ID (cfg_Instances cfg)) ->
  (forall t recs, st = Some t -> ist_List t = Ok recs -> NoDup (map ir_ID recs)) ->
  NoDup (pgss_ListInstanceIDs cfg st).
Proof.
  intros Hc Ht. unfold pgss_ListInstanceIDs.
  assert (Hsub : forall {A} (f : A -> string) p l, NoDup (map f l) -> NoDup (map f (List.filter p l))).
  { intros A f p l. induction l as [|x l IH]; [done|]. cbn. intros [Hx Hl]%NoDup_cons.
    destruct (p x); [|by apply IH]. cbn. apply NoDup_cons. split; [|by apply IH].
    intros Hin. apply Hx. apply list_elem_of_In, in_map_iff in Hin as (y & Hy & [Hi _]%filter_In).
    apply list_elem_of_In, in_map_iff. eauto. }
  destruct st as [t|]; [|by apply Hsub]. destruct (ist_List t) as [recs|e] eqn:El; [|by apply Hsub].
  apply NoDup_app. split_and!; [by apply Hsub| |by eapply Hsub, Ht].
  intros id Hid Hr. apply list_elem_of_In, in_map_iff in Hr as (rec & <- & [_ Hm]%filter_In).
  apply andb_true_iff in Hm as [_ Hm]. apply negb_true_iff in Hm.
  by rewrite (proj2 (mem_spec _ _)) in Hm.
Qed.

(** ** Order of shutdown *)

Lemma wire_workers fault fl cfg w : wire fault fl cfg = Ok w -> exists a b c,
  wi_workers w = when a WPlanRetention ++ when (wi_alerting w) WAlertCleanup ++ when (wi_alerting w) WDispatcher
                 ++ when b WBackground ++ when c WFeedback /\
  wi_deferred w = when b WBackground ++ when c WFeedback.
Proof.
  unfold wire. destruct (negb (String.eqb (stc_DSN (cfg_Storage cfg)) "")).
  - unfold persistent. intros H. repeat apply start_step_ok in H. injection H as <-.
    eexists _, _, _; split; reflexivity.
  - destruct (cfg_Instances cfg); intros [= <-]; by exists false, false, false.
Qed.

(** A server that is stopped shuts its HTTP side before the orchestrator, the orchestrator before the
    dispatcher, and all three before the storage is closed; the statement capturer, the background
    evaluator and the feedback worker, which use the storage, are stopped only after it. A desktop
    program never starts the orchestrator at all, so it collects nothing. *)
Theorem shutdown_order fault fl cfg w : wire fault fl cfg = Ok w ->
  (exists a b c post,
     main_run false w = a ++ Halt WHTTP :: b ++ Halt WOrchestrator :: c ++ CloseStore :: post /\
     (Launch WDispatcher ∈ main_run false w <-> Halt WDispatcher ∈ c) /\
     forall x, x ∈ [WCapturer; WBackground; WFeedback] ->
       (Launch x ∈ main_run false w <-> Halt x ∈ post)) /\
  Launch WOrchestrator ∉ main_run true w.
Proof.
  intros (pl & bg & fb & Hw & Hd)%wire_workers.
  unfold main_run, startServer. rewrite Hw, Hd.
  split.
  - exists (map Launch (wi_workers w) ++ when (wi_forecast w) (Launch WForecast)
            ++ [Launch WHTTP; Launch WOrchestrator] ++ when (capturing w) (Launch WCapturer) ++ [Wait]), [],
      (when (wi_alerting w) (Halt WDispatcher)),
      (when (capturing w) (Halt WCapturer) ++ map Halt (rev (wi_deferred w))).
    rewrite Hw, Hd.
    destruct pl, bg, fb, (wi_alerting w), (wi_forecast w), (capturing w);
      (split; [reflexivity|split; [vm_compute; set_solver|intros x Hx; vm_compute in Hx |- *; set_solver]]).
  - destruct pl, bg, fb, (wi_alerting w), (wi_forecast w); vm_compute; set_solver.
Qed.

(** ** Witnesses: a configured instance with an enabled one in the table, and the quick start *)

#[local] Existing Instance canonical_MapRange.
#[local] Existing Instance insertion_SliceSort.
#[local] Existing Instance cell_driver.

Definition demo_wiring : Wiring := bare demo_config Live AuthDisabled.

(** The table has db2, enabled; a reload is requested, and only the configured db1 runs. *)
Lemma table_instances_never_run_witness :
  exists o' sh' r,
    handle_all (I := PGInstanceStore) (fun _ => None) (Ok "monitor") no_url demo_events
      ((Start (fun _ => None) (Ok "monitor") demo_dial (main_orchestrator demo_wiring)).1, demo_shared)
    = Some (o', sh') /\
    o_runners o' !! "db1" = Some r /\
    exists inst, inst ∈ cfg_Instances demo_config /\ disabled inst = false /\ inc_ID inst = "db1".
Proof.
  assert (Hb : match handle_all (I := PGInstanceStore) (fun _ => None) (Ok "monitor") no_url demo_events
      ((Start (fun _ => None) (Ok "monitor") demo_dial (main_orchestrator demo_wiring)).1, demo_shared) with
      | Some (o', _) => match o_runners o' !! "db1" with Some _ => true | None => false end
      | None => false end = true) by (vm_compute; reflexivity).
  destruct (handle_all (I := PGInstanceStore) (fun _ => None) (Ok "monitor") no_url demo_events
      ((Start (fun _ => None) (Ok "monitor") demo_dial (main_orchestrator demo_wiring)).1, demo_shared))
    as [[o' sh']|] eqn:Eh; [|discriminate].
  destruct (o_runners o' !! "db1") as [r|] eqn:Er; [|discriminate].
  exists o', sh', r. split; [reflexivity|split; [exact Er|]].
  exact (table_instances_never_run (fun _ => None) (Ok "monitor") no_url demo_wiring demo_dial demo_events
    demo_shared sh' o' "db1" r Eh Er).
Defined.

Definition quick_flags : Flags := mkFlags "" "db.example" 5432 "monitor" "p@ss" "" "" false "".

(** net/url on the one target of the example. *)
Definition quick_url (s : string) : result URL :=
  Ok (mkURL "postgres" None "db.example:5432" "db.example" "5432" "").

Definition no_file (_ : string) : result Config := Err "open : no such file or directory".

Definition quick_config : Config :=
  match resolveConfig quick_url (fun _ => "/") quick_flags None no_file with Ok c => c | Err _ => zero_config end.

Example quick_dsn : option_map inc_DSN (synthesizeCLIInstance quick_url (fun _ => "/") quick_flags)
  = Some "postgres://monitor:p@ss@db.example:5432/?sslmode=disable".
Proof. vm_compute. reflexivity. Qed.

Lemma quick_start_panics_witness :
  exists r, o_runners (Start (I := PGInstanceStore) (fun _ => None) (Ok "monitor") demo_dial
                         (main_orchestrator (bare (live_config quick_config) Live AuthDisabled))).1
            !! "cli-target" = Some r /\
    length (rn_groups r) = 3%nat /\
    forall g cycles, g ∈ rn_groups r -> run cycles g demo_shared = None.
Proof.
  destruct (synthesizeCLIInstance quick_url (fun _ => "/") quick_flags) as [inst|] eqn:Ei; [|discriminate].
  assert (Hc : match connect demo_dial 0 inst with Connected _ _ => true | _ => false end = true).
  { revert Ei. vm_compute. intros [= <-]. reflexivity. }
  destruct (connect demo_dial 0 inst) as [e|p e|p v] eqn:Ec; [discriminate..|].
  assert (Hw : wire (fun _ => None) quick_flags quick_config = Ok (bare (live_config quick_config) Live AuthDisabled))
    by (vm_compute; reflexivity).
  assert (Hr : resolveConfig quick_url (fun _ => "/") quick_flags None no_file = Ok quick_config)
    by (vm_compute; reflexivity).
  destruct (quick_start_panics (S := ()) (E := ()) (D := ()) (I := PGInstanceStore) (fun _ => None)
    (Ok "monitor") quick_url (fun _ => "/") (fun _ => None) quick_flags None no_file quick_config _ inst demo_dial p v
    Ei Hr Hw Ec) as (r & H1 & H2 & H3).
  exists r. split; [exact H1|split; [exact H2|]]. intros g cycles Hg. exact (H3 g cycles demo_shared Hg).
Defined.

(** A server with storage, alerting, background evaluation, snapshots and playbooks. *)
Definition stored_config : Config :=
  mkConfig (cfg_Server zero_config) (mkStorageConfig "postgres://store/pgpulse" false 0) (cfg_Auth zero_config)
    (mkAlertingConfig true 0 0 [] 0 0 "" None) (cfg_PlanCapture zero_config) (cfg_SettingsSnapshot zero_config)
    (mkStatementSnapshotsConfig true 0 0 false 0) (cfg_ML zero_config) (mkRemediationConfig true 0 0 f0 f0)
    (cfg_RCA zero_config) (mkPlaybooksConfig true 0 0 0 0 0) (cfg_MaintenanceForecast zero_config)
    (cfg_OSMetrics zero_config) [].

Definition stored_wiring : Wiring :=
  match wire (fun _ => None) quick_flags stored_config with Ok w => w | Err _ => demo_wiring end.

Example stored_run : main_run false stored_wiring
  = [ Launch WAlertCleanup; Launch WDispatcher; Launch WBackground; Launch WFeedback; Launch WHTTP;
      Launch WOrchestrator; Launch WCapturer; Wait; Halt WHTTP; Halt WOrchestrator; Halt WDispatcher;
      CloseStore; Halt WCapturer; Halt WFeedback; Halt WBackground ].
Proof. vm_compute. reflexivity. Qed.

Lemma shutdown_order_witness :
  (exists a b c post,
     main_run false stored_wiring = a ++ Halt WHTTP :: b ++ Halt WOrchestrator :: c ++ CloseStore :: post /\
     (Launch WDispatcher ∈ main_run false stored_wiring <-> Halt WDispatcher ∈ c) /\
     forall x, x ∈ [WCapturer; WBackground; WFeedback] ->
       (Launch x ∈ main_run false stored_wiring <-> Halt x ∈ post)) /\
  Launch WOrchestrator ∉ main_run true stored_wiring.
Proof.
  refine (shutdown_order (fun _ => None) quick_flags stored_config stored_wiring _).
  vm_compute. reflexivity.
Defined.
