(* ===== verification/Conformance.v ===== *)
(** * The conformance tool

    Models scripts/conformance: the recorder that attributes statements to collectors, the run of every
    collector against one server with its verdict, and the report: summary, groups of failures and the
    Markdown page. What the driver's tracer saw during a run, with the texts of the arguments, and how
    long the run took are given; so is what each attempt to connect answers. *)
From stdpp Require Import pretty.
From S2P Require Import Prelude Float64 Metric GoText SqlConn Collector OsCollectors CollectorsMedium Group.
From S2P Require Import DatabaseCollector Statements StatementStore Json.

Local Open Scope Z_scope.

(** ** harness.go *)

Definition StatusOK : string := "ok".
Definition StatusWarn : string := "warn".
Definition StatusFail : string := "fail".

Record Statement := mkStatement {
  sm_SQL : string;
  sm_Args : list string;
  sm_Rows : Z;
  sm_Error : string
}.

Record CollectorResult := mkCollectorResult {
  cl_Name : string;
  cl_Path : string;
  cl_Status : string;
  cl_Error : string;
  cl_Points : Z;
  cl_Statements : list Statement;
  cl_DurationMS : Z
}.

Record ServerResult := mkServerResult {
  sr_Label : string;
  sr_ServerVersion : string;
  sr_ServerVersionNum : Z;
  sr_Detected : string;
  sr_IsRecovery : bool;
  sr_ConnectError : string;
  sr_Collectors : list CollectorResult
}.

(** *** The recorder *)

Record recorder := mkRecorder { rc_current : string; rc_stmts : list Statement }.

Definition begin (name : string) (r : recorder) : recorder := mkRecorder name [].
Definition end_ (r : recorder) : recorder * list Statement := (mkRecorder "" [], rc_stmts r).

Definition ellipsis : string := bytes [226; 128; 166]%N.

(** Cutting is by bytes. *)
Definition truncate (s : string) (n : nat) : string :=
  if (String.length s <=? n)%nat then s else Stdlib.Strings.String.substring 0 n s +:+ ellipsis.

Definition normalizeSQL (s : string) : string := Join (Fields s) " ".

(** One statement as the tracer sees it: its text, the printed arguments, the rows and the error. *)
Record traced := mkTraced { tc_sql : string; tc_args : list string; tc_rows : Z; tc_err : option error }.

(** TraceQueryStart leaves text and arguments in the context, TraceQueryEnd records them. *)
Definition TraceQuery (t : traced) (r : recorder) : recorder :=
  if String.eqb (rc_current r) "" then r
  else mkRecorder (rc_current r)
         (rc_stmts r ++ [mkStatement (normalizeSQL (tc_sql t)) (map (fun a => truncate a 80) (tc_args t))
                           (tc_rows t) (match tc_err t with Some e => e | None => "" end)]).

Definition recorded (name : string) (ts : list traced) : list Statement :=
  (end_ (foldl (fun r t => TraceQuery t r) (begin name (mkRecorder "" [])) ts)).2.

(** *** Connecting: a second between attempts, until the deadline has passed *)

Fixpoint connect_loop {A} (attempt : nat -> result A) (clock : nat -> Time) (deadline : Time) (fuel i : nat)
    : option (result A) :=
  match fuel with
  | O => None
  | S fuel' =>
      match attempt i with
      | Ok conn => Some (Ok conn)
      | Err e => if time_After (clock i) deadline then Some (Err e)
                 else connect_loop attempt clock deadline fuel' (S i)
      end
  end.

(** What connecting meets: the outcome of reading the address, the time of the start, and for each attempt
    its outcome and the time after it. *)
Record Dial (A : Type) := mkDial {
  dl_parse : option error;
  dl_start : Time;
  dl_attempt : nat -> result A;
  dl_clock : nat -> Time
}.
Arguments mkDial {_} _ _ _ _.
Arguments dl_parse {_} _.
Arguments dl_start {_} _.
Arguments dl_attempt {_} _ _.
Arguments dl_clock {_} _ _.

(** As many attempts as there are seconds to wait, and two more. *)
Definition connect_fuel (wait : Duration) : nat := S (S (Z.to_nat (wait / Second))).

Definition connect {A} (wait : Duration) (d : Dial A) : option (result A) :=
  match dl_parse d with
  | Some e => Some (Err ("parse dsn: " +:+ e))
  | None => connect_loop (dl_attempt d) (dl_clock d) (time_Add (dl_start d) wait) (connect_fuel wait) 0
  end.

(** The time goes on between attempts, by a second at least. *)
Record paced {A} (d : Dial A) : Prop := {
  paced_start : dl_start d <= dl_clock d 0;
  paced_next : forall i, dl_clock d i + Second <= dl_clock d (S i)
}.

(** *** The collectors *)

Definition instanceCollectors (id : string) (v : PGVersion) : list collector :=
  let every10s := newBase id v (10 * Second) in
  let every60s := newBase id v (60 * Second) in
  let every300s := newBase id v (300 * Second) in
  [ CConnections every10s; CCache every60s; CWaitEvents every10s; CLockTree every10s; CLongTransactions every10s;
    CReplicationStatus every60s; CReplicationLag every10s; CReplicationSlots every60s;
    CStatementsConfig every60s; CStatementsTop every60s 0; CCheckpoint (NewCheckpointCollector id v);
    CVacuumProgress every10s; CClusterProgress every10s; CAnalyzeProgress every10s;
    CCreateIndexProgress every10s; CBasebackupProgress every10s; CCopyProgress every10s;
    COSSQL (NewOSSQLCollector id v);
    CServerInfo every60s; CDatabaseSizes every300s; CSettings every300s; CExtensions every300s;
    CTransactions every60s; CIOStats every60s ].

(** The method Name of each collector. *)
Definition collectorName (c : collector) : string :=
  match c with
  | CConnections _ => "connections" | CCache _ => "cache" | CWaitEvents _ => "wait_events"
  | CLockTree _ => "lock_tree" | CLongTransactions _ => "long_transactions" | COS _ => "os"
  | CReplicationStatus _ => "replication_status" | CReplicationLag _ => "replication_lag"
  | CReplicationSlots _ => "replication_slots" | CStatementsConfig _ => "statements_config"
  | CStatementsTop _ _ => "statements_top" | CCheckpoint _ => "checkpoint" | CVacuumProgress _ => "progress_vacuum"
  | CClusterProgress _ => "progress_cluster" | CAnalyzeProgress _ => "progress_analyze"
  | CCreateIndexProgress _ => "progress_create_index" | CBasebackupProgress _ => "progress_basebackup"
  | CCopyProgress _ => "progress_copy" | COSSQL _ => "os_sql" | CCluster _ => "cluster"
  | CServerInfo _ => "server_info" | CDatabaseSizes _ => "database_sizes" | CSettings _ => "settings"
  | CExtensions _ => "extensions" | CTransactions _ => "transactions" | CIOStats _ => "io_stats"
  end.

Definition standbyPathCollectors (name : string) : bool := String.eqb name "replication_status".

Definition pathName (ic : InstanceContext) : string := if ic_IsRecovery ic then "standby" else "primary".

(** The result of a run: [points] and [err] are what Collect returned. *)
Definition finish (name path : string) (points : Z) (err : option error) (stmts : list Statement) (ms : Z)
    : CollectorResult :=
  match err with
  | Some e => mkCollectorResult name path StatusFail e points stmts ms
  | None => mkCollectorResult name path
              (if existsb (fun s => negb (String.eqb (sm_Error s) "")) stmts then StatusWarn else StatusOK)
              "" points stmts ms
  end.

Definition not_run (name path e : string) : CollectorResult := mkCollectorResult name path StatusFail e 0 [] 0.

(** The store that discards what is captured. *)
Definition nopSnapshotStore : SnapshotStore unit := {|
  st_WriteSnapshot := fun s _ _ => (s, Ok 1);
  st_GetSnapshot := fun _ _ => Ok None;
  st_GetSnapshotEntries := fun _ _ _ _ => Ok ([], 0);
  st_ListSnapshots := fun _ _ _ => Ok ([], 0);
  st_GetLatestSnapshots := fun _ _ _ => Ok [];
  st_GetEntriesForQuery := fun _ _ _ _ _ => Ok ([], []);
  st_CleanOld := fun s _ => (s, None)
|}.

Record Target := mkTarget { tg_Label : string; tg_DSN : string; tg_DBDSN : string }.

Section harness.
Context {MR : MapRange} `{DR : Driver}.

(** What one server answers. A run is named by the collector and its path; [sw_setup] is the first
    connection, [sw_dial] the one of a run, [sw_pool] the pool of the capture with what its Acquire
    answers. *)
Record ServerWorld := mkServerWorld {
  sw_setup : Dial Conn;
  sw_dial : string -> string -> Dial Conn;
  sw_pool : result (result Conn);
  sw_trace : string -> string -> list traced;
  sw_elapsed : string -> string -> Z;
  sw_now : Time
}.

Context (sw : ServerWorld) (wait : Duration) (t : Target).

(** [connect_returns] below: the default is not reached. *)
Definition sw_connect (name path : string) : result Conn := default (Err "") (connect wait (sw_dial sw name path)).

Definition cycle_of (conn : Conn) : Group.Cycle :=
  Group.mkCycle _ (sw_now sw) (Ok conn) (Err "") (Err "") (mkAnswers (Ok None) (Ok []) (Ok ∅)).

Definition runOne (c : collector) (ic : InstanceContext) (path : string) : collector * CollectorResult :=
  let name := collectorName c in
  match sw_connect name path with
  | Err e => (c, not_run name path ("connect: " +:+ e))
  | Ok conn =>
      let (c', r) := Collect (cycle_of conn) conn ic c in
      let stmts := recorded name (sw_trace sw name path) in
      (c', match r with
           | Ok points => finish name path (len points) None stmts (sw_elapsed sw name path)
           | Err e => finish name path 0 (Some e) stmts (sw_elapsed sw name path)
           end)
  end.

Definition runDatabase (ic : InstanceContext) : CollectorResult :=
  let name := "database" in let path := pathName ic in
  match sw_connect name path with
  | Err e => not_run name path ("connect: " +:+ e)
  | Ok conn =>
      let (points, err) := CollectDB (sw_now sw) conn "conformance" in
      finish name path (len points) err (recorded name (sw_trace sw name path)) (sw_elapsed sw name path)
  end.

Definition runStatementsCapture : CollectorResult :=
  let name := "statements_snapshot" in let path := "primary" in
  match sw_pool sw with
  | Err e => not_run name path e
  | Ok acquired =>
      let stmts := recorded name (sw_trace sw name path) in
      match (CaptureInstance (ST := nopSnapshotStore) (fun _ => Ok acquired) (sw_now sw) tt "conformance").2 with
      | Ok snap => finish name path (sn_TotalStatements snap) None stmts (sw_elapsed sw name path)
      | Err e => finish name path 0 (Some e) stmts (sw_elapsed sw name path)
      end
  end.

(** The runs of one collector: once, and once more on the path of a standby. *)
Definition runs (ic : InstanceContext) (c : collector) : list CollectorResult :=
  let (c', r) := runOne c ic (pathName ic) in
  r :: (if standbyPathCollectors (collectorName c) && negb (ic_IsRecovery ic)
        then [(runOne c' (mkIC true) "standby").2] else []).

Definition run : ServerResult :=
  let label := tg_Label t in
  match default (Err "") (connect wait (sw_setup sw)) with
  | Err e => mkServerResult label "" 0 "" false e []
  | Ok conn =>
      match Detect conn with
      | Err e => mkServerResult label "" 0 "" false e []
      | Ok v =>
          let res := mkServerResult label (v_Full v) (v_Num v) (pretty (v_Major v) +:+ "." +:+ pretty (v_Minor v)) in
          match query_row conn "SELECT pg_is_in_recovery()" [] boolean with
          | Err e => res false ("pg_is_in_recovery: " +:+ e) []
          | Ok rec =>
              let ic := mkIC rec in
              res rec "" (concat (map (runs ic) (instanceCollectors label v))
                          ++ [runDatabase ic; runStatementsCapture])
          end
      end
  end.

End harness.

(** ** report.go *)

Record Report := mkReport {
  rp_GeneratedAt : Time;
  rp_Route : string;
  rp_Commit : string;
  rp_Servers : list ServerResult
}.

Record Summary := mkSummary { su_OK : Z; su_Warn : Z; su_Fail : Z; su_Unreachable : Z }.

Definition count_result (s : Summary) (c : CollectorResult) : Summary :=
  if String.eqb (cl_Status c) StatusOK then mkSummary (su_OK s + 1) (su_Warn s) (su_Fail s) (su_Unreachable s)
  else if String.eqb (cl_Status c) StatusWarn then mkSummary (su_OK s) (su_Warn s + 1) (su_Fail s) (su_Unreachable s)
  else mkSummary (su_OK s) (su_Warn s) (su_Fail s + 1) (su_Unreachable s).

Definition Summarize (rep : Report) : Summary :=
  foldl (fun s srv =>
           if negb (String.eqb (sr_ConnectError srv) "")
           then mkSummary (su_OK s) (su_Warn s) (su_Fail s) (su_Unreachable s + 1)
           else foldl count_result s (sr_Collectors srv))
    (mkSummary 0 0 0 0) (rp_Servers rep).

Definition rowKey (c : CollectorResult) : string :=
  if String.eqb (cl_Path c) "standby" then cl_Name c +:+ " (standby path)" else cl_Name c.

Definition failed (s : Statement) : bool := negb (String.eqb (sm_Error s) "").

Definition failedCount (c : CollectorResult) : Z := len (filter (fun s => failed s = true) (cl_Statements c)).

Definition cell (c : CollectorResult) : string :=
  let n := len (cl_Statements c) in
  if String.eqb (cl_Status c) StatusOK && (n =? 0) then "➖ no SQL"
  else if String.eqb (cl_Status c) StatusOK then "✅ ok (" +:+ pretty n +:+ ")"
  else if String.eqb (cl_Status c) StatusWarn then "⚠️ warn (" +:+ pretty (failedCount c) +:+ "/" +:+ pretty n +:+ ")"
  else "❌ fail".

Definition bar : Ascii.ascii := Eval compute in Ascii.ascii_of_N 124.
Definition back_slash : Ascii.ascii := Eval compute in Ascii.ascii_of_N 92.

(** [strings.ReplaceAll(s, "|", `\|`)]. *)
Fixpoint mdEscape (s : string) : string :=
  match s with
  | EmptyString => EmptyString
  | String c s' => if Ascii.eqb c bar then String back_slash (String bar (mdEscape s')) else String c (mdEscape s')
  end.

(** [[0-9A-Z]{5}] at the start of a text. *)
Definition code_char (c : Ascii.ascii) : bool := byte_in 48 57 c || byte_in 65 90 c.

Definition five_chars (s : string) : option string :=
  match s with
  | String a (String b (String c (String d (String e _)))) =>
      if forallb code_char [a; b; c; d; e] then Some (String a (String b (String c (String d (String e EmptyString)))))
      else None
  | _ => None
  end.

(** The leftmost match of sqlstateRe. *)
Fixpoint FindSQLState (s : string) : option string :=
  match (match strip_prefix "SQLSTATE " s with Some r => five_chars r | None => None end) with
  | Some code => Some code
  | None => match s with EmptyString => None | String _ s' => FindSQLState s' end
  end.

Definition category (errText : string) : string :=
  match FindSQLState errText with
  | None => "other"
  | Some code =>
      if String.eqb code "42501" then "privilege"
      else if mem code ["42703"; "42P01"; "42883"; "42704"] then "catalog / version"
      else "SQLSTATE " +:+ code
  end.

(** Go's division truncates. *)
Definition expectedVersion (num : Z) : string :=
  pretty (Z.quot num 10000) +:+ "." +:+ pretty (Z.rem num 10000).

(** *** Groups of failures *)

Record failureGroup := mkGroup {
  fg_collector : string;
  fg_sql : string;
  fg_errText : string;
  fg_args : gset string;
  fg_labels : list string
}.

Definition nul_sep : string := String nul EmptyString.

Definition group_key (collector sql errText : string) : string :=
  collector +:+ nul_sep +:+ sql +:+ nul_sep +:+ errText.

(** The groups in the order they were met, and the index from key to group. *)
Record groupState := mkGroups { gs_groups : list failureGroup; gs_idx : gmap string nat }.

Definition touch (label : string) (args : list string) (g : failureGroup) : failureGroup :=
  mkGroup (fg_collector g) (fg_sql g) (fg_errText g)
    (match args with [] => fg_args g | _ => {[Join args ", "]} ∪ fg_args g end)
    (if bool_decide (last (fg_labels g) = Some label) then fg_labels g else fg_labels g ++ [label]).

Definition add (label : string) (c : CollectorResult) (sql errText : string) (args : list string) (st : groupState)
    : groupState :=
  let key := group_key (rowKey c) sql errText in
  match gs_idx st !! key with
  | Some i => mkGroups (alter (touch label args) i (gs_groups st)) (gs_idx st)
  | None => mkGroups (gs_groups st ++ [touch label args (mkGroup (rowKey c) sql errText ∅ [])])
              (<[key := length (gs_groups st)]> (gs_idx st))
  end.

Definition add_result (label : string) (st : groupState) (c : CollectorResult) : groupState :=
  if String.eqb (cl_Status c) StatusOK then st
  else
    let bad := filter (fun s => failed s = true) (cl_Statements c) in
    let st' := foldl (fun st s => add label c (sm_SQL s) (sm_Error s) (sm_Args s) st) st bad in
    if (len bad =? 0) && negb (String.eqb (cl_Error c) "") then add label c "" (cl_Error c) [] st' else st'.

Definition failure_groups (rep : Report) : list failureGroup :=
  gs_groups (foldl (fun st s => foldl (add_result (sr_Label s)) st (sr_Collectors s)) (mkGroups [] ∅) (rp_Servers rep)).

Definition group_less (a b : failureGroup) : bool :=
  let ci := category (fg_errText a) in let cj := category (fg_errText b) in
  if negb (String.eqb ci cj) then string_ltb ci cj else string_ltb (fg_collector a) (fg_collector b).

(** SliceStable orders as the insertion sort does. *)
Definition sorted_groups (rep : Report) : list failureGroup := insertion_sort group_less (failure_groups rep).

(** *** The Markdown page *)

(** The proleptic Gregorian date of a day counted from 1970-01-01. *)
Definition civil (days : Z) : Z * Z * Z :=
  let z := days + 719468 in
  let era := z / 146097 in
  let doe := z mod 146097 in
  let yoe := (doe - doe / 1460 + doe / 36524 - doe / 146096) / 365 in
  let doy := doe - (365 * yoe + yoe / 4 - yoe / 100) in
  let mp := (5 * doy + 2) / 153 in
  let d := doy - (153 * mp + 2) / 5 + 1 in
  let m := if mp <? 10 then mp + 3 else mp - 9 in
  (yoe + era * 400 + (if m <=? 2 then 1 else 0), m, d).

Definition two_digits (z : Z) : string := (if z <? 10 then "0" else "") +:+ pretty z.

(** The years 0 to 9999. *)
Definition four_digits (z : Z) : string :=
  (if z <? 10 then "000" else if z <? 100 then "00" else if z <? 1000 then "0" else "") +:+ pretty z.

(** Format with the layout 2006-01-02 15:04 UTC, for a time in UTC. *)
Definition format_minute (t : Time) : string :=
  let secs := t / Second in
  let '(y, m, d) := civil (secs / 86400) in
  let rest := secs mod 86400 in
  four_digits y +:+ "-" +:+ two_digits m +:+ "-" +:+ two_digits d +:+ " " +:+ two_digits (rest / 3600) +:+ ":"
  +:+ two_digits (rest / 60 mod 60) +:+ " UTC".

Definition page (l : list string) : string := foldr (fun s r => s +:+ r) "" l.

Definition nl2 : string := newline +:+ newline.

Definition sort_Strings (l : list string) : list string := insertion_sort string_ltb l.

Definition intro (rep : Report) : list string :=
  ["# PostgreSQL version conformance

> Generated by `scripts/conformance/run.sh` — do not edit by hand.  
"; "> Generated: "; format_minute (rp_GeneratedAt rep)]
  ++ (if negb (String.eqb (rp_Commit rep) "") then [" · Commit: `"; rp_Commit rep; "`"] else [])
  ++ ["  "; newline; "> Provisioning route: "; rp_Route rep; nl2]
  ++ ["Every collector is constructed exactly as `orchestrator.buildCollectors` does, handed the
`version.PGVersion` returned by `version.Detect` for that server, and run once with `Collect`
(per-database collector: `CollectDB` against a seeded `conformance` database;
`statements_snapshot` is `statements.SnapshotCapturer.CaptureInstance`, the other `version.Gate` user).
A pgx query tracer records every statement the collector issues, so the SQL executed is the variant
the collector's own gating selected — the harness does not re-implement selection.
The connection role is `pgpulse_monitor`, granted `pg_monitor` only (never superuser).

Legend: ✅ ok (N) — Collect succeeded and all N statements succeeded · ➖ no SQL — the collector
issues no SQL on this version (version check skipped it) · ⚠️ warn (E/N) — Collect returned no
error but E of N statements failed and the collector swallowed the error · ❌ fail — Collect
returned an error. *standby path* rows re-run the collector with `IsRecovery=true` against the
primary so its replica-only SQL is executed too.

Re-generate: `scripts/conformance/run.sh` (see `scripts/conformance/README.md`).

"].

(** The text of the fourth column, and whether the versions differ. *)
Definition mismatch (s : ServerResult) : bool :=
  String.eqb (sr_ConnectError s) "" && negb (String.eqb (sr_Detected s) (expectedVersion (sr_ServerVersionNum s))).

Definition server_row (s : ServerResult) : list string :=
  let exec := if negb (String.eqb (sr_ConnectError s) "") then "**NO** — " +:+ mdEscape (sr_ConnectError s) else "yes" in
  let det := if mismatch s then sr_Detected s +:+ " (expected " +:+ expectedVersion (sr_ServerVersionNum s) +:+ ")"
             else sr_Detected s in
  ["| "; sr_Label s; " | "; mdEscape (sr_ServerVersion s); " | "; pretty (sr_ServerVersionNum s); " | "; det; " | ";
   exec; " |"; newline].

Definition servers_table (rep : Report) : list string :=
  ["## Servers

| Label | server_version | server_version_num | `version.Detect` → `PGVersion.String()` | Executed |
|---|---|---|---|---|
"] ++ concat (map server_row (rp_Servers rep)) ++ [newline]
  ++ (if existsb mismatch (rp_Servers rep) then
        ["**Note:** `version.Detect` computes `Minor` as `num % 10000 / 100`, the pre-10 encoding
(`MMmmpp`). For PostgreSQL ≥ 10 `server_version_num` is `MMmmmm`, so `Minor` is always 0.
No current gate depends on the minor version (all ranges use `MinMinor: 0` / `MaxMinor: 99`),
so SQL selection is unaffected today. Current behaviour is pinned by `TestDetectLive` in `internal/version`.

"] else []).

(** The rows of the matrix in order of their keys, each once. *)
Definition all_results (rep : Report) : list (string * CollectorResult) :=
  concat (map (fun s => map (fun c => (sr_Label s, c)) (sr_Collectors s)) (rp_Servers rep)).

Definition row_order (rep : Report) : list string :=
  sort_Strings (dedup_key (fun k => k) (map (fun lc => rowKey lc.2) (all_results rep))).

Definition Cells : Type := gmap string (gmap string string).

Definition set_cell (cells : Cells) (lc : string * CollectorResult) : Cells :=
  let k := rowKey lc.2 in <[k := <[lc.1 := cell lc.2]> (default ∅ (cells !! k))]> cells.

Definition matrix_cells (rep : Report) : Cells := foldl set_cell ∅ (all_results rep).

Definition cell_at (cells : Cells) (k label : string) : string :=
  default "not executed" (default ∅ (cells !! k) !! label).

Definition header_cells (rep : Report) : list string :=
  concat (map (fun s => [" "; sr_Label s; " |"]) (rp_Servers rep)).
Definition rule_cells (rep : Report) : list string := map (fun _ => "---|") (rp_Servers rep).

Definition matrix (rep : Report) : list string :=
  ["## Matrix"; nl2; "| Collector |"] ++ header_cells rep ++ [newline; "|---|"] ++ rule_cells rep ++ [newline]
  ++ concat (map (fun k => ["| `"; k; "` |"]
       ++ concat (map (fun s => [" "; cell_at (matrix_cells rep) k (sr_Label s); " |"]) (rp_Servers rep))
       ++ [newline]) (row_order rep))
  ++ (let sum := Summarize rep in
      [newline; "Totals: "; pretty (su_OK sum); " ok · "; pretty (su_Warn sum); " warn · "; pretty (su_Fail sum);
       " fail · "; pretty (su_Unreachable sum); " server(s) not executed."; nl2]).

Definition failure_row (i : nat) (g : failureGroup) : list string :=
  ["| F"; pretty (S i); " | `"; fg_collector g; "` | "; category (fg_errText g); " | "; Join (fg_labels g) ", ";
   " | `"; mdEscape (fg_errText g); "` |"; newline].

Definition failure_text (i : nat) (g : failureGroup) : list string :=
  ["### F"; pretty (S i); " · `"; fg_collector g; "` · "; Join (fg_labels g) ", "; nl2]
  ++ (if negb (String.eqb (fg_sql g) "")
      then ["```sql"; newline; truncate (fg_sql g) 1200; newline; "```"; nl2] else [])
  ++ (if decide (fg_args g = ∅) then []
      else ["Arguments seen: "; Join (sort_Strings (map (fun a => "`" +:+ a +:+ "`") (elements (fg_args g)))) ", "; nl2])
  ++ ["```"; newline; fg_errText g; newline; "```"; nl2].

Definition failures (rep : Report) : list string :=
  let groups := sorted_groups rep in
  ["## Failures"; nl2]
  ++ match groups with
     | [] => ["None."; nl2]
     | _ =>
         ["Distinct failing statements. *Category* is derived from SQLSTATE: `catalog / version` = the
selected SQL references a column/relation/function that does not exist on that version;
`privilege` = the statement needs more than `pg_monitor`.

| # | Collector | Category | Versions | Error |
|---|---|---|---|---|
"] ++ concat (imap failure_row groups) ++ [newline] ++ concat (imap failure_text groups)
         ++ ["### Collect() errors (verbatim)

| Server | Collector | Error |
|---|---|---|
"] ++ concat (map (fun lc => if negb (String.eqb (cl_Error lc.2) "")
                             then ["| "; lc.1; " | `"; rowKey lc.2; "` | `"; mdEscape (cl_Error lc.2); "` |"; newline]
                             else []) (all_results rep))
         ++ [newline]
     end.

(** The distinct statements of a row with their positions, and for each label the text at a position. *)
Record detailState := mkDetail {
  de_sqls : list string;
  de_idx : gmap string nat;
  de_res : gmap string (gmap nat string)
}.

Definition detail_statement (label : string) (st : detailState) (s : Statement) : detailState :=
  let '(sqls, idx, i) := match de_idx st !! sm_SQL s with
                         | Some i => (de_sqls st, de_idx st, i)
                         | None => let i := length (de_sqls st) in
                                   (de_sqls st ++ [sm_SQL s], <[sm_SQL s := i]> (de_idx st), i)
                         end in
  let row := default ∅ (de_res st !! label) in
  let v := if failed s then "ERR" else pretty (sm_Rows s) in
  let v' := match row !! i with Some prev => prev +:+ ", " +:+ v | None => v end in
  mkDetail sqls idx (<[label := <[i := v']> row]> (de_res st)).

Definition detail_result (k : string) (st : detailState) (lc : string * CollectorResult) : detailState :=
  if negb (String.eqb (rowKey lc.2) k) then st
  else foldl (detail_statement lc.1) (mkDetail (de_sqls st) (de_idx st) (<[lc.1 := ∅]> (de_res st)))
         (cl_Statements lc.2).

Definition detail_of (rep : Report) (k : string) : detailState :=
  foldl (detail_result k) (mkDetail [] ∅ ∅) (all_results rep).

Definition detail_row (rep : Report) (st : detailState) (i : nat) (q : string) : list string :=
  ["| "; pretty (S i); " | `"; mdEscape (truncate q 160); "` |"]
  ++ concat (map (fun s => [" "; default "—" (default ∅ (de_res st !! sr_Label s) !! i); " |"]) (rp_Servers rep))
  ++ [newline].

Definition detail_section (rep : Report) (k : string) : list string :=
  let st := detail_of rep k in
  ["<details><summary><code>"; k; "</code> — "; pretty (len (de_sqls st)); " distinct statement(s)</summary>"; nl2]
  ++ (if len (de_sqls st) =? 0 then ["No SQL issued on any server."; nl2; "</details>"; nl2]
      else ["| # | Statement |"] ++ header_cells rep ++ [newline; "|---|---|"] ++ rule_cells rep ++ [newline]
           ++ concat (imap (detail_row rep st) (de_sqls st)) ++ [newline; "</details>"; nl2]).

Definition statement_detail (rep : Report) : list string :=
  ["## Statement detail

Rows returned by each distinct traced statement, per server. `ERR` = the statement failed;
`—` = not issued on that server (a different gate variant was selected, or the code path was
skipped). Statement text is truncated; full text is in `results.json`.

"] ++ concat (map (detail_section rep) (row_order rep)).

Definition RenderMarkdown (rep : Report) : string :=
  page (intro rep ++ servers_table rep ++ matrix rep ++ failures rep ++ statement_detail rep).

(** ** main.go *)

(** *** The report as JSON: empty fields with omitempty are left out, an empty list is the nil slice *)

Definition opt_field (key : string) (s : string) : list (string * json) :=
  if String.eqb s "" then [] else [(key, JStr s)].

Definition json_list {A} (f : A -> json) (l : list A) : json :=
  match l with [] => JNull | _ => JArr (map f l) end.

Definition statement_json (s : Statement) : json :=
  JObj ([("sql", JStr (sm_SQL s))]
        ++ (match sm_Args s with [] => [] | l => [("args", JArr (map JStr l))] end)
        ++ [("rows", JInt (sm_Rows s))] ++ opt_field "error" (sm_Error s)).

Definition collector_json (c : CollectorResult) : json :=
  JObj ([("name", JStr (cl_Name c)); ("path", JStr (cl_Path c)); ("status", JStr (cl_Status c))]
        ++ opt_field "error" (cl_Error c)
        ++ [("points", JInt (cl_Points c)); ("statements", json_list statement_json (cl_Statements c));
            ("duration_ms", JInt (cl_DurationMS c))]).

Definition server_json (s : ServerResult) : json :=
  JObj ([("label", JStr (sr_Label s)); ("server_version", JStr (sr_ServerVersion s));
         ("server_version_num", JInt (sr_ServerVersionNum s)); ("detected", JStr (sr_Detected s));
         ("is_recovery", JBool (sr_IsRecovery s))]
        ++ opt_field "connect_error" (sr_ConnectError s)
        ++ [("collectors", json_list collector_json (sr_Collectors s))]).

(** RFC 3339 of a whole second in UTC. *)
Definition format_second (t : Time) : string :=
  let secs := t / Second in
  let '(y, m, d) := civil (secs / 86400) in
  let rest := secs mod 86400 in
  four_digits y +:+ "-" +:+ two_digits m +:+ "-" +:+ two_digits d +:+ "T" +:+ two_digits (rest / 3600) +:+ ":"
  +:+ two_digits (rest / 60 mod 60) +:+ ":" +:+ two_digits (rest mod 60) +:+ "Z".

Definition report_json (rep : Report) : json :=
  JObj ([("generated_at", JStr (format_second (rp_GeneratedAt rep))); ("route", JStr (rp_Route rep))]
        ++ opt_field "commit" (rp_Commit rep) ++ [("servers", json_list server_json (rp_Servers rep))]).

Definition results_json (rep : Report) : string := print_indent "" (report_json rep) +:+ newline.

(** *** The program *)

Record Flags := mkFlags {
  fl_targets : list string;
  fl_json : string;
  fl_md : string;
  fl_route : string;
  fl_commit : string;
  fl_wait : Duration;
  fl_strict : bool
}.

(** The exit status, the files written and what was printed. *)
Record Outcome := mkOutcome { oc_exit : Z; oc_files : list (string * string); oc_stdout : string }.

Section main.
Context {MR : MapRange} `{DR : Driver}.
(** The standard library's net/url: the scheme of a URL, and the URL with another path. *)
Context (url_scheme : string -> option string) (url_with_path : string -> string -> string).
(** What the server of a target answers, the clock, and whether a file can be written. *)
Context (world : Target -> ServerWorld) (now : Time) (WriteFile : string -> string -> option error).

(** targetFlags.Set *)
Definition Set_target (s : string) : option Target :=
  match cut (Ascii.ascii_of_N 61) s with
  | None => None
  | Some (label, dsn) =>
      if String.eqb label "" || String.eqb dsn "" then None
      else match url_scheme dsn with
           | None => None
           | Some scheme => if mem scheme ["postgres"; "postgresql"]
                            then Some (mkTarget label dsn (url_with_path dsn "/conformance")) else None
           end
  end.

(** Truncate(time.Second) rounds down from the zero time. *)
Definition build_report (fl : Flags) (targets : list Target) : Report :=
  mkReport (now - (now - zero_time) mod Second) (fl_route fl) (fl_commit fl)
    (map (fun t => run (world t) (fl_wait fl) t) targets).

Definition write_out (path text : string) (written : list (string * string))
    : (list (string * string)) + (list (string * string)) :=
  if String.eqb path "" then inl written
  else match WriteFile path text with
       | Some _ => inr written
       | None => inl (written ++ [(path, text)])
       end.

Definition exit_status (fl : Flags) (rep : Report) : Z :=
  let s := Summarize rep in
  if 0 <? su_Unreachable s then 3
  else if fl_strict fl && ((0 <? su_Warn s) || (0 <? su_Fail s)) then 1 else 0.

Definition main (fl : Flags) : Outcome :=
  match mapM Set_target (fl_targets fl) with
  | None => mkOutcome 2 [] ""
  | Some [] => mkOutcome 2 [] ""
  | Some targets =>
      let rep := build_report fl targets in
      match write_out (fl_json fl) (results_json rep) [] with
      | inr files => mkOutcome 1 files ""
      | inl files =>
          let md := RenderMarkdown rep in
          match write_out (fl_md fl) md files with
          | inr files => mkOutcome 1 files ""
          | inl files => mkOutcome (exit_status fl rep) files (if String.eqb (fl_md fl) "" then md else "")
          end
      end
  end.

End main.

(** ** Theorems *)

(** Connecting always returns: the attempts are a second apart and stop once the wait is over. *)
Lemma connect_loop_returns {A} (attempt : nat -> result A) clock deadline fuel : forall i j,
  (i <= j < i + fuel)%nat -> deadline < clock j -> is_Some (connect_loop attempt clock deadline fuel i).
Proof.
  induction fuel as [|fuel IH]; intros i j Hj Hc; [lia|]. cbn [connect_loop].
  destruct (attempt i); [by eexists|]. unfold time_After.
  destruct (Z.ltb_spec deadline (clock i)); [by eexists|].
  apply (IH (S i) j); [|done]. destruct (decide (i = j)) as [->|]; lia.
Qed.

Lemma paced_clock {A} (d : Dial A) : paced d -> forall i, dl_start d + Z.of_nat i * Second <= dl_clock d i.
Proof.
  intros [H0 Hs] i. induction i as [|i IH]; [lia|]. specialize (Hs i).
  rewrite Nat2Z.inj_succ. unfold Second in *. lia.
Qed.

Theorem connect_returns {A} (wait : Duration) (d : Dial A) :
  paced d -> is_Some (connect wait d).
Proof.
  intros Hp. unfold connect. destruct (dl_parse d); [by eexists|].
  apply (connect_loop_returns _ _ _ _ 0 (S (Z.to_nat (wait / Second)))); [unfold connect_fuel; lia|].
  pose proof (paced_clock d Hp (S (Z.to_nat (wait / Second)))) as H.
  pose proof (Z.mod_pos_bound wait Second eq_refl). pose proof (Z.div_mod wait Second ltac:(done)).
  pose proof (Z2Nat.id (wait / Second)). unfold time_Add, Second in *.
  destruct (decide (0 <= wait / 10 ^ 9)); nia.
Qed.

Lemma connect_returns_witness :
  is_Some (connect (2 * Second) (mkDial (A := unit) None 0 (fun _ => Err "refused") (fun i => Z.of_nat i * Second))).
Proof. apply connect_returns. split; [done|]. intros i. cbn [dl_clock]. unfold Second. lia. Defined.

(** The verdict of a run says what went wrong in it. *)
Theorem finish_verdict name path points err stmts ms :
  let r := finish name path points err stmts ms in
  (cl_Status r = StatusFail <-> is_Some err)
  /\ (cl_Status r = StatusOK <-> err = None /\ Forall (fun s => sm_Error s = "") stmts)
  /\ (cl_Status r = StatusWarn <-> err = None /\ Exists (fun s => sm_Error s <> "") stmts).
Proof.
  unfold finish. destruct err as [e|]; cbn.
  - repeat split; try done; try (by eexists); by intros [[=] _].
  - assert (He : existsb (fun s => negb (String.eqb (sm_Error s) "")) stmts = true
                 <-> Exists (fun s => sm_Error s <> "") stmts).
    { rewrite existsb_exists, list.Exists_exists. setoid_rewrite <- list_elem_of_In.
      setoid_rewrite negb_true_iff. by setoid_rewrite String.eqb_neq. }
    assert (Hn : Forall (fun s => sm_Error s = "") stmts <-> ~ Exists (fun s => sm_Error s <> "") stmts).
    { rewrite list.Exists_exists, list.Forall_forall. split; [naive_solver|].
      intros H s Hs. destruct (String.eqb_spec (sm_Error s) ""); [done|]. exfalso. naive_solver. }
    destruct (existsb _ _) eqn:E; cbn.
    + assert (X := proj1 He eq_refl). rewrite Hn. split_and!; split; try done; try (by intros [? [=]]); try (by intros []).
    + assert (X : ~ Exists (fun s => sm_Error s <> "") stmts) by (rewrite <- He; done).
      rewrite Hn. split_and!; split; try done; try (by intros []).
Qed.


(** What a fold of the summary adds. *)
Record summed (s s' : Summary) (ok : Prop) : Prop := {
  summed_warn : su_Warn s <= su_Warn s';
  summed_fail : su_Fail s <= su_Fail s';
  summed_unreachable : su_Unreachable s <= su_Unreachable s';
  summed_clean : su_Warn s' = su_Warn s /\ su_Fail s' = su_Fail s /\ su_Unreachable s' = su_Unreachable s <-> ok
}.

Lemma summed_trans s1 s2 s3 P Q : summed s1 s2 P -> summed s2 s3 Q -> summed s1 s3 (P /\ Q).
Proof. intros [? ? ? HP] [? ? ? HQ]. split; try lia. rewrite <- HP, <- HQ. lia. Qed.

Lemma summed_iff s s' P Q : (P <-> Q) -> summed s s' P -> summed s s' Q.
Proof. intros HPQ [? ? ? HP]. split; try lia. by rewrite <- HPQ. Qed.

Lemma summed_foldl {A} (step : Summary -> A -> Summary) (ok : A -> Prop) l :
  (forall s x, summed s (step s x) (ok x)) -> forall s, summed s (foldl step s l) (Forall ok l).
Proof.
  intros Hs. induction l as [|x l IH]; intros s.
  - split; cbn; try lia. split; [constructor|done].
  - cbn [foldl]. refine (summed_iff _ _ _ _ _ (summed_trans _ _ _ _ _ (Hs s x) (IH _))). by rewrite list.Forall_cons.
Qed.

Lemma count_result_summed s c : summed s (count_result s c) (cl_Status c = StatusOK).
Proof.
  unfold count_result. destruct (String.eqb_spec (cl_Status c) StatusOK) as [E|E]; [split; cbn; try lia; by split|].
  destruct (String.eqb _ StatusWarn); split; cbn; try lia; split; try done; lia.
Qed.

(** A server that was reached with every collector ok. *)
Definition server_ok (s : ServerResult) : Prop :=
  sr_ConnectError s = "" /\ Forall (fun c => cl_Status c = StatusOK) (sr_Collectors s).

Lemma Summarize_summed rep : summed (mkSummary 0 0 0 0) (Summarize rep) (Forall server_ok (rp_Servers rep)).
Proof.
  apply summed_foldl. intros s srv. unfold server_ok.
  destruct (String.eqb_spec (sr_ConnectError srv) "") as [E|E]; cbn [negb].
  - refine (summed_iff _ _ _ _ _ (summed_foldl _ _ _ count_result_summed s)). naive_solver.
  - split; cbn; try lia. split; [lia|naive_solver].
Qed.

(** ** The results of a run *)

Lemma recorded_trace name ts : name <> "" ->
  recorded name ts = map (fun t => mkStatement (normalizeSQL (tc_sql t)) (map (fun a => truncate a 80) (tc_args t))
                           (tc_rows t) (match tc_err t with Some e => e | None => "" end)) ts.
Proof.
  intros Hn. unfold recorded.
  assert (H : forall ts r, rc_current r = name ->
    rc_current (foldl (fun r t => TraceQuery t r) r ts) = name
    /\ rc_stmts (foldl (fun r t => TraceQuery t r) r ts)
       = rc_stmts r ++ map (fun t => mkStatement (normalizeSQL (tc_sql t)) (map (fun a => truncate a 80) (tc_args t))
                           (tc_rows t) (match tc_err t with Some e => e | None => "" end)) ts).
  { clear ts. intros ts. induction ts as [|t ts IH]; intros r Hr; [by rewrite app_nil_r|].
    cbn [foldl map]. destruct (IH (TraceQuery t r)) as [H1 H2].
    { unfold TraceQuery. by destruct (String.eqb _ ""). }
    rewrite H1, H2. unfold TraceQuery. destruct (String.eqb_spec (rc_current r) ""); [congruence|].
    cbn [rc_stmts]. by rewrite <- app_assoc. }
  exact (proj2 (H ts (begin name (mkRecorder "" [])) eq_refl)).
Qed.

(** An ok result has no error and no failed statement. *)
Definition clean (c : CollectorResult) : Prop := cl_Error c = "" /\ Forall (fun s => sm_Error s = "") (cl_Statements c).
Definition honest (c : CollectorResult) : Prop := cl_Status c = StatusOK -> clean c.

Lemma finish_honest name path points err stmts ms : honest (finish name path points err stmts ms).
Proof.
  intros H. pose proof (finish_verdict name path points err stmts ms) as (_ & V & _).
  apply V in H as [-> H]. by split.
Qed.

Lemma not_run_honest name path e : honest (not_run name path e).
Proof. intros H. discriminate H. Qed.

Section runs.
Context {MR : MapRange} `{DR : Driver}.

Lemma runOne_honest sw wait c ic path : honest (runOne sw wait c ic path).2.
Proof.
  unfold runOne. destruct (sw_connect _ _ _ _); [|apply not_run_honest].
  destruct (Collect _ _ _ _) as [c' [ps|e]]; apply finish_honest.
Qed.

Lemma run_honest sw wait t : Forall honest (sr_Collectors (run sw wait t)).
Proof.
  unfold run. destruct (default _ _) as [conn|e]; [|constructor].
  destruct (Detect conn) as [v|e]; [|constructor].
  destruct (query_row _ _ _ _) as [rec|e]; [|constructor]. cbn [sr_Collectors].
  apply list.Forall_app. split; [|constructor; [|constructor; [|constructor]]].
  - apply List.Forall_concat, List.Forall_map, list.Forall_true. intros c. unfold runs.
    destruct (runOne _ _ _ _ _) as [c' r] eqn:E. pose proof (runOne_honest sw wait c (mkIC rec) (pathName (mkIC rec))) as H.
    rewrite E in H. constructor; [exact H|].
    destruct (_ && _); [|constructor]. constructor; [apply runOne_honest|constructor].
  - unfold runDatabase. destruct (sw_connect _ _ _ _); [|apply not_run_honest]. destruct (CollectDB _ _ _) as [ps err]. apply finish_honest.
  - unfold runStatementsCapture. destruct (sw_pool _); [|apply not_run_honest]. destruct (_ .2); apply finish_honest.
Qed.

Context (url_scheme : string -> option string) (url_with_path : string -> string -> string).
Context (world : Target -> ServerWorld) (now : Time) (WriteFile : string -> string -> option error).

(** The strict mode: the exit status is 0 exactly when every server was reached and every collector is ok on
    it; then no Collect gave an error and no recorded statement failed, on any server. *)
Theorem strict_exit (fl : Flags) (ts : list Target) :
  mapM (Set_target url_scheme url_with_path) (fl_targets fl) = Some ts -> ts <> [] -> fl_strict fl = true ->
  (forall path text, WriteFile path text = None) ->
  let servers := map (fun t => run (world t) (fl_wait fl) t) ts in
  (oc_exit (main url_scheme url_with_path world now WriteFile fl) = 0 <-> Forall server_ok servers)
  /\ (Forall server_ok servers -> Forall (fun s => Forall clean (sr_Collectors s)) servers).
Proof.
  intros Ht Hne Hstrict Hw servers. split.
  - unfold main. rewrite Ht. destruct ts as [|t ts]; [done|].
    assert (Hout : forall path text files, exists files', write_out WriteFile path text files = inl files').
    { intros path text files. unfold write_out. destruct (String.eqb path ""); [by eexists|]. rewrite Hw. by eexists. }
    set (rep := build_report _ _ _ _).
    destruct (Hout (fl_json fl) (results_json rep) []) as [f1 ->].
    destruct (Hout (fl_md fl) (RenderMarkdown rep) f1) as [f2 ->]. cbn [oc_exit].
    destruct (Summarize_summed rep) as [H1 H2 H3 H4]. change (rp_Servers rep) with servers in H4.
    rewrite <- H4. unfold exit_status. rewrite Hstrict. cbn [su_Warn su_Fail su_Unreachable andb] in *.
    destruct (Z.ltb_spec 0 (su_Unreachable (Summarize rep))), (Z.ltb_spec 0 (su_Warn (Summarize rep))),
      (Z.ltb_spec 0 (su_Fail (Summarize rep))); cbn [orb]; lia.
  - intros H. unfold servers in *. apply List.Forall_map. rewrite List.Forall_map in H.
    eapply list.Forall_impl; [exact H|]. cbn beta. intros t [_ Hok].
    apply list.Forall_forall. intros c Hc. apply (proj1 (list.Forall_forall _ _) (run_honest _ _ _) c Hc).
    by apply (proj1 (list.Forall_forall _ _) Hok c Hc).
Qed.
End runs.

(** ** Failures *)

(** A failure: the server's label, the row, the statement and the error. *)
Definition failure : Type := (string * (string * string * string)).

Definition group_id (g : failureGroup) : string * string * string := (fg_collector g, fg_sql g, fg_errText g).

(** What the results of one server hold: the failed statements of a result that is not ok, or else its error. *)
Definition result_failures (lc : string * CollectorResult) : list failure :=
  let c := lc.2 in
  if String.eqb (cl_Status c) StatusOK then []
  else let bad := filter (fun s => failed s = true) (cl_Statements c) in
       map (fun s => (lc.1, (rowKey c, sm_SQL s, sm_Error s))) bad
       ++ (if (len bad =? 0) && negb (String.eqb (cl_Error c) "") then [(lc.1, (rowKey c, "", cl_Error c))] else []).

Definition report_failures (rep : Report) : list failure := concat (map result_failures (all_results rep)).

Definition nul_free (f : failure) : bool := char_free nul f.2.1.1 && char_free nul f.2.1.2.

Definition id_key (x : string * string * string) : string := group_key x.1.1 x.1.2 x.2.

Lemma char_free_inj c a a' r r' : char_free c a = true -> char_free c a' = true ->
  a +:+ String c r = a' +:+ String c r' -> a = a' /\ r = r'.
Proof.
  revert a'. induction a as [|x a IH]; intros [|y a'] Ha Ha'; cbn [char_free] in *.
  - change ("" +:+ ?u) with u. by intros [= ->].
  - change ("" +:+ ?u) with u. rewrite str_app_cons. intros [= <- _]. by rewrite Ascii.eqb_refl in Ha'.
  - change ("" +:+ ?u) with u. rewrite str_app_cons. intros [= -> _]. by rewrite Ascii.eqb_refl in Ha.
  - rewrite !str_app_cons. intros [= -> H]. apply andb_true_iff in Ha as [_ Ha], Ha' as [_ Ha'].
    by destruct (IH a' Ha Ha' H) as [-> ->].
Qed.

Lemma id_key_inj l l' x y : nul_free (l, x) = true -> nul_free (l', y) = true -> id_key x = id_key y -> x = y.
Proof.
  destruct x as [[a b] e], y as [[a' b'] e']. unfold nul_free, id_key, group_key, nul_sep. cbn [fst snd].
  intros [Ha Hb]%andb_true_iff [Ha' Hb']%andb_true_iff H.
  apply (char_free_inj nul a a') in H as [-> H]; try done. by apply (char_free_inj nul b b') in H as [-> ->].
Qed.

(** The groups are those of the failures met so far. *)
Record groups_of (st : groupState) (fs : list failure) : Prop := {
  go_listed : forall f, f ∈ fs -> exists g, g ∈ gs_groups st /\ group_id g = f.2 /\ f.1 ∈ fg_labels g;
  go_sound : forall g l, g ∈ gs_groups st -> l ∈ fg_labels g -> (l, group_id g) ∈ fs;
  go_labels : forall g, g ∈ gs_groups st -> fg_labels g <> [];
  go_idx : forall key i, gs_idx st !! key = Some i <-> exists g, gs_groups st !! i = Some g /\ id_key (group_id g) = key
}.

Lemma touch_id label args g : group_id (touch label args g) = group_id g.
Proof. done. Qed.

Lemma touch_labels label args g l : l ∈ fg_labels (touch label args g) <-> l = label \/ l ∈ fg_labels g.
Proof.
  unfold touch. cbn [fg_labels]. case_bool_decide as H.
  - apply last_Some in H as [l' H]. rewrite H. set_solver.
  - set_solver.
Qed.

Lemma group_nul_free st fs g : groups_of st fs -> (forall f, f ∈ fs -> nul_free f = true) -> g ∈ gs_groups st ->
  exists l, nul_free (l, group_id g) = true.
Proof.
  intros G Hf Hg. pose proof (go_labels _ _ G g Hg) as Hne. destruct (fg_labels g) as [|l ls] eqn:E; [done|].
  exists l. apply Hf, (go_sound _ _ G g l Hg). rewrite E. set_solver.
Qed.

(** One more failure, when its group is there. *)
Lemma touch_groups st fs label args i g :
  groups_of st fs -> gs_groups st !! i = Some g ->
  groups_of (mkGroups (alter (touch label args) i (gs_groups st)) (gs_idx st)) (fs ++ [(label, group_id g)]).
Proof.
  intros G Hi. set (gs := gs_groups st) in *.
  assert (Hel : forall g', g' ∈ alter (touch label args) i gs <->
    exists j h, gs !! j = Some h /\ g' = if decide (j = i) then touch label args h else h).
  { intros g'. rewrite list_elem_of_lookup. split.
    - intros [j Hj]. rewrite list_lookup_alter in Hj. destruct (decide (i = j)) as [->|Hne].
      + apply fmap_Some in Hj as (h & Hh & ->). exists j, h. by rewrite decide_True.
      + exists j, g'. by rewrite decide_False by congruence.
    - intros (j & h & Hh & ->). exists j. rewrite list_lookup_alter. destruct (decide (i = j)) as [->|Hne].
      + by rewrite Hh, decide_True.
      + by rewrite decide_False by congruence. }
  split; cbn [gs_groups gs_idx].
  - intros f [Hf|Hf]%elem_of_app.
    + destruct (go_listed _ _ G f Hf) as (h & Hh & Hid & Hl). apply list_elem_of_lookup in Hh as [j Hj].
      exists (if decide (j = i) then touch label args h else h). split; [apply Hel; eauto|].
      destruct (decide (j = i)); [|done]. rewrite touch_id. split; [done|]. apply touch_labels. by right.
    + apply list_elem_of_singleton in Hf as ->. exists (touch label args g). cbn [fst snd].
      split; [apply Hel; exists i, g; by rewrite decide_True|]. split; [done|]. apply touch_labels. by left.
  - intros g' l (j & h & Hj & ->)%Hel Hl. assert (Hh : h ∈ gs) by (apply list_elem_of_lookup; eauto).
    destruct (decide (j = i)) as [->|]; [|apply elem_of_app; left; by apply (go_sound _ _ G)].
    assert (h = g) as -> by congruence. rewrite touch_id.
    apply touch_labels in Hl as [->|Hl]; apply elem_of_app; [right; set_solver|left; by apply (go_sound _ _ G)].
  - intros g' (j & h & Hj & ->)%Hel. assert (Hh : h ∈ gs) by (apply list_elem_of_lookup; eauto).
    pose proof (go_labels _ _ G h Hh) as Hne. destruct (decide (j = i)); [|done].
    intros E. assert (label ∈ fg_labels (touch label args h)) by (apply touch_labels; by left). rewrite E in *. set_solver.
  - intros key j. rewrite (go_idx _ _ G), list_lookup_alter. destruct (decide (i = j)) as [->|]; [|done].
    change (gs_groups st) with gs. rewrite Hi. cbn. split; intros (h & [= <-] & H); by eexists.
Qed.

Lemma new_group_groups st fs label args g0 :
  groups_of st fs -> fg_labels g0 = [] -> gs_idx st !! id_key (group_id g0) = None ->
  groups_of (mkGroups (gs_groups st ++ [touch label args g0])
               (<[id_key (group_id g0) := length (gs_groups st)]> (gs_idx st)))
    (fs ++ [(label, group_id g0)]).
Proof.
  intros G H0 Hn. set (gs := gs_groups st) in *.
  assert (Hl0 : forall l, l ∈ fg_labels (touch label args g0) <-> l = label).
  { intros l. rewrite touch_labels, H0. set_solver. }
  split; cbn [gs_groups gs_idx].
  - intros f [Hf|Hf]%elem_of_app.
    + destruct (go_listed _ _ G f Hf) as (h & Hh & Hid & Hl). exists h. split; [apply elem_of_app; by left|done].
    + apply list_elem_of_singleton in Hf as ->. exists (touch label args g0). cbn [fst snd].
      split; [apply elem_of_app; right; set_solver|]. split; [done|]. by apply Hl0.
  - intros g' l [Hg|Hg]%elem_of_app Hl; apply elem_of_app; [left; by apply (go_sound _ _ G)|right].
    apply list_elem_of_singleton in Hg as ->. apply Hl0 in Hl as ->. rewrite touch_id. set_solver.
  - intros g' [Hg|Hg]%elem_of_app; [by apply (go_labels _ _ G)|]. apply list_elem_of_singleton in Hg as ->.
    intros E. assert (label ∈ fg_labels (touch label args g0)) by (by apply Hl0). rewrite E in *. set_solver.
  - intros key j. destruct (decide (key = id_key (group_id g0))) as [->|Hk].
    + rewrite lookup_insert_eq. split.
      * intros [= <-]. exists (touch label args g0). split; [|done]. by apply list_lookup_middle.
      * intros (h & Hh & Hkey). apply lookup_app_Some in Hh as [Hh|[Hlen Hh]].
        -- assert (gs_idx st !! id_key (group_id g0) = Some j) by (apply (go_idx _ _ G); eauto). congruence.
        -- apply list_lookup_singleton_Some in Hh as [Hj _]. f_equal. unfold gs in *. lia.
    + rewrite lookup_insert_ne by done. rewrite (go_idx _ _ G). split; intros (h & Hh & Hkey); exists h; (split; [|done]).
      * by apply lookup_app_l_Some.
      * apply lookup_app_Some in Hh as [Hh|[Hlen Hh]]; [done|].
        apply list_lookup_singleton_Some in Hh as [_ <-]. by rewrite touch_id in Hkey.
Qed.

Lemma add_groups st fs label c sql errText args :
  groups_of st fs -> (forall f, f ∈ fs ++ [(label, (rowKey c, sql, errText))] -> nul_free f = true) ->
  groups_of (add label c sql errText args st) (fs ++ [(label, (rowKey c, sql, errText))]).
Proof.
  intros G Hf. unfold add. set (x := (rowKey c, sql, errText)) in *.
  change (group_key (rowKey c) sql errText) with (id_key x).
  destruct (gs_idx st !! id_key x) as [i|] eqn:E.
  - destruct (proj1 (go_idx _ _ G _ _) E) as (g & Hi & Hk).
    destruct (group_nul_free st fs g G) as [l Hl].
    { intros f Hin. apply Hf, elem_of_app. by left. }
    { apply list_elem_of_lookup. eauto. }
    assert (group_id g = x) as <-.
    { apply (id_key_inj l label); [done|apply Hf; set_solver|done]. }
    by apply touch_groups.
  - exact (new_group_groups st fs label args (mkGroup (rowKey c) sql errText ∅ []) G eq_refl E).
Qed.

Lemma add_result_groups label c : forall st fs,
  groups_of st fs -> (forall f, f ∈ fs ++ result_failures (label, c) -> nul_free f = true) ->
  groups_of (add_result label st c) (fs ++ result_failures (label, c)).
Proof.
  intros st fs G. unfold add_result, result_failures. cbn [fst snd].
  destruct (String.eqb (cl_Status c) StatusOK); [by rewrite app_nil_r|].
  set (bad := filter _ _). set (more := _ && _). intros Hf.
  assert (G' : groups_of (foldl (fun st s => add label c (sm_SQL s) (sm_Error s) (sm_Args s) st) st bad)
                 (fs ++ map (fun s => (label, (rowKey c, sm_SQL s, sm_Error s))) bad)).
  { rewrite app_assoc in Hf. pose proof (fun f H => Hf f (proj2 (elem_of_app _ _ f) (or_introl H))) as Hb.
    clear Hf. clearbody bad. clear more. revert st fs G Hb. induction bad as [|s bad IH]; intros st fs G Hb; [by rewrite app_nil_r|].
    cbn [foldl map] in *. rewrite cons_middle, app_assoc in *. apply IH; [|exact Hb].
    apply add_groups; [done|]. intros f H. apply Hb, elem_of_app. by left. }
  rewrite app_assoc in *. destruct more; [|by rewrite app_nil_r]. by apply add_groups.
Qed.

Lemma failure_groups_of rep : (forall f, f ∈ report_failures rep -> nul_free f = true) ->
  groups_of (foldl (fun st s => foldl (add_result (sr_Label s)) st (sr_Collectors s)) (mkGroups [] ∅) (rp_Servers rep))
    (report_failures rep).
Proof.
  assert (H : forall (l : list (string * CollectorResult)) st fs, groups_of st fs ->
    (forall f, f ∈ fs ++ concat (map result_failures l) -> nul_free f = true) ->
    groups_of (foldl (fun st lc => add_result lc.1 st lc.2) st l) (fs ++ concat (map result_failures l))).
  { induction l as [|[label c] l IH]; intros st fs G Hf; [by rewrite app_nil_r|].
    cbn [foldl map concat fst snd] in *. rewrite app_assoc in *. apply IH; [|exact Hf].
    apply add_result_groups; [done|]. intros f Hin. apply Hf, elem_of_app. by left. }
  intros Hf.
  assert (E : forall servers st, foldl (fun st s => foldl (add_result (sr_Label s)) st (sr_Collectors s)) st servers
    = foldl (fun st lc => add_result lc.1 st lc.2) st
        (concat (map (fun s => map (fun c => (sr_Label s, c)) (sr_Collectors s)) servers))).
  { induction servers as [|s servers IH]; intros st; [done|]. cbn [foldl map concat]. rewrite foldl_app, IH. f_equal.
    generalize (sr_Collectors s). intros cs. revert st. induction cs as [|c cs IHc]; intros st; [done|]. apply IHc. }
  rewrite E. apply (H (all_results rep) (mkGroups [] ∅) []); [|exact Hf].
  split; cbn [gs_groups gs_idx]; [set_solver..|]. intros key i. rewrite lookup_empty.
  split; [done|]. by intros (g & Hg & _).
Qed.

Lemma weak_on_groups l : weak_on group_less l.
Proof.
  split; unfold group_less.
  - intros x y _ _. rewrite (String.eqb_sym (category (fg_errText y))).
    destruct (String.eqb _ _); apply string_ltb_asym.
  - intros x y z _ _ _. set (cx := category (fg_errText x)). set (cy := category (fg_errText y)).
    set (cz := category (fg_errText z)).
    pose proof (wo_ntrans _ _ (weak_on_string (fun s => s) [cx; cy; cz])) as W.
    pose proof (wo_ntrans _ _ (weak_on_string (fun s => s) [fg_collector x; fg_collector y; fg_collector z])) as V.
    clearbody cx cy cz. clear - W V.
    destruct (String.eqb_spec cx cy) as [<-|Hxy].
    + destruct (String.eqb_spec cx cz) as [<-|]; cbn [negb]; [apply V; set_solver|done].
    + destruct (String.eqb_spec cy cz) as [<-|Hyz]; cbn [negb]; [|].
      * by destruct (String.eqb_spec cx cy).
      * intros H1 H2. assert (H : string_ltb cx cz = false) by (apply (W cx cy cz); set_solver).
        destruct (String.eqb_spec cx cz) as [E|]; [|done]. exfalso. apply Hxy, string_ltb_total; [done|]. by rewrite E.
Qed.

(** C33: The page lists exactly the failures of the report: a failed statement of a collector that is not ok, or
    its error when no statement failed, stands in the group of its row, statement and error under the label
    of its server; no group is listed twice, and they are ordered by category and row. Row keys
    and statements hold no NUL character, which separates the parts of a group's key. *)
Theorem failures_grouped (rep : Report) :
  (forall f, f ∈ report_failures rep -> nul_free f = true) ->
  (forall label x, (label, x) ∈ report_failures rep <->
     exists g, g ∈ sorted_groups rep /\ group_id g = x /\ label ∈ fg_labels g)
  /\ NoDup (map group_id (sorted_groups rep))
  /\ StronglySorted (fun a b => group_less b a = false) (sorted_groups rep).
Proof.
  intros Hf. pose proof (failure_groups_of rep Hf) as G. pose proof (insertion_sort_perm group_less (failure_groups rep)) as P.
  change (insertion_sort group_less (failure_groups rep)) with (sorted_groups rep) in P. split; [|split].
  - intros label x. setoid_rewrite P. split.
    + intros H. exact (go_listed _ _ G _ H).
    + intros (g & Hg & <- & Hl). by apply (go_sound _ _ G).
  - change (map group_id) with (fmap (M := list) group_id). rewrite P. apply NoDup_alt. intros i j x Hi Hj.
    apply list_lookup_fmap_Some in Hi as (g & Hg & Hi), Hj as (h & Hh & Hj).
    assert (gs_idx (foldl (fun st s => foldl (add_result (sr_Label s)) st (sr_Collectors s)) (mkGroups [] ∅)
                      (rp_Servers rep)) !! id_key x = Some i) by (apply (go_idx _ _ G); eexists; split; [done|congruence]).
    assert (gs_idx (foldl (fun st s => foldl (add_result (sr_Label s)) st (sr_Collectors s)) (mkGroups [] ∅)
                      (rp_Servers rep)) !! id_key x = Some j) by (apply (go_idx _ _ G); eexists; split; [done|congruence]).
    congruence.
  - apply insertion_sort_sorted, weak_on_groups.
Qed.

Section version.
Context {MR : MapRange} `{DR : Driver}.

(** The page flags the version of every reached server that is not the first release of its major version:
    Detect finds the minor version 0 there, by the encoding used before version 10. *)
Theorem minor_release_flagged sw wait t conn v rec :
  connect wait (sw_setup sw) = Some (Ok conn) -> Detect conn = Ok v ->
  query_row conn "SELECT pg_is_in_recovery()" [] boolean = Ok rec -> 0 <= v_Num v ->
  mismatch (run sw wait t) = negb (v_Num v mod 10000 =? 0).
Proof.
  intros Hc Hv Hr Hn. unfold run. rewrite Hc. cbn [from_option]. change (id (Ok conn)) with (@Ok Conn conn). cbn iota beta. rewrite Hv, Hr.
  assert (E : v_Major v = Z.quot (v_Num v) 10000 /\ v_Minor v = Z.quot (Z.rem (v_Num v) 10000) 100).
  { revert Hv. unfold Detect. repeat case_match; intros [= <-]; done. }
  destruct E as [E1 E2]. unfold mismatch, expectedVersion.
  cbn [sr_ConnectError sr_Detected sr_ServerVersionNum String.eqb andb]. rewrite E1, E2. f_equal.
  rewrite (Z.rem_mod_nonneg (v_Num v) 10000) by lia.
  pose proof (Z.mod_pos_bound (v_Num v) 10000 eq_refl). set (m := v_Num v mod 10000) in *.
  rewrite (Z.quot_div_nonneg m 100) by lia.
  destruct (Z.eqb_spec m 0) as [->|Hm]; [apply String.eqb_refl|].
  apply String.eqb_neq. intros H1. apply (inj (String.append _)), (inj (String.append _)), (inj pretty) in H1.
  pose proof (Z.div_lt m 100). lia.
Qed.
End version.

(** Two servers on which one statement fails the same way, and one whose run could not start. *)
Definition demo_result (status : string) (stmts : list Statement) : CollectorResult :=
  mkCollectorResult "cache" "primary" status "" 0 stmts 1.
Definition demo_statement (e : string) : Statement := mkStatement "SELECT x" ["1"] 0 e.
Definition drift : string := "ERROR: no such column (SQLSTATE 42703)".
Definition demo_report : Report :=
  mkReport 0 "local" "" [
    mkServerResult "pg14" "14.1" 140001 "14.0" false "" [demo_result StatusWarn [demo_statement drift; demo_statement ""]];
    mkServerResult "pg15" "15.0" 150000 "15.0" false "" [demo_result StatusWarn [demo_statement drift];
                                                        not_run "io_stats" "primary" "connect: refused"]].

Lemma failures_grouped_witness :
  report_failures demo_report
  = [("pg14", ("cache", "SELECT x", drift)); ("pg15", ("cache", "SELECT x", drift));
     ("pg15", ("io_stats", "", "connect: refused"))]
  /\ map fg_labels (sorted_groups demo_report) = [["pg14"; "pg15"]; ["pg15"]]
  /\ exists g, g ∈ sorted_groups demo_report /\ group_id g = ("cache", "SELECT x", drift) /\ "pg15" ∈ fg_labels g.
Proof.
  split; [vm_compute; reflexivity|]. split; [vm_compute; reflexivity|].
  apply (failures_grouped demo_report).
  - intros f Hf. assert (E : forallb nul_free (report_failures demo_report) = true) by (vm_compute; reflexivity).
    by apply (proj1 (forallb_forall _ _) E), list_elem_of_In.
  - assert (E : report_failures demo_report !! 1%nat = Some ("pg15", ("cache", "SELECT x", drift)))
      by (vm_compute; reflexivity).
    exact (list_elem_of_lookup_2 _ _ _ E).
Defined.

(** The category of an error, and dates. *)
Example category_values :
  category drift = "catalog / version" /\ category "denied (SQLSTATE 42501)" = "privilege"
  /\ category "SQLSTATE 1 SQLSTATE 57014" = "SQLSTATE 57014" /\ category "refused" = "other"
  /\ format_minute (1793834388 * 10 ^ 9) = "2026-11-04 23:19 UTC" /\ format_second zero_time = "0001-01-01T00:00:00Z".
Proof. vm_compute. repeat split. Qed.
