(* ===== verification/Desktop.v ===== *)
(** * The desktop shell

    Models internal/desktop and cmd/pgpulse-server/desktop.go: the toasts for alerts with their cooldown,
    the tray, the saved settings, the connection dialog and how it leads to a configuration file. Windows,
    menus and the event loop of Wails are what the user does with them; the file system is what its
    calls answer. *)
From stdpp Require Import pretty.
From S2P Require Import Prelude Float64 Metric Alert Dispatcher GoText Json.

Local Open Scope Z_scope.

(** ** notifications.go *)

Definition defaultNotifCooldown : Duration := 5 * Minute.
Definition defaultMinSeverity : Severity := SeverityWarning.

Record AlertNotifier := mkNotifier {
  an_lastFired : gmap string Time;
  an_cooldown : Duration;
  an_minSeverity : Severity;
  an_seqID : Z
}.

Record NotificationOptions := mkNotification { no_ID : string; no_Title : string; no_Body : string }.

Definition NewAlertNotifier : AlertNotifier := mkNotifier ∅ defaultNotifCooldown defaultMinSeverity 0.

Definition notifCooldownKey (event : AlertEvent) : string := e_RuleID event +:+ ":" +:+ e_InstanceID event.

Definition severityRank (s : Severity) : Z :=
  if decide (s = SeverityInfo) then 0
  else if decide (s = SeverityWarning) then 1
  else if decide (s = SeverityCritical) then 2 else -1.

(** [now] is the clock at the check. *)
Definition shouldNotify (now : Time) (an : AlertNotifier) (event : AlertEvent) : bool :=
  if e_IsResolution event then false
  else if severityRank (e_Severity event) <? severityRank (an_minSeverity an) then false
  else match an_lastFired an !! notifCooldownKey event with
       | Some last => negb (time_Sub now last <? an_cooldown an)
       | None => true
       end.

(** What HandleAlert does after the check, with the clock it reads then. *)
Definition fire (now : Time) (an : AlertNotifier) (event : AlertEvent) : AlertNotifier * NotificationOptions :=
  let seq := i64 (an_seqID an + 1) in
  (mkNotifier (<[notifCooldownKey event := now]> (an_lastFired an)) (an_cooldown an) (an_minSeverity an) seq,
   mkNotification ("pgpulse-alert-" +:+ pretty seq)
     ("[" +:+ ToUpper (e_Severity event) +:+ "] " +:+ e_RuleName event)
     ("Instance: " +:+ e_InstanceID event +:+ newline +:+ "Metric: " +:+ e_Metric event +:+ newline
      +:+ "Value: " +:+ fmt_fixed 2 (e_Value event) +:+ " (threshold: " +:+ fmt_fixed 2 (e_Threshold event) +:+ ")")).

Definition HandleAlert (checked fired : Time) (an : AlertNotifier) (event : AlertEvent)
    : AlertNotifier * option NotificationOptions :=
  if shouldNotify checked an event then let (an', n) := fire fired an event in (an', Some n) else (an, None).

(** The dispatcher starts a goroutine for each event. The mutex covers the check and the rest separately, so
    handlers may interleave between the two. *)
Inductive handlerStep :=
  | HCheck (handler : nat) (event : AlertEvent) (now : Time)
  | HFire (handler : nat) (now : Time).

Record handlers := mkHandlers {
  hs_notifier : AlertNotifier;
  hs_passed : gmap nat AlertEvent;
  hs_sent : list (Time * AlertEvent * NotificationOptions)
}.

Definition handler_step (s : handlers) (st : handlerStep) : handlers :=
  match st with
  | HCheck h event now =>
      if shouldNotify now (hs_notifier s) event
      then mkHandlers (hs_notifier s) (<[h := event]> (hs_passed s)) (hs_sent s) else s
  | HFire h now =>
      match hs_passed s !! h with
      | None => s
      | Some event =>
          let (an, n) := fire now (hs_notifier s) event in
          mkHandlers an (delete h (hs_passed s)) (hs_sent s ++ [(now, event, n)])
      end
  end.

(** ** tray.go and app.go *)

Inductive trayIcon := IconTrayDefault | IconTrayWarning | IconTrayCritical.

Record SystemTray := mkTray { st_icon : trayIcon; st_tooltip : string; st_statusItem : string }.

Definition NewSystemTray : SystemTray := mkTray IconTrayDefault "PGPulse — PostgreSQL Monitor" "Status: Monitoring...".

Definition UpdateStatus (instanceCount alertCount : Z) (maxSeverity : string) (tray : SystemTray) : SystemTray :=
  let counts := pretty instanceCount +:+ " instance(s), " +:+ pretty alertCount +:+ " alert(s)" in
  mkTray (if String.eqb maxSeverity "critical" then IconTrayCritical
          else if String.eqb maxSeverity "warning" then IconTrayWarning else IconTrayDefault)
    ("PGPulse — " +:+ counts) ("Status: " +:+ counts).

(** The loop with the ticks it got before it was stopped. *)
Definition trayStatusLoop (ticks : nat) (tray : SystemTray) : SystemTray :=
  Nat.iter (S ticks) (UpdateStatus 0 0 "ok") tray.

Record DesktopApp := mkDesktopApp { da_tray : SystemTray; da_notifier : AlertNotifier }.

(** The hook is registered when there is a dispatcher. *)
Definition NewDesktopApp {W : Type} {HW : World W} (d : option (Dispatcher W)) : DesktopApp * option (Dispatcher W) :=
  (mkDesktopApp NewSystemTray NewAlertNotifier, OnAlert "AlertNotifier.HandleAlert" <$> d).

(** ** settings.go *)

Record AppSettings := mkSettings { as_LastConfigPath : string }.

(** The configuration directory, the settings file in it and which calls fail. *)
Record SettingsDir := mkSettingsDir {
  sd_UserConfigDir : result string;
  sd_file : option string;
  sd_ReadFile : option error;
  sd_MkdirAll : option error;
  sd_WriteFile : option error
}.

Definition settings_fields : list (string * decoder AppSettings) :=
  [("last_config_path", in_field as_LastConfigPath (fun _ p => mkSettings p) decode_string)].

Definition settings_json (s : AppSettings) : json :=
  JObj (if String.eqb (as_LastConfigPath s) "" then [] else [("last_config_path", JStr (as_LastConfigPath s))]).

Section settings.
(** [json_error] is the text of the error for a file that does not decode. *)
Context (json_error : string -> error).

Definition LoadSettings (sd : SettingsDir) : result AppSettings :=
  match sd_UserConfigDir sd with
  | Err e => Err e
  | Ok _ =>
      match sd_file sd with
      | None => Ok (mkSettings "")
      | Some data =>
          match sd_ReadFile sd with
          | Some e => Err e
          | None => Unmarshal json_error (decode_struct settings_fields) (mkSettings "") data
          end
      end
  end.

Definition SaveSettings (s : AppSettings) (sd : SettingsDir) : SettingsDir * option error :=
  match sd_UserConfigDir sd with
  | Err e => (sd, Some e)
  | Ok _ =>
      match sd_MkdirAll sd with
      | Some e => (sd, Some e)
      | None =>
          match sd_WriteFile sd with
          | Some e => (sd, Some e)
          | None => (mkSettingsDir (sd_UserConfigDir sd) (Some (print_indent "" (settings_json s))) (sd_ReadFile sd)
                       (sd_MkdirAll sd) (sd_WriteFile sd), None)
          end
      end
  end.

(** ** dialog.go and dialog_bindings.go *)

(** [strings.ReplaceAll] for an [old] that is not empty; [skip] bytes belong to a match. *)
Fixpoint replace_from (old new : string) (skip : nat) (s : string) : string :=
  match s with
  | EmptyString => EmptyString
  | String c s' =>
      match skip with
      | S k => replace_from old new k s'
      | O => if has_prefix s old then new +:+ replace_from old new (Nat.pred (String.length old)) s'
             else String c (replace_from old new O s')
      end
  end.
Definition ReplaceAll (s old new : string) : string := replace_from old new O s.

Definition dialog_page (dialogHTML lastConfigPath : string) : string :=
  ReplaceAll (ReplaceAll dialogHTML "{{LAST_CONFIG_PATH}}" lastConfigPath) "{{LAST_CLASS}}"
    (if String.eqb lastConfigPath "" then "disabled" else "").

Record DialogResult := mkDialogResult { dr_Mode : string; dr_ConfigPath : string; dr_DSN : string }.

(** The calls of the page; the picker comes with what the user chose. *)
Inductive dialogCall :=
  | OpenFilePicker (picked : result string)
  | SubmitDSN (dsn : string)
  | UseLastConfig (path : string)
  | Cancel.

(** What a call sends. *)
Definition dialog_send (c : dialogCall) : option DialogResult :=
  match c with
  | OpenFilePicker (Err _) => None
  | OpenFilePicker (Ok path) => if String.eqb path "" then None else Some (mkDialogResult "config" path "")
  | SubmitDSN dsn => Some (mkDialogResult "quickconnect" "" dsn)
  | UseLastConfig path => Some (mkDialogResult "config" path "")
  | Cancel => Some (mkDialogResult "cancel" "" "")
  end.

(** The first result wins: it is read from the channel, also when the event loop has ended by then. [ended]
    is the error of the event loop. *)
Definition ShowConfigDialog (calls : list dialogCall) (ended : option error) : DialogResult * option error :=
  match omap dialog_send calls with
  | r :: _ => (r, None)
  | [] => (mkDialogResult "cancel" "" "", ended)
  end.

(** ** cmd/pgpulse-server/desktop.go *)

(** [strings.ReplaceAll(dsn, `\`, `\\`)]. *)
Fixpoint double_backslash (s : string) : string :=
  match s with
  | EmptyString => EmptyString
  | String c s' => if Ascii.eqb c backslash then String backslash (String backslash (double_backslash s'))
                   else String c (double_backslash s')
  end.

Definition quick_content (dsn : string) : string :=
  "instances:" +:+ newline +:+ "  - id: desktop-quick" +:+ newline +:+ "    name: Quick Connect" +:+ newline
  +:+ "    dsn: " +:+ quoted (double_backslash dsn) +:+ newline.

(** What a start in desktop mode meets: which files exist, the user at the dialog, who sees the last
    path, the error of the dialog's event loop, and the temporary directory. *)
Record Desk := mkDesk {
  dk_exists : string -> bool;
  dk_user : string -> list dialogCall;
  dk_ended : option error;
  dk_MkdirTemp : result string;
  dk_WriteFile : option error
}.

(** The settings after it, the file written and the path of the configuration. *)
Definition ResolveConfigDesktop (dk : Desk) (join : string -> string -> string) (sd : SettingsDir) (configPath : string)
    : SettingsDir * option (string * string) * result string :=
  if dk_exists dk configPath then (sd, None, Ok configPath)
  else
    let settings := match LoadSettings sd with Ok s => s | Err _ => mkSettings "" end in
    match ShowConfigDialog (dk_user dk (as_LastConfigPath settings)) (dk_ended dk) with
    | (_, Some e) => (sd, None, Err ("config dialog failed: " +:+ e))
    | (r, None) =>
        if String.eqb (dr_Mode r) "config" then
          ((SaveSettings (mkSettings (dr_ConfigPath r)) sd).1, None, Ok (dr_ConfigPath r))
        else if String.eqb (dr_Mode r) "quickconnect" then
          match dk_MkdirTemp dk with
          | Err e => (sd, None, Err ("create temp dir: " +:+ e))
          | Ok tmpDir =>
              let tmpConfig := join tmpDir "pgpulse.yml" in
              match dk_WriteFile dk with
              | Some e => (sd, None, Err ("write temp config: " +:+ e))
              | None => (sd, Some (tmpConfig, quick_content (dr_DSN r)), Ok tmpConfig)
              end
          end
        else if String.eqb (dr_Mode r) "cancel" then (sd, None, Err "user cancelled configuration")
        else (sd, None, Err ("unexpected dialog result: " +:+ dr_Mode r))
    end.

End settings.

(** ** Theorems on the toasts *)

Definition eligible (event : AlertEvent) : bool :=
  negb (e_IsResolution event) && (severityRank SeverityWarning <=? severityRank (e_Severity event)).

(** Events handled one after the other, each with the clock at its check and at its toast. *)
Local Notation handled := (AlertEvent * Time * Time)%type.

Definition notify (s : AlertNotifier * list (option NotificationOptions)) (x : handled)
    : AlertNotifier * list (option NotificationOptions) :=
  let '(event, checked, fired) := x in
  let (an, n) := HandleAlert checked fired s.1 event in (an, s.2 ++ [n]).

Definition notify_all (l : list handled) : AlertNotifier * list (option NotificationOptions) :=
  foldl notify (NewAlertNotifier, []) l.

(** The [j]-th event made a toast for the key, at [t]. *)
Definition toast (l : list handled) (j : nat) (key : string) (t : Time) : Prop :=
  exists event checked n, l !! j = Some (event, checked, t) /\ notifCooldownKey event = key
    /\ (notify_all l).2 !! j = Some (Some n).

Definition clock_forward (l : list handled) : Prop :=
  forall i j x y, (i < j)%nat -> l !! i = Some x -> l !! j = Some y -> x.2 <= y.2.

Record notified (l : list handled) : Prop := {
  nt_len : length (notify_all l).2 = length l;
  nt_cooldown : an_cooldown (notify_all l).1 = defaultNotifCooldown;
  nt_severity : an_minSeverity (notify_all l).1 = SeverityWarning;
  nt_last : forall key t, an_lastFired (notify_all l).1 !! key = Some t -> exists j, toast l j key t;
  nt_latest : forall j key t, toast l j key t -> exists t', an_lastFired (notify_all l).1 !! key = Some t' /\ t <= t'
}.

Lemma notify_snoc l x : notify_all (l ++ [x]) = notify (notify_all l) x.
Proof. unfold notify_all. by rewrite foldl_app. Qed.

Lemma notify_out l event checked fired :
  exists n, (notify (notify_all l) (event, checked, fired)).2 = (notify_all l).2 ++ [n]
    /\ (n = None <-> shouldNotify checked (notify_all l).1 event = false)
    /\ (notify (notify_all l) (event, checked, fired)).1
       = (if shouldNotify checked (notify_all l).1 event then (fire fired (notify_all l).1 event).1 else (notify_all l).1).
Proof.
  unfold notify, HandleAlert. destruct (shouldNotify checked _ event) eqn:E.
  - destruct (fire fired _ event) as [an n] eqn:F. exists (Some n). split_and!; [done| |done]. by split.
  - exists None. by split_and!.
Qed.

(** What held of the events before is not changed by one more. *)
Lemma toast_snoc l x j key t : notified l ->
  toast (l ++ [x]) j key t <->
  toast l j key t \/ (j = length l /\ notifCooldownKey x.1.1 = key /\ x.2 = t
                      /\ shouldNotify x.1.2 (notify_all l).1 x.1.1 = true).
Proof.
  intros N. destruct x as [[event checked] fired]. cbn [fst snd].
  destruct (notify_out l event checked fired) as (n & Ho & Hn & _). unfold toast. rewrite notify_snoc, Ho.
  pose proof (nt_len _ N) as Hlen. split.
  - intros (e & c & m & Hl & Hk & Hm). destruct (decide (j = length l)) as [->|Hj].
    + right. rewrite list_lookup_middle in Hl by done. injection Hl as <- <- <-.
      rewrite list_lookup_middle in Hm by done. split_and!; try done.
      destruct (shouldNotify _ _ _); [done|]. by rewrite (proj2 Hn eq_refl) in Hm.
    + left. apply lookup_lt_Some in Hl as Hlt. rewrite length_app in Hlt. cbn in Hlt.
      rewrite lookup_app_l in Hl by lia. rewrite lookup_app_l in Hm by (rewrite Hlen; lia). eauto 6.
  - intros [(e & c & m & Hl & Hk & Hm)|(-> & Hk & -> & Hs)].
    + exists e, c, m. split_and!; [by apply lookup_app_l_Some|done|by apply lookup_app_l_Some].
    + destruct n as [n|]; [|exfalso; destruct Hn as [Hn _]; rewrite (Hn eq_refl) in Hs; done].
      exists event, checked, n. split_and!; [by apply list_lookup_middle|done|by apply list_lookup_middle].
Qed.

Lemma notified_all l : clock_forward l -> notified l.
Proof.
  induction l as [|x l IH] using rev_ind; intros Hc.
  - split; try done. intros j key t (e & c & n & Hl & _). done.
  - assert (N : notified l).
    { apply IH. intros i j y z Hij Hi Hj. apply (Hc i j); [done|by apply lookup_app_l_Some..]. }
    assert (Hx : forall j key t, toast l j key t -> t <= x.2).
    { intros j key t (e & c & n & Hl & _). apply (Hc j (length l) (e, c, t) x).
      - by apply lookup_lt_Some in Hl.
      - by apply lookup_app_l_Some.
      - by apply list_lookup_middle. }
    destruct x as [[event checked] fired]. cbn [fst snd] in *.
    destruct (notify_out l event checked fired) as (n & Ho & _ & Hs).
    split.
    + rewrite notify_snoc, Ho, !length_app, (nt_len _ N). done.
    + rewrite notify_snoc, Hs. destruct (shouldNotify _ _ _); apply (nt_cooldown _ N).
    + rewrite notify_snoc, Hs. destruct (shouldNotify _ _ _); apply (nt_severity _ N).
    + intros key t. rewrite notify_snoc, Hs. setoid_rewrite (toast_snoc l (event, checked, fired) _ key t N). cbn [fst snd].
      destruct (shouldNotify _ _ _) eqn:E.
      * cbn [fire fst an_lastFired]. rewrite lookup_insert. destruct (decide (notifCooldownKey event = key)).
        -- intros [= ->]. exists (length l). by right.
        -- intros H. destruct (nt_last _ N key t H) as [j Hj]. exists j. by left.
      * intros H. destruct (nt_last _ N key t H) as [j Hj]. exists j. by left.
    + intros j key t. rewrite (toast_snoc l (event, checked, fired) j key t N), notify_snoc, Hs. cbn [fst snd].
      intros [H|(_ & <- & <- & ->)].
      * destruct (shouldNotify _ _ _); [|by apply (nt_latest _ N j)]. cbn [fire fst an_lastFired].
        rewrite lookup_insert. destruct (decide (notifCooldownKey event = key)); [|by apply (nt_latest _ N j)].
        exists fired. split; [done|]. by apply (Hx j key).
      * cbn [fire fst an_lastFired]. rewrite lookup_insert_eq. by exists fired.
Qed.

Lemma notify_prefix l l' i : (i < length l)%nat -> clock_forward (l ++ l') ->
  (notify_all (l ++ l')).2 !! i = (notify_all l).2 !! i.
Proof.
  intros Hi. induction l' as [|x l' IH] using rev_ind; intros Hc; [by rewrite app_nil_r|].
  assert (Hc' : clock_forward (l ++ l')).
  { intros a b y z Hab Ha Hb. apply (Hc a b); [done|..]; rewrite app_assoc; by apply lookup_app_l_Some. }
  rewrite app_assoc, notify_snoc. destruct x as [[event checked] fired].
  destruct (notify_out (l ++ l') event checked fired) as (n & -> & _).
  rewrite lookup_app_l; [by apply IH|]. rewrite (nt_len _ (notified_all _ Hc')), length_app. lia.
Qed.

Lemma shouldNotify_eligible now an event : an_minSeverity an = SeverityWarning ->
  shouldNotify now an event = true <->
  eligible event = true /\ forall last, an_lastFired an !! notifCooldownKey event = Some last -> an_cooldown an <= time_Sub now last.
Proof.
  intros Hs. unfold shouldNotify, eligible. rewrite Hs. destruct (e_IsResolution event); cbn [negb andb]; [naive_solver|].
  rewrite Z.leb_antisym. destruct (_ <? severityRank SeverityWarning); cbn [negb]; [naive_solver|].
  destruct (an_lastFired an !! _) as [last|]; [|naive_solver].
  rewrite negb_true_iff, Z.ltb_ge. naive_solver.
Qed.

(** The toasts are exactly the eligible alerts outside the cooldown. For events handled one after the other
    with a clock that does not go back, an event makes a toast exactly when it is not a resolution, its
    severity is warning or critical, and every earlier toast for the same rule and instance is five minutes
    old or more at the check. *)
Theorem toasts_exact (l : list handled) i event checked fired :
  clock_forward l -> l !! i = Some (event, checked, fired) ->
  (exists n, (notify_all l).2 !! i = Some (Some n)) <->
  eligible event = true /\
  forall j t, (j < i)%nat -> toast l j (notifCooldownKey event) t -> 5 * Minute <= time_Sub checked t.
Proof.
  intros Hc Hi. apply lookup_lt_Some in Hi as Hlt.
  pose proof (list_elem_of_split_length l i _ Hi) as (l1 & l2 & -> & ->).
  rewrite cons_middle, app_assoc in Hc |- *.
  assert (Hc1 : clock_forward (l1 ++ [(event, checked, fired)])).
  { intros a b y z Hab Ha Hb. apply (Hc a b); [done|by apply lookup_app_l_Some..]. }
  assert (N : notified l1).
  { apply notified_all. intros a b y z Hab Ha Hb. apply (Hc1 a b); [done|by apply lookup_app_l_Some..]. }
  assert (Hpre : forall j key t, (j < length l1)%nat ->
    toast ((l1 ++ [(event, checked, fired)]) ++ l2) j key t <-> toast l1 j key t).
  { intros j key t Hj. unfold toast. rewrite <- app_assoc in Hc |- *.
    rewrite (notify_prefix l1 _ j Hj Hc), lookup_app_l by done. done. }
  rewrite notify_prefix by (try done; rewrite length_app; cbn; lia).
  destruct (notify_out l1 event checked fired) as (n & Ho & Hn & _). rewrite notify_snoc, Ho.
  rewrite list_lookup_middle by (by rewrite (nt_len _ N)).
  transitivity (shouldNotify checked (notify_all l1).1 event = true).
  { destruct n as [n|], (shouldNotify _ _ _); naive_solver. }
  rewrite (shouldNotify_eligible _ _ _ (nt_severity _ N)), (nt_cooldown _ N). apply and_iff_compat_l. split.
  - intros H j t Hj Ht. apply (Hpre _ _ _ Hj) in Ht. destruct (nt_latest _ N j _ t Ht) as (t' & Hl & Hle).
    specialize (H t' Hl). unfold defaultNotifCooldown, time_Sub in *. lia.
  - intros H t Ht. destruct (nt_last _ N _ t Ht) as [j Hj].
    assert (Hjl : (j < length l1)%nat) by (destruct Hj as (? & ? & ? & Hj & _); by apply lookup_lt_Some in Hj).
    apply (H j t); [done|]. by apply Hpre.
Qed.

Definition demo_alert (severity : Severity) : AlertEvent :=
  mkAlertEvent 1 "cpu" "CPU" "pg1" severity f1 f1 OpGreater "m" ∅ [] 0 None false [].

(** A toast, one that comes too early and one after the cooldown. *)
Definition demo_events : list handled :=
  [(demo_alert SeverityWarning, 0, 0); (demo_alert SeverityCritical, Minute, Minute);
   (demo_alert SeverityWarning, 5 * Minute, 5 * Minute)].

Lemma toasts_exact_witness :
  map (fun n => match n with Some _ => true | None => false end) (notify_all demo_events).2 = [true; false; true]
  /\ forall j t, (j < 2)%nat -> toast demo_events j "cpu:pg1" t -> 5 * Minute <= time_Sub (5 * Minute) t.
Proof.
  split; [vm_compute; reflexivity|].
  apply (toasts_exact demo_events 2 (demo_alert SeverityWarning) (5 * Minute) (5 * Minute)).
  - intros [|[|[|i]]] [|[|[|j]]] x y Hij Hi Hj; try lia;
      vm_compute in Hi, Hj; try discriminate Hj; inversion Hi; inversion Hj; vm_compute; discriminate.
  - reflexivity.
  - eexists. vm_compute. reflexivity.
Defined.

(** Two handlers of one alert that both pass the check before one of them makes its toast show it twice, at
    the same time: the cooldown holds only for handlers that do not overlap. *)
Theorem overlapping_toasts s event now h1 h2 : h1 <> h2 -> shouldNotify now (hs_notifier s) event = true ->
  exists n1 n2, hs_sent (foldl handler_step s [HCheck h1 event now; HCheck h2 event now; HFire h1 now; HFire h2 now])
                = hs_sent s ++ [(now, event, n1); (now, event, n2)].
Proof.
  intros Hh Hs. cbn [foldl handler_step hs_notifier hs_passed hs_sent]. rewrite Hs.
  cbn [handler_step hs_notifier hs_passed hs_sent]. rewrite Hs. cbn [handler_step hs_notifier hs_passed hs_sent].
  rewrite lookup_insert_ne, lookup_insert_eq by done. cbn [fire handler_step hs_passed].
  rewrite lookup_delete_ne, lookup_insert_eq by done. cbn [fire hs_sent]. rewrite <- app_assoc. by eexists _, _.
Qed.

(** However the handlers interleave, no two toasts have the same identifier. *)
Theorem toast_ids_distinct (l : list handlerStep) : len l <= max_i64 ->
  NoDup (map (fun x => no_ID x.2) (hs_sent (foldl handler_step (mkHandlers NewAlertNotifier ∅ []) l))).
Proof.
  intros Hl. set (s0 := mkHandlers _ _ _).
  assert (H : forall l, len l <= max_i64 -> let s := foldl handler_step s0 l in
    an_seqID (hs_notifier s) = len (hs_sent s) /\ len (hs_sent s) <= len l
    /\ forall i x, hs_sent s !! i = Some x -> no_ID x.2 = "pgpulse-alert-" +:+ pretty (Z.of_nat i + 1)).
  { clear l Hl. induction l as [|st l IH] using rev_ind; intros Hl s; [by split_and!|].
    assert (Hll : len (l ++ [st]) = len l + 1) by (unfold len; rewrite length_app; cbn [length]; lia).
    destruct IH as (I1 & I2 & I3); [lia|]. subst s. rewrite foldl_app, Hll in *. cbn [foldl]. revert I1 I2 I3.
    generalize (foldl handler_step s0 l). intros s I1 I2 I3. destruct st as [h event now|h now]; cbn [handler_step].
    - destruct (shouldNotify _ _ _); cbn [hs_notifier hs_sent]; (split_and!; [done|lia|done]).
    - destruct (hs_passed s !! h) as [event|]; [|split_and!; [done|lia|done]].
      cbn [fire hs_notifier hs_sent an_seqID]. unfold len in *. rewrite !length_app. cbn [length].
      rewrite I1, i64_id by (unfold in_i64, min_i64, max_i64 in *; lia). split_and!; [lia..|].
      intros i x Hi. apply lookup_app_Some in Hi as [Hi|[Hge Hi]]; [by apply I3|].
      apply list_lookup_singleton_Some in Hi as [Hz <-]. cbn [snd no_ID]. do 2 f_equal. lia. }
  destruct (H l Hl) as (_ & _ & H3). apply NoDup_alt. intros i j y Hi Hj.
  apply list_lookup_fmap_Some in Hi as (x & -> & Hi), Hj as (z & Hz & Hj). rewrite (H3 i x Hi), (H3 j z Hj) in Hz.
  apply (inj (String.append _)), (inj pretty) in Hz. lia.
Qed.

(** ** Theorems on the settings and the dialog *)

(** Every call on the settings succeeds. *)
Definition settings_work (sd : SettingsDir) : Prop :=
  (exists dir, sd_UserConfigDir sd = Ok dir) /\ sd_ReadFile sd = None /\ sd_MkdirAll sd = None /\ sd_WriteFile sd = None.

Lemma settings_text_read json_error p : utf8_valid p = true ->
  Unmarshal json_error (decode_struct settings_fields) (mkSettings "") (print_indent "" (settings_json (mkSettings p)))
  = Ok (mkSettings p).
Proof.
  intros Hp. unfold Unmarshal. rewrite <- (str_app_nil (print_indent _ _)).
  assert (Hs : numbers_ok (settings_json (mkSettings p)) = true
               /\ Z.of_nat (json_depth (settings_json (mkSettings p))) <= maxNestingDepth).
  { unfold settings_json. destruct (String.eqb _ ""); done. }
  rewrite parse_indented by (done || apply Hs). unfold settings_json. cbn [as_LastConfigPath].
  destruct (String.eqb_spec p "") as [->|_]; [done|].
  cbn [coerce_json map fst snd]. by rewrite (coerce_valid p Hp).
Qed.

(** What is saved is loaded. *)
Theorem settings_roundtrip json_error s sd : settings_work sd -> utf8_valid (as_LastConfigPath s) = true ->
  (SaveSettings s sd).2 = None /\ LoadSettings json_error (SaveSettings s sd).1 = Ok s.
Proof.
  destruct s as [p]. intros ((dir & Hd) & Hr & Hm & Hw) Hp. unfold SaveSettings. rewrite Hd, Hm, Hw. split; [done|].
  unfold LoadSettings. cbn [fst sd_UserConfigDir sd_file sd_ReadFile]. rewrite ?Hd, ?Hr. by apply settings_text_read.
Qed.

(** What the script of the page reads where the path stands between double quotes: a backslash is dropped
    before a character that makes no escape, and the short escapes stand for control characters. Texts
    whose literal ends early, and escapes by digits, x or u, are left out. *)
Definition js_escape (c : Ascii.ascii) : option Ascii.ascii :=
  let ctrl n := Some (Ascii.ascii_of_N n) in
  let z := byte_Z c in
  if z =? 98 then ctrl 8%N else if z =? 116 then ctrl 9%N else if z =? 110 then ctrl 10%N
  else if z =? 118 then ctrl 11%N else if z =? 102 then ctrl 12%N else if z =? 114 then ctrl 13%N
  else if is_digit c || (z =? 120) || (z =? 117) || (z =? 10) || (z =? 13) || (128 <=? z) then None else Some c.

Fixpoint js_value (s : string) : option string :=
  match s with
  | EmptyString => Some EmptyString
  | String c s' =>
      if Ascii.eqb c dquote || (byte_Z c =? 10) || (byte_Z c =? 13) then None
      else if Ascii.eqb c backslash then
        match s' with
        | EmptyString => None
        | String d s'' => match js_escape d, js_value s'' with Some e, Some t => Some (String e t) | _, _ => None end
        end
      else match js_value s' with Some t => Some (String c t) | None => None end
  end.

(** The card of the last path: it sends what the script holds. *)
Definition click_last (last : string) : list dialogCall :=
  match js_value last with
  | Some "" => []
  | Some path => [UseLastConfig path]
  | None => []
  end.

Lemma js_value_length n : forall s t, (String.length s <= n)%nat -> js_value s = Some t ->
  (String.length t <= String.length s)%nat
  /\ (char_free backslash s = false -> (String.length t < String.length s)%nat)
  /\ (char_free backslash s = true -> t = s).
Proof.
  induction n as [|n IH]; intros [|c s] t Hn; cbn [String.length] in Hn; try lia; cbn [js_value char_free];
    try (intros [= <-]; done).
  destruct (_ || _); [done|]. destruct (Ascii.eqb_spec c backslash) as [->|Hc].
  - destruct s as [|d s]; [done|]. cbn [String.length] in Hn. destruct (js_escape d) as [e|]; [|done].
    destruct (js_value s) as [u|] eqn:E; [|done]. intros [= <-].
    destruct (IH s u) as (H1 & _); [lia|done|]. cbn [String.length negb andb]. split_and!; [lia|lia|done].
  - destruct (js_value s) as [u|] eqn:E; [|done]. intros [= <-].
    destruct (IH s u) as (H1 & H2 & H3); [lia|done|]. cbn [String.length negb andb]. split_and!; [lia| |].
    + intros H. specialize (H2 H). lia.
    + intros H. by rewrite (H3 H).
Qed.

(** The path of a configuration that was chosen in the dialog is offered at the next start, and the card of
    the last path leads back to it exactly when it holds no backslash: with one, as every path has on
    Windows, another path is returned, and it replaces the one that was saved. *)
Theorem last_config_reopened json_error dk join sd sd1 configPath p q :
  settings_work sd -> utf8_valid p = true -> utf8_valid q = true ->
  sd1 = (SaveSettings (mkSettings p) sd).1 ->
  dk_exists dk configPath = false -> dk_user dk = click_last -> js_value p = Some q -> q <> "" ->
  let r := ResolveConfigDesktop json_error dk join sd1 configPath in
  r.2 = Ok q /\ LoadSettings json_error r.1.1 = Ok (mkSettings q)
  /\ (q = p <-> char_free backslash p = true).
Proof.
  intros Hw Hp Hq -> He Hu Hj Hne. destruct (settings_roundtrip json_error (mkSettings p) sd Hw Hp) as [_ Hl].
  unfold ResolveConfigDesktop. rewrite He, Hl, Hu. cbn [as_LastConfigPath]. unfold click_last. rewrite Hj.
  destruct q as [|c q']; [done|]. set (q := String c q') in *. cbn [ShowConfigDialog omap list_omap dialog_send].
  cbn [dr_Mode dr_ConfigPath String.eqb]. split; [done|]. split.
  - cbn [fst]. apply (settings_roundtrip json_error (mkSettings q)); [|done].
    destruct Hw as ((dir & Hd) & Hr & Hm & Hwr). unfold SaveSettings. rewrite Hd, Hm, Hwr. split_and!; [by exists dir|done..].
  - destruct (js_value_length _ p q (le_n _) Hj) as (_ & H1 & H2). destruct (char_free backslash p); [naive_solver|].
    split; [|done]. intros Heq. specialize (H1 eq_refl). rewrite Heq in H1. lia.
Qed.

(** ["C:\pg.yml"], as the settings dialog of Windows gives it. *)
Definition windows_path : string := "C:" +:+ String backslash "pg.yml".

Definition demo_dir : SettingsDir := mkSettingsDir (Ok "/home/u/.config") None None None None.
Definition demo_desk : Desk := mkDesk (fun _ => false) click_last None (Ok "/tmp/pgpulse-1") None.
Definition demo_join (a b : string) : string := a +:+ "/" +:+ b.

Lemma last_config_reopened_witness :
  let sd1 := (SaveSettings (mkSettings windows_path) demo_dir).1 in
  let r := ResolveConfigDesktop (fun e => e) demo_desk demo_join sd1 "pgpulse.yml" in
  r.2 = Ok "C:pg.yml" /\ LoadSettings (fun e => e) r.1.1 = Ok (mkSettings "C:pg.yml") /\ "C:pg.yml" <> windows_path.
Proof.
  destruct (last_config_reopened (fun e => e) demo_desk demo_join demo_dir (SaveSettings (mkSettings windows_path) demo_dir).1 "pgpulse.yml" windows_path "C:pg.yml")
    as (H1 & H2 & H3); try reflexivity; try discriminate.
  - split_and!; [by exists "/home/u/.config"|reflexivity..].
  - split; [exact H1|]. split; [exact H2|]. discriminate.
Defined.

(** The text up to the quote that ends a double-quoted scalar of YAML on one line, and what follows; only the
    escapes of the backslash and of the quote are read. *)
Fixpoint yaml_scalar (s : string) : option (string * string) :=
  match s with
  | EmptyString => None
  | String c s' =>
      if Ascii.eqb c dquote then Some (EmptyString, s')
      else if Ascii.eqb c backslash then
        match s' with
        | String d s'' =>
            if Ascii.eqb d backslash || Ascii.eqb d dquote
            then match yaml_scalar s'' with Some (a, r) => Some (String d a, r) | None => None end
            else None
        | EmptyString => None
        end
      else match yaml_scalar s' with Some (a, r) => Some (String c a, r) | None => None end
  end.

(** The configuration of a quick connection holds the DSN up to its first double quote: a DSN without one is
    read back as it was given; after one, the rest of the DSN stands in the file as YAML of its own. *)
Theorem quick_dsn_read (dsn rest : string) :
  yaml_scalar (double_backslash dsn +:+ String dquote rest)
  = match cut dquote dsn with
    | None => Some (dsn, rest)
    | Some (a, b) => Some (a, double_backslash b +:+ String dquote rest)
    end.
Proof.
  induction dsn as [|c dsn IH]; [done|]. cbn [double_backslash cut].
  destruct (Ascii.eqb_spec c backslash) as [->|Hb].
  - rewrite !str_app_cons. cbn [yaml_scalar]. rewrite IH. cbn. destruct (cut dquote dsn) as [[a b]|]; done.
  - rewrite str_app_cons. cbn [yaml_scalar]. destruct (Ascii.eqb_spec c dquote) as [->|Hq]; [done|].
    destruct (Ascii.eqb_spec c backslash); [done|]. rewrite IH. by destruct (cut dquote dsn) as [[a b]|].
Qed.

(** Dialog, page, tray and a start by quick connection. *)
Example desktop_values :
  dialog_page "<p class='{{LAST_CLASS}}'>{{LAST_CONFIG_PATH}}</p>" "" = "<p class='disabled'></p>"
  /\ dialog_page "<p class='{{LAST_CLASS}}'>{{LAST_CONFIG_PATH}}</p>" "a.yml" = "<p class=''>a.yml</p>"
  /\ ShowConfigDialog [OpenFilePicker (Ok ""); SubmitDSN "host=a"; Cancel] None = (mkDialogResult "quickconnect" "" "host=a", None)
  /\ (ShowConfigDialog [] (Some "no display")).2 = Some "no display"
  /\ st_tooltip (trayStatusLoop 3 NewSystemTray) = "PGPulse — 0 instance(s), 0 alert(s)"
  /\ (ResolveConfigDesktop (fun e => e) (mkDesk (fun _ => false) (fun _ => [SubmitDSN "host=a"]) None (Ok "/tmp/p") None)
        demo_join demo_dir "pgpulse.yml").2 = Ok "/tmp/p/pgpulse.yml".
Proof. vm_compute. repeat split. Qed.
